(* ===== verification/_CoqProject ===== *)
-Q . S2P
Prelude.v
PyStr.v
PySort.v
PyVal.v
PyFloat.v
Json.v
JsonLoads.v
Sha256.v
Contracts.v
Policies.v
TopicMatch.v
Codec.v
Redis.v
RedisProg.v
Async.v
StatusStore.v
Transport.v
StatusHub.v
ContractStore.v
LeaseStore.v
PyTime.v
DlqModels.v
DlqStore.v
Effects.v
ConsumerContext.v
DlqService.v
TaskConsumer.v
ConsumerDemo.v
TaskConsumerSpec.v
AggregationConsumer.v
TopologyBase.v
SharedTopology.v
WorkflowTopology.v
ExecutionGraph.v
ExecutionGraphSpec.v
Mermaid.v
RabbitClient.v
EventFeed.v
ObservationStore.v
StatusStream.v
Interleave.v
Calls.v
PyRe.v
StudioErrors.v
StudioTime.v
PyUrl.v
Auth.v
AuthSpec.v
AuthStores.v
AuthDemo.v
Registry.v
RegistrySpec.v
StudioEvents.v
Search.v
InvertedIndex.v
SearchSpec.v
StudioIngest.v
StudioIngestSpec.v
PgTables.v
PgRegistry.v
PgEvents.v
PgHistory.v
OutboxSpec.v
PgEventsSpec.v
Health.v
Backpressure.v
Notifications.v
NotificationsSpec.v
Reliability.v
ReliabilitySpec.v
Availability.v
TracePath.v
Federation.v
FederationSpec.v
Incidents.v
IncidentsSpec.v
Recovery.v
RecoverySpec.v
WorkflowConsumer.v
WorkflowConsumerSpec.v
