(* ===== verification/Prelude.v ===== *)
(** * Relayna: verification development

    Relayna is a Python library for task queues over RabbitMQ and Redis, with a
    backend, Studio, that watches and controls the services built on it.  This
    development models the code under [src/src/relayna] (paths below are relative
    to it) and [src/studio/backend/src/relayna_studio] (written studio/) as
    executable definitions, and proves what they promise.

    ** The program and its model

    A client publishes tasks, status events and workflow messages
    ([rabbitmq/client.py]) on the queues and exchanges of a topology
    ([topology/]).  Consumers take deliveries, run a handler and settle each
    delivery by an acknowledgement, a rejection, a retry or a dead letter
    ([consumer/]); they keep leases and deduplication keys in Redis ([storage/]),
    report statuses, and persist dead letters ([dlq/]).  The status hub writes the
    statuses into histories, which streams, execution graphs and the service event
    feed read ([status/], [observability/]).  Studio keeps a registry of services,
    pulls their feeds, indexes their tasks, merges their failed tasks into one
  listing, groups failures into incidents, retries them by authorised plans, and
    emails failures and alerts.  Its tables are in Redis or in PostgreSQL.

    Ground: [Prelude] (exceptions, results, shared lemmas), [PyStr], [PyVal],
    [PySort], [PyFloat], [PyTime], [PyRe], [PyUrl], [Json], [JsonLoads], [Sha256] (the parts of
    Python and its standard library that the code uses, on code points below 256),
    [Codec] (pydantic's JSON models: a class with its round-trip law), [Transport]
    (the body codec, base64), [Redis] (the commands as a class with laws over a key
    space, and the key space as an instance), [RedisProg] (operations of several
    awaited calls, any of which can be refused or unanswered), [Effects] (consumer
    coroutines as trees of effects that the surroundings answer), [Interleave]
    (any number of programs over shared tables, one effect at a time, any of them
    lost at any point), [Calls] (such programs made of calls of servers), [Async] ([_async.py]: [map_bounded]
    and the consume loop [run_bounded_iterator] over all interleavings).

    Tasks: [Contracts] (contracts/), [Policies] (policies/retry.py), [TopicMatch]
    (both implementations of topic binding), [ConsumerContext]
    (consumer/context.py), [TaskConsumer], [TaskConsumerSpec], [AggregationConsumer]
    (consumer/task_consumer.py), [WorkflowConsumer], [WorkflowConsumerSpec]
    (consumer/workflow_consumer.py), [ConsumerDemo] (concrete surroundings for the
    witnesses), [TopologyBase], [SharedTopology], [WorkflowTopology] (topology/),
    [RabbitClient] (rabbitmq/client.py).

    Stores: [StatusStore], [StatusHub], [StatusStream] (status/), [ContractStore],
    [LeaseStore] (storage/), [DlqModels], [DlqStore], [DlqService] (dlq/),
    [EventFeed], [ObservationStore], [ExecutionGraph], [ExecutionGraphSpec], [Mermaid],
    [Backpressure] (observability/).

    Studio: [StudioErrors], [StudioTime], [Auth], [AuthSpec], [AuthStores],
    [AuthDemo] (studio/auth.py, and the members of studio/database.py), [Registry],
    [RegistrySpec] (studio/registry.py), [StudioEvents], [StudioIngest], [StudioIngestSpec]
    (studio/events.py), [Search], [InvertedIndex], [SearchSpec] (studio/search.py),
    [Federation], [FederationSpec] (studio/federation.py), [Incidents],
    [IncidentsSpec] (studio/_incident_*.py), [Recovery], [RecoverySpec]
    (studio/_recovery.py), [Notifications], [NotificationsSpec]
    (studio/failed_task_notifications.py), [Reliability], [ReliabilitySpec]
    (studio/_reliability.py), [Health] (studio/health.py), [Availability]
    (studio/_provider_availability.py), [TracePath] (studio/traces.py).  PostgreSQL
    (studio/database.py): [PgTables] (the tables, transactions as functions that change
    them or raise, pages by position), [PgRegistry] (the registry), [PgEvents] (events,
    projections, the outbox, the search), [PgHistory] (any sequence of operations),
    [OutboxSpec], [PgEventsSpec] (what holds after it).

    A definition keeps the name of the function it models where Rocq allows it; the
    comment above it names the function and its lines.  A method of a store is a
    function of the server state or a program over it, with the time as an
    argument; a dict is an insertion-ordered association list ([PyVal]) or a finite
    map where its order is not observed; a timestamp is an integer of microseconds;
    what raises returns [result].

    ** What the theorems show

    - Settlement: each delivery of a task, of a batch, of an aggregation event and
      of a workflow message is settled at most once, acknowledged only after what
      it leads to was published, and retried at most as often as the policy says,
      whatever the broker, Redis and the handler answer ([settles_once],
      [ack_justified], [failed_task_outcome], [retries_bounded],
      [aggregation_delivery], [workflow_delivery]).
    - Stores: the status history holds an event once and a success means that it is
      stored, under any fault; it refines a bounded log; deduplication refines sets
      of taken keys; a lease has one holder; a dead letter is replayed once and as
      it was; paging visits every record once.  Some of these are lemmas beside the properties.
    - Concurrency: whatever the order of events, [map_bounded] gives its results in
      order or a failure of one item, and the consume loop keeps its bound, loses no
      item and ends after a stop ([map_bounded_correct], [consume_loop_correct]).
    - Contracts and topologies: aliases round-trip; both topic matchers decide the
      AMQP relation; a validated topology is closed; what is published is accepted
      by the stage that receives it.
    - Observation: hub writes keep the order of arrival; a stream misses no event;
      graphs are well formed and their construction is total; the feed is a bounded
      log of distinct events; a snapshot of the runtime's pressure always comes and
      leaves out no queue, worker or collector with a problem ([pressure_is_reported]).
    - PostgreSQL: the registry refines the same map as in Redis ([pg_registry_refines],
      against [RegistrySpec]'s specification); the projections follow it; every stored
      event is announced by the outbox, and listings by position are complete, after any
      history of operations ([projections_follow_registry], [outbox_delivers],
      [pg_listing_is_complete]).
    - Studio: the registry refines a map without shared URLs; the search index
      answers as a scan of its documents; a synchronisation records every event of
      a feed (composed with [EventFeed]); the merged listing of failed tasks visits
      every one; merges and splits of incidents move what they say and never form a
      cycle; over every interleaving a retry is requested once, within what the
      operators allowed; a failure is put into one notification email
      ([emailed_once]); a session comes from a verified login of its own, a request
      that changes something from an active administrator, and an administrator
      remains ([sessions_come_from_logins], [requests_are_authorised],
      [administrator_remains]); an alert is emailed once per episode
      ([alerts_emailed_once]); a service is shown as healthy exactly on recent evidence
      ([healthy_is_evidenced]); the gate before a provider keeps its bounds and its
      pauses over every interleaving ([gates_bounded], [pause_holds]); a trace path
      loses no evidence ([trace_path_keeps_evidence]).
    - Lemmas named as findings in the manifest run a concrete input through the
      definitions and show where the code does not do what it means to.

    ** Fuel and bounds

    [Incidents.resolve_from] follows merges with one step per incident plus one,
    which [IncidentsSpec.resolve_total] shows to be enough; [Federation.merge_pages] takes at
    most the limit and the offset asked for; [JsonLoads.value] has one step per
    character, more than its nesting; [PyRe] matches with the length of the text;
    [PyTime] and [PyUrl] recurse on their text.  [FederationSpec.walk] and
    [EventFeed.read_feed] have a step per remaining item, [StudioIngest.pull_pages]
    is bounded by the code's own page limit; [Notifications.list_unreviewed] needs more
    steps than the listing has cursors ([NotificationsSpec.listed_enough]);
    [PgEventsSpec.read_pages] has one step per event and one more.  Integers are Python's, unbounded; SHA-256
    wraps its words at 32 bits.

    ** Parameters

    Third-party code enters as classes with its documented behaviour: [RedisLaws],
    [JsonModelLaws], [Transport], [Pydantic], [Collation] (the order of PostgreSQL's
    texts), the order in which a jsonb column returns its keys, the answers of effects.  Each has an
    instance, and each theorem that assumes laws has a witness at the instance.

    ** Not modelled

    The loops that reconnect ([run_forever] of consumers, hub and workers; the
    iteration within is [Async.run_bounded_iterator]) and the HTTP, FastAPI and MCP layers, which only forward; Prometheus
    metrics and OpenTelemetry spans, which do not feed back; of studio/database.py the
    repositories of notifications, load profiles and audit pages; the clients of
    Prometheus and Loki and the HTTP side of Tempo's; the load tests, the cockpit, the
    chambers and the application of Studio; benchmarks and scripts.  Of the modelled
    files, the parts left out are named in the manifest's notes.  Code points above 255,
    clocks that run backwards and Redis evictions are outside the model. *)

From stdpp Require Export base tactics list gmap strings pretty sorting.
From Stdlib Require Export ZArith Lia.

#[global] Open Scope Z_scope.

(** ** Exceptions and results *)

(** The exception classes the code raises or tests for.  [XUser] stands for
    any other subclass of [Exception]: its class is only observed through
    [type(exc).__name__]. *)
Inductive exn_kind :=
| XCancelled          (* asyncio.CancelledError: a BaseException *)
| XStopAsyncIteration
| XTimeout            (* TimeoutError *)
| XValueError
| XValidationError    (* pydantic.ValidationError: a ValueError *)
| XContractError      (* WorkflowContractError: a ValueError *)
| XTypeError
| XOverflowError
| XKeyError
| XAttributeError
| XRuntimeError
| XReplayConflict     (* DLQReplayConflict: a RuntimeError *)
| XRetryRejected      (* FailedTaskRetryRejected: a RuntimeError *)
| XManualRetry        (* _ManualRetryRequested *)
| XUser.

(** An exception instance: its class, [type(exc).__name__] and [str(exc)]. *)
Record exn := Exn { exn_class : exn_kind; exn_type : string; exn_text : string }.

Definition value_error (text : string) : exn := Exn XValueError "ValueError" text.
Definition type_error (text : string) : exn := Exn XTypeError "TypeError" text.
Definition key_error (text : string) : exn := Exn XKeyError "KeyError" text.
Definition runtime_error (text : string) : exn := Exn XRuntimeError "RuntimeError" text.
Definition overflow_error (text : string) : exn := Exn XOverflowError "OverflowError" text.

(** [except Exception]: everything but [asyncio.CancelledError]. *)
Definition is_exception (e : exn) : bool :=
  match exn_class e with XCancelled => false | _ => true end.

(** [except ValueError], subclasses included. *)
Definition is_value_error (e : exn) : bool :=
  match exn_class e with
  | XValueError | XValidationError | XContractError => true
  | _ => false
  end.

(** A Python computation that returns or raises. *)
Inductive result (A : Type) :=
| Ok (a : A)
| Raise (e : exn).
Arguments Ok {A} a.
Arguments Raise {A} e.

#[export] Instance result_ret : MRet result := @Ok.
#[export] Instance result_bind : MBind result := fun A B f m =>
  match m with Ok a => f a | Raise e => Raise e end.
#[export] Instance result_fmap : FMap result := fun A B f m =>
  match m with Ok a => Ok (f a) | Raise e => Raise e end.

Definition is_ok {A} (r : result A) : bool :=
  match r with Ok _ => true | Raise _ => false end.

(** [for x in l: out.append(f(x))], stopping at the first exception. *)
Fixpoint mapM_result {A B} (f : A -> result B) (l : list A) : result (list B) :=
  match l with
  | [] => Ok []
  | x :: l' => y ← f x; ys ← mapM_result f l'; Ok (y :: ys)
  end.

(** [any(p(x) for x in l)] and [next((x for x in l if p(x)), None)]. *)
Fixpoint find_first {A} (p : A -> bool) (l : list A) : option A :=
  match l with
  | [] => None
  | x :: l' => if p x then Some x else find_first p l'
  end.

Definition from_opt {A} (d : A) (o : option A) : A :=
  match o with Some a => a | None => d end.

#[export] Instance exn_kind_eq_dec : EqDecision exn_kind.
Proof. solve_decision. Defined.
#[export] Instance exn_eq_dec : EqDecision exn.
Proof. solve_decision. Defined.
#[export] Instance result_eq_dec {A} `{EqDecision A} : EqDecision (result A).
Proof. solve_decision. Defined.

(** ** Automation *)

Create HintDb relayna.

(** Case analysis on the innermost match or test of the goal or of a
    hypothesis, keeping the equation. *)
Ltac case_goal :=
  match goal with
  | |- context [match ?x with _ => _ end] =>
      lazymatch x with
      | context [match _ with _ => _ end] => fail
      | _ => let E := fresh "E" in destruct x eqn:E
      end
  end.

Ltac case_hyp H :=
  match type of H with
  | context [match ?x with _ => _ end] =>
      lazymatch x with
      | context [match _ with _ => _ end] => fail
      | _ => let E := fresh "E" in destruct x eqn:E
      end
  end.

(** Turn the boolean tests of the source into propositions. *)
Ltac bool_to_prop :=
  repeat match goal with
  | H : (_ && _)%bool = true |- _ => apply andb_true_iff in H as [? ?]
  | H : (_ || _)%bool = false |- _ => apply orb_false_iff in H as [? ?]
  | H : negb _ = false |- _ => apply negb_false_iff in H
  | H : (_ <? _) = true |- _ => apply Z.ltb_lt in H
  | H : (_ <? _) = false |- _ => apply Z.ltb_ge in H
  | H : (_ <=? _) = true |- _ => apply Z.leb_le in H
  | H : (_ <=? _) = false |- _ => apply Z.leb_gt in H
  | H : (_ =? _) = true |- _ => apply Z.eqb_eq in H
  | H : negb _ = true |- _ => apply negb_true_iff in H
  | H : (_ =? _) = false |- _ => apply Z.eqb_neq in H
  | H : String.eqb _ _ = true |- _ => apply String.eqb_eq in H
  | H : String.eqb _ _ = false |- _ => apply String.eqb_neq in H
  | H : bool_decide _ = true |- _ => apply bool_decide_eq_true in H
  | H : bool_decide _ = false |- _ => apply bool_decide_eq_false in H
  end.

(** ** Generic lemmas *)

Lemma result_bind_ok {A B} (m : result A) (f : A -> result B) b :
  m ≫= f = Ok b <-> exists a, m = Ok a /\ f a = Ok b.
Proof. destruct m as [a|e]; cbn; naive_solver. Qed.

Lemma result_bind_raise {A B} (m : result A) (f : A -> result B) e :
  m ≫= f = Raise e -> m = Raise e \/ exists a, m = Ok a /\ f a = Raise e.
Proof. destruct m as [a|e']; cbn; naive_solver. Qed.

Lemma mapM_result_ok {A B} (f : A -> result B) l k :
  mapM_result f l = Ok k <-> Forall2 (fun x y => f x = Ok y) l k.
Proof.
  revert k; induction l as [|x l IH]; intros k; cbn.
  - split; [intros [= <-]; constructor | inversion 1; done].
  - rewrite result_bind_ok. split.
    + intros (y & Hy & (ys & Hys & [= <-])%result_bind_ok).
      constructor; [done | by apply IH].
    + inversion 1 as [|? y ? ys Hy Hys]; subst.
      exists y; split; [done|]. apply result_bind_ok. exists ys. by rewrite IH.
Qed.

Lemma mapM_result_raise {A B} (f : A -> result B) l e :
  mapM_result f l = Raise e -> exists x, x ∈ l /\ f x = Raise e.
Proof.
  induction l as [|x l IH]; cbn; [done|].
  intros [H|(y & _ & [H|(ys & _ & H)]%result_bind_raise)]%result_bind_raise; [|..|done].
  - exists x. split; [left|done].
  - destruct (IH H) as (z & Hz & Hf). exists z. split; [by right|done].
Qed.

Lemma mapM_result_app {A B} (f : A -> result B) a b y z :
  mapM_result f a = Ok y -> mapM_result f b = Ok z -> mapM_result f (a ++ b) = Ok (y ++ z).
Proof.
  revert y. induction a as [|x a IH]; intros y Ha Hb; cbn in *; [by injection Ha as <-|].
  apply result_bind_ok in Ha as (u & Hu & Ha). apply result_bind_ok in Ha as (us & Hus & [= <-]).
  rewrite Hu. cbn. by rewrite (IH us).
Qed.

Lemma mapM_result_take {A B} (f : A -> result B) k b y :
  mapM_result f b = Ok y -> mapM_result f (take k b) = Ok (take k y).
Proof.
  revert b y. induction k as [|k IH]; intros b y Hb; [by destruct y|].
  destruct b as [|x b]; cbn in Hb; [injection Hb as <-; done|].
  apply result_bind_ok in Hb as (u & Hu & Hb). apply result_bind_ok in Hb as (us & Hus & [= <-]).
  cbn. rewrite Hu. cbn. by rewrite (IH _ _ Hus).
Qed.

Lemma mapM_result_drop {A B} (f : A -> result B) k b y :
  mapM_result f b = Ok y -> mapM_result f (drop k b) = Ok (drop k y).
Proof.
  revert b y. induction k as [|k IH]; intros b y Hb; [done|].
  destruct b as [|x b]; cbn in Hb; [injection Hb as <-; done|].
  apply result_bind_ok in Hb as (u & Hu & Hb). apply result_bind_ok in Hb as (us & Hus & [= <-]).
  by apply IH.
Qed.

Lemma mapM_result_map {A B C} (f : B -> result C) (g : A -> B) (h : A -> C) l :
  Forall (fun a => f (g a) = Ok (h a)) l -> mapM_result f (map g l) = Ok (map h l).
Proof. induction 1 as [|x l E _ IH]; [done|]. cbn. rewrite E. cbn. by rewrite IH. Qed.

Lemma take_app_take {A} n (a b : list A) : take n (a ++ take n b) = take n (a ++ b).
Proof. rewrite !take_app, take_take. do 2 f_equal. lia. Qed.

Lemma find_first_some {A} (p : A -> bool) l x :
  find_first p l = Some x -> x ∈ l /\ p x = true.
Proof.
  induction l as [|y l IH]; cbn; [done|].
  destruct (p y) eqn:E; [intros [= ->]; split; [left|done]|].
  intros [? ?]%IH; split; [by right|done].
Qed.

Lemma find_first_none {A} (p : A -> bool) l :
  find_first p l = None <-> Forall (fun x => p x = false) l.
Proof.
  induction l as [|y l IH]; cbn; [by split; [constructor|]|].
  rewrite Forall_cons. destruct (p y) eqn:E; naive_solver.
Qed.

Lemma existsb_elem {A} (p : A -> bool) l :
  existsb p l = true <-> exists x, x ∈ l /\ p x = true.
Proof. rewrite existsb_exists. setoid_rewrite list_elem_of_In. done. Qed.

#[export] Hint Resolve find_first_some : relayna.
