(* ===== verification/PyStr.v ===== *)
(** * Python strings

    A Python [str] is a sequence of code points below 256, one [ascii] each;
    [bytes] are the same type.  Case and white space are those of Python on
    that range. *)

From S2P Require Import Prelude.
From Stdlib Require Import Ascii.

Definition code (c : ascii) : Z := Z.of_N (N_of_ascii c).
Definition chr (z : Z) : ascii := ascii_of_N (Z.to_N z).

Definition chars (s : string) : list ascii := String.list_ascii_of_string s.
Definition of_chars (l : list ascii) : string := String.string_of_list_ascii l.

(** [str.isspace] on one code point. *)
Definition is_space (c : ascii) : bool :=
  let z := code c in
  ((9 <=? z) && (z <=? 13)) || ((28 <=? z) && (z <=? 32)) || (z =? 133) || (z =? 160).

Fixpoint drop_space (l : list ascii) : list ascii :=
  match l with
  | [] => []
  | c :: l' => if is_space c then drop_space l' else l
  end.

(** [sub in s]. *)
Definition contains (sub s : string) : bool := match String.index 0 sub s with Some _ => true | None => false end.

(** [str.strip()]. *)
Definition strip (s : string) : string :=
  of_chars (rev (drop_space (rev (drop_space (chars s))))).

(** [str.lower()]. *)
Definition lower_char (c : ascii) : ascii :=
  let z := code c in
  if ((65 <=? z) && (z <=? 90)) || ((192 <=? z) && (z <=? 222) && negb (z =? 215))
  then chr (z + 32) else c.
Definition lower (s : string) : string := of_chars (map lower_char (chars s)).

(** [s.split(sep)] for a one-character separator: never the empty list. *)
Fixpoint split_chars (sep : ascii) (l : list ascii) : list (list ascii) :=
  match l with
  | [] => [[]]
  | c :: l' =>
      if Ascii.eqb c sep then [] :: split_chars sep l'
      else match split_chars sep l' with
           | [] => [[c]]
           | p :: ps => (c :: p) :: ps
           end
  end.
Definition split (sep : ascii) (s : string) : list string :=
  map of_chars (split_chars sep (chars s)).

(** [sep.join(parts)]. *)
Fixpoint join (sep : string) (parts : list string) : string :=
  match parts with
  | [] => ""
  | [p] => p
  | p :: ps => p +:+ sep +:+ join sep ps
  end.

Definition str_in (s : string) (l : list string) : bool :=
  existsb (String.eqb s) l.

(** [str.endswith] and [str.startswith]. *)
Definition startswith (p s : string) : bool := String.prefix p s.
Definition endswith (p s : string) : bool :=
  String.prefix (of_chars (rev (chars p))) (of_chars (rev (chars s))).

(** [sub in s] for a one-character [sub]. *)
Definition has_char (c : ascii) (s : string) : bool := existsb (Ascii.eqb c) (chars s).

(** [s.encode("utf-8")]. *)
Definition utf8_char (c : ascii) : list ascii :=
  let z := code c in
  if z <? 128 then [c] else [chr (192 + z / 64); chr (128 + z mod 64)].
Definition utf8 (s : string) : string := of_chars (flat_map utf8_char (chars s)).

(** Decimal digits, and the digits of an [int()] literal with single
    underscores between digits. *)
Definition digit (c : ascii) : option Z :=
  let z := code c in if (48 <=? z) && (z <=? 57) then Some (z - 48) else None.

Fixpoint parse_digits (acc : Z) (after_digit : bool) (l : list ascii) : option Z :=
  match l with
  | [] => if after_digit then Some acc else None
  | c :: l' =>
      match digit c with
      | Some d => parse_digits (10 * acc + d) true l'
      | None =>
          if Ascii.eqb c "_" then
            if after_digit then parse_digits acc false l' else None
          else None
      end
  end.

(** [int(s)] for a string: [None] where Python raises [ValueError]. *)
Definition parse_int (s : string) : option Z :=
  match chars (strip s) with
  | "+"%char :: l => parse_digits 0 false l
  | "-"%char :: l => Z.opp <$> parse_digits 0 false l
  | l => parse_digits 0 false l
  end.

(** ** Lemmas *)

Lemma chars_of_chars l : chars (of_chars l) = l.
Proof. apply String.list_ascii_of_string_of_list_ascii. Qed.
Lemma of_chars_chars s : of_chars (chars s) = s.
Proof. apply String.string_of_list_ascii_of_string. Qed.

Lemma chars_app a b : chars (a +:+ b) = (chars a ++ chars b)%list.
Proof. unfold chars. induction a as [|c a IH]; [done|]. 
  change (String c a +:+ b) with (String c (a +:+ b)). cbn. by f_equal. Qed.

Lemma drop_space_idem l : drop_space (drop_space l) = drop_space l.
Proof.
  induction l as [|c l IH]; cbn; [done|].
  destruct (is_space c) eqn:E; [done|]. cbn. by rewrite E.
Qed.

Lemma drop_space_suffix l : exists p, l = (p ++ drop_space l)%list.
Proof.
  induction l as [|c l [p IH]]; cbn; [by exists []|].
  destruct (is_space c); [exists (c :: p); cbn; by f_equal | by exists []].
Qed.

Lemma drop_space_fix_head l :
  drop_space l = l <-> (forall c, head l = Some c -> is_space c = false).
Proof.
  split.
  - destruct l as [|c l]; cbn; [done|]. intros H c' [= <-].
    destruct (is_space c) eqn:E; [|done].
    destruct (drop_space_suffix l) as [p Hp]. rewrite H in Hp.
    apply (f_equal length) in Hp. rewrite length_app in Hp. cbn in Hp. lia.
  - destruct l as [|c l]; cbn; [done|]. intros H. by rewrite (H c).
Qed.

Lemma drop_space_rev_head l :
  drop_space l = l -> drop_space (rev (drop_space (rev l))) = rev (drop_space (rev l)).
Proof.
  intros H. apply drop_space_fix_head. intros c Hc.
  destruct (drop_space_suffix (rev l)) as [p Hp].
  apply (f_equal (@rev _)) in Hp. rewrite rev_involutive, rev_app_distr in Hp.
  assert (head l = Some c) as Hl.
  { rewrite Hp. destruct (rev (drop_space (rev l))); [done|]. done. }
  by eapply drop_space_fix_head in H.
Qed.

(** Stripping twice is stripping once. *)
Lemma strip_idem s : strip (strip s) = strip s.
Proof.
  unfold strip. rewrite chars_of_chars.
  rewrite (drop_space_rev_head (drop_space (chars s))) by apply drop_space_idem.
  by rewrite rev_involutive, drop_space_idem.
Qed.

Lemma drop_space_none l : Forall (fun c => is_space c = false) l -> drop_space l = l.
Proof. destruct 1; cbn; [done|]. by rewrite H. Qed.

(** A string without white space is its own [strip()]. *)
Lemma strip_no_space l : Forall (fun c => is_space c = false) l -> strip (of_chars l) = of_chars l.
Proof.
  intros H. unfold strip. rewrite chars_of_chars, (drop_space_none l) by done.
  rewrite drop_space_none by (by apply Forall_rev). by rewrite rev_involutive.
Qed.

Lemma strip_empty : strip "" = "".
Proof. done. Qed.

Lemma join_cons sep p q ps : join sep (p :: q :: ps) = p +:+ sep +:+ join sep (q :: ps).
Proof. done. Qed.

Lemma split_chars_nonempty sep l : split_chars sep l <> [].
Proof.
  destruct l as [|c l]; cbn; [done|]. destruct (Ascii.eqb c sep); [done|].
  by destruct (split_chars sep l).
Qed.

Lemma str_in_elem s l : str_in s l = true <-> s ∈ l.
Proof.
  unfold str_in. rewrite existsb_elem. split.
  - intros (x & Hx & ->%String.eqb_eq); done.
  - intros H. exists s. by rewrite String.eqb_refl.
Qed.

Lemma str_in_not s l : str_in s l = false <-> s ∉ l.
Proof. rewrite <- str_in_elem. by destruct (str_in s l). Qed.

Lemma code_range c : 0 <= code c < 256.
Proof. unfold code. pose proof (N_ascii_bounded c). lia. Qed.

Lemma append_nil_r s : s +:+ "" = s.
Proof.
  induction s as [|c s IH]; [done|].
  change (String c (s +:+ "") = String c s). by rewrite IH.
Qed.

Lemma append_assoc_str a b c : (a +:+ b) +:+ c = a +:+ (b +:+ c).
Proof.
  induction a as [|x a IH]; [done|].
  change (String x ((a +:+ b) +:+ c) = String x (a +:+ (b +:+ c))). by rewrite IH.
Qed.

Lemma append_inj_l a b c : a +:+ b = a +:+ c -> b = c.
Proof.
  induction a as [|x a IH]; [done|].
  change (String x (a +:+ b) = String x (a +:+ c) -> b = c). intros [= H]. auto.
Qed.

#[export] Hint Rewrite strip_idem strip_empty : pystr.

(** ** The code point order of strings *)

Lemma ascii_compare_code a b : Ascii.compare a b = (code a ?= code b).
Proof. unfold Ascii.compare, code. by rewrite N2Z.inj_compare. Qed.

Lemma leb_cons a s b t :
  String.leb (String a s) (String b t) = true <->
  code a < code b \/ (a = b /\ String.leb s t = true).
Proof.
  unfold String.leb; cbn. rewrite ascii_compare_code.
  destruct (Z.compare_spec (code a) (code b)) as [H|H|H].
  - assert (a = b) as ->.
    { rewrite <- (ascii_N_embedding a), <- (ascii_N_embedding b). f_equal.
      unfold code in H. lia. }
    split; [|intros [?|[_ ?]]; [lia|done]]. intros; right; done.
  - split; auto.
  - split; [done|]. intros [?|[-> _]]; lia.
Qed.

Lemma leb_trans_str a b c :
  String.leb a b = true -> String.leb b c = true -> String.leb a c = true.
Proof.
  revert b c; induction a as [|x a IH]; intros [|y b] [|z c]; try done.
  rewrite !leb_cons. intros [?|[-> ?]] [?|[-> ?]]; [left; lia|left; lia|left; lia|].
  right; split; [done|]. eauto.
Qed.

(** ** Numbers read back *)

Lemma digit_pretty n : (n < 10)%N -> digit (pretty_N_char n) = Some (Z.of_N n).
Proof.
  intros H. rewrite <- (N2Nat.id n). assert (N.to_nat n < 10)%nat as Hk by lia.
  revert Hk. generalize (N.to_nat n) as k. intros k Hk. do 10 (destruct k as [|k]; [reflexivity|]). lia.
Qed.

Lemma parse_digits_pretty n s :
  parse_digits 0 false (chars (pretty_N_go n s)) =
  (if decide (n = 0)%N then parse_digits 0 false (chars s) else parse_digits (Z.of_N n) true (chars s)).
Proof.
  revert s. induction (N.lt_wf_0 n) as [n _ IH]; intros s.
  destruct (decide (n = 0)%N) as [->|Hn]; [by rewrite pretty_N_go_0|].
  rewrite pretty_N_go_step by lia. rewrite IH by (apply N.div_lt; lia).
  assert (n = 10 * (n `div` 10) + n `mod` 10)%N as Hdm by apply N.div_mod'.
  pose proof (N.mod_lt n 10 ltac:(lia)) as Hlt. unfold chars. cbn [String.list_ascii_of_string parse_digits].
  rewrite digit_pretty by lia. destruct (decide _) as [E|E]; f_equal; lia.
Qed.

Lemma pretty_no_space n s : Forall (fun c => is_space c = false) (chars s) ->
  Forall (fun c => is_space c = false) (chars (pretty_N_go n s)).
Proof.
  revert s. induction (N.lt_wf_0 n) as [n _ IH]; intros s Hs.
  destruct (decide (n = 0)%N) as [->|Hn]; [by rewrite pretty_N_go_0|].
  rewrite pretty_N_go_step by lia. apply IH; [apply N.div_lt; lia|]. constructor; [|done].
  unfold pretty_N_char. by repeat case_match.
Qed.

Lemma parse_int_pretty z : 0 <= z -> parse_int (pretty z) = Some z.
Proof.
  intros Hz. destruct z as [|p|p]; [done| |lia].
  assert (pretty (Zpos p) = pretty_N_go (Npos p) "") as -> by done.
  pose proof (pretty_no_space (Npos p) "" ltac:(constructor)) as Hns.
  unfold parse_int. rewrite <- (of_chars_chars (pretty_N_go (Npos p) "")) at 1.
  rewrite strip_no_space, chars_of_chars by done.
  pose proof (parse_digits_pretty (Npos p) "") as Hp. rewrite decide_False in Hp by done.
  change (parse_digits (Z.of_N (Npos p)) true (chars "")) with (Some (Zpos p)) in Hp.
  destruct (chars (pretty_N_go (Npos p) "")) as [|c l]; [done|].
  destruct c as [[] [] [] [] [] [] [] []]; exact Hp || discriminate Hp.
Qed.
