(* ===== verification/PySort.v ===== *)
(** * Sorting

    [sorted(l, key=...)]: a stable sort by a total preorder given as the test
    "not after".  Two strings compare by code points. *)

From S2P Require Import Prelude PyStr.
From Stdlib Require Import Sorted.

Section sort.
Context {A : Type} (le : A -> A -> bool).

Fixpoint insert_by (x : A) (l : list A) : list A :=
  match l with
  | [] => [x]
  | y :: l' => if le x y then x :: l else y :: insert_by x l'
  end.

(** [sorted(l)] *)
Fixpoint sort_by (l : list A) : list A :=
  match l with [] => [] | x :: l' => insert_by x (sort_by l') end.

Lemma insert_by_permutation x l : Permutation (insert_by x l) (x :: l).
Proof.
  induction l as [|y l IH]; cbn; [done|]. destruct (le x y); [done|].
  rewrite IH. apply perm_swap.
Qed.

Lemma sort_by_permutation l : Permutation (sort_by l) l.
Proof. induction l as [|x l IH]; cbn; [done|]. by rewrite insert_by_permutation, IH. Qed.

Lemma sort_by_elem x l : x ∈ sort_by l <-> x ∈ l.
Proof. by rewrite sort_by_permutation. Qed.

Hypothesis le_total : forall a b, le a b = true \/ le b a = true.
Hypothesis le_trans : forall a b c, le a b = true -> le b c = true -> le a c = true.

Lemma insert_by_sorted x l : StronglySorted (fun a b => le a b = true) l ->
  StronglySorted (fun a b => le a b = true) (insert_by x l).
Proof.
  induction 1 as [|y l Hl IH Hy]; cbn; [by repeat constructor|].
  destruct (le x y) eqn:E; [constructor; [by constructor|constructor; [done|]]|constructor; [done|]].
  - eapply Forall_impl; [exact Hy|]. intros z Hz. by eapply le_trans.
  - rewrite insert_by_permutation. constructor; [|done]. destruct (le_total x y); congruence.
Qed.

(** The result is in order. *)
Lemma sort_by_sorted l : StronglySorted (fun a b => le a b = true) (sort_by l).
Proof. induction l as [|x l IH]; cbn; [constructor|by apply insert_by_sorted]. Qed.

(** Elements that compare equal keep their order. *)
Lemma sort_by_stable (p : A -> bool) l :
  (forall a b, p a = true -> p b = true -> le a b = true) ->
  List.filter p (sort_by l) = List.filter p l.
Proof.
  intros Hp. assert (forall x l, List.filter p (insert_by x l) =
    (if p x then [x] else []) ++ List.filter p l)%list as Hins.
  { intros x k. induction k as [|y k IH]; cbn; [by destruct (p x)|].
    destruct (le x y) eqn:E; cbn; [by destruct (p x)|]. rewrite IH.
    destruct (p x) eqn:Ex, (p y) eqn:Ey; cbn; try done.
    rewrite (Hp x y) in E by done. done. }
  induction l as [|x l IH]; [done|]. cbn. rewrite Hins, IH. by destruct (p x).
Qed.

(** The last element is a greatest one. *)
Lemma sort_by_last l y : last (sort_by l) = Some y -> forall x, x ∈ l -> le x y = true.
Proof.
  intros Hl x Hx. apply sort_by_elem in Hx. pose proof (sort_by_sorted l) as Hs.
  revert Hl Hs Hx. induction (sort_by l) as [|z k IH]; [done|]. intros Hl Hs Hx.
  inversion Hs as [|? ? Hk Hz]; subst. destruct k as [|z' k].
  - injection Hl as ->. apply list_elem_of_singleton in Hx as ->. destruct (le_total y y); done.
  - apply elem_of_cons in Hx as [->|Hx]; [|by apply IH].
    rewrite Forall_forall in Hz. apply Hz. apply list_elem_of_lookup.
    exists (pred (length (z' :: k))). by rewrite <- last_lookup.
Qed.

(** The order of the input does not matter when the order is antisymmetric on it. *)
Lemma sort_by_canonical l l' : Permutation l l' ->
  (forall x y, x ∈ l -> y ∈ l -> le x y = true -> le y x = true -> x = y) -> sort_by l = sort_by l'.
Proof.
  intros HP Ha. apply (StronglySorted_unique_strong (fun a b => le a b = true)); try apply sort_by_sorted.
  - intros x y Hx Hy. rewrite sort_by_elem in Hx, Hy. rewrite <- HP in Hy. by apply Ha.
  - by rewrite !sort_by_permutation.
Qed.
End sort.

(** Strings, and pairs of keys. *)
Definition str_le (a b : string) : bool := String.leb a b.

(** [(a.1, a.2) <= (b.1, b.2)]: the second keys decide when the first are equal. *)
Definition lex_le {A} (key : A -> string) (next : A -> A -> bool) (a b : A) : bool :=
  if String.eqb (key a) (key b) then next a b else String.leb (key a) (key b).

Lemma str_le_total a b : str_le a b = true \/ str_le b a = true.
Proof. apply String.leb_total. Qed.

Lemma lex_le_total {A} (key : A -> string) next :
  (forall a b : A, next a b = true \/ next b a = true) ->
  forall a b, lex_le key next a b = true \/ lex_le key next b a = true.
Proof.
  intros Hn a b. unfold lex_le. rewrite (String.eqb_sym (key b)).
  destruct (String.eqb (key a) (key b)); [apply Hn|apply String.leb_total].
Qed.

Lemma lex_le_trans {A} (key : A -> string) next :
  (forall a b c : A, next a b = true -> next b c = true -> next a c = true) ->
  forall a b c, lex_le key next a b = true -> lex_le key next b c = true -> lex_le key next a c = true.
Proof.
  intros Hn a b c. unfold lex_le.
  destruct (String.eqb_spec (key a) (key b)) as [E1|E1], (String.eqb_spec (key b) (key c)) as [E2|E2];
    destruct (String.eqb_spec (key a) (key c)) as [E3|E3]; try congruence.
  - apply Hn.
  - intros H1 H2. destruct E1. apply String.leb_antisym; [done|]. by rewrite E3.
  - intros H1 H2. by eapply leb_trans_str.
Qed.
