(* ===== verification/PyVal.v ===== *)
(** * Python values and dictionaries

    The values that headers, JSON payloads and metadata carry.  A [dict] is an
    insertion-ordered association list; assigning to a present key keeps its
    position.  A float is what the code observes of it: [repr], [int()] and
    its truth value. *)

From S2P Require Import Prelude PyStr.
From Stdlib Require Import Ascii.

Inductive float_int := FInt (z : Z) | FNan | FInf.
Record pyfloat := PyFloat { float_text : string; float_trunc : float_int; float_nonzero : bool }.

Inductive pyval :=
| PNone
| PBool (b : bool)
| PInt (z : Z)
| PFloat (f : pyfloat)
| PStr (s : string)
| PList (l : list pyval)
| PDict (d : list (string * pyval)).

Notation dict V := (list (string * V)).
Notation pydict := (list (string * pyval)).

(** ** Dictionary operations *)

Section dict.
Context {V : Type}.
Implicit Types (d e : dict V).

(** [d.get(k)] *)
Fixpoint dget (k : string) d : option V :=
  match d with
  | [] => None
  | (k', v) :: d' => if String.eqb k k' then Some v else dget k d'
  end.

(** [k in d] *)
Definition din (k : string) d : bool :=
  match dget k d with Some _ => true | None => false end.

(** [d[k] = v] *)
Fixpoint dset (k : string) (v : V) d : dict V :=
  match d with
  | [] => [(k, v)]
  | (k', v') :: d' => if String.eqb k k' then (k', v) :: d' else (k', v') :: dset k v d'
  end.

(** [d.pop(k, None)] *)
Fixpoint dpop (k : string) d : dict V :=
  match d with
  | [] => []
  | (k', v) :: d' => if String.eqb k k' then dpop k d' else (k', v) :: dpop k d'
  end.

(** [d.update(e)], [d | e], [{**d, **e}] *)
Definition dupdate d e : dict V := foldl (fun acc kv => dset kv.1 kv.2 acc) d e.

(** [d.setdefault(k, v)] *)
Definition dsetdefault (k : string) (v : V) d : dict V := if din k d then d else dset k v d.

(** The keys, in order; a Python dict never holds a key twice. *)
Definition dkeys d : list string := map fst d.
Definition dict_ok d : Prop := NoDup (dkeys d).

End dict.

(** ** [bool], [str], [repr] and [int] *)

(** [bool(v)]: the truth value tested by [if v], [v or w]. *)
Definition truthy (v : pyval) : bool :=
  match v with
  | PNone => false
  | PBool b => b
  | PInt z => negb (z =? 0)
  | PFloat f => float_nonzero f
  | PStr s => negb (String.eqb s "")
  | PList l => match l with [] => false | _ => true end
  | PDict d => match d with [] => false | _ => true end
  end.

(** [d.get(k)] where a missing key and [None] read the same. *)
Definition dgetv (k : string) (d : pydict) : pyval := from_opt PNone (dget k d).

(** [v or w]. *)
Definition py_or (v w : pyval) : pyval := if truthy v then v else w.

Definition hex_digit (z : Z) : ascii := chr (if z <? 10 then 48 + z else 87 + z).

Definition repr_char (q : ascii) (c : ascii) : list ascii :=
  let z := code c in
  if Ascii.eqb c "\" || Ascii.eqb c q then ["\"%char; c]
  else if z =? 10 then ["\"; "n"]%char
  else if z =? 13 then ["\"; "r"]%char
  else if z =? 9 then ["\"; "t"]%char
  else if (z <? 32) || ((127 <=? z) && (z <=? 160)) || (z =? 173)
  then ["\"%char; "x"%char; hex_digit (z / 16); hex_digit (z mod 16)]
  else [c].

Definition quote_char : ascii := ascii_of_N 34.

(** [repr(s)] *)
Definition repr_str (s : string) : string :=
  let q := if has_char "'" s && negb (has_char quote_char s) then quote_char else "'"%char in
  of_chars (q :: flat_map (repr_char q) (chars s) ++ [q]).

Fixpoint repr (v : pyval) : string :=
  match v with
  | PNone => "None"
  | PBool true => "True"
  | PBool false => "False"
  | PInt z => pretty z
  | PFloat f => float_text f
  | PStr s => repr_str s
  | PList l => "[" +:+ join ", " (map repr l) +:+ "]"
  | PDict d =>
      "{" +:+ join ", " (map (fun kv => repr_str kv.1 +:+ ": " +:+ repr kv.2) d) +:+ "}"
  end.

(** [str(v)] *)
Definition py_str (v : pyval) : string :=
  match v with PStr s => s | _ => repr v end.

Definition class_name (v : pyval) : string :=
  match v with
  | PNone => "NoneType" | PBool _ => "bool" | PInt _ => "int" | PFloat _ => "float"
  | PStr _ => "str" | PList _ => "list" | PDict _ => "dict"
  end.

(** [int(v)] *)
Definition py_int (v : pyval) : result Z :=
  match v with
  | PBool b => Ok (if b then 1 else 0)
  | PInt z => Ok z
  | PFloat f =>
      match float_trunc f with
      | FInt z => Ok z
      | FNan => Raise (value_error "cannot convert float NaN to integer")
      | FInf => Raise (overflow_error "cannot convert float infinity to integer")
      end
  | PStr s =>
      match parse_int s with
      | Some z => Ok z
      | None => Raise (value_error ("invalid literal for int() with base 10: " +:+ repr_str s))
      end
  | _ => Raise (type_error ("int() argument must be a string, a bytes-like object or a real number, not '"
                  +:+ class_name v +:+ "'"))
  end.

(** [isinstance(v, Mapping)] and [isinstance(v, str)] as partial views. *)
Definition as_dict (v : pyval) : option pydict :=
  match v with PDict d => Some d | _ => None end.
Definition as_str (v : pyval) : option string :=
  match v with PStr s => Some s | _ => None end.

(** [str | None] stored as a value. *)
Definition opt_str (o : option string) : pyval :=
  match o with Some s => PStr s | None => PNone end.
Definition opt_int (o : option Z) : pyval :=
  match o with Some z => PInt z | None => PNone end.

(** [text or None] for a string: the empty string reads as [None]. *)
Definition nonempty (s : string) : option string :=
  if String.eqb s "" then None else Some s.

(** Truth of a [str | None]. *)
Definition opt_truthy (o : option string) : bool :=
  match o with Some s => negb (String.eqb s "") | None => false end.

(** [a or b] on [str | None]. *)
Definition opt_or (a b : option string) : option string := if opt_truthy a then a else b.

Lemma pyval_eq_dec' (a b : pyval) : {a = b} + {a <> b}.
Proof.
  revert a b. fix IH 1. intros a b.
  decide equality; try apply Z.eq_dec; try apply String.string_dec; try apply Bool.bool_dec.
  - repeat decide equality.
  - apply List.list_eq_dec. exact IH.
  - apply List.list_eq_dec. intros [k v] [k' v'].
    destruct (String.string_dec k k') as [->|]; [|right; congruence].
    destruct (IH v v') as [->|]; [left; reflexivity|right; congruence].
Defined.

#[export] Instance pyval_eq_dec : EqDecision pyval := pyval_eq_dec'.

(** ** Dictionary lemmas *)

Section dict_lemmas.
Context {V : Type}.
Implicit Types (d e : dict V).

Lemma dget_dset_eq k v d : dget k (dset k v d) = Some v.
Proof.
  induction d as [|[k' v'] d IH]; cbn; [by rewrite String.eqb_refl|].
  destruct (String.eqb k k') eqn:E; cbn; by rewrite E.
Qed.

Lemma dget_dset_ne k k' v d : k <> k' -> dget k (dset k' v d) = dget k d.
Proof.
  intros Hne. induction d as [|[k2 v2] d IH]; cbn.
  - apply String.eqb_neq in Hne. by rewrite Hne.
  - destruct (String.eqb k' k2) eqn:E; cbn; [|by rewrite IH].
    apply String.eqb_eq in E as <-. apply String.eqb_neq in Hne. by rewrite Hne.
Qed.

Lemma dget_dset k k' v d :
  dget k (dset k' v d) = if String.eqb k k' then Some v else dget k d.
Proof.
  destruct (String.eqb k k') eqn:E.
  - apply String.eqb_eq in E as ->. apply dget_dset_eq.
  - apply String.eqb_neq in E. by apply dget_dset_ne.
Qed.

Lemma dset_dset_eq k v w d : dset k v (dset k w d) = dset k v d.
Proof.
  induction d as [|[k2 v2] d IH]; cbn; [by rewrite String.eqb_refl|].
  destruct (String.eqb k k2) eqn:E; cbn; rewrite E; [done|]. by rewrite IH.
Qed.

Lemma dset_get_id k v d : dget k d = Some v -> dset k v d = d.
Proof.
  induction d as [|[k2 v2] d IH]; cbn; [done|].
  destruct (String.eqb k k2) eqn:E; [by intros [= ->]|]. intros H. by rewrite IH.
Qed.

Lemma dpop_permutation k d e : Permutation d e -> Permutation (dpop k d) (dpop k e).
Proof.
  induction 1 as [|[k1 v1] d e HP IH|[k1 v1] [k2 v2] d|d e f _ IH1 _ IH2]; cbn.
  - done.
  - destruct (String.eqb k k1); [done|by constructor].
  - destruct (String.eqb k k1), (String.eqb k k2); try done. by constructor.
  - by transitivity (dpop k e).
Qed.

Lemma dget_dpop k k' d : dget k (dpop k' d) = if String.eqb k k' then None else dget k d.
Proof.
  induction d as [|[k2 v2] d IH]; cbn; [by destruct (String.eqb k k')|].
  destruct (String.eqb k' k2) eqn:E.
  - apply String.eqb_eq in E as <-. rewrite IH. by destruct (String.eqb k k').
  - cbn. rewrite IH. destruct (String.eqb k k2) eqn:E2; [|done].
    apply String.eqb_eq in E2 as ->. by rewrite String.eqb_sym, E.
Qed.

Lemma dget_none_keys k d : dget k d = None <-> k ∉ dkeys d.
Proof.
  induction d as [|[k2 v2] d IH]; cbn; [split; [set_solver|done]|].
  rewrite not_elem_of_cons, <- IH.
  destruct (String.eqb k k2) eqn:E; [apply String.eqb_eq in E|apply String.eqb_neq in E]; naive_solver.
Qed.

Lemma din_keys k d : din k d = true <-> k ∈ dkeys d.
Proof.
  unfold din. destruct (dget k d) eqn:E.
  - split; [|done]. intros _. destruct (decide (k ∈ dkeys d)); [done|].
    apply dget_none_keys in n. congruence.
  - apply dget_none_keys in E. split; [done|]. intros; contradiction.
Qed.

Lemma dkeys_dset k v d :
  dkeys (dset k v d) = if din k d then dkeys d else (dkeys d ++ [k])%list.
Proof.
  unfold din, dkeys. induction d as [|[k2 v2] d IH]; cbn; [done|].
  destruct (String.eqb k k2) eqn:E; cbn; [done|].
  rewrite IH. by destruct (dget k d).
Qed.

Lemma dkeys_dpop k d : dkeys (dpop k d) = filter (fun k' => k <> k') (dkeys d).
Proof.
  unfold dkeys. induction d as [|[k2 v2] d IH]; [done|].
  change (map fst ((k2, v2) :: d)) with (k2 :: map fst d). rewrite filter_cons. cbn [dpop].
  destruct (String.eqb k k2) eqn:E; bool_to_prop; case_decide; try congruence; try done.
  change (k2 :: map fst (dpop k d) = k2 :: filter (fun k' => k <> k') (map fst d)).
  by rewrite IH.
Qed.

(** The representation invariant is preserved by every operation. *)
Lemma dict_ok_dset k v d : dict_ok d -> dict_ok (dset k v d).
Proof.
  unfold dict_ok. intros H. rewrite dkeys_dset. destruct (din k d) eqn:E; [done|].
  apply NoDup_app; split_and!; [done| |apply NoDup_singleton].
  intros x Hx ->%list_elem_of_singleton.
  apply din_keys in Hx. congruence.
Qed.

Lemma dict_ok_dpop k d : dict_ok d -> dict_ok (dpop k d).
Proof. unfold dict_ok. intros H. rewrite dkeys_dpop. by apply NoDup_filter. Qed.

Lemma dict_ok_dupdate d e : dict_ok d -> dict_ok (dupdate d e).
Proof.
  unfold dupdate. revert d. induction e as [|[k v] e IH]; cbn; [done|].
  intros d H. apply IH. by apply dict_ok_dset.
Qed.

Lemma dict_ok_nil : dict_ok ([] : dict V).
Proof. constructor. Qed.

Lemma dget_dupdate k d e :
  dict_ok e -> dget k (dupdate d e) = match dget k e with Some v => Some v | None => dget k d end.
Proof.
  unfold dupdate. revert d. induction e as [|[k2 v2] e IH]; cbn; [done|].
  intros d [Hnot Hok]%NoDup_cons. rewrite IH by done. rewrite dget_dset.
  destruct (String.eqb k k2) eqn:E; [|done].
  apply String.eqb_eq in E as ->. apply dget_none_keys in Hnot. cbn in Hnot. by rewrite Hnot.
Qed.

Lemma dget_elem k v d : dget k d = Some v -> (k, v) ∈ d.
Proof.
  induction d as [|[k2 v2] d IH]; cbn; [done|].
  destruct (String.eqb k k2) eqn:E; [|intros; right; auto].
  apply String.eqb_eq in E as ->. intros [= ->]. left.
Qed.

Lemma elem_dget k v d : dict_ok d -> (k, v) ∈ d -> dget k d = Some v.
Proof.
  induction d as [|[k2 v2] d IH]; cbn; [set_solver|].
  intros [Hnot Hok]%NoDup_cons [[= -> ->]|Hin]%elem_of_cons; [by rewrite String.eqb_refl|].
  destruct (String.eqb k k2) eqn:E; [|by apply IH].
  apply String.eqb_eq in E as ->. destruct Hnot.
  apply list_elem_of_In, in_map_iff. exists (k2, v). by rewrite <- list_elem_of_In.
Qed.

Lemma dget_permutation k d e : dict_ok d -> Permutation d e -> dget k d = dget k e.
Proof.
  intros Hok HP.
  assert (dict_ok e) as Hok'. { unfold dict_ok, dkeys. by rewrite <- HP. }
  destruct (dget k d) as [v|] eqn:E.
  - symmetry. apply elem_dget; [done|]. rewrite <- HP. by apply dget_elem.
  - symmetry. apply dget_none_keys. unfold dkeys. rewrite <- HP. by apply dget_none_keys.
Qed.

(** Two dicts that read the same hold the same items. *)
Lemma dict_same_get d e : dict_ok d -> dict_ok e -> (forall k, dget k d = dget k e) -> Permutation d e.
Proof.
  intros Hd He Heq. apply NoDup_Permutation; [by apply (NoDup_fmap_1 fst)..|]. intros [k v]. split.
  - intros H%(elem_dget k v d Hd). apply dget_elem. by rewrite <- Heq.
  - intros H%(elem_dget k v e He). apply dget_elem. by rewrite Heq.
Qed.

End dict_lemmas.

#[export] Hint Resolve dict_ok_dset dict_ok_dpop dict_ok_dupdate dict_ok_nil : relayna.
#[export] Hint Rewrite @dget_dset @dget_dpop : dict.

(** Evaluate reads of a dictionary through writes at concrete keys. *)
Ltac dict_simpl :=
  repeat first
    [ rewrite dget_dset_eq
    | rewrite dget_dset_ne by (first [discriminate | assumption | congruence])
    | rewrite dget_dpop; cbn [String.eqb Ascii.eqb Bool.eqb]
    | progress autorewrite with dict ].

Lemma repr_int_inj a b : py_str (PInt a) = py_str (PInt b) -> a = b.
Proof. cbn. intros H. by apply pretty_Z_inj in H. Qed.

Lemma opt_or_some a b s : opt_or a b = Some s -> a = Some s \/ b = Some s.
Proof. unfold opt_or. destruct (opt_truthy a); auto. Qed.

Lemma nonempty_spec s t : nonempty s = Some t <-> s = t /\ s <> "".
Proof.
  unfold nonempty. destruct (String.eqb s "") eqn:E; bool_to_prop; naive_solver.
Qed.
