(* ===== verification/PyFloat.v ===== *)
(** * Doubles

    [float(n)] of an integer, comparisons of doubles, and lists without their
    repetitions ([list(dict.fromkeys(l))]). *)

From S2P Require Import Prelude PyStr.
From Stdlib Require Import SpecFloat.

(** The double nearest to an integer, infinite where Python raises. *)
Definition double_of (z : Z) : spec_float :=
  match z with Z0 => S754_zero false | Zpos p => binary_normalize 53 1024 (Zpos p) 0 false | Zneg p => binary_normalize 53 1024 (Zneg p) 0 false end.
Definition fle (a b : spec_float) : bool := SFleb a b.
Definition flt (a b : spec_float) : bool := SFltb a b.

(** [float(z)]. *)
Definition int_to_float (z : Z) : result spec_float :=
  match double_of z with
  | S754_infinity _ => Raise (overflow_error "int too large to convert to float")
  | f => Ok f
  end.

Lemma int_to_float_ok z f : int_to_float z = Ok f -> f = double_of z.
Proof. unfold int_to_float. by destruct (double_of z); intros [= <-]. Qed.

Definition unique (l : list string) : list string := foldl (fun acc s => if str_in s acc then acc else (acc ++ [s])%list) [] l.

Lemma elem_of_unique l x : x ∈ unique l <-> x ∈ l.
Proof.
  unfold unique. assert (forall acc, x ∈ foldl (fun acc s => if str_in s acc then acc else (acc ++ [s])%list) acc l <-> x ∈ acc \/ x ∈ l) as Hgen.
  2: { rewrite Hgen. split; [intros [?%elem_of_nil|?]; done|by right]. }
  induction l as [|s l IH]; intros acc; cbn; [rewrite elem_of_nil; tauto|]. rewrite IH, elem_of_cons.
  destruct (str_in s acc) eqn:E.
  - apply str_in_elem in E. split; [tauto|]. intros [?|[->|?]]; tauto.
  - rewrite elem_of_app, list_elem_of_singleton. tauto.
Qed.

Lemma NoDup_unique l : NoDup (unique l).
Proof.
  unfold unique. assert (forall acc, NoDup acc -> NoDup (foldl (fun acc s => if str_in s acc then acc else (acc ++ [s])%list) acc l)) as Hgen.
  2: { apply Hgen. constructor. }
  induction l as [|s l IH]; intros acc Ha; cbn; [done|]. apply IH. destruct (str_in s acc) eqn:E; [done|].
  apply NoDup_app. split; [done|]. split; [|apply NoDup_singleton].
  intros x Hx ->%list_elem_of_singleton. apply str_in_elem in Hx. congruence.
Qed.
