(* ===== verification/Json.v ===== *)
(** * [json.dumps]

    The serializer the code hashes with: [sort_keys], [separators] and
    [ensure_ascii] as the calls set them.  Keys are sorted in code point
    order at every level. *)

From S2P Require Import Prelude PyStr PyVal.
From Stdlib Require Import Ascii.

(** Keyword arguments of a [json.dumps] call. *)
Record dumps_opts := DumpsOpts {
  ensure_ascii : bool; sort_keys : bool; item_separator : string; key_separator : string }.

Definition unicode_escape (z : Z) : list ascii :=
  ["\"; "u"; "0"; "0"]%char ++ [hex_digit (z / 16); hex_digit (z mod 16)].

Definition escape_char (o : dumps_opts) (c : ascii) : list ascii :=
  let z := code c in
  if z =? 34 then ["\"%char; c]
  else if z =? 92 then ["\"%char; c]
  else if z =? 10 then ["\"; "n"]%char
  else if z =? 13 then ["\"; "r"]%char
  else if z =? 9 then ["\"; "t"]%char
  else if z =? 8 then ["\"; "b"]%char
  else if z =? 12 then ["\"; "f"]%char
  else if (z <? 32) || (ensure_ascii o && (127 <=? z)) then unicode_escape z
  else [c].

Definition dumps_str (o : dumps_opts) (s : string) : string :=
  of_chars (quote_char :: flat_map (escape_char o) (chars s) ++ [quote_char]).

(** [sorted(d.items())] by key. *)
Fixpoint insert_item {V} (kv : string * V) (d : dict V) : dict V :=
  match d with
  | [] => [kv]
  | kv' :: d' => if String.leb kv.1 kv'.1 then kv :: d else kv' :: insert_item kv d'
  end.
Fixpoint sort_items {V} (d : dict V) : dict V :=
  match d with [] => [] | kv :: d' => insert_item kv (sort_items d') end.

Definition dumps_float (f : pyfloat) : string :=
  match float_trunc f with
  | FInt _ => float_text f
  | FNan => "NaN"
  | FInf => if startswith "-" (float_text f) then "-Infinity" else "Infinity"
  end.

Fixpoint dumps (o : dumps_opts) (v : pyval) : string :=
  match v with
  | PNone => "null"
  | PBool true => "true"
  | PBool false => "false"
  | PInt z => pretty z
  | PFloat f => dumps_float f
  | PStr s => dumps_str o s
  | PList l => "[" +:+ join (item_separator o) (map (dumps o) l) +:+ "]"
  | PDict d =>
      let items := map (fun kv => (kv.1, dumps_str o kv.1 +:+ key_separator o +:+ dumps o kv.2)) d in
      let items := if sort_keys o then sort_items items else items in
      "{" +:+ join (item_separator o) (map snd items) +:+ "}"
  end.

(** ** Sorting makes the text independent of insertion order *)

Lemma insert_item_comm {V} (a b : string * V) d :
  a.1 <> b.1 -> insert_item a (insert_item b d) = insert_item b (insert_item a d).
Proof.
  intros Hne. induction d as [|c d IH]; cbn.
  - destruct (String.leb a.1 b.1) eqn:E1, (String.leb b.1 a.1) eqn:E2; try done.
    + destruct Hne. by apply String.leb_antisym.
    + destruct (String.leb_total a.1 b.1); congruence.
  - destruct (String.leb b.1 c.1) eqn:Eb, (String.leb a.1 c.1) eqn:Ea; cbn;
      rewrite ?Ea, ?Eb; try (by rewrite IH).
    + destruct (String.leb a.1 b.1) eqn:E1, (String.leb b.1 a.1) eqn:E2; try done.
      * destruct Hne. by apply String.leb_antisym.
      * destruct (String.leb_total a.1 b.1); congruence.
    + destruct (String.leb a.1 b.1) eqn:E1; [|done].
      exfalso. rewrite (leb_trans_str _ _ _ E1 Eb) in Ea. done.
    + destruct (String.leb b.1 a.1) eqn:E1; [|done].
      exfalso. rewrite (leb_trans_str _ _ _ E1 Ea) in Eb. done.
Qed.

Lemma sort_items_permutation {V} (d e : dict V) :
  dict_ok d -> Permutation d e -> sort_items d = sort_items e.
Proof.
  unfold dict_ok, dkeys. intros Hok HP. induction HP as [|x d e HP IH|x y d|d e f HP1 IH1 HP2 IH2].
  - done.
  - cbn in *. apply NoDup_cons in Hok as [_ Hok]. by rewrite IH.
  - cbn in *. apply insert_item_comm.
    apply NoDup_cons in Hok as [Hn _]. rewrite not_elem_of_cons in Hn. by destruct Hn.
  - rewrite IH1 by done. apply IH2. by rewrite <- HP1.
Qed.

(** [json.dumps(..., sort_keys=True)] of two dicts with the same items, in
    whatever order they were inserted, is the same text. *)
Lemma dumps_permutation o d e :
  sort_keys o = true -> dict_ok d -> Permutation d e ->
  dumps o (PDict d) = dumps o (PDict e).
Proof.
  intros Hs Hok HP. cbn. rewrite Hs.
  rewrite (sort_items_permutation _ (map (fun kv => (kv.1,
    dumps_str o kv.1 +:+ key_separator o +:+ dumps o kv.2)) e)); [done| |by apply Permutation_map].
  unfold dict_ok, dkeys in *. rewrite map_map. cbn. exact Hok.
Qed.
