(* ===== verification/JsonLoads.v ===== *)
(** * [json.loads]

    The decoder, on texts whose strings hold code points below 256 (a \u escape
    beyond them, and a surrogate pair, are refused here).  A float literal is
    read by a function that the caller gives. *)

From S2P Require Import Prelude PyStr PyVal Json.
From Stdlib Require Import Ascii.

Definition is_ws (c : ascii) : bool := let z := code c in (z =? 32) || (z =? 9) || (z =? 10) || (z =? 13).

Fixpoint skip_ws (l : list ascii) : list ascii :=
  match l with c :: l' => if is_ws c then skip_ws l' else l | [] => [] end.

Definition hex_value (c : ascii) : option Z :=
  let z := code c in
  if (48 <=? z) && (z <=? 57) then Some (z - 48)
  else if (97 <=? z) && (z <=? 102) then Some (z - 87)
  else if (65 <=? z) && (z <=? 70) then Some (z - 55) else None.

Definition simple_escape (c : ascii) : option ascii :=
  if Ascii.eqb c quote_char || Ascii.eqb c "\" || Ascii.eqb c "/" then Some c
  else if Ascii.eqb c "n" then Some (chr 10) else if Ascii.eqb c "r" then Some (chr 13)
  else if Ascii.eqb c "t" then Some (chr 9) else if Ascii.eqb c "b" then Some (chr 8)
  else if Ascii.eqb c "f" then Some (chr 12) else None.

Definition four_hex (a b c d : ascii) : option Z :=
  a ← hex_value a; b ← hex_value b; c ← hex_value c; d ← hex_value d;
  Some (a * 4096 + b * 256 + c * 16 + d).

(** After the opening quote: the characters of the string, and what follows it. *)
Fixpoint string_body (l : list ascii) : option (list ascii * list ascii) :=
  match l with
  | [] => None
  | c :: l' =>
      if Ascii.eqb c quote_char then Some ([], l')
      else if Ascii.eqb c "\" then
        match l' with
        | [] => None
        | e :: l2 =>
            if Ascii.eqb e "u" then
              match l2 with
              | h1 :: h2 :: h3 :: h4 :: l3 =>
                  z ← four_hex h1 h2 h3 h4;
                  if z <? 256 then '(s, r) ← string_body l3; Some (chr z :: s, r) else None
              | _ => None
              end
            else c' ← simple_escape e; '(s, r) ← string_body l2; Some (c' :: s, r)
        end
      else if code c <? 32 then None
      else '(s, r) ← string_body l'; Some (c :: s, r)
  end.

Fixpoint span_digits (l : list ascii) : list ascii * list ascii :=
  match l with
  | c :: l' => match digit c with Some _ => let '(ds, r) := span_digits l' in (c :: ds, r) | None => ([], l) end
  | [] => ([], [])
  end.

(** A leading zero is the whole integer part. *)
Definition int_part (l : list ascii) : option (list ascii * list ascii) :=
  match span_digits l with
  | ([], _) => None
  | (c :: ds, r) => if Ascii.eqb c "0" then Some ([c], (ds ++ r)%list) else Some (c :: ds, r)
  end.

Definition frac_part (l : list ascii) : list ascii * list ascii :=
  match l with
  | c :: l' => if Ascii.eqb c "." then match span_digits l' with ([], _) => ([], l) | (ds, r) => (c :: ds, r) end else ([], l)
  | [] => ([], [])
  end.

Definition exp_part (l : list ascii) : list ascii * list ascii :=
  match l with
  | c :: l' =>
      if Ascii.eqb c "e" || Ascii.eqb c "E" then
        let '(sign, l2) := match l' with s :: l2 => if Ascii.eqb s "+" || Ascii.eqb s "-" then ([s], l2) else ([], l') | [] => ([], []) end in
        match span_digits l2 with ([], _) => ([], l) | (ds, r) => (c :: sign ++ ds, r)%list end
      else ([], l)
  | [] => ([], [])
  end.

Fixpoint take_prefix (p l : list ascii) : option (list ascii) :=
  match p, l with
  | [], _ => Some l
  | a :: p, b :: l => if Ascii.eqb a b then take_prefix p l else None
  | _, _ => None
  end.

(** The words of the grammar, and the three that Python adds. *)
Definition words : list (string * pyval) :=
  [("null", PNone); ("true", PBool true); ("false", PBool false); ("NaN", PFloat (PyFloat "nan" FNan true));
   ("Infinity", PFloat (PyFloat "inf" FInf true)); ("-Infinity", PFloat (PyFloat "-inf" FInf true))].

Fixpoint word (ws : list (string * pyval)) (l : list ascii) : option (pyval * list ascii) :=
  match ws with
  | [] => None
  | (w, v) :: ws => match take_prefix (chars w) l with Some r => Some (v, r) | None => word ws l end
  end.

Section loads.
Context (parse_float : string -> pyfloat).

Definition number (l : list ascii) : option (pyval * list ascii) :=
  let '(sign, l) := match l with c :: l' => if Ascii.eqb c "-" then ([c], l') else ([], l) | [] => ([], []) end in
  '(ds, l) ← int_part l;
  let '(frac, l) := frac_part l in
  let '(exp, l) := exp_part l in
  match (frac ++ exp)%list with
  | [] => n ← parse_digits 0 false ds; Some (PInt (match sign with [] => n | _ => - n end), l)
  | fe => Some (PFloat (parse_float (of_chars (sign ++ ds ++ fe))), l)
  end.

(** A value, at a text without leading blanks; the items of a list and the members of an object after
    the opening bracket. *)
Fixpoint value (fuel : nat) (l : list ascii) : option (pyval * list ascii) :=
  match fuel, l with
  | S fuel, c :: l' =>
      if Ascii.eqb c quote_char then '(s, r) ← string_body l'; Some (PStr (of_chars s), r)
      else if Ascii.eqb c "{" then
        match skip_ws l' with
        | [] => None
        | c2 :: r => if Ascii.eqb c2 "}" then Some (PDict [], r)
                     else '(d, r) ← members fuel (c2 :: r); Some (PDict (dupdate [] d), r)
        end
      else if Ascii.eqb c "[" then
        match skip_ws l' with
        | [] => None
        | c2 :: r => if Ascii.eqb c2 "]" then Some (PList [], r)
                     else '(vs, r) ← elements fuel (c2 :: r); Some (PList vs, r)
        end
      else match word words l with Some x => Some x | None => number l end
  | _, _ => None
  end
with elements (fuel : nat) (l : list ascii) : option (list pyval * list ascii) :=
  match fuel with
  | O => None
  | S fuel =>
      '(v, r) ← value fuel l;
      match skip_ws r with
      | c :: r => if Ascii.eqb c "]" then Some ([v], r)
                  else if Ascii.eqb c "," then '(vs, r) ← elements fuel (skip_ws r); Some (v :: vs, r)
                  else None
      | [] => None
      end
  end
with members (fuel : nat) (l : list ascii) : option (pydict * list ascii) :=
  match fuel, l with
  | S fuel, q :: l' =>
      if negb (Ascii.eqb q quote_char) then None
      else
        '(k, r) ← string_body l';
        match skip_ws r with
        | colon :: r =>
            if negb (Ascii.eqb colon ":") then None
            else
              '(v, r) ← value fuel (skip_ws r);
              match skip_ws r with
              | c :: r => if Ascii.eqb c "}" then Some ([(of_chars k, v)], r)
                          else if Ascii.eqb c "," then '(d, r) ← members fuel (skip_ws r); Some ((of_chars k, v) :: d, r)
                          else None
              | [] => None
              end
        | [] => None
        end
  | _, _ => None
  end.

(** [json.loads(s)]; a value never takes more steps than it has characters. *)
Definition py_json_loads (s : string) : result pyval :=
  match value (length (chars s)) (skip_ws (chars s)) with
  | Some (v, r) => match skip_ws r with [] => Ok v | _ => Raise (Exn XValueError "JSONDecodeError" "Extra data") end
  | None => Raise (Exn XValueError "JSONDecodeError" "Expecting value")
  end.
End loads.



(** ** Round trip *)

(** Values that the text keeps: floats have no exact text here, and a repeated key would be read once. *)
Fixpoint plain (v : pyval) : bool :=
  match v with
  | PFloat _ => false
  | PList l => forallb plain l
  | PDict d => bool_decide (NoDup (map fst d)) && forallb (fun kv => plain kv.2) d
  | _ => true
  end.

(** What may follow a value. *)
Definition stops (l : list ascii) : bool :=
  match l with [] => true | c :: _ => Ascii.eqb c "," || Ascii.eqb c "]" || Ascii.eqb c "}" || is_ws c end.

Lemma skip_ws_app b l : Forall (fun c => is_ws c = true) b -> skip_ws (b ++ l) = skip_ws l.
Proof. induction 1 as [|c b Hc _ IH]; [done|]. cbn. by rewrite Hc. Qed.

Lemma skip_ws_keep c l : is_ws c = false -> skip_ws (c :: l) = c :: l.
Proof. intros H. cbn. by rewrite H. Qed.

Lemma string_body_escape o c rest :
  string_body (escape_char o c ++ rest) = '(s, r) ← string_body rest; Some (c :: s, r).
Proof. destruct c as [[] [] [] [] [] [] [] []], o as [[] ? ? ?]; reflexivity. Qed.

Lemma string_body_dumps o s rest : string_body (flat_map (escape_char o) s ++ quote_char :: rest) = Some (s, rest).
Proof.
  induction s as [|c s IH]; [done|]. cbn [flat_map]. rewrite <- app_assoc, string_body_escape, IH. done.
Qed.

Lemma dumps_str_chars o s : chars (dumps_str o s) = quote_char :: (flat_map (escape_char o) (chars s) ++ [quote_char])%list.
Proof. unfold dumps_str. by rewrite chars_of_chars. Qed.

Lemma pretty_digits n s : Forall (fun c => digit c <> None) (chars s) -> Forall (fun c => digit c <> None) (chars (pretty_N_go n s)).
Proof.
  revert s. induction (N.lt_wf_0 n) as [n _ IH]; intros s Hs.
  destruct (decide (n = 0)%N) as [->|Hn]; [by rewrite pretty_N_go_0|].
  rewrite pretty_N_go_step by lia. apply IH; [apply N.div_lt; lia|]. constructor; [|done].
  rewrite digit_pretty; [done|]. apply N.mod_lt. lia.
Qed.

Lemma pretty_head n s : n <> 0%N -> exists c l, chars (pretty_N_go n s) = c :: l /\ Ascii.eqb c "0" = false.
Proof.
  revert s. induction (N.lt_wf_0 n) as [n _ IH]; intros s Hn. rewrite pretty_N_go_step by lia.
  destruct (decide (n `div` 10 = 0)%N) as [E|E]; [|apply IH; [apply N.div_lt; lia|done]].
  rewrite E, pretty_N_go_0. eexists _, _. split; [done|].
  assert (n < 10)%N as Hlt by (apply N.div_small_iff in E; lia). rewrite N.mod_small by done.
  destruct (Ascii.eqb _ "0") eqn:E0; [|done]. apply Ascii.eqb_eq in E0. pose proof (digit_pretty n Hlt) as Hd. rewrite E0 in Hd.
  change (Some 0 = Some (Z.of_N n)) in Hd. injection Hd as Hd. lia.
Qed.

Lemma span_digits_app ds l : Forall (fun c => digit c <> None) ds -> stops l = true -> span_digits (ds ++ l) = (ds, l).
Proof.
  intros Hd Hl. induction Hd as [|c ds Hc _ IH]; cbn.
  - destruct l as [|c l]; [done|]. cbn. destruct c as [[] [] [] [] [] [] [] []]; done || discriminate Hl.
  - destruct (digit c); [|done]. by rewrite IH.
Qed.

Lemma stops_parts l : stops l = true -> frac_part l = ([], l) /\ exp_part l = ([], l).
Proof.
  destruct l as [|c l]; [done|]. cbn [stops frac_part exp_part].
  intros H. destruct c as [[] [] [] [] [] [] [] []]; done || discriminate H.
Qed.

Lemma number_pretty pf (z : Z) rest : stops rest = true -> number pf (chars (pretty z) ++ rest) = Some (PInt z, rest).
Proof.
  intros Hs. destruct (stops_parts rest Hs) as [Hf He].
  assert (forall p, exists c l, chars (pretty_N_go (Npos p) "") = c :: l /\ Ascii.eqb c "-" = false /\
    int_part ((c :: l) ++ rest) = Some (c :: l, rest) /\ parse_digits 0 false (c :: l) = Some (Zpos p)) as Hpos.
  { intros p. destruct (pretty_head (Npos p) "") as (c & l & E & E0); [done|]. exists c, l. split; [done|].
    pose proof (pretty_digits (Npos p) "" ltac:(constructor)) as Hd. rewrite E in Hd.
    split; [apply Forall_inv in Hd; by destruct c as [[] [] [] [] [] [] [] []]|]. split.
    - unfold int_part. rewrite span_digits_app by done. by rewrite E0.
    - pose proof (parse_digits_pretty (Npos p) "") as Hp. rewrite decide_False, E in Hp by done. exact Hp. }
  destruct z as [|p|p].
  - unfold number. change (chars (pretty 0) ++ rest)%list with ("0"%char :: rest). cbn [Ascii.eqb Bool.eqb].
    assert (int_part ("0"%char :: rest) = Some (["0"%char], rest)) as ->.
    { unfold int_part. change ("0"%char :: rest) with (["0"%char] ++ rest)%list. by rewrite span_digits_app by (done || by repeat constructor). }
    cbn [mbind option_bind]. by rewrite Hf, He.
  - destruct (Hpos p) as (c & l & E & Hc & Hi & Hp). unfold number. change (pretty (Zpos p)) with (pretty_N_go (Npos p) "").
    rewrite E. cbn [app]. rewrite Hc. change (c :: l ++ rest)%list with ((c :: l) ++ rest)%list. rewrite Hi.
    cbn [mbind option_bind]. rewrite Hf, He. cbn [app]. by rewrite Hp.
  - destruct (Hpos p) as (c & l & E & Hc & Hi & Hp). unfold number.
    change (chars (pretty (Zneg p))) with ("-"%char :: chars (pretty_N_go (Npos p) "")).
    rewrite E. cbn [app]. change (Ascii.eqb "-" "-") with true. cbn iota. change (c :: l ++ rest)%list with ((c :: l) ++ rest)%list.
    rewrite Hi. cbn [mbind option_bind]. rewrite Hf, He. cbn [app]. by rewrite Hp.
Qed.

Section roundtrip.
Context (pf : string -> pyfloat) (o : dumps_opts) (iblank kblank : list ascii).
Context (unsorted : sort_keys o = false).
Context (items_sep : chars (item_separator o) = ","%char :: iblank) (iblank_ws : Forall (fun c => is_ws c = true) iblank).
Context (keys_sep : chars (key_separator o) = ":"%char :: kblank) (kblank_ws : Forall (fun c => is_ws c = true) kblank).

Definition member_text (kv : string * pyval) : string := dumps_str o kv.1 +:+ key_separator o +:+ dumps o kv.2.

Lemma dumps_dict d : dumps o (PDict d) = "{" +:+ join (item_separator o) (map member_text d) +:+ "}".
Proof. cbn [dumps]. by rewrite unsorted, map_map. Qed.

(** A number's text. *)
Lemma pretty_start (z : Z) : exists c l, chars (pretty z) = c :: l /\ (digit c <> None \/ (c = "-"%char /\ exists d l', l = d :: l' /\ digit d <> None)).
Proof.
  assert (forall p, exists c l, chars (pretty_N_go (Npos p) "") = c :: l /\ digit c <> None) as Hpos.
  { intros p. destruct (pretty_head (Npos p) "") as (c & l & E & _); [done|].
    pose proof (pretty_digits (Npos p) "" ltac:(constructor)) as Hd. rewrite E in Hd. exists c, l. split; [done|by apply Forall_inv in Hd]. }
  destruct z as [|p|p].
  - exists "0"%char, []. split; [done|by left].
  - destruct (Hpos p) as (c & l & E & Hc). exists c, l. split; [done|by left].
  - destruct (Hpos p) as (c & l & E & Hc). exists "-"%char, (c :: l). split; [|right; split; [done|by exists c, l]].
    change (chars (pretty (Zneg p))) with ("-"%char :: chars (pretty_N_go (Npos p) "")). by rewrite E.
Qed.

Lemma value_number f (z : Z) rest : stops rest = true -> value pf (S f) (chars (pretty z) ++ rest) = Some (PInt z, rest).
Proof.
  intros Hs. pose proof (number_pretty pf z rest Hs) as Hn. destruct (pretty_start z) as (c & l & E & H). rewrite E in *.
  change ((c :: l) ++ rest)%list with (c :: l ++ rest)%list in *. cbn [value]. rewrite Hn.
  destruct H as [H|(-> & d & l' & -> & H)].
  - destruct c as [[] [] [] [] [] [] [] []]; done || (cbn in H; congruence).
  - destruct d as [[] [] [] [] [] [] [] []]; done || (cbn in H; congruence).
Qed.

Lemma dumps_start v : plain v = true -> exists c l, chars (dumps o v) = c :: l /\ is_ws c = false /\
  Ascii.eqb c "]" = false /\ Ascii.eqb c "}" = false.
Proof.
  destruct v as [|[]|z|x|s|l|d]; intros Hv; try (eexists _, _; split; [reflexivity|done]); [|done].
  destruct (pretty_start z) as (c & l & E & H). exists c, l. split; [done|].
  destruct H as [H|[-> _]]; [|done]. destruct c as [[] [] [] [] [] [] [] []]; done || (cbn in H; congruence).
Qed.
Lemma join_chars sep p q ps : chars (join sep (p :: q :: ps)) = (chars p ++ chars sep ++ chars (join sep (q :: ps)))%list.
Proof. rewrite join_cons, !chars_app. done. Qed.

Lemma skip_value v rest : plain v = true -> skip_ws (chars (dumps o v) ++ rest) = (chars (dumps o v) ++ rest)%list.
Proof. intros Hv. destruct (dumps_start v Hv) as (c & l & -> & Hc & _). by apply skip_ws_keep. Qed.

Notation item_text l := (chars (join (item_separator o) (map (dumps o) l))).
Notation members_text d := (chars (join (item_separator o) (map member_text d))).
Notation plain_members d := (forallb (fun kv : string * pyval => plain kv.2) d = true).

Definition reads_values (f : nat) : Prop := forall v rest, plain v = true -> (length (chars (dumps o v)) <= f)%nat ->
  stops rest = true -> value pf f (chars (dumps o v) ++ rest) = Some (v, rest).
Definition reads_elements (f : nat) : Prop := forall v l rest, forallb plain (v :: l) = true ->
  (length (item_text (v :: l)) < f)%nat -> elements pf f (item_text (v :: l) ++ "]"%char :: rest) = Some (v :: l, rest).
Definition reads_members (f : nat) : Prop := forall kv d rest, plain_members (kv :: d) ->
  (length (members_text (kv :: d)) < f)%nat -> members pf f (members_text (kv :: d) ++ "}"%char :: rest) = Some (kv :: d, rest).

Lemma item_start v l : forallb plain (v :: l) = true -> exists c t, item_text (v :: l) = c :: t /\ is_ws c = false /\ Ascii.eqb c "]" = false.
Proof.
  cbn [forallb]. intros [Hv _]%andb_true_iff. destruct (dumps_start v Hv) as (c & t & E & H1 & H2 & _).
  destruct l as [|w l]; [by exists c, t|]. cbn [map]. rewrite join_chars, E. by eexists c, _.
Qed.

Lemma member_chars kv rest : (chars (member_text kv) ++ rest = quote_char :: flat_map (escape_char o) (chars kv.1)
  ++ quote_char :: ":"%char :: kblank ++ chars (dumps o kv.2) ++ rest)%list.
Proof.
  unfold member_text. rewrite !chars_app, dumps_str_chars, keys_sep. cbn [app]. rewrite <- !app_assoc. cbn [app].
  rewrite <- !app_assoc. done.
Qed.

Lemma members_start kv d : exists t, members_text (kv :: d) = quote_char :: t.
Proof.
  pose proof (member_chars kv []) as E. rewrite app_nil_r in E.
  destruct d as [|w d]; [by eexists|]. cbn [map]. rewrite join_chars, E. by eexists.
Qed.

Lemma elements_step f : reads_values f -> reads_elements f -> reads_elements (S f).
Proof.
  intros Hv He v l rest Hp Hlen. cbn [elements]. pose proof Hp as [Hpv Hpl]%andb_true_iff. destruct l as [|w l].
  - cbn [map join] in *. by rewrite Hv by (done || lia).
  - cbn [map] in *. rewrite join_chars, items_sep in *. rewrite !length_app in Hlen. cbn [length] in Hlen.
    rewrite <- !app_assoc, Hv by (done || lia). cbn [app mbind option_bind skip_ws].
    change (is_ws ",") with false. change (Ascii.eqb "," "]") with false. change (Ascii.eqb "," ",") with true. cbn iota.
    rewrite skip_ws_app by done.
    destruct (item_start w l Hpl) as (c & t & E & Hc & _). rewrite (map_cons (dumps o)) in E.
    assert (skip_ws (chars (join (item_separator o) (dumps o w :: map (dumps o) l)) ++ "]"%char :: rest) =
      chars (join (item_separator o) (dumps o w :: map (dumps o) l)) ++ "]"%char :: rest)%list as ->.
    { rewrite E. by apply skip_ws_keep. }
    specialize (He w l rest Hpl). cbn [map] in He. by rewrite He by lia.
Qed.

Lemma members_step f : reads_values f -> reads_members f -> reads_members (S f).
Proof.
  intros Hv Hm [k v] d rest Hp Hlen. cbn [forallb snd] in Hp. apply andb_true_iff in Hp as [Hpv Hpl].
  assert (forall rest, (length (chars (member_text (k, v))) <= f)%nat -> stops rest = true ->
    exists r, skip_ws (":"%char :: kblank ++ chars (dumps o v) ++ rest) = ":"%char :: r /\
      value pf f (skip_ws r) = Some (v, rest)) as Hmember.
  { intros r Hl Hs. exists (kblank ++ chars (dumps o v) ++ r)%list. split; [done|].
    rewrite skip_ws_app, skip_value by done. apply Hv; [done| |done].
    pose proof (f_equal length (member_chars (k, v) [])) as E. cbn [snd fst] in E.
    rewrite !length_app in E. cbn [length] in E. rewrite !length_app in E. cbn [length] in E. rewrite !length_app in E. lia. }
  destruct d as [|w d].
  - cbn [map join] in *. rewrite member_chars. cbn [members negb]. rewrite Ascii.eqb_refl. cbn [negb].
    rewrite string_body_dumps. cbn [mbind option_bind fst snd]. destruct (Hmember ("}"%char :: rest)) as (r & -> & Hr); [lia|done|].
    rewrite Ascii.eqb_refl. cbn [negb]. rewrite Hr. cbn [mbind option_bind]. by rewrite of_chars_chars.
  - cbn [map] in *. rewrite join_chars, items_sep in *. rewrite !length_app in Hlen. cbn [length] in Hlen.
    rewrite <- !app_assoc, member_chars. cbn [members]. rewrite Ascii.eqb_refl. cbn [negb].
    rewrite string_body_dumps. cbn [mbind option_bind fst snd].
    destruct (Hmember ((","%char :: iblank) ++ members_text (w :: d) ++ "}"%char :: rest)%list) as (r & Er & Hr); [lia|done|].
    cbn [map] in *. rewrite Er. rewrite Ascii.eqb_refl. cbn [negb]. rewrite Hr. cbn [mbind option_bind app skip_ws].
    change (is_ws ",") with false. change (Ascii.eqb "," "}") with false. change (Ascii.eqb "," ",") with true. cbn iota.
    rewrite skip_ws_app by done. destruct (members_start w d) as (t & E). rewrite (map_cons member_text) in E.
    assert (skip_ws (chars (join (item_separator o) (member_text w :: map member_text d)) ++ "}"%char :: rest) =
      chars (join (item_separator o) (member_text w :: map member_text d)) ++ "}"%char :: rest)%list as ->.
    { rewrite E. by apply skip_ws_keep. }
    specialize (Hm w d rest Hpl). cbn [map] in Hm. rewrite Hm by lia. cbn. by rewrite of_chars_chars.
Qed.
Lemma dupdate_fresh {V} (a d : dict V) : NoDup (map fst (a ++ d)) -> dupdate a d = (a ++ d)%list.
Proof.
  revert a. induction d as [|[k v] d IH]; intros a Hn; [by rewrite app_nil_r|].
  change (dupdate a ((k, v) :: d)) with (dupdate (dset k v a) d).
  assert (dset k v a = a ++ [(k, v)])%list as ->.
  { assert (k ∉ map fst a) as Hk.
    { rewrite map_app in Hn. apply NoDup_app in Hn as (_ & Hd & _). intros H. apply (Hd k H). by left. }
    clear -Hk. induction a as [|[k2 v2] a IH]; [done|]. cbn in *. apply not_elem_of_cons in Hk as [Hne Hk].
    rewrite (proj2 (String.eqb_neq k k2) Hne). by rewrite IH. }
  rewrite IH; rewrite <- app_assoc; done.
Qed.

Lemma values_step f : reads_elements f -> reads_members f -> reads_values (S f).
Proof.
  intros He Hm v rest Hv Hlen Hs. destruct v as [|[]|z|x|s|l|d]; try reflexivity; [by apply value_number|done| | |].
  - cbn [dumps]. rewrite dumps_str_chars. cbn [app value]. rewrite Ascii.eqb_refl, <- app_assoc. cbn [app].
    rewrite string_body_dumps. cbn [mbind option_bind]. by rewrite of_chars_chars.
  - change (chars (dumps o (PList l))) with ("["%char :: chars (join (item_separator o) (map (dumps o) l) +:+ "]")) in *.
    rewrite chars_app in *. change (chars "]") with ["]"%char] in *. cbn [length] in Hlen. rewrite length_app in Hlen. cbn [length] in Hlen.
    destruct l as [|w l]; [done|]. destruct (item_start w l Hv) as (c & t & E & Hc & H2).
    cbn [app value]. change (Ascii.eqb "[" quote_char) with false. change (Ascii.eqb "[" "{") with false. change (Ascii.eqb "[" "[") with true.
    cbn iota. rewrite <- app_assoc. cbn [app]. specialize (He w l rest Hv). rewrite E in *. cbn [app] in *. rewrite skip_ws_keep, H2 by done.
    by rewrite He by lia.
  - rewrite dumps_dict in *. change (chars ("{" +:+ join (item_separator o) (map member_text d) +:+ "}"))
      with ("{"%char :: chars (join (item_separator o) (map member_text d) +:+ "}")) in *.
    rewrite chars_app in *. change (chars "}") with ["}"%char] in *. cbn [length] in Hlen. rewrite length_app in Hlen. cbn [length] in Hlen.
    cbn [plain] in Hv. apply andb_true_iff in Hv as [Hn%bool_decide_eq_true Hv].
    destruct d as [|w d]; [done|]. destruct (members_start w d) as (t & E).
    cbn [app value]. change (Ascii.eqb "{" quote_char) with false. change (Ascii.eqb "{" "{") with true.
    cbn iota. rewrite <- app_assoc. cbn [app]. specialize (Hm w d rest Hv). rewrite E in *. cbn [app] in *. rewrite skip_ws_keep by done.
    change (Ascii.eqb quote_char "}") with false. cbn iota. rewrite Hm by lia. cbn [mbind option_bind]. by rewrite dupdate_fresh.
Qed.

Lemma reads_all f : reads_values f /\ reads_elements f /\ reads_members f.
Proof.
  induction f as [|f (Hv & He & Hm)].
  - split; [|split]; [|by intros v l rest _ ?%Nat.nlt_0_r..].
    intros v rest Hv Hlen _. destruct (dumps_start v Hv) as (c & l & E & _). rewrite E in Hlen. cbn in Hlen. lia.
  - split; [by apply values_step|]. split; [by apply elements_step|by apply members_step].
Qed.

Lemma loads_dumps v : plain v = true -> py_json_loads pf (dumps o v) = Ok v.
Proof.
  intros Hv. unfold py_json_loads. pose proof (skip_value v [] Hv) as Es. rewrite app_nil_r in Es. rewrite Es.
  destruct (reads_all (length (chars (dumps o v)))) as [H _]. specialize (H v [] Hv). rewrite app_nil_r in H. by rewrite H.
Qed.
End roundtrip.
