(* ===== verification/Sha256.v ===== *)
(** * SHA-256

    [hashlib.sha256], which the code hashes routing keys, event ids and Redis
    slots with: FIPS 180-4 on 32-bit words held in [Z]. *)

From S2P Require Import Prelude PyStr PyVal.
From Stdlib Require Import Ascii.

Module Sha256.

Definition mask : Z := 4294967295.
Definition add32 (a b : Z) : Z := Z.land (a + b) mask.
Definition rotr (n x : Z) : Z :=
  Z.lor (Z.shiftr x n) (Z.land (Z.shiftl x (32 - n)) mask).
Definition not32 (x : Z) : Z := Z.lxor x mask.

Definition ch (x y z : Z) : Z := Z.lxor (Z.land x y) (Z.land (not32 x) z).
Definition maj (x y z : Z) : Z := Z.lxor (Z.lxor (Z.land x y) (Z.land x z)) (Z.land y z).
Definition Sigma0 (x : Z) : Z := Z.lxor (Z.lxor (rotr 2 x) (rotr 13 x)) (rotr 22 x).
Definition Sigma1 (x : Z) : Z := Z.lxor (Z.lxor (rotr 6 x) (rotr 11 x)) (rotr 25 x).
Definition sigma0 (x : Z) : Z := Z.lxor (Z.lxor (rotr 7 x) (rotr 18 x)) (Z.shiftr x 3).
Definition sigma1 (x : Z) : Z := Z.lxor (Z.lxor (rotr 17 x) (rotr 19 x)) (Z.shiftr x 10).

Definition K : list Z :=
  [1116352408; 1899447441; 3049323471; 3921009573; 961987163; 1508970993; 2453635748; 2870763221; 
   3624381080; 310598401; 607225278; 1426881987; 1925078388; 2162078206; 2614888103; 3248222580; 
   3835390401; 4022224774; 264347078; 604807628; 770255983; 1249150122; 1555081692; 1996064986; 
   2554220882; 2821834349; 2952996808; 3210313671; 3336571891; 3584528711; 113926993; 338241895; 
   666307205; 773529912; 1294757372; 1396182291; 1695183700; 1986661051; 2177026350; 2456956037; 
   2730485921; 2820302411; 3259730800; 3345764771; 3516065817; 3600352804; 4094571909; 275423344; 
   430227734; 506948616; 659060556; 883997877; 958139571; 1322822218; 1537002063; 1747873779; 
   1955562222; 2024104815; 2227730452; 2361852424; 2428436474; 2756734187; 3204031479; 3329325298]
   .

Definition H0 : list Z :=
  [1779033703; 3144134277; 1013904242; 2773480762; 1359893119; 2600822924; 528734635; 1541459225]
   .

(** The big-endian bytes of [z], [n] of them. *)
Fixpoint be_bytes (n : nat) (z : Z) : list Z :=
  match n with
  | O => []
  | S n' => be_bytes n' (z / 256) ++ [z mod 256]
  end.

Definition zeros (n : Z) : list Z := repeat 0 (Z.to_nat n).

(** The padded message: a one bit, zeros, and the bit length in 64 bits. *)
Definition pad (l : list Z) : list Z :=
  let n := Z.of_nat (length l) in
  l ++ 128 :: zeros ((55 - n) mod 64) ++ be_bytes 8 (8 * n).

Fixpoint words (l : list Z) : list Z :=
  match l with
  | a :: b :: c :: d :: l' => (((a * 256 + b) * 256 + c) * 256 + d) :: words l'
  | _ => []
  end.

(** The message schedule, newest word first. *)
Fixpoint schedule (n : nat) (w : list Z) : list Z :=
  match n with
  | O => w
  | S n' =>
      let x := add32 (add32 (sigma1 (nth 1 w 0)) (nth 6 w 0))
                     (add32 (sigma0 (nth 14 w 0)) (nth 15 w 0)) in
      schedule n' (x :: w)
  end.

Definition round (s : list Z) (kw : Z * Z) : list Z :=
  match s with
  | [a; b; c; d; e; f; g; h] =>
      let t1 := add32 (add32 h (Sigma1 e)) (add32 (ch e f g) (add32 kw.1 kw.2)) in
      let t2 := add32 (Sigma0 a) (maj a b c) in
      [add32 t1 t2; a; b; c; add32 d t1; e; f; g]
  | _ => s
  end.

Definition compress (h : list Z) (block : list Z) : list Z :=
  let w := rev (schedule 48 (rev (words block))) in
  zip_with add32 h (foldl round h (zip K w)).

Fixpoint blocks (n : nat) (l : list Z) : list (list Z) :=
  match n with
  | O => []
  | S n' => take 64 l :: blocks n' (drop 64 l)
  end.

Definition digest_words (l : list Z) : list Z :=
  let p := pad l in foldl compress H0 (blocks (length p / 64) p).

(** The digest as a number, [int(hexdigest(), 16)]. *)
Definition digest (bytes : string) : Z :=
  foldl (fun acc w => acc * 4294967296 + w) 0 (digest_words (map code (chars bytes))).

(** [hexdigest()]: 64 lower-case hexadecimal digits. *)
Fixpoint hex (n : nat) (z : Z) : list ascii :=
  match n with
  | O => []
  | S n' => (hex n' (z / 16) ++ [hex_digit (z mod 16)])%list
  end.
Definition hexdigest (bytes : string) : string := of_chars (hex 64 (digest bytes)).

(** ** Lemmas *)

Lemma hex_length n z : length (hex n z) = n.
Proof. revert z; induction n as [|n IH]; intros z; cbn; [done|]. rewrite length_app, IH. cbn. lia. Qed.

Lemma hexdigest_length s : String.length (hexdigest s) = 64%nat.
Proof.
  unfold hexdigest. rewrite <- (hex_length 64 (digest s)) at 2.
  generalize (hex 64 (digest s)). intros l. unfold of_chars.
  induction l as [|c l IH]; cbn; [done|]. by rewrite IH.
Qed.

Lemma hex_digit_not_space z : 0 <= z < 16 -> is_space (hex_digit z) = false.
Proof.
  intros H. assert (z = 0 \/ z = 1 \/ z = 2 \/ z = 3 \/ z = 4 \/ z = 5 \/ z = 6 \/ z = 7 \/ z = 8
    \/ z = 9 \/ z = 10 \/ z = 11 \/ z = 12 \/ z = 13 \/ z = 14 \/ z = 15) as Hz by lia.
  repeat destruct Hz as [->|Hz]; try done. by subst.
Qed.

Lemma hex_no_space n z : Forall (fun c => is_space c = false) (hex n z).
Proof.
  revert z; induction n as [|n IH]; intros z; cbn; [constructor|].
  apply Forall_app; split; [apply IH|]. constructor; [|constructor].
  apply hex_digit_not_space, Z.mod_pos_bound. lia.
Qed.

Lemma strip_hexdigest s : strip (hexdigest s) = hexdigest s.
Proof. apply strip_no_space, hex_no_space. Qed.

Lemma hexdigest_nonempty s : hexdigest s <> "".
Proof. intros H. pose proof (hexdigest_length s) as L. rewrite H in L. done. Qed.

(** The padded length is a whole number of 64-byte blocks. *)
Lemma be_bytes_length n z : length (be_bytes n z) = n.
Proof. revert z; induction n as [|n IH]; intros z; cbn; [done|]. rewrite length_app, IH. cbn. lia. Qed.

Lemma pad_length l : Z.of_nat (length (pad l)) mod 64 = 0.
Proof.
  unfold pad, zeros. rewrite length_app. cbn [length]. rewrite length_app, repeat_length, be_bytes_length.
  set (n := Z.of_nat (length l)).
  pose proof (Z.mod_pos_bound (55 - n) 64 ltac:(lia)).
  replace (Z.of_nat (length l + S (Z.to_nat ((55 - n) mod 64) + 8))) with (n + 9 + (55 - n) mod 64) by lia.
  rewrite Z.add_mod_idemp_r by lia. by replace (n + 9 + (55 - n)) with 64 by lia.
Qed.

Lemma add32_range a b : 0 <= add32 a b < 2 ^ 32.
Proof.
  unfold add32. change mask with (Z.ones 32). rewrite Z.land_ones by lia.
  apply Z.mod_pos_bound. lia.
Qed.

End Sha256.
