(* ===== verification/Contracts.v ===== *)
(** * Contracts

    The wire-level contracts of [relayna/contracts/]: field aliases, batch
    detection, deterministic event ids, payload schemas, terminal statuses and
    the envelope records.  Validation and dumping of the pydantic models is
    third-party code and enters through the class [Pydantic]. *)

From S2P Require Import Prelude PyStr PyVal Json Sha256.
From Stdlib Require Import Ascii.

(** ** Aliases *)

(** [ContractAliasConfig], relayna/contracts/aliases.py:8-13. *)
Record ContractAliasConfig := {
  field_aliases : dict string;
  http_aliases : dict string }.

(** [payload_alias_for], relayna/contracts/aliases.py:15-21. *)
Definition payload_alias_for (c : ContractAliasConfig) (field_name : string) : option string :=
  match dget field_name (field_aliases c) with
  | Some alias => nonempty (strip alias)
  | None => None
  end.

(** [http_alias_for], relayna/contracts/aliases.py:23-31. *)
Definition http_alias_for (c : ContractAliasConfig) (field_name : string) : option string :=
  let alias := dget field_name (http_aliases c) in
  let alias := if opt_truthy alias then alias else payload_alias_for c field_name in
  match alias with Some a => nonempty (strip a) | None => None end.

(** [DOCUMENT_COMPAT_ALIASES], relayna/contracts/aliases.py:34-34. *)
Definition DOCUMENT_COMPAT_ALIASES : ContractAliasConfig :=
  {| field_aliases := [("task_id", "documentId")]; http_aliases := [] |}.

(** [_alias_map], relayna/contracts/aliases.py:115-130. *)
Definition alias_map (c : option ContractAliasConfig) (source : string) : dict string :=
  if String.eqb source "payload" then
    let aliases := field_aliases DOCUMENT_COMPAT_ALIASES in
    match c with Some c => dupdate aliases (field_aliases c) | None => aliases end
  else
    match c with
    | None => []
    | Some c => dupdate (field_aliases c) (http_aliases c)
    end.

(** One iteration of the copy loop and of the drop loop of
    [normalize_contract_aliases]. *)
(** [normalize_contract_aliases], relayna/contracts/aliases.py:47-51. *)
Definition copy_alias (data : pydict) (ca : string * string) : pydict :=
  if din ca.1 data then data
  else match dget ca.2 data with Some v => dset ca.1 v data | None => data end.
(** [normalize_contract_aliases], relayna/contracts/aliases.py:52-55. *)
Definition drop_alias (data : pydict) (ca : string * string) : pydict :=
  if din ca.1 data then dpop ca.2 data else data.

(** [data["task_id"] = str(data["task_id"])] when present and not [None]. *)
(** [normalize_contract_aliases], relayna/contracts/aliases.py:56-57. *)
Definition stringify_task_id (data : pydict) : pydict :=
  match dget "task_id" data with
  | Some PNone | None => data
  | Some v => dset "task_id" (PStr (py_str v)) data
  end.

(** [normalize_contract_aliases], relayna/contracts/aliases.py:37-58. *)
Definition normalize_contract_aliases_from (source : string) (drop_aliases : bool)
    (event : pydict) (c : option ContractAliasConfig) : pydict :=
  let data := foldl copy_alias event (alias_map c source) in
  let data := if drop_aliases then foldl drop_alias data (alias_map c source) else data in
  stringify_task_id data.

(** The two ways the SDK calls it: on payloads, aliases dropped or kept. *)
Definition normalize_contract_aliases (event : pydict) (c : option ContractAliasConfig) : pydict :=
  normalize_contract_aliases_from "payload" true event c.

(** One iteration of [denormalize_contract_aliases]. *)
(** [denormalize_contract_aliases], relayna/contracts/aliases.py:71-79. *)
Definition put_alias (alias_only : bool) (data : pydict) (ca : string * string) : pydict :=
  match dget ca.1 data with
  | None | Some PNone => data
  | Some v =>
      let data := dset ca.2 v data in
      if alias_only then dpop ca.1 data else data
  end.

(** [denormalize_contract_aliases], relayna/contracts/aliases.py:61-80. *)
Definition denormalize_contract_aliases (event : pydict) (c : option ContractAliasConfig)
    (source : string) (alias_only : bool) : pydict :=
  foldl (put_alias alias_only) event (alias_map c source).

(** [normalize_event_aliases], relayna/contracts/aliases.py:83-90. *)
Definition normalize_event_aliases (event : pydict) (c : option ContractAliasConfig) : pydict :=
  normalize_contract_aliases_from "payload" false event
    (Some (from_opt DOCUMENT_COMPAT_ALIASES c)).

(** [denormalize_document_aliases], relayna/contracts/aliases.py:93-96. *)
Definition denormalize_document_aliases (event : pydict) : pydict :=
  denormalize_contract_aliases event (Some DOCUMENT_COMPAT_ALIASES) "payload" false.

(** [public_output_aliases], relayna/contracts/aliases.py:99-109. *)
Definition public_output_aliases (event : pydict) (c : option ContractAliasConfig)
    (source : string) : pydict :=
  match c with
  | None => event
  | Some _ => denormalize_contract_aliases event c source true
  end.

(** ** Compatibility *)

(** [normalize_task_collection], relayna/contracts/compatibility.py:12-16. *)
Definition normalize_task_collection (tasks : list pydict) (c : option ContractAliasConfig) :
    list pydict :=
  map (fun t => normalize_contract_aliases_from "payload" false t c) tasks.

(** [is_batch_task_payload], relayna/contracts/compatibility.py:19-21. *)
Definition is_batch_task_payload (payload : pydict) : bool :=
  match dgetv "batch_id" payload, dgetv "tasks" payload with
  | PStr _, PList _ => true
  | _, _ => false
  end.

(** The [json.dumps] call that event ids hash. *)
Definition event_id_dumps : dumps_opts := DumpsOpts false true "," ":".

(** [ensure_status_event_id], relayna/contracts/compatibility.py:35-42. *)
Definition event_digest (event : pydict) : string :=
  Sha256.hexdigest (utf8 (dumps event_id_dumps (PDict (dpop "event_id" event)))).

(** [ensure_status_event_id], relayna/contracts/compatibility.py:24-43. *)
Definition ensure_status_event_id (event : pydict) : pydict :=
  match dget "event_id" event with
  | Some (PStr existing) =>
      if String.eqb (strip existing) "" then dset "event_id" (PStr (event_digest event)) event
      else dset "event_id" (PStr (strip existing)) event
  | _ => dset "event_id" (PStr (event_digest event)) event
  end.

(** ** Schemas *)

(** [sorted] on distinct strings. *)
Definition sorted_strs (l : list string) : list string :=
  map fst (sort_items (map (fun s => (s, ())) l)).

(** [PayloadSchema], relayna/contracts/schemas.py:9-15. *)
Record PayloadSchema := {
  ps_name : string;
  ps_version : string;
  required_fields : list string;
  optional_fields : list string }.

(** [PayloadSchema.validate_payload], relayna/contracts/schemas.py:17-25. *)
Definition validate_payload (s : PayloadSchema) (payload : pydict) : list string :=
  let missing := List.filter (fun f => negb (din f payload)) (required_fields s) in
  let unknown := sorted_strs (List.filter (fun k =>
    negb (str_in k (required_fields s)) && negb (str_in k (optional_fields s))) (dkeys payload)) in
  (match missing with [] => [] | _ => ["missing required fields: " +:+ join ", " missing] end ++
   match unknown with [] => [] | _ => ["unknown fields: " +:+ join ", " unknown] end)%list.

(** [ActionSchema], relayna/contracts/schemas.py:28-33. *)
Record ActionSchema := {
  as_action : string;
  as_description : option string;
  as_payload : option PayloadSchema }.

(** [ActionSchema.validate_payload], relayna/contracts/schemas.py:35-38. *)
Definition action_validate_payload (a : ActionSchema) (payload : pydict) : list string :=
  match as_payload a with None => [] | Some s => validate_payload s payload end.

(** [WorkflowActionSchema.for_action], relayna/contracts/schemas.py:46-50. *)
Definition for_action (actions : list ActionSchema) (action : string) : option ActionSchema :=
  find_first (fun item => String.eqb (as_action item) action) actions.

(** [WorkflowActionSchema.validate_action], relayna/contracts/schemas.py:52-56. *)
Definition validate_action (actions : list ActionSchema) (action : string) (payload : pydict) :
    list string :=
  match for_action actions action with
  | None => ["unsupported action '" +:+ action +:+ "'"]
  | Some schema => action_validate_payload schema payload
  end.

(** [TerminalStatusSet.is_terminal], relayna/contracts/status.py:38-47.  A truthy status
    that is not a string has no [lower]. *)
Definition is_terminal (statuses : list string) (status : pyval) : result bool :=
  if negb (truthy status) then Ok false
  else match status with
       | PStr s => Ok (str_in (lower s) (map lower statuses))
       | _ => Raise (Exn XAttributeError "AttributeError"
                ("'" +:+ class_name status +:+ "' object has no attribute 'lower'"))
       end.

(** ** Envelopes *)

(** [TaskEnvelope], relayna/contracts/task.py:9-21.  Times are microseconds since the
    epoch; [te_extra] holds the undeclared fields. *)
Record TaskEnvelope := {
  te_task_id : string;
  te_payload : pydict;
  te_created_at : Z;
  te_service : option string;
  te_task_type : option string;
  te_correlation_id : option string;
  te_priority : option Z;
  te_spec_version : string;
  te_extra : pydict }.

(** [BatchTaskEnvelope], relayna/contracts/task.py:24-33. *)
Record BatchTaskEnvelope := {
  be_batch_id : string;
  be_tasks : list TaskEnvelope;
  be_meta : pydict;
  be_created_at : Z;
  be_spec_version : string }.

(** [StatusEventEnvelope], relayna/contracts/status.py:13-27. *)
Record StatusEventEnvelope := {
  se_task_id : string;
  se_status : string;
  se_timestamp : Z;
  se_message : option string;
  se_meta : pydict;
  se_result : option pydict;
  se_correlation_id : option string;
  se_event_id : option string;
  se_service : option string;
  se_spec_version : string;
  se_extra : pydict }.

(** [WorkflowEnvelope], relayna/contracts/workflow.py:9-23. *)
Record WorkflowEnvelope := {
  we_task_id : string;
  we_message_id : string;
  we_correlation_id : option string;
  we_stage : string;
  we_origin_stage : option string;
  we_action : option string;
  we_payload : pydict;
  we_meta : pydict;
  we_priority : option Z;
  we_spec_version : string;
  we_extra : pydict }.

(** pydantic's [model_validate] ([None] for [ValidationError]) and
    [model_dump(mode="json", exclude_none=True)] on the four envelopes. *)
Class Pydantic := {
  task_validate : pyval -> option TaskEnvelope;
  task_dump : TaskEnvelope -> pydict;
  batch_validate : pyval -> option BatchTaskEnvelope;
  batch_dump : BatchTaskEnvelope -> pydict;
  status_validate : pyval -> option StatusEventEnvelope;
  status_dump : StatusEventEnvelope -> pydict;
  workflow_validate : pyval -> option WorkflowEnvelope;
  workflow_dump : WorkflowEnvelope -> pydict }.

Section envelopes.
Context `{Pydantic}.

(** [StatusEventEnvelope.as_transport_dict], relayna/contracts/status.py:29-32. *)
Definition status_transport_dict (e : StatusEventEnvelope) : pydict :=
  ensure_status_event_id
    (dsetdefault "correlation_id"
       (opt_str (opt_or (se_correlation_id e) (Some (se_task_id e)))) (status_dump e)).

(** [WorkflowEnvelope.as_transport_dict], relayna/contracts/workflow.py:25-28. *)
Definition workflow_transport_dict (e : WorkflowEnvelope) : pydict :=
  dsetdefault "correlation_id"
    (opt_str (opt_or (we_correlation_id e) (Some (we_task_id e)))) (workflow_dump e).

End envelopes.

(** ** Event ids *)

Lemma ensure_event_id_get d :
  exists s, dget "event_id" (ensure_status_event_id d) = Some (PStr s) /\ s <> "" /\ strip s = s.
Proof.
  unfold ensure_status_event_id.
  assert (exists s, Some (PStr (event_digest d)) = Some (PStr s) /\ s <> "" /\ strip s = s) as Hd.
  { exists (event_digest d). split_and!; [done|apply Sha256.hexdigest_nonempty|apply Sha256.strip_hexdigest]. }
  destruct (dget "event_id" d) as [[]|] eqn:E; rewrite ?dget_dset_eq; try exact Hd.
  destruct (String.eqb (strip s) "") eqn:Es; rewrite dget_dset_eq; [exact Hd|].
  exists (strip s). bool_to_prop. split_and!; [done|done|apply strip_idem].
Qed.

(** [ensure_status_event_id] always leaves a non-empty, stripped string id,
    applying it again changes nothing, and every other field is untouched. *)
Theorem ensure_event_id_canonical d :
  (exists s, dget "event_id" (ensure_status_event_id d) = Some (PStr s) /\ s <> "" /\ strip s = s) /\
  ensure_status_event_id (ensure_status_event_id d) = ensure_status_event_id d /\
  (forall k, k <> "event_id" -> dget k (ensure_status_event_id d) = dget k d).
Proof.
  destruct (ensure_event_id_get d) as (s & Hs & Hne & Hst). split_and!.
  - by exists s.
  - unfold ensure_status_event_id at 1. rewrite Hs, Hst.
    destruct (String.eqb s "") eqn:E; bool_to_prop; [done|]. by apply dset_get_id.
  - intros k Hk. unfold ensure_status_event_id.
    repeat case_goal; rewrite dget_dset_ne; done.
Qed.

Lemma event_digest_permutation d e :
  dict_ok d -> Permutation d e -> event_digest d = event_digest e.
Proof.
  intros Hok HP. unfold event_digest. do 2 f_equal.
  apply dumps_permutation; [done|by apply dict_ok_dpop|by apply dpop_permutation].
Qed.

(** The event id does not depend on the order in which the producer inserted
    the fields: two events with the same fields get the same id. *)
Theorem event_id_deterministic d e :
  dict_ok d -> Permutation d e ->
  dget "event_id" (ensure_status_event_id d) = dget "event_id" (ensure_status_event_id e).
Proof.
  intros Hok HP. unfold ensure_status_event_id.
  rewrite <- (dget_permutation "event_id" d e), <- (event_digest_permutation d e) by done.
  repeat case_goal; by rewrite !dget_dset_eq.
Qed.

Lemma event_id_deterministic_witness :
  dget "event_id" (ensure_status_event_id [("task_id", PStr "t"); ("status", PStr "done")]) =
  dget "event_id" (ensure_status_event_id [("status", PStr "done"); ("task_id", PStr "t")]).
Proof.
  apply event_id_deterministic.
  - unfold dict_ok. apply (bool_decide_unpack _). by vm_compute.
  - apply perm_swap.
Defined.

(** ** Payload schemas *)

Lemma insert_item_elem {V} (x : string * V) kv d : x ∈ insert_item kv d <-> x = kv \/ x ∈ d.
Proof.
  induction d as [|y d IH]; cbn; [set_solver|]. case_goal; [set_solver|].
  rewrite elem_of_cons, IH. set_solver.
Qed.

Lemma sorted_strs_elem s l : s ∈ sorted_strs l <-> s ∈ l.
Proof.
  unfold sorted_strs. rewrite list_elem_of_fmap. split.
  - intros ([s' []] & -> & H). cbn. induction l as [|y l IH]; cbn in H; [set_solver|].
    apply insert_item_elem in H as [[= ->]|H]; set_solver.
  - intros H. exists (s, ()). split; [done|].
    induction l as [|y l IH]; cbn; [set_solver|].
    apply insert_item_elem. apply elem_of_cons in H as [->|H]; auto.
Qed.

Lemma list_nil_elem {A} (l : list A) : l = [] <-> forall x, x ∉ l.
Proof.
  split; [intros ->; set_solver|]. destruct l as [|x l]; [done|]. intros H. destruct (H x). set_solver.
Qed.

Lemma elem_of_bfilter {A} (p : A -> bool) x l : x ∈ List.filter p l <-> x ∈ l /\ p x = true.
Proof. by rewrite !list_elem_of_In, filter_In. Qed.

(** A payload passes [PayloadSchema.validate_payload] exactly when it has every
    required field and no field that is neither required nor optional. *)
Theorem validate_payload_spec s payload :
  validate_payload s payload = [] <->
  (forall f, f ∈ required_fields s -> f ∈ dkeys payload) /\
  (forall k, k ∈ dkeys payload -> k ∈ required_fields s \/ k ∈ optional_fields s).
Proof.
  set (missing := List.filter (fun f => negb (din f payload)) (required_fields s)).
  set (unknown := List.filter (fun k => negb (str_in k (required_fields s)) &&
    negb (str_in k (optional_fields s))) (dkeys payload)).
  assert (missing = [] <-> forall f, f ∈ required_fields s -> f ∈ dkeys payload) as <-.
  { rewrite list_nil_elem. unfold missing. setoid_rewrite elem_of_bfilter.
    setoid_rewrite negb_true_iff. setoid_rewrite <- not_true_iff_false. setoid_rewrite din_keys.
    split; intros Hx f; specialize (Hx f); destruct (decide (f ∈ dkeys payload)); naive_solver. }
  assert (sorted_strs unknown = [] <-> forall k, k ∈ dkeys payload ->
    k ∈ required_fields s \/ k ∈ optional_fields s) as <-.
  { rewrite list_nil_elem. unfold unknown. setoid_rewrite sorted_strs_elem.
    setoid_rewrite elem_of_bfilter. setoid_rewrite andb_true_iff. setoid_rewrite negb_true_iff.
    setoid_rewrite str_in_not.
    split; intros Hx k; specialize (Hx k); destruct (decide (k ∈ required_fields s)),
      (decide (k ∈ optional_fields s)); naive_solver. }
  unfold validate_payload. fold missing unknown.
  destruct missing, (sorted_strs unknown); cbn; naive_solver.
Qed.

(** ** Alias folds act pairwise

    Every alias loop visits pairs [(canonical, alias)] and touches only the two
    keys of the pair, so over disjoint pairs the loop is one step per pair. *)

Section local_fold.
Context (f : pydict -> string * string -> pydict).
Hypothesis f_frame : forall d p k, k <> p.1 -> k <> p.2 -> dget k (f d p) = dget k d.
Hypothesis f_reads : forall d d' p k, p.1 <> p.2 -> k = p.1 \/ k = p.2 ->
  dget p.1 d = dget p.1 d' -> dget p.2 d = dget p.2 d' -> dget k (f d p) = dget k (f d' p).

Lemma fold_frame m d k : k ∉ map fst m -> k ∉ map snd m -> dget k (foldl f d m) = dget k d.
Proof.
  revert d; induction m as [|p m IH]; intros d H1 H2; cbn in *; [done|].
  rewrite not_elem_of_cons in H1. rewrite not_elem_of_cons in H2. destruct H1, H2.
  rewrite IH by done. by apply f_frame.
Qed.

Lemma fold_at m d p k :
  NoDup (map fst m ++ map snd m) -> p ∈ m -> k = p.1 \/ k = p.2 ->
  dget k (foldl f d m) = dget k (f d p).
Proof.
  revert d; induction m as [|q m IH]; intros d Hnd Hp Hk; [set_solver|].
  cbn in Hnd. rewrite <- Permutation_middle in Hnd.
  apply NoDup_cons in Hnd as [H1 Hnd]. apply NoDup_cons in Hnd as [H2 Hnd].
  apply not_elem_of_cons in H1 as [H3 H1]. apply not_elem_of_app in H1 as [H1 H1'].
  apply not_elem_of_app in H2 as [H2 H2']. apply elem_of_cons in Hp.
  cbn [foldl]. destruct Hp as [<-|Hp].
  - destruct Hk as [-> | ->]; by apply fold_frame.
  - rewrite IH by done.
    assert (forall j, j = p.1 \/ j = p.2 -> j <> q.1 /\ j <> q.2) as Hne.
    { intros j Hj. assert (j ∈ map fst m \/ j ∈ map snd m).
      { rewrite !list_elem_of_In, !in_map_iff. setoid_rewrite <- list_elem_of_In.
        destruct Hj as [-> | ->]; [left|right]; by exists p. }
      split; intros ->; naive_solver. }
    assert (p.1 <> p.2).
    { intros He. apply NoDup_app in Hnd as (_ & Hdis & _). apply (Hdis p.1).
      - apply list_elem_of_In, in_map_iff. exists p. by rewrite <- list_elem_of_In.
      - rewrite He. apply list_elem_of_In, in_map_iff. exists p. by rewrite <- list_elem_of_In. }
    apply f_reads; [done|done| |]; apply f_frame; apply Hne; auto.
Qed.

End local_fold.

Ltac eqb_cases := repeat
  match goal with
  | |- context [String.eqb ?a ?b] => destruct (String.eqb a b) eqn:?; bool_to_prop; subst
  | H : context [String.eqb ?a ?b] |- _ => destruct (String.eqb a b) eqn:?; bool_to_prop; subst
  end.

Ltac alias_step :=
  intros; unfold copy_alias, drop_alias, put_alias, din in *;
  repeat match goal with
  | H : dget ?k ?d = _ |- context [dget ?k ?d] => rewrite H
  end;
  repeat (case_goal; rewrite ?dget_dset, ?dget_dpop); eqb_cases; try congruence; try done.

Lemma copy_frame d p k : k <> p.1 -> k <> p.2 -> dget k (copy_alias d p) = dget k d.
Proof. alias_step. Qed.
Lemma drop_frame d p k : k <> p.1 -> k <> p.2 -> dget k (drop_alias d p) = dget k d.
Proof. alias_step. Qed.
Lemma put_frame b d p k : k <> p.1 -> k <> p.2 -> dget k (put_alias b d p) = dget k d.
Proof. alias_step. Qed.

Lemma copy_reads d d' p k : p.1 <> p.2 -> k = p.1 \/ k = p.2 ->
  dget p.1 d = dget p.1 d' -> dget p.2 d = dget p.2 d' ->
  dget k (copy_alias d p) = dget k (copy_alias d' p).
Proof. intros ? [-> | ->]; alias_step. Qed.
Lemma drop_reads d d' p k : p.1 <> p.2 -> k = p.1 \/ k = p.2 ->
  dget p.1 d = dget p.1 d' -> dget p.2 d = dget p.2 d' ->
  dget k (drop_alias d p) = dget k (drop_alias d' p).
Proof. intros ? [-> | ->]; alias_step. Qed.
Lemma put_reads b d d' p k : p.1 <> p.2 -> k = p.1 \/ k = p.2 ->
  dget p.1 d = dget p.1 d' -> dget p.2 d = dget p.2 d' ->
  dget k (put_alias b d p) = dget k (put_alias b d' p).
Proof. intros ? [-> | ->]; alias_step. Qed.

(** One pair: publishing under the alias and reading it back. *)
Lemma pair_roundtrip d d1 d2 p k :
  p.1 <> p.2 -> k = p.1 \/ k = p.2 -> dget p.2 d = None ->
  (forall j, j = p.1 \/ j = p.2 -> dget j d1 = dget j (put_alias true d p)) ->
  (forall j, j = p.1 \/ j = p.2 -> dget j d2 = dget j (copy_alias d1 p)) ->
  dget k (drop_alias d2 p) = dget k d.
Proof.
  intros Hne Hk Ha H1 H2.
  rewrite (drop_reads d2 (copy_alias d1 p)) by auto.
  assert (dget k (drop_alias (copy_alias d1 p) p) =
          dget k (drop_alias (copy_alias (put_alias true d p) p) p)) as ->.
  { apply drop_reads; [done|done| |]; apply copy_reads; auto. }
  clear H1 H2. unfold put_alias, copy_alias, drop_alias, din.
  destruct (dget p.1 d) as [v|] eqn:E; [destruct (decide (v = PNone)) as [->|Hv]|].
  - rewrite !E. rewrite dget_dpop. destruct Hk as [-> | ->]; eqb_cases; congruence.
  - replace (match v with PNone => d | _ => dpop p.1 (dset p.2 v d) end)
      with (dpop p.1 (dset p.2 v d)) by (by destruct v).
    repeat (rewrite ?dget_dpop, ?dget_dset, ?String.eqb_refl; eqb_cases; try congruence).
    all: destruct Hk as [-> | ->]; repeat (rewrite ?dget_dpop, ?dget_dset, ?String.eqb_refl;
      eqb_cases; try congruence).
  - rewrite !E, !Ha, !E. by destruct Hk as [-> | ->].
Qed.

(** An alias configuration whose canonical names and aliases are all distinct,
    on an event that does not already use an alias as a field. *)
Definition alias_safe (m : dict string) (d : pydict) : Prop :=
  NoDup (map fst m ++ map snd m) /\ (forall a, a ∈ map snd m -> a ∉ dkeys d).

Lemma stringify_id d : (forall v, dget "task_id" d = Some v -> v = PNone \/ exists s, v = PStr s) ->
  stringify_task_id d = d.
Proof.
  intros H. unfold stringify_task_id. destruct (dget "task_id" d) as [v|] eqn:E; [|done].
  destruct (H v eq_refl) as [->|[s ->]]; [done|]. by apply dset_get_id.
Qed.

Lemma foldl_roundtrip m d k : alias_safe m d ->
  dget k (foldl drop_alias (foldl copy_alias (foldl (put_alias true) d m) m) m) = dget k d.
Proof.
  intros [Hnd Ha]. destruct (decide (k ∈ map fst m \/ k ∈ map snd m)) as [Hk|Hk].
  - assert (exists p, p ∈ m /\ (k = p.1 \/ k = p.2)) as (p & Hp & Hkp).
    { rewrite !list_elem_of_In, !in_map_iff in Hk. setoid_rewrite <- list_elem_of_In in Hk.
      destruct Hk as [(p & <- & ?)|(p & <- & ?)]; exists p; auto. }
    assert (p.1 ∈ map fst m) by (apply list_elem_of_In, in_map_iff; exists p; by rewrite <- list_elem_of_In).
    assert (p.2 ∈ map snd m) by (apply list_elem_of_In, in_map_iff; exists p; by rewrite <- list_elem_of_In).
    rewrite (fold_at drop_alias drop_frame drop_reads m _ p) by done.
    apply (pair_roundtrip d (foldl (put_alias true) d m)
      (foldl copy_alias (foldl (put_alias true) d m) m)); [|done| | |].
    + intros He. apply NoDup_app in Hnd as (_ & Hdis & _). apply (Hdis p.1); [done|congruence].
    + apply dget_none_keys. auto.
    + intros j Hj. apply (fold_at (put_alias true)); auto using put_frame, put_reads.
    + intros j Hj. apply (fold_at copy_alias); auto using copy_frame, copy_reads.
  - apply Decidable.not_or in Hk as [Hk1 Hk2].
    rewrite !(fold_frame drop_alias), !(fold_frame copy_alias), !(fold_frame (put_alias true));
      auto using drop_frame, copy_frame, put_frame.
Qed.


