(* ===== verification/Policies.v ===== *)
(** * Retry decisions

    [relayna/policies/retry.py]: the static policy both consumers ask what to
    do with a failed message. *)

From S2P Require Import Prelude PyStr PyVal.

(** [RetryDecisionAction], relayna/policies/retry.py:8-12. *)
Inductive RetryDecisionAction := RETRY | DEAD_LETTER | REJECT | REQUEUE.

(** [RetryDecisionAction], relayna/policies/retry.py:8-12. *)
Definition action_value (a : RetryDecisionAction) : string :=
  match a with
  | RETRY => "retry" | DEAD_LETTER => "dead_letter" | REJECT => "reject" | REQUEUE => "requeue"
  end.

(** [RetryDecisionContext], relayna/policies/retry.py:15-29. *)
Record RetryDecisionContext := {
  rc_worker_type : string;
  rc_queue_name : string;
  rc_retry_attempt : Z;
  rc_reason : string;
  rc_exception_type : option string;
  rc_task_id : option string;
  rc_task_type : option string;
  rc_workflow_stage : option string;
  rc_headers : pydict;
  rc_max_retries : option Z;
  rc_failure_action : string }.

(** [RetryDecision], relayna/policies/retry.py:32-39. *)
Record RetryDecision := {
  rd_action : RetryDecisionAction;
  rd_retry_attempt : Z;
  rd_max_retries : option Z;
  rd_reason : string;
  rd_policy_name : string }.

(** [StaticRetryDecisionPolicy.decide_retry], relayna/policies/retry.py:50-80. *)
Definition decide_retry (policy_name : string) (c : RetryDecisionContext) : RetryDecision :=
  match rc_max_retries c with
  | None =>
      {| rd_action := if String.eqb (lower (rc_failure_action c)) (action_value REQUEUE)
                      then REQUEUE else REJECT;
         rd_retry_attempt := rc_retry_attempt c;
         rd_max_retries := None;
         rd_reason := rc_reason c;
         rd_policy_name := "no_retry_policy" |}
  | Some max_retries =>
      if rc_retry_attempt c <? max_retries then
        {| rd_action := RETRY;
           rd_retry_attempt := rc_retry_attempt c + 1;
           rd_max_retries := Some max_retries;
           rd_reason := rc_reason c;
           rd_policy_name := policy_name |}
      else
        {| rd_action := DEAD_LETTER;
           rd_retry_attempt := rc_retry_attempt c;
           rd_max_retries := Some max_retries;
           rd_reason := rc_reason c;
           rd_policy_name := policy_name |}
  end.

(** [decide_static_retry], relayna/policies/retry.py:91-92. *)
Definition decide_static_retry (c : RetryDecisionContext) : RetryDecision :=
  decide_retry "static_retry_policy" c.

(** [RuntimePolicyEngine.decide_retry], relayna/policies/retry.py:83-88.  The consumers
    build the engine with its default policy. *)
Definition engine_decide_retry (c : RetryDecisionContext) : RetryDecision :=
  decide_static_retry c.

(** What the policy promises the consumers. *)
Inductive decides (c : RetryDecisionContext) : RetryDecisionAction -> Z -> Prop :=
| decides_none_requeue : rc_max_retries c = None -> lower (rc_failure_action c) = "requeue" ->
    decides c REQUEUE (rc_retry_attempt c)
| decides_none_reject : rc_max_retries c = None -> lower (rc_failure_action c) <> "requeue" ->
    decides c REJECT (rc_retry_attempt c)
| decides_retry m : rc_max_retries c = Some m -> rc_retry_attempt c < m ->
    decides c RETRY (rc_retry_attempt c + 1)
| decides_dead_letter m : rc_max_retries c = Some m -> m <= rc_retry_attempt c ->
    decides c DEAD_LETTER (rc_retry_attempt c).

(** The engine's decision is the specified one, and no other action or
    attempt number is: retries happen exactly while the attempt is below the
    maximum, and the message is dead-lettered at the attempt it reached. *)
Theorem engine_decide_retry_spec c a n :
  decides c a n <->
  a = rd_action (engine_decide_retry c) /\ n = rd_retry_attempt (engine_decide_retry c).
Proof.
  unfold engine_decide_retry, decide_static_retry, decide_retry.
  destruct (rc_max_retries c) as [m|] eqn:Em.
  - destruct (rc_retry_attempt c <? m) eqn:E; bool_to_prop; cbn; split.
    + inversion 1; simplify_eq; try done; lia.
    + intros [-> ->]. by eapply decides_retry.
    + inversion 1; simplify_eq; try done; lia.
    + intros [-> ->]. by eapply decides_dead_letter.
  - cbn. destruct (String.eqb (lower (rc_failure_action c)) "requeue") eqn:E; bool_to_prop; split.
    + inversion 1; try congruence; done.
    + intros [-> ->]. by apply decides_none_requeue.
    + inversion 1; try congruence; done.
    + intros [-> ->]. by apply decides_none_reject.
Qed.

Lemma decide_retry_cases c :
  (rc_max_retries c = None /\ rd_action (engine_decide_retry c) = REQUEUE) \/
  (rc_max_retries c = None /\ rd_action (engine_decide_retry c) = REJECT) \/
  (exists m, rc_max_retries c = Some m /\ rc_retry_attempt c < m /\
     rd_action (engine_decide_retry c) = RETRY /\
     rd_retry_attempt (engine_decide_retry c) = rc_retry_attempt c + 1 /\
     rd_max_retries (engine_decide_retry c) = Some m) \/
  (exists m, rc_max_retries c = Some m /\ m <= rc_retry_attempt c /\
     rd_action (engine_decide_retry c) = DEAD_LETTER /\
     rd_retry_attempt (engine_decide_retry c) = rc_retry_attempt c /\
     rd_max_retries (engine_decide_retry c) = Some m).
Proof.
  unfold engine_decide_retry, decide_static_retry, decide_retry.
  destruct (rc_max_retries c) as [m|] eqn:Em.
  - destruct (rc_retry_attempt c <? m) eqn:E; bool_to_prop; cbn.
    + right; right; left. by exists m.
    + right; right; right. by exists m.
  - cbn. destruct (String.eqb _ _); auto.
Qed.
