(* ===== verification/TopicMatch.v ===== *)
(** * Topic binding keys

    AMQP topic matching is written twice in the repository: as a memoized
    recursion in [consumer/context.py] and as a loop in
    [topology/workflow_graph.py].  Both are modelled and proved to decide the
    AMQP relation. *)

From S2P Require Import Prelude PyStr.
From Stdlib Require Import Ascii.

(** The relation of the AMQP specification: [*] is exactly one word, [#] zero or
    more words. *)
Inductive topic_matches : list string -> list string -> Prop :=
| tm_nil : topic_matches [] []
| tm_word w b r : w <> "#" -> topic_matches b r -> topic_matches (w :: b) (w :: r)
| tm_star w b r : topic_matches b r -> topic_matches ("*" :: b) (w :: r)
| tm_hash_nil b r : topic_matches b r -> topic_matches ("#" :: b) r
| tm_hash_cons w b r : topic_matches ("#" :: b) r -> topic_matches ("#" :: b) (w :: r).

(** [_topic_binding_matches._matches], relayna/consumer/context.py:455-469: the indices
    into the two tuples are the remaining suffixes. *)
Fixpoint matches_rec (b : list string) : list string -> bool :=
  match b with
  | [] => fun r => match r with [] => true | _ => false end
  | token :: b' =>
      if String.eqb token "#" then
        fix hash (r : list string) : bool :=
          matches_rec b' r || match r with [] => false | _ :: r' => hash r' end
      else fun r =>
        match r with
        | [] => false
        | w :: r' => if String.eqb token "*" || String.eqb token w then matches_rec b' r' else false
        end
  end.

(** [_topic_binding_matches], relayna/consumer/context.py:451-471. *)
Definition topic_binding_matches (binding_key routing_key : string) : bool :=
  matches_rec (split "." binding_key) (split "." routing_key).

(** [any(p(s) for s in suffixes of r)]: [range(routing_index, len(routing_parts) + 1)]. *)
Fixpoint any_suffix (p : list string -> bool) (r : list string) : bool :=
  p r || match r with [] => false | _ :: r' => any_suffix p r' end.

(** [_matches_parts], relayna/topology/workflow_graph.py:94-113: the loop returns early on a final
    [#]. *)
Fixpoint matches_parts (b r : list string) : bool :=
  match b with
  | [] => match r with [] => true | _ => false end
  | token :: b' =>
      if String.eqb token "#" then
        match b' with [] => true | _ => any_suffix (matches_parts b') r end
      else
        match r with
        | [] => false
        | w :: r' =>
            if negb (String.eqb token "*" || String.eqb token w) then false
            else matches_parts b' r'
        end
  end.

(** [_topic_binding_matches], relayna/topology/workflow_graph.py:88-91. *)
Definition graph_topic_binding_matches (binding_key routing_key : string) : bool :=
  matches_parts (split "." binding_key) (split "." routing_key).

(** ** Both decide the relation *)

Lemma topic_nil_inv r : topic_matches [] r <-> r = [].
Proof. split; [by inversion 1|intros ->; constructor]. Qed.

Lemma topic_hash_inv b r :
  topic_matches ("#" :: b) r <->
  topic_matches b r \/ exists w r', r = w :: r' /\ topic_matches ("#" :: b) r'.
Proof.
  split.
  - inversion 1; subst; try done; naive_solver.
  - intros [H|(w & r' & -> & H)]; [by apply tm_hash_nil|by apply tm_hash_cons].
Qed.

Lemma topic_word_inv t b r : t <> "#" ->
  topic_matches (t :: b) r <-> exists w r', r = w :: r' /\ (t = "*" \/ t = w) /\ topic_matches b r'.
Proof.
  intros Ht. split.
  - inversion 1; subst; try done; naive_solver.
  - intros (w & r' & -> & [-> | ->] & H); [by apply tm_star|by apply tm_word].
Qed.

Lemma topic_hash_all r : topic_matches ["#"] r.
Proof. induction r as [|w r IH]; [apply tm_hash_nil, tm_nil|by apply tm_hash_cons]. Qed.

Lemma token_test t w :
  String.eqb t "*" || String.eqb t w = true <-> t = "*" \/ t = w.
Proof. rewrite orb_true_iff, !String.eqb_eq. done. Qed.

Lemma matches_rec_spec b r : matches_rec b r = true <-> topic_matches b r.
Proof.
  revert r; induction b as [|t b IH]; intros r.
  - rewrite topic_nil_inv. by destruct r.
  - cbn [matches_rec]. destruct (String.eqb t "#") eqn:Et; bool_to_prop.
    + subst t. induction r as [|w r IHr]; rewrite topic_hash_inv, orb_true_iff, IH; naive_solver.
    + rewrite topic_word_inv by done. destruct r as [|w r]; [naive_solver|].
      destruct (String.eqb t "*" || String.eqb t w) eqn:E.
      * apply token_test in E. rewrite IH. naive_solver.
      * apply not_true_iff_false in E. rewrite token_test in E. naive_solver.
Qed.

Lemma any_suffix_hash b r :
  (forall r', matches_parts b r' = true <-> topic_matches b r') ->
  any_suffix (matches_parts b) r = true <-> topic_matches ("#" :: b) r.
Proof.
  intros IH. induction r as [|w r IHr]; cbn [any_suffix];
    rewrite topic_hash_inv, orb_true_iff, IH; naive_solver.
Qed.

Lemma matches_parts_spec b r : matches_parts b r = true <-> topic_matches b r.
Proof.
  revert r; induction b as [|t b IH]; intros r.
  - rewrite topic_nil_inv. by destruct r.
  - cbn [matches_parts]. destruct (String.eqb t "#") eqn:Et; bool_to_prop.
    + subst t. destruct b as [|t' b].
      * split; [intros _; apply topic_hash_all|done].
      * by apply any_suffix_hash.
    + rewrite topic_word_inv by done. destruct r as [|w r]; [naive_solver|].
      destruct (String.eqb t "*" || String.eqb t w) eqn:E; cbn.
      * apply token_test in E. rewrite IH. naive_solver.
      * apply not_true_iff_false in E. rewrite token_test in E. naive_solver.
Qed.

(** The two implementations of topic matching agree on every binding and
    routing key, and both decide the AMQP relation: the edges the workflow
    graph draws are the stages a routing key resolves to. *)
Theorem topic_implementations_agree binding routing :
  topic_binding_matches binding routing = graph_topic_binding_matches binding routing /\
  (topic_binding_matches binding routing = true <->
   topic_matches (split "." binding) (split "." routing)).
Proof.
  unfold topic_binding_matches, graph_topic_binding_matches. split; [|apply matches_rec_spec].
  apply eq_true_iff_eq. by rewrite matches_rec_spec, matches_parts_spec.
Qed.

Example topic_hash_middle : topic_binding_matches "a.#.z" "a.b.c.z" = true.
Proof. reflexivity. Qed.
Example topic_star_one : topic_binding_matches "a.*" "a.b.c" = false.
Proof. reflexivity. Qed.
