(* ===== verification/Codec.v ===== *)
(** * JSON models

    Pydantic's [model_dump_json] and [model_validate_json] are not code of the
    repository: they are operations [JsonModel] with the documented round trip
    [JsonModelLaws].  Any countable type has such a codec ([bits_model]), which
    shows that the law can hold; Python values are countable. *)

From stdpp Require Import countable.
From S2P Require Import Prelude PyStr PyVal.
From Stdlib Require Import Ascii.

Class JsonModel (A : Type) := {
  dump_json : A -> string;
  validate_json : string -> result A }.

Class JsonModelLaws (A : Type) `{JsonModel A} : Prop :=
  validate_dump (a : A) : validate_json (dump_json a) = Ok a.

Fixpoint bits (p : positive) : string :=
  match p with
  | xH => ""
  | xO p' => String.String "0"%char (bits p')
  | xI p' => String.String "1"%char (bits p')
  end.

Fixpoint of_bits (s : string) : positive :=
  match s with
  | String.EmptyString => xH
  | String.String c s' => if Ascii.eqb c "1"%char then xI (of_bits s') else xO (of_bits s')
  end.

Lemma of_bits_bits p : of_bits (bits p) = p.
Proof. induction p; cbn; congruence. Qed.

Definition bits_model (A : Type) `{Countable A} : JsonModel A := {|
  dump_json a := bits (encode a);
  validate_json s :=
    match decode (of_bits s) with
    | Some a => Ok a
    | None => Raise (Exn XValidationError "ValidationError" "invalid")
    end |}.

Lemma bits_model_laws (A : Type) `{Countable A} : @JsonModelLaws A (bits_model A).
Proof. intros a. cbn. by rewrite of_bits_bits, decode_encode. Qed.

(** ** Python values are countable *)
#[export] Instance float_int_eq_dec : EqDecision float_int.
Proof. solve_decision. Defined.
#[export] Instance pyfloat_eq_dec : EqDecision pyfloat.
Proof. solve_decision. Defined.
#[export] Instance float_int_countable : Countable float_int.
Proof.
  refine (inj_countable' (fun f => match f with FInt z => inl z | FNan => inr true | FInf => inr false end)
    (fun s => match s with inl z => FInt z | inr true => FNan | inr false => FInf end) _).
  by intros [].
Defined.
#[export] Instance pyfloat_countable : Countable pyfloat.
Proof.
  refine (inj_countable' (fun f => (float_text f, float_trunc f, float_nonzero f))
    (fun t => PyFloat t.1.1 t.1.2 t.2) _). by intros [].
Defined.

Definition scalar : Type := (unit + bool) + (Z + pyfloat) + string.

Fixpoint tree_of (v : pyval) : gen_tree scalar :=
  match v with
  | PNone => GenLeaf (inl (inl (inl tt)))
  | PBool b => GenLeaf (inl (inl (inr b)))
  | PInt z => GenLeaf (inl (inr (inl z)))
  | PFloat f => GenLeaf (inl (inr (inr f)))
  | PStr s => GenLeaf (inr s)
  | PList l => GenNode 0 (map tree_of l)
  | PDict d => GenNode 1 (map (fun kv => GenNode 2 [GenLeaf (inr kv.1); tree_of kv.2]) d)
  end.

Fixpoint of_tree (t : gen_tree scalar) : pyval :=
  match t with
  | GenLeaf (inl (inl (inl tt))) => PNone
  | GenLeaf (inl (inl (inr b))) => PBool b
  | GenLeaf (inl (inr (inl z))) => PInt z
  | GenLeaf (inl (inr (inr f))) => PFloat f
  | GenLeaf (inr s) => PStr s
  | GenNode 0 l => PList (map of_tree l)
  | GenNode _ l => PDict (map (fun p => match p with
      | GenNode _ (GenLeaf (inr k) :: v :: _) => (k, of_tree v)
      | _ => ("", PNone) end) l)
  end.

Lemma of_tree_of v : of_tree (tree_of v) = v.
Proof.
  revert v. fix IH 1. intros [| | | | |l|d]; cbn; try done; f_equal.
  - induction l as [|v l IHl]; cbn; [done|]. by rewrite IH, IHl.
  - induction d as [|[k v] d IHd]; cbn; [done|]. by rewrite IH, IHd.
Qed.

#[export] Instance pyval_countable : Countable pyval := inj_countable' tree_of of_tree of_tree_of.
