(* ===== verification/Redis.v ===== *)
(** * Redis

    The service the stores talk to.  [Redis R] is the command interface over an
    abstract server state; [RedisLaws] says that each command behaves on the
    documented key space ([db]: typed values with optional deadlines), and
    [db] itself is an instance.  Every command takes the server time in
    microseconds: a key is gone from its deadline on. *)

From S2P Require Import Prelude PyStr PyVal Sha256.
From Stdlib Require Import Ascii.

(** [redis_key], relayna/_redis.py:10-15. *)
Definition redis_key (prefix slot : string) (segments : list string) : string :=
  let material := utf8 (prefix +:+ of_chars [chr 31] +:+ slot) in
  let tag := of_chars (take 16 (chars (Sha256.hexdigest material))) in
  "{relayna:" +:+ tag +:+ "}:" +:+ prefix +:+ ":" +:+ join ":" segments.

(** ** The documented key space *)

Inductive rval :=
| RStr (s : string)
| RSet (s : gset string)
| RZset (z : gmap string Z)
| RList (l : list string)
| RHash (h : gmap string string).

Notation db := (gmap string (rval * option Z)).

Definition second : Z := 1000000.

Definition expires (now : Z) (ex : option Z) : option Z := (fun s => now + s * second) <$> ex.

Definition alive (now : Z) (dl : option Z) : bool :=
  match dl with Some d => now <? d | None => true end.

(** The value of a key at a time, and its remaining deadline. *)
Definition live (d : db) (now : Z) (k : string) : option (rval * option Z) :=
  match d !! k with
  | Some (v, dl) => if alive now dl then Some (v, dl) else None
  | None => None
  end.

Definition db_str (d : db) (now : Z) (k : string) : option string :=
  match live d now k with Some (RStr s, _) => Some s | _ => None end.
Definition db_members (d : db) (now : Z) (k : string) : gset string :=
  match live d now k with Some (RSet s, _) => s | _ => ∅ end.
Definition db_scores (d : db) (now : Z) (k : string) : gmap string Z :=
  match live d now k with Some (RZset z, _) => z | _ => ∅ end.
Definition db_list (d : db) (now : Z) (k : string) : list string :=
  match live d now k with Some (RList l, _) => l | _ => [] end.
Definition db_hash (d : db) (now : Z) (k : string) : gmap string string :=
  match live d now k with Some (RHash h, _) => h | _ => ∅ end.

(** An emptied collection is a deleted key. *)
Definition is_empty (v : rval) : bool :=
  match v with
  | RStr _ => false
  | RSet s => bool_decide (s = ∅)
  | RZset z => bool_decide (z = ∅)
  | RList l => bool_decide (l = [])
  | RHash h => bool_decide (h = ∅)
  end.

(** Writing a collection keeps the deadline of a live key. *)
Definition put (d : db) (now : Z) (k : string) (v : rval) : db :=
  if is_empty v then delete k d
  else <[k := (v, match live d now k with Some (_, dl) => dl | None => None end)]> d.

Definition db_set (d : db) (now : Z) (k v : string) (ex : option Z) : db :=
  <[k := (RStr v, expires now ex)]> d.
Definition db_set_nx (d : db) (now : Z) (k v : string) (ex : option Z) : db * bool :=
  match live d now k with Some _ => (d, false) | None => (db_set d now k v ex, true) end.
Definition db_del (d : db) (now : Z) (k : string) : db * bool :=
  (delete k d, match live d now k with Some _ => true | None => false end).
Definition db_expire (d : db) (now : Z) (k : string) (seconds : Z) : db :=
  match live d now k with Some (v, _) => <[k := (v, expires now (Some seconds))]> d | None => d end.
Definition db_sadd (d : db) (now : Z) (k m : string) : db * bool :=
  (put d now k (RSet ({[m]} ∪ db_members d now k)), bool_decide (m ∉ db_members d now k)).
Definition db_srem (d : db) (now : Z) (k m : string) : db :=
  put d now k (RSet (db_members d now k ∖ {[m]})).
Definition db_zadd (d : db) (now : Z) (k m : string) (score : Z) : db :=
  put d now k (RZset (<[m := score]> (db_scores d now k))).
Definition db_zrem (d : db) (now : Z) (k m : string) : db :=
  put d now k (RZset (delete m (db_scores d now k))).
Definition db_lpush (d : db) (now : Z) (k v : string) : db :=
  put d now k (RList (v :: db_list d now k)).

(** [LRANGE]/[LTRIM] with non-negative indices or [-1] as the stop. *)
Definition lslice {A} (l : list A) (start stop : Z) : list A :=
  let stop := if stop <? 0 then Z.of_nat (length l) + stop else stop in
  take (Z.to_nat (stop + 1 - start)) (drop (Z.to_nat start) l).
Definition db_ltrim (d : db) (now : Z) (k : string) (start stop : Z) : db :=
  put d now k (RList (lslice (db_list d now k) start stop)).
Definition db_hset (d : db) (now : Z) (k f v : string) : db :=
  put d now k (RHash (<[f := v]> (db_hash d now k))).
Definition db_hdel (d : db) (now : Z) (k f : string) : db :=
  put d now k (RHash (delete f (db_hash d now k))).

(** Members by score, then by member, ascending. *)
Definition score_le (a b : string * Z) : Prop :=
  a.2 < b.2 \/ (a.2 = b.2 /\ String.leb a.1 b.1 = true).
#[export] Instance score_le_dec : RelDecision score_le.
Proof. intros a b. unfold score_le. apply _. Defined.
Definition ranked (z : gmap string Z) : list (string * Z) := merge_sort score_le (map_to_list z).

Definition opt_leb (lo : option Z) (x : Z) : bool := match lo with Some l => l <=? x | None => true end.
Definition opt_geb (hi : option Z) (x : Z) : bool := match hi with Some h => x <=? h | None => true end.

Definition db_zrangebyscore (d : db) (now : Z) (k : string) (hi : Z) (num : nat) : list string :=
  take num (map fst (List.filter (fun p => p.2 <=? hi) (ranked (db_scores d now k)))).
Definition db_zrevrangebyscore (d : db) (now : Z) (k : string) (hi lo : option Z) (start num : nat) :
    list string :=
  take num (drop start (map fst (List.filter (fun p => opt_geb hi p.2 && opt_leb lo p.2)
    (rev (ranked (db_scores d now k)))))).
Definition db_zremrangebyscore (d : db) (now : Z) (k : string) (hi : Z) : db * Z :=
  let z := db_scores d now k in
  (put d now k (RZset (filter (fun p => hi < p.2) z)),
   Z.of_nat (size (filter (fun p => p.2 <= hi) z))).

(** [INCR] on a key that only [INCR] writes. *)
Definition db_incr (d : db) (now : Z) (k : string) : db * Z :=
  let n := from_opt 0 (s ← db_str d now k; parse_int s) + 1 in
  (put d now k (RStr (pretty n)), n).
Definition db_hget (d : db) (now : Z) (k f : string) : option string := db_hash d now k !! f.
Definition db_zscore (d : db) (now : Z) (k m : string) : option Z := db_scores d now k !! m.
Definition db_zcard (d : db) (now : Z) (k : string) : Z := Z.of_nat (size (db_scores d now k)).
Definition db_zrange (d : db) (now : Z) (k : string) (start stop : Z) : list string :=
  lslice (map fst (ranked (db_scores d now k))) start stop.
Definition db_zrevrange (d : db) (now : Z) (k : string) (start stop : Z) : list string :=
  lslice (rev (map fst (ranked (db_scores d now k)))) start stop.
Definition db_zremrangebyrank (d : db) (now : Z) (k : string) (start stop : Z) : db :=
  let gone := db_zrange d now k start stop in
  put d now k (RZset (filter (fun p => p.1 ∉ gone) (db_scores d now k))).
Fixpoint position (l : list string) (v : string) : option Z :=
  match l with
  | [] => None
  | x :: l' => if String.eqb v x then Some 0 else (fun n => n + 1) <$> position l' v
  end.
Definition db_lpos (d : db) (now : Z) (k v : string) : option Z := position (db_list d now k) v.

(** ** The command interface *)

Class Redis (R : Type) := {
  rget : R -> Z -> string -> option string;
  rset : R -> Z -> string -> string -> option Z -> R;
  rset_nx : R -> Z -> string -> string -> option Z -> R * bool;
  rdel : R -> Z -> string -> R * bool;
  rexpire : R -> Z -> string -> Z -> R;
  rsadd : R -> Z -> string -> string -> R * bool;
  rsrem : R -> Z -> string -> string -> R;
  rsmembers : R -> Z -> string -> list string;
  rzadd : R -> Z -> string -> string -> Z -> R;
  rzrem : R -> Z -> string -> string -> R;
  rzrangebyscore : R -> Z -> string -> Z -> nat -> list string;
  rzrevrangebyscore : R -> Z -> string -> option Z -> option Z -> nat -> nat -> list string;
  rzremrangebyscore : R -> Z -> string -> Z -> R * Z;
  rlpush : R -> Z -> string -> string -> R;
  rltrim : R -> Z -> string -> Z -> Z -> R;
  rlrange : R -> Z -> string -> Z -> Z -> list string;
  rhset : R -> Z -> string -> string -> string -> R;
  rhdel : R -> Z -> string -> string -> R;
  rlpos : R -> Z -> string -> string -> option Z;
  rhget : R -> Z -> string -> string -> option string;
  rincr : R -> Z -> string -> R * Z;
  rzscore : R -> Z -> string -> string -> option Z;
  rzcard : R -> Z -> string -> Z;
  rzrange : R -> Z -> string -> Z -> Z -> list string;
  rzrevrange : R -> Z -> string -> Z -> Z -> list string;
  rzremrangebyrank : R -> Z -> string -> Z -> Z -> R;
  rpublish : R -> Z -> string -> string -> R }.

(** The documented behaviour of each command, as its effect on the key space. *)
Class RedisLaws (R : Type) `{Redis R} := {
  model : R -> db;
  law_get r now k : rget r now k = db_str (model r) now k;
  law_set r now k v ex : model (rset r now k v ex) = db_set (model r) now k v ex;
  law_set_nx r now k v ex :
    model (rset_nx r now k v ex).1 = (db_set_nx (model r) now k v ex).1;
  law_set_nx_ret r now k v ex :
    (rset_nx r now k v ex).2 = (db_set_nx (model r) now k v ex).2;
  law_del r now k : model (rdel r now k).1 = (db_del (model r) now k).1;
  law_del_ret r now k : (rdel r now k).2 = (db_del (model r) now k).2;
  law_expire r now k s : model (rexpire r now k s) = db_expire (model r) now k s;
  law_sadd r now k m : model (rsadd r now k m).1 = (db_sadd (model r) now k m).1;
  law_sadd_ret r now k m : (rsadd r now k m).2 = (db_sadd (model r) now k m).2;
  law_srem r now k m : model (rsrem r now k m) = db_srem (model r) now k m;
  law_smembers r now k : Permutation (rsmembers r now k) (elements (db_members (model r) now k));
  law_zadd r now k m s : model (rzadd r now k m s) = db_zadd (model r) now k m s;
  law_zrem r now k m : model (rzrem r now k m) = db_zrem (model r) now k m;
  law_zrangebyscore r now k hi n :
    rzrangebyscore r now k hi n = db_zrangebyscore (model r) now k hi n;
  law_zrevrangebyscore r now k hi lo s n :
    rzrevrangebyscore r now k hi lo s n = db_zrevrangebyscore (model r) now k hi lo s n;
  law_zremrangebyscore r now k hi :
    model (rzremrangebyscore r now k hi).1 = (db_zremrangebyscore (model r) now k hi).1;
  law_zremrangebyscore_ret r now k hi :
    (rzremrangebyscore r now k hi).2 = (db_zremrangebyscore (model r) now k hi).2;
  law_lpush r now k v : model (rlpush r now k v) = db_lpush (model r) now k v;
  law_ltrim r now k a b : model (rltrim r now k a b) = db_ltrim (model r) now k a b;
  law_lrange r now k a b : rlrange r now k a b = lslice (db_list (model r) now k) a b;
  law_hset r now k f v : model (rhset r now k f v) = db_hset (model r) now k f v;
  law_hdel r now k f : model (rhdel r now k f) = db_hdel (model r) now k f;
  law_lpos r now k v : rlpos r now k v = db_lpos (model r) now k v;
  law_hget r now k f : rhget r now k f = db_hget (model r) now k f;
  law_incr r now k : model (rincr r now k).1 = (db_incr (model r) now k).1;
  law_incr_ret r now k : (rincr r now k).2 = (db_incr (model r) now k).2;
  law_zscore r now k m : rzscore r now k m = db_zscore (model r) now k m;
  law_zcard r now k : rzcard r now k = db_zcard (model r) now k;
  law_zrange r now k a b : rzrange r now k a b = db_zrange (model r) now k a b;
  law_zrevrange r now k a b : rzrevrange r now k a b = db_zrevrange (model r) now k a b;
  law_zremrangebyrank r now k a b :
    model (rzremrangebyrank r now k a b) = db_zremrangebyrank (model r) now k a b;
  law_publish r now c p : model (rpublish r now c p) = model r }.

#[export] Instance db_redis : Redis db := {
  rget := db_str; rset := db_set; rset_nx := db_set_nx; rdel := db_del; rexpire := db_expire;
  rsadd := db_sadd; rsrem := db_srem; rsmembers d now k := elements (db_members d now k);
  rzadd := db_zadd; rzrem := db_zrem; rzrangebyscore := db_zrangebyscore;
  rzrevrangebyscore := db_zrevrangebyscore; rzremrangebyscore := db_zremrangebyscore;
  rlpush := db_lpush; rltrim := db_ltrim;
  rlrange d now k a b := lslice (db_list d now k) a b;
  rhset := db_hset; rhdel := db_hdel; rlpos := db_lpos; rhget := db_hget; rincr := db_incr;
  rzscore := db_zscore; rzcard := db_zcard; rzrange := db_zrange; rzrevrange := db_zrevrange;
  rzremrangebyrank := db_zremrangebyrank; rpublish d _ _ _ := d }.

#[export] Instance db_redis_laws : RedisLaws db.
Proof. by refine {| model := id |}. Defined.

#[export] Hint Rewrite @law_get @law_set @law_set_nx @law_set_nx_ret @law_del @law_del_ret @law_expire
  @law_sadd @law_sadd_ret @law_srem @law_zadd @law_zrem @law_zrangebyscore @law_zrevrangebyscore
  @law_zremrangebyscore @law_zremrangebyscore_ret @law_lpush @law_ltrim @law_lrange @law_hset
  @law_hdel @law_lpos @law_hget @law_incr @law_incr_ret @law_zscore @law_zcard @law_zrange
  @law_zrevrange @law_zremrangebyrank @law_publish : redis.

(** ** Reading after writing *)

Lemma live_insert_eq d now k v dl :
  live (<[k := (v, dl)]> d) now k = if alive now dl then Some (v, dl) else None.
Proof. unfold live. by rewrite lookup_insert_eq. Qed.

Lemma live_insert_ne d now k k' x : k <> k' -> live (<[k := x]> d) now k' = live d now k'.
Proof. intros H. unfold live. by rewrite lookup_insert_ne. Qed.

Lemma live_delete_eq d now k : live (delete k d) now k = None.
Proof. unfold live. by rewrite lookup_delete_eq. Qed.

Lemma live_delete_ne d now k k' : k <> k' -> live (delete k d) now k' = live d now k'.
Proof. intros H. unfold live. by rewrite lookup_delete_ne. Qed.

Lemma live_put_ne d now now' k k' v : k <> k' -> live (put d now k v) now' k' = live d now' k'.
Proof.
  intros H. unfold put. destruct (is_empty v); [by apply live_delete_ne | by apply live_insert_ne].
Qed.

(** A collection that was just written reads back at the time of writing. *)
Lemma live_put_eq d now k v :
  live (put d now k v) now k = None /\ is_empty v = true \/
  exists dl, live (put d now k v) now k = Some (v, dl).
Proof.
  unfold put. destruct (is_empty v) eqn:E; [left; by rewrite live_delete_eq|right].
  rewrite live_insert_eq. unfold live.
  destruct (d !! k) as [[w dl]|]; [|by exists None].
  destruct (alive now dl) eqn:E'; [rewrite E'; by exists dl|by exists None].
Qed.

Lemma members_put d now k s : db_members (put d now k (RSet s)) now k = s.
Proof.
  unfold db_members. destruct (live_put_eq d now k (RSet s)) as [[-> H]|[dl ->]]; [|done].
  cbn in H. by bool_to_prop.
Qed.
Lemma scores_put d now k z : db_scores (put d now k (RZset z)) now k = z.
Proof.
  unfold db_scores. destruct (live_put_eq d now k (RZset z)) as [[-> H]|[dl ->]]; [|done].
  cbn in H. by bool_to_prop.
Qed.
Lemma list_put d now k l : db_list (put d now k (RList l)) now k = l.
Proof.
  unfold db_list. destruct (live_put_eq d now k (RList l)) as [[-> H]|[dl ->]]; [|done].
  cbn in H. by bool_to_prop.
Qed.
Lemma hash_put d now k h : db_hash (put d now k (RHash h)) now k = h.
Proof.
  unfold db_hash. destruct (live_put_eq d now k (RHash h)) as [[-> H]|[dl ->]]; [|done].
  cbn in H. by bool_to_prop.
Qed.

(** A string written with [EX ttl] reads back before its deadline and is gone
    from the deadline on. *)
Lemma str_set_eq d now k v ex t :
  db_str (db_set d now k v ex) t k = if alive t (expires now ex) then Some v else None.
Proof. unfold db_str, db_set. rewrite live_insert_eq. by destruct (alive _ _). Qed.

Lemma set_nx_some d now k v ex : (db_set_nx d now k v ex).2 = true ->
  live d now k = None /\ (db_set_nx d now k v ex).1 = db_set d now k v ex.
Proof. unfold db_set_nx. by destruct (live d now k) as [[]|]. Qed.

(** Reads of a key of one name are not affected by writes to another. *)
Ltac live_ne := repeat first
  [ rewrite live_put_ne by congruence
  | rewrite live_insert_ne by congruence
  | rewrite live_delete_ne by congruence ].

Lemma ranked_elem m s z : (m, s) ∈ ranked z <-> z !! m = Some s.
Proof.
  unfold ranked. rewrite (merge_sort_Permutation score_le (map_to_list z)).
  apply elem_of_map_to_list.
Qed.

Lemma zrangebyscore_elem d now k hi n m :
  m ∈ db_zrangebyscore d now k hi n -> exists s, db_scores d now k !! m = Some s /\ s <= hi.
Proof.
  unfold db_zrangebyscore. intros H. apply elem_of_take in H as (i & Hi & _).
  apply list_elem_of_lookup_2, list_elem_of_fmap in Hi as ([m' s] & -> & Hin).
  rewrite list_elem_of_In, filter_In, <- list_elem_of_In in Hin. destruct Hin as [Hin Hs].
  apply ranked_elem in Hin. exists s. split; [done|]. by apply Z.leb_le in Hs.
Qed.

Lemma lslice_prefix {A} (l : list A) n : 0 < n -> lslice l 0 (n - 1) = take (Z.to_nat n) l.
Proof.
  intros H. unfold lslice. change (Z.to_nat 0) with 0%nat. rewrite drop_0.
  destruct (n - 1 <? 0) eqn:E; bool_to_prop; [lia|]. f_equal. lia.
Qed.

Lemma lslice_all {A} (l : list A) : lslice l 0 (-1) = l.
Proof.
  unfold lslice. change (Z.to_nat 0) with 0%nat. rewrite drop_0. cbn.
  apply take_ge. lia.
Qed.

Lemma put_lookup_ne d now k k' v : k <> k' -> put d now k v !! k' = d !! k'.
Proof.
  intros H. unfold put.
  by destruct (is_empty v); [rewrite lookup_delete_ne | rewrite lookup_insert_ne].
Qed.

Lemma redis_key_join p s a b : redis_key p s a = redis_key p s b -> join ":" a = join ":" b.
Proof.
  unfold redis_key. intros H.
  repeat (apply append_inj_l in H || rewrite append_assoc_str in H). exact H.
Qed.

(** The deadline a write to a collection keeps. *)
Definition kept (d : db) (now : Z) (k : string) : option Z :=
  match live d now k with Some (_, dl) => dl | None => None end.

Lemma put_lookup d now k v :
  put d now k v !! k = if is_empty v then None else Some (v, kept d now k).
Proof. unfold put. destruct (is_empty v); [apply lookup_delete_eq|apply lookup_insert_eq]. Qed.

Lemma alive_kept d now k : alive now (kept d now k) = true.
Proof.
  unfold kept, live. destruct (d !! k) as [[v dl]|]; [|done].
  by destruct (alive now dl) eqn:E.
Qed.

Lemma live_put d now k v :
  live (put d now k v) now k = if is_empty v then None else Some (v, kept d now k).
Proof. unfold live. rewrite put_lookup. destruct (is_empty v); [done|]. by rewrite alive_kept. Qed.

Lemma kept_put d now k v : kept (put d now k v) now k = if is_empty v then None else kept d now k.
Proof. unfold kept at 1. rewrite live_put. by destruct (is_empty v). Qed.

(** The tags of two keys have the same length. *)
Lemma append_same_length a b c d : String.length a = String.length b ->
  a +:+ c = b +:+ d -> c = d.
Proof.
  revert b. induction a as [|x a IH]; destruct b as [|y b]; cbn; try done.
  intros [= Hl] [= -> H]. by apply (IH b).
Qed.

Lemma string_length_chars s : String.length s = length (chars s).
Proof. induction s; cbn; [done|]. by f_equal. Qed.

Lemma redis_key_suffix p s1 s2 a b : redis_key p s1 a = redis_key p s2 b -> join ":" a = join ":" b.
Proof.
  unfold redis_key. intros H. apply append_inj_l in H. apply append_same_length in H.
  - repeat (apply append_inj_l in H). exact H.
  - rewrite !string_length_chars, !chars_of_chars, !length_take, <- !string_length_chars.
    by rewrite !Sha256.hexdigest_length.
Qed.

Lemma members_put_ne d now t k k' v : k <> k' -> db_members (put d now k v) t k' = db_members d t k'.
Proof. intros. unfold db_members. by rewrite live_put_ne. Qed.
Lemma members_insert_ne d t k k' x : k <> k' -> db_members (<[k := x]> d) t k' = db_members d t k'.
Proof. intros. unfold db_members. by rewrite live_insert_ne. Qed.
Lemma scores_put_ne d now t k k' v : k <> k' -> db_scores (put d now k v) t k' = db_scores d t k'.
Proof. intros. unfold db_scores. by rewrite live_put_ne. Qed.
Lemma scores_insert_ne d t k k' x : k <> k' -> db_scores (<[k := x]> d) t k' = db_scores d t k'.
Proof. intros. unfold db_scores. by rewrite live_insert_ne. Qed.
Lemma list_put_ne d now t k k' v : k <> k' -> db_list (put d now k v) t k' = db_list d t k'.
Proof. intros. unfold db_list. by rewrite live_put_ne. Qed.
Lemma list_insert_ne d t k k' x : k <> k' -> db_list (<[k := x]> d) t k' = db_list d t k'.
Proof. intros. unfold db_list. by rewrite live_insert_ne. Qed.
Lemma str_put_ne d now t k k' v : k <> k' -> db_str (put d now k v) t k' = db_str d t k'.
Proof. intros. unfold db_str. by rewrite live_put_ne. Qed.
Lemma str_insert_ne d t k k' x : k <> k' -> db_str (<[k := x]> d) t k' = db_str d t k'.
Proof. intros. unfold db_str. by rewrite live_insert_ne. Qed.

(** [SET NX] of a free key and of a taken one. *)
Lemma set_nx_free {R} `{RedisLaws R} (r : R) now k v ex : live (model r) now k = None ->
  exists r1, rset_nx r now k v ex = (r1, true) /\ model r1 = db_set (model r) now k v ex.
Proof.
  intros Hl. exists (rset_nx r now k v ex).1. split; [|by rewrite law_set_nx; unfold db_set_nx; rewrite Hl].
  apply injective_projections; [done|]. rewrite law_set_nx_ret. unfold db_set_nx. by rewrite Hl.
Qed.

Lemma set_nx_taken {R} `{RedisLaws R} (r : R) now k v ex x : live (model r) now k = Some x ->
  exists r1, rset_nx r now k v ex = (r1, false) /\ model r1 = model r.
Proof.
  intros Hl. exists (rset_nx r now k v ex).1. split; [|by rewrite law_set_nx; unfold db_set_nx; rewrite Hl].
  apply injective_projections; [done|]. rewrite law_set_nx_ret. unfold db_set_nx. by rewrite Hl.
Qed.

#[global] Opaque redis_key.
