(* ===== verification/RedisProg.v ===== *)
(** * Programs over Redis

    A store operation that awaits several commands can be stopped between two
    of them.  [P A] is such an operation: it runs on a server state and on the
    faults that its awaits meet, one per await, in order; a call that is
    [Refused] never reached the server, an [Unanswered] one was executed but
    its reply was lost.  Past the end of the list nothing goes wrong.
    [wpP ok m r Q]: whatever faults admitted by [ok] the run of [m] from [r]
    meets, it ends in a state and a result in [Q]. *)

From S2P Require Import Prelude.

Inductive fault := Refused (e : exn) | Unanswered (e : exn).

(** No fault at all; any fault; only calls that did not reach the server. *)
Definition reliable (f : fault) : Prop := False.
Definition any_fault (f : fault) : Prop := True.
Definition refusals (f : fault) : Prop := match f with Refused _ => True | Unanswered _ => False end.

Definition P (R A : Type) : Type := R -> list (option fault) -> R * list (option fault) * result A.

#[export] Instance P_ret R : MRet (P R) := fun A a r fs => (r, fs, Ok a).
#[export] Instance P_bind R : MBind (P R) := fun A B k m r fs =>
  match m r fs with
  | (r, fs, Ok a) => k a r fs
  | (r, fs, Raise e) => (r, fs, Raise e)
  end.

Section prog.
Context {R : Type}.
Notation P := (P R).

Definition liftP {A} (x : result A) : P A := fun r fs => (r, fs, x).

(** One awaited call: a command, a pipeline or a script. *)
Definition await {A} (f : R -> R * A) : P A := fun r fs =>
  match fs with
  | [] => ((f r).1, [], Ok (f r).2)
  | None :: fs => ((f r).1, fs, Ok (f r).2)
  | Some (Refused e) :: fs => (r, fs, Raise e)
  | Some (Unanswered e) :: fs => ((f r).1, fs, Raise e)
  end.
Definition await_ (f : R -> R) : P unit := await (fun r => (f r, tt)).
Definition await_read {A} (f : R -> A) : P A := await (fun r => (r, f r)).

(** [try: m except Exception: h; raise] *)
Definition reraising {A} (m : P A) (h : P unit) : P A := fun r fs =>
  match m r fs with
  | (r, fs, Raise e) =>
      if is_exception e then (h ≫= fun _ => liftP (Raise e)) r fs else (r, fs, Raise e)
  | x => x
  end.

(** [try: m finally: h] *)
Definition finallyP {A} (m : P A) (h : P unit) : P A := fun r fs =>
  match m r fs with (r, fs, x) => (h ≫= fun _ => liftP x) r fs end.

Definition admitted (ok : fault -> Prop) (fs : list (option fault)) : Prop :=
  Forall (fun o => match o with Some f => ok f | None => True end) fs.

Definition wpP {A} (ok : fault -> Prop) (m : P A) (r : R) (Q : R -> result A -> Prop) : Prop :=
  forall fs, admitted ok fs ->
    admitted ok (m r fs).1.2 /\ Q (m r fs).1.1 (m r fs).2.

Lemma wpP_run {A} ok (m : P A) r Q fs : wpP ok m r Q -> admitted ok fs ->
  Q (m r fs).1.1 (m r fs).2.
Proof. intros H Hfs. by apply H. Qed.

Lemma wpP_mono {A} ok (m : P A) r (Q Q' : R -> result A -> Prop) :
  wpP ok m r Q -> (forall r' x, Q r' x -> Q' r' x) -> wpP ok m r Q'.
Proof. intros H HQ fs Hfs. destruct (H fs Hfs). auto. Qed.

Lemma wpP_ret {A} ok (a : A) r Q : Q r (Ok a) -> wpP ok (mret a) r Q.
Proof. by intros H fs Hfs. Qed.

Lemma wpP_lift {A} ok (x : result A) r Q : Q r x -> wpP ok (liftP x) r Q.
Proof. by intros H fs Hfs. Qed.

Lemma wpP_bind {A B} ok (m : P A) (k : A -> P B) r Q :
  wpP ok m r (fun r' x => match x with Ok a => wpP ok (k a) r' Q | Raise e => Q r' (Raise e) end) ->
  wpP ok (m ≫= k) r Q.
Proof.
  intros H fs Hfs. unfold mbind, P_bind. destruct (H fs Hfs) as [Ha HQ].
  destruct (m r fs) as [[r' fs'] [a|e]]; cbn in *; [by apply HQ|done].
Qed.

Lemma wpP_await {A} ok (f : R -> R * A) r (Q : R -> result A -> Prop) :
  Q (f r).1 (Ok (f r).2) ->
  (forall e, ok (Refused e) -> Q r (Raise e)) ->
  (forall e, ok (Unanswered e) -> Q (f r).1 (Raise e)) ->
  wpP ok (await f) r Q.
Proof.
  intros H1 H2 H3 fs Hfs. unfold await. destruct Hfs as [|[[e|e]|] fs Ho Hfs]; cbn; eauto.
  by split; [constructor|].
Qed.

Lemma wpP_await_ ok (f : R -> R) r (Q : R -> result unit -> Prop) :
  Q (f r) (Ok tt) -> (forall e, ok (Refused e) -> Q r (Raise e)) ->
  (forall e, ok (Unanswered e) -> Q (f r) (Raise e)) -> wpP ok (await_ f) r Q.
Proof. intros. by apply wpP_await. Qed.

Lemma wpP_read {A} ok (f : R -> A) r (Q : R -> result A -> Prop) :
  Q r (Ok (f r)) -> (forall e, Q r (Raise e)) -> wpP ok (await_read f) r Q.
Proof. intros. by apply wpP_await. Qed.

Lemma wpP_reraising {A} ok (m : P A) h r Q :
  wpP ok m r (fun r' x => match x with
    | Ok a => Q r' (Ok a)
    | Raise e => if is_exception e
        then wpP ok h r' (fun r'' y => match y with Ok _ => Q r'' (Raise e) | Raise e' => Q r'' (Raise e') end)
        else Q r' (Raise e) end) ->
  wpP ok (reraising m h) r Q.
Proof.
  intros H fs Hfs. unfold reraising. destruct (H fs Hfs) as [Ha HQ].
  destruct (m r fs) as [[r' fs'] [a|e]]; cbn in *; [done|].
  destruct (is_exception e); [|done]. unfold mbind, P_bind. destruct (HQ fs' Ha) as [Hb HQ'].
  by destruct (h r' fs') as [[r'' fs''] [[]|e']].
Qed.

Lemma wpP_finally {A} ok (m : P A) h r Q :
  wpP ok m r (fun r' x => wpP ok h r'
    (fun r'' y => match y with Ok _ => Q r'' x | Raise e' => Q r'' (Raise e') end)) ->
  wpP ok (finallyP m h) r Q.
Proof.
  intros H fs Hfs. unfold finallyP. destruct (H fs Hfs) as [Ha HQ].
  destruct (m r fs) as [[r' fs'] x]; cbn in *.
  unfold mbind, P_bind. destruct (HQ fs' Ha) as [Hb HQ'].
  by destruct (h r' fs') as [[r'' fs''] [[]|e']].
Qed.

(** A reliable run: the state and the result it computes. *)
Definition runP {A} (m : P A) (r : R) : R * result A := let '(r, _, x) := m r [] in (r, x).

Lemma runP_await {A B} (f : R -> R * A) (k : A -> P B) r :
  runP (await f ≫= k) r = runP (k (f r).2) (f r).1.
Proof. done. Qed.
Lemma runP_await_ {B} (f : R -> R) (k : unit -> P B) r : runP (await_ f ≫= k) r = runP (k tt) (f r).
Proof. done. Qed.
Lemma runP_read {A B} (f : R -> A) (k : A -> P B) r : runP (await_read f ≫= k) r = runP (k (f r)) r.
Proof. done. Qed.
Lemma runP_lift {A} (x : result A) r : runP (liftP x) r = (r, x).
Proof. done. Qed.

Lemma wpP_reliable {A} (m : P A) r Q : wpP reliable m r Q -> Q (runP m r).1 (runP m r).2.
Proof.
  intros H. destruct (H [] (List.Forall_nil _)) as [_ HQ]. unfold runP.
  by destruct (m r []) as [[r' fs] x].
Qed.

End prog.
