(* ===== verification/Async.v ===== *)
(** * Bounded concurrency (_async.py)

    [map_bounded] as a step relation: a fixed set of worker tasks shares the
    next index, each awaits the worker coroutine of the item it took, and the
    event loop may run them in any order.  [work] is what the coroutine of an
    item ends in.  [run_bounded_iterator], the loop of the consumers, likewise:
    its iterator, its tasks, their callbacks, the stop event and cancellations
    come in any order. *)

From S2P Require Import Prelude.

Section map_bounded.
Context {A B : Type} (work : A -> result B) (items : list A) (concurrency : nat).

(** [map_bounded], relayna/_async.py:11-42.  [ready] workers are at the head of their loop,
    the [busy] indices are awaited; [failed] holds the exception that ends the
    gathering, after which the other workers are cancelled. *)
Record pool := Pool {
  next_index : nat;
  ready : nat;
  busy : list nat;
  results : gmap nat B;
  failed : option exn }.

Definition workers : nat := Nat.min concurrency (length items).

Definition start : pool := Pool 0 workers [] ∅ None.

(** [run_worker], relayna/_async.py:27-32. *)
Inductive step : pool -> pool -> Prop :=
| step_take n r l res : (n < length items)%nat ->
    step (Pool n (S r) l res None) (Pool (S n) r (n :: l) res None)
| step_stop n r l res : (length items <= n)%nat ->
    step (Pool n (S r) l res None) (Pool n r l res None)
| step_done n r l1 i l2 res a b : items !! i = Some a -> work a = Ok b ->
    step (Pool n r (l1 ++ i :: l2) res None) (Pool n (S r) (l1 ++ l2) (<[i := b]> res) None)
| step_fail n r l1 i l2 res a e : items !! i = Some a -> work a = Raise e ->
    step (Pool n r (l1 ++ i :: l2) res None) (Pool n r (l1 ++ l2) res (Some e)).

Definition reachable : pool -> Prop := rtc step start.

(** The list the caller gets when the gathering ends without an exception. *)
Definition collected (s : pool) : list (option B) := map (fun i => results s !! i) (seq 0 (length items)).

Definition indices_apart (s : pool) : Prop :=
  NoDup (busy s) /\ forall i, (i < next_index s)%nat <-> i ∈ busy s \/ is_Some (results s !! i).

Record pool_inv (s : pool) : Prop := {
  inv_bound : (ready s + length (busy s) <= workers)%nat;
  inv_next : (next_index s <= length items)%nat;
  inv_results : forall i b, results s !! i = Some b -> exists a, items !! i = Some a /\ work a = Ok b;
  inv_failed : forall e, failed s = Some e -> exists a, a ∈ items /\ work a = Raise e;
  inv_apart : failed s = None -> indices_apart s /\ (forall i, i ∈ busy s -> results s !! i = None) /\
    ((ready s + length (busy s))%nat = workers \/ (length items <= next_index s)%nat) }.

Lemma start_inv : pool_inv start.
Proof.
  split; cbn; try done; try lia. intros _. split_and!.
  - split; cbn; [constructor|]. intros i. split; [lia|]. intros [?%elem_of_nil|[b Hb]]; [done|].
    by rewrite lookup_empty in Hb.
  - by intros i ?%elem_of_nil.
  - left. lia.
Qed.

Lemma step_inv s s' : pool_inv s -> step s s' -> pool_inv s'.
Proof.
  intros [Hb Hn Hr Hf Ha] Hs.
  destruct Hs as [n r l res Hlt|n r l res Hge|n r l1 i l2 res a b Hi Hw|n r l1 i l2 res a e Hi Hw];
    cbn in *; destruct (Ha eq_refl) as ([Hnd Hidx] & Hfree & Hall); cbn in *.
  - split; cbn; try done; try lia. intros _. split_and!.
    + split; cbn.
      * apply NoDup_cons. split; [|done]. intros Hin. assert (n < n)%nat; [|lia]. apply Hidx. by left.
      * intros i. rewrite elem_of_cons. specialize (Hidx i). destruct (decide (i = n)) as [->|Hne].
        -- split; [intros _; left; by left|lia].
        -- split; [|intros [[?|?]|?]; [done|assert (i < n)%nat by tauto; lia..]].
           intros Hi. assert (i < n)%nat by lia. tauto.
    + intros i [->|Hin]%elem_of_cons; [|by apply Hfree].
      destruct (res !! n) as [b|] eqn:E; [|done]. assert (n < n)%nat; [|lia]. apply Hidx. right. by exists b.
    + destruct Hall; [left|right]; lia.
  - split; cbn; try done; try lia. intros _. split_and!; [by split|done|]. right. lia.
  - rewrite length_app in Hb. cbn in Hb. split; cbn; try done; try (rewrite length_app; lia).
    + intros j c. destruct (decide (i = j)) as [<-|Hne].
      * rewrite lookup_insert_eq. intros [= <-]. by exists a.
      * rewrite lookup_insert_ne by done. apply Hr.
    + intros _. apply NoDup_app in Hnd as (Hnd1 & Hdis & Hnd2). apply NoDup_cons in Hnd2 as [Hi2 Hnd2].
      assert (i ∉ l1) as Hi1 by (intros Hin; apply (Hdis i Hin); left).
      split_and!.
      * split; cbn.
        -- apply NoDup_app. split_and!; [done| |done]. intros x Hx Hx2. apply (Hdis x Hx). by right.
        -- intros j. rewrite Hidx, !elem_of_app, elem_of_cons. destruct (decide (i = j)) as [<-|Hne].
           ++ rewrite lookup_insert_eq. split; [intros _; right; by eexists|intros _; left; right; by left].
           ++ rewrite lookup_insert_ne by done. naive_solver.
      * intros j Hj. assert (i <> j) as Hne by (intros ->; apply elem_of_app in Hj as [?|?]; done).
        rewrite lookup_insert_ne by done. apply Hfree. apply elem_of_app in Hj as [?|?];
          apply elem_of_app; [by left|right; by right].
      * rewrite length_app in Hall |- *. cbn in Hall. destruct Hall; [left|right]; lia.
  - rewrite length_app in Hb. cbn in Hb. split; cbn; try done; try (rewrite length_app; lia).
    intros e' [= <-]. exists a. split; [by eapply list_elem_of_lookup_2|done].
Qed.

Lemma pool_reachable_inv s : reachable s -> pool_inv s.
Proof.
  unfold reachable. intros Hs. assert (pool_inv start) as Hinv by apply start_inv.
  induction Hs as [s|s1 s2 s3 H12 _ IH]; [done|]. by apply IH, (step_inv s1).
Qed.

(** Every step uses up some of this. *)
Definition fuel (s : pool) : nat :=
  3 * (length items - next_index s) + 2 * length (busy s) + ready s.

Lemma step_fuel s s' : step s s' -> (fuel s' < fuel s)%nat.
Proof.
  destruct 1; unfold fuel; cbn -[Nat.mul]; rewrite ?length_app; cbn [length]; lia.
Qed.

(** Nothing is left to do. *)
Definition stuck (s : pool) : Prop := forall s', ~ step s s'.

Lemma stuck_done s : (0 < concurrency)%nat -> reachable s -> stuck s -> failed s = None ->
  mapM_result work items = Ok (omap id (collected s)) /\ Forall is_Some (collected s).
Proof.
  intros Hc Hs Hstuck Hfail. destruct (pool_reachable_inv s Hs) as [Hb Hn Hr Hf Ha].
  destruct (Ha Hfail) as ([_ Hidx] & _ & Hall).
  destruct s as [n r l res fl]; cbn in *. subst fl.
  assert (l = []) as ->.
  { destruct l as [|i l]; [done|exfalso]. assert (i < n)%nat as Hi by (apply Hidx; left; left).
    destruct (items !! i) as [a|] eqn:E; [|apply lookup_ge_None in E; lia].
    destruct (work a) as [b|e] eqn:Ew.
    - by apply (Hstuck _ (step_done n r [] i l res a b E Ew)).
    - by apply (Hstuck _ (step_fail n r [] i l res a e E Ew)). }
  assert (r = 0)%nat as ->.
  { destruct r as [|r]; [done|exfalso]. destruct (decide (n < length items)%nat) as [Hlt|Hge].
    - by apply (Hstuck _ (step_take n r [] res Hlt)).
    - apply (Hstuck _ (step_stop n r [] res ltac:(lia))). }
  assert (n = length items) as ->.
  { cbn in Hall. unfold workers in Hall. destruct Hall; lia. }
  assert (forall i, (i < length items)%nat -> exists a b, items !! i = Some a /\ res !! i = Some b /\ work a = Ok b)
    as Hget.
  { intros i Hi. apply Hidx in Hi as [?%elem_of_nil|[b Hres]]; [done|].
    destruct (Hr i b Hres) as (a & Hi & Hw). by exists a, b. }
  unfold collected. clear -Hget.
  assert (forall k l, drop k items = l -> (k <= length items)%nat ->
    mapM_result work l = Ok (omap id (map (fun i => res !! i) (seq k (length l)))) /\
    Forall is_Some (map (fun i => res !! i) (seq k (length l)))) as Hgen.
  2: { by apply (Hgen 0%nat items); [|lia]. }
  intros k l. revert k. induction l as [|x l IH]; intros k Hd Hk; [by split; [|constructor]|].
  assert (items !! k = Some x) as Hx.
  { rewrite <- (Nat.add_0_r k), <- lookup_drop, Hd. done. }
  destruct (Hget k) as (a & b & E1 & E2 & E3); [by eapply lookup_lt_Some|].
  rewrite Hx in E1. injection E1 as <-. cbn [length seq map mapM_result]. rewrite E2, E3.
  destruct (IH (S k)) as [IH1 IH2].
  - replace (S k) with (k + 1)%nat by lia. by rewrite <- drop_drop, Hd.
  - apply lookup_lt_Some in Hx. lia.
  - rewrite IH1. cbn [mbind result_bind omap list_omap id]. split; [done|]. constructor; [by eexists|done].
Qed.

(** C25. [map_bounded] computes its items whatever the order in which the event loop
    runs its workers: at most [concurrency] items are in progress at any time;
    it never gets stuck and always ends; it ends with the results in the order
    of the items when no item fails, and otherwise with the exception of an
    item that failed. *)
Theorem map_bounded_correct s : (0 < concurrency)%nat -> reachable s ->
  (length (busy s) <= concurrency)%nat /\
  (forall s', step s s' -> (fuel s' < fuel s)%nat) /\
  (forall e, failed s = Some e -> exists a, a ∈ items /\ work a = Raise e) /\
  ((forall s', ~ step s s') -> failed s = None ->
   mapM_result work items = Ok (omap id (collected s)) /\ Forall is_Some (collected s)).
Proof.
  intros Hc Hs. pose proof (pool_reachable_inv s Hs) as [Hb Hn Hr Hf Ha].
  split_and!; [unfold workers in Hb; lia|by intros; apply step_fuel|done|by apply stuck_done].
Qed.

(** A state that is not at its end has a next one. *)
Lemma pool_progress s : reachable s -> stuck s \/ exists s', step s s'.
Proof.
  intros Hs. destruct (pool_reachable_inv s Hs) as [Hb Hn Hr Hf Ha]. destruct s as [n r l res [e|]]; cbn in *.
  { left. intros s' Hs'. inversion Hs'. }
  destruct (Ha eq_refl) as ([_ Hidx] & _). destruct l as [|i l].
  - destruct r as [|r].
    + left. intros s' Hs'. inversion Hs' as [| |? ? [|] ? ? ? ? ? ? ?|? ? [|] ? ? ? ? ? ? ?]; done.
    + right. destruct (decide (n < length items)%nat); eexists; [by apply step_take|apply step_stop; lia].
  - right. assert (i < n)%nat as Hi by (apply Hidx; left; left).
    destruct (items !! i) as [a|] eqn:E; [|apply lookup_ge_None in E; lia].
    destruct (work a) as [b|e] eqn:Ew; eexists; [by apply (step_done n r [] i l res a b)|by apply (step_fail n r [] i l res a e)].
Qed.

(** What the caller gets from the gathering. *)
Definition ends_in (x : result (list B)) : Prop := exists s, reachable s /\ stuck s /\
  x = match failed s with Some e => Raise e | None => Ok (omap id (collected s)) end.

Lemma gathering_ends : exists x, ends_in x.
Proof.
  assert (forall k s, (fuel s < k)%nat -> reachable s -> exists s', reachable s' /\ stuck s') as H.
  { induction k as [|k IH]; intros s Hk Hs; [lia|]. destruct (pool_progress s Hs) as [?|[s' Hstep]]; [by exists s|].
    pose proof (step_fuel s s' Hstep). apply (IH s'); [lia|]. eapply rtc_r; [exact Hs|done]. }
  destruct (H (S (fuel start)) start) as (s & Hs & Hk); [lia|apply rtc_refl|]. eexists. by exists s.
Qed.

(** It answers with all results, in the order of the items, or with the exception of one of them. *)
Lemma ends_in_ok x : (0 < concurrency)%nat -> ends_in x ->
  x = mapM_result work items \/ exists a e, a ∈ items /\ work a = Raise e /\ x = Raise e.
Proof.
  intros Hc (s & Hs & Hk & ->). destruct (failed s) as [e|] eqn:Hf.
  - right. destruct (inv_failed s (pool_reachable_inv s Hs) e Hf) as (a & ? & ?). by exists a, e.
  - left. symmetry. by apply stuck_done.
Qed.

End map_bounded.

Definition demo_work (n : Z) : result Z := Ok (n + 1).
Definition demo_done : pool := Pool 2 0 [] {[0%nat := 11; 1%nat := 21]} None.

Lemma demo_done_reachable : reachable demo_work [10; 20] 2 demo_done.
Proof.
  unfold reachable, start, demo_done, workers. cbn.
  eapply rtc_l; [apply step_take; cbn; lia|]. eapply rtc_l; [apply step_take; cbn; lia|].
  eapply rtc_l; [by apply (step_done _ _ 2 0 [1%nat] 0 [] ∅ 10 11)|]. cbn.
  eapply rtc_l; [by apply (step_done _ _ 2 1 [] 1 [] _ 20 21)|]. cbn.
  eapply rtc_l; [apply step_stop; cbn; lia|]. eapply rtc_l; [apply step_stop; cbn; lia|].
  rewrite insert_insert_ne by done. apply rtc_refl.
Qed.

Lemma map_bounded_correct_witness :
  mapM_result demo_work [10; 20] = Ok (omap id (collected [10; 20] demo_done)).
Proof.
  destruct (map_bounded_correct demo_work [10; 20] 2 demo_done) as (_ & _ & _ & Hend).
  - lia.
  - exact demo_done_reachable.
  - apply Hend; [|reflexivity]. intros s' Hs. inversion Hs; by destruct l1.
Defined.

(** ** The consume loop *)

Section run_bounded_iterator.
Context {A : Type}.

Definition is_timeout (e : exn) : bool := match exn_class e with XTimeout => true | _ => false end.
Definition is_cancelled (e : exn) : bool := match exn_class e with XCancelled => true | _ => false end.
Definition cancelled : exn := Exn XCancelled "CancelledError" "".

(** What the iterator gives: an item, its end, or an exception ([TimeoutError] and [CancelledError] among them). *)
Inductive next_of := Item (a : A) | Exhausted | NoItem (e : exn).

(** Where the loop is: before its test, awaiting the semaphore, awaiting the iterator with a permit, in the [sleep(0)] after a
    timeout; in the handler of its cancellation, gathering its tasks; leaving with [x], gathering them in the [finally]; cancelled
    in that gathering, which still waits for its tasks; or over. *)
Inductive loop_phase := Head | Acquiring | Fetching | Sleeping | Cancelling (e : exn) | Leaving (x : result unit) | Overridden | Ended (x : result unit).

(** [run_bounded_iterator], relayna/_async.py:57-59.  [finished] tasks are over and await their callback, [recorded] ones had it;
    the running and the finished ones are the code's [in_flight]. *)
Record loop := LoopState {
  lp_phase : loop_phase; lp_free : nat; lp_running : list A; lp_finished : list (A * result unit); lp_recorded : list (A * result unit);
  lp_first_error : option exn; lp_stop : bool; lp_taken : list A }.

(** [run_bounded_iterator], relayna/_async.py:54-59. *)
Definition run_bounded_iterator (concurrency : Z) (stop : bool) : result loop :=
  if concurrency <? 1 then Raise (value_error "concurrency must be at least 1")
  else Ok (LoopState Head (Z.to_nat concurrency) [] [] [] None stop []).

Definition in_phase p (s : loop) : loop := LoopState p (lp_free s) (lp_running s) (lp_finished s) (lp_recorded s) (lp_first_error s) (lp_stop s) (lp_taken s).
Definition with_free n (s : loop) : loop := LoopState (lp_phase s) n (lp_running s) (lp_finished s) (lp_recorded s) (lp_first_error s) (lp_stop s) (lp_taken s).
Definition set_stop (s : loop) : loop := LoopState (lp_phase s) (lp_free s) (lp_running s) (lp_finished s) (lp_recorded s) (lp_first_error s) true (lp_taken s).

(** [run_bounded_iterator], relayna/_async.py:83-84. *)
Definition loop_test (s : loop) : loop := in_phase (if lp_stop s then Leaving (Ok tt) else Acquiring) s.

(** [run_bounded_iterator], relayna/_async.py:84-91: with a permit. *)
Definition after_acquire (s : loop) : loop :=
  match lp_first_error s with
  | Some e => in_phase (Leaving (Raise e)) s
  | None => if lp_stop s then in_phase (Leaving (Ok tt)) s else with_free (pred (lp_free s)) (in_phase Fetching s)
  end.

Definition in_flight (s : loop) : bool := match lp_running s, lp_finished s with [], [] => false | _, _ => true end.

(** [run_bounded_iterator], relayna/_async.py:92-108. *)
Definition fetched (n : next_of) (s : loop) : loop :=
  let released p := with_free (S (lp_free s)) (in_phase p s) in
  match n with
  | Item a => LoopState Head (lp_free s) (lp_running s ++ [a]) (lp_finished s) (lp_recorded s) (lp_first_error s) (lp_stop s) (lp_taken s ++ [a])
  | Exhausted => released (Leaving (Ok tt))
  | NoItem e =>
      if is_timeout e then released (if in_flight s then Sleeping else Leaving (Raise e))
      else released (if is_cancelled e then Cancelling e else Leaving (Raise e))
  end.

(** [run_item], relayna/_async.py:61-65: a task ends; its permit is released, unless ([started = false]) it was
    cancelled before its body began. *)
Definition run_item (started : bool) (l1 : list A) (a : A) (l2 : list A) (r : result unit) (s : loop) : loop :=
  LoopState (lp_phase s) (if started then S (lp_free s) else lp_free s) (l1 ++ l2) (lp_finished s ++ [(a, r)]) (lp_recorded s) (lp_first_error s) (lp_stop s) (lp_taken s).

(** [record_completion], relayna/_async.py:67-77: what its callback takes for the failure of a task. *)
Definition failure_of (r : result unit) : option exn := match r with Raise e => if is_cancelled e then None else Some e | Ok _ => None end.

(** [record_completion], relayna/_async.py:67-77: the callback of a task. *)
Definition record_completion (l1 : list (A * result unit)) (ar : A * result unit) (l2 : list (A * result unit)) (s : loop) : loop :=
  LoopState (lp_phase s) (lp_free s) (lp_running s) (l1 ++ l2) (lp_recorded s ++ [ar])
    (match lp_first_error s with Some e => Some e | None => failure_of ar.2 end) (lp_stop s) (lp_taken s).

(** [run_bounded_iterator], relayna/_async.py:106-117: a cancellation reaches the loop at an await.  A gathering that is cancelled
    ends when its tasks have, in a cancellation; in the handler of one this changes nothing, in the [finally] it takes the place of
    what follows. *)
Definition interrupt (s : loop) : loop :=
  match lp_phase s with
  | Acquiring | Sleeping => in_phase (Cancelling cancelled) s
  | Fetching => with_free (S (lp_free s)) (in_phase (Cancelling cancelled) s)
  | Leaving _ => in_phase Overridden s
  | _ => s
  end.

(** [run_bounded_iterator], relayna/_async.py:109-118: nothing is in flight any more. *)
Definition drained (s : loop) : loop :=
  let with_error x := match lp_first_error s with Some e => Raise e | None => x end in
  match lp_phase s with
  | Cancelling e => in_phase (Ended (with_error (Raise e))) s
  | Leaving x => in_phase (Ended (with_error x)) s
  | Overridden => in_phase (Ended (Raise cancelled)) s
  | _ => s
  end.

Definition gathering (p : loop_phase) : bool := match p with Cancelling _ | Leaving _ | Overridden => true | _ => false end.

(** A step is the loop's and its tasks' own, or comes from outside ([true]): the stop event is set, the loop is cancelled. *)
Inductive loop_step : bool -> loop -> loop -> Prop :=
| loop_stopped s : loop_step true s (set_stop s)
| loop_tests s : lp_phase s = Head -> loop_step false s (loop_test s)
| loop_acquires s n : lp_phase s = Acquiring -> lp_free s = S n -> loop_step false s (after_acquire s)
| loop_fetches s n : lp_phase s = Fetching -> loop_step false s (fetched n s)
| loop_wakes s : lp_phase s = Sleeping -> loop_step false s (in_phase Head s)
| loop_task_ends s l1 a l2 r started : lp_running s = l1 ++ a :: l2 -> (started = false -> gathering (lp_phase s) = true) ->
    loop_step false s (run_item started l1 a l2 r s)
| loop_callback s l1 ar l2 : lp_finished s = l1 ++ ar :: l2 -> loop_step false s (record_completion l1 ar l2 s)
| loop_interrupted s : loop_step true s (interrupt s)
| loop_drained s : in_flight s = false -> loop_step false s (drained s).

Definition permits_held (p : loop_phase) : nat := match p with Fetching => 1 | _ => 0 end.

Record loop_inv (concurrency : nat) (s : loop) : Prop := {
  li_permits : (lp_free s + length (lp_running s) + permits_held (lp_phase s) <= concurrency)%nat;
  li_all_permits : gathering (lp_phase s) = false -> (exists x, lp_phase s = Ended x) \/
    (lp_free s + length (lp_running s) + permits_held (lp_phase s) = concurrency)%nat;
  li_tasks : lp_taken s ≡ₚ lp_running s ++ map fst (lp_finished s) ++ map fst (lp_recorded s);
  li_error : forall e, lp_first_error s = Some e -> exists a, (a, Raise e) ∈ lp_recorded s /\ is_cancelled e = false;
  li_failures : forall a e, (a, Raise e) ∈ lp_recorded s -> is_cancelled e = false -> is_Some (lp_first_error s);
  li_ended : forall x, lp_phase s = Ended x -> in_flight s = false /\
    (x = Raise cancelled \/ forall e, lp_first_error s = Some e -> x = Raise e) }.

Lemma in_flight_none s : in_flight s = false -> lp_running s = [] /\ lp_finished s = [].
Proof. unfold in_flight. by destruct (lp_running s), (lp_finished s). Qed.

Lemma loop_start_inv c stop s : run_bounded_iterator c stop = Ok s -> loop_inv (Z.to_nat c) s.
Proof.
  unfold run_bounded_iterator. destruct (c <? 1); [done|]. intros [= <-].
  split; cbn; [lia|right; lia|done|done|by intros a e ?%elem_of_nil|done].
Qed.

(** A change of phase that balances its permits. *)
Lemma phase_inv c s p n : loop_inv c s -> (forall x, lp_phase s <> Ended x) -> (forall x, p <> Ended x) ->
  (n + permits_held p = lp_free s + permits_held (lp_phase s))%nat -> (gathering (lp_phase s) = true -> gathering p = true) ->
  loop_inv c (with_free n (in_phase p s)).
Proof.
  intros [H1 H2 H3 H4 H5 H6] He He' Hn Hg. split; cbn; [lia| |done|done|done|intros x ->; by destruct (He' x)].
  intros Hg'. destruct (gathering (lp_phase s)) eqn:E; [by rewrite Hg in Hg'|]. destruct (H2 eq_refl) as [[x Hx]|]; [by destruct (He x)|right; lia].
Qed.

(** The same without a change of the permits. *)
Lemma in_phase_inv c s p : loop_inv c s -> (forall x, lp_phase s <> Ended x) -> (forall x, p <> Ended x) ->
  permits_held p = permits_held (lp_phase s) -> (gathering (lp_phase s) = true -> gathering p = true) -> loop_inv c (in_phase p s).
Proof. intros Hi He He' Hn Hg. apply (phase_inv c s p (lp_free s)); try done. lia. Qed.

Lemma set_stop_inv c s : loop_inv c s -> loop_inv c (set_stop s).
Proof. intros [H1 H2 H3 H4 H5 H6]. by split. Qed.

Lemma after_acquire_inv c s : loop_inv c s -> lp_phase s = Acquiring -> (0 < lp_free s)%nat -> loop_inv c (after_acquire s).
Proof.
  intros Hi Hp Hn. unfold after_acquire. destruct (lp_first_error s); [by apply in_phase_inv; rewrite ?Hp|].
  destruct (lp_stop s); [by apply in_phase_inv; rewrite ?Hp|]. apply phase_inv; rewrite ?Hp; cbn; done || lia.
Qed.

Lemma fetched_inv c n s : loop_inv c s -> lp_phase s = Fetching -> loop_inv c (fetched n s).
Proof.
  intros Hi Hp. assert (forall p, (forall x, p <> Ended x) -> permits_held p = 0%nat -> loop_inv c (with_free (S (lp_free s)) (in_phase p s))) as Hr.
  { intros p He Hh. apply phase_inv; rewrite ?Hp, ?Hh; cbn; done || lia. }
  unfold fetched. cbv zeta. destruct n as [a| |e]; [|by apply Hr|].
  - destruct Hi as [H1 H2 H3 H4 H5 H6]. rewrite Hp in *. cbn in H1, H2. destruct (H2 eq_refl) as [[x Hx]|H2']; [done|].
    split; cbn; [rewrite length_app; cbn; lia|intros _; right; rewrite length_app; cbn; lia| |done|done|done].
    rewrite H3. solve_Permutation.
  - destruct (is_timeout e); [destruct (in_flight s)|destruct (is_cancelled e)]; by apply Hr.
Qed.

Lemma run_item_inv c l1 a l2 r started s : loop_inv c s -> lp_running s = l1 ++ a :: l2 -> (started = false -> gathering (lp_phase s) = true) ->
  loop_inv c (run_item started l1 a l2 r s).
Proof.
  intros [H1 H2 H3 H4 H5 H6] Hl Hs. rewrite Hl in H1, H2, H3. rewrite length_app in H1, H2. cbn in H1, H2. unfold run_item. split; cbn; [| | |done|done|].
  - rewrite length_app. destruct started; lia.
  - intros Hg. rewrite length_app. destruct started; [|by rewrite Hs in Hg]. destruct (H2 Hg); [by left|right; lia].
  - rewrite H3, map_app. cbn. solve_Permutation.
  - intros x E. destruct (H6 x E) as [Hf _]. apply in_flight_none in Hf as [Hr _]. rewrite Hl in Hr. by destruct l1.
Qed.

Lemma record_completion_inv c l1 ar l2 s : loop_inv c s -> lp_finished s = l1 ++ ar :: l2 -> loop_inv c (record_completion l1 ar l2 s).
Proof.
  intros [H1 H2 H3 H4 H5 H6] Hl. unfold record_completion. split; cbn; [done|done| | | |].
  - rewrite H3, Hl, !map_app. cbn. solve_Permutation.
  - intros e He. destruct (lp_first_error s) as [e'|].
    + injection He as ->. destruct (H4 e eq_refl) as (a & Ha & Hn). exists a. split; [apply elem_of_app; by left|done].
    + destruct ar as [a [[]|e']]; [done|]. cbn in He. destruct (is_cancelled e') eqn:Hn; [done|]. injection He as ->. exists a.
      split; [apply elem_of_app; right; left|done].
  - intros a e Ha Hn. destruct (lp_first_error s); [by eexists|]. apply elem_of_app in Ha as [Ha|Ha]; [by destruct (H5 a e Ha Hn)|].
    apply list_elem_of_singleton in Ha as <-. cbn. rewrite Hn. by eexists.
  - intros x E. destruct (H6 x E) as [Hf _]. apply in_flight_none in Hf as [_ Hr]. rewrite Hl in Hr. by destruct l1.
Qed.

Lemma interrupt_inv c s : loop_inv c s -> loop_inv c (interrupt s).
Proof.
  intros Hi. unfold interrupt. destruct (lp_phase s) eqn:Hp; try done; try (by apply in_phase_inv; rewrite ?Hp).
  apply phase_inv; rewrite ?Hp; cbn; done || lia.
Qed.

Lemma drained_inv c s : loop_inv c s -> in_flight s = false -> loop_inv c (drained s).
Proof.
  intros [H1 H2 H3 H4 H5 H6] Hf. assert (forall x, permits_held (lp_phase s) = 0%nat ->
    (x = Raise cancelled \/ forall e, lp_first_error s = Some e -> x = Raise e) -> loop_inv c (in_phase (Ended x) s)) as He.
  { intros x Hh Hx. split; cbn; [lia|intros _; left; by eexists|done|done|done|]. by intros y [= <-]. }
  unfold drained. destruct (lp_phase s) eqn:Hp; try (by split; rewrite ?Hp); apply He; try done; [| |by left]; right; by intros e' ->.
Qed.

Lemma loop_step_inv c outside s s' : loop_inv c s -> loop_step outside s s' -> loop_inv c s'.
Proof.
  intros Hi Hs. destruct Hs as [s|s Hp|s n Hp Hn|s n Hp|s Hp|s l1 a l2 r started Hl Hs|s l1 ar l2 Hl|s|s Hf].
  - by apply set_stop_inv.
  - unfold loop_test. apply in_phase_inv; rewrite ?Hp; destruct (lp_stop s); done.
  - apply after_acquire_inv; [done|done|lia].
  - by apply fetched_inv.
  - by apply in_phase_inv; rewrite ?Hp.
  - by apply run_item_inv.
  - by apply record_completion_inv.
  - by apply interrupt_inv.
  - by apply drained_inv.
Qed.

Definition loop_moves (s s' : loop) : Prop := exists outside, loop_step outside s s'.

Lemma loop_reachable_inv c stop s0 s : run_bounded_iterator c stop = Ok s0 -> rtc loop_moves s0 s -> loop_inv (Z.to_nat c) s.
Proof.
  intros H0 Hs. pose proof (loop_start_inv c stop s0 H0) as Hi. clear H0.
  induction Hs as [|x y z [o Hxy] _ IH]; [done|]. by apply IH, (loop_step_inv _ o x).
Qed.

(** Once a stop is requested, every step that changes something uses up some of this. *)
Definition phase_rank (p : loop_phase) : nat :=
  match p with Ended _ => 0 | Overridden => 1 | Leaving _ | Cancelling _ => 2 | Head => 3 | Acquiring | Sleeping => 4 | Fetching => 6 end.
Definition loop_fuel (s : loop) : nat := 2 * length (lp_running s) + length (lp_finished s) + phase_rank (lp_phase s).

Lemma stopping_decreases outside s s' : lp_stop s = true -> loop_step outside s s' ->
  lp_stop s' = true /\ (s' = s \/ (loop_fuel s' < loop_fuel s)%nat).
Proof.
  intros Hstop Hs. unfold loop_fuel. destruct Hs as [s|s Hp|s n Hp Hn|s n Hp|s Hp|s l1 a l2 r started Hl Hs|s l1 ar l2 Hl|s|s Hf].
  - split; [done|left]. destruct s. cbn in *. by subst.
  - unfold loop_test. rewrite Hstop. cbn. rewrite Hp. cbn. split; [done|right; lia].
  - unfold after_acquire. rewrite Hstop. destruct (lp_first_error s); cbn; rewrite Hp; cbn; (split; [done|right; lia]).
  - unfold fetched. cbv zeta. destruct n as [a| |e]; cbn; [| |destruct (is_timeout e); [destruct (in_flight s)|destruct (is_cancelled e)]]; cbn;
      rewrite Hp; cbn; rewrite ?length_app; cbn; (split; [done|right; lia]).
  - cbn. rewrite Hp. cbn. split; [done|right; lia].
  - cbn. rewrite Hl, !length_app. cbn. split; [done|right; lia].
  - cbn. rewrite Hl, !length_app. cbn. split; [done|right; lia].
  - unfold interrupt. destruct (lp_phase s) eqn:Hp; cbn; rewrite ?Hp; cbn; (split; [done|]); (right; lia) || by left.
  - unfold drained. destruct (lp_phase s) eqn:Hp; cbn; rewrite ?Hp; cbn; (split; [done|]); (right; lia) || by left.
Qed.

(** Until it is over the loop can go on by itself, when the iterator answers and the handlers that run come to their end. *)
Lemma loop_progress c s : (0 < c)%nat -> loop_inv c s -> (forall x, lp_phase s <> Ended x) -> exists s', loop_step false s s' /\ s' <> s.
Proof.
  intros Hc [H1 H2 H3 H4 H5 H6] Hne.
  assert (forall p s', loop_step false s s' -> lp_phase s = p -> lp_phase s' <> p -> exists s', loop_step false s s' /\ s' <> s) as Hphase.
  { intros p s' Hs <- Hp. exists s'. split; [done|]. by intros ->. }
  assert (in_flight s = true -> exists s', loop_step false s s' /\ s' <> s) as Hflight.
  { intros Hf. unfold in_flight in Hf. destruct (lp_running s) as [|a l] eqn:Hr.
    - destruct (lp_finished s) as [|ar l] eqn:Hd; [done|]. eexists. split; [by apply (loop_callback s [] ar l)|].
      intros E. apply (f_equal (fun s => length (lp_recorded s))) in E. cbn in E. rewrite length_app in E. cbn in E. lia.
    - eexists. split; [by apply (loop_task_ends s [] a l (Ok tt) true)|]. intros E. apply (f_equal lp_free) in E. cbn in E. lia. }
  assert (gathering (lp_phase s) = true -> exists s', loop_step false s s' /\ s' <> s) as Hgather.
  { intros Hg. destruct (in_flight s) eqn:Hf; [by apply Hflight|]. eapply Hphase; [by apply loop_drained|done|].
    unfold drained. by destruct (lp_phase s). }
  destruct (lp_phase s) as [| | | |e|x| |x] eqn:Hp; try by apply Hgather.
  - eapply (Hphase Head); [by apply loop_tests|done|]. cbn. by destruct (lp_stop s).
  - destruct (lp_free s) as [|n] eqn:Hf.
    + apply Hflight. unfold in_flight. destruct (lp_running s); [|done]. destruct (H2 eq_refl) as [[x Hx]|]; [done|cbn in *; lia].
    + eapply (Hphase Acquiring); [by eapply loop_acquires|done|]. unfold after_acquire. destruct (lp_first_error s); [done|]. by destruct (lp_stop s).
  - by eapply (Hphase Fetching); [apply (loop_fetches s Exhausted)|..].
  - by eapply (Hphase Sleeping); [apply loop_wakes|..].
  - by destruct (Hne x).
Qed.

(** C24. The consume loop, in whatever order the iterator, the handlers, their callbacks, a stop and cancellations come: at most
    [concurrency] handlers run at any time; every item that was taken is with one handler or was handled; until it is over the loop can
    go on; once a stop is requested it ends, since whatever happens uses up a measure; when it is over no handler is left, and if
    a handler failed it ends in the failure of one, unless a cancellation came while it waited for its handlers. *)
Theorem consume_loop_correct concurrency stop s0 s : run_bounded_iterator concurrency stop = Ok s0 -> rtc loop_moves s0 s ->
  Z.of_nat (length (lp_running s)) <= concurrency /\
  lp_taken s ≡ₚ lp_running s ++ map fst (lp_finished s) ++ map fst (lp_recorded s) /\
  ((forall x, lp_phase s <> Ended x) -> exists s', loop_step false s s' /\ s' <> s) /\
  (lp_stop s = true -> forall s', loop_moves s s' -> lp_stop s' = true /\ (s' = s \/ (loop_fuel s' < loop_fuel s)%nat)) /\
  (forall x, lp_phase s = Ended x ->
     lp_running s = [] /\ lp_finished s = [] /\
     (x = Raise cancelled \/
      forall a e, (a, Raise e) ∈ lp_recorded s -> is_cancelled e = false -> exists a' e', x = Raise e' /\ (a', Raise e') ∈ lp_recorded s)).
Proof.
  intros H0 Hs. assert (0 < concurrency) as Hc by (unfold run_bounded_iterator in H0; destruct (Z.ltb_spec concurrency 1); [done|lia]).
  pose proof (loop_reachable_inv _ _ _ s H0 Hs) as Hi. pose proof Hi as [H1 H2 H3 H4 H5 H6]. split_and!; [lia|done| | |].
  - by apply (loop_progress (Z.to_nat concurrency)); [lia|].
  - intros Hstop s' [o Ho]. by apply (stopping_decreases o).
  - intros x Hp. destruct (H6 x Hp) as [Hf Hx]. apply in_flight_none in Hf as [-> ->]. split_and!; [done|done|].
    destruct Hx as [->|Hx]; [by left|right]. intros a e Ha Hn. destruct (H5 a e Ha Hn) as [e' He]. destruct (H4 e' He) as (a' & Ha' & _).
    exists a', e'. by split; [apply Hx|].
Qed.
End run_bounded_iterator.

(** Two permits; the handler of message 1 fails while the loop waits for the next message, and then the loop is cancelled. *)
Definition handler_error : exn := Exn XValueError "ValueError" "handler".
Definition lost_loop : loop (A:=Z) := LoopState (Ended (Raise handler_error)) 2 [] [] [(1, Raise handler_error)] (Some handler_error) false [1].

Lemma lost_loop_reachable : exists s0, run_bounded_iterator 2 false = Ok s0 /\ rtc loop_moves s0 lost_loop.
Proof.
  eexists. split; [reflexivity|]. unfold lost_loop.
  eapply rtc_l; [eexists; by apply loop_tests|]. eapply rtc_l; [eexists; by eapply loop_acquires|]. eapply rtc_l; [eexists; by apply (loop_fetches _ (Item 1))|].
  eapply rtc_l; [eexists; by apply loop_tests|]. eapply rtc_l; [eexists; by eapply loop_acquires|]. cbn.
  eapply rtc_l; [eexists; by apply (loop_task_ends _ [] 1 [] (Raise handler_error) true)|].
  eapply rtc_l; [eexists; by apply (loop_callback _ [] (1, Raise handler_error) [])|].
  eapply rtc_l; [eexists; apply loop_interrupted|]. eapply rtc_l; [eexists; by apply loop_drained|]. cbn. apply rtc_refl.
Qed.

(** [run_forever], relayna/consumer/task_consumer.py:167-186: what the consumer does after its iterator ended in [x]: goes on
    with a new channel ([true]), returns, or raises. *)
Definition after_pass (stop : bool) (x : result unit) : result bool :=
  match x with
  | Ok _ => Ok (negb stop)
  | Raise e => if is_exception e then Ok (negb stop) else Raise e
  end.

(** The cancellation of a consumer in which a handler failed is lost: the exception of the handler takes its place, which
    [run_forever] takes for an error to go on from. *)
Lemma cancellation_lost (s : loop (A:=Z)) : lp_phase s = Fetching -> in_flight s = false -> lp_first_error s = Some handler_error ->
  exists x, lp_phase (drained (interrupt s)) = Ended x /\ after_pass false x = Ok true.
Proof. intros Hp Hf He. exists (Raise handler_error). split; [|done]. unfold interrupt. rewrite Hp. cbn. by rewrite He. Qed.

Lemma consume_loop_correct_witness : lp_running lost_loop = [] /\ lp_taken lost_loop ≡ₚ [1].
Proof.
  destruct lost_loop_reachable as (s0 & H0 & Hs).
  destruct (consume_loop_correct 2 false s0 lost_loop H0 Hs) as (_ & Ht & _ & _ & He). split; [|exact Ht].
  exact (proj1 (He (Raise handler_error) eq_refl)).
Defined.
