(* ===== verification/StatusStore.v ===== *)
(** * Status history (status/store.py)

    [RedisStatusStore]: the per-task history list, the index of child tasks
    and the marker that makes a redelivered event a no-op.  [feed] is the
    optional service event store; times are microseconds, an operation runs at
    one instant. *)

From S2P Require Import Prelude PyStr PyVal Json Sha256 Contracts Redis RedisProg.

Section store.
Context {R : Type} `{Redis R}.
Context (prefix : string) (ttl_seconds : option Z) (history_maxlen : Z).
Context (service_event_store : option (Z -> pydict -> P R bool)).
Context (loads : string -> result pydict).

(** [history_key], relayna/status/store.py:30-31. *)
Definition history_key (task_id : string) : string :=
  redis_key prefix ("status:" +:+ task_id) ["history"; task_id].
(** [channel_name], relayna/status/store.py:33-34. *)
Definition channel_name (task_id : string) : string :=
  redis_key prefix ("status:" +:+ task_id) ["channel"; task_id].

Definition history_dumps : dumps_opts := DumpsOpts false false ", " ": ".

(** [event_key], relayna/status/store.py:36-43. *)
Definition event_key (task_id : string) (event : pydict) : string :=
  let digest := Sha256.hexdigest (utf8 (dumps (DumpsOpts false true ", " ": ") (PDict event))) in
  let token := match dgetv "event_id" event with
               | PStr s => if String.eqb (strip s) "" then digest else strip s
               | _ => digest
               end in
  redis_key prefix ("status:" +:+ task_id) ["event"; task_id; token].

(** [child_tasks_key], relayna/status/store.py:45-46. *)
Definition child_tasks_key (parent_task_id : string) : string :=
  redis_key prefix ("status-children:" +:+ parent_task_id) ["children"; parent_task_id].

(** [_parent_task_id], relayna/status/store.py:113-120. *)
Definition parent_task_id_of (event : pydict) : option string :=
  match dgetv "meta" event with
  | PDict meta =>
      let parent := strip (py_str (py_or (dgetv "parent_task_id" meta) (PStr ""))) in
      if String.eqb parent "" ||
         String.eqb parent (strip (py_str (py_or (dgetv "task_id" event) (PStr ""))))
      then None else Some parent
  | _ => None
  end.

(** [if self.ttl_seconds:] *)
Definition ttl : option Z :=
  match ttl_seconds with Some s => if s =? 0 then None else Some s | None => None end.
Definition expire_if (r : R) (now : Z) (k : string) : R :=
  match ttl with Some s => rexpire r now k s | None => r end.

(** The two pipelines. *)
(** [set_history], relayna/status/store.py:60-67. *)
Definition push_history (now : Z) (task_id payload : string) (r : R) : R :=
  let r := rlpush r now (history_key task_id) payload in
  let r := rltrim r now (history_key task_id) 0 (history_maxlen - 1) in
  expire_if r now (history_key task_id).
(** [set_history], relayna/status/store.py:75-80. *)
Definition add_child (now : Z) (parent_task_id task_id : string) (r : R) : R :=
  let r := (rsadd r now (child_tasks_key parent_task_id) task_id).1 in
  expire_if r now (child_tasks_key parent_task_id).

(** The rest of [set_history] once the history holds the event. *)
(** [set_history], relayna/status/store.py:73-89. *)
Definition finish_history (now : Z) (task_id : string) (event : pydict) : P R unit :=
  _ ← match parent_task_id_of event with
      | Some parent => await_ (add_child now parent task_id)
      | None => mret tt
      end;
  _ ← match service_event_store with
      | Some add_status_event => _ ← add_status_event now event; mret tt
      | None => mret tt
      end;
  _ ← await_ (fun r => rpublish r now (channel_name task_id) (dumps history_dumps (PDict event)));
  await_ (fun r => rset r now (event_key task_id event) "complete" ttl).

(** [set_history], relayna/status/store.py:48-89. *)
Definition set_history (now : Z) (task_id : string) (event : pydict) : P R unit :=
  let payload := dumps history_dumps (PDict event) in
  let dedupe_key := event_key task_id event in
  inserted ← await (fun r => rset_nx r now dedupe_key "pending" ttl);
  if inserted : bool then
    _ ← reraising (await_ (push_history now task_id payload))
                  (await_ (fun r => (rdel r now dedupe_key).1));
    finish_history now task_id event
  else
    marker ← await_read (fun r => rget r now dedupe_key);
    if bool_decide (marker = Some "complete") then mret tt
    else finish_history now task_id event.

(** [get_history], relayna/status/store.py:91-98. *)
Definition get_history (now : Z) (task_id : string) (limit : option Z) (r : R) : result (list pydict) :=
  let limit := from_opt history_maxlen limit in
  mapM_result loads (rlrange r now (history_key task_id) 0 (Z.max 0 (limit - 1))).

(** [get_latest], relayna/status/store.py:100-104. *)
Definition get_latest (now : Z) (task_id : string) (r : R) : result (option pydict) :=
  match rlrange r now (history_key task_id) 0 0 with
  | [] => Ok None
  | item :: _ => event ← loads item; Ok (Some event)
  end.

(** [get_child_task_ids], relayna/status/store.py:106-111. *)
Definition get_child_task_ids (now : Z) (parent_task_id : string) (limit : option Z) (r : R) :
    list string :=
  let ids := sorted_strs (rsmembers r now (child_tasks_key parent_task_id)) in
  match limit with None => ids | Some n => take (Z.to_nat (Z.max 0 n)) ids end.

(** ** The keys are apart *)

Lemma history_event_ne t t' e : history_key t <> event_key t' e.
Proof. intros E. apply redis_key_suffix in E. done. Qed.
Lemma history_children_ne t p : history_key t <> child_tasks_key p.
Proof. intros E. apply redis_key_suffix in E. done. Qed.
Lemma event_children_ne t e p : event_key t e <> child_tasks_key p.
Proof. intros E. apply redis_key_suffix in E. done. Qed.


(** ** One delivery of an event *)

Context `{!RedisLaws R}.

(** What the feed must not touch: the keys of the store. *)
Definition store_key (k : string) : Prop :=
  (exists t, k = history_key t) \/ (exists t e, k = event_key t e) \/ (exists p, k = child_tasks_key p).
Definition feed_frame : Prop :=
  match service_event_store with
  | Some add => forall ok now ev r, wpP ok (add now ev) r
      (fun r' _ => forall k, store_key k -> model r' !! k = model r !! k)
  | None => True
  end.
Hypothesis frame : feed_frame.

(** The history key after a push, as a function of what it held. *)
Definition pushed (now : Z) (payload : string) (o : option (rval * option Z)) :
    option (rval * option Z) :=
  let old := match o with
             | Some (RList l, dl) => if alive now dl then l else []
             | _ => []
             end in
  let deadline := match o with Some (_, dl) => if alive now dl then dl else None | None => None end in
  let l := lslice (payload :: old) 0 (history_maxlen - 1) in
  if bool_decide (l = []) then None
  else Some (RList l, match ttl with Some s => expires now (Some s) | None => deadline end).

Lemma push_history_at now t p r :
  model (push_history now t p r) !! history_key t =
  pushed now p (model r !! history_key t).
Proof.
  unfold push_history, pushed, expire_if. set (k := history_key t).
  assert (forall d, db_ltrim (db_lpush d now k p) now k 0 (history_maxlen - 1) =
    put (db_lpush d now k p) now k (RList (lslice (p :: db_list d now k) 0 (history_maxlen - 1)))) as E.
  { intros d. unfold db_ltrim, db_lpush. by rewrite list_put. }
  assert (forall d, db_list d now k = match d !! k with
    | Some (RList l, dl) => if alive now dl then l else [] | _ => [] end) as El.
  { intros d. unfold db_list, live. destruct (d !! k) as [[[] dl]|]; [destruct (alive now dl)..|]; done. }
  assert (forall d, kept (db_lpush d now k p) now k = match d !! k with
    | Some (_, dl) => if alive now dl then dl else None | None => None end) as Ek.
  { intros d. unfold db_lpush. rewrite kept_put. cbn. unfold kept, live.
    destruct (d !! k) as [[v dl]|]; [by destruct (alive now dl)|done]. }
  destruct (ttl) as [s|]; autorewrite with redis; rewrite E.
  - unfold db_expire. rewrite live_put. cbn [is_empty]. rewrite El.
    destruct (bool_decide _) eqn:Eb; [by rewrite put_lookup; cbn [is_empty]; rewrite Eb|].
    by rewrite lookup_insert_eq.
  - rewrite put_lookup. cbn [is_empty]. rewrite Ek, El. done.
Qed.

Lemma push_history_ne now t p r k : k <> history_key t ->
  model (push_history now t p r) !! k = model r !! k.
Proof.
  intros Hk. unfold push_history, expire_if, db_expire.
  destruct ttl; autorewrite with redis; unfold db_expire, db_ltrim, db_lpush;
    [destruct (live _ _ _) as [[]|]|]; rewrite ?lookup_insert_ne, !put_lookup_ne by done; done.
Qed.

Lemma add_child_ne now p t r k : k <> child_tasks_key p ->
  model (add_child now p t r) !! k = model r !! k.
Proof.
  intros Hk. unfold add_child, expire_if.
  destruct ttl; autorewrite with redis; unfold db_expire, db_sadd; cbn [fst];
    [destruct (live _ _ _) as [[]|]|]; rewrite ?lookup_insert_ne, !put_lookup_ne by done; done.
Qed.

(** What every step after the push leaves of the history and of the marker. *)
Definition settled (t : string) (ev : pydict) (now : Z) (d d' : db) : Prop :=
  d' !! history_key t = d !! history_key t /\
  (d' !! event_key t ev = d !! event_key t ev \/
   d' !! event_key t ev = Some (RStr "complete", expires now ttl)).

Lemma settled_refl t ev now d : settled t ev now d d.
Proof. by split; [|left]. Qed.
Lemma settled_frame t ev now d d1 d2 : settled t ev now d d1 ->
  (forall k, store_key k -> (forall p, k <> child_tasks_key p) -> d2 !! k = d1 !! k) ->
  settled t ev now d d2.
Proof.
  intros [H1 H2] Hf. unfold settled. rewrite !Hf; try done.
  - right; left; by eexists _, _.
  - intros p. apply event_children_ne.
  - left; by eexists.
  - intros p. apply history_children_ne.
Qed.

Lemma finish_history_settles ok now t ev r :
  wpP ok (finish_history now t ev) r (fun r' _ => settled t ev now (model r) (model r')).
Proof.
  unfold finish_history. apply wpP_bind.
  apply wpP_mono with (Q := fun r' _ => settled t ev now (model r) (model r')).
  { destruct (parent_task_id_of ev) as [p|]; [|apply wpP_ret, settled_refl].
    apply wpP_await_; intros; (apply settled_refl || idtac);
      (eapply settled_frame; [apply settled_refl|]; intros k _ Hk; by apply add_child_ne). }
  intros r1 [[]|e] H1; [|done]. apply wpP_bind.
  apply wpP_mono with (Q := fun r' _ => settled t ev now (model r) (model r')).
  { unfold feed_frame in frame. destruct service_event_store as [add|]; [|by apply wpP_ret].
    apply wpP_bind. eapply wpP_mono; [apply frame|]. intros r2 x Hf.
    assert (settled t ev now (model r) (model r2)) by (eapply settled_frame; eauto).
    destruct x; [by apply wpP_ret|done]. }
  intros r2 [[]|e] H2; [|done]. apply wpP_bind, wpP_await_; rewrite ?law_publish; try done.
  assert (forall r', model r' = db_set (model r2) now (event_key t ev) "complete" ttl ->
    settled t ev now (model r) (model r')) as Hset.
  { intros r' E. unfold settled. rewrite E. unfold db_set. destruct H2 as [H2 _]. split.
    - by rewrite lookup_insert_ne by (apply not_eq_sym, history_event_ne).
    - right. apply lookup_insert_eq. }
  apply wpP_await_; intros; rewrite ?law_publish in *; try done; apply Hset; autorewrite with redis; done.
Qed.


(** ** Redelivered events *)

(** A deadline no earlier than [until]; a time before [until]. *)
Definition covers (until dl : option Z) : Prop :=
  match dl, until with None, _ => True | Some x, Some u => u <= x | Some _, None => False end.
Definition within (until : option Z) (now : Z) : Prop :=
  match until with Some u => now < u | None => True end.

Lemma covers_refl u : covers u u.
Proof. destruct u; cbn; [lia|done]. Qed.
Lemma covers_later t0 now : t0 <= now -> covers (expires t0 ttl) (expires now ttl).
Proof. unfold expires. destruct ttl; cbn; [lia|done]. Qed.
Lemma covers_alive until dl now : within until now -> covers until dl -> alive now dl = true.
Proof. destruct dl, until; cbn; try done. intros. apply Z.ltb_lt. lia. Qed.

Definition marked (t : string) (ev : pydict) (until : option Z) (d : db) : Prop :=
  exists v dl, d !! event_key t ev = Some (v, dl) /\ covers until dl.

Lemma marked_live t ev until d now : within until now -> marked t ev until d ->
  exists x, live d now (event_key t ev) = Some x.
Proof.
  intros Hw (v & dl & E & Hc). unfold live. rewrite E, (covers_alive until dl now) by done. by eexists.
Qed.

Lemma marked_settled t ev until d d' now : covers until (expires now ttl) ->
  marked t ev until d -> settled t ev now d d' -> marked t ev until d'.
Proof.
  intros Hc (v & dl & E & Hd) [_ [H1|H1]]; unfold marked; rewrite H1; [by rewrite E; exists v, dl|].
  by eexists _, _.
Qed.

(** While the marker is alive, the history does not change. *)
Lemma set_history_marked ok now t ev r until :
  within until now -> covers until (expires now ttl) -> marked t ev until (model r) ->
  wpP ok (set_history now t ev) r
    (fun r' _ => model r' !! history_key t = model r !! history_key t /\ marked t ev until (model r')).
Proof.
  intros Hw Hc Hm. destruct (marked_live _ _ _ _ _ Hw Hm) as [x Hx].
  assert (forall r', model r' = model r -> model r' !! history_key t = model r !! history_key t /\
    marked t ev until (model r')) as Hsame by (by intros r' ->).
  assert (model (rset_nx r now (event_key t ev) "pending" ttl).1 = model r) as E1.
  { autorewrite with redis. unfold db_set_nx. by rewrite Hx. }
  unfold set_history. apply wpP_bind, wpP_await; intros; [|by apply Hsame..].
  rewrite law_set_nx_ret. unfold db_set_nx. rewrite Hx. cbn [snd].
  apply wpP_bind, wpP_read; intros; [|by apply Hsame].
  case_bool_decide; [by apply wpP_ret, Hsame|].
  eapply wpP_mono; [apply finish_history_settles|]. intros r' y Hs. rewrite E1 in Hs. split; [apply Hs|].
  by eapply marked_settled.
Qed.

(** One attempt whose failed calls never reach the server. *)
Lemma set_history_attempt now t ev r :
  wpP refusals (set_history now t ev) r (fun r' _ =>
    model r' !! history_key t = model r !! history_key t \/
    model r' !! history_key t =
      pushed now (dumps history_dumps (PDict ev)) (model r !! history_key t) /\
    marked t ev (expires now ttl) (model r')).
Proof.
  unfold set_history. apply wpP_bind, wpP_await; intros; [|by left|done].
  rewrite law_set_nx_ret. unfold db_set_nx.
  assert (model (rset_nx r now (event_key t ev) "pending" ttl).1 =
    (db_set_nx (model r) now (event_key t ev) "pending" ttl).1) as E by by autorewrite with redis.
  unfold db_set_nx in E. destruct (live (model r) now (event_key t ev)) as [x|] eqn:Hl; cbn [fst snd] in *.
  - apply wpP_bind, wpP_read; intros; [|left; by rewrite E].
    case_bool_decide; [apply wpP_ret; left; by rewrite E|].
    eapply wpP_mono; [apply finish_history_settles|]. intros r' y [Hs _]. left. by rewrite Hs, E.
  - set (r1 := (rset_nx r now (event_key t ev) "pending" ttl).1) in *.
    assert (model r1 !! history_key t = model r !! history_key t) as E2.
    { rewrite E. unfold db_set. rewrite lookup_insert_ne; [done|]. apply not_eq_sym, history_event_ne. }
    apply wpP_bind, wpP_reraising, wpP_await_; intros; [| |done].
    + eapply wpP_mono; [apply finish_history_settles|]. intros r' y Hs. right.
      destruct (Hs) as [Hh _]. rewrite Hh, push_history_at, E2. split; [done|].
      eapply marked_settled; [apply covers_refl| |exact Hs]. exists (RStr "pending"), (expires now ttl).
      split; [|apply covers_refl]. rewrite push_history_ne by (apply not_eq_sym, history_event_ne).
      rewrite E. apply lookup_insert_eq.
    + destruct (is_exception e); [|by left; rewrite E2].
      apply wpP_await_; intros; [|by left; rewrite E2|done]. left. autorewrite with redis. cbn [fst db_del].
      rewrite lookup_delete_ne, E2; [done|]. apply not_eq_sym, history_event_ne.
Qed.

(** The deliveries of one event, with the time and the faults of each. *)
Definition deliveries (t : string) (ev : pydict) (l : list (Z * list (option fault))) (r : R) : R :=
  foldl (fun r a => (set_history a.1 t ev r a.2).1.1) r l.

Definition delivered_within (t0 : Z) (a : Z * list (option fault)) : Prop :=
  t0 <= a.1 /\ within (expires t0 ttl) a.1.

Lemma deliveries_marked t ev l t0 r :
  Forall (delivered_within t0) l -> marked t ev (expires t0 ttl) (model r) ->
  model (deliveries t ev l r) !! history_key t = model r !! history_key t.
Proof.
  revert r. induction l as [|[now fs] l IH]; intros r; [done|].
  intros [[H1 H2] Hl]%Forall_cons Hm. cbn [deliveries foldl fst snd].
  destruct (set_history_marked any_fault now t ev r _ H2 (covers_later t0 now H1) Hm fs) as [_ [Hh Hm']].
  { by apply List.Forall_forall; intros [[]|]. }
  etransitivity; [by apply IH|]. done.
Qed.

(** However often an event is delivered before its marker expires, and whatever
    calls to Redis are refused on the way, the history of its task receives
    it at most once: it ends up as it was, or as one push by one of the
    deliveries leaves it. *)
Theorem history_at_most_once t ev t0 l r :
  Forall (fun a => delivered_within t0 a /\ admitted refusals a.2) l ->
  model (deliveries t ev l r) !! history_key t = model r !! history_key t \/
  exists a, a ∈ l /\ model (deliveries t ev l r) !! history_key t =
    pushed a.1 (dumps history_dumps (PDict ev)) (model r !! history_key t).
Proof.
  revert r. induction l as [|[now fs] l IH]; intros r; [by left|].
  intros [[[H1 H2] H3] Hl]%Forall_cons. cbn [fst snd] in *. cbn [deliveries foldl fst snd].
  destruct (set_history_attempt now t ev r fs H3) as [_ [Hh|[Hh Hm]]].
  - destruct (IH (set_history now t ev r fs).1.1 Hl) as [E|(a & Ha & E)].
    + left. by rewrite <- Hh.
    + right. exists a. split; [by right|]. by rewrite <- Hh.
  - right. exists (now, fs). split; [by left|]. cbn [fst]. rewrite <- Hh.
    apply (deliveries_marked t ev l t0).
    { eapply Forall_impl; [exact Hl|]. by intros ? []. }
    destruct Hm as (v & dl & Ev & Hc). exists v, dl. split; [done|].
    destruct dl as [x|]; [|done]. pose proof (covers_later t0 now H1) as Hlater.
    unfold covers in *. destruct (expires now ttl), (expires t0 ttl); cbn in *; try done; lia.
Qed.

(** A delivery that succeeds has stored the event: when no marker was alive
    before it, the history now starts with the event, whatever faults the
    delivery met, and the marker is alive. *)
Theorem success_means_stored t ev now r fs :
  live (model r) now (event_key t ev) = None -> (set_history now t ev r fs).2 = Ok tt ->
  model (set_history now t ev r fs).1.1 !! history_key t =
    pushed now (dumps history_dumps (PDict ev)) (model r !! history_key t) /\
  marked t ev (expires now ttl) (model (set_history now t ev r fs).1.1).
Proof.
  intros Hl. revert fs.
  assert (wpP any_fault (set_history now t ev) r (fun r' x => x = Ok tt ->
    model r' !! history_key t =
      pushed now (dumps history_dumps (PDict ev)) (model r !! history_key t) /\
    marked t ev (expires now ttl) (model r'))) as Hw.
  2: { intros fs Hx. apply (wpP_run _ _ _ _ fs Hw); [|done]. by apply List.Forall_forall; intros [[]|]. }
  unfold set_history. apply wpP_bind, wpP_await; intros; [|done..].
  rewrite law_set_nx_ret.
  assert (model (rset_nx r now (event_key t ev) "pending" ttl).1 =
    (db_set_nx (model r) now (event_key t ev) "pending" ttl).1) as E by by autorewrite with redis.
  unfold db_set_nx in *. rewrite Hl in *. cbn [fst snd] in *.
  set (r1 := (rset_nx r now (event_key t ev) "pending" ttl).1) in *.
  apply wpP_bind, wpP_reraising, wpP_await_; intros.
  2, 3: by destruct (is_exception e); [apply wpP_await_|].
  eapply wpP_mono; [apply finish_history_settles|]. intros r' y Hs _.
  destruct (Hs) as [Hh _]. rewrite Hh, push_history_at. split.
  - f_equal. rewrite E. unfold db_set. rewrite lookup_insert_ne; [done|]. apply not_eq_sym, history_event_ne.
  - eapply marked_settled; [apply covers_refl| |exact Hs]. exists (RStr "pending"), (expires now ttl).
    split; [|apply covers_refl]. rewrite push_history_ne by (apply not_eq_sym, history_event_ne).
    rewrite E. apply lookup_insert_eq.
Qed.


(** An event is lost when Redis stops answering between the marker and the
    history: the marker stays, "pending", because the clean-up of the marker
    fails too, or is not attempted when the delivery was cancelled; the
    redelivered event then finds a marker, skips the history, and succeeds. *)
Theorem pending_marker_loses_event t ev t0 e1 e2 r :
  live (model r) t0 (event_key t ev) = None ->
  let first := set_history t0 t ev r [None; Some (Refused e1); Some (Refused e2)] in
  is_ok first.2 = false /\
  forall now fs, t0 <= now -> within (expires t0 ttl) now ->
    let second := set_history now t ev first.1.1 fs in
    model second.1.1 !! history_key t = model r !! history_key t /\
    (service_event_store = None -> fs = [] -> second.2 = Ok tt).
Proof.
  intros Hl first.
  set (r1 := (rset_nx r t0 (event_key t ev) "pending" ttl).1).
  assert (model r1 = db_set (model r) t0 (event_key t ev) "pending" ttl) as E.
  { unfold r1. autorewrite with redis. unfold db_set_nx. by rewrite Hl. }
  assert (first.1.1 = r1 /\ is_ok first.2 = false) as [-> ->].
  { unfold first, set_history, mbind, P_bind, await, await_. rewrite law_set_nx_ret.
    unfold db_set_nx. rewrite Hl. cbn. by destruct (is_exception e1). }
  split; [done|]. intros now fs H1 H2 second.
  assert (marked t ev (expires t0 ttl) (model r1)) as Hm.
  { rewrite E. exists (RStr "pending"), (expires t0 ttl). split; [apply lookup_insert_eq|apply covers_refl]. }
  split.
  - destruct (set_history_marked any_fault now t ev r1 _ H2 (covers_later t0 now H1) Hm fs) as [_ [Hh _]].
    { by apply List.Forall_forall; intros [[]|]. }
    unfold second. rewrite Hh, E. unfold db_set. rewrite lookup_insert_ne; [done|].
    apply not_eq_sym, history_event_ne.
  - intros Hf ->. destruct (marked_live _ _ _ _ _ H2 Hm) as [x Hx].
    unfold second, set_history, finish_history, mbind, P_bind, await, await_, await_read, mret, P_ret.
    rewrite law_set_nx_ret. unfold db_set_nx. rewrite Hx, Hf. cbn.
    case_bool_decide; [done|]. by destruct (parent_task_id_of ev).
Qed.

(** ** The history as a log *)

Lemma pushed_list now p o :
  match pushed now p o with Some (RList l, dl) => if alive now dl then l else [] | _ => [] end =
  lslice (p :: match o with Some (RList l, dl) => if alive now dl then l else [] | _ => [] end)
         0 (history_maxlen - 1) \/ exists s, ttl = Some s /\ s <= 0.
Proof.
  unfold pushed. case_bool_decide as El; [left; by rewrite El|].
  destruct ttl as [s|]; cbn.
  - destruct (Z_le_gt_dec s 0); [right; by exists s|left].
    assert ((now <? now + s * second) = true) as -> by (apply Z.ltb_lt; unfold second; lia). done.
  - left. assert (alive now match o with Some (_, dl) => if alive now dl then dl else None | None => None end
      = true) as ->; [|done].
    destruct o as [[v dl]|]; [|done]. by destruct (alive now dl) eqn:E.
Qed.

Lemma db_list_lookup d now k : db_list d now k =
  match d !! k with Some (RList l, dl) => if alive now dl then l else [] | _ => [] end.
Proof. unfold db_list, live. destruct (d !! k) as [[[] dl]|]; [destruct (alive now dl)..|]; done. Qed.

(** The keys a reliable delivery writes, when there is no feed. *)
Lemma finish_history_frame now t ev r k : service_event_store = None ->
  k <> event_key t ev -> (forall p, k <> child_tasks_key p) ->
  (runP (finish_history now t ev) r).2 = Ok tt /\
  model (runP (finish_history now t ev) r).1 !! k = model r !! k.
Proof.
  intros Hf H1 H2. unfold runP, finish_history, mbind, P_bind, await_, await, mret, P_ret. rewrite Hf.
  destruct (parent_task_id_of ev); cbn; rewrite law_set, law_publish; unfold db_set;
    rewrite lookup_insert_ne by done; [|done]. split; [done|]. by apply add_child_ne.
Qed.

Lemma set_history_fresh now t ev r k : service_event_store = None ->
  live (model r) now (event_key t ev) = None ->
  k <> event_key t ev -> k <> history_key t -> (forall p, k <> child_tasks_key p) ->
  model (set_history now t ev r []).1.1 !! k = model r !! k.
Proof.
  intros Hf Hl H1 H2 H3.
  assert (model (rset_nx r now (event_key t ev) "pending" ttl).1 !! k = model r !! k) as E.
  { autorewrite with redis. unfold db_set_nx. rewrite Hl. cbn. unfold db_set. by rewrite lookup_insert_ne. }
  unfold set_history, mbind, P_bind, reraising, await_, await. rewrite law_set_nx_ret.
  unfold db_set_nx. rewrite Hl. cbn [fst snd].
  pose proof (finish_history_frame now t ev
    (push_history now t (dumps history_dumps (PDict ev))
      (rset_nx r now (event_key t ev) "pending" ttl).1) k Hf H1 H3) as [_ Hk].
  unfold runP in Hk. destruct (finish_history _ _ _ _ _) as [[r' fs'] x]. cbn in *.
  rewrite Hk, push_history_ne by done. done.
Qed.

Lemma set_history_fresh_ok now t ev r : service_event_store = None ->
  live (model r) now (event_key t ev) = None -> (set_history now t ev r []).2 = Ok tt.
Proof.
  intros Hf Hl. unfold set_history, finish_history, mbind, P_bind, reraising, await_, await, mret, P_ret.
  rewrite law_set_nx_ret. unfold db_set_nx. rewrite Hl, Hf. cbn. by destruct (parent_task_id_of ev).
Qed.

Definition record_all (now : Z) (t : string) (evs : list pydict) (r : R) : R :=
  foldl (fun r ev => (set_history now t ev r []).1.1) r evs.

Lemma record_all_list now t evs r : service_event_store = None -> 0 < history_maxlen ->
  match ttl with Some s => 0 < s | None => True end ->
  NoDup (map (event_key t) evs) ->
  Forall (fun ev => live (model r) now (event_key t ev) = None) evs ->
  db_list (model (record_all now t evs r)) now (history_key t) =
    match evs with
    | [] => db_list (model r) now (history_key t)
    | _ => take (Z.to_nat history_maxlen)
             (map (fun ev => dumps history_dumps (PDict ev)) (rev evs) ++ db_list (model r) now (history_key t))
    end.
Proof.
  intros Hf Hm Ht. revert r. induction evs as [|ev evs IH]; intros r Hnd Hl; [done|].
  cbn [map] in Hnd. apply NoDup_cons in Hnd as [Hnew Hnd]. apply Forall_cons in Hl as [Hev Hl].
  cbn [record_all foldl]. change (foldl _ _ evs) with
    (record_all now t evs (set_history now t ev r []).1.1). rewrite IH; [|done|].
  - destruct (success_means_stored t ev now r [] Hev) as [Hh _]; [by apply set_history_fresh_ok|].
    assert (db_list (model (set_history now t ev r []).1.1) now (history_key t) =
      take (Z.to_nat history_maxlen)
        (dumps history_dumps (PDict ev) :: db_list (model r) now (history_key t))) as E.
    { rewrite !db_list_lookup, Hh. destruct (pushed_list now (dumps history_dumps (PDict ev))
        (model r !! history_key t)) as [->|(s & Hs & ?)]; [by apply lslice_prefix|].
      rewrite Hs in Ht. lia. }
    rewrite E. destruct evs as [|ev' evs]; [done|]. rewrite (map_app _ _ [ev] : map _ (rev (ev :: ev' :: evs)) = _).
    rewrite <- app_assoc. apply take_app_take.
  - rewrite List.Forall_forall in Hl |- *. intros x Hx. unfold live.
    rewrite (set_history_fresh now t ev r _ Hf Hev); [by apply (Hl x)|..].
    + intros E. apply Hnew. rewrite <- E. rewrite list_elem_of_In. by apply in_map.
    + apply not_eq_sym, history_event_ne.
    + intros p. apply event_children_ne.
Qed.


End store.

(** ** Witnesses *)

Definition demo_event : pydict := [("task_id", PStr "t"); ("event_id", PStr "e1"); ("status", PStr "ok")].
Definition demo_event2 : pydict := [("task_id", PStr "t"); ("event_id", PStr "e2"); ("status", PStr "ok")].
Definition demo_loads (s : string) : result pydict :=
  if String.eqb s (dumps history_dumps (PDict demo_event)) then Ok demo_event else Ok demo_event2.
Definition connection_error : exn := Exn XUser "ConnectionError" "connection lost".

Lemma demo_frame : @feed_frame db _ "task" None db_redis_laws.
Proof. done. Qed.

Lemma history_at_most_once_witness :
  model (deliveries "task" (Some 60) 50 None "t" demo_event
    [(0, [None; Some (Refused connection_error)]); (5, []); (6, [])] ∅) !! history_key "task" "t" =
  (∅ : db) !! history_key "task" "t" \/
  exists a, a ∈ [(0, [None; Some (Refused connection_error)]); (5, []); (6, [])] /\
    model (deliveries "task" (Some 60) 50 None "t" demo_event
      [(0, [None; Some (Refused connection_error)]); (5, []); (6, [])] ∅) !! history_key "task" "t" =
    pushed (Some 60) 50 a.1 (dumps history_dumps (PDict demo_event)) None.
Proof.
  apply (history_at_most_once "task" (Some 60) 50 None demo_frame "t" demo_event 0).
  repeat (apply Forall_cons; split;
    [split; [by split|unfold admitted; repeat (apply Forall_cons; split; [done|]); by constructor]|]).
  by constructor.
Defined.

Lemma success_means_stored_witness :
  model (set_history "task" (Some 60) 50 None 0 "t" demo_event ∅ [None; None]).1.1
    !! history_key "task" "t" =
  pushed (Some 60) 50 0 (dumps history_dumps (PDict demo_event)) None.
Proof.
  destruct (success_means_stored "task" (Some 60) 50 None demo_frame "t" demo_event 0 (∅ : db)
    [None; None]) as [E _]; [reflexivity..|exact E].
Defined.

Lemma pending_marker_loses_event_witness :
  (set_history "task" (Some 60) 50 None 1 "t" demo_event
    (set_history "task" (Some 60) 50 None 0 "t" demo_event (∅ : db)
      [None; Some (Refused connection_error); Some (Refused connection_error)]).1.1 []).2 = Ok tt /\
  model (set_history "task" (Some 60) 50 None 1 "t" demo_event
    (set_history "task" (Some 60) 50 None 0 "t" demo_event (∅ : db)
      [None; Some (Refused connection_error); Some (Refused connection_error)]).1.1 []).1.1
    !! history_key "task" "t" = None.
Proof.
  destruct (pending_marker_loses_event "task" (Some 60) 50 None demo_frame "t" demo_event 0
    connection_error connection_error (∅ : db)) as [_ Hsecond]; [reflexivity|].
  destruct (Hsecond 1 []) as [Hh Hok]; [lia|reflexivity|]. split; [by apply Hok|exact Hh].
Defined.

