(* ===== verification/Transport.v ===== *)
(** * AMQP bodies

    [relayna/_transport_json.py] and the base64 text the DLQ keeps of a body.
    A body is a string of bytes.  The JSON parsers and the serializer
    (pydantic_core's [from_json]/[to_json], the standard [json.loads] after
    UTF-8 decoding) are operations of the class [Transport]. *)

From S2P Require Import Prelude PyStr PyVal.
From Stdlib Require Import Ascii.

Class Transport := {
  from_json : string -> result pyval;
  to_json : pyval -> string;
  utf8_decode : string -> option string;
  json_loads : string -> result pyval }.

(** [sub in s] *)
Fixpoint contains (sub s : string) : bool :=
  String.prefix sub s || match s with
                         | String.EmptyString => false
                         | String.String _ s' => contains sub s'
                         end.

Section transport.
Context `{Transport}.

(** [encode_transport_json], relayna/_transport_json.py:11-14. *)
Definition encode_transport_json (value : pyval) : string := to_json value.

(** [parse_transport_json], relayna/_transport_json.py:17-29. *)
Definition parse_transport_json (payload : string) : result pyval :=
  match from_json payload with
  | Ok v => Ok v
  | Raise e =>
      if negb (is_value_error e) || negb (contains "recursion limit exceeded" (exn_text e))
      then Raise e
      else
        match utf8_decode payload with
        | None => Raise (value_error "invalid utf-8")
        | Some text =>
            match json_loads text with
            | Ok v => Ok v
            | Raise e =>
                if String.eqb (exn_type e) "RecursionError" then Raise (value_error (exn_text e))
                else Raise e
            end
        end
  end.

End transport.

(** ** base64 *)

Definition b64_char (n : Z) : ascii :=
  chr (if n <? 26 then 65 + n else if n <? 52 then 71 + n else if n <? 62 then n - 4
       else if n =? 62 then 43 else 47).

Definition b64_value (c : ascii) : option Z :=
  let z := code c in
  if (65 <=? z) && (z <=? 90) then Some (z - 65)
  else if (97 <=? z) && (z <=? 122) then Some (z - 71)
  else if (48 <=? z) && (z <=? 57) then Some (z + 4)
  else if z =? 43 then Some 62 else if z =? 47 then Some 63 else None.

(** [base64.b64encode(body).decode("ascii")] *)
Fixpoint b64encode_chars (l : list ascii) : list ascii :=
  match l with
  | a :: b :: c :: rest =>
      let n := code a * 65536 + code b * 256 + code c in
      b64_char (n / 262144) :: b64_char (n / 4096 mod 64) :: b64_char (n / 64 mod 64)
        :: b64_char (n mod 64) :: b64encode_chars rest
  | [a; b] =>
      let n := code a * 65536 + code b * 256 in
      [b64_char (n / 262144); b64_char (n / 4096 mod 64); b64_char (n / 64 mod 64); "="%char]
  | [a] =>
      let n := code a * 65536 in
      [b64_char (n / 262144); b64_char (n / 4096 mod 64); "="%char; "="%char]
  | [] => []
  end.
Definition b64encode (s : string) : string := of_chars (b64encode_chars (chars s)).

(** [base64.b64decode(text)] on padded text; [None] for [binascii.Error]. *)
Fixpoint b64decode_chars (fuel : nat) (l : list ascii) : option (list ascii) :=
  match fuel, l with
  | _, [] => Some []
  | S fuel, a :: b :: c :: d :: rest =>
      match b64_value a, b64_value b with
      | Some x, Some y =>
          if Ascii.eqb c "=" then
            match rest with
            | [] => if Ascii.eqb d "=" then Some [chr (x * 4 + y / 16)] else None
            | _ => None
            end
          else
            match b64_value c with
            | None => None
            | Some z =>
                if Ascii.eqb d "=" then
                  match rest with
                  | [] => Some [chr (x * 4 + y / 16); chr (y mod 16 * 16 + z / 4)]
                  | _ => None
                  end
                else
                  match b64_value d with
                  | None => None
                  | Some w =>
                      tail ← b64decode_chars fuel rest;
                      Some (chr (x * 4 + y / 16) :: chr (y mod 16 * 16 + z / 4)
                              :: chr (z mod 4 * 64 + w) :: tail)
                  end
            end
      | _, _ => None
      end
  | _, _ => None
  end.
Definition b64decode (s : string) : option string :=
  of_chars <$> b64decode_chars (length (chars s)) (chars s).

Example b64encode_hello : b64encode "hello" = "aGVsbG8=". Proof. reflexivity. Qed.
Example b64decode_hello : b64decode "aGVsbG8=" = Some "hello". Proof. reflexivity. Qed.

Lemma b64_value_char n : 0 <= n < 64 -> b64_value (b64_char n) = Some n /\ b64_char n <> "="%char.
Proof.
  intros Hn. assert (n ∈ map Z.of_nat (seq 0 64)) as Hin.
  { rewrite list_elem_of_In, in_map_iff. exists (Z.to_nat n).
    rewrite in_seq. lia. }
  assert (forallb (fun n => match b64_value (b64_char n) with Some m => m =? n | None => false end
                              && negb (Ascii.eqb (b64_char n) "=")) (map Z.of_nat (seq 0 64)) = true)
    as HF by (vm_compute; reflexivity).
  rewrite forallb_forall in HF. specialize (HF n). rewrite <- list_elem_of_In in HF.
  apply HF in Hin as [Hv Hc]%andb_true_iff. apply negb_true_iff, Ascii.eqb_neq in Hc.
  destruct (b64_value (b64_char n)); [|done]. bool_to_prop. by subst.
Qed.

Lemma chr_code c : chr (code c) = c.
Proof. unfold chr, code. by rewrite N2Z.id, ascii_N_embedding. Qed.

Lemma three_bytes a b c : let n := code a * 65536 + code b * 256 + code c in
  let x := n / 262144 in let y := n / 4096 mod 64 in let z := n / 64 mod 64 in let w := n mod 64 in
  (0 <= x < 64 /\ 0 <= y < 64 /\ 0 <= z < 64 /\ 0 <= w < 64) /\
  x * 4 + y / 16 = code a /\ y mod 16 * 16 + z / 4 = code b /\ z mod 4 * 64 + w = code c.
Proof.
  pose proof (code_range a); pose proof (code_range b); pose proof (code_range c). cbn zeta.
  repeat split; Z.to_euclidean_division_equations; lia.
Qed.

Lemma b64_roundtrip_chars l k : (length (b64encode_chars l) <= k)%nat ->
  b64decode_chars k (b64encode_chars l) = Some l.
Proof.
  assert (forall n l k, (length l <= n)%nat -> (length (b64encode_chars l) <= k)%nat ->
    b64decode_chars k (b64encode_chars l) = Some l) as Hgen; [|by apply (Hgen (length l))].
  clear l k. induction n as [|n IH]; intros l k Hn Hk.
  { destruct l; [by destruct k|cbn in Hn; lia]. }
  destruct l as [|a [|b [|c l]]]; [by destruct k| | |].
  - destruct k; cbn in Hk; [lia|]. pose proof (three_bytes a zero zero) as T. cbn zeta in T.
    change (code zero) with 0 in T. rewrite !Z.add_0_r in T. destruct T as (B & E1 & _ & _).
    cbn [b64encode_chars b64decode_chars].
    destruct (b64_value_char (code a * 65536 / 262144)) as [-> _]; [apply B|].
    destruct (b64_value_char (code a * 65536 / 4096 mod 64)) as [-> _]; [apply B|].
    cbn [Ascii.eqb Bool.eqb]. rewrite E1. by rewrite chr_code.
  - destruct k; cbn in Hk; [lia|]. pose proof (three_bytes a b zero) as T. cbn zeta in T.
    change (code zero) with 0 in T. rewrite !Z.add_0_r in T. destruct T as (B & E1 & E2 & _).
    cbn [b64encode_chars b64decode_chars].
    set (m := code a * 65536 + code b * 256) in *.
    destruct (b64_value_char (m / 262144)) as [-> _]; [apply B|].
    destruct (b64_value_char (m / 4096 mod 64)) as [-> _]; [apply B|].
    destruct (b64_value_char (m / 64 mod 64)) as [-> Hz]; [apply B|].
    apply Ascii.eqb_neq in Hz. rewrite Hz. cbn [Ascii.eqb Bool.eqb].
    rewrite E1, E2. by rewrite !chr_code.
  - destruct k; cbn in Hk; [lia|]. pose proof (three_bytes a b c) as T. cbn zeta in T.
    destruct T as (B & E1 & E2 & E3). cbn [b64encode_chars b64decode_chars].
    set (m := code a * 65536 + code b * 256 + code c) in *.
    destruct (b64_value_char (m / 262144)) as [-> _]; [apply B|].
    destruct (b64_value_char (m / 4096 mod 64)) as [-> _]; [apply B|].
    destruct (b64_value_char (m / 64 mod 64)) as [-> Hz]; [apply B|].
    destruct (b64_value_char (m mod 64)) as [-> Hw]; [apply B|].
    apply Ascii.eqb_neq in Hz, Hw. rewrite Hz, Hw.
    rewrite IH by (cbn in Hn; lia). cbn. rewrite E1, E2, E3. by rewrite !chr_code.
Qed.

Lemma b64_roundtrip s : b64decode (b64encode s) = Some s.
Proof.
  unfold b64decode, b64encode. rewrite chars_of_chars, b64_roundtrip_chars by done.
  cbn. by rewrite of_chars_chars.
Qed.

(** ** base64url *)

Definition urlsafe (c : ascii) : ascii := if Ascii.eqb c "+" then "-" else if Ascii.eqb c "/" then "_" else c.
Definition from_urlsafe (c : ascii) : ascii := if Ascii.eqb c "-" then "+" else if Ascii.eqb c "_" then "/" else c.

(** [base64.urlsafe_b64encode] and [urlsafe_b64decode] *)
Definition urlsafe_b64encode (s : string) : string := of_chars (map urlsafe (chars (b64encode s))).
Definition urlsafe_b64decode (s : string) : option string := b64decode (of_chars (map from_urlsafe (chars s))).

Lemma urlsafe_digit n : 0 <= n < 64 -> from_urlsafe (urlsafe (b64_char n)) = b64_char n.
Proof.
  intros Hn. assert (forallb (fun n => Ascii.eqb (from_urlsafe (urlsafe (b64_char n))) (b64_char n)) (map Z.of_nat (seq 0 64)) = true)
    as HF by (vm_compute; reflexivity).
  rewrite forallb_forall in HF. specialize (HF n). apply Ascii.eqb_eq, HF, in_map_iff. exists (Z.to_nat n). rewrite in_seq. lia.
Qed.

Lemma urlsafe_chars n l : (length l <= n)%nat -> map (fun c => from_urlsafe (urlsafe c)) (b64encode_chars l) = b64encode_chars l.
Proof.
  revert l. induction n as [|n IH]; intros l Hn; [by destruct l; [|cbn in Hn; lia]|].
  destruct l as [|a [|b [|c l]]]; [done| | |].
  - destruct (three_bytes a zero zero) as [B _]. change (code zero) with 0 in B. rewrite Z.mul_0_l, !Z.add_0_r in B.
    cbn. by rewrite !urlsafe_digit by apply B.
  - destruct (three_bytes a b zero) as [B _]. change (code zero) with 0 in B. rewrite !Z.add_0_r in B.
    cbn [b64encode_chars map]. cbn zeta. by rewrite !urlsafe_digit by apply B.
  - destruct (three_bytes a b c) as [B _]. cbn [b64encode_chars map]. cbn zeta. cbn in Hn.
    rewrite !urlsafe_digit by apply B. by rewrite IH by lia.
Qed.

Lemma urlsafe_roundtrip s : urlsafe_b64decode (urlsafe_b64encode s) = Some s.
Proof.
  unfold urlsafe_b64decode, urlsafe_b64encode. rewrite chars_of_chars, map_map. unfold b64encode at 1.
  rewrite chars_of_chars, (urlsafe_chars (length (chars s))) by done. apply b64_roundtrip.
Qed.
