(* ===== verification/StatusHub.v ===== *)
(** * The status hub (status/hub.py)

    [StatusHub] drains the status queue into the status store: what one message
    leads to, and the per-task locks that keep the writes of a task in the
    order in which its messages arrived. *)

From S2P Require Import Prelude PyStr PyVal Contracts Transport.

(** ** One message *)

(** What the handler does to the message, the store and the sink. *)
Inductive hub_event :=
| HAck
| HReject (requeue : bool)
| HStore (task_id : string) (event : pydict)
| HObserve (name : string) (fields : pydict).

(** [_event_id], relayna/status/hub.py:196-202. *)
Definition event_id_of (data : pydict) : option string :=
  match dgetv "event_id" data with PStr s => nonempty (strip s) | _ => None end.

(** [_status_value], relayna/status/hub.py:205-211. *)
Definition status_value (data : pydict) : option string :=
  match dgetv "status" data with PStr s => Some s | PNone => None | v => Some (py_str v) end.

Section hub.
Context `{Transport}.
Context (alias_config : option ContractAliasConfig) (sanitize_meta_keys : list string).

(** [data["meta"] = sanitized_meta] *)
Definition sanitize (data : pydict) : pydict :=
  match dgetv "meta" data with
  | PDict meta => dset "meta" (PDict (foldl (fun m k => dpop k m) meta sanitize_meta_keys)) data
  | _ => data
  end.

(** [_handle_message], relayna/status/hub.py:118-179.  [store] is what [_store_ordered] ends in. *)
Definition handle_message (store : string -> pydict -> result unit) (body : string) :
    list hub_event * result unit :=
  match parse_transport_json body with
  | Raise e =>
      if is_exception e
      then ([HAck; HObserve "StatusHubMalformedMessage" [("reason", PStr "malformed_json")]], Ok tt)
      else ([], Raise e)
  | Ok (PDict payload) =>
      let data := sanitize (normalize_contract_aliases payload alias_config) in
      let task_id := strip (py_str (from_opt (PStr "") (dget "task_id" data))) in
      if String.eqb task_id "" then ([HAck], Ok tt)
      else
        match store task_id data with
        | Ok _ => ([HStore task_id data; HAck;
            HObserve "StatusHubStoredEvent" [("task_id", PStr task_id);
              ("event_id", opt_str (event_id_of data)); ("status", opt_str (status_value data))]], Ok tt)
        | Raise e =>
            if is_exception e
            then ([HStore task_id data;
                   HObserve "StatusHubStoreWriteFailed" [("task_id", PStr task_id);
                     ("exception_type", PStr (exn_type e)); ("exception_message", PStr (exn_text e))];
                   HReject true], Ok tt)
            else ([HStore task_id data], Raise e)
        end
  | Ok _ => ([HAck; HObserve "StatusHubMalformedMessage" [("reason", PStr "payload_not_mapping")]], Ok tt)
  end.
End hub.

(** ** The locks of the tasks *)

(** [_TaskLockEntry], relayna/status/hub.py:27-30.  The message that holds the lock and those
    that wait for it, in the order of their [acquire]; [users] is the count the
    code keeps. *)
Record lock_entry := LockEntry { holder : option nat; waiting : list nat; users : nat }.

(** The lock table, with the messages that arrived and were not cancelled, and
    those whose write is over, each with its task. *)
Record hub_state := HubState {
  task_locks : gmap string lock_entry;
  arrived : list (string * nat);
  written : list (string * nat) }.

(** [entry.users += 1] and the acquisition. *)
Definition enter (e : lock_entry) (m : nat) : lock_entry :=
  match holder e with
  | None => LockEntry (Some m) (waiting e) (S (users e))
  | Some h => LockEntry (Some h) (waiting e ++ [m]) (S (users e))
  end.

(** [finally: entry.users -= 1; if entry.users == 0: del self._task_locks[task_id]] *)
Definition leave (locks : gmap string lock_entry) (t : string) (e : lock_entry) : gmap string lock_entry :=
  let e := LockEntry (holder e) (waiting e) (pred (users e)) in
  if (users e =? 0)%nat then delete t locks else <[t := e]> locks.

(** [_store_ordered], relayna/status/hub.py:181-193.  The lock is fair: a released lock
    goes to its first waiter. *)
Inductive hub_step : hub_state -> hub_state -> Prop :=
| hub_arrive t m s : m ∉ map snd (arrived s) ->
    hub_step s (HubState
      (<[t := enter (from_opt (LockEntry None [] 0) (task_locks s !! t)) m]> (task_locks s))
      (arrived s ++ [(t, m)]) (written s))
| hub_written t m e s : task_locks s !! t = Some e -> holder e = Some m ->
    hub_step s (HubState
      (leave (task_locks s) t (LockEntry (hd_error (waiting e)) (tl (waiting e)) (users e)))
      (arrived s) (written s ++ [(t, m)]))
| hub_cancelled t m l1 l2 e s : task_locks s !! t = Some e -> waiting e = (l1 ++ m :: l2)%list ->
    hub_step s (HubState
      (leave (task_locks s) t (LockEntry (holder e) (l1 ++ l2) (users e)))
      (List.filter (fun p => negb (p.2 =? m)%nat) (arrived s)) (written s)).

Definition hub_start : hub_state := HubState ∅ [] [].

Definition of_task (t : string) (l : list (string * nat)) : list nat :=
  map snd (List.filter (fun p => String.eqb t p.1) l).

(** The messages of a task that are in the lock. *)
Definition queued (s : hub_state) (t : string) : list nat :=
  match task_locks s !! t with
  | Some e => (match holder e with Some m => [m] | None => [] end ++ waiting e)%list
  | None => []
  end.

Lemma of_task_app t l l' : of_task t (l ++ l') = (of_task t l ++ of_task t l')%list.
Proof. unfold of_task. by rewrite List.filter_app, map_app. Qed.

Lemma of_task_one t t' m : of_task t [(t', m)] = if String.eqb t t' then [m] else [].
Proof. unfold of_task. cbn. by destruct (String.eqb t t'). Qed.

Lemma of_task_elem t m l : m ∈ of_task t l <-> (t, m) ∈ l.
Proof.
  unfold of_task. rewrite list_elem_of_In, in_map_iff. split.
  - intros ([t' m'] & <- & [Hin E]%filter_In). bool_to_prop. cbn in E. subst. by apply list_elem_of_In.
  - intros Hin. exists (t, m). split; [done|]. apply filter_In. split; [by apply list_elem_of_In|].
    by rewrite String.eqb_refl.
Qed.

Definition without (m : nat) (l : list nat) : list nat := List.filter (fun x => negb (x =? m)%nat) l.

Lemma of_task_without t m l :
  of_task t (List.filter (fun p => negb (p.2 =? m)%nat) l) = without m (of_task t l).
Proof.
  induction l as [|[t' m'] l IH]; [done|]. unfold of_task, without in *. cbn [List.filter fst snd].
  destruct (m' =? m)%nat eqn:Em; cbn [negb List.filter fst snd].
  - rewrite IH. destruct (String.eqb t t'); cbn [map List.filter snd]; [|done]. by rewrite Em.
  - destruct (String.eqb t t'); cbn [map List.filter snd]; [|done]. rewrite Em. cbn. by rewrite IH.
Qed.

Lemma without_not_in m l : m ∉ l -> without m l = l.
Proof.
  unfold without. induction l as [|x l IH]; [done|]. intros [Hne Hl]%not_elem_of_cons. cbn.
  destruct (x =? m)%nat eqn:E; [apply Nat.eqb_eq in E; congruence|]. cbn. by rewrite IH.
Qed.

Lemma without_app m l l' : without m (l ++ l') = (without m l ++ without m l')%list.
Proof. apply List.filter_app. Qed.

Definition occupied (e : lock_entry) : list nat :=
  (match holder e with Some m => [m] | None => [] end ++ waiting e)%list.

Definition lock_ok (e : lock_entry) : Prop :=
  users e = length (occupied e) /\ holder e <> None.

Record hub_inv (s : hub_state) : Prop := {
  hub_ids : NoDup (map snd (arrived s));
  hub_locks : forall t e, task_locks s !! t = Some e -> lock_ok e;
  hub_order : forall t, of_task t (arrived s) = (of_task t (written s) ++ queued s t)%list }.

Lemma queued_insert s t e arr wr t' :
  queued (HubState (<[t := e]> (task_locks s)) arr wr) t' =
  if decide (t = t') then occupied e else queued s t'.
Proof.
  unfold queued. cbn. destruct (decide (t = t')) as [<-|Hne];
    [by rewrite lookup_insert_eq|by rewrite lookup_insert_ne].
Qed.

(** Leaving a lock with the right count of users. *)
Lemma queued_leave s t e arr wr t' : users e = S (length (occupied e)) ->
  queued (HubState (leave (task_locks s) t e) arr wr) t' =
  if decide (t = t') then occupied e else queued s t'.
Proof.
  intros Hu. unfold leave. cbn [users]. rewrite Hu. cbn [pred].
  destruct (length (occupied e) =? 0)%nat eqn:E.
  - apply Nat.eqb_eq in E. unfold queued. cbn. destruct (decide (t = t')) as [<-|Hne].
    + rewrite lookup_delete_eq. by destruct (occupied e).
    + by rewrite lookup_delete_ne.
  - by rewrite queued_insert.
Qed.

Lemma leave_ok locks t e : users e = S (length (occupied e)) ->
  (holder e = None -> waiting e = []) ->
  (forall t e, locks !! t = Some e -> lock_ok e) ->
  forall t' e', leave locks t e !! t' = Some e' -> lock_ok e'.
Proof.
  intros Hu Hh Hl t' e'. unfold leave. cbn [users]. rewrite Hu. cbn [pred].
  destruct (length (occupied e) =? 0)%nat eqn:E.
  - intros [_ H]%lookup_delete_Some. by eapply Hl.
  - intros [[<- <-]|[_ H]]%lookup_insert_Some; [|by eapply Hl]. split; [done|]. cbn. intros Hn.
    apply Nat.eqb_neq in E. destruct E. unfold occupied. by rewrite Hn, Hh.
Qed.

(** A message has one task. *)
Lemma id_task (l : list (string * nat)) m t t' :
  NoDup (map snd l) -> (t, m) ∈ l -> (t', m) ∈ l -> t = t'.
Proof.
  intros Hnd. induction l as [|[t0 m0] l IH]; intros H H'; [by apply elem_of_nil in H|].
  cbn in Hnd. apply NoDup_cons in Hnd as [Hn Hnd].
  assert (forall x, (x, m0) ∈ l -> m0 ∈ map snd l) as Hmem.
  { intros x Hx. rewrite list_elem_of_In, in_map_iff. exists (x, m0). by rewrite <- list_elem_of_In. }
  apply elem_of_cons in H as [E|H]; apply elem_of_cons in H' as [E'|H'].
  - congruence.
  - injection E as E1 E2. subst. by destruct (Hn (Hmem _ H')).
  - injection E' as E1 E2. subst. by destruct (Hn (Hmem _ H)).
  - by apply IH.
Qed.

Lemma hub_step_inv s s' : hub_inv s -> hub_step s s' -> hub_inv s'.
Proof.
  intros [Hids Hlocks Horder] Hs. destruct Hs as [t m s Hm|t m e s He Hh|t m l1 l2 e s He Hw].
  - set (e := from_opt (LockEntry None [] 0) (task_locks s !! t)).
    assert (occupied (enter e m) = queued s t ++ [m] /\ lock_ok (enter e m)) as [Hocc Hok].
    { unfold e, queued. destruct (task_locks s !! t) as [e0|] eqn:E0; [|done]. cbn [from_opt].
      destruct (Hlocks t e0 E0) as [Hu Hh]. unfold enter, lock_ok, occupied in *.
      destruct (holder e0) as [h|]; [|done]. cbn in *. split; [done|]. split; [|done].
      rewrite length_app. cbn. lia. }
    split; cbn [arrived written task_locks].
    + rewrite map_app. apply NoDup_app. split_and!; [done| |apply NoDup_singleton].
      intros x Hx ->%list_elem_of_singleton. done.
    + intros t' e' [[<- <-]|[_ H]]%lookup_insert_Some; [done|by eapply Hlocks].
    + intros t'. rewrite queued_insert, of_task_app, of_task_one, Horder, <- app_assoc. f_equal.
      destruct (decide (t = t')) as [<-|Hne]; [by rewrite String.eqb_refl, Hocc|].
      destruct (String.eqb t' t) eqn:E; [bool_to_prop; congruence|]. apply app_nil_r.
  - destruct (Hlocks t e He) as [Hu _]. set (e' := LockEntry (hd_error (waiting e)) (tl (waiting e)) (users e)).
    assert (occupied e' = waiting e) as Hocc by (unfold occupied, e'; cbn; by destruct (waiting e)).
    assert (users e' = S (length (occupied e'))) as Hu'.
    { rewrite Hocc. cbn. rewrite Hu. unfold occupied. by rewrite Hh. }
    split; cbn [arrived written task_locks]; [done| |].
    + apply leave_ok; [done| |done]. cbn. by destruct (waiting e).
    + intros t'. rewrite queued_leave, of_task_app, of_task_one, Horder, <- app_assoc by done. f_equal.
      destruct (decide (t = t')) as [<-|Hne].
      * rewrite String.eqb_refl, Hocc. unfold queued. by rewrite He, Hh.
      * destruct (String.eqb t' t) eqn:E; [bool_to_prop; congruence|done].
  - destruct (Hlocks t e He) as [Hu Hh]. set (e' := LockEntry (holder e) (l1 ++ l2) (users e)).
    assert (users e' = S (length (occupied e'))) as Hu'.
    { unfold e', occupied in *. cbn. rewrite Hu, Hw, !length_app. cbn. lia. }
    assert (NoDup (of_task t (arrived s))) as Hnd.
    { unfold of_task. clear -Hids. induction (arrived s) as [|[t' m'] l IH]; cbn in *; [constructor|].
      apply NoDup_cons in Hids as [Hn Hids]. destruct (String.eqb t t'); cbn; [|by apply IH].
      apply NoDup_cons. split; [|by apply IH]. intros Hin. apply Hn.
      rewrite list_elem_of_In, in_map_iff in Hin |- *. destruct Hin as (p & Hp & [Hin _]%filter_In).
      by exists p. }
    assert ((t, m) ∈ arrived s) as Hin.
    { apply of_task_elem. rewrite Horder. unfold queued. rewrite He, Hw.
      rewrite !elem_of_app, elem_of_cons. tauto. }
    split; cbn [arrived written task_locks].
    + clear -Hids. induction (arrived s) as [|[t' m'] l IH]; cbn in *; [constructor|].
      apply NoDup_cons in Hids as [Hn Hids]. destruct (negb _); cbn; [|by apply IH].
      apply NoDup_cons. split; [|by apply IH]. intros Hin. apply Hn.
      rewrite list_elem_of_In, in_map_iff in Hin |- *. destruct Hin as (p & Hp & [Hin _]%filter_In).
      by exists p.
    + apply leave_ok; [done| |done]. cbn. done.
    + intros t'. rewrite queued_leave, of_task_without by done.
      destruct (decide (t = t')) as [<-|Hne].
      * assert (queued s t = occupied e) as Hq by (unfold queued; by rewrite He).
        rewrite Horder, Hq in Hnd |- *. unfold occupied in Hnd |- *. rewrite Hw in Hnd |- *.
        cbn [holder waiting e']. rewrite !app_assoc in Hnd |- *.
        apply NoDup_app in Hnd as (_ & Hdis & [Hm2 _]%NoDup_cons).
        rewrite without_app, without_not_in.
        2: { intros Hx. apply (Hdis m Hx). left. }
        rewrite <- !app_assoc. do 3 f_equal. unfold without. cbn. rewrite Nat.eqb_refl. cbn.
        by apply without_not_in.
      * rewrite without_not_in, Horder; [done|]. intros Hin'%of_task_elem.
        destruct Hne. by apply (id_task (arrived s) m).
Qed.

(** C26. The hub writes the messages of a task in the order in which they arrived: what
    was written is what arrived first, without the cancelled messages; the rest
    is in the task's lock, in order; and a task without a message in progress
    has no lock left in the table. *)
Theorem hub_writes_in_order s : rtc hub_step hub_start s ->
  forall t, of_task t (arrived s) = (of_task t (written s) ++ queued s t)%list /\
    (task_locks s !! t = None <-> queued s t = []).
Proof.
  intros Hs. assert (hub_inv s) as [Hids Hlocks Horder].
  { assert (hub_inv hub_start) as Hinv by (split; cbn; [constructor|done|done]).
    induction Hs as [s|s1 s2 s3 H12 _ IH]; [done|]. by apply IH, (hub_step_inv s1). }
  intros t. split; [done|]. unfold queued. destruct (task_locks s !! t) as [e|] eqn:E; [|done].
  destruct (Hlocks t e E) as [_ Hh]. by destruct (holder e).
Qed.

Lemma hub_writes_in_order_witness :
  exists s, rtc hub_step hub_start s /\ of_task "t" (arrived s) = (of_task "t" (written s) ++ queued s "t")%list /\
    queued s "t" = [2%nat].
Proof.
  assert (rtc hub_step hub_start (HubState {["t" := LockEntry (Some 2%nat) [] 1]}
    [("t", 1%nat); ("t", 2%nat)] [("t", 1%nat)])) as Hs.
  { eapply rtc_l; [apply (hub_arrive "t" 1); by apply not_elem_of_nil|]. cbn.
    eapply rtc_l; [apply (hub_arrive "t" 2); cbn; by apply not_elem_of_cons; split; [|apply not_elem_of_nil]|].
    cbn. rewrite lookup_insert_eq. cbn. rewrite insert_insert_eq.
    eapply rtc_l; [apply (hub_written "t" 1 (LockEntry (Some 1%nat) [2%nat] 2)); by rewrite ?lookup_insert_eq|].
    cbn. unfold leave. cbn. rewrite insert_insert_eq. apply rtc_refl. }
  eexists. split; [exact Hs|]. split; [apply (hub_writes_in_order _ Hs)|reflexivity].
Defined.
