(* ===== verification/ContractStore.v ===== *)
(** * Deduplication of workflow messages (storage/workflow_contract_store.py)

    [RedisWorkflowContractStore]: the key of a message at a stage, taken with
    [SET NX], and the hash of the messages in flight.  [scope_spec] is what the
    store promises for the messages of one task at one stage. *)

From stdpp Require Import countable.
From S2P Require Import Prelude PyStr PyVal Json Sha256 Redis RedisProg.

(** [{field: payload.get(field) for field in dedup_key_fields}] *)
(** [build_dedup_signature], relayna/storage/workflow_contract_store.py:189-189. *)
Definition dedup_fields (payload : pydict) (fields : list string) : pydict :=
  foldl (fun d f => dset f (dgetv f payload) d) [] fields.

(** [build_dedup_signature], relayna/storage/workflow_contract_store.py:183-192. *)
Definition build_dedup_signature (task_id : string) (action : option string) (payload : pydict)
    (dedup_key_fields : list string) : string :=
  Sha256.hexdigest (utf8 (dumps (DumpsOpts true true "," ":") (PDict
    [("task_id", PStr task_id); ("action", opt_str action);
     ("fields", PDict (dedup_fields payload dedup_key_fields))]))).

Section store.
Context {R : Type} `{Redis R}.
Context (prefix : string) (ttl_seconds : option Z).

(** [_dedup_key], relayna/storage/workflow_contract_store.py:161-163. *)
Definition contract_slot (stage task_id : string) : string :=
  "workflow-contract:" +:+ stage +:+ ":" +:+ task_id.

(** [_dedup_key], relayna/storage/workflow_contract_store.py:145-169. *)
Definition dedup_key (stage task_id : string) (action : option string) (payload : pydict)
    (fields : list string) : string :=
  redis_key prefix (contract_slot stage task_id)
    ["workflow"; "contract"; stage; "dedup"; task_id; build_dedup_signature task_id action payload fields].

(** [_inflight_key], relayna/storage/workflow_contract_store.py:171-180. *)
Definition inflight_key (stage task_id : string) : string :=
  redis_key prefix (contract_slot stage task_id) ["workflow"; "contract"; stage; "inflight"; task_id].

(** [acquire_dedup], relayna/storage/workflow_contract_store.py:59-76. *)
Definition acquire_dedup (now : Z) (stage task_id : string) (action : option string)
    (payload : pydict) (fields : list string) : P R bool :=
  await (fun r => rset_nx r now (dedup_key stage task_id action payload fields) "1" ttl_seconds).

(** [release_dedup], relayna/storage/workflow_contract_store.py:78-95. *)
Definition release_dedup (now : Z) (stage task_id : string) (action : option string)
    (payload : pydict) (fields : list string) : P R unit :=
  await_ (fun r => (rdel r now (dedup_key stage task_id action payload fields)).1).

(** [mark_inflight], relayna/storage/workflow_contract_store.py:97-125. *)
Definition mark_inflight (now : Z) (stage task_id : string) (action : option string)
    (payload : pydict) (fields : list string) : P R unit :=
  let signature := build_dedup_signature task_id action payload fields in
  let key := inflight_key stage task_id in
  let value := dumps (DumpsOpts true true ", " ": ") (PDict
    [("task_id", PStr task_id); ("stage", PStr stage); ("action", opt_str action);
     ("dedup_key_fields", PList (map PStr fields)); ("payload", PDict (dedup_fields payload fields))]) in
  _ ← await_ (fun r => rhset r now key signature value);
  match ttl_seconds with
  | Some s => await_ (fun r => rexpire r now key s)
  | None => mret tt
  end.

(** [clear_inflight], relayna/storage/workflow_contract_store.py:127-143. *)
Definition clear_inflight (now : Z) (stage task_id : string) (action : option string)
    (payload : pydict) (fields : list string) : P R unit :=
  await_ (fun r => rhdel r now (inflight_key stage task_id)
                     (build_dedup_signature task_id action payload fields)).

(** ** The operations on the messages of one task at one stage *)

Inductive operation := Acquire | Release | Mark | Clear.

(** An operation for a message, at a time; [acquire_dedup] answers. *)
Record call := Call {
  op : operation; at_time : Z; c_action : option string; c_payload : pydict; c_fields : list string }.

Definition perform (stage task_id : string) (c : call) : P R bool :=
  match op c with
  | Acquire => acquire_dedup (at_time c) stage task_id (c_action c) (c_payload c) (c_fields c)
  | Release => _ ← release_dedup (at_time c) stage task_id (c_action c) (c_payload c) (c_fields c);
               mret true
  | Mark => _ ← mark_inflight (at_time c) stage task_id (c_action c) (c_payload c) (c_fields c); mret true
  | Clear => _ ← clear_inflight (at_time c) stage task_id (c_action c) (c_payload c) (c_fields c);
             mret true
  end.

(** The promise: a signature is held from the [Acquire] that gets it to the next
    [Release] of it or to its deadline; an [Acquire] gets a signature exactly
    when nothing holds it. *)
Definition holds (now : Z) (held : gmap string (option Z)) (sig : string) : bool :=
  match held !! sig with Some dl => alive now dl | None => false end.
Definition scope_spec (task_id : string) (held : gmap string (option Z)) (c : call) :
    gmap string (option Z) * bool :=
  let sig := build_dedup_signature task_id (c_action c) (c_payload c) (c_fields c) in
  match op c with
  | Acquire => if holds (at_time c) held sig then (held, false)
               else (<[sig := expires (at_time c) ttl_seconds]> held, true)
  | Release => (delete sig held, true)
  | Mark | Clear => (held, true)
  end.

Fixpoint run_calls (stage task_id : string) (l : list call) (r : R) : R * list (result bool) :=
  match l with
  | [] => (r, [])
  | c :: l => let (r1, x) := runP (perform stage task_id c) r in
              let (r2, xs) := run_calls stage task_id l r1 in (r2, x :: xs)
  end.
Fixpoint run_spec (task_id : string) (l : list call) (held : gmap string (option Z)) :
    gmap string (option Z) * list bool :=
  match l with
  | [] => (held, [])
  | c :: l => let (h1, x) := scope_spec task_id held c in
              let (h2, xs) := run_spec task_id l h1 in (h2, x :: xs)
  end.

(** ** Refinement *)

Context `{!RedisLaws R}.
Context (stage task_id : string).

Definition key_of (sig : string) : string :=
  redis_key prefix (contract_slot stage task_id) ["workflow"; "contract"; stage; "dedup"; task_id; sig].

Lemma key_of_inj s s' : key_of s = key_of s' -> s = s'.
Proof.
  intros E. apply redis_key_join in E. rewrite !join_cons in E.
  repeat (apply append_inj_l in E || rewrite append_assoc_str in E). exact E.
Qed.

Lemma key_of_inflight s : key_of s <> inflight_key stage task_id.
Proof.
  intros E. apply redis_key_join in E. rewrite !join_cons in E.
  repeat (apply append_inj_l in E || rewrite append_assoc_str in E). done.
Qed.

Definition represents (d : db) (held : gmap string (option Z)) : Prop :=
  forall sig, d !! key_of sig = (fun dl => (RStr "1", dl)) <$> held !! sig.

Lemma represents_frame d d' held : represents d held ->
  (forall sig, d' !! key_of sig = d !! key_of sig) -> represents d' held.
Proof. intros Hr Hf sig. by rewrite Hf. Qed.

Lemma dedup_key_of action payload fields : dedup_key stage task_id action payload fields =
  key_of (build_dedup_signature task_id action payload fields).
Proof. done. Qed.

Lemma perform_refines c held r : represents (model r) held ->
  represents (model (runP (perform stage task_id c) r).1) (scope_spec task_id held c).1 /\
  (runP (perform stage task_id c) r).2 = Ok (scope_spec task_id held c).2.
Proof.
  intros Hr. unfold perform, scope_spec.
  unfold acquire_dedup, release_dedup, mark_inflight, clear_inflight. rewrite dedup_key_of.
  generalize (build_dedup_signature task_id (c_action c) (c_payload c) (c_fields c)). intros sig.
  destruct (op c).
  - unfold runP, await. cbn [fst snd]. rewrite law_set_nx, law_set_nx_ret. unfold db_set_nx, holds, live. rewrite (Hr sig).
    destruct (held !! sig) as [dl|] eqn:E; cbn [fmap option_fmap option_map].
    1: destruct (alive (at_time c) dl); [by split|].
    all: split; [|done]; intros sig'; cbn [fst]; unfold db_set; destruct (decide (sig = sig')) as [<-|Hne];
      [by rewrite !lookup_insert_eq|]; rewrite !lookup_insert_ne; [apply Hr|done|by intros ?%key_of_inj].
  - unfold runP, mbind, P_bind, await_, await, mret, P_ret. cbn. rewrite law_del. split; [|done].
    intros sig'. cbn. destruct (decide (sig = sig')) as [<-|Hne];
      [by rewrite !lookup_delete_eq|]; rewrite !lookup_delete_ne; [apply Hr|done|by intros ?%key_of_inj].
  - unfold runP, mbind, P_bind, await_, await, mret, P_ret.
    destruct ttl_seconds; cbn; autorewrite with redis; (split; [|done]);
      apply (represents_frame (model r)); try done; intros sig'; pose proof (key_of_inflight sig');
      unfold db_expire, db_hset; [destruct (live _ _ _) as [[]|]|];
      rewrite ?lookup_insert_ne, put_lookup_ne by congruence; done.
  - unfold runP, mbind, P_bind, await_, await, mret, P_ret. cbn.
    rewrite law_hdel. split; [|done]. apply (represents_frame (model r)); [done|]. intros sig'.
    pose proof (key_of_inflight sig'). unfold db_hdel. by rewrite put_lookup_ne by congruence.
Qed.

(** C19. Deduplication refines its specification: over any sequence of operations on
    the messages of a task at a stage, with other keys in any state, a message
    is granted exactly when no message with the same signature holds it, from
    the grant to its release or its expiry. *)
Theorem dedup_refines l held r : represents (model r) held ->
  (run_calls stage task_id l r).2 = map Ok (run_spec task_id l held).2 /\
  represents (model (run_calls stage task_id l r).1) (run_spec task_id l held).1.
Proof.
  revert held r. induction l as [|c l IH]; intros held r Hr; [by split|].
  cbn [run_calls run_spec]. destruct (perform_refines c held r Hr) as [H1 H2].
  destruct (runP _ r) as [r1 x], (scope_spec task_id held c) as [h1 b]. cbn in H1, H2.
  destruct (IH h1 r1 H1) as [E1 E2].
  destruct (run_calls _ _ l r1), (run_spec _ l h1). cbn in *. by rewrite H2, E1.
Qed.

End store.

Lemma dedup_refines_witness :
  let calls := [Call Acquire 0 None [("id", PInt 1)] ["id"]; Call Mark 0 None [("id", PInt 1)] ["id"];
                Call Acquire 1 None [("id", PInt 1)] ["id"]; Call Acquire 1 None [("id", PInt 2)] ["id"]] in
  (run_calls "relayna" (Some 60) "plan" "t" calls (∅ : db)).2 =
  map Ok (run_spec (Some 60) "t" calls ∅).2.
Proof. by apply (dedup_refines "relayna" (Some 60) "plan" "t"). Defined.

(** ** What the signature depends on *)

Lemma dedup_fields_get payload fields d k :
  dget k (foldl (fun d f => dset f (dgetv f payload) d) d fields) =
  if str_in k fields then Some (dgetv k payload) else dget k d.
Proof.
  revert d. induction fields as [|f fields IH]; intros d; [done|]. cbn [foldl].
  rewrite IH. unfold str_in. cbn [existsb]. destruct (existsb _ fields) eqn:E; [by rewrite orb_true_r|].
  rewrite orb_false_r. rewrite dget_dset. destruct (String.eqb k f) eqn:Ek; [|done].
  bool_to_prop. by subst.
Qed.

Lemma dedup_fields_ok payload fields d : dict_ok d ->
  dict_ok (foldl (fun d f => dset f (dgetv f payload) d) d fields).
Proof. revert d. induction fields; intros d Hd; [done|]. cbn. by apply IHfields, dict_ok_dset. Qed.

(** Two messages have the same signature as soon as they agree on the deduplication
    fields: no other field of the payload counts, neither does the order of the
    fields in the configuration, nor a repetition, and a missing field counts
    as null. *)
Theorem signature_depends_on_fields task_id action p p' fields fields' :
  (forall f, f ∈ fields <-> f ∈ fields') -> (forall f, f ∈ fields -> dgetv f p = dgetv f p') ->
  build_dedup_signature task_id action p fields = build_dedup_signature task_id action p' fields'.
Proof.
  intros Hf Hp. unfold build_dedup_signature. do 2 f_equal.
  assert (dumps (DumpsOpts true true "," ":") (PDict (dedup_fields p fields)) =
          dumps (DumpsOpts true true "," ":") (PDict (dedup_fields p' fields'))) as E.
  { apply dumps_permutation; [done|by apply dedup_fields_ok, dict_ok_nil|].
    apply dict_same_get; [by apply dedup_fields_ok, dict_ok_nil..|]. intros k.
    unfold dedup_fields. rewrite !dedup_fields_get.
    destruct (str_in k fields) eqn:E1, (str_in k fields') eqn:E2; try done.
    - apply str_in_elem in E1. by rewrite Hp.
    - apply str_in_elem, Hf, str_in_elem in E1. congruence.
    - apply str_in_elem, Hf, str_in_elem in E2. congruence. }
  cbn [dumps map fst snd]. cbn [dumps map] in E. by rewrite E.
Qed.

Lemma signature_depends_on_fields_witness :
  build_dedup_signature "t" None [("a", PInt 1); ("b", PInt 2); ("c", PInt 3)] ["a"; "d"; "a"] =
  build_dedup_signature "t" None [("d", PNone); ("a", PInt 1)] ["d"; "a"].
Proof.
  apply signature_depends_on_fields.
  - set_solver.
  - intros f Hin. repeat (apply elem_of_cons in Hin as [-> |Hin]; [reflexivity|]). by apply elem_of_nil in Hin.
Defined.
