(* ===== verification/LeaseStore.v ===== *)
(** * Task leases (storage/task_lease_store.py)

    [RedisTaskLeaseStore] over the command interface of [Redis], the expiry
    scanner, and what the two promise.  Times are microseconds; an operation
    runs at one instant of a clock shared with the server.  [expires_at] as a
    sorted-set score is a float of seconds in the code: doubles keep
    microsecond timestamps apart and in order, so the scores are the integers. *)

From stdpp Require Import countable.
From S2P Require Import Prelude PyStr PyVal Codec Redis.

(** [LeaseRecoveryAction], relayna/storage/task_lease_store.py:18-23. *)
Inductive LeaseRecoveryAction :=
| OBSERVE_ONLY | PUBLISH_STALE_STATUS | L_REQUEUE | L_RETRY | L_DEAD_LETTER.

#[export] Instance lease_action_eq_dec : EqDecision LeaseRecoveryAction.
Proof. solve_decision. Defined.

Definition lease_action_value (a : LeaseRecoveryAction) : string :=
  match a with
  | OBSERVE_ONLY => "observe_only" | PUBLISH_STALE_STATUS => "publish_stale_status"
  | L_REQUEUE => "requeue" | L_RETRY => "retry" | L_DEAD_LETTER => "dead_letter"
  end.

(** [TaskLease], relayna/storage/task_lease_store.py:34-47. *)
Record TaskLease := {
  lease_id : string;
  tl_task_id : string;
  owner_id : string;
  consumer_name : string;
  acquired_at : Z;
  heartbeat_at : Z;
  expires_at : Z;
  tl_message_id : option string;
  tl_task_type : option string;
  tl_workflow_id : option string;
  tl_stage : option string;
  tl_attempt : Z;
  recovery_action : LeaseRecoveryAction }.

(** [expired], relayna/storage/task_lease_store.py:49-51. *)
Definition expired (now : Z) (l : TaskLease) : bool := expires_at l <=? now.

Section store.
Context {R : Type} `{Redis R} `{JsonModel TaskLease}.
Context (prefix : string).

(** [_lease_key], relayna/storage/task_lease_store.py:73-74. *)
Definition lease_key (id : string) : string :=
  redis_key prefix "task-leases" ["lease"; "task"; id].
(** [_owner_key], relayna/storage/task_lease_store.py:76-77. *)
Definition owner_key (owner : string) : string :=
  redis_key prefix "task-leases" ["lease"; "owner"; owner].
(** [_expiries_key], relayna/storage/task_lease_store.py:79-81. *)
Definition expiries_key : string := redis_key prefix "task-leases" ["lease"; "expiries"].
(** [_expired_claims_key], relayna/storage/task_lease_store.py:83-85. *)
Definition expired_claims_key : string :=
  redis_key prefix "task-leases" ["lease"; "expired_claims"].

(** [max(1, int((expires_at - _utcnow()).total_seconds()))] *)
(** [acquire], relayna/storage/task_lease_store.py:88-89. *)
Definition lease_ttl (expires now : Z) : Z := Z.max 1 (Z.quot (expires - now) second).

(** [acquire], relayna/storage/task_lease_store.py:87-98. *)
Definition acquire (r : R) (now : Z) (l : TaskLease) : R * bool :=
  let (r, acquired) :=
    rset_nx r now (lease_key (lease_id l)) (dump_json l) (Some (lease_ttl (expires_at l) now)) in
  if acquired then
    let r := rsrem r now expired_claims_key (lease_id l) in
    let r := (rsadd r now (owner_key (owner_id l)) (lease_id l)).1 in
    let r := rzadd r now expiries_key (lease_id l) (expires_at l) in
    (r, true)
  else (r, false).

(** [get], relayna/storage/task_lease_store.py:126-132. *)
Definition get_lease (r : R) (now : Z) (id : string) : result (option TaskLease) :=
  match rget r now (lease_key id) with
  | None => Ok None
  | Some payload => l ← validate_json payload; Ok (Some l)
  end.

(** [heartbeat], relayna/storage/task_lease_store.py:100-110. *)
Definition heartbeat (r : R) (now : Z) (id owner : string) (expires : Z) :
    result (R * option TaskLease) :=
  current ← get_lease r now id;
  match current with
  | None => Ok (r, None)
  | Some cur =>
      if negb (String.eqb (owner_id cur) owner) then Ok (r, None)
      else
        let updated :=
          {| lease_id := lease_id cur; tl_task_id := tl_task_id cur; owner_id := owner_id cur;
             consumer_name := consumer_name cur; acquired_at := acquired_at cur;
             heartbeat_at := now; expires_at := expires; tl_message_id := tl_message_id cur;
             tl_task_type := tl_task_type cur; tl_workflow_id := tl_workflow_id cur;
             tl_stage := tl_stage cur; tl_attempt := tl_attempt cur;
             recovery_action := recovery_action cur |} in
        let r := rset r now (lease_key id) (dump_json updated) (Some (lease_ttl expires now)) in
        let r := rzadd r now expiries_key id expires in
        Ok (r, Some updated)
  end.

(** [release], relayna/storage/task_lease_store.py:112-124. *)
Definition release (r : R) (now : Z) (id owner : string) : result (R * bool) :=
  current ← get_lease r now id;
  match current with
  | None => Ok (r, false)
  | Some cur =>
      if negb (String.eqb (owner_id cur) owner) then Ok (r, false)
      else
        let r := (rdel r now (lease_key id)).1 in
        let r := rsrem r now (owner_key owner) id in
        let r := rzrem r now expiries_key id in
        let r := rsrem r now expired_claims_key id in
        Ok (r, true)
  end.

(** [list_by_owner], relayna/storage/task_lease_store.py:134-143. *)
Definition list_by_owner (r : R) (now : Z) (owner : string) : result (list TaskLease) :=
  let payloads := map (fun id => rget r now (lease_key id)) (rsmembers r now (owner_key owner)) in
  mapM_result validate_json (omap id payloads).

(** [for lease_id in lease_ids: claim_pipe.sadd(...)], keeping the ids whose
    reply is 1. *)
(** [claim_expired], relayna/storage/task_lease_store.py:152-156. *)
Fixpoint claim_ids (r : R) (now : Z) (ids : list string) : R * list string :=
  match ids with
  | [] => (r, [])
  | id :: rest =>
      let (r, claimed) := rsadd r now expired_claims_key id in
      let (r, out) := claim_ids r now rest in
      (r, if claimed then id :: out else out)
  end.

(** The queued clean-up commands of one claimed id. *)
(** [claim_expired], relayna/storage/task_lease_store.py:163-174. *)
Definition cleanup_claim (clock now : Z) (r : R) (id : string) (lease : option TaskLease) : R :=
  let r := rzrem r clock expiries_key id in
  match lease with
  | None => rsrem r clock expired_claims_key id
  | Some l =>
      if now <? expires_at l then
        let r := rzadd r clock expiries_key id (expires_at l) in
        rsrem r clock expired_claims_key id
      else r
  end.

(** [claim_expired], relayna/storage/task_lease_store.py:145-175. *)
Definition claim_expired (r : R) (clock : Z) (now : option Z) (limit : nat) :
    result (R * list TaskLease) :=
  let now := from_opt clock now in
  let lease_ids := rzrangebyscore r clock expiries_key now limit in
  let (r, claimed_ids) := claim_ids r clock lease_ids in
  leases ← mapM_result (get_lease r clock) claimed_ids;
  let r := foldl (fun r p => cleanup_claim clock now r p.1 p.2) r (zip claimed_ids leases) in
  Ok (r, List.filter (fun l => negb (now <? expires_at l)) (omap id leases)).

(** [_release_expired_claim], relayna/storage/task_lease_store.py:177-183. *)
Definition release_expired_claim (r : R) (now : Z) (id : string) (retry : bool) : result R :=
  lease ← get_lease r now id;
  let r := match lease with
           | Some l => if retry then rzadd r now expiries_key id (expires_at l) else r
           | None => r
           end in
  Ok (rsrem r now expired_claims_key id).

(** [scan_once], relayna/storage/task_lease_store.py:207-224. *)
Definition scan_once (r : R) (clock : Z) (publisher : option (TaskLease -> result unit))
    (batch_size : nat) : result (R * list TaskLease) :=
  '(r, expired) ← claim_expired r clock None batch_size;
  match publisher with
  | None => Ok (r, expired)
  | Some publish =>
      r ← foldl (fun (acc : result R) l =>
            r ← acc;
            if bool_decide (recovery_action l = OBSERVE_ONLY) then Ok r
            else match publish l with
                 | Ok _ => Ok r
                 | Raise e => if is_exception e
                              then release_expired_claim r clock (lease_id l) true
                              else Raise e
                 end) (Ok r) expired;
      Ok (r, expired)
  end.

End store.

(** [task_leases_for_health], relayna/storage/task_lease_store.py:235-253. *)
Definition task_leases_for_health (stamp : Z -> pyval) (now : Z) (leases : list TaskLease) :
    list pydict :=
  map (fun l =>
    [("lease_id", PStr (lease_id l)); ("task_id", PStr (tl_task_id l));
     ("message_id", opt_str (tl_message_id l)); ("task_type", opt_str (tl_task_type l));
     ("stage", opt_str (tl_stage l)); ("owner_id", PStr (owner_id l));
     ("consumer_name", PStr (consumer_name l)); ("attempt", PInt (tl_attempt l));
     ("acquired_at", stamp (acquired_at l)); ("heartbeat_at", stamp (heartbeat_at l));
     ("expires_at", stamp (expires_at l)); ("expired", PBool (expired now l));
     ("recovery_action", PStr (lease_action_value (recovery_action l)))]) leases.

(** ** What the store promises *)

Section laws.
Context {R : Type} `{RedisLaws R} `{JsonModelLaws TaskLease}.
Context (prefix : string).

Notation lease_key := (lease_key prefix).
Notation owner_key := (owner_key prefix).
Notation expiries_key := (expiries_key prefix).
Notation claims_key := (expired_claims_key prefix).
Notation acquire := (acquire (R := R) prefix).
Notation get_lease := (get_lease (R := R) prefix).
Notation heartbeat := (heartbeat (R := R) prefix).
Notation release := (release (R := R) prefix).
Notation claim_expired := (claim_expired (R := R) prefix).
Notation list_by_owner := (list_by_owner (R := R) prefix).

Lemma lease_key_inj a b : lease_key a = lease_key b -> a = b.
Proof.
  unfold LeaseStore.lease_key, LeaseStore.owner_key. intros E. apply redis_key_join in E.
  unfold join in E. repeat apply append_inj_l in E. exact E.
Qed.

Lemma owner_key_inj a b : owner_key a = owner_key b -> a = b.
Proof.
  unfold LeaseStore.lease_key, LeaseStore.owner_key. intros E. apply redis_key_join in E.
  unfold join in E. repeat apply append_inj_l in E. exact E.
Qed.

Ltac other_key :=
  unfold LeaseStore.lease_key, LeaseStore.owner_key, LeaseStore.expiries_key,
    LeaseStore.expired_claims_key;
  let E := fresh "E" in intros E; apply redis_key_join in E; discriminate E.

Lemma lease_key_fresh id : (forall o, owner_key o <> lease_key id) /\
  expiries_key <> lease_key id /\ claims_key <> lease_key id.
Proof. repeat split; intros; other_key. Qed.

Lemma owner_key_fresh o : expiries_key <> owner_key o /\ claims_key <> owner_key o.
Proof. split; other_key. Qed.

(** Reads of a lease's own key through the writes of the other keys. *)
Ltac lease_frame id :=
  pose proof (lease_key_fresh id) as (?Ho & ?He & ?Hc);
  autorewrite with redis in *; cbn [fst snd db_sadd db_srem db_zadd db_zrem db_zremrangebyscore] in *;
  unfold db_srem, db_zadd, db_zrem in *;
  repeat first [rewrite put_lookup_ne in * by auto | rewrite live_put_ne in * by auto].

Lemma get_lease_live r now id :
  get_lease r now id =
  match db_str (model r) now (lease_key id) with
  | None => Ok None
  | Some payload => l ← validate_json payload; Ok (Some l)
  end.
Proof. unfold LeaseStore.get_lease. by rewrite law_get. Qed.

Lemma db_str_live d d' t k : live d t k = live d' t k -> db_str d t k = db_str d' t k.
Proof. unfold db_str. by intros ->. Qed.

(** What a successful [acquire] leaves in the lease's key. *)
Lemma acquire_live r now l t : (acquire r now l).2 = true ->
  live (model (acquire r now l).1) t (lease_key (lease_id l)) =
  live (db_set (model r) now (lease_key (lease_id l)) (dump_json l)
          (Some (lease_ttl (expires_at l) now))) t (lease_key (lease_id l)).
Proof.
  unfold LeaseStore.acquire.
  destruct (rset_nx _ _ _ _ _) as [r1 b] eqn:E. destruct b; [intros _|done].
  assert (r1 = (rset_nx r now (lease_key (lease_id l)) (dump_json l)
     (Some (lease_ttl (expires_at l) now))).1) as -> by (by rewrite E).
  assert ((rset_nx r now (lease_key (lease_id l)) (dump_json l)
     (Some (lease_ttl (expires_at l) now))).2 = true) as Hs by (by rewrite E).
  rewrite law_set_nx_ret in Hs. apply set_nx_some in Hs as [_ Hs].
  cbn [fst]. lease_frame (lease_id l). by rewrite Hs.
Qed.

Lemma acquire_fails r now l : (acquire r now l).2 = false ->
  model (acquire r now l).1 = model r.
Proof.
  unfold LeaseStore.acquire. destruct (rset_nx _ _ _ _ _) as [r1 b] eqn:E. destruct b; [done|].
  intros _. assert (r1 = (rset_nx r now (lease_key (lease_id l)) (dump_json l)
     (Some (lease_ttl (expires_at l) now))).1) as -> by (by rewrite E).
  assert ((rset_nx r now (lease_key (lease_id l)) (dump_json l)
     (Some (lease_ttl (expires_at l) now))).2 = false) as Hs by (by rewrite E).
  rewrite law_set_nx_ret in Hs. cbn [fst]. rewrite law_set_nx. revert Hs. unfold db_set_nx.
  by destruct (live _ _ _).
Qed.

Lemma acquire_result r now l :
  (acquire r now l).2 =
  match live (model r) now (lease_key (lease_id l)) with Some _ => false | None => true end.
Proof.
  unfold LeaseStore.acquire. destruct (rset_nx _ _ _ _ _) as [r1 b] eqn:E.
  assert (b = (rset_nx r now (lease_key (lease_id l)) (dump_json l)
     (Some (lease_ttl (expires_at l) now))).2) as Hb by (by rewrite E).
  rewrite law_set_nx_ret in Hb. unfold db_set_nx in Hb.
  destruct (live _ _ _), b; cbn in *; congruence.
Qed.

Lemma acquire_live_str r now l t : (acquire r now l).2 = true ->
  t < now + lease_ttl (expires_at l) now * second ->
  live (model (acquire r now l).1) t (lease_key (lease_id l)) =
  Some (RStr (dump_json l), Some (now + lease_ttl (expires_at l) now * second)).
Proof.
  intros Ha Ht. rewrite acquire_live by done. unfold db_set, expires. rewrite live_insert_eq.
  cbn [fmap option_fmap option_map alive]. apply Z.ltb_lt in Ht. by rewrite Ht.
Qed.

(** C21. A lease that was acquired belongs to its owner until its time to live
    is over: it reads back, nobody else acquires the same lease id, another
    owner neither renews nor releases it, and the owner's release frees it. *)
Theorem lease_exclusive r now l t :
  (acquire r now l).2 = true -> t < now + lease_ttl (expires_at l) now * second ->
  let r' := (acquire r now l).1 in
  get_lease r' t (lease_id l) = Ok (Some l) /\
  (forall l2, lease_id l2 = lease_id l ->
     (acquire r' t l2).2 = false /\ model (acquire r' t l2).1 = model r') /\
  (forall o e, o <> owner_id l ->
     heartbeat r' t (lease_id l) o e = Ok (r', None) /\
     release r' t (lease_id l) o = Ok (r', false)) /\
  (exists r'', release r' t (lease_id l) (owner_id l) = Ok (r'', true) /\
     get_lease r'' t (lease_id l) = Ok None).
Proof.
  intros Ha Ht r'.
  pose proof (acquire_live_str r now l t Ha Ht) as Hl. fold r' in Hl.
  assert (get_lease r' t (lease_id l) = Ok (Some l)) as Hg.
  { rewrite get_lease_live. unfold db_str. rewrite Hl. by rewrite validate_dump. }
  split_and!; [done| | |].
  - intros l2 E. assert ((acquire r' t l2).2 = false) as Hf.
    { rewrite acquire_result, E, Hl. done. }
    split; [done|]. by apply acquire_fails.
  - intros o e Ho. unfold LeaseStore.heartbeat, LeaseStore.release. rewrite Hg. cbn.
    assert (String.eqb (owner_id l) o = false) as -> by (apply String.eqb_neq; congruence). done.
  - unfold LeaseStore.release. rewrite Hg. cbn. rewrite String.eqb_refl. cbn. eexists; split; [done|].
    rewrite get_lease_live. unfold db_str. lease_frame (lease_id l).
    unfold db_del. cbn [fst]. by rewrite live_delete_eq.
Qed.

(** ** Expired leases are never seen by the scanner *)

(** One operation of the store, at any time and by any worker; a lease is
    taken and renewed for at least a second. *)
Inductive lease_step (r : R) : R -> Prop :=
| step_acquire now l : second <= expires_at l - now -> lease_step r (acquire r now l).1
| step_heartbeat now id o e r' out : second <= e - now ->
    heartbeat r now id o e = Ok (r', out) -> lease_step r r'
| step_release now id o r' b : release r now id o = Ok (r', b) -> lease_step r r'
| step_claim clock now limit r' out :
    claim_expired r clock now limit = Ok (r', out) -> lease_step r r'
| step_release_claim now id b r' :
    release_expired_claim prefix r now id b = Ok r' -> lease_step r r'.

(** Every lease key holds a valid lease and dies no later than the lease. *)
Definition lease_inv (d : db) : Prop :=
  forall id v dl, d !! lease_key id = Some (v, dl) ->
  exists l e, v = RStr (dump_json l) /\ dl = Some e /\ e <= expires_at l.

Lemma lease_inv_frame d d' :
  (forall id, d' !! lease_key id = d !! lease_key id) -> lease_inv d -> lease_inv d'.
Proof. intros E I id v dl. rewrite E. apply I. Qed.

Lemma lease_inv_set d now l id : second <= expires_at l - now -> lease_inv d ->
  lease_inv (db_set d now (lease_key id) (dump_json l) (Some (lease_ttl (expires_at l) now))).
Proof.
  intros Hs I id' v dl. unfold db_set.
  destruct (decide (id' = id)) as [->|Hne].
  - rewrite lookup_insert_eq. intros [= <- <-]. cbn.
    exists l, (now + lease_ttl (expires_at l) now * second). split_and!; try done.
    unfold lease_ttl. assert (0 < second) by done.
    pose proof (Z.mul_quot_le (expires_at l - now) second) as Hq.
    pose proof (Z.quot_le_lower_bound (expires_at l - now) second 1). lia.
  - rewrite lookup_insert_ne; [apply I|]. intros E%lease_key_inj. congruence.
Qed.

Lemma lease_frame_id d d' id k v now : k <> lease_key id -> d = put d' now k v ->
  d !! lease_key id = d' !! lease_key id.
Proof. intros ? ->. by rewrite put_lookup_ne. Qed.

Lemma acquire_inv r now l : second <= expires_at l - now ->
  lease_inv (model r) -> lease_inv (model (acquire r now l).1).
Proof.
  intros Hs I. destruct (acquire r now l).2 eqn:Ha.
  - apply (lease_inv_frame (db_set (model r) now (lease_key (lease_id l)) (dump_json l)
            (Some (lease_ttl (expires_at l) now)))); [|by apply lease_inv_set].
    intros id. revert Ha. unfold LeaseStore.acquire.
    destruct (rset_nx _ _ _ _ _) as [r1 b] eqn:E. destruct b; [intros _|done].
    pose proof (law_set_nx r now (lease_key (lease_id l)) (dump_json l)
      (Some (lease_ttl (expires_at l) now))) as Hm. rewrite E in Hm. cbn [fst] in Hm.
    pose proof (law_set_nx_ret r now (lease_key (lease_id l)) (dump_json l)
      (Some (lease_ttl (expires_at l) now))) as Hr. rewrite E in Hr. cbn [snd] in Hr.
    symmetry in Hr. apply set_nx_some in Hr as [_ Hr]. rewrite Hr in Hm.
    cbn [fst]. lease_frame id. by rewrite Hm.
  - by rewrite acquire_fails.
Qed.

Lemma heartbeat_inv r now id o e r' out : second <= e - now ->
  heartbeat r now id o e = Ok (r', out) -> lease_inv (model r) -> lease_inv (model r').
Proof.
  intros Hs Hb I. unfold LeaseStore.heartbeat in Hb.
  apply result_bind_ok in Hb as ([cur|] & Hg & Hb); [|by injection Hb as <- <-].
  destruct (negb _); [by injection Hb as <- <-|]. injection Hb as <- <-.
  match goal with |- context [dump_json ?u] => set (u' := u) end.
  apply (lease_inv_frame (db_set (model r) now (lease_key id) (dump_json u')
          (Some (lease_ttl (expires_at u') now)))); [|by apply lease_inv_set].
  intros id'. by lease_frame id'.
Qed.

Lemma release_inv r now id o r' b :
  release r now id o = Ok (r', b) -> lease_inv (model r) -> lease_inv (model r').
Proof.
  intros Hb I. unfold LeaseStore.release in Hb.
  apply result_bind_ok in Hb as ([cur|] & Hg & Hb); [|by injection Hb as <- <-].
  destruct (negb _); [by injection Hb as <- <-|]. injection Hb as <- <-.
  intros id' v dl Hv. lease_frame id'. unfold db_del in Hv. cbn [fst] in Hv.
  apply lookup_delete_Some in Hv as [_ Hv]. by eapply I.
Qed.

Lemma claim_ids_frame r now ids id :
  model (claim_ids prefix r now ids).1 !! lease_key id = model r !! lease_key id.
Proof.
  revert r. induction ids as [|i ids IH]; intros r; [done|]. cbn [claim_ids].
  destruct (rsadd r now claims_key i) as [r1 c] eqn:E1.
  destruct (claim_ids prefix r1 now ids) as [r2 out] eqn:E2. cbn [fst].
  specialize (IH r1). rewrite E2 in IH. cbn [fst] in IH. rewrite IH.
  assert (r1 = (rsadd r now claims_key i).1) as -> by (by rewrite E1). by lease_frame id.
Qed.

Lemma cleanup_frame clock now r i o id :
  model (cleanup_claim prefix clock now r i o) !! lease_key id = model r !! lease_key id.
Proof.
  unfold cleanup_claim. destruct o as [l|]; [destruct (now <? expires_at l)|]; by lease_frame id.
Qed.

Lemma cleanup_all_frame clock now r ps id :
  model (foldl (fun r p => cleanup_claim prefix clock now r p.1 p.2) r ps) !! lease_key id =
  model r !! lease_key id.
Proof.
  revert r. induction ps as [|p ps IH]; intros r; cbn; [done|]. by rewrite IH, cleanup_frame.
Qed.

Lemma claim_expired_inv r clock now limit r' out :
  claim_expired r clock now limit = Ok (r', out) -> lease_inv (model r) -> lease_inv (model r').
Proof.
  intros Hc. apply lease_inv_frame. intros id. unfold LeaseStore.claim_expired in Hc.
  destruct (claim_ids _ _ _ _) as [r1 ids] eqn:E.
  apply result_bind_ok in Hc as (leases & _ & Hc). injection Hc as <- _.
  rewrite cleanup_all_frame. replace r1 with (claim_ids prefix r clock
    (rzrangebyscore r clock expiries_key (from_opt clock now) limit)).1 by (by rewrite E).
  apply claim_ids_frame.
Qed.

Lemma lease_step_inv r r' : lease_step r r' -> lease_inv (model r) -> lease_inv (model r').
Proof.
  intros [now l Hs|now id o e r1 out Hs Hb|now id o r1 b Hb|clock now limit r1 out Hc|now id b r1 Hb] I.
  - by apply acquire_inv.
  - by eapply heartbeat_inv.
  - by eapply release_inv.
  - by eapply claim_expired_inv.
  - revert I. apply lease_inv_frame. intros id'. unfold release_expired_claim in Hb.
    apply result_bind_ok in Hb as (o & _ & Hb). injection Hb as <-.
    destruct o as [l|]; [destruct b|]; by lease_frame id'.
Qed.

Lemma get_lease_inv r t id : lease_inv (model r) ->
  exists o, get_lease r t id = Ok o /\ (forall l, o = Some l -> t < expires_at l).
Proof.
  intros I. rewrite get_lease_live. unfold db_str, live.
  destruct (model r !! lease_key id) as [[v dl]|] eqn:E; [|by exists None].
  apply I in E as (l & e & -> & -> & He). cbn [alive].
  destruct (t <? e) eqn:Ht; [|by exists None]. rewrite validate_dump. exists (Some l).
  split; [done|]. intros ? [= <-]. bool_to_prop. lia.
Qed.

Lemma lease_steps_inv r r' : rtc lease_step r r' -> lease_inv (model r) -> lease_inv (model r').
Proof. induction 1 as [|r r1 r2 Hs _ IH]; eauto using lease_step_inv. Qed.

Lemma get_leases_inv r t ids : lease_inv (model r) ->
  exists leases, mapM_result (get_lease r t) ids = Ok leases /\
    List.filter (fun l => negb (t <? expires_at l)) (omap id leases) = [].
Proof.
  intros I. induction ids as [|i ids (leases & E & Hf)]; [by exists []|].
  destruct (get_lease_inv r t i I) as (o & Ho & Hlive). exists (o :: leases).
  cbn [mapM_result]. rewrite Ho, E. split; [done|]. destruct o as [l|]; [|done].
  change (omap id (Some l :: leases)) with (l :: omap id leases). cbn [List.filter].
  assert (t <? expires_at l = true) as -> by (apply Z.ltb_lt; eauto). done.
Qed.

(** In any history of the store in which leases are taken and renewed for
    at least a second, a scan at the server's clock returns no lease: the
    lease's key expires before the lease does, so the claim finds no payload. *)
Theorem expired_leases_unreported r r' clock limit :
  model r = ∅ -> rtc lease_step r r' ->
  exists r'', claim_expired r' clock None limit = Ok (r'', []).
Proof.
  intros E Hrtc.
  assert (lease_inv (model r')) as I.
  { apply (lease_steps_inv r r' Hrtc). rewrite E. intros id v dl. by rewrite lookup_empty. }
  unfold LeaseStore.claim_expired. cbn [from_opt].
  set (ids := rzrangebyscore _ _ _ _ _). pose proof (claim_ids_frame r' clock ids) as Hf.
  destruct (claim_ids prefix r' clock ids) as [r1 claimed]. cbn [fst] in Hf.
  apply (lease_inv_frame _ _ Hf) in I.
  destruct (get_leases_inv r1 clock claimed I) as (leases & El & Hnil). rewrite El.
  eexists. cbn. by rewrite Hnil.
Qed.

Lemma acquire_members r now l o : (acquire r now l).2 = true ->
  db_members (model (acquire r now l).1) now (owner_key o) =
  (if String.eqb o (owner_id l) then {[lease_id l]} else ∅) ∪ db_members (model r) now (owner_key o).
Proof.
  unfold LeaseStore.acquire. destruct (rset_nx _ _ _ _ _) as [r1 b] eqn:E.
  destruct b; [intros _|done].
  pose proof (law_set_nx r now (lease_key (lease_id l)) (dump_json l)
    (Some (lease_ttl (expires_at l) now))) as Hm. rewrite E in Hm. cbn [fst] in Hm.
  pose proof (law_set_nx_ret r now (lease_key (lease_id l)) (dump_json l)
    (Some (lease_ttl (expires_at l) now))) as Hr. rewrite E in Hr. cbn [snd] in Hr.
  symmetry in Hr. apply set_nx_some in Hr as [_ Hr]. rewrite Hr in Hm. clear Hr E.
  pose proof (owner_key_fresh o) as [He Hc]. pose proof (lease_key_fresh (lease_id l)) as (Ho & _).
  assert (db_members (model r1) now (owner_key o) = db_members (model r) now (owner_key o)) as Hm1.
  { rewrite Hm. unfold db_set. by rewrite members_insert_ne by (intros ?; eapply Ho; eauto). }
  cbn [fst]. autorewrite with redis. unfold db_zadd, db_srem. cbn [fst db_sadd].
  rewrite members_put_ne by done.
  destruct (String.eqb o (owner_id l)) eqn:Eo; bool_to_prop.
  - subst o. rewrite members_put. f_equal. by rewrite members_put_ne.
  - assert (owner_key (owner_id l) <> owner_key o) by (intros ?%owner_key_inj; congruence).
    rewrite !members_put_ne by done. rewrite Hm1. set_solver.
Qed.

Lemma acquire_owner_lookup r now l : model r = ∅ ->
  model (acquire r now l).1 !! owner_key (owner_id l) = Some (RSet {[lease_id l]}, None).
Proof.
  intros E0. unfold LeaseStore.acquire. destruct (rset_nx _ _ _ _ _) as [r1 b] eqn:E.
  pose proof (law_set_nx r now (lease_key (lease_id l)) (dump_json l)
    (Some (lease_ttl (expires_at l) now))) as Hm. rewrite E in Hm. cbn [fst] in Hm.
  pose proof (law_set_nx_ret r now (lease_key (lease_id l)) (dump_json l)
    (Some (lease_ttl (expires_at l) now))) as Hr. rewrite E in Hr. cbn [snd] in Hr.
  rewrite E0 in Hm, Hr. unfold db_set_nx, live in Hr, Hm. rewrite lookup_empty in Hr, Hm.
  cbn in Hr, Hm. subst b.
  pose proof (owner_key_fresh (owner_id l)) as [He Hc].
  pose proof (lease_key_fresh (lease_id l)) as (Ho & _).
  cbn [fst]. autorewrite with redis. unfold db_zadd, db_srem. cbn [fst db_sadd].
  rewrite put_lookup_ne by done. rewrite members_put_ne by done.
  assert (live (model r1) now (owner_key (owner_id l)) = None) as Hn.
  { rewrite Hm. unfold db_set. rewrite live_insert_ne by (intros ?; eapply Ho; eauto).
    unfold live. by rewrite lookup_empty. }
  assert (db_members (model r1) now (owner_key (owner_id l)) = ∅) as ->.
  { unfold db_members. by rewrite Hn. }
  rewrite union_empty_r_L.
  unfold put at 1. assert (is_empty (RSet {[lease_id l]}) = false) as ->.
  { cbn. apply bool_decide_eq_false. set_solver. }
  rewrite lookup_insert_eq. rewrite live_put_ne by done. by rewrite Hn.
Qed.

Lemma ttl_pos e now : 0 < lease_ttl e now.
Proof. unfold lease_ttl. lia. Qed.

(** The owner index keeps the leases an owner lost: once a worker's lease
    has expired and another worker has taken the same lease id, listing the
    leases of the first owner returns the second owner's lease. *)
Theorem owner_index_stale r la lb t0 t1 :
  model r = ∅ -> lease_id lb = lease_id la -> owner_id la <> owner_id lb ->
  t0 + lease_ttl (expires_at la) t0 * second <= t1 ->
  list_by_owner (acquire (acquire r t0 la).1 t1 lb).1 t1 (owner_id la) = Ok [lb].
Proof.
  intros E0 Eid Hown Ht. set (r1 := (acquire r t0 la).1).
  assert ((acquire r t0 la).2 = true) as Ha.
  { rewrite acquire_result, E0. unfold live. by rewrite lookup_empty. }
  assert (live (model r1) t1 (lease_key (lease_id la)) = None) as Hdead.
  { unfold r1. rewrite acquire_live by done. unfold db_set, expires. rewrite live_insert_eq.
    cbn [fmap option_fmap option_map alive]. destruct (_ <? _) eqn:E; [bool_to_prop; lia|done]. }
  assert ((acquire r1 t1 lb).2 = true) as Hb.
  { by rewrite acquire_result, Eid, Hdead. }
  pose proof (acquire_members r1 t1 lb (owner_id la) Hb) as Hmem.
  assert (String.eqb (owner_id la) (owner_id lb) = false) as Ene by by apply String.eqb_neq.
  rewrite Ene, union_empty_l_L in Hmem.
  assert (db_members (model r1) t1 (owner_key (owner_id la)) = {[lease_id la]}) as Hm1.
  { unfold db_members, live, r1. by rewrite acquire_owner_lookup. }
  rewrite Hm1 in Hmem. unfold LeaseStore.list_by_owner.
  pose proof (law_smembers (acquire r1 t1 lb).1 t1 (owner_key (owner_id la))) as Hp.
  rewrite Hmem, elements_singleton in Hp. apply Permutation_singleton_r in Hp.
  rewrite Hp. cbn [map]. rewrite law_get. unfold db_str.
  rewrite <- Eid, acquire_live_str; [|done|pose proof (ttl_pos (expires_at lb) t1); unfold second; lia].
  cbn. by rewrite validate_dump.
Qed.

End laws.

(** ** Witnesses: the key space of [Redis] and a bit-string codec *)

Definition lease_tuple (l : TaskLease) :=
  (lease_id l, tl_task_id l, owner_id l, consumer_name l, acquired_at l, heartbeat_at l,
   expires_at l, (tl_message_id l, tl_task_type l, tl_workflow_id l, tl_stage l, tl_attempt l,
   match recovery_action l with
   | OBSERVE_ONLY => 0 | PUBLISH_STALE_STATUS => 1 | L_REQUEUE => 2 | L_RETRY => 3
   | L_DEAD_LETTER => 4 end)).

Definition lease_untuple (t : string * string * string * string * Z * Z * Z *
    (option string * option string * option string * option string * Z * Z)) : TaskLease :=
  let '(a, b, c, d, e, f, g, (h, i, j, k, l, m)) := t in
  {| lease_id := a; tl_task_id := b; owner_id := c; consumer_name := d; acquired_at := e;
     heartbeat_at := f; expires_at := g; tl_message_id := h; tl_task_type := i;
     tl_workflow_id := j; tl_stage := k; tl_attempt := l;
     recovery_action := if m =? 0 then OBSERVE_ONLY else if m =? 1 then PUBLISH_STALE_STATUS
                        else if m =? 2 then L_REQUEUE else if m =? 3 then L_RETRY
                        else L_DEAD_LETTER |}.

#[export] Instance lease_eq_dec : EqDecision TaskLease.
Proof. solve_decision. Defined.
#[export] Instance lease_countable : Countable TaskLease.
Proof. refine (inj_countable' lease_tuple lease_untuple _). by intros [???????????? []]. Defined.

Definition demo_lease (owner : string) (expires : Z) : TaskLease :=
  {| lease_id := "lease-1"; tl_task_id := "task-1"; owner_id := owner; consumer_name := "worker";
     acquired_at := 0; heartbeat_at := 0; expires_at := expires; tl_message_id := None;
     tl_task_type := None; tl_workflow_id := None; tl_stage := None; tl_attempt := 0;
     recovery_action := OBSERVE_ONLY |}.

Lemma lease_exclusive_witness :
  let m := bits_model TaskLease in
  let r' := (acquire (R := db) "relayna" ∅ 0 (demo_lease "a" (5 * second))).1 in
  get_lease (R := db) "relayna" r' (4 * second) "lease-1" = Ok (Some (demo_lease "a" (5 * second))).
Proof.
  intros m. pose (bits_model_laws TaskLease : @JsonModelLaws TaskLease m) as ml.
  apply (lease_exclusive (R := db) "relayna" ∅ 0 (demo_lease "a" (5 * second)) (4 * second));
    vm_compute; reflexivity.
Defined.

Lemma expired_leases_unreported_witness :
  let m := bits_model TaskLease in
  exists r'', claim_expired (R := db) "relayna"
    (acquire (R := db) "relayna" ∅ 0 (demo_lease "a" (5 * second))).1 (9 * second) None 100
  = Ok (r'', []).
Proof.
  intros m. pose (bits_model_laws TaskLease : @JsonModelLaws TaskLease m) as ml.
  apply (expired_leases_unreported (R := db) "relayna" ∅ _ (9 * second) 100); [reflexivity|].
  apply rtc_once, step_acquire. vm_compute. discriminate.
Defined.

Lemma owner_index_stale_witness :
  let m := bits_model TaskLease in
  list_by_owner (R := db) "relayna"
    (acquire (R := db) "relayna" (acquire (R := db) "relayna" ∅ 0 (demo_lease "a" (5 * second))).1
       (6 * second) (demo_lease "b" (11 * second))).1 (6 * second) "a"
  = Ok [demo_lease "b" (11 * second)].
Proof.
  intros m. pose (bits_model_laws TaskLease : @JsonModelLaws TaskLease m) as ml.
  apply (owner_index_stale (R := db) "relayna" ∅ (demo_lease "a" (5 * second))
    (demo_lease "b" (11 * second)) 0 (6 * second)); [reflexivity..|discriminate|].
  vm_compute. discriminate.
Defined.
