(* ===== verification/PyTime.v ===== *)
(** * Timestamps

    An aware UTC [datetime] is the number of microseconds since the epoch;
    [isoformat] is its standard text and [fromisoformat] reads it back
    ([fromisoformat_isoformat]). *)

From S2P Require Import Prelude PyStr PyVal.
From Stdlib Require Import Ascii.

(** Year, month and day of a day number, in the proleptic Gregorian calendar. *)
Definition civil (days : Z) : Z * Z * Z :=
  let z := days + 719468 in
  let era := z / 146097 in
  let doe := z mod 146097 in
  let yoe := (doe - doe / 1460 + doe / 36524 - doe / 146096) / 365 in
  let doy := doe - (365 * yoe + yoe / 4 - yoe / 100) in
  let mp := (5 * doy + 2) / 153 in
  let d := doy - (153 * mp + 2) / 5 + 1 in
  let m := if mp <? 10 then mp + 3 else mp - 9 in
  (yoe + era * 400 + (if m <=? 2 then 1 else 0), m, d).

(** Decimal digits padded to a width. *)
Fixpoint pad_digits (width : nat) (n : Z) : list ascii :=
  match width with
  | O => []
  | S w => (pad_digits w (n / 10) ++ [chr (48 + n mod 10)])%list
  end.
Definition pad (width : nat) (n : Z) : string := of_chars (pad_digits width n).

(** [dt.isoformat()] *)
Definition isoformat (t : Z) : string :=
  let secs := t / 1000000 in
  let micros := t mod 1000000 in
  let '(y, m, d) := civil (secs / 86400) in
  let s := secs mod 86400 in
  pad 4 y +:+ "-" +:+ pad 2 m +:+ "-" +:+ pad 2 d +:+ "T" +:+
  pad 2 (s / 3600) +:+ ":" +:+ pad 2 (s / 60 mod 60) +:+ ":" +:+ pad 2 (s mod 60) +:+
  (if micros =? 0 then "" else "." +:+ pad 6 micros) +:+ "+00:00".

Example isoformat_2024 : isoformat 1709251199500000 = "2024-02-29T23:59:59.500000+00:00".
Proof. reflexivity. Qed.

(** ** [datetime.fromisoformat] *)

(** A parsed [datetime]: its wall clock in microseconds since the epoch, and the
    offset of its time zone when it is aware. *)
Record pydatetime := PyDatetime { wall : Z; utc_offset : option Z }.

(** The instant of a [datetime], a naive one read as UTC. *)
Definition instant (t : pydatetime) : Z := wall t - from_opt 0 (utc_offset t).

(** [a - b] *)
Definition minus_datetime (a b : pydatetime) : result Z :=
  match utc_offset a, utc_offset b with
  | Some x, Some y => Ok ((wall a - x) - (wall b - y))
  | None, None => Ok (wall a - wall b)
  | _, _ => Raise (type_error "can't subtract offset-naive and offset-aware datetimes")
  end.

Definition leap (y : Z) : bool := (y mod 4 =? 0) && (negb (y mod 100 =? 0) || (y mod 400 =? 0)).
Definition days_in_month (y m : Z) : Z :=
  if m =? 2 then (if leap y then 29 else 28)
  else if (m =? 4) || (m =? 6) || (m =? 9) || (m =? 11) then 30 else 31.

(** The day number of a date. *)
Definition days_from_civil (y m d : Z) : Z :=
  let y := if m <=? 2 then y - 1 else y in
  let doy := (153 * (if m <=? 2 then m + 9 else m - 3) + 2) / 5 + d - 1 in
  let yoe := y mod 400 in
  y / 400 * 146097 + (yoe * 365 + yoe / 4 - yoe / 100 + doy) - 719468.

Definition num2 (a b : ascii) : option Z := x ← digit a; y ← digit b; Some (10 * x + y).

Definition is_sep (c d : ascii) : option unit := if Ascii.eqb c d then Some tt else None.
Definition below (x bound : Z) : option unit := if x <? bound then Some tt else None.

(** The digits of a fraction; those after the sixth are dropped. *)
Fixpoint fraction (unit : Z) (l : list ascii) : option Z :=
  match l with
  | [] => Some 0
  | c :: l => d ← digit c; r ← fraction (unit / 10) l; Some (d * unit + r)
  end.

(** [HH[:MM[:SS[.f+]]]], in microseconds, with the bounds of its fields. *)
Definition parse_clock (hours minutes : Z) (l : list ascii) : option Z :=
  match l with
  | a :: b :: l =>
      h ← num2 a b; _ ← below h hours;
      match l with
      | [] => Some (h * 3600000000)
      | s1 :: c :: d :: l =>
          _ ← is_sep s1 ":"; m ← num2 c d; _ ← below m minutes;
          match l with
          | [] => Some (h * 3600000000 + m * 60000000)
          | s2 :: e :: f :: l =>
              _ ← is_sep s2 ":"; s ← num2 e f; _ ← below s minutes;
              u ← match l with
                  | [] => Some 0
                  | dot :: g :: l =>
                      if Ascii.eqb dot "." || Ascii.eqb dot "," then fraction 100000 (g :: l) else None
                  | _ => None
                  end;
              Some (h * 3600000000 + m * 60000000 + s * 1000000 + u)
          | _ => None
          end
      | _ => None
      end
  | _ => None
  end.

Definition zone_char (c : ascii) : bool := Ascii.eqb c "+" || Ascii.eqb c "-" || Ascii.eqb c "Z".

(** The clock text up to the zone, and the zone. *)
Fixpoint split_zone (l : list ascii) : list ascii * list ascii :=
  match l with
  | [] => ([], [])
  | c :: l => if zone_char c then ([], c :: l) else let (a, z) := split_zone l in (c :: a, z)
  end.

Definition parse_zone (l : list ascii) : option (option Z) :=
  match l with
  | [] => Some None
  | c :: l =>
      if Ascii.eqb c "Z" then match l with [] => Some (Some 0) | _ => None end
      else o ← parse_clock 24 100 l; Some (Some (if Ascii.eqb c "-" then - o else o))
  end.

Definition parse_iso (l : list ascii) : option pydatetime :=
  match l with
  | y1 :: y2 :: y3 :: y4 :: s1 :: m1 :: m2 :: s2 :: d1 :: d2 :: l =>
      yh ← num2 y1 y2; yl ← num2 y3 y4; _ ← is_sep s1 "-"; m ← num2 m1 m2; _ ← is_sep s2 "-";
      d ← num2 d1 d2;
      let y := 100 * yh + yl in
      if (1 <=? y) && (1 <=? m) && (m <=? 12) && (1 <=? d) && (d <=? days_in_month y m) then
        let day := days_from_civil y m d * 86400000000 in
        match l with
        | [] | [_] => Some (PyDatetime day None)
        | _ :: l =>
            let (clock, zone) := split_zone l in
            t ← parse_clock 24 60 clock; z ← parse_zone zone;
            Some (PyDatetime (day + t) z)
        end
      else None
  | _ => None
  end.

(** [datetime.fromisoformat(s)] for the extended formats: a date with dashes and
    a clock with colons.  The week dates and the formats without separators
    that Python also accepts are refused here. *)
Definition fromisoformat (s : string) : result pydatetime :=
  match parse_iso (chars s) with
  | Some t => Ok t
  | None => Raise (value_error ("Invalid isoformat string: " +:+ repr_str s))
  end.

Example fromisoformat_zone :
  instant <$> fromisoformat "2024-02-29T23:59:59.5-01:30" = Ok (1709251199500000 + 5400000000).
Proof. reflexivity. Qed.

(** ** Reading back a timestamp *)

Ltac euclid := Z.to_euclidean_division_equations; lia.

Lemma civil_days days y m d : civil days = (y, m, d) ->
  days_from_civil y m d = days /\ 1 <= m <= 12 /\ 1 <= d <= days_in_month y m.
Proof.
  unfold civil. set (z := days + 719468). set (doe := z mod 146097). cbv zeta.
  assert (0 <= doe < 146097) as Hdoe by (apply Z.mod_pos_bound; lia).
  set (yoe := (doe - doe / 1460 + doe / 36524 - doe / 146096) / 365).
  set (doy := doe - (365 * yoe + yoe / 4 - yoe / 100)).
  assert (0 <= yoe < 400) as Hyoe by (unfold yoe; clearbody doe; euclid).
  assert (0 <= doy <= 365 /\ (doy = 365 -> (yoe + 1) mod 4 = 0 /\ ((yoe + 1) mod 100 <> 0 \/ (yoe + 1) mod 400 = 0)))
    as [Hdoy Hleap].
  { unfold doy, yoe; clearbody doe; clear -Hdoe; split; [euclid|]. intros H. euclid. }
  set (mp := (5 * doy + 2) / 153). assert (0 <= mp <= 11) as Hmp by (unfold mp; clearbody doy; euclid).
  set (era := z / 146097).
  assert (z = 146097 * era + doe) as Hz by (unfold era, doe; apply Z.div_mod; lia).
  intros [= Hy Hm Hd].
  assert (m <=? 2 = (10 <=? mp)) as Hm2 by (destruct (mp <? 10) eqn:E; bool_to_prop; subst m; lia).
  assert ((if m <=? 2 then y - 1 else y) = yoe + era * 400) as Hy' by (subst y; rewrite Hm; destruct (m <=? 2); lia).
  assert ((if m <=? 2 then m + 9 else m - 3) = mp) as Hmp'.
  { rewrite Hm2. destruct (mp <? 10) eqn:E, (10 <=? mp) eqn:E'; bool_to_prop; lia. }
  split; [|split].
  - unfold days_from_civil. cbv zeta. rewrite Hy', Hmp', Z.div_add, Z.mod_add by lia.
    rewrite Z.div_small, Z.mod_small by lia. unfold doy in *. subst z. lia.
  - destruct (mp <? 10) eqn:E; bool_to_prop; lia.
  - assert (d = doy - (153 * mp + 2) / 5 + 1) as Hd' by lia. clear Hd.
    assert (1 <= d <= 31) by (unfold mp in *; clearbody doy; euclid).
    split; [lia|]. unfold days_in_month. destruct (m =? 2) eqn:E2; bool_to_prop.
    + assert (mp = 11) as Hmp11 by (destruct (mp <? 10) eqn:E; bool_to_prop; lia).
      assert (y = (yoe + 1) + era * 100 * 4) as Hyy by (subst m; rewrite E2 in *; cbn in Hy'; lia).
      rewrite Hmp11 in Hd'. change ((153 * 11 + 2) / 5) with 337 in Hd'.
      destruct (leap y) eqn:El; [lia|]. destruct (decide (doy = 365)) as [H365|]; [|lia].
      destruct (Hleap H365) as [H4 H100]. unfold leap in El.
      rewrite Hyy, Z.mod_add in El by lia.
      replace (yoe + 1 + era * 100 * 4) with (yoe + 1 + era * 4 * 100) in El by lia.
      rewrite Z.mod_add in El by lia.
      replace (yoe + 1 + era * 4 * 100) with (yoe + 1 + era * 400) in El by lia.
      rewrite Z.mod_add in El by lia. rewrite H4 in El. cbn [Z.eqb andb] in El. bool_to_prop. lia.
    + destruct ((m =? 4) || (m =? 6) || (m =? 9) || (m =? 11)) eqn:E30; [|lia].
      assert (mp = 1 \/ mp = 3 \/ mp = 6 \/ mp = 8) as Hcase.
      { rewrite !orb_true_iff in E30. destruct (mp <? 10) eqn:E; bool_to_prop; lia. }
      unfold mp in *. clearbody doy. clear -Hcase Hd' Hdoy. euclid.
Qed.

(** *** Digits *)

Lemma digit_chr n : 0 <= n < 10 -> digit (chr (48 + n)) = Some n.
Proof.
  intros H. unfold digit, code, chr. rewrite N_ascii_embedding by lia. rewrite Z2N.id by lia.
  destruct ((48 <=? 48 + n) && (48 + n <=? 57)) eqn:E; [f_equal; lia|].
  apply andb_false_iff in E as [E|E]; bool_to_prop; lia.
Qed.

Lemma digit_not_zone c n : digit c = Some n -> zone_char c = false.
Proof. intros H. destruct c as [[] [] [] [] [] [] [] []]; vm_compute in H |- *; done. Qed.

Lemma num2_pad n : 0 <= n < 100 ->
  exists a b, chars (pad 2 n) = [a; b] /\ num2 a b = Some n /\ zone_char a = false /\ zone_char b = false.
Proof.
  intros H. unfold pad. rewrite chars_of_chars. cbn [pad_digits app].
  eexists _, _. split; [done|].
  assert (digit (chr (48 + n / 10 mod 10)) = Some (n / 10 mod 10)) as Ha by (apply digit_chr; euclid).
  assert (digit (chr (48 + n mod 10)) = Some (n mod 10)) as Hb by (apply digit_chr; euclid).
  unfold num2. rewrite Ha, Hb. split; [|by split; eapply digit_not_zone].
  cbn. f_equal. euclid.
Qed.

Lemma num4_pad n : 0 <= n < 10000 ->
  exists a b c d x y, chars (pad 4 n) = [a; b; c; d] /\ num2 a b = Some x /\ num2 c d = Some y /\ 100 * x + y = n.
Proof.
  intros H. unfold pad. rewrite chars_of_chars. cbn [pad_digits app].
  eexists _, _, _, _, _, _. split; [done|]. unfold num2.
  rewrite !digit_chr by euclid. cbn. split; [done|]. split; [done|]. euclid.
Qed.

Lemma fraction_pad n : 0 <= n < 1000000 ->
  exists g l, chars (pad 6 n) = g :: l /\ fraction 100000 (g :: l) = Some n /\
    Forall (fun c => zone_char c = false) (g :: l).
Proof.
  intros H. unfold pad. rewrite chars_of_chars. cbn [pad_digits app]. eexists _, _. split; [done|].
  split.
  - cbn [fraction]. rewrite !digit_chr by euclid. cbn. f_equal.
    change (100000 / 10) with 10000. change (10000 / 10) with 1000. change (1000 / 10) with 100.
    change (100 / 10) with 10. change (10 / 10) with 1. euclid.
  - repeat constructor; eapply digit_not_zone, digit_chr; euclid.
Qed.

Lemma split_zone_app a z : Forall (fun c => zone_char c = false) a ->
  split_zone (a ++ "+"%char :: z) = (a, "+"%char :: z).
Proof. induction 1 as [|c a Hc _ IH]; [done|]. cbn. by rewrite Hc, IH. Qed.

Lemma below_true x b : x < b -> below x b = Some tt.
Proof. intros H. unfold below. by rewrite (proj2 (Z.ltb_lt x b) H). Qed.

(** The clock of [isoformat]. *)
Lemma clock_pad s u : 0 <= s < 86400 -> 0 <= u < 1000000 ->
  let l := (chars (pad 2 (s / 3600)) ++ ":"%char :: chars (pad 2 (s / 60 mod 60)) ++ ":"%char ::
    chars (pad 2 (s mod 60)) ++ (if (u =? 0)%Z then [] else "."%char :: chars (pad 6 u)))%list in
  parse_clock 24 60 l = Some (s * 1000000 + u) /\ Forall (fun c => zone_char c = false) l.
Proof.
  intros Hs Hu. cbv zeta.
  destruct (num2_pad (s / 3600)) as (a & b & -> & Eh & Z1 & Z2); [euclid|].
  destruct (num2_pad (s / 60 mod 60)) as (c & d & -> & Em & Z3 & Z4); [euclid|].
  destruct (num2_pad (s mod 60)) as (e & f & -> & Es & Z5 & Z6); [euclid|].
  cbn [app]. cbn [parse_clock]. rewrite Eh, Em, Es. cbn [mbind option_bind is_sep Ascii.eqb Bool.eqb].
  rewrite !below_true by euclid. cbn [mbind option_bind].
  destruct (u =? 0) eqn:E; bool_to_prop.
  - cbn [mbind option_bind]. split; [f_equal; subst; euclid|repeat (constructor; try done)].
  - destruct (fraction_pad u Hu) as (g & l & -> & Ef & Hz). rewrite Ef.
    cbn [mbind option_bind orb Ascii.eqb Bool.eqb]. split; [f_equal; euclid|repeat (constructor; try done)].
Qed.

(** The text of an instant of the years 1 to 9999 reads back as that instant, aware,
    in UTC. *)
Lemma fromisoformat_isoformat t :
  -62135596800000000 <= t < 253402300800000000 ->
  fromisoformat (isoformat t) = Ok (PyDatetime t (Some 0)).
Proof.
  intros Ht. unfold fromisoformat, isoformat.
  destruct (civil (t / 1000000 / 86400)) as [[y m] d] eqn:Ec.
  destruct (civil_days _ _ _ _ Ec) as (Hdays & Hm & Hd).
  assert (days_in_month y m <= 31) as Hdim by (unfold days_in_month; repeat case_match; lia).
  assert (1 <= y < 10000) as Hy.
  { unfold days_from_civil in Hdays. destruct (m <=? 2) eqn:E; bool_to_prop; euclid. }
  set (s := t / 1000000 mod 86400). set (u := t mod 1000000).
  assert (0 <= s < 86400) as Hs by (unfold s; apply Z.mod_pos_bound; lia).
  assert (0 <= u < 1000000) as Hu by (unfold u; apply Z.mod_pos_bound; lia).
  destruct (clock_pad s u Hs Hu) as [Hclock Hz].
  rewrite !chars_app. destruct (num4_pad y) as (a & b & c & e & yh & yl & -> & E1 & E2 & Eyy); [lia|].
  destruct (num2_pad m) as (m1 & m2 & -> & Em & _ & _); [lia|].
  destruct (num2_pad d) as (d1 & d2 & -> & Ed & _ & _); [lia|].
  cbn [app chars String.list_ascii_of_string parse_iso].
  rewrite E1, E2, Em, Ed. cbn [mbind option_bind is_sep Ascii.eqb Bool.eqb]. rewrite Eyy.
  destruct ((1 <=? y) && _ && _ && _ && _) eqn:Eok.
  2: { rewrite !andb_false_iff in Eok. exfalso. bool_to_prop. destruct Eok as [[[[?|?]|?]|?]|?]; bool_to_prop; lia. }
  match goal with |- context [split_zone ?l] =>
    replace l with ((chars (pad 2 (s / 3600)) ++ ":"%char :: chars (pad 2 (s / 60 mod 60)) ++ ":"%char ::
      chars (pad 2 (s mod 60)) ++ (if (u =? 0)%Z then [] else "."%char :: chars (pad 6 u)))
      ++ "+"%char :: ["0"; "0"; ":"; "0"; "0"]%char)%list end.
  2: { destruct (u =? 0); rewrite ?chars_app; cbn; by rewrite <- ?app_assoc; cbn; rewrite <- ?app_assoc. }
  rewrite split_zone_app by done. rewrite Hclock. cbn. rewrite Hdays. do 2 f_equal.
  unfold s, u. euclid.
Qed.
