(* ===== verification/DlqModels.v ===== *)
(** * Dead-letter records (dlq/models.py)

    The record a consumer persists when it dead-letters a message: the body
    it inspects, the id it derives and the diagnosis it attaches. *)

From stdpp Require Import countable.
From S2P Require Import Prelude PyStr PyVal PyTime Sha256 Transport Codec.

(** [DLQRecordState], relayna/dlq/models.py:17-19. *)
Inductive DLQRecordState := DEAD_LETTERED | REPLAYED.
(** [FailedTaskInvestigationStatus], relayna/dlq/models.py:22-24. *)
Inductive FailedTaskInvestigationStatus := UNREVIEWED | INVESTIGATED.
(** [FailedTaskRetryStatus], relayna/dlq/models.py:27-29. *)
Inductive FailedTaskRetryStatus := NOT_RETRIED | RETRIED.

#[export] Instance dlq_state_eq_dec : EqDecision DLQRecordState.
Proof. solve_decision. Defined.
#[export] Instance investigation_eq_dec : EqDecision FailedTaskInvestigationStatus.
Proof. solve_decision. Defined.
#[export] Instance retry_status_eq_dec : EqDecision FailedTaskRetryStatus.
Proof. solve_decision. Defined.

(** [DLQFailureDiagnosis], relayna/dlq/models.py:32-71, and the other parts of
    [DLQDiagnosisBundle].  The five parts in one record, a
    field per leaf. *)
Record DLQDiagnosisBundle := {
  dg_reason : string;
  dg_exception_type : option string;
  dg_terminal_retry_attempt : Z;
  dg_attempt : Z;
  dg_max_retries : Z;
  dg_source_queue_name : string;
  dg_retry_queue_name : string;
  dg_policy_name : option string;
  dg_policy_reason : option string;
  dg_consumer_name : option string;
  dg_task_id : option string;
  dg_correlation_id : option string;
  dg_task_type : option string;
  dg_workflow_stage : option string;
  dg_action : option string;
  dg_content_type : option string;
  dg_body_encoding : string;
  dg_recommended_action : string;
  dg_warnings : list string }.

(** [DLQRecord], relayna/dlq/models.py:80-124. *)
Record DLQRecord := {
  dr_dlq_id : string;
  dr_failure_id : option string;
  dr_queue_name : string;
  dr_source_queue_name : string;
  dr_retry_queue_name : string;
  dr_task_id : option string;
  dr_correlation_id : option string;
  dr_service_name : option string;
  dr_reason : string;
  dr_exception_type : option string;
  dr_exception_message : option string;
  dr_retry_attempt : Z;
  dr_max_retries : Z;
  dr_headers : pydict;
  dr_content_type : option string;
  dr_body : pyval;
  dr_body_encoding : string;
  dr_raw_body_b64 : string;
  dr_dead_lettered_at : Z;
  dr_state : DLQRecordState;
  dr_replay_count : Z;
  dr_replayed_at : option Z;
  dr_replay_target_queue_name : option string;
  dr_diagnosis : option DLQDiagnosisBundle;
  dr_failed_at : option Z;
  dr_status : string;
  dr_traceback : option string;
  dr_worker_id : option string;
  dr_runtime_name : option string;
  dr_runtime_version : option string;
  dr_input_preview : pyval;
  dr_metadata : pydict;
  dr_last_logs : list pydict;
  dr_payload_available : bool;
  dr_investigation_status : FailedTaskInvestigationStatus;
  dr_investigated_at : option Z;
  dr_investigated_by : option string;
  dr_investigation_note : option string;
  dr_retry_status : FailedTaskRetryStatus;
  dr_retried_at : option Z;
  dr_retried_by : option string;
  dr_retried_task_id : option string;
  dr_retry_target_queue : option string;
  dr_retry_note : option string }.

(** [_string_or_none], relayna/dlq/models.py:463-467. *)
Definition dlq_string_or_none (value : pyval) : option string :=
  match value with PNone => None | v => nonempty (strip (py_str v)) end.

(** [build_dlq_id], relayna/dlq/models.py:299-315. *)
Definition build_dlq_id (queue_name source_queue_name : string) (correlation_id : option string)
    (retry_attempt : Z) (body : string) (dead_lettered_at : Z) : string :=
  Sha256.hexdigest (utf8 queue_name +:+ utf8 source_queue_name +:+
    utf8 (from_opt "" correlation_id) +:+ pretty retry_attempt +:+
    isoformat dead_lettered_at +:+ body).

(** [_diagnose_envelope], relayna/dlq/models.py:441-460. *)
Definition diagnose_envelope (inspected_body : pyval) :
    option string * option string * option string :=
  match inspected_body with
  | PDict d => (dlq_string_or_none (dgetv "task_type" d), dlq_string_or_none (dgetv "stage" d),
                dlq_string_or_none (dgetv "action" d))
  | _ => (None, None, None)
  end.

(** [build_dlq_diagnosis], relayna/dlq/models.py:413-417. *)
Definition replay_warnings (reason : string) (retry_attempt max_retries : Z) : list string :=
  ((if str_in reason ["malformed_json"; "invalid_envelope"; "unsupported_action"; "dedup_conflict"]
    then ["Replay may fail again until '" +:+ reason +:+ "' is resolved."] else [])
   ++ (if max_retries <=? retry_attempt
       then ["Message reached the configured retry limit."] else []))%list.

(** [build_dlq_diagnosis], relayna/dlq/models.py:393-438. *)
Definition build_dlq_diagnosis (source_queue_name retry_queue_name : string)
    (task_id correlation_id : option string) (reason : string) (exception_type : option string)
    (retry_attempt max_retries : Z) (content_type : option string) (inspected_body : pyval)
    (body_encoding : string) (consumer_name : option string) : DLQDiagnosisBundle :=
  let '(task_type, workflow_stage, action) := diagnose_envelope inspected_body in
  {| dg_reason := reason; dg_exception_type := exception_type;
     dg_terminal_retry_attempt := retry_attempt; dg_attempt := retry_attempt;
     dg_max_retries := max_retries; dg_source_queue_name := source_queue_name;
     dg_retry_queue_name := retry_queue_name; dg_policy_name := None;
     dg_policy_reason := Some reason; dg_consumer_name := consumer_name; dg_task_id := task_id;
     dg_correlation_id := correlation_id; dg_task_type := task_type;
     dg_workflow_stage := workflow_stage; dg_action := action; dg_content_type := content_type;
     dg_body_encoding := body_encoding; dg_recommended_action := "review_before_replay";
     dg_warnings := replay_warnings reason retry_attempt max_retries |}.

Section inspect.
Context `{Transport}.

(** [inspect_dead_letter_body], relayna/dlq/models.py:286-296. *)
Definition inspect_dead_letter_body (body : string) : result (pyval * string * string) :=
  let raw_body_b64 := b64encode body in
  match utf8_decode body with
  | None => Ok (PStr raw_body_b64, "base64", raw_body_b64)
  | Some decoded =>
      match json_loads decoded with
      | Ok v => Ok (v, "json", raw_body_b64)
      | Raise e => if String.eqb (exn_type e) "JSONDecodeError"
                   then Ok (PStr decoded, "text", raw_body_b64) else Raise e
      end
  end.

(** [build_dlq_record], relayna/dlq/models.py:318-390.  [now] is read by [_utcnow()]; the
    consumers pass neither a timestamp, a diagnosis, a traceback nor metadata. *)
Definition build_dlq_record (now : Z) (queue_name source_queue_name retry_queue_name : string)
    (task_id correlation_id : option string) (reason : string) (exception_type : option string)
    (retry_attempt max_retries : Z) (headers : pydict) (content_type : option string)
    (body : string) (consumer_name exception_message : option string) : result DLQRecord :=
  '(inspected_body, body_encoding, raw_body_b64) ← inspect_dead_letter_body body;
  let dlq_id := build_dlq_id queue_name source_queue_name correlation_id retry_attempt body now in
  Ok {| dr_dlq_id := dlq_id; dr_failure_id := Some dlq_id; dr_queue_name := queue_name;
        dr_source_queue_name := source_queue_name; dr_retry_queue_name := retry_queue_name;
        dr_task_id := task_id; dr_correlation_id := correlation_id;
        dr_service_name := consumer_name; dr_reason := reason;
        dr_exception_type := exception_type; dr_exception_message := exception_message;
        dr_retry_attempt := retry_attempt; dr_max_retries := max_retries; dr_headers := headers;
        dr_content_type := content_type; dr_body := inspected_body;
        dr_body_encoding := body_encoding; dr_raw_body_b64 := raw_body_b64;
        dr_dead_lettered_at := now; dr_state := DEAD_LETTERED; dr_replay_count := 0;
        dr_replayed_at := None; dr_replay_target_queue_name := None;
        dr_diagnosis := Some (build_dlq_diagnosis source_queue_name retry_queue_name task_id
          correlation_id reason exception_type retry_attempt max_retries content_type
          inspected_body body_encoding consumer_name);
        dr_failed_at := Some now; dr_status := "DLQ"; dr_traceback := None;
        dr_worker_id := consumer_name; dr_runtime_name := Some "relayna-worker";
        dr_runtime_version := None; dr_input_preview := inspected_body; dr_metadata := [];
        dr_last_logs := []; dr_payload_available := true;
        dr_investigation_status := UNREVIEWED; dr_investigated_at := None;
        dr_investigated_by := None; dr_investigation_note := None;
        dr_retry_status := NOT_RETRIED; dr_retried_at := None; dr_retried_by := None;
        dr_retried_task_id := None; dr_retry_target_queue := None; dr_retry_note := None |}.

(** A record keeps the body: whatever the body's encoding, the raw text decodes
    back to the bytes that were dead-lettered. *)
Lemma build_dlq_record_body now q s r tid cid reason et a m h ct body cn em rec :
  build_dlq_record now q s r tid cid reason et a m h ct body cn em = Ok rec ->
  b64decode (dr_raw_body_b64 rec) = Some body /\ dr_headers rec = h /\ dr_state rec = DEAD_LETTERED /\
  dr_retry_attempt rec = a /\ dr_source_queue_name rec = s /\ dr_queue_name rec = q.
Proof.
  unfold build_dlq_record. intros Hb.
  apply result_bind_ok in Hb as ([[v enc] raw] & Hi & Hb). injection Hb as <-. cbn.
  split_and!; try done. assert (raw = b64encode body) as ->.
  { unfold inspect_dead_letter_body in Hi. repeat case_hyp Hi; congruence. }
  apply b64_roundtrip.
Qed.

End inspect.

(** ** Records have a codec *)

#[export] Instance dlq_state_countable : Countable DLQRecordState.
Proof.
  refine (inj_countable' (fun s => match s with DEAD_LETTERED => true | REPLAYED => false end)
    (fun b : bool => if b then DEAD_LETTERED else REPLAYED) _). by intros [].
Defined.
#[export] Instance investigation_countable : Countable FailedTaskInvestigationStatus.
Proof.
  refine (inj_countable' (fun s => match s with UNREVIEWED => true | INVESTIGATED => false end)
    (fun b : bool => if b then UNREVIEWED else INVESTIGATED) _). by intros [].
Defined.
#[export] Instance retry_status_countable : Countable FailedTaskRetryStatus.
Proof.
  refine (inj_countable' (fun s => match s with NOT_RETRIED => true | RETRIED => false end)
    (fun b : bool => if b then NOT_RETRIED else RETRIED) _). by intros [].
Defined.

Definition diagnosis_tuple (r : DLQDiagnosisBundle) :=
  ((dg_reason r, dg_exception_type r, dg_terminal_retry_attempt r, dg_attempt r, dg_max_retries r,
    dg_source_queue_name r, dg_retry_queue_name r, dg_policy_name r, dg_policy_reason r),
   (dg_consumer_name r, dg_task_id r, dg_correlation_id r, dg_task_type r, dg_workflow_stage r,
    dg_action r, dg_content_type r, dg_body_encoding r, dg_recommended_action r),
   (dg_warnings r)).
Definition diagnosis_untuple (t : ltac:(let t := type of diagnosis_tuple in match t with
    DLQDiagnosisBundle -> ?T => exact T end)) : DLQDiagnosisBundle :=
  let '((x0, x1, x2, x3, x4, x5, x6, x7, x8), (x9, x10, x11, x12, x13, x14, x15, x16, x17), (x18))
    := t in
  {| dg_reason := x0; dg_exception_type := x1; dg_terminal_retry_attempt := x2; dg_attempt := x3;
    dg_max_retries := x4; dg_source_queue_name := x5; dg_retry_queue_name := x6; dg_policy_name := x7;
    dg_policy_reason := x8; dg_consumer_name := x9; dg_task_id := x10; dg_correlation_id := x11;
    dg_task_type := x12; dg_workflow_stage := x13; dg_action := x14; dg_content_type := x15;
    dg_body_encoding := x16; dg_recommended_action := x17; dg_warnings := x18 |}.
#[export] Instance diagnosis_eq_dec : EqDecision DLQDiagnosisBundle.
Proof. solve_decision. Defined.
#[export] Instance diagnosis_countable : Countable DLQDiagnosisBundle.
Proof. refine (inj_countable' diagnosis_tuple diagnosis_untuple _). by intros []. Defined.

Definition dlq_record_tuple (r : DLQRecord) :=
  ((dr_dlq_id r, dr_failure_id r, dr_queue_name r, dr_source_queue_name r, dr_retry_queue_name r,
    dr_task_id r, dr_correlation_id r, dr_service_name r, dr_reason r),
   (dr_exception_type r, dr_exception_message r, dr_retry_attempt r, dr_max_retries r, dr_headers
    r, dr_content_type r, dr_body r, dr_body_encoding r, dr_raw_body_b64 r),
   (dr_dead_lettered_at r, dr_state r, dr_replay_count r, dr_replayed_at r,
    dr_replay_target_queue_name r, dr_diagnosis r, dr_failed_at r, dr_status r, dr_traceback r),
   (dr_worker_id r, dr_runtime_name r, dr_runtime_version r, dr_input_preview r, dr_metadata r,
    dr_last_logs r, dr_payload_available r, dr_investigation_status r, dr_investigated_at r),
   (dr_investigated_by r, dr_investigation_note r, dr_retry_status r, dr_retried_at r,
    dr_retried_by r, dr_retried_task_id r, dr_retry_target_queue r, dr_retry_note r)).
Definition dlq_record_untuple (t : ltac:(let t := type of dlq_record_tuple in match t with
    DLQRecord -> ?T => exact T end)) : DLQRecord :=
  let '((x0, x1, x2, x3, x4, x5, x6, x7, x8), (x9, x10, x11, x12, x13, x14, x15, x16, x17), (x18,
    x19, x20, x21, x22, x23, x24, x25, x26), (x27, x28, x29, x30, x31, x32, x33, x34, x35), (x36, x37,
    x38, x39, x40, x41, x42, x43)) := t in
  {| dr_dlq_id := x0; dr_failure_id := x1; dr_queue_name := x2; dr_source_queue_name := x3;
    dr_retry_queue_name := x4; dr_task_id := x5; dr_correlation_id := x6; dr_service_name := x7;
    dr_reason := x8; dr_exception_type := x9; dr_exception_message := x10; dr_retry_attempt := x11;
    dr_max_retries := x12; dr_headers := x13; dr_content_type := x14; dr_body := x15; dr_body_encoding
    := x16; dr_raw_body_b64 := x17; dr_dead_lettered_at := x18; dr_state := x19; dr_replay_count :=
    x20; dr_replayed_at := x21; dr_replay_target_queue_name := x22; dr_diagnosis := x23; dr_failed_at
    := x24; dr_status := x25; dr_traceback := x26; dr_worker_id := x27; dr_runtime_name := x28;
    dr_runtime_version := x29; dr_input_preview := x30; dr_metadata := x31; dr_last_logs := x32;
    dr_payload_available := x33; dr_investigation_status := x34; dr_investigated_at := x35;
    dr_investigated_by := x36; dr_investigation_note := x37; dr_retry_status := x38; dr_retried_at :=
    x39; dr_retried_by := x40; dr_retried_task_id := x41; dr_retry_target_queue := x42; dr_retry_note
    := x43 |}.
#[export] Instance dlq_record_eq_dec : EqDecision DLQRecord.
Proof. solve_decision. Defined.
#[export] Instance dlq_record_countable : Countable DLQRecord.
Proof. refine (inj_countable' dlq_record_tuple dlq_record_untuple _). by intros []. Defined.

