(* ===== verification/DlqStore.v ===== *)
(** * The dead-letter index (dlq/store.py)

    [RedisDLQStore]: records under their ids, the list of ids newest first, the
    failed-task index scored by failure time, and the replay lock.  The listings
    read Redis chunk by chunk; [list_records_page] and [list_failed_page] say
    what they return, [paging_is_complete] that following the cursors visits
    every record once.  As in [LeaseStore], a score is a time in microseconds. *)

From stdpp Require Import countable.
From S2P Require Import Prelude PyStr PyVal Codec Contracts Redis RedisProg Transport DlqModels.

(** ** Scanning in chunks *)

Section scan.
Context {St A Out : Type} (go_on : St -> bool) (step : St -> A -> St + Out).

Fixpoint scan (s : St) (l : list A) : St + Out :=
  match l with
  | [] => inl s
  | a :: l => match step s a with inl s => scan s l | inr o => inr o end
  end.

(** [while go_on: ids = fetch(offset); if not ids: break; ...; if len(ids) < chunk: break] *)
(** [list_records], relayna/dlq/store.py:146-175. *)
Fixpoint chunked (fuel : nat) (fetch : nat -> result (list A)) (chunk offset : nat) (s : St) :
    result (St + Out) :=
  match fuel with
  | O => Ok (inl s)
  | S fuel =>
      if negb (go_on s) then Ok (inl s) else
      page ← fetch offset;
      match page with
      | [] => Ok (inl s)
      | _ => match scan s page with
             | inr o => Ok (inr o)
             | inl s => if (length page <? chunk)%nat then Ok (inl s)
                        else chunked fuel fetch chunk (offset + length page) s
             end
      end
  end.

Hypothesis step_go_on : forall s a s', step s a = inl s' -> go_on s = true -> go_on s' = true.

Lemma scan_go_on s l s' : scan s l = inl s' -> go_on s = true -> go_on s' = true.
Proof.
  revert s. induction l as [|a l IH]; intros s; cbn; [by intros [= ->]|].
  destruct (step s a) as [s1|] eqn:E; [|done]. intros H Hs. by eapply IH, step_go_on.
Qed.

Lemma scan_app s l1 l2 : scan s (l1 ++ l2) =
  match scan s l1 with inl s' => scan s' l2 | inr o => inr o end.
Proof. revert s. induction l1 as [|a l IH]; intros s; cbn; [done|]. by destruct (step s a). Qed.

(** Chunk by chunk or in one go, the scan ends alike. *)
Lemma chunked_scan l fuel fetch chunk offset s : (0 < chunk)%nat -> go_on s = true ->
  (forall offset, fetch offset = Ok (take chunk (drop offset l))) ->
  (length l - offset < fuel)%nat ->
  chunked fuel fetch chunk offset s = Ok (scan s (drop offset l)).
Proof.
  intros Hc Hs Hf. revert offset s Hs. induction fuel as [|fuel IH]; intros offset s Hs Hfuel; [lia|].
  cbn [chunked]. rewrite Hs, Hf. cbn [negb mbind result_bind]. remember (drop offset l) as rest eqn:Er.
  assert (length rest = length l - offset)%nat as Hlen by (subst; apply length_drop).
  destruct (take chunk rest) as [|a page] eqn:Ep.
  { destruct rest as [|b rest]; [done|]. destruct chunk; [lia|done]. }
  rewrite <- (take_drop chunk rest) at 1. rewrite Ep, scan_app.
  destruct (scan s (a :: page)) as [s'|o] eqn:Es; [|done].
  assert (length (a :: page) = Nat.min chunk (length rest)) as Hpage by (rewrite <- Ep; apply length_take).
  destruct (length (a :: page) <? chunk)%nat eqn:El.
  - apply Nat.ltb_lt in El. rewrite drop_ge by lia. done.
  - apply Nat.ltb_ge in El. rewrite Er, drop_drop.
    assert (length (a :: page) = chunk) as -> by lia. apply IH; [by eapply scan_go_on|].
    cbn in Hpage. lia.
Qed.
End scan.

(** ** The store *)

(** [DLQReplayConflict], relayna/dlq/models.py:273-276. *)
Definition replay_conflict (dlq_id : string) (detail : option string) : exn :=
  Exn XReplayConflict "DLQReplayConflict"
    (from_opt ("DLQ message '" +:+ dlq_id +:+ "' has already been replayed.") detail).

(** [DLQRecordState(state)]. *)
Definition parse_state (s : string) : result DLQRecordState :=
  if String.eqb s "dead_lettered" then Ok DEAD_LETTERED
  else if String.eqb s "replayed" then Ok REPLAYED
  else Raise (value_error ("'" +:+ s +:+ "' is not a valid DLQRecordState")).

(** [if wanted and value != wanted: continue] *)
(** [_failed_record_matches], relayna/dlq/store.py:363-364. *)
Definition passes (wanted value : option string) : bool :=
  negb (opt_truthy wanted) || bool_decide (value = wanted).

(** [_failed_score], relayna/dlq/store.py:347-348. *)
Definition failed_score (record : DLQRecord) : Z :=
  from_opt (dr_dead_lettered_at record) (dr_failed_at record).

(** The filters of [list_failed_task_records]. *)
Record failed_filter := {
  ff_service_name : option string;
  ff_queue_name : option string;
  ff_dlq_name : option string;
  ff_error_type : option string;
  ff_status : option string;
  ff_task_id : option string;
  ff_worker_id : option string;
  ff_investigation_status : option FailedTaskInvestigationStatus }.

(** [_failed_record_matches], relayna/dlq/store.py:351-379. *)
Definition failed_record_matches (f : failed_filter) (record : DLQRecord) : bool :=
  passes (ff_service_name f) (dr_service_name record) &&
  passes (ff_queue_name f) (Some (dr_source_queue_name record)) &&
  passes (ff_dlq_name f) (Some (dr_queue_name record)) &&
  passes (ff_error_type f) (dr_exception_type record) &&
  passes (ff_status f) (Some (dr_status record)) &&
  passes (ff_task_id f) (dr_task_id record) &&
  passes (ff_worker_id f) (dr_worker_id record) &&
  match ff_investigation_status f with
  | None => true
  | Some s => bool_decide (dr_investigation_status record = s)
  end.

(** A page of at most [n] of the matching records, and the cursor to go on
    from. *)
Definition page_of (n : nat) (records : list DLQRecord) : list DLQRecord * option string :=
  (take n records,
   if (n <? length records)%nat then dr_dlq_id <$> records !! (n - 1)%nat else None).

Section store.
Context {R : Type} `{Redis R} `{JsonModel DLQRecord}.
Context (prefix : string) (ttl_seconds : option Z).

(** [record_key], relayna/dlq/store.py:82-83. *)
Definition record_key (dlq_id : string) : string := redis_key prefix "dlq" ["dlq"; "record"; dlq_id].
(** [records_key], relayna/dlq/store.py:85-86. *)
Definition records_key : string := redis_key prefix "dlq" ["dlq"; "records"].
(** [failed_tasks_index_key], relayna/dlq/store.py:88-89. *)
Definition failed_tasks_index_key : string := redis_key prefix "dlq" ["failed_tasks"; "index"].
(** [replay_lock_key], relayna/dlq/store.py:91-92. *)
Definition replay_lock_key (dlq_id : string) : string :=
  redis_key prefix "dlq" ["dlq"; "replay-lock"; dlq_id].

(** [add], relayna/dlq/store.py:94-103. *)
Definition add (now : Z) (record : DLQRecord) : P R unit :=
  await_ (fun r =>
    let r := rset r now (record_key (dr_dlq_id record)) (dump_json record) ttl_seconds in
    let r := rlpush r now records_key (dr_dlq_id record) in
    let r := rzadd r now failed_tasks_index_key (dr_dlq_id record) (failed_score record) in
    match ttl_seconds with
    | Some s => if s =? 0 then r else
        rexpire (rexpire r now records_key s) now failed_tasks_index_key s
    | None => r
    end).

(** The record of a reply. *)
Definition decode (payload : option string) : result (option DLQRecord) :=
  match payload with
  | None => Ok None
  | Some p => record ← validate_json p; Ok (Some record)
  end.

(** [get], relayna/dlq/store.py:105-109. *)
Definition get (now : Z) (dlq_id : string) : P R (option DLQRecord) :=
  payload ← await_read (fun r => rget r now (record_key dlq_id));
  liftP (decode payload).

(** [_get_many], relayna/dlq/store.py:111-118. *)
Definition get_many (r : R) (now : Z) (ids : list string) : result (list (string * option DLQRecord)) :=
  mapM_result (fun id => record ← decode (rget r now (record_key id)); Ok (id, record)) ids.

(** One record of a listing: add it to the page, or leave with the page. *)
(** [list_records], relayna/dlq/store.py:155-171. *)
Definition page_step (n : nat) (matches : DLQRecord -> bool) (items : list DLQRecord)
    (entry : string * option DLQRecord) :
    list DLQRecord + (list DLQRecord * option string) :=
  match entry.2 with
  | None => inl items
  | Some record =>
      if negb (matches record) then inl items
      else
        let items := (items ++ [record])%list in
        if (n <? length items)%nat
        then inr (take n items, dr_dlq_id <$> items !! (n - 1)%nat)
        else inl items
  end.

Definition page_size (limit : Z) : nat := Z.to_nat (Z.max 1 limit).
Definition chunk_size (limit : Z) : nat := Z.to_nat (Z.max 100 (Z.max 1 limit * 2)).

(** [normalized_state], as the test of a record's state.  An empty text is not
    parsed, and no state equals it. *)
(** [list_records], relayna/dlq/store.py:140-140. *)
Definition state_filter (state : option string) : result (DLQRecord -> bool) :=
  match state with
  | None => Ok (fun _ => true)
  | Some s => if String.eqb s "" then Ok (fun _ => false)
              else st ← parse_state s; Ok (fun record => bool_decide (dr_state record = st))
  end.

(** [list_records], relayna/dlq/store.py:158-167. *)
Definition listed (queue_name task_id reason source_queue_name : option string)
    (state_matches : DLQRecord -> bool) (record : DLQRecord) : bool :=
  passes queue_name (Some (dr_queue_name record)) && passes task_id (dr_task_id record) &&
  passes reason (Some (dr_reason record)) &&
  passes source_queue_name (Some (dr_source_queue_name record)) && state_matches record.

(** [list_records], relayna/dlq/store.py:131-138. *)
Definition start_index (r : R) (now : Z) (cursor : option string) : Z :=
  match cursor with
  | Some c => if String.eqb c "" then 0
              else match rlpos r now records_key c with Some p => p + 1 | None => 0 end
  | None => 0
  end.

(** The page a scan leaves with. *)
Definition page_result (out : list DLQRecord + (list DLQRecord * option string)) :
    list DLQRecord * option string :=
  match out with inl items => (items, None) | inr page => page end.

(** [list_records], relayna/dlq/store.py:120-175.  The reads of one listing see one state;
    the fuel is enough for every id of the list. *)
Definition list_records (r : R) (now : Z) (queue_name task_id reason source_queue_name : option string)
    (state : option string) (cursor : option string) (limit : Z) :
    result (list DLQRecord * option string) :=
  state_matches ← state_filter state;
  let matches := listed queue_name task_id reason source_queue_name state_matches in
  let n := page_size limit in
  let chunk := chunk_size limit in
  out ← chunked (fun items : list DLQRecord => (length items <=? n)%nat) (page_step n matches)
    (S (length (rlrange r now records_key 0 (-1))))
    (fun offset => get_many r now
       (rlrange r now records_key (Z.of_nat offset) (Z.of_nat offset + Z.of_nat chunk - 1)))
    chunk (Z.to_nat (start_index r now cursor)) [];
  Ok (page_result out).

(** State of the failed-task listing: what follows the cursor, what precedes
    it, and whether it was met. *)
(** [list_failed_task_records], relayna/dlq/store.py:201-206. *)
Record failed_scan := { fs_items : list DLQRecord; fs_head : list DLQRecord; fs_found : bool }.

(** [list_failed_task_records], relayna/dlq/store.py:222-256. *)
Definition failed_step (n : nat) (matches : DLQRecord -> bool) (cursor : option string)
    (s : failed_scan) (entry : string * option DLQRecord) :
    failed_scan + (list DLQRecord * option string) :=
  if negb (fs_found s) then
    let head := match entry.2 with
                | Some record => if (length (fs_head s) <=? n)%nat && matches record
                                 then (fs_head s ++ [record])%list else fs_head s
                | None => fs_head s
                end in
    inl {| fs_items := fs_items s; fs_head := head;
           fs_found := bool_decide (Some entry.1 = cursor) |}
  else match page_step n matches (fs_items s) entry with
       | inl items => inl {| fs_items := items; fs_head := fs_head s; fs_found := true |}
       | inr page => inr page
       end.

(** [list_failed_task_records], relayna/dlq/store.py:177-266.  [investigation_status] is
    already an enum member. *)
Definition list_failed_task_records (r : R) (now : Z) (f : failed_filter)
    (failed_from failed_to : option Z) (cursor : option string) (limit : Z) :
    result (list DLQRecord * option string) :=
  let n := page_size limit in
  let chunk := chunk_size limit in
  out ← chunked (fun s => (length (fs_items s) <=? n)%nat)
    (failed_step n (failed_record_matches f) cursor)
    (S (Z.to_nat (rzcard r now failed_tasks_index_key)))
    (fun offset => get_many r now
       (rzrevrangebyscore r now failed_tasks_index_key failed_to failed_from offset chunk))
    chunk 0 {| fs_items := []; fs_head := []; fs_found := match cursor with None => true | _ => false end |};
  Ok (match out with
      | inr page => page
      | inl s =>
          if negb (fs_found s) then
            if (n <? length (fs_head s))%nat
            then (take n (fs_head s), dr_dlq_id <$> fs_head s !! (n - 1)%nat) else (fs_head s, None)
          else (fs_items s, None)
      end).

(** One record of the summary: its queue's count and latest time. *)
(** [summarize_queues], relayna/dlq/store.py:275-280. *)
Definition summarize (s : dict Z * dict Z) (record : DLQRecord) : dict Z * dict Z :=
  let q := dr_queue_name record in
  (dset q (from_opt 0 (dget q s.1) + 1) s.1,
   match dget q s.2 with
   | Some previous => if previous <? dr_dead_lettered_at record
                      then dset q (dr_dead_lettered_at record) s.2 else s.2
   | None => dset q (dr_dead_lettered_at record) s.2
   end).

(** [for start in range(0, len(ids), 500)] *)
(** [summarize_queues], relayna/dlq/store.py:273-280. *)
Fixpoint summarize_chunks (fuel : nat) (r : R) (now : Z) (ids : list string) (s : dict Z * dict Z) :
    result (dict Z * dict Z) :=
  match fuel, ids with
  | S fuel, _ :: _ =>
      records ← get_many r now (take 500 ids);
      summarize_chunks fuel r now (drop 500 ids) (foldl summarize s (omap snd records))
  | _, _ => Ok s
  end.

(** [summarize_queues], relayna/dlq/store.py:268-281. *)
Definition summarize_queues (r : R) (now : Z) : result (list (string * Z * option Z)) :=
  let ids := rlrange r now records_key 0 (-1) in
  '(counts, latest) ← summarize_chunks (length ids) r now ids ([], []);
  Ok (map (fun q => (q, from_opt 0 (dget q counts), dget q latest)) (sorted_strs (dkeys counts))).

(** [release_replay_claim], relayna/dlq/store.py:299-300. *)
Definition release_replay_claim (now : Z) (dlq_id : string) : P R unit :=
  await_ (fun r => (rdel r now (replay_lock_key dlq_id)).1).

(** [claim_replay], relayna/dlq/store.py:283-297. *)
Definition claim_replay (now : Z) (dlq_id : string) (force : bool) : P R (option DLQRecord) :=
  lock_acquired ← await (fun r => rset_nx r now (replay_lock_key dlq_id) "1" (Some 30));
  if negb lock_acquired
  then liftP (Raise (replay_conflict dlq_id (Some "DLQ replay is already in progress.")))
  else
    reraising
      (record ← get now dlq_id;
       match record with
       | None => mret None
       | Some rec =>
           if bool_decide (dr_state rec = REPLAYED) && negb force
           then liftP (Raise (replay_conflict dlq_id None))
           else mret (Some rec)
       end)
      (release_replay_claim now dlq_id).

(** [record.model_copy(update={...})] of [mark_replayed]. *)
(** [mark_replayed], relayna/dlq/store.py:312-319. *)
Definition as_replayed (record : DLQRecord) (replayed_at : Z) (target_queue_name : string) : DLQRecord :=
  {| dr_dlq_id := dr_dlq_id record; dr_failure_id := dr_failure_id record;
     dr_queue_name := dr_queue_name record; dr_source_queue_name := dr_source_queue_name record;
     dr_retry_queue_name := dr_retry_queue_name record; dr_task_id := dr_task_id record;
     dr_correlation_id := dr_correlation_id record; dr_service_name := dr_service_name record;
     dr_reason := dr_reason record; dr_exception_type := dr_exception_type record;
     dr_exception_message := dr_exception_message record;
     dr_retry_attempt := dr_retry_attempt record; dr_max_retries := dr_max_retries record;
     dr_headers := dr_headers record; dr_content_type := dr_content_type record;
     dr_body := dr_body record; dr_body_encoding := dr_body_encoding record;
     dr_raw_body_b64 := dr_raw_body_b64 record; dr_dead_lettered_at := dr_dead_lettered_at record;
     dr_state := REPLAYED; dr_replay_count := dr_replay_count record + 1;
     dr_replayed_at := Some replayed_at; dr_replay_target_queue_name := Some target_queue_name;
     dr_diagnosis := dr_diagnosis record; dr_failed_at := dr_failed_at record;
     dr_status := dr_status record; dr_traceback := dr_traceback record;
     dr_worker_id := dr_worker_id record; dr_runtime_name := dr_runtime_name record;
     dr_runtime_version := dr_runtime_version record; dr_input_preview := dr_input_preview record;
     dr_metadata := dr_metadata record; dr_last_logs := dr_last_logs record;
     dr_payload_available := dr_payload_available record;
     dr_investigation_status := dr_investigation_status record;
     dr_investigated_at := dr_investigated_at record;
     dr_investigated_by := dr_investigated_by record;
     dr_investigation_note := dr_investigation_note record; dr_retry_status := dr_retry_status record;
     dr_retried_at := dr_retried_at record; dr_retried_by := dr_retried_by record;
     dr_retried_task_id := dr_retried_task_id record;
     dr_retry_target_queue := dr_retry_target_queue record; dr_retry_note := dr_retry_note record |}.

(** [mark_replayed], relayna/dlq/store.py:302-321. *)
Definition mark_replayed (now : Z) (dlq_id : string) (replayed_at : Z) (target_queue_name : string) :
    P R (option DLQRecord) :=
  record ← get now dlq_id;
  match record with
  | None => mret None
  | Some rec =>
      let updated := as_replayed rec replayed_at target_queue_name in
      _ ← await_ (fun r => rset r now (record_key (dr_dlq_id updated)) (dump_json updated) ttl_seconds);
      mret (Some updated)
  end.

(** [update], relayna/dlq/store.py:323-326. *)
Definition update (now : Z) (record : DLQRecord) : P R DLQRecord :=
  _ ← await_ (fun r => rset r now (record_key (dr_dlq_id record)) (dump_json record) ttl_seconds);
  _ ← await_ (fun r => rzadd r now failed_tasks_index_key (dr_dlq_id record) (failed_score record));
  mret record.

(** [delete], relayna/dlq/store.py:328-331. *)
Definition delete_record (now : Z) (dlq_id : string) : P R bool :=
  deleted ← await (fun r => rdel r now (record_key dlq_id));
  _ ← await_ (fun r => rzrem r now failed_tasks_index_key dlq_id);
  mret deleted.

(** [cleanup_failed_task_index], relayna/dlq/store.py:333-338. *)
Definition cleanup_failed_task_index (now : Z) (older_than : option Z) : P R Z :=
  match (match older_than, ttl_seconds with
         | Some t, _ => Some t
         | None, Some s => Some (now - s * second)
         | None, None => None
         end) with
  | None => mret 0
  | Some t => await (fun r => rzremrangebyscore r now failed_tasks_index_key t)
  end.

(** ** What the listings return *)

Lemma page_step_go_on n matches items e items' :
  page_step n matches items e = inl items' ->
  (length items <=? n)%nat = true -> (length items' <=? n)%nat = true.
Proof.
  unfold page_step. destruct e.2 as [record|]; [|by intros [= ->]].
  destruct (matches record); cbn [negb]; [|by intros [= ->]].
  destruct (n <? length (items ++ [record]))%nat eqn:E; [done|]. intros [= <-] _.
  apply Nat.leb_le. by apply Nat.ltb_ge in E.
Qed.

Lemma scan_page n matches items l : (1 <= n)%nat -> (length items <= n)%nat ->
  page_result (scan (page_step n matches) items l) =
  page_of n (items ++ List.filter matches (omap snd l)).
Proof.
  intros Hn. revert items. induction l as [|[id record] l IH]; intros items Hi; cbn.
  { unfold page_of. rewrite app_nil_r, take_ge by done.
    destruct (n <? length items)%nat eqn:E; [|done]. apply Nat.ltb_lt in E. lia. }
  unfold page_step at 1. cbn [snd]. destruct record as [record|]; [|by apply IH]. cbn [List.filter].
  destruct (matches record); cbn [negb]; [|by apply IH].
  destruct (n <? length (items ++ [record]))%nat eqn:E.
  - cbn [page_result]. unfold page_of. apply Nat.ltb_lt in E. rewrite length_app in E. cbn in E.
    assert (length items = n) as Hlen by lia.
    rewrite length_app. cbn [length]. destruct (n <? _)%nat eqn:E2; [|apply Nat.ltb_ge in E2; lia].
    rewrite !take_app_le by lia. f_equal. by rewrite !lookup_app_l by lia.
  - apply Nat.ltb_ge in E. rewrite IH by done. by rewrite <- app_assoc.
Qed.

Lemma get_many_ids r now ids entries : get_many r now ids = Ok entries -> map fst entries = ids.
Proof.
  unfold get_many. intros HF%mapM_result_ok. induction HF as [|id e ids es He _ IH]; [done|].
  cbn. apply result_bind_ok in He as (rec & _ & [= <-]). by rewrite IH.
Qed.


Context `{!RedisLaws R}.

Lemma lslice_chunk {A} (l : list A) o c : (0 < c)%nat ->
  lslice l (Z.of_nat o) (Z.of_nat o + Z.of_nat c - 1) = take c (drop o l).
Proof.
  intros Hc. unfold lslice. destruct (_ <? 0) eqn:E; bool_to_prop; [lia|].
  rewrite Nat2Z.id. f_equal. lia.
Qed.

Lemma get_many_chunk r now ids entries o c : get_many r now ids = Ok entries ->
  get_many r now (take c (drop o ids)) = Ok (take c (drop o entries)).
Proof. intros Hg. by apply mapM_result_take, mapM_result_drop. Qed.

Lemma chunk_size_pos limit : (0 < chunk_size limit)%nat.
Proof. unfold chunk_size. lia. Qed.
Lemma page_size_pos limit : (1 <= page_size limit)%nat.
Proof. unfold page_size. lia. Qed.

(** The records of a listing from a position of the list. *)
Definition matching_from (k : nat) (matches : DLQRecord -> bool)
    (entries : list (string * option DLQRecord)) : list DLQRecord :=
  List.filter matches (omap snd (drop k entries)).

(** [list_records] is its specification: the first page of the records after
    the cursor that match. *)
Lemma list_records_page r now q t re src state cursor limit entries :
  get_many r now (db_list (model r) now records_key) = Ok entries ->
  list_records r now q t re src state cursor limit =
  (sm ← state_filter state;
   Ok (page_of (page_size limit)
     (matching_from (Z.to_nat (start_index r now cursor)) (listed q t re src sm) entries))).
Proof.
  intros Hall. unfold list_records. destruct (state_filter state) as [sm|e]; [|done]. cbn [mbind result_bind].
  pose proof (chunk_size_pos limit) as Hc. pose proof (page_size_pos limit) as Hn.
  rewrite (chunked_scan _ _ (page_step_go_on _ _) entries); cbn [mbind result_bind]; [| |done|..].
  - f_equal. rewrite scan_page by (cbn; lia). done.
  - exact Hc.
  - intros o. rewrite law_lrange, lslice_chunk by done. by apply get_many_chunk.
  - rewrite law_lrange, lslice_all. apply get_many_ids in Hall. rewrite <- Hall, length_map. lia.
Qed.

(** ** Following the cursors *)

Fixpoint list_pages (fuel : nat) (r : R) (now : Z) (q t re src state : option string)
    (cursor : option string) (limit : Z) : result (list DLQRecord) :=
  match fuel with
  | O => Raise (runtime_error "out of fuel")
  | S fuel =>
      '(items, next) ← list_records r now q t re src state cursor limit;
      match next with
      | None => Ok items
      | Some _ => rest ← list_pages fuel r now q t re src state next limit; Ok (items ++ rest)%list
      end
  end.

Lemma matching_split (matches : DLQRecord -> bool) (l : list (string * option DLQRecord)) i rec :
  List.filter matches (omap snd l) !! i = Some rec ->
  exists j id, l !! j = Some (id, Some rec) /\
    List.filter matches (omap snd (drop (S j) l)) = drop (S i) (List.filter matches (omap snd l)).
Proof.
  revert i. induction l as [|[id o] l IH]; intros i; cbn [omap list_omap snd]; [done|].
  destruct o as [record|]; cbn [List.filter].
  - destruct (matches record).
    + destruct i as [|i]; cbn.
      * intros [= ->]. exists 0%nat, id. done.
      * intros Hi. destruct (IH i Hi) as (j & id' & Hj & E). by exists (S j), id'.
    + intros Hi. destruct (IH i Hi) as (j & id' & Hj & E). by exists (S j), id'.
  - intros Hi. destruct (IH i Hi) as (j & id' & Hj & E). by exists (S j), id'.
Qed.

Lemma position_lookup l j v : NoDup l -> l !! j = Some v -> position l v = Some (Z.of_nat j).
Proof.
  revert j. induction l as [|x l IH]; intros j; [done|]. intros [Hx Hnd]%NoDup_cons Hj. cbn.
  destruct j as [|j]; cbn in Hj; [injection Hj as ->; by rewrite String.eqb_refl|].
  destruct (String.eqb v x) eqn:E.
  - bool_to_prop. subst. destruct Hx. by eapply list_elem_of_lookup_2.
  - rewrite (IH j Hnd Hj). cbn. f_equal. lia.
Qed.

(** Following the cursors from the first page visits every matching record of the
    index exactly once, in order, whatever the page size, when the ids of the
    list are distinct and each record is stored under its own, non-empty id. *)
Theorem paging_is_complete r now q t re src state sm limit entries :
  get_many r now (db_list (model r) now records_key) = Ok entries ->
  NoDup (db_list (model r) now records_key) ->
  Forall (fun e : string * option DLQRecord => forall rec, e.2 = Some rec -> dr_dlq_id rec = e.1 /\ e.1 <> "") entries ->
  state_filter state = Ok sm ->
  list_pages (S (length entries)) r now q t re src state None limit =
    Ok (List.filter (listed q t re src sm) (omap snd entries)).
Proof.
  intros Hall Hnd Hids Hsm.
  pose proof (get_many_ids _ _ _ _ Hall) as Hfst. pose proof (page_size_pos limit) as Hn.
  assert (forall fuel k cursor, Z.to_nat (start_index r now cursor) = k -> (length entries - k < fuel)%nat ->
    list_pages fuel r now q t re src state cursor limit =
      Ok (matching_from k (listed q t re src sm) entries)) as Hgen.
  2: { refine (Hgen _ 0%nat None _ _); [done|lia]. }
  induction fuel as [|fuel IH]; intros k cursor Hk Hfuel; [lia|].
  cbn [list_pages]. rewrite (list_records_page _ _ _ _ _ _ _ _ _ _ Hall), Hsm, Hk.
  cbn [mbind result_bind]. unfold page_of. set (M := matching_from k _ entries).
  destruct (page_size limit <? length M)%nat eqn:E; [|by apply Nat.ltb_ge in E; rewrite take_ge].
  apply Nat.ltb_lt in E. destruct (M !! (page_size limit - 1)%nat) as [rec|] eqn:Hrec.
  2: { apply lookup_ge_None in Hrec. lia. }
  cbn [fmap option_fmap option_map].
  destruct (matching_split _ _ _ _ Hrec) as (j & id & Hj & Hrest).
  rewrite lookup_drop in Hj. rewrite drop_drop in Hrest.
  rewrite List.Forall_forall in Hids.
  destruct (Hids _ (proj1 (list_elem_of_In _ _) (list_elem_of_lookup_2 _ _ _ Hj)) rec eq_refl)
    as [Hid Hne]. cbn in Hid, Hne.
  assert (Z.to_nat (start_index r now (Some (dr_dlq_id rec))) = S (k + j)) as Hstart.
  { unfold start_index. rewrite Hid. destruct (String.eqb id "") eqn:Ee; [by bool_to_prop|].
    rewrite law_lpos. unfold db_lpos. rewrite (position_lookup _ (k + j)); [lia|done|].
    rewrite <- Hfst, list_lookup_fmap, Hj. done. }
  rewrite (IH (S (k + j)) _ Hstart).
  - cbn [mbind result_bind]. f_equal. unfold matching_from.
    replace (S (k + j)) with (k + S j)%nat by lia. rewrite Hrest.
    replace (S (page_size limit - 1)) with (page_size limit) by lia. apply take_drop.
  - apply lookup_lt_Some in Hj. lia.
Qed.


(** ** Failed tasks *)

Definition failed_result (n : nat) (out : failed_scan + (list DLQRecord * option string)) :
    list DLQRecord * option string :=
  match out with
  | inr page => page
  | inl s => if negb (fs_found s) then
               if (n <? length (fs_head s))%nat
               then (take n (fs_head s), dr_dlq_id <$> fs_head s !! (n - 1)%nat) else (fs_head s, None)
             else (fs_items s, None)
  end.

Lemma failed_step_go_on n matches cursor s e s' :
  failed_step n matches cursor s e = inl s' ->
  (length (fs_items s) <=? n)%nat = true -> (length (fs_items s') <=? n)%nat = true.
Proof.
  unfold failed_step. destruct (fs_found s); cbn [negb]; [|by intros [= <-]].
  destruct (page_step _ _ _ _) as [items|] eqn:E; [|done]. intros [= <-]. by eapply page_step_go_on.
Qed.

(** Past the cursor, the scan is the scan of [list_records]. *)
Lemma failed_scan_found n matches cursor items head l :
  failed_result n (scan (failed_step n matches cursor)
    {| fs_items := items; fs_head := head; fs_found := true |} l) =
  page_result (scan (page_step n matches) items l).
Proof.
  revert items. induction l as [|e l IH]; intros items; [done|]. cbn [scan].
  unfold failed_step at 1. cbn [fs_found negb fs_items fs_head].
  destruct (page_step n matches items e) as [items'|]; [apply IH|done].
Qed.

Lemma page_of_head n M : page_of n (take (S n) M) = page_of n M.
Proof.
  unfold page_of. rewrite take_take, Nat.min_l by lia. f_equal.
  rewrite length_take. destruct (n <? length M)%nat eqn:E.
  - apply Nat.ltb_lt in E. assert ((n <? S n `min` length M)%nat = true) as -> by (apply Nat.ltb_lt; lia).
    by rewrite lookup_take_lt by lia.
  - apply Nat.ltb_ge in E. assert ((n <? S n `min` length M)%nat = false) as -> by (apply Nat.ltb_ge; lia).
    done.
Qed.

(** A cursor that is not in the range: the first page. *)
Lemma failed_scan_missing n matches c items head l : c ∉ map fst l ->
  failed_result n (scan (failed_step n matches (Some c))
    {| fs_items := items; fs_head := take (S n) head; fs_found := false |} l) =
  page_of n (head ++ List.filter matches (omap snd l)).
Proof.
  revert head. induction l as [|[id o] l IH]; intros head Hc.
  - cbn [scan failed_result fs_found negb fs_head omap list_omap List.filter]. rewrite app_nil_r.
    rewrite <- page_of_head. unfold page_of. destruct (n <? length (take (S n) head))%nat eqn:E; [done|].
    apply Nat.ltb_ge in E. by rewrite (take_ge (take (S n) head) n).
  - cbn [map fst] in Hc. apply not_elem_of_cons in Hc as [Hid Hc]. cbn [scan].
    unfold failed_step at 1. cbn [fs_found negb fs_items fs_head fst snd].
    rewrite bool_decide_eq_false_2 by congruence. cbn [omap list_omap snd].
    destruct o as [record|]; [|by apply IH]. cbn [List.filter].
    destruct (matches record); [|rewrite andb_false_r; by apply IH]. rewrite andb_true_r.
    rewrite (cons_middle record head), app_assoc, <- (IH (head ++ [record])%list Hc).
    do 4 f_equal. rewrite length_take.
    destruct (S n `min` length head <=? n)%nat eqn:E.
    + apply Nat.leb_le in E. rewrite !take_ge; [done|rewrite length_app; cbn; lia|lia].
    + apply Nat.leb_gt in E. by rewrite take_app_le by lia.
Qed.

Lemma failed_scan_cursor n matches c items head pre o post : c ∉ map fst pre ->
  failed_result n (scan (failed_step n matches (Some c))
    {| fs_items := items; fs_head := head; fs_found := false |} (pre ++ (c, o) :: post)) =
  page_result (scan (page_step n matches) items post).
Proof.
  revert head. induction pre as [|[id o'] pre IH]; intros head Hc; cbn [app scan].
  - unfold failed_step at 1. cbn [fs_found negb fs_items fs_head fst snd].
    rewrite bool_decide_eq_true_2 by done. apply failed_scan_found.
  - cbn [map fst] in Hc. apply not_elem_of_cons in Hc as [Hid Hc]. unfold failed_step at 1.
    cbn [fs_found negb fs_items fs_head fst snd]. rewrite bool_decide_eq_false_2 by congruence. by apply IH.
Qed.

(** The failed tasks of a range of failure times, latest first. *)
Definition failed_ids (d : db) (now : Z) (failed_from failed_to : option Z) : list string :=
  map fst (List.filter (fun p => opt_geb failed_to p.2 && opt_leb failed_from p.2)
    (rev (ranked (db_scores d now failed_tasks_index_key)))).

Lemma failed_fetch r now lo hi offset num :
  rzrevrangebyscore r now failed_tasks_index_key hi lo offset num =
  take num (drop offset (failed_ids (model r) now lo hi)).
Proof. by rewrite law_zrevrangebyscore. Qed.

Lemma failed_ids_length d now lo hi :
  (length (failed_ids d now lo hi) <= size (db_scores d now failed_tasks_index_key))%nat.
Proof.
  unfold failed_ids. rewrite length_map, List.filter_length_le, length_rev.
  unfold ranked. by rewrite (merge_sort_Permutation score_le (map_to_list _)), length_map_to_list.
Qed.

(** The failed-task listing is a page of the matching tasks of the time range,
    latest failure first: from the start without a cursor, from behind the
    cursor when it is in the range, and from the start again when it is not. *)
Theorem list_failed_page r now f lo hi cursor limit entries :
  get_many r now (failed_ids (model r) now lo hi) = Ok entries ->
  let page l := page_of (page_size limit) (List.filter (failed_record_matches f) (omap snd l)) in
  match cursor with
  | None => list_failed_task_records r now f lo hi cursor limit = Ok (page entries)
  | Some c =>
      (c ∉ map fst entries ->
       list_failed_task_records r now f lo hi cursor limit = Ok (page entries)) /\
      forall pre o post, entries = (pre ++ (c, o) :: post)%list -> c ∉ map fst pre ->
        list_failed_task_records r now f lo hi cursor limit = Ok (page post)
  end.
Proof.
  intros Hall page. pose proof (page_size_pos limit) as Hn.
  set (start := {| fs_items := []; fs_head := []; fs_found := match cursor with None => true | _ => false end |}).
  assert (list_failed_task_records r now f lo hi cursor limit = Ok (failed_result (page_size limit)
    (scan (failed_step (page_size limit) (failed_record_matches f) cursor) start entries))) as ->.
  { unfold list_failed_task_records. rewrite (chunked_scan _ _ (failed_step_go_on _ _ _) entries).
    - done.
    - apply chunk_size_pos.
    - done.
    - intros o. rewrite failed_fetch. by apply get_many_chunk.
    - rewrite law_zcard. unfold db_zcard. apply get_many_ids in Hall.
      pose proof (failed_ids_length (model r) now lo hi) as Hlen. rewrite <- Hall, length_map in Hlen. lia. }
  unfold start, page. destruct cursor as [c|]; [split|].
  - intros Hc. f_equal. by refine (failed_scan_missing _ _ _ [] [] _ Hc).
  - intros pre o post -> Hc. f_equal. rewrite failed_scan_cursor by done.
    by rewrite scan_page by (cbn; lia).
  - f_equal. rewrite failed_scan_found. by rewrite scan_page by (cbn; lia).
Qed.


(** ** The replay lock *)

Lemma record_lock_ne a b : record_key a <> replay_lock_key b.
Proof. intros E. apply redis_key_join in E. done. Qed.
Lemma index_lock_ne b : failed_tasks_index_key <> replay_lock_key b.
Proof. intros E. apply redis_key_join in E. done. Qed.
Lemma records_lock_ne b : records_key <> replay_lock_key b.
Proof. intros E. apply redis_key_join in E. done. Qed.

Definition in_progress (dlq_id : string) : exn :=
  replay_conflict dlq_id (Some "DLQ replay is already in progress.").

(** What a claim does when Redis answers. *)
Lemma claim_run r now id force :
  let x := runP (claim_replay now id force) r in
  let locked := db_set (model r) now (replay_lock_key id) "1" (Some 30) in
  match live (model r) now (replay_lock_key id) with
  | Some _ => model x.1 = model r /\ x.2 = Raise (in_progress id)
  | None =>
      match decode (db_str (model r) now (record_key id)) with
      | Ok None => model x.1 = locked /\ x.2 = Ok None
      | Ok (Some rec) =>
          if bool_decide (dr_state rec = REPLAYED) && negb force
          then model x.1 = delete (replay_lock_key id) locked /\ x.2 = Raise (replay_conflict id None)
          else model x.1 = locked /\ x.2 = Ok (Some rec)
      | Raise e => model x.1 = (if is_exception e then delete (replay_lock_key id) locked else locked) /\
                   x.2 = Raise e
      end
  end.
Proof.
  cbn zeta. unfold claim_replay. rewrite runP_await, law_set_nx_ret.
  set (r1 := (rset_nx r now (replay_lock_key id) "1" (Some 30)).1).
  assert (model r1 = (db_set_nx (model r) now (replay_lock_key id) "1" (Some 30)).1) as E
    by (unfold r1; by autorewrite with redis).
  unfold db_set_nx in *. destruct (live (model r) now (replay_lock_key id)) as [o|]; cbn [fst snd negb] in *.
  { by rewrite runP_lift. }
  assert (db_str (model r1) now (record_key id) = db_str (model r) now (record_key id)) as Eg.
  { rewrite E. unfold db_set. apply str_insert_ne, not_eq_sym, record_lock_ne. }
  unfold runP, reraising, get, release_replay_claim, mbind, P_bind, await_read, await_, await, liftP, mret, P_ret.
  cbn [fst snd]. rewrite law_get, Eg.
  destruct (decode _) as [[rec|]|e]; cbn [fst snd]; [|by rewrite E|].
  - destruct (_ && _); cbn; rewrite ?law_del, E; done.
  - destruct (is_exception e); cbn; rewrite ?law_del, E; done.
Qed.

(** A replay claim excludes every other for 30 seconds: after a claim that got
    the record, any claim of the same record, forced or not, is refused as in
    progress and changes nothing, until the lock is released or expires. *)
Theorem claim_exclusive r t0 id force rec r1 :
  runP (claim_replay t0 id force) r = (r1, Ok (Some rec)) ->
  forall now force', t0 <= now < t0 + 30 * second ->
    (runP (claim_replay now id force') r1).2 = Raise (in_progress id) /\
    model (runP (claim_replay now id force') r1).1 = model r1.
Proof.
  intros Hc now force' Hnow. pose proof (claim_run r t0 id force) as Hrun. rewrite Hc in Hrun.
  cbn zeta in Hrun. cbn [fst snd] in Hrun.
  assert (model r1 = db_set (model r) t0 (replay_lock_key id) "1" (Some 30)) as E.
  { destruct (live _ _ _); [by destruct Hrun|]. destruct (decode _) as [[rec'|]|e]; [|by destruct Hrun..].
    destruct (_ && _); by destruct Hrun. }
  pose proof (claim_run r1 now id force') as Hrun'. cbn zeta in Hrun'.
  assert (live (model r1) now (replay_lock_key id) = Some (RStr "1", Some (t0 + 30 * second))) as Hl.
  { rewrite E. unfold db_set. rewrite live_insert_eq. cbn. destruct (_ <? _) eqn:Ea; [done|]. bool_to_prop. lia. }
  rewrite Hl in Hrun'. by destruct Hrun'.
Qed.

Lemma claim_again r id now rec :
  live (model r) now (replay_lock_key id) = None ->
  decode (db_str (model r) now (record_key id)) = Ok (Some rec) -> dr_state rec = DEAD_LETTERED ->
  model (runP (claim_replay now id false) r).1 = db_set (model r) now (replay_lock_key id) "1" (Some 30) /\
  (runP (claim_replay now id false) r).2 = Ok (Some rec).
Proof.
  intros Hl Hd Hs. pose proof (claim_run r now id false) as Hrun. cbn zeta in Hrun.
  rewrite Hl, Hd, Hs in Hrun. by apply Hrun.
Qed.

(** The lock has no owner: a replay that outlives its 30 seconds and then
    releases its claim takes away the lock of the replay that claimed after
    it, so a third claim succeeds while the second is in progress. *)
Theorem late_release_steals_lock r id rec t0 t1 t2 t3 :
  t0 + 30 * second <= t1 -> t1 <= t2 <= t3 -> t3 < t1 + 30 * second ->
  live (model r) t0 (replay_lock_key id) = None ->
  dr_state rec = DEAD_LETTERED ->
  (forall t, decode (db_str (model r) t (record_key id)) = Ok (Some rec)) ->
  let first := runP (claim_replay t0 id false) r in
  let second_claim := runP (claim_replay t1 id false) first.1 in
  let third := runP (_ ← release_replay_claim t2 id; claim_replay t3 id false) second_claim.1 in
  first.2 = Ok (Some rec) /\ second_claim.2 = Ok (Some rec) /\ third.2 = Ok (Some rec).
Proof.
  intros H1 H2 H3 Hl Hs Hd first second_claim third.
  destruct (claim_again r id t0 rec Hl (Hd t0) Hs) as [E1 X1]. fold first in E1, X1.
  assert (forall t k v d, db_str (db_set d k (replay_lock_key id) v (Some 30)) t (record_key id) =
    db_str d t (record_key id)) as Hstr.
  { intros. unfold db_set. apply str_insert_ne, not_eq_sym, record_lock_ne. }
  assert (live (model first.1) t1 (replay_lock_key id) = None) as Hl1.
  { rewrite E1. unfold db_set. rewrite live_insert_eq. cbn. destruct (_ <? _) eqn:Ea; [|done].
    bool_to_prop. lia. }
  destruct (claim_again first.1 id t1 rec Hl1) as [E2 X2]; [by rewrite E1, Hstr|done|].
  fold second_claim in E2, X2. split_and!; [done..|].
  set (r3 := (rdel second_claim.1 t2 (replay_lock_key id)).1).
  assert (model r3 = delete (replay_lock_key id) (model second_claim.1)) as E3
    by (unfold r3; by rewrite law_del).
  assert (third = runP (claim_replay t3 id false) r3) as -> by done.
  apply claim_again; [|  |done].
  - rewrite E3. apply live_delete_eq.
  - rewrite E3. unfold db_str. rewrite live_delete_ne by apply not_eq_sym, record_lock_ne.
    fold (db_str (model second_claim.1) t3 (record_key id)). by rewrite E2, Hstr, E1, Hstr.
Qed.


(** ** The summary of the queues *)

Lemma summarize_chunks_all fuel r now ids entries s : get_many r now ids = Ok entries ->
  (length ids <= fuel)%nat ->
  summarize_chunks fuel r now ids s = Ok (foldl summarize s (omap snd entries)).
Proof.
  revert ids entries s. induction fuel as [|fuel IH]; intros ids entries s Hall Hlen.
  { destruct ids; [by injection Hall as <-|cbn in Hlen; lia]. }
  destruct ids as [|id ids]; [by injection Hall as <-|]. cbn [summarize_chunks].
  pose proof (mapM_result_take _ 500 _ _ Hall) as Ht. pose proof (mapM_result_drop _ 500 _ _ Hall) as Hd.
  unfold get_many at 1. rewrite Ht. cbn [mbind result_bind]. rewrite (IH _ (drop 500 entries)); [|done|].
  - f_equal. rewrite <- foldl_app, <- omap_app. by rewrite take_drop.
  - rewrite length_drop. cbn in Hlen |- *. lia.
Qed.

Definition in_queue (q : string) (records : list DLQRecord) : list DLQRecord :=
  List.filter (fun rec => String.eqb q (dr_queue_name rec)) records.
Definition later (o : option Z) (rec : DLQRecord) : option Z :=
  Some (match o with Some t => Z.max t (dr_dead_lettered_at rec) | None => dr_dead_lettered_at rec end).

Lemma summarize_spec records s q :
  dget q (foldl summarize s records).1 =
    match in_queue q records with
    | [] => dget q s.1
    | l => Some (from_opt 0 (dget q s.1) + Z.of_nat (length l))
    end /\
  dget q (foldl summarize s records).2 = foldl later (dget q s.2) (in_queue q records).
Proof.
  revert s. induction records as [|rec records IH]; intros s; [done|]. cbn [foldl].
  destruct (IH (summarize s rec)) as [IH1 IH2]. rewrite IH1, IH2. clear IH IH1 IH2.
  unfold in_queue. cbn [List.filter]. fold (in_queue q records). unfold summarize. cbn [fst snd].
  rewrite dget_dset. destruct (String.eqb q (dr_queue_name rec)) eqn:E.
  - bool_to_prop. subst q. split.
    + cbn [from_opt length]. destruct (in_queue _ records) as [|x l]; f_equal; cbn [length]; lia.
    + cbn [foldl]. f_equal. unfold later. destruct (dget _ s.2) as [t|] eqn:Et; [|by rewrite dget_dset_eq].
      destruct (t <? dr_dead_lettered_at rec) eqn:El; bool_to_prop; rewrite ?dget_dset_eq, ?Et; f_equal; lia.
  - split; [done|]. f_equal. bool_to_prop.
    destruct (dget (dr_queue_name rec) s.2) as [t|]; [destruct (_ <? _)|];
      rewrite ?dget_dset_ne by done; done.
Qed.

(** The queue summary lists exactly the queues that have a record in the index,
    each with the number of its records and the latest of their times. *)
Theorem summary_counts r now entries :
  get_many r now (db_list (model r) now records_key) = Ok entries ->
  exists l, summarize_queues r now = Ok l /\
    forall q n t, (q, n, t) ∈ l <->
      let records := in_queue q (omap snd entries) in
      records <> [] /\ n = Z.of_nat (length records) /\ t = foldl later None records.
Proof.
  intros Hall. unfold summarize_queues. rewrite law_lrange, lslice_all.
  rewrite (summarize_chunks_all _ _ _ _ _ _ Hall) by done. cbn [mbind result_bind].
  set (s := foldl summarize ([], []) (omap snd entries)). eexists; split; [by rewrite (surjective_pairing s)|].
  assert (forall q, dget q s.1 = match in_queue q (omap snd entries) with
    | [] => None | l => Some (Z.of_nat (length l)) end) as H1.
  { intros q. unfold s. destruct (summarize_spec (omap snd entries) ([], []) q) as [-> _].
    by destruct (in_queue _ _). }
  assert (forall q, dget q s.2 = foldl later None (in_queue q (omap snd entries))) as H2.
  { intros q. unfold s. by destruct (summarize_spec (omap snd entries) ([], []) q) as [_ ->]. }
  assert (forall q, q ∈ sorted_strs (dkeys s.1) <-> in_queue q (omap snd entries) <> []) as H3.
  { intros q. rewrite sorted_strs_elem, <- din_keys. unfold din. rewrite H1. by destruct (in_queue q _). }
  intros q n t. cbn zeta. rewrite list_elem_of_In, in_map_iff. split.
  - intros (q' & [= <- <- <-] & Hin%list_elem_of_In%H3). rewrite H1, H2. by destruct (in_queue q' _).
  - intros (Hne & -> & ->). exists q. split; [|by apply list_elem_of_In, H3].
    rewrite H1, H2. by destruct (in_queue q _).
Qed.

End store.

(** ** Witnesses *)

Definition demo_record (id : string) (queue : string) (at_ : Z) : DLQRecord :=
  {| dr_dlq_id := id; dr_failure_id := Some id; dr_queue_name := queue;
     dr_source_queue_name := "tasks"; dr_retry_queue_name := "tasks.retry"; dr_task_id := Some "t";
     dr_correlation_id := None; dr_service_name := None; dr_reason := "handler_error";
     dr_exception_type := None; dr_exception_message := None; dr_retry_attempt := 3;
     dr_max_retries := 3; dr_headers := []; dr_content_type := None; dr_body := PNone;
     dr_body_encoding := "json"; dr_raw_body_b64 := "bnVsbA=="; dr_dead_lettered_at := at_;
     dr_state := DEAD_LETTERED; dr_replay_count := 0; dr_replayed_at := None;
     dr_replay_target_queue_name := None; dr_diagnosis := None; dr_failed_at := Some at_;
     dr_status := "DLQ"; dr_traceback := None; dr_worker_id := None; dr_runtime_name := None;
     dr_runtime_version := None; dr_input_preview := PNone; dr_metadata := []; dr_last_logs := [];
     dr_payload_available := true; dr_investigation_status := UNREVIEWED; dr_investigated_at := None;
     dr_investigated_by := None; dr_investigation_note := None; dr_retry_status := NOT_RETRIED;
     dr_retried_at := None; dr_retried_by := None; dr_retried_task_id := None;
     dr_retry_target_queue := None; dr_retry_note := None |}.

(** Texts that stand for the records of the witnesses. *)
Definition demo_json : JsonModel DLQRecord := {|
  dump_json := dr_dlq_id; validate_json id := Ok (demo_record id "tasks.dlq" 5) |}.

Definition demo_index : db :=
  <[records_key "relayna" := (RList ["b"; "a"], None)]>
  (<[failed_tasks_index_key "relayna" := (RZset {["a" := 5; "b" := 5]}, None)]>
  (<[record_key "relayna" "a" := (RStr "a", None)]>
  (<[record_key "relayna" "b" := (RStr "b", None)]> ∅))).

Lemma paging_is_complete_witness :
  list_pages (H0 := demo_json) "relayna" 3 demo_index 0 None None None None None None 1 =
    Ok [demo_record "b" "tasks.dlq" 5; demo_record "a" "tasks.dlq" 5].
Proof.
  apply (paging_is_complete (H0 := demo_json) "relayna" demo_index 0 None None None None None
    (fun _ => true) 1 [("b", Some (demo_record "b" "tasks.dlq" 5)); ("a", Some (demo_record "a" "tasks.dlq" 5))]).
  - vm_compute. reflexivity.
  - apply (bool_decide_unpack _). vm_compute. reflexivity.
  - repeat (apply Forall_cons; split; [by intros ? [= <-]|]). by constructor.
  - reflexivity.
Defined.

Lemma list_failed_page_witness :
  list_failed_task_records (H0 := demo_json) "relayna" demo_index 0
    (Build_failed_filter None None None None None None None None) None (Some 9) (Some "b") 50 =
    Ok ([demo_record "a" "tasks.dlq" 5], None).
Proof.
  destruct (list_failed_page (H0 := demo_json) "relayna" demo_index 0
    (Build_failed_filter None None None None None None None None) None (Some 9) (Some "b") 50
    [("b", Some (demo_record "b" "tasks.dlq" 5)); ("a", Some (demo_record "a" "tasks.dlq" 5))])
    as [_ Hpage]; [vm_compute; reflexivity|].
  apply (Hpage [] (Some (demo_record "b" "tasks.dlq" 5)) [("a", Some (demo_record "a" "tasks.dlq" 5))]).
  - reflexivity.
  - apply not_elem_of_nil.
Defined.

Lemma claim_exclusive_witness :
  (runP (claim_replay (H0 := demo_json) "relayna" (20 * second) "a" true)
    (runP (claim_replay (H0 := demo_json) "relayna" 0 "a" false) demo_index).1).2 =
  Raise (in_progress "a").
Proof.
  destruct (claim_exclusive (H0 := demo_json) "relayna" demo_index 0 "a" false
    (demo_record "a" "tasks.dlq" 5)
    (runP (claim_replay (H0 := demo_json) "relayna" 0 "a" false) demo_index).1) with
    (now := 20 * second) (force' := true) as [E _].
  - vm_compute. reflexivity.
  - vm_compute. split; congruence.
  - exact E.
Defined.

Lemma late_release_steals_lock_witness :
  (runP (_ ← release_replay_claim "relayna" (41 * second) "a";
         claim_replay (H0 := demo_json) "relayna" (42 * second) "a" false)
    (runP (claim_replay (H0 := demo_json) "relayna" (40 * second) "a" false)
      (runP (claim_replay (H0 := demo_json) "relayna" 0 "a" false) demo_index).1).1).2 =
  Ok (Some (demo_record "a" "tasks.dlq" 5)).
Proof.
  apply (late_release_steals_lock (H0 := demo_json) "relayna" demo_index "a"
    (demo_record "a" "tasks.dlq" 5) 0 (40 * second) (41 * second) (42 * second));
    try (vm_compute; congruence); try reflexivity; try (vm_compute; split; congruence).
Defined.

Lemma summary_counts_witness :
  exists l, summarize_queues (H0 := demo_json) "relayna" demo_index 0 = Ok l /\
    ("tasks.dlq", 2, Some 5) ∈ l.
Proof.
  destruct (summary_counts (H0 := demo_json) "relayna" demo_index 0
    [("b", Some (demo_record "b" "tasks.dlq" 5)); ("a", Some (demo_record "a" "tasks.dlq" 5))])
    as (l & Hl & Hin); [vm_compute; reflexivity|].
  exists l. split; [exact Hl|]. apply Hin. by split_and!.
Defined.
