(* ===== verification/Effects.v ===== *)
(** * Consumer effects

    What a consumer asks of its surroundings is an effect [eff X] with an
    answer in [X]; a consumer coroutine is a finite tree [M A] of effects.  The
    surroundings (broker, Redis, handler, clock) answer anything: [wp m Q] says
    that [Q] holds of every trace and result of [m], and [run] executes [m]
    against given answers.  Awaited effects may answer with any exception,
    [CancelledError] included. *)

From S2P Require Import Prelude PyStr PyVal Contracts DlqModels.
From S2P Require Import LeaseStore.

(** One [publish_raw_to_queue] call. *)
Record raw_publish := RawPublish {
  rp_queue : string;
  rp_body : string;
  rp_correlation_id : option string;
  rp_headers : pydict;
  rp_priority : option Z;
  rp_content_type : option string }.

(** [_ManualRetryRequest], relayna/consumer/context.py:78-83. *)
Record ManualRetryRequest := {
  mr_task : pydict;
  mr_headers : pydict;
  mr_status_message : string;
  mr_status_meta : pydict }.

(** What a handler coroutine did: how it ended, and the manual-retry request
    that [TaskContext.manual_retry] left in its context. *)
Record handler_outcome := HandlerOutcome {
  ho_result : result unit;
  ho_manual_retry : option ManualRetryRequest }.

(** An observation event: its class and its fields. *)
Record observation := Obs { ob_class : string; ob_fields : pydict }.

Inductive eff : Type -> Type :=
| EAck : eff (result unit)                                  (* message.ack() *)
| EReject (requeue : bool) : eff (result unit)              (* message.reject(requeue=...) *)
| EPublishRaw (p : raw_publish) : eff (result unit)         (* rabbitmq.publish_raw_to_queue *)
| EPublishTask (task headers : pydict) : eff (result unit)  (* rabbitmq.publish_task *)
| EPublishStatus (e : StatusEventEnvelope) : eff (result unit)
| EPublishAggregation (e : StatusEventEnvelope) : eff (result unit)
| EPublishToStage (e : WorkflowEnvelope) (stage : string) : eff (result unit)
| EPublishWorkflow (e : WorkflowEnvelope) (routing_key : string) : eff (result unit)
| EObserve (o : observation) : eff (result unit)            (* await sink(event) *)
| ETaskHandler (t : TaskEnvelope) : eff handler_outcome     (* await self._handler(...) *)
| EAggregationHandler (e : StatusEventEnvelope) : eff handler_outcome
| EWorkflowHandler (e : WorkflowEnvelope) (timeout : option Z) : eff handler_outcome
| ENow : eff Z                                              (* the clock, microseconds *)
| EUuid : eff string                                        (* uuid4().hex *)
| ELeaseAcquire (l : TaskLease) : eff (result bool)
| ELeaseRelease (lease_id owner_id : string) : eff (result bool)
| EHeartbeatStart (lease_id : string) : eff unit            (* asyncio.create_task *)
| EHeartbeatStop : eff (result unit)                        (* cancel() and await *)
| EDlqAdd (r : DLQRecord) : eff (result unit)               (* dlq_store.add *)
| EMetric (name : string) (fields : pydict) : eff unit      (* in-process counters *)
| EResourceSample : eff (option (Z * option Z))             (* sample_task_resources() *)
| EDedupAcquire (stage task_id : string) (action : option string) (payload : pydict)
    (fields : list string) : eff (result bool)
| EDedupRelease (stage task_id : string) (action : option string) (payload : pydict)
    (fields : list string) : eff (result unit)
| EMarkInflight (stage task_id : string) (action : option string) (payload : pydict)
    (fields : list string) : eff (result unit)
| EClearInflight (stage task_id : string) (action : option string) (payload : pydict)
    (fields : list string) : eff (result unit).

(** A coroutine: done, or waiting for the answer of an effect. *)
Inductive M (A : Type) : Type :=
| Done (r : result A)
| Do (X : Type) (e : eff X) (k : X -> M A).
Arguments Done {A} r.
Arguments Do {A X} e k.

Fixpoint bindM {A B} (m : M A) (f : A -> M B) : M B :=
  match m with
  | Done (Ok a) => f a
  | Done (Raise e) => Done (Raise e)
  | Do e k => Do e (fun x => bindM (k x) f)
  end.

#[export] Instance M_ret : MRet M := fun A a => Done (Ok a).
#[export] Instance M_bind : MBind M := fun A B f m => bindM m f.

(** The result of a coroutine as a value: what [try] sees. *)
Fixpoint attempt {A} (m : M A) : M (result A) :=
  match m with
  | Done r => Done (Ok r)
  | Do e k => Do e (fun x => attempt (k x))
  end.

Definition raiseM {A} (e : exn) : M A := Done (Raise e).
Definition liftM {A} (r : result A) : M A := Done r.

(** An effect whose answer is not an exception, and an awaited one. *)
Definition ask {X} (e : eff X) : M X := Do e (fun x => Done (Ok x)).
Definition call {X} (e : eff (result X)) : M X := Do e Done.

(** [try: m except: h(e)]; [h] re-raises what it does not handle. *)
Definition catchM {A} (m : M A) (h : exn -> M A) : M A :=
  r ← attempt m; match r with Ok a => Done (Ok a) | Raise e => h e end.

(** [try: m except asyncio.CancelledError: raise except Exception: h(e)] *)
Definition except {A} (m : M A) (h : exn -> M A) : M A :=
  catchM m (fun e => if is_exception e then h e else raiseM e).

(** [try: m finally: f] *)
Definition finallyM {A} (m : M A) (f : result A -> M unit) : M A :=
  r ← attempt m; _ ← f r; Done r.

(** [if b: m] *)
Definition whenM (b : bool) (m : M unit) : M unit := if b then m else mret tt.

(** [for x in l: f(x)] *)
Fixpoint forM_ {A} (l : list A) (f : A -> M unit) : M unit :=
  match l with [] => mret tt | x :: l' => _ ← f x; forM_ l' f end.

(** ** Traces *)

Inductive event :=
| Ev {X : Type} (e : eff X) (x : X).
Notation trace := (list event).

Fixpoint wp {A} (m : M A) (Q : trace -> result A -> Prop) : Prop :=
  match m with
  | Done r => Q [] r
  | Do e k => forall x, wp (k x) (fun t r => Q (Ev e x :: t) r)
  end.

(** Execution against surroundings that answer from what happened so far. *)
Notation world := (trace -> forall X, eff X -> X).
Fixpoint run {A} (w : world) (past : trace) (m : M A) : trace * result A :=
  match m with
  | Done r => ([], r)
  | Do e k => let x := w past _ e in
              let (t, r) := run w (past ++ [Ev e x])%list (k x) in (Ev e x :: t, r)
  end.

Lemma wp_mono {A} (m : M A) (Q Q' : trace -> result A -> Prop) :
  (forall t r, Q t r -> Q' t r) -> wp m Q -> wp m Q'.
Proof.
  revert Q Q'. induction m as [r|X e k IH]; cbn; [auto|].
  intros Q Q' HQ H x. eapply IH; [|apply H]. auto.
Qed.

Lemma wp_bind {A B} (m : M A) (f : A -> M B) (Q : trace -> result B -> Prop) :
  wp (m ≫= f) Q <->
  wp m (fun t r => match r with
                   | Ok a => wp (f a) (fun t' r' => Q (t ++ t')%list r')
                   | Raise e => Q t (Raise e)
                   end).
Proof.
  revert Q. induction m as [[a|e]|X e k IH]; intros Q; cbn; [done|done|].
  split; intros H x; specialize (H x).
  - by apply (IH x (fun t r => Q (Ev e x :: t) r)) in H.
  - by apply (IH x (fun t r => Q (Ev e x :: t) r)).
Qed.

Lemma wp_attempt {A} (m : M A) (Q : trace -> result (result A) -> Prop) :
  wp (attempt m) Q <-> wp m (fun t r => Q t (Ok r)).
Proof.
  revert Q. induction m as [r|X e k IH]; intros Q; cbn; [done|].
  split; intros H x; specialize (H x).
  - by apply (IH x (fun t r => Q (Ev e x :: t) r)) in H.
  - by apply (IH x (fun t r => Q (Ev e x :: t) r)).
Qed.

Lemma wp_run {A} (m : M A) Q w past : wp m Q -> Q (run w past m).1 (run w past m).2.
Proof.
  revert Q past. induction m as [r|X e k IH]; intros Q past; cbn; [done|].
  intros H. specialize (IH (w past X e) _ (past ++ [Ev e (w past X e)])%list (H (w past X e))).
  by destruct (run _ _ _).
Qed.

Lemma wp_and {A} (m : M A) (Q Q' : trace -> result A -> Prop) :
  wp m Q -> wp m Q' -> wp m (fun t r => Q t r /\ Q' t r).
Proof.
  revert Q Q'. induction m as [r|X e k IH]; cbn; [done|]. intros Q Q' H H' x. by apply IH.
Qed.

Lemma wp_catch {A} (m : M A) h (Q : trace -> result A -> Prop) :
  wp (catchM m h) Q <->
  wp m (fun t r => match r with
                   | Ok a => Q t (Ok a)
                   | Raise e => wp (h e) (fun t' r' => Q (t ++ t')%list r')
                   end).
Proof.
  unfold catchM. rewrite wp_bind, wp_attempt.
  split; apply wp_mono; intros t [a|e]; cbn; by rewrite ?app_nil_r.
Qed.

Lemma wp_except {A} (m : M A) h (Q : trace -> result A -> Prop) :
  wp (except m h) Q <->
  wp m (fun t r => match r with
                   | Ok a => Q t (Ok a)
                   | Raise e => if is_exception e then wp (h e) (fun t' r' => Q (t ++ t')%list r')
                                else Q t (Raise e)
                   end).
Proof.
  unfold except. rewrite wp_catch.
  split; apply wp_mono; intros t [a|e]; try done; destruct (is_exception e); cbn;
    by rewrite ?app_nil_r.
Qed.

Lemma wp_finally {A} (m : M A) f (Q : trace -> result A -> Prop) :
  wp (finallyM m f) Q <->
  wp m (fun t r => wp (f r) (fun t' r' => match r' with
                                          | Ok _ => Q (t ++ t')%list r
                                          | Raise e => Q (t ++ t')%list (Raise e)
                                          end)).
Proof.
  unfold finallyM. rewrite wp_bind, wp_attempt.
  split; apply wp_mono; intros t r; rewrite wp_bind; apply wp_mono; intros t' [[]|e]; cbn;
    by rewrite ?app_nil_r.
Qed.

(** ** What settles a delivery

    The part of a trace that decides the fate of a delivery: the handler's
    outcome, the messages published and the settlement, each with its
    success. *)

Inductive vis :=
| VHandler (h : handler_outcome)
| VAck (ok : bool)
| VReject (requeue ok : bool)
| VRaw (p : raw_publish) (ok : bool)
| VTask (task headers : pydict) (ok : bool).

Definition visible (ev : event) : option vis :=
  match ev with
  | @Ev _ e x =>
      match e in eff X return X -> option vis with
      | EAck => fun r => Some (VAck (is_ok r))
      | EReject rq => fun r => Some (VReject rq (is_ok r))
      | EPublishRaw p => fun r => Some (VRaw p (is_ok r))
      | EPublishTask t h => fun r => Some (VTask t h (is_ok r))
      | ETaskHandler _ => fun h => Some (VHandler h)
      | EAggregationHandler _ => fun h => Some (VHandler h)
      | EWorkflowHandler _ _ => fun h => Some (VHandler h)
      | _ => fun _ => None
      end x
  end.

Definition obs (t : trace) : list vis := omap visible t.

Lemma obs_app t t' : obs (t ++ t') = (obs t ++ obs t')%list.
Proof. apply omap_app. Qed.

(** [wp] on the visible trace. *)
Definition wpo {A} (m : M A) (Q : list vis -> result A -> Prop) : Prop :=
  wp m (fun t r => Q (obs t) r).

Lemma wpo_mono {A} (m : M A) (Q Q' : list vis -> result A -> Prop) :
  wpo m Q -> (forall l r, Q l r -> Q' l r) -> wpo m Q'.
Proof. intros H HQ. unfold wpo. eapply wp_mono; [|exact H]. cbn. auto. Qed.

Lemma wpo_bind {A B} (m : M A) (f : A -> M B) (Q : list vis -> result B -> Prop) :
  wpo m (fun l r => match r with
                    | Ok a => wpo (f a) (fun l' r' => Q (l ++ l')%list r')
                    | Raise e => Q l (Raise e)
                    end) ->
  wpo (m ≫= f) Q.
Proof.
  unfold wpo. rewrite wp_bind. apply wp_mono. intros t [a|e]; [|done].
  apply wp_mono. intros t' r'. by rewrite obs_app.
Qed.

Lemma wpo_attempt {A} (m : M A) (Q : list vis -> result (result A) -> Prop) :
  wpo m (fun l r => Q l (Ok r)) -> wpo (attempt m) Q.
Proof. unfold wpo. by rewrite wp_attempt. Qed.

Lemma wpo_finally {A} (m : M A) f (Q : list vis -> result A -> Prop) :
  wpo m (fun l r => wpo (f r) (fun l' r' => match r' with
                                            | Ok _ => Q (l ++ l')%list r
                                            | Raise e => Q (l ++ l')%list (Raise e)
                                            end)) ->
  wpo (finallyM m f) Q.
Proof.
  unfold wpo. rewrite wp_finally. apply wp_mono. intros t r. apply wp_mono.
  intros t' [[]|e]; by rewrite obs_app.
Qed.

(** Coroutines that show nothing; calm ones raise nothing but cancellation. *)
Definition silent {A} (m : M A) : Prop := wpo m (fun l _ => l = []).
Definition calm {A} (m : M A) : Prop :=
  wpo m (fun l r => l = [] /\ match r with Ok _ => True | Raise e => is_exception e = false end).

Lemma calm_silent {A} (m : M A) : calm m -> silent m.
Proof. intros H. eapply wpo_mono; [exact H|]. naive_solver. Qed.

Lemma silent_lift {A} (r : result A) : silent (liftM r).
Proof. done. Qed.
Lemma calm_ret {A} (a : A) : calm (mret a : M A).
Proof. done. Qed.

Lemma silent_bind {A B} (m : M A) (f : A -> M B) :
  silent m -> (forall a, silent (f a)) -> silent (m ≫= f).
Proof.
  intros Hm Hf. apply wpo_bind. eapply wpo_mono; [exact Hm|]. intros l [a|e] ->; [|done].
  eapply wpo_mono; [apply Hf|]. done.
Qed.

Lemma calm_bind {A B} (m : M A) (f : A -> M B) :
  calm m -> (forall a, calm (f a)) -> calm (m ≫= f).
Proof.
  intros Hm Hf. apply wpo_bind. eapply wpo_mono; [exact Hm|]. intros l [a|e] [-> He]; [|done].
  eapply wpo_mono; [apply Hf|]. done.
Qed.

Lemma calm_except {A} (m : M A) h : silent m -> (forall e, calm (h e)) -> calm (except m h).
Proof.
  intros Hm Hh. unfold calm, wpo. rewrite wp_except. eapply wp_mono; [|exact Hm]. cbn.
  intros t [a|e] Ht; [done|]. destruct (is_exception e) eqn:E; [|by split].
  eapply wp_mono; [|apply (Hh e)]. cbn. intros t' r. by rewrite obs_app, Ht.
Qed.

(** Sequencing after a calm coroutine. *)
Lemma wpo_calm_bind {A B} (m : M A) (f : A -> M B) (Q : list vis -> result B -> Prop) :
  calm m -> (forall a, wpo (f a) Q) -> (forall e, is_exception e = false -> Q [] (Raise e)) ->
  wpo (m ≫= f) Q.
Proof.
  intros Hm Hf Hc. apply wpo_bind. eapply wpo_mono; [exact Hm|]. intros l [a|e] [-> He]; cbn; auto.
Qed.

Lemma wpo_calm {A} (m : M A) (Q : list vis -> result A -> Prop) :
  calm m -> (forall a, Q [] (Ok a)) -> (forall e, is_exception e = false -> Q [] (Raise e)) ->
  wpo m Q.
Proof. intros Hm Hf Hc. eapply wpo_mono; [exact Hm|]. intros l [a|e] [-> He]; auto. Qed.

Lemma wpo_lift_bind {A B} (r : result A) (f : A -> M B) (Q : list vis -> result B -> Prop) :
  (forall a, r = Ok a -> wpo (f a) Q) -> (forall e, r = Raise e -> Q [] (Raise e)) ->
  wpo (liftM r ≫= f) Q.
Proof. intros Hf He. destruct r as [a|e]; cbn; [by apply Hf|by apply He]. Qed.

(** One effect, then the rest. *)
Lemma wpo_call_bind {X B} (e : eff (result X)) (f : X -> M B) (Q : list vis -> result B -> Prop) :
  (forall a, wpo (f a) (fun l r => Q (obs [Ev e (Ok a)] ++ l)%list r)) ->
  (forall x, Q (obs [Ev e (Raise x)]) (Raise x)) ->
  wpo (call e ≫= f) Q.
Proof.
  intros Hok Hr. apply wpo_bind. intros [a|x]; cbn; [|exact (Hr x)].
  eapply wpo_mono; [apply Hok|]. done.
Qed.

Lemma wpo_ask_bind {X B} (e : eff X) (f : X -> M B) (Q : list vis -> result B -> Prop) :
  (forall a, wpo (f a) (fun l r => Q (obs [Ev e a] ++ l)%list r)) -> wpo (ask e ≫= f) Q.
Proof. intros Hok. apply wpo_bind. intros a. cbn. eapply wpo_mono; [apply Hok|]. done. Qed.

#[export] Hint Resolve calm_silent silent_lift calm_ret : relayna.

Lemma wpo_ret {A} (a : A) (Q : list vis -> result A -> Prop) : Q [] (Ok a) -> wpo (mret a) Q.
Proof. done. Qed.

(** Acknowledgements and rejections. *)
Definition settlement (v : vis) : bool :=
  match v with VAck _ | VReject _ _ => true | _ => false end.
Definition unsettled (l : list vis) : bool := forallb (fun v => negb (settlement v)) l.
Definition settlements (l : list vis) : list vis := List.filter settlement l.

Lemma unsettled_app l1 l2 : unsettled (l1 ++ l2) = unsettled l1 && unsettled l2.
Proof. apply forallb_app. Qed.

Lemma unsettled_settlements l : unsettled l = true -> settlements l = [].
Proof.
  induction l as [|v l IH]; cbn; [done|]. intros [Hv Hl]%andb_true_iff.
  apply negb_true_iff in Hv. rewrite Hv. by apply IH.
Qed.

Lemma settlements_app l l' : settlements (l ++ l') = (settlements l ++ settlements l')%list.
Proof. apply List.filter_app. Qed.

(** ** Execution *)

Lemma run_bind {A B} w past (m : M A) (f : A -> M B) :
  run w past (m ≫= f) =
  match (run w past m).2 with
  | Ok a => ((run w past m).1 ++ (run w (past ++ (run w past m).1) (f a)).1,
             (run w (past ++ (run w past m).1) (f a)).2)%list
  | Raise e => ((run w past m).1, Raise e)
  end.
Proof.
  revert past. induction m as [[a|e]|X e k IH]; intros past.
  - cbn. rewrite app_nil_r. by destruct (run _ _ _).
  - done.
  - cbn. specialize (IH (w past X e) (past ++ [Ev e (w past X e)])%list).
    change (bindM (k (w past X e)) f) with (k (w past X e) ≫= f). rewrite IH.
    destruct (run w _ (k _)) as [t [a|x]]; cbn; [|done]. by rewrite <- app_assoc.
Qed.

Lemma run_attempt {A} w past (m : M A) :
  run w past (attempt m) = ((run w past m).1, Ok (run w past m).2).
Proof.
  revert past. induction m as [r|X e k IH]; intros past; cbn; [done|].
  rewrite IH. by destruct (run _ _ _).
Qed.

Lemma run_ask {X} w past (e : eff X) : run w past (ask e) = ([Ev e (w past X e)], Ok (w past X e)).
Proof. done. Qed.
Lemma run_call {X} w past (e : eff (result X)) : run w past (call e) = ([Ev e (w past _ e)], w past _ e).
Proof. done. Qed.

(** Properties of all traces, at an execution. *)
Lemma wpo_run {A} (m : M A) Q w past : wpo m Q -> Q (obs (run w past m).1) (run w past m).2.
Proof. intros H. exact (wp_run m (fun t r => Q (obs t) r) w past H). Qed.
