(* ===== verification/ConsumerContext.v ===== *)
(** * Consumer context (consumer/context.py)

    What the consumers share: message metadata read from AMQP headers, the
    headers of retried and dead-lettered messages, the task context handed to a
    handler, and the persistence of dead-letter records. *)

From S2P Require Import Prelude PyStr PyVal Contracts Transport DlqModels Effects.

(** ** Configuration and messages *)

(** [FailureAction], relayna/consumer/context.py:43-45. *)
Inductive FailureAction := FA_REJECT | FA_REQUEUE.
Definition failure_action_value (a : FailureAction) : string :=
  match a with FA_REJECT => "reject" | FA_REQUEUE => "requeue" end.

(** [LifecycleStatusConfig], relayna/consumer/context.py:48-54. *)
Record LifecycleStatusConfig := {
  lc_enabled : bool;
  processing_status : string;
  completed_status : string;
  failed_status : string;
  lc_include_error_message : bool }.

(** [RetryPolicy], relayna/consumer/context.py:57-63. *)
Record RetryPolicy := {
  rp_max_retries : Z;
  rp_delay_ms : Z;
  rp_retry_queue_suffix : string;
  rp_dead_letter_queue_suffix : string;
  rp_retry_priority_step : option Z }.

(** [RetryPolicy.__post_init__], relayna/consumer/context.py:65-67. *)
Definition __post_init__ (p : RetryPolicy) : result RetryPolicy :=
  match rp_retry_priority_step p with
  | Some step => if step <? 0
                 then Raise (value_error "retry_priority_step must be greater than or equal to 0")
                 else Ok p
  | None => Ok p
  end.

(** [RetryStatusConfig], relayna/consumer/context.py:70-75. *)
Record RetryStatusConfig := {
  rs_enabled : bool;
  retrying_status : string;
  dead_lettered_status : string;
  rs_include_error_message : bool }.

(** The attributes the code reads of an AMQP message. *)
Record message := {
  m_body : string;
  m_headers : pyval;
  m_correlation_id : option string;
  m_delivery_tag : option Z;
  m_redelivered : bool;
  m_content_type : option string }.

(** [_MessageMetadata], relayna/consumer/context.py:90-96. *)
Record MessageMetadata := {
  md_headers : pydict;
  md_correlation_id : option string;
  md_delivery_tag : option Z;
  md_redelivered : bool;
  md_content_type : option string;
  md_retry_attempt : Z }.

(** ** Reading headers *)

(** [except (TypeError, ValueError)] around [int(value)]. *)
(** [_retry_attempt_from_headers], relayna/consumer/context.py:506-512. *)
Definition int_or (value : pyval) (default : Z) : result Z :=
  match py_int value with
  | Ok z => Ok z
  | Raise e => match exn_class e with
               | XTypeError | XValueError => Ok default
               | _ => Raise e
               end
  end.

(** [_retry_attempt_from_headers], relayna/consumer/context.py:505-512. *)
Definition retry_attempt_from_headers (headers : pydict) : result Z :=
  match dgetv "x-relayna-retry-attempt" headers with
  | PNone => Ok 0
  | value => z ← int_or value 0; Ok (Z.max 0 z)
  end.

(** [_message_headers], relayna/consumer/context.py:482-486. *)
Definition message_headers (m : message) : pydict := from_opt [] (as_dict (m_headers m)).

(** [_extract_message_metadata], relayna/consumer/context.py:489-498. *)
Definition extract_message_metadata (m : message) : result MessageMetadata :=
  let headers := message_headers m in
  attempt ← retry_attempt_from_headers headers;
  Ok {| md_headers := headers; md_correlation_id := m_correlation_id m;
        md_delivery_tag := m_delivery_tag m; md_redelivered := m_redelivered m;
        md_content_type := m_content_type m; md_retry_attempt := attempt |}.

(** [_coerce_task_id], relayna/consumer/context.py:474-479. *)
Definition coerce_task_id (payload : pyval) : option string :=
  match payload with PDict d => as_str (dgetv "task_id" d) | _ => None end.

(** [_header_string], relayna/consumer/context.py:541-547. *)
Definition header_string (headers : pydict) (key : string) : option string :=
  match dgetv key headers with PStr s => nonempty (strip s) | _ => None end.

(** [_string_or_none], relayna/consumer/context.py:550-554. *)
Definition string_or_none (value : pyval) : option string :=
  match value with PNone => None | v => nonempty (strip (py_str v)) end.

(** [_header_int], relayna/consumer/context.py:557-564. *)
Definition header_int (headers : pydict) (key : string) : result (option Z) :=
  match dgetv key headers with
  | PNone => Ok None
  | value =>
      match py_int value with
      | Ok z => Ok (Some z)
      | Raise e => match exn_class e with XTypeError | XValueError => Ok None | _ => Raise e end
      end
  end.

(** [_manual_retry_count], relayna/consumer/context.py:567-568. *)
Definition manual_retry_count (headers : pydict) : result Z :=
  n ← header_int headers "x-relayna-manual-retry-count"; Ok (Z.max 0 (from_opt 0 n)).

(** [_coerce_non_negative_int], relayna/consumer/context.py:585-589. *)
Definition coerce_non_negative_int (value : pyval) (fallback : Z) : result Z :=
  z ← int_or value fallback; Ok (Z.max 0 z).

(** The lineage of a manual retry: count, previous task type, source consumer, reason. *)
Record lineage := Lineage {
  ln_count : Z;
  ln_previous_task_type : option string;
  ln_source_consumer : option string;
  ln_reason : option string }.

(** [_manual_retry_meta_from_status], relayna/consumer/context.py:571-582. *)
Definition manual_retry_meta_from_status (meta : pydict) : result lineage :=
  match dgetv "manual_retry" meta with
  | PDict mr =>
      count ← coerce_non_negative_int (dgetv "count" mr) 0;
      Ok (Lineage count (string_or_none (dgetv "previous_task_type" mr))
            (string_or_none (dgetv "source_consumer" mr)) (string_or_none (dgetv "reason" mr)))
  | _ => Ok (Lineage 0 None None None)
  end.

(** ** Writing headers *)

(** [_retry_headers], relayna/consumer/context.py:515-532. *)
Definition retry_headers (headers : pydict) (source_queue_name : string)
    (retry_attempt max_retries : Z) (reason : string) (exception_type : option string)
    (extra_headers : pydict) : pydict :=
  let h := dupdate headers extra_headers in
  let h := dset "x-relayna-retry-attempt" (PInt retry_attempt) h in
  let h := dset "x-relayna-max-retries" (PInt max_retries) h in
  let h := dset "x-relayna-source-queue" (PStr source_queue_name) h in
  let h := dset "x-relayna-failure-reason" (PStr reason) h in
  dset "x-relayna-exception-type" (opt_str exception_type) h.

(** [_retry_priority], relayna/consumer/context.py:535-538. *)
Definition retry_priority (policy : option RetryPolicy) (retry_attempt : Z) : option Z :=
  match policy with
  | None => None
  | Some p => match rp_retry_priority_step p with
              | None => None
              | Some step => Some (Z.min (retry_attempt * step) 255)
              end
  end.

Definition retry_header_keys : list string :=
  ["x-relayna-retry-attempt"; "x-relayna-max-retries"; "x-relayna-source-queue";
   "x-relayna-failure-reason"; "x-relayna-exception-type"; "x-relayna-manual-retry-count";
   "x-relayna-manual-retry-from-task-type"; "x-relayna-manual-retry-source-consumer";
   "x-relayna-manual-retry-reason"].

(** [if value: d[key] = value] *)
Definition dset_if (key : string) (value : option string) (d : pydict) : pydict :=
  match value with
  | Some s => if String.eqb s "" then d else dset key (PStr s) d
  | None => d
  end.

(** [_manual_retry_headers], relayna/consumer/context.py:603-637. *)
Definition manual_retry_headers (headers : pydict) (manual_retry_count : Z)
    (previous_task_type : option string) (source_consumer : string) (reason : option string)
    (task_id : string) (extra_headers : option pydict) : pydict :=
  let h := List.filter (fun kv => negb (str_in kv.1 retry_header_keys)) headers in
  let h := dset "task_id" (PStr task_id) h in
  let h := dset "x-relayna-manual-retry-count" (PInt manual_retry_count) h in
  let h := dset "x-relayna-manual-retry-source-consumer" (PStr source_consumer) h in
  let h := dset_if "x-relayna-manual-retry-from-task-type" previous_task_type h in
  let h := dset_if "x-relayna-manual-retry-reason" reason h in
  dupdate h (from_opt [] extra_headers).

(** [_manual_retry_status_meta], relayna/consumer/context.py:653-675. *)
Definition manual_retry_status_meta (manual_retry_count : Z) (previous_task_type : option string)
    (source_consumer : string) (reason target_task_type : option string)
    (extra_meta : option pydict) : pydict :=
  let merged := from_opt [] extra_meta in
  let mr := [("count", PInt manual_retry_count); ("source_consumer", PStr source_consumer)] in
  let mr := dset_if "previous_task_type" previous_task_type mr in
  let mr := dset_if "reason" reason mr in
  let mr := dset_if "target_task_type" target_task_type mr in
  match dgetv "manual_retry" merged with
  | PDict existing => dset "manual_retry" (PDict (dupdate mr existing)) merged
  | _ => dset "manual_retry" (PDict mr) merged
  end.

(** [_failure_message], relayna/consumer/context.py:678-683. *)
Definition failure_message (e : exn) (include_error_message : bool) : string :=
  if include_error_message then from_opt "Task processing failed." (nonempty (strip (exn_text e)))
  else "Task processing failed.".

(** [_normalize_payload], relayna/consumer/context.py:686-689. *)
Definition normalize_payload (payload : pyval) (c : option ContractAliasConfig) : pyval :=
  match payload with PDict d => PDict (normalize_contract_aliases d c) | v => v end.

(** [_normalize_batch_payload], relayna/consumer/context.py:692-697. *)
Definition normalize_batch_payload (payload : pydict) (c : option ContractAliasConfig) : pydict :=
  let normalized := normalize_contract_aliases payload c in
  match dgetv "tasks" normalized with
  | PList tasks => dset "tasks" (PList (map (fun t => normalize_payload t c) tasks)) normalized
  | _ => normalized
  end.

(** ** The task context *)

(** [TaskContext], relayna/consumer/context.py:99-120.  The pending manual-retry
    request is part of the handler's outcome in [Effects]. *)
Record TaskContext := {
  tc_consumer_name : string;
  tc_raw_payload : pydict;
  tc_correlation_id : option string;
  tc_delivery_tag : option Z;
  tc_redelivered : bool;
  tc_task_id : string;
  tc_retry_attempt : Z;
  tc_max_retries : option Z;
  tc_source_queue_name : option string;
  tc_batch_id : option string;
  tc_batch_index : option Z;
  tc_batch_size : option Z;
  tc_headers : pydict;
  tc_is_task_context : bool;
  tc_manual_retry_count : Z;
  tc_manual_retry_previous_task_type : option string;
  tc_manual_retry_source_consumer : option string;
  tc_manual_retry_reason : option string }.

(** [_merge_batch_retry_headers], relayna/consumer/context.py:592-600. *)
Definition merge_batch_retry_headers (c : TaskContext) (headers : option pydict) : pydict :=
  let set_opt k v d := match v with Some x => dset k x d | None => d end in
  let h := from_opt [] headers in
  let h := set_opt "batch_id" (PStr <$> tc_batch_id c) h in
  let h := set_opt "batch_index" (PInt <$> tc_batch_index c) h in
  set_opt "batch_size" (PInt <$> tc_batch_size c) h.

(** [_manual_retry_context_meta], relayna/consumer/context.py:640-650.  The inner dict;
    empty when the context has no lineage. *)
Definition manual_retry_context_meta (c : TaskContext) : pydict :=
  let mr := [("count", PInt (tc_manual_retry_count c))] in
  let mr := dset_if "previous_task_type" (tc_manual_retry_previous_task_type c) mr in
  let mr := dset_if "source_consumer" (tc_manual_retry_source_consumer c) mr in
  let mr := dset_if "reason" (tc_manual_retry_reason c) mr in
  if (Z.of_nat (length mr) =? 1) && (tc_manual_retry_count c =? 0) then [] else mr.

(** [TaskContext._merge_status_meta], relayna/consumer/context.py:289-304. *)
Definition merge_status_meta (c : TaskContext) (meta : option pydict) : result pydict :=
  let merged := from_opt [] meta in
  match manual_retry_context_meta c with
  | [] => Ok merged
  | lineage =>
      match dgetv "manual_retry" merged with
      | PDict existing =>
          let mr := dupdate lineage existing in
          count ← coerce_non_negative_int (dgetv "count" mr) (tc_manual_retry_count c);
          Ok (dset "manual_retry" (PDict (dset "count" (PInt count) mr)) merged)
      | _ => Ok (dset "manual_retry" (PDict lineage) merged)
      end
  end.

(** The arguments of the publish methods. *)
Record status_args := {
  sa_status : option string;
  sa_message : option string;
  sa_meta : option pydict;
  sa_result : option pydict;
  sa_event_id : option string;
  sa_service : option string }.

Definition status_only (status message : string) (meta : option pydict) : status_args :=
  {| sa_status := Some status; sa_message := Some message; sa_meta := meta; sa_result := None;
     sa_event_id := None; sa_service := None |}.

(** Either an event or keyword fields. *)
(** [publish_status], relayna/consumer/context.py:133-136. *)
Definition check_status_args (event : option StatusEventEnvelope) (a : status_args) : result unit :=
  match event, sa_status a with
  | Some _, Some _ =>
      Raise (value_error "Pass either a StatusEventEnvelope or keyword fields, not both.")
  | None, None => Raise (value_error "status is required when event is not provided.")
  | _, _ => Ok tt
  end.

(** [StatusEventEnvelope(...)] with the default timestamp and spec version. *)
(** [publish_status], relayna/consumer/context.py:138-149. *)
Definition new_status_event (now : Z) (task_id : string) (correlation_id : option string)
    (meta : pydict) (a : status_args) : StatusEventEnvelope :=
  {| se_task_id := task_id; se_status := from_opt "" (sa_status a); se_timestamp := now;
     se_message := sa_message a; se_meta := meta; se_result := sa_result a;
     se_correlation_id := correlation_id; se_event_id := sa_event_id a;
     se_service := sa_service a; se_spec_version := "1.0"; se_extra := [] |}.

(** [event.model_copy(update={"task_id", "correlation_id", "meta"})] *)
(** [publish_status], relayna/consumer/context.py:150-157. *)
Definition readdress (e : StatusEventEnvelope) (task_id : string) (correlation_id : option string)
    (meta : pydict) : StatusEventEnvelope :=
  {| se_task_id := task_id; se_status := se_status e; se_timestamp := se_timestamp e;
     se_message := se_message e; se_meta := meta; se_result := se_result e;
     se_correlation_id := opt_or (se_correlation_id e) correlation_id;
     se_event_id := se_event_id e; se_service := se_service e;
     se_spec_version := se_spec_version e; se_extra := se_extra e |}.

(** [TaskContext.publish_status], relayna/consumer/context.py:122-159. *)
Definition publish_status (c : TaskContext) (event : option StatusEventEnvelope) (a : status_args) :
    M unit :=
  _ ← liftM (check_status_args event a);
  payload_meta ← liftM (merge_status_meta c (sa_meta a));
  match event with
  | None =>
      now ← ask ENow;
      call (EPublishStatus (new_status_event now (tc_task_id c) (tc_correlation_id c) payload_meta a))
  | Some e =>
      meta ← liftM (merge_status_meta c (Some (se_meta e)));
      call (EPublishStatus (readdress e (tc_task_id c) (tc_correlation_id c) meta))
  end.

(** [TaskContext.publish_aggregation_status], relayna/consumer/context.py:161-198. *)
Definition publish_aggregation_status (c : TaskContext) (event : option StatusEventEnvelope)
    (a : status_args) : M unit :=
  _ ← liftM (check_status_args event a);
  payload_meta ← liftM (merge_status_meta c (sa_meta a));
  match event with
  | None =>
      now ← ask ENow;
      call (EPublishAggregation
              (new_status_event now (tc_task_id c) (tc_correlation_id c) payload_meta a))
  | Some e =>
      call (EPublishAggregation
              (readdress e (tc_task_id c) (tc_correlation_id c) (dupdate payload_meta (se_meta e))))
  end.

(** The arguments of [TaskContext.manual_retry]. *)
(** [manual_retry], relayna/consumer/context.py:200-214. *)
Record manual_retry_args := {
  ma_task_type : option string;
  ma_payload : option pydict;
  ma_payload_merge : option pydict;
  ma_service : option string;
  ma_correlation_id : option string;
  ma_priority : option Z;
  ma_reason : option string;
  ma_message : option string;
  ma_meta : option pydict;
  ma_headers : option pydict;
  ma_extra_fields : option pydict }.

(** [manual_retry], relayna/consumer/context.py:245-254. *)
Definition reserved_fields : list string :=
  ["task_id"; "correlation_id"; "task_type"; "service"; "payload"; "priority"; "spec_version";
   "created_at"].

(** [manual_retry], relayna/consumer/context.py:263-264. *)
Definition task_type_of (d : pydict) : option string :=
  nonempty (strip (py_str (py_or (dgetv "task_type" d) (PStr "")))).

Section manual_retry.
Context `{Pydantic}.

(** The body of [manual_retry] between its two validations. *)
(** [manual_retry], relayna/consumer/context.py:225-259. *)
Definition manual_retry_task (c : TaskContext) (a : manual_retry_args) (current : pydict) :
    result pydict :=
  let next := dset "task_id" (PStr (tc_task_id c)) current in
  let next := dset "correlation_id"
    (if opt_truthy (ma_correlation_id a) then opt_str (ma_correlation_id a)
     else if opt_truthy (tc_correlation_id c) then opt_str (tc_correlation_id c)
     else dgetv "correlation_id" current) next in
  let next := match ma_priority a with Some p => dset "priority" (PInt p) next | None => next end in
  next ← match ma_task_type a with
         | Some t => let t := strip t in
                     if String.eqb t "" then
                       Raise (value_error "task_type must not be empty when provided")
                     else Ok (dset "task_type" (PStr t) next)
         | None => Ok next
         end;
  let next := match ma_service a with Some s => dset "service" (PStr s) next | None => next end in
  let next := match ma_payload a, ma_payload_merge a with
              | Some p, _ => dset "payload" (PDict p) next
              | None, Some m => dset "payload"
                  (PDict (dupdate (from_opt [] (as_dict (dgetv "payload" next))) m)) next
              | None, None => next
              end in
  match ma_extra_fields a with
  | None => Ok next
  | Some fields =>
      match sorted_strs (List.filter (fun k => str_in k reserved_fields) (dkeys fields)) with
      | [] => Ok (dupdate next fields)
      | conflicting =>
          Raise (value_error ("extra_fields contains reserved key(s): " +:+ join ", " conflicting))
      end
  end.

(** [TaskContext.manual_retry], relayna/consumer/context.py:200-287.  The request left in
    the context; the method then raises [_ManualRetryRequested]. *)
Definition manual_retry (c : TaskContext) (a : manual_retry_args) : result ManualRetryRequest :=
  if bool_decide (is_Some (ma_payload a)) && bool_decide (is_Some (ma_payload_merge a)) then
    Raise (value_error "Pass either payload or payload_merge, not both.")
  else if negb (tc_is_task_context c) then
    Raise (value_error "manual_retry requires a task envelope context")
  else
    match task_validate (PDict (tc_raw_payload c)) with
    | None => Raise (value_error "manual_retry requires a task envelope context")
    | Some t =>
        let current := task_dump t in
        next_task ← manual_retry_task c a current;
        match task_validate (PDict next_task) with
        | None => Raise (Exn XValidationError "ValidationError" "TaskEnvelope")
        | Some t' =>
            let prepared := task_dump t' in
            let next_count := tc_manual_retry_count c + 1 in
            let previous_task_type := task_type_of current in
            Ok {| mr_task := prepared;
                  mr_headers := manual_retry_headers (tc_headers c) next_count previous_task_type
                    (tc_consumer_name c) (ma_reason a) (tc_task_id c) (ma_headers a);
                  mr_status_message := from_opt "Task handed off for manual retry."
                    (opt_or (ma_message a) (if opt_truthy (ma_reason a) then ma_reason a else None));
                  mr_status_meta := manual_retry_status_meta next_count previous_task_type
                    (tc_consumer_name c) (ma_reason a) (task_type_of prepared) (ma_meta a) |}
        end
    end.

End manual_retry.

(** ** Observations and dead-letter records *)

(** [emit_observation], relayna/observability/events.py:21-27. *)
Definition emit_observation (has_sink : bool) (o : observation) : M unit :=
  if has_sink then except (call (EObserve o)) (fun _ => mret tt) else mret tt.

Section persist.
Context `{Transport}.

(** [_persist_dlq_record], relayna/consumer/context.py:704-761. *)
Definition persist_dlq_record (has_store has_sink : bool)
    (consumer_name queue_name source_queue_name retry_queue_name : string)
    (task_id correlation_id : option string) (reason : string) (exception_type : option string)
    (retry_attempt max_retries : Z) (headers : pydict) (content_type : option string)
    (body : string) (exception_message : option string) : M unit :=
  if negb has_store then mret tt
  else
    except
      (now ← ask ENow;
       record ← liftM (build_dlq_record now queue_name source_queue_name retry_queue_name task_id
         correlation_id reason exception_type retry_attempt max_retries headers content_type body
         (Some consumer_name) exception_message);
       call (EDlqAdd record))
      (fun e =>
         emit_observation has_sink (Obs "ConsumerDLQRecordPersistFailed"
           [("consumer_name", PStr consumer_name); ("task_id", opt_str task_id);
            ("queue_name", PStr queue_name); ("source_queue_name", PStr source_queue_name);
            ("retry_attempt", PInt retry_attempt); ("max_retries", PInt max_retries);
            ("reason", PStr reason); ("exception_type", PStr (exn_type e));
            ("exception_message", PStr (exn_text e))])).

End persist.

(** ** What these coroutines show *)

Lemma obs_one {X} (e : eff X) x :
  obs [Ev e x] = match visible (Ev e x) with Some v => [v] | None => [] end.
Proof. done. Qed.

Lemma silent_ask {X} (e : eff X) : (forall x, visible (Ev e x) = None) -> silent (ask e).
Proof. intros H x. change (obs [Ev e x] = []). by rewrite obs_one, H. Qed.

Lemma silent_call {X} (e : eff (result X)) : (forall x, visible (Ev e x) = None) -> silent (call e).
Proof. intros H x. change (obs [Ev e x] = []). by rewrite obs_one, H. Qed.

Lemma calm_ask {X} (e : eff X) : (forall x, visible (Ev e x) = None) -> calm (ask e).
Proof. intros H x. change (obs [Ev e x] = [] /\ True). by rewrite obs_one, H. Qed.

Lemma calm_when b m : calm m -> calm (whenM b m).
Proof. by destruct b. Qed.

Lemma silent_publish_status c ev a : silent (publish_status c ev a).
Proof.
  apply silent_bind; [apply silent_lift|]. intros _. apply silent_bind; [apply silent_lift|].
  intros meta. destruct ev as [e|].
  - apply silent_bind; [apply silent_lift|]. intros. by apply silent_call.
  - apply silent_bind; [by apply silent_ask|]. intros. by apply silent_call.
Qed.

Lemma calm_emit has_sink o : calm (emit_observation has_sink o).
Proof.
  destruct has_sink; [|apply calm_ret]. apply calm_except; [by apply silent_call|].
  intros. apply calm_ret.
Qed.

Lemma calm_persist `{Transport} st sk cn q s r tid cid re et a mx h ct body em :
  calm (persist_dlq_record st sk cn q s r tid cid re et a mx h ct body em).
Proof.
  destruct st; [|apply calm_ret]. apply calm_except; [|intros; apply calm_emit].
  apply silent_bind; [by apply silent_ask|]. intros now.
  apply silent_bind; [apply silent_lift|]. intros. by apply silent_call.
Qed.

#[export] Hint Resolve silent_publish_status calm_emit calm_persist calm_when : relayna.

(** ** Header lemmas *)

(** What the next delivery reads back of a retried message. *)
Lemma retry_headers_attempt h s a m r e x : 0 <= a ->
  retry_attempt_from_headers (retry_headers h s a m r e x) = Ok a.
Proof.
  intros Ha. unfold retry_attempt_from_headers, retry_headers, dgetv.
  do 4 (rewrite dget_dset_ne by discriminate). rewrite dget_dset_eq. cbn.
  by rewrite Z.max_r.
Qed.

Lemma retry_attempt_nonneg h a : retry_attempt_from_headers h = Ok a -> 0 <= a.
Proof.
  unfold retry_attempt_from_headers. intros E. repeat case_hyp E; try congruence;
    try (apply result_bind_ok in E as (z & _ & E)); injection E as <-; lia.
Qed.

Lemma retry_priority_bound p a n : 0 <= a ->
  (forall q s, p = Some q -> rp_retry_priority_step q = Some s -> 0 <= s) ->
  retry_priority p a = Some n -> 0 <= n <= 255.
Proof.
  intros Ha Hs. unfold retry_priority. destruct p as [q|]; [|done].
  destruct (rp_retry_priority_step q) as [s|] eqn:E; [|done]. intros [= <-].
  specialize (Hs q s eq_refl E). nia.
Qed.
