(* ===== verification/DlqService.v ===== *)
(** * Replaying and reviewing dead letters (dlq/service.py)

    [DLQService] over the store and the broker: its state is the Redis state
    and the messages published so far.  A publish is one awaited call; refused,
    it sent nothing, unanswered, it was sent without a confirmation. *)

From stdpp Require Import countable.
From S2P Require Import Prelude PyStr PyVal Codec Contracts Redis RedisProg Transport PyTime.
From S2P Require Import DlqModels DlqStore Effects ConsumerContext.

(** ** Views of a record *)

(** [DLQMessageSummary], relayna/dlq/models.py:127-144. *)
Record DLQMessageSummary := {
  ms_dlq_id : string; ms_queue_name : string; ms_source_queue_name : string;
  ms_retry_queue_name : string; ms_task_id : option string; ms_correlation_id : option string;
  ms_reason : string; ms_exception_type : option string; ms_retry_attempt : Z; ms_max_retries : Z;
  ms_content_type : option string; ms_body_encoding : string; ms_dead_lettered_at : Z;
  ms_state : DLQRecordState; ms_replay_count : Z; ms_replayed_at : option Z;
  ms_replay_target_queue_name : option string }.

(** [_summary], relayna/dlq/service.py:396-415. *)
Definition summary (r : DLQRecord) : DLQMessageSummary :=
  {| ms_dlq_id := dr_dlq_id r; ms_queue_name := dr_queue_name r;
     ms_source_queue_name := dr_source_queue_name r; ms_retry_queue_name := dr_retry_queue_name r;
     ms_task_id := dr_task_id r; ms_correlation_id := dr_correlation_id r; ms_reason := dr_reason r;
     ms_exception_type := dr_exception_type r; ms_retry_attempt := dr_retry_attempt r;
     ms_max_retries := dr_max_retries r; ms_content_type := dr_content_type r;
     ms_body_encoding := dr_body_encoding r; ms_dead_lettered_at := dr_dead_lettered_at r;
     ms_state := dr_state r; ms_replay_count := dr_replay_count r; ms_replayed_at := dr_replayed_at r;
     ms_replay_target_queue_name := dr_replay_target_queue_name r |}.

(** [FailedTaskSummary], relayna/dlq/models.py:147-174. *)
Record FailedTaskSummary := {
  ft_failure_id : string; ft_service_name : option string; ft_task_id : option string;
  ft_correlation_id : option string; ft_queue_name : string; ft_source_queue_name : string;
  ft_retry_queue_name : string; ft_dlq_name : string; ft_status : string; ft_attempt : Z;
  ft_max_attempts : Z; ft_failed_at : Z; ft_error_type : option string;
  ft_error_message : option string; ft_worker_id : option string; ft_runtime_name : option string;
  ft_runtime_version : option string; ft_investigation_status : FailedTaskInvestigationStatus;
  ft_investigated_at : option Z; ft_investigated_by : option string;
  ft_retry_status : FailedTaskRetryStatus; ft_retried_at : option Z; ft_retried_by : option string;
  ft_retried_task_id : option string; ft_retry_target_queue : option string;
  ft_payload_available : bool }.

(** [_failed_summary], relayna/dlq/service.py:417-445. *)
Definition failed_summary (r : DLQRecord) : FailedTaskSummary :=
  {| ft_failure_id := if opt_truthy (dr_failure_id r) then from_opt "" (dr_failure_id r)
                      else dr_dlq_id r;
     ft_service_name := dr_service_name r; ft_task_id := dr_task_id r;
     ft_correlation_id := dr_correlation_id r; ft_queue_name := dr_source_queue_name r;
     ft_source_queue_name := dr_source_queue_name r; ft_retry_queue_name := dr_retry_queue_name r;
     ft_dlq_name := dr_queue_name r; ft_status := dr_status r; ft_attempt := dr_retry_attempt r;
     ft_max_attempts := dr_max_retries r; ft_failed_at := failed_score r;
     ft_error_type := dr_exception_type r;
     ft_error_message := opt_or (dr_exception_message r) (Some (dr_reason r));
     ft_worker_id := dr_worker_id r; ft_runtime_name := dr_runtime_name r;
     ft_runtime_version := dr_runtime_version r;
     ft_investigation_status := dr_investigation_status r;
     ft_investigated_at := dr_investigated_at r; ft_investigated_by := dr_investigated_by r;
     ft_retry_status := dr_retry_status r; ft_retried_at := dr_retried_at r;
     ft_retried_by := dr_retried_by r; ft_retried_task_id := dr_retried_task_id r;
     ft_retry_target_queue := dr_retry_target_queue r;
     ft_payload_available := dr_payload_available r |}.

(** [FailedTaskDetail], relayna/dlq/models.py:177-193.  The fields it copies from the record are
    the record. *)
Record FailedTaskDetail := {
  fd_summary : FailedTaskSummary; fd_record : DLQRecord; fd_last_logs : list pydict;
  fd_latest_status : option pydict; fd_status_history : list pydict }.

(** [FailedTaskRetryRequest], relayna/dlq/models.py:207-211. *)
Record FailedTaskRetryRequest := {
  rr_target_queue : option string; rr_override_payload : pyval;
  rr_retried_by : option string; rr_note : option string }.

(** [FailedTaskRetryResult], relayna/dlq/models.py:214-220. *)
Record FailedTaskRetryResult := {
  rt_failure_id : string; rt_target_queue : string; rt_retry_status : FailedTaskRetryStatus;
  rt_retried_at : Z; rt_retried_by : option string; rt_retried_task_id : option string }.

(** [DLQReplayResult], relayna/dlq/models.py:264-270. *)
Record DLQReplayResult := {
  rs_dlq_id : string; rs_target_queue_name : string; rs_state : DLQRecordState;
  rs_replayed_at : Z; rs_replay_count : Z; rs_forced : bool }.

(** [FailedTaskRetryRejected], relayna/dlq/models.py:279-283. *)
Definition retry_rejected (code detail : string) : exn :=
  Exn XRetryRejected "FailedTaskRetryRejected" detail.

(** [record.model_copy(update=...)] of the review fields. *)
Definition with_review (r : DLQRecord) (investigation : FailedTaskInvestigationStatus)
    (investigated_at : option Z) (investigated_by investigation_note : option string)
    (retry : FailedTaskRetryStatus) (retried_at : option Z)
    (retried_by retried_task_id retry_target_queue retry_note : option string) : DLQRecord :=
  {| dr_dlq_id := dr_dlq_id r; dr_failure_id := dr_failure_id r; dr_queue_name := dr_queue_name r;
     dr_source_queue_name := dr_source_queue_name r; dr_retry_queue_name := dr_retry_queue_name r;
     dr_task_id := dr_task_id r; dr_correlation_id := dr_correlation_id r;
     dr_service_name := dr_service_name r; dr_reason := dr_reason r;
     dr_exception_type := dr_exception_type r; dr_exception_message := dr_exception_message r;
     dr_retry_attempt := dr_retry_attempt r; dr_max_retries := dr_max_retries r;
     dr_headers := dr_headers r; dr_content_type := dr_content_type r; dr_body := dr_body r;
     dr_body_encoding := dr_body_encoding r; dr_raw_body_b64 := dr_raw_body_b64 r;
     dr_dead_lettered_at := dr_dead_lettered_at r; dr_state := dr_state r;
     dr_replay_count := dr_replay_count r; dr_replayed_at := dr_replayed_at r;
     dr_replay_target_queue_name := dr_replay_target_queue_name r; dr_diagnosis := dr_diagnosis r;
     dr_failed_at := dr_failed_at r; dr_status := dr_status r; dr_traceback := dr_traceback r;
     dr_worker_id := dr_worker_id r; dr_runtime_name := dr_runtime_name r;
     dr_runtime_version := dr_runtime_version r; dr_input_preview := dr_input_preview r;
     dr_metadata := dr_metadata r; dr_last_logs := dr_last_logs r;
     dr_payload_available := dr_payload_available r; dr_investigation_status := investigation;
     dr_investigated_at := investigated_at; dr_investigated_by := investigated_by;
     dr_investigation_note := investigation_note; dr_retry_status := retry;
     dr_retried_at := retried_at; dr_retried_by := retried_by; dr_retried_task_id := retried_task_id;
     dr_retry_target_queue := retry_target_queue; dr_retry_note := retry_note |}.

(** ** The service *)

(** The headers of a replayed message. *)
(** [replay_message], relayna/dlq/service.py:161-173. *)
Definition replay_headers (record : DLQRecord) (replayed_at : Z) : pydict :=
  let keep from to h := if din from h then dset to (dgetv from h) h else h in
  let h := dr_headers record in
  let h := keep "x-relayna-retry-attempt" "x-relayna-original-retry-attempt" h in
  let h := keep "x-relayna-failure-reason" "x-relayna-original-failure-reason" h in
  let h := keep "x-relayna-exception-type" "x-relayna-original-exception-type" h in
  let h := dset "x-relayna-replayed-from-dlq" (PBool true) h in
  let h := dset "x-relayna-dlq-id" (PStr (dr_dlq_id record)) h in
  let h := dset "x-relayna-replayed-at" (PStr (isoformat replayed_at)) h in
  let h := dset "x-relayna-retry-attempt" (PInt 0) h in
  dpop "x-relayna-exception-type" (dpop "x-relayna-failure-reason" h).

(** The headers of a manual retry. *)
(** [retry_failed_task], relayna/dlq/service.py:334-339. *)
Definition manual_retry_headers (record : DLQRecord) (failure_id : string) (retried_at : Z) : pydict :=
  let h := dset "x-relayna-manual-retry-from-failure-id" (PStr failure_id) (dr_headers record) in
  let h := dset "x-relayna-manual-retry-at" (PStr (isoformat retried_at)) h in
  let h := dset "x-relayna-retry-attempt" (PInt 0) h in
  dpop "x-relayna-exception-type" (dpop "x-relayna-failure-reason" h).

(** [base64.b64decode(record.raw_body_b64.encode("ascii"))] *)
(** [_retry_payload_bytes], relayna/dlq/service.py:448-450. *)
Definition stored_body (record : DLQRecord) : result string :=
  match b64decode (dr_raw_body_b64 record) with
  | Some body => Ok body
  | None => Raise (Exn XValueError "Error" "Incorrect padding")
  end.

(** [_task_id_from_payload], relayna/dlq/service.py:456-461. *)
Definition task_id_from_payload (payload : pyval) : option string :=
  match payload with
  | PDict d => match dgetv "task_id" d with PNone => None | v => Some (py_str v) end
  | _ => None
  end.

Section service.
Context {R : Type} `{Redis R} `{JsonModel DLQRecord} `{Transport}.
Context (prefix : string) (ttl_seconds : option Z).
(** The status store, when configured: [get_latest] and [get_history]. *)
Context (status_store : option ((string -> R -> result (option pydict)) *
                                (string -> R -> result (list pydict)))).

Notation Svc := (R * list raw_publish)%type.

Definition on_redis {A} (m : P R A) : P Svc A := fun s fs =>
  match m s.1 fs with (r, fs, x) => ((r, s.2), fs, x) end.

(** [rabbitmq.publish_raw_to_queue(...)] *)
Definition send (p : raw_publish) : P Svc unit := await_ (fun s => (s.1, (s.2 ++ [p])%list)).

(** [_retry_payload_bytes], relayna/dlq/service.py:448-453. *)
Definition retry_payload_bytes (record : DLQRecord) (override : pyval) : result string :=
  match override with
  | PNone => stored_body record
  | PStr s => Ok (utf8 s)
  | v => Ok (encode_transport_json v)
  end.

(** [replay_message], relayna/dlq/service.py:176-182. *)
Definition replay_publish (record : DLQRecord) (replayed_at : Z) (body : string) : raw_publish :=
  RawPublish (dr_retry_queue_name record) body (dr_correlation_id record)
    (replay_headers record replayed_at) None (dr_content_type record).

(** [replay_message], relayna/dlq/service.py:154-199.  The claim, the replay and the release
    happen at times of their own. *)
Definition replay_message (t_claim t_replay t_release : Z) (dlq_id : string) (force : bool) :
    P Svc (option DLQReplayResult) :=
  record ← on_redis (claim_replay prefix t_claim dlq_id force);
  match record with
  | None => _ ← on_redis (release_replay_claim prefix t_release dlq_id); mret None
  | Some rec =>
      finallyP
        (body ← liftP (stored_body rec);
         _ ← send (replay_publish rec t_replay body);
         updated ← on_redis (mark_replayed prefix ttl_seconds t_replay (dr_dlq_id rec) t_replay
                               (dr_retry_queue_name rec));
         match updated with
         | None => mret None
         | Some u =>
             mret (Some {| rs_dlq_id := dr_dlq_id u; rs_target_queue_name := dr_retry_queue_name u;
                           rs_state := dr_state u;
                           rs_replayed_at := from_opt t_replay (dr_replayed_at u);
                           rs_replay_count := dr_replay_count u; rs_forced := force |})
         end)
        (on_redis (release_replay_claim prefix t_release dlq_id))
  end.

(** [get_failed_task_detail], relayna/dlq/service.py:233-264. *)
Definition get_failed_task_detail (now : Z) (failure_id : string) : P R (option FailedTaskDetail) :=
  record ← get prefix now failure_id;
  match record with
  | None => mret None
  | Some rec =>
      '(latest, history, logs) ←
        match status_store, dr_task_id rec with
        | Some (get_latest, get_history), Some t =>
            if String.eqb t "" then mret (None, [], dr_last_logs rec) else
            latest ← await_read (get_latest t); latest ← liftP latest;
            history ← await_read (get_history t); history ← liftP history;
            mret (latest, history, match dr_last_logs rec with
                                   | [] => drop (length history - 100) history
                                   | logs => logs
                                   end)
        | _, _ => mret (None, [], dr_last_logs rec)
        end;
      mret (Some {| fd_summary := failed_summary rec; fd_record := rec; fd_last_logs := logs;
                    fd_latest_status := latest; fd_status_history := history |})
  end.

(** [mark_failed_task_investigated], relayna/dlq/service.py:266-285. *)
Definition mark_failed_task_investigated (now : Z) (failure_id : string)
    (investigated_by note : option string) : P R (option FailedTaskDetail) :=
  record ← get prefix now failure_id;
  match record with
  | None => mret None
  | Some rec =>
      _ ← update prefix ttl_seconds now (with_review rec INVESTIGATED (Some now)
            (opt_or investigated_by (Some "operator")) note (dr_retry_status rec) (dr_retried_at rec)
            (dr_retried_by rec) (dr_retried_task_id rec) (dr_retry_target_queue rec) (dr_retry_note rec));
      get_failed_task_detail now failure_id
  end.

(** [mark_failed_task_uninvestigated], relayna/dlq/service.py:287-300. *)
Definition mark_failed_task_uninvestigated (now : Z) (failure_id : string) :
    P R (option FailedTaskDetail) :=
  record ← get prefix now failure_id;
  match record with
  | None => mret None
  | Some rec =>
      _ ← update prefix ttl_seconds now (with_review rec UNREVIEWED None None None
            (dr_retry_status rec) (dr_retried_at rec) (dr_retried_by rec) (dr_retried_task_id rec)
            (dr_retry_target_queue rec) (dr_retry_note rec));
      get_failed_task_detail now failure_id
  end.

(** [delete_failed_task], relayna/dlq/service.py:302-303. *)
Definition delete_failed_task (now : Z) (failure_id : string) : P R bool :=
  delete_record prefix now failure_id.

(** [retry_failed_task], relayna/dlq/service.py:341-347. *)
Definition retry_publish (record : DLQRecord) (failure_id : string) (now : Z) (target body : string) :
    raw_publish :=
  RawPublish target body (dr_correlation_id record) (manual_retry_headers record failure_id now) None
    (dr_content_type record).

(** The check that allows a manual retry, relayna/dlq/service.py:313-328. *)
(** [retry_failed_task], relayna/dlq/service.py:313-328. *)
Definition retry_allowed (record : DLQRecord) : result unit :=
  if negb (str_in (dr_status record) ["DLQ"; "retry_exhausted"; "terminal_failed"])
  then Raise (retry_rejected "manual_retry_not_allowed"
    "Manual retry is only allowed after the task exceeds max attempts and reaches DLQ/retry_exhausted state.")
  else if negb (dr_payload_available record) || String.eqb (dr_raw_body_b64 record) ""
  then Raise (retry_rejected "manual_retry_payload_unavailable"
    "Manual retry is blocked because the original payload is unavailable.")
  else Ok tt.

(** [retry_failed_task], relayna/dlq/service.py:305-370. *)
Definition retry_failed_task (now : Z) (failure_id : string) (request : option FailedTaskRetryRequest) :
    P Svc (option FailedTaskRetryResult) :=
  record ← on_redis (get prefix now failure_id);
  match record with
  | None => mret None
  | Some rec =>
      _ ← liftP (retry_allowed rec);
      let request := from_opt (Build_FailedTaskRetryRequest None PNone None None) request in
      let target := if opt_truthy (rr_target_queue request)
                    then from_opt "" (rr_target_queue request) else dr_source_queue_name rec in
      body ← liftP (retry_payload_bytes rec (rr_override_payload request));
      _ ← send (retry_publish rec failure_id now target body);
      let task := match rr_override_payload request with
                  | PNone => dr_task_id rec
                  | payload => task_id_from_payload payload
                  end in
      let by_ := opt_or (rr_retried_by request) (Some "operator") in
      _ ← on_redis (update prefix ttl_seconds now (with_review rec (dr_investigation_status rec)
            (dr_investigated_at rec) (dr_investigated_by rec) (dr_investigation_note rec) RETRIED
            (Some now) by_ task (Some target) (rr_note request)));
      mret (Some {| rt_failure_id := failure_id; rt_target_queue := target; rt_retry_status := RETRIED;
                    rt_retried_at := now; rt_retried_by := by_; rt_retried_task_id := task |})
  end.

(** [list_messages], relayna/dlq/service.py:75-95. *)
Definition list_messages (r : R) (now : Z) (queue_name task_id reason source_queue_name state cursor : option string)
    (limit : Z) : result (list DLQMessageSummary * option string) :=
  '(records, next) ← list_records prefix r now queue_name task_id reason source_queue_name state cursor limit;
  Ok (map summary records, next).

(** [list_failed_tasks], relayna/dlq/service.py:201-231. *)
Definition list_failed_tasks (r : R) (now : Z) (f : failed_filter) (failed_from failed_to : option Z)
    (cursor : option string) (limit : Z) : result (list FailedTaskSummary * option string) :=
  '(records, next) ← list_failed_task_records prefix r now f failed_from failed_to cursor limit;
  Ok (map failed_summary records, next).


(** ** Replay *)

Context `{!RedisLaws R} `{!JsonModelLaws DLQRecord}.

Lemma wpP_on_redis {A} ok (m : P R A) (s : Svc) (Q : Svc -> result A -> Prop) :
  wpP ok m s.1 (fun r x => Q (r, s.2) x) -> wpP ok (on_redis m) s Q.
Proof.
  intros Hw fs Hfs. unfold on_redis. destruct (Hw fs Hfs) as [Ha HQ].
  by destruct (m s.1 fs) as [[r fs'] x].
Qed.

(** The record of an id as a reader finds it. *)
Definition stored (d : db) (now : Z) (dlq_id : string) : result (option DLQRecord) :=
  decode (db_str d now (record_key prefix dlq_id)).

(** What a claim may end in, whatever goes wrong. *)
Lemma claim_any ok now id force r :
  wpP ok (claim_replay prefix now id force) r (fun r' x =>
    model r' !! record_key prefix id = model r !! record_key prefix id /\
    forall rec, x = Ok (Some rec) -> stored (model r) now id = Ok (Some rec) /\
                                    (dr_state rec = DEAD_LETTERED \/ force = true)).
Proof.
  assert (forall r', model r' !! record_key prefix id = model r !! record_key prefix id ->
    rget r' now (record_key prefix id) = db_str (model r) now (record_key prefix id)) as Hget.
  { intros r' E. rewrite law_get. unfold db_str, live. by rewrite E. }
  assert (forall r', model r' !! record_key prefix id = model r !! record_key prefix id ->
    model (rdel r' now (replay_lock_key prefix id)).1 !! record_key prefix id =
    model r !! record_key prefix id) as Hdel.
  { intros r' E. rewrite law_del. cbn. rewrite lookup_delete_ne; [done|].
    apply not_eq_sym, record_lock_ne. }
  assert (model (rset_nx r now (replay_lock_key prefix id) "1" (Some 30)).1 !! record_key prefix id =
    model r !! record_key prefix id) as Hset.
  { rewrite law_set_nx. unfold db_set_nx, db_set. destruct (live _ _ _); [done|]. cbn.
    rewrite lookup_insert_ne; [done|]. apply not_eq_sym, record_lock_ne. }
  unfold claim_replay. apply wpP_bind, wpP_await; intros; [|by split..].
  destruct (rset_nx r now _ "1" (Some 30)).2; cbn [negb]; [|by apply wpP_lift].
  apply wpP_reraising. unfold get. apply wpP_bind, wpP_bind, wpP_read.
  - apply wpP_lift. rewrite Hget by done. change (decode (db_str _ _ _)) with (stored (model r) now id).
    destruct (stored (model r) now id) as [[rec|]|e] eqn:E.
    + destruct (_ && _) eqn:Eb; [apply wpP_lift|apply wpP_ret].
      * cbn. unfold release_replay_claim. apply wpP_await_; intros; (split; [auto|done]).
      * split; [done|]. intros ? [= <-]. split; [done|].
        destruct (dr_state rec); [by left|right]. by destruct force.
    + by apply wpP_ret.
    + destruct (is_exception e); [|done].
      unfold release_replay_claim. apply wpP_await_; intros; (split; [auto|done]).
  - intros e. destruct (is_exception e); [|done].
    unfold release_replay_claim. apply wpP_await_; intros; (split; [auto|done]).
Qed.

Lemma replay_headers_attempt record t :
  retry_attempt_from_headers (replay_headers record t) = Ok 0.
Proof.
  unfold retry_attempt_from_headers, replay_headers, dgetv. rewrite !dget_dpop. cbn [String.eqb Ascii.eqb Bool.eqb].
  by rewrite dget_dset_eq.
Qed.

(** What a replay leaves: the messages it sent, and, when it reports success,
    the record it marked. *)
Definition replayed_from (d : db) (t_claim t_replay : Z) (id : string) (force : bool)
    (sent : list raw_publish) : Prop :=
  sent = [] \/ exists rec body, stored d t_claim id = Ok (Some rec) /\
    (dr_state rec = DEAD_LETTERED \/ force = true) /\
    b64decode (dr_raw_body_b64 rec) = Some body /\ sent = [replay_publish rec t_replay body].

Definition well_keyed (d : db) (id : string) : Prop :=
  forall t rec, stored d t id = Ok (Some rec) -> dr_dlq_id rec = id.

Lemma stored_frame d d' t id : d' !! record_key prefix id = d !! record_key prefix id ->
  stored d' t id = stored d t id.
Proof. unfold stored, db_str, live. by intros ->. Qed.

Definition marked_replayed (d : db) (t : Z) (id : string) : Prop :=
  exists u, dr_state u = REPLAYED /\ dr_dlq_id u = id /\
    d !! record_key prefix id = Some (RStr (dump_json u), expires t ttl_seconds).

Lemma mark_any ok now id t q r : well_keyed (model r) id ->
  wpP ok (mark_replayed prefix ttl_seconds now id t q) r (fun r' x => forall u, x = Ok (Some u) ->
    marked_replayed (model r') now id).
Proof.
  intros Hid. unfold mark_replayed, get. apply wpP_bind, wpP_bind, wpP_read; [|done]. apply wpP_lift.
  rewrite law_get. change (decode _) with (stored (model r) now id).
  destruct (stored _ _ _) as [[rec|]|e] eqn:E; [|by apply wpP_ret|done].
  apply wpP_bind, wpP_await_; intros; [|done..]. apply wpP_ret. intros u [= <-].
  eexists. split; [|split; [|rewrite law_set; unfold db_set; cbn [dr_dlq_id as_replayed];
    rewrite (Hid _ _ E); apply lookup_insert_eq]]; [done|exact (Hid now rec E)].
Qed.

Lemma release_frame ok now id r :
  wpP ok (release_replay_claim prefix now id) r (fun r' _ =>
    model r' !! record_key prefix id = model r !! record_key prefix id).
Proof.
  apply wpP_await_; intros; try done; rewrite law_del; cbn; (rewrite lookup_delete_ne; [done|]);
    apply not_eq_sym, record_lock_ne.
Qed.

Definition replay_post (t_claim t_replay : Z) (id : string) (force : bool) (s s' : Svc)
    (x : result (option DLQReplayResult)) : Prop :=
  exists sent, s'.2 = (s.2 ++ sent)%list /\
    replayed_from (model s.1) t_claim t_replay id force sent /\
    forall res, x = Ok (Some res) -> sent <> [] /\ marked_replayed (model s'.1) t_replay id.

Lemma replay_post_nothing t_claim t_replay id force (s : Svc) r x : (forall res, x <> Ok (Some res)) ->
  replay_post t_claim t_replay id force s (r, s.2) x.
Proof.
  intros Hx. exists []. cbn [snd]. rewrite app_nil_r. split; [done|]. split; [by left|].
  intros res E. by destruct (Hx res).
Qed.

Lemma replay_post_release ok t_claim t_replay t_release id force s s1 x :
  replay_post t_claim t_replay id force s s1 x ->
  wpP ok (on_redis (release_replay_claim prefix t_release id)) s1 (fun s' y =>
    match y with
    | Ok _ => replay_post t_claim t_replay id force s s' x
    | Raise e => replay_post t_claim t_replay id force s s' (Raise e)
    end).
Proof.
  intros (sent & E1 & E2 & E3). apply wpP_on_redis. eapply wpP_mono; [apply release_frame|].
  intros r2 [[]|e] Hr; exists sent; cbn [fst snd]; (split; [done|]); (split; [done|]); [|done].
  intros res Hx. unfold marked_replayed. rewrite Hr. by apply (E3 res).
Qed.

Lemma replay_any ok t_claim t_replay t_release id force (s : Svc) : well_keyed (model s.1) id ->
  wpP ok (replay_message t_claim t_replay t_release id force) s
    (replay_post t_claim t_replay id force s).
Proof.
  intros Hid. unfold replay_message.
  apply wpP_bind, wpP_on_redis. eapply wpP_mono; [apply claim_any|].
  intros r1 [[rec|]|e] [Hkey Hclaim]; [| |by refine (replay_post_nothing _ _ _ _ s r1 _ _)].
  2: { apply wpP_bind, wpP_on_redis. eapply wpP_mono; [apply release_frame|].
       intros r2 [[]|e] _; [apply wpP_ret|]; by refine (replay_post_nothing _ _ _ _ s r2 _ _). }
  destruct (Hclaim rec eq_refl) as [Hst Hforce].
  apply wpP_finally. apply wpP_bind, wpP_lift.
  destruct (stored_body rec) as [body|e] eqn:Hbody.
  2: { by apply replay_post_release; refine (replay_post_nothing _ _ _ _ s r1 _ _). }
  assert (forall r x, (forall res, x = Ok (Some res) -> marked_replayed (model r) t_replay id) ->
    replay_post t_claim t_replay id force s (r, (s.2 ++ [replay_publish rec t_replay body])%list) x) as Hsent.
  { intros r x Hx. eexists. split; [done|]. split; [right; exists rec, body|by intros; split; eauto].
    split_and!; try done. unfold stored_body in Hbody.
    destruct (b64decode _); [by injection Hbody as ->|done]. }
  apply wpP_bind, wpP_await_; intros.
  - apply wpP_bind, wpP_on_redis. rewrite (Hid _ _ Hst).
    eapply wpP_mono; [apply mark_any|].
    { intros t rec'. cbn [fst]. rewrite (stored_frame (model s.1)) by done. apply Hid. }
    cbn [fst snd]. intros r2 [[u|]|e] Hmark; [apply wpP_ret|apply wpP_ret|];
      apply replay_post_release, Hsent; intros res E; [by apply (Hmark u)|done..].
  - by apply replay_post_release; refine (replay_post_nothing _ _ _ _ s r1 _ _).
  - by apply replay_post_release, Hsent.
Qed.

(** C20. Replaying a dead letter sends at most one message, whatever fails: to the
    record's retry queue, with the bytes that were dead-lettered and a retry
    count a consumer reads as 0; only of a record that was not replayed before,
    unless forced.  When it reports success, the message was sent and the
    stored record says it was replayed. *)
Theorem replay_sends_the_original t_claim t_replay t_release id force (s : Svc) fs :
  well_keyed (model s.1) id ->
  let out := replay_message t_claim t_replay t_release id force s fs in
  exists sent, out.1.1.2 = (s.2 ++ sent)%list /\
    (sent = [] \/ exists rec body p, stored (model s.1) t_claim id = Ok (Some rec) /\
      (dr_state rec = DEAD_LETTERED \/ force = true) /\
      b64decode (dr_raw_body_b64 rec) = Some body /\ sent = [p] /\
      rp_queue p = dr_retry_queue_name rec /\ rp_body p = body /\
      retry_attempt_from_headers (rp_headers p) = Ok 0) /\
    forall res, out.2 = Ok (Some res) -> sent <> [] /\ marked_replayed (model out.1.1.1) t_replay id.
Proof.
  intros Hid out.
  destruct (replay_any any_fault t_claim t_replay t_release id force s Hid fs) as [_ (sent & E1 & E2 & E3)].
  { by apply List.Forall_forall; intros [[]|]. }
  exists sent. split; [done|]. split; [|done]. destruct E2 as [->|(rec & body & H1' & H2' & H3' & ->)]; [by left|].
  right. exists rec, body, (replay_publish rec t_replay body). split_and!; try done.
  apply replay_headers_attempt.
Qed.

(** A replay that reported success is not repeated: whatever the faults of
    either, a later replay of the same record that is not forced sends
    nothing. *)
Theorem replay_once t1 t2 t3 t1' t2' t3' id force (s : Svc) fs fs' res :
  well_keyed (model s.1) id ->
  let first := replay_message t1 t2 t3 id force s fs in
  first.2 = Ok (Some res) ->
  (replay_message t1' t2' t3' id false first.1.1 fs').1.1.2 = first.1.1.2.
Proof.
  intros Hid first Hok.
  destruct (replay_any any_fault t1 t2 t3 id force s Hid fs) as [_ (sent & _ & _ & E3)].
  { by apply List.Forall_forall; intros [[]|]. }
  destruct (E3 res Hok) as [_ (u & Hu & Hkeyed & Hm)]. fold first in Hm.
  assert (forall t rec, stored (model first.1.1.1) t id = Ok (Some rec) -> rec = u) as Hread.
  { intros t rec. unfold stored, db_str, live. rewrite Hm. destruct (alive _ _); [|done].
    cbn. rewrite validate_dump. by intros [= ->]. }
  destruct (replay_any any_fault t1' t2' t3' id false first.1.1) with (fs := fs')
    as [_ (sent' & E & Hsent & _)].
  { by intros t rec ->%Hread. }
  { by apply List.Forall_forall; intros [[]|]. }
  rewrite E. destruct Hsent as [->|(rec & body & Hst & [Hd|?] & _)]; [apply app_nil_r| |done].
  apply Hread in Hst as ->. congruence.
Qed.

(** ** Manual retry *)

Lemma manual_headers_attempt record id t :
  retry_attempt_from_headers (manual_retry_headers record id t) = Ok 0.
Proof.
  unfold retry_attempt_from_headers, manual_retry_headers, dgetv. rewrite !dget_dpop.
  cbn [String.eqb Ascii.eqb Bool.eqb]. by rewrite dget_dset_eq.
Qed.

(** A manual retry sends at most one message, and only of a record whose status is
    final and whose payload is available; the message goes to the requested
    queue, or back to the source queue, with a retry count a consumer reads as
    0 and the stored bytes unless the request overrides them.  A success means
    that it was sent. *)
Theorem manual_retry_sends now id request (s : Svc) fs :
  let out := retry_failed_task now id request s fs in
  exists sent, out.1.1.2 = (s.2 ++ sent)%list /\
    (forall res, out.2 = Ok (Some res) -> sent <> []) /\
    (sent = [] \/ exists rec p, stored (model s.1) now id = Ok (Some rec) /\ sent = [p] /\
      retry_allowed rec = Ok tt /\
      rp_queue p = from_opt (dr_source_queue_name rec)
        (match request with Some q => q' ← rr_target_queue q; nonempty q' | None => None end) /\
      retry_attempt_from_headers (rp_headers p) = Ok 0 /\
      (match request with Some q => rr_override_payload q = PNone | None => True end ->
       b64decode (dr_raw_body_b64 rec) = Some (rp_body p))).
Proof.
  intros out. set (Q := fun (s' : Svc) (x : result (option FailedTaskRetryResult)) =>
    exists sent, s'.2 = (s.2 ++ sent)%list /\ (forall res, x = Ok (Some res) -> sent <> []) /\
    (sent = [] \/ exists rec p, stored (model s.1) now id = Ok (Some rec) /\ sent = [p] /\
      retry_allowed rec = Ok tt /\
      rp_queue p = from_opt (dr_source_queue_name rec)
        (match request with Some q => q' ← rr_target_queue q; nonempty q' | None => None end) /\
      retry_attempt_from_headers (rp_headers p) = Ok 0 /\
      (match request with Some q => rr_override_payload q = PNone | None => True end ->
       b64decode (dr_raw_body_b64 rec) = Some (rp_body p)))).
  enough (wpP any_fault (retry_failed_task now id request) s Q) as Hw.
  { apply (wpP_run _ _ _ _ fs Hw). by apply List.Forall_forall; intros [[]|]. }
  assert (forall r x, (forall res, x <> Ok (Some res)) -> Q (r, s.2) x) as Hnone.
  { intros r x Hx. exists []. rewrite app_nil_r. split; [done|]. split; [|by left].
    intros res E. by destruct (Hx res). }
  unfold retry_failed_task. apply wpP_bind, wpP_on_redis. unfold get. apply wpP_bind, wpP_read; intros;
    [|by apply Hnone]. apply wpP_lift. rewrite law_get. change (decode _) with (stored (model s.1) now id).
  destruct (stored _ _ _) as [[rec|]|e] eqn:Hst; [|by apply wpP_ret, Hnone|by apply Hnone].
  apply wpP_bind, wpP_lift. destruct (retry_allowed rec) as [[]|e] eqn:Hal; [|by apply Hnone].
  set (q := from_opt _ request). apply wpP_bind, wpP_lift.
  destruct (retry_payload_bytes rec (rr_override_payload q)) as [body|e] eqn:Hb; [|by apply Hnone].
  assert (forall r target x, target = (if opt_truthy (rr_target_queue q)
    then from_opt "" (rr_target_queue q) else dr_source_queue_name rec) ->
    Q (r, (s.2 ++ [retry_publish rec id now target body])%list) x) as Hsent.
  { intros r target x ->. eexists. split; [done|]. split; [by intros|]. right. exists rec. eexists.
    split; [done|]. split; [done|]. split; [done|]. cbn [retry_publish rp_queue rp_headers rp_body]. split_and!.
    - unfold q. destruct request as [req|]; cbn [from_opt rr_target_queue opt_truthy]; [|done].
      destruct (rr_target_queue req) as [t|]; cbn; [|done]. unfold nonempty. by destruct (String.eqb t "").
    - apply manual_headers_attempt.
    - intros Ho. assert (rr_override_payload q = PNone) as E by (unfold q; by destruct request).
      rewrite E in Hb. unfold retry_payload_bytes, stored_body in Hb.
      destruct (b64decode _); [by injection Hb as ->|done]. }
  apply wpP_bind, wpP_await_; intros; [|by apply Hnone|by apply Hsent].
  apply wpP_bind, wpP_on_redis. apply wpP_mono with (Q := fun _ _ => True); [|intros r2 [[]|e] _].
  - unfold update. apply wpP_bind, wpP_await_; intros; try done.
    apply wpP_bind, wpP_await_; intros; done.
  - apply wpP_ret. by apply Hsent.
  - by apply Hsent.
Qed.

End service.

(** ** Witnesses *)

Section demo.
Context `{JsonModel DLQRecord, !JsonModelLaws DLQRecord, Transport}.

Definition demo_store : db :=
  <[record_key "relayna" "a" := (RStr (dump_json (demo_record "a" "tasks.dlq" 5)), None)]> ∅.

Lemma demo_well_keyed : well_keyed "relayna" demo_store "a".
Proof.
  intros t rec. unfold stored, db_str, live, demo_store. rewrite lookup_insert_eq. cbn.
  rewrite validate_dump. by intros [= <-].
Qed.

Definition locked_store : db := db_set demo_store 0 (replay_lock_key "relayna" "a") "1" (Some 30).

Lemma demo_get (d : db) now : d !! record_key "relayna" "a" = demo_store !! record_key "relayna" "a" ->
  get (R := db) "relayna" now "a" d [] = (d, [], Ok (Some (demo_record "a" "tasks.dlq" 5))).
Proof.
  intros E. unfold get, mbind, P_bind, await_read, await, liftP. cbn [rget db_redis fst snd].
  unfold db_str, live. rewrite E. unfold demo_store. rewrite lookup_insert_eq.
  cbn [alive decode]. by rewrite validate_dump.
Qed.

Lemma locked_frame : locked_store !! record_key "relayna" "a" = demo_store !! record_key "relayna" "a".
Proof.
  unfold locked_store, db_set. rewrite lookup_insert_ne; [done|]. apply not_eq_sym, record_lock_ne.
Qed.

Lemma demo_claim : claim_replay (R := db) "relayna" 0 "a" false demo_store [] =
  (locked_store, [], Ok (Some (demo_record "a" "tasks.dlq" 5))).
Proof.
  unfold claim_replay, reraising, mbind at 1, P_bind at 1, await at 1. cbn [rset_nx db_redis].
  assert (db_set_nx demo_store 0 (replay_lock_key "relayna" "a") "1" (Some 30) = (locked_store, true)) as ->.
  { unfold db_set_nx, live, demo_store at 1. by rewrite lookup_insert_ne by apply record_lock_ne. }
  cbn [fst snd negb]. unfold mbind, P_bind. by rewrite demo_get by apply locked_frame.
Qed.

Lemma demo_replay : (replay_message (R := db) "relayna" None 0 1 2 "a" false (demo_store, []) []).2 =
  Ok (Some {| rs_dlq_id := "a"; rs_target_queue_name := "tasks.retry"; rs_state := REPLAYED;
              rs_replayed_at := 1; rs_replay_count := 1; rs_forced := false |}).
Proof.
  unfold replay_message, on_redis, mbind at 1, P_bind at 1. cbn [fst snd]. rewrite demo_claim.
  unfold finallyP, mbind, P_bind, liftP.
  assert (stored_body (demo_record "a" "tasks.dlq" 5) = Ok "null") as -> by reflexivity.
  unfold send, await_, await, mark_replayed, mbind, P_bind. cbn [fst snd].
  cbn [dr_dlq_id demo_record]. rewrite demo_get by apply locked_frame. reflexivity.
Qed.
End demo.

Lemma replay_sends_the_original_witness :
  let m := bits_model DLQRecord in
  exists sent, (replay_message (R := db) "relayna" None 0 1 2 "a" false (demo_store, []) []).1.1.2 = sent /\
    sent <> [].
Proof.
  intros m. pose (bits_model_laws DLQRecord : @JsonModelLaws DLQRecord m) as ml.
  destruct (replay_sends_the_original (R := db) "relayna" None 0 1 2 "a" false (demo_store, []) [])
    as (sent & E & _ & Hok); [exact demo_well_keyed|].
  exists sent. split; [exact E|]. eapply Hok. exact demo_replay.
Defined.

Lemma replay_once_witness :
  let m := bits_model DLQRecord in
  let first := replay_message (R := db) "relayna" None 0 1 2 "a" false (demo_store, []) [] in
  (replay_message "relayna" None 3 4 5 "a" false first.1.1 []).1.1.2 = first.1.1.2.
Proof.
  intros m first. pose (bits_model_laws DLQRecord : @JsonModelLaws DLQRecord m) as ml.
  eapply (replay_once (R := db) "relayna" None 0 1 2 3 4 5 "a" false (demo_store, []) [] []).
  - exact demo_well_keyed.
  - exact demo_replay.
Defined.
