(* ===== verification/TaskConsumer.v ===== *)
(** * Task consumer (consumer/task_consumer.py, class TaskConsumer)

    One delivery through [_handle_message], as a coroutine of [Effects].  The
    pure parts (decisions, headers, contexts) are the definitions of [Policies]
    and [ConsumerContext].  Durations of the metrics are not modelled.  A batch
    is republished in the order of its tasks, one of the orders [map_bounded]
    allows; its bound is the subject of [Async]. *)

From S2P Require Import Prelude PyStr PyVal Contracts Policies Transport DlqModels LeaseStore.
From S2P Require Import Effects ConsumerContext.

(** [RetryInfrastructure], relayna/rabbitmq/client.py:690-693. *)
Record RetryInfrastructure := {
  ri_source_queue_name : string;
  ri_retry_queue_name : string;
  ri_dead_letter_queue_name : string }.

(** [TaskConsumer.__init__], relayna/consumer/task_consumer.py:68-114.  What the handlers
    read of the consumer; optional collaborators are present or not. *)
Record TaskConsumer := {
  c_name : string;
  c_failure_action : FailureAction;
  c_lifecycle : LifecycleStatusConfig;
  c_retry_policy : option RetryPolicy;
  c_retry_statuses : RetryStatusConfig;
  c_sink : bool;                       (* observation_sink is not None *)
  c_dlq_store : bool;                  (* dlq_store is not None *)
  c_metrics : bool;                    (* metrics is not None *)
  c_alias_config : option ContractAliasConfig;
  c_lease_store : bool;                (* lease_store is not None *)
  c_lease_enabled : bool;              (* lease_policy.enabled *)
  c_lease_ttl : Z;                     (* lease_policy.ttl_seconds, microseconds *)
  c_lease_recovery : LeaseRecoveryAction;
  c_lease_owner_id : string;
  c_routed_tasks : bool }.             (* the topology routes by task type *)

(** [_coerce_task_type], relayna/consumer/task_consumer.py:1419-1423. *)
Definition coerce_task_type (payload : pyval) : option string :=
  match payload with PDict d => task_type_of d | _ => None end.

(** [_parent_task_id_from_meta], relayna/consumer/task_consumer.py:1436-1440. *)
Definition parent_task_id_from_meta (meta : pydict) : option string :=
  nonempty (strip (py_str (py_or (dgetv "parent_task_id" meta) (PStr "")))).

Section consumer.
Context `{Transport} `{Pydantic}.

(** [_task_type_from_body], relayna/consumer/task_consumer.py:1426-1433. *)
Definition task_type_from_body (body : string) (alias : option ContractAliasConfig) :
    option string :=
  match parse_transport_json body with
  | Ok payload => coerce_task_type (normalize_payload payload alias)
  | Raise _ => None
  end.

(** [body or message.body] *)
Definition body_or (body : option string) (m : message) : string :=
  match body with Some b => if String.eqb b "" then m_body m else b | None => m_body m end.

Section methods.
Context (c : TaskConsumer).

Definition observe (cls : string) (fields : pydict) : M unit :=
  emit_observation (c_sink c) (Obs cls fields).
Definition metric (name : string) (fields : pydict) : M unit :=
  whenM (c_metrics c) (ask (EMetric name fields)).

(** [_publish_lifecycle_status], relayna/consumer/task_consumer.py:814-834. *)
Definition publish_lifecycle_status (ctx : TaskContext) (status message : string) : M unit :=
  if negb (lc_enabled (c_lifecycle c)) then mret tt
  else except
    (_ ← publish_status ctx None (status_only status message None);
     observe "TaskLifecycleStatusPublished"
       [("consumer_name", PStr (c_name c)); ("queue_name", opt_str (tc_source_queue_name ctx));
        ("task_id", PStr (tc_task_id ctx)); ("correlation_id", opt_str (tc_correlation_id ctx));
        ("retry_attempt", PInt (tc_retry_attempt ctx));
        ("task_type", opt_str (coerce_task_type (PDict (tc_raw_payload ctx))));
        ("status", PStr status)])
    (fun _ => mret tt).

(** [_publish_retry_status], relayna/consumer/task_consumer.py:836-847. *)
Definition publish_retry_status (ctx : TaskContext) (next_attempt max_retries : Z) : M unit :=
  if negb (rs_enabled (c_retry_statuses c)) then mret tt
  else except
    (publish_status ctx None
       (status_only (retrying_status (c_retry_statuses c))
          ("Task processing failed. Scheduling retry " +:+ pretty next_attempt +:+ "/"
             +:+ pretty max_retries +:+ ".") None))
    (fun _ => mret tt).

(** [_publish_dead_letter_status], relayna/consumer/task_consumer.py:849-867. *)
Definition publish_dead_letter_status (ctx : TaskContext) (e : exn) : M unit :=
  if rs_enabled (c_retry_statuses c) then
    except (publish_status ctx None (status_only (dead_lettered_status (c_retry_statuses c))
              (failure_message e (rs_include_error_message (c_retry_statuses c))) None))
           (fun _ => mret tt)
  else if negb (lc_enabled (c_lifecycle c)) then mret tt
  else publish_lifecycle_status ctx (failed_status (c_lifecycle c))
         (failure_message e (lc_include_error_message (c_lifecycle c))).

(** [_publish_manual_retry_request], relayna/consumer/task_consumer.py:803-812. *)
Definition publish_manual_retry_request (ctx : TaskContext) (r : ManualRetryRequest) : M unit :=
  _ ← except (publish_status ctx None
                (status_only "manual_retrying" (mr_status_message r) (Some (mr_status_meta r))))
             (fun _ => mret tt);
  call (EPublishTask (mr_task r) (mr_headers r)).

(** [_emit_task_resource_sample], relayna/consumer/task_consumer.py:768-801. *)
Definition emit_task_resource_sample (task : TaskEnvelope) (ctx : TaskContext)
    (queue_name sample_kind : string) : M unit :=
  if negb (c_sink c) && negb (c_metrics c) then mret tt
  else
    sample ← ask EResourceSample;
    match sample with
    | None => mret tt
    | Some (cpu, rss) =>
        _ ← observe "TaskResourceSampled"
          [("task_id", PStr (te_task_id task)); ("correlation_id", opt_str (tc_correlation_id ctx));
           ("task_type", opt_str (te_task_type task)); ("consumer_name", PStr (c_name c));
           ("queue_name", PStr queue_name); ("sample_kind", PStr sample_kind);
           ("cpu_process_seconds", PInt cpu); ("memory_rss_bytes", opt_int rss)];
        metric "record_observation_event"
          [("stage", opt_str (te_task_type task)); ("queue", PStr queue_name);
           ("status", PStr ("resource_" +:+ sample_kind)); ("worker_type", PStr "task")]
    end.

(** [_publish_retry], relayna/consumer/task_consumer.py:869-917. *)
Definition publish_retry (m : message) (md : MessageMetadata)
    (infra : option RetryInfrastructure) (source_queue_name : string) (task_id : option string)
    (retry_attempt max_retries : Z) (reason : string) (exception_type : option string)
    (body correlation_id : option string) (extra_headers : pydict) : M unit :=
  match infra with
  | None => raiseM (runtime_error "Retry infrastructure is not initialized")
  | Some ri =>
      let headers := retry_headers (md_headers md) source_queue_name retry_attempt max_retries
                       reason exception_type extra_headers in
      let correlation := opt_or correlation_id (md_correlation_id md) in
      _ ← call (EPublishRaw (RawPublish (ri_retry_queue_name ri) (body_or body m) correlation
                  headers (retry_priority (c_retry_policy c) retry_attempt) (md_content_type md)));
      observe "ConsumerRetryScheduled"
        [("consumer_name", PStr (c_name c)); ("task_id", opt_str task_id);
         ("queue_name", PStr (ri_retry_queue_name ri));
         ("source_queue_name", PStr source_queue_name); ("correlation_id", opt_str correlation);
         ("task_type", opt_str (task_type_from_body (body_or body m) (c_alias_config c)));
         ("retry_attempt", PInt retry_attempt); ("max_retries", PInt max_retries);
         ("reason", PStr reason)]
  end.

(** [_publish_dead_letter], relayna/consumer/task_consumer.py:919-984. *)
Definition publish_dead_letter (m : message) (md : MessageMetadata)
    (infra : option RetryInfrastructure) (source_queue_name : string) (task_id : option string)
    (retry_attempt : Z) (reason : string) (exception_type exception_message : option string)
    (body correlation_id : option string) (extra_headers : pydict) : M unit :=
  match infra, c_retry_policy c with
  | Some ri, Some policy =>
      let headers := retry_headers (md_headers md) source_queue_name retry_attempt
                       (rp_max_retries policy) reason exception_type extra_headers in
      let correlation := opt_or correlation_id (md_correlation_id md) in
      _ ← call (EPublishRaw (RawPublish (ri_dead_letter_queue_name ri) (body_or body m) correlation
                  headers None (md_content_type md)));
      _ ← observe "ConsumerDeadLetterPublished"
        [("consumer_name", PStr (c_name c)); ("task_id", opt_str task_id);
         ("queue_name", PStr (ri_dead_letter_queue_name ri));
         ("source_queue_name", PStr source_queue_name); ("correlation_id", opt_str correlation);
         ("task_type", opt_str (task_type_from_body (body_or body m) (c_alias_config c)));
         ("retry_attempt", PInt retry_attempt); ("max_retries", PInt (rp_max_retries policy));
         ("reason", PStr reason)];
      persist_dlq_record (c_dlq_store c) (c_sink c) (c_name c) (ri_dead_letter_queue_name ri)
        source_queue_name (ri_retry_queue_name ri) task_id correlation reason exception_type
        retry_attempt (rp_max_retries policy) headers (md_content_type md) (body_or body m)
        exception_message
  | _, _ => raiseM (runtime_error "Retry infrastructure is not initialized")
  end.

(** [_make_task_context], relayna/consumer/task_consumer.py:471-502.  The callers pass no
    batch fields. *)
Definition make_task_context (task : TaskEnvelope) (raw_payload : pydict) (md : MessageMetadata)
    (source_queue_name : string) : result TaskContext :=
  let headers := md_headers md in
  batch_index ← header_int headers "batch_index";
  batch_size ← header_int headers "batch_size";
  count ← manual_retry_count headers;
  Ok {| tc_consumer_name := c_name c; tc_raw_payload := raw_payload;
        tc_correlation_id := opt_or (te_correlation_id task) (md_correlation_id md);
        tc_delivery_tag := md_delivery_tag md; tc_redelivered := md_redelivered md;
        tc_task_id := te_task_id task; tc_retry_attempt := md_retry_attempt md;
        tc_max_retries := rp_max_retries <$> c_retry_policy c;
        tc_source_queue_name := Some source_queue_name;
        tc_batch_id := header_string headers "batch_id"; tc_batch_index := batch_index;
        tc_batch_size := batch_size; tc_headers := headers; tc_is_task_context := true;
        tc_manual_retry_count := count;
        tc_manual_retry_previous_task_type :=
          header_string headers "x-relayna-manual-retry-from-task-type";
        tc_manual_retry_source_consumer :=
          header_string headers "x-relayna-manual-retry-source-consumer";
        tc_manual_retry_reason := header_string headers "x-relayna-manual-retry-reason" |}.

(** [_build_task_lease], relayna/consumer/task_consumer.py:742-755. *)
Definition build_task_lease (now : Z) (task : TaskEnvelope) (ctx : TaskContext) : TaskLease :=
  {| lease_id := te_task_id task; tl_task_id := te_task_id task; owner_id := c_lease_owner_id c;
     consumer_name := c_name c; acquired_at := now; heartbeat_at := now;
     expires_at := now + c_lease_ttl c; tl_message_id := None; tl_task_type := te_task_type task;
     tl_workflow_id := None; tl_stage := None; tl_attempt := tc_retry_attempt ctx;
     recovery_action := c_lease_recovery c |}.

(** The fields every rejection event shares. *)
(** [_handle_message_impl], relayna/consumer/task_consumer.py:267-281. *)
Definition rejected_fields (queue : string) (task_id correlation_id : option string)
    (retry_attempt : Z) (task_type : option string) (requeue : bool) (reason : string) : pydict :=
  [("consumer_name", PStr (c_name c)); ("queue_name", PStr queue); ("task_id", opt_str task_id);
   ("correlation_id", opt_str correlation_id); ("retry_attempt", PInt retry_attempt);
   ("task_type", opt_str task_type); ("requeue", PBool requeue); ("reason", PStr reason)].

(** ** Processing a task *)

(** [retry_body], [retry_correlation_id], [retry_headers] and [ack_message]. *)
Record delivery_opts := {
  do_ack_message : bool;
  do_retry_body : option string;
  do_retry_correlation_id : option string;
  do_retry_headers : option pydict }.

(** The [except Exception as exc] block of [_process_task]; the message leaves it
    settled, or an exception is raised. *)
(** [_process_task], relayna/consumer/task_consumer.py:552-658. *)
Definition process_failure (task : TaskEnvelope) (ctx : TaskContext) (m : message)
    (md : MessageMetadata) (infra : option RetryInfrastructure) (queue : string)
    (o : delivery_opts) (e : exn) : M bool :=
  _ ← observe "TaskHandlerFailed"
    [("consumer_name", PStr (c_name c)); ("queue_name", PStr queue);
     ("task_id", PStr (te_task_id task)); ("correlation_id", opt_str (tc_correlation_id ctx));
     ("retry_attempt", PInt (tc_retry_attempt ctx)); ("task_type", opt_str (te_task_type task));
     ("exception_type", PStr (exn_type e)); ("exception_message", PStr (exn_text e));
     ("requeue", PBool (match c_retry_policy c, c_failure_action c with
                        | None, FA_REQUEUE => true | _, _ => false end))];
  let decision := engine_decide_retry
    {| rc_worker_type := "task"; rc_queue_name := queue; rc_retry_attempt := tc_retry_attempt ctx;
       rc_reason := "handler_error"; rc_exception_type := Some (exn_type e);
       rc_task_id := Some (te_task_id task); rc_task_type := te_task_type task;
       rc_workflow_stage := None; rc_headers := tc_headers ctx;
       rc_max_retries := rp_max_retries <$> c_retry_policy c;
       rc_failure_action := failure_action_value (c_failure_action c) |} in
  match rd_action decision with
  | REJECT | REQUEUE =>
      _ ← publish_lifecycle_status ctx (failed_status (c_lifecycle c))
            (failure_message e (lc_include_error_message (c_lifecycle c)));
      _ ← (if do_ack_message o then
             let requeue := match c_failure_action c with FA_REQUEUE => true | _ => false end in
             _ ← call (EReject requeue);
             observe "TaskMessageRejected"
               (rejected_fields queue (Some (te_task_id task)) (tc_correlation_id ctx)
                  (tc_retry_attempt ctx) (te_task_type task) requeue "handler_error")
           else mret tt);
      mret false
  | RETRY =>
      match rd_max_retries decision with
      | None => raiseM (runtime_error "Retry decision is missing max_retries")
      | Some max_retries =>
          _ ← metric "record_task_retry" [("stage", opt_str (te_task_type task));
                ("queue", PStr queue); ("worker_type", PStr "task")];
          _ ← publish_retry m md infra queue (Some (te_task_id task)) (rd_retry_attempt decision)
                max_retries (rd_reason decision) (Some (exn_type e)) (do_retry_body o)
                (do_retry_correlation_id o) (merge_batch_retry_headers ctx (do_retry_headers o));
          _ ← publish_retry_status ctx (rd_retry_attempt decision) max_retries;
          _ ← (if do_ack_message o then call EAck else mret tt);
          mret false
      end
  | DEAD_LETTER =>
      _ ← metric "record_task_dlq" [("stage", opt_str (te_task_type task));
            ("queue", PStr queue); ("worker_type", PStr "task")];
      _ ← publish_dead_letter m md infra queue (Some (te_task_id task)) (rd_retry_attempt decision)
            (rd_reason decision) (Some (exn_type e)) (Some (exn_text e)) (do_retry_body o)
            (do_retry_correlation_id o) (merge_batch_retry_headers ctx (do_retry_headers o));
      _ ← publish_dead_letter_status ctx e;
      _ ← (if do_ack_message o then call EAck else mret tt);
      mret false
  end.

(** The handler and what follows it inside [try]. *)
(** [_process_task], relayna/consumer/task_consumer.py:537-549. *)
Definition invoke_handler (task : TaskEnvelope) (ctx : TaskContext) : M unit :=
  h ← ask (ETaskHandler task);
  _ ← liftM (match ho_result h with
             | Raise e => match exn_class e with XManualRetry => Ok tt | _ => Raise e end
             | Ok _ => Ok tt
             end);
  match ho_manual_retry h with
  | Some r => publish_manual_retry_request ctx r
  | None => publish_lifecycle_status ctx (completed_status (c_lifecycle c))
              "Task processing completed."
  end.

(** [_process_task], relayna/consumer/task_consumer.py:504-671. *)
Definition process_task (task : TaskEnvelope) (ctx : TaskContext) (m : message)
    (md : MessageMetadata) (infra : option RetryInfrastructure) (queue : string)
    (o : delivery_opts) : M bool :=
  _ ← metric "record_task_started"
    [("stage", opt_str (coerce_task_type (PDict (tc_raw_payload ctx)))); ("queue", PStr queue);
     ("worker_type", PStr "task"); ("retry_attempt", PInt (tc_retry_attempt ctx))];
  started ← attempt
    (_ ← publish_lifecycle_status ctx (processing_status (c_lifecycle c)) "Task processing started.";
     emit_task_resource_sample task ctx queue "start");
  let sampling := is_ok started && (c_sink c || c_metrics c) in
  body ← match started with
         | Ok _ => attempt (invoke_handler task ctx)
         | Raise e => mret (Raise e)
         end;
  '(outcome, res) ← match body with
                    | Ok _ => mret (Some "completed", Ok true)
                    | Raise e =>
                        if is_exception e then
                          r ← attempt (process_failure task ctx m md infra queue o e);
                          mret (Some "failed", r)
                        else mret (None, Raise e)
                    end;
  _ ← whenM sampling (emit_task_resource_sample task ctx queue "end");
  _ ← match outcome with
      | Some label => metric "record_task_finished"
          [("outcome", PStr label); ("stage", opt_str (te_task_type task)); ("queue", PStr queue);
           ("worker_type", PStr "task")]
      | None => mret tt
      end;
  Done res.

(** [_process_task_with_lease], relayna/consumer/task_consumer.py:673-740. *)
Definition process_task_with_lease (task : TaskEnvelope) (ctx : TaskContext) (m : message)
    (md : MessageMetadata) (infra : option RetryInfrastructure) (queue : string)
    (o : delivery_opts) : M bool :=
  if negb (c_lease_enabled c) || negb (c_lease_store c) then
    process_task task ctx m md infra queue o
  else
    now ← ask ENow;
    let lease := build_task_lease now task ctx in
    acquired ← call (ELeaseAcquire lease);
    if negb acquired then
      _ ← observe "TaskMessageRejected"
            (rejected_fields queue (Some (te_task_id task)) (tc_correlation_id ctx)
               (tc_retry_attempt ctx) (te_task_type task) true "lease_conflict");
      _ ← (if do_ack_message o then call (EReject true) else mret tt);
      mret false
    else
      _ ← ask (EHeartbeatStart (lease_id lease));
      finallyM (process_task task ctx m md infra queue o)
        (fun _ =>
           _ ← catchM (call EHeartbeatStop)
                 (fun e => if is_exception e then raiseM e else mret tt);
           _ ← call (ELeaseRelease (lease_id lease) (c_lease_owner_id c));
           mret tt).

(** ** Deliveries *)

Definition plain_delivery : delivery_opts :=
  {| do_ack_message := true; do_retry_body := None; do_retry_correlation_id := None;
     do_retry_headers := None |}.

(** What both consumers do with a body they cannot use: reject without a retry
    policy, dead-letter and acknowledge with one. *)
(** [_handle_message_impl], relayna/consumer/task_consumer.py:264-293. *)
Definition refuse (m : message) (md : MessageMetadata) (infra : option RetryInfrastructure)
    (queue : string) (task_id : option string) (reason : string) (exception_type : option string)
    (on_reject : M unit) : M unit :=
  match c_retry_policy c with
  | None => _ ← call (EReject false); on_reject
  | Some _ =>
      _ ← publish_dead_letter m md infra queue task_id (md_retry_attempt md) reason exception_type
            None None None [];
      call EAck
  end.

(** [publish_task], relayna/consumer/task_consumer.py:437-451. *)
Definition publish_batch_task (md : MessageMetadata) (queue : string) (b : BatchTaskEnvelope)
    (item : nat * TaskEnvelope) : M unit :=
  let (index, task) := item in
  call (EPublishRaw
    (RawPublish queue (encode_transport_json (PDict (task_dump task)))
       (opt_or (te_correlation_id task) (Some (te_task_id task)))
       [("task_id", PStr (te_task_id task)); ("batch_id", PStr (be_batch_id b));
        ("batch_index", PInt (Z.of_nat index));
        ("batch_size", PInt (Z.of_nat (length (be_tasks b))))]
       None (md_content_type md))).

(** [{str(task.task_type).strip() for task in batch.tasks if ...}] *)
(** [_handle_batch_message], relayna/consumer/task_consumer.py:422-422. *)
Definition batch_task_types (b : BatchTaskEnvelope) : list string :=
  remove_dups (List.filter (fun s => negb (String.eqb s ""))
    (map (fun t => strip (py_str (opt_str (te_task_type t)))) (be_tasks b))).

(** [_handle_batch_message], relayna/consumer/task_consumer.py:395-469. *)
Definition handle_batch_message (m : message) (md : MessageMetadata) (payload : pydict)
    (queue : string) (infra : option RetryInfrastructure) : M unit :=
  let dead_letter reason exception_type :=
    _ ← publish_dead_letter m md infra queue None (md_retry_attempt md) reason (Some exception_type)
          None None None [];
    call EAck in
  match batch_validate (PDict (normalize_batch_payload payload (c_alias_config c))) with
  | None => dead_letter "invalid_envelope" "ValidationError"
  | Some b =>
      if c_routed_tasks c && (1 <? Z.of_nat (length (batch_task_types b))) then
        dead_letter "mixed_task_type_batch" "ValueError"
      else
        _ ← forM_ (imap pair (be_tasks b)) (publish_batch_task md queue b);
        _ ← call EAck;
        observe "TaskMessageAcked"
          [("consumer_name", PStr (c_name c)); ("queue_name", PStr queue); ("task_id", PNone);
           ("retry_attempt", PInt (md_retry_attempt md))]
  end.

(** [_handle_message_impl], relayna/consumer/task_consumer.py:254-393. *)
Definition handle_message_impl (m : message) (md : MessageMetadata) (queue : string)
    (infra : option RetryInfrastructure) : M unit :=
  let rejected task_id task_type reason :=
    observe "TaskMessageRejected"
      (rejected_fields queue task_id (md_correlation_id md) (md_retry_attempt md) task_type false
         reason) in
  match parse_transport_json (m_body m) with
  | Raise _ => refuse m md infra queue None "malformed_json" None
                 (rejected None None "malformed_json")
  | Ok payload =>
      let payload := normalize_payload payload (c_alias_config c) in
      _ ← observe "TaskMessageReceived"
        [("consumer_name", PStr (c_name c)); ("queue_name", PStr queue);
         ("task_id", opt_str (coerce_task_id payload));
         ("correlation_id", opt_str (md_correlation_id md));
         ("retry_attempt", PInt (md_retry_attempt md));
         ("task_type", opt_str (coerce_task_type payload));
         ("delivery_tag", opt_int (md_delivery_tag md)); ("redelivered", PBool (md_redelivered md))];
      match (match payload with
             | PDict d => if is_batch_task_payload d then Some d else None
             | _ => None
             end) with
      | Some d =>
          match c_retry_policy c with
          | None => _ ← call (EReject false); rejected None None "unsupported_batch_envelope"
          | Some _ => handle_batch_message m md d queue infra
          end
      | None =>
          match task_validate payload with
          | None =>
              refuse m md infra queue (coerce_task_id payload) "invalid_envelope"
                (Some "ValidationError")
                (rejected (coerce_task_id payload) (coerce_task_type payload) "invalid_envelope")
          | Some task =>
              ctx ← liftM (make_task_context task (from_opt [] (as_dict payload)) md queue);
              success ← process_task_with_lease task ctx m md infra queue plain_delivery;
              if success : bool then
                _ ← call EAck;
                observe "TaskMessageAcked"
                  [("consumer_name", PStr (c_name c)); ("queue_name", PStr queue);
                   ("task_id", PStr (te_task_id task));
                   ("correlation_id", opt_str (tc_correlation_id ctx));
                   ("retry_attempt", PInt (tc_retry_attempt ctx));
                   ("task_type", opt_str (te_task_type task))]
              else mret tt
          end
      end
  end.

(** [_handle_message], relayna/consumer/task_consumer.py:232-252. *)
Definition handle_message (m : message) (queue : string) (infra : option RetryInfrastructure) :
    M unit :=
  md ← liftM (extract_message_metadata m);
  handle_message_impl m md queue infra.

End methods.
End consumer.
