(* ===== verification/ConsumerDemo.v ===== *)
(** * A concrete surrounding

    Codecs and worlds at which the consumer theorems are instantiated: every
    body parses to the same task, and the handler ends as given. *)

From S2P Require Import Prelude PyStr PyVal Contracts Transport DlqModels LeaseStore.
From S2P Require Import Effects ConsumerContext TaskConsumer.

#[export] Instance demo_transport : Transport := {|
  from_json _ := Ok (PDict [("task_id", PStr "task-1")]);
  to_json v := repr v;
  utf8_decode s := Some s;
  json_loads _ := Raise (Exn XValueError "JSONDecodeError" "no value") |}.

Definition demo_task : TaskEnvelope :=
  {| te_task_id := "task-1"; te_payload := []; te_created_at := 0; te_service := None;
     te_task_type := None; te_correlation_id := None; te_priority := None;
     te_spec_version := "1.0"; te_extra := [] |}.

Definition demo_workflow : WorkflowEnvelope :=
  {| we_task_id := "task-1"; we_message_id := "message-1"; we_correlation_id := None;
     we_stage := "stage-a"; we_origin_stage := None; we_action := None; we_payload := [];
     we_meta := []; we_priority := None; we_spec_version := "1.0"; we_extra := [] |}.

Definition demo_status : StatusEventEnvelope :=
  {| se_task_id := "task-1"; se_status := "done"; se_timestamp := 0; se_message := None;
     se_meta := []; se_result := None; se_correlation_id := None; se_event_id := None;
     se_service := None; se_spec_version := "1.0"; se_extra := [] |}.

#[export] Instance demo_pydantic : Pydantic := {|
  task_validate _ := Some demo_task;
  task_dump t := [("task_id", PStr (te_task_id t))];
  batch_validate _ := None;
  batch_dump _ := [];
  status_validate _ := Some demo_status;
  status_dump _ := [];
  workflow_validate _ := Some demo_workflow;
  workflow_dump w := [("task_id", PStr (we_task_id w))] |}.

Definition demo_policy : RetryPolicy :=
  {| rp_max_retries := 3; rp_delay_ms := 30000; rp_retry_queue_suffix := ".retry";
     rp_dead_letter_queue_suffix := ".dlq"; rp_retry_priority_step := None |}.

Definition demo_consumer (leased : bool) : TaskConsumer :=
  {| c_name := "worker"; c_failure_action := FA_REJECT;
     c_lifecycle := {| lc_enabled := false; processing_status := "processing";
       completed_status := "completed"; failed_status := "failed";
       lc_include_error_message := true |};
     c_retry_policy := Some demo_policy;
     c_retry_statuses := {| rs_enabled := false; retrying_status := "retrying";
       dead_lettered_status := "failed"; rs_include_error_message := true |};
     c_sink := false; c_dlq_store := false; c_metrics := false; c_alias_config := None;
     c_lease_store := leased; c_lease_enabled := leased; c_lease_ttl := 60000000;
     c_lease_recovery := OBSERVE_ONLY; c_lease_owner_id := "worker"; c_routed_tasks := false |}.

Definition demo_infra : RetryInfrastructure :=
  {| ri_source_queue_name := "tasks"; ri_retry_queue_name := "tasks.retry";
     ri_dead_letter_queue_name := "tasks.dlq" |}.

Definition demo_message (headers : pydict) : message :=
  {| m_body := "{}"; m_headers := PDict headers; m_correlation_id := None; m_delivery_tag := Some 1;
     m_redelivered := false; m_content_type := Some "application/json" |}.

(** Every call succeeds; the handler ends with [h] and the heartbeat with [stop]. *)
Definition demo_world (h : handler_outcome) (stop : result unit) : world := fun _ X e =>
  match e in eff X return X with
  | EAck => Ok tt | EReject _ => Ok tt | EPublishRaw _ => Ok tt | EPublishTask _ _ => Ok tt
  | EPublishStatus _ => Ok tt | EPublishAggregation _ => Ok tt | EPublishToStage _ _ => Ok tt
  | EPublishWorkflow _ _ => Ok tt | EObserve _ => Ok tt
  | ETaskHandler _ => h | EAggregationHandler _ => h | EWorkflowHandler _ _ => h
  | ENow => 0 | EUuid => "id" | ELeaseAcquire _ => Ok true | ELeaseRelease _ _ => Ok true
  | EHeartbeatStart _ => tt | EHeartbeatStop => stop | EDlqAdd _ => Ok tt
  | EMetric _ _ => tt | EResourceSample => None
  | EDedupAcquire _ _ _ _ _ => Ok true | EDedupRelease _ _ _ _ _ => Ok tt
  | EMarkInflight _ _ _ _ _ => Ok tt | EClearInflight _ _ _ _ _ => Ok tt
  end.

Definition boom : exn := Exn XUser "Boom" "boom".
Definition failing : handler_outcome := HandlerOutcome (Raise boom) None.
Definition succeeding : handler_outcome := HandlerOutcome (Ok tt) None.

Definition demo_context : TaskContext :=
  {| tc_consumer_name := "worker"; tc_raw_payload := []; tc_correlation_id := None;
     tc_delivery_tag := Some 1; tc_redelivered := false; tc_task_id := "task-1";
     tc_retry_attempt := 0; tc_max_retries := Some 3; tc_source_queue_name := Some "tasks";
     tc_batch_id := None; tc_batch_index := None; tc_batch_size := None; tc_headers := [];
     tc_is_task_context := true; tc_manual_retry_count := 0;
     tc_manual_retry_previous_task_type := None; tc_manual_retry_source_consumer := None;
     tc_manual_retry_reason := None |}.

Definition demo_metadata (headers : pydict) (attempt : Z) : MessageMetadata :=
  {| md_headers := headers; md_correlation_id := None; md_delivery_tag := Some 1;
     md_redelivered := false; md_content_type := Some "application/json";
     md_retry_attempt := attempt |}.
