(* ===== verification/TaskConsumerSpec.v ===== *)
(** * What a task delivery does

    The visible behaviour of [TaskConsumer.handle_message]: which messages it
    publishes, and how it settles the delivery, on every branch. *)

From S2P Require Import Prelude PyStr PyVal Contracts Policies Transport DlqModels LeaseStore.
From S2P Require Import Effects ConsumerContext TaskConsumer ConsumerDemo.

Section spec.
Context `{Transport} `{Pydantic}.
Context (c : TaskConsumer).

Lemma calm_observe cls f : calm (observe c cls f).
Proof. apply calm_emit. Qed.
Lemma calm_metric n f : calm (metric c n f).
Proof. apply calm_when. by apply calm_ask. Qed.
Hint Resolve calm_observe calm_metric : relayna.

Lemma calm_lifecycle ctx s msg : calm (publish_lifecycle_status c ctx s msg).
Proof.
  unfold publish_lifecycle_status. destruct (negb _); [apply calm_ret|].
  apply calm_except; [|intros; apply calm_ret].
  apply silent_bind; auto with relayna.
Qed.
Hint Resolve calm_lifecycle : relayna.

Lemma calm_retry_status ctx a mx : calm (publish_retry_status c ctx a mx).
Proof.
  unfold publish_retry_status. destruct (negb _); [apply calm_ret|].
  apply calm_except; auto with relayna.
Qed.

Lemma calm_dead_letter_status ctx e : calm (publish_dead_letter_status c ctx e).
Proof.
  unfold publish_dead_letter_status. destruct (rs_enabled _).
  - apply calm_except; auto with relayna.
  - destruct (negb _); auto with relayna.
Qed.

Lemma calm_sample t ctx q k : calm (emit_task_resource_sample c t ctx q k).
Proof.
  unfold emit_task_resource_sample. destruct (_ && _); [apply calm_ret|].
  apply calm_bind; [by apply calm_ask|]. intros [[cpu rss]|]; [|apply calm_ret].
  apply calm_bind; auto with relayna.
Qed.
Hint Resolve calm_retry_status calm_dead_letter_status calm_sample : relayna.

(** ** Publishing a retry or a dead letter *)

(** The message [_publish_retry] and [_publish_dead_letter] send. *)
Definition retry_message (m : message) (md : MessageMetadata) (ri : RetryInfrastructure)
    (queue : string) (attempt max : Z) (reason : string) (et : option string) (x : pydict) :
    raw_publish :=
  RawPublish (ri_retry_queue_name ri) (m_body m) (md_correlation_id md)
    (retry_headers (md_headers md) queue attempt max reason et x)
    (retry_priority (c_retry_policy c) attempt) (md_content_type md).

Definition dead_message (m : message) (md : MessageMetadata) (ri : RetryInfrastructure)
    (queue : string) (attempt max : Z) (reason : string) (et : option string) (x : pydict) :
    raw_publish :=
  RawPublish (ri_dead_letter_queue_name ri) (m_body m) (md_correlation_id md)
    (retry_headers (md_headers md) queue attempt max reason et x) None (md_content_type md).

(** Published [p] and went on, or tried and raised. *)
Definition publishes (p : raw_publish) (l : list vis) (r : result unit) : Prop :=
  l = [VRaw p true] \/ (l = [VRaw p false] /\ is_ok r = false).

Lemma publish_retry_spec m md ri queue tid a mx reason et x :
  wpo (publish_retry c m md (Some ri) queue tid a mx reason et None None x)
    (publishes (retry_message m md ri queue a mx reason et x)).
Proof.
  unfold publish_retry. apply wpo_call_bind; cbn; [|by right].
  intros _. apply wpo_calm; [auto with relayna|by left..].
Qed.

Lemma publish_dead_letter_spec m md ri p queue tid a reason et em x :
  c_retry_policy c = Some p ->
  wpo (publish_dead_letter c m md (Some ri) queue tid a reason et em None None x)
    (publishes (dead_message m md ri queue a (rp_max_retries p) reason et x)).
Proof.
  intros Hp. unfold publish_dead_letter. rewrite Hp. apply wpo_call_bind; cbn; [|by right].
  intros _. apply wpo_calm_bind; [auto with relayna| |by left].
  intros _. apply wpo_calm; [auto with relayna|by left..].
Qed.

Lemma publish_dead_letter_none m md infra queue tid a reason et em x :
  infra = None \/ c_retry_policy c = None ->
  wpo (publish_dead_letter c m md infra queue tid a reason et em None None x)
    (fun l r => l = [] /\ is_ok r = false).
Proof.
  intros Hn. unfold publish_dead_letter. by destruct infra, (c_retry_policy c), Hn.
Qed.

Lemma publish_retry_none m md queue tid a mx reason et x :
  wpo (publish_retry c m md None queue tid a mx reason et None None x)
    (fun l r => l = [] /\ is_ok r = false).
Proof. done. Qed.

(** ** A failed task *)

(** What is published for a task that failed with [e]. *)
Definition failure_publish (ctx : TaskContext) (m : message) (md : MessageMetadata)
    (ri : RetryInfrastructure) (p : RetryPolicy) (queue : string) (e : exn) : raw_publish :=
  let a := tc_retry_attempt ctx in
  let x := merge_batch_retry_headers ctx None in
  if a <? rp_max_retries p then
    retry_message m md ri queue (a + 1) (rp_max_retries p) "handler_error" (Some (exn_type e)) x
  else dead_message m md ri queue a (rp_max_retries p) "handler_error" (Some (exn_type e)) x.

Inductive failure_trace (ctx : TaskContext) (m : message) (md : MessageMetadata)
    (infra : option RetryInfrastructure) (queue : string) (e : exn) :
    list vis -> result bool -> Prop :=
| ft_none r : is_ok r = false -> failure_trace ctx m md infra queue e [] r
| ft_reject ok r : c_retry_policy c = None -> (is_ok r = true -> ok = true /\ r = Ok false) ->
    failure_trace ctx m md infra queue e
      [VReject (match c_failure_action c with FA_REQUEUE => true | _ => false end) ok] r
| ft_unsettled ri p ok r : infra = Some ri -> c_retry_policy c = Some p -> is_ok r = false ->
    failure_trace ctx m md infra queue e [VRaw (failure_publish ctx m md ri p queue e) ok] r
| ft_acked ri p ok r : infra = Some ri -> c_retry_policy c = Some p ->
    (is_ok r = true -> ok = true /\ r = Ok false) ->
    failure_trace ctx m md infra queue e
      [VRaw (failure_publish ctx m md ri p queue e) true; VAck ok] r.

Lemma ack_then_false (Q : list vis -> result bool -> Prop) :
  (forall ok r, (is_ok r = true -> ok = true /\ r = Ok false) -> Q [VAck ok] r) ->
  wpo (_ ← call EAck; mret false) Q.
Proof. intros HQ. apply wpo_call_bind; intros; apply HQ; naive_solver. Qed.

(** After a publish: a calm status event, then the acknowledgement. *)
Lemma publish_then_ack (pub : M unit) (status : M unit) p (Q : list vis -> result bool -> Prop) :
  wpo pub (publishes p) -> calm status ->
  (forall ok r, is_ok r = false -> Q [VRaw p ok] r) ->
  (forall ok r, (is_ok r = true -> ok = true /\ r = Ok false) -> Q [VRaw p true; VAck ok] r) ->
  wpo (_ ← pub; _ ← status; _ ← call EAck; mret false) Q.
Proof.
  intros Hp Hs H1 H2. apply wpo_bind. eapply wpo_mono; [exact Hp|].
  intros l [[]|e] [->|[-> Hf]]; try done; [| |by apply H1].
  - apply wpo_calm_bind; [done| |intros; by apply H1].
    intros _. apply ack_then_false. intros. by apply H2.
  - by apply H1.
Qed.

Lemma process_failure_spec task ctx m md infra queue e :
  wpo (process_failure c task ctx m md infra queue plain_delivery e)
    (failure_trace ctx m md infra queue e).
Proof.
  unfold process_failure. apply wpo_calm_bind; [auto with relayna| |intros; by apply ft_none].
  intros _. unfold engine_decide_retry, decide_static_retry, decide_retry. cbn [rc_max_retries rc_retry_attempt].
  destruct (c_retry_policy c) as [p|] eqn:Hp; cbn [fmap option_fmap option_map].
  - destruct (tc_retry_attempt ctx <? rp_max_retries p) eqn:Ha; cbn [rd_action rd_max_retries];
      (apply wpo_calm_bind; [auto with relayna| |intros; by apply ft_none]); intros _;
      cbn [rd_retry_attempt rd_reason do_retry_body do_retry_correlation_id do_retry_headers
           plain_delivery do_ack_message rc_reason];
      (destruct infra as [ri|]; [|by apply ft_none]).
    + eapply publish_then_ack; [apply publish_retry_spec|auto with relayna| |].
      * intros ok r Hr. pose proof (ft_unsettled ctx m md (Some ri) queue e ri p ok r) as F.
        unfold failure_publish in F. rewrite Ha in F. auto.
      * intros ok r Hr. pose proof (ft_acked ctx m md (Some ri) queue e ri p ok r) as F.
        unfold failure_publish in F. rewrite Ha in F. auto.
    + eapply publish_then_ack; [by apply publish_dead_letter_spec|auto with relayna| |].
      * intros ok r Hr. pose proof (ft_unsettled ctx m md (Some ri) queue e ri p ok r) as F.
        unfold failure_publish in F. rewrite Ha in F. auto.
      * intros ok r Hr. pose proof (ft_acked ctx m md (Some ri) queue e ri p ok r) as F.
        unfold failure_publish in F. rewrite Ha in F. auto.
  - destruct (String.eqb _ _); cbn [rd_action];
      (apply wpo_calm_bind; [auto with relayna| |intros; by apply ft_none]); intros _;
      cbn [do_ack_message plain_delivery].
    all: apply wpo_bind, wpo_call_bind; [|intros; by apply ft_reject].
    all: intros []; apply wpo_calm; [auto with relayna| |intros; by apply ft_reject].
    all: intros _; cbn; by apply ft_reject.
Qed.

(** ** A task *)

(** The handler returned, or left by requesting a manual retry. *)
Definition handler_ok (h : handler_outcome) : bool :=
  match ho_result h with
  | Ok _ => true
  | Raise e => match exn_class e with XManualRetry => true | _ => false end
  end.

(** The task is done: by its handler, or by handing it to another one. *)
Inductive done_trace : list vis -> Prop :=
| done_handler h : handler_ok h = true -> ho_manual_retry h = None -> done_trace [VHandler h]
| done_manual h r : handler_ok h = true -> ho_manual_retry h = Some r ->
    done_trace [VHandler h; VTask (mr_task r) (mr_headers r) true].

(** The task failed with an exception: the handler's, or the hand-over's. *)
Inductive failed_trace (e : exn) : list vis -> Prop :=
| failed_handler h : handler_ok h = false -> ho_result h = Raise e -> failed_trace e [VHandler h]
| failed_manual h r : handler_ok h = true -> ho_manual_retry h = Some r ->
    failed_trace e [VHandler h; VTask (mr_task r) (mr_headers r) false].

(** Cancelled before it was done. *)
Inductive open_trace : list vis -> Prop :=
| open_nil : open_trace []
| open_handler h : open_trace [VHandler h]
| open_manual h t hd ok : open_trace [VHandler h; VTask t hd ok].

Lemma publish_manual_spec ctx r :
  wpo (publish_manual_retry_request ctx r)
    (fun l res => match res with
       | Ok _ => l = [VTask (mr_task r) (mr_headers r) true]
       | Raise e => (l = [] /\ is_exception e = false) \/ l = [VTask (mr_task r) (mr_headers r) false]
       end).
Proof.
  unfold publish_manual_retry_request. apply wpo_calm_bind; [|intros _|by left].
  - apply calm_except; auto with relayna.
  - intros [[]|e]; cbn; [done|by right].
Qed.

Lemma invoke_handler_spec task ctx :
  wpo (invoke_handler c task ctx)
    (fun l r => match r with
       | Ok _ => done_trace l
       | Raise e => if is_exception e then failed_trace e l else open_trace l
       end).
Proof.
  unfold invoke_handler. apply wpo_ask_bind. intros h. cbn [obs omap visible].
  apply wpo_lift_bind.
  - intros [] Hh. assert (handler_ok h = true) as Hok.
    { unfold handler_ok. destruct (ho_result h) as [|e]; [done|]. by destruct (exn_class e). }
    destruct (ho_manual_retry h) as [r|] eqn:Hm.
    + eapply wpo_mono; [apply publish_manual_spec|]. intros l [[]|e]; cbn.
      * intros ->. by apply done_manual.
      * intros [[-> ->]| ->]; [apply open_handler|].
        destruct (is_exception e); [by apply failed_manual|apply open_manual].
    + apply wpo_calm; [auto with relayna|intros; by apply done_handler|].
      intros e ->. apply open_handler.
  - intros e Hh. cbn. destruct (is_exception e) eqn:Ee; [|apply open_handler].
    unfold handler_ok in *. apply failed_handler; unfold handler_ok; destruct (ho_result h) as [|e'] eqn:Hr; try done;
      destruct (exn_class e') eqn:Hc; try done; try (injection Hh as ->; by rewrite ?Hc).
Qed.

Inductive task_trace (ctx : TaskContext) (m : message) (md : MessageMetadata)
    (infra : option RetryInfrastructure) (queue : string) : list vis -> result bool -> Prop :=
| tt_open l r : open_trace l -> is_ok r = false -> task_trace ctx m md infra queue l r
| tt_done l r : done_trace l -> (is_ok r = true -> r = Ok true) -> task_trace ctx m md infra queue l r
| tt_failed e pre l r : is_exception e = true -> failed_trace e pre ->
    failure_trace ctx m md infra queue e l r -> task_trace ctx m md infra queue (pre ++ l) r.

Lemma failure_trace_raise ctx m md infra queue e l r r' : is_ok r' = false ->
  failure_trace ctx m md infra queue e l r -> failure_trace ctx m md infra queue e l r'.
Proof.
  intros Hr'. destruct 1; [by apply ft_none| | |]; [apply ft_reject|eapply ft_unsettled|eapply ft_acked];
    eauto; by rewrite Hr'.
Qed.

Lemma task_trace_raise ctx m md infra queue l r r' : is_ok r' = false ->
  task_trace ctx m md infra queue l r -> task_trace ctx m md infra queue l r'.
Proof.
  intros Hr'. destruct 1; [by apply tt_open|apply tt_done; by rewrite ?Hr'|].
  eapply tt_failed; eauto using failure_trace_raise.
Qed.

(** What is left after the body: the last sample and the metrics. *)
Lemma process_tail (tail tail' : M unit) (res : result bool) (Q : list vis -> result bool -> Prop) :
  calm tail -> calm tail' -> Q [] res -> (forall e, Q [] (Raise e)) ->
  wpo (_ ← tail; _ ← tail'; Done res) Q.
Proof.
  intros Ht Ht' HQ He. apply wpo_calm_bind; [done| |auto]. intros _.
  apply wpo_calm_bind; [done| |auto]. intros _. exact HQ.
Qed.

Lemma process_task_spec task ctx m md infra queue :
  wpo (process_task c task ctx m md infra queue plain_delivery)
    (task_trace ctx m md infra queue).
Proof.
  unfold process_task. apply wpo_calm_bind; [auto with relayna| |intros; by apply tt_open; [apply open_nil|]].
  intros _. apply wpo_bind, wpo_attempt, wpo_calm.
  - apply calm_bind; auto with relayna.
  - intros started. cbn [is_ok]. apply wpo_bind, wpo_attempt.
    eapply wpo_mono; [apply invoke_handler_spec|]. intros l [[]|e] Hl; cbn [app].
    + apply process_tail; [auto with relayna..| |]; rewrite app_nil_r; intros; by apply tt_done.
    + destruct (is_exception e) eqn:He.
      * apply wpo_bind, wpo_bind, wpo_attempt. eapply wpo_mono; [apply process_failure_spec|].
        intros l' r' Hf. apply wpo_ret. cbn beta iota.
        apply process_tail; [auto with relayna..| |]; rewrite ?app_nil_r.
        -- by eapply tt_failed.
        -- intros e'. eapply tt_failed; eauto using failure_trace_raise.
      * apply wpo_bind, wpo_ret. cbn beta iota.
        apply process_tail; [auto with relayna..| |]; rewrite ?app_nil_r; intros;
          rewrite ?app_nil_r; by apply tt_open.
  - intros e He. apply wpo_bind, wpo_ret. cbn beta iota. apply wpo_bind. rewrite He.
    apply wpo_ret. cbn beta iota. apply process_tail; [auto with relayna..| |]; intros;
      by apply tt_open; [apply open_nil|].
Qed.

(** ** With a lease *)

Definition leased : bool := c_lease_enabled c && c_lease_store c.

Inductive lease_trace (ctx : TaskContext) (m : message) (md : MessageMetadata)
    (infra : option RetryInfrastructure) (queue : string) : list vis -> result bool -> Prop :=
| lt_task l r : task_trace ctx m md infra queue l r -> lease_trace ctx m md infra queue l r
| lt_conflict ok r : leased = true -> (is_ok r = true -> ok = true /\ r = Ok false) ->
    lease_trace ctx m md infra queue [VReject true ok] r.

Lemma stop_and_release_silent id owner : silent
  (_ ← catchM (call EHeartbeatStop) (fun e => if is_exception e then raiseM e else mret tt);
   _ ← call (ELeaseRelease id owner); mret tt).
Proof.
  apply silent_bind.
  - unfold silent, wpo. rewrite wp_catch. intros [[]|e]; cbn; [done|]. by destruct (is_exception e).
  - intros _. apply silent_bind; [by apply silent_call|]. intros _. apply silent_lift.
Qed.

Lemma process_task_with_lease_spec task ctx m md infra queue :
  wpo (process_task_with_lease c task ctx m md infra queue plain_delivery)
    (lease_trace ctx m md infra queue).
Proof.
  unfold process_task_with_lease. destruct (negb (c_lease_enabled c) || negb (c_lease_store c)) eqn:E.
  { eapply wpo_mono; [apply process_task_spec|]. intros. by apply lt_task. }
  assert (leased = true) as Hl.
  { unfold leased. by destruct (c_lease_enabled c), (c_lease_store c). }
  apply wpo_ask_bind. intros now. apply wpo_call_bind; cbn [obs omap list_omap visible app].
  2: { intros. by apply lt_task, tt_open; [apply open_nil|]. }
  intros [|]; cbn [negb].
  - apply wpo_ask_bind. intros u. cbn [obs omap list_omap visible app]. apply wpo_finally.
    eapply wpo_mono; [apply process_task_spec|]. intros l r Ht.
    eapply wpo_mono; [apply stop_and_release_silent|]. intros l' [[]|e] ->; rewrite app_nil_r;
      apply lt_task; [done|by eapply task_trace_raise].
  - apply wpo_calm_bind; [apply calm_observe| |intros; by apply lt_task, tt_open; [apply open_nil|]].
    intros _. cbn [do_ack_message plain_delivery].
    apply wpo_call_bind; intros; by apply lt_conflict.
Qed.

(** ** A delivery *)

(** A message that is dead-lettered before any handler runs. *)
Definition refusal (m : message) (md : MessageMetadata) (queue : string) (ri : RetryInfrastructure)
    (p : RetryPolicy) (x : raw_publish) : Prop :=
  exists reason et, x = dead_message m md ri queue (md_retry_attempt md) (rp_max_retries p)
                          reason et [].

(** The publishes of a batch, in order. *)
Definition batch_publishes (md : MessageMetadata) (queue : string) (b : BatchTaskEnvelope) :
    list raw_publish :=
  imap (fun i t =>
    RawPublish queue (encode_transport_json (PDict (task_dump t)))
      (opt_or (te_correlation_id t) (Some (te_task_id t)))
      [("task_id", PStr (te_task_id t)); ("batch_id", PStr (be_batch_id b));
       ("batch_index", PInt (Z.of_nat i)); ("batch_size", PInt (Z.of_nat (length (be_tasks b))))]
      None (md_content_type md)) (be_tasks b).

(** Published before any handler ran. *)
Definition early_raws (m : message) (md : MessageMetadata) (infra : option RetryInfrastructure)
    (queue : string) (l : list vis) : Prop :=
  forall x ok, VRaw x ok ∈ l ->
    rp_queue x = queue \/
    exists ri p, infra = Some ri /\ c_retry_policy c = Some p /\ refusal m md queue ri p x.

Inductive delivery_trace (m : message) (md : MessageMetadata)
    (infra : option RetryInfrastructure) (queue : string) : list vis -> result unit -> Prop :=
| dt_unsettled l r : unsettled l = true -> early_raws m md infra queue l ->
    is_ok r = false -> delivery_trace m md infra queue l r
| dt_done pre ok r : done_trace pre -> (is_ok r = true -> ok = true) ->
    delivery_trace m md infra queue (pre ++ [VAck ok]) r
| dt_failed ctx e pre l r : tc_retry_attempt ctx = md_retry_attempt md ->
    is_exception e = true -> failed_trace e pre -> failure_trace ctx m md infra queue e l r ->
    delivery_trace m md infra queue (pre ++ l) (_ ← r; Ok tt)
| dt_lease ok r : leased = true -> (is_ok r = true -> ok = true) ->
    delivery_trace m md infra queue [VReject true ok] r
| dt_refused ok r : c_retry_policy c = None -> (is_ok r = true -> ok = true) ->
    delivery_trace m md infra queue [VReject false ok] r
| dt_dead_lettered ri p x ok r : infra = Some ri -> c_retry_policy c = Some p ->
    refusal m md queue ri p x -> (is_ok r = true -> ok = true) ->
    delivery_trace m md infra queue [VRaw x true; VAck ok] r
| dt_batch b ok r : c_retry_policy c <> None -> (is_ok r = true -> ok = true) ->
    delivery_trace m md infra queue
      (map (fun x => VRaw x true) (batch_publishes md queue b) ++ [VAck ok]) r.

Lemma ack_end (Q : list vis -> result unit -> Prop) :
  (forall ok r, (is_ok r = true -> ok = true) -> Q [VAck ok] r) -> wpo (call EAck) Q.
Proof. intros HQ x. cbn. apply HQ. by destruct x. Qed.

Lemma early_nil m md infra queue : early_raws m md infra queue [].
Proof. intros x ok Hin. by apply elem_of_nil in Hin. Qed.

Lemma early_refusal m md ri p queue x ok : c_retry_policy c = Some p -> refusal m md queue ri p x ->
  early_raws m md (Some ri) queue [VRaw x ok].
Proof. intros Hp Hx y ok' [= -> ->]%list_elem_of_singleton. right. eauto. Qed.

Lemma early_no_raw m md infra queue l :
  (forall v, v ∈ l -> match v with VRaw _ _ => False | _ => True end) -> early_raws m md infra queue l.
Proof. intros Hl x ok Hin. by apply Hl in Hin. Qed.

Lemma unsettled_nil m md infra queue e : delivery_trace m md infra queue [] (Raise e).
Proof. by apply dt_unsettled; [|apply early_nil|]. Qed.
Hint Resolve unsettled_nil : relayna.

Lemma dead_letter_and_ack m md infra queue tid reason et :
  wpo (_ ← publish_dead_letter c m md infra queue tid (md_retry_attempt md) reason et
             None None None []; call EAck)
    (delivery_trace m md infra queue).
Proof.
  destruct infra as [ri|], (c_retry_policy c) as [p|] eqn:Hp.
  2-4: eapply wpo_bind, wpo_mono; [apply publish_dead_letter_none; auto|];
       intros l [[]|e] [-> Hr]; try done; apply unsettled_nil.
  assert (forall ok e, delivery_trace m md (Some ri) queue
    [VRaw (dead_message m md ri queue (md_retry_attempt md) (rp_max_retries p) reason et []) ok]
    (Raise e)) as Hu.
  { intros. apply dt_unsettled; [done| |done]. eapply early_refusal; [done|]. by do 2 eexists. }
  apply wpo_bind. eapply wpo_mono; [by apply publish_dead_letter_spec|].
  intros l [[]|e] [->| [-> Hr]]; try done; try apply Hu.
  apply ack_end. intros ok r Hok. eapply dt_dead_lettered; eauto. by do 2 eexists.
Qed.

Lemma refuse_spec m md infra queue tid reason et on_reject : calm on_reject ->
  wpo (refuse c m md infra queue tid reason et on_reject) (delivery_trace m md infra queue).
Proof.
  intros Hc. unfold refuse. destruct (c_retry_policy c) as [p|] eqn:Hp.
  - apply dead_letter_and_ack.
  - apply wpo_call_bind; [intros []|]; cbn.
    + by apply wpo_calm; [|intros; apply dt_refused..].
    + intros e. by apply dt_refused.
Qed.

Lemma forM_publishes {A} (xs : list A) (f : A -> M unit) (g : A -> raw_publish) :
  (forall x, wpo (f x) (publishes (g x))) ->
  wpo (forM_ xs f) (fun l r => match r with
                               | Ok _ => l = map (fun x => VRaw (g x) true) xs
                               | Raise _ => unsettled l = true /\
                                   forall y ok, VRaw y ok ∈ l -> exists x, y = g x
                               end).
Proof.
  intros Hf. induction xs as [|x xs IH]; [done|]. cbn [forM_]. apply wpo_bind.
  eapply wpo_mono; [apply Hf|]. intros l [[]|e] [->| [-> Hr]]; try done.
  - eapply wpo_mono; [exact IH|]. intros l' [[]|e]; cbn; [by intros ->|].
    intros [Hu Hy]. split; [done|]. intros y ok [[= -> ->]|Hin]%elem_of_cons; eauto.
  - split; [done|]. intros y ok [= -> ->]%list_elem_of_singleton. eauto.
  - split; [done|]. intros y ok [= -> ->]%list_elem_of_singleton. eauto.
Qed.

Lemma handle_batch_spec m md d queue infra : c_retry_policy c <> None ->
  wpo (handle_batch_message c m md d queue infra) (delivery_trace m md infra queue).
Proof.
  intros Hp. unfold handle_batch_message.
  destruct (batch_validate _) as [b|]; [|apply dead_letter_and_ack].
  destruct (_ && _); [apply dead_letter_and_ack|].
  apply wpo_bind. eapply wpo_mono.
  { apply (forM_publishes _ _ (fun p => RawPublish queue (encode_transport_json (PDict (task_dump p.2)))
      (opt_or (te_correlation_id p.2) (Some (te_task_id p.2)))
      [("task_id", PStr (te_task_id p.2)); ("batch_id", PStr (be_batch_id b));
       ("batch_index", PInt (Z.of_nat p.1)); ("batch_size", PInt (Z.of_nat (length (be_tasks b))))]
      None (md_content_type md))).
    intros [i t] [[]|e]; cbn; [by left|by right]. }
  intros l [[]|e] Hl.
  2: { destruct Hl as [Hu Hy]. apply dt_unsettled; [done| |done].
       intros y ok Hin. apply Hy in Hin as [x ->]. by left. }
  assert (l = map (fun x => VRaw x true) (batch_publishes md queue b)) as ->.
  { rewrite Hl. etransitivity; [apply fmap_imap|]. symmetry. unfold batch_publishes. apply (fmap_imap _ (fun x => VRaw x true)). }
  apply wpo_call_bind; [intros []|]; cbn.
  - apply wpo_calm; [apply calm_observe|intros; by apply dt_batch..].
  - intros e. by apply dt_batch.
Qed.

Lemma open_unsettled m md infra queue l e : open_trace l -> delivery_trace m md infra queue l (Raise e).
Proof.
  intros Ho. apply dt_unsettled; [by destruct Ho| |done]. apply early_no_raw. destruct Ho; intros v Hin;
    repeat apply elem_of_cons in Hin as [->|Hin]; try done; by apply elem_of_nil in Hin.
Qed.
Lemma done_unsettled m md infra queue l e : done_trace l -> delivery_trace m md infra queue l (Raise e).
Proof.
  intros Ho. apply dt_unsettled; [by destruct Ho| |done]. apply early_no_raw. destruct Ho; intros v Hin;
    repeat apply elem_of_cons in Hin as [->|Hin]; try done; by apply elem_of_nil in Hin.
Qed.

Lemma make_task_context_attempt task d md queue ctx :
  make_task_context c task d md queue = Ok ctx -> tc_retry_attempt ctx = md_retry_attempt md.
Proof.
  unfold make_task_context. intros E.
  repeat (apply result_bind_ok in E as (? & _ & E)). by injection E as <-.
Qed.

Lemma process_delivery task ctx m md infra queue (acked : M unit) :
  tc_retry_attempt ctx = md_retry_attempt md -> calm acked ->
  wpo (success ← process_task_with_lease c task ctx m md infra queue plain_delivery;
       if success : bool then _ ← call EAck; acked else mret tt)
    (delivery_trace m md infra queue).
Proof.
  intros Hctx Hc. apply wpo_bind. eapply wpo_mono; [apply process_task_with_lease_spec|].
  intros l r [l0 r0 Ht|ok r0 Hl Hr].
  - destruct Ht as [l1 r1 Ho Hr|l1 r1 Hd Hr|e pre l1 r1 He Hpre Hf].
    + destruct r1 as [|e]; [done|]. by apply open_unsettled.
    + destruct r1 as [b|e]; [|by apply done_unsettled].
      injection (Hr eq_refl) as ->. apply wpo_call_bind; [intros []|]; cbn.
      * apply wpo_calm; [done|intros; by apply dt_done..].
      * intros e. by apply dt_done.
    + pose proof (dt_failed m md infra queue ctx e pre l1 r1 Hctx He Hpre Hf) as D.
      destruct r1 as [[]|e']; cbn in D |- *; [|by rewrite app_nil_r|done].
      exfalso. clear D. inversion Hf; subst; cbn in *; naive_solver.
  - destruct r0 as [b|e]; [|by apply dt_lease].
    destruct (Hr eq_refl) as [-> [= ->]]. cbn. by apply dt_lease.
Qed.

(** Every trace of a delivery is one of the accounted kinds: done and
    acknowledged; failed and retried, dead-lettered or rejected exactly as the
    retry policy decides; refused or dead-lettered before the handler; a lease
    conflict requeued; a batch republished whole; or cut short unsettled. *)
Lemma handle_message_spec m queue infra :
  wpo (handle_message c m queue infra)
    (fun l r => match extract_message_metadata m with
                | Ok md => delivery_trace m md infra queue l r
                | Raise e => l = [] /\ r = Raise e
                end).
Proof.
  unfold handle_message. apply wpo_lift_bind; [|intros e ->; done].
  intros md ->. unfold handle_message_impl.
  destruct (parse_transport_json (m_body m)) as [payload|e]; [|apply refuse_spec, calm_observe].
  apply wpo_calm_bind; [apply calm_observe| |intros; apply unsettled_nil]. intros _.
  destruct (match normalize_payload payload _ with PDict _ => _ | _ => _ end) as [d|].
  - destruct (c_retry_policy c) eqn:Hp; [apply handle_batch_spec; by rewrite Hp|].
    apply wpo_call_bind; [intros []|]; cbn.
    + by apply wpo_calm; [apply calm_observe|intros; apply dt_refused..].
    + intros e. by apply dt_refused.
  - destruct (task_validate _) as [task|]; [|apply refuse_spec, calm_observe].
    apply wpo_lift_bind; [|intros; apply unsettled_nil].
    intros ctx Hctx. apply process_delivery; [by eapply make_task_context_attempt|apply calm_observe].
Qed.

(** ** Consequences *)

(** The one settlement of a delivery and its success. *)
Definition settled_ok (v : vis) : bool :=
  match v with VAck ok => ok | VReject _ ok => ok | _ => false end.

Lemma batch_unsettled md queue b :
  settlements (map (fun x => VRaw x true) (batch_publishes md queue b)) = [].
Proof. by induction (batch_publishes md queue b). Qed.

Lemma failed_settlements e pre : failed_trace e pre -> settlements pre = [].
Proof. by destruct 1. Qed.
Lemma done_settlements pre : done_trace pre -> settlements pre = [].
Proof. by destruct 1. Qed.

Lemma delivery_settlements m md infra queue l r : delivery_trace m md infra queue l r ->
  (length (settlements l) <= 1)%nat /\
  (r = Ok tt -> exists v, settlements l = [v] /\ settled_ok v = true).
Proof.
  intros [l0 r0 Hu _ Hr|pre ok r0 Hd Hr|ctx e pre l0 r0 Hctx He Hpre Hf|ok r0 Hl Hr|ok r0 Hp Hr
         |ri p x ok r0 Hi Hp Hx Hr|b ok r0 Hp Hr].
  - rewrite unsettled_settlements by done. split; [cbn; lia|]. by intros ->.
  - rewrite settlements_app, done_settlements by done. cbn. split; [lia|]. intros ->. eauto.
  - rewrite settlements_app, (failed_settlements e pre) by done.
    destruct Hf as [r1 Hr|ok r1 Hp Hr|ri p ok r1 Hi Hp Hr|ri p ok r1 Hi Hp Hr]; cbn;
      (split; [lia|]); destruct r1 as [b|x]; try done; intros _;
      destruct (Hr eq_refl) as [-> _]; eauto.
  - cbn. split; [lia|]. intros ->. eauto.
  - cbn. split; [lia|]. intros ->. eauto.
  - cbn. split; [lia|]. intros ->. eauto.
  - rewrite settlements_app, batch_unsettled. cbn. split; [lia|]. intros ->. eauto.
Qed.

(** C1. A delivery is settled at most once, and exactly once, successfully,
    whenever the message handler returns. *)
Theorem settles_once m queue infra :
  wpo (handle_message c m queue infra)
    (fun l r => (length (settlements l) <= 1)%nat /\
       (r = Ok tt -> exists v, settlements l = [v] /\ settled_ok v = true)).
Proof.
  eapply wpo_mono; [apply handle_message_spec|]. cbn. intros l r Hl.
  destruct (extract_message_metadata m) as [md|e]; [by eapply delivery_settlements|].
  destruct Hl as [-> ->]. split; [cbn; lia|done].
Qed.

(** What justifies an acknowledgement: nothing of the message is lost. *)
Inductive justified (infra : option RetryInfrastructure) (md : MessageMetadata) (queue : string)
    (m : message) (pre : list vis) : Prop :=
| just_handled h : VHandler h ∈ pre -> handler_ok h = true -> ho_manual_retry h = None ->
    justified infra md queue m pre
| just_handed_over t hd : VTask t hd true ∈ pre -> justified infra md queue m pre
| just_requeued ri x : infra = Some ri -> VRaw x true ∈ pre -> rp_body x = m_body m ->
    rp_queue x = ri_retry_queue_name ri \/ rp_queue x = ri_dead_letter_queue_name ri ->
    justified infra md queue m pre
| just_batch b : (forall x, x ∈ batch_publishes md queue b -> VRaw x true ∈ pre) ->
    justified infra md queue m pre.

Lemma split_unique (l pre post : list vis) v : settlements l = [] -> settlement v = true ->
  forall b, l ++ [v] = pre ++ VAck b :: post -> l = pre /\ v = VAck b /\ post = [].
Proof.
  intros Hl Hv b. revert l Hl. induction pre as [|x pre IH]; intros [|y l] Hl; cbn.
  - by intros [= -> ->].
  - intros [= -> _]. done.
  - intros [= -> E]. by destruct pre.
  - intros [= -> E]. cbn in Hl. destruct (settlement x) eqn:Ex; [done|].
    destruct (IH l Hl E) as (-> & -> & ->). done.
Qed.

Lemma no_ack (l pre post : list vis) b : settlements l = [] -> l <> pre ++ VAck b :: post.
Proof. intros Hl ->. rewrite settlements_app in Hl. by apply app_nil in Hl as [_ ?]. Qed.

Lemma failure_publish_queue ctx m md ri p queue e :
  rp_body (failure_publish ctx m md ri p queue e) = m_body m /\
  (rp_queue (failure_publish ctx m md ri p queue e) = ri_retry_queue_name ri \/
   rp_queue (failure_publish ctx m md ri p queue e) = ri_dead_letter_queue_name ri).
Proof. unfold failure_publish. destruct (_ <? _); cbn; auto. Qed.


(** C3. A handled failure: with retries left, the message goes to the retry
    queue with its attempt incremented; without, to the dead-letter queue; with
    no retry policy it is rejected, requeued only if so configured. *)
Theorem failed_task_outcome m queue infra md h :
  extract_message_metadata m = Ok md -> handler_ok h = false ->
  wpo (handle_message c m queue infra)
    (fun l r => r = Ok tt -> VHandler h ∈ l ->
       match c_retry_policy c, infra with
       | None, _ =>
           l = [VHandler h; VReject (match c_failure_action c with FA_REQUEUE => true | _ => false end) true]
       | Some p, Some ri => exists x, l = [VHandler h; VRaw x true; VAck true] /\
           rp_body x = m_body m /\
           if md_retry_attempt md <? rp_max_retries p
           then rp_queue x = ri_retry_queue_name ri /\
                retry_attempt_from_headers (rp_headers x) = Ok (md_retry_attempt md + 1)
           else rp_queue x = ri_dead_letter_queue_name ri /\
                retry_attempt_from_headers (rp_headers x) = Ok (md_retry_attempt md)
       | Some _, None => False
       end).
Proof.
  intros Hmd Hh. eapply wpo_mono; [apply handle_message_spec|]. rewrite Hmd.
  assert (0 <= md_retry_attempt md) as Hpos.
  { unfold extract_message_metadata in Hmd. apply result_bind_ok in Hmd as (a & Ha & [= <-]).
    by eapply retry_attempt_nonneg. }
  intros l r [l0 r0 Hu _ Hr|pre ok r0 Hd Hr|ctx e pre l0 r0 Hctx He Hpre Hf|ok r0 Hl Hr|ok r0 Hp Hr
         |ri p x ok r0 Hi Hp Hx Hr|b' ok r0 Hp Hr] Hok Hin.
  - by subst.
  - apply elem_of_app in Hin as [Hin|Hin%list_elem_of_singleton]; [|done].
    destruct Hd; repeat apply elem_of_cons in Hin as [Hin|Hin]; try by apply elem_of_nil in Hin.
    all: try done; injection Hin as ->; congruence.
  - assert (pre = [VHandler h]) as ->.
    { assert (VHandler h ∈ pre) as Hpin.
      { apply elem_of_app in Hin as [Hin|Hin]; [done|]. exfalso.
        destruct Hf; repeat apply elem_of_cons in Hin as [Hin|Hin]; try done; by apply elem_of_nil in Hin. }
      destruct Hpre; repeat apply elem_of_cons in Hpin as [Hpin|Hpin]; try done;
        try by apply elem_of_nil in Hpin. all: injection Hpin as ->; congruence. }
    destruct Hf as [r1 Hr|ok r1 Hp Hr|ri p ok r1 Hi Hp Hr|ri p ok r1 Hi Hp Hr];
      destruct r1 as [b|x]; try done; destruct (Hr eq_refl) as [-> _].
    + by rewrite Hp.
    + rewrite Hp, Hi. eexists. split; [done|]. unfold failure_publish. rewrite Hctx.
      destruct (_ <? _); cbn; (split; [done|]); (split; [done|]); apply retry_headers_attempt; lia.
  - by apply list_elem_of_singleton in Hin.
  - by apply list_elem_of_singleton in Hin.
  - repeat apply elem_of_cons in Hin as [Hin|Hin]; try done. by apply elem_of_nil in Hin.
  - apply elem_of_app in Hin as [Hin|Hin%list_elem_of_singleton]; [|done].
    apply list_elem_of_In, in_map_iff in Hin as (x & [=] & _).
Qed.

(** ** Redelivery *)

(** Where the raw publishes of a delivery come from. *)
Lemma delivery_raw m md infra queue l r x ok :
  delivery_trace m md infra queue l r -> VRaw x ok ∈ l ->
  early_raws m md infra queue [VRaw x ok] \/
  exists ri ctx e p, infra = Some ri /\ tc_retry_attempt ctx = md_retry_attempt md /\
    c_retry_policy c = Some p /\ x = failure_publish ctx m md ri p queue e.
Proof.
  intros [l0 r0 Hu He Hr|pre ok' r0 Hd Hr|ctx e pre l0 r0 Hctx He Hpre Hf|ok' r0 Hl Hr|ok' r0 Hp Hr
         |ri p y ok' r0 Hi Hp Hx Hr|b' ok' r0 Hp Hr] Hin.
  - left. intros y oky [= -> ->]%list_elem_of_singleton. by eapply He.
  - exfalso. apply elem_of_app in Hin as [Hin|Hin%list_elem_of_singleton]; [|done].
    destruct Hd; repeat apply elem_of_cons in Hin as [Hin|Hin]; try done; by apply elem_of_nil in Hin.
  - right. apply elem_of_app in Hin as [Hin|Hin].
    + exfalso. destruct Hpre; repeat apply elem_of_cons in Hin as [Hin|Hin]; try done;
        by apply elem_of_nil in Hin.
    + destruct Hf; repeat apply elem_of_cons in Hin as [Hin|Hin]; try done;
        try (by apply elem_of_nil in Hin); injection Hin as ->; eauto 10.
  - by apply list_elem_of_singleton in Hin.
  - by apply list_elem_of_singleton in Hin.
  - left. repeat apply elem_of_cons in Hin as [Hin|Hin]; try done; [|by apply elem_of_nil in Hin].
    injection Hin as -> ->. subst. by eapply early_refusal.
  - left. apply elem_of_app in Hin as [Hin|Hin%list_elem_of_singleton]; [|done].
    apply list_elem_of_In, in_map_iff in Hin as (y & [= -> <-] & Hy).
    intros z okz [= -> ->]%list_elem_of_singleton. left.
    unfold batch_publishes in Hy. apply list_elem_of_In, elem_of_lookup_imap in Hy as (i & t & -> & _). done.
Qed.

(** [m'] is what the broker delivers after [x] sat in the retry queue. *)
Definition redelivered_as (x : raw_publish) (m' : message) : Prop :=
  m_body m' = rp_body x /\ m_headers m' = PDict (rp_headers x).

Inductive retry_step (ri : RetryInfrastructure) (queue : string) (m m' : message) : Prop :=
| retry_step_run w past x :
    VRaw x true ∈ obs (run w past (handle_message c m queue (Some ri))).1 ->
    rp_queue x = ri_retry_queue_name ri -> redelivered_as x m' -> retry_step ri queue m m'.

Lemma retry_step_attempt ri queue p m m' :
  c_retry_policy c = Some p -> ri_retry_queue_name ri <> ri_dead_letter_queue_name ri ->
  ri_retry_queue_name ri <> queue -> retry_step ri queue m m' ->
  exists md md', extract_message_metadata m = Ok md /\ extract_message_metadata m' = Ok md' /\
    md_retry_attempt md' = md_retry_attempt md + 1 /\ md_retry_attempt md < rp_max_retries p.
Proof.
  intros Hp Hrd Hrq [w past x Hin Hq [Hb Hh]].
  pose proof (wpo_run _ _ w past (handle_message_spec m queue (Some ri))) as Hl. cbv beta in Hl.
  destruct (extract_message_metadata m) as [md|e] eqn:Hmd;
    [|destruct Hl as [E _]; rewrite E in Hin; by apply elem_of_nil in Hin].
  assert (0 <= md_retry_attempt md) as Hpos.
  { unfold extract_message_metadata in Hmd. apply result_bind_ok in Hmd as (a & Ha & [= <-]).
    by eapply retry_attempt_nonneg. }
  destruct (delivery_raw _ _ _ _ _ _ _ _ Hl Hin) as [Hx|(ri' & ctx & e & p' & [= <-] & Hctx & Hp' & Hx)].
  - destruct (Hx x true) as [Hxq|(ri' & p' & [= <-] & _ & reason & et & ->)]; [left| |].
    + congruence.
    + cbn in Hq. congruence.
  - rewrite Hp in Hp'. injection Hp' as <-. unfold failure_publish in Hx. rewrite Hctx in Hx.
    destruct (_ <? _) eqn:Hlt; subst x; cbn in Hq, Hh; [|congruence]. bool_to_prop.
    exists md. eexists. split; [done|]. unfold extract_message_metadata, message_headers.
    rewrite Hh. cbn [as_dict from_opt]. rewrite retry_headers_attempt by lia. done.
Qed.

(** C4. Redelivery through the retry queue terminates: starting from a message
    at some attempt, whatever the broker, the handler and the other services
    answer, at most [max_retries - attempt] retries follow one another. *)
Theorem retries_bounded ri queue p k m m' md :
  c_retry_policy c = Some p -> ri_retry_queue_name ri <> ri_dead_letter_queue_name ri ->
  ri_retry_queue_name ri <> queue -> extract_message_metadata m = Ok md ->
  nsteps (retry_step ri queue) k m m' ->
  Z.of_nat k <= Z.max 0 (rp_max_retries p - md_retry_attempt md).
Proof.
  intros Hp Hrd Hrq Hmd Hn. revert md Hmd.
  induction Hn as [m|k m m1 m2 Hs Hn IH]; intros md Hmd; [lia|].
  destruct (retry_step_attempt ri queue p m m1 Hp Hrd Hrq Hs) as (md0 & md1 & E0 & E1 & Ha & Hlt).
  rewrite Hmd in E0. injection E0 as <-. specialize (IH md1 E1). lia.
Qed.

(** A heartbeat that died takes the acknowledgement with it: whatever
    processing the task returned, success included, awaiting the dead heartbeat
    raises its exception, the lease is not released, and nothing settles the
    message afterwards. *)
Theorem heartbeat_failure_unacked (w : world) past now e task ctx m md infra queue :
  leased = true -> is_exception e = true ->
  (forall past, w past _ ENow = now) -> (forall past l, w past _ (ELeaseAcquire l) = Ok true) ->
  (forall past, w past _ EHeartbeatStop = Raise e) ->
  let l := build_task_lease c now task ctx in
  let pre := [Ev ENow now; Ev (ELeaseAcquire l) (Ok true);
              Ev (EHeartbeatStart (lease_id l))
                 (w (past ++ [Ev ENow now] ++ [Ev (ELeaseAcquire l) (Ok true)])%list _
                    (EHeartbeatStart (lease_id l)))] in
  let body := run w (past ++ pre)%list (process_task c task ctx m md infra queue plain_delivery) in
  run w past (process_task_with_lease c task ctx m md infra queue plain_delivery) =
  ((pre ++ body.1 ++ [Ev EHeartbeatStop (Raise e)])%list, Raise e).
Proof.
  intros Hl He Hnow Hacq Hstop l pre body. unfold process_task_with_lease.
  assert (negb (c_lease_enabled c) || negb (c_lease_store c) = false) as ->.
  { unfold leased in Hl. by destruct (c_lease_enabled c), (c_lease_store c). }
  rewrite run_bind, run_ask, Hnow. cbn [fst snd]. rewrite run_bind, run_call, Hacq. cbn [fst snd negb].
  rewrite run_bind, run_ask. cbn [fst snd]. rewrite <- !app_assoc.
  change (past ++ [Ev ENow now] ++ [Ev (ELeaseAcquire (build_task_lease c now task ctx)) (Ok true)] ++ _)%list
    with (past ++ pre)%list.
  unfold finallyM. rewrite run_bind, run_attempt. cbn [fst snd]. fold body.
  rewrite run_bind, run_bind. unfold catchM. rewrite run_bind, run_attempt, run_call, Hstop.
  cbn [fst snd]. rewrite He. cbn. rewrite ?app_nil_r. by rewrite <- ?app_assoc.
Qed.

End spec.

(** ** Witnesses *)

Lemma failed_task_outcome_witness :
  wpo (handle_message (demo_consumer false) (demo_message []) "tasks" (Some demo_infra))
    (fun l r => r = Ok tt -> VHandler failing ∈ l ->
       exists x, l = [VHandler failing; VRaw x true; VAck true] /\ rp_body x = "{}" /\
         rp_queue x = "tasks.retry" /\ retry_attempt_from_headers (rp_headers x) = Ok 1).
Proof.
  exact (failed_task_outcome (demo_consumer false) (demo_message []) "tasks" (Some demo_infra)
    (demo_metadata [] 0) failing eq_refl eq_refl).
Defined.

Lemma retries_bounded_witness : 1 <= 3.
Proof.
  apply (retries_bounded (demo_consumer false) demo_infra "tasks" demo_policy 1 (demo_message [])
    (demo_message (retry_headers [] "tasks" 1 3 "handler_error" (Some "Boom") []))
    (demo_metadata [] 0)); [reflexivity|discriminate|discriminate|reflexivity|].
  apply nsteps_once. eapply (retry_step_run _ _ _ _ _ (demo_world failing (Ok tt)) []);
    [vm_compute; right; left|reflexivity|split; reflexivity].
Defined.

Lemma heartbeat_failure_unacked_witness :
  (run (demo_world succeeding (Raise boom)) [] (process_task_with_lease (demo_consumer true) demo_task
     demo_context (demo_message []) (demo_metadata [] 0) (Some demo_infra) "tasks" plain_delivery)).2 = Raise boom.
Proof.
  rewrite (heartbeat_failure_unacked (demo_consumer true) (demo_world succeeding (Raise boom)) []
    0 boom); reflexivity.
Defined.
