(* ===== verification/AggregationConsumer.v ===== *)
(** * Aggregation consumer (consumer/task_consumer.py, class AggregationConsumer)

    The consumer of the shard queues: one delivery through [_handle_message]
    and what it promises. *)

From S2P Require Import Prelude PyStr PyVal Contracts Transport DlqModels LeaseStore.
From S2P Require Import Effects ConsumerContext TaskConsumer ConsumerDemo TaskConsumerSpec.

Module Aggregation.

(** [AggregationConsumer.__init__], relayna/consumer/task_consumer.py:987-1024. *)
Record AggregationConsumer := {
  a_name : string;
  a_retry_policy : option RetryPolicy;
  a_retry_statuses : RetryStatusConfig;
  a_sink : bool;
  a_dlq_store : bool;
  a_metrics : bool;
  a_alias_config : option ContractAliasConfig }.

Section consumer.
Context `{Transport} `{Pydantic}.
Context (c : AggregationConsumer).

Definition observe (cls : string) (fields : pydict) : M unit :=
  emit_observation (a_sink c) (Obs cls fields).
Definition metric (name queue : string) (fields : pydict) : M unit :=
  whenM (a_metrics c) (ask (EMetric name ([("stage", PStr "aggregation"); ("queue", PStr queue);
    ("worker_type", PStr "aggregation")] ++ fields)%list)).

(** [_publish_retry_status], relayna/consumer/task_consumer.py:1276-1290. *)
Definition publish_retry_status (ctx : TaskContext) (next_attempt max_retries : Z) (meta : pydict) :
    M unit :=
  if negb (rs_enabled (a_retry_statuses c)) then mret tt
  else except
    (publish_status ctx None
       (status_only (retrying_status (a_retry_statuses c))
          ("Task processing failed. Scheduling retry " +:+ pretty next_attempt +:+ "/"
             +:+ pretty max_retries +:+ ".") (Some meta)))
    (fun _ => mret tt).

(** [_publish_dead_letter_status], relayna/consumer/task_consumer.py:1292-1306. *)
Definition publish_dead_letter_status (ctx : TaskContext) (e : exn) (meta : pydict) : M unit :=
  if negb (rs_enabled (a_retry_statuses c)) then mret tt
  else except
    (publish_status ctx None
       (status_only (dead_lettered_status (a_retry_statuses c))
          (failure_message e (rs_include_error_message (a_retry_statuses c))) (Some meta)))
    (fun _ => mret tt).

(** The fields both scheduling events share. *)
Definition scheduled_fields (queue_name source_queue_name : string)
    (task_id parent_task_id correlation_id : option string) (retry_attempt max_retries : Z)
    (reason : string) : pydict :=
  [("consumer_name", PStr (a_name c)); ("task_id", opt_str task_id);
   ("parent_task_id", opt_str parent_task_id); ("queue_name", PStr queue_name);
   ("source_queue_name", PStr source_queue_name); ("correlation_id", opt_str correlation_id);
   ("retry_attempt", PInt retry_attempt); ("max_retries", PInt max_retries);
   ("reason", PStr reason)].

(** [_publish_retry], relayna/consumer/task_consumer.py:1308-1352. *)
Definition publish_retry (m : message) (md : MessageMetadata)
    (infra : option RetryInfrastructure) (source_queue_name : string)
    (task_id parent_task_id : option string) (retry_attempt max_retries : Z) (reason : string)
    (exception_type : option string) : M unit :=
  match infra with
  | None => raiseM (runtime_error "Retry infrastructure is not initialized")
  | Some ri =>
      _ ← call (EPublishRaw (RawPublish (ri_retry_queue_name ri) (m_body m) (md_correlation_id md)
            (retry_headers (md_headers md) source_queue_name retry_attempt max_retries reason
               exception_type [])
            (retry_priority (a_retry_policy c) retry_attempt) (md_content_type md)));
      observe "AggregationRetryScheduled"
        (scheduled_fields (ri_retry_queue_name ri) source_queue_name task_id parent_task_id
           (md_correlation_id md) retry_attempt max_retries reason)
  end.

(** [_publish_dead_letter], relayna/consumer/task_consumer.py:1354-1416. *)
Definition publish_dead_letter (m : message) (md : MessageMetadata)
    (infra : option RetryInfrastructure) (source_queue_name : string)
    (task_id parent_task_id : option string) (retry_attempt : Z) (reason : string)
    (exception_type exception_message : option string) : M unit :=
  match infra, a_retry_policy c with
  | Some ri, Some policy =>
      let headers := retry_headers (md_headers md) source_queue_name retry_attempt
                       (rp_max_retries policy) reason exception_type [] in
      _ ← call (EPublishRaw (RawPublish (ri_dead_letter_queue_name ri) (m_body m)
            (md_correlation_id md) headers None (md_content_type md)));
      _ ← observe "AggregationDeadLetterPublished"
        (scheduled_fields (ri_dead_letter_queue_name ri) source_queue_name task_id parent_task_id
           (md_correlation_id md) retry_attempt (rp_max_retries policy) reason);
      persist_dlq_record (a_dlq_store c) (a_sink c) (a_name c) (ri_dead_letter_queue_name ri)
        source_queue_name (ri_retry_queue_name ri) task_id (md_correlation_id md) reason
        exception_type retry_attempt (rp_max_retries policy) headers (md_content_type md)
        (m_body m) exception_message
  | _, _ => raiseM (runtime_error "Retry infrastructure is not initialized")
  end.

(** The context handed to the handler. *)
(** [AggregationConsumer._handle_message], relayna/consumer/task_consumer.py:1154-1188. *)
Definition make_context (event : StatusEventEnvelope) (ln : lineage) (payload : pydict)
    (md : MessageMetadata) (queue : string) : result TaskContext :=
  count ← manual_retry_count (md_headers md);
  let header_or key other := opt_or (header_string (md_headers md) key) other in
  Ok {| tc_consumer_name := a_name c; tc_raw_payload := payload;
        tc_correlation_id := opt_or (se_correlation_id event) (md_correlation_id md);
        tc_delivery_tag := md_delivery_tag md; tc_redelivered := md_redelivered md;
        tc_task_id := se_task_id event; tc_retry_attempt := md_retry_attempt md;
        tc_max_retries := rp_max_retries <$> a_retry_policy c;
        tc_source_queue_name := Some queue; tc_batch_id := None; tc_batch_index := None;
        tc_batch_size := None; tc_headers := md_headers md; tc_is_task_context := false;
        tc_manual_retry_count := if count =? 0 then ln_count ln else count;
        tc_manual_retry_previous_task_type :=
          header_or "x-relayna-manual-retry-from-task-type" (ln_previous_task_type ln);
        tc_manual_retry_source_consumer :=
          header_or "x-relayna-manual-retry-source-consumer" (ln_source_consumer ln);
        tc_manual_retry_reason := header_or "x-relayna-manual-retry-reason" (ln_reason ln) |}.

Definition event_fields (event : StatusEventEnvelope) (queue : string)
    (correlation_id : option string) (retry_attempt : Z) : pydict :=
  [("consumer_name", PStr (a_name c)); ("queue_name", PStr queue);
   ("task_id", PStr (se_task_id event));
   ("parent_task_id", opt_str (parent_task_id_from_meta (se_meta event)));
   ("correlation_id", opt_str correlation_id); ("retry_attempt", PInt retry_attempt)].

(** The [except Exception as exc] block. *)
(** [AggregationConsumer._handle_message], relayna/consumer/task_consumer.py:1194-1252. *)
Definition handle_failure (m : message) (md : MessageMetadata)
    (infra : option RetryInfrastructure) (queue : string) (event : StatusEventEnvelope)
    (ctx : TaskContext) (e : exn) : M unit :=
  let attempt := md_retry_attempt md in
  let parent := parent_task_id_from_meta (se_meta event) in
  _ ← observe "AggregationHandlerFailed"
        (event_fields event queue (tc_correlation_id ctx) attempt
         ++ [("exception_type", PStr (exn_type e)); ("exception_message", PStr (exn_text e))]);
  match a_retry_policy c with
  | None => call (EReject false)
  | Some policy =>
      if attempt <? rp_max_retries policy then
        _ ← metric "record_task_retry" queue [];
        _ ← publish_retry m md infra queue (Some (se_task_id event)) parent (attempt + 1)
              (rp_max_retries policy) "handler_error" (Some (exn_type e));
        _ ← publish_retry_status ctx (attempt + 1) (rp_max_retries policy) (se_meta event);
        call EAck
      else
        _ ← metric "record_task_dlq" queue [];
        _ ← publish_dead_letter m md infra queue (Some (se_task_id event)) parent attempt
              "handler_error" (Some (exn_type e)) (Some (exn_text e));
        _ ← publish_dead_letter_status ctx e (se_meta event);
        call EAck
  end.

(** What is done with a body that is no event. *)
(** [_handle_message], relayna/consumer/task_consumer.py:1096-1140. *)
Definition refuse (m : message) (md : MessageMetadata) (infra : option RetryInfrastructure)
    (queue : string) (task_id : option string) (reason : string) (exception_type : option string) :
    M unit :=
  match a_retry_policy c with
  | None => call (EReject false)
  | Some _ =>
      _ ← publish_dead_letter m md infra queue task_id None (md_retry_attempt md) reason
            exception_type None;
      call EAck
  end.

(** [AggregationConsumer._handle_message], relayna/consumer/task_consumer.py:1144-1274.  From
    the validated event on. *)
Definition handle_event (m : message) (md : MessageMetadata) (queue : string)
    (infra : option RetryInfrastructure) (payload : pydict) (event : StatusEventEnvelope) :
    M unit :=
  let attempt := md_retry_attempt md in
  _ ← metric "record_task_started" queue [("retry_attempt", PInt attempt)];
  ln ← liftM (manual_retry_meta_from_status (se_meta event));
  _ ← observe "AggregationMessageReceived"
        (event_fields event queue (opt_or (se_correlation_id event) (md_correlation_id md)) attempt
         ++ [("delivery_tag", opt_int (md_delivery_tag md));
             ("redelivered", PBool (md_redelivered md))]);
  ctx ← liftM (make_context event ln payload md queue);
  h ← ask (EAggregationHandler event);
  let finished label := metric "record_task_finished" queue [("outcome", PStr label)] in
  match ho_result h with
  | Ok _ =>
      _ ← finished "completed";
      _ ← call EAck;
      observe "AggregationMessageAcked" (event_fields event queue (tc_correlation_id ctx) attempt)
  | Raise e =>
      if is_exception e then
        finallyM (handle_failure m md infra queue event ctx e) (fun _ => finished "failed")
      else raiseM e
  end.

(** [AggregationConsumer._handle_message], relayna/consumer/task_consumer.py:1096-1143. *)
Definition handle_message (m : message) (queue : string) (infra : option RetryInfrastructure) :
    M unit :=
  md ← liftM (extract_message_metadata m);
  match parse_transport_json (m_body m) with
  | Raise _ => refuse m md infra queue None "malformed_json" None
  | Ok payload =>
      let payload := normalize_payload payload (a_alias_config c) in
      match status_validate payload with
      | None => refuse m md infra queue (coerce_task_id payload) "invalid_envelope"
                  (Some "ValidationError")
      | Some event => handle_event m md queue infra (from_opt [] (as_dict payload)) event
      end
  end.

End consumer.

(** ** What a delivery does *)

Section spec.
Context `{Transport} `{Pydantic}.
Context (c : AggregationConsumer).

Lemma agg_calm_observe cls f : calm (observe c cls f).
Proof. apply calm_emit. Qed.
Lemma agg_calm_metric n q f : calm (metric c n q f).
Proof. apply calm_when. by apply calm_ask. Qed.
Lemma agg_calm_retry_status ctx a mx meta : calm (publish_retry_status c ctx a mx meta).
Proof.
  unfold publish_retry_status. destruct (negb _); [apply calm_ret|].
  apply calm_except; auto with relayna.
Qed.
Lemma agg_calm_dead_letter_status ctx e meta : calm (publish_dead_letter_status c ctx e meta).
Proof.
  unfold publish_dead_letter_status. destruct (negb _); [apply calm_ret|].
  apply calm_except; auto with relayna.
Qed.
Hint Resolve agg_calm_observe agg_calm_metric agg_calm_retry_status agg_calm_dead_letter_status : relayna.

(** A message sent on behalf of a delivery: to the retry queue with an
    incremented attempt while retries are left, or to the dead-letter queue. *)
Definition forwarded (m : message) (md : MessageMetadata) (infra : option RetryInfrastructure)
    (handled : bool) (x : raw_publish) : Prop :=
  exists ri p, infra = Some ri /\ a_retry_policy c = Some p /\ rp_body x = m_body m /\
    if handled && (md_retry_attempt md <? rp_max_retries p)
    then rp_queue x = ri_retry_queue_name ri /\
         retry_attempt_from_headers (rp_headers x) = Ok (md_retry_attempt md + 1)
    else rp_queue x = ri_dead_letter_queue_name ri /\
         retry_attempt_from_headers (rp_headers x) = Ok (md_retry_attempt md).

Inductive settles (m : message) (md : MessageMetadata) (infra : option RetryInfrastructure)
    (handled : bool) : list vis -> result unit -> Prop :=
| st_raised l r : unsettled l = true -> is_ok r = false -> settles m md infra handled l r
| st_rejected ok r : a_retry_policy c = None -> (is_ok r = true -> ok = true) ->
    settles m md infra handled [VReject false ok] r
| st_forwarded x ok r : forwarded m md infra handled x -> (is_ok r = true -> ok = true) ->
    settles m md infra handled [VRaw x true; VAck ok] r.

Lemma agg_publish_retry_spec m md ri p queue tid parent mx et : 0 <= md_retry_attempt md ->
  a_retry_policy c = Some p -> md_retry_attempt md <? rp_max_retries p = true ->
  exists x, forwarded m md (Some ri) true x /\
  wpo (publish_retry c m md (Some ri) queue tid parent (md_retry_attempt md + 1) mx "handler_error" et)
    (publishes x).
Proof.
  intros Hpos Hp Hlt. eexists. split; [|unfold publish_retry; apply wpo_call_bind; cbn; [|by right]].
  2: { intros _. apply wpo_calm; [auto with relayna|by left..]. }
  exists ri, p. cbn [andb rp_body rp_queue rp_headers]. rewrite Hlt. split_and!; try done.
  refine (retry_headers_attempt (md_headers md) queue _ mx "handler_error" et [] _). lia.
Qed.

Lemma agg_publish_dead_letter_spec m md ri p handled queue tid parent reason et em :
  0 <= md_retry_attempt md -> a_retry_policy c = Some p ->
  handled && (md_retry_attempt md <? rp_max_retries p) = false ->
  exists x, forwarded m md (Some ri) handled x /\
  wpo (publish_dead_letter c m md (Some ri) queue tid parent (md_retry_attempt md) reason et em)
    (publishes x).
Proof.
  intros Hpos Hp Hlt. eexists. split; [|unfold publish_dead_letter; rewrite Hp; apply wpo_call_bind; cbn; [|by right]].
  2: { intros _. apply wpo_calm_bind; [auto with relayna| |by left].
       intros _. apply wpo_calm; [auto with relayna|by left..]. }
  exists ri, p. cbn [andb rp_body rp_queue rp_headers]. rewrite Hlt. split_and!; try done.
  by refine (retry_headers_attempt (md_headers md) queue _ (rp_max_retries p) reason et [] _).
Qed.

(** A publish, a calm status event, then the acknowledgement. *)
Lemma forward_then_ack m md infra handled (pub status : M unit) :
  (exists x, forwarded m md infra handled x /\ wpo pub (publishes x)) \/
    wpo pub (fun l r => l = [] /\ is_ok r = false) ->
  calm status ->
  wpo (_ ← pub; _ ← status; call EAck) (settles m md infra handled).
Proof.
  intros [(x & Hx & Hp)|Hp] Hs; apply wpo_bind; (eapply wpo_mono; [exact Hp|]).
  - intros l [[]|e] [->| [-> Hr]]; try done; try by apply st_raised.
    apply wpo_calm_bind; [done| |intros; by apply st_raised].
    intros _. apply ack_end. intros. by apply st_forwarded.
  - intros l [[]|e] [-> Hr]; try done. by apply st_raised.
Qed.

Lemma agg_refuse_spec m md infra queue tid reason et : 0 <= md_retry_attempt md ->
  wpo (refuse c m md infra queue tid reason et) (settles m md infra false).
Proof.
  intros Hpos. unfold refuse. destruct (a_retry_policy c) as [p|] eqn:Hp.
  - pose proof (forward_then_ack m md infra false
      (publish_dead_letter c m md infra queue tid None (md_retry_attempt md) reason et None) (mret tt)) as F.
    apply F; [|apply calm_ret]. destruct infra as [ri|].
    + left. by eapply agg_publish_dead_letter_spec.
    + right. done.
  - intros x. cbn. apply st_rejected; [done|]. by destruct x.
Qed.

Lemma agg_handle_failure_spec m md infra queue event ctx e : 0 <= md_retry_attempt md ->
  wpo (handle_failure c m md infra queue event ctx e) (settles m md infra true).
Proof.
  intros Hpos. unfold handle_failure.
  apply wpo_calm_bind; [auto with relayna| |intros; by apply st_raised]. intros _.
  destruct (a_retry_policy c) as [p|] eqn:Hp.
  - destruct (_ <? _) eqn:Hlt.
    all: apply wpo_calm_bind; [auto with relayna| |intros; by apply st_raised]; intros _.
    all: apply forward_then_ack; [|auto with relayna]; destruct infra as [ri|]; [left|right].
    + by eapply agg_publish_retry_spec.
    + done.
    + by eapply agg_publish_dead_letter_spec.
    + unfold publish_dead_letter. done.
  - intros x. cbn. apply st_rejected; [done|]. by destruct x.
Qed.

Lemma agg_settles_raise m md infra handled l r r' : is_ok r' = false ->
  settles m md infra handled l r -> settles m md infra handled l r'.
Proof.
  intros Hr'. destruct 1; [by apply st_raised|apply st_rejected|apply st_forwarded]; try done;
    by rewrite Hr'.
Qed.


End spec.
End Aggregation.
