(* ===== verification/TopologyBase.v ===== *)
(** * Routing and queue arguments (topology/base.py)

    The routing strategies, the shard of a status event, and the merging of
    queue arguments from the three places they are configured.  Declaring
    queues and exchanges is the list of AMQP commands sent on the channel. *)

From S2P Require Import Prelude PyStr PyVal Contracts Sha256.

(** ** AMQP declarations *)

Inductive exchange_type := FANOUT | DIRECT | TOPIC.
Inductive amqp_command :=
| DeclareExchange (name : string) (type : exchange_type)
| DeclareQueue (name : string) (arguments : option pydict)
| BindQueue (queue exchange routing_key : string).

(** [arguments or None] *)
Definition or_none (d : pydict) : option pydict := match d with [] => None | _ => Some d end.

(** Declare a durable queue and bind it to an exchange under each key. *)
Definition declare_bound (queue exchange : string) (arguments : pydict) (keys : list string) :
    list amqp_command :=
  DeclareQueue queue (or_none arguments) :: map (BindQueue queue exchange) keys.

(** ** Routing *)

(** [TaskIdRoutingStrategy.status_routing_key], relayna/topology/base.py:126-132. *)
Definition task_id_status_routing_key (alias : option ContractAliasConfig) (event : pydict) :
    result string :=
  let normalized := normalize_contract_aliases event alias in
  let task_id := py_str (from_opt (PStr "") (dget "task_id" normalized)) in
  if String.eqb task_id "" then Raise (value_error "status event missing task_id") else Ok task_id.

(** [TaskTypeRoutingStrategy.task_routing_key], relayna/topology/base.py:183-189. *)
Definition task_type_routing_key (alias : option ContractAliasConfig) (task : pydict) :
    result string :=
  let normalized := normalize_contract_aliases task alias in
  let task_type := strip (py_str (py_or (dgetv "task_type" normalized) (PStr ""))) in
  if String.eqb task_type "" then Raise (value_error "task message missing task_type")
  else Ok task_type.

(** [ShardRoutingStrategy.__init__], relayna/topology/base.py:138-150. *)
Record ShardRoutingStrategy := {
  sr_shard_count : Z;
  sr_routing_prefix : string;
  sr_key_extractor : option (pydict -> string);
  sr_alias_config : option ContractAliasConfig }.

Definition make_shard_routing (shard_count : Z) (prefix : string)
    (extractor : option (pydict -> string)) (alias : option ContractAliasConfig) :
    ShardRoutingStrategy :=
  {| sr_shard_count := Z.max 1 shard_count; sr_routing_prefix := prefix;
     sr_key_extractor := extractor; sr_alias_config := alias |}.

(** [ShardRoutingStrategy.shard_for_event], relayna/topology/base.py:160-171. *)
Definition shard_for_event (s : ShardRoutingStrategy) (event : pydict) : result Z :=
  let normalized := normalize_contract_aliases event (sr_alias_config s) in
  let key := match sr_key_extractor s with
             | Some f => f normalized
             | None =>
                 let parent := match dgetv "meta" normalized with
                               | PDict meta => dgetv "parent_task_id" meta
                               | _ => PNone
                               end in
                 py_str (py_or (py_or parent (dgetv "task_id" normalized)) (PStr ""))
             end in
  if String.eqb key "" then Raise (value_error "status event missing shard key")
  else Ok (Sha256.digest (utf8 key) mod sr_shard_count s).

(** [ShardRoutingStrategy.status_routing_key], relayna/topology/base.py:173-174. *)
Definition shard_status_routing_key (s : ShardRoutingStrategy) (event : pydict) : result string :=
  shard ← shard_for_event s event; Ok (sr_routing_prefix s +:+ "." +:+ pretty shard).

(** [aggregation_parent_task_id], relayna/topology/base.py:192-196. *)
Definition aggregation_parent_task_id (event : pydict) : string :=
  match dgetv "meta" event with
  | PDict meta => py_str (py_or (dgetv "parent_task_id" meta) (PStr ""))
  | _ => ""
  end.

(** ** Queue arguments *)

(** [validate_queue_max_priority], relayna/topology/base.py:205-209. *)
Definition validate_queue_max_priority (value : pyval) (label : string) : result Z :=
  priority ← py_int value;
  if (priority <? 1) || (255 <? priority) then
    Raise (value_error (label +:+ "_max_priority must be between 1 and 255"))
  else Ok priority.

(** [with_validated_queue_max_priority], relayna/topology/base.py:212-216. *)
Definition with_validated_queue_max_priority (arguments : pydict) (label : string) : result pydict :=
  match dgetv "x-max-priority" arguments with
  | PNone => Ok arguments
  | value => p ← validate_queue_max_priority value label;
             Ok (dset "x-max-priority" (PInt p) arguments)
  end.

(** [raise_on_argument_conflicts], relayna/topology/base.py:235-248. *)
Definition raise_on_argument_conflicts (queue_family left_name : string) (left : pydict)
    (right_name : string) (right : pydict) : result unit :=
  match sorted_strs (List.filter (fun k => din k right) (dkeys left)) with
  | [] => Ok tt
  | duplicate_keys =>
      Raise (value_error ("Duplicate " +:+ queue_family +:+ " queue arguments configured in "
        +:+ left_name +:+ " and " +:+ right_name +:+ ": " +:+ join ", " duplicate_keys))
  end.

(** [merge_queue_arguments], relayna/topology/base.py:219-232. *)
Definition merge_queue_arguments (queue_family : string) (builtins overrides kwargs : pydict) :
    result pydict :=
  _ ← raise_on_argument_conflicts queue_family "built-in fields" builtins "overrides" overrides;
  _ ← raise_on_argument_conflicts queue_family "built-in fields" builtins "kwargs" kwargs;
  _ ← raise_on_argument_conflicts queue_family "overrides" overrides "kwargs" kwargs;
  Ok (dupdate (dupdate builtins overrides) kwargs).

(** ** What they promise *)

Lemma shard_range s event n : 1 <= sr_shard_count s -> shard_for_event s event = Ok n ->
  0 <= n < sr_shard_count s.
Proof.
  intros Hc. unfold shard_for_event. destruct (String.eqb _ _); [done|]. intros [= <-].
  apply Z.mod_pos_bound. lia.
Qed.

Lemma conflicts_none family ln l rn r :
  raise_on_argument_conflicts family ln l rn r = Ok tt <->
  (forall k, ~ (k ∈ dkeys l /\ k ∈ dkeys r)).
Proof.
  unfold raise_on_argument_conflicts.
  destruct (sorted_strs (List.filter (fun k => din k r) (dkeys l))) as [|x xs] eqn:E; split; intros Hk; try done.
  - intros k [Hl Hr]. assert (k ∈ sorted_strs (List.filter (fun k => din k r) (dkeys l))) as Hin.
    { apply sorted_strs_elem, elem_of_bfilter. by rewrite din_keys. }
    rewrite E in Hin. by apply elem_of_nil in Hin.
  - exfalso. assert (x ∈ sorted_strs (List.filter (fun k => din k r) (dkeys l))) as Hin.
    { rewrite E. left. }
    apply sorted_strs_elem, elem_of_bfilter in Hin as [Hl Hr]. apply din_keys in Hr. by apply (Hk x).
Qed.

(** Merging queue arguments succeeds exactly when no argument is configured
    in two places, and then every argument has the value of the one place that
    configures it. *)
Theorem merge_queue_arguments_spec family b o k :
  dict_ok b -> dict_ok o -> dict_ok k ->
  (forall args, merge_queue_arguments family b o k = Ok args ->
     forall key, dget key args = match dget key b with Some v => Some v | None =>
                                 match dget key o with Some v => Some v | None => dget key k end end) /\
  (is_ok (merge_queue_arguments family b o k) = true <->
   forall key, ~ (key ∈ dkeys b /\ key ∈ dkeys o) /\ ~ (key ∈ dkeys b /\ key ∈ dkeys k) /\
               ~ (key ∈ dkeys o /\ key ∈ dkeys k)).
Proof.
  intros Hb Ho Hk. unfold merge_queue_arguments.
  pose proof (conflicts_none family "built-in fields" b "overrides" o) as C1.
  pose proof (conflicts_none family "built-in fields" b "kwargs" k) as C2.
  pose proof (conflicts_none family "overrides" o "kwargs" k) as C3.
  destruct (raise_on_argument_conflicts family "built-in fields" b "overrides" o) as [[]|e1]; cbn.
  2: { split; [done|]. split; [done|]. intros Hn. destruct C1 as [_ C1].
       exfalso. discriminate C1. intros key. apply Hn. }
  destruct (raise_on_argument_conflicts family "built-in fields" b "kwargs" k) as [[]|e2]; cbn.
  2: { split; [done|]. split; [done|]. intros Hn. destruct C2 as [_ C2].
       exfalso. discriminate C2. intros key. apply Hn. }
  destruct (raise_on_argument_conflicts family "overrides" o "kwargs" k) as [[]|e3]; cbn.
  2: { split; [done|]. split; [done|]. intros Hn. destruct C3 as [_ C3].
       exfalso. discriminate C3. intros key. apply Hn. }
  destruct C1 as [C1 _], C2 as [C2 _], C3 as [C3 _].
  split; [|split; [|done]; intros _ key; auto].
  intros args [= <-] key. rewrite !dget_dupdate by done.
  specialize (C1 eq_refl key). specialize (C2 eq_refl key). specialize (C3 eq_refl key).
  rewrite <- !din_keys in C1, C2, C3. unfold din in *.
  destruct (dget key b), (dget key o), (dget key k); try done; exfalso; auto.
Qed.

Lemma merge_queue_arguments_spec_witness :
  is_ok (merge_queue_arguments "task" [("x-message-ttl", PInt 5)] [("x-queue-type", PStr "quorum")] [])
  = true.
Proof.
  apply (merge_queue_arguments_spec "task" [("x-message-ttl", PInt 5)]
    [("x-queue-type", PStr "quorum")] []).
  - unfold dict_ok, dkeys; cbn. repeat constructor; set_solver.
  - unfold dict_ok, dkeys; cbn. repeat constructor; set_solver.
  - apply dict_ok_nil.
  - intros key. unfold dkeys; cbn. split_and!; intros [H1 H2]; repeat apply elem_of_cons in H1 as [->|H1];
      repeat apply elem_of_cons in H2 as [H2|H2]; try done; by apply elem_of_nil in H1 || by apply elem_of_nil in H2.
Defined.
