(* ===== verification/SharedTopology.v ===== *)
(** * Shared-task topologies (topology/shared_tasks.py, topology/sharded_aggregation.py)

    The four topologies with one task queue: plain or routed by task type, with
    or without sharded aggregation.  The two sharded classes repeat the same
    methods; one record covers the four ([st_task_types] for the routed ones,
    [st_sharding] for the sharded ones). *)

From S2P Require Import Prelude PyStr PyVal Contracts Sha256 TopologyBase TopicMatch.
From Stdlib Require Import Ascii.

(** [SharedTasksSharedStatusShardedAggregationTopology], relayna/topology/sharded_aggregation.py:19-30. *)
Record Sharding := {
  shard_count : Z;
  aggregation_routing_prefix : string;
  aggregation_queue_template : string;
  aggregation_queue_name_prefix : string;
  aggregation_consumer_timeout_ms : option Z;
  aggregation_single_active_consumer : option bool;
  aggregation_max_priority : option Z;
  aggregation_queue_type : option string;
  aggregation_queue_arguments_overrides : pydict;
  aggregation_queue_kwargs : pydict }.

(** [SharedTasksSharedStatusTopology], relayna/topology/shared_tasks.py:20-44. *)
Record SharedTopology := {
  st_rabbitmq_url : string;
  st_tasks_exchange : string;
  st_tasks_queue : string;
  st_tasks_routing_key : string;
  st_status_exchange : string;
  st_status_queue : string;
  st_dead_letter_exchange : option string;
  st_prefetch_count : Z;
  st_tasks_message_ttl_ms : option Z;
  st_task_consumer_timeout_ms : option Z;
  st_task_single_active_consumer : option bool;
  st_task_max_priority : option Z;
  st_task_queue_type : option string;
  st_task_queue_arguments_overrides : pydict;
  st_task_queue_kwargs : pydict;
  st_status_use_streams : bool;
  st_status_queue_ttl_ms : option Z;
  st_status_stream_max_length_gb : option Z;
  st_status_stream_max_segment_size_mb : option Z;
  st_status_stream_initial_offset : string;
  st_status_queue_arguments_overrides : pydict;
  st_status_queue_kwargs : pydict;
  st_task_types : option (list string);
  st_sharding : option Sharding }.

(** [if value is not None: builtins[key] = value], as a list of entries. *)
Definition entry_if (key : string) (value : option pyval) : pydict :=
  match value with Some v => [(key, v)] | None => [] end.

(** [if value:] for an optional integer. *)
Definition truthy_int (o : option Z) : option Z :=
  match o with Some z => if z =? 0 then None else Some z | None => None end.

(** [connection_string], relayna/topology/shared_tasks.py:46-50. *)
Definition connection_string (url : string) (connection_name : option string) : string :=
  match connection_name with
  | Some name =>
      if String.eqb name "" then url
      else url +:+ (if has_char "?"%char url then "&" else "?") +:+ "name=" +:+ name
  | None => url
  end.

(** The built-in arguments of a worker queue. *)
(** [task_queue_arguments], relayna/topology/shared_tasks.py:52-68. *)
Definition worker_builtins (label : string) (timeout_ms : option Z) (single : option bool)
    (max_priority : option Z) (queue_type : option string) : result pydict :=
  priority ← match max_priority with
             | Some p => n ← validate_queue_max_priority (PInt p) label; Ok (Some (PInt n))
             | None => Ok None
             end;
  Ok (entry_if "x-consumer-timeout" (PInt <$> timeout_ms)
      ++ entry_if "x-single-active-consumer" (PBool <$> single)
      ++ entry_if "x-max-priority" priority
      ++ entry_if "x-queue-type" (PStr <$> queue_type))%list.

(** [task_queue_arguments], relayna/topology/shared_tasks.py:52-74. *)
Definition task_queue_arguments (t : SharedTopology) : result pydict :=
  worker ← worker_builtins "task" (st_task_consumer_timeout_ms t)
    (st_task_single_active_consumer t) (st_task_max_priority t) (st_task_queue_type t);
  merged ← merge_queue_arguments "task"
    (entry_if "x-message-ttl" (PInt <$> truthy_int (st_tasks_message_ttl_ms t))
     ++ entry_if "x-dead-letter-exchange"
          (if opt_truthy (st_dead_letter_exchange t) then PStr <$> st_dead_letter_exchange t else None)
     ++ worker)%list
    (st_task_queue_arguments_overrides t) (st_task_queue_kwargs t);
  with_validated_queue_max_priority merged "task".

(** [status_queue_arguments], relayna/topology/shared_tasks.py:76-93. *)
Definition status_queue_arguments (t : SharedTopology) : result pydict :=
  let builtins :=
    if st_status_use_streams t then
      (("x-queue-type", PStr "stream")
       :: entry_if "x-max-length-bytes"
            ((fun gb => PInt (gb * 1024 ^ 3)) <$> st_status_stream_max_length_gb t)
       ++ entry_if "x-stream-max-segment-size-bytes"
            ((fun mb => PInt (mb * 1024 ^ 2)) <$> st_status_stream_max_segment_size_mb t))%list
    else entry_if "x-expires" (PInt <$> truthy_int (st_status_queue_ttl_ms t)) in
  merge_queue_arguments "status" builtins (st_status_queue_arguments_overrides t)
    (st_status_queue_kwargs t).

(** [status_stream_consume_arguments], relayna/topology/shared_tasks.py:95-98. *)
Definition status_stream_consume_arguments (t : SharedTopology) : pydict :=
  if st_status_use_streams t then [("x-stream-offset", PStr (st_status_stream_initial_offset t))]
  else [].

(** [_require_default_workflow_stage], relayna/topology/shared_tasks.py:246-248. *)
Definition require_default_workflow_stage (stage : string) : result unit :=
  if String.eqb stage "default" then Ok tt
  else Raise (key_error ("Unknown workflow stage '" +:+ stage +:+ "'")).

(** The loop of [_normalized_task_types]. *)
Fixpoint distinct_types (seen values : list string) : list string :=
  match values with
  | [] => []
  | value :: rest =>
      let task_type := strip value in
      if String.eqb task_type "" || str_in task_type seen then distinct_types seen rest
      else task_type :: distinct_types (task_type :: seen) rest
  end.

(** [_normalized_task_types], relayna/topology/shared_tasks.py:266-277. *)
Definition normalized_task_types (task_types : list string) : result (list string) :=
  match distinct_types [] task_types with
  | [] => Raise (value_error "At least one task_type must be configured")
  | normalized => Ok normalized
  end.

(** [task_binding_keys], relayna/topology/shared_tasks.py:256-257.  And 150-151 when not
    routed. *)
Definition task_binding_keys (t : SharedTopology) : result (list string) :=
  match st_task_types t with
  | Some types => normalized_task_types types
  | None => Ok [st_tasks_routing_key t]
  end.

(** [workflow_publish_routing_key], relayna/topology/shared_tasks.py:124-129.  And 262-264
    when routed. *)
Definition st_workflow_publish_routing_key (t : SharedTopology) (stage : string) : result string :=
  _ ← require_default_workflow_stage stage;
  match st_task_types t with
  | Some _ => Raise (runtime_error
                "Routed task topologies do not define a single workflow publish routing key")
  | None =>
      let key := strip (st_tasks_routing_key t) in
      if String.eqb key "" then
        Raise (runtime_error "Topology does not define a single workflow publish routing key")
      else Ok key
  end.

(** [workflow_queue_name], relayna/topology/shared_tasks.py:112-114. *)
Definition st_workflow_queue_name (t : SharedTopology) (stage : string) : result string :=
  _ ← require_default_workflow_stage stage; Ok (st_tasks_queue t).
(** [workflow_binding_keys], relayna/topology/shared_tasks.py:116-118. *)
Definition st_workflow_binding_keys (t : SharedTopology) (stage : string) : result (list string) :=
  _ ← require_default_workflow_stage stage; task_binding_keys t.
(** [workflow_queue_arguments], relayna/topology/shared_tasks.py:120-122. *)
Definition st_workflow_queue_arguments (t : SharedTopology) (stage : string) : result pydict :=
  _ ← require_default_workflow_stage stage; task_queue_arguments t.
(** [workflow_entry_routing_key], relayna/topology/shared_tasks.py:131-133. *)
Definition st_workflow_entry_routing_key (t : SharedTopology) (route : string) : result string :=
  _ ← require_default_workflow_stage route; st_workflow_publish_routing_key t route.

(** [task_routing_key], relayna/topology/shared_tasks.py:160-161.  No custom routing
    strategy is configured. *)
Definition st_task_routing_key (t : SharedTopology) (task : pydict) : result string :=
  match st_task_types t with
  | Some _ => task_type_routing_key None task
  | None => Ok (st_tasks_routing_key t)
  end.

(** [status_routing_key], relayna/topology/shared_tasks.py:163-164. *)
Definition st_status_routing_key (t : SharedTopology) (event : pydict) : result string :=
  task_id_status_routing_key None event.

(** [declare_exchanges], relayna/topology/shared_tasks.py:172-180. *)
Definition declare_exchanges (t : SharedTopology) : list amqp_command :=
  ((if opt_truthy (st_dead_letter_exchange t)
    then [DeclareExchange (from_opt "" (st_dead_letter_exchange t)) FANOUT] else [])
   ++ [DeclareExchange (st_tasks_exchange t) DIRECT; DeclareExchange (st_status_exchange t) TOPIC])%list.

(** [ensure_tasks_queue], relayna/topology/shared_tasks.py:192-205. *)
Definition ensure_tasks_queue (t : SharedTopology) : result (list amqp_command) :=
  arguments ← task_queue_arguments t;
  keys ← task_binding_keys t;
  Ok (declare_bound (st_tasks_queue t) (st_tasks_exchange t) arguments keys).

(** [ensure_workflow_queue], relayna/topology/shared_tasks.py:207-215. *)
Definition st_ensure_workflow_queue (t : SharedTopology) (stage : string) :
    result (list amqp_command) :=
  _ ← require_default_workflow_stage stage; ensure_tasks_queue t.

(** [ensure_status_queue], relayna/topology/shared_tasks.py:217-230. *)
Definition ensure_status_queue (t : SharedTopology) : result (list amqp_command) :=
  arguments ← status_queue_arguments t;
  Ok (declare_bound (st_status_queue t) (st_status_exchange t) arguments ["#"]).

(** [declare_queues], relayna/topology/shared_tasks.py:182-190. *)
Definition declare_queues (t : SharedTopology) : result (list amqp_command) :=
  status ← ensure_status_queue t; tasks ← ensure_tasks_queue t; Ok (status ++ tasks)%list.

(** ** Sharded aggregation *)

Definition no_shards {A} : result A :=
  Raise (runtime_error "Topology does not define shard-aware aggregation queues").

(** [aggregation_queue_arguments], relayna/topology/sharded_aggregation.py:32-50. *)
Definition aggregation_queue_arguments (t : SharedTopology) : result pydict :=
  match st_sharding t with
  | None => Ok []
  | Some s =>
      worker ← worker_builtins "aggregation" (aggregation_consumer_timeout_ms s)
        (aggregation_single_active_consumer s) (aggregation_max_priority s)
        (aggregation_queue_type s);
      merged ← merge_queue_arguments "aggregation" worker
        (aggregation_queue_arguments_overrides s) (aggregation_queue_kwargs s);
      with_validated_queue_max_priority merged "aggregation"
  end.

(** [_aggregation_routing], relayna/topology/sharded_aggregation.py:220-226.  And 115-121
    when not routed; only the routed class can fail here. *)
Definition aggregation_routing (t : SharedTopology) (s : Sharding) : result ShardRoutingStrategy :=
  _ ← match st_task_types t with
      | Some types => _ ← normalized_task_types types; Ok tt
      | None => Ok tt
      end;
  Ok (make_shard_routing (shard_count s) (aggregation_routing_prefix s)
        (Some aggregation_parent_task_id) None).

Fixpoint insert_Z (x : Z) (l : list Z) : list Z :=
  match l with
  | [] => [x]
  | y :: l' => if x <? y then x :: l else if x =? y then l else y :: insert_Z x l'
  end.

(** [sorted({int(shard) for shard in shards})] *)
Definition sorted_set (l : list Z) : list Z := foldr insert_Z [] l.

(** [_normalize_shards], relayna/topology/sharded_aggregation.py:105-113. *)
Definition normalize_shards (t : SharedTopology) (s : Sharding) (shards : list Z) :
    result (list Z) :=
  match shards with
  | [] => Raise (value_error "At least one aggregation shard must be selected")
  | _ =>
      routing ← aggregation_routing t s;
      match find_first (fun x => (x <? 0) || (sr_shard_count routing <=? x)) (sorted_set shards) with
      | Some shard => Raise (value_error ("Aggregation shard " +:+ pretty shard
          +:+ " is outside the configured range 0.." +:+ pretty (sr_shard_count routing - 1)))
      | None => Ok (sorted_set shards)
      end
  end.

(** [template.format(shard=n)] for a template whose only fields are [{shard}];
    [skip] counts the characters of a field still to drop. *)
Fixpoint format_chars (skip : nat) (template : string) (n : Z) : string :=
  match template with
  | String.EmptyString => ""
  | String.String a rest =>
      match skip with
      | S k => format_chars k rest n
      | O => if String.prefix "{shard}" template then pretty n +:+ format_chars 6 rest n
             else String.String a (format_chars 0 rest n)
      end
  end.
Definition format_shard (template : string) (n : Z) : string := format_chars 0 template n.

Example format_shard_default : format_shard "aggregation.queue.{shard}" 3 = "aggregation.queue.3".
Proof. reflexivity. Qed.

(** [_aggregation_queue_name], relayna/topology/sharded_aggregation.py:99-103. *)
Definition shard_queue_name (s : Sharding) (shards : list Z) : string :=
  match shards with
  | [shard] => format_shard (aggregation_queue_template s) shard
  | _ => aggregation_queue_name_prefix s +:+ "." +:+ join "-" (map pretty shards)
  end.

(** [aggregation_queue_name], relayna/topology/sharded_aggregation.py:52-54.  Without
    sharding the base class returns the given name. *)
Definition aggregation_queue_name (t : SharedTopology) (shards : list Z)
    (queue_name : option string) : result string :=
  match st_sharding t with
  | None => match queue_name with Some q => Ok q | None => no_shards end
  | Some s =>
      normalized ← normalize_shards t s shards;
      Ok (if opt_truthy queue_name then from_opt "" queue_name else shard_queue_name s normalized)
  end.

(** [aggregation_binding_keys], relayna/topology/sharded_aggregation.py:56-59. *)
Definition aggregation_binding_keys (t : SharedTopology) (shards : list Z) : result (list string) :=
  match st_sharding t with
  | None => no_shards
  | Some s =>
      normalized ← normalize_shards t s shards;
      routing ← aggregation_routing t s;
      Ok (map (fun shard => sr_routing_prefix routing +:+ "." +:+ pretty shard) normalized)
  end.

(** [aggregation_status_routing_key], relayna/topology/sharded_aggregation.py:61-62. *)
Definition aggregation_status_routing_key (t : SharedTopology) (event : pydict) : result string :=
  match st_sharding t with
  | None => no_shards
  | Some s => routing ← aggregation_routing t s; shard_status_routing_key routing event
  end.

(** [aggregation_shard], relayna/topology/sharded_aggregation.py:64-65. *)
Definition aggregation_shard (t : SharedTopology) (event : pydict) : result Z :=
  match st_sharding t with
  | None => no_shards
  | Some s => routing ← aggregation_routing t s; shard_for_event routing event
  end.

(** [ensure_aggregation_queue], relayna/topology/sharded_aggregation.py:80-97. *)
Definition ensure_aggregation_queue (t : SharedTopology) (shards : list Z)
    (queue_name : option string) : result (list amqp_command) :=
  match st_sharding t with
  | None => no_shards
  | Some s =>
      normalized ← normalize_shards t s shards;
      resolved ← aggregation_queue_name t normalized queue_name;
      arguments ← aggregation_queue_arguments t;
      keys ← aggregation_binding_keys t normalized;
      Ok (declare_bound resolved (st_status_exchange t) arguments keys)
  end.

(** ** Where aggregation events go *)

Lemma insert_Z_elem x y l : x ∈ insert_Z y l <-> x = y \/ x ∈ l.
Proof.
  induction l as [|z l IH]; cbn; [set_solver|].
  destruct (y <? z); [set_solver|]. destruct (y =? z) eqn:E; bool_to_prop; set_solver.
Qed.

Lemma sorted_set_elem x l : x ∈ sorted_set l <-> x ∈ l.
Proof.
  induction l as [|y l IH]; cbn; [done|]. rewrite insert_Z_elem, IH. set_solver.
Qed.

Lemma normalize_shards_ok t s shards l : normalize_shards t s shards = Ok l ->
  (forall x, x ∈ l <-> x ∈ shards) /\ Forall (fun x => 0 <= x < Z.max 1 (shard_count s)) l.
Proof.
  unfold normalize_shards. intros H. destruct shards as [|y shards]; [done|].
  apply result_bind_ok in H as (routing & Hr & H).
  assert (sr_shard_count routing = Z.max 1 (shard_count s)) as Hc.
  { unfold aggregation_routing in Hr. apply result_bind_ok in Hr as (? & _ & [= <-]). done. }
  destruct (find_first _ _) eqn:Hf; [done|]. injection H as <-.
  split; [intros x; apply (sorted_set_elem x (y :: shards))|].
  apply find_first_none in Hf. eapply Forall_impl; [exact Hf|]. cbn. intros x Hx.
  bool_to_prop. lia.
Qed.

(** Sharded aggregation loses no event and duplicates none: an event's
    routing key names a shard within the configured range, and the queue of a
    consumer is bound under that key exactly when the consumer was given that
    shard. *)
Theorem aggregation_shard_routing t event key :
  aggregation_status_routing_key t event = Ok key ->
  exists s n, st_sharding t = Some s /\ aggregation_shard t event = Ok n /\
    0 <= n < Z.max 1 (shard_count s) /\
    forall shards keys, aggregation_binding_keys t shards = Ok keys -> (key ∈ keys <-> n ∈ shards).
Proof.
  unfold aggregation_status_routing_key, aggregation_shard, aggregation_binding_keys.
  destruct (st_sharding t) as [s|]; [|done]. intros H.
  apply result_bind_ok in H as (routing & Hr & H).
  apply result_bind_ok in H as (n & Hn & [= <-]).
  assert (sr_shard_count routing = Z.max 1 (shard_count s)) as Hc.
  { unfold aggregation_routing in Hr. apply result_bind_ok in Hr as (? & _ & [= <-]). done. }
  pose proof (shard_range routing event n ltac:(lia) Hn) as Hrange. rewrite Hc in Hrange.
  exists s, n. rewrite Hr. cbn. split; [done|]. split; [done|]. split; [done|].
  intros shards keys Hk. apply result_bind_ok in Hk as (l & Hl & [= <-]).
  apply normalize_shards_ok in Hl as [Hl _]. rewrite <- Hl.
  rewrite list_elem_of_In, in_map_iff. setoid_rewrite <- list_elem_of_In. split.
  - intros (x & E & Hx). apply append_inj_l, (append_inj_l ".") in E. by apply pretty_Z_inj in E as ->.
  - intros Hx. by exists n.
Qed.

Definition demo_sharding : Sharding :=
  {| shard_count := 8; aggregation_routing_prefix := "agg";
     aggregation_queue_template := "aggregation.queue.{shard}";
     aggregation_queue_name_prefix := "aggregation.queue.shards";
     aggregation_consumer_timeout_ms := None; aggregation_single_active_consumer := None;
     aggregation_max_priority := None; aggregation_queue_type := None;
     aggregation_queue_arguments_overrides := []; aggregation_queue_kwargs := [] |}.

Definition demo_topology : SharedTopology :=
  {| st_rabbitmq_url := "amqp://localhost"; st_tasks_exchange := "tasks.x";
     st_tasks_queue := "tasks"; st_tasks_routing_key := "task.request";
     st_status_exchange := "status.x"; st_status_queue := "status";
     st_dead_letter_exchange := None; st_prefetch_count := 1; st_tasks_message_ttl_ms := None;
     st_task_consumer_timeout_ms := None; st_task_single_active_consumer := None;
     st_task_max_priority := None; st_task_queue_type := None;
     st_task_queue_arguments_overrides := []; st_task_queue_kwargs := [];
     st_status_use_streams := true; st_status_queue_ttl_ms := None;
     st_status_stream_max_length_gb := None; st_status_stream_max_segment_size_mb := None;
     st_status_stream_initial_offset := "last"; st_status_queue_arguments_overrides := [];
     st_status_queue_kwargs := []; st_task_types := None; st_sharding := Some demo_sharding |}.

Lemma aggregation_shard_routing_witness :
  exists s n, st_sharding demo_topology = Some s /\
    aggregation_shard demo_topology [("meta", PDict [("parent_task_id", PStr "p")])] = Ok n /\
    0 <= n < Z.max 1 (shard_count s) /\
    forall shards keys, aggregation_binding_keys demo_topology shards = Ok keys ->
      ("agg.0" ∈ keys <-> n ∈ shards).
Proof.
  apply (aggregation_shard_routing demo_topology [("meta", PDict [("parent_task_id", PStr "p")])]).
  vm_compute. reflexivity.
Defined.
