(* ===== verification/WorkflowTopology.v ===== *)
(** * Workflow topology (topology/workflow.py, topology/workflow_contract.py)

    Stages, entry routes, the validation of a topology, and the contracts
    checked when a workflow message is published and received. *)

From S2P Require Import Prelude PyStr PyVal Contracts TopologyBase SharedTopology.

(** [WorkflowStage], relayna/topology/workflow.py:21-42. *)
Record WorkflowStage := {
  ws_name : string;
  ws_queue : string;
  ws_binding_keys : list string;
  ws_publish_routing_key : string;
  ws_description : option string;
  ws_role : option string;
  ws_owner : option string;
  ws_tags : list string;
  ws_sla_ms : option Z;
  accepted_actions : list ActionSchema;
  produced_actions : list ActionSchema;
  allowed_next_stages : list string;
  ws_terminal : bool;
  ws_timeout : option Z;          (* timeout_seconds, in microseconds *)
  ws_max_retries : option Z;
  ws_retry_delay_ms : option Z;
  ws_max_inflight : option Z;
  dedup_key_fields : list string;
  ws_queue_arguments_overrides : pydict;
  ws_queue_kwargs : pydict }.

(** [WorkflowEntryRoute], relayna/topology/workflow.py:45-49. *)
Record WorkflowEntryRoute := {
  er_name : string;
  er_routing_key : string;
  er_target_stage : string }.

(** [SharedStatusWorkflowTopology], relayna/topology/workflow.py:52-74. *)
Record WorkflowTopology := {
  wt_rabbitmq_url : string;
  wt_workflow_exchange : string;
  wt_status_exchange : string;
  wt_status_queue : string;
  stages : list WorkflowStage;
  entry_routes : list WorkflowEntryRoute;
  wt_dead_letter_exchange : option string;
  wt_prefetch_count : Z;
  wt_consumer_timeout_ms : option Z;
  wt_single_active_consumer : option bool;
  wt_max_priority : option Z;
  wt_queue_type : option string;
  wt_queue_arguments_overrides : pydict;
  wt_queue_kwargs : pydict;
  wt_status_use_streams : bool;
  wt_status_queue_ttl_ms : option Z;
  wt_status_stream_max_length_gb : option Z;
  wt_status_stream_max_segment_size_mb : option Z;
  wt_status_stream_initial_offset : string;
  wt_status_queue_arguments_overrides : pydict;
  wt_status_queue_kwargs : pydict }.

(** ** Validation *)

(** [if cond: raise ValueError(text)] *)
Definition reject_if (cond : bool) (text : string) : result unit :=
  if cond then Raise (value_error text) else Ok tt.

Definition below (o : option Z) (n : Z) : bool :=
  match o with Some z => z <? n | None => false end.

Definition stripped (l : list string) : list string :=
  List.filter (fun s => negb (String.eqb s "")) (map strip l).

Definition has_duplicates (l : list string) : bool :=
  negb (Z.of_nat (length (remove_dups l)) =? Z.of_nat (length l)).

Definition stage_error (stage_name text : string) : string :=
  "Workflow stage '" +:+ stage_name +:+ "' " +:+ text.

(** [_validate_action_schema_collection], relayna/topology/workflow.py:397-405. *)
Definition validate_action_schema_collection (actions : list ActionSchema)
    (stage_name field_name : string) : result unit :=
  let names := map (fun a => strip (as_action a)) actions in
  _ ← reject_if (existsb (fun n => String.eqb n "") names)
        (stage_error stage_name (field_name +:+ " must define non-empty action names"));
  reject_if (has_duplicates names)
    (stage_error stage_name (field_name +:+ " must not define duplicate action names")).

(** The checks of one stage, given the names and queues seen before it. *)
(** [SharedStatusWorkflowTopology.__post_init__], relayna/topology/workflow.py:81-123. *)
Definition check_stage (stage_names queue_names : list string) (s : WorkflowStage) : result unit :=
  let name := strip (ws_name s) in
  let queue := strip (ws_queue s) in
  let dedup := stripped (dedup_key_fields s) in
  _ ← reject_if (String.eqb name "") "Workflow stage names must not be empty";
  _ ← reject_if (str_in name stage_names) ("Duplicate workflow stage name '" +:+ name +:+ "'");
  _ ← reject_if (String.eqb queue "") (stage_error name "must define a queue name");
  _ ← reject_if (str_in queue queue_names) ("Duplicate workflow queue name '" +:+ queue +:+ "'");
  _ ← reject_if (bool_decide (stripped (ws_binding_keys s) = []))
        (stage_error name "must define at least one binding key");
  _ ← reject_if (String.eqb (strip (ws_publish_routing_key s)) "")
        (stage_error name "must define publish_routing_key");
  _ ← reject_if (below (ws_sla_ms s) 1) (stage_error name "must define sla_ms >= 1");
  _ ← reject_if (below (ws_timeout s) 1) (stage_error name "must define timeout_seconds > 0");
  _ ← reject_if (below (ws_max_retries s) 0) (stage_error name "must define max_retries >= 0");
  _ ← reject_if (below (ws_retry_delay_ms s) 1) (stage_error name "must define retry_delay_ms > 0");
  _ ← reject_if (below (ws_max_inflight s) 1) (stage_error name "must define max_inflight >= 1");
  _ ← reject_if (has_duplicates dedup) (stage_error name "dedup_key_fields must be unique");
  _ ← reject_if (negb (Z.of_nat (length dedup) =? Z.of_nat (length (dedup_key_fields s))))
        (stage_error name "dedup_key_fields must not be empty");
  _ ← validate_action_schema_collection (accepted_actions s) name "accepted_actions";
  validate_action_schema_collection (produced_actions s) name "produced_actions".

Fixpoint check_stages (stage_names queue_names : list string) (l : list WorkflowStage) :
    result (list string) :=
  match l with
  | [] => Ok stage_names
  | s :: rest =>
      _ ← check_stage stage_names queue_names s;
      check_stages (strip (ws_name s) :: stage_names) (strip (ws_queue s) :: queue_names) rest
  end.

(** [SharedStatusWorkflowTopology.__post_init__], relayna/topology/workflow.py:125-138. *)
Fixpoint check_routes (stage_names route_names : list string) (l : list WorkflowEntryRoute) :
    result unit :=
  match l with
  | [] => Ok tt
  | r :: rest =>
      let name := strip (er_name r) in
      _ ← reject_if (String.eqb name "") "Workflow entry route names must not be empty";
      _ ← reject_if (str_in name route_names) ("Duplicate workflow entry route '" +:+ name +:+ "'");
      _ ← reject_if (String.eqb (strip (er_routing_key r)) "")
            ("Workflow entry route '" +:+ name +:+ "' must define routing_key");
      _ ← reject_if (negb (str_in (er_target_stage r) stage_names))
            ("Workflow entry route '" +:+ name +:+ "' references unknown target stage '"
             +:+ er_target_stage r +:+ "'");
      check_routes stage_names (name :: route_names) rest
  end.

(** [SharedStatusWorkflowTopology.__post_init__], relayna/topology/workflow.py:140-153. *)
Definition check_transitions (stage_names : list string) (s : WorkflowStage) : result unit :=
  let name := strip (ws_name s) in
  let allowed := stripped (allowed_next_stages s) in
  _ ← reject_if (has_duplicates allowed) (stage_error name "allowed_next_stages must be unique");
  _ ← match find_first (fun d => negb (str_in d stage_names)) allowed with
      | Some d => Raise (value_error
          (stage_error name ("references unknown downstream stage '" +:+ d +:+ "'")))
      | None => Ok tt
      end;
  _ ← reject_if (ws_terminal s && bool_decide (allowed <> []))
        (stage_error name "cannot be terminal and define allowed_next_stages");
  reject_if (ws_terminal s && match produced_actions s with [] => false | _ => true end)
    (stage_error name "cannot be terminal and define produced_actions").

(** [SharedStatusWorkflowTopology.__post_init__], relayna/topology/workflow.py:76-80. *)
Definition validate_topology (t : WorkflowTopology) : result unit :=
  _ ← reject_if (bool_decide (length (stages t) = 0%nat))
        "At least one workflow stage must be configured";
  stage_names ← check_stages [] [] (stages t);
  _ ← check_routes stage_names [] (entry_routes t);
  _ ← mapM_result (check_transitions stage_names) (stages t);
  Ok tt.

(** ** Lookups *)

(** [_stage], relayna/topology/workflow.py:381-385. *)
Definition find_stage (t : WorkflowTopology) (stage : string) : result WorkflowStage :=
  match find_first (fun s => String.eqb (ws_name s) stage) (stages t) with
  | Some s => Ok s
  | None => Raise (key_error ("Unknown workflow stage '" +:+ stage +:+ "'"))
  end.

(** [_entry_route], relayna/topology/workflow.py:387-391. *)
Definition find_entry_route (t : WorkflowTopology) (route : string) : result WorkflowEntryRoute :=
  match find_first (fun r => String.eqb (er_name r) route) (entry_routes t) with
  | Some r => Ok r
  | None => Raise (key_error ("Unknown workflow entry route '" +:+ route +:+ "'"))
  end.

(** [workflow_stage_names], relayna/topology/workflow.py:197-198. *)
Definition workflow_stage_names (t : WorkflowTopology) : list string := map ws_name (stages t).
(** [workflow_queue_names], relayna/topology/workflow.py:200-201. *)
Definition workflow_queue_names (t : WorkflowTopology) : list string := map ws_queue (stages t).
(** [workflow_queue_name], relayna/topology/workflow.py:203-204. *)
Definition workflow_queue_name (t : WorkflowTopology) (stage : string) : result string :=
  s ← find_stage t stage; Ok (ws_queue s).
(** [workflow_stage], relayna/topology/workflow.py:206-207. *)
Definition workflow_stage (t : WorkflowTopology) (stage : string) : result WorkflowStage :=
  find_stage t stage.
(** [workflow_binding_keys], relayna/topology/workflow.py:209-211. *)
Definition workflow_binding_keys (t : WorkflowTopology) (stage : string) : result (list string) :=
  s ← find_stage t stage; Ok (stripped (ws_binding_keys s)).
(** [workflow_publish_routing_key], relayna/topology/workflow.py:248-249. *)
Definition workflow_publish_routing_key (t : WorkflowTopology) (stage : string) : result string :=
  s ← find_stage t stage; Ok (strip (ws_publish_routing_key s)).
(** [workflow_entry_routing_key], relayna/topology/workflow.py:251-252. *)
Definition workflow_entry_routing_key (t : WorkflowTopology) (route : string) : result string :=
  r ← find_entry_route t route; Ok (strip (er_routing_key r)).
(** [workflow_entry_target_stage], relayna/topology/workflow.py:254-255. *)
Definition workflow_entry_target_stage (t : WorkflowTopology) (route : string) : result string :=
  r ← find_entry_route t route; Ok (er_target_stage r).
(** [default_workflow_stage], relayna/topology/workflow.py:257-258. *)
Definition default_workflow_stage (t : WorkflowTopology) : option string :=
  ws_name <$> head (stages t).

(** [workflow_queue_arguments], relayna/topology/workflow.py:213-246. *)
Definition workflow_queue_arguments (t : WorkflowTopology) (stage : string) : result pydict :=
  s ← find_stage t stage;
  worker ← worker_builtins "workflow" (wt_consumer_timeout_ms t) (wt_single_active_consumer t)
    (wt_max_priority t) (wt_queue_type t);
  let builtins := (entry_if "x-dead-letter-exchange"
    (if opt_truthy (wt_dead_letter_exchange t) then PStr <$> wt_dead_letter_exchange t else None)
    ++ worker)%list in
  _ ← raise_on_argument_conflicts "workflow" "global overrides" (wt_queue_arguments_overrides t)
        "stage overrides" (ws_queue_arguments_overrides s);
  _ ← raise_on_argument_conflicts "workflow" "global kwargs" (wt_queue_kwargs t)
        "stage kwargs" (ws_queue_kwargs s);
  merged ← merge_queue_arguments "workflow" builtins
    (dupdate (wt_queue_arguments_overrides t) (ws_queue_arguments_overrides s))
    (dupdate (wt_queue_kwargs t) (ws_queue_kwargs s));
  with_validated_queue_max_priority merged "workflow".

(** [task_queue_arguments], relayna/topology/workflow.py:161-165. *)
Definition wt_task_queue_arguments (t : WorkflowTopology) : result pydict :=
  match default_workflow_stage t with
  | None => Raise (runtime_error "Workflow topology does not define a default workflow stage")
  | Some stage => workflow_queue_arguments t stage
  end.

(** [status_queue_arguments], relayna/topology/workflow.py:167-184. *)
Definition wt_status_queue_arguments (t : WorkflowTopology) : result pydict :=
  let builtins :=
    if wt_status_use_streams t then
      (("x-queue-type", PStr "stream")
       :: entry_if "x-max-length-bytes"
            ((fun gb => PInt (gb * 1024 ^ 3)) <$> wt_status_stream_max_length_gb t)
       ++ entry_if "x-stream-max-segment-size-bytes"
            ((fun mb => PInt (mb * 1024 ^ 2)) <$> wt_status_stream_max_segment_size_mb t))%list
    else entry_if "x-expires" (PInt <$> truthy_int (wt_status_queue_ttl_ms t)) in
  merge_queue_arguments "status" builtins (wt_status_queue_arguments_overrides t)
    (wt_status_queue_kwargs t).

(** [task_queue_name], relayna/topology/workflow.py:260-264. *)
Definition wt_task_queue_name (t : WorkflowTopology) : result string :=
  match default_workflow_stage t with
  | None => Raise (runtime_error "Workflow topology does not define a default workflow stage")
  | Some stage => workflow_queue_name t stage
  end.

(** [declare_exchanges], relayna/topology/workflow.py:306-314. *)
Definition wt_declare_exchanges (t : WorkflowTopology) : list amqp_command :=
  ((if opt_truthy (wt_dead_letter_exchange t)
    then [DeclareExchange (from_opt "" (wt_dead_letter_exchange t)) FANOUT] else [])
   ++ [DeclareExchange (wt_workflow_exchange t) TOPIC; DeclareExchange (wt_status_exchange t) TOPIC])%list.

(** [ensure_workflow_queue], relayna/topology/workflow.py:338-353. *)
Definition ensure_workflow_queue (t : WorkflowTopology) (stage : string) :
    result (list amqp_command) :=
  queue ← workflow_queue_name t stage;
  arguments ← workflow_queue_arguments t stage;
  keys ← workflow_binding_keys t stage;
  Ok (declare_bound queue (wt_workflow_exchange t) arguments keys).

(** [ensure_status_queue], relayna/topology/workflow.py:355-368. *)
Definition wt_ensure_status_queue (t : WorkflowTopology) : result (list amqp_command) :=
  arguments ← wt_status_queue_arguments t;
  Ok (declare_bound (wt_status_queue t) (wt_status_exchange t) arguments ["#"]).

(** [declare_queues], relayna/topology/workflow.py:316-325. *)
Definition wt_declare_queues (t : WorkflowTopology) : result (list amqp_command) :=
  status ← wt_ensure_status_queue t;
  queues ← mapM_result (ensure_workflow_queue t) (workflow_stage_names t);
  Ok (status ++ concat queues)%list.

(** ** Contracts *)

(** [WorkflowContractError], relayna/topology/workflow_contract.py:10-26.  Its text and the
    [reason] the consumer reads. *)
Record contract_error := ContractError { ce_reason : string; ce_message : string }.

(** [_schema_for_action], relayna/topology/workflow_contract.py:159-163. *)
Definition schema_for_action (actions : list ActionSchema) (action : string) : option ActionSchema :=
  find_first (fun item => String.eqb (as_action item) action) actions.

(** [_validate_action_contract], relayna/topology/workflow_contract.py:121-156. *)
Definition validate_action_contract (actions : list ActionSchema) (action : option string)
    (payload : pydict) (stage_name unsupported_reason : string) : option contract_error :=
  match actions with
  | [] => None
  | _ =>
      let action_name := strip (from_opt "" action) in
      if String.eqb action_name "" then
        Some (ContractError unsupported_reason
          (stage_error stage_name "requires an action for this message"))
      else
        match schema_for_action actions action_name with
        | None => Some (ContractError unsupported_reason
            (stage_error stage_name ("does not support action '" +:+ action_name +:+ "'")))
        | Some schema =>
            match action_validate_payload schema payload with
            | [] => None
            | errors => Some (ContractError "payload_schema_violation"
                (stage_error stage_name ("rejected action '" +:+ action_name +:+ "': "
                   +:+ join "; " errors)))
            end
        end
  end.

(** [validate_publish_contract], relayna/topology/workflow_contract.py:58-101.  [Ok (Some e)]
    stands for the contract error [e]; a [KeyError] for an unknown stage propagates. *)
Definition validate_publish_contract (t : WorkflowTopology) (target_stage : string)
    (action : option string) (payload : pydict) (source_stage : option string) :
    result (option contract_error) :=
  destination ← workflow_stage t target_stage;
  let accept := validate_action_contract (accepted_actions destination) action payload target_stage
                  "unsupported_action" in
  if opt_truthy source_stage then
    let name := from_opt "" source_stage in
    source ← workflow_stage t name;
    if ws_terminal source then
      Ok (Some (ContractError "terminal_stage_handoff"
        (stage_error name "is terminal and cannot publish downstream handoffs")))
    else if match allowed_next_stages source with [] => false | l => negb (str_in target_stage l) end
    then Ok (Some (ContractError "forbidden_transition"
           (stage_error name ("cannot publish to '" +:+ target_stage +:+ "'"))))
    else
      match validate_action_contract (produced_actions source) action payload name
              "unsupported_action" with
      | Some e => Ok (Some e)
      | None => Ok accept
      end
  else Ok accept.

(** [validate_inbound_message_contract], relayna/topology/workflow_contract.py:104-118. *)
Definition validate_inbound_message_contract (t : WorkflowTopology) (stage : string)
    (action : option string) (payload : pydict) : result (option contract_error) :=
  destination ← workflow_stage t stage;
  Ok (validate_action_contract (accepted_actions destination) action payload stage
        "unsupported_action").

(** [serialize_workflow_stage], relayna/topology/workflow_contract.py:33-55.  The dumps of the
    action schemas are pydantic's. *)
Definition serialize_workflow_stage (dump_action : ActionSchema -> pyval) (seconds : Z -> pyval)
    (s : WorkflowStage) (queue_arguments : pydict) : pydict :=
  let strs l := PList (map PStr l) in
  [("id", PStr (ws_name s)); ("name", PStr (ws_name s)); ("queue", PStr (ws_queue s));
   ("binding_keys", strs (ws_binding_keys s));
   ("publish_routing_key", PStr (ws_publish_routing_key s));
   ("queue_arguments", PDict queue_arguments); ("description", opt_str (ws_description s));
   ("role", opt_str (ws_role s)); ("owner", opt_str (ws_owner s)); ("tags", strs (ws_tags s));
   ("sla_ms", opt_int (ws_sla_ms s));
   ("accepted_actions", PList (map dump_action (accepted_actions s)));
   ("produced_actions", PList (map dump_action (produced_actions s)));
   ("allowed_next_stages", strs (allowed_next_stages s)); ("terminal", PBool (ws_terminal s));
   ("timeout_seconds", from_opt PNone (seconds <$> ws_timeout s));
   ("max_retries", opt_int (ws_max_retries s)); ("retry_delay_ms", opt_int (ws_retry_delay_ms s));
   ("max_inflight", opt_int (ws_max_inflight s)); ("dedup_key_fields", strs (dedup_key_fields s))].

(** ** What validation promises *)

Lemma reject_if_ok b text : reject_if b text = Ok tt <-> b = false.
Proof. by destruct b. Qed.

(** Peel the sequence of checks of a validation that passed. *)
Ltac checks H :=
  repeat match type of H with
  | reject_if ?b ?t ≫= _ = Ok _ =>
      let E := fresh "E" in
      apply result_bind_ok in H as ([] & E & H); apply reject_if_ok in E
  | reject_if ?b ?t = Ok _ => apply reject_if_ok in H
  end.

Lemma check_stage_ok ns qs s : check_stage ns qs s = Ok tt ->
  strip (ws_name s) ∉ ns /\ strip (ws_name s) <> "" /\ strip (ws_queue s) ∉ qs.
Proof.
  unfold check_stage. intros H. checks H.
  repeat match goal with E : str_in _ _ = false |- _ => apply str_in_not in E end.
  bool_to_prop. done.
Qed.

Lemma check_stages_ok ns qs l out : check_stages ns qs l = Ok out ->
  out = (rev (map (fun s => strip (ws_name s)) l) ++ ns)%list /\
  NoDup (map (fun s => strip (ws_name s)) l) /\
  (forall n, n ∈ map (fun s => strip (ws_name s)) l -> n ∉ ns) /\
  NoDup (map (fun s => strip (ws_queue s)) l) /\
  (forall q, q ∈ map (fun s => strip (ws_queue s)) l -> q ∉ qs).
Proof.
  revert ns qs. induction l as [|s l IH]; intros ns qs; cbn.
  - intros [= <-]. split_and!; try done; try constructor; intros ? Hin; by apply elem_of_nil in Hin.
  - intros H. apply result_bind_ok in H as ([] & Hs & H). apply check_stage_ok in Hs as (Hn & _ & Hq).
    apply IH in H as (-> & HN & Hns & HQ & Hqs). split_and!.
    + by rewrite <- app_assoc.
    + constructor; [|done]. intros Hin. apply (Hns _ Hin). left.
    + intros n [->|Hin]%elem_of_cons; [done|]. intros Hin'. apply (Hns _ Hin). by right.
    + constructor; [|done]. intros Hin. apply (Hqs _ Hin). left.
    + intros q [->|Hin]%elem_of_cons; [done|]. intros Hin'. apply (Hqs _ Hin). by right.
Qed.

Lemma check_routes_ok ns rs l : check_routes ns rs l = Ok tt ->
  forall r, r ∈ l -> er_target_stage r ∈ ns /\ strip (er_routing_key r) <> "".
Proof.
  revert rs. induction l as [|r l IH]; intros rs; cbn; [intros _ r Hin; by apply elem_of_nil in Hin|].
  intros H. checks H. intros r' [->|Hin]%elem_of_cons; [|by eapply IH].
  apply negb_false_iff, str_in_elem in E2. bool_to_prop. done.
Qed.

Lemma check_transitions_ok ns s : check_transitions ns s = Ok tt ->
  (forall d, d ∈ stripped (allowed_next_stages s) -> d ∈ ns) /\
  (ws_terminal s = true -> stripped (allowed_next_stages s) = [] /\ produced_actions s = []).
Proof.
  unfold check_transitions. intros H. checks H.
  apply result_bind_ok in H as ([] & Hf & H). checks H.
  destruct (find_first _ _) eqn:Hd; [done|]. clear Hf. split.
  - intros d Hin. apply find_first_none in Hd. rewrite Forall_forall in Hd.
    specialize (Hd d Hin). by apply negb_false_iff, str_in_elem in Hd.
  - intros Ht. rewrite Ht in E0, H. cbn in E0, H. apply bool_decide_eq_false in E0.
    split; [by destruct (decide (stripped (allowed_next_stages s) = []))|].
    by destruct (produced_actions s).
Qed.

Lemma validate_topology_ok t : validate_topology t = Ok tt ->
  let names := map (fun s => strip (ws_name s)) (stages t) in
  stages t <> [] /\ NoDup names /\ NoDup (map (fun s => strip (ws_queue s)) (stages t)) /\
  (forall r, r ∈ entry_routes t -> er_target_stage r ∈ names) /\
  (forall s, s ∈ stages t ->
     (forall d, d ∈ stripped (allowed_next_stages s) -> d ∈ names) /\
     (ws_terminal s = true -> stripped (allowed_next_stages s) = [] /\ produced_actions s = [])).
Proof.
  intros H names. unfold validate_topology in H. checks H.
  apply result_bind_ok in H as (out & Hs & H). apply result_bind_ok in H as ([] & Hr & H).
  apply result_bind_ok in H as (l & Ht & _). apply check_stages_ok in Hs as (-> & HN & _ & HQ & _).
  assert (forall x, x ∈ (rev names ++ [])%list <-> x ∈ names) as Hrev.
  { intros x. rewrite app_nil_r, !list_elem_of_In. symmetry. apply in_rev. }
  split_and!; try done.
  - apply bool_decide_eq_false in E. by destruct (stages t).
  - intros r Hin. apply Hrev. by eapply check_routes_ok.
  - intros s Hin. apply mapM_result_ok, Forall2_same_length_lookup in Ht as [Hlen Ht].
    apply list_elem_of_lookup in Hin as [i Hi].
    destruct (lookup_lt_is_Some_2 l i) as [[] Hl].
    { rewrite <- Hlen. by eapply lookup_lt_Some. }
    apply (Ht i _ _ Hi), check_transitions_ok in Hl as [Hd Hterm].
    split; [|done]. intros d Hin. apply Hrev. by apply Hd.
Qed.

Lemma find_stage_unique t s : NoDup (workflow_stage_names t) -> s ∈ stages t ->
  find_stage t (ws_name s) = Ok s.
Proof.
  unfold find_stage, workflow_stage_names. induction (stages t) as [|x l IH]; intros HN Hin;
    [by apply elem_of_nil in Hin|].
  cbn in HN. apply NoDup_cons in HN as [Hx HN]. cbn [find_first].
  destruct (String.eqb (ws_name x) (ws_name s)) eqn:E.
  - bool_to_prop. apply elem_of_cons in Hin as [->|Hin]; [done|].
    destruct Hx. rewrite E. apply list_elem_of_In, in_map. by apply list_elem_of_In.
  - apply elem_of_cons in Hin as [->|Hin]; [by rewrite String.eqb_refl in E|]. by apply IH.
Qed.

(** A topology that passes validation, with stage names free of surrounding
    blanks, is closed: each stage is found under its own name and has a queue
    of its own, each entry route leads to a stage, each allowed transition
    leads to a stage, and no terminal stage has one. *)
Theorem validated_topology_closed t :
  validate_topology t = Ok tt -> (forall s, s ∈ stages t -> strip (ws_name s) = ws_name s) ->
  (forall s, s ∈ stages t -> find_stage t (ws_name s) = Ok s) /\
  NoDup (map (fun s => strip (ws_queue s)) (stages t)) /\
  (forall r, r ∈ entry_routes t -> exists s, s ∈ stages t /\ find_stage t (er_target_stage r) = Ok s) /\
  (forall s d, s ∈ stages t -> d ∈ stripped (allowed_next_stages s) ->
     ws_terminal s = false /\ exists s', s' ∈ stages t /\ find_stage t d = Ok s').
Proof.
  intros H Hstrip. apply validate_topology_ok in H as (_ & HN & HQ & Hr & Hs).
  assert (map (fun s => strip (ws_name s)) (stages t) = workflow_stage_names t) as En.
  { apply map_ext_in. intros s Hin. apply Hstrip. by apply list_elem_of_In. }
  rewrite En in *.
  assert (forall n, n ∈ workflow_stage_names t -> exists s, s ∈ stages t /\ find_stage t n = Ok s) as Hn.
  { intros n Hin. apply list_elem_of_In, in_map_iff in Hin as (s & <- & Hin).
    apply list_elem_of_In in Hin. exists s. split; [done|]. by apply find_stage_unique. }
  split_and!; [by intros; apply find_stage_unique|done|by intros; apply Hn, Hr|].
  intros s d Hin Hd. destruct (Hs s Hin) as [Hnext Hterm]. split; [|by apply Hn, Hnext].
  destruct (ws_terminal s); [|done]. destruct (Hterm eq_refl) as [E _]. rewrite E in Hd.
  by apply elem_of_nil in Hd.
Qed.

(** A publish that passes its contract goes from a stage that may hand over
    to a stage it names, and is accepted by the receiving stage's contract. *)
Theorem published_message_accepted t target action payload source :
  validate_publish_contract t target action payload source = Ok None ->
  validate_inbound_message_contract t target action payload = Ok None /\
  forall name, source = Some name -> name <> "" ->
    exists s, find_stage t name = Ok s /\ ws_terminal s = false /\
      (allowed_next_stages s = [] \/ target ∈ allowed_next_stages s) /\
      validate_action_contract (produced_actions s) action payload name "unsupported_action" = None.
Proof.
  unfold validate_publish_contract, validate_inbound_message_contract, workflow_stage. intros H.
  apply result_bind_ok in H as (dst & Hd & H). rewrite Hd. cbn.
  destruct source as [name|]; cbn in H; [|injection H as ->; done].
  destruct (String.eqb name "") eqn:En; cbn in H.
  { injection H as ->. split; [done|]. intros n [= ->] Hne. by bool_to_prop. }
  apply result_bind_ok in H as (s & Hs & H).
  destruct (ws_terminal s) eqn:Ht; [done|].
  destruct (match allowed_next_stages s with [] => _ | _ => _ end) eqn:Ha; [done|].
  destruct (validate_action_contract (produced_actions s) _ _ _ _) eqn:Hp; [done|].
  injection H as ->. split; [done|]. intros n [= <-] _. exists s. split_and!; try done.
  destruct (allowed_next_stages s) as [|x l] eqn:El; [by left|right].
  apply negb_false_iff in Ha. by apply (str_in_elem target (x :: l)) in Ha.
Qed.

(** ** Blanks around stage names *)

Definition demo_stage (name queue : string) (allowed : list string) : WorkflowStage :=
  {| ws_name := name; ws_queue := queue; ws_binding_keys := [name]; ws_publish_routing_key := name;
     ws_description := None; ws_role := None; ws_owner := None; ws_tags := []; ws_sla_ms := None;
     accepted_actions := []; produced_actions := []; allowed_next_stages := allowed;
     ws_terminal := false; ws_timeout := None; ws_max_retries := None; ws_retry_delay_ms := None;
     ws_max_inflight := None; dedup_key_fields := []; ws_queue_arguments_overrides := [];
     ws_queue_kwargs := [] |}.

Definition demo_workflow_topology (stages : list WorkflowStage) (routes : list WorkflowEntryRoute) :
    WorkflowTopology :=
  {| wt_rabbitmq_url := "amqp://localhost"; wt_workflow_exchange := "workflow.x";
     wt_status_exchange := "status.x"; wt_status_queue := "status"; stages := stages;
     entry_routes := routes; wt_dead_letter_exchange := None; wt_prefetch_count := 1;
     wt_consumer_timeout_ms := None; wt_single_active_consumer := None; wt_max_priority := None;
     wt_queue_type := None; wt_queue_arguments_overrides := []; wt_queue_kwargs := [];
     wt_status_use_streams := true; wt_status_queue_ttl_ms := None;
     wt_status_stream_max_length_gb := None; wt_status_stream_max_segment_size_mb := None;
     wt_status_stream_initial_offset := "last"; wt_status_queue_arguments_overrides := [];
     wt_status_queue_kwargs := [] |}.

Definition blank_topology : WorkflowTopology :=
  demo_workflow_topology [demo_stage " plan " "plan.q" [" run "]; demo_stage "run" "run.q" []]
    [{| er_name := "start"; er_routing_key := "start"; er_target_stage := "plan" |}].

(** Validation strips names but lookups do not: here an entry route passes
    validation and its target is unknown, and an allowed transition is refused. *)
Lemma blank_names_pass_validation :
  validate_topology blank_topology = Ok tt /\
  is_ok (find_stage blank_topology "plan") = false /\
  exists e, validate_publish_contract blank_topology "run" None [] (Some " plan ") = Ok (Some e) /\
    ce_reason e = "forbidden_transition".
Proof. split_and!; [reflexivity..|]. eexists. split; reflexivity. Qed.

Definition plain_topology : WorkflowTopology :=
  demo_workflow_topology [demo_stage "plan" "plan.q" ["run"]; demo_stage "run" "run.q" []]
    [{| er_name := "start"; er_routing_key := "start"; er_target_stage := "plan" |}].

Lemma validated_topology_closed_witness :
  exists s, s ∈ stages plain_topology /\ find_stage plain_topology "plan" = Ok s.
Proof.
  destruct (validated_topology_closed plain_topology) as (_ & _ & H & _).
  - reflexivity.
  - intros s Hin. repeat apply elem_of_cons in Hin as [->|Hin]; [reflexivity..|].
    by apply elem_of_nil in Hin.
  - apply (H {| er_name := "start"; er_routing_key := "start"; er_target_stage := "plan" |}). left.
Defined.

Lemma published_message_accepted_witness :
  validate_inbound_message_contract plain_topology "run" None [] = Ok None.
Proof. apply (published_message_accepted plain_topology "run" None [] (Some "plan")). reflexivity. Defined.
