(* ===== verification/ExecutionGraph.v ===== *)
(** * Execution graphs (observability/execution_graph.py)

    [build_execution_graph] turns the status history, the observations and the
    dead-letter records of a task and its children into a graph.  The nodes are
    objects that the function keeps in several lists at once and updates in
    place: the model keeps them in [node_map] only, and the lists hold their
    ids.  A dict of histories is a list of its items in insertion order. *)

From S2P Require Import Prelude PyStr PySort PyVal PyTime SharedTopology WorkflowTopology.
From Stdlib Require Import SpecFloat Ascii.

(** [ExecutionGraphNode], relayna/observability/execution_graph.py:20-29. *)
Record node := Node {
  nd_id : string; nd_kind : string; nd_task_id : option string; nd_label : option string;
  nd_timestamp : option string; nd_state : option string; nd_state_reason : option string;
  nd_updated_at : option string; nd_annotations : pydict }.

(** [ExecutionGraphEdge], relayna/observability/execution_graph.py:32-40. *)
Record edge := Edge {
  eg_source : string; eg_target : string; eg_kind : string; eg_timestamp : option string;
  eg_state : option string; eg_state_reason : option string; eg_updated_at : option string;
  eg_annotations : pydict }.

(** [ExecutionGraphSummary], relayna/observability/execution_graph.py:43-49. *)
Record summary := Summary {
  sm_status : option string; sm_started_at : option string; sm_ended_at : option string;
  sm_duration_ms : option Z; sm_graph_completeness : string; sm_live_state_counts : dict Z }.

(** [ExecutionGraph], relayna/observability/execution_graph.py:52-59. *)
Record graph := Graph {
  gr_task_id : string; gr_topology_kind : string; gr_summary : summary; gr_nodes : list node;
  gr_edges : list edge; gr_annotations : pydict; gr_related_task_ids : list string }.

(** [_PendingRetryLink], relayna/observability/execution_graph.py:62-66. *)
Record pending_retry := PendingRetry {
  pr_task_id : string; pr_retry_node_id : string; pr_retry_timestamp : option string }.

(** The topologies of the package; [Other] is a class of the application. *)
Inductive any_topology :=
| AnyWorkflow (t : WorkflowTopology)
| AnyShared (t : SharedTopology)
| AnyOther (name : string).

(** [topology_kind], relayna/topology/kinds.py:12-23. *)
Definition topology_kind (t : any_topology) : string :=
  match t with
  | AnyWorkflow _ => "shared_status_workflow"
  | AnyShared s =>
      match st_task_types s, st_sharding s with
      | Some _, Some _ => "routed_tasks_shared_status_sharded_aggregation"
      | None, Some _ => "shared_tasks_shared_status_sharded_aggregation"
      | Some _, None => "routed_tasks_shared_status"
      | None, None => "shared_tasks_shared_status"
      end
  | AnyOther name => name
  end.

(** ** Reading items *)

(** [_coerce_timestamp], relayna/observability/execution_graph.py:801-806.  An item read from
    JSON holds no [datetime]. *)
Definition coerce_timestamp (v : pyval) : string :=
  match v with PNone => "" | v => py_str v end.
Definition coerced (o : option string) : string := from_opt "" o.

(** [str(item.get(key) or default)] *)
Definition text_of (key default : string) (item : pydict) : string :=
  py_str (py_or (dgetv key item) (PStr default)).

(** [_sort_by_timestamp], relayna/observability/execution_graph.py:767-768. *)
Definition sort_by_timestamp : list pydict -> list pydict :=
  sort_by (lex_le (fun item => coerce_timestamp (dgetv "timestamp" item))
    (fun a b => str_le (py_str (from_opt (PStr "") (dget "event_id" a)))
                       (py_str (from_opt (PStr "") (dget "event_id" b))))).

(** [sorted({...})] *)
Definition sorted_names (l : list string) : list string := sort_by str_le (remove_dups l).

(** ** The graph under construction *)

(** [build_execution_graph], relayna/observability/execution_graph.py:140-150: its variables. *)
Record build := Build {
  node_map : dict node; edges : list edge; all_timestamps : list string;
  task_node_ids : dict string; attempts_by_task : dict (list string); stage_attempts : list string;
  workflow_message_nodes : dict string; task_types : list string; pending_retry_links : list pending_retry }.

Definition no_graph : build := Build [] [] [] [] [] [] [] [] [].

(** A statement of the function: it may raise and it changes the variables. *)
Definition G (A : Type) : Type := build -> result (A * build).
#[export] Instance G_ret : MRet G := fun A a b => Ok (a, b).
#[export] Instance G_bind : MBind G := fun A B k m b =>
  match m b with Ok (a, b) => k a b | Raise e => Raise e end.

Definition liftG {A} (r : result A) : G A := fun b => a ← r; Ok (a, b).
Definition reads {A} (f : build -> A) : G A := fun b => Ok (f b, b).
Definition modify (f : build -> build) : G unit := fun b => Ok (tt, f b).

Fixpoint for_each {A} (f : A -> G unit) (l : list A) : G unit :=
  match l with [] => mret tt | x :: l => _ ← f x; for_each f l end.

Definition set_nodes (m : dict node) (b : build) : build :=
  Build m (edges b) (all_timestamps b) (task_node_ids b) (attempts_by_task b) (stage_attempts b)
    (workflow_message_nodes b) (task_types b) (pending_retry_links b).
Definition set_edges (l : list edge) (ts : list string) (b : build) : build :=
  Build (node_map b) l ts (task_node_ids b) (attempts_by_task b) (stage_attempts b)
    (workflow_message_nodes b) (task_types b) (pending_retry_links b).
Definition set_task_nodes (m : dict string) (b : build) : build :=
  Build (node_map b) (edges b) (all_timestamps b) m (attempts_by_task b) (stage_attempts b)
    (workflow_message_nodes b) (task_types b) (pending_retry_links b).
Definition set_attempts (m : dict (list string)) (b : build) : build :=
  Build (node_map b) (edges b) (all_timestamps b) (task_node_ids b) m (stage_attempts b)
    (workflow_message_nodes b) (task_types b) (pending_retry_links b).
Definition set_stage_attempts (l : list string) (b : build) : build :=
  Build (node_map b) (edges b) (all_timestamps b) (task_node_ids b) (attempts_by_task b) l
    (workflow_message_nodes b) (task_types b) (pending_retry_links b).
Definition set_messages (m : dict string) (b : build) : build :=
  Build (node_map b) (edges b) (all_timestamps b) (task_node_ids b) (attempts_by_task b)
    (stage_attempts b) m (task_types b) (pending_retry_links b).
Definition set_pending (l : list pending_retry) (b : build) : build :=
  Build (node_map b) (edges b) (all_timestamps b) (task_node_ids b) (attempts_by_task b)
    (stage_attempts b) (workflow_message_nodes b) (task_types b) l.

(** [if existing.x is None: existing.x = node.x] *)
Definition or_else {A} (a b : option A) : option A := match a with None => b | _ => a end.

(** [add_node], relayna/observability/execution_graph.py:152-169: the id of the node. *)
Definition add_node (n : node) : G string := fun b =>
  match dget (nd_id n) (node_map b) with
  | Some x =>
      let x := Node (nd_id x) (nd_kind x) (or_else (nd_task_id x) (nd_task_id n))
        (or_else (nd_label x) (nd_label n)) (or_else (nd_timestamp x) (nd_timestamp n))
        (nd_state x) (nd_state_reason x) (nd_updated_at x)
        (dupdate (nd_annotations x) (nd_annotations n)) in
      Ok (nd_id n, set_nodes (dset (nd_id n) x (node_map b)) b)
  | None =>
      let ts := if opt_truthy (nd_timestamp n) then [from_opt "" (nd_timestamp n)] else [] in
      let types :=
        match dgetv "task_type" (nd_annotations n) with
        | PStr s => if String.eqb (strip s) "" || str_in (strip s) (task_types b) then [] else [strip s]
        | _ => []
        end in
      Ok (nd_id n, Build (dset (nd_id n) n (node_map b)) (edges b) (all_timestamps b ++ ts)
        (task_node_ids b) (attempts_by_task b) (stage_attempts b) (workflow_message_nodes b)
        (task_types b ++ types) (pending_retry_links b))
  end.

(** [add_edge], relayna/observability/execution_graph.py:171-174. *)
Definition add_edge (e : edge) : G unit := modify (fun b =>
  set_edges (edges b ++ [e])
    (all_timestamps b ++ (if opt_truthy (eg_timestamp e) then [from_opt "" (eg_timestamp e)] else [])) b).

(** The fields the builder sets; [state] and the like come later. *)
Definition new_node (id kind task : string) (label : string) (ts : option string) (a : pydict) : node :=
  Node id kind (Some task) (Some label) ts None None None a.
Definition new_edge (source target kind : string) (ts : option string) (a : pydict) : edge :=
  Edge source target kind ts None None None a.

(** [task_node_ids[current_task_id]] *)
Definition task_node (task : string) : G string := fun b =>
  match dget task (task_node_ids b) with
  | Some id => Ok (id, b)
  | None => Raise (key_error (repr_str task))
  end.

(** The nodes of some ids, as they are now. *)
Definition nodes_of (ids : list string) (b : build) : list node := omap (fun id => dget id (node_map b)) ids.

(** [attempts_by_task.get(current_task_id, [])] *)
Definition attempts_of (task : string) (b : build) : list node :=
  nodes_of (from_opt [] (dget task (attempts_by_task b))) b.

(** [_latest_attempt], relayna/observability/execution_graph.py:771-777. *)
Definition latest_attempt (attempts : list node) (ts : option string) : option node :=
  match attempts with
  | [] => None
  | first :: _ =>
      match ts with
      | None => last attempts
      | Some t =>
          match last (List.filter (fun a => str_le (coerced (nd_timestamp a)) t) attempts) with
          | Some a => Some a
          | None => Some first
          end
      end
  end.

(** [_next_attempt], relayna/observability/execution_graph.py:780-784. *)
Definition next_attempt (attempts : list node) (ts : option string) : option node :=
  match ts with
  | None => None
  | Some t => find_first (fun a => negb (str_le (coerced (nd_timestamp a)) t)) attempts
  end.

(** [_latest_stage_attempt], relayna/observability/execution_graph.py:787-798. *)
Definition latest_stage_attempt (attempts : list node) (stage : option string) (ts : option string) :
    option node :=
  last (List.filter (fun a =>
    match stage with
    | None => true
    | Some s => bool_decide (dgetv "stage" (nd_annotations a) = PStr s)
    end &&
    match ts with None => true | Some t => str_le (coerced (nd_timestamp a)) t end) attempts).

(** ** Statements of [build_execution_graph] *)

Section builder.
Variable topology : any_topology.
Variable task_id : string.

(** [add_task_node], relayna/observability/execution_graph.py:176-189. *)
Definition add_task_node (task : string) : G string := fun b =>
  match dget task (task_node_ids b) with
  | Some id => Ok (id, b)
  | None =>
      let kind := if String.eqb task task_id then "task" else "aggregation_child" in
      (id ← add_node (new_node (kind +:+ ":" +:+ task) kind task task None []);
       _ ← modify (fun b => set_task_nodes (dset task id (task_node_ids b)) b);
       mret id) b
  end.

(** [for related_task_id in related_ids], relayna/observability/execution_graph.py:192-200. *)
Definition add_related (related : string) : G unit :=
  _ ← add_task_node related;
  source ← task_node related;
  target ← task_node task_id;
  add_edge (new_edge source target "aggregated_into" None []).

(** [item.get(key)] under the same key. *)
Definition copied (keys : list string) (item : pydict) : pydict := map (fun k => (k, dgetv k item)) keys.

(** [event_type in TaskMessageReceived], relayna/observability/execution_graph.py:206-235. *)
Definition on_task_received (task : string) (item : pydict) (ts : string) : G unit :=
  n ← reads (fun b => Z.of_nat (length (from_opt [] (dget task (attempts_by_task b)))) + 1);
  id ← add_node (new_node ("task-attempt:" +:+ task +:+ ":" +:+ pretty n) "task_attempt" task
    (task +:+ " attempt " +:+ pretty n) (Some ts)
    [("queue_name", dgetv "queue_name" item); ("correlation_id", dgetv "correlation_id" item);
     ("retry_attempt", from_opt (PInt 0) (dget "retry_attempt" item));
     ("task_type", dgetv "task_type" item); ("parent_task_id", dgetv "parent_task_id" item);
     ("consumer_name", dgetv "consumer_name" item)]);
  _ ← modify (fun b => set_attempts
        (dset task (from_opt [] (dget task (attempts_by_task b)) ++ [id]) (attempts_by_task b)) b);
  source ← task_node task;
  add_edge (new_edge source id "received_by" (Some ts) []).

(** [event_type == TaskResourceSampled], relayna/observability/execution_graph.py:237-257. *)
Definition on_resource_sampled (task : string) (item : pydict) (ts : string) : G unit :=
  let kind := strip (text_of "sample_kind" "" item) in
  let kind := if String.eqb kind "" then "sample" else kind in
  count ← reads (fun b => Z.of_nat (length (node_map b)));
  _ ← add_node (new_node ("resource-sample:" +:+ task +:+ ":" +:+ kind +:+ ":" +:+
      (if String.eqb ts "" then pretty count else ts)) "resource_sample" task
    (kind +:+ " resource sample") (Some ts)
    (("sample_kind", PStr kind) :: copied ["cpu_process_seconds"; "memory_rss_bytes"; "queue_name";
      "correlation_id"; "task_type"; "consumer_name"] item));
  mret tt.

(** The node of a workflow message. *)
Definition message_node (task message_id : string) (item : pydict) (ts : string) : node :=
  new_node ("workflow-message:" +:+ message_id) "workflow_message" task
    (text_of "stage" message_id item) (Some ts)
    (("message_id", PStr message_id) ::
     copied ["stage"; "origin_stage"; "routing_key"; "queue_name"; "correlation_id"] item).

Definition record_message (message_id id : string) : G unit :=
  modify (fun b => set_messages (dset message_id id (workflow_message_nodes b)) b).

(** [event_type == WorkflowMessagePublished], relayna/observability/execution_graph.py:259-301. *)
Definition on_workflow_published (task : string) (item : pydict) (ts : string) : G unit :=
  let message_id := strip (text_of "message_id" "" item) in
  if String.eqb message_id "" then mret tt
  else
    id ← add_node (message_node task message_id item ts);
    _ ← record_message message_id id;
    let source_stage := strip (text_of "origin_stage" "" item) in
    if negb (String.eqb source_stage "") then
      attempt ← reads (fun b => latest_stage_attempt (nodes_of (stage_attempts b) b) (Some source_stage) (Some ts));
      match attempt with
      | Some a => add_edge (new_edge (nd_id a) id "stage_transitioned_to" (Some ts) [])
      | None => mret tt
      end
    else
      source ← reads (fun b => dget task (task_node_ids b));
      match source with
      | Some s => add_edge (new_edge s id "received_by" (Some ts) [])
      | None => mret tt
      end.

(** [if message_id], relayna/observability/execution_graph.py:305-335: the node of the
    message, if it has an id. *)
Definition received_message (task : string) (item : pydict) (ts : string) : G (option string) :=
  let message_id := strip (text_of "message_id" "" item) in
  if String.eqb message_id "" then mret None
  else
    known ← reads (fun b => dget message_id (workflow_message_nodes b));
    match known with
    | Some id => mret (Some id)
    | None =>
        id ← add_node (message_node task message_id item ts);
        _ ← record_message message_id id;
        source ← task_node task;
        _ ← add_edge (new_edge source id "received_by" (Some ts) []);
        mret (Some id)
    end.

(** [event_type == WorkflowMessageReceived], relayna/observability/execution_graph.py:303-368. *)
Definition on_workflow_received (task : string) (item : pydict) (ts : string) : G unit :=
  message ← received_message task item ts;
  let message_id := strip (text_of "message_id" "" item) in
  let stage := text_of "stage" "unknown" item in
  n ← reads (fun b => Z.of_nat (length (List.filter
        (fun a => bool_decide (dgetv "stage" (nd_annotations a) = PStr stage)) (nodes_of (stage_attempts b) b))) + 1);
  id ← add_node (new_node ("stage-attempt:" +:+ task +:+ ":" +:+ stage +:+ ":" +:+ pretty n) "stage_attempt"
    task (stage +:+ " attempt " +:+ pretty n) (Some ts)
    [("stage", PStr stage);
     ("message_id", if String.eqb message_id "" then PNone else PStr message_id);
     ("origin_stage", dgetv "origin_stage" item); ("queue_name", dgetv "queue_name" item);
     ("correlation_id", dgetv "correlation_id" item);
     ("retry_attempt", from_opt (PInt 0) (dget "retry_attempt" item));
     ("consumer_name", dgetv "consumer_name" item)]);
  _ ← modify (fun b => set_stage_attempts (stage_attempts b ++ [id]) b);
  match message with
  | Some m => add_edge (new_edge m id "entered_stage" (Some ts) [])
  | None => mret tt
  end.

(** [event_type in ConsumerRetryScheduled], relayna/observability/execution_graph.py:370-414. *)
Definition on_retry_scheduled (task : string) (item : pydict) (ts : string) : G unit :=
  n ← reads (fun b => Z.of_nat (length (List.filter (fun e => String.eqb (eg_kind e) "retried_as" &&
        bool_decide (dgetv "task_id" (eg_annotations e) = PStr task)) (edges b))) + 1);
  id ← add_node (new_node ("retry:" +:+ task +:+ ":" +:+ pretty n) "retry" task
    ("retry " +:+ py_str (from_opt (PInt 0) (dget "retry_attempt" item))) (Some ts)
    (copied ["queue_name"; "source_queue_name"; "retry_attempt"; "max_retries"; "reason"] item
      ++ [("task_id", PStr task)]));
  attempt ← reads (fun b => latest_attempt (attempts_of task b) (Some ts));
  _ ← match attempt with
      | Some a => add_edge (new_edge (nd_id a) id "retried_as" (Some ts) [("task_id", PStr task)])
      | None => mret tt
      end;
  modify (fun b => set_pending (pending_retry_links b ++ [PendingRetry task id (Some ts)]) b).

(** [event_type in ConsumerDeadLetterPublished], relayna/observability/execution_graph.py:416-449. *)
Definition on_dead_letter (task : string) (item : pydict) (ts : string) : G unit :=
  n ← reads (fun b => Z.of_nat (length (List.filter (fun kv => String.eqb (nd_kind kv.2) "dlq_record" &&
        bool_decide (nd_task_id kv.2 = Some task)) (node_map b))) + 1);
  id ← add_node (new_node ("dlq:" +:+ task +:+ ":" +:+ pretty n) "dlq_record" task
    (text_of "reason" "dlq" item) (Some ts)
    (copied ["queue_name"; "source_queue_name"; "retry_attempt"; "max_retries"; "reason"] item));
  attempt ← reads (fun b => latest_attempt (attempts_of task b) (Some ts));
  match attempt with
  | Some a => add_edge (new_edge (nd_id a) id "dead_lettered_to" (Some ts) [])
  | None => mret tt
  end.

(** [for item in _sort_by_timestamp(observations)], relayna/observability/execution_graph.py:203-205:
    the branch of the item's event type. *)
Definition observe_item (task : string) (item : pydict) : G unit :=
  let event_type := text_of "event_type" "" item in
  let ts := coerce_timestamp (dgetv "timestamp" item) in
  if str_in event_type ["TaskMessageReceived"; "AggregationMessageReceived"] then on_task_received task item ts
  else if String.eqb event_type "TaskResourceSampled" then on_resource_sampled task item ts
  else if String.eqb event_type "WorkflowMessagePublished" then on_workflow_published task item ts
  else if String.eqb event_type "WorkflowMessageReceived" then on_workflow_received task item ts
  else if str_in event_type ["ConsumerRetryScheduled"; "AggregationRetryScheduled"]
  then on_retry_scheduled task item ts
  else if str_in event_type ["ConsumerDeadLetterPublished"; "AggregationDeadLetterPublished"]
  then on_dead_letter task item ts
  else mret tt.

(** [dict(value or {})].  A list of pairs whose keys are not strings is refused here
    although Python builds its dict. *)
Definition dict_of (v : pyval) : result pydict :=
  let pair (p : pyval) := match p with
    | PList [PStr k; x] => Ok (k, x)
    | PList _ | PStr _ | PDict _ => Raise (value_error "dictionary update sequence element has wrong length")
    | _ => Raise (type_error "cannot convert dictionary update sequence element to a sequence")
    end in
  if negb (truthy v) then Ok []
  else match v with
  | PDict d => Ok d
  | PList l => foldl (fun acc kv => dset kv.1 kv.2 acc) [] <$> mapM_result pair l
  | PStr _ => Raise (value_error "dictionary update sequence element #0 has length 1; 2 is required")
  | v => Raise (type_error ("'" +:+ class_name v +:+ "' object is not iterable"))
  end.

Definition is_workflow : bool := match topology with AnyWorkflow _ => true | _ => false end.

(** [for status_index, status_event], relayna/observability/execution_graph.py:452-501. *)
Definition add_status (task : string) (index : nat) (event : pydict) : G unit :=
  let ts := coerce_timestamp (dgetv "timestamp" event) in
  meta ← liftG (dict_of (dgetv "meta" event));
  id ← add_node (new_node ("status:" +:+ task +:+ ":" +:+ pretty (Z.of_nat index)) "status_event" task
    (text_of "status" "status" event) (Some ts)
    [("status", dgetv "status" event); ("message", dgetv "message" event); ("meta", PDict meta)]);
  attempt ← reads (fun b =>
    if is_workflow then latest_stage_attempt (nodes_of (stage_attempts b) b) None (Some ts)
    else latest_attempt (attempts_of task b) (Some ts));
  source ← match attempt with Some a => mret (nd_id a) | None => task_node task end;
  _ ← add_edge (new_edge source id "published_status" (Some ts) []);
  if String.eqb (lower (text_of "status" "" event)) "manual_retrying" then
    from ← reads (fun b => latest_attempt (attempts_of task b) (Some ts));
    to ← reads (fun b => next_attempt (attempts_of task b) (Some ts));
    match from, to with
    | Some a, Some a' => add_edge (new_edge (nd_id a) (nd_id a') "manual_retry_to" (Some ts) [])
    | _, _ => mret tt
    end
  else mret tt.

(** [build_execution_graph], relayna/observability/execution_graph.py:503-516. *)
Definition link_retry (p : pending_retry) : G unit :=
  next ← reads (fun b => next_attempt (attempts_of (pr_task_id p) b) (pr_retry_timestamp p));
  match next with
  | None => mret tt
  | Some a => add_edge (new_edge (pr_retry_node_id p) (nd_id a) "received_by" (nd_timestamp a) [])
  end.

(** [build_execution_graph], relayna/observability/execution_graph.py:519-540. *)
Definition add_dlq_record (task : string) (index : nat) (record : pydict) : G unit :=
  let id := "dlq:" +:+ task +:+ ":record:" +:+ pretty (Z.of_nat index) in
  known ← reads (fun b => din id (node_map b));
  if known : bool then mret tt
  else
    let ts := coerce_timestamp (dgetv "dead_lettered_at" record) in
    id ← add_node (new_node id "dlq_record" task
      (py_str (py_or (dgetv "reason" record) (py_or (dgetv "queue_name" record) (PStr "dlq"))))
      (Some ts) record);
    attempt ← reads (fun b => latest_attempt (attempts_of task b) (Some ts));
    source ← match attempt with Some a => mret (nd_id a) | None => task_node task end;
    add_edge (new_edge source id "dead_lettered_to" (Some ts) []).

Definition enumerate {A} (l : list A) : list (nat * A) := combine (seq 1 (length l)) l.

Variable status_histories observation_histories dlq_records : dict (list pydict).
Variable related_task_ids : list string.

(** [related_ids], relayna/observability/execution_graph.py:144-144. *)
Definition related_ids : list string :=
  sorted_names (List.filter (fun s => negb (String.eqb s "") && negb (String.eqb s task_id)) related_task_ids).

(** [build_execution_graph], relayna/observability/execution_graph.py:191-540: the nodes and edges. *)
Definition collect : G unit :=
  _ ← add_task_node task_id;
  _ ← for_each add_related related_ids;
  _ ← for_each (fun h => for_each (observe_item h.1) (sort_by_timestamp h.2)) observation_histories;
  _ ← for_each (fun task => for_each (fun e => add_status task e.1 e.2)
        (enumerate (sort_by_timestamp (from_opt [] (dget task status_histories)))))
      (sorted_names (task_id :: related_ids ++ dkeys status_histories ++ dkeys observation_histories));
  links ← reads pending_retry_links;
  _ ← for_each link_retry links;
  for_each (fun h => for_each (fun e => add_dlq_record h.1 e.1 e.2) (enumerate h.2)) dlq_records.
End builder.

(** ** Live state *)

(** [_latest_timestamp], relayna/observability/execution_graph.py:749-756. *)
Definition latest_timestamp (current candidate : option string) : option string :=
  match nonempty (coerced current), nonempty (coerced candidate) with
  | None, c => c
  | c, None => c
  | Some a, Some b => Some (if String.leb a b then b else a)
  end.

(** [_set_node_state], relayna/observability/execution_graph.py:737-740. *)
Definition set_node_state (state : string) (reason updated : option string) (n : node) : node :=
  Node (nd_id n) (nd_kind n) (nd_task_id n) (nd_label n) (nd_timestamp n) (Some state) reason
    (latest_timestamp (nd_updated_at n) updated) (nd_annotations n).

(** [_set_edge_state], relayna/observability/execution_graph.py:743-746. *)
Definition set_edge_state (state reason : string) (updated : option string) (e : edge) : edge :=
  Edge (eg_source e) (eg_target e) (eg_kind e) (eg_timestamp e) (Some state) (Some reason)
    (latest_timestamp (eg_updated_at e) updated) (eg_annotations e).

(** [_state_from_status], relayna/observability/execution_graph.py:704-722. *)
Definition state_from_status (status : string) : string :=
  let s := lower (strip status) in
  if str_in s ["processing"; "running"; "started"; "planning"] then "running"
  else if str_in s ["retrying"; "manual_retrying"] then "retrying"
  else if str_in s ["completed"; "complete"; "succeeded"; "success"] then "succeeded"
  else if str_in s ["dead_lettered"; "dlq"; "dead-lettered"] then "dead_lettered"
  else if str_in s ["failed"; "failure"; "error"] then "failed"
  else if str_in s ["expired"; "lease_expired"] then "expired"
  else if str_in s ["queued"; "pending"; "waiting"] then "queued"
  else if str_in s ["blocked"] then "blocked"
  else "unknown".

(** [_edge_state], relayna/observability/execution_graph.py:725-734. *)
Definition edge_state (e : edge) : string * string :=
  if str_in (eg_kind e) ["retried_as"; "manual_retry_to"] then ("retry_path", eg_kind e)
  else if String.eqb (eg_kind e) "dead_lettered_to" then ("blocked", eg_kind e)
  else if String.eqb (eg_kind e) "replayed_as" then ("replay_path", eg_kind e)
  else if str_in (eg_kind e)
    ["received_by"; "entered_stage"; "stage_transitioned_to"; "published_status"; "aggregated_into"]
  then ("traversed", eg_kind e)
  else ("unknown", if String.eqb (eg_kind e) "" then "unknown" else eg_kind e).

(** [_initial_node_state], relayna/observability/execution_graph.py:672-701. *)
Definition initial_node_state (latest : dict pydict) (n : node) : string * string * option string :=
  let ts := nonempty (coerced (nd_timestamp n)) in
  let given (prefix fallback status : string) := if String.eqb status "" then fallback else prefix +:+ status in
  if String.eqb (nd_kind n) "status_event" then
    let status := strip (py_str (py_or (dgetv "status" (nd_annotations n))
                    (py_or (opt_str (nd_label n)) (PStr "")))) in
    (state_from_status status, given "status:" "status_event" status, ts)
  else if String.eqb (nd_kind n) "retry" then ("retrying", "retry_scheduled", ts)
  else if String.eqb (nd_kind n) "dlq_record" then
    if String.eqb (lower (strip (text_of "state" "" (nd_annotations n)))) "replayed" then
      ("replayed", "dlq_replayed",
       match nonempty (coerce_timestamp (dgetv "replayed_at" (nd_annotations n))) with Some t => Some t | None => ts end)
    else ("dead_lettered", "dlq_recorded", ts)
  else if str_in (nd_kind n) ["task_attempt"; "stage_attempt"] then ("running", "message_received", ts)
  else if String.eqb (nd_kind n) "workflow_message" then ("queued", "workflow_message_created", ts)
  else
    match (if str_in (nd_kind n) ["task"; "aggregation_child"]
           then task ← nd_task_id n; dget task latest else None) with
    | Some event =>
        let status := strip (text_of "status" "" event) in
        (state_from_status status, given "latest_status:" "latest_status" status,
         match nonempty (coerce_timestamp (dgetv "timestamp" event)) with Some t => Some t | None => ts end)
    | None => ("unknown", "insufficient_evidence", ts)
    end.

(** [nodes_by_id.get(id)], and an update of that node in place. *)
Definition node_by_id (id : string) (nodes : list node) : option node :=
  find_first (fun n => String.eqb (nd_id n) id) nodes.
Definition update_node (id : string) (f : node -> node) (nodes : list node) : list node :=
  map (fun n => if String.eqb (nd_id n) id then f n else n) nodes.

(** [for edge in edges], relayna/observability/execution_graph.py:646-669. *)
Definition project_edge (nodes : list node) (e : edge) : list node :=
  if String.eqb (eg_kind e) "dead_lettered_to" then
    update_node (eg_target e) (fun n => set_node_state
        (if opt_truthy (nd_state n) then from_opt "" (nd_state n) else "dead_lettered")
        (nd_state_reason n) (nd_updated_at n) n)
      (update_node (eg_source e) (set_node_state "dead_lettered" (Some "dead_lettered_to") (eg_timestamp e)) nodes)
  else if str_in (eg_kind e) ["retried_as"; "manual_retry_to"] then
    update_node (eg_source e) (fun n =>
      if str_in (from_opt "" (nd_state n)) ["dead_lettered"; "replayed"; "succeeded"; "failed"] then n
      else set_node_state "retrying" (Some (eg_kind e)) (eg_timestamp e) n) nodes
  else if String.eqb (eg_kind e) "published_status" then
    match node_by_id (eg_target e) nodes with
    | Some target =>
        let state := from_opt "" (nd_state target) in
        if str_in state ["succeeded"; "failed"; "retrying"] then
          update_node (eg_source e) (fun n =>
            if str_in (from_opt "" (nd_state n)) ["dead_lettered"; "replayed"] then n
            else set_node_state state (Some "latest_status") (nd_updated_at target) n) nodes
        else nodes
    | None => nodes
    end
  else nodes.

(** [_project_live_state], relayna/observability/execution_graph.py:626-669. *)
Definition project_live_state (nodes : list node) (edges : list edge) (histories : dict (list pydict)) :
    list node * list edge :=
  let latest := omap (fun h => (fun e => (h.1, e)) <$> last (sort_by_timestamp h.2)) histories in
  let nodes := map (fun n => let '(s, r, u) := initial_node_state latest n in set_node_state s (Some r) u n) nodes in
  let edges := map (fun e => let (s, r) := edge_state e in
                 set_edge_state s r (nonempty (coerced (eg_timestamp e))) e) edges in
  (foldl project_edge nodes edges, edges).

(** [_live_state_counts], relayna/observability/execution_graph.py:759-764. *)
Definition live_state_counts (nodes : list node) : dict Z :=
  sort_by (fun a b => str_le a.1 b.1)
    (foldl (fun counts n =>
       let state := if opt_truthy (nd_state n) then from_opt "" (nd_state n) else "unknown" in
       dset state (from_opt 0 (dget state counts) + 1) counts) [] nodes).

(** ** Summary *)

(** Doubles: [us / 10**6], the product with 1000, and [int()]. *)
Definition float_of (z : Z) : spec_float :=
  match z with Z0 => S754_zero false | Zpos p => S754_finite false p 0 | Zneg p => S754_finite true p 0 end.
Definition float_to_int (f : spec_float) : Z :=
  match f with
  | S754_finite s m e =>
      let n := if 0 <=? e then Z.pos m * 2 ^ e else Z.pos m / 2 ^ (- e) in if s then - n else n
  | _ => 0
  end.

(** [int(delta.total_seconds() * 1000)] for a difference in microseconds. *)
Definition total_milliseconds (us : Z) : Z :=
  float_to_int (SFmul 53 1024 (SFdiv 53 1024 (float_of us) (float_of 1000000)) (float_of 1000)).

(** [_parse_timestamp], relayna/observability/execution_graph.py:809-811. *)
Definition parse_timestamp (value : string) : result pydatetime :=
  fromisoformat (of_chars (flat_map (fun c => if Ascii.eqb c "Z" then chars "+00:00" else [c]) (chars value))).

(** [_build_summary], relayna/observability/execution_graph.py:594-623. *)
Definition build_summary (status_history : list pydict) (all_timestamps : list string)
    (has_observations : bool) (nodes : list node) : result summary :=
  let latest := last (sort_by_timestamp status_history) in
  let status := e ← latest; nonempty (strip (text_of "status" "" e)) in
  let ended := (fun e => coerce_timestamp (dgetv "timestamp" e)) <$> latest in
  let timestamps := sort_by str_le (List.filter (fun t => negb (String.eqb t "")) all_timestamps) in
  let started := head timestamps in
  let ended := match ended with Some t => Some t | None => last timestamps end in
  duration ← (if opt_truthy started && opt_truthy ended then
                e ← parse_timestamp (from_opt "" ended);
                s ← parse_timestamp (from_opt "" started);
                us ← minus_datetime e s;
                Ok (Some (total_milliseconds us))
              else Ok None);
  Ok (Summary status started ended duration (if has_observations then "full" else "partial")
        (live_state_counts nodes)).

(** [build_execution_graph], relayna/observability/execution_graph.py:542-564: the sorted
    nodes and edges, their state, and the summary. *)
Definition finish_graph (topology : any_topology) (task_id : string)
    (status_histories observation_histories : dict (list pydict)) (related : list string) (b : build) :
    result graph :=
  let nodes := sort_by (lex_le (fun n => coerced (nd_timestamp n)) (fun x y => str_le (nd_id x) (nd_id y)))
                 (map snd (node_map b)) in
  let edges := sort_by (lex_le (fun e => coerced (eg_timestamp e)) (lex_le eg_kind (lex_le eg_source
                 (fun x y => str_le (eg_target x) (eg_target y))))) (edges b) in
  let '(nodes, edges) := project_live_state nodes edges status_histories in
  summary ← build_summary (from_opt [] (dget task_id status_histories)) (all_timestamps b)
              (negb (bool_decide (observation_histories = []))) nodes;
  let annotations := match task_types b with
                     | [] => []
                     | l => [("task_types", PList (map PStr (sort_by str_le l)))]
                     end in
  Ok (Graph task_id (topology_kind topology) summary nodes edges annotations related).

(** [build_execution_graph], relayna/observability/execution_graph.py:131-564. *)
Definition build_execution_graph (topology : any_topology) (task_id : string)
    (status_histories observation_histories dlq_records : dict (list pydict))
    (related_task_ids : list string) : result graph :=
  '(_, b) ← collect topology task_id status_histories observation_histories dlq_records related_task_ids no_graph;
  finish_graph topology task_id status_histories observation_histories (related_ids task_id related_task_ids) b.

(** The histories that are not empty, under their task. *)
Definition histories_of (l : list (string * list pydict)) : dict (list pydict) :=
  foldl (fun acc h => match h.2 with [] => acc | _ => dset h.1 h.2 acc end) [] l.

(** [target_task_ids], relayna/observability/execution_graph.py:80-80. *)
Definition target_task_ids (task_id : string) (children : list string) : list string :=
  task_id :: List.filter (fun c => negb (String.eqb c task_id)) children.

(** [ExecutionGraphService.get_graph], relayna/observability/execution_graph.py:77-128.  The arguments
    are what the stores answer for a task; [map_bounded] reads them in the order
    of the tasks. *)
Definition get_graph (topology : any_topology) (children : list string)
    (read_status : string -> result (list pydict))
    (observation_store dlq_service : option (string -> result (list pydict))) (task_id : string) :
    result (option graph) :=
  let targets := target_task_ids task_id children in
  let reading (read : option (string -> result (list pydict))) (t : string) :=
    match read with Some f => f t | None => Ok [] end in
  loaded ← mapM_result (fun t => h ← read_status t; o ← reading observation_store t; Ok (t, h, o)) targets;
  let status := histories_of (map fst loaded) in
  let observations := histories_of (map (fun x => (x.1.1, x.2)) loaded) in
  records ← mapM_result (fun t => r ← reading dlq_service t; Ok (t, r)) targets;
  let dlq := histories_of records in
  match status, observations, dlq with
  | [], [], [] => Ok None
  | _, _, _ => Some <$> build_execution_graph topology task_id status observations dlq children
  end.
