(* ===== verification/ExecutionGraphSpec.v ===== *)
(** * What an execution graph promises

    The graph the service returns is closed under its edges, names each node
    once and counts every node, and building it never fails for a task the
    service asks about, unless a timestamp cannot be read. *)

From S2P Require Import Prelude PyStr PySort PyVal PyTime SharedTopology WorkflowTopology ExecutionGraph.

(** ** What the builder keeps *)

Definition has (b : build) (id : string) : Prop := id ∈ dkeys (node_map b).
Definition knows (b : build) (task : string) : Prop := is_Some (dget task (task_node_ids b)).

Record closed (b : build) : Prop := {
  closed_ok : dict_ok (node_map b);
  closed_ids : forall k n, dget k (node_map b) = Some n -> nd_id n = k;
  closed_edges : forall e, e ∈ edges b -> has b (eg_source e) /\ has b (eg_target e);
  closed_tasks : forall t id, dget t (task_node_ids b) = Some id -> has b id;
  closed_messages : forall m id, dget m (workflow_message_nodes b) = Some id -> has b id;
  closed_pending : forall p, p ∈ pending_retry_links b -> has b (pr_retry_node_id p) }.

(** Nothing the builder recorded is forgotten. *)
Record extends (a b : build) : Prop := {
  extends_has : forall id, has a id -> has b id;
  extends_task : forall t id, dget t (task_node_ids a) = Some id -> dget t (task_node_ids b) = Some id;
  extends_edges : forall e, e ∈ edges a -> e ∈ edges b }.

#[export] Instance extends_preorder : PreOrder extends.
Proof. split; [by split|]. intros a b c [] []. split; naive_solver. Qed.

(** [m] started in [b] ends as [Q] says, or raises and [bad] holds. *)
Definition wpG (bad : Prop) {A} (m : G A) (b : build) (Q : A -> build -> Prop) : Prop :=
  match m b with Ok (a, b') => Q a b' | Raise _ => bad end.

Lemma wpG_bind bad {A B} (m : G A) (k : A -> G B) b Q :
  wpG bad m b (fun a b' => wpG bad (k a) b' Q) -> wpG bad (m ≫= k) b Q.
Proof. unfold wpG, mbind, G_bind. by destruct (m b) as [[a b']|e]. Qed.

Lemma wpG_ret bad {A} (a : A) b (Q : A -> build -> Prop) : Q a b -> wpG bad (mret a) b Q.
Proof. done. Qed.

Lemma wpG_reads bad {A} (f : build -> A) b (Q : A -> build -> Prop) : Q (f b) b -> wpG bad (reads f) b Q.
Proof. done. Qed.

Lemma wpG_lift bad {A} (r : result A) b (Q : A -> build -> Prop) :
  (forall a, r = Ok a -> Q a b) -> (bad \/ is_ok r = true) -> wpG bad (liftG r) b Q.
Proof. unfold wpG, liftG. destruct r; cbn; [naive_solver|]. intros _ [|]; done. Qed.

(** A statement that keeps the graph closed. *)
Definition keeps (bad : Prop) {A} (m : G A) (b : build) (Q : A -> build -> Prop) : Prop :=
  closed b -> wpG bad m b (fun a b' => closed b' /\ extends b b' /\ Q a b').

Section keeps.
Context {bad : Prop}.

Lemma keeps_bind {A B} (m : G A) (k : A -> G B) b R Q :
  keeps bad m b R -> (forall a b', extends b b' -> R a b' -> keeps bad (k a) b' Q) ->
  keeps bad (m ≫= k) b Q.
Proof.
  intros Hm Hk Hb. apply wpG_bind. specialize (Hm Hb). unfold wpG in *.
  destruct (m b) as [[a b']|e]; [|done]. destruct Hm as (Hb' & He & Hr).
  specialize (Hk a b' He Hr Hb'). unfold wpG in *.
  destruct (k a b') as [[c b'']|e]; [|done]. destruct Hk as (? & ? & ?).
  split; [done|]. split; [by etrans|done].
Qed.

Lemma keeps_ret {A} (a : A) b (Q : A -> build -> Prop) : Q a b -> keeps bad (mret a) b Q.
Proof. intros H Hb. by apply wpG_ret. Qed.

Lemma keeps_reads {A} (f : build -> A) b (Q : A -> build -> Prop) :
  (closed b -> Q (f b) b) -> keeps bad (reads f) b Q.
Proof. intros H Hb. apply wpG_reads. by split; [|split; [|apply H]]. Qed.

Lemma keeps_mono {A} (m : G A) b (Q R : A -> build -> Prop) :
  keeps bad m b Q -> (forall a b', extends b b' -> Q a b' -> R a b') -> keeps bad m b R.
Proof.
  intros Hm H Hb. specialize (Hm Hb). unfold wpG in *. destruct (m b) as [[a b']|e]; [|done]. naive_solver.
Qed.

Lemma keeps_for_each {A} (f : A -> G unit) l b (I : build -> Prop) :
  I b -> (forall a b, a ∈ l -> I b -> keeps bad (f a) b (fun _ b' => I b')) ->
  keeps bad (for_each f l) b (fun _ b' => I b').
Proof.
  revert b. induction l as [|x l IH]; intros b Hb Hf; cbn; [by apply keeps_ret|].
  eapply keeps_bind; [apply Hf; [left|done]|]. intros a b' _ Hb'. apply IH; [done|].
  intros y c Hy. apply Hf. by right.
Qed.

Lemma has_dset k (n : node) m id : id ∈ dkeys (dset k n m) <-> id = k \/ id ∈ dkeys m.
Proof.
  rewrite dkeys_dset. destruct (din k m) eqn:E.
  - apply din_keys in E. naive_solver.
  - rewrite elem_of_app, list_elem_of_singleton. naive_solver.
Qed.

Lemma keeps_add_node n b :
  keeps bad (add_node n) b (fun id b' => id = nd_id n /\ has b' id /\ task_node_ids b' = task_node_ids b).
Proof.
  intros [Hok Hids Hed Hta Hme Hpe]. unfold wpG, add_node.
  destruct (dget (nd_id n) (node_map b)) as [x|] eqn:E.
  - assert (forall y id, has b id -> has (set_nodes (dset (nd_id n) y (node_map b)) b) id) as Hmono
      by (intros y id H; apply has_dset; by right).
    split; [split; cbn|split; [split; cbn|]]; try done.
    + by apply dict_ok_dset.
    + intros k y. rewrite dget_dset. destruct (String.eqb k (nd_id n)) eqn:Ek; [|apply Hids].
      bool_to_prop. intros [= <-]. subst. cbn. by apply Hids.
    + intros e He. split; apply Hmono; by apply Hed.
    + intros t id H. eapply Hmono, Hta, H.
    + intros t id H. eapply Hmono, Hme, H.
    + intros p H. by apply Hmono, Hpe.
    + intros id. apply Hmono.
    + split; [done|]. split; [|done]. apply has_dset. by left.
  - set (b' := Build (dset (nd_id n) n (node_map b)) _ _ _ _ _ _ _ _).
    assert (forall id, has b id -> has b' id) as Hmono by (intros id H; apply has_dset; by right).
    split; [split; cbn|split; [split; cbn|]]; try done.
    + by apply dict_ok_dset.
    + intros k y. rewrite dget_dset. destruct (String.eqb k (nd_id n)) eqn:Ek; [|apply Hids].
      bool_to_prop. intros [= <-]. by subst.
    + intros e He. split; apply Hmono; by apply Hed.
    + intros t id H. eapply Hmono, Hta, H.
    + intros t id H. eapply Hmono, Hme, H.
    + intros p H. by apply Hmono, Hpe.
    + split; [done|]. split; [|done]. apply has_dset. by left.
Qed.

Lemma keeps_add_edge e b : has b (eg_source e) -> has b (eg_target e) ->
  keeps bad (add_edge e) b (fun _ b' => e ∈ edges b' /\ task_node_ids b' = task_node_ids b).
Proof.
  intros Hs Ht [Hok Hids Hed Hta Hme Hpe]. unfold wpG, add_edge, modify. cbn.
  split; [split; cbn|split; [split; cbn|]]; try done.
  - intros x [Hx| ->%list_elem_of_singleton]%elem_of_app; [by apply Hed|done].
  - intros x Hx. apply elem_of_app. by left.
  - cbn. split; [|done]. apply elem_of_app. right. by apply list_elem_of_singleton.
Qed.

(** A change of the variables that are not part of the graph. *)
Lemma keeps_modify f b :
  (closed b -> closed (f b)) -> node_map (f b) = node_map b -> edges (f b) = edges b ->
  (forall t id, dget t (task_node_ids b) = Some id -> dget t (task_node_ids (f b)) = Some id) ->
  keeps bad (modify f) b (fun _ b' => b' = f b).
Proof.
  intros Hc Hn He Hk Hb. unfold wpG, modify. split; [by apply Hc|]. split; [|done].
  split; [|done|by rewrite He]. intros id. unfold has. by rewrite Hn.
Qed.

Lemma keeps_task_node task b : (bad \/ knows b task) ->
  keeps bad (task_node task) b (fun id b' => b' = b /\ has b id /\ dget task (task_node_ids b) = Some id).
Proof.
  intros H Hb. unfold wpG, task_node. destruct (dget task (task_node_ids b)) as [id|] eqn:E.
  - split; [done|]. split; [done|]. split; [done|]. split; [|done]. by eapply closed_tasks.
  - destruct H as [|[id H]]; [done|congruence].
Qed.

Lemma nodes_of_has ids b n : closed b -> n ∈ nodes_of ids b -> has b (nd_id n).
Proof.
  intros Hb (id & _ & Hg)%list_elem_of_omap. rewrite (closed_ids b Hb id n Hg).
  unfold has. destruct (dget id (node_map b)) eqn:E; [|done].
  apply din_keys. unfold din. by rewrite E.
Qed.

Lemma filter_sub {A} (p : A -> bool) l x : x ∈ List.filter p l -> x ∈ l.
Proof. rewrite !list_elem_of_In, filter_In. by intros []. Qed.

Lemma last_elem {A} (l : list A) x : last l = Some x -> x ∈ l.
Proof. rewrite last_lookup. apply list_elem_of_lookup_2. Qed.

Lemma latest_attempt_elem l ts n : latest_attempt l ts = Some n -> n ∈ l.
Proof.
  unfold latest_attempt. destruct l as [|x l]; [done|]. destruct ts as [t|]; [|apply last_elem].
  destruct (last (List.filter _ (x :: l))) as [y|] eqn:E.
  - intros [= <-]. by eapply filter_sub, last_elem.
  - intros [= <-]. left.
Qed.

Lemma next_attempt_elem l ts n : next_attempt l ts = Some n -> n ∈ l.
Proof. unfold next_attempt. destruct ts; [|done]. by intros [? _]%find_first_some. Qed.

Lemma latest_stage_elem l s ts n : latest_stage_attempt l s ts = Some n -> n ∈ l.
Proof. unfold latest_stage_attempt. intros H. by eapply filter_sub, last_elem. Qed.

Lemma latest_has b task ts n : closed b -> latest_attempt (attempts_of task b) ts = Some n -> has b (nd_id n).
Proof. intros Hb H. by eapply nodes_of_has, latest_attempt_elem. Qed.

Lemma next_has b task ts n : closed b -> next_attempt (attempts_of task b) ts = Some n -> has b (nd_id n).
Proof. intros Hb H. by eapply nodes_of_has, next_attempt_elem. Qed.

Lemma stage_has b s ts n : closed b ->
  latest_stage_attempt (nodes_of (stage_attempts b) b) s ts = Some n -> has b (nd_id n).
Proof. intros Hb H. by eapply nodes_of_has, latest_stage_elem. Qed.
End keeps.

(** ** The statements keep the graph closed *)

Section statements.
Context {bad : Prop} (topology : any_topology) (root : string).

Notation keeps_ok m b := (keeps bad m b (fun _ _ => True)).

Lemma extends_has' a b id : extends a b -> has a id -> has b id.
Proof. intros []. naive_solver. Qed.

Lemma extends_bad a b t : extends a b -> bad \/ knows a t -> bad \/ knows b t.
Proof. intros [] [|[id H]]; [by left|right; exists id; naive_solver]. Qed.

Lemma keeps_read_node {B} (f : build -> option node) (k : option node -> G B) b Q :
  (forall n, closed b -> f b = Some n -> has b (nd_id n)) ->
  (forall o, (forall n, o = Some n -> has b (nd_id n)) -> keeps bad (k o) b Q) ->
  keeps bad (reads f ≫= k) b Q.
Proof.
  intros Hf Hk. eapply (keeps_bind _ _ _ (fun o b' => b' = b /\ forall n, o = Some n -> has b (nd_id n))).
  - apply keeps_reads. naive_solver.
  - intros o b' _ [-> Ho]. by apply Hk.
Qed.

Lemma keeps_read {A B} (f : build -> A) (k : A -> G B) b Q :
  keeps bad (k (f b)) b Q -> keeps bad (reads f ≫= k) b Q.
Proof.
  intros Hk. eapply (keeps_bind _ _ _ (fun a b' => a = f b /\ b' = b)).
  - by apply keeps_reads.
  - by intros a b' _ [-> ->].
Qed.

(** Adding a node, then going on from a graph that has it. *)
Lemma keeps_node {B} n (k : string -> G B) b Q :
  (forall b', extends b b' -> has b' (nd_id n) -> task_node_ids b' = task_node_ids b ->
     keeps bad (k (nd_id n)) b' Q) ->
  keeps bad (add_node n ≫= k) b Q.
Proof.
  intros Hk. eapply keeps_bind; [apply keeps_add_node|]. intros id b' He (-> & Hh & Ht). by apply Hk.
Qed.

Lemma keeps_task {B} task (k : string -> G B) b Q : bad \/ knows b task ->
  (forall id, has b id -> dget task (task_node_ids b) = Some id -> keeps bad (k id) b Q) ->
  keeps bad (task_node task ≫= k) b Q.
Proof.
  intros Ht Hk. eapply keeps_bind; [by apply keeps_task_node|]. intros id b' _ (-> & Hh & Hd). by apply Hk.
Qed.

Lemma keeps_set {B} f (k : unit -> G B) b Q :
  (closed b -> closed (f b)) -> node_map (f b) = node_map b -> edges (f b) = edges b ->
  (forall t id, dget t (task_node_ids b) = Some id -> dget t (task_node_ids (f b)) = Some id) ->
  (extends b (f b) -> keeps bad (k tt) (f b) Q) -> keeps bad (modify f ≫= k) b Q.
Proof.
  intros Hc Hn He Hkn Hk. eapply keeps_bind; [by apply keeps_modify|].
  intros [] b' Hext ->. by apply Hk.
Qed.

Lemma keeps_edge e b : has b (eg_source e) -> has b (eg_target e) -> keeps_ok (add_edge e) b.
Proof. intros Hs Ht. eapply keeps_mono; [by apply keeps_add_edge|done]. Qed.

(** An edge from a node that was looked up, if there is one. *)
Lemma keeps_edge_from {o : option node} {b} id kind ts a :
  (forall n, o = Some n -> has b (nd_id n)) -> has b id ->
  keeps_ok (match o with Some n => add_edge (new_edge (nd_id n) id kind ts a) | None => mret tt end) b.
Proof. intros Ho Hid. destruct o as [n|]; [apply keeps_edge; [by apply Ho|done]|by apply keeps_ret]. Qed.

Lemma keeps_then {A B} (m : G A) (k : A -> G B) b Q :
  keeps_ok m b -> (forall a b', extends b b' -> keeps bad (k a) b' Q) -> keeps bad (m ≫= k) b Q.
Proof. intros Hm Hk. eapply keeps_bind; [exact Hm|]. intros a b' He _. by apply Hk. Qed.

Ltac same := first [by intros []; split|done].

Lemma keeps_task_received task item ts b : bad \/ knows b task ->
  keeps_ok (on_task_received task item ts) b.
Proof.
  intros Ht. unfold on_task_received. apply keeps_read, keeps_node. intros b' He Hh _.
  apply keeps_set; [same..|]. intros He'. apply keeps_task.
  - eapply extends_bad; [|exact Ht]. by etrans.
  - intros s Hs _. apply keeps_edge; [done|]. by eapply extends_has'.
Qed.

Lemma keeps_resource_sampled task item ts b : keeps_ok (on_resource_sampled task item ts) b.
Proof. apply keeps_read, keeps_node. intros. by apply keeps_ret. Qed.

Lemma closed_record m id b : has b id -> closed b ->
  closed (set_messages (dset m id (workflow_message_nodes b)) b).
Proof.
  intros Hid []. split; try done. cbn. intros k x. rewrite dget_dset.
  destruct (String.eqb k m); [by intros [= <-]|by apply closed_messages0].
Qed.

Lemma keeps_record {B} m id (k : unit -> G B) b Q : has b id ->
  (forall b', extends b b' -> keeps bad (k tt) b' Q) -> keeps bad (record_message m id ≫= k) b Q.
Proof.
  intros Hid Hk. apply keeps_set; [intros Hb; by apply closed_record|done..|]. intros He. by apply Hk.
Qed.

Lemma keeps_workflow_published task item ts b : keeps_ok (on_workflow_published task item ts) b.
Proof.
  unfold on_workflow_published. destruct (String.eqb _ ""); [by apply keeps_ret|].
  apply keeps_node. intros b1 He1 Hh1 _. apply keeps_record; [done|]. intros b2 He2.
  assert (has b2 (nd_id (message_node task (strip (text_of "message_id" "" item)) item ts))) as Hh2
    by (by eapply extends_has').
  destruct (negb _).
  - apply keeps_read_node; [intros n; apply stage_has|]. intros o Ho. by apply keeps_edge_from.
  - eapply (keeps_bind _ _ _ (fun o b' => b' = b2 /\ forall s, o = Some s -> has b2 s)).
    + apply keeps_reads. intros Hb. split; [done|]. intros s. by apply closed_tasks.
    + intros o b' _ [-> Ho]. destruct o as [s|]; [|by apply keeps_ret].
      apply keeps_edge; [by apply Ho|done].
Qed.

Lemma keeps_received_message task item ts b : bad \/ knows b task ->
  keeps bad (received_message task item ts) b (fun o b' => forall id, o = Some id -> has b' id).
Proof.
  intros Ht. unfold received_message. destruct (String.eqb _ ""); [by apply keeps_ret|].
  eapply (keeps_bind _ _ _ (fun o b' => b' = b /\ forall s, o = Some s -> has b s)).
  { apply keeps_reads. intros Hb. split; [done|]. intros s. by apply closed_messages. }
  intros o b' _ [-> Ho]. destruct o as [id|]; [apply keeps_ret; intros ? [= <-]; by apply Ho|].
  apply keeps_node. intros b1 He1 Hh1 _. apply keeps_record; [done|]. intros b2 He2.
  apply keeps_task; [eapply extends_bad; [|exact Ht]; by etrans|]. intros s Hs _.
  eapply keeps_then; [apply keeps_edge; [done|by eapply extends_has']|].
  intros _ b3 He3. apply keeps_ret. intros ? [= <-]. eapply extends_has'; [|exact Hh1]. by etrans.
Qed.

Lemma keeps_workflow_received task item ts b : bad \/ knows b task ->
  keeps_ok (on_workflow_received task item ts) b.
Proof.
  intros Ht. unfold on_workflow_received. eapply keeps_bind; [by apply keeps_received_message|].
  intros m b1 He1 Hm. apply keeps_read, keeps_node. intros b2 He2 Hh2 _.
  apply keeps_set; [same..|]. intros He3. destruct m as [m|]; [|by apply keeps_ret].
  apply keeps_edge; [|by eapply extends_has']. eapply extends_has'; [|by apply Hm]. by etrans.
Qed.

Lemma keeps_retry_scheduled task item ts b : keeps_ok (on_retry_scheduled task item ts) b.
Proof.
  unfold on_retry_scheduled. apply keeps_read, keeps_node. intros b1 He1 Hh1 _.
  apply keeps_read_node; [intros n; apply latest_has|]. intros o Ho.
  eapply keeps_then; [by apply keeps_edge_from|]. intros _ b2 He2.
  eapply keeps_mono; [apply keeps_modify|done]; try done.
  intros []. split; try done. cbn. intros p [Hp| ->%list_elem_of_singleton]%elem_of_app; [by apply closed_pending0|].
  exact (extends_has' _ _ _ He2 Hh1).
Qed.

Lemma keeps_dead_letter task item ts b : keeps_ok (on_dead_letter task item ts) b.
Proof.
  unfold on_dead_letter. apply keeps_read, keeps_node. intros b1 He1 Hh1 _.
  apply keeps_read_node; [intros n; apply latest_has|]. intros o Ho. by apply keeps_edge_from.
Qed.

Lemma keeps_observe_item task item b : bad \/ knows b task -> keeps_ok (observe_item task item) b.
Proof.
  intros Ht. unfold observe_item. repeat case_match;
    [by apply keeps_task_received|apply keeps_resource_sampled|apply keeps_workflow_published
    |by apply keeps_workflow_received|apply keeps_retry_scheduled|apply keeps_dead_letter|by apply keeps_ret].
Qed.

Lemma keeps_source {o : option node} {b} task : bad \/ knows b task ->
  (forall n, o = Some n -> has b (nd_id n)) ->
  keeps bad (match o with Some a => mret (nd_id a) | None => task_node task end) b (fun id b' => b' = b /\ has b id).
Proof.
  intros Ht Ho. destruct o as [n|]; [apply keeps_ret; split; [done|by apply Ho]|].
  eapply keeps_mono; [by apply keeps_task_node|]. naive_solver.
Qed.

Lemma keeps_status task index event b : bad \/ knows b task ->
  bad \/ is_ok (dict_of (dgetv "meta" event)) = true ->
  keeps_ok (add_status topology task index event) b.
Proof.
  intros Ht Hm. unfold add_status.
  eapply (keeps_bind _ _ _ (fun _ b' => b' = b)).
  { intros Hb. by apply wpG_lift. }
  intros meta b' _ ->. apply keeps_node. intros b1 He1 Hh1 _.
  apply keeps_read_node.
  { intros n Hb. destruct (is_workflow topology); [by apply stage_has|by apply latest_has]. }
  intros o Ho. eapply keeps_bind; [apply keeps_source; [by eapply extends_bad|done]|].
  intros s b' _ [-> Hs]. eapply keeps_then; [by apply keeps_edge|]. intros _ b2 He2.
  destruct (String.eqb _ "manual_retrying"); [|by apply keeps_ret].
  apply keeps_read_node; [intros n; apply latest_has|]. intros o1 Ho1.
  apply keeps_read_node; [intros n; apply next_has|]. intros o2 Ho2.
  destruct o1 as [n1|], o2 as [n2|]; try by apply keeps_ret.
  apply keeps_edge; [by apply Ho1|by apply Ho2].
Qed.

Lemma keeps_link_retry p b : has b (pr_retry_node_id p) -> keeps_ok (link_retry p) b.
Proof.
  intros Hp. unfold link_retry. apply keeps_read_node; [intros n; apply next_has|]. intros o Ho.
  destruct o as [n|]; [|by apply keeps_ret]. apply keeps_edge; [done|by apply Ho].
Qed.

Lemma keeps_dlq_record task index record b : bad \/ knows b task ->
  keeps_ok (add_dlq_record task index record) b.
Proof.
  intros Ht. unfold add_dlq_record. apply keeps_read. destruct (din _ _); [by apply keeps_ret|].
  apply keeps_node. intros b1 He1 Hh1 _.
  apply keeps_read_node; [intros n; apply latest_has|]. intros o Ho.
  eapply keeps_bind; [apply keeps_source; [by eapply extends_bad|done]|].
  intros s b' _ [-> Hs]. by apply keeps_edge.
Qed.
End statements.

(** ** The whole construction *)

Section collect.
Context {bad : Prop} (topology : any_topology) (root : string).

Lemma keeps_add_task_node t b :
  keeps bad (add_task_node root t) b (fun id b' => dget t (task_node_ids b') = Some id /\
    (dget t (task_node_ids b) = None ->
     id = (if String.eqb t root then "task" else "aggregation_child") +:+ ":" +:+ t)).
Proof.
  intros Hb. unfold wpG, add_task_node. destruct (dget t (task_node_ids b)) as [id|] eqn:E.
  { split; [done|]. split; [done|]. split; [done|]. congruence. }
  set (n := new_node _ _ _ _ _ _).
  assert (keeps bad (id ← add_node n;
    _ ← modify (fun b => set_task_nodes (dset t id (task_node_ids b)) b); mret id) b
    (fun id b' => dget t (task_node_ids b') = Some id /\ id = nd_id n)) as Hk.
  2: { specialize (Hk Hb). unfold wpG in Hk. fold n.
       match type of Hk with match ?x with _ => _ end => destruct x as [[id b']|e] end; naive_solver. }
  apply keeps_node. intros b1 He1 Hh1 Ht1. apply keeps_set; [|done|done| |].
  - intros []. split; try done. cbn. intros x y. rewrite dget_dset.
    destruct (String.eqb x t); [by intros [= <-]|by apply closed_tasks0].
  - intros x y Hx. cbn. rewrite dget_dset. destruct (String.eqb x t) eqn:Ex; [|done].
    bool_to_prop. subst. rewrite Ht1 in Hx. congruence.
  - intros He. apply keeps_ret. cbn. by rewrite dget_dset_eq.
Qed.

Lemma keeps_add_related r b : knows b root ->
  keeps bad (add_related root r) b (fun _ b' => knows b' r /\
    exists s t, (new_edge s t "aggregated_into" None []) ∈ edges b' /\
      dget r (task_node_ids b') = Some s /\ dget root (task_node_ids b') = Some t).
Proof.
  intros Hroot. unfold add_related. eapply keeps_bind; [apply keeps_add_task_node|].
  intros id b1 He1 [Hid _]. apply keeps_task; [right; by exists id|]. intros s Hs Hds.
  apply keeps_task. { eapply extends_bad; [done|by right]. }
  intros t Ht Hdt. eapply keeps_mono; [by apply keeps_add_edge|].
  intros _ b2 He2 [Hin Heq]. unfold knows. rewrite Heq. split; [by exists s|]. by exists s, t.
Qed.

Variable status_histories observation_histories dlq_records : dict (list pydict).
Variable related : list string.

(** Every history belongs to the task or to a related one, and every [meta] is a dict. *)
Record covered : Prop := {
  covered_tasks : forall t, t ∈ dkeys status_histories ++ dkeys observation_histories ++ dkeys dlq_records ->
    t = root \/ t ∈ related_ids root related;
  covered_metas : forall t l e, (t, l) ∈ status_histories -> e ∈ l -> is_ok (dict_of (dgetv "meta" e)) = true }.

(** The root is there, and every related task is aggregated into it. *)
Definition rooted (b : build) : Prop :=
  dget root (task_node_ids b) = Some ("task:" +:+ root) /\
  forall r, r ∈ related_ids root related -> knows b r /\
    exists s, (new_edge s ("task:" +:+ root) "aggregated_into" None []) ∈ edges b /\
      dget r (task_node_ids b) = Some s.

Lemma rooted_extends a b : extends a b -> rooted a -> rooted b.
Proof.
  intros [Hh Ht Hed] [Hr Hrel]. split; [by apply Ht|]. intros r Hin.
  destruct (Hrel r Hin) as ([id Hid] & s & He & Hs). split; [exists id; by apply Ht|].
  exists s. split; [by apply Hed|by apply Ht].
Qed.

Lemma rooted_knows b t : bad \/ covered -> rooted b ->
  t ∈ dkeys status_histories ++ dkeys observation_histories ++ dkeys dlq_records -> bad \/ knows b t.
Proof.
  intros [?|[Hc _]] [Hr Hrel] Hin; [by left|right]. destruct (Hc t Hin) as [->|Hx].
  - by exists ("task:" +:+ root).
  - by apply Hrel.
Qed.

Lemma elem_enumerate {A} (l : list A) (i : nat) (x : A) : (i, x) ∈ enumerate l -> x ∈ l.
Proof.
  unfold enumerate. rewrite list_elem_of_In. intros H. apply in_combine_r in H. by apply list_elem_of_In.
Qed.

Lemma dkeys_elem {V} k (v : V) d : (k, v) ∈ d -> k ∈ dkeys d.
Proof. intros H. unfold dkeys. rewrite list_elem_of_In, in_map_iff. exists (k, v). by rewrite <- list_elem_of_In. Qed.

Lemma keeps_related b : dget root (task_node_ids b) = Some ("task:" +:+ root) ->
  keeps bad (for_each (add_related root) (related_ids root related)) b (fun _ b' => rooted b').
Proof.
  pose (linked := fun (done : list string) (b : build) => dget root (task_node_ids b) = Some ("task:" +:+ root) /\
    forall r, r ∈ done -> knows b r /\ exists s,
      (new_edge s ("task:" +:+ root) "aggregated_into" None []) ∈ edges b /\ dget r (task_node_ids b) = Some s).
  assert (forall l done b, linked done b ->
    keeps bad (for_each (add_related root) l) b (fun _ b' => linked (done ++ l) b')) as Hloop.
  { intros l. induction l as [|r l IH]; intros dn b' [Hr Hd]; cbn.
    { apply keeps_ret. by rewrite app_nil_r. }
    eapply keeps_bind; [apply keeps_add_related; by exists ("task:" +:+ root)|].
    intros _ c [Hh Ht Hed] (Hk & s & t & Hin & Hs & Hroot).
    replace (dn ++ r :: l)%list with ((dn ++ [r]) ++ l)%list by by rewrite <- app_assoc.
    apply IH. pose proof (Ht _ _ Hr) as Hr'. split; [done|].
    intros x [Hx| ->%list_elem_of_singleton]%elem_of_app.
    - destruct (Hd x Hx) as ([i Hi] & s' & Hin' & Hs'). split; [exists i; by apply Ht|].
      exists s'. split; [by apply Hed|by apply Ht].
    - split; [done|]. exists s. split; [|done]. congruence. }
  intros Hr. eapply keeps_mono; [apply (Hloop _ []); split; [done|by intros r ?%elem_of_nil]|done].
Qed.

(** A loop whose body keeps the graph closed. *)
Lemma keeps_loop {A} (f : A -> G unit) (l : list A) b : rooted b ->
  (forall (a : A) b, a ∈ l -> rooted b -> keeps bad (f a) b (fun _ _ => True)) ->
  keeps bad (for_each f l) b (fun _ b' => rooted b').
Proof.
  intros Hb Hf. apply (keeps_for_each _ _ _ rooted); [done|]. intros a c Ha Hc.
  eapply keeps_mono; [by apply Hf|]. intros. by eapply rooted_extends.
Qed.

Lemma keeps_loops {A B} (f : A -> B -> G unit) (inner : A -> list B) (l : list A) b : rooted b ->
  (forall (a : A) (x : B) b, a ∈ l -> x ∈ inner a -> rooted b -> keeps bad (f a x) b (fun _ _ => True)) ->
  keeps bad (for_each (fun a => for_each (f a) (inner a)) l) b (fun _ b' => rooted b').
Proof.
  intros Hb Hf. apply (keeps_for_each _ _ _ rooted); [done|]. intros a c Ha Hc.
  apply keeps_loop; [done|]. intros x d Hx Hd. by apply Hf.
Qed.

Lemma elem_history e t i : (i, e) ∈ enumerate (sort_by_timestamp (from_opt [] (dget t status_histories))) ->
  exists l, (t, l) ∈ status_histories /\ e ∈ l.
Proof.
  intros He%elem_enumerate%sort_by_elem. destruct (dget t status_histories) as [l|] eqn:E;
    [by exists l; split; [apply dget_elem|]|by apply elem_of_nil in He].
Qed.

Lemma keeps_collect : bad \/ covered ->
  keeps bad (collect topology root status_histories observation_histories dlq_records related) no_graph
    (fun _ b' => rooted b').
Proof.
  intros Hcov. unfold collect. eapply keeps_bind; [apply keeps_add_task_node|].
  intros id b1 _ [Hid Hnew]. specialize (Hnew eq_refl). rewrite String.eqb_refl in Hnew.
  eapply keeps_bind; [apply keeps_related; by subst|]. intros [] b2 _ Hr2.
  eapply keeps_bind; [apply (keeps_loops (fun h => observe_item h.1)); [done|]|].
  { intros [t l] item b Hin _ Hb. apply keeps_observe_item, rooted_knows; [done..|].
    rewrite !elem_of_app. right. left. by eapply dkeys_elem. }
  intros [] b3 _ Hr3.
  eapply keeps_bind; [apply (keeps_loops (fun t (e : nat * pydict) => add_status topology t e.1 e.2)); [done|]|].
  { intros t [i e] b _ (l & Hl & He)%elem_history Hb. apply keeps_status.
    - apply rooted_knows; [done..|]. rewrite elem_of_app. left. by eapply dkeys_elem.
    - destruct Hcov as [?|[_ Hm]]; [by left|right; by eapply Hm]. }
  intros [] b4 _ Hr4.
  eapply (keeps_bind _ _ _ (fun links b' => rooted b' /\ forall p, p ∈ links -> has b' (pr_retry_node_id p))).
  { apply keeps_reads. intros Hb. split; [done|]. intros p. by apply closed_pending. }
  intros links b5 _ [Hr5 Hlinks]. eapply (keeps_bind _ _ _ (fun _ b' => rooted b')).
  { eapply (keeps_mono _ _ (fun _ b' => rooted b' /\ extends b5 b')); [|naive_solver].
    apply (keeps_for_each _ _ _ (fun b' => rooted b' /\ extends b5 b')); [done|]. intros p b Hin [Hb Hext].
    eapply keeps_mono; [apply keeps_link_retry; eapply extends_has'; [done|by apply Hlinks]|].
    intros _ b' He _. split; [by eapply rooted_extends|by etrans]. }
  intros [] b6 _ Hr6.
  apply (keeps_loops (fun h (e : nat * pydict) => add_dlq_record h.1 e.1 e.2)); [done|].
  intros [t l] [i e] b Hin _ Hb. apply keeps_dlq_record, rooted_knows; [done..|].
  rewrite !elem_of_app. right. right. by eapply dkeys_elem.
Qed.
End collect.

(** ** The finished graph *)

Lemma update_node_ids id f nodes : (forall n, nd_id (f n) = nd_id n) ->
  map nd_id (update_node id f nodes) = map nd_id nodes.
Proof.
  intros Hf. unfold update_node. rewrite map_map. apply map_ext. intros n.
  destruct (String.eqb (nd_id n) id); [apply Hf|done].
Qed.

Lemma update_node_states id f nodes : (forall n, is_Some (nd_state n) -> is_Some (nd_state (f n))) ->
  Forall (fun n => is_Some (nd_state n)) nodes ->
  Forall (fun n => is_Some (nd_state n)) (update_node id f nodes).
Proof.
  intros Hf H. unfold update_node. apply List.Forall_map. eapply Forall_impl; [exact H|].
  intros n Hn. cbn. destruct (String.eqb (nd_id n) id); [by apply Hf|done].
Qed.

Lemma project_edge_keeps nodes e :
  map nd_id (project_edge nodes e) = map nd_id nodes /\
  (Forall (fun n => is_Some (nd_state n)) nodes ->
   Forall (fun n => is_Some (nd_state n)) (project_edge nodes e)).
Proof.
  assert (forall id f, (forall n, nd_id (f n) = nd_id n) ->
    (forall n, is_Some (nd_state n) -> is_Some (nd_state (f n))) -> forall nodes,
    map nd_id (update_node id f nodes) = map nd_id nodes /\
    (Forall (fun n => is_Some (nd_state n)) nodes ->
     Forall (fun n => is_Some (nd_state n)) (update_node id f nodes))) as Hup.
  { intros id f Hi Hs l. split; [by apply update_node_ids|by apply update_node_states]. }
  assert (forall s r u n, is_Some (nd_state (set_node_state s r u n))) as Hset by (intros; by eexists).
  unfold project_edge.
  destruct (String.eqb (eg_kind e) "dead_lettered_to").
  { destruct (Hup (eg_source e) (set_node_state "dead_lettered" (Some "dead_lettered_to") (eg_timestamp e))
      ltac:(done) ltac:(done) nodes) as [H1 H2].
    edestruct (Hup (eg_target e)) as [H3 H4]; [| |split; [etrans; [apply H3|exact H1]|intros H; by apply H4, H2]];
      done. }
  destruct (str_in _ _).
  { apply Hup; intros n; destruct (str_in _ _); done. }
  destruct (String.eqb _ _); [|done]. destruct (node_by_id _ _) as [t|]; [|done].
  destruct (str_in _ _); [|done]. apply Hup; intros n; destruct (str_in _ _); done.
Qed.

Lemma project_live_state_keeps nodes es h nodes' es' :
  project_live_state nodes es h = (nodes', es') ->
  map nd_id nodes' = map nd_id nodes /\ Forall (fun n => is_Some (nd_state n)) nodes' /\
  map (fun e => (eg_source e, eg_target e, eg_kind e)) es' =
  map (fun e => (eg_source e, eg_target e, eg_kind e)) es.
Proof.
  unfold project_live_state. intros [= <- <-]. split_and!.
  3: { rewrite map_map. apply map_ext. intros e. by destruct (edge_state e). }
  all: match goal with |- context [foldl project_edge ?s ?l] => generalize l; set (start := s) end.
  - intros l. assert (map nd_id start = map nd_id nodes) as <-.
    { unfold start. rewrite map_map. apply map_ext. intros n. by destruct (initial_node_state _ n) as [[??]?]. }
    generalize start. induction l as [|e l IH]; intros st; [done|]. cbn. rewrite IH. apply project_edge_keeps.
  - intros l. assert (Forall (fun n => is_Some (nd_state n)) start) as Hs.
    { unfold start. apply List.Forall_map, List.Forall_forall. intros n _.
      destruct (initial_node_state _ n) as [[??]?]. by eexists. }
    revert Hs. generalize start. induction l as [|e l IH]; intros st Hs; [done|]. cbn. apply IH.
    by apply project_edge_keeps.
Qed.

(** [sum(live_state_counts.values())] *)
Definition total (d : dict Z) : Z := foldr Z.add 0 (map snd d).

Lemma total_permutation d e : Permutation d e -> total d = total e.
Proof. unfold total. induction 1; cbn; lia. Qed.

Lemma total_dset k v d : dict_ok d -> total (dset k v d) = total d - from_opt 0 (dget k d) + v.
Proof.
  unfold dict_ok, total. induction d as [|[k' v'] d IH]; cbn; [lia|]. intros [Hn Hd]%NoDup_cons.
  destruct (String.eqb k k') eqn:E; cbn; [lia|]. rewrite IH by done. lia.
Qed.

Lemma live_state_counts_total nodes : total (live_state_counts nodes) = Z.of_nat (length nodes).
Proof.
  unfold live_state_counts. rewrite (total_permutation _ _ (sort_by_permutation _ _)).
  set (f := fun (counts : dict Z) n => _).
  assert (forall l counts, dict_ok counts ->
    total (foldl f counts l) = total counts + Z.of_nat (length l)) as H.
  { intros l. induction l as [|n l IH]; intros c Hc; cbn [foldl length]; [lia|].
    rewrite IH by by apply dict_ok_dset. unfold f. rewrite total_dset by done. lia. }
  rewrite H by apply dict_ok_nil. cbn. lia.
Qed.

(** What the caller gets. *)
Record well_formed (task : string) (related : list string) (g : graph) : Prop := {
  wf_ids : NoDup (map nd_id (gr_nodes g));
  wf_edges : forall e, e ∈ gr_edges g ->
    eg_source e ∈ map nd_id (gr_nodes g) /\ eg_target e ∈ map nd_id (gr_nodes g);
  wf_root : ("task:" +:+ task) ∈ map nd_id (gr_nodes g);
  wf_related : forall r, r ∈ related -> exists e, e ∈ gr_edges g /\ eg_kind e = "aggregated_into" /\
    eg_target e = "task:" +:+ task;
  wf_states : Forall (fun n => is_Some (nd_state n)) (gr_nodes g);
  wf_counts : total (sm_live_state_counts (gr_summary g)) = Z.of_nat (length (gr_nodes g)) }.

Lemma map_elem {A B} (f : A -> B) l y : y ∈ map f l <-> exists x, x ∈ l /\ f x = y.
Proof.
  rewrite list_elem_of_In, in_map_iff. setoid_rewrite list_elem_of_In. naive_solver.
Qed.

Lemma build_summary_counts h ts obs nodes s :
  build_summary h ts obs nodes = Ok s -> sm_live_state_counts s = live_state_counts nodes.
Proof. unfold build_summary. intros H. apply result_bind_ok in H as (d & _ & [= <-]). done. Qed.

Lemma finish_well_formed topology task sh oh related b g :
  closed b -> rooted task related b ->
  finish_graph topology task sh oh (related_ids task related) b = Ok g ->
  well_formed task (related_ids task related) g.
Proof.
  intros Hb Hr. unfold finish_graph.
  set (nodes := sort_by _ _). set (es := sort_by _ _).
  destruct (project_live_state nodes es sh) as [nodes' es'] eqn:E.
  apply project_live_state_keeps in E as (Hn & Hst & He).
  intros H. apply result_bind_ok in H as (s & Hs & [= <-]). apply build_summary_counts in Hs.
  assert (Permutation (map nd_id nodes') (dkeys (node_map b))) as Hids.
  { rewrite Hn. unfold nodes. rewrite sort_by_permutation. unfold dkeys. rewrite map_map.
    erewrite map_ext_in; [done|]. intros [k n] Hin. cbn.
    apply (closed_ids b Hb). apply elem_dget; [apply Hb|]. by apply list_elem_of_In. }
  assert (forall e, e ∈ es' -> exists e0, e0 ∈ edges b /\ eg_source e0 = eg_source e /\ eg_target e0 = eg_target e)
    as Hback.
  { intros e Hin. assert ((eg_source e, eg_target e, eg_kind e) ∈ map (fun e => (eg_source e, eg_target e, eg_kind e)) es')
      as Hm by (apply map_elem; by exists e).
    rewrite He in Hm. apply map_elem in Hm as (e0 & Hin0 & [= H1 H2 _]). exists e0.
    by apply sort_by_elem in Hin0. }
  split; cbn.
  - rewrite Hids. apply Hb.
  - intros e Hin. rewrite !Hids. destruct (Hback e Hin) as (e0 & Hin0 & <- & <-). by apply (closed_edges b Hb).
  - rewrite Hids. destruct Hr as [Hr _]. by eapply closed_tasks.
  - intros r Hin. destruct Hr as [_ Hr]. destruct (Hr r Hin) as (_ & x & Hx & _).
    set (e0 := new_edge _ _ _ _ _) in Hx. assert (e0 ∈ es) as Hes by (by apply sort_by_elem).
    assert ((eg_source e0, eg_target e0, eg_kind e0) ∈ map (fun e => (eg_source e, eg_target e, eg_kind e)) es')
      as Hm by (rewrite He; apply map_elem; by exists e0).
    apply map_elem in Hm as (e & Hein & [= _ Ht Hk]). exists e. by rewrite Ht, Hk.
  - done.
  - by rewrite Hs, live_state_counts_total.
Qed.

Lemma finish_raises topology task sh oh related b e :
  finish_graph topology task sh oh related b = Raise e ->
  (exists s, parse_timestamp s = Raise e) \/ (exists a b, minus_datetime a b = Raise e).
Proof.
  unfold finish_graph. destruct (project_live_state _ _ _) as [nodes es].
  intros [H|(sm & _ & H)]%result_bind_raise; [|done]. unfold build_summary in H.
  apply result_bind_raise in H as [H|(d & _ & H)]; [|done]. destruct (_ && _); [|done].
  apply result_bind_raise in H as [H|(x & _ & H)]; [left; by eexists|].
  apply result_bind_raise in H as [H|(y & _ & H)]; [left; by eexists|].
  apply result_bind_raise in H as [H|(z & _ & H)]; [right; by eexists _, _|done].
Qed.

(** ** The service *)

Lemma histories_of_elem l t h : (t, h) ∈ histories_of l -> (t, h) ∈ l.
Proof.
  unfold histories_of. assert (forall l acc, (t, h) ∈ foldl (fun acc (h : string * list pydict) =>
    match h.2 with [] => acc | _ => dset h.1 h.2 acc end) acc l -> (t, h) ∈ acc \/ (t, h) ∈ l) as H.
  { clear. intros l. induction l as [|[t' h'] l IH]; intros acc Hin; [by left|]. cbn in Hin.
    apply IH in Hin as [Hin|Hin]; [|by right; right]. destruct h' as [|e h']; [by left|].
    assert (forall d, (t, h) ∈ dset t' (e :: h') d -> (t, h) ∈ d \/ (t, h) = (t', e :: h')) as Hd.
    { clear. intros d. induction d as [|[k v] d IH]; cbn.
      - intros ->%list_elem_of_singleton. by right.
      - destruct (String.eqb t' k) eqn:E.
        + bool_to_prop. subst k. intros [[= -> ->]|Hin]%elem_of_cons; [by right|left; by right].
        + intros [->|Hin]%elem_of_cons; [left; left|]. destruct (IH Hin); [left; by right|by right]. }
    apply Hd in Hin as [Hin|Hin]; [by left|right; rewrite Hin; left]. }
  intros Hin. apply H in Hin as [Hin|Hin]; [by apply elem_of_nil in Hin|done].
Qed.

Section service.
Variables (topology : any_topology) (task_id : string) (children : list string).
Variable read_status : string -> result (list pydict).
Variables observation_store dlq_service : option (string -> result (list pydict)).

Notation graph_of := (get_graph topology children read_status observation_store dlq_service task_id).

(** What [get_graph] builds from is what the stores answered. *)
Lemma get_graph_cases r : graph_of = r ->
  (is_ok r = false /\ exists e, r = Raise e /\ ((exists t, read_status t = Raise e) \/
     (exists f t, (observation_store = Some f \/ dlq_service = Some f) /\ f t = Raise e))) \/
  r = Ok None \/
  exists sh oh dh, r = Some <$> build_execution_graph topology task_id sh oh dh children /\
    (forall t, t ∈ dkeys sh ++ dkeys oh ++ dkeys dh -> t ∈ target_task_ids task_id children) /\
    (forall t l, (t, l) ∈ sh -> read_status t = Ok l).
Proof.
  intros <-. unfold get_graph. cbv zeta. set (targets := target_task_ids task_id children).
  match goal with |- context [mapM_result ?f targets ≫= _] => set (f1 := f) end.
  match goal with |- context [mapM_result ?f targets] => lazymatch f with f1 => fail | _ => set (f2 := f) end end.
  destruct (mapM_result f1 targets) as [loaded|e] eqn:El; cbn [mbind result_bind].
  2: { left. split; [done|]. exists e. split; [done|]. apply mapM_result_raise in El as (t & _ & Ht). unfold f1 in Ht.
       destruct (read_status t) as [h|e1] eqn:Er; cbn in Ht; [|left; exists t; congruence].
       destruct observation_store as [f|]; [|done]. destruct (f t) as [o|e2] eqn:Ef; [done|].
       injection Ht as <-. right. exists f, t. auto. }
  destruct (mapM_result f2 targets) as [records|e] eqn:Ed; cbn [mbind result_bind].
  2: { left. split; [done|]. exists e. split; [done|]. apply mapM_result_raise in Ed as (t & _ & Ht). unfold f2 in Ht.
       destruct dlq_service as [f|]; [|done]. destruct (f t) as [o|e2] eqn:Ef; [done|].
       injection Ht as <-. right. exists f, t. auto. }
  right. set (sh := histories_of _). set (oh := histories_of _). set (dh := histories_of _).
  apply mapM_result_ok in El, Ed.
  assert (forall t, t ∈ dkeys sh ++ dkeys oh ++ dkeys dh -> t ∈ targets) as Hkeys.
  { intros t. rewrite !elem_of_app. unfold dkeys. setoid_rewrite map_elem.
    intros [([k l] & Hin & <-)|[([k l] & Hin & <-)|([k l] & Hin & <-)]]; apply histories_of_elem in Hin; cbn.
    1, 2: apply map_elem in Hin as ([[t h] o] & Hin & [= <- _]);
      apply list_elem_of_lookup in Hin as [i Hi];
      destruct (Forall2_lookup_r _ _ _ _ _ El Hi) as (x & Hx & Heq); cbn in Heq;
      apply result_bind_ok in Heq as (? & _ & Heq); apply result_bind_ok in Heq as (? & _ & [= <- _ _]);
      by eapply list_elem_of_lookup_2.
    apply list_elem_of_lookup in Hin as [i Hi].
    destruct (Forall2_lookup_r _ _ _ _ _ Ed Hi) as (x & Hx & Heq). cbn in Heq.
    apply result_bind_ok in Heq as (? & _ & [= <- _]). by eapply list_elem_of_lookup_2. }
  assert (forall t l, (t, l) ∈ sh -> read_status t = Ok l) as Hread.
  { intros t l Hin. apply histories_of_elem, map_elem in Hin as ([[t' h] o] & Hin & [= <- <-]).
    apply list_elem_of_lookup in Hin as [i Hi].
    destruct (Forall2_lookup_r _ _ _ _ _ El Hi) as (x & Hx & Heq). cbn in Heq.
    apply result_bind_ok in Heq as (? & E1 & Heq). apply result_bind_ok in Heq as (? & _ & [= <- <- _]). done. }
  destruct sh eqn:Es, oh eqn:Eo, dh eqn:Edh; [by left|..]; right; eexists _, _, _; done.
Qed.


End service.

(** ** Examples *)

Definition demo_observation (kind ts : string) : pydict :=
  [("event_type", PStr kind); ("timestamp", PStr ts)].

Definition demo_status (status ts : string) : pydict :=
  [("status", PStr status); ("timestamp", PStr ts); ("meta", PDict [])].

(** A parent that failed once and was retried, and its child. *)
Definition demo_statuses (t : string) : result (list pydict) :=
  Ok (if String.eqb t "parent"
      then [demo_status "completed" "2024-01-01T00:00:05+00:00"; demo_status "processing" "2024-01-01T00:00:01+00:00"]
      else []).

Definition demo_observations (t : string) : result (list pydict) :=
  Ok (if String.eqb t "parent"
      then [demo_observation "TaskMessageReceived" "2024-01-01T00:00:01+00:00";
            demo_observation "ConsumerRetryScheduled" "2024-01-01T00:00:02+00:00";
            demo_observation "TaskMessageReceived" "2024-01-01T00:00:04+00:00"]
      else [demo_observation "WorkflowMessageReceived" "2024-01-01T00:00:03+00:00"]).

Definition demo_graph : result (option graph) :=
  get_graph (AnyOther "Custom") ["child"] demo_statuses (Some demo_observations) None "parent".


(** A status whose timestamp is no date. *)
Definition undated_statuses (t : string) : result (list pydict) :=
  Ok (if String.eqb t "t" then [demo_status "completed" "yesterday"] else []).


(** Retries of a task whose deliveries were not observed share one node: their number
    is counted by their edges, and without an attempt there is no edge. *)
Lemma unattached_retries_collapse :
  (fun g => match g with
            | Some g => map nd_id (List.filter (fun n => String.eqb (nd_kind n) "retry") (gr_nodes g))
            | None => [] end) <$>
    get_graph (AnyOther "Custom") [] (fun _ => Ok []) (Some (fun _ => Ok
      [demo_observation "ConsumerRetryScheduled" "2024-01-01T00:00:01+00:00";
       demo_observation "ConsumerRetryScheduled" "2024-01-01T00:00:09+00:00"])) None "t" =
  Ok ["retry:t:1"].
Proof. vm_compute. reflexivity. Qed.

(** The duration is a double truncated to an integer: 1001 ms count as 1000. *)
Lemma duration_loses_a_millisecond : total_milliseconds 1001000 = 1000.
Proof. vm_compute. reflexivity. Qed.
