(* ===== verification/Mermaid.v ===== *)
(** * Mermaid text (observability/execution_graph.py, topology/workflow_graph.py)

    Both files turn names into identifiers of a Mermaid diagram with the same
    two functions; they are modelled once. *)

From S2P Require Import Prelude PyStr PyVal ExecutionGraph.
From Stdlib Require Import Ascii.

Definition word_char (c : ascii) : bool :=
  let z := code c in
  ((48 <=? z) && (z <=? 57)) || ((65 <=? z) && (z <=? 90)) || ((97 <=? z) && (z <=? 122)) || (z =? 95).

Fixpoint drop_underscores (l : list ascii) : list ascii :=
  match l with [] => [] | c :: l' => if Ascii.eqb c "_" then drop_underscores l' else l end.

(** [_sanitize_mermaid_identifier], relayna/observability/execution_graph.py:829-831. *)
Definition sanitize_mermaid_identifier (name : string) : string :=
  let l := map (fun c => if word_char c then c else "_"%char) (chars name) in
  let s := of_chars (rev (drop_underscores (rev (drop_underscores l)))) in
  if String.eqb s "" then "node" else s.

(** [while candidate in used], relayna/observability/execution_graph.py:820-824. *)
Fixpoint free_identifier (used : list string) (base candidate : string) (suffix : Z) (fuel : nat) : string :=
  if str_in candidate used then
    match fuel with
    | O => candidate
    | S fuel => free_identifier used base (base +:+ "_" +:+ pretty suffix) (suffix + 1) fuel
    end
  else candidate.

(** [_build_mermaid_node_ids], relayna/observability/execution_graph.py:814-826: the identifiers
    and those in use.  Among one more candidate than there are used identifiers
    one is free. *)
Definition build_mermaid_node_ids (names : list string) (prefix : string) : dict string :=
  (foldl (fun (acc : dict string * list string) name =>
     let base := prefix +:+ "_" +:+ sanitize_mermaid_identifier name in
     let candidate := free_identifier acc.2 base base 2 (length acc.2) in
     (dset name candidate acc.1, candidate :: acc.2)) ([], []) names).1.

(** [_escape_mermaid_label], relayna/observability/execution_graph.py:834-835. *)
Definition escape_mermaid_label (value : string) : string :=
  of_chars (flat_map (fun c => if Ascii.eqb c quote_char then ["\"%char; quote_char] else [c]) (chars value)).

Definition quoted (s : string) : string := of_chars ["["%char; quote_char] +:+ s +:+ of_chars [quote_char; "]"%char].
Definition newline : string := of_chars [chr 10].

(** [execution_graph_mermaid], relayna/observability/execution_graph.py:567-591. *)
Definition execution_graph_mermaid (g : graph) : string :=
  let ids := build_mermaid_node_ids (map nd_id (gr_nodes g)) "node" in
  let node_line n :=
    let label := match nd_label n with Some l => if String.eqb l "" then nd_id n else l | None => nd_id n end in
    let parts := label :: (if String.eqb (strip (nd_kind n)) "" then [] else [strip (nd_kind n)])
                   ++ (if String.eqb (coerced (nd_timestamp n)) "" then [] else [coerced (nd_timestamp n)]) in
    let label := join "\n" (map escape_mermaid_label (List.filter (fun p => negb (String.eqb p "")) parts)) in
    "    " +:+ from_opt "" (dget (nd_id n) ids) +:+ quoted label in
  let edge_line e :=
    match dget (eg_source e) ids, dget (eg_target e) ids with
    | Some s, Some t => ["    " +:+ s +:+ " -->|" +:+ escape_mermaid_label (eg_kind e) +:+ "| " +:+ t]
    | _, _ => []
    end in
  join newline ("flowchart LR" :: map node_line (gr_nodes g) ++ flat_map edge_line (gr_edges g)).

(** ** The identifiers are apart *)

Lemma candidate_inj base (m n : Z) : base +:+ "_" +:+ pretty m = base +:+ "_" +:+ pretty n -> m = n.
Proof. intros H%append_inj_l%append_inj_l. by apply (inj pretty). Qed.

Definition candidates (base : string) (from : Z) (n : nat) : list string :=
  map (fun i => base +:+ "_" +:+ pretty (from + Z.of_nat i)) (seq 0 n).

Lemma candidates_cons base from n :
  candidates base from (S n) = (base +:+ "_" +:+ pretty from) :: candidates base (from + 1) n.
Proof.
  unfold candidates. cbn [seq map]. rewrite Z.add_0_r. f_equal.
  rewrite <- seq_shift, map_map. apply map_ext. intros i. do 3 f_equal. lia.
Qed.

Lemma free_identifier_fails used base c from n :
  str_in (free_identifier used base c from n) used = true ->
  forall x, x ∈ c :: candidates base from n -> x ∈ used.
Proof.
  revert c from. induction n as [|n IH]; intros c from H x Hx; cbn in H;
    destruct (str_in c used) eqn:E; rewrite ?E in H; try done; apply str_in_elem in E.
  - apply elem_of_cons in Hx as [->|Hx]; [done|by apply elem_of_nil in Hx].
  - apply elem_of_cons in Hx as [->|Hx]; [done|]. rewrite candidates_cons in Hx. by eapply IH.
Qed.

Lemma candidates_nodup base n : NoDup (base :: candidates base 2 n).
Proof.
  apply NoDup_cons. split.
  - intros Hin. unfold candidates in Hin. rewrite list_elem_of_In, in_map_iff in Hin.
    destruct Hin as (i & Hi & _). rewrite <- (append_nil_r base) in Hi at 2.
    by apply append_inj_l in Hi.
  - unfold candidates. apply (NoDup_fmap_2_strong (fun i => base +:+ "_" +:+ pretty (2 + Z.of_nat i))); [|apply NoDup_seq].
    intros i j _ _ H%candidate_inj. lia.
Qed.

(** The search ends with an identifier that is not in use. *)
Lemma free_identifier_free used base : free_identifier used base base 2 (length used) ∉ used.
Proof.
  intros Hin%str_in_elem. pose proof (free_identifier_fails _ _ _ _ _ Hin) as Hsub.
  pose proof (submseteq_length _ _ (NoDup_submseteq _ _ (candidates_nodup base (length used)) Hsub)) as Hl.
  cbn in Hl. unfold candidates in Hl. rewrite length_map, length_seq in Hl. lia.
Qed.

(** Distinct names get distinct identifiers in the diagram, and every name gets one,
    however the names collide once their special characters are replaced. *)
Theorem mermaid_ids_distinct names prefix a b : a ∈ names -> b ∈ names ->
  exists x y, dget a (build_mermaid_node_ids names prefix) = Some x /\
    dget b (build_mermaid_node_ids names prefix) = Some y /\ (x = y -> a = b).
Proof.
  unfold build_mermaid_node_ids. set (f := fun acc name => _).
  pose (inv := fun (done : list string) (acc : dict string * list string) =>
    (forall n, n ∈ done -> exists x, dget n acc.1 = Some x /\ x ∈ acc.2) /\
    (forall n x, dget n acc.1 = Some x -> x ∈ acc.2) /\
    (forall n m x, dget n acc.1 = Some x -> dget m acc.1 = Some x -> n = m)).
  assert (forall l done acc, inv done acc -> inv (done ++ l) (foldl f acc l)) as Hfold.
  { intros l. induction l as [|n l IH]; intros dn acc Hi; cbn; [by rewrite app_nil_r|].
    replace (dn ++ n :: l)%list with ((dn ++ [n]) ++ l)%list by by rewrite <- app_assoc.
    apply IH. destruct Hi as (H1 & H2 & H3). unfold f.
    set (c := free_identifier _ _ _ _ _). assert (c ∉ acc.2) as Hc by apply free_identifier_free.
    split; [|split]; cbn.
    - intros m Hm. rewrite dget_dset. destruct (String.eqb m n) eqn:E; [exists c; split; [done|left]|].
      apply elem_of_app in Hm as [Hm| ->%list_elem_of_singleton]; [|by rewrite String.eqb_refl in E].
      destruct (H1 m Hm) as (x & Hx & Hin). exists x. split; [done|by right].
    - intros m x. rewrite dget_dset. destruct (String.eqb m n); [intros [= <-]; left|]. intros Hx.
      right. by eapply H2.
    - intros m m' x. rewrite !dget_dset. destruct (String.eqb m n) eqn:E, (String.eqb m' n) eqn:E'; bool_to_prop.
      + intros. congruence.
      + intros [= <-] Hx. by destruct Hc; eapply H2.
      + intros Hx [= <-]. by destruct Hc; eapply H2.
      + apply H3. }
  assert (inv names (foldl f ([], []) names)) as (H1 & H2 & H3).
  { apply (Hfold names [] ([], [])). split_and!; [by intros n ?%elem_of_nil|done|done]. }
  intros Ha Hb. destruct (H1 a Ha) as (x & Hx & _), (H1 b Hb) as (y & Hy & _).
  exists x, y. split; [done|]. split; [done|]. intros <-. by eapply H3.
Qed.

Lemma mermaid_ids_distinct_witness :
  build_mermaid_node_ids ["a.b"; "a_b"; "a-b"] "node" = [("a.b", "node_a_b"); ("a_b", "node_a_b_2"); ("a-b", "node_a_b_3")] /\
  exists x y, dget "a.b" (build_mermaid_node_ids ["a.b"; "a_b"; "a-b"] "node") = Some x /\
    dget "a_b" (build_mermaid_node_ids ["a.b"; "a_b"; "a-b"] "node") = Some y /\ (x = y -> "a.b" = "a_b").
Proof.
  split; [vm_compute; reflexivity|].
  apply (mermaid_ids_distinct ["a.b"; "a_b"; "a-b"]); [left|right; left].
Defined.
