(* ===== verification/RabbitClient.v ===== *)
(** * Publishing (rabbitmq/client.py)

    [RelaynaRabbitClient] over the interface of its topology ([Topology], with
    the shared and the workflow topologies as instances): what each publish
    method validates, and the message and routing key it hands to the broker.
    The connection is up; spans only contribute the trace fields, read once.
    Opening the connection, channels and metrics are left out. *)

From S2P Require Import Prelude PyStr PyVal Contracts Transport.
From S2P Require Import Effects ConsumerContext TaskConsumer ConsumerDemo.
From S2P Require Import TopologyBase SharedTopology WorkflowTopology.

(** ** The topology a client is given *)

Record Topology := {
  is_workflow : option WorkflowTopology;
  tp_task_queue_arguments : result pydict;
  tp_task_routing_key : pydict -> result string;
  tp_status_routing_key : pydict -> result string;
  tp_aggregation_shard : pydict -> result Z;
  tp_aggregation_status_routing_key : pydict -> result string;
  tp_workflow_publish_routing_key : string -> result string;
  tp_workflow_queue_arguments : string -> result pydict }.

Definition shared_topology (t : SharedTopology) : Topology := {|
  is_workflow := None;
  tp_task_queue_arguments := task_queue_arguments t;
  tp_task_routing_key := st_task_routing_key t;
  tp_status_routing_key := st_status_routing_key t;
  tp_aggregation_shard := aggregation_shard t;
  tp_aggregation_status_routing_key := aggregation_status_routing_key t;
  tp_workflow_publish_routing_key := st_workflow_publish_routing_key t;
  tp_workflow_queue_arguments := st_workflow_queue_arguments t |}.

(** [SharedStatusWorkflowTopology], relayna/topology/workflow.py:288-304. *)
Definition workflow_topology (t : WorkflowTopology) : Topology := {|
  is_workflow := Some t;
  tp_task_queue_arguments := wt_task_queue_arguments t;
  tp_task_routing_key _ := Raise (runtime_error
    "SharedStatusWorkflowTopology requires publish_to_stage(...) or publish_to_entry(...)");
  tp_status_routing_key := task_id_status_routing_key None;
  tp_aggregation_shard _ := no_shards;
  tp_aggregation_status_routing_key _ := no_shards;
  tp_workflow_publish_routing_key := workflow_publish_routing_key t;
  tp_workflow_queue_arguments := workflow_queue_arguments t |}.

(** ** Messages *)

Inductive exchange := TASKS | WORKFLOW | STATUS | DEFAULT.

(** [Message(...)] and the exchange and routing key it is published with. *)
Record publication := {
  pb_exchange : exchange;
  pb_routing_key : string;
  pb_body : string;
  pb_correlation_id : option string;
  pb_priority : option pyval;
  pb_headers : pydict }.

(** The OpenTelemetry propagator, and the ids of the active span. *)
Class Tracing := {
  inject : pydict -> pydict;
  active_span : option (string * string) }.

(** [active_trace_fields], relayna/observability/tracing.py:36-43. *)
Definition active_trace_fields `{Tracing} : pydict :=
  match active_span with
  | Some (trace_id, span_id) => [("trace_id", PStr trace_id); ("span_id", PStr span_id)]
  | None => []
  end.

(** [inject_trace_headers], relayna/observability/tracing.py:46-49. *)
Definition inject_trace_headers `{Tracing} (headers : pydict) : pydict := inject headers.

(** [QueueInspection], relayna/rabbitmq/client.py:696-700. *)
Record QueueInspection := { qi_queue_name : string; qi_message_count : Z; qi_consumer_count : Z }.

(** What the publish methods are given: an envelope, another model, or a mapping. *)
Inductive input (E : Type) := Envelope (e : E) | Model (d : pydict) | Mapping_ (d : pydict).
Arguments Envelope {E} e.
Arguments Model {E} d.
Arguments Mapping_ {E} d.

(** [value.get(key, "")] as text. *)
Definition text_of (key : string) (d : pydict) : string := py_str (from_opt (PStr "") (dget key d)).

Section client.
Context `{Transport} `{Pydantic} `{Tracing}.
Context (topology : Topology) (alias_config : option ContractAliasConfig).

(** pydantic's [ValidationError]. *)
Definition validated {A} (o : option A) : result A :=
  match o with
  | Some a => Ok a
  | None => Raise (Exn XValidationError "ValidationError" "")
  end.

(** [_coerce_queue_max_priority], relayna/rabbitmq/client.py:677-681. *)
Definition coerce_queue_max_priority (arguments : pydict) : result (option Z) :=
  match dgetv "x-max-priority" arguments with
  | PNone => Ok None
  | value => z ← py_int value; Ok (Some z)
  end.

(** [_validate_priority_against_limit], relayna/rabbitmq/client.py:586-590. *)
Definition validate_priority_against_limit (priority : pyval) (max_priority : option Z) (kind : string) :
    result unit :=
  match priority, max_priority with
  | PNone, _ | _, None => Ok tt
  | p, Some m =>
      z ← py_int p;
      if m <? z then Raise (value_error (kind +:+ " priority " +:+ py_str p +:+ " exceeds configured "
        +:+ kind +:+ "_max_priority " +:+ pretty m)) else Ok tt
  end.

(** [_resolved_task_max_priority], relayna/rabbitmq/client.py:592-593. *)
Definition resolved_task_max_priority : result (option Z) :=
  arguments ← tp_task_queue_arguments topology; coerce_queue_max_priority arguments.

(** [_resolved_workflow_max_priority], relayna/rabbitmq/client.py:595-598. *)
Definition resolved_workflow_max_priority (stage : string) : result (option Z) :=
  if String.eqb stage "" then Ok None
  else arguments ← tp_workflow_queue_arguments topology stage; coerce_queue_max_priority arguments.

(** [str(task_dict.get("correlation_id") or task_dict.get("task_id", "")) or None] *)
Definition correlation_or_task (d : pydict) : option string :=
  nonempty (py_str (py_or (dgetv "correlation_id" d) (from_opt (PStr "") (dget "task_id" d)))).

(** [_clear_default_priority]: a message without a priority has none. *)
Definition message_priority (p : pyval) : option pyval := match p with PNone => None | v => Some v end.

(** ** Tasks *)

(** [_prepare_task_envelope], relayna/rabbitmq/client.py:471-473. *)
Definition prepare_task_envelope (task : pydict) : result TaskEnvelope :=
  validated (task_validate (PDict (normalize_contract_aliases task alias_config))).

(** [_publish_prepared_task], relayna/rabbitmq/client.py:177-214. *)
Definition publish_prepared_task (task : pydict) (headers : option pydict) : result publication :=
  max_priority ← resolved_task_max_priority;
  _ ← validate_priority_against_limit (dgetv "priority" task) max_priority "task";
  routing_key ← tp_task_routing_key topology task;
  Ok {| pb_exchange := TASKS; pb_routing_key := routing_key; pb_body := encode_transport_json (PDict task);
        pb_correlation_id := correlation_or_task task;
        pb_priority := message_priority (dgetv "priority" task);
        pb_headers := inject_trace_headers
          (dupdate [("task_id", PStr (text_of "task_id" task))] (from_opt [] headers)) |}.

Definition no_plain_tasks : result unit :=
  match is_workflow topology with
  | Some _ => Raise (runtime_error
      "SharedStatusWorkflowTopology requires publish_to_stage(...) or publish_to_entry(...)")
  | None => Ok tt
  end.

(** [publish_task], relayna/rabbitmq/client.py:166-175. *)
Definition publish_task (task : pydict) (headers : option pydict) : result publication :=
  _ ← no_plain_tasks;
  envelope ← prepare_task_envelope task;
  publish_prepared_task (task_dump envelope) headers.

(** [_resolve_batch_priority], relayna/rabbitmq/client.py:548-554. *)
Definition resolve_batch_priority (tasks : list pydict) : result pyval :=
  match remove_dups (map (dgetv "priority") tasks) with
  | _ :: _ :: _ => Raise (value_error
      "batch_envelope tasks must all share the same priority when priority is provided")
  | l =>
      let priority := from_opt PNone (hd_error l) in
      max_priority ← resolved_task_max_priority;
      _ ← validate_priority_against_limit priority max_priority "task";
      Ok priority
  end.

(** [_publish_batch_envelope], relayna/rabbitmq/client.py:520-546. *)
Definition publish_batch_envelope (payload : pydict) (priority : pyval) : result publication :=
  let tasks := dgetv "tasks" payload in
  first_task ← match tasks with
               | PList (PDict d :: _) => Ok d
               | PList (_ :: _) => Raise (type_error "not a mapping")
               | _ => Ok payload
               end;
  routing_key ← tp_task_routing_key topology first_task;
  let batch_id := text_of "batch_id" payload in
  let size := match tasks with PList l => Z.of_nat (length l) | _ => 0 end in
  Ok {| pb_exchange := TASKS; pb_routing_key := routing_key;
        pb_body := encode_transport_json (PDict payload); pb_correlation_id := nonempty batch_id;
        pb_priority := message_priority priority;
        pb_headers := inject_trace_headers [("batch_id", PStr batch_id); ("batch_size", PInt size)] |}.

(** A sequence of publishes: the messages sent, and how it ended. *)
Fixpoint publish_each (f : pydict -> result publication) (l : list pydict) :
    list publication * result unit :=
  match l with
  | [] => ([], Ok tt)
  | d :: l => match f d with
              | Ok p => let (ps, x) := publish_each f l in (p :: ps, x)
              | Raise e => ([], Raise e)
              end
  end.

(** [publish_tasks], relayna/rabbitmq/client.py:226-256.  With a concurrency of one, in order;
    [now] is the time a batch envelope takes. *)
Definition publish_tasks (now : Z) (tasks : list pydict) (mode : string) (batch_id : option string)
    (meta : pydict) : list publication * result unit :=
  match mapM_result prepare_task_envelope tasks with
  | Raise e => ([], Raise e)
  | Ok envelopes =>
      let prepared := map task_dump envelopes in
      if String.eqb mode "individual" then
        publish_each (fun d => _ ← no_plain_tasks; publish_prepared_task d None) prepared
      else if negb (String.eqb mode "batch_envelope") then
        ([], Raise (value_error ("Unsupported publish mode '" +:+ mode +:+ "'.")))
      else if negb (opt_truthy batch_id) || String.eqb (strip (from_opt "" batch_id)) "" then
        ([], Raise (value_error "batch_id is required when mode='batch_envelope'."))
      else if bool_decide (envelopes = []) then ([], Raise (Exn XValidationError "ValidationError" ""))
      else
        let envelope := {| be_batch_id := from_opt "" batch_id; be_tasks := envelopes; be_meta := meta;
                           be_created_at := now; be_spec_version := "1.0" |} in
        match (priority ← resolve_batch_priority prepared;
               publish_batch_envelope (batch_dump envelope) priority) with
        | Ok p => ([p], Ok tt)
        | Raise e => ([], Raise e)
        end
  end.

(** ** Status events *)

(** [_prepare_status_payload], relayna/rabbitmq/client.py:442-465. *)
Definition prepare_status_payload (event : input StatusEventEnvelope) : pydict :=
  let d := match event with
           | Envelope e => status_transport_dict e
           | Model d => d
           | Mapping_ d => normalize_contract_aliases d alias_config
           end in
  let d := match dgetv "status" d with
           | PStr _ | PNone => d
           | status => dset "status" (PStr (py_str status)) d
           end in
  let correlation_id := py_or (dgetv "correlation_id" d) (PStr (text_of "task_id" d)) in
  let d := if truthy correlation_id then dset "correlation_id" (PStr (py_str correlation_id)) d else d in
  ensure_status_event_id (dupdate d active_trace_fields).

(** [_publish_status_payload], relayna/rabbitmq/client.py:492-518. *)
Definition publish_status_payload (payload : pydict) (routing_key : string) : publication :=
  let task_id := text_of "task_id" payload in
  let payload := dupdate payload active_trace_fields in
  {| pb_exchange := STATUS; pb_routing_key := routing_key;
     pb_body := encode_transport_json (PDict payload);
     pb_correlation_id := nonempty (py_str (dgetv "correlation_id" payload)); pb_priority := None;
     pb_headers := inject_trace_headers
       [("task_id", PStr task_id); ("status", PStr (text_of "status" payload))] |}.

(** [publish_status], relayna/rabbitmq/client.py:258-260. *)
Definition publish_status (event : input StatusEventEnvelope) : result publication :=
  let payload := prepare_status_payload event in
  routing_key ← tp_status_routing_key topology payload;
  Ok (publish_status_payload payload routing_key).

(** [publish_aggregation_status], relayna/rabbitmq/client.py:262-271. *)
Definition publish_aggregation_status (event : input StatusEventEnvelope) : result publication :=
  let payload := prepare_status_payload event in
  match dgetv "meta" payload with
  | PDict meta =>
      if String.eqb (strip (py_str (py_or (dgetv "parent_task_id" meta) (PStr "")))) ""
      then Raise (value_error "aggregation status event requires meta.parent_task_id")
      else
        shard ← tp_aggregation_shard topology payload;
        let meta := dset "aggregation_role" (PStr "aggregation") (dset "aggregation_shard" (PInt shard) meta) in
        let payload := dset "meta" (PDict meta) payload in
        routing_key ← tp_aggregation_status_routing_key topology payload;
        Ok (publish_status_payload payload routing_key)
  | _ => Raise (value_error "aggregation status event requires meta.parent_task_id")
  end.

(** ** Workflow messages *)

(** [_prepare_workflow_payload], relayna/rabbitmq/client.py:475-490. *)
Definition prepare_workflow_payload (payload : input WorkflowEnvelope) (stage : option string) :
    result pydict :=
  let d := match payload with
           | Envelope e => workflow_transport_dict e
           | Model d => d
           | Mapping_ d => normalize_contract_aliases d alias_config
           end in
  let d := match stage with Some s => dset "stage" (PStr s) d | None => d end in
  envelope ← validated (workflow_validate (PDict d));
  Ok (workflow_transport_dict envelope).

(** [str(workflow.get(key) or "").strip()] *)
Definition stripped_text (key : string) (d : pydict) : string :=
  strip (py_str (py_or (dgetv key d) (PStr ""))).

(** [_validate_workflow_contract], relayna/rabbitmq/client.py:571-584. *)
Definition validate_workflow_contract (workflow : pydict) : result unit :=
  match is_workflow topology with
  | None => Ok tt
  | Some t =>
      let target_stage := stripped_text "stage" workflow in
      if String.eqb target_stage "" then Ok tt else
      outcome ← validate_publish_contract t target_stage (as_str (dgetv "action" workflow))
        (match dgetv "payload" workflow with PDict d => d | _ => [] end)
        (nonempty (stripped_text "origin_stage" workflow));
      match outcome with
      | None => Ok tt
      | Some e => Raise (Exn XContractError "WorkflowContractError" (ce_message e))
      end
  end.

(** [publish_workflow_message], relayna/rabbitmq/client.py:305-355. *)
Definition publish_workflow_message (payload : input WorkflowEnvelope) (routing_key : string)
    (headers : option pydict) : result publication :=
  workflow ← prepare_workflow_payload payload None;
  _ ← validate_workflow_contract workflow;
  max_priority ← resolved_workflow_max_priority (stripped_text "stage" workflow);
  _ ← validate_priority_against_limit (dgetv "priority" workflow) max_priority "workflow";
  let h := [("task_id", PStr (text_of "task_id" workflow));
            ("message_id", PStr (text_of "message_id" workflow));
            ("stage", PStr (text_of "stage" workflow))] in
  let h := if truthy (dgetv "origin_stage" workflow)
           then dset "origin_stage" (PStr (py_str (dgetv "origin_stage" workflow))) h else h in
  Ok {| pb_exchange := WORKFLOW; pb_routing_key := routing_key;
        pb_body := encode_transport_json (PDict workflow);
        pb_correlation_id := correlation_or_task workflow;
        pb_priority := message_priority (dgetv "priority" workflow);
        pb_headers := inject_trace_headers (dupdate h (from_opt [] headers)) |}.

(** [publish_workflow], relayna/rabbitmq/client.py:273-278. *)
Definition publish_workflow (payload : input WorkflowEnvelope) (headers : option pydict) :
    result publication :=
  workflow ← prepare_workflow_payload payload None;
  match dget "stage" workflow with
  | None => Raise (key_error "'stage'")
  | Some stage =>
      routing_key ← tp_workflow_publish_routing_key topology (py_str stage);
      publish_workflow_message (Mapping_ workflow) routing_key headers
  end.

(** [publish_to_stage], relayna/rabbitmq/client.py:280-289. *)
Definition publish_to_stage (payload : input WorkflowEnvelope) (stage : string) (headers : option pydict) :
    result publication :=
  workflow ← prepare_workflow_payload payload (Some stage);
  routing_key ← tp_workflow_publish_routing_key topology stage;
  publish_workflow_message (Mapping_ workflow) routing_key headers.

(** [publish_to_entry], relayna/rabbitmq/client.py:291-303. *)
Definition publish_to_entry (payload : input WorkflowEnvelope) (route : string) (headers : option pydict) :
    result publication :=
  match is_workflow topology with
  | None => Raise (runtime_error "publish_to_entry(...) requires SharedStatusWorkflowTopology")
  | Some t =>
      stage ← workflow_entry_target_stage t route;
      workflow ← prepare_workflow_payload payload (Some stage);
      routing_key ← workflow_entry_routing_key t route;
      publish_workflow_message (Mapping_ workflow) routing_key headers
  end.

(** ** Queues *)

(** [publish_raw_to_queue], relayna/rabbitmq/client.py:357-387. *)
Definition publish_raw_to_queue (queue_name body : string) (correlation_id : option string)
    (headers : option pydict) (priority : option Z) : publication :=
  {| pb_exchange := DEFAULT; pb_routing_key := queue_name; pb_body := body;
     pb_correlation_id := correlation_id; pb_priority := PInt <$> priority;
     pb_headers := inject_trace_headers (from_opt [] headers) |}.

(** [ensure_retry_infrastructure], relayna/rabbitmq/client.py:131-164. *)
Definition ensure_retry_infrastructure (source_queue_name : string) (delay_ms : Z)
    (retry_queue_suffix dead_letter_queue_suffix : string) :
    result (list amqp_command * (string * string * string)) :=
  if String.eqb (strip source_queue_name) "" then
    Raise (value_error "source_queue_name must not be empty")
  else if delay_ms <=? 0 then Raise (value_error "delay_ms must be greater than zero")
  else
    let retry_queue_name := source_queue_name +:+ retry_queue_suffix in
    let dead_letter_queue_name := source_queue_name +:+ dead_letter_queue_suffix in
    Ok ([DeclareQueue retry_queue_name (Some [("x-message-ttl", PInt delay_ms);
           ("x-dead-letter-exchange", PStr ""); ("x-dead-letter-routing-key", PStr source_queue_name)]);
         DeclareQueue dead_letter_queue_name None],
        (source_queue_name, retry_queue_name, dead_letter_queue_name)).

(** ** What is published *)

Lemma active_trace_keys k v : (k, v) ∈ active_trace_fields -> k = "trace_id" \/ k = "span_id".
Proof.
  unfold active_trace_fields. destruct active_span as [[a b]|]; [|by intros ?%elem_of_nil].
  intros [[= -> _]|[[= -> _]|?%elem_of_nil]%elem_of_cons]%elem_of_cons; [by left|by right|done].
Qed.

Lemma dget_trace k d : k <> "trace_id" -> k <> "span_id" -> dget k (dupdate d active_trace_fields) = dget k d.
Proof.
  intros H1' H2'. unfold active_trace_fields, dupdate. destruct active_span as [[a b]|]; [|done].
  cbn. by rewrite !dget_dset_ne by done.
Qed.

(** Every status event goes out with an id: the body that [publish_status] or
    [publish_aggregation_status] hands to the broker carries a non-empty event
    id without surrounding blanks, whatever the caller supplied. *)
Theorem published_status_identified event p :
  publish_status event = Ok p \/ publish_aggregation_status event = Ok p ->
  exists payload id, pb_body p = encode_transport_json (PDict payload) /\ pb_exchange p = STATUS /\
    dget "event_id" payload = Some (PStr id) /\ id <> "" /\ strip id = id.
Proof.
  assert (exists id, dget "event_id" (prepare_status_payload event) = Some (PStr id) /\
    id <> "" /\ strip id = id) as (id & Hid & Hne & Hs).
  { unfold prepare_status_payload. apply ensure_event_id_get. }
  assert (forall payload key, dget "event_id" payload = Some (PStr id) ->
    exists payload' id', pb_body (publish_status_payload payload key) = encode_transport_json (PDict payload') /\
      pb_exchange (publish_status_payload payload key) = STATUS /\
      dget "event_id" payload' = Some (PStr id') /\ id' <> "" /\ strip id' = id') as Hpub.
  { intros payload key Hp. eexists _, id. split; [done|]. split; [done|]. split; [|done].
    by rewrite dget_trace. }
  intros [Hp|Hp].
  - unfold publish_status in Hp. apply result_bind_ok in Hp as (key & _ & [= <-]). by apply Hpub.
  - unfold publish_aggregation_status in Hp. destruct (dgetv "meta" _) as [| | | | | |meta]; try done.
    destruct (String.eqb _ _); [done|]. apply result_bind_ok in Hp as (shard & _ & Hp).
    apply result_bind_ok in Hp as (key & _ & [= <-]). apply Hpub. by rewrite dget_dset_ne.
Qed.

Lemma publish_contract_inbound t target action payload source :
  validate_publish_contract t target action payload source = Ok None ->
  validate_inbound_message_contract t target action payload = Ok None.
Proof.
  unfold validate_publish_contract, validate_inbound_message_contract. intros Hv.
  apply result_bind_ok in Hv as (dst & Hd & Hv). rewrite Hd. cbn [mbind result_bind].
  destruct (opt_truthy source); [|done]. apply result_bind_ok in Hv as (src & _ & Hv).
  destruct (ws_terminal src); [done|].
  destruct (match allowed_next_stages src with [] => false | _ => _ end); [done|].
  by destruct (validate_action_contract (produced_actions src) _ _ _ _).
Qed.

(** A workflow message that goes out is one its stage accepts: its action and payload
    pass the contract the consumer of the stage checks, its origin may hand
    over to the stage, and its priority is within the limit of the stage's
    queue. *)
Theorem published_workflow_accepted t payload key headers p :
  is_workflow topology = Some t -> publish_workflow_message payload key headers = Ok p ->
  exists workflow, pb_body p = encode_transport_json (PDict workflow) /\ pb_routing_key p = key /\
    let stage := stripped_text "stage" workflow in
    (stage <> "" ->
     validate_inbound_message_contract t stage (as_str (dgetv "action" workflow))
       (match dgetv "payload" workflow with PDict d => d | _ => [] end) = Ok None /\
     validate_publish_contract t stage (as_str (dgetv "action" workflow))
       (match dgetv "payload" workflow with PDict d => d | _ => [] end)
       (nonempty (stripped_text "origin_stage" workflow)) = Ok None) /\
    exists limit, resolved_workflow_max_priority stage = Ok limit /\
      forall m, limit = Some m -> dgetv "priority" workflow <> PNone ->
        exists z, py_int (dgetv "priority" workflow) = Ok z /\ z <= m.
Proof.
  intros Ht Hp. unfold publish_workflow_message in Hp.
  apply result_bind_ok in Hp as (workflow & _ & Hp). apply result_bind_ok in Hp as ([] & Hc & Hp).
  apply result_bind_ok in Hp as (limit & Hl & Hp). apply result_bind_ok in Hp as ([] & Hpr & [= <-]).
  exists workflow. split; [done|]. split; [done|]. cbn zeta. split.
  - intros Hne. unfold validate_workflow_contract in Hc. rewrite Ht in Hc.
    destruct (String.eqb (stripped_text "stage" workflow) "") eqn:E; [by bool_to_prop|].
    apply result_bind_ok in Hc as ([e|] & Hv & Hc); [done|].
    split; [by eapply publish_contract_inbound|done].
  - exists limit. split; [done|]. intros m -> Hn. unfold validate_priority_against_limit in Hpr.
    assert (exists z, py_int (dgetv "priority" workflow) = Ok z /\ (m <? z) = false) as (z & Hz & Hlt).
    { destruct (dgetv "priority" workflow); try done; apply result_bind_ok in Hpr as (n & Hz & Hpr);
        exists n; (split; [done|]); by destruct (m <? n). }
    exists z. split; [done|]. bool_to_prop. lia.
Qed.

(** A batch goes out whole or not at all: [publish_tasks] in batch mode sends either
    one message, of all the tasks, whose priority is the one they share and is
    within the limit of the task queue, or nothing and an error. *)
Theorem batch_is_one_message now tasks batch_id meta sent r :
  publish_tasks now tasks "batch_envelope" batch_id meta = (sent, r) ->
  (is_ok r = false /\ sent = []) \/
  (r = Ok tt /\ exists p envelopes limit, sent = [p] /\ envelopes <> [] /\
     mapM_result prepare_task_envelope tasks = Ok envelopes /\
     (exists id, batch_id = Some id /\ strip id <> "") /\
     pb_body p = encode_transport_json (PDict (batch_dump
       {| be_batch_id := from_opt "" batch_id; be_tasks := envelopes; be_meta := meta;
          be_created_at := now; be_spec_version := "1.0" |})) /\
     resolved_task_max_priority = Ok limit /\
     forall e, e ∈ envelopes -> pb_priority p = message_priority (dgetv "priority" (task_dump e)) /\
       validate_priority_against_limit (dgetv "priority" (task_dump e)) limit "task" = Ok tt).
Proof.
  unfold publish_tasks. destruct (mapM_result prepare_task_envelope tasks) as [envelopes|e];
    [|by intros [= <- <-]; left].
  cbn [String.eqb Ascii.eqb Bool.eqb negb].
  destruct (negb (opt_truthy batch_id) || _) eqn:Eb; [by intros [= <- <-]; left|].
  case_bool_decide as Ee; [by intros [= <- <-]; left|].
  destruct (_ ≫= _) as [p|e] eqn:Ep; intros [= <- <-]; [right|by left].
  split; [done|]. apply result_bind_ok in Ep as (priority & Hpr & Hp).
  unfold publish_batch_envelope in Hp. apply result_bind_ok in Hp as (first & _ & Hp).
  apply result_bind_ok in Hp as (key & _ & [= <-]).
  apply orb_false_iff in Eb as [E1 E2]. apply negb_false_iff in E1.
  assert (exists id, batch_id = Some id /\ strip id <> "") as Hid.
  { destruct batch_id as [id|]; [|done]. exists id. split; [done|]. by bool_to_prop. }
  unfold resolve_batch_priority in Hpr.
  assert (exists q, remove_dups (map (dgetv "priority") (map task_dump envelopes)) = [q]) as (q & Hq).
  { destruct (remove_dups _) as [|q [|q' l]] eqn:E; [|by exists q|done].
    destruct envelopes as [|e l]; [done|]. exfalso.
    assert (dgetv "priority" (task_dump e) ∈ @nil pyval) as Hin.
    { rewrite <- E. apply elem_of_remove_dups. left. }
    by apply elem_of_nil in Hin. }
  rewrite Hq in Hpr. cbn [hd_error from_opt] in Hpr.
  apply result_bind_ok in Hpr as (limit & Hl & Hpr). apply result_bind_ok in Hpr as ([] & Hv & [= <-]).
  eexists _, envelopes, limit. split; [done|]. split; [done|]. split; [done|]. split; [done|].
  split; [done|]. split; [done|]. intros e Hin.
  assert (dgetv "priority" (task_dump e) = q) as ->; [|done].
  assert (dgetv "priority" (task_dump e) ∈ [q]) as Hq'; [|by apply list_elem_of_singleton in Hq'].
  rewrite <- Hq. apply elem_of_remove_dups. rewrite map_map.
  apply list_elem_of_fmap. by exists e.
Qed.

End client.

(** ** Witnesses *)

#[local] Instance demo_tracing : Tracing := {|
  inject d := dset "traceparent" (PStr "00-1-2-01") d; active_span := Some ("1", "2") |}.

(** Messages from the stage "plan" to the stage "run". *)
#[local] Instance handoff_pydantic : Pydantic := {|
  task_validate _ := Some demo_task;
  task_dump t := [("task_id", PStr (te_task_id t)); ("priority", PInt 3)];
  batch_validate _ := None;
  batch_dump b := [("batch_id", PStr (be_batch_id b));
    ("tasks", PList (map (fun t => PDict [("task_id", PStr (te_task_id t))]) (be_tasks b)))];
  status_validate _ := Some demo_status;
  status_dump e := [("task_id", PStr (se_task_id e)); ("status", PStr (se_status e))];
  workflow_validate _ := Some demo_workflow;
  workflow_dump w := [("task_id", PStr (we_task_id w)); ("stage", PStr "run");
    ("origin_stage", PStr "plan"); ("priority", PInt 1)] |}.

Lemma published_status_identified_witness :
  exists payload id p, publish_status (shared_topology demo_topology) None (Envelope demo_status) = Ok p /\
    pb_body p = encode_transport_json (PDict payload) /\ dget "event_id" payload = Some (PStr id) /\ id <> "".
Proof.
  destruct (publish_status (shared_topology demo_topology) None (Envelope demo_status)) as [p|e] eqn:E.
  - destruct (published_status_identified (shared_topology demo_topology) None (Envelope demo_status) p)
      as (payload & id & Hb & _ & Hid & Hne & _); [left; exact E|].
    exists payload, id, p. exact (conj eq_refl (conj Hb (conj Hid Hne))).
  - exfalso. revert E. vm_compute. discriminate.
Defined.

Lemma published_workflow_accepted_witness :
  exists p workflow, publish_workflow_message (workflow_topology plain_topology) None
      (Envelope demo_workflow) "run" None = Ok p /\
    pb_body p = encode_transport_json (PDict workflow) /\ pb_routing_key p = "run".
Proof.
  destruct (publish_workflow_message (workflow_topology plain_topology) None (Envelope demo_workflow)
    "run" None) as [p|e] eqn:E; [|exfalso; revert E; vm_compute; discriminate].
  destruct (published_workflow_accepted (workflow_topology plain_topology) None plain_topology
    (Envelope demo_workflow) "run" None p eq_refl E) as (w & Hw & Hk & _).
  exists p, w. exact (conj eq_refl (conj Hw Hk)).
Defined.

Lemma batch_is_one_message_witness :
  exists p, publish_tasks (shared_topology demo_topology) None 0 [[]; []] "batch_envelope" (Some "b") [] =
    ([p], Ok tt) /\ pb_priority p = Some (PInt 3).
Proof.
  destruct (publish_tasks (shared_topology demo_topology) None 0 [[]; []] "batch_envelope" (Some "b") [])
    as [sent r] eqn:E.
  destruct (batch_is_one_message (shared_topology demo_topology) None 0 [[]; []] (Some "b") [] sent r E)
    as [[Hr _]|(-> & p & envelopes & limit & -> & _ & Henv & _ & _ & _ & Hall)].
  - exfalso. revert E Hr. vm_compute. by intros [= <- <-].
  - exists p. split; [done|]. injection Henv as <-. destruct (Hall demo_task) as [-> _]; [left|reflexivity].
Defined.
