(* ===== verification/EventFeed.v ===== *)
(** * Service event feed (observability/feed.py)

    [RedisServiceEventFeedStore]: status events and observations in one index,
    newest first, each cursor once, bounded in size.  The two Lua scripts run
    atomically on the server: each is one function on its state.  Also the
    forwarder that sends observations to the studio in batches. *)

From stdpp Require Import countable.
From S2P Require Import Prelude PyStr PyVal PyTime Json Sha256 Codec Redis RedisProg RabbitClient.
From Stdlib Require Import Ascii Sorted.

(** [ServiceEventSourceKind], relayna/observability/feed.py:94-96. *)
Inductive source_kind := SOURCE_STATUS | SOURCE_OBSERVATION.
#[export] Instance source_kind_eq_dec : EqDecision source_kind.
Proof. solve_decision. Defined.
Definition source_text (k : source_kind) : string :=
  match k with SOURCE_STATUS => "status" | SOURCE_OBSERVATION => "observation" end.

(** [RelaynaServiceEvent], relayna/observability/feed.py:104-114. *)
Record service_event := ServiceEvent {
  sv_cursor : string; sv_task_id : string; sv_event_type : string; sv_source_kind : source_kind;
  sv_component : option string; sv_timestamp : option string; sv_event_id : option string;
  sv_correlation_id : option string; sv_parent_task_id : option string; sv_payload : pydict }.

(** [RelaynaServiceEventFeedResponse], relayna/observability/feed.py:117-120. *)
Record feed_response := FeedResponse {
  fr_count : Z; fr_items : list service_event; fr_next_cursor : option string }.

(** [_normalize_string], relayna/observability/feed.py:82-86. *)
Definition normalize_string (v : pyval) : option string :=
  match v with PNone => None | v => nonempty (strip (py_str v)) end.

(** [_canonical_hash], relayna/observability/feed.py:89-91. *)
Definition canonical_hash (payload : pydict) : string :=
  Sha256.hexdigest (utf8 (dumps (DumpsOpts false true ", " ": ") (PDict payload))).

(** [normalize_status_feed_event], relayna/observability/feed.py:123-152. *)
Definition normalize_status_feed_event (event : pydict) : option service_event :=
  task_id ← normalize_string (dgetv "task_id" event);
  let status := from_opt "unknown" (normalize_string (dgetv "status" event)) in
  let event_id := normalize_string (dgetv "event_id" event) in
  let parent := match dgetv "meta" event with
                | PDict meta => normalize_string (dgetv "parent_task_id" meta)
                | _ => None
                end in
  let seed := [("source_kind", PStr "status"); ("task_id", PStr task_id); ("event_id", opt_str event_id);
               ("payload", PDict event)] in
  Some {| sv_cursor := match event_id with Some id => id | None => canonical_hash seed end;
          sv_task_id := task_id; sv_event_type := "status." +:+ lower status;
          sv_source_kind := SOURCE_STATUS; sv_component := Some "status";
          sv_timestamp := normalize_string (dgetv "timestamp" event); sv_event_id := event_id;
          sv_correlation_id := normalize_string (dgetv "correlation_id" event);
          sv_parent_task_id := parent; sv_payload := event |}.

(** An observation: its class, its fields and the [datetime] among them, which
    stands in the payload as its ISO text. *)
Record observed := Observed { ov_class : string; ov_fields : pydict; ov_timestamp : Z }.

(** [str(dt)]: a blank for the T. *)
Definition str_datetime (t : Z) : string :=
  of_chars (map (fun c => if Ascii.eqb c "T" then " "%char else c) (chars (isoformat t))).

(** [normalize_observation_feed_event], relayna/observability/feed.py:155-180. *)
Definition normalize_observation_feed_event `{Tracing} (event : observed) : option service_event :=
  let payload := dupdate (dset "timestamp" (PStr (isoformat (ov_timestamp event))) (ov_fields event))
                   active_trace_fields in
  task_id ← normalize_string (dgetv "task_id" payload);
  let event_id := normalize_string (dgetv "event_id" payload) in
  let seed := [("source_kind", PStr "observation"); ("event_type", PStr (ov_class event));
               ("payload", PDict payload)] in
  Some {| sv_cursor := match event_id with Some id => id | None => canonical_hash seed end;
          sv_task_id := task_id; sv_event_type := ov_class event; sv_source_kind := SOURCE_OBSERVATION;
          sv_component := normalize_string (dgetv "component" payload);
          sv_timestamp := Some (str_datetime (ov_timestamp event)); sv_event_id := event_id;
          sv_correlation_id := normalize_string (dgetv "correlation_id" payload);
          sv_parent_task_id := normalize_string (dgetv "parent_task_id" payload); sv_payload := payload |}.

(** ** The store *)

Section feed.
Context {R : Type} `{Redis R} `{JsonModel service_event}.
Context (prefix : string) (ttl_seconds : option Z) (feed_maxlen : Z).

(** [feed_key], relayna/observability/feed.py:201-202. *)
Definition feed_key : string := redis_key prefix "service-event-feed" ["feed"; "index"].
(** [feed_payloads_key], relayna/observability/feed.py:204-205. *)
Definition feed_payloads_key : string := redis_key prefix "service-event-feed" ["feed"; "payloads"].
(** [feed_sequence_key], relayna/observability/feed.py:207-208. *)
Definition feed_sequence_key : string := redis_key prefix "service-event-feed" ["feed"; "sequence"].
(** [event_key], relayna/observability/feed.py:210-211. *)
Definition feed_event_key (cursor : string) : string := redis_key prefix "service-event-feed" ["event"; cursor].

(** [self.ttl_seconds or 0], tested against 0. *)
Definition feed_ttl : option Z :=
  match ttl_seconds with Some s => if s =? 0 then None else Some s | None => None end.

(** [excess], relayna/observability/feed.py:32-39. *)
Definition evict (now : Z) (r : R) : R :=
  let excess := rzcard r now feed_key - feed_maxlen in
  if 0 <? excess then
    let evicted := rzrange r now feed_key 0 (excess - 1) in
    let r := foldl (fun r cursor => rhdel r now feed_payloads_key cursor) r evicted in
    rzremrangebyrank r now feed_key 0 (excess - 1)
  else r.

(** [_STORE_SERVICE_EVENT_SCRIPT], relayna/observability/feed.py:16-47. *)
Definition store_script (now : Z) (cursor payload : string) (r : R) : R * bool :=
  let (r, set_result) := rset_nx r now (feed_event_key cursor) "1" feed_ttl in
  if set_result then
    let (r, sequence) := rincr r now feed_sequence_key in
    let r := rzadd r now feed_key cursor sequence in
    let r := rhset r now feed_payloads_key cursor payload in
    let r := evict now r in
    let r := match feed_ttl with
             | Some s => rexpire (rexpire (rexpire r now feed_sequence_key s) now feed_key s) now feed_payloads_key s
             | None => r
             end in
    (r, true)
  else (r, false).

(** [for _, cursor in ipairs(cursors)], relayna/observability/feed.py:63-71. *)
Fixpoint read_payloads (now : Z) (r : R) (l : list string) : list (string * string) + string :=
  match l with
  | [] => inl []
  | c :: l =>
      match rhget r now feed_payloads_key c with
      | None => inr c
      | Some p => match read_payloads now r l with inl ps => inl ((c, p) :: ps) | inr c => inr c end
      end
  end.

(** [_READ_SERVICE_EVENT_PAGE_SCRIPT], relayna/observability/feed.py:49-73: the cursors and
    payloads, or the cursor whose payload is missing.  A score is an integer, so
    that the open bound below it is the closed one below its predecessor. *)
Definition read_script (now : Z) (after : string) (page_size : Z) (r : R) : list (string * string) + string :=
  let cursors :=
    if String.eqb after "" then rzrevrange r now feed_key 0 page_size
    else match rzscore r now feed_key after with
         | None => rzrevrange r now feed_key 0 page_size
         | Some score => rzrevrangebyscore r now feed_key (Some (score - 1)) None 0 (Z.to_nat (page_size + 1))
         end in
  read_payloads now r cursors.

(** [_parse_page], relayna/observability/feed.py:243-264. *)
Definition parse_page (raw : list (string * string) + string) : result (list service_event) :=
  match raw with
  | inr cursor => Raise (runtime_error ("Service event feed payload is missing for cursor '" +:+ cursor +:+ "'."))
  | inl pairs =>
      mapM_result (fun cp : string * string =>
        item ← validate_json cp.2;
        if String.eqb (sv_cursor item) cp.1 then Ok item
        else Raise (runtime_error ("Service event feed payload cursor mismatch for '" +:+ cp.1 +:+ "'."))) pairs
  end.

(** [get_feed], relayna/observability/feed.py:225-241. *)
Definition get_feed (now : Z) (after : option string) (limit : Z) (r : R) : result feed_response :=
  let page_size := Z.max 1 limit in
  candidates ← parse_page (read_script now (from_opt "" after) page_size r);
  let page := take (Z.to_nat page_size) candidates in
  Ok (FeedResponse (Z.of_nat (length page)) page
        (if page_size <? Z.of_nat (length candidates) then sv_cursor <$> last page else None)).

(** [_store], relayna/observability/feed.py:266-284. *)
Definition store_event (now : Z) (event : service_event) : P R bool :=
  await (store_script now (sv_cursor event) (dump_json event)).

(** [add_status_event], relayna/observability/feed.py:213-217. *)
Definition add_status_event (now : Z) (event : pydict) : P R bool :=
  match normalize_status_feed_event event with
  | None => mret false
  | Some e => store_event now e
  end.

(** [add_observation_event], relayna/observability/feed.py:219-223. *)
Definition add_observation_event `{Tracing} (now : Z) (event : observed) : P R bool :=
  match normalize_observation_feed_event event with
  | None => mret false
  | Some e => store_event now e
  end.
End feed.

(** ** What the store keeps *)

#[export] Instance score_le_anti : AntiSymm (=) score_le.
Proof.
  intros [a x] [b y] [H1|[H1 H1']] [H2|[H2 H2']]; cbn in *; try lia. subst. f_equal.
  by apply String.leb_antisym.
Qed.
#[export] Instance score_le_trans : Transitive score_le.
Proof.
  intros [a x] [b y] [c z] [H1|[H1 H1']] [H2|[H2 H2']]; unfold score_le; cbn in *; try (left; lia).
  right. split; [lia|]. by eapply leb_trans_str.
Qed.
#[export] Instance score_le_total : Total score_le.
Proof.
  intros [a x] [b y]. unfold score_le. cbn. destruct (Z.lt_trichotomy x y) as [|[->|]]; [by left; left| |by right; left].
  destruct (String.leb_total a b); [left; right|right; right]; done.
Qed.

Notation descending := (StronglySorted (fun a b => b.2 < a.2)).

(** The members of a sorted set listed by falling scores. *)
Lemma ranked_descending (l : list (string * Z)) : NoDup l.*1 -> descending l ->
  ranked (list_to_map l) = rev l.
Proof.
  intros Hnd Hs. unfold ranked. apply (StronglySorted_unique score_le).
  - apply StronglySorted_merge_sort; apply _.
  - clear Hnd. induction Hs as [|p l _ IH Hp]; cbn; [constructor|]. apply StronglySorted_app_2; [|done|by repeat constructor].
    intros a b Ha ->%list_elem_of_singleton. left. rewrite Forall_forall in Hp. apply Hp.
    by rewrite list_elem_of_In, in_rev, <- list_elem_of_In.
  - rewrite merge_sort_Permutation, map_to_list_to_map by done. by rewrite <- Permutation_rev.
Qed.

Section spec.
Context {R : Type} `{RedisLaws R} `{JsonModelLaws service_event}.
Context (prefix : string) (ttl_seconds : option Z) (feed_maxlen : Z).

Notation feed_key := (feed_key prefix).
Notation feed_payloads_key := (feed_payloads_key prefix).
Notation feed_sequence_key := (feed_sequence_key prefix).
Notation feed_event_key := (feed_event_key prefix).
Notation entry := (service_event * Z)%type.

Definition cursors (l : list entry) : list string := map (fun p => sv_cursor p.1) l.
Definition scores_of (l : list entry) : list (string * Z) := map (fun p => (sv_cursor p.1, p.2)) l.
Definition payloads_of (l : list entry) : list (string * string) := map (fun p => (sv_cursor p.1, dump_json p.1)) l.

(** The last sequence number given out. *)
Definition counter (d : db) (now : Z) : Z := from_opt 0 (s ← db_str d now feed_sequence_key; parse_int s).

(** At time [now] the feed holds the entries [l], newest first. *)
Record holds_feed (d : db) (now : Z) (l : list entry) : Prop := {
  feed_nodup : NoDup (cursors l);
  feed_descending : descending l;
  feed_index : db_scores d now feed_key = list_to_map (scores_of l);
  feed_payloads : db_hash d now feed_payloads_key = list_to_map (payloads_of l);
  feed_counter : 0 <= counter d now /\ Forall (fun p => p.2 <= counter d now) l }.

Lemma scores_of_fst l : (scores_of l).*1 = cursors l.
Proof. unfold scores_of, cursors. rewrite <- list_fmap_compose. done. Qed.
Lemma payloads_of_fst l : (payloads_of l).*1 = cursors l.
Proof. unfold payloads_of, cursors. rewrite <- list_fmap_compose. done. Qed.

Lemma descending_scores l : descending l -> descending (scores_of l).
Proof.
  induction 1 as [|p l _ IH Hp]; cbn; [constructor|]. constructor; [done|].
  apply List.Forall_map. by eapply Forall_impl.
Qed.

Lemma feed_ranked d now l : holds_feed d now l -> ranked (db_scores d now feed_key) = rev (scores_of l).
Proof.
  intros [Hnd Hde Hi _ _]. rewrite Hi. apply ranked_descending; [by rewrite scores_of_fst|by apply descending_scores].
Qed.

(** *** Reading *)

(** The entries after a cursor, or all of them when the feed does not know it. *)
Fixpoint after_cursor (c : string) (l : list entry) : list entry :=
  match l with
  | [] => []
  | p :: l => if String.eqb (sv_cursor p.1) c then l else after_cursor c l
  end.
Definition page_from (after : string) (l : list entry) : list entry :=
  if String.eqb after "" then l else if str_in after (cursors l) then after_cursor after l else l.

Lemma older_scores l c s : descending l -> (c, s) ∈ scores_of l -> NoDup (cursors l) ->
  map fst (List.filter (fun p : string * Z => (p.2 <=? s - 1) && true) (scores_of l)) = cursors (after_cursor c l).
Proof.
  intros Hd Hin Hnd. induction Hd as [|[e x] l Hd IH Hp]; [by apply elem_of_nil in Hin|]. cbn in *.
  apply NoDup_cons in Hnd as [Hn Hnd]. destruct (String.eqb (sv_cursor e) c) eqn:E; bool_to_prop.
  - apply elem_of_cons in Hin as [[= _ ->]|Hin].
    + destruct (x <=? x - 1) eqn:Ex; bool_to_prop; [lia|]. cbn. clear -Hp. unfold cursors, scores_of.
      induction Hp as [|q l Hq _ IH]; cbn; [done|]. cbn in Hq.
      destruct (q.2 <=? x - 1) eqn:Ex; bool_to_prop; [|lia]. cbn. by f_equal.
    + destruct Hn. rewrite E. unfold cursors. unfold scores_of in Hin.
      apply list_elem_of_fmap in Hin as (q & [= -> _] & Hq). by apply (list_elem_of_fmap_2 (fun p => sv_cursor p.1)).
  - apply elem_of_cons in Hin as [[= Hc _]|Hin]; [congruence|].
    assert (s < x) as Hsx.
    { unfold scores_of in Hin. apply list_elem_of_fmap in Hin as (q & [= _ ->] & Hq).
      rewrite Forall_forall in Hp. by apply Hp. }
    destruct (x <=? s - 1) eqn:Ex; bool_to_prop; [lia|]. cbn. by apply IH.
Qed.

Lemma scores_lookup l c s : NoDup (cursors l) ->
  (list_to_map (scores_of l) : gmap string Z) !! c = Some s <-> (c, s) ∈ scores_of l.
Proof. intros Hnd. rewrite elem_of_list_to_map; [done|]. by rewrite scores_of_fst. Qed.

Lemma scores_lookup_none l c :
  (list_to_map (scores_of l) : gmap string Z) !! c = None <-> str_in c (cursors l) = false.
Proof. rewrite <- not_elem_of_list_to_map, scores_of_fst. by rewrite str_in_not. Qed.

Lemma after_cursor_sub c l x : x ∈ after_cursor c l -> x ∈ l.
Proof.
  induction l as [|p l IH]; cbn; [done|]. destruct (String.eqb _ _); [by right|]. intros H'. right. by apply IH.
Qed.

Lemma page_from_sub after l x : x ∈ page_from after l -> x ∈ l.
Proof. unfold page_from. repeat case_match; [done|apply after_cursor_sub|done]. Qed.

Lemma read_payloads_ok r now l k : holds_feed (model r) now l -> (forall x, x ∈ k -> x ∈ l) ->
  read_payloads prefix now r (cursors k) = inl (payloads_of k).
Proof.
  intros Hf. induction k as [|x k IH]; intros Hsub; [done|]. cbn. rewrite law_hget. unfold db_hget.
  rewrite (feed_payloads _ _ _ Hf).
  assert ((list_to_map (payloads_of l) : gmap string string) !! sv_cursor x.1 = Some (dump_json x.1)) as ->.
  { apply elem_of_list_to_map; [rewrite payloads_of_fst; apply Hf|].
    apply (list_elem_of_fmap_2 (fun p => (sv_cursor p.1, dump_json p.1))), Hsub. left. }
  unfold cursors in IH. rewrite IH; [done|]. intros y Hy. apply Hsub. by right.
Qed.

(** The script returns the entries of the page and the one after it. *)
Lemma read_script_page r now l after n : holds_feed (model r) now l -> 0 < n ->
  read_script prefix now after n r = inl (take (Z.to_nat (n + 1)) (payloads_of (page_from after l))).
Proof.
  intros Hf Hn. unfold read_script.
  assert (forall k, (forall x, x ∈ k -> x ∈ l) -> take (Z.to_nat (n + 1)) (cursors k) = cursors (take (Z.to_nat (n + 1)) k))
    as Htake by (intros; unfold cursors; by rewrite <- fmap_take).
  assert (lslice (rev (map fst (ranked (db_scores (model r) now feed_key)))) 0 n = take (Z.to_nat (n + 1)) (cursors l)) as Hall.
  { rewrite (feed_ranked _ _ _ Hf), map_rev, rev_involutive. unfold lslice. change (Z.to_nat 0) with 0%nat.
    rewrite drop_0. destruct (n <? 0) eqn:E; bool_to_prop; [lia|]. rewrite Z.sub_0_r. f_equal. apply scores_of_fst. }
  set (page := page_from after l).
  assert ((if String.eqb after "" then rzrevrange r now feed_key 0 n
    else match rzscore r now feed_key after with
         | None => rzrevrange r now feed_key 0 n
         | Some score => rzrevrangebyscore r now feed_key (Some (score - 1)) None 0 (Z.to_nat (n + 1))
         end) = cursors (take (Z.to_nat (n + 1)) page)) as ->.
  { rewrite <- Htake by (intros x; apply page_from_sub). unfold page, page_from.
    rewrite !law_zrevrange, law_zscore. unfold db_zrevrange, db_zscore. rewrite Hall.
    destruct (String.eqb after ""); [done|]. rewrite (feed_index _ _ _ Hf).
    destruct (list_to_map (scores_of l) !! after) as [s|] eqn:E.
    - rewrite law_zrevrangebyscore. unfold db_zrevrangebyscore. rewrite drop_0.
      rewrite (feed_ranked _ _ _ Hf), rev_involutive. cbn [opt_geb opt_leb].
      apply scores_lookup in E; [|apply Hf]. rewrite (older_scores _ _ _ (feed_descending _ _ _ Hf) E (feed_nodup _ _ _ Hf)).
      destruct (str_in after (cursors l)) eqn:Ei; [done|]. apply str_in_not in Ei. destruct Ei.
      rewrite <- scores_of_fst. by apply (list_elem_of_fmap_2 fst _ (after, s)).
    - apply scores_lookup_none in E. by rewrite E. }
  rewrite (read_payloads_ok _ _ _ _ Hf); [unfold payloads_of; by rewrite fmap_take|].
  intros x (i & Hi & _)%elem_of_take. by eapply page_from_sub, list_elem_of_lookup_2.
Qed.

Lemma get_feed_page r now l after limit : holds_feed (model r) now l ->
  let n := Z.to_nat (Z.max 1 limit) in
  let found := page_from (from_opt "" after) l in
  get_feed prefix now after limit r = Ok {|
    fr_count := Z.of_nat (length (take n found)); fr_items := map fst (take n found);
    fr_next_cursor := if (n <? length found)%nat then last (cursors (take n found)) else None |}.
Proof.
  intros Hf n found. unfold get_feed. rewrite (read_script_page _ _ _ _ _ Hf) by lia. cbn [parse_page].
  fold found. assert (mapM_result (fun cp : string * string =>
      item ← validate_json cp.2;
      if String.eqb (sv_cursor item) cp.1 then Ok item
      else Raise (runtime_error ("Service event feed payload cursor mismatch for '" +:+ cp.1 +:+ "'.")))
    (take (Z.to_nat (Z.max 1 limit + 1)) (payloads_of found)) = Ok (take (S n) (map fst found))) as ->.
  { replace (Z.to_nat (Z.max 1 limit + 1)) with (S n) by lia. unfold payloads_of.
    rewrite <- !fmap_take. apply mapM_result_map. apply List.Forall_forall. intros p _. cbn.
    rewrite validate_dump. cbn. by rewrite String.eqb_refl. }
  cbn [mbind result_bind]. do 2 f_equal.
  - rewrite take_take, Nat.min_l by lia. unfold n. by rewrite <- fmap_take, length_fmap.
  - rewrite take_take, Nat.min_l by lia. unfold n. by rewrite <- fmap_take.
  - rewrite length_take, length_map. destruct (n <? length found)%nat eqn:E.
    + apply Nat.ltb_lt in E. destruct (_ <? _) eqn:E'; bool_to_prop; [|lia].
      rewrite take_take, Nat.min_l by lia. fold n. unfold cursors. rewrite <- !fmap_take.
      rewrite !fmap_last. by destruct (last (take n found)).
    + apply Nat.ltb_ge in E. destruct (_ <? _) eqn:E'; bool_to_prop; [lia|done].
Qed.

(** *** Following the cursors *)

(** A reader that follows [next_cursor] until there is none. *)
Fixpoint read_feed (now : Z) (after : option string) (limit : Z) (fuel : nat) (r : R) : result (list service_event) :=
  page ← get_feed prefix now after limit r;
  match fr_next_cursor page, fuel with
  | Some c, S fuel => rest ← read_feed now (Some c) limit fuel r; Ok (fr_items page ++ rest)
  | _, _ => Ok (fr_items page)
  end.

Lemma after_cursor_app c l k p : sv_cursor p.1 = c -> c ∉ cursors l ->
  after_cursor c (l ++ p :: k) = k.
Proof.
  intros Hp. induction l as [|q l IH]; cbn.
  - intros _. by rewrite Hp, String.eqb_refl.
  - intros [Hne Hl]%not_elem_of_cons. destruct (String.eqb (sv_cursor q.1) c) eqn:E; bool_to_prop; [congruence|].
    by apply IH.
Qed.

(** The page after the last entry of a page starts where that page ended. *)
Lemma page_from_next l before found n c : l = (before ++ found)%list -> NoDup (cursors l) ->
  "" ∉ cursors l -> last (cursors (take n found)) = Some c -> page_from c l = drop n found.
Proof.
  intros Hl Hnd Hne Hc. unfold cursors in Hc. rewrite fmap_last in Hc.
  destruct (last (take n found)) as [p|] eqn:Hp; [|done]. injection Hc as Hc.
  apply last_Some in Hp as [k Hk].
  assert (l = (before ++ k) ++ p :: drop n found) as Hsplit.
  { rewrite Hl, <- (take_drop n found) at 1. rewrite Hk, <- !app_assoc. done. }
  assert (c ∈ cursors l) as Hin.
  { rewrite <- Hc, Hsplit. unfold cursors. apply (list_elem_of_fmap_2 (fun p => sv_cursor p.1)).
    rewrite elem_of_app. right. left. }
  unfold page_from. destruct (String.eqb c "") eqn:E; bool_to_prop; [congruence|].
  apply str_in_elem in Hin. rewrite Hin, Hsplit. apply after_cursor_app; [done|].
  rewrite Hsplit in Hnd. unfold cursors in *. rewrite fmap_app, NoDup_app in Hnd. destruct Hnd as (_ & Hdis & _).
  intros Hx. apply (Hdis c Hx). cbn. rewrite Hc. left.
Qed.

Lemma read_feed_suffix now l limit r : holds_feed (model r) now l -> "" ∉ cursors l ->
  forall fuel before found after, l = (before ++ found)%list -> page_from (from_opt "" after) l = found ->
  (length found <= fuel)%nat -> read_feed now after limit fuel r = Ok (map fst found).
Proof.
  intros Hf Hne fuel. induction fuel as [|fuel IH]; intros before found after Hl Hp Hlen;
    cbn [read_feed]; rewrite (get_feed_page _ _ _ _ _ Hf), Hp; cbn [mbind result_bind fr_next_cursor fr_items];
    set (n := Z.to_nat (Z.max 1 limit)).
  - destruct found; [|cbn in Hlen; lia]. by rewrite take_nil.
  - destruct (n <? length found)%nat eqn:E.
    2: { apply Nat.ltb_ge in E. by rewrite take_ge. }
    apply Nat.ltb_lt in E. destruct (last (cursors (take n found))) as [c|] eqn:Ec.
    + rewrite (IH (before ++ take n found)%list (drop n found)).
      * cbn [mbind result_bind]. by rewrite <- map_app, take_drop.
      * by rewrite <- app_assoc, take_drop.
      * cbn. by eapply page_from_next; [|apply Hf| |].
      * rewrite length_drop. unfold n in *. lia.
    + exfalso. unfold cursors in Ec. rewrite fmap_last in Ec. destruct (last (take n found)) eqn:El; [done|].
      apply last_None in El. apply (f_equal length) in El. rewrite length_take in El. cbn in El. unfold n in *. lia.
Qed.

(** *** Storing *)

Definition without_cursor (c : string) (l : list entry) : list entry :=
  List.filter (fun p => negb (String.eqb (sv_cursor p.1) c)) l.

Lemma without_cursor_elem c l p : p ∈ without_cursor c l <-> p ∈ l /\ sv_cursor p.1 <> c.
Proof.
  unfold without_cursor. rewrite list_elem_of_In, filter_In, <- list_elem_of_In, negb_true_iff, String.eqb_neq. done.
Qed.

Lemma cursors_elem c l : c ∈ cursors l <-> exists p, p ∈ l /\ sv_cursor p.1 = c.
Proof.
  unfold cursors. rewrite list_elem_of_fmap. split; intros (p & H1' & H2'); by exists p.
Qed.

Lemma sublist_nodup c l : NoDup (cursors l) -> NoDup (cursors (without_cursor c l)).
Proof.
  unfold without_cursor. induction l as [|p l IH]; cbn; [done|]. intros [Hn Hd]%NoDup_cons.
  destruct (negb _); cbn; [|by apply IH]. apply NoDup_cons. split; [|by apply IH].
  intros (q & Hq & E)%cursors_elem. apply without_cursor_elem in Hq as [Hq _]. apply Hn, cursors_elem. by exists q.
Qed.

Lemma sublist_descending c l : descending l -> descending (without_cursor c l).
Proof.
  unfold without_cursor. induction 1 as [|p l _ IH Hp]; cbn; [constructor|].
  destruct (negb _); cbn; [|done]. constructor; [done|]. rewrite Forall_forall in Hp |- *.
  intros q [Hq _]%without_cursor_elem. by apply Hp.
Qed.

(** Writing a member over the entries of a map made of a list. *)
Lemma insert_over {V} (f : entry -> V) c v l :
  <[c := v]> (list_to_map (map (fun p => (sv_cursor p.1, f p)) l) : gmap string V) =
  <[c := v]> (list_to_map (map (fun p => (sv_cursor p.1, f p)) (without_cursor c l))).
Proof.
  apply map_eq. intros k. destruct (decide (c = k)) as [->|Hne]; [by rewrite !lookup_insert_eq|].
  rewrite !lookup_insert_ne by done. unfold without_cursor.
  induction l as [|p l IH]; [done|]. cbn. destruct (String.eqb (sv_cursor p.1) c) eqn:E; cbn.
  - bool_to_prop. rewrite lookup_insert_ne by congruence. exact IH.
  - destruct (decide (sv_cursor p.1 = k)) as [->|Hk]; [by rewrite !lookup_insert_eq|].
    by rewrite !lookup_insert_ne.
Qed.

Lemma str_put d now k v : db_str (put d now k (RStr v)) now k = Some v.
Proof. unfold db_str. by rewrite live_put. Qed.

Lemma hash_put_ne d now t k k' v : k <> k' -> db_hash (put d now k v) t k' = db_hash d t k'.
Proof. intros. unfold db_hash. by rewrite live_put_ne. Qed.
Lemma hash_insert_ne d t k k' x : k <> k' -> db_hash (<[k := x]> d) t k' = db_hash d t k'.
Proof. intros. unfold db_hash. by rewrite live_insert_ne. Qed.

Lemma keys_apart :
  feed_key <> feed_payloads_key /\ feed_key <> feed_sequence_key /\ feed_payloads_key <> feed_sequence_key /\
  forall c, feed_event_key c <> feed_key /\ feed_event_key c <> feed_payloads_key /\ feed_event_key c <> feed_sequence_key.
Proof.
  split; [|split; [|split]]; [intros E; by apply redis_key_suffix in E..|].
  intros c. split; [|split]; intros E; by apply redis_key_suffix in E.
Qed.

Definition added (d : db) (now : Z) (c p : string) (ex : option Z) : db :=
  let d := db_set d now (feed_event_key c) "1" ex in
  let (d, n) := db_incr d now feed_sequence_key in
  db_hset (db_zadd d now feed_key c n) now feed_payloads_key c p.

Lemma feed_added d now l e ex : holds_feed d now l ->
  holds_feed (added d now (sv_cursor e) (dump_json e) ex) now
    ((e, counter d now + 1) :: without_cursor (sv_cursor e) l).
Proof.
  intros [Hnd Hde Hi Hp [Hc0 Hc]]. set (c := sv_cursor e). destruct keys_apart as (K1 & K2 & K3 & Ke).
  destruct (Ke c) as (E1 & E2 & E3).
  assert (db_str (db_set d now (feed_event_key c) "1" ex) now feed_sequence_key = db_str d now feed_sequence_key)
    as Hstr by (by apply str_insert_ne).
  unfold added, db_incr, db_zadd, db_hset. rewrite Hstr. fold (counter d now).
  rewrite !scores_put_ne, hash_put_ne, hash_put_ne by done. unfold db_set.
  rewrite scores_insert_ne, hash_insert_ne, Hi, Hp by done. split.
  - cbn. apply NoDup_cons. split; [|by apply sublist_nodup]. intros (q & Hq & E)%cursors_elem.
    by apply without_cursor_elem in Hq as [_ ?].
  - constructor; [by apply sublist_descending|]. rewrite Forall_forall in Hc |- *.
    intros q [Hq _]%without_cursor_elem. cbn. specialize (Hc q Hq). lia.
  - rewrite scores_put_ne, scores_put by done. cbn. apply insert_over.
  - rewrite hash_put. cbn. apply insert_over.
  - assert (counter (put (put (put (<[feed_event_key c:=(RStr "1", expires now ex)]> d) now feed_sequence_key
        (RStr (pretty (counter d now + 1)))) now feed_key (RZset (<[c:=counter d now + 1]> (list_to_map (scores_of l)))))
        now feed_payloads_key (RHash (<[c:=dump_json e]> (list_to_map (payloads_of l))))) now = counter d now + 1) as ->.
    { unfold counter at 1. rewrite !str_put_ne by done. rewrite str_put. cbn. rewrite parse_int_pretty by lia. done. }
    split; [lia|]. constructor; [cbn; lia|]. rewrite Forall_forall in Hc |- *.
    intros q [Hq _]%without_cursor_elem. specialize (Hc q Hq). lia.
Qed.

Lemma hdel_all r now k cs :
  let r' := foldl (fun r c => rhdel r now k c) r cs in
  (forall c, db_hash (model r') now k !! c = if decide (c ∈ cs) then None else db_hash (model r) now k !! c) /\
  (forall k', k <> k' -> live (model r') now k' = live (model r) now k').
Proof.
  revert r. induction cs as [|x cs IH]; intros r; cbn.
  - split; [|done]. intros c. destruct (decide _) as [H'|]; [by apply elem_of_nil in H'|done].
  - destruct (IH (rhdel r now k x)) as [H1' H2']. split.
    + intros c. rewrite H1', law_hdel. unfold db_hdel. rewrite hash_put.
      destruct (decide (c ∈ cs)), (decide (c ∈ x :: cs)) as [Hi|Hi]; try done.
      * by destruct Hi; right.
      * apply elem_of_cons in Hi as [->|]; [by rewrite lookup_delete_eq|done].
      * apply not_elem_of_cons in Hi as [Hne _]. by rewrite lookup_delete_ne.
    + intros k' Hk. rewrite H2' by done. rewrite law_hdel. unfold db_hdel. by rewrite live_put_ne.
Qed.

Lemma lookup_take {V} (f : entry -> V) m l c : NoDup (cursors l) ->
  (list_to_map (map (fun p => (sv_cursor p.1, f p)) (take m l)) : gmap string V) !! c =
  if decide (c ∈ rev (cursors (drop m l))) then None
  else (list_to_map (map (fun p => (sv_cursor p.1, f p)) l) : gmap string V) !! c.
Proof.
  intros Hnd. assert (c ∈ rev (cursors (drop m l)) <-> c ∈ cursors (drop m l)) as Hrev
    by (by rewrite list_elem_of_In, <- in_rev, <- list_elem_of_In).
  assert (forall k, (map (fun p => (sv_cursor p.1, f p)) k).*1 = cursors k) as Hfst.
  { intros k. unfold cursors. rewrite <- list_fmap_compose. done. }
  assert (cursors l = cursors (take m l) ++ cursors (drop m l))%list as Hsplit.
  { unfold cursors. by rewrite <- fmap_app, take_drop. }
  rewrite Hsplit, NoDup_app in Hnd. destruct Hnd as (_ & Hdis & _).
  destruct (decide _) as [Hin%Hrev|Hout].
  - apply not_elem_of_list_to_map. rewrite Hfst. intros Hx. by apply (Hdis c).
  - rewrite <- (take_drop m l) at 2. rewrite map_app, list_to_map_app, lookup_union.
    assert ((list_to_map (map (fun p => (sv_cursor p.1, f p)) (drop m l)) : gmap string V) !! c = None) as ->.
    { apply not_elem_of_list_to_map. rewrite Hfst. by rewrite Hrev in Hout. }
    by destruct (_ !! c).
Qed.

Lemma counter_live d d' now : live d' now feed_sequence_key = live d now feed_sequence_key ->
  counter d' now = counter d now.
Proof. intros E. unfold counter, db_str. by rewrite E. Qed.

Lemma feed_evict r now l : holds_feed (model r) now l ->
  holds_feed (model (evict prefix feed_maxlen now r)) now (take (Z.to_nat feed_maxlen) l).
Proof.
  intros Hf. pose proof (feed_ranked _ _ _ Hf) as Hrank. destruct Hf as [Hnd Hde Hi Hp [Hc0 Hc]].
  destruct keys_apart as (K1 & K2 & K3 & _).
  assert (size (db_scores (model r) now feed_key) = length l) as Hsize.
  { rewrite Hi. unfold scores_of. rewrite map_size_list_to_map; [by rewrite length_map|].
    by rewrite scores_of_fst. }
  unfold evict. rewrite law_zcard. unfold db_zcard. rewrite Hsize. set (m := Z.to_nat feed_maxlen).
  destruct (0 <? _) eqn:E; bool_to_prop.
  2: { rewrite take_ge by lia. by split. }
  set (excess := Z.of_nat (length l) - feed_maxlen) in *.
  rewrite law_zrange. unfold db_zrange. rewrite Hrank.
  assert (lslice (map fst (rev (scores_of l))) 0 (excess - 1) = rev (cursors (drop m l))) as ->.
  { rewrite lslice_prefix, map_rev by lia. change (map fst (scores_of l)) with ((scores_of l).*1).
    rewrite scores_of_fst. unfold cursors. rewrite List.firstn_rev, length_map, <- fmap_drop.
    do 3 f_equal. unfold m, excess. lia. }
  destruct (hdel_all r now feed_payloads_key (rev (cursors (drop m l)))) as [Hh Hl].
  set (r' := foldl _ r _) in *. rewrite law_zremrangebyrank. unfold db_zremrangebyrank.
  assert (db_scores (model r') now feed_key = list_to_map (scores_of l)) as Hi'
    by (unfold db_scores; rewrite Hl by congruence; exact Hi).
  assert (db_zrange (model r') now feed_key 0 (excess - 1) = rev (cursors (drop m l))) as ->.
  { unfold db_zrange. rewrite Hi', <- Hi, Hrank.
    rewrite lslice_prefix, map_rev by lia. change (map fst (scores_of l)) with ((scores_of l).*1).
    rewrite scores_of_fst. unfold cursors. rewrite List.firstn_rev, length_map, <- fmap_drop.
    do 3 f_equal. unfold m, excess. lia. }
  split.
  - assert (cursors l = cursors (take m l) ++ cursors (drop m l))%list as Hsplit
      by (unfold cursors; by rewrite <- fmap_app, take_drop).
    rewrite Hsplit, NoDup_app in Hnd. by destruct Hnd.
  - rewrite <- (take_drop m l) in Hde. by apply StronglySorted_app_1_l in Hde.
  - rewrite scores_put, Hi'. apply map_eq. intros c. unfold scores_of at 2. rewrite lookup_take by done.
    rewrite map_lookup_filter. unfold scores_of. destruct (_ !! c) as [s|] eqn:Es; cbn.
    + case_guard; case_decide; done.
    + by destruct (decide _).
  - rewrite hash_put_ne by congruence. apply map_eq. intros c. rewrite Hh, Hp. unfold payloads_of.
    by rewrite lookup_take.
  - rewrite (counter_live (model r)) by (by rewrite live_put_ne, Hl by congruence).
    split; [done|]. by apply Forall_take.
Qed.

Lemma expire_value d now k s k' : 0 < s -> fst <$> live (db_expire d now k s) now k' = fst <$> live d now k'.
Proof.
  intros Hs. unfold db_expire. destruct (live d now k) as [[v dl]|] eqn:E; [|done].
  destruct (decide (k = k')) as [<-|Hne]; [|by rewrite live_insert_ne].
  rewrite live_insert_eq, E. cbn. assert (now <? now + s * second = true) as -> by (apply Z.ltb_lt; unfold second; lia).
  done.
Qed.

Lemma feed_same_values d d' now l : (forall k, fst <$> live d' now k = fst <$> live d now k) ->
  holds_feed d now l -> holds_feed d' now l.
Proof.
  intros Hv [Hnd Hde Hi Hp Hc].
  assert (forall k, db_scores d' now k = db_scores d now k /\ db_hash d' now k = db_hash d now k /\
    db_str d' now k = db_str d now k) as Hr.
  { intros k. specialize (Hv k). unfold db_scores, db_hash, db_str.
    destruct (live d' now k) as [[v dl]|], (live d now k) as [[v' dl']|]; cbn in Hv; try done.
    by injection Hv as ->. }
  assert (counter d' now = counter d now) as Hcnt by (unfold counter; by destruct (Hr feed_sequence_key) as (_ & _ & ->)).
  split; [done|done|by destruct (Hr feed_key) as (-> & _)|by destruct (Hr feed_payloads_key) as (_ & -> & _)|].
  by rewrite Hcnt.
Qed.

(** The script stores a new cursor on top, and drops what exceeds the bound. *)
Lemma store_script_spec r now e l : holds_feed (model r) now l ->
  match feed_ttl ttl_seconds with Some s => 0 < s | None => True end ->
  let '(r', stored) := store_script prefix ttl_seconds feed_maxlen now (sv_cursor e) (dump_json e) r in
  (stored = false /\ model r' = model r /\ is_Some (live (model r) now (feed_event_key (sv_cursor e)))) \/
  (stored = true /\ live (model r) now (feed_event_key (sv_cursor e)) = None /\
   exists s, holds_feed (model r') now (take (Z.to_nat feed_maxlen) ((e, s) :: without_cursor (sv_cursor e) l))).
Proof.
  intros Hf Ht. unfold store_script. set (c := sv_cursor e).
  destruct (rset_nx r now (feed_event_key c) "1" (feed_ttl ttl_seconds)) as [r0 b] eqn:E0.
  assert (b = (rset_nx r now (feed_event_key c) "1" (feed_ttl ttl_seconds)).2) as Hb by (by rewrite E0).
  assert (model r0 = model (rset_nx r now (feed_event_key c) "1" (feed_ttl ttl_seconds)).1) as Hr0 by (by rewrite E0).
  rewrite law_set_nx_ret in Hb. rewrite law_set_nx in Hr0. unfold db_set_nx in Hb, Hr0.
  destruct (live (model r) now (feed_event_key c)) as [x|] eqn:El; cbn in Hb, Hr0; subst b.
  { left. split; [done|]. split; [done|]. by eexists. }
  destruct (rincr r0 now feed_sequence_key) as [r1 n] eqn:E1. right.
  assert (n = (db_incr (model r0) now feed_sequence_key).2) as -> by (rewrite <- law_incr_ret; by rewrite E1).
  assert (model r1 = (db_incr (model r0) now feed_sequence_key).1) as Hr1 by (rewrite <- law_incr; by rewrite E1).
  set (r2 := rhset _ now feed_payloads_key c _).
  assert (model r2 = added (model r) now c (dump_json e) (feed_ttl ttl_seconds)) as Hr2.
  { unfold r2. rewrite law_hset, law_zadd, Hr1, Hr0. unfold added. by destruct (db_incr _ _ _). }
  pose proof (feed_added _ _ _ e (feed_ttl ttl_seconds) Hf) as Hadd. fold c in Hadd. rewrite <- Hr2 in Hadd.
  apply feed_evict in Hadd. split; [done|]. split; [done|]. exists (counter (model r) now + 1).
  destruct (feed_ttl ttl_seconds) as [s|]; [|done].
  eapply feed_same_values; [|exact Hadd]. intros k. rewrite !law_expire. by rewrite !expire_value.
Qed.

Lemma feed_starts_empty now : holds_feed ∅ now [].
Proof.
  split; [apply NoDup_nil_2|constructor|done|done|]. split; [|by apply Forall_nil].
  unfold counter, db_str, live. rewrite lookup_empty. done.
Qed.

(** C30. The feed is a bounded log of distinct events: when a new event is stored, a reader
    who follows the cursors from the top, in pages of any size, gets that event,
    then the events that were there before, newest first, each once and without
    the older copy of the event, and never more than the feed's bound. *)
Theorem event_feed_is_a_log r r' now e l limit fuel : holds_feed (model r) now l ->
  match feed_ttl ttl_seconds with Some s => 0 < s | None => True end ->
  "" ∉ sv_cursor e :: cursors l ->
  store_script prefix ttl_seconds feed_maxlen now (sv_cursor e) (dump_json e) r = (r', true) ->
  (length l < fuel)%nat ->
  read_feed now None limit fuel r' = Ok (take (Z.to_nat feed_maxlen)
    (e :: List.filter (fun x => negb (String.eqb (sv_cursor x) (sv_cursor e))) (map fst l))).
Proof.
  intros Hf Ht Hne Hs Hfuel. pose proof (store_script_spec r now e l Hf Ht) as Hspec. rewrite Hs in Hspec. cbv beta iota in Hspec.
  destruct Hspec as [(? & _)|(_ & _ & s & Hf')]; [done|].
  set (l' := (e, s) :: without_cursor (sv_cursor e) l) in *.
  assert (forall x, x ∈ l' -> sv_cursor x.1 ∈ sv_cursor e :: cursors l) as Hsub.
  { intros x [->|[Hx _]%without_cursor_elem]%elem_of_cons; [left|]. right. apply cursors_elem. by exists x. }
  assert (length (without_cursor (sv_cursor e) l) <= length l)%nat as Hlen
    by (unfold without_cursor; apply List.filter_length_le).
  assert ("" ∉ cursors (take (Z.to_nat feed_maxlen) l')) as Hne'.
  { intros (x & (i & Hx & _)%elem_of_take & E)%cursors_elem. apply Hne. rewrite <- E.
    apply Hsub. by eapply list_elem_of_lookup_2. }
  rewrite (read_feed_suffix now _ limit r' Hf' Hne' fuel [] _ None eq_refl eq_refl).
  - f_equal. change (page_from (from_opt "" None) ?k) with k. rewrite <- firstn_map. f_equal.
    unfold l', without_cursor. cbn [map fst]. f_equal.
    clear. induction l as [|p l IH]; [done|]. cbn. destruct (negb _); cbn; by rewrite IH.
  - change (page_from (from_opt "" None) ?k) with k. rewrite length_take. unfold l'. cbn [length]. lia.
Qed.
End spec.

(** ** The forwarder *)

(** [StudioObservationForwarder], relayna/observability/feed.py:287-304: the events waiting, the
    requests under way, each with its events, and what the studio accepted. *)
Record forwarder := Forwarder {
  fw_pending : list service_event; fw_flights : list (list service_event); fw_delivered : list service_event }.

(** [__call__] and [flush], relayna/observability/feed.py:306-334.  Awaiting the request lets
    other events in, and other flushes. *)
Inductive forwarder_step (batch_size : nat) : forwarder -> forwarder -> Prop :=
| forward_accept e p fl dl :
    forwarder_step batch_size (Forwarder p fl dl)
      (Forwarder (p ++ [e]) (if (batch_size <=? S (length p))%nat then fl ++ [p ++ [e]] else fl) dl)
| forward_flush p fl dl : p <> [] ->
    forwarder_step batch_size (Forwarder p fl dl) (Forwarder p (fl ++ [p]) dl)
| forward_sent p f1 batch f2 dl :
    forwarder_step batch_size (Forwarder p (f1 ++ batch :: f2) dl)
      (Forwarder (drop (length batch) p) (f1 ++ f2) (dl ++ batch))
| forward_refused p f1 batch f2 dl :
    forwarder_step batch_size (Forwarder p (f1 ++ batch :: f2) dl) (Forwarder p (f1 ++ f2) dl).

(** An accepted event is waiting, under way or delivered. *)
Definition accounted_event (s : forwarder) (e : service_event) : Prop :=
  e ∈ fw_pending s \/ (exists batch, batch ∈ fw_flights s /\ e ∈ batch) \/ e ∈ fw_delivered s.

(** Two overlapping flushes lose an event although every request succeeds: the second
    removes as many events as it sent, among them one that arrived after it. *)
Lemma forwarder_loses_an_event a b c d e :
  e ∉ [a; b; c; d] ->
  exists s1 s2, rtc (forwarder_step 3) (Forwarder [] [] []) s1 /\ accounted_event s1 e /\
    rtc (forwarder_step 3) s1 s2 /\ fw_flights s2 = [] /\ fw_delivered s2 = [a; b; c; a; b; c; d] /\
    ~ accounted_event s2 e.
Proof.
  intros He. exists (Forwarder [d; e] [[a; b; c; d]] [a; b; c]), (Forwarder [] [] [a; b; c; a; b; c; d]).
  split.
  { eapply rtc_l; [apply (forward_accept 3 a)|]. eapply rtc_l; [apply (forward_accept 3 b)|].
    eapply rtc_l; [apply (forward_accept 3 c)|]. cbn. eapply rtc_l; [apply (forward_accept 3 d)|]. cbn.
    eapply rtc_l; [apply (forward_sent 3 _ [] [a; b; c] [[a; b; c; d]])|]. cbn.
    eapply rtc_l; [apply (forward_accept 3 e)|]. cbn. apply rtc_refl. }
  split; [left; right; left|]. split.
  { eapply rtc_l; [apply (forward_sent 3 _ [] [a; b; c; d] [])|]. cbn. apply rtc_refl. }
  split; [done|]. split; [done|].
  unfold accounted_event. cbn. rewrite !not_elem_of_cons in He.
  destruct He as (H1 & H2 & H3 & H4 & _).
  intros [?%elem_of_nil|[(? & ?%elem_of_nil & _)|Hin]]; [done..|].
  rewrite !elem_of_cons in Hin. destruct_or! Hin; try done. by apply elem_of_nil in Hin.
Qed.

(** ** Witness *)

Definition event_tuple (e : service_event) :=
  ((sv_cursor e, sv_task_id e, sv_event_type e, bool_decide (sv_source_kind e = SOURCE_STATUS), sv_component e),
   (sv_timestamp e, sv_event_id e, sv_correlation_id e, sv_parent_task_id e, sv_payload e)).
Definition event_untuple (t : (string * string * string * bool * option string) *
    (option string * option string * option string * option string * pydict)) : service_event :=
  let '((c, t, y, s, k), (ts, i, co, pa, pl)) := t in
  ServiceEvent c t y (if s then SOURCE_STATUS else SOURCE_OBSERVATION) k ts i co pa pl.

#[export] Instance service_event_eq_dec : EqDecision service_event.
Proof. solve_decision. Defined.
#[export] Instance service_event_countable : Countable service_event.
Proof. apply (inj_countable' event_tuple event_untuple). by intros [? ? ? [] ? ? ? ? ? ?]. Defined.

Definition demo_service_event (c : string) : service_event :=
  ServiceEvent c "t" "status.ok" SOURCE_STATUS None None None None None [].

Lemma event_feed_is_a_log_witness :
  let m := bits_model service_event in
  let r := (store_script (H := db_redis) "p" (Some 60) 2 0 "a" (dump_json (demo_service_event "a")) ∅).1 in
  let r' := (store_script (H := db_redis) "p" (Some 60) 2 0 "b" (dump_json (demo_service_event "b")) r).1 in
  read_feed (H := db_redis) "p" 0 None 1 3 r' = Ok [demo_service_event "b"; demo_service_event "a"].
Proof.
  intros m r r'. pose (bits_model_laws service_event : @JsonModelLaws service_event m) as ml.
  pose proof (store_script_spec "p" (Some 60) 2 (∅ : db) 0 (demo_service_event "a") [] (feed_starts_empty _ 0) eq_refl)
    as Hs.
  rewrite (surjective_pairing (store_script _ _ _ _ _ _ _)) in Hs. cbv beta iota in Hs.
  destruct Hs as [(_ & _ & [x Hx])|(_ & _ & s & Hf)].
  { unfold live in Hx. change (model ∅) with (∅ : db) in Hx. by rewrite lookup_empty in Hx. }
  apply (event_feed_is_a_log "p" (Some 60) 2 r r' 0 (demo_service_event "b") _ 1 3 Hf).
  - reflexivity.
  - intros [H|[H|H%elem_of_nil]%elem_of_cons]%elem_of_cons; done.
  - rewrite (surjective_pairing (store_script _ _ _ _ _ _ _)). f_equal.
  - rewrite length_take. cbn [length without_cursor List.filter]. lia.
Defined.
