(* ===== verification/ObservationStore.v ===== *)
(** * Observation history (observability/store.py)

    [RedisObservationStore]: the observations of a task, newest first and bounded, each
    under a marker that makes its repetition a no-op, and in the service event feed. *)

From S2P Require Import Prelude PyStr PyVal PyTime Json Sha256 Codec Redis RedisProg RabbitClient EventFeed.

Section store.
Context {R : Type} `{Redis R} `{JsonModel service_event} `{Tracing}.
Context (prefix : string) (ttl_seconds : option Z) (history_maxlen : Z).
(** The feed's prefix, TTL and bound, if there is one. *)
Context (service_event_store : option (string * option Z * Z)).
Context (loads : string -> result pydict).
Notation P := (P R).

(** [RedisObservationStore.history_key], relayna/observability/store.py:41-42. *)
Definition history_key (task_id : string) : string := redis_key prefix ("observation:" +:+ task_id) ["history"; task_id].

(** [RedisObservationStore.event_key], relayna/observability/store.py:44-47: the times of [event] are texts here already. *)
Definition event_key (task_id : string) (event : pydict) : string :=
  let token := Sha256.hexdigest (utf8 (dumps (DumpsOpts false true ", " ": ") (PDict event))) in
  redis_key prefix ("observation:" +:+ task_id) ["event"; task_id; token].

(** [event_to_dict], relayna/observability/exporters.py:11-16. *)
Definition event_to_dict (event : observed) : pydict :=
  dupdate (dset "timestamp" (PStr (isoformat (ov_timestamp event))) (ov_fields event)) active_trace_fields.

(** [RedisObservationStore.normalize_event], relayna/observability/store.py:86-92. *)
Definition normalize_event (event : observed) : pydict := dset "event_type" (PStr (ov_class event)) (event_to_dict event).

(** [if self.ttl_seconds:] *)
Definition ttl : option Z := match ttl_seconds with Some s => if s =? 0 then None else Some s | None => None end.

Definition task_id_of (payload : pydict) : string := strip (py_str (py_or (dgetv "task_id" payload) (PStr ""))).

(** [RedisObservationStore.set_event], relayna/observability/store.py:63-70: the pipeline. *)
Definition push_event (now : Z) (task_id : string) (payload : pydict) (r : R) : R :=
  let key := history_key task_id in
  let r := rlpush r now key (dumps (DumpsOpts false false ", " ": ") (PDict payload)) in
  let r := rltrim r now key 0 (history_maxlen - 1) in
  match ttl with Some s => rexpire r now key s | None => r end.

(** [RedisObservationStore.set_event], relayna/observability/store.py:49-75. *)
Definition set_event (now : Z) (event : observed) : P bool :=
  let payload := normalize_event event in
  let task_id := task_id_of payload in
  if String.eqb task_id "" then mret false
  else
    inserted ← await (fun r => rset_nx r now (event_key task_id payload) "1" ttl);
    if negb inserted then mret false
    else
      _ ← await_ (push_event now task_id payload);
      _ ← match service_event_store with
          | Some (p, t, m) => _ ← add_observation_event p t m now event; mret tt
          | None => mret tt
          end;
      mret true.

(** [RedisObservationStore.get_history], relayna/observability/store.py:77-84. *)
Definition get_history (now : Z) (task_id : string) (limit : option Z) (r : R) : result (list pydict) :=
  mapM_result loads (rlrange r now (history_key task_id) 0 (Z.max 0 (from_opt history_maxlen limit - 1))).

(** ** What a call does *)

Context `{!RedisLaws R}.

Lemma list_expire d now k s : 0 < s -> db_list (db_expire d now k s) now k = db_list d now k.
Proof.
  intros Hs. unfold db_list, db_expire. destruct (live d now k) as [[v dl]|] eqn:E; [|by rewrite E].
  rewrite live_insert_eq. assert (alive now (expires now (Some s)) = true) as -> by (cbn; apply Z.ltb_lt; unfold second; lia). done.
Qed.

Lemma push_event_list now t p r : 0 < history_maxlen -> match ttl with Some s => 0 < s | None => True end ->
  db_list (model (push_event now t p r)) now (history_key t) =
  take (Z.to_nat history_maxlen) (dumps (DumpsOpts false false ", " ": ") (PDict p) :: db_list (model r) now (history_key t)).
Proof.
  intros Hm Ht. unfold push_event. cbv zeta. generalize (dumps (DumpsOpts false false ", " ": ") (PDict p)) as x. intros x.
  destruct ttl as [s|]; autorewrite with redis; unfold db_ltrim, db_lpush; rewrite list_put, lslice_prefix by lia.
  - by rewrite list_expire, list_put.
  - by rewrite list_put.
Qed.

Lemma push_event_ne now t p r k : k <> history_key t -> model (push_event now t p r) !! k = model r !! k.
Proof.
  intros Hk. unfold push_event, db_expire.
  destruct ttl; autorewrite with redis; unfold db_expire, db_ltrim, db_lpush;
    [destruct (live _ _ _) as [[]|]|]; rewrite ?lookup_insert_ne, !put_lookup_ne by done; done.
Qed.

Lemma observation_event_ne t t' e : history_key t <> event_key t' e.
Proof. intros E. apply redis_key_suffix in E. done. Qed.

Notation marker event := (event_key (task_id_of (normalize_event event)) (normalize_event event)).

(** While its marker is alive, an observation changes nothing more. *)
Lemma marked_is_noop now event r fs : is_Some (live (model r) now (marker event)) ->
  model (set_event now event r fs).1.1 = model r /\ (set_event now event r fs).2 <> Ok true.
Proof.
  intros [x Hx]. unfold set_event. case_match; [done|]. unfold mbind, P_bind, await.
  assert (model (rset_nx r now (marker event) "1" ttl).1 = model r) as E.
  { autorewrite with redis. unfold db_set_nx. by rewrite Hx. }
  assert ((rset_nx r now (marker event) "1" ttl).2 = false) as Eb.
  { rewrite law_set_nx_ret. unfold db_set_nx. by rewrite Hx. }
  destruct fs as [|[[e|e]|] fs]; cbn; rewrite ?Eb; cbn; done.
Qed.

(** A call that is cut short between the marker and the pipeline loses the observation: every repetition while
    the marker lives, with whatever faults, leaves the history without it and does not say that it was stored. *)
Lemma interrupted_observation_is_lost now later event r e fs : task_id_of (normalize_event event) <> "" ->
  live (model r) now (marker event) = None -> alive later (expires now ttl) = true ->
  let '(r1, _, x1) := set_event now event r [None; Some (Refused e)] in
  x1 = Raise e /\
  db_list (model (set_event later event r1 fs).1.1) later (history_key (task_id_of (normalize_event event))) =
    db_list (model r) later (history_key (task_id_of (normalize_event event))) /\
  (set_event later event r1 fs).2 <> Ok true.
Proof.
  intros Ht Hl Ha. set (r' := (rset_nx r now (marker event) "1" ttl).1).
  assert (model r' = db_set (model r) now (marker event) "1" ttl) as E.
  { unfold r'. autorewrite with redis. unfold db_set_nx. by rewrite Hl. }
  assert (set_event now event r [None; Some (Refused e)] = (r', [], Raise e)) as ->.
  { unfold set_event. rewrite (proj2 (String.eqb_neq _ _)) by done. unfold mbind, P_bind, await. cbn [fst snd].
    rewrite law_set_nx_ret. unfold db_set_nx. by rewrite Hl. }
  split; [done|]. destruct (marked_is_noop later event r' fs) as [-> Hn]; [|split; [|done]].
  - rewrite E. unfold live, db_set. rewrite lookup_insert_eq, Ha. by eexists.
  - rewrite E. unfold db_set. by rewrite list_insert_ne by (apply not_eq_sym, observation_event_ne).
Qed.

(** A call that says it stored an observation has put it at the head of the history, whatever the feed did. *)
Lemma observation_is_stored now event r : service_event_store = None -> 0 < history_maxlen ->
  match ttl with Some s => 0 < s | None => True end -> (runP (set_event now event) r).2 = Ok true ->
  db_list (model (runP (set_event now event) r).1) now (history_key (task_id_of (normalize_event event))) =
  take (Z.to_nat history_maxlen) (dumps (DumpsOpts false false ", " ": ") (PDict (normalize_event event))
    :: db_list (model r) now (history_key (task_id_of (normalize_event event)))).
Proof.
  intros Hf Hm Ht. unfold runP, set_event, mbind, P_bind, await_, await. destruct (String.eqb _ _); [by cbn; intros [=]|]. rewrite law_set_nx_ret.
  destruct (db_set_nx (model r) now (marker event) "1" ttl).2 eqn:E; cbn; [|done]. rewrite Hf. cbn. intros _.
  rewrite push_event_list by done. do 2 f_equal. autorewrite with redis. unfold db_set_nx in *.
  destruct (live (model r) now (marker event)); [done|]. cbn. unfold db_set.
  by rewrite list_insert_ne by (apply not_eq_sym, observation_event_ne).
Qed.
End store.
