(* ===== verification/StatusStream.v ===== *)
(** * Status streams (status/stream.py, status/history.py)

    [SSEStatusStream.stream]: what one subscriber is sent, as a function of the
    history it reads and of the messages its subscription delivers.  A run that
    the client cuts short sends a prefix.  [StreamHistoryReader.replay] reads
    the status stream of the broker. *)

From S2P Require Import Prelude PyStr PyVal Json Contracts Transport StatusHub ExecutionGraph.
From Stdlib Require Import Ascii.

(** [_event_id], relayna/status/stream.py:29-35. *)
Definition stream_event_id (data : pydict) : option string := event_id_of data.

(** What is sent, and observed, in order. *)
Inductive sse :=
| SReady
| SEvent (data : pydict)
| SKeepalive
| SObserve (name : string) (fields : pydict).

Definition lf : string := of_chars [chr 10].

(** [_sse_event], relayna/status/stream.py:38-45, and [_sse_comment]; [json.dumps] with
    [ensure_ascii] off. *)
Definition sse_event (data : pydict) : string :=
  join lf ((match stream_event_id data with Some id => ["id: " +:+ id] | None => [] end) ++
    ["event: status"; "data: " +:+ dumps (DumpsOpts false false ", " ": ") (PDict data)]) +:+ lf +:+ lf.

(** [_sse_comment], relayna/status/stream.py:48-49. *)
Definition sse_comment (comment : string) : string := ": " +:+ comment +:+ lf +:+ lf.

(** The bytes of what is sent. *)
Definition frame (s : sse) : option string :=
  match s with
  | SReady => Some ("event: ready" +:+ lf +:+ "data: {}" +:+ lf +:+ lf)
  | SEvent data => Some (utf8 (sse_event data))
  | SKeepalive => Some (utf8 (sse_comment "keepalive"))
  | SObserve _ _ => None
  end.

(** What [_next_pubsub_message] returns; [ends] is the iterator's end. *)
Inductive pubsub_message :=
| PMessage (data : string)   (* type message *)
| POther                     (* another type, or no data *)
| PTimeout.                  (* None: the keepalive interval passed *)

Section stream.
Context (loads : string -> result pyval) (output_adapter : pydict -> pydict).
Context (alias_config : option ContractAliasConfig) (terminal_statuses : list string).

(** [_to_public_event], relayna/status/stream.py:215-217. *)
Definition to_public_event (data : pydict) : pydict :=
  public_output_aliases (output_adapter data) alias_config "payload".

(** [dict(v)] *)
Definition dict_from (v : pyval) : result pydict :=
  match v with
  | PNone | PBool _ | PInt _ | PFloat _ => Raise (type_error ("'" +:+ class_name v +:+ "' object is not iterable"))
  | v => dict_of v
  end.

(** [history_items], relayna/status/stream.py:93-101: those after the last event the client has. *)
Fixpoint after_event (last_event_id : string) (items : list pydict) : option (list pydict) :=
  match items with
  | [] => None
  | item :: items =>
      if bool_decide (stream_event_id item = Some last_event_id) then Some items
      else after_event last_event_id items
  end.

Definition sent_event (task_id source : string) (data : pydict) : list sse :=
  [SEvent data; SObserve "SSELiveEventSent" [("task_id", PStr task_id);
     ("event_id", opt_str (stream_event_id data)); ("status", opt_str (status_value data)); ("source", PStr source)]].

Definition remember (data : pydict) (seen : list string) : list string :=
  match stream_event_id data with Some id => id :: seen | None => seen end.

(** How a loop ends: at a terminal status, at the end, or with an exception; with
    the ids seen. *)
Inductive ending := Terminal (status : option string) | Ended | Failed (e : exn).

Definition terminal (data : pydict) : result bool := is_terminal terminal_statuses (dgetv "status" data).

(** [for item in history_items], relayna/status/stream.py:113-142. *)
Fixpoint replay_history (task_id : string) (count : Z) (seen : list string) (items : list pydict) :
    list sse * list string * ending :=
  let replayed := SObserve "SSEHistoryReplayed" [("task_id", PStr task_id)] in
  match items with
  | [] => ([SObserve "SSEHistoryReplayed" [("task_id", PStr task_id); ("replayed_count", PInt count)]], seen, Ended)
  | item :: items =>
      let data := to_public_event item in
      let seen := remember data seen in
      match terminal data with
      | Raise e => (sent_event task_id "history" data, seen, Failed e)
      | Ok true =>
          (sent_event task_id "history" data ++
             [SObserve "SSEHistoryReplayed" [("task_id", PStr task_id); ("replayed_count", PInt (count + 1))]],
           seen, Terminal (status_value data))
      | Ok false =>
          let '(out, seen, e) := replay_history task_id (count + 1) seen items in
          (sent_event task_id "history" data ++ out, seen, e)
      end
  end.

(** [while True], relayna/status/stream.py:145-186. *)
Fixpoint follow (task_id : string) (seen : list string) (messages : list pubsub_message) : list sse * ending :=
  match messages with
  | [] => ([], Ended)
  | PTimeout :: messages =>
      let (out, e) := follow task_id seen messages in
      (SKeepalive :: SObserve "SSEKeepaliveSent" [("task_id", PStr task_id)] :: out, e)
  | POther :: messages => follow task_id seen messages
  | PMessage raw :: messages =>
      match loads raw with
      | Raise e =>
          if String.eqb (exn_type e) "JSONDecodeError" then
            let (out, e) := follow task_id seen messages in
            (SObserve "SSEMalformedPubsubPayload" [("task_id", PStr task_id)] :: out, e)
          else ([], Failed e)
      | Ok parsed =>
          match dict_from parsed with
          | Raise e => ([], Failed e)
          | Ok d =>
              let data := to_public_event d in
              if match stream_event_id data with Some id => str_in id seen | None => false end
              then follow task_id seen messages
              else
                match terminal data with
                | Raise e => (sent_event task_id "pubsub" data, Failed e)
                | Ok true => (sent_event task_id "pubsub" data, Terminal (status_value data))
                | Ok false =>
                    let (out, e) := follow task_id (remember data seen) messages in
                    (sent_event task_id "pubsub" data ++ out, e)
                end
          end
      end
  end.

(** [stream], relayna/status/stream.py:72-193.  [history] is what [get_history] returned, newest
    first; the subscription is made before it is read. *)
Definition stream (task_id : string) (last_event_id : option string) (history : list pydict)
    (messages : list pubsub_message) : list sse * ending :=
  let items := rev history in
  let (resumed, items) :=
    match last_event_id with
    | None => ([], items)
    | Some id =>
        ([SObserve "SSEResumeRequested" [("task_id", PStr task_id); ("last_event_id", PStr id);
            ("history_match_found", PBool (match after_event id items with Some _ => true | None => false end))]],
         from_opt items (after_event id items))
    end in
  let '(out, seen, e) := replay_history task_id 0 [] items in
  let (live, e) := match e with Ended => follow task_id seen messages | e => ([], e) end in
  let sent := (resumed ++ out ++ live)%list in
  let count := Z.of_nat (length (List.filter (fun s => match s with SEvent _ => true | _ => false end) sent)) in
  (SReady :: SObserve "SSEStreamStarted" [("task_id", PStr task_id);
      ("resume_requested", PBool (match last_event_id with Some _ => true | None => false end))] ::
   sent ++ [SObserve "SSEStreamEnded" [("task_id", PStr task_id);
      ("terminal_status", opt_str (match e with Terminal s => s | _ => None end)); ("sent_count", PInt count)]], e).

(** ** What a subscriber gets *)

(** The events sent, in order. *)
Definition events (l : list sse) : list pydict :=
  omap (fun s => match s with SEvent d => Some d | _ => None end) l.

Definition ids (l : list pydict) : list string := omap stream_event_id l.

Lemma events_app a b : events (a ++ b) = (events a ++ events b)%list.
Proof. apply omap_app. Qed.
Lemma ids_app a b : ids (a ++ b) = (ids a ++ ids b)%list.
Proof. apply omap_app. Qed.
Lemma ids_elem i l : i ∈ ids l <-> exists d, d ∈ l /\ stream_event_id d = Some i.
Proof. apply list_elem_of_omap. Qed.
Lemma remember_elem i d seen : i ∈ remember d seen <-> stream_event_id d = Some i \/ i ∈ seen.
Proof.
  unfold remember. destruct (stream_event_id d) as [j|]; [rewrite elem_of_cons|]; naive_solver.
Qed.
Lemma ids_cons d l : ids (d :: l) = (match stream_event_id d with Some i => [i] | None => [] end ++ ids l)%list.
Proof. unfold ids. cbn. by destruct (stream_event_id d). Qed.

Lemma events_sent d n f out : events (SEvent d :: SObserve n f :: out) = d :: events out.
Proof. done. Qed.
Lemma events_sent_only d n f : events [SEvent d; SObserve n f] = [d].
Proof. done. Qed.

Lemma ids_one d i : i ∈ ids [d] <-> stream_event_id d = Some i.
Proof. rewrite ids_elem. setoid_rewrite list_elem_of_singleton. naive_solver. Qed.

Lemma ids_cons_elem i d l : i ∈ ids (d :: l) <-> stream_event_id d = Some i \/ i ∈ ids l.
Proof.
  rewrite ids_cons, elem_of_app. destruct (stream_event_id d) as [j|]; [rewrite list_elem_of_singleton|].
  - split; (intros [H|H]; [left; congruence|by right]).
  - split; [intros [?%elem_of_nil|]; [done|by right]|]. intros [|]; [done|by right].
Qed.

(** How the events of a loop relate to its ending: the last one is the terminal one,
    and there is one only when the loop says so. *)
Definition ends_with (l : list pydict) (e : ending) : Prop :=
  (e = Ended /\ Forall (fun d => terminal d = Ok false) l) \/
  (exists s k d, e = Terminal s /\ l = (k ++ [d])%list /\ Forall (fun d => terminal d = Ok false) k /\
     terminal d = Ok true /\ s = status_value d).

Lemma ends_cons d l e : terminal d = Ok false -> ends_with l e -> ends_with (d :: l) e.
Proof.
  intros Hd [[-> Hl]|(s & k & x & -> & -> & Hk & Hx & Hs)].
  - left. split; [done|by constructor].
  - right. exists s, (d :: k), x. split; [done|]. split; [done|]. split; [by constructor|done].
Qed.

(** An event whose status is a string, or absent. *)
Definition sound_status (d : pydict) : Prop := is_ok (terminal (to_public_event d)) = true.

Lemma replay_history_spec t n seen items out seen' e : Forall sound_status items ->
  replay_history t n seen items = (out, seen', e) ->
  ends_with (events out) e /\
  (forall i, i ∈ seen' <-> i ∈ seen \/ i ∈ ids (events out)) /\
  (exists rest, map to_public_event items = (events out ++ rest)%list /\ (e = Ended -> rest = [])).
Proof.
  intros Hok. revert n seen out seen' e. induction Hok as [|item items Hi Hok IH]; intros n seen out seen' e; cbn [replay_history map].
  { intros [= <- <- <-]. split; [by left|]. split; [|by exists []]. intros i.
    split; [by left|]. intros [|H%elem_of_nil]; done. }
  unfold sound_status in Hi. set (d := to_public_event item) in *.
  destruct (terminal d) as [[]|x] eqn:Et; [| |done].
  - intros [= <- <- <-]. cbn. split; [right; by exists (status_value d), [], d|]. split; [|by exists (map to_public_event items)].
    intros i. rewrite remember_elem, <- ids_one. split; (intros [H|H]; [right|left]; exact H).
  - destruct (replay_history t (n + 1) (remember d seen) items) as [[out1 seen1] e1] eqn:Er.
    intros [= <- <- <-]. destruct (IH _ _ _ _ _ Er) as (He & Hseen & rest & Hm & Hr).
    rewrite events_sent. cbn [map].
    split; [by apply ends_cons|]. split; [|exists rest; rewrite Hm; done].
    intros i. rewrite Hseen, remember_elem, ids_cons_elem. tauto.
Qed.

(** The messages of a subscription: encoded events among other messages. *)
Definition delivers (encode : pydict -> string) (messages : list pubsub_message) (l : list pydict) : Prop :=
  l = omap (fun m => match m with PMessage raw => match loads raw with Ok (PDict d) => Some d | _ => None end | _ => None end) messages /\
  (forall raw, PMessage raw ∈ messages -> exists d, raw = encode d /\ loads raw = Ok (PDict d) /\ sound_status d).

Lemma follow_spec encode t seen messages l out e : delivers encode messages l ->
  follow t seen messages = (out, e) ->
  ends_with (events out) e /\ NoDup (ids (events out)) /\ (forall i, i ∈ ids (events out) -> i ∉ seen) /\
  (forall d i, e = Ended -> d ∈ l -> stream_event_id (to_public_event d) = Some i -> i ∈ seen \/ i ∈ ids (events out)).
Proof.
  intros [-> Hok]. revert seen out e. induction messages as [|m messages IH]; intros seen out e; cbn [follow omap list_omap].
  { intros [= <- <-]. split; [by left|]. split; [constructor|]. split; [by intros i ?%elem_of_nil|].
    by intros d i _ ?%elem_of_nil. }
  assert (forall raw, PMessage raw ∈ messages -> exists d, raw = encode d /\ loads raw = Ok (PDict d) /\ sound_status d)
    as Hok' by (intros raw Hr; apply Hok; by right).
  specialize (IH Hok'). destruct m as [raw| |]; cbn [follow].
  2: apply IH.
  2: { destruct (follow t seen messages) as [o e1] eqn:Ef. intros [= <- <-]. exact (IH _ _ _ Ef). }
  destruct (Hok raw) as (d & _ & Hl & Hs); [left|]. rewrite Hl. cbn [dict_from].
  assert (dict_of (PDict d) = Ok d) as -> by (by destruct d).
  unfold sound_status in Hs. set (p := to_public_event d) in *.
  destruct (match stream_event_id p with Some id => str_in id seen | None => false end) eqn:Edup.
  { intros Hf. destruct (IH _ _ _ Hf) as (H1 & H2 & H3 & H4). split; [done|]. split; [done|]. split; [done|].
    intros x i He [->|Hx]%elem_of_cons Hi; [|by eapply H4].
    fold p in Hi. rewrite Hi in Edup. left. by apply str_in_elem. }
  assert (forall i, stream_event_id p = Some i -> i ∉ seen) as Hnew.
  { intros i Hi. rewrite Hi in Edup. by apply str_in_not. }
  destruct (terminal p) as [[]|x] eqn:Et; [| |done].
  - intros [= <- <-]. change (events (sent_event t "pubsub" p)) with [p]. split; [right; by exists (status_value p), [], p|].
    rewrite ids_cons, app_nil_r.
    destruct (stream_event_id p) as [j|]; (split; [first [apply NoDup_singleton|constructor]|]); (split; [|done]).
    + intros i ->%list_elem_of_singleton. by apply Hnew.
    + by intros i ?%elem_of_nil.
  - destruct (follow t (remember p seen) messages) as [o e1] eqn:Ef. intros [= <- <-].
    destruct (IH _ _ _ Ef) as (H1 & H2 & H3 & H4).
    rewrite events_sent. split; [by apply ends_cons|].
    rewrite ids_cons. split; [|split].
    + destruct (stream_event_id p) as [j|] eqn:Ej; [|done]. cbn. apply NoDup_cons. split; [|done].
      intros Hin. apply (H3 j Hin). apply remember_elem. by left.
    + intros i. rewrite <- ids_cons, ids_cons_elem. intros [Hi|Hi]; [by apply Hnew|].
      intros Hs'. apply (H3 i Hi). apply remember_elem. by right.
    + intros x i He Hx Hi. rewrite <- ids_cons, ids_cons_elem. apply elem_of_cons in Hx as [->|Hx]; [right; by left|].
      destruct (H4 x i He Hx Hi) as [[Hj|Hj]%remember_elem|Hj]; [right; by left|by left|right; by right].
Qed.

Lemma after_event_split id items rest : after_event id items = Some rest ->
  exists skipped x, items = (skipped ++ x :: rest)%list /\ stream_event_id x = Some id.
Proof.
  induction items as [|x items IH]; [done|]. cbn. destruct (bool_decide _) eqn:E; bool_to_prop.
  - intros [= <-]. by exists [], x.
  - intros H. destruct (IH H) as (sk & y & -> & Hy). by exists (x :: sk), y.
Qed.

(** ** The subscription and the history overlap *)

(** What the store does to an event of the task: it enters the history, and later it is
    published on the channel. *)
Inductive action := Pushed (d : pydict) | Published (d : pydict).

#[export] Instance action_eq_dec : EqDecision action.
Proof. solve_decision. Defined.

Definition pushed_events (l : list action) : list pydict :=
  omap (fun a => match a with Pushed d => Some d | _ => None end) l.
Definition published_events (l : list action) : list pydict :=
  omap (fun a => match a with Published d => Some d | _ => None end) l.

Lemma pushed_elem d l : d ∈ pushed_events l <-> Pushed d ∈ l.
Proof.
  unfold pushed_events. rewrite list_elem_of_omap. split; [intros ([x|x] & Hx & [= <-]); done|]. intros H. by exists (Pushed d).
Qed.
Lemma published_elem d l : d ∈ published_events l <-> Published d ∈ l.
Proof.
  unfold published_events. rewrite list_elem_of_omap. split; [intros ([x|x] & Hx & [= <-]); done|]. intros H. by exists (Published d).
Qed.

(** The items of the history a resuming client says it has. *)
Definition skipped (last_event_id : option string) (items : list pydict) : list pydict :=
  match last_event_id with
  | Some id => match after_event id items with
               | Some rest => take (length items - length rest) items
               | None => []
               end
  | None => []
  end.

Lemma skipped_items last items :
  items = (skipped last items ++ match last with None => items | Some id => from_opt items (after_event id items) end)%list.
Proof.
  unfold skipped. destruct last as [id|]; [|done]. destruct (after_event id items) as [rest|] eqn:E; [|done]. cbn.
  destruct (after_event_split _ _ _ E) as (sk & x & -> & _).
  replace (length (sk ++ x :: rest) - length rest)%nat with (length (sk ++ [x])) by (rewrite !length_app; cbn; lia).
  replace (sk ++ x :: rest)%list with ((sk ++ [x]) ++ rest)%list by by rewrite <- app_assoc.
  by rewrite take_app_length.
Qed.

Lemma stream_events t last h m out e : stream t last h m = (out, e) ->
  exists o1 seen e1 o2, replay_history t 0 [] (match last with None => rev h | Some id => from_opt (rev h) (after_event id (rev h)) end)
      = (o1, seen, e1) /\
    match e1 with Ended => follow t seen m | e => ([], e) end = (o2, e) /\ events out = (events o1 ++ events o2)%list.
Proof.
  unfold stream. intros H.
  assert (forall x, events (SObserve "SSEResumeRequested" x :: []) = []) as Hno by done.
  destruct last as [id|]; destruct (replay_history _ _ _ _) as [[o1 seen] e1] eqn:Er;
    destruct (match e1 with Ended => follow t seen m | e => ([], e) end) as [o2 e2] eqn:Ef;
    injection H as <- <-; exists o1, seen, e1, o2; (split; [done|]); (split; [done|]).
  - cbn [events omap list_omap]. unfold events. rewrite !omap_app. cbn. by rewrite app_nil_r.
  - cbn [events omap list_omap]. unfold events. cbn. rewrite !omap_app. cbn. by rewrite app_nil_r.
Qed.

(** The two loops together. *)
Lemma follow_after encode t seen messages l o1 e1 o2 e : delivers encode messages l -> ends_with (events o1) e1 ->
  match e1 with Ended => follow t seen messages | e => ([], e) end = (o2, e) ->
  ends_with (events o1 ++ events o2) e /\ NoDup (ids (events o2)) /\ (forall i, i ∈ ids (events o2) -> i ∉ seen) /\
  (e1 = Ended -> forall d i, e = Ended -> d ∈ l ->
     stream_event_id (to_public_event d) = Some i -> i ∈ seen \/ i ∈ ids (events o2)) /\
  (e1 <> Ended -> e = e1).
Proof.
  intros Hdel [[-> Hk]|(s & k & d & -> & Hk & Hks & Hd & Hst)] Hf.
  - destruct (follow_spec _ _ _ _ _ _ _ Hdel Hf) as (Hend & H2 & H3 & H4).
    split; [|split; [done|split; [done|split; [intros _; exact H4|done]]]].
    clear -Hk Hend. induction Hk as [|x k Hx _ IH]; [done|]. by apply ends_cons.
  - injection Hf as <- <-. rewrite app_nil_r, Hk. split; [right; by exists s, k, d|].
    split; [constructor|]. split; [by intros i ?%elem_of_nil|]. by split.
Qed.

(** C27. A subscriber misses nothing and gets nothing twice: whatever the store pushes and
    publishes before the subscription, between it and the reading of the
    history, and after it, every event that is published or was in the history
    is sent (or the client said it had it), unless the stream ended at a
    terminal event, which is then the last one sent; and events with distinct
    ids are sent once each.  (The history is read within its bound.) *)
Theorem subscriber_misses_nothing t last before during after encode messages out e :
  let all := (before ++ during ++ after)%list in
  let history := pushed_events (before ++ during) in
  Forall sound_status (pushed_events all) ->
  (forall l1 d l2, all = (l1 ++ Published d :: l2)%list -> Pushed d ∈ l1) ->
  delivers encode messages (published_events (during ++ after)) ->
  stream t last (rev history) messages = (out, e) ->
  ends_with (events out) e /\
  (NoDup (ids (map to_public_event history)) -> NoDup (ids (events out))) /\
  (forall d i, Published d ∈ all \/ Pushed d ∈ before ++ during -> stream_event_id (to_public_event d) = Some i ->
     i ∈ ids (events out) \/ i ∈ ids (map to_public_event (skipped last history)) \/ exists s, e = Terminal s).
Proof.
  intros all history Hok Horder Hdel Hs.
  apply stream_events in Hs as (o1 & seen & e1 & o2 & Hr & Hf & ->). rewrite rev_involutive in Hr.
  set (items := match last with None => history | Some id => _ end) in Hr.
  assert (history = skipped last history ++ items)%list as Hsplit by apply skipped_items.
  assert (Forall sound_status items) as Hoki.
  { rewrite Forall_forall in Hok |- *. intros d Hd. apply Hok. unfold all. rewrite app_assoc.
    unfold pushed_events at 1. rewrite omap_app. apply elem_of_app. left. fold (pushed_events (before ++ during)).
    fold history. rewrite Hsplit. apply elem_of_app. by right. }
  destruct (replay_history_spec _ _ _ _ _ _ _ Hoki Hr) as (He1 & Hseen & rest & Hmap & Hrest).
  assert (forall i, i ∈ ids (map to_public_event items) -> e1 = Ended -> i ∈ ids (events o1)) as Hitems.
  { intros i Hi Hend. by rewrite Hmap, (Hrest Hend), app_nil_r in Hi. }
  destruct (follow_after _ _ _ _ _ _ _ _ _ Hdel He1 Hf) as (Hend & Hnd2 & Hnew & Hlive & Hstop).
  split; [done|]. split.
  { intros Hnd. rewrite ids_app. apply NoDup_app. split; [|split; [|done]].
    - rewrite Hsplit, map_app, ids_app, NoDup_app in Hnd. destruct Hnd as (_ & _ & Hnd).
      rewrite Hmap, ids_app, NoDup_app in Hnd. apply Hnd.
    - intros i Hi Hi2. apply (Hnew i Hi2). apply Hseen. by right. }
  intros d i Hd Hi. rewrite ids_app.
  destruct (decide (Pushed d ∈ before ++ during)) as [Hin|Hout].
  - assert (i ∈ ids (map to_public_event history)) as Hih.
    { apply ids_elem. exists (to_public_event d). split; [|done]. apply list_elem_of_fmap_2, pushed_elem, Hin. }
    rewrite Hsplit, map_app, ids_app, elem_of_app in Hih. destruct Hih as [Hih|Hih]; [by right; left|].
    destruct He1 as [[-> _]|(s & k & x & -> & _)].
    + left. apply elem_of_app. left. by apply Hitems.
    + right. right. exists s. by apply Hstop.
  - destruct Hd as [Hd|]; [|done]. destruct He1 as [[-> _]|(s & k & x & -> & _)].
    2: { right. right. exists s. by apply Hstop. }
    destruct Hend as [[-> _]|(s & k & x & -> & _)]; [|right; right; by exists s].
    assert (d ∈ published_events (during ++ after)) as Hpub.
    { apply published_elem. unfold all in Hd. rewrite app_assoc in Hd. apply elem_of_app in Hd as [Hd|Hd].
      - destruct Hout. apply list_elem_of_split in Hd as (l1 & l2 & El). rewrite El. apply elem_of_app. left.
        apply (Horder l1 d (l2 ++ after)%list). unfold all. by rewrite app_assoc, El, <- app_assoc.
      - apply elem_of_app. by right. }
    destruct (Hlive eq_refl d i eq_refl Hpub Hi) as [Hx|Hx].
    + apply Hseen in Hx as [?%elem_of_nil|Hx]; [done|]. left. apply elem_of_app. by left.
    + left. apply elem_of_app. by right.
Qed.
End stream.

(** ** Replaying the status stream *)

(** What the queue's iterator yields: a body, and whether [max_seconds] have passed by
    then; [ITimeout] is the [TimeoutError] of an idle iterator. *)
Inductive iterated := IBody (late : bool) (body : string) | ITimeout.

(** The arguments of [replay] that the loop reads. *)
Record replay_options := ReplayOptions {
  ro_task_id : option string;
  ro_terminal_statuses : list string;
  ro_stop_on_terminal : bool;
  ro_max_scan : option Z }.

Section history_reader.
Context `{TR : Transport} (output_adapter : pydict -> pydict) (alias_config : option ContractAliasConfig).
Context (o : replay_options).

(** [str(data.get(key, default))] of the code's reads. *)
Definition get_text (key : string) (data : pydict) : string :=
  match dget key data with Some v => py_str v | None => "" end.

(** [if task_id and current_task_id != task_id], relayna/status/history.py:82-83. *)
Definition of_another_task (normalized : pydict) : bool :=
  match ro_task_id o with
  | None | Some "" => false
  | Some task_id => negb (String.eqb (get_text "task_id" normalized) task_id)
  end.

(** [if ...: break], relayna/status/history.py:91-95: [scanned] events were collected. *)
Definition stop_replay (scanned : Z) (status : string) : bool :=
  match ro_max_scan o with Some m => m <=? scanned | None => false end ||
  match ro_task_id o with
  | None | Some "" => false
  | Some _ => ro_stop_on_terminal o && str_in status (ro_terminal_statuses o)
  end.

(** [event.items()] of a value that has none. *)
Definition no_items (v : pyval) : exn :=
  Exn XAttributeError "AttributeError" ("'" +:+ class_name v +:+ "' object has no attribute 'items'").

(** [async for message in iterator], relayna/status/history.py:69-99: the events and the number
    of messages that were acked. *)
Fixpoint replay_loop (events : list pydict) (acked : nat) (messages : list iterated) :
    result (list pydict) * nat :=
  match messages with
  | [] | ITimeout :: _ | IBody true _ :: _ => (Ok events, acked)
  | IBody false body :: messages =>
      match parse_transport_json body with
      | Raise e => if is_value_error e then replay_loop events (S acked) messages else (Raise e, acked)
      | Ok payload =>
          match payload with
          | PDict event =>
              let normalized := normalize_contract_aliases event alias_config in
              if of_another_task normalized then replay_loop events (S acked) messages
              else
                let adapted := output_adapter normalized in
                let status := lower (get_text "status" adapted) in
                let events := (events ++ [public_output_aliases adapted alias_config "payload"])%list in
                if stop_replay (Z.of_nat (length events)) status then (Ok events, S acked)
                else replay_loop events (S acked) messages
          | v => (Raise (no_items v), S acked)
          end
      end
  end.

(** [StreamHistoryReader.replay], relayna/status/history.py:34-106: [queue_args] is the queue's
    arguments and [messages] what its iterator yields. *)
Definition replay (require_stream : bool) (queue_args : pydict) (messages : list iterated) :
    result (list pydict) :=
  if require_stream && negb (bool_decide (dget "x-queue-type" queue_args = Some (PStr "stream")))
  then Raise (Exn XRuntimeError "RuntimeError" "History replay requires a stream queue")
  else (replay_loop [] 0 messages).1.

(** The event a message holds, when the loop collects it, and its status. *)
Definition collected (m : iterated) : option pydict :=
  match m with
  | IBody _ body =>
      match parse_transport_json body with
      | Ok payload =>
          match payload with
          | PDict event =>
              let normalized := normalize_contract_aliases event alias_config in
              if of_another_task normalized then None
              else Some (output_adapter normalized)
          | _ => None
          end
      | Raise _ => None
      end
  | ITimeout => None
  end.

Definition shown (adapted : pydict) : pydict := public_output_aliases adapted alias_config "payload".
Definition final_event (adapted : pydict) : bool :=
  match ro_task_id o with
  | None | Some "" => false
  | Some _ => ro_stop_on_terminal o && str_in (lower (get_text "status" adapted)) (ro_terminal_statuses o)
  end.

Definition within_scan (n : nat) : Prop :=
  forall m, ro_max_scan o = Some m -> n = 0%nat \/ Z.of_nat n < m.

(** Why a replay that returns stopped where it did. *)
Definition stopped_because (k : list pydict) (n : nat) (rest : list iterated) : Prop :=
  (exists m, ro_max_scan o = Some m /\ m <= Z.of_nat n) \/
  (exists d k', k = (k' ++ [d])%list /\ final_event d = true) \/
  match rest with [] | ITimeout :: _ | IBody true _ :: _ => True | IBody false _ :: _ => False end.

Lemma stop_replay_spec n d : stop_replay n (lower (get_text "status" d)) = true <->
  (exists m, ro_max_scan o = Some m /\ m <= n) \/ final_event d = true.
Proof.
  unfold stop_replay, final_event. rewrite orb_true_iff. destruct (ro_max_scan o) as [m|].
  - rewrite Z.leb_le. split; (intros [H|H]; [left|by right]); [by exists m|]. by destruct H as (? & [= <-] & ?).
  - split; (intros [H|H]; [|by right]); [done|]. by destruct H as (? & ? & ?).
Qed.

(** What the loop does from [events] on: it reads [consumed] messages. *)
Definition replayed (events : list pydict) (messages : list iterated) (out : list pydict) (consumed : nat) : Prop :=
  exists read rest k, messages = (read ++ rest)%list /\ consumed = length read /\
    k = omap collected read /\ out = (events ++ map shown k)%list /\
    Forall (fun d => final_event d = false) (removelast k) /\
    (forall m, ro_max_scan o = Some m -> Z.of_nat (length out) <= Z.max m 1) /\
    stopped_because k (length out) rest.

Lemma replayed_none events messages : within_scan (length events) ->
  match messages with [] | ITimeout :: _ | IBody true _ :: _ => True | IBody false _ :: _ => False end ->
  replayed events messages events 0.
Proof.
  intros Hw Hr. exists [], messages, []. cbn [app length map removelast omap list_omap]. rewrite app_nil_r. split_and!; try done.
  - intros m Hm. destruct (Hw m Hm); lia.
  - by right; right.
Qed.

Lemma replayed_skip m events messages out c : collected m = None ->
  replayed events messages out c -> replayed events (m :: messages) out (S c).
Proof.
  intros Hm (read & rest & k & -> & -> & Hk & H). exists (m :: read), rest, k. split_and!; try apply H; try done.
  unfold omap. cbn. by rewrite Hm.
Qed.

Lemma replayed_more m d events messages out c : collected m = Some d -> final_event d = false ->
  replayed (events ++ [shown d]) messages out c -> replayed events (m :: messages) out (S c).
Proof.
  intros Hm Hd (read & rest & k & -> & -> & Hk & Hout & Hf & Hb & Hs). exists (m :: read), rest, (d :: k).
  split_and!; try done.
  - unfold omap. cbn. rewrite Hm. by f_equal.
  - by rewrite Hout, <- app_assoc.
  - destruct k; [done|]. by constructor.
  - destruct Hs as [?|[(x & k' & -> & ?)|?]]; [by left|right; left; by exists x, (d :: k')|by right; right].
Qed.

Lemma replayed_last m d events messages : within_scan (length events) -> collected m = Some d ->
  stop_replay (Z.of_nat (length (events ++ [shown d]))) (lower (get_text "status" d)) = true ->
  replayed events (m :: messages) (events ++ [shown d]) 1.
Proof.
  intros Hw Hm Hs. exists [m], messages, [d]. split_and!; try done.
  - unfold omap. cbn. by rewrite Hm.
  - intros x Hx. rewrite length_app. cbn. destruct (Hw x Hx); lia.
  - apply stop_replay_spec in Hs as [Hs|Hs]; [by left|]. right. left. by exists d, [].
Qed.

Lemma replay_loop_spec messages events acked out n : within_scan (length events) ->
  replay_loop events acked messages = (Ok out, n) ->
  exists c, n = (acked + c)%nat /\ replayed events messages out c.
Proof.
  revert events acked. induction messages as [|m messages IH]; intros events acked Hw H; cbn [replay_loop] in H.
  { injection H as <- <-. exists 0%nat. split; [lia|by apply replayed_none]. }
  assert (collected m = None -> (exists c, n = (S acked + c)%nat /\ replayed events messages out c) ->
    exists c, n = (acked + c)%nat /\ replayed events (m :: messages) out c) as Hskip.
  { intros Hm (c & -> & Hr). exists (S c). split; [lia|by apply replayed_skip]. }
  unfold collected in Hskip.
  destruct m as [late body|]; [destruct late|]; try (injection H as <- <-; exists 0%nat; split; [lia|by apply replayed_none]).
  pose proof (replayed_last (IBody false body)) as Hlast. pose proof (replayed_more (IBody false body)) as Hmore.
  unfold collected in Hlast, Hmore. destruct (parse_transport_json body) as [payload|e].
  2: { destruct (is_value_error e); [|done]. apply Hskip; [done|]. by apply IH. }
  destruct payload as [| | | | | |event]; try done.
  destruct (of_another_task _); [apply Hskip; [done|]; by apply IH|].
  set (d := output_adapter _) in *. fold (shown d) in H.
  destruct (stop_replay _ _) eqn:Es.
  - injection H as <- <-. exists 1%nat. split; [lia|by apply (Hlast d)].
  - apply IH in H as (c & -> & Hr).
    + exists (S c). split; [lia|]. apply (Hmore d); [done| |done].
      apply not_true_iff_false. intros Hd. by rewrite (proj2 (stop_replay_spec _ _) (or_intror Hd)) in Es.
    + intros x Hx. right. apply Z.nle_gt. intros Hle.
      rewrite (proj2 (stop_replay_spec _ _)) in Es; [done|]. left. by exists x.
Qed.

(** A replay returns the events of the task that a prefix of the stream holds, in
    order, adapted and with public names: at most [max_scan] of them (or one),
    none but the last terminal for the task; the prefix ends where the scan is
    full, after a terminal event, or where the stream was idle, ended or late. *)
Theorem replay_reads_a_prefix require_stream queue_args messages out :
  replay require_stream queue_args messages = Ok out ->
  exists n, replayed [] messages out n.
Proof.
  unfold replay. destruct (_ && _); [done|]. destruct (replay_loop [] 0 messages) as [r n] eqn:E. cbn. intros ->.
  apply replay_loop_spec in E as (c & _ & Hr); [by exists c|]. intros m _. by left.
Qed.
End history_reader.

(** What a client gets that connects after one event, resumes after it, and
    finds the second one both in the history and on the channel. *)
Definition demo_event (id status : string) : pydict := [("event_id", PStr id); ("status", PStr status)].
Definition demo_loads (raw : string) : result pyval :=
  if String.eqb raw "2" then Ok (PDict (demo_event "2" "processing"))
  else if String.eqb raw "3" then Ok (PDict (demo_event "3" "completed"))
  else Raise (Exn XValueError "JSONDecodeError" "").
Definition demo_encode (d : pydict) : string :=
  match dgetv "event_id" d with PStr s => s | _ => "" end.
Definition demo_history : list action :=
  [Pushed (demo_event "1" "queued"); Published (demo_event "1" "queued"); Pushed (demo_event "2" "processing")].

Lemma subscriber_misses_nothing_witness :
  let out := (stream demo_loads id None ["completed"] "t" (Some "1")
    [demo_event "2" "processing"; demo_event "1" "queued"] [PMessage "2"; PTimeout; PMessage "3"]).1 in
  ids (events out) = ["2"; "3"] /\ NoDup (ids (events out)).
Proof.
  intros out. split; [reflexivity|].
  set (e := (stream demo_loads id None ["completed"] "t" (Some "1")
    [demo_event "2" "processing"; demo_event "1" "queued"] [PMessage "2"; PTimeout; PMessage "3"]).2).
  destruct (subscriber_misses_nothing demo_loads id None ["completed"] "t" (Some "1") demo_history []
    [Published (demo_event "2" "processing"); Pushed (demo_event "3" "completed"); Published (demo_event "3" "completed")]
    demo_encode [PMessage "2"; PTimeout; PMessage "3"] out e) as (_ & Hn & _).
  - repeat constructor.
  - intros l1 d l2 E.
    repeat (destruct l1 as [|? l1]; [simplify_eq/=; repeat (first [left; reflexivity | right])|]; simplify_eq/=).
  - split; [reflexivity|]. intros raw Hr.
    repeat (apply elem_of_cons in Hr as [[= ->]|Hr]; [eexists; split; [|split; [reflexivity|reflexivity]]; reflexivity|]).
    apply elem_of_cons in Hr as [Hr|Hr]; [done|].
    repeat (apply elem_of_cons in Hr as [[= ->]|Hr]; [eexists; split; [|split; [reflexivity|reflexivity]]; reflexivity|]).
    by apply elem_of_nil in Hr.
  - reflexivity.
  - apply Hn. repeat constructor; set_solver.
Defined.

(** Reading the stream of two tasks, one of whose events cannot be parsed. *)
Definition demo_codec : Transport := {|
  from_json := fun s => demo_loads s; to_json := fun _ => ""; utf8_decode := Some; json_loads := demo_loads |}.

Lemma replay_reads_a_prefix_witness :
  exists n, replayed (TR := demo_codec) id None (ReplayOptions None [] true (Some 2)) []
    [IBody false "2"; IBody false "?"; IBody false "3"; IBody false "2"]
    [demo_event "2" "processing"; demo_event "3" "completed"] n.
Proof.
  apply (replay_reads_a_prefix (TR := demo_codec) id None (ReplayOptions None [] true (Some 2))
    true [("x-queue-type", PStr "stream")]).
  reflexivity.
Defined.
