(* ===== verification/Interleave.v ===== *)
(** * Interleaved programs

    A program is a finite tree of effects; a pool runs any number of programs
    over a shared state, one effect at a time, in any order, and may lose any
    of them at any point.  [safe] is a rely-guarantee triple: a program that
    holds some facts about the state keeps the invariant, whatever the facts
    the others hold; [pool_invariant] lifts it to the pool. *)

From S2P Require Import Prelude.

Section prog.
Context {E : Type -> Type} {X : Type}.

Inductive prog (A : Type) : Type :=
| Ret (a : A)
| Throw (x : X)
| Vis (Y : Type) (e : E Y) (k : Y -> prog A).
Arguments Ret {A} a.
Arguments Throw {A} x.
Arguments Vis {A Y} e k.

Fixpoint bind_prog {A B} (m : prog A) (f : A -> prog B) : prog B :=
  match m with
  | Ret a => f a
  | Throw x => Throw x
  | Vis e k => Vis e (fun y => bind_prog (k y) f)
  end.

(** An effect that may answer with an exception, and one that may not. *)
Definition await {A} (e : E (A + X)) : prog A :=
  Vis e (fun y => match y with inl a => Ret a | inr x => Throw x end).
Definition perform {A} (e : E A) : prog A := Vis e Ret.

(** What [try] sees of a program. *)
Fixpoint attempted {A} (m : prog A) : prog (A + X) :=
  match m with
  | Ret a => Ret (inl a)
  | Throw x => Ret (inr x)
  | Vis e k => Vis e (fun y => attempted (k y))
  end.

(** [for x in l: f(x)], and the list of the results. *)
Fixpoint each {A} (f : A -> prog unit) (l : list A) : prog unit :=
  match l with [] => Ret tt | x :: l => bind_prog (f x) (fun _ => each f l) end.
Fixpoint collect_each {A B} (f : A -> prog B) (l : list A) : prog (list B) :=
  match l with
  | [] => Ret []
  | x :: l => bind_prog (f x) (fun y => bind_prog (collect_each f l) (fun ys => Ret (y :: ys)))
  end.
End prog.
Arguments prog E X A : clear implicits.
Arguments Ret {E X A} a.
Arguments Throw {E X A} x.
Arguments Vis {E X A Y} e k.

#[export] Instance prog_ret {E X} : MRet (prog E X) := fun A a => Ret a.
#[export] Instance prog_bind {E X} : MBind (prog E X) := fun A B f m => bind_prog m f.

(** ** Rely and guarantee *)

Section safe.
Context {E : Type -> Type} {X S G : Type}.
(** [answers s e s' y]: in [s] the effect may answer [y] and leave [s']. *)
Context (answers : S -> forall Y, E Y -> S -> Y -> Prop).
(** The invariant, of the state and of the facts that the programs hold. *)
Context (I : S -> list G -> Prop).

Fixpoint safe {A} (F : list G) (m : prog E X A) (Q : list G -> A + X -> Prop) : Prop :=
  match m with
  | Ret a => Q F (inl a)
  | Throw x => Q F (inr x)
  | Vis e k => forall s others s' y, I s (F ++ others) -> answers s _ e s' y ->
      exists F', I s' (F' ++ others) /\ safe F' (k y) Q
  end.

Lemma safe_mono {A} (m : prog E X A) (Q Q' : list G -> A + X -> Prop) F :
  safe F m Q -> (forall F r, Q F r -> Q' F r) -> safe F m Q'.
Proof.
  intros H HQ. revert F H. induction m as [a|x|Y e k IH]; cbn; intros F H; [by apply HQ..|].
  intros s o s' y Hi Ha. destruct (H s o s' y Hi Ha) as (F' & Hi' & Hs). exists F'. split; [done|]. by apply IH.
Qed.

Lemma safe_bind {A B} (m : prog E X A) (f : A -> prog E X B) Q F :
  safe F m (fun F r => match r with inl a => safe F (f a) Q | inr x => Q F (inr x) end) ->
  safe F (bind_prog m f) Q.
Proof.
  revert F. induction m as [a|x|Y e k IH]; cbn; intros F H; [done..|].
  intros s o s' y Hi Ha. destruct (H s o s' y Hi Ha) as (F' & Hi' & Hs). exists F'. split; [done|]. by apply IH.
Qed.

Lemma safe_attempted {A} (m : prog E X A) Q F :
  safe F m (fun F r => Q F (inl r)) -> safe F (attempted m) Q.
Proof.
  revert F. induction m as [a|x|Y e k IH]; cbn; intros F H; [done..|].
  intros s o s' y Hi Ha. destruct (H s o s' y Hi Ha) as (F' & Hi' & Hs). exists F'. split; [done|]. by apply IH.
Qed.

Lemma safe_each {A} (f : A -> prog E X unit) l (P : list G -> Prop) F :
  P F -> (forall x F, x ∈ l -> P F -> safe F (f x) (fun F _ => P F)) -> safe F (each f l) (fun F _ => P F).
Proof.
  revert F. induction l as [|x l IH]; cbn; intros F HP Hf; [done|]. apply safe_bind.
  eapply safe_mono; [apply Hf; [left|done]|]. intros F' [[]|e] HP'; [|done].
  apply IH; [done|]. intros y F2 Hy. apply Hf. by right.
Qed.

Lemma safe_collect {A B} (f : A -> prog E X B) l (P : list G -> Prop) F :
  P F -> (forall x F, x ∈ l -> P F -> safe F (f x) (fun F _ => P F)) -> safe F (collect_each f l) (fun F _ => P F).
Proof.
  revert F. induction l as [|x l IH]; cbn; intros F HP Hf; [done|]. apply safe_bind.
  eapply safe_mono; [apply Hf; [left|done]|]. intros F' [b|e] HP'; [|done]. apply safe_bind.
  eapply safe_mono; [apply IH; [done|]; intros y F2 Hy; apply Hf; by right|]. by intros F2 [bs|e].
Qed.

(** An effect that leaves the state alone. *)
Lemma safe_read {A Y} (e : E Y) (k : Y -> prog E X A) Q F :
  (forall s s' y, answers s _ e s' y -> s' = s) -> (forall y, safe F (k y) Q) -> safe F (Vis e k) Q.
Proof. intros Hr Hk s o s' y Hi Ha. rewrite (Hr _ _ _ Ha). by exists F. Qed.

(** ** Pools *)

Context (starts : prog E X unit -> Prop).

(** A program takes a step, is lost, or is started. *)
Inductive pool_step : S * list (prog E X unit) -> S * list (prog E X unit) -> Prop :=
| pool_run s s' Y (e : E Y) k y l1 l2 : answers s Y e s' y ->
    pool_step (s, l1 ++ Vis e k :: l2)%list (s', l1 ++ k y :: l2)%list
| pool_lost s l1 m l2 : pool_step (s, l1 ++ m :: l2)%list (s, l1 ++ l2)%list
| pool_start s m l : starts m -> pool_step (s, l) (s, l ++ [m])%list.

Context (I_perm : forall s F F', F ≡ₚ F' -> I s F -> I s F').
Context (I_drop : forall s F o, I s (F ++ o) -> I s o).
Context (starts_safe : forall m, starts m -> safe [] m (fun _ _ => True)).

Definition pool_ok (c : S * list (prog E X unit)) : Prop :=
  exists Fs, I c.1 (concat Fs) /\ Forall2 (fun F m => safe F m (fun _ _ => True)) Fs c.2.

Lemma pool_step_ok c c' : pool_ok c -> pool_step c c' -> pool_ok c'.
Proof.
  intros (Fs & Hi & Hf) Hs. destruct Hs as [s s' Y e k y l1 l2 Ha|s l1 m l2|s m l Hm]; cbn [fst snd] in *.
  - apply Forall2_app_inv_r in Hf as (F1 & F2 & Hf1 & Hf2 & ->).
    apply Forall2_cons_inv_r in Hf2 as (F & F2' & Hm & Hf2 & ->).
    rewrite concat_app in Hi. cbn [concat] in Hi.
    destruct (Hm s (concat F1 ++ concat F2')%list s' y) as (F' & Hi' & Hm'); [|done|].
    { eapply I_perm, Hi. rewrite !app_assoc. apply Permutation_app_tail, Permutation_app_comm. }
    exists (F1 ++ F' :: F2')%list. split; [|by apply Forall2_app; [|constructor]].
    rewrite concat_app. cbn [concat fst]. eapply I_perm, Hi'. rewrite !app_assoc. apply Permutation_app_tail, Permutation_app_comm.
  - apply Forall2_app_inv_r in Hf as (F1 & F2 & Hf1 & Hf2 & ->).
    apply Forall2_cons_inv_r in Hf2 as (F & F2' & Hm & Hf2 & ->).
    rewrite concat_app in Hi. cbn [concat] in Hi. exists (F1 ++ F2')%list. split; [|by apply Forall2_app].
    rewrite concat_app. cbn [fst]. apply (I_drop s F). eapply I_perm, Hi.
    rewrite !app_assoc. apply Permutation_app_tail, Permutation_app_comm.
  - exists (Fs ++ [[]])%list. rewrite concat_app. cbn [concat]. rewrite !app_nil_r.
    split; [done|]. apply Forall2_app; [done|]. constructor; [by apply starts_safe|constructor].
Qed.

Lemma pool_steps_ok c c' : pool_ok c -> rtc pool_step c c' -> pool_ok c'.
Proof. intros Hc Hs. induction Hs as [c|c1 c2 c3 H12 _ IH]; [done|]. by apply IH, (pool_step_ok c1). Qed.

Lemma pool_invariant s c : I s [] -> rtc pool_step (s, []) c -> exists F, I c.1 F.
Proof.
  intros Hi Hs. destruct (pool_steps_ok (s, []) c) as (Fs & Hc & _); [|done|by exists (concat Fs)].
  exists []. split; [done|constructor].
Qed.
End safe.

(** ** Facts that nobody gives up *)

Section frame.
Context {E : Type -> Type} {X S G : Type} (answers : S -> forall Y, E Y -> S -> Y -> Prop).
Context (I : S -> list G -> Prop) (starts : prog E X unit -> Prop).
Context (I_perm : forall s F F', F ≡ₚ F' -> I s F -> I s F').
Context (I_drop : forall s F o, I s (F ++ o) -> I s o).
Context (starts_safe : forall m, starts m -> safe answers I [] m (fun _ _ => True)).

Lemma safe_frame {A} B (m : prog E X A) Q F :
  safe answers I F m Q -> safe answers (fun s F => I s (B ++ F)) F m Q.
Proof.
  revert F. induction m as [a|x|Y e k IH]; cbn; intros F H; [done..|].
  intros s o s' y Hi Ha. destruct (H s (B ++ o)%list s' y) as (F' & Hi' & Hs); [|done|].
  { eapply I_perm, Hi. rewrite !app_assoc. apply Permutation_app_tail, Permutation_app_comm. }
  exists F'. split; [|by apply IH]. eapply I_perm, Hi'.
  rewrite !app_assoc. apply Permutation_app_tail, Permutation_app_comm.
Qed.

(** What holds of the facts [B] at one point of a run holds of them ever after. *)
Lemma pool_keeps B s c c' : I s [] -> rtc (pool_step answers starts) (s, []) c ->
  (forall F, I c.1 F -> I c.1 (B ++ F)) -> rtc (pool_step answers starts) c c' -> exists F, I c'.1 (B ++ F).
Proof.
  intros Hi Hs HB Hs'.
  assert (pool_ok answers I c) as (Fs & Hc & Hf).
  { eapply pool_steps_ok; [exact I_perm|exact I_drop|exact starts_safe| |exact Hs]. exists []. split; [done|constructor]. }
  destruct (pool_steps_ok answers (fun s F => I s (B ++ F)%list) starts) with c c' as (Fs' & Hc' & _).
  - intros s0 F F' Hp. apply I_perm. by rewrite Hp.
  - intros s0 F o H. eapply I_drop, I_perm, H. instantiate (1 := F).
    rewrite !app_assoc. apply Permutation_app_tail, Permutation_app_comm.
  - intros m Hm. apply safe_frame. by apply starts_safe.
  - exists Fs. split; [by apply HB|]. eapply Forall2_impl; [exact Hf|]. intros F m. apply safe_frame.
  - done.
  - by exists (concat Fs').
Qed.
End frame.
