(* ===== verification/Calls.v ===== *)
(** * Programs of calls

    Programs ([Interleave]) whose effects are single calls on a shared world: a
    command of a server, a transaction of a database.  A call is executed or
    not, and its answer may be lost.  [run] is a run without failures and
    without others; [calls_keep] says that no call of a program breaks a
    relation between the worlds before and after it. *)

From S2P Require Import Prelude Interleave.

Section calls.
Context {W X : Type}.

Inductive call : Type -> Type :=
| Call {A} (f : W -> W * A) : call (A + X).

(** A call is answered, or fails before or after it was executed. *)
Definition answers (w : W) (Y : Type) (e : call Y) (w' : W) : Y -> Prop :=
  match e in call Y return Y -> Prop with
  | Call f => fun y => match y with inl a => f w = (w', a) | inr _ => w' = w \/ w' = (f w).1 end
  end.

Notation P := (prog call X).

Definition invoke {A} (f : W -> W * A) : P A := await (Call f).
Definition invoke_ (f : W -> W) : P unit := invoke (fun w => (f w, tt)).
Definition query {A} (f : W -> A) : P A := invoke (fun w => (w, f w)).
Definition lift {A} (x : A + X) : P A := match x with inl a => Ret a | inr e => Throw e end.

(** A call whose own work may raise: a transaction that is rolled back. *)
Definition transact {A} (f : W -> W * A + X) : P A :=
  bind_prog (invoke (fun w => match f w with inl (w', a) => (w', inl a) | inr e => (w, inr e) end)) lift.

Definition executed {Y} (e : call Y) : W -> W * Y :=
  match e in call Y return W -> W * Y with Call f => fun w => let (w', a) := f w in (w', inl a) end.

Fixpoint run {A} (m : P A) (w : W) : W * (A + X) :=
  match m with
  | Ret a => (w, inl a)
  | Throw x => (w, inr x)
  | Vis e k => let (w', y) := executed e w in run (k y) w'
  end.

(** A whole program as one call: it does not overlap with others. *)
Definition atomically {A} (m : P A) : P A :=
  bind_prog (invoke (run m)) lift.

Lemma run_bind_prog {A B} (m : P A) (f : A -> P B) w :
  run (bind_prog m f) w = match run m w with (w', inl a) => run (f a) w' | (w', inr e) => (w', inr e) end.
Proof.
  revert w. induction m as [a|x|Y e k IH]; intros w; cbn; [done..|]. destruct (executed e w) as [w' y]. apply IH.
Qed.

Lemma run_invoke {A} (f : W -> W * A) w : run (invoke f) w = ((f w).1, inl (f w).2).
Proof. unfold invoke, await. cbn. by destruct (f w). Qed.

Lemma run_lift {A} (x : A + X) w : run (lift x) w = (w, x).
Proof. by destruct x. Qed.

Lemma run_transact {A} (f : W -> W * A + X) w :
  run (transact f) w = match f w with inl (w', a) => (w', inl a) | inr e => (w, inr e) end.
Proof. unfold transact. rewrite run_bind_prog, run_invoke. destruct (f w) as [[w' a]|e]; cbn; by rewrite ?run_lift. Qed.

(** ** What the calls keep *)

Fixpoint calls_keep (K : W -> W -> Prop) {A} (m : P A) : Prop :=
  match m with
  | Ret _ | Throw _ => True
  | Vis e k => (forall w, K w (executed e w).1) /\ forall y, calls_keep K (k y)
  end.

Lemma calls_keep_bind K {A B} (m : P A) (f : A -> P B) :
  calls_keep K m -> (forall a, calls_keep K (f a)) -> calls_keep K (bind_prog m f).
Proof. intros Hm Hf. induction m as [a|x|Y e k IH]; cbn in *; [done..|]. destruct Hm as [He Hk]. split; [done|]. intros y. by apply IH. Qed.

Lemma calls_keep_invoke K {A} (f : W -> W * A) : (forall w, K w (f w).1) -> calls_keep K (invoke f).
Proof. intros Hf. split; [intros w; cbn; specialize (Hf w); by destruct (f w)|]. by intros [a|e]. Qed.

Lemma calls_keep_lift K {A} (x : A + X) : calls_keep K (lift x).
Proof. by destruct x. Qed.

Lemma calls_keep_run K {A} (m : P A) w : (forall w, K w w) -> (forall a b c, K a b -> K b c -> K a c) ->
  calls_keep K m -> K w (run m w).1.
Proof.
  intros Hr Ht. revert w. induction m as [a|x|Y e k IH]; intros w Hm; cbn in *; [apply Hr..|].
  destruct Hm as [He Hk]. specialize (He w). destruct (executed e w) as [w' y]. eapply Ht; [exact He|]. by apply IH.
Qed.

(** A call that failed left the world as it was or as it would be. *)
Lemma answers_executed w Y (e : call Y) w' y : answers w Y e w' y -> w' = w \/ w' = (executed e w).1.
Proof.
  destruct e as [A f]. cbn. destruct (f w) as [w1 a] eqn:E. destruct y as [b|x]; cbn.
  - intros [= <- <-]. by right.
  - intros [->| ->]; [by left|by right].
Qed.
End calls.
Arguments call : clear implicits.

(** ** Calls on a part of the world *)

Section part.
Context {W V X : Type} (get : W -> V) (set : V -> W -> W).

Definition on_part {A} (f : V -> V * A) (w : W) : W * A := let (v, a) := f (get w) in (set v w, a).

Fixpoint zoom {A} (m : prog (call V X) X A) : prog (call W X) X A :=
  match m with
  | Ret a => Ret a
  | Throw x => Throw x
  | Vis e k =>
      match e in call _ _ Y return (Y -> prog (call W X) X A) -> prog (call W X) X A with
      | Call f => fun k => Vis (Call (on_part f)) k
      end (fun y => zoom (k y))
  end.

Lemma run_zoom {A} (m : prog (call V X) X A) w : (forall v w, get (set v w) = v) -> (forall v v' w, set v (set v' w) = set v w) ->
  (forall w, set (get w) w = w) -> run (zoom m) w = let (v, x) := run m (get w) in (set v w, x).
Proof.
  intros Hgs Hss Hsg. revert w. induction m as [a|x|Y e k IH]; intros w; cbn; [by rewrite Hsg..|].
  destruct e as [B f]. cbn. unfold on_part. destruct (f (get w)) as [v b]. cbn. rewrite IH, Hgs.
  destruct (run (k (inl b)) v) as [v' x]. by rewrite Hss.
Qed.
End part.

(** ** Programs side by side *)

Section beside.
Context {W X : Type}.

(** Two programs, without failures, in the order of the choices: [true] is a call of the first. *)
Fixpoint beside {A B} (choices : list bool) (m : prog (call W X) X A) (n : prog (call W X) X B) (w : W) :
    W * prog (call W X) X A * prog (call W X) X B :=
  match choices with
  | [] => (w, m, n)
  | true :: l => match m with Vis e k => let (w, y) := executed e w in beside l (k y) n w | _ => beside l m n w end
  | false :: l => match n with Vis e k => let (w, y) := executed e w in beside l m (k y) w | _ => beside l m n w end
  end.
End beside.

(** ** Runs of pools *)

Section alone.
Context {W X : Type} (starts : prog (call W X) X unit -> Prop).

Lemma executed_answers w Y (e : call W X Y) : answers w Y e (executed e w).1 (executed e w).2.
Proof. destruct e as [A f]. cbn. by destruct (f w). Qed.

(** The steps of one program among the others. *)
Lemma run_steps (m : prog (call W X) X unit) w l :
  exists m', rtc (pool_step answers starts) (w, l ++ [m])%list ((run m w).1, l ++ [m'])%list.
Proof.
  revert w. induction m as [a|x|Y e k IH]; intros w; cbn; [by exists (Ret a)|by exists (Throw x)|].
  pose proof (executed_answers w Y e) as Ha. destruct (executed e w) as [w' y]. destruct (IH y w') as [m' Hm']. exists m'.
  eapply rtc_l; [|exact Hm']. by apply (pool_run answers starts w w' Y e k y l []).
Qed.

(** A program that is started and runs alone. *)
Lemma run_reachable m w0 w l : starts m -> rtc (pool_step answers starts) w0 (w, l) ->
  exists l', rtc (pool_step answers starts) w0 ((run m w).1, l').
Proof.
  intros Hm Hr. destruct (run_steps m w l) as [m' Hs]. exists (l ++ [m'])%list.
  etrans; [exact Hr|]. eapply rtc_l; [by apply pool_start|exact Hs].
Qed.

(** Programs that run one after another. *)
Lemma runs_reachable ms w : Forall starts ms ->
  exists l, rtc (pool_step answers starts) (w, []) (foldl (fun w m => (run m w).1) w ms, l).
Proof.
  intros Hms. enough (forall w1 l, rtc (pool_step answers starts) (w, []) (w1, l) ->
    exists l, rtc (pool_step answers starts) (w, []) (foldl (fun w m => (run m w).1) w1 ms, l)) as He by (by eapply He).
  induction Hms as [|m ms Hm Hms IH]; intros w1 l Hr; [by exists l|]. cbn.
  destruct (run_reachable m _ _ _ Hm Hr) as [l' Hr']. by eapply IH.
Qed.
End alone.

(** ** Safety of calls *)

Section safety.
Context {W X G : Type} (I : W -> list G -> Prop).
Notation Safe := (safe answers I).

(** A call that keeps the invariant as it stands, whether its answer comes or not. *)
Lemma safe_invoke {A B} (f : W -> W * A) (k : A -> prog (call W X) X B) F Q :
  (forall w o, I w (F ++ o) -> I (f w).1 (F ++ o)) -> (forall a, Safe F (k a) Q) -> (forall e, Q F (inr e)) ->
  Safe F (bind_prog (invoke f) k) Q.
Proof.
  intros Hf Hk He. cbn. intros w o w' y Hi Ha. exists F. destruct y as [a|e]; cbn in *.
  - destruct (f w) as [w1 b] eqn:E. injection Ha as -> ->. specialize (Hf w o Hi). rewrite E in Hf. by split.
  - split; [|apply He]. destruct Ha as [->| ->]; [done|by apply Hf].
Qed.

(** A call that reads: what it read holds of a world in the invariant. *)
Lemma safe_query {A B} (f : W -> A) (k : A -> prog (call W X) X B) F Q :
  (forall w o, I w (F ++ o) -> Safe F (k (f w)) Q) -> (forall e, Q F (inr e)) -> Safe F (bind_prog (query f) k) Q.
Proof.
  intros Hk He. cbn. intros w o w' y Hi Ha. exists F. destruct y as [a|e]; cbn in *.
  - injection Ha as -> <-. split; [done|]. by eapply Hk.
  - split; [|apply He]. destruct Ha as [->| ->]; done.
Qed.

Lemma safe_lift {A B} (x : A + X) (k : A -> prog (call W X) X B) F Q :
  (forall a, x = inl a -> Safe F (k a) Q) -> (forall e, x = inr e -> Q F (inr e)) -> Safe F (bind_prog (lift x) k) Q.
Proof. intros Hk He. destruct x as [a|e]; cbn; [by apply Hk|by apply He]. Qed.
End safety.
