(* ===== verification/PyRe.v ===== *)
(** * Regular expressions

    The part of Python's [re] that the sources use, on strings of code points
    below 256: classes, sequences, alternatives, greedy repetition, the word
    boundary and one-character lookarounds.  [sub] is [pattern.sub] for patterns
    that never match the empty string. *)

From S2P Require Import Prelude PyStr.
From Stdlib Require Import Ascii.

Inductive regex :=
| RClass (p : ascii -> bool)
| RSeq (a b : regex)
| RAlt (a b : regex)
| RRepeat (a : regex) (least : nat) (most : option nat)   (* greedy; [a] never matches the empty string *)
| RBoundary                                               (* \b *)
| RNotAfter (p : ascii -> bool)                           (* (?<![...]) *)
| RNotBefore (p : ascii -> bool).                         (* (?![...]) *)

(** [\w] and [\d]; the class [\d] is that of decimal digits, [\w] that of [str.isalnum] and the underscore. *)
Definition re_digit (c : ascii) : bool := let z := code c in (48 <=? z) && (z <=? 57).
Definition re_word (c : ascii) : bool :=
  let z := code c in
  re_digit c || ((65 <=? z) && (z <=? 90)) || ((97 <=? z) && (z <=? 122)) || (z =? 95) ||
  (z =? 170) || (z =? 178) || (z =? 179) || (z =? 181) || (z =? 185) || (z =? 186) || ((188 <=? z) && (z <=? 190)) ||
  ((192 <=? z) && negb (z =? 215) && negb (z =? 247)).

(** What was read last, and what is left. *)
Notation place := (option ascii * list ascii)%type.

Definition at_word (c : option ascii) : bool := match c with Some c => re_word c | None => false end.

(** The first match in the order of Python's backtracking, handed to [k]; the fuel bounds the
    repetitions, each of which reads a character. *)
Fixpoint match_at (fuel : nat) (r : regex) (p : place) (k : place -> option place) : option place :=
  match r with
  | RClass f => match p.2 with c :: l => if f c then k (Some c, l) else None | [] => None end
  | RSeq a b => match_at fuel a p (fun q => match_at fuel b q k)
  | RAlt a b => match match_at fuel a p k with Some q => Some q | None => match_at fuel b p k end
  | RRepeat a least most =>
      (fix repeat (n : nat) (least : nat) (most : option nat) (p : place) : option place :=
         match n with
         | O => match least with O => k p | S _ => None end
         | S n =>
             let stop := match least with O => k p | S _ => None end in
             match most with
             | Some O => stop
             | _ => match match_at fuel a p (repeat n (pred least) (option_map pred most)) with
                    | Some q => Some q
                    | None => stop
                    end
             end
         end) fuel least most p
  | RBoundary => if xorb (at_word p.1) (at_word (head p.2)) then k p else None
  | RNotAfter f => match p.1 with Some c => if f c then None else k p | None => k p end
  | RNotBefore f => match p.2 with c :: _ => if f c then None else k p | [] => k p end
  end.

Definition re_match (r : regex) (p : place) : option place := match_at (S (length p.2)) r p Some.

(** [pattern.sub(replacement, text)], from left to right. *)
Fixpoint sub_from (n : nat) (r : regex) (replacement : list ascii) (p : place) : list ascii :=
  match n, p.2 with
  | O, _ | _, [] => []
  | S n, c :: l =>
      match re_match r p with
      | Some q => replacement ++ sub_from n r replacement q
      | None => c :: sub_from n r replacement (Some c, l)
      end
  end%list.
Definition re_sub (r : regex) (replacement text : string) : string :=
  of_chars (sub_from (length (chars text)) r (chars replacement) (None, chars text)).

(** Literals, optional parts and exact repetition. *)
Definition re_char (c : ascii) : regex := RClass (Ascii.eqb c).
Definition re_opt (r : regex) : regex := RRepeat r 0 (Some 1%nat).
Definition re_times (r : regex) (n : nat) : regex := RRepeat r n (Some n).
