(* ===== verification/StudioErrors.v ===== *)
(** * The exceptions of Studio

    What the programs and transactions of the Studio backend raise. *)

From S2P Require Import Prelude PyStr.

(** What the programs raise: [StudioFederationError], [HTTPException],
    [ServiceNotFoundError], and any other exception. *)
Inductive studio_exn :=
| FederationError (detail : string) (retryable : bool)
| HttpError (status : Z) (detail : string)
| ServiceNotFound (text : string)
| OtherError (e : exn).

(** [except (StudioFederationError, HTTPException, ServiceNotFoundError)] *)
Definition caught (e : studio_exn) : bool := match e with OtherError _ => false | _ => true end.

(** [str(getattr(exc, "detail", exc))] *)
Definition detail_of (e : studio_exn) : string :=
  match e with
  | FederationError d _ | HttpError _ d => d
  | ServiceNotFound t => t
  | OtherError e => exn_text e
  end.

(** [str(exc)] *)
Definition studio_text (e : studio_exn) : string :=
  match e with
  | HttpError status d => pretty status +:+ ": " +:+ d
  | e => detail_of e
  end.

Definition lift_exn {A} (r : result A) : A + studio_exn :=
  match r with Ok a => inl a | Raise e => inr (OtherError e) end.

(** A computation that goes on with the value, or ends with the exception. *)
Notation "'let!' x := m 'in' k" := (match m with inl x => k | inr error => inr error end)
  (at level 200, x name, m at level 100, k at level 200, right associativity).
