(* ===== verification/StudioTime.v ===== *)
(** * The timestamps of Studio

    [events.py], [search.py] and [health.py] each read an ISO timestamp with a
    function of the same shape; they differ in how they read a time without a
    zone. *)

From S2P Require Import Prelude PyStr PyTime.
From Stdlib Require Import Ascii.

(** [s.endswith("Z")] and the text with the zone spelled out. *)
Definition spell_zone (s : string) : string :=
  match rev (chars s) with
  | "Z"%char :: l => of_chars (rev l) +:+ "+00:00"
  | _ => s
  end.

(** The instant of a [datetime], a naive one read by [naive]. *)
Definition instant_of (naive : Z -> Z) (t : pydatetime) : Z :=
  match utc_offset t with Some o => wall t - o | None => naive (wall t) end.

(** [_parse_timestamp], studio/events.py:51-63: a naive time is UTC. *)
Definition parse_timestamp_with (naive : Z -> Z) (value : option string) : option Z :=
  match value with
  | None => None
  | Some v =>
      let normalized := strip v in
      if String.eqb normalized "" then None
      else match fromisoformat (spell_zone normalized) with Ok t => Some (instant_of naive t) | Raise _ => None end
  end.
Definition parse_timestamp : option string -> option Z := parse_timestamp_with (fun t => t).

(** [datetime.min] in UTC. *)
Definition datetime_min : Z := -62135596800000000.

(** [_isoformat], studio/search.py:73-76. *)
Definition isoformat_z (t : Z) : string :=
  let s := isoformat t in String.substring 0 (String.length s - 6) s +:+ "Z".
