(* ===== verification/PyUrl.v ===== *)
(** * URLs and IP addresses

    [urllib.parse.urlsplit] and [urlunsplit], and [ipaddress.ip_address] with
    the membership of a network, on strings of code points below 256. *)

From S2P Require Import Prelude PyStr PyVal.
From Stdlib Require Import Ascii.

(** ** Pieces of strings *)

Definition in_chars (c : ascii) (s : string) : bool := has_char c s.

(** [s.partition(c)] *)
Fixpoint partition_at (c : ascii) (l : list ascii) : list ascii * option (list ascii) :=
  match l with
  | [] => ([], None)
  | x :: l' => if Ascii.eqb x c then ([], Some l') else let '(a, b) := partition_at c l' in (x :: a, b)
  end.

(** [s.rpartition(c)[2]] *)
Definition after_last (c : ascii) (l : list ascii) : list ascii :=
  rev (fst (partition_at c (rev l))).

Fixpoint drop_while (p : ascii -> bool) (l : list ascii) : list ascii :=
  match l with c :: l' => if p c then drop_while p l' else l | [] => [] end.

(** [s.rstrip("/")] *)
Definition rstrip_slash (s : string) : string := of_chars (rev (drop_while (Ascii.eqb "/") (rev (chars s)))).
Definition lstrip_slash (s : string) : string := of_chars (drop_while (Ascii.eqb "/") (chars s)).

(** ** IP addresses *)

Inductive ip := IPv4 (n : Z) | IPv6 (n : Z).

Definition is_digits (l : list ascii) : bool := forallb (fun c => match digit c with Some _ => true | None => false end) l.
Definition decimal (l : list ascii) : Z := foldl (fun n c => n * 10 + from_opt 0 (digit c)) 0 l.

Definition octet (l : list ascii) : option Z :=
  if is_digits l && negb (bool_decide (l = [])) && (length l <=? 3)%nat && (decimal l <=? 255)
     && negb (match l with "0"%char :: _ :: _ => true | _ => false end)
  then Some (decimal l) else None.

Definition ipv4 (s : string) : option Z :=
  match split_chars "." (chars s) with
  | [a; b; c; d] => a ← octet a; b ← octet b; c ← octet c; d ← octet d; Some (((a * 256 + b) * 256 + c) * 256 + d)
  | _ => None
  end.

Definition hex_of (c : ascii) : option Z :=
  let z := code c in
  if (48 <=? z) && (z <=? 57) then Some (z - 48)
  else if (97 <=? z) && (z <=? 102) then Some (z - 87)
  else if (65 <=? z) && (z <=? 70) then Some (z - 55) else None.

Definition hextet (l : list ascii) : option Z :=
  if (1 <=? length l)%nat && (length l <=? 4)%nat
  then foldl (fun n c => n ← n; d ← hex_of c; Some (n * 16 + d)) (Some 0) l else None.

Definition empty (l : list ascii) : bool := match l with [] => true | _ => false end.

(** The indices of the empty parts that are neither the first nor the last. *)
Definition inner_empty (parts : list (list ascii)) : list nat :=
  List.filter (fun i => empty (nth i parts [])) (seq 1 (length parts - 2)).

Definition hextets (parts : list (list ascii)) : option Z :=
  foldl (fun n p => n ← n; h ← hextet p; Some (n * 65536 + h)) (Some 0) parts.

(** The parts between the colons, the dotted quad at the end replaced by its two values. *)
Definition ipv6_value (high low : list (list ascii)) (skipped : Z) (quad : option Z) : option Z :=
  h ← hextets high; l ← hextets low;
  let len := Z.of_nat (length low) in
  match quad with
  | None => Some (h * 2 ^ (16 * (skipped + len)) + l)
  | Some q => Some (h * 2 ^ (16 * (skipped + len + 2)) + l * 2 ^ 32 + q)
  end.

Definition ipv6 (s : string) : option Z :=
  let '(addr, scope) := partition_at "%" (chars s) in
  if match scope with Some sc => empty sc || existsb (Ascii.eqb "%") sc | None => false end || existsb (Ascii.eqb "/") (chars s)
  then None
  else
    let parts := split_chars ":" addr in
    if empty addr || (length parts <? 3)%nat then None
    else
      let final := from_opt [] (last parts) in
      let dotted := existsb (Ascii.eqb ".") final in
      let quad := if dotted then ipv4 (of_chars final) else None in
      if dotted && match quad with None => true | _ => false end then None
      else
        (* the value of the quad takes the place of two parts that are not empty *)
        let count := (length parts + (if dotted then 1 else 0))%nat in
        let body := if dotted then removelast parts else parts in
        let shown := if dotted then (body ++ [["0"%char]; ["0"%char]])%list else body in
        if (9 <? count)%nat then None
        else
          match inner_empty shown with
          | _ :: _ :: _ => None
          | [i] =>
              let hi := take i shown in
              let lo := drop (S i) shown in
              let hi := if empty (nth 0 shown []) then tl hi else hi in
              let last_empty := empty (from_opt [] (last shown)) in
              let lo := if last_empty then removelast lo else lo in
              let skipped := 8 - Z.of_nat (length hi + length lo) in
              if (empty (nth 0 shown []) && negb (bool_decide (hi = []))) || (last_empty && negb (bool_decide (lo = [])))
                 || (skipped <? 1) then None
              else if dotted then ipv6_value hi (take (length lo - 2) lo) skipped quad else ipv6_value hi lo skipped None
          | [] =>
              if negb (count =? 8)%nat || empty (nth 0 shown []) || empty (from_opt [] (last shown)) then None
              else ipv6_value [] body 0 quad
          end.

(** [ip_address(s)]; [None] for [ValueError]. *)
Definition ip_address (s : string) : option ip :=
  match ipv4 s with Some n => Some (IPv4 n) | None => IPv6 <$> ipv6 s end.

(** A network: its address and the bits of its prefix. *)
Record ip_network := IpNetwork { net_address : ip; net_prefix : Z }.

(** [address in network] *)
Definition in_network (a : ip) (n : ip_network) : bool :=
  match a, net_address n with
  | IPv4 x, IPv4 y => Z.shiftr x (32 - net_prefix n) =? Z.shiftr y (32 - net_prefix n)
  | IPv6 x, IPv6 y => Z.shiftr x (128 - net_prefix n) =? Z.shiftr y (128 - net_prefix n)
  | _, _ => false
  end.

Example ipv4_demo : ip_address "10.0.0.7" = Some (IPv4 167772167). Proof. reflexivity. Qed.
Example ipv4_zeros : ip_address "10.0.0.07" = None. Proof. reflexivity. Qed.
Example ipv6_demo : ip_address "::1" = Some (IPv6 1). Proof. reflexivity. Qed.
Example ipv6_mapped : ip_address "::ffff:10.0.0.7" = Some (IPv6 (65535 * 2 ^ 32 + 167772167)). Proof. reflexivity. Qed.
Example ipv6_long : ip_address "fe80:0:0:0:0:0:0:1" = Some (IPv6 (65152 * 2 ^ 112 + 1)). Proof. reflexivity. Qed.
Example ipv6_two_gaps : ip_address "1::2::3" = None. Proof. reflexivity. Qed.

(** ** Splitting a URL *)

Record split_result := SplitResult { scheme : string; netloc : string; path : string; query : string; fragment : string }.

Definition is_alpha (c : ascii) : bool :=
  let z := code c in ((65 <=? z) && (z <=? 90)) || ((97 <=? z) && (z <=? 122)).
Definition scheme_char (c : ascii) : bool :=
  is_alpha c || match digit c with Some _ => true | None => false end || Ascii.eqb c "+" || Ascii.eqb c "-" || Ascii.eqb c ".".
Definition c0_or_space (c : ascii) : bool := code c <=? 32.
Definition unsafe_char (c : ascii) : bool := let z := code c in (z =? 9) || (z =? 10) || (z =? 13).

(** ASCII letters only: the schemes and hosts of the sources. *)
Definition ascii_lower (c : ascii) : ascii := let z := code c in if (65 <=? z) && (z <=? 90) then chr (z + 32) else c.

(** [_splitnetloc(url, 2)] *)
Fixpoint until_delim (l : list ascii) : list ascii * list ascii :=
  match l with
  | [] => ([], [])
  | c :: l' => if Ascii.eqb c "/" || Ascii.eqb c "?" || Ascii.eqb c "#" then ([], l)
               else let '(a, b) := until_delim l' in (c :: a, b)
  end.

(** The host and the port's text of a network location. *)
Definition host_info (netloc : list ascii) : list ascii * list ascii :=
  let hostinfo := after_last "@" netloc in
  match partition_at "[" hostinfo with
  | (_, Some bracketed) =>
      let '(host, port) := partition_at "]" bracketed in
      (host, from_opt [] (snd (partition_at ":" (from_opt [] port))))
  | (_, None) => let '(host, port) := partition_at ":" hostinfo in (host, from_opt [] port)
  end.

(** [_check_bracketed_netloc]: an IPv6 address or a future one. *)
Definition future_address (l : list ascii) : bool :=
  match l with
  | "v"%char :: l =>
      let '(v, rest) := partition_at "." l in
      negb (empty v) && forallb (fun c => match hex_of c with Some _ => true | None => false end) v
      && match rest with Some (_ :: _) => negb (existsb (fun c => code c =? 10) (from_opt [] rest)) | _ => false end
  | _ => false
  end.
Definition bracketed_ok (netloc : list ascii) : bool :=
  let hostinfo := after_last "@" netloc in
  let '(before, bracketed) := partition_at "[" hostinfo in
  match bracketed with
  | None => false
  | Some b =>
      let '(host, port) := partition_at "]" b in
      empty before && match from_opt [] port with [] => true | c :: _ => Ascii.eqb c ":" end
      && match host with
         | "v"%char :: _ => future_address host
         | _ => match ip_address (of_chars host) with Some (IPv6 _) => true | _ => false end
         end
  end.

Definition invalid_url : exn := value_error "Invalid IPv6 URL".

(** [urlsplit(url)] *)
Definition urlsplit (url : string) : result split_result :=
  let l := List.filter (fun c => negb (unsafe_char c)) (drop_while c0_or_space (chars url)) in
  let '(sch, l) :=
    match partition_at ":" l with
    | (c :: s, Some rest) => if is_alpha c && forallb scheme_char (c :: s) then (map ascii_lower (c :: s), rest) else ([], l)
    | _ => ([], l)
    end in
  let '(loc, l) := match l with "/"%char :: "/"%char :: l' => until_delim l' | _ => ([], l) end in
  let opening := existsb (Ascii.eqb "[") loc in
  let closing := existsb (Ascii.eqb "]") loc in
  if negb (Bool.eqb opening closing) || (opening && negb (bracketed_ok loc)) then Raise invalid_url
  else
    let '(l, frag) := partition_at "#" l in
    let '(p, q) := partition_at "?" l in
    Ok (SplitResult (of_chars sch) (of_chars loc) (of_chars p) (of_chars (from_opt [] q)) (of_chars (from_opt [] frag))).

(** [parts.hostname]: in lower case up to a zone. *)
Definition hostname (p : split_result) : option string :=
  match fst (host_info (chars (netloc p))) with
  | [] => None
  | h => let '(name, zone) := partition_at "%" h in
         Some (lower (of_chars name) +:+ match zone with Some z => "%" +:+ of_chars z | None => "" end)
  end.

(** [parts.port]: [ValueError] unless it is a number up to 65535. *)
Definition port (p : split_result) : result (option Z) :=
  match snd (host_info (chars (netloc p))) with
  | [] => Ok None
  | l => if is_digits l then if decimal l <=? 65535 then Ok (Some (decimal l)) else Raise (value_error "Port out of range 0-65535")
         else Raise (value_error "Port could not be cast to integer value")
  end.

(** [bool(parts.username or parts.password)] *)
Definition has_userinfo (p : split_result) : bool :=
  match partition_at "@" (rev (chars (netloc p))) with
  | (_, None) => false
  | (_, Some r) => let '(user, password) := partition_at ":" (rev r) in
                   negb (empty user) || negb (empty (from_opt [] password))
  end.

(** [urlunsplit] of a scheme, a network location and a path. *)
Definition urlunsplit (scheme netloc path : string) : string :=
  let path := match chars path with [] => path | c :: _ => if Ascii.eqb c "/" then path else "/" +:+ path end in
  scheme +:+ "://" +:+ netloc +:+ path.

(** ** Encoding a query *)

Definition unreserved (c : ascii) : bool :=
  is_alpha c || match digit c with Some _ => true | None => false end || in_chars c "_.-~".
Definition percent (c : ascii) : list ascii :=
  let h z := chr (if z <? 10 then 48 + z else 55 + z) in ["%"%char; h (code c / 16); h (code c mod 16)].

(** [quote_plus(s)] *)
Definition quote_plus (s : string) : string :=
  of_chars (flat_map (fun c => if Ascii.eqb c " " then ["+"%char] else if unreserved c then [c] else percent c) (chars (utf8 s))).

(** [urlencode] of pairs of strings. *)
Definition urlencode (l : list (string * string)) : string :=
  join "&" (map (fun kv => quote_plus kv.1 +:+ "=" +:+ quote_plus kv.2) l).

Example urlencode_demo : urlencode [("from", "2024-01-01T00:00:00Z"); ("q", "a b/~")] = "from=2024-01-01T00%3A00%3A00Z&q=a+b%2F~".
Proof. reflexivity. Qed.
