(* ===== verification/Auth.v ===== *)
(** * Sign-in, sessions and access (studio/auth.py, and its store in studio/database.py)

    Members sign in through Entra; the store keeps them, the login
    transactions and the sessions.  A store is an instance of [AuthStore]: the
    Redis one, or members in PostgreSQL beside Redis.  The operations are
    programs of calls, so they interleave. *)

From S2P Require Import Prelude PyStr PyVal PySort PyTime PyUrl Json JsonLoads Sha256 Transport Codec Redis.
From S2P Require Import StudioErrors StudioTime Interleave Calls.
From Stdlib Require Import Ascii.

(** ** Members *)

(** [StudioRole], studio/auth.py:61-63. *)
Inductive StudioRole := ADMIN | READONLY.
(** [StudioMemberStatus], studio/auth.py:66-69. *)
Inductive StudioMemberStatus := PENDING | ACTIVE | BLOCKED.

#[export] Instance role_eq_dec : EqDecision StudioRole.
Proof. solve_decision. Defined.
#[export] Instance member_status_eq_dec : EqDecision StudioMemberStatus.
Proof. solve_decision. Defined.

Definition role_value (r : StudioRole) : string := match r with ADMIN => "admin" | READONLY => "readonly" end.
Definition status_value (s : StudioMemberStatus) : string :=
  match s with PENDING => "pending" | ACTIVE => "active" | BLOCKED => "blocked" end.

(** [StudioMember], studio/auth.py:72-84. *)
Record StudioMember := Member {
  m_user_id : string; m_tenant_id : string; m_object_id : string; m_email : string; m_display_name : string;
  m_role : StudioRole; m_status : StudioMemberStatus; m_created_at : string; m_updated_at : string;
  m_last_sign_in_at : option string }.

#[export] Instance member_eq_dec : EqDecision StudioMember.
Proof. solve_decision. Defined.

Definition is_active_admin (m : StudioMember) : bool := bool_decide (m_role m = ADMIN) && bool_decide (m_status m = ACTIVE).

(** [StudioUserUpdate], studio/auth.py:97-99. *)
Record StudioUserUpdate := UserUpdate { up_role : option StudioRole; up_status : option StudioMemberStatus }.

(** [StudioEntraConfig], studio/auth.py:103-118. *)
Record StudioEntraConfig := EntraConfig {
  application_id : string; tenant_id : string; issuer : string; discovery_url : string; redirect_uri : string;
  private_key_path : string; certificate_path : string; admin_emails : list string; admin_object_ids : list string;
  session_ttl_seconds : Z; login_ttl_seconds : Z; session_cookie_secure : bool; redis_prefix : string;
  jwks_cache_ttl_seconds : Z; clock_skew_seconds : Z }.

Definition normalized_items (l : list string) : list string :=
  map (fun s => lower (strip s)) (List.filter (fun s => negb (String.eqb (strip s) "")) l).

Definition check (bad : bool) (text : string) : result unit := if bad then Raise (runtime_error text) else Ok tt.

(** [StudioEntraConfig.__post_init__], studio/auth.py:137-143: a URL of the configuration. *)
Definition check_url (name url : string) : result unit :=
  parsed ← urlsplit url;
  _ ← check (negb (str_in (scheme parsed) ["http"; "https"]) || String.eqb (netloc parsed) "")
        ("Studio Entra " +:+ name +:+ " must be an absolute HTTP(S) URL.");
  check (String.eqb (scheme parsed) "http"
         && negb (match hostname parsed with Some h => str_in h ["127.0.0.1"; "localhost"] | None => false end))
    ("Studio Entra " +:+ name +:+ " must use HTTPS outside localhost.").

(** [StudioEntraConfig.__post_init__], studio/auth.py:120-150. *)
Definition validate_entra_config (c : StudioEntraConfig) : result StudioEntraConfig :=
  let missing := map fst (List.filter (fun kv : string * string => String.eqb (strip kv.2) "")
    [("application_id", application_id c); ("tenant_id", tenant_id c); ("issuer", issuer c);
     ("discovery_url", discovery_url c); ("redirect_uri", redirect_uri c); ("private_key_path", private_key_path c);
     ("certificate_path", certificate_path c)]) in
  _ ← check (negb (match missing with [] => true | _ => false end))
        ("Studio Entra configuration is missing: " +:+ join ", " missing +:+ ".");
  _ ← check (negb (Bool.eqb (match admin_emails c with [] => false | _ => true end)
                            (match admin_object_ids c with [] => false | _ => true end)))
        "Studio Entra admin email and object-id allowlists must be configured together.";
  _ ← check ((session_ttl_seconds c <=? 0) || (login_ttl_seconds c <=? 0))
        "Studio Entra session and login TTLs must be positive.";
  _ ← check_url "issuer" (issuer c);
  _ ← check_url "discovery_url" (discovery_url c);
  _ ← check_url "redirect_uri" (redirect_uri c);
  Ok (EntraConfig (application_id c) (tenant_id c) (issuer c) (discovery_url c) (redirect_uri c) (private_key_path c)
        (certificate_path c) (normalized_items (admin_emails c)) (normalized_items (admin_object_ids c))
        (session_ttl_seconds c) (login_ttl_seconds c) (session_cookie_secure c) (redis_prefix c)
        (jwks_cache_ttl_seconds c) (clock_skew_seconds c)).

(** ** Tokens and what is stored under them *)

(** [_token_digest], studio/auth.py:44-45. *)
Definition token_digest (value : string) : string := Sha256.hexdigest (utf8 value).

(** [_b64url], studio/auth.py:48-49. *)
Definition b64url (value : string) : string :=
  of_chars (rev (drop_while (Ascii.eqb "=") (rev (chars (urlsafe_b64encode value))))).

(** [hashlib.sha256(s).digest()] *)
Definition sha256_bytes (s : string) : string := of_chars (map chr (Sha256.be_bytes 32 (Sha256.digest (utf8 s)))).

(** [_safe_return_to], studio/auth.py:52-58. *)
Definition safe_return_to (value : option string) : result string :=
  match nonempty (from_opt "" value) with
  | None => Ok "/"
  | Some v =>
      if negb (startswith "/" v) || startswith "//" v then Ok "/"
      else parsed ← urlsplit v;
           Ok (if negb (String.eqb (scheme parsed) "") || negb (String.eqb (netloc parsed) "") then "/" else v)
  end.

(** [secrets.compare_digest] of two strings: only ASCII ones can be compared. *)
Definition compare_digest (a b : string) : result bool :=
  if forallb (fun c => code c <? 128) (chars a ++ chars b) then Ok (String.eqb a b)
  else Raise (type_error "comparing strings with non-ASCII characters is not supported").

Definition compact : dumps_opts := DumpsOpts true false "," ":".

(** [_LoginTransaction], studio/auth.py:154-158. *)
Record LoginTransaction := Login { l_state : string; l_nonce : string; l_code_verifier : string; l_return_to : string }.
(** [_Session], studio/auth.py:170-172. *)
Record Session := Sess { s_user_id : string; s_csrf_token : string }.

#[export] Instance login_eq_dec : EqDecision LoginTransaction.
Proof. solve_decision. Defined.
#[export] Instance session_eq_dec : EqDecision Session.
Proof. solve_decision. Defined.

(** [cls] of the fields of a dataclass whose fields hold strings. *)
Definition from_fields (fields : list string) (v : pyval) : result pydict :=
  match v with
  | PDict d => if forallb (fun kv => str_in kv.1 fields) d && forallb (fun f => din f d) fields
               then Ok d else Raise (type_error "unexpected or missing keyword argument")
  | _ => Raise (type_error "argument after ** must be a mapping")
  end.
Definition text_of (d : pydict) (k : string) : string := match dgetv k d with PStr s => s | v => py_str v end.

(** [_LoginTransaction.dump], studio/auth.py:160-161. *)
Definition dump_login (t : LoginTransaction) : string :=
  dumps compact (PDict [("state", PStr (l_state t)); ("nonce", PStr (l_nonce t));
    ("code_verifier", PStr (l_code_verifier t)); ("return_to", PStr (l_return_to t))]).
(** [_LoginTransaction.load], studio/auth.py:164-166. *)
Definition load_login (pf : string -> pyfloat) (value : string) : result LoginTransaction :=
  payload ← py_json_loads pf value;
  d ← from_fields ["state"; "nonce"; "code_verifier"; "return_to"] payload;
  Ok (Login (text_of d "state") (text_of d "nonce") (text_of d "code_verifier") (text_of d "return_to")).

(** [_Session.dump], studio/auth.py:174-175. *)
Definition dump_session (s : Session) : string :=
  dumps compact (PDict [("user_id", PStr (s_user_id s)); ("csrf_token", PStr (s_csrf_token s))]).
(** [_Session.load], studio/auth.py:178-180. *)
Definition load_session (pf : string -> pyfloat) (value : string) : result Session :=
  payload ← py_json_loads pf value;
  d ← from_fields ["user_id"; "csrf_token"] payload;
  Ok (Sess (text_of d "user_id") (text_of d "csrf_token")).

(** ** The store *)

Notation AP S := (prog (call S studio_exn) studio_exn).

Definition http_error {A} (status : Z) (detail : string) : A + studio_exn := inr (HttpError status detail).

(** What the service asks of its store: the members, and the Redis that keeps logins and sessions. *)
Class AuthStore (S R : Type) := {
  as_redis : S -> R;
  as_set_redis : R -> S -> S;
  as_initialize : Z -> StudioEntraConfig -> AP S unit;
  as_upsert_login : Z -> pydict -> StudioEntraConfig -> AP S StudioMember;
  as_get_member : Z -> string -> AP S (option StudioMember);
  as_list_members : Z -> AP S (list StudioMember);
  as_update_member : Z -> string -> StudioUserUpdate -> string -> AP S StudioMember }.

Definition no_administrator : exn :=
  runtime_error "Studio has no active administrator; configure RELAYNA_STUDIO_ENTRA_ADMIN_EMAILS and RELAYNA_STUDIO_ENTRA_ADMIN_OBJECT_IDS for bootstrap.".

(** [str(claims[k]).strip().lower()] *)
Definition claim (claims : pydict) (k : string) : result string :=
  match dget k claims with Some v => Ok (lower (strip (py_str v))) | None => Raise (key_error k) end.

(** The identity of verified claims: tenant, object and email. *)
Definition identity (claims : pydict) : result (string * string * string) :=
  o ← claim claims "oid"; t ← claim claims "tid"; e ← claim claims "email"; Ok (t, o, e).

Definition display_name_of (claims : pydict) (email : string) : string :=
  let name := dgetv "name" claims in if truthy name then py_str name else email.

(** Whether the configuration makes a new member an administrator. *)
Definition bootstrap (c : StudioEntraConfig) (object_id email : string) : bool :=
  str_in email (admin_emails c) && str_in object_id (admin_object_ids c).

Definition with_update (m : StudioMember) (u : StudioUserUpdate) (now : string) : StudioMember :=
  Member (m_user_id m) (m_tenant_id m) (m_object_id m) (m_email m) (m_display_name m) (from_opt (m_role m) (up_role u))
    (from_opt (m_status m) (up_status u)) (m_created_at m) now (m_last_sign_in_at m).

Definition self_demotion : exn := value_error "Administrators cannot demote or block themselves.".
Definition last_administrator : exn := value_error "At least one active administrator must remain.".

Definition member_le (a b : StudioMember) : bool :=
  if String.eqb (m_email a) (m_email b) then String.leb (m_object_id a) (m_object_id b) else String.leb (m_email a) (m_email b).

(** *** Members in Redis *)

Module RedisAuth.
Section store.
Context {R : Type} `{Redis R} `{JsonModel StudioMember}.
(** The prefix without its trailing colons. *)
Context (prefix : string).
Notation AP := (AP R).

(** [StudioAuthStore._member_key], studio/auth.py:204-205. *)
Definition member_key (user_id : string) : string := prefix +:+ ":member:" +:+ lower user_id.
(** [StudioAuthStore._members_key], studio/auth.py:208-209. *)
Definition members_key : string := prefix +:+ ":members".
(** [StudioAuthStore._active_admins_key], studio/auth.py:212-213. *)
Definition active_admins_key : string := prefix +:+ ":active-admins".

(** [SCARD] *)
Definition scard (r : R) (now : Z) (key : string) : Z := Z.of_nat (length (rsmembers r now key)).

(** [StudioAuthStore.initialize], studio/auth.py:215-221. *)
Definition initialize (now : Z) (config : StudioEntraConfig) : AP unit :=
  admin_count ← query (fun r => scard r now active_admins_key);
  if (admin_count =? 0) && match admin_emails config with [] => true | _ => false end
  then lift (inr (OtherError no_administrator)) else mret tt.

(** [StudioAuthStore.upsert_login], studio/auth.py:231-254: the member that signs in. *)
Definition signed_in (now : Z) (claims : pydict) (config : StudioEntraConfig) (tenant object_id email : string)
    (existing_raw : option string) : result StudioMember :=
  let user_id := tenant +:+ ":" +:+ object_id in
  let now := isoformat_z now in
  match nonempty (from_opt "" existing_raw) with
  | Some raw =>
      existing ← validate_json raw;
      Ok (Member (m_user_id existing) (m_tenant_id existing) (m_object_id existing) email (display_name_of claims email)
            (m_role existing) (m_status existing) (m_created_at existing) now (Some now))
  | None =>
      let b := bootstrap config object_id email in
      Ok (Member user_id tenant object_id email (display_name_of claims email) (if b then ADMIN else READONLY)
            (if b then ACTIVE else PENDING) now now (Some now))
  end.

(** [StudioAuthStore.upsert_login], studio/auth.py:255-260: the pipeline, a transaction. *)
Definition store_member (now : Z) (user_id : string) (member : StudioMember) (r : R) : R :=
  let r := rset r now (member_key user_id) (dump_json member) None in
  let r := (rsadd r now members_key user_id).1 in
  if is_active_admin member then (rsadd r now active_admins_key user_id).1 else r.

(** [StudioAuthStore.upsert_login], studio/auth.py:223-261. *)
Definition upsert_login (now : Z) (claims : pydict) (config : StudioEntraConfig) : AP StudioMember :=
  '(tenant, object_id, email) ← lift (lift_exn (identity claims));
  let user_id := tenant +:+ ":" +:+ object_id in
  existing_raw ← query (fun r => rget r now (member_key user_id));
  member ← lift (lift_exn (signed_in now claims config tenant object_id email existing_raw));
  _ ← invoke_ (store_member now user_id member);
  mret member.

(** [StudioAuthStore.get_member], studio/auth.py:263-265. *)
Definition get_member (now : Z) (user_id : string) : AP (option StudioMember) :=
  raw ← query (fun r => rget r now (member_key user_id));
  match nonempty (from_opt "" raw) with
  | None => mret None
  | Some raw => m ← lift (lift_exn (validate_json raw)); mret (Some m)
  end.

(** [StudioAuthStore.list_members], studio/auth.py:267-275. *)
Definition list_members (now : Z) : AP (list StudioMember) :=
  ids ← query (fun r => rsmembers r now members_key);
  match sort_by String.leb ids with
  | [] => mret []
  | user_ids =>
      values ← query (fun r => map (fun id => rget r now (member_key id)) user_ids);
      l ← lift (lift_exn (mapM_result validate_json (omap (fun v => nonempty (from_opt "" v)) values)));
      mret (sort_by member_le l)
  end.

(** [StudioAuthStore._UPDATE_MEMBER_SCRIPT], studio/auth.py:184-198. *)
Definition update_member_script (now : Z) (user_id : string) (next_text : string) (r : R) : R * result string :=
  match rget r now (member_key user_id) with
  | None => (r, Ok "NOT_FOUND")
  | Some current_raw =>
      match validate_json current_raw, validate_json next_text with
      | Ok current, Ok next =>
          if is_active_admin current && negb (is_active_admin next) && (scard r now active_admins_key <=? 1)
          then (r, Ok "LAST_ADMIN")
          else
            let r := rset r now (member_key user_id) next_text None in
            (if is_active_admin next then (rsadd r now active_admins_key (m_user_id next)).1
             else rsrem r now active_admins_key (m_user_id next), Ok "OK")
      | Raise e, _ | _, Raise e => (r, Raise e)
      end
  end.

(** [StudioAuthStore.update_member], studio/auth.py:277-313. *)
Definition update_member (now : Z) (user_id : string) (u : StudioUserUpdate) (actor_user_id : string) : AP StudioMember :=
  current ← get_member now user_id;
  match current with
  | None => lift (inr (OtherError (key_error user_id)))
  | Some current =>
      let next := with_update current u (isoformat_z now) in
      if String.eqb user_id actor_user_id && negb (is_active_admin next) then lift (inr (OtherError self_demotion))
      else
        answer ← invoke (update_member_script now user_id (dump_json next));
        normalized ← lift (lift_exn answer);
        if String.eqb normalized "LAST_ADMIN" then lift (inr (OtherError last_administrator))
        else if String.eqb normalized "NOT_FOUND" then lift (inr (OtherError (key_error user_id)))
        else mret next
  end.

#[export] Instance redis_auth_store : AuthStore R R := {
  as_redis r := r; as_set_redis r _ := r;
  as_initialize := initialize; as_upsert_login := upsert_login; as_get_member := get_member;
  as_list_members := list_members; as_update_member := update_member }.
End store.
End RedisAuth.

(** *** Members in PostgreSQL *)

Module HybridAuth.

(** A row of [studio_members], without its key. *)
Record member_row := MemberRow {
  mr_tenant_id : string; mr_object_id : string; mr_email : string; mr_display_name : string; mr_role : StudioRole;
  mr_status : StudioMemberStatus; mr_created_at : Z; mr_updated_at : Z; mr_last_sign_in_at : option Z }.

(** An entry of the audit log. *)
Record audit_entry := AuditEntry { au_actor : string; au_action : string; au_target : string; au_details : list (string * string) }.

Record member_tables := MemberTables { members : gmap string member_row; audit_log : list audit_entry }.

(** [_member_from_row], studio/database.py:1504-1516. *)
Definition member_from_row (user_id : string) (row : member_row) : StudioMember :=
  Member user_id (mr_tenant_id row) (mr_object_id row) (mr_email row) (mr_display_name row) (mr_role row) (mr_status row)
    (isoformat_z (mr_created_at row)) (isoformat_z (mr_updated_at row)) (isoformat_z <$> mr_last_sign_in_at row).

(** The rows of active administrators. *)
Definition active_admins (t : member_tables) : gmap string member_row :=
  filter (fun kv => mr_role kv.2 = ADMIN /\ mr_status kv.2 = ACTIVE) (members t).

Section store.
Context {R : Type}.
Notation S := (R * member_tables)%type.
Notation AP := (AP S).

(** A transaction on the tables. *)
Definition transaction {A} (f : member_tables -> member_tables * A + studio_exn) : AP A :=
  transact (fun s => match f s.2 with inl (t, a) => inl ((s.1, t), a) | inr e => inr e end).

(** [HybridStudioAuthStore.initialize], studio/database.py:1527-1538. *)
Definition initialize (now : Z) (config : StudioEntraConfig) : AP unit :=
  count ← query (fun s : S => Z.of_nat (size (active_admins s.2)));
  if (count =? 0) && match admin_emails config with [] => true | _ => false end
  then lift (inr (OtherError no_administrator)) else mret tt.

(** [HybridStudioAuthStore.upsert_login], studio/database.py:1546-1587: the transaction. *)
Definition upsert_tables (now : Z) (claims : pydict) (config : StudioEntraConfig) (tenant object_id email : string)
    (t : member_tables) : member_tables * StudioMember :=
  let user_id := tenant +:+ ":" +:+ object_id in
  let b := bootstrap config object_id email in
  let '(role, status, created_at) :=
    match members t !! user_id with
    | Some row =>
        let current := member_from_row user_id row in
        (m_role current, m_status current, from_opt now (parse_timestamp (Some (m_created_at current))))
    | None => (if b then ADMIN else READONLY, if b then ACTIVE else PENDING, now)
    end in
  let row := MemberRow tenant object_id email (display_name_of claims email) role status created_at now (Some now) in
  let entry := AuditEntry user_id "member.create" user_id [("role", role_value role); ("status", status_value status)] in
  (MemberTables (<[user_id := row]> (members t))
     (audit_log t ++ match members t !! user_id with None => [entry] | Some _ => [] end),
   member_from_row user_id row).

(** [HybridStudioAuthStore.upsert_login], studio/database.py:1540-1599. *)
Definition upsert_login (now : Z) (claims : pydict) (config : StudioEntraConfig) : AP StudioMember :=
  '(tenant, object_id, email) ← lift (lift_exn (identity claims));
  transaction (fun t => inl (upsert_tables now claims config tenant object_id email t)).

(** [HybridStudioAuthStore.get_member], studio/database.py:1601-1608. *)
Definition get_member (now : Z) (user_id : string) : AP (option StudioMember) :=
  query (fun s : S => fmap (M := option) (member_from_row (lower user_id)) (members s.2 !! lower user_id)).

(** [HybridStudioAuthStore.list_members], studio/database.py:1610-1615. *)
Definition list_members (now : Z) : AP (list StudioMember) :=
  query (fun s : S => sort_by member_le (map (fun kv => member_from_row kv.1 kv.2) (map_to_list (members s.2)))).

(** [HybridStudioAuthStore.update_member], studio/database.py:1620-1670: the transaction. *)
Definition update_tables (now : Z) (user_id : string) (u : StudioUserUpdate) (actor_user_id : string) (t : member_tables) :
    member_tables * StudioMember + studio_exn :=
  match members t !! user_id with
  | None => inr (OtherError (key_error user_id))
  | Some row =>
      let current := member_from_row user_id row in
      let next := with_update current u (isoformat_z now) in
      if String.eqb user_id actor_user_id && negb (is_active_admin next) then inr (OtherError self_demotion)
      else if is_active_admin current && negb (is_active_admin next) && (Z.of_nat (size (active_admins t)) <=? 1)
      then inr (OtherError last_administrator)
      else
        let row' := MemberRow (mr_tenant_id row) (mr_object_id row) (mr_email row) (mr_display_name row) (m_role next)
                      (m_status next) (mr_created_at row) now (mr_last_sign_in_at row) in
        inl (MemberTables (<[user_id := row']> (members t))
               (audit_log t ++ [AuditEntry actor_user_id "member.update" user_id
                  [("previous_role", role_value (m_role current)); ("previous_status", status_value (m_status current));
                   ("role", role_value (m_role next)); ("status", status_value (m_status next))]]), next)
  end.

(** [HybridStudioAuthStore.update_member], studio/database.py:1617-1671: under the lock of the administrators. *)
Definition update_member (now : Z) (user_id : string) (u : StudioUserUpdate) (actor_user_id : string) : AP StudioMember :=
  transaction (update_tables now user_id u actor_user_id).

#[export] Instance hybrid_auth_store : AuthStore S R := {
  as_redis := fst; as_set_redis r s := (r, s.2);
  as_initialize := initialize; as_upsert_login := upsert_login; as_get_member := get_member;
  as_list_members := list_members; as_update_member := update_member }.
End store.
End HybridAuth.

(** ** The service *)

(** What the statements count: the logins that were saved and the sessions that were given out, with the login,
    the state and the claims they came from. *)
Inductive auth_event :=
| LoginSaved (digest : string) (t : LoginTransaction)
| SessionIssued (digest : string) (s : Session) (t : LoginTransaction) (state : string) (claims : pydict).

(** The verification of tokens by PyJWT and the key sets of Entra: the header of a token, the keys (fetched again
    or not), the claims of a token under a key, and the class of PyJWT's exceptions. *)
Record token_library := TokenLibrary {
  unverified_header : string -> result pydict;
  jwks_keys : bool -> list pyval + studio_exn;
  jwt_decode : string -> pydict -> result pydict;
  is_jwt_error : exn -> bool }.

(** The request headers and cookies that the service reads. *)
Record request := Request {
  rq_path : string; rq_method : string; rq_session_cookie : option string; rq_csrf_header : option string }.

(** What becomes of a request: it is passed on, with the member it is made by, or answered. *)
Inductive decision := PassedOn (actor : option StudioMember) | Answered (status : Z) (detail : string).

Section service.
Context {S R : Type} `{Redis R} `{!AuthStore S R}.
(** The floats of JSON, the prefix of the store, the configuration. *)
Context (pf : string -> pyfloat) (prefix : string) (config : StudioEntraConfig).

Notation W := (S * list auth_event)%type.
Notation AP := (AP W).

Definition on_store {A} (m : prog (call S studio_exn) studio_exn A) : AP A := zoom fst (fun s (w : W) => (s, w.2)) m.
Definition on_redis (f : R -> R) (s : S) : S := as_set_redis (f (as_redis s)) s.

Definition login_key (raw_token : string) : string := prefix +:+ ":login:" +:+ token_digest raw_token.
Definition session_key (raw_token : string) : string := prefix +:+ ":session:" +:+ token_digest raw_token.

(** [StudioAuthStore.save_login], studio/auth.py:315-316; [HybridStudioAuthStore] has the same. *)
Definition save_login (now : Z) (raw_token : string) (t : LoginTransaction) (ttl : Z) : AP unit :=
  invoke_ (fun w : W =>
    let (r, saved) := rset_nx (as_redis w.1) now (login_key raw_token) (dump_login t) (Some ttl) in
    (as_set_redis r w.1, if saved then w.2 ++ [LoginSaved (token_digest raw_token) t] else w.2)).

(** [StudioAuthStore.consume_login], studio/auth.py:318-320: [GETDEL]. *)
Definition consume_login (now : Z) (raw_token : string) : AP (option LoginTransaction) :=
  raw ← invoke (fun w : W =>
    let raw := rget (as_redis w.1) now (login_key raw_token) in
    ((on_redis (fun r => (rdel r now (login_key raw_token)).1) w.1, w.2), raw));
  match nonempty (from_opt "" raw) with
  | None => mret None
  | Some raw => t ← lift (lift_exn (load_login pf raw)); mret (Some t)
  end.

(** [StudioAuthStore.save_session], studio/auth.py:322-323. *)
Definition save_session (now : Z) (raw_token : string) (s : Session) (ttl : Z) (t : LoginTransaction) (state : string)
    (claims : pydict) : AP unit :=
  invoke_ (fun w : W =>
    (on_redis (fun r => rset r now (session_key raw_token) (dump_session s) (Some ttl)) w.1,
     w.2 ++ [SessionIssued (token_digest raw_token) s t state claims])).

(** [StudioAuthStore.get_session], studio/auth.py:325-327. *)
Definition get_session (now : Z) (raw_token : string) : AP (option Session) :=
  raw ← query (fun w : W => rget (as_redis w.1) now (session_key raw_token));
  match nonempty (from_opt "" raw) with
  | None => mret None
  | Some raw => s ← lift (lift_exn (load_session pf raw)); mret (Some s)
  end.

(** [StudioAuthStore.delete_session], studio/auth.py:329-330. *)
Definition delete_session (now : Z) (raw_token : string) : AP unit :=
  invoke_ (fun w : W => (on_redis (fun r => (rdel r now (session_key raw_token)).1) w.1, w.2)).

(** *** Signing in *)

(** [StudioAuthService._document], studio/auth.py:376-382: a discovery document that was fetched. *)
Definition check_document (document : pydict) : result pydict :=
  if negb (forallb (fun k => din k document) ["authorization_endpoint"; "token_endpoint"; "jwks_uri"])
  then Raise (runtime_error "Studio Entra discovery document is incomplete.")
  else if negb (bool_decide (dgetv "issuer" document = PStr (issuer config)))
  then Raise (runtime_error "Studio Entra discovery issuer does not match the configured issuer.")
  else Ok document.

(** [StudioAuthService.start_login], studio/auth.py:399-424: the tokens are those that were drawn. *)
Definition start_login (now : Z) (document : pydict + studio_exn) (raw_login state nonce verifier : string)
    (return_to : option string) : AP (string * string) :=
  document ← lift document;
  return_to ← lift (lift_exn (safe_return_to return_to));
  _ ← save_login now raw_login (Login state nonce verifier return_to) (login_ttl_seconds config);
  let query := urlencode
    [("client_id", application_id config); ("response_type", "code"); ("redirect_uri", redirect_uri config);
     ("response_mode", "query"); ("scope", "openid profile email"); ("state", state); ("nonce", nonce);
     ("code_challenge", b64url (sha256_bytes verifier)); ("code_challenge_method", "S256")] in
  mret (py_str (dgetv "authorization_endpoint" document) +:+ "?" +:+ query, raw_login).

(** [next(item for item in keys if item.get("kid") == kid)] *)
Fixpoint key_of (kid : pyval) (keys : list pyval) : result (option pydict) :=
  match keys with
  | [] => Ok None
  | PDict d :: keys => if bool_decide (dgetv "kid" d = kid) then Ok (Some d) else key_of kid keys
  | _ :: _ => Raise (Exn XAttributeError "AttributeError" "object has no attribute 'get'")
  end.

Definition invalid_token {A} : A + studio_exn := http_error 400 "Microsoft Entra returned an invalid ID token.".

(** What the [except] clause of [_verify_id_token] turns into [invalid_token]. *)
Definition token_errors (lib : token_library) {A} (x : A + studio_exn) : A + studio_exn :=
  match x with
  | inr (OtherError e) =>
      if is_jwt_error lib e || is_value_error e || match exn_class e with XTypeError => true | _ => false end
      then invalid_token else x
  | _ => x
  end.

(** [StudioAuthService._verify_id_token], studio/auth.py:479-494: the claims of a token under the key its header names. *)
Definition decoded_claims (lib : token_library) (token : string) : pydict + studio_exn :=
  let! header := lift_exn (unverified_header lib token) in
  let! keys := jwks_keys lib false in
  let kid := dgetv "kid" header in
  let! found := lift_exn (key_of kid keys) in
  let! key := match found with
        | Some key => inl key
        | None => let! keys := jwks_keys lib true in
                  let! found := lift_exn (key_of kid keys) in
                  match found with Some key => inl key | None => invalid_token end
        end in
  lift_exn (jwt_decode lib token key).

(** [StudioAuthService._verify_id_token], studio/auth.py:477-504. *)
Definition verify_id_token (lib : token_library) (token nonce : string) : pydict + studio_exn :=
  let! claims := token_errors lib (decoded_claims lib token) in
  if negb (bool_decide (dgetv "tid" claims = PStr (tenant_id config))) || negb (truthy (dgetv "oid" claims))
  then http_error 403 "The Entra identity does not belong to the configured tenant."
  else
    let! same := match dgetv "nonce" claims with PStr n => lift_exn (compare_digest n nonce) | _ => inl false end in
    if negb same then http_error 400 "Microsoft Entra returned an invalid login nonce."
    else
      match (if truthy (dgetv "email" claims) then dgetv "email" claims else dgetv "preferred_username" claims) with
      | PStr email => if String.eqb (strip email) "" then http_error 403 "The Entra identity has no usable email address."
                      else inl (dset "email" (PStr email) claims)
      | _ => http_error 403 "The Entra identity has no usable email address."
      end.

(** The answer of the token endpoint: its status, and its body when that is JSON. *)
Record token_response := TokenResponse { tr_status : Z; tr_body : result pyval }.

(** [StudioAuthService.finish_login], studio/auth.py:461-465: the [id_token] of an answer. *)
Definition id_token_of (response : token_response) : string + studio_exn :=
  if (400 <=? tr_status response) && (tr_status response <? 600)
  then http_error 502 "Microsoft Entra rejected the Studio login exchange."
  else
    let! body := lift_exn (tr_body response) in
    match body with
    | PDict d => match dgetv "id_token" d with
                 | PStr token => inl token
                 | _ => http_error 502 "Microsoft Entra did not return an ID token."
                 end
    | _ => inr (OtherError (Exn XAttributeError "AttributeError" "object has no attribute 'get'"))
    end.

Definition invalid_login {A} : A + studio_exn := http_error 400 "The login transaction is invalid or expired.".

(** [StudioAuthService.finish_login], studio/auth.py:443-475: [exchange] is the request to the token endpoint. *)
Definition finish_login (now : Z) (lib : token_library) (document : pydict + studio_exn)
    (exchange : string -> string -> string -> token_response + studio_exn) (raw_session csrf_token : string)
    (raw_login state code : string) : AP (string * StudioMember * string) :=
  found ← consume_login now raw_login;
  t ← lift (match found with
            | None => invalid_login
            | Some t => let! same := lift_exn (compare_digest (l_state t) state) in if negb same then invalid_login else inl t
            end);
  document ← lift document;
  endpoint ← lift (match dget "token_endpoint" document with Some v => inl (py_str v) | None => inr (OtherError (key_error "token_endpoint")) end);
  response ← lift (exchange endpoint code (l_code_verifier t));
  token ← lift (id_token_of response);
  claims ← lift (verify_id_token lib token (l_nonce t));
  member ← on_store (as_upsert_login now claims config);
  _ ← save_session now raw_session (Sess (m_user_id member) csrf_token) (session_ttl_seconds config) t state claims;
  mret (raw_session, member, l_return_to t).

(** *** Requests *)

(** [StudioAuthService.session_context], studio/auth.py:506-514. *)
Definition session_context (now : Z) (rq : request) : AP (option (Session * StudioMember)) :=
  match nonempty (from_opt "" (rq_session_cookie rq)) with
  | None => mret None
  | Some raw_token =>
      session ← get_session now raw_token;
      match session with
      | None => mret None
      | Some s => member ← on_store (as_get_member now (s_user_id s));
                  mret (match member with Some m => Some (s, m) | None => None end)
      end
  end.

(** [StudioAuthMiddleware.__call__], studio/auth.py:535-546: the paths that need no session. *)
Definition public_paths : list string :=
  ["/studio/auth/config"; "/studio/auth/login"; "/studio/auth/callback"; "/studio/gateway/services"; "/studio/ingest/events";
   "/studio/ingest/reliability-alerts"; "/metrics"; "/healthz"; "/readyz"; "/livez"].

(** [s.upper()] of a method, which is ASCII. *)
Definition upper_char (c : ascii) : ascii := let z := code c in if (97 <=? z) && (z <=? 122) then chr (z - 32) else c.
Definition upper (s : string) : string := of_chars (map upper_char (chars s)).

Definition is_public (rq : request) : bool := String.eqb (upper (rq_method rq)) "OPTIONS" || str_in (rq_path rq) public_paths.
Definition session_limited (rq : request) : bool := str_in (rq_path rq) ["/studio/auth/session"; "/studio/auth/logout"].
Definition reads_only (rq : request) : bool := str_in (upper (rq_method rq)) ["GET"; "HEAD"; "OPTIONS"].

(** [StudioAuthMiddleware.__call__], studio/auth.py:556-579: a session and its member. *)
Definition authorize (rq : request) (s : Session) (m : StudioMember) : decision + studio_exn :=
  let csrf :=
    if reads_only rq then inl (PassedOn (Some m))
    else
      let supplied := from_opt "" (rq_csrf_header rq) in
      let! same := (if String.eqb supplied "" then inl false else lift_exn (compare_digest supplied (s_csrf_token s))) in
      if (same : bool) then inl (PassedOn (Some m)) else inl (Answered 403 "The Studio CSRF token is missing or invalid.") in
  if session_limited rq then
    if str_in (upper (rq_method rq)) ["GET"; "HEAD"; "POST"] then csrf else inl (Answered 405 "Method not allowed.")
  else if negb (bool_decide (m_status m = ACTIVE)) then inl (Answered 403 ("Studio account is " +:+ status_value (m_status m) +:+ "."))
  else if startswith "/studio/admin/" (rq_path rq) && negb (bool_decide (m_role m = ADMIN))
  then inl (Answered 403 "Studio administrator access is required.")
  else if negb (reads_only rq) && negb (bool_decide (m_role m = ADMIN))
  then inl (Answered 403 "Studio administrator access is required.")
  else csrf.

(** [StudioAuthMiddleware.__call__], studio/auth.py:528-584. *)
Definition serve (now : Z) (rq : request) : AP decision :=
  if is_public rq then mret (PassedOn None)
  else
    context ← session_context now rq;
    match context with
    | None => mret (Answered 401 "Studio authentication is required.")
    | Some (s, m) => lift (authorize rq s m)
    end.

(** [admin_update_user], studio/auth.py:671-682: the route of an update, made by the member of the request. *)
Definition admin_update_user (now : Z) (actor : option StudioMember) (user_id : string) (u : StudioUserUpdate) : AP StudioMember :=
  match actor with
  | None => lift (http_error 401 "Studio authentication is required.")
  | Some actor =>
      x ← attempted (on_store (as_update_member now user_id u (m_user_id actor)));
      lift match x with
           | inr (OtherError e) =>
               match exn_class e with
               | XKeyError => http_error 404 ("Studio user '" +:+ user_id +:+ "' was not found.")
               | _ => if is_value_error e then http_error 409 (exn_text e) else x
               end
           | _ => x
           end
  end.
End service.
