(* ===== verification/AuthSpec.v ===== *)
(** * Sign-in, sessions and access: what they promise

    Over every interleaving of sign-ins, requests and updates of members, with
    any call failing and any program lost: a session comes from a login of its
    own that was verified; a request that changes something is made by an
    active administrator; an administrator remains.  The theorems are proved
    against the laws of a store, which both stores satisfy. *)

From stdpp Require Import countable.
From S2P Require Import Prelude PyStr PyVal PySort PyTime Json JsonLoads Codec Redis StudioErrors StudioTime Interleave Calls Auth.
From Stdlib Require Import Ascii.

(** ** Texts *)

Lemma lower_char_idem c : lower_char (lower_char c) = lower_char c.
Proof. by destruct c as [[] [] [] [] [] [] [] []]. Qed.

Lemma lower_idem s : lower (lower s) = lower s.
Proof. unfold lower. rewrite chars_of_chars, map_map. f_equal. apply map_ext, lower_char_idem. Qed.

Lemma of_chars_app a b : of_chars (a ++ b)%list = of_chars a +:+ of_chars b.
Proof. rewrite <- (of_chars_chars (of_chars a +:+ of_chars b)), chars_app, !chars_of_chars. done. Qed.

Lemma lower_append a b : lower (a +:+ b) = lower a +:+ lower b.
Proof. unfold lower. by rewrite chars_app, map_app, of_chars_app. Qed.

Lemma load_dump_login pf t : load_login pf (dump_login t) = Ok t.
Proof. unfold load_login, dump_login. rewrite (loads_dumps pf compact [] []) by (try done; by constructor). cbn. by destruct t. Qed.

Lemma load_dump_session pf s : load_session pf (dump_session s) = Ok s.
Proof. unfold load_session, dump_session. rewrite (loads_dumps pf compact [] []) by (try done; by constructor). cbn. by destruct s. Qed.

Lemma compare_digest_true a b : compare_digest a b = Ok true -> a = b.
Proof. unfold compare_digest. destruct (forallb _ _); [|done]. intros [= E]. by apply String.eqb_eq. Qed.

(** The user of verified claims. *)
Definition user_of (claims : pydict) : option string :=
  match identity claims with Ok (t, o, _) => Some (t +:+ ":" +:+ o) | Raise _ => None end.

Lemma claim_lower claims k s : claim claims k = Ok s -> lower s = s.
Proof. unfold claim. destruct (dget k claims); [|done]. intros [= <-]. apply lower_idem. Qed.

Lemma identity_user claims t o e : identity claims = Ok (t, o, e) ->
  user_of claims = Some (t +:+ ":" +:+ o) /\ lower (t +:+ ":" +:+ o) = t +:+ ":" +:+ o.
Proof.
  intros E. unfold user_of. rewrite E. split; [done|]. unfold identity in E.
  apply result_bind_ok in E as (o' & Ho & E). apply result_bind_ok in E as (t' & Ht & E). apply result_bind_ok in E as (e' & He & [= <- <- <-]).
  rewrite !lower_append. by rewrite (claim_lower _ _ _ Ho), (claim_lower _ _ _ Ht).
Qed.

(** ** What a store promises *)

(** The keys of logins and sessions. *)
Definition auth_key (prefix k : string) : Prop := exists raw, k = login_key prefix raw \/ k = session_key prefix raw.

Section kept.
Context {S R : Type} `{RedisLaws R} `{!AuthStore S R} (prefix : string).

(** Two states with the same logins and sessions. *)
Definition auth_kept (s s' : S) : Prop :=
  forall k, auth_key prefix k -> model (as_redis s') !! k = model (as_redis s) !! k.
(** Two servers that differ in logins and sessions only. *)
Definition auth_only (r r' : R) : Prop := forall k, ~ auth_key prefix k -> model r' !! k = model r !! k.
End kept.

Class AuthStoreLaws (S R : Type) `{RedisLaws R} `{!AuthStore S R} (prefix : string) := {
  (** The member of an id, the consistency of the members, and that their index of administrators is exact. *)
  as_member : S -> string -> option StudioMember;
  as_inv : S -> Prop;
  as_orderly : S -> Prop;
  law_redis (r : R) (s : S) : as_redis (as_set_redis r s) = r;
  law_inv_auth (r : R) (s : S) : as_inv s -> auth_only prefix (as_redis s) r -> as_inv (as_set_redis r s);
  law_upsert now claims c : safe answers (fun (s : S) (_ : list unit) => as_inv s) [] (as_upsert_login now claims c)
    (fun _ x => match x with inl m => user_of claims = Some (m_user_id m) | inr _ => True end);
  law_get_member now id : safe answers (fun (s : S) (_ : list unit) => as_inv s) [] (as_get_member now id) (fun _ _ => True);
  law_update now id u actor :
    safe answers (fun (s : S) (_ : list unit) => as_inv s) [] (as_update_member now id u actor) (fun _ _ => True);
  law_upsert_keeps now claims c : calls_keep (auth_kept prefix) (as_upsert_login now claims c);
  law_get_keeps now id : calls_keep (auth_kept prefix) (as_get_member now id);
  law_update_keeps now id u actor : calls_keep (auth_kept prefix) (as_update_member now id u actor);
  law_get_run s now id : as_inv s -> run (as_get_member now id) s = (s, inl (as_member s (lower id)));
  law_update_admin now id u actor :
    safe answers (fun (s : S) (_ : list unit) => as_orderly s /\ exists i m, as_member s i = Some m /\ is_active_admin m = true) []
      (as_update_member now id u actor) (fun _ _ => True);
  law_upsert_admin s now claims c : as_orderly s -> (exists i m, as_member s i = Some m /\ is_active_admin m = true) ->
    as_orderly (run (as_upsert_login now claims c) s).1 /\
    exists i m, as_member (run (as_upsert_login now claims c) s).1 i = Some m /\ is_active_admin m = true }.

(** ** Programs of the store inside the service *)

Lemma zoom_safe {S L X G A : Type} (I : S -> Prop) (J : S * L -> list G -> Prop) (K : S -> S -> Prop)
    (m : prog (call S X) X A) (Q : A + X -> Prop) (F : list G) :
  (forall w s' o, J w o -> K w.1 s' -> J (s', w.2) o) -> (forall s, K s s) ->
  calls_keep K m -> safe answers (fun s (_ : list unit) => I s) [] m (fun _ x => Q x) ->
  safe answers (fun w o => I w.1 /\ J w o) F (zoom fst (fun s (w : S * L) => (s, w.2)) m) (fun F' x => F' = F /\ Q x).
Proof.
  intros HJ Hr. generalize (@nil unit). induction m as [a|x|Y e k IH]; intros U Hk Hs; cbn in *; [done..|].
  destruct e as [B f]. cbn in *. destruct Hk as [Hf Hk]. intros w o w' y [HI HJw] Ha. exists F.
  assert (answers w.1 _ (Call f) w'.1 y /\ w' = (w'.1, w.2)) as [Ha' Hw'].
  { unfold on_part in Ha. specialize (Hf w.1). cbn. destruct (f w.1) as [s b]. destruct y as [c|e]; [by injection Ha as <- <-|].
    destruct Ha as [->| ->]; cbn; [split; [by left|by destruct w]|split; [by right|done]]. }
  destruct (Hs w.1 [] w'.1 y HI Ha') as (U' & HI' & Hs').
  split; [|apply (IH y U'); [apply Hk|exact Hs']]. split; [done|]. rewrite Hw'. apply HJ; [done|].
  destruct (answers_executed _ _ _ _ _ Ha') as [E|E]; rewrite E; [apply Hr|apply Hf].
Qed.

Section service.
Context {S R : Type} `{RedisLaws R} `{!AuthStore S R}.
Context (pf : string -> pyfloat) (prefix : string) (config : StudioEntraConfig) `{!AuthStoreLaws S R prefix}.
Notation W := (S * list auth_event)%type.
Notation AP := (prog (call W studio_exn) studio_exn).
Notation db_of w := (model (as_redis w.1)).

(** ** The accounting of logins and sessions *)

Definition saved (log : list auth_event) : list LoginTransaction :=
  omap (fun e => match e with LoginSaved _ t => Some t | _ => None end) log.
Definition used (log : list auth_event) : list LoginTransaction :=
  omap (fun e => match e with SessionIssued _ _ t _ _ => Some t | _ => None end) log.

(** A session that was given out for a token that was verified, with the state and the nonce of its login. *)
Definition genuine (e : auth_event) : Prop :=
  match e with
  | SessionIssued _ s t state claims =>
      l_state t = state /\ (exists lib token, verify_id_token config lib token (l_nonce t) = inl claims) /\
      dgetv "nonce" claims = PStr (l_nonce t) /\ dgetv "tid" claims = PStr (tenant_id config) /\
      user_of claims = Some (s_user_id s)
  | LoginSaved _ _ => True
  end.

(** The logins that Redis keeps, those that programs have taken and those that gave sessions are saved ones. *)
Definition logins_accounted (w : W) (taken : list LoginTransaction) : Prop :=
  exists L : gmap string LoginTransaction,
    (forall raw v dl, db_of w !! login_key prefix raw = Some (v, dl) ->
       exists t, v = RStr (dump_login t) /\ L !! token_digest raw = Some t) /\
    map snd (map_to_list L) ++ taken ++ used w.2 ⊆+ saved w.2.

Definition sessions_issued (w : W) : Prop :=
  forall raw v dl, db_of w !! session_key prefix raw = Some (v, dl) ->
    exists s t st cl, v = RStr (dump_session s) /\ SessionIssued (token_digest raw) s t st cl ∈ w.2.

Definition accounted (w : W) (taken : list LoginTransaction) : Prop :=
  logins_accounted w taken /\ sessions_issued w /\ Forall genuine w.2.
Definition Inv (w : W) (taken : list LoginTransaction) : Prop := as_inv (prefix := prefix) w.1 /\ accounted w taken.
Notation Safe := (safe answers Inv).

Lemma accounted_kept w s' taken : accounted w taken -> auth_kept prefix w.1 s' -> accounted (s', w.2) taken.
Proof.
  intros ((L & HL & Hsub) & Hs & Hg) Hk. split; [|split; [|done]].
  - exists L. split; [|done]. intros raw v dl E. apply (HL raw v dl). rewrite <- E. symmetry. apply Hk. exists raw. by left.
  - intros raw v dl E. apply (Hs raw v dl). rewrite <- E. symmetry. apply Hk. exists raw. by right.
Qed.

Lemma Inv_perm w F F' : F ≡ₚ F' -> Inv w F -> Inv w F'.
Proof.
  intros Hp (Hi & (L & HL & Hsub) & Hs & Hg). split; [done|]. split; [|done]. exists L. split; [done|]. by rewrite <- Hp.
Qed.

Lemma Inv_drop w F o : Inv w (F ++ o) -> Inv w o.
Proof.
  intros (Hi & (L & HL & Hsub) & Hs & Hg). split; [done|]. split; [|done]. exists L. split; [done|]. etrans; [|exact Hsub].
  apply submseteq_app; [done|]. apply submseteq_app; [|done]. by apply submseteq_inserts_l.
Qed.

Lemma store_safe {A} (m : prog (call S studio_exn) studio_exn A) (Q : A + studio_exn -> Prop) F :
  calls_keep (auth_kept prefix) m -> safe answers (fun s (_ : list unit) => as_inv (prefix := prefix) s) [] m (fun _ x => Q x) ->
  Safe F (on_store m) (fun F' x => F' = F /\ Q x).
Proof.
  intros Hk Hs. unfold Inv. apply (zoom_safe _ accounted (auth_kept prefix)); [|by intros s k|exact Hk|exact Hs].
  intros w s' o. apply accounted_kept.
Qed.

(** ** Keys *)

Lemma login_key_digest a b : login_key prefix a = login_key prefix b -> token_digest a = token_digest b.
Proof. unfold login_key. intros E. by do 2 apply append_inj_l in E. Qed.
Lemma session_key_digest a b : session_key prefix a = session_key prefix b -> token_digest a = token_digest b.
Proof. unfold session_key. intros E. by do 2 apply append_inj_l in E. Qed.
Lemma login_not_session a b : login_key prefix a <> session_key prefix b.
Proof. unfold login_key, session_key. intros E. apply append_inj_l in E. discriminate. Qed.
Lemma login_auth raw : auth_key prefix (login_key prefix raw).
Proof. exists raw. by left. Qed.
Lemma session_auth raw : auth_key prefix (session_key prefix raw).
Proof. exists raw. by right. Qed.
#[local] Hint Resolve login_auth session_auth : core.

Lemma auth_only_insert (r r' : R) k x : auth_key prefix k -> model r' = <[k := x]> (model r) -> auth_only prefix r r'.
Proof. intros Hk E k' Hk'. rewrite E, lookup_insert_ne; [done|]. by intros ->. Qed.
Lemma auth_only_delete (r r' : R) k : auth_key prefix k -> model r' = delete k (model r) -> auth_only prefix r r'.
Proof. intros Hk E k' Hk'. rewrite E, lookup_delete_ne; [done|]. by intros ->. Qed.

Lemma dump_login_text t : nonempty (dump_login t) = Some (dump_login t).
Proof. apply (proj2 (nonempty_spec _ _)). split; [reflexivity|discriminate]. Qed.
Lemma dump_session_text s : nonempty (dump_session s) = Some (dump_session s).
Proof. apply (proj2 (nonempty_spec _ _)). split; [reflexivity|discriminate]. Qed.

(** ** The operations *)

Lemma saved_app a b : saved (a ++ b) = (saved a ++ saved b)%list.
Proof. apply omap_app. Qed.
Lemma used_app a b : used (a ++ b) = (used a ++ used b)%list.
Proof. apply omap_app. Qed.

(** A login that is saved. *)
Lemma accounted_saved w (r : R) raw t ttl now taken : accounted w taken ->
  model r = db_set (db_of w) now (login_key prefix raw) (dump_login t) ttl ->
  accounted (as_set_redis r w.1, (w.2 ++ [LoginSaved (token_digest raw) t])%list) taken.
Proof.
  intros ((L & HL & Hsub) & Hs & Hg) Hr. split; [|split].
  - exists (<[token_digest raw := t]> L). cbn [fst snd]. rewrite law_redis, Hr. unfold db_set. split.
    + intros raw' v dl. destruct (decide (login_key prefix raw' = login_key prefix raw)) as [E|Hne].
      * rewrite E, lookup_insert_eq. intros [= <- <-]. exists t. split; [done|]. by rewrite (login_key_digest _ _ E), lookup_insert_eq.
      * rewrite lookup_insert_ne by done. intros E. destruct (HL _ _ _ E) as (t' & -> & Ht'). exists t'. split; [done|].
        rewrite lookup_insert_ne; [done|]. intros E'. apply Hne. unfold login_key. by rewrite E'.
    + rewrite saved_app, used_app, app_nil_r. cbn [saved omap list_omap]. rewrite <- insert_delete_eq, map_to_list_insert by apply lookup_delete_eq.
      cbn [map]. rewrite (Permutation_app_comm (saved w.2)). cbn [app]. apply submseteq_skip.
      etrans; [|exact Hsub]. apply submseteq_app; [|done].
      destruct (L !! token_digest raw) as [t0|] eqn:E; [|by rewrite delete_id].
      rewrite <- (map_to_list_delete L _ _ E). cbn [map]. by apply submseteq_cons.
  - intros raw' v dl. cbn [fst snd]. rewrite law_redis, Hr. unfold db_set. rewrite lookup_insert_ne by apply login_not_session.
    intros E. destruct (Hs _ _ _ E) as (s & t' & st & cl & -> & Hin). exists s, t', st, cl. split; [done|]. apply elem_of_app. by left.
  - cbn [snd]. apply Forall_app_2; [done|]. by constructor.
Qed.

Lemma save_login_safe {B} now raw t ttl (k : unit -> AP B) F Q :
  Safe F (k tt) Q -> (forall e, Q F (inr e)) -> Safe F (save_login prefix now raw t ttl ≫= k) Q.
Proof.
  intros Hk He. apply safe_invoke; [|by intros []|done]. intros w o (Hi & Ha). cbn [fst].
  destruct (rset_nx (as_redis w.1) now (login_key prefix raw) (dump_login t) (Some ttl)) as [r ok] eqn:E.
  pose proof (law_set_nx (as_redis w.1) now (login_key prefix raw) (dump_login t) (Some ttl)) as Hm.
  pose proof (law_set_nx_ret (as_redis w.1) now (login_key prefix raw) (dump_login t) (Some ttl)) as Hok.
  rewrite E in Hm, Hok. cbn [fst snd] in *. unfold db_set_nx in *. destruct (live _ _ _); cbn [fst snd] in *; subst ok.
  - split; cbn [fst]; [apply law_inv_auth; [done|]; intros k' _; by rewrite Hm|].
    apply (accounted_kept w _ _ Ha). intros k' _. by rewrite law_redis, Hm.
  - split; cbn [fst]; [apply law_inv_auth; [done|]; eapply auth_only_insert; [apply login_auth|exact Hm]|]. by eapply accounted_saved.
Qed.

(** A login that is taken: nobody else has it. *)
Lemma accounted_taken w (r : R) raw taken : accounted w taken -> model r = delete (login_key prefix raw) (db_of w) ->
  accounted (as_set_redis r w.1, w.2) taken /\
  forall v dl, db_of w !! login_key prefix raw = Some (v, dl) ->
    exists t, v = RStr (dump_login t) /\ accounted (as_set_redis r w.1, w.2) (t :: taken).
Proof.
  intros ((L & HL & Hsub) & Hs & Hg) Hr.
  assert (forall taken', map snd (map_to_list (delete (token_digest raw) L)) ++ taken' ++ used w.2 ⊆+ saved w.2 ->
    accounted (as_set_redis r w.1, w.2) taken') as Hacc.
  { intros taken' Hsub'. split; [|split; [|done]].
    - exists (delete (token_digest raw) L). split; [|done]. cbn [fst snd]. rewrite law_redis, Hr. intros raw' v dl.
      destruct (decide (login_key prefix raw' = login_key prefix raw)) as [E|Hne]; [by rewrite E, lookup_delete_eq|].
      rewrite lookup_delete_ne by done. intros E. destruct (HL _ _ _ E) as (t' & -> & Ht'). exists t'. split; [done|].
      rewrite lookup_delete_ne; [done|]. intros E'. apply Hne. unfold login_key. by rewrite E'.
    - intros raw' v dl. cbn [fst snd]. rewrite law_redis, Hr, lookup_delete_ne by apply login_not_session. apply Hs. }
  split.
  - apply Hacc. etrans; [|exact Hsub]. apply submseteq_app; [|done].
    destruct (L !! token_digest raw) as [t0|] eqn:E; [|by rewrite delete_id].
    rewrite <- (map_to_list_delete L _ _ E). cbn [map]. by apply submseteq_cons.
  - intros v dl E. destruct (HL _ _ _ E) as (t & -> & Ht). exists t. split; [done|]. apply Hacc.
    rewrite <- (map_to_list_delete L _ _ Ht) in Hsub. cbn [map app] in Hsub. etrans; [|exact Hsub].
    apply Permutation_submseteq. symmetry. apply (Permutation_middle _ _ t).
Qed.

Lemma consume_login_safe {B} now raw (k : option LoginTransaction -> AP B) F Q :
  (forall t, Safe (t :: F) (k (Some t)) Q) -> Safe F (k None) Q -> (forall e, Q F (inr e)) ->
  Safe F (consume_login pf prefix now raw ≫= k) Q.
Proof.
  intros Ht Hn He w o w' y (Hi & Ha) Hans.
  set (key := login_key prefix raw) in *.
  set (r := (rdel (as_redis w.1) now key).1).
  assert (model r = delete key (db_of w)) as Hr by apply law_del.
  destruct (accounted_taken w r raw _ Ha Hr) as [Ha0 Hat].
  assert (as_inv (prefix := prefix) (as_set_redis r w.1)) as Hi' by (apply law_inv_auth; [done|]; eapply auth_only_delete; [apply login_auth|done]).
  destruct y as [x|e]; cbn in Hans.
  2: { exists F. split; [|apply He]. by destruct Hans as [->| ->]. }
  injection Hans as <- <-. destruct (db_of w !! key) as [[v dl]|] eqn:E.
  2: { exists F. split; [by split|]. rewrite law_get. unfold db_str, live. rewrite E. exact Hn. }
  destruct (Hat v dl E) as (t & -> & Hat').
  destruct (alive now dl) eqn:Eal.
  2: { exists F. split; [by split|]. rewrite law_get. unfold db_str, live. rewrite E, Eal. exact Hn. }
  exists (t :: F). split; [by split|]. rewrite law_get. unfold db_str, live. rewrite E, Eal. unfold prog_bind. cbn [bind_prog from_opt].
  rewrite dump_login_text, load_dump_login. apply Ht.
Qed.

(** A session that is given out for a login that was taken. *)
Lemma save_session_safe now raw s ttl t state cl F (Q : list LoginTransaction -> unit + studio_exn -> Prop) :
  genuine (SessionIssued (token_digest raw) s t state cl) -> (forall F x, Q F x) ->
  Safe (t :: F) (save_session prefix now raw s ttl t state cl) Q.
Proof.
  intros Hgen HQ w o w' y (Hi & Ha) Hans.
  assert (w' = w \/ w' = (on_redis (fun r => rset r now (session_key prefix raw) (dump_session s) (Some ttl)) w.1,
     (w.2 ++ [SessionIssued (token_digest raw) s t state cl])%list)) as [->| ->].
  { destruct y; cbn in Hans; [injection Hans as <-; by right|done]. }
  { exists (t :: F). split; [by split|]. destruct y; apply HQ. }
  exists F. split; [|destruct y; apply HQ]. unfold on_redis. set (r := rset _ _ _ _ _).
  assert (model r = db_set (db_of w) now (session_key prefix raw) (dump_session s) (Some ttl)) as Hr by apply law_set.
  split; [apply law_inv_auth; [done|]; eapply auth_only_insert; [apply session_auth|exact Hr]|]. destruct Ha as ((L & HL & Hsub) & Hs & Hg). split; [|split].
  - exists L. cbn [fst snd]. rewrite law_redis, Hr. unfold db_set. split.
    + intros raw' v dl. rewrite lookup_insert_ne by (intros E; by apply (login_not_session _ _ (eq_sym E))). apply HL.
    + rewrite saved_app, used_app, app_nil_r. cbn [used omap list_omap]. etrans; [|exact Hsub].
      apply Permutation_submseteq, Permutation_app_head.
      rewrite app_assoc. symmetry. apply (Permutation_cons_append _ t).
  - intros raw' v dl. cbn [fst snd]. rewrite law_redis, Hr. unfold db_set.
    destruct (decide (session_key prefix raw' = session_key prefix raw)) as [E|Hne].
    + rewrite E, lookup_insert_eq. intros [= <- <-]. exists s, t, state, cl. split; [done|]. rewrite (session_key_digest _ _ E).
      apply elem_of_app. right. by apply list_elem_of_singleton.
    + rewrite lookup_insert_ne by done. intros E. destruct (Hs _ _ _ E) as (s' & t' & st & cl' & -> & Hin). exists s', t', st, cl'.
      split; [done|]. apply elem_of_app. by left.
  - cbn [snd]. apply Forall_app_2; [done|]. constructor; [exact Hgen|constructor].
Qed.
(** *** The programs *)

Lemma session_context_safe now rq F : Safe F (session_context pf prefix now rq) (fun _ _ => True).
Proof.
  unfold session_context. destruct (nonempty _) as [raw|]; [|done]. apply safe_bind. unfold get_session. apply safe_query; [|done].
  intros w o _. destruct (nonempty _) as [text|]; [|done]. apply safe_lift; [|done]. intros s _. cbn. apply safe_bind.
  eapply safe_mono; [apply (store_safe _ (fun _ => True)); [apply law_get_keeps|apply law_get_member]|]. by intros F' [m|e] _.
Qed.

Lemma serve_safe now rq F : Safe F (serve pf prefix now rq) (fun _ _ => True).
Proof.
  unfold serve. destruct (is_public rq); [done|]. apply safe_bind. eapply safe_mono; [apply session_context_safe|].
  intros F' [[[s m]|]|e] _; [|done|done]. by destruct (authorize rq s m).
Qed.

Lemma admin_update_safe now actor id u F : Safe F (admin_update_user now actor id u) (fun _ _ => True).
Proof.
  unfold admin_update_user. destruct actor as [a|]; [|done]. apply safe_bind, safe_attempted.
  eapply safe_mono; [apply (store_safe _ (fun _ => True)); [apply law_update_keeps|apply law_update]|].
  intros F' x _. by destruct (match x with inl _ => _ | inr _ => _ end).
Qed.

Lemma start_login_safe now document raw state nonce verifier return_to F :
  Safe F (start_login prefix config now document raw state nonce verifier return_to) (fun _ _ => True).
Proof. unfold start_login. apply safe_lift; [|done]. intros d _. apply safe_lift; [|done]. intros rt _. by apply save_login_safe. Qed.

Lemma delete_session_safe now raw F : Safe F (delete_session prefix now raw) (fun _ _ => True).
Proof.
  unfold delete_session, invoke_, invoke, await. intros w o w' y (Hi & Ha) Hans. exists F. split; [|by destruct y].
  set (r := (rdel (as_redis w.1) now (session_key prefix raw)).1).
  assert (w' = w \/ w' = (as_set_redis r w.1, w.2)) as [->| ->]; [|by split|].
  { destruct y; cbn in Hans; [injection Hans as <-; by right|done]. }
  assert (model r = delete (session_key prefix raw) (db_of w)) as Hr by apply law_del.
  split; [apply law_inv_auth; [done|]; eapply auth_only_delete; [apply session_auth|exact Hr]|].
  destruct Ha as ((L & HL & Hsub) & Hs & Hg). split; [|split; [|done]].
  - exists L. split; [|done]. intros raw' v dl. cbn [fst snd]. rewrite law_redis, Hr, lookup_delete_ne by (intros E; by apply (login_not_session _ _ (eq_sym E))). apply HL.
  - intros raw' v dl. cbn [fst snd]. rewrite law_redis, Hr. intros [_ E]%lookup_delete_Some. by apply (Hs raw' v dl).
Qed.

(** Verified claims have the nonce of the login and the tenant of the configuration. *)
Lemma verified_claims lib token nonce claims : verify_id_token config lib token nonce = inl claims ->
  dgetv "nonce" claims = PStr nonce /\ dgetv "tid" claims = PStr (tenant_id config).
Proof.
  unfold verify_id_token. destruct (token_errors _ _) as [c|e]; [|done]. destruct (bool_decide (dgetv "tid" c = _)) eqn:Et; [|done].
  bool_to_prop. destruct (truthy _); [|done]. cbn [negb orb].
  destruct (dgetv "nonce" c) as [| | | |n| |] eqn:En; try done. unfold lift_exn. destruct (compare_digest n nonce) as [same|] eqn:Ec; [|done].
  destruct same; [|done]. apply compare_digest_true in Ec as ->. cbn [negb].
  intros E. assert (exists v, claims = dset "email" v c) as [v ->] by (repeat case_hyp E; try done; injection E as <-; by eexists).
  unfold dgetv in *. rewrite !dget_dset_ne by done. done.
Qed.

Lemma finish_login_safe now lib document exchange raw_session csrf raw_login state code F :
  Safe F (finish_login pf prefix config now lib document exchange raw_session csrf raw_login state code) (fun _ _ => True).
Proof.
  unfold finish_login. apply consume_login_safe; [|done|done]. intros t. apply safe_lift; [|done]. intros t' Et.
  assert (t' = t /\ l_state t = state) as [-> Est].
  { unfold lift_exn in Et. destruct (compare_digest _ _) as [[]|] eqn:Ec; try done. injection Et as <-. split; [done|]. by apply compare_digest_true. }
  do 4 (apply safe_lift; [intros ? _|done]). apply safe_lift; [|done]. intros claims Ev.
  apply safe_bind. eapply safe_mono; [apply (store_safe _ (fun x => match x with inl m => user_of claims = Some (m_user_id m) | inr _ => True end));
    [apply law_upsert_keeps|apply law_upsert]|].
  intros F' [m|e] [-> Hm]; [|done]. apply safe_bind. apply save_session_safe; [|by intros F' [[]|e]].
  destruct (verified_claims _ _ _ _ Ev) as [En Et']. split; [done|]. split; [by eexists _, _|]. done.
Qed.
(** ** Everything at once *)

Definition forget {A} (m : AP A) : AP unit := _ ← m; mret tt.

Inductive auth_program : AP unit -> Prop :=
| starts_login now document raw state nonce verifier return_to :
    auth_program (forget (start_login prefix config now document raw state nonce verifier return_to))
| finishes_login now lib document exchange raw_session csrf raw_login state code :
    auth_program (forget (finish_login pf prefix config now lib document exchange raw_session csrf raw_login state code))
| requests now rq : auth_program (forget (serve pf prefix now rq))
| updates now actor id u : auth_program (forget (admin_update_user now actor id u))
| logs_out now raw : auth_program (delete_session prefix now raw).

Lemma forget_safe {A} (m : AP A) : Safe [] m (fun _ _ => True) -> Safe [] (forget m) (fun _ _ => True).
Proof. intros Hm. unfold forget. apply safe_bind. eapply safe_mono; [exact Hm|]. by intros F [a|e] _. Qed.

Lemma auth_programs_safe m : auth_program m -> Safe [] m (fun _ _ => True).
Proof.
  intros []; [| | | |apply delete_session_safe]; apply forget_safe;
    [apply start_login_safe|apply finish_login_safe|apply serve_safe|apply admin_update_safe].
Qed.

(** No login and no session yet. *)
Definition signed_out (w : W) : Prop :=
  as_inv (prefix := prefix) w.1 /\ w.2 = [] /\ forall k, auth_key prefix k -> db_of w !! k = None.

Notation reachable w := (rtc (pool_step answers auth_program) (w, [])).

Lemma reachable_accounted w c : signed_out w -> reachable w c -> exists taken, Inv c.1 taken.
Proof.
  intros (Hi & Hl & Hk) Hr. eapply (pool_invariant answers Inv auth_program); [exact Inv_perm|exact Inv_drop|exact auth_programs_safe| |exact Hr].
  split; [done|]. split; [|split].
  - exists ∅. rewrite Hl. split; [|done]. intros raw v dl. by rewrite Hk by apply login_auth.
  - intros raw v dl. by rewrite Hk by apply session_auth.
  - rewrite Hl. constructor.
Qed.


(** *** Requests *)

Lemma cookie_some o raw : nonempty (from_opt "" o) = Some raw -> o = Some raw.
Proof. destruct o as [s|]; cbn; [by intros [-> _]%nonempty_spec|done]. Qed.

Lemma authorize_spec rq s m actor : authorize rq s m = inl (PassedOn actor) ->
  actor = Some m /\ (reads_only rq = false -> rq_csrf_header rq = Some (s_csrf_token s)) /\
  (session_limited rq = false -> m_status m = ACTIVE /\
     (reads_only rq = false \/ startswith "/studio/admin/" (rq_path rq) = true -> m_role m = ADMIN)).
Proof.
  unfold authorize. set (csrf := if reads_only rq then _ else _).
  assert (forall a, csrf = inl (PassedOn a) -> a = Some m /\ (reads_only rq = false -> rq_csrf_header rq = Some (s_csrf_token s))) as Hcsrf.
  { subst csrf. intros a. destruct (reads_only rq); [by intros [= <-]|]. destruct (String.eqb (from_opt "" (rq_csrf_header rq)) "") eqn:Ee; [done|].
    unfold lift_exn. destruct (compare_digest _ _) as [[]|] eqn:Ec; try done. intros [= <-]. split; [done|]. intros _.
    apply compare_digest_true in Ec. bool_to_prop. destruct (rq_csrf_header rq) as [h|]; cbn in *; congruence. }
  destruct (session_limited rq).
  { destruct (str_in _ _); [|done]. intros E. apply Hcsrf in E as [-> E]. by split. }
  destruct (bool_decide (m_status m = ACTIVE)) eqn:Ea; cbn [negb]; [|done].
  destruct (startswith _ _ && negb (bool_decide (m_role m = ADMIN))) eqn:Ep; [done|].
  destruct (negb (reads_only rq) && negb (bool_decide (m_role m = ADMIN))) eqn:Er; [done|].
  intros E. apply Hcsrf in E as [-> E]. bool_to_prop. split; [done|]. split; [done|]. intros _. split; [done|].
  destruct (bool_decide (m_role m = ADMIN)) eqn:Eb; bool_to_prop; [done|].
  intros [E'|E']; [rewrite E' in Er|rewrite E' in Ep]; done.
Qed.

(** Reading a session, and its member. *)
Lemma get_session_run now raw w taken : Inv w taken ->
  exists o, run (get_session pf prefix now raw) w = (w, inl o) /\
    match o with Some s => exists t st cl, SessionIssued (token_digest raw) s t st cl ∈ w.2 | None => True end.
Proof.
  intros (_ & _ & Hs & _). unfold get_session, query, mbind, prog_bind. rewrite run_bind_prog, run_invoke. cbn [fst snd].
  rewrite law_get. unfold db_str, live. destruct (db_of w !! session_key prefix raw) as [[v dl]|] eqn:Ek; [|by exists None].
  destruct (Hs _ _ _ Ek) as (s & t & st & cl & -> & Hin). destruct (alive now dl); [|by exists None].
  exists (Some s). split; [|by exists t, st, cl]. cbn [from_opt]. by rewrite dump_session_text, load_dump_session.
Qed.

Lemma session_context_run now rq w taken : Inv w taken ->
  exists o, run (session_context pf prefix now rq) w = (w, inl o) /\
    match o with
    | Some (s, m) => exists raw t st cl, rq_session_cookie rq = Some raw /\ SessionIssued (token_digest raw) s t st cl ∈ w.2 /\
                       as_member (prefix := prefix) w.1 (lower (s_user_id s)) = Some m
    | None => True
    end.
Proof.
  intros Hi. unfold session_context. destruct (nonempty (from_opt "" (rq_session_cookie rq))) as [raw|] eqn:Ec; [|by exists None].
  destruct (get_session_run now raw w taken Hi) as (o & Ho & Hs). unfold mbind, prog_bind. rewrite run_bind_prog, Ho.
  destruct o as [s|]; [|by exists None]. destruct Hs as (t & st & cl & Hin). rewrite run_bind_prog. unfold on_store.
  rewrite run_zoom by first [done|by intros [? ?]]. rewrite (law_get_run _ _ _ (proj1 Hi)). cbn [fst snd].
  destruct (as_member w.1 (lower (s_user_id s))) as [m|] eqn:Em; [|exists None; by destruct w].
  exists (Some (s, m)). split; [by destruct w|]. exists raw, t, st, cl. split; [by apply cookie_some|done].
Qed.

(** A request that is passed on in a world of the invariant. *)
Lemma passed_on now rq w w' taken actor : Inv w taken -> is_public rq = false ->
  run (serve pf prefix now rq) w = (w', inl (PassedOn actor)) ->
  exists raw s t st cl m, rq_session_cookie rq = Some raw /\ SessionIssued (token_digest raw) s t st cl ∈ w.2 /\
    as_member (prefix := prefix) w.1 (lower (s_user_id s)) = Some m /\ authorize rq s m = inl (PassedOn actor).
Proof.
  intros Hi Hpub. unfold serve. rewrite Hpub. unfold mbind, prog_bind. rewrite run_bind_prog.
  destruct (session_context_run now rq w taken Hi) as (o & -> & Ho). destruct o as [[s m]|]; [|by intros [= <-]].
  destruct Ho as (raw & t & st & cl & Hc & Hin & Hm). rewrite run_lift. intros [= <- E]. by exists raw, s, t, st, cl, m.
Qed.

End service.

(** ** Administrators *)

Section administrators.
Context {S R : Type} `{RedisLaws R} `{!AuthStore S R} (prefix : string) `{!AuthStoreLaws S R prefix}.
Notation AP := (prog (call S studio_exn) studio_exn).

Definition has_administrator (s : S) : Prop :=
  exists id m, as_member (prefix := prefix) s id = Some m /\ is_active_admin m = true.

(** Updates of members, call by call, and sign-ins that no update overlaps. *)
Inductive member_program : AP unit -> Prop :=
| member_update now id u actor : member_program (_ ← as_update_member now id u actor; mret tt)
| member_login now claims config : member_program (_ ← atomically (as_upsert_login now claims config); mret tt).

Definition administered (s : S) (_ : list unit) : Prop := as_orderly (prefix := prefix) s /\ has_administrator s.

Lemma member_programs_safe m : member_program m -> safe answers administered [] m (fun _ _ => True).
Proof.
  intros []; apply safe_bind.
  - eapply safe_mono; [apply law_update_admin|]. by intros F [a|e] _.
  - unfold atomically. apply safe_invoke; [|intros x|done].
    + intros s o [Ho Ha]. by apply law_upsert_admin.
    + by destruct x.
Qed.

(** An administrator remains in any pool of them. *)
Lemma administrators_remain s c : as_orderly (prefix := prefix) s -> has_administrator s ->
  rtc (pool_step answers member_program) (s, []) c ->
  as_orderly (prefix := prefix) c.1 /\ has_administrator c.1.
Proof.
  intros Ho Ha Hr. destruct (pool_invariant answers administered member_program) with s c as [F Hc]; try done.
  apply member_programs_safe.
Qed.
End administrators.
