(* ===== verification/AuthStores.v ===== *)
(** * The two stores of members keep the promises of [AuthSpec]

    Members in Redis, with an index of the active administrators that a script
    guards, and members in PostgreSQL; and where the first one fails: a sign-in
    that overlaps an update. *)

From stdpp Require Import countable.
From S2P Require Import Prelude PyStr PyVal PySort PyTime Json JsonLoads Codec Redis StudioErrors StudioTime Interleave Calls Auth AuthSpec.
From Stdlib Require Import Ascii.

(** ** Members in Redis *)

Section redis.
Context {R : Type} `{RedisLaws R} `{JsonModelLaws StudioMember}.
(** A JSON object has a text. *)
Context (prefix : string) (dumped : forall m : StudioMember, dump_json m <> "").
Import RedisAuth.
Notation member_key := (member_key prefix).
Notation members_key := (members_key prefix).
Notation active_admins_key := (active_admins_key prefix).
#[local] Instance members_in_redis : AuthStore R R := redis_auth_store prefix.
Notation keeps_auth := (auth_kept (S := R) (R := R) prefix).

(** *** Keys *)

Lemma member_key_other id : members_key <> member_key id /\ active_admins_key <> member_key id.
Proof. unfold RedisAuth.member_key, RedisAuth.members_key, RedisAuth.active_admins_key. split; intros E; apply append_inj_l in E; discriminate. Qed.
Lemma members_not_admins : members_key <> active_admins_key.
Proof. unfold RedisAuth.members_key, RedisAuth.active_admins_key. intros E. apply append_inj_l in E. discriminate. Qed.
Lemma member_key_inj a b : member_key a = member_key b -> lower a = lower b.
Proof. unfold RedisAuth.member_key. intros E. by do 2 apply append_inj_l in E. Qed.
Lemma member_key_lower id : member_key (lower id) = member_key id.
Proof. unfold RedisAuth.member_key. by rewrite lower_idem. Qed.

(** The keys of the members are not keys of logins or sessions. *)
Lemma not_auth k : (exists id, k = member_key id) \/ k = members_key \/ k = active_admins_key -> ~ auth_key prefix k.
Proof.
  unfold auth_key, login_key, session_key. intros Hk [raw Hr].
  destruct Hk as [[id ->]|[->| ->]]; destruct Hr as [E|E]; apply append_inj_l in E; discriminate.
Qed.

(** *** The members *)

(** The member that a key holds. *)
Definition member_at (d : db) (id : string) : option StudioMember :=
  match d !! member_key id with
  | Some (RStr text, None) => match validate_json text with Ok m => Some m | Raise _ => None end
  | _ => None
  end.

(** Each key holds the member of its id, for good. *)
Definition consistent (d : db) : Prop := forall id,
  match d !! member_key id with
  | None => True
  | Some x => exists m, x = (RStr (dump_json m), None) /\ m_user_id m = lower id
  end.

(** The set of administrators is exact. *)
Definition orderly (d : db) : Prop :=
  consistent d /\
  exists A : gset string, d !! active_admins_key = (if decide (A = ∅) then None else Some (RSet A, None)) /\
    forall id, id ∈ A <-> lower id = id /\ exists m, member_at d id = Some m /\ is_active_admin m = true.

Lemma member_at_dump d id m : d !! member_key id = Some (RStr (dump_json m), None) -> member_at d id = Some m.
Proof. unfold member_at. intros ->. by rewrite validate_dump. Qed.

Lemma consistent_get d id now : consistent d -> db_str d now (member_key id) = dump_json <$> member_at d id.
Proof.
  intros Hc. specialize (Hc id). unfold db_str, live, member_at. destruct (d !! member_key id) as [x|]; [|done].
  destruct Hc as (m & -> & _). cbn. by rewrite validate_dump.
Qed.

Lemma consistent_user d id m : consistent d -> member_at d id = Some m -> m_user_id m = lower id.
Proof.
  intros Hc. specialize (Hc id). unfold member_at. destruct (d !! member_key id) as [x|]; [|done].
  destruct Hc as (m' & -> & Hu). rewrite validate_dump. by intros [= <-].
Qed.

Lemma member_at_lower d id : member_at d (lower id) = member_at d id.
Proof. unfold member_at. by rewrite member_key_lower. Qed.

(** Writing a member. *)
Lemma member_at_set d now id m id' : member_at (db_set d now (member_key id) (dump_json m) None) id' =
  if decide (lower id' = lower id) then Some m else member_at d id'.
Proof.
  unfold member_at, db_set. destruct (decide _) as [E|Hne].
  - rewrite <- (member_key_lower id'), E, member_key_lower, lookup_insert_eq. cbn. by rewrite validate_dump.
  - rewrite lookup_insert_ne; [done|]. intros E. apply Hne. symmetry. by apply member_key_inj.
Qed.

Lemma consistent_set d now id m : consistent d -> m_user_id m = lower id -> consistent (db_set d now (member_key id) (dump_json m) None).
Proof.
  intros Hc Hu id'. unfold db_set. destruct (decide (member_key id = member_key id')) as [E|Hne].
  - rewrite E, lookup_insert_eq. exists m. split; [done|]. by rewrite Hu, (member_key_inj _ _ E).
  - rewrite lookup_insert_ne by done. apply Hc.
Qed.

(** Writing another key. *)
Lemma consistent_other d d' : consistent d -> (forall id, d' !! member_key id = d !! member_key id) -> consistent d'.
Proof. intros Hc Hk id. rewrite Hk. apply Hc. Qed.
Lemma member_at_other d d' id : d' !! member_key id = d !! member_key id -> member_at d' id = member_at d id.
Proof. unfold member_at. by intros ->. Qed.

Lemma orderly_other d d' : orderly d -> (forall id, d' !! member_key id = d !! member_key id) ->
  d' !! active_admins_key = d !! active_admins_key -> orderly d'.
Proof.
  intros [Hc (A & HA & Hin)] Hk Ha. split; [by eapply consistent_other|]. exists A. rewrite Ha. split; [done|].
  intros id. by rewrite (member_at_other d d' id (Hk id)).
Qed.
(** *** The set of administrators *)

Definition set_entry (A : gset string) : option (rval * option Z) := if decide (A = ∅) then None else Some (RSet A, None).

Lemma entry_members d now A : d !! active_admins_key = set_entry A -> db_members d now active_admins_key = A.
Proof. intros E. unfold db_members, live. rewrite E. unfold set_entry. by destruct (decide (A = ∅)) as [->|]. Qed.

Lemma entry_put d now A A' : d !! active_admins_key = set_entry A -> put d now active_admins_key (RSet A') !! active_admins_key = set_entry A'.
Proof.
  intros E. rewrite put_lookup. unfold set_entry, kept, live. cbn [is_empty]. rewrite E. unfold set_entry.
  rewrite bool_decide_decide. destruct (decide (A' = ∅)); [done|]. by destruct (decide (A = ∅)).
Qed.

Lemma scard_entry (r : R) now A : model r !! active_admins_key = set_entry A -> scard r now active_admins_key = Z.of_nat (size A).
Proof. intros E. unfold scard. by rewrite (law_smembers r now active_admins_key), (entry_members _ _ _ E). Qed.

(** A member that is written, and the set that goes with it. *)
Lemma orderly_write d d' id m A now : orderly d -> d !! active_admins_key = set_entry A -> m_user_id m = lower id ->
  (forall i, d' !! member_key i = db_set d now (member_key id) (dump_json m) None !! member_key i) ->
  d' !! active_admins_key = set_entry (if is_active_admin m then {[lower id]} ∪ A else A ∖ {[lower id]}) -> orderly d'.
Proof.
  intros [Hc (A0 & HA0 & Hin)] HA Hu Hk Ha. assert (A0 = A) as ->.
  { change (d !! active_admins_key = set_entry A0) in HA0. by rewrite <- (entry_members _ 0 _ HA0), (entry_members _ 0 _ HA). }
  split; [eapply consistent_other; [by apply (consistent_set d now id m)|done]|]. eexists. split; [exact Ha|]. intros i.
  rewrite (member_at_other _ _ i (Hk i)), member_at_set. destruct (decide (lower i = lower id)) as [E|Hne].
  - destruct (is_active_admin m) eqn:Em.
    + rewrite elem_of_union, elem_of_singleton, Hin. split; [intros [->|[Hl _]]; (split; [by rewrite ?lower_idem|by exists m])|].
      intros [Hl _]. left. congruence.
    + rewrite elem_of_difference, elem_of_singleton, Hin. split; [intros [[Hl _] Hn]; congruence|]. intros [_ (m' & [= <-] & Hm)]. congruence.
  - assert (i ∈ (if is_active_admin m then {[lower id]} ∪ A else A ∖ {[lower id]}) <-> i ∈ A) as ->; [|apply Hin].
    assert (i <> lower id) as Hi by (intros ->; by rewrite lower_idem in Hne).
    destruct (is_active_admin m); [rewrite elem_of_union|rewrite elem_of_difference]; rewrite elem_of_singleton; tauto.
Qed.

(** *** The commands *)

Lemma store_member_member (r : R) now id m i :
  model (store_member prefix now id m r) !! member_key i = db_set (model r) now (member_key id) (dump_json m) None !! member_key i.
Proof.
  destruct (member_key_other i) as [H1' H2']. unfold store_member.
  destruct (is_active_admin m); autorewrite with redis; unfold db_sadd; cbn [fst]; by rewrite !put_lookup_ne by done.
Qed.

Lemma store_member_admins (r : R) now id m A : model r !! active_admins_key = set_entry A ->
  model (store_member prefix now id m r) !! active_admins_key = set_entry (if is_active_admin m then {[id]} ∪ A else A).
Proof.
  intros HA. pose proof members_not_admins as Hne. unfold store_member.
  set (r1 := (rsadd (rset r now (member_key id) (dump_json m) None) now members_key id).1).
  assert (model r1 !! active_admins_key = set_entry A) as H1'.
  { subst r1. autorewrite with redis. unfold db_sadd, db_set. cbn [fst]. rewrite put_lookup_ne by done.
    rewrite lookup_insert_ne; [done|]. intros E. by apply (proj2 (member_key_other id)). }
  destruct (is_active_admin m); [|done]. rewrite law_sadd. unfold db_sadd. cbn [fst]. rewrite (entry_members _ now _ H1').
  by apply (entry_put _ now A).
Qed.

Lemma store_member_auth (r : R) now id m : keeps_auth r (store_member prefix now id m r).
Proof.
  intros k Hk. change (model (store_member prefix now id m r) !! k = model r !! k).
  assert (k <> members_key /\ k <> active_admins_key /\ k <> member_key id) as (H1' & H2' & H3').
  { split; [|split]; intros ->; (eapply not_auth; [|exact Hk]); [by right; left|by right; right|left; by exists id]. }
  unfold store_member. destruct (is_active_admin m); autorewrite with redis; unfold db_sadd, db_set; cbn [fst];
    rewrite !put_lookup_ne by done; by rewrite lookup_insert_ne.
Qed.

(** The script, on a member that is there. *)
Definition changes_member (now : Z) (id : string) (next : StudioMember) (r : R) : R :=
  let r := rset r now (member_key id) (dump_json next) None in
  if is_active_admin next then (rsadd r now active_admins_key (m_user_id next)).1 else rsrem r now active_admins_key (m_user_id next).

Lemma script_spec now id next (r : R) : consistent (model r) ->
  update_member_script prefix now id (dump_json next) r =
  match member_at (model r) id with
  | None => (r, Ok "NOT_FOUND")
  | Some current =>
      if is_active_admin current && negb (is_active_admin next) && (scard r now active_admins_key <=? 1)
      then (r, Ok "LAST_ADMIN") else (changes_member now id next r, Ok "OK")
  end.
Proof.
  intros Hc. unfold update_member_script. rewrite law_get, (consistent_get _ _ _ Hc).
  destruct (member_at (model r) id) as [current|]; [|done]. cbn. rewrite !validate_dump. by destruct (_ && _ && _).
Qed.

Lemma changes_member_member (r : R) now id next i :
  model (changes_member now id next r) !! member_key i = db_set (model r) now (member_key id) (dump_json next) None !! member_key i.
Proof.
  destruct (member_key_other i) as [H1' H2']. unfold changes_member.
  destruct (is_active_admin next); autorewrite with redis; unfold db_sadd, db_srem; cbn [fst]; by rewrite !put_lookup_ne by done.
Qed.

Lemma changes_member_admins (r : R) now id next A : model r !! active_admins_key = set_entry A ->
  model (changes_member now id next r) !! active_admins_key =
    set_entry (if is_active_admin next then {[m_user_id next]} ∪ A else A ∖ {[m_user_id next]}).
Proof.
  intros HA. unfold changes_member. set (r1 := rset _ _ _ _ _). assert (model r1 !! active_admins_key = set_entry A) as H1'.
  { subst r1. rewrite law_set. unfold db_set. rewrite lookup_insert_ne; [done|]. intros E. by apply (proj2 (member_key_other id)). }
  destruct (is_active_admin next); rewrite ?law_sadd, ?law_srem; unfold db_sadd, db_srem; cbn [fst];
    rewrite (entry_members _ now _ H1'); by apply (entry_put _ now A).
Qed.

(** *** The operations *)

Notation keeps_consistent := (safe answers (fun (r : R) (_ : list unit) => consistent (model r)) []).

Lemma stored_text (m : StudioMember) : nonempty (dump_json m) = Some (dump_json m).
Proof. apply (proj2 (nonempty_spec _ _)). by split. Qed.

Lemma get_raw (r : R) now id : consistent (model r) -> rget r now (member_key id) = dump_json <$> member_at (model r) id.
Proof. intros Hc. rewrite law_get. by apply consistent_get. Qed.

Lemma signed_in_spec now claims c t o e (x : option StudioMember) m :
  (forall m0, x = Some m0 -> m_user_id m0 = t +:+ ":" +:+ o) ->
  signed_in now claims c t o e (dump_json <$> x) = Ok m ->
  m_user_id m = t +:+ ":" +:+ o /\ is_active_admin m = match x with Some m0 => is_active_admin m0 | None => bootstrap c o e end.
Proof.
  intros Hx. unfold signed_in. destruct x as [m0|]; cbn [fmap option_fmap option_map from_opt].
  - rewrite stored_text, validate_dump. intros [= <-]. split; [exact (Hx m0 eq_refl)|done].
  - change (nonempty _) with (@None string). intros [= <-]. split; [done|]. unfold is_active_admin. cbn. by destruct (bootstrap c o e).
Qed.

(** A write to a consistent server. *)
Lemma consistent_write (r r' : R) now id m : consistent (model r) -> m_user_id m = lower id ->
  (forall i, model r' !! member_key i = db_set (model r) now (member_key id) (dump_json m) None !! member_key i) -> consistent (model r').
Proof. intros Hc Hu Hk. eapply consistent_other; [by apply (consistent_set _ now id m Hc)|done]. Qed.

Lemma upsert_safe now claims c : keeps_consistent (upsert_login prefix now claims c)
  (fun _ x => match x with inl m => user_of claims = Some (m_user_id m) | inr _ => True end).
Proof.
  unfold upsert_login. apply safe_lift; [|done]. intros [[t o] e] Hid. unfold lift_exn in Hid. destruct (identity claims) as [[[? ?] ?]|] eqn:Ei; [|done].
  injection Hid as -> -> ->. destruct (identity_user _ _ _ _ Ei) as [Hu Hl]. apply safe_query; [|done]. intros r _ Hc. rewrite get_raw by done.
  apply safe_lift; [|done]. intros m Hm. unfold lift_exn in Hm. destruct (signed_in _ _ _ _ _ _ _) as [m'|] eqn:Es; [|done]. injection Hm as ->.
  apply signed_in_spec in Es as [Hum _]; [|intros m0 Hm0; by rewrite (consistent_user _ _ _ Hc Hm0)].
  apply safe_invoke; [|intros []; cbn; by rewrite Hum|done]. intros r' _ Hc'. cbn [fst].
  eapply (consistent_write r' _ now); [done| |intros i; apply store_member_member]. by rewrite Hum, Hl.
Qed.

Lemma get_safe now id : keeps_consistent (get_member prefix now id) (fun _ _ => True).
Proof.
  unfold get_member. apply safe_query; [|done]. intros r _ _. destruct (nonempty _) as [raw|]; [|done]. by apply safe_lift.
Qed.

Lemma get_run (r : R) now id : consistent (model r) -> run (get_member prefix now id) r = (r, inl (member_at (model r) (lower id))).
Proof.
  intros Hc. unfold get_member, mbind, prog_bind, query. rewrite run_bind_prog, run_invoke. cbn [fst snd]. rewrite get_raw by done.
  rewrite member_at_lower. destruct (member_at (model r) id) as [m|]; [|done]. cbn [fmap option_fmap option_map from_opt]. by rewrite stored_text, validate_dump.
Qed.

(** An update keeps what the script keeps. *)
Lemma update_safe (I : R -> Prop) now id u actor :
  (forall r, I r -> consistent (model r)) ->
  (forall r next, I r -> m_user_id next = lower id -> I (update_member_script prefix now id (dump_json next) r).1) ->
  safe answers (fun (r : R) (_ : list unit) => I r) [] (update_member prefix now id u actor) (fun _ _ => True).
Proof.
  intros HI Hs. unfold update_member. apply safe_bind. unfold get_member. apply safe_query; [|done]. intros r _ Hr.
  rewrite (get_raw r now id) by (by apply HI). destruct (member_at (model r) id) as [cur|] eqn:Em; [|done].
  cbn [fmap option_fmap option_map from_opt]. rewrite stored_text, validate_dump.
  pose proof (consistent_user _ _ _ (HI _ Hr) Em) as Hu. cbn [lift_exn lift bind_prog mbind prog_bind safe mret prog_ret].
  destruct (_ && _); [done|]. apply safe_invoke; [|intros x|done].
  - intros r' _ Hr'. by apply Hs.
  - apply safe_lift; [|done]. intros a _. by repeat case_match.
Qed.

Lemma script_consistent (r : R) now id next : consistent (model r) -> m_user_id next = lower id ->
  consistent (model (update_member_script prefix now id (dump_json next) r).1).
Proof.
  intros Hc Hu. rewrite script_spec by done. destruct (member_at (model r) id) as [cur|]; [|done]. destruct (_ && _ && _); [done|].
  cbn [fst]. eapply (consistent_write r _ now); [done|done|]. intros i. apply changes_member_member.
Qed.

(** *** An administrator remains *)

Definition administrated (d : db) : Prop := exists i m, member_at d i = Some m /\ is_active_admin m = true.

(** Another member stays as it is. *)
Lemma administrated_other d d' now id m i a : (forall i, d' !! member_key i = db_set d now (member_key id) (dump_json m) None !! member_key i) ->
  member_at d i = Some a -> is_active_admin a = true -> lower i <> lower id -> administrated d'.
Proof. intros Hk Hi Ha Hne. exists i, a. split; [|done]. by rewrite (member_at_other _ _ i (Hk i)), member_at_set, decide_False by done. Qed.

Lemma administrated_same d d' now id m : (forall i, d' !! member_key i = db_set d now (member_key id) (dump_json m) None !! member_key i) ->
  is_active_admin m = true -> administrated d'.
Proof. intros Hk Hm. exists id, m. split; [|done]. by rewrite (member_at_other _ _ id (Hk id)), member_at_set, decide_True by done. Qed.

Lemma script_administrated (r : R) now id next : orderly (model r) /\ administrated (model r) -> m_user_id next = lower id ->
  let r' := (update_member_script prefix now id (dump_json next) r).1 in orderly (model r') /\ administrated (model r').
Proof.
  intros [Ho (i & a & Hi & Ha)] Hu. pose proof Ho as [Hc (A & HA & Hin)]. cbv zeta. rewrite script_spec by done.
  destruct (member_at (model r) id) as [cur|] eqn:Em; [|by split; [|exists i, a]].
  destruct (is_active_admin cur && negb (is_active_admin next) && (scard r now active_admins_key <=? 1)) eqn:Eg; [by split; [|exists i, a]|].
  cbn [fst]. assert (forall i, model (changes_member now id next r) !! member_key i =
    db_set (model r) now (member_key id) (dump_json next) None !! member_key i) as Hk by (intros; apply changes_member_member).
  split; [eapply (orderly_write (model r)); [done|exact HA|exact Hu|exact Hk|]; rewrite <- Hu; by apply changes_member_admins|].
  destruct (is_active_admin next) eqn:En; [by eapply administrated_same|].
  destruct (decide (lower i = lower id)) as [E|Hne]; [|by apply (administrated_other _ _ now id next i a Hk)].
  assert (cur = a) as -> by (rewrite <- member_at_lower, E, member_at_lower in Hi; congruence). rewrite Ha in Eg. cbn [negb andb] in Eg.
  rewrite (scard_entry r now A HA) in Eg. bool_to_prop.
  assert (lower id ∈ A) as HidA by (apply Hin; split; [apply lower_idem|]; exists a; by rewrite member_at_lower).
  destruct (decide (A ∖ {[lower id]} = ∅)) as [Ee|[j Hj]%set_choose_L].
  { assert (size A <= 1)%nat; [|lia]. rewrite <- (size_singleton (C := gset string) (lower id)). apply subseteq_size.
    clear -Ee. intros j Hj. destruct (decide (j = lower id)) as [->|Hne]; [by apply elem_of_singleton|].
    exfalso. apply (not_elem_of_empty (C := gset string) j). rewrite <- Ee. apply elem_of_difference. by rewrite elem_of_singleton. }
  apply elem_of_difference in Hj as [(Hl & b & Hb & Hba)%Hin Hj]. eapply (administrated_other _ _ now id next j b Hk); [done..|].
  rewrite Hl. intros ->. apply Hj, elem_of_singleton. done.
Qed.
(** A sign-in that runs alone. *)
Lemma upsert_run (r : R) now claims c : consistent (model r) ->
  (run (upsert_login prefix now claims c) r).1 = r \/
  exists id m, (run (upsert_login prefix now claims c) r).1 = store_member prefix now id m r /\ m_user_id m = id /\ lower id = id /\
    (forall m0, member_at (model r) id = Some m0 -> is_active_admin m = is_active_admin m0).
Proof.
  intros Hc. unfold upsert_login, mbind, prog_bind. rewrite run_bind_prog, run_lift. unfold lift_exn.
  destruct (identity claims) as [[[t o] e]|] eqn:Ei; [|by left]. destruct (identity_user _ _ _ _ Ei) as [_ Hl].
  rewrite run_bind_prog. unfold query. rewrite run_invoke. cbn [fst snd]. rewrite get_raw by done. rewrite run_bind_prog, run_lift.
  destruct (signed_in _ _ _ _ _ _ _) as [m|] eqn:Es; [|by left].
  apply signed_in_spec in Es as [Hum Ham]; [|intros m0 Hm0; by rewrite (consistent_user _ _ _ Hc Hm0)].
  right. exists (t +:+ ":" +:+ o), m. rewrite run_bind_prog. unfold invoke_. rewrite run_invoke. split; [done|]. split; [done|]. split; [done|].
  intros m0 Hm0. by rewrite Hm0 in Ham.
Qed.

Lemma upsert_administrated (r : R) now claims c : orderly (model r) -> administrated (model r) ->
  let r' := (run (upsert_login prefix now claims c) r).1 in orderly (model r') /\ administrated (model r').
Proof.
  intros Ho (i & a & Hi & Ha). pose proof Ho as [Hc (A & HA & Hin)]. cbv zeta.
  destruct (upsert_run r now claims c Hc) as [->|(id & m & -> & Hu & Hl & Hm)]; [by split; [|exists i, a]|].
  pose proof (store_member_member r now id m) as Hk. split.
  - eapply (orderly_write (model r) _ id m A); [done..|by rewrite Hl|exact Hk|]. rewrite (store_member_admins _ _ _ _ A HA), Hl.
    destruct (is_active_admin m) eqn:Em; [done|]. f_equal. symmetry.
    assert (id ∉ A) as Hn; [|apply leibniz_equiv; set_solver]. intros (_ & m0 & Hm0 & Hact)%Hin. specialize (Hm m0 Hm0). congruence.
  - destruct (decide (lower i = lower id)) as [E|Hne]; [|by apply (administrated_other _ _ now id m i a Hk)].
    apply (administrated_same _ _ now id m Hk). rewrite <- (member_at_lower _ i), E, member_at_lower in Hi. by rewrite (Hm a Hi).
Qed.

Notation keeps_all := (calls_keep keeps_auth).

Lemma upsert_keeps now claims c : keeps_all (upsert_login prefix now claims c).
Proof.
  apply calls_keep_bind; [apply calls_keep_lift|]. intros [[t o] e]. apply calls_keep_bind; [by apply calls_keep_invoke|]. intros raw.
  apply calls_keep_bind; [apply calls_keep_lift|]. intros m. apply calls_keep_bind; [|done]. apply calls_keep_invoke. intros r. apply store_member_auth.
Qed.

Lemma get_keeps now id : keeps_all (get_member prefix now id).
Proof.
  apply calls_keep_bind; [by apply calls_keep_invoke|]. intros raw. destruct (nonempty _); [|done].
  apply calls_keep_bind; [apply calls_keep_lift|done].
Qed.

Lemma script_keeps (r : R) now id text : keeps_auth r (update_member_script prefix now id text r).1.
Proof.
  unfold update_member_script. destruct (rget _ _ _) as [raw|]; [|by intros k]. destruct (validate_json raw) as [cur|]; [|by intros k].
  destruct (validate_json text) as [next|]; [|by intros k]. destruct (_ && _ && _); [by intros k|]. intros k Hk.
  change (model (if is_active_admin next then (rsadd (rset r now (member_key id) text None) now active_admins_key (m_user_id next)).1
    else rsrem (rset r now (member_key id) text None) now active_admins_key (m_user_id next)) !! k = model r !! k).
  assert (k <> active_admins_key /\ k <> member_key id) as (H2' & H3').
  { split; intros ->; (eapply not_auth; [|exact Hk]); [by right; right|left; by exists id]. }
  destruct (is_active_admin next); autorewrite with redis; unfold db_sadd, db_srem, db_set; cbn [fst];
    rewrite put_lookup_ne by done; by rewrite lookup_insert_ne.
Qed.

Lemma update_keeps now id u actor : keeps_all (update_member prefix now id u actor).
Proof.
  apply calls_keep_bind; [apply get_keeps|]. intros [cur|]; [|done]. cbv zeta. destruct (_ && _); [done|].
  apply calls_keep_bind; [apply calls_keep_invoke; intros r; apply script_keeps|]. intros answer.
  apply calls_keep_bind; [apply calls_keep_lift|]. intros a. by repeat case_match.
Qed.

Definition redis_auth_laws : AuthStoreLaws R R prefix.
Proof.
  refine {| as_member r id := member_at (model r) id; as_inv r := consistent (model r); as_orderly r := orderly (model r) |}.
  - done.
  - intros r s Hc Hk. eapply consistent_other; [exact Hc|]. intros id. apply Hk, not_auth. left. by exists id.
  - intros. apply upsert_safe.
  - intros. apply get_safe.
  - intros. apply (update_safe (fun r => consistent (model r))); [done|]. intros r next Hc. by apply script_consistent.
  - intros. apply upsert_keeps.
  - intros. apply get_keeps.
  - intros. apply update_keeps.
  - intros. by apply get_run.
  - intros. apply (update_safe (fun r => orderly (model r) /\ administrated (model r))); [by intros r [[Hc _] _]|].
    intros r next Hr. by apply script_administrated.
  - intros. by apply upsert_administrated.
Defined.
End redis.

(** ** Members in PostgreSQL *)

Section hybrid.
Context {R : Type} `{RedisLaws R} (prefix : string).
Import HybridAuth.
Notation S := (R * member_tables)%type.
Notation keeps_auth := (auth_kept (S := S) (R := R) prefix).

Definition row_at (t : member_tables) (id : string) : option StudioMember := member_from_row id <$> members t !! id.
Definition table_administrated (t : member_tables) : Prop := exists i m, row_at t i = Some m /\ is_active_admin m = true.

Lemma active_row id row : is_active_admin (member_from_row id row) = true <-> mr_role row = ADMIN /\ mr_status row = ACTIVE.
Proof. unfold is_active_admin. cbn. rewrite andb_true_iff, !bool_decide_eq_true. done. Qed.

Lemma table_administrated_lookup t : table_administrated t <-> exists i row, active_admins t !! i = Some row.
Proof.
  unfold table_administrated, row_at, active_admins. split.
  - intros (i & m & Hi & Ha). destruct (members t !! i) as [row|] eqn:E; [|done]. injection Hi as <-. exists i, row.
    apply map_lookup_filter_Some. split; [done|]. by apply active_row in Ha.
  - intros (i & row & [Hi Ha]%map_lookup_filter_Some). exists i, (member_from_row i row). rewrite Hi. split; [done|]. by apply active_row.
Qed.

(** A row is written: an active administrator remains if the row is one, or if there is another. *)
Lemma table_write t id row log : table_administrated t ->
  (is_active_admin (member_from_row id row) = true \/ exists i row', i <> id /\ active_admins t !! i = Some row') ->
  table_administrated (MemberTables (<[id := row]> (members t)) log).
Proof.
  intros _ [Ha|(i & row' & Hne & Hi)].
  - exists id, (member_from_row id row). unfold row_at. cbn. by rewrite lookup_insert_eq.
  - apply map_lookup_filter_Some in Hi as [Hi Ha]. exists i, (member_from_row i row'). unfold row_at. cbn.
    rewrite lookup_insert_ne, Hi by done. split; [done|]. by apply active_row.
Qed.

(** A row that is not one leaves another administrator. *)
Lemma another_administrator t id : table_administrated t ->
  (forall row, members t !! id = Some row -> is_active_admin (member_from_row id row) = false) ->
  exists i row', i <> id /\ active_admins t !! i = Some row'.
Proof.
  intros Ht Hid. apply table_administrated_lookup in Ht as (i & row' & Hi). exists i, row'. split; [|done]. intros ->.
  apply map_lookup_filter_Some in Hi as [Hi Ha]. specialize (Hid _ Hi). apply (active_row id) in Ha. cbn [snd] in Ha. congruence.
Qed.

Lemma other_administrator t id row : active_admins t !! id = Some row -> (1 < size (active_admins t))%nat ->
  exists i row', i <> id /\ active_admins t !! i = Some row'.
Proof.
  intros Hid Hs. destruct (map_choose (delete id (active_admins t))) as (i & row' & [Hne Hi]%lookup_delete_Some).
  - intros E. apply (f_equal size) in E. rewrite map_size_delete, Hid, map_size_empty in E. lia.
  - by exists i, row'.
Qed.

Lemma update_tables_administrated now id u actor t t' m : table_administrated t ->
  update_tables now id u actor t = inl (t', m) -> table_administrated t'.
Proof.
  intros Ht. unfold update_tables. destruct (members t !! id) as [row|] eqn:Er; [|done].
  destruct (_ && negb _); [done|]. set (next := with_update _ _ _).
  destruct (is_active_admin (member_from_row id row)) eqn:Ec; cbn [andb].
  2: { intros [= <- _]. apply table_write; [done|]. right. apply another_administrator; [done|]. intros row' Hr. congruence. }
  destruct (is_active_admin next) eqn:En; cbn [negb andb].
  - intros [= <- _]. apply table_write; [done|]. by left.
  - destruct (_ <=? 1) eqn:Eg; [done|]. bool_to_prop. intros [= <- _]. apply table_write; [done|]. right.
    apply (other_administrator t id row); [|lia]. apply map_lookup_filter_Some. split; [done|]. by apply active_row in Ec.
Qed.

Lemma upsert_tables_administrated now claims c tenant o e t : table_administrated t ->
  table_administrated (upsert_tables now claims c tenant o e t).1.
Proof.
  intros Ht. unfold upsert_tables. set (id := tenant +:+ ":" +:+ o). destruct (members t !! id) as [row|] eqn:Er; cbn [fst].
  - apply table_write; [done|]. destruct (is_active_admin (member_from_row id row)) eqn:Ea; [left; by apply active_row; apply active_row in Ea|].
    right. apply another_administrator; [done|]. intros row' Hr. congruence.
  - apply table_write; [done|]. right. apply another_administrator; [done|]. intros row' Hr. congruence.
Qed.

(** Transactions leave Redis alone. *)
Lemma transaction_keeps {A} (f : member_tables -> member_tables * A + studio_exn) : calls_keep keeps_auth (transaction (R := R) f).
Proof.
  apply calls_keep_bind; [|intros; apply calls_keep_lift]. apply calls_keep_invoke. intros s. by destruct (f s.2) as [[t a]|e].
Qed.

Lemma transaction_safe {A} (I : S -> Prop) (f : member_tables -> member_tables * A + studio_exn) (Q : A + studio_exn -> Prop) :
  (forall s t a, I s -> f s.2 = inl (t, a) -> I (s.1, t)) -> (forall s t a, f s = inl (t, a) -> Q (inl a)) -> (forall e, Q (inr e)) ->
  safe answers (fun (s : S) (_ : list unit) => I s) [] (transaction f) (fun _ x => Q x).
Proof.
  intros HI HQ He s o s' y Hi Ha. exists []. destruct y as [x|e]; cbn in Ha |- *.
  - destruct (f s.2) as [[t a]|e] eqn:E; injection Ha as <- <-; cbn; [|by split]. split; [by eapply HI|by eapply HQ].
  - split; [|apply He]. destruct Ha as [->| ->]; [done|]. destruct (f s.2) as [[t a]|e'] eqn:E; [by eapply HI|done].
Qed.

Definition hybrid_auth_laws : AuthStoreLaws S R prefix.
Proof.
  refine {| as_member s id := row_at s.2 id; as_inv s := True; as_orderly s := True |}; try done.
  - intros. apply safe_lift; [|done]. intros [[t o] e] Hid. unfold lift_exn in Hid. destruct (identity claims) as [[[? ?] ?]|] eqn:Ei; [|done].
    injection Hid as -> -> ->. destruct (identity_user _ _ _ _ Ei) as [Hu _]. apply transaction_safe; [done| |done].
    intros s t' m [= E]. rewrite Hu. change m with (t', m).2. rewrite <- E. unfold upsert_tables. by destruct (members s !! _).
  - intros now id s o s' y _ _. exists []. split; [done|]. by destruct y.
  - intros. by apply (transaction_safe (fun _ => True) _ (fun _ => True)).
  - intros. apply calls_keep_bind; [apply calls_keep_lift|]. intros [[t o] e]. apply transaction_keeps.
  - intros. by apply calls_keep_invoke.
  - intros. apply transaction_keeps.
  - intros. apply (transaction_safe (fun s : S => True /\ table_administrated s.2)); [|done..]. intros s t m [_ Ht] E.
    split; [done|]. by eapply update_tables_administrated.
  - intros s now claims c _ Ht. split; [done|]. cbn. unfold HybridAuth.upsert_login, mbind, prog_bind. rewrite run_bind_prog, run_lift. unfold lift_exn.
    destruct (identity claims) as [[[t o] e]|]; [|done]. unfold transaction. rewrite run_transact.
    pose proof (upsert_tables_administrated now claims c t o e s.2 Ht) as Ht'. by destruct (upsert_tables _ _ _ _ _ _ _) as [t' m].
Defined.
End hybrid.

(** ** Administrators *)

Section administrators.
Context {R : Type} `{RedisLaws R} `{JsonModelLaws StudioMember}.
Context (prefix : string) (dumped : forall m : StudioMember, dump_json m <> "").
Notation Tables := HybridAuth.member_tables.

(** The programs on each store. *)
Definition redis_program : prog (call R studio_exn) studio_exn unit -> Prop :=
  member_program (AuthStore0 := RedisAuth.redis_auth_store prefix).
Definition hybrid_program : prog (call (R * Tables) studio_exn) studio_exn unit -> Prop :=
  member_program (R := R) (AuthStore0 := HybridAuth.hybrid_auth_store).

(** C13. In either store, whatever the updates of members, however their calls interleave and fail, and the sign-ins between
    them: where there was an active administrator, there is one.  In Redis the index of administrators that the script
    counts stays exact. *)
Theorem administrator_remains :
  (forall (r : R) c, orderly prefix (model r) -> administrated prefix (model r) ->
     rtc (pool_step answers redis_program) (r, []) c -> administrated prefix (model c.1) /\ orderly prefix (model c.1)) /\
  (forall (s : R * Tables) c, table_administrated s.2 ->
     rtc (pool_step answers hybrid_program) (s, []) c -> table_administrated c.1.2).
Proof.
  split.
  - intros r c Ho Ha Hr. destruct (administrators_remain (AuthStoreLaws0 := redis_auth_laws prefix dumped)
      prefix r c Ho Ha Hr) as [Ho' Ha']. by split.
  - intros s c Ha Hr. by destruct (administrators_remain (AuthStoreLaws0 := hybrid_auth_laws prefix) prefix s c I Ha Hr).
Qed.
End administrators.

