(* ===== verification/AuthDemo.v ===== *)
(** * Sign-in, sessions and access: witnesses and failures

    A server with one administrator who signs in and blocks a member, for the
    theorems of [AuthSpec]; and the runs that show where the code does not keep
    what it means to. *)

From stdpp Require Import countable.
From S2P Require Import Prelude PyStr PyVal PySort PyTime Json JsonLoads Codec Redis StudioErrors StudioTime Interleave Calls Auth AuthSpec AuthStores.
From Stdlib Require Import Ascii.
Import RedisAuth.

(** ** A server *)

#[local] Instance role_countable : Countable StudioRole.
Proof. refine (inj_countable' (fun r => bool_decide (r = ADMIN)) (fun b => if b : bool then ADMIN else READONLY) _). by intros []. Defined.
#[local] Instance member_status_countable : Countable StudioMemberStatus.
Proof.
  refine (inj_countable' (fun s => match s with PENDING => None | ACTIVE => Some true | BLOCKED => Some false end)
    (fun b => match b with None => PENDING | Some true => ACTIVE | Some false => BLOCKED end) _). by intros [].
Defined.
#[local] Instance member_countable : Countable StudioMember.
Proof.
  refine (inj_countable' (fun m => ((m_user_id m, m_tenant_id m, m_object_id m, m_email m, m_display_name m), (m_role m, m_status m),
      (m_created_at m, m_updated_at m, m_last_sign_in_at m)))
    (fun t => match t with ((a, b, c, d, e), (f, g), (h, i, j)) => Member a b c d e f g h i j end) _).
  by intros [].
Defined.

(** An object's text, which is not empty. *)
#[local] Instance member_json : JsonModel StudioMember := {|
  dump_json m := "{" +:+ bits (encode m);
  validate_json s := match s with
    | String.String _ s => match decode (of_bits s) with Some m => Ok m | None => Raise (value_error "invalid") end
    | _ => Raise (value_error "invalid")
    end |}.
#[local] Instance member_json_laws : JsonModelLaws StudioMember.
Proof.
  intros m. change (match decode (of_bits (bits (encode m))) with Some m => Ok m | None => Raise (value_error "invalid") end = Ok m).
  by rewrite of_bits_bits, decode_encode.
Qed.
Lemma member_dumped (m : StudioMember) : dump_json m <> "".
Proof. done. Qed.

Notation prefix := "studio:auth".
#[local] Instance demo_store : AuthStore db db := redis_auth_store prefix.
#[local] Instance demo_laws : AuthStoreLaws db db prefix := redis_auth_laws prefix member_dumped.

Definition no_floats (s : string) : pyfloat := PyFloat s FNan true.
Definition demo_config : StudioEntraConfig :=
  EntraConfig "app" "t" "https://login" "https://login/d" "https://studio/cb" "k" "c" ["ann@x.test"] ["a"] 28800 600 true prefix 300 60.
Definition demo_claims (oid email nonce : string) : pydict :=
  [("tid", PStr "t"); ("oid", PStr oid); ("email", PStr email); ("nonce", PStr nonce)].
(** A verifier that takes the token for the object id. *)
Definition demo_library (nonce : string) : token_library :=
  TokenLibrary (fun _ => Ok [("kid", PStr "1")]) (fun _ => inl [PDict [("kid", PStr "1")]])
    (fun token _ => Ok (demo_claims token (token +:+ "nn@x.test") nonce)) (fun _ => false).
Definition demo_document : pydict + studio_exn :=
  inl [("authorization_endpoint", PStr "https://login/a"); ("token_endpoint", PStr "https://login/t"); ("jwks_uri", PStr "https://login/k")].
Definition demo_exchange (oid : string) : string -> string -> string -> token_response + studio_exn :=
  fun _ _ _ => inl (TokenResponse 200 (Ok (PDict [("id_token", PStr oid)]))).

Definition sign_in (now : Z) (oid session : string) : list (prog (call (db * list auth_event) studio_exn) studio_exn unit) :=
  [forget (start_login prefix demo_config now demo_document ("login-" +:+ oid) "state" "nonce" "verifier" None);
   forget (finish_login no_floats prefix demo_config now (demo_library "nonce") demo_document (demo_exchange oid) session "csrf"
     ("login-" +:+ oid) "state" "code")].

(** The administrator and a member sign in. *)
Definition demo_programs := (sign_in 0 "a" "session-a" ++ sign_in 1 "u" "session-u")%list.
Definition demo_start : db * list auth_event := (∅, []).
Definition demo_world : db * list auth_event := foldl (fun w m => (run m w).1) demo_start demo_programs.

Lemma demo_signed_out : signed_out prefix demo_start.
Proof. split; [by intros id|]. by split. Qed.

Lemma demo_signed_in : exists l, rtc (pool_step answers (auth_program no_floats prefix demo_config)) (demo_start, []) (demo_world, l).
Proof. apply runs_reachable. repeat constructor. Qed.

Lemma two_sessions : length (used demo_world.2) = 2%nat.
Proof. vm_compute. reflexivity. Qed.

Definition block_request : request := Request "/studio/admin/users/t:u" "PATCH" (Some "session-a") (Some "csrf").
Definition block_decision : decision + studio_exn := (run (serve no_floats prefix 2 block_request) demo_world).2.

Lemma block_passed_on : match block_decision with inl (PassedOn (Some m)) => m_user_id m = "t:a" | _ => False end.
Proof. vm_compute. reflexivity. Qed.

#[local] Opaque demo_world.



(** ** Administrators *)

Definition demo_member (id : string) (role : StudioRole) (status : StudioMemberStatus) : StudioMember :=
  Member id "t" id (id +:+ "@x.test") id role status "" "" None.
Definition with_member (m : StudioMember) (d : db) : db := store_member prefix 0 (m_user_id m) m d.

(** Two administrators and a member. *)
Definition demo_members : db :=
  with_member (demo_member "t:u" READONLY ACTIVE) (with_member (demo_member "t:b" ADMIN ACTIVE) (with_member (demo_member "t:a" ADMIN ACTIVE) ∅)).

Lemma with_member_orderly (d : db) m A : orderly prefix d -> d !! active_admins_key prefix = set_entry A -> lower (m_user_id m) = m_user_id m ->
  (is_active_admin m = false -> m_user_id m ∉ A) ->
  orderly prefix (with_member m d) /\ with_member m d !! active_admins_key prefix = set_entry (if is_active_admin m then {[m_user_id m]} ∪ A else A).
Proof.
  intros Ho HA Hl Hn. pose proof (store_member_admins prefix (d : db) 0 (m_user_id m) m A HA) as Ha. split; [|exact Ha].
  apply (orderly_write prefix d _ (m_user_id m) m A 0 Ho HA); [done|intros i; exact (store_member_member prefix d 0 (m_user_id m) m i)|]. rewrite Hl. etrans; [exact Ha|].
  destruct (is_active_admin m); [done|]. f_equal. specialize (Hn eq_refl). apply leibniz_equiv. set_solver.
Qed.

Lemma demo_orderly : orderly prefix (model (R := db) demo_members).
Proof.
  assert (orderly prefix (∅ : db)) as H0'.
  { split; [by intros id|]. exists ∅. split; [done|]. intros id. split; [by intros ?%elem_of_empty|]. by intros (_ & m & Hm & _). }
  destruct (with_member_orderly ∅ (demo_member "t:a" ADMIN ACTIVE) ∅ H0') as [H1' E1]; [done..|].
  destruct (with_member_orderly _ (demo_member "t:b" ADMIN ACTIVE) _ H1' E1) as [H2' E2]; [done..|].
  destruct (with_member_orderly _ (demo_member "t:u" READONLY ACTIVE) _ H2' E2) as [H3' _]; [reflexivity| |exact H3'].
  intros _. cbn [demo_member m_user_id]. rewrite !not_elem_of_union, !not_elem_of_singleton. by split; [|split; [|apply not_elem_of_empty]].
Qed.

Definition demotion (id actor : string) : prog (call db studio_exn) studio_exn unit :=
  _ ← as_update_member (AuthStore := demo_store) 3 id (UserUpdate (Some READONLY) None) actor; mret tt.

Lemma administrator_remains_witness :
  exists c, rtc (pool_step answers (redis_program (R := db) prefix)) (demo_members, []) c /\
    member_at prefix c.1 "t:b" = Some (Member "t:b" "t" "t:b" "t:b@x.test" "t:b" READONLY ACTIVE "" (isoformat_z 3) None) /\
    administrated prefix (model (R := db) c.1).
Proof.
  destruct (runs_reachable (redis_program (R := db) prefix) [demotion "t:b" "t:a"; demotion "t:a" "t:b"] demo_members) as [l Hl];
    [by repeat constructor|].
  eexists. split; [exact Hl|]. split; [vm_compute; reflexivity|].
  assert (administrated prefix (model (R := db) demo_members)) as Ha by (exists "t:a"; eexists; split; [vm_compute; reflexivity|reflexivity]).
  exact (proj1 (proj1 (administrator_remains (R := db) prefix member_dumped) demo_members _ demo_orderly Ha Hl)).
Defined.

(** ** Where a sign-in overlaps an update *)

Definition sign_in_of (oid : string) : prog (call db studio_exn) studio_exn StudioMember :=
  as_upsert_login (AuthStore := demo_store) 4 (demo_claims oid (oid +:+ "@x.test") "n") demo_config.
Definition update_of (id actor : string) (role : StudioRole) (status : StudioMemberStatus) : prog (call db studio_exn) studio_exn StudioMember :=
  as_update_member (AuthStore := demo_store) 4 id (UserUpdate (Some role) (Some status)) actor.

(** A member is blocked while he signs in: the block is answered with success, and undone. *)
Lemma sign_in_undoes_block :
  let '(d, signed, updated) := beside [true; false; false; true] (sign_in_of "u") (update_of "t:u" "t:a" READONLY BLOCKED) demo_members in
  m_status <$> member_at prefix d "t:u" = Some ACTIVE /\
  match updated, signed with Ret m, Ret _ => m_status m = BLOCKED | _, _ => False end.
Proof. vm_compute. done. Qed.

(** A member is made an administrator while he signs in, which undoes it but leaves him in the index: then both
    administrators can lose the role, and none remains. *)
Lemma sign_in_loses_the_administrators :
  let '(d, _, _) := beside [true; false; false; true] (sign_in_of "u") (update_of "t:u" "t:a" ADMIN ACTIVE) demo_members in
  let (d1, x1) := run (update_of "t:b" "t:a" READONLY ACTIVE) d in
  let (d2, x2) := run (update_of "t:a" "t:b" READONLY ACTIVE) d1 in
  match x1, x2 with inl _, inl _ => True | _, _ => False end /\
  map (fun id => is_active_admin <$> member_at prefix d2 id) ["t:a"; "t:b"; "t:u"] = [Some false; Some false; Some false].
Proof. vm_compute. done. Qed.

(** ** Comparisons that miss *)

(** An administrator takes the role from himself when he spells his own id with another case. *)
Lemma self_demotion_by_case :
  (run (update_of "t:a" "t:a" READONLY ACTIVE) demo_members).2 = inr (OtherError self_demotion) /\
  match (run (update_of "T:A" "t:a" READONLY ACTIVE) demo_members).2 with inl m => m_role m = READONLY | inr _ => False end.
Proof. vm_compute. done. Qed.

(** A path that a browser reads as another host is kept as the place to return to. *)
Lemma return_to_backslash : safe_return_to (Some "/\evil.test") = Ok "/\evil.test" /\
  safe_return_to (Some "//evil.test") = Ok "/" /\ safe_return_to (Some "https://evil.test") = Ok "/".
Proof. vm_compute. done. Qed.

(** A state or a CSRF token with a character beyond ASCII is not refused but raises. *)
Lemma beyond_ascii_raises : is_ok (compare_digest "csrf" (String.String (chr 233) "")) = false /\ compare_digest "csrf" "other" = Ok false.
Proof. vm_compute. done. Qed.
