(* ===== verification/Registry.v ===== *)
(** * The service registry of Studio (studio/registry.py)

    [RedisServiceRegistryStore]: a record per service, the set of all ids and,
    per environment and base URL, the id of the service that owns them. *)

From stdpp Require Import countable.
From S2P Require Import Prelude PyStr PyVal PySort PyUrl PyRe Sha256 Codec Redis RedisProg.
From Stdlib Require Import Ascii.

(** [ServiceStatus], studio/registry.py:26-30. *)
Inductive ServiceStatus := REGISTERED | HEALTHY | UNAVAILABLE | DISABLED.
#[export] Instance service_status_eq_dec : EqDecision ServiceStatus.
Proof. solve_decision. Defined.

(** A provider's configuration (Loki, Prometheus or Tempo): its base URL and its other fields. *)
Record provider_config := ProviderConfig { pc_base_url : string; pc_fields : pydict }.
#[export] Instance provider_config_eq_dec : EqDecision provider_config.
Proof. solve_decision. Defined.

(** [ServiceRecord], studio/registry.py:206-219. *)
Record ServiceRecord := {
  sr_id : string; sr_name : string; sr_base_url : string; sr_environment : string; sr_tags : list string;
  sr_auth_mode : string; sr_status : ServiceStatus; sr_capabilities : option pydict; sr_last_seen_at : option Z;
  sr_log_config : option provider_config; sr_metrics_config : option provider_config;
  sr_trace_config : option provider_config; sr_health : option pydict }.

(** ** URLs *)

(** [normalize_base_url], studio/registry.py:416-446. *)
Definition normalize_base_url (url : string) : result string :=
  let stripped := strip url in
  if String.eqb stripped "" then Raise (value_error "base_url must not be empty")
  else
    parts ← urlsplit stripped;
    if negb (str_in (lower (scheme parts)) ["http"; "https"]) then Raise (value_error "base_url must use http or https")
    else if String.eqb (netloc parts) "" then Raise (value_error "base_url must include a hostname")
    else if negb (String.eqb (query parts) "") || negb (String.eqb (fragment parts) "")
    then Raise (value_error "base_url must not include a query string or fragment")
    else if has_userinfo parts then Raise (value_error "base_url must not include user info")
    else
      match hostname parts with
      | None => Raise (value_error "base_url must include a hostname")
      | Some hostname =>
          let host := lower hostname in
          let host := if has_char ":" host && negb (startswith "[" host) then "[" +:+ host +:+ "]" else host in
          port ← port parts;
          let netloc := match port with Some p => host +:+ ":" +:+ pretty p | None => host end in
          Ok (urlunsplit (lower (scheme parts)) netloc (rstrip_slash (path parts)))
      end.

(** [StudioOutboundUrlPolicy], studio/registry.py:486-495: the patterns of hosts and the networks. *)
Record url_policy := UrlPolicy { allowed_host_patterns : list string; allowed_networks : list ip_network }.

(** [StudioOutboundUrlPolicy._normalize_host_pattern], studio/registry.py:522-528. *)
Definition normalize_host_pattern (pattern : string) : result string :=
  let normalized := lower (strip pattern) in
  if String.eqb normalized "" then Raise (value_error "allowed_hosts entries must not be empty")
  else match chars normalized with
       | "*"%char :: "."%char :: l => Ok (of_chars ("."%char :: l))
       | _ => Ok normalized
       end.

(** [StudioOutboundUrlPolicy._matches_host_pattern], studio/registry.py:531-534. *)
Definition matches_host_pattern (hostname pattern : string) : bool :=
  if startswith "." pattern then endswith pattern hostname else String.eqb hostname pattern.

(** [StudioOutboundUrlPolicy._is_allowed_hostname], studio/registry.py:518-519. *)
Definition is_allowed_hostname (p : url_policy) (hostname : string) : bool :=
  existsb (matches_host_pattern hostname) (allowed_host_patterns p).

Definition outbound_error (text : string) : exn := Exn XValueError "OutboundUrlPolicyError" text.

(** [StudioOutboundUrlPolicy.validate_url], studio/registry.py:497-516. *)
Definition validate_url (p : url_policy) (label url : string) : result unit :=
  parts ← urlsplit url;
  match hostname parts with
  | None => Raise (outbound_error (label +:+ " '" +:+ url +:+ "' is missing a hostname."))
  | Some hostname =>
      let refused := Raise (outbound_error (label +:+ " '" +:+ url +:+ "' is not in the trusted host/network allowlist.")) in
      let host := lower hostname in
      match ip_address host with
      | Some a => if existsb (in_network a) (allowed_networks p) then Ok tt else refused
      | None => if is_allowed_hostname p host then Ok tt else refused
      end
  end.

Definition duplicate_service (text : string) : exn := Exn XUser "DuplicateServiceError" text.
Definition service_not_found (id : string) : exn := Exn XUser "ServiceNotFoundError" ("Service '" +:+ id +:+ "' was not found.").
Definition url_taken (r : ServiceRecord) : exn :=
  duplicate_service ("A service is already registered for environment '" +:+ sr_environment r
                     +:+ "' and base_url '" +:+ sr_base_url r +:+ "'.").

(** [list_records], studio/registry.py:626-626: the order of the listing. *)
Definition record_le : ServiceRecord -> ServiceRecord -> bool :=
  lex_le sr_environment (lex_le (fun r => lower (sr_name r)) (fun a b => String.leb (sr_id a) (sr_id b))).

Section store.
Context {R : Type} `{Redis R} `{JsonModel ServiceRecord}.
Context (prefix : string).
Notation P := (P R).

(** [RedisServiceRegistryStore._record_key], studio/registry.py:696-697. *)
Definition record_key (id : string) : string := prefix +:+ ":by-id:" +:+ id.
(** [RedisServiceRegistryStore._all_key], studio/registry.py:699-700. *)
Definition all_key : string := prefix +:+ ":all".
(** [RedisServiceRegistryStore._env_url_key], studio/registry.py:702-703. *)
Definition env_url_key (environment url : string) : string := prefix +:+ ":by-env-url:" +:+ environment +:+ ":" +:+ url.
Definition url_key (r : ServiceRecord) : string := env_url_key (sr_environment r) (sr_base_url r).

(** [RedisServiceRegistryStore.get], studio/registry.py:629-634. *)
Definition get (now : Z) (id : string) : P (option ServiceRecord) :=
  raw ← await_read (fun r => rget r now (record_key id));
  match raw with
  | None => mret None
  | Some payload => liftP (rec ← validate_json payload; Ok (Some rec))
  end.

(** [RedisServiceRegistryStore.list_records], studio/registry.py:616-627. *)
Definition list_records (now : Z) : P (list ServiceRecord) :=
  members ← await_read (fun r => rsmembers r now all_key);
  let service_ids := sort_by str_le members in
  match service_ids with
  | [] => mret []
  | _ =>
      payloads ← await_read (fun r => map (fun id => rget r now (record_key id)) service_ids);
      liftP (items ← mapM_result validate_json (omap id payloads); Ok (sort_by record_le items))
  end.

(** [RedisServiceRegistryStore._create_record], studio/registry.py:669-688. *)
Definition create_record (now : Z) (rec : ServiceRecord) : P unit :=
  record_reserved ← await (fun r => rset_nx r now (record_key (sr_id rec)) (dump_json rec) None);
  if negb record_reserved
  then liftP (Raise (duplicate_service ("Service '" +:+ sr_id rec +:+ "' is already registered.")))
  else
    env_url_reserved ← await (fun r => rset_nx r now (url_key rec) (sr_id rec) None);
    if negb env_url_reserved then
      _ ← await_ (fun r => (rdel r now (record_key (sr_id rec))).1);
      liftP (Raise (url_taken rec))
    else
      reraising (await_ (fun r => (rsadd r now all_key (sr_id rec)).1))
        (await_ (fun r => (rdel (rdel r now (record_key (sr_id rec))).1 now (url_key rec)).1)).

(** [RedisServiceRegistryStore.create], studio/registry.py:612-614. *)
Definition create (now : Z) (rec : ServiceRecord) : P ServiceRecord := _ ← create_record now rec; mret rec.

(** [RedisServiceRegistryStore._get_env_url_owner], studio/registry.py:690-694. *)
Definition get_env_url_owner (now : Z) (environment url : string) : P (option string) :=
  await_read (fun r => rget r now (env_url_key environment url)).

(** [RedisServiceRegistryStore._write_record], studio/registry.py:664-667. *)
Definition write_record (now : Z) (rec : ServiceRecord) : P unit :=
  _ ← await_ (fun r => rset r now (record_key (sr_id rec)) (dump_json rec) None);
  _ ← await_ (fun r => (rsadd r now all_key (sr_id rec)).1);
  await_ (fun r => rset r now (url_key rec) (sr_id rec) None).

(** [RedisServiceRegistryStore.update], studio/registry.py:636-653. *)
Definition update (now : Z) (id : string) (rec : ServiceRecord) : P ServiceRecord :=
  existing ← get now id;
  match existing with
  | None => liftP (Raise (service_not_found id))
  | Some existing =>
      conflict ← get_env_url_owner now (sr_environment rec) (sr_base_url rec);
      if match conflict with Some c => negb (String.eqb c id) | None => false end
      then liftP (Raise (url_taken rec))
      else
        _ ← write_record now rec;
        _ ← (if negb (String.eqb (url_key existing) (url_key rec))
             then await_ (fun r => (rdel r now (url_key existing)).1) else mret tt);
        mret rec
  end.

(** [RedisServiceRegistryStore.delete], studio/registry.py:655-662. *)
Definition delete (now : Z) (id : string) : P unit :=
  existing ← get now id;
  match existing with
  | None => liftP (Raise (service_not_found id))
  | Some existing =>
      _ ← await_ (fun r => (rdel r now (record_key id)).1);
      _ ← await_ (fun r => (rdel r now (url_key existing)).1);
      await_ (fun r => rsrem r now all_key id)
  end.
End store.

(** ** The names of the gateway *)

Definition not_name_char (c : ascii) : bool :=
  let z := code c in negb (((97 <=? z) && (z <=? 122)) || ((48 <=? z) && (z <=? 57))).

(** [s.strip("-")] *)
Definition strip_dash (s : string) : string :=
  of_chars (rev (drop_while (Ascii.eqb "-") (rev (drop_while (Ascii.eqb "-") (chars s))))).

(** [_gateway_safe_service_name], studio/registry.py:355-358. *)
Definition gateway_safe_service_name (value : string) : string :=
  strip_dash (re_sub (RRepeat (RClass not_name_char) 1 None) "-" (lower (strip value))).

(** [_gateway_service_name_fingerprint], studio/registry.py:361-362. *)
Definition gateway_service_name_fingerprint (value : string) : string :=
  of_chars (take 8 (chars (Sha256.hexdigest (utf8 value)))).

(** [_gateway_unique_service_names], studio/registry.py:365-375: by service id. *)
Definition gateway_unique_service_names (ids : list string) : list (string * string) :=
  let base_names := map (fun id => (id, if String.eqb (gateway_safe_service_name id) "" then "service" else gateway_safe_service_name id)) ids in
  map (fun kv : string * string =>
    let '(id, base) := kv in
    (id, if (length (List.filter (fun kv' => String.eqb kv'.2 base) base_names) =? 1)%nat
            && negb (String.eqb (gateway_safe_service_name id) "")
         then base else base +:+ "-" +:+ gateway_service_name_fingerprint id)) base_names.

Definition status_value (s : ServiceStatus) : string :=
  match s with REGISTERED => "registered" | HEALTHY => "healthy" | UNAVAILABLE => "unavailable" | DISABLED => "disabled" end.

(** [_gateway_service_status], studio/registry.py:378-384. *)
Definition gateway_service_status (r : ServiceRecord) : string :=
  match sr_health r with
  | Some h => match dgetv "overall_status" h with
              | PStr s => if String.eqb (strip s) "" then status_value (sr_status r) else strip s
              | _ => status_value (sr_status r)
              end
  | None => status_value (sr_status r)
  end.

(** [gateway_service_exports_from_records], studio/registry.py:409-413: the name, the record's fields
    that are handed on, and the route. *)
Definition gateway_service_exports_from_records (records : list ServiceRecord) : list (string * ServiceRecord * string * string) :=
  map (fun r =>
    let name := from_opt "" (dget (sr_id r) (gateway_unique_service_names (map sr_id records))) in
    (name, r, gateway_service_status r, "/services/" +:+ name +:+ "/*")) records.

(** ** Validation of records *)

Definition invalid_record : exn := Exn XValidationError "ValidationError" "invalid service".

(** [ServiceRecord._strip_required_strings], studio/registry.py:223-229. *)
Definition strip_required (value : string) : result string :=
  if String.eqb (strip value) "" then Raise invalid_record else Ok (strip value).

(** [ServiceRecord._normalize_tags], studio/registry.py:240-255. *)
Definition normalize_tags (value : list string) : list string :=
  foldl (fun acc item => let s := strip item in if String.eqb s "" || str_in s acc then acc else acc ++ [s])%list [] value.

(** A [ValueError] of a validator becomes a [ValidationError]. *)
Definition validation {A} (r : result A) : result A :=
  match r with
  | Raise e => match exn_class e with XValueError | XValidationError => Raise invalid_record | _ => Raise e end
  | r => r
  end.

(** [ServiceRecord.model_validate] of a record's own fields; a provider's configuration was validated
    with the request. *)
Definition validate_record (r : ServiceRecord) : result ServiceRecord :=
  id ← strip_required (sr_id r);
  name ← strip_required (sr_name r);
  environment ← strip_required (sr_environment r);
  auth_mode ← strip_required (sr_auth_mode r);
  base_url ← validation (normalize_base_url (sr_base_url r));
  Ok {| sr_id := id; sr_name := name; sr_base_url := base_url; sr_environment := environment;
        sr_tags := normalize_tags (sr_tags r); sr_auth_mode := auth_mode; sr_status := sr_status r;
        sr_capabilities := sr_capabilities r; sr_last_seen_at := sr_last_seen_at r; sr_log_config := sr_log_config r;
        sr_metrics_config := sr_metrics_config r; sr_trace_config := sr_trace_config r; sr_health := sr_health r |}.

(** [UpdateServiceRequest], studio/registry.py:293-302: [None] is a field that was not sent; a validated
    request holds stripped strings and normalised URLs. *)
Record UpdateServiceRequest := {
  up_name : option (option string); up_base_url : option (option string); up_environment : option (option string);
  up_tags : option (option (list string)); up_auth_mode : option (option string); up_status : option (option ServiceStatus);
  up_log_config : option (option provider_config); up_metrics_config : option (option provider_config);
  up_trace_config : option (option provider_config) }.

Definition changed {A} (c : option (option A)) (old : A) : result A :=
  match c with None => Ok old | Some (Some a) => Ok a | Some None => Raise invalid_record end.

(** [ServiceRegistryService.update_service], studio/registry.py:753-765: the record with the changes. *)
Definition apply_changes (existing : ServiceRecord) (c : UpdateServiceRequest) : result ServiceRecord :=
  let next_status := from_opt None (up_status c) in
  if bool_decide (next_status = Some HEALTHY)
  then Raise (value_error "Service status 'healthy' can only be set by refresh.")
  else
    name ← changed (up_name c) (sr_name existing);
    base_url ← changed (up_base_url c) (sr_base_url existing);
    environment ← changed (up_environment c) (sr_environment existing);
    auth_mode ← changed (up_auth_mode c) (sr_auth_mode existing);
    validate_record
      {| sr_id := sr_id existing; sr_name := name; sr_base_url := base_url; sr_environment := environment;
         sr_tags := match up_tags c with None => sr_tags existing | Some t => from_opt [] t end;
         sr_auth_mode := auth_mode; sr_status := from_opt (sr_status existing) next_status;
         sr_capabilities := sr_capabilities existing; sr_last_seen_at := sr_last_seen_at existing;
         sr_log_config := from_opt (sr_log_config existing) (up_log_config c);
         sr_metrics_config := from_opt (sr_metrics_config existing) (up_metrics_config c);
         sr_trace_config := from_opt (sr_trace_config existing) (up_trace_config c); sr_health := sr_health existing |}.

(** [ServiceRegistryService._validate_record_outbound_urls], studio/registry.py:774-784. *)
Definition validate_record_outbound_urls (p : url_policy) (r : ServiceRecord) : result unit :=
  let config label c := match c with Some c => validate_url p label (pc_base_url c) | None => Ok tt end in
  _ ← validate_url p "Service base_url" (sr_base_url r);
  _ ← config "Loki log_config.base_url" (sr_log_config r);
  _ ← config "Prometheus metrics_config.base_url" (sr_metrics_config r);
  config "Tempo trace_config.base_url" (sr_trace_config r).

(** ** The service *)

(** What the registry asks of the search index. *)
Class SearchIndexer (R : Type) := {
  upsert_service_document : Z -> ServiceRecord -> P R unit;
  delete_service_document : Z -> string -> P R unit;
  delete_task_documents_for_service : Z -> string -> P R unit }.

Section service.
Context {R : Type} `{Redis R} `{JsonModel ServiceRecord} `{SearchIndexer R}.
Context (prefix : string) (policy : url_policy).
Notation P := (P R).

(** [ServiceRegistryService.create_service], studio/registry.py:732-740: of the record of a valid request. *)
Definition create_service (now : Z) (rec : ServiceRecord) : P ServiceRecord :=
  _ ← liftP (validate_record_outbound_urls policy rec);
  created ← create prefix now rec;
  _ ← upsert_service_document now created;
  mret created.

(** [ServiceRegistryService.get_service], studio/registry.py:746-751. *)
Definition get_service (now : Z) (id : string) : P ServiceRecord :=
  rec ← get prefix now (strip id);
  match rec with None => liftP (Raise (service_not_found id)) | Some rec => mret rec end.

(** [ServiceRegistryService.update_service], studio/registry.py:753-772. *)
Definition update_service (now : Z) (id : string) (c : UpdateServiceRequest) : P ServiceRecord :=
  existing ← get_service now (strip id);
  updated ← liftP (apply_changes existing c);
  _ ← liftP (validate_record_outbound_urls policy updated);
  saved ← update prefix now (strip id) updated;
  _ ← upsert_service_document now saved;
  mret saved.

(** [ServiceRegistryService.delete_service], studio/registry.py:786-792. *)
Definition delete_service (now : Z) (id : string) : P unit :=
  _ ← get_service now (strip id);
  _ ← delete prefix now (strip id);
  _ ← delete_task_documents_for_service now (strip id);
  delete_service_document now (strip id).

(** [ServiceRegistryService.store_capability_document], studio/registry.py:804-828. *)
Definition store_capability_document (now : Z) (id : string) (capabilities : pydict) (mark_healthy : bool) : P ServiceRecord :=
  existing ← get_service now (strip id);
  let refreshed :=
    {| sr_id := sr_id existing; sr_name := sr_name existing; sr_base_url := sr_base_url existing;
       sr_environment := sr_environment existing; sr_tags := sr_tags existing; sr_auth_mode := sr_auth_mode existing;
       sr_status := if mark_healthy then (if bool_decide (sr_status existing = DISABLED) then DISABLED else HEALTHY)
                    else sr_status existing;
       sr_capabilities := Some capabilities; sr_last_seen_at := Some now; sr_log_config := sr_log_config existing;
       sr_metrics_config := sr_metrics_config existing; sr_trace_config := sr_trace_config existing;
       sr_health := sr_health existing |} in
  saved ← update prefix now (strip id) refreshed;
  _ ← upsert_service_document now saved;
  mret saved.

(** [ServiceRegistryService.refresh_service], studio/registry.py:794-796: [fetch] is the request to the
    service. *)
Definition refresh_service (fetch : string -> result pydict) (now : Z) (id : string) : P ServiceRecord :=
  existing ← get_service now (strip id);
  capabilities ← liftP (fetch (sr_base_url existing));
  store_capability_document now id capabilities true.
End service.
