(* ===== verification/RegistrySpec.v ===== *)
(** * The registry is a map with an index by URL

    Without failures of Redis, the store behaves as a map from ids to records
    in which no two services share an environment and a base URL, whatever the
    operations and their order.  An update that is cut short breaks this. *)

From stdpp Require Import countable.
From S2P Require Import Prelude PyStr PyVal PySort PyUrl Codec Redis RedisProg Registry.

(** ** The specification *)

Inductive request := Create (rec : ServiceRecord) | Get (id : string) | Update (rec : ServiceRecord) | Delete (id : string) | ListAll.
Inductive outcome := Done | Found (rec : option ServiceRecord) | Listed (l : list ServiceRecord).

Definition services_of (m : gmap string ServiceRecord) : list ServiceRecord := map snd (map_to_list m).

Section spec.
(** What two services may not share, and the order of the listing. *)
Context {K : Type} `{EqDecision K} (key : ServiceRecord -> K) (le : ServiceRecord -> ServiceRecord -> bool).

(** Another service has the URL. *)
Definition url_used (m : gmap string ServiceRecord) (rec : ServiceRecord) : Prop :=
  map_Exists (fun id r => id <> sr_id rec /\ key r = key rec) m.
#[export] Instance url_used_dec m rec : Decision (url_used m rec).
Proof. unfold url_used. apply _. Defined.

Definition spec_step (m : gmap string ServiceRecord) (c : request) : gmap string ServiceRecord * result outcome :=
  match c with
  | Create rec =>
      match m !! sr_id rec with
      | Some _ => (m, Raise (duplicate_service ("Service '" +:+ sr_id rec +:+ "' is already registered.")))
      | None => if decide (url_used m rec) then (m, Raise (url_taken rec)) else (<[sr_id rec := rec]> m, Ok Done)
      end
  | Get id => (m, Ok (Found (m !! id)))
  | Update rec =>
      match m !! sr_id rec with
      | None => (m, Raise (service_not_found (sr_id rec)))
      | Some _ => if decide (url_used m rec) then (m, Raise (url_taken rec)) else (<[sr_id rec := rec]> m, Ok Done)
      end
  | Delete id =>
      match m !! id with None => (m, Raise (service_not_found id)) | Some _ => (base.delete id m, Ok Done) end
  | ListAll => (m, Ok (Listed (sort_by le (services_of m))))
  end.

Fixpoint run_spec (l : list request) (m : gmap string ServiceRecord) : gmap string ServiceRecord * list (result outcome) :=
  match l with
  | [] => (m, [])
  | c :: l => let (m1, x) := spec_step m c in let (m2, xs) := run_spec l m1 in (m2, x :: xs)
  end.
End spec.

Section refinement.
Context {R : Type} `{RedisLaws R} `{JsonModelLaws ServiceRecord}.
Context (prefix : string).
Notation record_key := (record_key prefix).
Notation all_key := (all_key prefix).
Notation url_key := (url_key prefix).
Notation env_url_key := (env_url_key prefix).

(** A request to the store, at a time. *)
Definition perform (now : Z) (c : request) : P R outcome :=
  match c with
  | Create rec => _ ← create prefix now rec; mret Done
  | Get id => x ← get prefix now id; mret (Found x)
  | Update rec => _ ← update prefix now (sr_id rec) rec; mret Done
  | Delete id => _ ← delete prefix now id; mret Done
  | ListAll => l ← list_records prefix now; mret (Listed l)
  end.

Fixpoint run_requests (l : list (Z * request)) (r : R) : R * list (result outcome) :=
  match l with
  | [] => (r, [])
  | (now, c) :: l => let (r1, x) := runP (perform now c) r in let (r2, xs) := run_requests l r1 in (r2, x :: xs)
  end.

(** ** The keys *)

Lemma record_key_inj a b : record_key a = record_key b -> a = b.
Proof. unfold Registry.record_key. intros E. do 2 apply append_inj_l in E. done. Qed.

Lemma record_key_other id : all_key <> record_key id /\ forall e u, env_url_key e u <> record_key id.
Proof.
  unfold Registry.record_key, Registry.all_key, Registry.env_url_key.
  split; [|intros e u]; intros E; apply append_inj_l in E; discriminate.
Qed.

Lemma all_key_other e u : all_key <> env_url_key e u.
Proof. unfold Registry.all_key, Registry.env_url_key. intros E. apply append_inj_l in E. discriminate. Qed.

(** ** What the key space holds *)

Record holds (d : db) (m : gmap string ServiceRecord) : Prop := Holds {
  holds_record : forall id, d !! record_key id = (fun r => (RStr (dump_json r), None)) <$> m !! id;
  holds_all : d !! all_key = if decide (dom m = ∅) then None else Some (RSet (dom m), None);
  holds_owner : forall id r, m !! id = Some r -> d !! url_key r = Some (RStr id, None);
  holds_url : forall e u x, d !! env_url_key e u = Some x -> exists id r, m !! id = Some r /\ url_key r = env_url_key e u;
  holds_id : forall id r, m !! id = Some r -> sr_id r = id }.

Lemma holds_unique d m i j a b : holds d m -> m !! i = Some a -> m !! j = Some b -> url_key a = url_key b -> i = j.
Proof.
  intros Hd Ha Hb E. pose proof (holds_owner d m Hd i a Ha) as Hi. pose proof (holds_owner d m Hd j b Hb) as Hj. congruence.
Qed.

Lemma str_lookup d now k s : d !! k = Some (RStr s, None) -> db_str d now k = Some s.
Proof. unfold db_str, live. by intros ->. Qed.
Lemma str_none d now k : d !! k = None -> db_str d now k = None.
Proof. unfold db_str, live. by intros ->. Qed.

Lemma get_record d m now id : holds d m -> db_str d now (record_key id) = dump_json <$> m !! id.
Proof.
  intros Hd. pose proof (holds_record d m Hd id) as E. destruct (m !! id); cbn in *; [by apply str_lookup|by apply str_none].
Qed.

Lemma all_members d m now : holds d m -> db_members d now all_key = dom m.
Proof.
  intros Hd. pose proof (holds_all d m Hd) as E. unfold db_members, live. rewrite E.
  destruct (decide (dom m = ∅)) as [->|_]; done.
Qed.

(** The owner of a URL. *)
Lemma owner_spec d m now rec : holds d m ->
  match db_str d now (url_key rec) with
  | Some id => exists r, m !! id = Some r /\ url_key r = url_key rec
  | None => forall id r, m !! id = Some r -> url_key r <> url_key rec
  end.
Proof.
  intros Hd. destruct (d !! url_key rec) as [x|] eqn:E.
  - destruct (holds_url d m Hd _ _ x E) as (id & r & Hr & Hk). fold (url_key rec) in Hk.
    pose proof (holds_owner d m Hd id r Hr) as Ho. rewrite Hk in Ho. rewrite (str_lookup _ _ _ _ Ho). by exists r.
  - rewrite (str_none _ _ _ E). intros id r Hr Hk. pose proof (holds_owner d m Hd id r Hr) as Ho. rewrite Hk in Ho. congruence.
Qed.
(** ** Writing *)

Lemma holds_insert d m d' rec (id := sr_id rec) : holds d m -> ~ url_used url_key m rec ->
  d' !! record_key id = Some (RStr (dump_json rec), None) ->
  d' !! all_key = Some (RSet ({[id]} ∪ dom m), None) ->
  d' !! url_key rec = Some (RStr id, None) ->
  (forall r, m !! id = Some r -> url_key r <> url_key rec -> d' !! url_key r = None) ->
  (forall k, k <> record_key id -> k <> all_key -> k <> url_key rec -> (forall r, m !! id = Some r -> k <> url_key r) -> d' !! k = d !! k) ->
  holds d' (<[id := rec]> m).
Proof.
  intros Hd Hu Hrec Hall Hurl Hold Hrest. split.
  - intros j. destruct (decide (j = id)) as [->|Hne]; [by rewrite lookup_insert_eq|].
    rewrite lookup_insert_ne by done. rewrite <- (holds_record d m Hd). destruct (record_key_other j) as [Ha Hk].
    apply Hrest; [by intros E%record_key_inj|by intros E|by intros E; destruct (Hk _ _ (eq_sym E))|].
    intros r _ E. by destruct (Hk _ _ (eq_sym E)).
  - rewrite Hall, dom_insert_L. destruct (decide _) as [E|E]; [|done]. exfalso. set_solver.
  - intros j r. destruct (decide (j = id)) as [->|Hne]; [rewrite lookup_insert_eq; by intros [= <-]|].
    rewrite lookup_insert_ne by done. intros Hr. pose proof (holds_owner d m Hd j r Hr) as Ho.
    assert (url_key r <> url_key rec) as Hk by (intros Hk; apply Hu; exists j, r; split; [done|by split]).
    rewrite <- Ho. apply Hrest; [by apply (proj2 (record_key_other id))|intros E; by apply (all_key_other _ _ (eq_sym E))|done|].
    intros r' Hr' E. apply Hne. by apply (holds_unique d m j id r r').
  - intros e u x Hx. destruct (decide (env_url_key e u = url_key rec)) as [E|Hne]; [exists id, rec; by rewrite lookup_insert_eq|].
    destruct (m !! id) as [r0|] eqn:Em; [destruct (decide (env_url_key e u = url_key r0)) as [E|Hne0]|].
    + rewrite E in Hx, Hne. rewrite (Hold r0 eq_refl Hne) in Hx. done.
    + rewrite Hrest in Hx; try done; [|by apply (proj2 (record_key_other id))|intros E; by apply (all_key_other _ _ (eq_sym E))|by intros r [= <-]].
      destruct (holds_url d m Hd e u x Hx) as (j & r & Hr & Hk). exists j, r. rewrite lookup_insert_ne; [done|]. intros <-. congruence.
    + rewrite Hrest in Hx; try done; [|by apply (proj2 (record_key_other id))|intros E; by apply (all_key_other _ _ (eq_sym E))].
      destruct (holds_url d m Hd e u x Hx) as (j & r & Hr & Hk). exists j, r. rewrite lookup_insert_ne; [done|]. intros <-. congruence.
  - intros j r. destruct (decide (j = id)) as [->|Hne]; [rewrite lookup_insert_eq; by intros [= <-]|].
    rewrite lookup_insert_ne by done. apply (holds_id d m Hd).
Qed.

Lemma holds_delete d m d' id r0 : holds d m -> m !! id = Some r0 ->
  d' !! record_key id = None -> d' !! url_key r0 = None ->
  d' !! all_key = (if decide (dom m ∖ {[id]} = ∅) then None else Some (RSet (dom m ∖ {[id]}), None)) ->
  (forall k, k <> record_key id -> k <> all_key -> k <> url_key r0 -> d' !! k = d !! k) -> holds d' (base.delete id m).
Proof.
  intros Hd Hr0 Hrec Hurl Hall Hrest. split.
  - intros j. destruct (decide (j = id)) as [->|Hne]; [by rewrite lookup_delete_eq|].
    rewrite lookup_delete_ne by done. rewrite <- (holds_record d m Hd). destruct (record_key_other j) as [Ha Hk].
    apply Hrest; [by intros E%record_key_inj|by intros E|by intros E; destruct (Hk _ _ (eq_sym E))].
  - by rewrite Hall, dom_delete_L.
  - intros j r Hr. apply lookup_delete_Some in Hr as [Hne Hr]. rewrite <- (holds_owner d m Hd j r Hr).
    apply Hrest; [by apply (proj2 (record_key_other id))|intros E; by apply (all_key_other _ _ (eq_sym E))|].
    intros E. apply Hne. by apply (holds_unique d m id j r0 r).
  - intros e u x Hx. destruct (decide (env_url_key e u = url_key r0)) as [E|Hne]; [congruence|].
    rewrite Hrest in Hx; try done; [|by apply (proj2 (record_key_other id))|intros E; by apply (all_key_other _ _ (eq_sym E))].
    destruct (holds_url d m Hd e u x Hx) as (j & r & Hr & Hk). exists j, r. rewrite lookup_delete_ne; [done|]. intros <-. congruence.
  - intros j r Hr. apply lookup_delete_Some in Hr as [_ Hr]. by apply (holds_id d m Hd).
Qed.
(** The set of ids has no deadline. *)
Lemma put_all d d1 m now s : holds d m -> d1 !! all_key = d !! all_key ->
  put d1 now all_key (RSet s) !! all_key = if decide (s = ∅) then None else Some (RSet s, None).
Proof.
  intros Hd E. rewrite put_lookup. cbn [is_empty].
  assert (kept d1 now all_key = None) as ->.
  { unfold kept, live. rewrite E, (holds_all d m Hd). by destruct (decide _). }
  by rewrite (bool_decide_decide (s = ∅)); destruct (decide _).
Qed.

Lemma live_none d now k : d !! k = None -> live d now k = None.
Proof. unfold live. by intros ->. Qed.

(** ** The operations refine the specification *)

Definition refines (now : Z) (c : request) : Prop := forall r m, holds (model r) m ->
  holds (model (runP (perform now c) r).1) (spec_step url_key record_le m c).1 /\
  (runP (perform now c) r).2 = (spec_step url_key record_le m c).2.

Lemma step_await {A B} (f : R -> R * A) (k : A -> P R B) r Q :
  wpP reliable (k (f r).2) (f r).1 Q -> wpP reliable (await f ≫= k) r Q.
Proof. intros Hk. by apply wpP_bind, wpP_await. Qed.

Lemma get_step {B} now id (k : option ServiceRecord -> P R B) r m Q : holds (model r) m ->
  wpP reliable (k (m !! id)) r Q -> wpP reliable (get prefix now id ≫= k) r Q.
Proof.
  intros Hd Hk. apply wpP_bind. unfold get. apply step_await. cbn [fst snd]. rewrite law_get, (get_record _ _ now id Hd).
  destruct (m !! id) as [rec|]; cbn [fmap option_fmap option_map]; [|by apply wpP_ret].
  apply wpP_lift. rewrite validate_dump. done.
Qed.

Ltac key_ne := unfold Registry.url_key, Registry.env_url_key, Registry.record_key, Registry.all_key;
  let E := fresh "E" in intros E; apply append_inj_l in E; discriminate E.
Ltac key_lookup := unfold db_set, db_del; cbn [fst];
  repeat first [rewrite lookup_insert_eq | rewrite lookup_insert_ne by first [key_ne | congruence]
    | rewrite lookup_delete_ne by first [key_ne | congruence] | rewrite put_lookup_ne by first [key_ne | congruence]].

(** Adding an id to the set of all. *)
Lemma add_all d d1 m now id : holds d m -> d1 !! all_key = d !! all_key ->
  (db_sadd d1 now all_key id).1 !! all_key = Some (RSet ({[id]} ∪ dom m), None).
Proof.
  intros Hd E. unfold db_sadd. cbn [fst].
  assert (db_members d1 now all_key = dom m) as -> by (rewrite <- (all_members _ _ now Hd); unfold db_members, live; by rewrite E).
  rewrite (put_all _ _ _ _ _ Hd E). destruct (decide _); [set_solver|done].
Qed.

Ltac by_run := intros r m Hd; apply wpP_reliable with (Q := fun r' x => holds (model r') (spec_step url_key record_le m _).1 /\ x = (spec_step url_key record_le m _).2).

Lemma create_refines now rec : refines now (Create rec).
Proof.
  by_run. unfold perform, create, create_record. do 2 apply wpP_bind. cbn [spec_step].
  pose proof (holds_record _ _ Hd (sr_id rec)) as Hrec. apply step_await.
  destruct (m !! sr_id rec) as [old|] eqn:Em; cbn [fmap option_fmap option_map] in Hrec.
  { destruct (set_nx_taken r now (record_key (sr_id rec)) (dump_json rec) None (RStr (dump_json old), None)) as (r1 & -> & Hm);
      [unfold live; by rewrite Hrec|]. cbn [fst snd negb]. apply wpP_lift. by rewrite Hm. }
  destruct (set_nx_free r now (record_key (sr_id rec)) (dump_json rec) None) as (r1 & -> & Hm1); [by apply live_none|].
  cbn [fst snd negb]. apply step_await.
  assert (model r1 !! url_key rec = model r !! url_key rec) as Hurl.
  { rewrite Hm1. unfold db_set. rewrite lookup_insert_ne; [done|]. intros E. by apply (proj2 (record_key_other (sr_id rec)) _ _ (eq_sym E)). }
  destruct (decide (url_used url_key m rec)) as [(id & o & Hr1 & Hne & Hk)|Hnot].
  - pose proof (holds_owner _ _ Hd id o Hr1) as Hown. rewrite Hk in Hown.
    destruct (set_nx_taken r1 now (url_key rec) (sr_id rec) None (RStr id, None)) as (r2 & -> & Hm2); [unfold live; by rewrite Hurl, Hown|].
    cbn [fst snd negb]. apply step_await. apply wpP_lift. cbn [fst snd]. rewrite law_del, Hm2, Hm1. unfold db_del, db_set. cbn [fst].
    by rewrite delete_insert_id.
  - assert (model r !! url_key rec = None) as Hnone.
    { destruct (model r !! url_key rec) as [x|] eqn:E; [|done]. exfalso. apply Hnot.
      destruct (holds_url _ _ Hd _ _ x E) as (id & o & Hr1 & Hk). exists id, o. split; [done|]. split; [congruence|done]. }
    destruct (set_nx_free r1 now (url_key rec) (sr_id rec) None) as (r2 & -> & Hm2); [apply live_none; by rewrite Hurl|].
    cbn [fst snd negb]. apply wpP_reraising, wpP_await_; [|done|done]. do 2 apply wpP_ret. split; [|done].
    rewrite law_sadd. apply (holds_insert (model r)); try done.
    + unfold db_sadd. key_lookup. rewrite Hm2. key_lookup. rewrite Hm1. by key_lookup.
    + apply (add_all (model r)); [done|]. rewrite Hm2. key_lookup. rewrite Hm1. by key_lookup.
    + unfold db_sadd. key_lookup. rewrite Hm2. by key_lookup.
    + intros o. by rewrite Em.
    + intros k ? ? ? _. unfold db_sadd. key_lookup. rewrite Hm2. key_lookup. rewrite Hm1. by key_lookup.
Qed.

Lemma update_refines now rec : refines now (Update rec).
Proof.
  by_run. unfold perform, update. do 1 apply wpP_bind. cbn [spec_step]. apply (get_step _ _ _ _ m _ Hd).
  destruct (m !! sr_id rec) as [old|] eqn:Em; [|by apply wpP_lift].
  unfold get_env_url_owner. apply step_await. cbn [fst snd]. rewrite law_get.
  pose proof (owner_spec _ _ now rec Hd) as Ho. fold (url_key rec).
  destruct (decide (url_used url_key m rec)) as [(id & o & Hr1 & Hne & Hk)|Hnot].
  - pose proof (holds_owner _ _ Hd id o Hr1) as Hown. rewrite Hk in Hown. rewrite (str_lookup _ _ _ _ Hown).
    rewrite (proj2 (String.eqb_neq id (sr_id rec)) Hne). cbn [negb]. by apply wpP_lift.
  - assert (match db_str (model r) now (url_key rec) with Some c => negb (String.eqb c (sr_id rec)) | None => false end = false) as ->.
    { destruct (db_str (model r) now (url_key rec)) as [id|]; [|done]. destruct Ho as (o & Hr1 & Hk).
      destruct (String.eqb_spec id (sr_id rec)) as [|Hne]; [done|]. destruct Hnot. by exists id, o. }
    apply wpP_bind. unfold write_record. apply step_await, step_await. apply wpP_await_; [|done|done].
    cbn [fst snd]. set (r3 := rset _ _ _ _ _).
    assert (model r3 = db_set (db_sadd (db_set (model r) now (record_key (sr_id rec)) (dump_json rec) None) now all_key (sr_id rec)).1
      now (url_key rec) (sr_id rec) None) as Hm3 by (unfold r3; by autorewrite with redis).
    assert (forall d', d' = (if negb (String.eqb (url_key old) (url_key rec)) then base.delete (url_key old) (model r3) else model r3) ->
      holds d' (<[sr_id rec := rec]> m)) as Hfin.
    { intros d' ->. assert (forall k, k <> url_key old \/ k = url_key rec -> (if negb (String.eqb (url_key old) (url_key rec))
        then base.delete (url_key old) (model r3) else model r3) !! k = model r3 !! k) as Hget.
      { intros k Hk. destruct (String.eqb_spec (url_key old) (url_key rec)) as [|Hne]; [done|]. cbn [negb].
        rewrite lookup_delete_ne; [done|]. destruct Hk; congruence. }
      apply (holds_insert (model r)); try done.
      + rewrite Hget by (left; key_ne). rewrite Hm3. key_lookup. unfold db_sadd. by key_lookup.
      + rewrite Hget by (left; key_ne). rewrite Hm3. unfold db_set at 1. rewrite lookup_insert_ne by key_ne.
        apply (add_all (model r)); [done|]. by key_lookup.
      + rewrite Hget by (by right). rewrite Hm3. by key_lookup.
      + intros o. rewrite Em. intros [= <-] Hne. rewrite (proj2 (String.eqb_neq _ _) Hne). cbn [negb]. by rewrite lookup_delete_eq.
      + intros k ? ? ? Hk. rewrite Hget by (left; by apply Hk). rewrite Hm3. key_lookup. unfold db_sadd. by key_lookup. }
    destruct (negb (String.eqb (url_key old) (url_key rec))) eqn:E.
    + apply wpP_bind, wpP_await_; [|done|done]. do 2 apply wpP_ret. split; [|done]. rewrite law_del. by apply Hfin.
    + apply wpP_bind. do 3 apply wpP_ret. split; [|done]. by apply Hfin.
Qed.

Lemma delete_refines now id : refines now (Delete id).
Proof.
  by_run. unfold perform, delete. apply wpP_bind. cbn [spec_step]. apply (get_step _ _ _ _ m _ Hd).
  destruct (m !! id) as [old|] eqn:Em; [|by apply wpP_lift].
  apply step_await, step_await. cbn [fst snd]. apply wpP_await_; [|done|done]. apply wpP_ret. split; [|done]. cbn [fst].
  autorewrite with redis. set (d2 := (db_del _ _ _).1).
  assert (d2 !! all_key = model r !! all_key) as Ha by (unfold d2; by key_lookup).
  assert (db_members d2 now all_key = dom m) as Hm by (rewrite <- (all_members _ _ now Hd); unfold db_members, live; by rewrite Ha).
  unfold db_srem. rewrite Hm. apply (holds_delete (model r) _ _ _ old); try done.
  - key_lookup. unfold d2. key_lookup. by rewrite lookup_delete_eq.
  - key_lookup. unfold d2, db_del. cbn [fst]. by rewrite lookup_delete_eq.
  - by rewrite (put_all _ _ _ _ _ Hd Ha).
  - intros k ? ? ?. key_lookup. unfold d2. by key_lookup.
Qed.

Lemma get_refines now id : refines now (Get id).
Proof. by_run. unfold perform. apply (get_step _ _ _ _ m _ Hd). by apply wpP_ret. Qed.
(** ** The listing *)

Lemma record_le_total a b : record_le a b = true \/ record_le b a = true.
Proof. unfold record_le. do 2 (apply lex_le_total; intros); apply String.leb_total. Qed.

Lemma record_le_trans a b c : record_le a b = true -> record_le b c = true -> record_le a c = true.
Proof. unfold record_le. do 2 (apply lex_le_trans; intros ? ? ?). apply leb_trans_str. Qed.

Lemma record_le_id a b : record_le a b = true -> record_le b a = true -> sr_id a = sr_id b.
Proof.
  unfold record_le, lex_le. rewrite (String.eqb_sym (sr_environment b)), (String.eqb_sym (lower (sr_name b))).
  destruct (String.eqb_spec (sr_environment a) (sr_environment b)) as [|Hne]; [|intros; destruct Hne; by apply String.leb_antisym].
  destruct (String.eqb_spec (lower (sr_name a)) (lower (sr_name b))) as [|Hne]; [|intros; destruct Hne; by apply String.leb_antisym].
  apply String.leb_antisym.
Qed.

Lemma mapM_validate (l : list ServiceRecord) : mapM_result validate_json (map dump_json l) = Ok l.
Proof. induction l as [|x l IH]; [done|]. cbn. by rewrite validate_dump, IH. Qed.

Lemma omap_records (m : gmap string ServiceRecord) ids (now : Z) (r : R) : holds (model r) m -> (forall id, id ∈ ids -> id ∈ dom m) ->
  omap id (map (fun i => rget r now (record_key i)) ids) = map dump_json (omap (fun i => m !! i) ids).
Proof.
  intros Hd. induction ids as [|i ids IH]; intros Hin; [done|]. cbn. rewrite law_get, (get_record _ _ now i Hd).
  destruct (proj1 (elem_of_dom m i) (Hin i ltac:(left))) as [x ->]. cbn. f_equal. apply IH. intros j Hj. apply Hin. by right.
Qed.

Lemma records_permutation (m : gmap string ServiceRecord) ids : Permutation ids (elements (dom m)) ->
  Permutation (omap (fun i => m !! i) ids) (services_of m).
Proof.
  intros HP. assert (Permutation (elements (dom m)) (map fst (map_to_list m))) as HP2.
  { apply NoDup_Permutation; [apply NoDup_elements|apply NoDup_fst_map_to_list|]. intros i.
    rewrite elem_of_elements, elem_of_dom. split.
    - intros [x Hx]. apply (list_elem_of_fmap_2 fst (map_to_list m) (i, x)). by apply elem_of_map_to_list.
    - intros ([j x] & -> & Hx)%list_elem_of_fmap. apply elem_of_map_to_list in Hx. by exists x. }
  rewrite HP, HP2. unfold services_of.
  assert (forall kv, kv ∈ map_to_list m -> m !! kv.1 = Some kv.2) as Hl by (intros [k v] Hkv; by apply elem_of_map_to_list).
  clear HP HP2. induction (map_to_list m) as [|kv l IH]; [done|]. cbn. rewrite (Hl kv ltac:(left)). constructor. apply IH. intros x Hx. apply Hl. by right.
Qed.

Lemma services_of_inj d m x y : holds d m -> x ∈ services_of m -> y ∈ services_of m -> sr_id x = sr_id y -> x = y.
Proof.
  intros Hd ([i a] & -> & Ha)%list_elem_of_fmap ([j b] & -> & Hb)%list_elem_of_fmap. cbn.
  apply elem_of_map_to_list in Ha, Hb. rewrite (holds_id _ _ Hd i a Ha), (holds_id _ _ Hd j b Hb). congruence.
Qed.

Lemma list_refines now : refines now ListAll.
Proof.
  by_run. unfold perform, list_records. apply wpP_bind, step_await. cbn [fst snd spec_step].
  pose proof (law_smembers r now all_key) as HP. rewrite (all_members _ _ now Hd) in HP.
  set (ids := sort_by str_le _). assert (Permutation ids (elements (dom m))) as Hids by (unfold ids; by rewrite sort_by_permutation).
  assert (sort_by record_le (omap (fun i => m !! i) ids) = sort_by record_le (services_of m)) as Hsort.
  { apply (sort_by_canonical _ record_le_total record_le_trans); [by apply records_permutation|].
    intros x y Hx Hy H1' H2'. rewrite (records_permutation m ids Hids) in Hx, Hy. apply (services_of_inj _ _ _ _ Hd Hx Hy).
    by apply record_le_id. }
  clearbody ids. destruct ids as [|i l]; [do 2 apply wpP_ret; split; [done|]; cbn in *; by rewrite <- Hsort|]. set (ids := i :: l) in *.
  apply step_await. cbn [fst snd]. rewrite (omap_records m) by (done || intros j; by rewrite Hids, elem_of_elements).
  apply wpP_lift. rewrite mapM_validate. apply wpP_ret. split; [done|]. by rewrite Hsort.
Qed.

Lemma request_refines now c : refines now c.
Proof.
  destruct c; [apply create_refines|apply get_refines|apply update_refines|apply delete_refines|apply list_refines].
Qed.
End refinement.


(** ** An update that is cut short *)

#[export] Instance service_status_countable : Countable ServiceStatus.
Proof.
  refine (inj_countable' (fun s => match s with REGISTERED => 0 | HEALTHY => 1 | UNAVAILABLE => 2 | DISABLED => 3 end)
    (fun n => if n =? 0 then REGISTERED else if n =? 1 then HEALTHY else if n =? 2 then UNAVAILABLE else DISABLED) _).
  by intros [].
Defined.
#[export] Instance provider_config_countable : Countable provider_config.
Proof. refine (inj_countable' (fun c => (pc_base_url c, pc_fields c)) (fun t => ProviderConfig t.1 t.2) _). by intros []. Defined.

Definition service_tuple (s : ServiceRecord) :=
  (sr_id s, sr_name s, sr_base_url s, sr_environment s, sr_tags s, sr_auth_mode s, sr_status s, sr_capabilities s,
   sr_last_seen_at s, sr_log_config s, sr_metrics_config s, sr_trace_config s, sr_health s).
Definition service_untuple (t : string * string * string * string * list string * string * ServiceStatus * option pydict * option Z *
    option provider_config * option provider_config * option provider_config * option pydict) : ServiceRecord :=
  let '(a, b, c, d, e, f, g, h, i, j, k, l, m) := t in
  {| sr_id := a; sr_name := b; sr_base_url := c; sr_environment := d; sr_tags := e; sr_auth_mode := f; sr_status := g;
     sr_capabilities := h; sr_last_seen_at := i; sr_log_config := j; sr_metrics_config := k; sr_trace_config := l; sr_health := m |}.

#[export] Instance service_record_eq_dec : EqDecision ServiceRecord.
Proof. solve_decision. Defined.
#[export] Instance service_record_countable : Countable ServiceRecord.
Proof. refine (inj_countable' service_tuple service_untuple _). by intros []. Defined.
#[export] Instance service_record_model : JsonModel ServiceRecord := bits_model ServiceRecord.
#[export] Instance service_record_laws : JsonModelLaws ServiceRecord := bits_model_laws ServiceRecord.

Definition demo_service (id url : string) : ServiceRecord :=
  {| sr_id := id; sr_name := id; sr_base_url := url; sr_environment := "prod"; sr_tags := []; sr_auth_mode := "none";
     sr_status := REGISTERED; sr_capabilities := None; sr_last_seen_at := None; sr_log_config := None;
     sr_metrics_config := None; sr_trace_config := None; sr_health := None |}.

Lemma holds_empty prefix : holds prefix (∅ : db) ∅.
Proof. split; [done|done|done| |done]. by intros e u x ?%lookup_empty_Some. Qed.

Definition demo_requests : list (Z * request) :=
  [(0, Create (demo_service "a" "http://a.test")); (0, Create (demo_service "b" "http://a.test"));
   (1, Create (demo_service "b" "http://b.test")); (2, Update (demo_service "a" "http://b.test"));
   (3, Update (demo_service "a" "http://c.test")); (4, Create (demo_service "c" "http://a.test")); (5, Delete "b"); (6, ListAll)].


Example registry_demo : (run_spec (url_key "studio:services") record_le (map snd demo_requests) ∅).2 =
  [Ok Done; Raise (url_taken (demo_service "b" "http://a.test")); Ok Done; Raise (url_taken (demo_service "a" "http://b.test"));
   Ok Done; Ok Done; Ok Done; Ok (Listed [demo_service "a" "http://c.test"; demo_service "c" "http://a.test"])].
Proof. vm_compute. reflexivity. Qed.

(** An update whose connection fails between the record and the owner of its URL leaves the URL free: another service
    takes it. *)
Lemma interrupted_update_shares_url :
  let '(d1, _) := runP (create "p" 0 (demo_service "a" "http://a.test")) (∅ : db) in
  let '(d2, _, x) := update "p" 1 "a" (demo_service "a" "http://b.test") d1 [None; None; None; None; Some (Refused (runtime_error "reset"))] in
  let '(d3, y) := runP (create "p" 2 (demo_service "b" "http://b.test")) d2 in
  let '(_, l) := runP (list_records "p" 3) d3 in
  is_ok x = false /\ is_ok y = true /\ l = Ok [demo_service "a" "http://b.test"; demo_service "b" "http://b.test"].
Proof. vm_compute. done. Qed.

(** ** Names and URLs that are not canonical *)

(** The suffix that tells two services of one base name apart can be the id of a third. *)
Lemma gateway_names_collide :
  gateway_unique_service_names ["A"; "a"; "a-559aead0"] = [("A", "a-559aead0"); ("a", "a-ca978112"); ("a-559aead0", "a-559aead0")].
Proof. vm_compute. reflexivity. Qed.

(** A normalised URL can change when it is normalised again, as an update of another field does. *)
Lemma base_url_not_canonical :
  normalize_base_url " HTTP://Host.Test:080/a /" = Ok "http://host.test:80/a " /\
  normalize_base_url "http://host.test:80/a " = Ok "http://host.test:80/a".
Proof. vm_compute. done. Qed.

(** A host under a trusted suffix is accepted, an address only inside a trusted network. *)
Example policy_demo :
  let p := UrlPolicy [".svc.local"; "api.test"] [IpNetwork (IPv4 167772160) 8] in
  map (fun u => is_ok (validate_url p "x" u)) ["http://a.svc.local/x"; "http://api.test:8000"; "http://svc.local"; "http://evilapi.test";
    "http://10.1.2.3"; "http://11.1.2.3"; "http://api.test@evil.com"; "http://[::ffff:10.1.2.3]"]
  = [true; true; false; false; true; false; false; false].
Proof. vm_compute. reflexivity. Qed.
