(* ===== verification/StudioEvents.v ===== *)
(** * The control-plane events of Studio (studio/events.py)

    [RedisStudioEventStore] keeps the events that the services report: each
    once, by its deduplication key, in the history of its service and of its
    task, with the newest timestamps of both. *)

From stdpp Require Import countable.
From S2P Require Import Prelude PyStr PyVal PySort PyTime StudioTime Json Sha256 Codec Redis RedisProg EventFeed.
From Stdlib Require Import Ascii.

(** ** Data *)

(** [StudioEventIngestMethod], relayna/observability/feed.py:99-101. *)
Inductive ingest_method := PUSH | PULL.
#[export] Instance ingest_method_eq_dec : EqDecision ingest_method.
Proof. solve_decision. Defined.

(** [StudioEventEnvelope], studio/events.py:96-99. *)
Record envelope := Envelope { en_service_id : string; en_method : ingest_method; en_event : service_event }.

(** [StudioControlPlaneEvent], studio/events.py:112-126. *)
Record control_event := {
  ce_service_id : string; ce_method : ingest_method; ce_ingested_at : string; ce_dedupe_key : string;
  ce_out_of_order : bool; ce_task_id : string; ce_event_type : string; ce_source_kind : source_kind;
  ce_component : option string; ce_timestamp : option string; ce_event_id : option string;
  ce_correlation_id : option string; ce_parent_task_id : option string; ce_payload : pydict }.

(** [StudioEventListResponse], studio/events.py:129-132. *)
Record event_list := EventList { el_count : Z; el_items : list control_event; el_next_cursor : option string }.

(** [_timestamp_key], studio/events.py:67-71. *)
Definition timestamp_key (value : option string) : Z * Z :=
  match parse_timestamp value with None => (0, datetime_min) | Some t => (1, t) end.
Definition key_lt (a b : Z * Z) : bool := (a.1 <? b.1) || ((a.1 =? b.1) && (a.2 <? b.2)).

(** [_parse_required_timestamp], studio/events.py:80-89. *)
Definition parse_required_timestamp (value : option string) (field_name : string) : result (option Z) :=
  match value with
  | None => Ok None
  | Some v =>
      if String.eqb (strip v) "" then Ok None
      else match parse_timestamp (Some (strip v)) with
           | None => Raise (value_error (field_name +:+ " must be a valid ISO-8601 timestamp"))
           | Some t => Ok (Some t)
           end
  end.

(** [_event_filter_timestamp], studio/events.py:92-93. *)
Definition event_filter_timestamp (item : control_event) : Z :=
  match parse_timestamp (ce_timestamp item) with
  | Some t => t
  | None => from_opt datetime_min (parse_timestamp (Some (ce_ingested_at item)))
  end.

(** [_event_dedupe_key], studio/events.py:742-758. *)
Definition event_dedupe_key (service_id : string) (event : service_event) : string :=
  let head := service_id +:+ ":" +:+ source_text (sv_source_kind event) +:+ ":" in
  match sv_event_id event with
  | Some id => head +:+ id
  | None =>
      let payload := dumps (DumpsOpts false true ", " ": ") (PDict
        [("service_id", PStr service_id); ("source_kind", PStr (source_text (sv_source_kind event)));
         ("task_id", PStr (sv_task_id event)); ("event_type", PStr (sv_event_type event));
         ("timestamp", opt_str (sv_timestamp event)); ("payload", PDict (sv_payload event))]) in
      head +:+ sv_cursor event +:+ ":" +:+ Sha256.hexdigest (utf8 payload)
  end.

(** [RedisStudioEventStore.insert_event], studio/events.py:247-266: the event as Studio keeps it. *)
Definition normalized_event (now : Z) (e : envelope) (out_of_order : bool) : control_event :=
  let v := en_event e in
  {| ce_service_id := en_service_id e; ce_method := en_method e; ce_ingested_at := isoformat now;
     ce_dedupe_key := event_dedupe_key (en_service_id e) v; ce_out_of_order := out_of_order;
     ce_task_id := sv_task_id v; ce_event_type := sv_event_type v; ce_source_kind := sv_source_kind v;
     ce_component := sv_component v; ce_timestamp := sv_timestamp v; ce_event_id := sv_event_id v;
     ce_correlation_id := sv_correlation_id v; ce_parent_task_id := sv_parent_task_id v; ce_payload := sv_payload v |}.

(** [for index, item in enumerate(items): if ...: start_index = index + 1; break] *)
Fixpoint start_after {A} (p : A -> bool) (l : list A) : option nat :=
  match l with [] => None | x :: l => if p x then Some 1%nat else S <$> start_after p l end.

(** [_page_events], studio/events.py:761-770. *)
Definition page_events (items : list control_event) (before : option string) (limit : Z) : event_list :=
  let start := match before with
               | Some b => from_opt 0%nat (start_after (fun i => String.eqb (ce_dedupe_key i) b) items)
               | None => 0%nat
               end in
  let page := take (Z.to_nat (Z.max 1 limit)) (drop start items) in
  EventList (Z.of_nat (length page)) page
    (if (start + length page <? length items)%nat then ce_dedupe_key <$> last page else None).

(** [RedisStudioEventStore._load_history], studio/events.py:405-405: its order, newest first. *)
Definition history_le (a b : control_event) : bool :=
  let ka := timestamp_key (ce_timestamp a) in let kb := timestamp_key (ce_timestamp b) in
  key_lt kb ka || (bool_decide (ka = kb) &&
    lex_le ce_ingested_at (lex_le ce_dedupe_key (fun _ _ => true)) b a).

(** ** The store *)

Section store.
Context {R : Type} `{Redis R} `{JsonModel control_event}.
Context (prefix : string) (ttl_seconds : option Z) (history_maxlen : Z).
Notation P := (P R).

(** [RedisStudioEventStore.event_key], studio/events.py:192-193. *)
Definition event_key (dedupe_key : string) : string := prefix +:+ ":event:" +:+ dedupe_key.
(** [RedisStudioEventStore.service_history_key], studio/events.py:195-196. *)
Definition service_history_key (s : string) : string := prefix +:+ ":service:" +:+ s +:+ ":history".
(** [RedisStudioEventStore.task_history_key], studio/events.py:198-199. *)
Definition task_history_key (s t : string) : string := prefix +:+ ":task:" +:+ s +:+ ":" +:+ t +:+ ":history".
(** [RedisStudioEventStore.task_latest_timestamp_key], studio/events.py:201-202. *)
Definition task_latest_timestamp_key (s t : string) : string :=
  prefix +:+ ":task:" +:+ s +:+ ":" +:+ t +:+ ":latest-timestamp".
(** [RedisStudioEventStore.service_latest_status_timestamp_key], studio/events.py:204-211. *)
Definition service_latest_key (s : string) (kind : string) : string :=
  prefix +:+ ":service:" +:+ s +:+ ":latest-" +:+ kind +:+ "-timestamp".
(** [RedisStudioEventStore.pull_cursor_key], studio/events.py:213-214. *)
Definition pull_cursor_key (s : string) : string := prefix +:+ ":pull-cursor:" +:+ s.
(** [RedisStudioEventStore.service_channel], studio/events.py:216-217. *)
Definition service_channel (s : string) : string := prefix +:+ ":channel:service:" +:+ s.
(** [RedisStudioEventStore.task_channel], studio/events.py:219-220. *)
Definition task_channel (s t : string) : string := prefix +:+ ":channel:task:" +:+ s +:+ ":" +:+ t.

(** [if self.ttl_seconds] *)
Definition event_ttl : option Z :=
  match ttl_seconds with Some s => if s =? 0 then None else Some s | None => None end.
Definition pexpire (now : Z) (k : string) (r : R) : R :=
  match event_ttl with Some s => rexpire r now k s | None => r end.
Definition set_latest (now : Z) (k v : string) (r : R) : R := pexpire now k (rset r now k v None).

(** The newest known timestamp is older. *)
Definition newer_than (latest : option string) (timestamp : string) : bool :=
  match latest with None => true | Some l => key_lt (timestamp_key (Some l)) (timestamp_key (Some timestamp)) end.

(** [RedisStudioEventStore.insert_event], studio/events.py:274-310: its pipeline, sent as one transaction. *)
Definition insert_pipeline (now : Z) (e : envelope) (n : control_event)
    (latest_task latest_status latest_observation : option string) (r : R) : R :=
  let s := en_service_id e in let t := sv_task_id (en_event e) in
  let r := rlpush r now (service_history_key s) (ce_dedupe_key n) in
  let r := rltrim r now (service_history_key s) 0 (history_maxlen - 1) in
  let r := rlpush r now (task_history_key s t) (ce_dedupe_key n) in
  let r := rltrim r now (task_history_key s t) 0 (history_maxlen - 1) in
  let r := pexpire now (task_history_key s t) (pexpire now (service_history_key s) r) in
  let r := match sv_timestamp (en_event e) with
    | None => r
    | Some ts =>
        let r := if newer_than latest_task ts then set_latest now (task_latest_timestamp_key s t) ts r else r in
        match sv_source_kind (en_event e) with
        | SOURCE_STATUS => if newer_than latest_status ts then set_latest now (service_latest_key s "status") ts r else r
        | SOURCE_OBSERVATION =>
            if newer_than latest_observation ts then set_latest now (service_latest_key s "observation") ts r else r
        end
    end in
  let r := set_latest now (service_latest_key s "ingested") (ce_ingested_at n) r in
  rpublish (rpublish r now (service_channel s) (dump_json n)) now (task_channel s t) (dump_json n).

(** [RedisStudioEventStore.insert_event], studio/events.py:222-311. *)
Definition insert_event (now : Z) (e : envelope) : P bool :=
  let s := en_service_id e in let t := sv_task_id (en_event e) in
  latest ← await_read (fun r => (rget r now (task_latest_timestamp_key s t),
    rget r now (service_latest_key s "status"), rget r now (service_latest_key s "observation")));
  let '(latest_task, latest_status, latest_observation) := latest in
  let out_of_order := match latest_task, sv_timestamp (en_event e) with
    | Some l, Some ts => key_lt (timestamp_key (Some ts)) (timestamp_key (Some l))
    | _, _ => false
    end in
  let n := normalized_event now e out_of_order in
  inserted ← await (fun r => rset_nx r now (event_key (ce_dedupe_key n)) (dump_json n) event_ttl);
  if negb inserted then mret false
  else
    _ ← await_ (insert_pipeline now e n latest_task latest_status latest_observation);
    mret true.

(** [RedisStudioEventStore._load_history], studio/events.py:389-406: an event that does not parse is
    left out. *)
Definition load_history (now : Z) (key : string) : P (list control_event) :=
  ids ← await_read (fun r => rlrange r now key 0 (Z.max 0 (history_maxlen - 1)));
  match ids with
  | [] => mret []
  | _ =>
      payloads ← await_read (fun r => map (fun id => rget r now (event_key id)) ids);
      mret (sort_by history_le (omap (fun p : option string =>
        s ← p; match validate_json s with Ok i => Some i | Raise _ => None end) payloads))
  end.

Record event_query := EventQuery {
  eq_task_id : option string; eq_source_kind : option source_kind; eq_event_type : option string;
  eq_from : option string; eq_to : option string }.

Definition opt_is {A} `{EqDecision A} (o : option A) (x : A) : bool :=
  match o with None => true | Some y => bool_decide (x = y) end.

(** [RedisStudioEventStore.list_service_events], studio/events.py:326-336: its filter. *)
Definition event_matches (q : event_query) (i : control_event) : bool :=
  opt_is (eq_task_id q) (ce_task_id i) && opt_is (eq_source_kind q) (ce_source_kind i) &&
  opt_is (eq_event_type q) (ce_event_type i) &&
  opt_leb (parse_timestamp (eq_from q)) (event_filter_timestamp i) &&
  opt_geb (parse_timestamp (eq_to q)) (event_filter_timestamp i).

(** [RedisStudioEventStore.list_service_events], studio/events.py:313-337. *)
Definition list_service_events (now : Z) (s : string) (q : event_query) (before : option string) (limit : Z) : P event_list :=
  items ← load_history now (service_history_key s);
  mret (page_events (List.filter (event_matches q) items) before limit).

(** [RedisStudioEventStore.list_task_events], studio/events.py:339-348. *)
Definition list_task_events (now : Z) (s t : string) (before : option string) (limit : Z) : P event_list :=
  items ← load_history now (task_history_key s t);
  mret (page_events items before limit).

(** [RedisStudioEventStore.get_pull_cursor], studio/events.py:350-354. *)
Definition get_pull_cursor (now : Z) (s : string) : P (option string) :=
  await_read (fun r => rget r now (pull_cursor_key s)).

(** [RedisStudioEventStore.set_pull_cursor], studio/events.py:356-357. *)
Definition set_pull_cursor (now : Z) (s cursor : string) : P unit :=
  await_ (fun r => rset r now (pull_cursor_key s) cursor None).

(** [StudioServiceActivitySnapshot], studio/events.py:135-139. *)
Record activity_snapshot := ActivitySnapshot {
  as_service_id : string; as_status : option string; as_observation : option string; as_ingested : option string }.

(** [RedisStudioEventStore._get_service_activity_snapshots], studio/events.py:363-387. *)
Definition get_service_activity_snapshots (now : Z) (ids : list string) : P (list activity_snapshot) :=
  match ids with
  | [] => mret []
  | _ => await_read (fun r => map (fun s => ActivitySnapshot s (rget r now (service_latest_key s "status"))
           (rget r now (service_latest_key s "observation")) (rget r now (service_latest_key s "ingested"))) ids)
  end.
End store.
