(* ===== verification/Search.v ===== *)
(** * The search index of Studio (studio/search.py)

    [RedisStudioSearchStore] keeps a document per task and per service and, for
    every value that a document can be found by, the set of the ids of its
    documents.  [StudioSearchService] updates the documents from events and from
    the registry, and searches them.  The fallback to Loki is left out. *)

From stdpp Require Import countable.
From S2P Require Import Prelude PyStr PyVal PySort PyTime StudioTime Json JsonLoads Transport Codec Redis RedisProg EventFeed StudioEvents Registry.
From Stdlib Require Import Ascii.

(** ** Text *)

(** [_normalize_text], studio/search.py:35-38. *)
Definition normalize_text (value : option string) : string := match value with None => "" | Some v => lower (strip v) end.

Definition token_char (c : ascii) : bool :=
  let z := code c in ((97 <=? z) && (z <=? 122)) || ((48 <=? z) && (z <=? 57)).

(** The longest runs of [[a-z0-9]]. *)
Fixpoint runs (l : list ascii) : list (list ascii) :=
  match l with
  | [] => []
  | c :: l' =>
      if token_char c then
        let rest := runs l' in
        match l', rest with
        | d :: _, r :: rs => if token_char d then (c :: r) :: rs else [c] :: rest
        | _, _ => [c] :: rest
        end
      else runs l'
  end.

(** [_tokenize], studio/search.py:41-45. *)
Definition tokenize (value : option string) : list string := map of_chars (runs (chars (normalize_text value))).

Definition prefixes (token : string) : list string :=
  map (fun n => of_chars (take n (chars token))) (seq 1 (length (chars token))).

(** [_build_prefix_tokens], studio/search.py:48-53. *)
Definition build_prefix_tokens (value : option string) : list string := flat_map prefixes (tokenize value).

(** [_normalize_optional_string], studio/search.py:918-922. *)
Definition normalize_optional_string (value : option string) : option string :=
  match value with None => None | Some v => if String.eqb (strip v) "" then None else Some (strip v) end.

Example tokenize_demo : tokenize (Some " Pay-API v2 ") = ["pay"; "api"; "v2"]. Proof. reflexivity. Qed.

(** ** Cursors *)

Definition cursor_opts : dumps_opts := DumpsOpts true true "," ":".

(** [_encode_cursor], studio/search.py:99-101. *)
Definition encode_cursor (payload : dict string) : string :=
  urlsafe_b64encode (dumps cursor_opts (PDict (map (fun kv => (kv.1, PStr kv.2)) payload))).

(** [_decode_cursor], studio/search.py:104-119. *)
Definition decode_cursor (pf : string -> pyfloat) (cursor : string) : result (dict string) :=
  match urlsafe_b64decode cursor with
  | None => Raise (value_error "Invalid cursor.")
  | Some raw =>
      match py_json_loads pf raw with
      | Ok (PDict d) => Ok (omap (fun kv => match kv.2 with PStr s => Some (kv.1, s) | _ => None end) d)
      | _ => Raise (value_error "Invalid cursor.")
      end
  end.

(** [decoded == {...}] *)
Definition same_dict (d e : dict string) : bool :=
  bool_decide ((list_to_map d : gmap string string) = list_to_map e).

(** [_task_document_id], studio/search.py:907-908. *)
Definition task_document_id (service_id task_id : string) : string :=
  encode_cursor [("service_id", service_id); ("task_id", task_id)].

(** ** Documents *)

(** [StudioTaskSearchDocument], studio/search.py:122-137. *)
Record TaskDocument := {
  td_service_id : string; td_service_name : string; td_environment : string; td_task_id : string;
  td_correlation_id : option string; td_status : option string; td_stage : option string;
  td_first_seen_at : option string; td_last_seen_at : option string; td_latest_event_type : option string;
  td_latest_event_at : option string; td_latest_ingested_at : option string; td_detail_path : string;
  td_expires_at : option string; td_source : option string }.

(** [document_id], studio/search.py:140-141. *)
Definition document_id (d : TaskDocument) : string := task_document_id (td_service_id d) (td_task_id d).

(** [StudioServiceSearchDocument], studio/search.py:162-171. *)
Record ServiceDocument := {
  sd_service_id : string; sd_name : string; sd_environment : string; sd_tags : list string; sd_status : string;
  sd_health_status : option string; sd_base_url : string; sd_auth_mode : string; sd_last_seen_at : option string }.

(** [_service_tokens], studio/search.py:973-977. *)
Definition service_tokens (d : ServiceDocument) : list string :=
  remove_dups (flat_map (fun v => build_prefix_tokens (Some v)) ([sd_service_id d; sd_name d; sd_environment d] ++ sd_tags d)).

(** ** The store *)

Definition if_set (v : option string) (k : string -> string) : list string :=
  match v with Some s => if String.eqb s "" then [] else [k s] | None => [] end.

Section store.
Context {R : Type} `{Redis R} `{JsonModel TaskDocument} `{JsonModel ServiceDocument}.
Context (prefix : string).
Notation P := (P R).

(** [RedisStudioSearchStore._task_doc_key], studio/search.py:372-373. *)
Definition task_doc_key (id : string) : string := prefix +:+ ":task:doc:" +:+ id.
(** [RedisStudioSearchStore._task_all_key], studio/search.py:375-376. *)
Definition task_all_key : string := prefix +:+ ":task:all".
(** [RedisStudioSearchStore._task_filter_key], studio/search.py:378-379. *)
Definition task_filter_key (field value : string) : string := prefix +:+ ":task:filter:" +:+ field +:+ ":" +:+ value.
(** [RedisStudioSearchStore._task_service_members_key], studio/search.py:381-382. *)
Definition task_service_members_key (id : string) : string := prefix +:+ ":task:service:" +:+ id.
(** [RedisStudioSearchStore._service_doc_key], studio/search.py:384-385. *)
Definition service_doc_key (id : string) : string := prefix +:+ ":service:doc:" +:+ id.
(** [RedisStudioSearchStore._service_all_key], studio/search.py:387-388. *)
Definition service_all_key : string := prefix +:+ ":service:all".
(** [RedisStudioSearchStore._service_filter_key], studio/search.py:390-391. *)
Definition service_filter_key (field value : string) : string := prefix +:+ ":service:filter:" +:+ field +:+ ":" +:+ value.
(** [RedisStudioSearchStore._service_token_key], studio/search.py:393-394. *)
Definition service_token_key (token : string) : string := prefix +:+ ":service:token:" +:+ token.

(** A loop whose body awaits. *)
Fixpoint each {A} (l : list A) (f : A -> P unit) : P unit :=
  match l with [] => mret tt | x :: l => _ ← f x; each l f end.

Definition sadd_to (now : Z) (id k : string) : P unit := await_ (fun r => (rsadd r now k id).1).
Definition srem_from (now : Z) (id k : string) : P unit := await_ (fun r => rsrem r now k id).

(** [RedisStudioSearchStore.get_task_document], studio/search.py:250-254. *)
Definition get_document {A} `{JsonModel A} (now : Z) (key : string) : P (option A) :=
  payload ← await_read (fun r => rget r now key);
  match payload with None => mret None | Some p => liftP (d ← validate_json p; Ok (Some d)) end.

(** [RedisStudioSearchStore.get_task_documents], studio/search.py:256-264. *)
Definition get_documents {A} `{JsonModel A} (now : Z) (key : string -> string) (ids : list string) : P (dict A) :=
  match ids with
  | [] => mret []
  | _ =>
      payloads ← await_read (fun r => map (fun id => rget r now (key id)) ids);
      liftP (mapM_result (fun kp : string * string => d ← validate_json kp.2; Ok (kp.1, d))
               (omap (fun kp : string * option string => p ← kp.2; Some (kp.1, p)) (zip ids payloads)))
  end.

(** [RedisStudioSearchStore._remove_task_indexes], studio/search.py:350-360: the sets, in their order. *)
Definition task_indexes (d : TaskDocument) : list string :=
  [task_service_members_key (td_service_id d); task_filter_key "service_id" (td_service_id d);
   task_filter_key "task_id" (td_task_id d)]
  ++ if_set (td_correlation_id d) (task_filter_key "correlation_id")
  ++ if_set (td_status d) (task_filter_key "status")
  ++ if_set (td_stage d) (task_filter_key "stage").
(** [RedisStudioSearchStore.set_task_document], studio/search.py:271-281: the sets it adds the document to. *)
Definition task_index_writes (d : TaskDocument) : list string :=
  [task_all_key; task_service_members_key (td_service_id d); task_filter_key "service_id" (td_service_id d)]
  ++ if_set (td_correlation_id d) (task_filter_key "correlation_id")
  ++ if_set (td_status d) (task_filter_key "status")
  ++ if_set (td_stage d) (task_filter_key "stage")
  ++ [task_filter_key "task_id" (td_task_id d)].

(** [RedisStudioSearchStore._remove_service_indexes], studio/search.py:362-370. *)
Definition service_indexes (d : ServiceDocument) : list string :=
  [service_filter_key "environment" (sd_environment d); service_filter_key "status" (sd_status d)]
  ++ if_set (sd_health_status d) (service_filter_key "health")
  ++ map (service_filter_key "tag") (sd_tags d) ++ map service_token_key (service_tokens d).

(** [RedisStudioSearchStore.set_task_document], studio/search.py:266-281. *)
Definition set_task_document (now : Z) (d : TaskDocument) : P unit :=
  let id := document_id d in
  previous ← get_document (A := TaskDocument) now (task_doc_key id);
  _ ← match previous with Some p => each (task_indexes p) (srem_from now (document_id p)) | None => mret tt end;
  _ ← await_ (fun r => rset r now (task_doc_key id) (dump_json d) None);
  each (task_index_writes d) (sadd_to now id).

(** [RedisStudioSearchStore.delete_task_document], studio/search.py:283-288. *)
Definition delete_task_document (now : Z) (id : string) : P unit :=
  existing ← get_document (A := TaskDocument) now (task_doc_key id);
  _ ← match existing with Some d => each (task_indexes d) (srem_from now (document_id d)) | None => mret tt end;
  _ ← await_ (fun r => (rdel r now (task_doc_key id)).1);
  srem_from now id task_all_key.

(** [RedisStudioSearchStore.delete_task_documents], studio/search.py:290-292. *)
Definition delete_task_documents (now : Z) (ids : list string) : P unit := each ids (delete_task_document now).

(** [RedisStudioSearchStore.list_task_document_ids_for_filter], studio/search.py:300-301. *)
Definition list_ids (now : Z) (key : string) : P (list string) := await_read (fun r => rsmembers r now key).

(** [RedisStudioSearchStore.set_service_document], studio/search.py:319-332. *)
Definition set_service_document (now : Z) (d : ServiceDocument) : P unit :=
  let id := sd_service_id d in
  previous ← get_document (A := ServiceDocument) now (service_doc_key id);
  _ ← match previous with Some p => each (service_indexes p) (srem_from now (sd_service_id p)) | None => mret tt end;
  _ ← await_ (fun r => rset r now (service_doc_key id) (dump_json d) None);
  each (service_all_key :: service_indexes d) (sadd_to now id).

(** [RedisStudioSearchStore.delete_service_document], studio/search.py:334-339. *)
Definition remove_service_document (now : Z) (id : string) : P unit :=
  existing ← get_document (A := ServiceDocument) now (service_doc_key id);
  _ ← match existing with Some d => each (service_indexes d) (srem_from now (sd_service_id d)) | None => mret tt end;
  _ ← await_ (fun r => (rdel r now (service_doc_key id)).1);
  srem_from now id service_all_key.
End store.

(** ** Times *)

Section service.
Context {R : Type} `{Redis R} `{JsonModel TaskDocument} `{JsonModel ServiceDocument}.
(** The instant of a local wall clock, and the floats of JSON. *)
Context (local : Z -> Z) (pf : string -> pyfloat).
Context (prefix : string) (task_index_ttl_seconds : Z).
Notation P := (P R).

(** [_parse_datetime], studio/search.py:56-70: a naive time is local. *)
Definition parse_datetime (value : option string) : option Z := parse_timestamp_with local value.

Definition iso_of (choose : Z -> Z -> Z) (left right : option string) : option string :=
  match parse_datetime left, parse_datetime right with
  | None, r => isoformat_z <$> r
  | Some l, None => Some (isoformat_z l)
  | Some l, Some r => Some (isoformat_z (choose l r))
  end.
(** [_later_iso], studio/search.py:79-86. *)
Definition later_iso : option string -> option string -> option string := iso_of Z.max.
(** [_earlier_iso], studio/search.py:89-96. *)
Definition earlier_iso : option string -> option string -> option string := iso_of Z.min.

(** [_is_not_earlier], studio/search.py:925-932. *)
Definition is_not_earlier (left right : option string) : bool :=
  match parse_datetime left, parse_datetime right with
  | None, _ => false
  | Some _, None => true
  | Some l, Some r => r <=? l
  end.

(** [_document_expired], studio/search.py:935-937. *)
Definition document_expired (now : Z) (d : TaskDocument) : bool :=
  match parse_datetime (td_expires_at d) with Some t => t <=? now | None => false end.

(** [_within_range], studio/search.py:940-947. *)
Definition within_range (value from_dt to_dt : option Z) : bool :=
  match value with
  | None => match from_dt, to_dt with None, None => true | _, _ => false end
  | Some v => opt_leb from_dt v && opt_geb to_dt v
  end.

(** [x or y] of optional strings. *)
Definition or_else (x y : option string) : option string :=
  match x with Some s => if String.eqb s "" then y else x | None => y end.

(** ** Writing *)

Definition detail_path (service_id task_id : string) : string :=
  "/studio/tasks/" +:+ service_id +:+ "/" +:+ task_id.

(** [StudioSearchService.upsert_task_document], studio/search.py:463-477: the document of a task's first event. *)
Definition first_document (service : ServiceRecord) (event : control_event) : TaskDocument :=
  {| td_service_id := sr_id service; td_service_name := sr_name service; td_environment := sr_environment service;
     td_task_id := ce_task_id event; td_correlation_id := ce_correlation_id event;
     td_status := normalize_string (dgetv "status" (ce_payload event));
     td_stage := normalize_string (dgetv "stage" (ce_payload event));
     td_first_seen_at := or_else (ce_timestamp event) (Some (ce_ingested_at event));
     td_last_seen_at := or_else (ce_timestamp event) (Some (ce_ingested_at event));
     td_latest_event_type := Some (ce_event_type event); td_latest_event_at := ce_timestamp event;
     td_latest_ingested_at := Some (ce_ingested_at event);
     td_detail_path := detail_path (sr_id service) (ce_task_id event); td_expires_at := None; td_source := None |}.

(** [StudioSearchService.upsert_task_document], studio/search.py:478-503: the document after an event. *)
Definition merge_event (now : Z) (service : ServiceRecord) (event : control_event) (current : TaskDocument) : TaskDocument :=
  let status_value := normalize_string (dgetv "status" (ce_payload event)) in
  let stage_value := normalize_string (dgetv "stage" (ce_payload event)) in
  let next_timestamp := or_else (ce_timestamp event) (Some (ce_ingested_at event)) in
  let newest := is_not_earlier next_timestamp (td_latest_event_at current) in
  {| td_service_id := td_service_id current; td_service_name := sr_name service;
     td_environment := sr_environment service; td_task_id := td_task_id current;
     td_correlation_id := or_else (ce_correlation_id event) (td_correlation_id current);
     td_status := match status_value with Some s => Some s | None => td_status current end;
     td_stage := match stage_value with Some s => Some s | None => td_stage current end;
     td_first_seen_at := earlier_iso (td_first_seen_at current) next_timestamp;
     td_last_seen_at := later_iso (td_last_seen_at current) next_timestamp;
     td_latest_event_type := if newest then Some (ce_event_type event) else td_latest_event_type current;
     td_latest_event_at := if newest then isoformat_z <$> parse_datetime next_timestamp else td_latest_event_at current;
     td_latest_ingested_at := later_iso (td_latest_ingested_at current) (Some (ce_ingested_at event));
     td_detail_path := detail_path (sr_id service) (ce_task_id event);
     td_expires_at := Some (isoformat_z (now + Z.max 60 task_index_ttl_seconds * second));
     td_source := td_source current |}.

(** [StudioSearchService.upsert_task_document], studio/search.py:460-504. *)
Definition upsert_task_document (now : Z) (service : ServiceRecord) (event : control_event) : P unit :=
  existing ← get_document (A := TaskDocument) now (task_doc_key prefix (task_document_id (sr_id service) (ce_task_id event)));
  set_task_document prefix now (merge_event now service event (from_opt (first_document service event) existing)).

(** [StudioSearchService._refresh_task_service_metadata], studio/search.py:746-753: the document with its service's
    names. *)
Definition refreshed (service : ServiceRecord) (d : TaskDocument) : TaskDocument :=
  {| td_service_id := td_service_id d; td_service_name := sr_name service;
     td_environment := sr_environment service; td_task_id := td_task_id d;
     td_correlation_id := td_correlation_id d; td_status := td_status d; td_stage := td_stage d;
     td_first_seen_at := td_first_seen_at d; td_last_seen_at := td_last_seen_at d;
     td_latest_event_type := td_latest_event_type d; td_latest_event_at := td_latest_event_at d;
     td_latest_ingested_at := td_latest_ingested_at d;
     td_detail_path := detail_path (sr_id service) (td_task_id d);
     td_expires_at := td_expires_at d; td_source := td_source d |}.

(** [StudioSearchService._refresh_task_service_metadata], studio/search.py:741-754. *)
Definition refresh_task_service_metadata (now : Z) (service : ServiceRecord) : P unit :=
  ids ← list_ids now (task_service_members_key prefix (sr_id service));
  each ids (fun id =>
    existing ← get_document (A := TaskDocument) now (task_doc_key prefix id);
    match existing with None => mret tt | Some d => set_task_document prefix now (refreshed service d) end).

(** [StudioSearchService.upsert_service_document], studio/search.py:437-449: the document of a service. *)
Definition service_document (service : ServiceRecord) (health_status : option string) (existing : option ServiceDocument) : ServiceDocument :=
  {| sd_service_id := sr_id service; sd_name := sr_name service; sd_environment := sr_environment service;
     sd_tags := sr_tags service; sd_status := status_value (sr_status service);
     sd_health_status := match health_status with Some h => Some h | None => existing ≫= sd_health_status end;
     sd_base_url := sr_base_url service; sd_auth_mode := sr_auth_mode service;
     sd_last_seen_at := isoformat_z <$> sr_last_seen_at service |}.

(** [StudioSearchService.upsert_service_document], studio/search.py:435-451. *)
Definition upsert_service (now : Z) (service : ServiceRecord) (health_status : option string) : P unit :=
  existing ← get_document (A := ServiceDocument) now (service_doc_key prefix (sr_id service));
  _ ← set_service_document prefix now (service_document service health_status existing);
  refresh_task_service_metadata now service.

(** [StudioSearchService.delete_task_documents_for_service], studio/search.py:456-458. *)
Definition delete_service_tasks (now : Z) (service_id : string) : P unit :=
  ids ← list_ids now (task_service_members_key prefix service_id);
  each ids (delete_task_document prefix now).

(** [StudioSearchService], studio/search.py:398-404: what the registry sees of it. *)
Definition search_indexer : SearchIndexer R :=
  {| upsert_service_document now service := upsert_service now service None;
     delete_service_document now service_id := remove_service_document prefix now service_id;
     delete_task_documents_for_service := delete_service_tasks |}.

(** [StudioSearchService.prune_expired_task_documents], studio/search.py:428-433: over the ids. *)
Fixpoint prune_documents (now : Z) (ids : list string) (removed : Z) : P Z :=
  match ids with
  | [] => mret removed
  | id :: ids =>
      document ← get_document (A := TaskDocument) now (task_doc_key prefix id);
      if match document with None => true | Some d => document_expired now d end then
        _ ← delete_task_document prefix now id;
        prune_documents now ids (removed + 1)
      else prune_documents now ids removed
  end.

(** [StudioSearchService.prune_expired_task_documents], studio/search.py:423-433. *)
Definition prune_expired_task_documents (now : Z) : P Z :=
  ids ← list_ids now (task_all_key prefix);
  prune_documents now ids 0.

(** ** Searching *)

(** The sets of ids of the filters that are given. *)
Fixpoint filter_sets (now : Z) (key : string -> string -> string) (fields : list (string * option string)) : P (list (list string)) :=
  match fields with
  | [] => mret []
  | (field, value) :: fields =>
      match normalize_optional_string value with
      | None => filter_sets now key fields
      | Some v => ids ← list_ids now (key field v); rest ← filter_sets now key fields; mret (ids :: rest)
      end
  end.

(** [set.intersection] *)
Definition intersection (ids : list string) (sets : list (list string)) : list string :=
  List.filter (fun id => forallb (str_in id) sets) ids.

(** The intersection of the filters' sets, or all ids. *)
Definition candidates (now : Z) (key : string -> string -> string) (all : string) (fields : list (string * option string)) :
    P (list string) :=
  sets ← filter_sets now key fields;
  match sets with [] => list_ids now all | s :: sets => mret (intersection s sets) end.

(** [StudioSearchService._load_task_documents], studio/search.py:613-627. *)
Definition load_task_documents (now : Z) (ids : list string) : P (list TaskDocument) :=
  let ordered := sort_by str_le ids in
  documents ← get_documents (A := TaskDocument) now (task_doc_key prefix) ordered;
  let found := omap (fun id => d ← dget id documents; Some (id, d)) ordered in
  let expired := List.filter (fun p : string * TaskDocument => document_expired now p.2) found in
  _ ← delete_task_documents prefix now (map fst expired);
  mret (map snd (List.filter (fun p : string * TaskDocument => negb (document_expired now p.2)) found)).

(** [_paginate_task_documents], studio/search.py:855-883: over the items' cursors. *)
Definition paginate {A} (cursor_of : A -> dict string) (items : list A) (limit : Z) (cursor : option string) :
    result (list A * option string) :=
  start ← match cursor with
          | None => Ok 0%nat
          | Some c =>
              if String.eqb c "" then Ok 0%nat
              else decoded ← decode_cursor pf c;
                   Ok (from_opt 0%nat (start_after (fun i => same_dict decoded (cursor_of i)) items))
          end;
  let page := take (Z.to_nat (Z.max 1 limit)) (drop start items) in
  Ok (page, if (start + length page <? length items)%nat then encode_cursor ∘ cursor_of <$> last page else None).

Definition task_cursor (d : TaskDocument) : dict string :=
  [("last_seen_at", from_opt "" (td_last_seen_at d)); ("service_id", td_service_id d); ("task_id", td_task_id d)].

(** [StudioTaskSearchQuery], studio/search.py:150-159. *)
Record task_query := TaskQuery {
  tq_service_id : option string; tq_task_id : option string; tq_correlation_id : option string;
  tq_status : option string; tq_stage : option string; tq_from : option string; tq_to : option string;
  tq_limit : Z; tq_cursor : option string }.

Definition task_fields (q : task_query) : list (string * option string) :=
  [("service_id", tq_service_id q); ("task_id", tq_task_id q); ("correlation_id", tq_correlation_id q);
   ("status", tq_status q); ("stage", tq_stage q)].

(** [any([...])] of optional strings. *)
Definition any_given (l : list (option string)) : bool :=
  existsb (fun o => match o with Some s => negb (String.eqb s "") | None => false end) l.

(** The order of the results, studio/search.py:543-550: last seen first. *)
Definition last_seen (d : TaskDocument) : Z := from_opt datetime_min (parse_datetime (td_last_seen_at d)).
Definition task_le (a b : TaskDocument) : bool :=
  (last_seen b <? last_seen a) || ((last_seen a =? last_seen b) &&
    lex_le td_service_id (lex_le td_task_id (fun _ _ => true)) b a).

(** [StudioSearchService.search_tasks], studio/search.py:506-559: without a log query service. *)
Definition search_tasks (now : Z) (q : task_query) : P (list TaskDocument * option string) :=
  if negb (any_given (map snd (task_fields q) ++ [tq_from q; tq_to q])) then
    liftP (Raise (value_error "Provide at least one task search filter or a time range."))
  else
    ids ← candidates now (task_filter_key prefix) (task_all_key prefix) (task_fields q);
    items ← load_task_documents now ids;
    let filtered := List.filter (fun d => within_range (parse_datetime (td_last_seen_at d))
                      (parse_datetime (tq_from q)) (parse_datetime (tq_to q))) items in
    liftP (paginate task_cursor (sort_by task_le filtered) (tq_limit q) (tq_cursor q)).

(** [StudioServiceSearchQuery], studio/search.py:184-191. *)
Record service_query := ServiceQuery {
  sq_query : option string; sq_environment : option string; sq_status : option string; sq_health : option string;
  sq_tag : option string; sq_limit : Z; sq_cursor : option string }.

Definition service_fields (q : service_query) : list (string * option string) :=
  [("environment", sq_environment q); ("status", sq_status q); ("health", sq_health q); ("tag", sq_tag q)].

(** [_matched_service_fields], studio/search.py:980-994. *)
Definition matched_service_fields (d : ServiceDocument) (terms : list string) : list string :=
  map fst (List.filter (fun field : string * list string =>
      forallb (fun term => str_in term (flat_map (fun v => build_prefix_tokens (Some v)) field.2)) terms)
    [("service_id", [sd_service_id d]); ("name", [sd_name d]); ("environment", [sd_environment d]); ("tags", sd_tags d)]).

(** [for term in query_terms] *)
Fixpoint narrow (now : Z) (terms : list string) (ids : list string) : P (list string) :=
  match terms with
  | [] => mret ids
  | term :: terms =>
      matches ← list_ids now (service_token_key prefix term);
      narrow now terms (List.filter (fun id => str_in id matches) ids)
  end.

(** An item of the result: the document and the fields that match. *)
Definition service_item : Type := ServiceDocument * list string.
Definition service_cursor (i : service_item) : dict string := [("name", lower (sd_name i.1)); ("service_id", sd_service_id i.1)].
Definition service_item_le : service_item -> service_item -> bool :=
  lex_le (fun i => lower (sd_name i.1)) (lex_le (fun i => sd_service_id i.1) (fun _ _ => true)).

(** [_paginate_service_documents], studio/search.py:886-904. *)
Definition paginate_services := paginate service_cursor.

(** [StudioSearchService.search_services], studio/search.py:587-606: the item of a document, if it has a field that
    matches all terms. *)
Definition service_hit (terms : list string) (d : ServiceDocument) : option service_item :=
  match terms, matched_service_fields d terms with
  | [], _ => Some (d, [])
  | _, [] => None
  | _, fields => Some (d, fields)
  end.

(** [StudioSearchService.search_services], studio/search.py:561-611. *)
Definition search_services (now : Z) (q : service_query) : P (list service_item * option string) :=
  ids ← candidates now (service_filter_key prefix) (service_all_key prefix) (service_fields q);
  let terms := tokenize (sq_query q) in
  ids ← narrow now terms ids;
  documents ← get_documents (A := ServiceDocument) now (service_doc_key prefix) (sort_by str_le ids);
  let items := omap (fun id => d ← dget id documents; service_hit terms d) ids in
  liftP (paginate_services (sort_by service_item_le items) (sq_limit q) (sq_cursor q)).

(** ** Building the index *)

Section initialize.
Context `{JsonModel ServiceRecord} `{JsonModel control_event}.
Context (registry_prefix events_prefix : string) (history_maxlen backfill_event_limit : Z).

(** Oldest first, studio/search.py:412-418. *)
Definition backfill_le (a b : control_event) : bool :=
  let ta := from_opt datetime_min (parse_datetime (ce_timestamp a)) in
  let tb := from_opt datetime_min (parse_datetime (ce_timestamp b)) in
  (ta <? tb) || ((ta =? tb) && String.leb (ce_ingested_at a) (ce_ingested_at b)).

(** [StudioSearchService.initialize], studio/search.py:406-421. *)
Definition initialize (now : Z) : P unit :=
  ids ← list_ids now (task_all_key prefix);
  match ids with
  | _ :: _ => mret tt
  | [] =>
      services ← list_records registry_prefix now;
      each services (fun service =>
        history ← list_service_events events_prefix history_maxlen now (sr_id service)
                    (EventQuery None None None None None) None backfill_event_limit;
        _ ← each (sort_by backfill_le (el_items history)) (upsert_task_document now service);
        upsert_service now service None)
  end.
End initialize.
End service.
