(* ===== verification/InvertedIndex.v ===== *)
(** * Documents with an inverted index

    The search index keeps the documents of tasks and those of services with
    programs of one shape: replacing a document takes it out of the sets of its
    old values and puts it into those of its new ones.  [Indexed] is that shape;
    the invariant [indexes] says that every set holds exactly the ids of the
    documents that have the value. *)

From S2P Require Import Prelude PyStr PyVal PySort Codec Redis RedisProg Search.

(** ** Documents with an inverted index *)

(** How documents are keyed: the sets that a document is taken out of, those it is put into, and the keys that
    can be such sets. *)
Class Indexed (D : Type) := {
  ix_id : D -> string; ix_key : string -> string; ix_all : string;
  ix_removed : D -> list string; ix_written : D -> list string; ix_index : string -> Prop }.

Class IndexedLaws (D : Type) `{Indexed D} : Prop := {
  ix_key_inj : forall a b, ix_key a = ix_key b -> a = b;
  ix_key_apart : forall id, ~ ix_index (ix_key id);
  ix_all_index : ix_index ix_all;
  ix_removed_index : forall d k, k ∈ ix_removed d -> ix_index k;
  ix_written_index : forall d k, k ∈ ix_written d -> ix_index k;
  ix_all_written : forall d, ix_all ∈ ix_written d;
  ix_written_removed : forall d k, k ∈ ix_written d -> k = ix_all \/ k ∈ ix_removed d }.

Section indexed.
Context {R D : Type} `{RedisLaws R} `{JsonModelLaws D} `{IndexedLaws D}.
Notation P := (P R).

(** The shape of [set_task_document] and [set_service_document]. *)
Definition put_document (now : Z) (d : D) : P unit :=
  previous ← get_document (A := D) now (ix_key (ix_id d));
  _ ← match previous with Some p => each (ix_removed p) (srem_from now (ix_id p)) | None => mret tt end;
  _ ← await_ (fun r => rset r now (ix_key (ix_id d)) (dump_json d) None);
  each (ix_written d) (sadd_to now (ix_id d)).

(** The shape of [delete_task_document] and [delete_service_document]. *)
Definition drop_document (now : Z) (id : string) : P unit :=
  existing ← get_document (A := D) now (ix_key id);
  _ ← match existing with Some d => each (ix_removed d) (srem_from now (ix_id d)) | None => mret tt end;
  _ ← await_ (fun r => (rdel r now (ix_key id)).1);
  srem_from now id ix_all.

(** *** What the key space holds *)

Definition set_entry (s : gset string) : option (rval * option Z) := if decide (s = ∅) then None else Some (RSet s, None).
Definition shows (d : db) (S : string -> gset string) : Prop := forall k, ix_index k -> d !! k = set_entry (S k).
Definition frames (own : string -> Prop) (d d' : db) : Prop := forall k, ~ own k -> d' !! k = d !! k.

Definition without (l : list string) (id : string) (S : string -> gset string) (k : string) : gset string :=
  if decide (k ∈ l) then S k ∖ {[id]} else S k.
Definition with_id (l : list string) (id : string) (S : string -> gset string) (k : string) : gset string :=
  if decide (k ∈ l) then {[id]} ∪ S k else S k.

Lemma shows_ext d S S' : shows d S -> (forall k, ix_index k -> S k = S' k) -> shows d S'.
Proof. intros Hs E k Hk. rewrite <- E by done. by apply Hs. Qed.

Lemma shows_members d S now k : shows d S -> ix_index k -> db_members d now k = S k.
Proof.
  intros Hs Hk. unfold db_members, live. rewrite (Hs k Hk). unfold set_entry. by destruct (decide _) as [->|].
Qed.

Lemma put_set_entry d now k s s0 : d !! k = set_entry s0 -> put d now k (RSet s) !! k = set_entry s.
Proof.
  intros E. rewrite put_lookup. cbn [is_empty]. unfold set_entry.
  assert (kept d now k = None) as ->.
  { unfold kept, live. rewrite E. unfold set_entry. by destruct (decide _). }
  by rewrite (bool_decide_decide (s = ∅)); destruct (decide _).
Qed.

Lemma shows_srem d S now k id : shows d S -> ix_index k -> shows (db_srem d now k id) (without [k] id S).
Proof.
  intros Hs Hk j Hj. unfold db_srem, without. destruct (decide (j ∈ [k])) as [->%list_elem_of_singleton|Hne].
  - rewrite (shows_members _ _ _ _ Hs Hk). by eapply put_set_entry, Hs.
  - rewrite put_lookup_ne; [by apply Hs|]. intros ->. by apply Hne, list_elem_of_singleton.
Qed.

Lemma shows_sadd d S now k id : shows d S -> ix_index k -> shows (db_sadd d now k id).1 (with_id [k] id S).
Proof.
  intros Hs Hk j Hj. unfold db_sadd, with_id. cbn [fst]. destruct (decide (j ∈ [k])) as [->%list_elem_of_singleton|Hne].
  - rewrite (shows_members _ _ _ _ Hs Hk). by eapply put_set_entry, Hs.
  - rewrite put_lookup_ne; [by apply Hs|]. intros ->. by apply Hne, list_elem_of_singleton.
Qed.

(** *** Loops over the sets *)

Lemma each_srem now id l (r : R) S Q : shows (model r) S -> (forall k, k ∈ l -> ix_index k) ->
  (forall r', shows (model r') (without l id S) -> frames ix_index (model r) (model r') -> Q r' (Ok tt)) ->
  wpP reliable (each l (srem_from now id)) r Q.
Proof.
  revert r S. induction l as [|k l IH]; intros r S Hs Hl HQ.
  { apply wpP_ret, HQ; [|by intros k]. eapply shows_ext; [exact Hs|]. intros k _. unfold without. by rewrite decide_False by apply not_elem_of_nil. }
  cbn [each]. apply wpP_bind, wpP_await_; [|done..].
  assert (ix_index k) as Hk by (apply Hl; left).
  apply (IH _ (without [k] id S)).
  - rewrite law_srem. by apply shows_srem.
  - intros j Hj. apply Hl. by right.
  - intros r' Hr' Hf. apply HQ.
    + eapply shows_ext; [exact Hr'|]. intros j _. unfold without. repeat destruct (decide _); try done; set_solver.
    + intros j Hj. rewrite Hf by done. rewrite law_srem. unfold db_srem. apply put_lookup_ne. by intros ->.
Qed.

Lemma each_sadd now id l (r : R) S Q : shows (model r) S -> (forall k, k ∈ l -> ix_index k) ->
  (forall r', shows (model r') (with_id l id S) -> frames ix_index (model r) (model r') -> Q r' (Ok tt)) ->
  wpP reliable (each l (sadd_to now id)) r Q.
Proof.
  revert r S. induction l as [|k l IH]; intros r S Hs Hl HQ.
  { apply wpP_ret, HQ; [|by intros k]. eapply shows_ext; [exact Hs|]. intros k _. unfold with_id. by rewrite decide_False by apply not_elem_of_nil. }
  cbn [each]. apply wpP_bind, wpP_await_; [|done..].
  assert (ix_index k) as Hk by (apply Hl; left).
  apply (IH _ (with_id [k] id S)).
  - rewrite law_sadd. by apply shows_sadd.
  - intros j Hj. apply Hl. by right.
  - intros r' Hr' Hf. apply HQ.
    + eapply shows_ext; [exact Hr'|]. intros j _. unfold with_id. repeat destruct (decide _); try done; set_solver.
    + intros j Hj. rewrite Hf by done. rewrite law_sadd. unfold db_sadd. apply put_lookup_ne. by intros ->.
Qed.

(** *** The invariant *)

(** The ids of the documents that a set must hold. *)
Definition ids_of (m : gmap string D) (k : string) : gset string := dom (filter (fun p => k ∈ ix_written p.2) m).

Record indexes (d : db) (m : gmap string D) : Prop := Indexes {
  ixs_document : forall id, d !! ix_key id = (fun x => (RStr (dump_json x), None)) <$> m !! id;
  ixs_sets : shows d (ids_of m);
  ixs_id : forall id x, m !! id = Some x -> ix_id x = id }.

(** The keys of the documents and of the sets. *)
Definition owned (k : string) : Prop := (exists id, k = ix_key id) \/ ix_index k.

Lemma ids_of_elem m k id : id ∈ ids_of m k <-> exists x, m !! id = Some x /\ k ∈ ix_written x.
Proof. unfold ids_of. rewrite elem_of_dom. unfold is_Some. setoid_rewrite map_lookup_filter_Some. done. Qed.

Lemma indexes_frame d d' m : indexes d m -> (forall k, owned k -> d' !! k = d !! k) -> indexes d' m.
Proof.
  intros [Hd Hs Hi] Hf. split; [|intros k Hk|done].
  - intros id. rewrite Hf; [done|]. left. by exists id.
  - rewrite Hf; [by apply Hs|]. by right.
Qed.

Lemma get_document_wp {B} now id (k : option D -> P B) r m Q : indexes (model r) m ->
  wpP reliable (k (m !! id)) r Q -> wpP reliable (get_document (A := D) now (ix_key id) ≫= k) r Q.
Proof.
  intros Hd Hk. apply wpP_bind. unfold get_document. apply wpP_bind, wpP_await; [|done..]. cbn [fst snd].
  rewrite law_get. unfold db_str, live. rewrite (ixs_document _ _ Hd).
  destruct (m !! id) as [x|]; cbn [fmap option_fmap option_map]; [|by apply wpP_ret].
  cbn. apply wpP_lift. by rewrite validate_dump.
Qed.

(** Taking a document out of its sets. *)
Lemma unindex_wp {B} now id (k : unit -> P B) r m Q : indexes (model r) m ->
  (forall r', shows (model r') (fun k => match m !! id with Some x => without (ix_removed x) id (ids_of m) k | None => ids_of m k end) ->
     frames ix_index (model r) (model r') -> wpP reliable (k tt) r' Q) ->
  wpP reliable (match m !! id with Some p => each (ix_removed p) (srem_from now (ix_id p)) | None => mret tt end ≫= k) r Q.
Proof.
  intros Hd Hk. apply wpP_bind. destruct (m !! id) as [x|] eqn:E; [|apply wpP_ret, Hk; [apply (ixs_sets _ _ Hd)|by intros j]].
  rewrite (ixs_id _ _ Hd _ _ E). eapply each_srem; [apply (ixs_sets _ _ Hd)|apply ix_removed_index|]. apply Hk.
Qed.

(** *** The operations *)

Lemma put_document_wp now (d : D) r m Q : indexes (model r) m ->
  (forall r', indexes (model r') (<[ix_id d := d]> m) -> frames owned (model r) (model r') -> Q r' (Ok tt)) ->
  wpP reliable (put_document now d) r Q.
Proof.
  intros Hd HQ. unfold put_document. apply (get_document_wp now _ _ r m Q Hd), (unindex_wp _ _ _ _ _ _ Hd).
  intros r1 Hs Hf. apply wpP_bind, wpP_await_; [|done..]. set (id := ix_id d) in *.
  assert (forall k, k <> ix_key id -> db_set (model r1) now (ix_key id) (dump_json d) None !! k = model r1 !! k) as Hne
    by (intros k Hk; unfold db_set; by rewrite lookup_insert_ne).
  eapply each_sadd; [|apply ix_written_index|].
  { intros k Hk. rewrite law_set, Hne; [by apply Hs|]. intros ->. by apply (ix_key_apart id). }
  rewrite law_set. intros r2 Hs2 Hf2. apply HQ; [split|].
  - intros j. rewrite Hf2 by apply ix_key_apart. destruct (decide (j = id)) as [->|Hj].
    + rewrite lookup_insert_eq. unfold db_set. by rewrite lookup_insert_eq.
    + rewrite lookup_insert_ne by done. rewrite Hne by (by intros E%ix_key_inj).
      rewrite Hf by apply ix_key_apart. apply (ixs_document _ _ Hd).
  - eapply shows_ext; [exact Hs2|]. intros k Hk. apply set_eq. intros j. unfold with_id. rewrite ids_of_elem.
    destruct (decide (j = id)) as [->|Hj]; [rewrite lookup_insert_eq|rewrite lookup_insert_ne by done].
    + split; [|intros (x & [= <-] & Hx); rewrite decide_True by done; set_solver].
      intros Hin. exists d. split; [done|]. destruct (decide (k ∈ ix_written d)) as [Hw|Hw]; [done|exfalso].
      destruct (m !! id) as [x|] eqn:E; [|apply ids_of_elem in Hin as (x & Hx & _); congruence].
      unfold without in Hin. destruct (decide (k ∈ ix_removed x)) as [Hr|Hr]; [set_solver|].
      apply ids_of_elem in Hin as (y & Hy & [->|Hyw]%ix_written_removed); [by apply Hw, ix_all_written|congruence].
    + rewrite <- ids_of_elem. unfold without. destruct (m !! id); repeat destruct (decide _); set_solver.
  - intros j x. destruct (decide (j = id)) as [->|Hj]; [rewrite lookup_insert_eq; by intros [= <-]|].
    rewrite lookup_insert_ne by done. apply (ixs_id _ _ Hd).
  - intros k Hk. rewrite Hf2 by (intros Hn; apply Hk; by right). rewrite Hne by (intros ->; apply Hk; left; by exists id).
    apply Hf. intros Hn. apply Hk. by right.
Qed.

Lemma drop_document_wp now id r m Q : indexes (model r) m ->
  (forall r', indexes (model r') (base.delete id m) -> frames owned (model r) (model r') -> Q r' (Ok tt)) ->
  wpP reliable (drop_document now id) r Q.
Proof.
  intros Hd HQ. unfold drop_document. apply (get_document_wp now _ _ r m Q Hd), (unindex_wp _ _ _ _ _ _ Hd).
  intros r1 Hs Hf. apply wpP_bind, wpP_await_; [|done..]. apply wpP_await_; [|done..].
  assert (forall k, k <> ix_key id -> base.delete (ix_key id) (model r1) !! k = model r1 !! k) as Hne
    by (intros k Hk; by rewrite lookup_delete_ne).
  set (d1 := base.delete (ix_key id) (model r1)) in *.
  assert (shows d1 (fun k => match m !! id with Some x => without (ix_removed x) id (ids_of m) k | None => ids_of m k end)) as Hs1.
  { intros k Hk. rewrite Hne; [by apply Hs|]. intros ->. by apply (ix_key_apart id). }
  apply HQ; rewrite law_srem, law_del; cbn [db_del fst]; fold d1; [split|].
  - intros j. unfold db_srem. rewrite put_lookup_ne by (intros E; apply (ix_key_apart j); rewrite <- E; apply ix_all_index).
    destruct (decide (j = id)) as [->|Hj]; [unfold d1; by rewrite !lookup_delete_eq|].
    rewrite lookup_delete_ne by done. rewrite Hne by (by intros E%ix_key_inj).
    rewrite Hf by apply ix_key_apart. apply (ixs_document _ _ Hd).
  - eapply shows_ext; [apply shows_srem; [exact Hs1|apply ix_all_index]|]. intros k Hk. apply set_eq. intros j.
    rewrite ids_of_elem. unfold without at 1. destruct (decide (j = id)) as [->|Hj].
    + rewrite lookup_delete_eq. split; [|by intros (x & ? & _)]. intros Hin. exfalso.
      destruct (decide (k ∈ [ix_all])) as [|Hall]; [set_solver|].
      destruct (m !! id) as [x|] eqn:E; [|apply ids_of_elem in Hin as (x & Hx & _); congruence].
      unfold without in Hin. destruct (decide (k ∈ ix_removed x)) as [Hr|Hr]; [set_solver|].
      apply ids_of_elem in Hin as (y & Hy & [->|Hyw]%ix_written_removed); [by apply Hall; left|congruence].
    + rewrite lookup_delete_ne by done. rewrite <- ids_of_elem. unfold without. destruct (m !! id); repeat destruct (decide _); set_solver.
  - intros j x Hx. apply lookup_delete_Some in Hx as [_ Hx]. by apply (ixs_id _ _ Hd).
  - intros k Hk. unfold db_srem. rewrite put_lookup_ne by (intros <-; apply Hk; right; apply ix_all_index).
    rewrite Hne by (intros ->; apply Hk; left; by exists id). apply Hf. intros Hn. apply Hk. by right.
Qed.

(** Reading a set of ids. *)
Lemma list_ids_wp {B} now key (k : list string -> P B) r m Q : indexes (model r) m -> ix_index key ->
  (forall ids, NoDup ids -> (forall id, id ∈ ids <-> exists x, m !! id = Some x /\ key ∈ ix_written x) -> wpP reliable (k ids) r Q) ->
  wpP reliable (list_ids now key ≫= k) r Q.
Proof.
  intros Hd Hk HQ. apply wpP_bind. unfold list_ids. apply wpP_await; [|done..]. cbn [fst snd].
  pose proof (law_smembers r now key) as Hp. rewrite (shows_members _ _ now key (ixs_sets _ _ Hd) Hk) in Hp.
  apply HQ; [rewrite Hp; apply NoDup_elements|]. intros id. by rewrite Hp, elem_of_elements, ids_of_elem.
Qed.
End indexed.

(** ** Lists of documents *)

Section lists.
Context {D : Type}.

(** The documents that a test accepts. *)
Definition docs_where (p : D -> bool) (m : gmap string D) : list D := map snd (map_to_list (filter (fun q => p q.2 = true) m)).

Lemma docs_where_elem p m x : x ∈ docs_where p m <-> exists id, m !! id = Some x /\ p x = true.
Proof.
  unfold docs_where. rewrite list_elem_of_fmap. split.
  - intros ([id y] & -> & Hin%elem_of_map_to_list%map_lookup_filter_Some). by exists id.
  - intros (id & Hm & Hp). exists (id, x). split; [done|]. by apply elem_of_map_to_list, map_lookup_filter_Some.
Qed.

Lemma omap_lookup_list (m m' : gmap string D) : m' ⊆ m -> omap (fun id => m !! id) (map fst (map_to_list m')) = map snd (map_to_list m').
Proof.
  intros Hsub. assert (forall l, (forall id x, (id, x) ∈ l -> m !! id = Some x) -> omap (fun id => m !! id) (map fst l) = map snd l) as Hl.
  { induction l as [|[id x] l IH]; intros Hx; [done|]. cbn. rewrite (Hx id x) by left. f_equal. apply IH. intros; apply Hx. by right. }
  apply Hl. intros id x Hin%elem_of_map_to_list. by eapply lookup_weaken.
Qed.

(** The documents of ids that are known by a test. *)
Lemma omap_docs_where p m ids : NoDup ids -> (forall id, id ∈ ids <-> exists x, m !! id = Some x /\ p x = true) ->
  omap (fun id => m !! id) ids ≡ₚ docs_where p m.
Proof.
  intros Hn Hids. unfold docs_where. rewrite <- (omap_lookup_list m) by apply map_filter_subseteq.
  apply omap_Permutation, NoDup_Permutation; [done|apply NoDup_fst_map_to_list|].
  intros id. rewrite Hids, list_elem_of_fmap. split.
  - intros (x & Hm & Hp). exists (id, x). split; [done|]. by apply elem_of_map_to_list, map_lookup_filter_Some.
  - intros ([? x] & -> & [Hm Hp]%elem_of_map_to_list%map_lookup_filter_Some). by exists x.
Qed.

Lemma filter_omap_lookup (q : D -> bool) (m : gmap string D) ids :
  List.filter q (omap (fun id => m !! id) ids) =
  omap (fun id => m !! id) (List.filter (fun id => match m !! id with Some x => q x | None => false end) ids).
Proof.
  induction ids as [|id ids IH]; [done|]. cbn. destruct (m !! id) as [x|] eqn:E; [|done]. cbn. destruct (q x); cbn; [|done].
  by rewrite E, IH.
Qed.

Lemma filter_docs_where q p m ids : NoDup ids -> (forall id, id ∈ ids <-> exists x, m !! id = Some x /\ p x = true) ->
  List.filter q (omap (fun id => m !! id) ids) ≡ₚ docs_where (fun x => p x && q x) m.
Proof.
  intros Hn Hids. rewrite filter_omap_lookup. apply omap_docs_where; [by apply NoDup_ListNoDup, List.NoDup_filter, NoDup_ListNoDup|].
  intros id. rewrite list_elem_of_In, filter_In, <- list_elem_of_In, Hids. split.
  - intros ((x & Hm & Hp) & Hq). rewrite Hm in Hq. exists x. by rewrite Hp, Hq.
  - intros (x & Hm & [Hp Hq]%andb_true_iff). rewrite Hm. split; [by exists x|done].
Qed.

Lemma docs_where_and p q m : List.filter q (docs_where p m) ≡ₚ docs_where (fun x => p x && q x) m.
Proof.
  unfold docs_where at 1. rewrite <- (omap_lookup_list m) by apply map_filter_subseteq.
  apply filter_docs_where; [apply NoDup_fst_map_to_list|]. intros id. rewrite list_elem_of_fmap. split.
  - intros ([? x] & -> & [Hm Hp]%elem_of_map_to_list%map_lookup_filter_Some). by exists x.
  - intros (x & Hm & Hp). exists (id, x). split; [done|]. by apply elem_of_map_to_list, map_lookup_filter_Some.
Qed.

Lemma omap_agree {A B} (f g : A -> option B) (l : list A) : (forall x, x ∈ l -> f x = g x) -> omap f l = omap g l.
Proof. induction l as [|x l IH]; intros E; [done|]. cbn. rewrite E by left. rewrite IH; [done|]. intros; apply E. by right. Qed.

Lemma omap_then {A B C} (f : A -> option B) (g : B -> option C) (l : list A) : omap (fun x => f x ≫= g) l = omap g (omap f l).
Proof. induction l as [|x l IH]; [done|]. cbn. destruct (f x); cbn; [by rewrite IH|done]. Qed.

Lemma omap_implied {A B} (f : A -> option B) (p : A -> bool) (l : list A) : (forall x y, f x = Some y -> p x = true) ->
  omap f (List.filter p l) = omap f l.
Proof.
  intros Hp. induction l as [|x l IH]; [done|]. cbn. destruct (p x) eqn:E; cbn; rewrite IH; [done|].
  destruct (f x) as [y|] eqn:Ef; [|done]. by rewrite (Hp x y Ef) in E.
Qed.

Lemma dget_omap (m : gmap string D) ids id : id ∈ ids -> dget id (omap (fun i => d ← m !! i; Some (i, d)) ids) = m !! id.
Proof.
  intros Hin. destruct (m !! id) as [x|] eqn:E.
  - induction ids as [|i ids IH]; [by apply elem_of_nil in Hin|]. cbn. destruct (decide (id = i)) as [->|Hne].
    + rewrite E. cbn. by rewrite String.eqb_refl.
    + apply elem_of_cons in Hin as [?|Hin]; [done|]. destruct (m !! i) as [y|]; cbn; [|by apply IH].
      destruct (String.eqb_spec id i); [done|by apply IH].
  - clear Hin. induction ids as [|i ids IH]; [done|]. cbn. destruct (m !! i) as [y|] eqn:Ei; cbn; [|done].
    destruct (String.eqb_spec id i) as [->|]; [congruence|done].
Qed.
End lists.

(** ** Reading and deleting several documents *)

Section clients.
Context {R D : Type} `{RedisLaws R} `{JsonModelLaws D} `{IndexedLaws D}.

Lemma mapM_validated (m : gmap string D) ids :
  mapM_result (fun kp : string * string => d ← validate_json kp.2; Ok (kp.1, d))
    (omap (fun kp : string * option string => p ← kp.2; Some (kp.1, p)) (zip ids (map (fun id => dump_json <$> m !! id) ids)))
  = Ok (omap (fun i => d ← m !! i; Some (i, d)) ids).
Proof.
  induction ids as [|i ids IH]; [done|]. cbn. destruct (m !! i) as [x|]; cbn; [|done].
  by rewrite validate_dump, IH.
Qed.

Lemma get_documents_wp {B} now ids (k : dict D -> P R B) r m Q : indexes (model r) m ->
  wpP reliable (k (omap (fun i => d ← m !! i; Some (i, d)) ids)) r Q ->
  wpP reliable (get_documents (A := D) now ix_key ids ≫= k) r Q.
Proof.
  intros Hd HQ. apply wpP_bind. unfold get_documents. destruct ids as [|i l]; [by apply wpP_ret|].
  set (ids := i :: l) in *. apply wpP_bind, wpP_await; [|done..]. cbn [fst snd].
  assert (map (fun id => rget r now (ix_key id)) ids = map (fun id => dump_json <$> m !! id) ids) as ->.
  { apply map_ext. intros id. rewrite law_get. unfold db_str, live. rewrite (ixs_document _ _ Hd). by destruct (m !! id). }
  apply wpP_lift. by rewrite mapM_validated.
Qed.

(** Deleting documents one after another. *)
Lemma drop_all_wp now ids r m Q : indexes (model r) m ->
  (forall r', indexes (model r') (filter (fun p => p.1 ∉ ids) m) -> frames (owned (D := D)) (model r) (model r') -> Q r' (Ok tt)) ->
  wpP reliable (each ids (drop_document now)) r Q.
Proof.
  revert r m. induction ids as [|id ids IH]; intros r m Hd HQ.
  { apply wpP_ret, HQ; [|by intros k]. rewrite map_filter_id; [done|]. intros i x _. apply not_elem_of_nil. }
  cbn [each]. apply wpP_bind, (drop_document_wp now id r m); [done|]. intros r1 Hd1 Hf1. apply (IH _ _ Hd1).
  intros r2 Hd2 Hf2. apply HQ; [|intros k Hk; by rewrite Hf2, Hf1].
  replace (filter (fun p => p.1 ∉ id :: ids) m) with (filter (fun p : string * D => p.1 ∉ ids) (base.delete id m)); [done|].
  apply map_eq. intros j. apply option_eq. intros x. rewrite !map_lookup_filter_Some, lookup_delete_Some. cbn. set_solver.
Qed.

(** The ids that the given filters select. *)
Definition selected_by (key : string -> string -> string) (fields : list (string * option string)) (d : D) : bool :=
  forallb (fun fv => match normalize_optional_string fv.2 with Some v => str_in (key fv.1 v) (ix_written d) | None => true end) fields.

Definition holds_set (m : gmap string D) (ids : list string) (p : D -> bool) : Prop :=
  NoDup ids /\ forall id, id ∈ ids <-> exists x, m !! id = Some x /\ p x = true.

Lemma intersection_holds m ids p sets : holds_set m ids p -> forall ps, Forall2 (holds_set m) sets ps ->
  holds_set m (intersection ids sets) (fun x => p x && forallb (fun q => q x) ps).
Proof.
  intros [Hn Hids] ps Hps. split; [by apply NoDup_ListNoDup, List.NoDup_filter, NoDup_ListNoDup|]. intros id. unfold intersection.
  rewrite list_elem_of_In, filter_In, <- list_elem_of_In, Hids.
  assert (forall x, m !! id = Some x -> forallb (str_in id) sets = forallb (fun q => q x) ps) as E.
  { intros x Hx. induction Hps as [|s q sets ps [_ Hs] Hps IH]; [done|]. cbn. f_equal; [|done].
    apply eq_bool_prop_intro. rewrite !Is_true_true, str_in_elem, Hs. split; [|by exists x]. by intros (? & [= <-]%(eq_trans (eq_sym Hx)) & ?). }
  split.
  - intros ((x & Hx & Hp) & Hall). exists x. rewrite <- (E x Hx), Hall, Hp. done.
  - intros (x & Hx & [Hp Hall]%andb_true_iff). rewrite (E x Hx). split; [by exists x|done].
Qed.

Lemma holds_set_ext m ids p q : (forall x, p x = q x) -> holds_set m ids p -> holds_set m ids q.
Proof.
  intros E [Hn Hids]. split; [done|]. intros id. rewrite Hids. split; intros (x & Hx & Hp); exists x; (split; [done|]); specialize (E x); congruence.
Qed.

Lemma filter_holds m ids p matches q : holds_set m ids p -> holds_set m matches q ->
  holds_set m (List.filter (fun id => str_in id matches) ids) (fun x => p x && q x).
Proof.
  intros Hp Hq. destruct (intersection_holds m ids p [matches] Hp [q]) as [Hn Hids]; [by constructor|].
  assert (intersection ids [matches] = List.filter (fun id => str_in id matches) ids) as <-
    by (apply List.filter_ext; intros x; apply andb_true_r).
  apply (holds_set_ext _ _ (fun x => p x && (q x && true))); [intros x; by rewrite andb_true_r|done].
Qed.

Lemma filter_sets_wp now key fields r m Q : indexes (model r) m -> (forall f v, ix_index (key f v)) ->
  (forall sets ps, Forall2 (holds_set m) sets ps -> (forall x, forallb (fun q => q x) ps = selected_by key fields x) -> Q r (Ok sets)) ->
  wpP reliable (filter_sets now key fields) r Q.
Proof.
  intros Hd Hk. revert Q. induction fields as [|[f value] fields IH]; intros Q HQ; [by apply wpP_ret, (HQ [] [])|].
  cbn [filter_sets]. destruct (normalize_optional_string value) as [v|] eqn:E.
  - apply (list_ids_wp now _ _ r m _ Hd (Hk f v)). intros ids Hn Hids. apply wpP_bind, IH. intros sets ps Hps Hall.
    apply wpP_ret, (HQ _ ((fun x => str_in (key f v) (ix_written x)) :: ps)).
    + constructor; [|done]. split; [done|]. intros id. rewrite Hids. by setoid_rewrite str_in_elem.
    + intros x. cbn. by rewrite E, Hall.
  - apply IH. intros sets ps Hps Hall. apply (HQ sets ps Hps). intros x. cbn. rewrite E. apply Hall.
Qed.

Lemma candidates_wp now key fields r m Q : indexes (model r) m -> (forall f v, ix_index (key f v)) ->
  (forall ids, holds_set m ids (selected_by key fields) -> Q r (Ok ids)) ->
  wpP reliable (candidates now key ix_all fields) r Q.
Proof.
  intros Hd Hk HQ. unfold candidates. apply wpP_bind, (filter_sets_wp now key fields r m _ Hd Hk).
  intros sets ps Hps Hall. destruct Hps as [|s p sets ps Hs Hps].
  - assert (wpP reliable (list_ids now ix_all ≫= fun ids => mret ids) r Q) as Hw.
    { apply (list_ids_wp now _ _ r m _ Hd ix_all_index). intros ids Hn Hids. apply wpP_ret, HQ. split; [done|]. intros id. rewrite Hids.
      split; intros (x & Hx & _); exists x; (split; [done|]); [symmetry; apply (Hall x)|apply ix_all_written]. }
    intros fs Hfs. specialize (Hw fs Hfs). unfold mbind, P_bind in Hw. by destruct (list_ids now ix_all r fs) as [[r' fs'] []].
  - apply wpP_ret, HQ. destruct (intersection_holds m s p sets Hs ps Hps) as [Hn Hids]. split; [done|].
    intros id. rewrite Hids. by setoid_rewrite <- Hall.
Qed.
End clients.
