(* ===== verification/SearchSpec.v ===== *)
(** * The search index answers as a scan of the documents would

    The documents of tasks and those of services are two instances of
    [InvertedIndex]; the service over them refines two maps whose searches filter
    and sort the documents. *)

From stdpp Require Import countable.
From S2P Require Import Prelude PyStr PyVal PySort StudioTime Json JsonLoads Transport Codec Redis RedisProg EventFeed StudioEvents Registry Search InvertedIndex.

(** ** The two indexes *)

Section instances.
Context (prefix : string).

(** The documents of tasks. *)
#[local] Instance task_indexed : Indexed TaskDocument := {
  ix_id := document_id; ix_key := task_doc_key prefix; ix_all := task_all_key prefix;
  ix_removed := task_indexes prefix; ix_written := task_index_writes prefix;
  ix_index k := k = task_all_key prefix \/ (exists s, k = task_service_members_key prefix s) \/ exists f v, k = task_filter_key prefix f v }.

(** The documents of services. *)
#[local] Instance service_indexed : Indexed ServiceDocument := {
  ix_id := sd_service_id; ix_key := service_doc_key prefix; ix_all := service_all_key prefix;
  ix_removed := service_indexes prefix; ix_written d := service_all_key prefix :: service_indexes prefix d;
  ix_index k := k = service_all_key prefix \/ (exists f v, k = service_filter_key prefix f v) \/ exists t, k = service_token_key prefix t }.

Ltac apart := unfold task_doc_key, task_all_key, task_service_members_key, task_filter_key, service_doc_key, service_all_key,
  service_filter_key, service_token_key in *; intros E; apply append_inj_l in E; discriminate E.

Lemma if_set_elem k v f : k ∈ if_set v f -> exists s, v = Some s /\ s <> "" /\ k = f s.
Proof.
  destruct v as [s|]; cbn; [|by intros ?%elem_of_nil]. destruct (String.eqb_spec s ""); [by intros ?%elem_of_nil|].
  intros ->%list_elem_of_singleton. by exists s.
Qed.

Lemma task_filter_index f v : ix_index (D := TaskDocument) (task_filter_key prefix f v).
Proof. right. right. by exists f, v. Qed.

Lemma task_indexes_index d k : k ∈ task_indexes prefix d -> ix_index (D := TaskDocument) k.
Proof.
  unfold task_indexes. rewrite !elem_of_app, !elem_of_cons, elem_of_nil.
  intros [[->|[->|[->|[]]]]|[Hk|[Hk|Hk]]]; [right; left; by eexists|apply task_filter_index..| | |];
    apply if_set_elem in Hk as (s & _ & _ & ->); apply task_filter_index.
Qed.

Lemma task_writes_removed d k : k ∈ task_index_writes prefix d <-> k = task_all_key prefix \/ k ∈ task_indexes prefix d.
Proof. unfold task_index_writes, task_indexes. set_solver. Qed.

#[local] Instance task_indexed_laws : IndexedLaws TaskDocument.
Proof.
  split.
  - intros a b E. cbn in E. unfold task_doc_key in E. by do 2 apply append_inj_l in E.
  - intros id [E|[[s E]|(f & v & E)]]; revert E; cbn; apart.
  - by left.
  - apply task_indexes_index.
  - intros d k [->|Hk]%task_writes_removed; [by left|by apply task_indexes_index in Hk].
  - intros d. apply task_writes_removed. by left.
  - intros d k. apply task_writes_removed.
Qed.

Lemma service_filter_index f v : ix_index (D := ServiceDocument) (service_filter_key prefix f v).
Proof. right. left. by exists f, v. Qed.

Lemma service_indexes_index d k : k ∈ service_indexes prefix d -> ix_index (D := ServiceDocument) k.
Proof.
  unfold service_indexes. rewrite !elem_of_app, !elem_of_cons, elem_of_nil, !list_elem_of_fmap.
  intros [[->|[->|[]]]|[Hk|[(s & -> & _)|(s & -> & _)]]]; [apply service_filter_index..| |apply service_filter_index|right; right; by exists s].
  apply if_set_elem in Hk as (s & _ & _ & ->). apply service_filter_index.
Qed.

#[local] Instance service_indexed_laws : IndexedLaws ServiceDocument.
Proof.
  split.
  - intros a b E. cbn in E. unfold service_doc_key in E. by do 2 apply append_inj_l in E.
  - intros id [E|[(f & v & E)|[s E]]]; revert E; cbn; apart.
  - by left.
  - apply service_indexes_index.
  - intros d k [->|Hk]%elem_of_cons; [by left|by apply service_indexes_index in Hk].
  - intros d. by left.
  - intros d k Hk. by apply elem_of_cons.
Qed.

(** No key belongs to both. *)
Lemma owned_apart k : owned (D := TaskDocument) k -> owned (D := ServiceDocument) k -> False.
Proof.
  assert (forall a, k = prefix +:+ ":task:" +:+ a -> forall b, k = prefix +:+ ":service:" +:+ b -> False) as Hne.
  { intros a -> b E. apply append_inj_l in E. discriminate. }
  assert (owned (D := TaskDocument) k -> exists a, k = prefix +:+ ":task:" +:+ a) as Ht.
  { intros [[id ->]|[->|[[s ->]|(f & v & ->)]]]; cbn; [by exists ("doc:" +:+ id)|by exists "all"|by exists ("service:" +:+ s)|
      by exists ("filter:" +:+ f +:+ ":" +:+ v)]. }
  assert (owned (D := ServiceDocument) k -> exists a, k = prefix +:+ ":service:" +:+ a) as Hs.
  { intros [[id ->]|[->|[(f & v & ->)|[s ->]]]]; cbn; [by exists ("doc:" +:+ id)|by exists "all"|
      by exists ("filter:" +:+ f +:+ ":" +:+ v)|by exists ("token:" +:+ s)]. }
  intros [a Ha]%Ht [b Hb]%Hs. by apply (Hne a Ha b).
Qed.
End instances.

(** ** What the filters select *)

Section selection.
Context (prefix : string).

Lemma normalized_nonempty value v : normalize_optional_string value = Some v -> v <> "".
Proof. destruct value as [s|]; cbn; [|done]. destruct (String.eqb_spec (strip s) ""); [done|]. by intros [= <-]. Qed.

Lemma task_filter_key_eq f v f' v' : task_filter_key prefix f v = task_filter_key prefix f' v' -> f +:+ ":" +:+ v = f' +:+ ":" +:+ v'.
Proof. unfold task_filter_key. intros E. by do 2 apply append_inj_l in E. Qed.
Lemma service_filter_key_eq f v f' v' : service_filter_key prefix f v = service_filter_key prefix f' v' -> f +:+ ":" +:+ v = f' +:+ ":" +:+ v'.
Proof. unfold service_filter_key. intros E. by do 2 apply append_inj_l in E. Qed.

Lemma if_set_in v f s : v = Some s -> s <> "" -> f s ∈ if_set v f.
Proof. intros -> Hs. cbn. destruct (String.eqb_spec s ""); [done|by left]. Qed.

(** The index of a field of a task document. *)
Definition task_field (d : TaskDocument) (field : string) : option string :=
  dget field [("service_id", Some (td_service_id d)); ("task_id", Some (td_task_id d)); ("correlation_id", td_correlation_id d);
              ("status", td_status d); ("stage", td_stage d)] ≫= id.

Ltac other_key := exfalso; match goal with
  | E : task_filter_key _ _ _ = task_filter_key _ _ _ |- _ => apply task_filter_key_eq in E; discriminate E
  | E : service_filter_key _ _ _ = service_filter_key _ _ _ |- _ => apply service_filter_key_eq in E; discriminate E
  | E : _ = _ |- _ => unfold task_filter_key, task_all_key, task_service_members_key, service_filter_key, service_all_key, service_token_key in E;
      apply append_inj_l in E; discriminate E
  end.
Ltac same_key := match goal with
  | E : task_filter_key _ _ _ = task_filter_key _ _ _ |- _ => apply task_filter_key_eq in E; do 2 apply append_inj_l in E; congruence
  | E : service_filter_key _ _ _ = service_filter_key _ _ _ |- _ => apply service_filter_key_eq in E; do 2 apply append_inj_l in E; congruence
  end.
Ltac find_set := first [reflexivity | by apply if_set_in | left; find_set | right; find_set].
Ltac split_sets := repeat match goal with
  | Hk : _ \/ _ |- _ => destruct Hk as [Hk|Hk]
  | Hk : _ ∈ if_set _ _ |- _ => apply if_set_elem in Hk as (? & ? & ? & Hk)
  | Hk : exists _, _ |- _ => destruct Hk as (? & Hk & ?)
  | Hk : False |- _ => destruct Hk
  end.

Lemma task_field_indexed d field v : v <> "" -> field ∈ map fst (task_fields (TaskQuery None None None None None None None 0 None)) ->
  str_in (task_filter_key prefix field v) (task_index_writes prefix d) = bool_decide (task_field d field = Some v).
Proof.
  intros Hv Hf. apply eq_bool_prop_intro. rewrite Is_true_true, str_in_elem, bool_decide_spec.
  unfold task_index_writes. rewrite !elem_of_app, !elem_of_cons, elem_of_nil. cbn in Hf. rewrite !elem_of_cons, elem_of_nil in Hf.
  destruct Hf as [->|[->|[->|[->|[->|[]]]]]]; cbn; (split; [intros Hk; split_sets; first [other_key|same_key]|]);
    intros E; try injection E as <-; find_set.
Qed.

(** The indexed values of a field of a service document. *)
Definition service_values (d : ServiceDocument) (field : string) : list string :=
  from_opt [] (dget field [("environment", [sd_environment d]); ("status", [sd_status d]);
    ("health", match sd_health_status d with Some h => [h] | None => [] end); ("tag", sd_tags d)]).

Lemma service_field_indexed d field v : v <> "" -> field ∈ map fst (service_fields (ServiceQuery None None None None None 0 None)) ->
  str_in (service_filter_key prefix field v) (service_all_key prefix :: service_indexes prefix d) = str_in v (service_values d field).
Proof.
  intros Hv Hf. apply eq_bool_prop_intro. rewrite !Is_true_true, !str_in_elem.
  unfold service_indexes. rewrite elem_of_cons, !elem_of_app, !elem_of_cons, elem_of_nil, !list_elem_of_fmap.
  cbn in Hf. rewrite !elem_of_cons, elem_of_nil in Hf.
  assert (forall f s, service_filter_key prefix f v = service_filter_key prefix f s -> v = s) as Hinj
    by (intros f s E; apply service_filter_key_eq in E; by do 2 apply append_inj_l in E).
  destruct Hf as [->|[->|[->|[->|[]]]]]; cbn; (split; [intros Hk; split_sets; try other_key; apply Hinj in Hk as ->|]).
  - by left.
  - intros ->%list_elem_of_singleton. find_set.
  - by left.
  - intros ->%list_elem_of_singleton. find_set.
  - match goal with E : sd_health_status d = _ |- _ => rewrite E end. by left.
  - destruct (sd_health_status d) as [h|]; [|by intros ?%elem_of_nil]. intros ->%list_elem_of_singleton. find_set.
  - done.
  - intros Hin. right. right. right. left. by exists v.
Qed.

Lemma service_token_indexed d t : str_in (service_token_key prefix t) (service_all_key prefix :: service_indexes prefix d) = str_in t (service_tokens d).
Proof.
  apply eq_bool_prop_intro. rewrite !Is_true_true, !str_in_elem.
  unfold service_indexes. rewrite elem_of_cons, !elem_of_app, !elem_of_cons, elem_of_nil, !list_elem_of_fmap. split.
  - intros Hk. split_sets; try other_key. unfold service_token_key in Hk. do 2 apply append_inj_l in Hk. by subst.
  - intros Hin. do 4 right. by exists t.
Qed.

(** The documents that a query's filters select. *)
Definition task_selected (q : task_query) (d : TaskDocument) : bool :=
  forallb (fun fv => match normalize_optional_string fv.2 with
                     | Some v => bool_decide (task_field d fv.1 = Some v) | None => true end) (task_fields q).
Definition service_selected (q : service_query) (d : ServiceDocument) : bool :=
  forallb (fun fv => match normalize_optional_string fv.2 with
                     | Some v => str_in v (service_values d fv.1) | None => true end) (service_fields q).

Lemma forallb_agree {A} (p q : A -> bool) l : (forall x, x ∈ l -> p x = q x) -> forallb p l = forallb q l.
Proof. induction l as [|x l IH]; intros E; [done|]. cbn. rewrite E by left. f_equal. apply IH. intros; apply E. by right. Qed.

Lemma task_selected_by q d : selected_by (H3 := task_indexed prefix) (task_filter_key prefix) (task_fields q) d = task_selected q d.
Proof.
  apply forallb_agree. intros [f value] Hin. cbn [fst snd]. destruct (normalize_optional_string value) as [v|] eqn:E; [|done].
  apply task_field_indexed; [by eapply normalized_nonempty|]. by apply (list_elem_of_fmap_2 fst) in Hin.
Qed.

Lemma service_selected_by q d :
  selected_by (H3 := service_indexed prefix) (service_filter_key prefix) (service_fields q) d = service_selected q d.
Proof.
  apply forallb_agree. intros [f value] Hin. cbn [fst snd]. destruct (normalize_optional_string value) as [v|] eqn:E; [|done].
  apply service_field_indexed; [by eapply normalized_nonempty|]. by apply (list_elem_of_fmap_2 fst) in Hin.
Qed.
End selection.

(** ** The specification: two maps *)

Section spec.
Context (local : Z -> Z) (pf : string -> pyfloat) (prefix : string) (ttl : Z).

(** The documents of the tasks and those of the services, by their ids. *)
Definition index_state : Type := gmap string TaskDocument * gmap string ServiceDocument.

Inductive search_request :=
| UpsertTask (service : ServiceRecord) (event : control_event)
| UpsertService (service : ServiceRecord) (health : option string)
| DropService (service_id : string)
| DropTasks (service_id : string)
| Prune
| SearchTasks (q : task_query)
| SearchServices (q : service_query).
Inductive search_outcome :=
| Indexed_ | Pruned (n : Z) | Tasks (page : list TaskDocument * option string) | Services (page : list service_item * option string).

Definition task_hits (now : Z) (q : task_query) (tm : gmap string TaskDocument) : list TaskDocument :=
  sort_by (task_le local) (docs_where (fun d => task_selected q d && negb (document_expired local now d) &&
    within_range (parse_datetime local (td_last_seen_at d)) (parse_datetime local (tq_from q)) (parse_datetime local (tq_to q))) tm).
Definition service_hits (q : service_query) (sm : gmap string ServiceDocument) : list service_item :=
  sort_by service_item_le (omap (service_hit (tokenize (sq_query q))) (docs_where (service_selected q) sm)).

(** What each request does to the maps and answers. *)
Definition search_step (now : Z) (c : search_request) (s : index_state) : index_state * result search_outcome :=
  let (tm, sm) := s in
  match c with
  | UpsertTask service event =>
      let id := task_document_id (sr_id service) (ce_task_id event) in
      (<[id := merge_event local ttl now service event (from_opt (first_document service event) (tm !! id))]> tm, sm, Ok Indexed_)
  | UpsertService service health =>
      ((fun d => if String.eqb (td_service_id d) (sr_id service) then refreshed service d else d) <$> tm,
       <[sr_id service := service_document service health (sm !! sr_id service)]> sm, Ok Indexed_)
  | DropService id => (tm, base.delete id sm, Ok Indexed_)
  | DropTasks id => (filter (fun p => td_service_id p.2 <> id) tm, sm, Ok Indexed_)
  | Prune =>
      (filter (fun p => document_expired local now p.2 = false) tm, sm,
       Ok (Pruned (Z.of_nat (size (filter (fun p => document_expired local now p.2 = true) tm)))))
  | SearchTasks q =>
      if any_given (map snd (task_fields q) ++ [tq_from q; tq_to q]) then
        (filter (fun p => task_selected q p.2 && document_expired local now p.2 = false) tm, sm,
         page ← paginate pf task_cursor (task_hits now q tm) (tq_limit q) (tq_cursor q); Ok (Tasks page))
      else (tm, sm, Raise (value_error "Provide at least one task search filter or a time range."))
  | SearchServices q =>
      (tm, sm, page ← paginate_services pf (service_hits q sm) (sq_limit q) (sq_cursor q); Ok (Services page))
  end.

Fixpoint search_run (l : list (Z * search_request)) (s : index_state) : index_state * list (result search_outcome) :=
  match l with
  | [] => (s, [])
  | (now, c) :: l => let (s1, x) := search_step now c s in let (s2, xs) := search_run l s1 in (s2, x :: xs)
  end.
End spec.

(** ** The orders of the results *)

Lemma task_le_total local a b : task_le local a b = true \/ task_le local b a = true.
Proof.
  unfold task_le. destruct (Z.lt_trichotomy (last_seen local a) (last_seen local b)) as [Hl|[Hl|Hl]].
  - right. by apply Z.ltb_lt in Hl as ->.
  - rewrite !Hl, Z.eqb_refl, Z.ltb_irrefl. cbn. apply lex_le_total. intros; apply lex_le_total. by left.
  - left. by apply Z.ltb_lt in Hl as ->.
Qed.

Lemma task_le_trans local a b c : task_le local a b = true -> task_le local b c = true -> task_le local a c = true.
Proof.
  unfold task_le. rewrite !orb_true_iff, !andb_true_iff, !Z.ltb_lt, !Z.eqb_eq.
  intros [Hab|[Eab Hab]] [Hbc|[Ebc Hbc]]; [left; lia..|right]. split; [lia|].
  revert Hbc Hab. apply lex_le_trans. intros *. apply lex_le_trans. done.
Qed.

Lemma lex_le_anti {A} (key : A -> string) next a b : lex_le key next a b = true -> lex_le key next b a = true ->
  key a = key b /\ next a b = true /\ next b a = true.
Proof.
  unfold lex_le. rewrite (String.eqb_sym (key b)). destruct (String.eqb_spec (key a) (key b)) as [E|Hne]; [done|].
  intros Ha Hb. destruct Hne. by apply String.leb_antisym.
Qed.

Lemma task_le_anti local a b : task_le local a b = true -> task_le local b a = true -> document_id a = document_id b.
Proof.
  unfold task_le. rewrite !orb_true_iff, !andb_true_iff, !Z.ltb_lt, !Z.eqb_eq.
  intros [Hab|[Eab Hab]] [Hbc|[Ebc Hbc]]; try lia.
  apply lex_le_anti in Hab as (E1 & Hab & Hba); [|done]. apply lex_le_anti in Hab as (E2 & _ & _); [|done].
  unfold document_id. congruence.
Qed.

Lemma service_item_le_anti a b : service_item_le a b = true -> service_item_le b a = true -> sd_service_id a.1 = sd_service_id b.1.
Proof.
  intros Ha Hb. apply lex_le_anti in Ha as (_ & Ha' & Hb'); [|done]. by apply lex_le_anti in Ha' as (E & _ & _).
Qed.

Lemma service_item_le_total a b : service_item_le a b = true \/ service_item_le b a = true.
Proof. apply lex_le_total. intros; apply lex_le_total. by left. Qed.
Lemma service_item_le_trans a b c : service_item_le a b = true -> service_item_le b c = true -> service_item_le a c = true.
Proof. apply lex_le_trans. intros *. by apply lex_le_trans. Qed.

(** The hits of a query have a field that holds all its terms, so that all its terms are among their tokens. *)
Lemma service_hit_tokens terms d i : service_hit terms d = Some i -> forallb (fun t => str_in t (service_tokens d)) terms = true.
Proof.
  unfold service_hit. destruct terms as [|t0 ts] eqn:Et; [done|]. rewrite <- Et. clear Et t0 ts.
  destruct (matched_service_fields d terms) as [|f fs] eqn:E; [done|]. intros _. apply forallb_forall. intros t Ht.
  assert (f ∈ matched_service_fields d terms) as Hf by (rewrite E; left).
  unfold matched_service_fields in Hf. apply list_elem_of_fmap in Hf as ([f' vs] & -> & Hin).
  rewrite list_elem_of_In, filter_In, <- list_elem_of_In in Hin. destruct Hin as [Hin Hall].
  rewrite forallb_forall in Hall. specialize (Hall t Ht). rewrite str_in_elem in *. cbn [snd] in Hall.
  unfold service_tokens. apply elem_of_remove_dups. rewrite list_elem_of_In, in_flat_map in *.
  destruct Hall as (v & Hv & Htv). exists v. split; [|done]. clear -Hin Hv.
  rewrite <- list_elem_of_In in *. rewrite !elem_of_app, !elem_of_cons, elem_of_nil in *.
  destruct_or! Hin; simplify_eq; rewrite ?list_elem_of_singleton in Hv;
    first [tauto | by apply elem_of_nil in Hin].
Qed.

(** ** The store refines the maps *)

Section refinement.
Context {R : Type} `{RedisLaws R} `{JsonModelLaws TaskDocument} `{JsonModelLaws ServiceDocument}.
Context (local : Z -> Z) (pf : string -> pyfloat) (prefix : string) (ttl : Z).
#[local] Instance tasks : Indexed TaskDocument := task_indexed prefix.
#[local] Instance services : Indexed ServiceDocument := service_indexed prefix.
#[local] Instance tasks_laws : IndexedLaws TaskDocument := task_indexed_laws prefix.
#[local] Instance services_laws : IndexedLaws ServiceDocument := service_indexed_laws prefix.

Definition searchable (r : R) (s : index_state) : Prop :=
  indexes (D := TaskDocument) (model r) s.1 /\ indexes (D := ServiceDocument) (model r) s.2.

(** A request to the service, at a time. *)
Definition perform_search (now : Z) (c : search_request) : P R search_outcome :=
  match c with
  | UpsertTask service event => _ ← upsert_task_document local prefix ttl now service event; mret Indexed_
  | UpsertService service health => _ ← upsert_service prefix now service health; mret Indexed_
  | DropService id => _ ← remove_service_document prefix now id; mret Indexed_
  | DropTasks id => _ ← delete_service_tasks prefix now id; mret Indexed_
  | Prune => n ← prune_expired_task_documents local prefix now; mret (Pruned n)
  | SearchTasks q => page ← search_tasks local pf prefix now q; mret (Tasks page)
  | SearchServices q => page ← search_services pf prefix now q; mret (Services page)
  end.

Fixpoint run_searches (l : list (Z * search_request)) (r : R) : R * list (result search_outcome) :=
  match l with
  | [] => (r, [])
  | (now, c) :: l => let (r1, x) := runP (perform_search now c) r in let (r2, xs) := run_searches l r1 in (r2, x :: xs)
  end.

(** The other index is untouched. *)
Lemma services_kept (r r' : R) sm : indexes (D := ServiceDocument) (model r) sm ->
  frames (owned (D := TaskDocument)) (model r) (model r') -> indexes (D := ServiceDocument) (model r') sm.
Proof.
  intros Hs Hf. eapply indexes_frame; [exact Hs|]. intros k Hk. apply Hf. intros Hn. by apply (owned_apart prefix k).
Qed.
Lemma tasks_kept (r r' : R) tm : indexes (D := TaskDocument) (model r) tm ->
  frames (owned (D := ServiceDocument)) (model r) (model r') -> indexes (D := TaskDocument) (model r') tm.
Proof.
  intros Hs Hf. eapply indexes_frame; [exact Hs|]. intros k Hk. apply Hf. intros Hn. by apply (owned_apart prefix k).
Qed.

Definition search_refines_step (now : Z) (c : search_request) : Prop := forall r s, searchable r s ->
  searchable (runP (perform_search now c) r).1 (search_step local pf ttl now c s).1 /\
  (runP (perform_search now c) r).2 = (search_step local pf ttl now c s).2.

Ltac by_run := intros r [tm sm] [Ht Hs]; cbn [fst snd] in Ht, Hs;
  apply wpP_reliable with (Q := fun r' x => searchable r' (search_step local pf ttl _ _ (tm, sm)).1 /\
    x = (search_step local pf ttl _ _ (tm, sm)).2).

Lemma upsert_task_refines now service event : search_refines_step now (UpsertTask service event).
Proof.
  by_run. unfold perform_search, upsert_task_document. apply wpP_bind.
  apply (get_document_wp (D := TaskDocument) now (task_document_id (sr_id service) (ce_task_id event)) _ r tm _ Ht).
  set (id := task_document_id _ _). set (d := merge_event _ _ _ _ _ _).
  assert (ix_id d = id) as Hid.
  { unfold d. destruct (tm !! id) as [x|] eqn:E; [exact (ixs_id _ _ Ht id x E)|done]. }
  apply (put_document_wp now d r tm _ Ht). intros r' Hr' Hf. apply wpP_ret. rewrite Hid in Hr'.
  split; [|done]. split; [exact Hr'|by eapply services_kept].
Qed.

Lemma drop_service_refines now id : search_refines_step now (DropService id).
Proof.
  by_run. unfold perform_search. apply wpP_bind, (drop_document_wp (D := ServiceDocument) now id r sm _ Hs).
  intros r' Hr' Hf. apply wpP_ret. split; [|done]. split; [by eapply tasks_kept|exact Hr'].
Qed.

Lemma members_indexed s d : task_service_members_key prefix s ∈ ix_written d <-> td_service_id d = s.
Proof.
  change (ix_written d) with (task_index_writes prefix d). unfold task_index_writes.
  rewrite !elem_of_app, !elem_of_cons, elem_of_nil. split; [|intros <-; tauto].
  intros Hk. repeat match goal with
  | Hk : _ \/ _ |- _ => destruct Hk as [Hk|Hk]
  | Hk : _ ∈ if_set _ _ |- _ => apply if_set_elem in Hk as (? & ? & ? & Hk)
  | Hk : False |- _ => destruct Hk
  end; unfold task_filter_key, task_all_key, task_service_members_key in Hk; apply append_inj_l in Hk; try discriminate Hk.
  by apply append_inj_l in Hk.
Qed.

Lemma members_index s : ix_index (D := TaskDocument) (task_service_members_key prefix s).
Proof. right. left. by exists s. Qed.

Lemma drop_tasks_refines now id : search_refines_step now (DropTasks id).
Proof.
  by_run. unfold perform_search. apply wpP_bind. unfold delete_service_tasks.
  apply (list_ids_wp now _ _ r tm _ Ht (members_index id)). intros ids _ Hids.
  apply (drop_all_wp (D := TaskDocument) now ids r tm _ Ht). intros r' Hr' Hf. apply wpP_ret.
  split; [|done]. split; [|by eapply services_kept]. cbn [search_step fst].
  replace (filter (fun p : string * TaskDocument => td_service_id p.2 <> id) tm) with (filter (fun p : string * TaskDocument => p.1 ∉ ids) tm); [done|].
  apply map_filter_ext. intros i x Hx. cbn. rewrite Hids. split.
  - intros Hn E. apply Hn. exists x. split; [done|]. by apply members_indexed.
  - intros Hn (y & Hy & Hk%members_indexed). congruence.
Qed.

(** *** The metadata of a service's tasks *)

Lemma refresh_each now service ids : forall r tm Q, indexes (D := TaskDocument) (model r) tm ->
  (forall r' tm', indexes (D := TaskDocument) (model r') tm' ->
     (forall i, tm' !! i = (if decide (i ∈ ids) then refreshed service else id) <$> tm !! i) ->
     frames (owned (D := TaskDocument)) (model r) (model r') -> Q r' (Ok tt)) ->
  wpP reliable (each ids (fun id =>
    existing ← get_document (A := TaskDocument) now (task_doc_key prefix id);
    match existing with None => mret tt | Some d => set_task_document prefix now (refreshed service d) end)) r Q.
Proof.
  induction ids as [|j ids IH]; intros r tm Q Hd HQ.
  { apply wpP_ret, (HQ r tm Hd); [|by intros k]. intros i. rewrite decide_False by apply not_elem_of_nil. by destruct (tm !! i). }
  cbn [each]. apply wpP_bind, (get_document_wp (D := TaskDocument) now j _ r tm _ Hd).
  destruct (tm !! j) as [d|] eqn:E.
  - apply (put_document_wp now (refreshed service d) r tm _ Hd). intros r1 Hd1 Hf1.
    assert (ix_id (refreshed service d) = j) as Hid by apply (ixs_id _ _ Hd j d E). rewrite Hid in Hd1.
    apply (IH r1 _ _ Hd1). intros r2 tm2 Hd2 Hl Hf2. apply (HQ r2 tm2 Hd2); [|intros k Hk; by rewrite Hf2, Hf1].
    intros i. rewrite Hl. destruct (decide (i = j)) as [->|Hne].
    + rewrite lookup_insert_eq, E, (decide_True (P := j ∈ j :: ids)) by left. by destruct (decide _).
    + rewrite lookup_insert_ne by done. destruct (decide (i ∈ ids)) as [Hin|Hin]; [by rewrite decide_True by by right|].
      rewrite decide_False; [done|]. by intros [?|?]%elem_of_cons.
  - apply wpP_ret, (IH r tm _ Hd). intros r2 tm2 Hd2 Hl Hf2. apply (HQ r2 tm2 Hd2); [|done].
    intros i. rewrite Hl. destruct (decide (i = j)) as [->|Hne]; [by rewrite E|].
    destruct (decide (i ∈ ids)) as [Hin|Hin]; [by rewrite decide_True by by right|].
    rewrite decide_False; [done|]. by intros [?|?]%elem_of_cons.
Qed.

Lemma upsert_service_refines now service health : search_refines_step now (UpsertService service health).
Proof.
  by_run. unfold perform_search, upsert_service. do 1 apply wpP_bind.
  apply (get_document_wp (D := ServiceDocument) now (sr_id service) _ r sm _ Hs). apply wpP_bind.
  apply (put_document_wp (D := ServiceDocument) now (service_document service health (sm !! sr_id service)) r sm _ Hs).
  intros r1 Hs1 Hf1. pose proof (tasks_kept _ _ _ Ht Hf1) as Ht1.
  unfold refresh_task_service_metadata. apply (list_ids_wp now _ _ r1 tm _ Ht1 (members_index _)). intros ids _ Hids.
  apply (refresh_each now service ids r1 tm _ Ht1). intros r2 tm2 Ht2 Hl Hf2. apply wpP_ret. split; [|done].
  split; [|by eapply services_kept]. cbn [search_step fst].
  replace (_ <$> tm) with tm2; [done|]. apply map_eq. intros i. rewrite Hl, lookup_fmap.
  destruct (tm !! i) as [d|] eqn:E; [|done]. cbn. f_equal.
  destruct (String.eqb_spec (td_service_id d) (sr_id service)) as [Es|Es].
  - rewrite decide_True; [done|]. apply Hids. exists d. split; [done|]. by apply members_indexed.
  - rewrite decide_False; [done|]. intros (x & Hx & Hk%members_indexed)%Hids. congruence.
Qed.

(** *** Pruning *)

Lemma prune_each now ids : forall removed r tm Q, indexes (D := TaskDocument) (model r) tm -> NoDup ids ->
  (forall i, i ∈ ids -> is_Some (tm !! i)) ->
  (forall r' tm', indexes (D := TaskDocument) (model r') tm' ->
     tm' = filter (fun p => ~ (p.1 ∈ ids /\ document_expired local now p.2 = true)) tm ->
     frames (owned (D := TaskDocument)) (model r) (model r') ->
     Q r' (Ok (removed + Z.of_nat (length (List.filter (document_expired local now) (omap (fun i => tm !! i) ids)))))) ->
  wpP reliable (prune_documents local prefix now ids removed) r Q.
Proof.
  induction ids as [|j ids IH]; intros removed r tm Q Hd Hn Hsome HQ.
  { apply wpP_ret. replace removed with (removed + Z.of_nat 0) by lia. apply (HQ r tm Hd); [|by intros k].
    rewrite map_filter_id; [done|]. intros i x _ [Hi _]. by apply elem_of_nil in Hi. }
  cbn [prune_documents]. apply NoDup_cons in Hn as [Hj Hn].
  destruct (Hsome j ltac:(left)) as [d E].
  apply (get_document_wp (D := TaskDocument) now j _ r tm _ Hd). rewrite E.
  destruct (document_expired local now d) eqn:Ex.
  - apply wpP_bind, (drop_document_wp (D := TaskDocument) now j r tm _ Hd). intros r1 Hd1 Hf1.
    apply (IH _ r1 _ _ Hd1 Hn).
    { intros i Hi. rewrite lookup_delete_ne; [apply Hsome; by right|]. by intros ->. }
    intros r2 tm2 Hd2 Htm2 Hf2.
    assert (omap (fun i => base.delete j tm !! i) ids = omap (fun i => tm !! i) ids) as ->.
    { clear -Hj. induction ids as [|i ids IH]; [done|]. rewrite not_elem_of_cons in Hj. cbn.
      rewrite lookup_delete_ne by (by intros ->; destruct Hj). by rewrite IH by apply Hj. }
    replace (removed + 1 + _) with (removed + Z.of_nat (length (List.filter (document_expired local now) (omap (fun i => tm !! i) (j :: ids))))).
    2: { cbn. rewrite E. cbn. rewrite Ex. cbn. lia. }
    apply (HQ r2 tm2 Hd2); [|intros k Hk; by rewrite Hf2, Hf1]. rewrite Htm2.
    apply map_eq. intros i. apply option_eq. intros x. rewrite !map_lookup_filter_Some, lookup_delete_Some. cbn.
    rewrite elem_of_cons. destruct (decide (i = j)) as [->|Hne]; [|naive_solver].
    split; [naive_solver|]. intros [Hx Hnot]. exfalso. apply Hnot. split; [by left|]. congruence.
  - apply (IH _ r tm _ Hd Hn); [intros i Hi; apply Hsome; by right|]. intros r2 tm2 Hd2 Htm2 Hf2.
    replace (List.filter (document_expired local now) (omap (fun i => tm !! i) ids))
      with (List.filter (document_expired local now) (omap (fun i => tm !! i) (j :: ids))) by (cbn; rewrite E; cbn; by rewrite Ex).
    apply (HQ r2 tm2 Hd2); [|done]. rewrite Htm2. apply map_filter_ext. intros i x Hx. cbn. rewrite elem_of_cons.
    destruct (decide (i = j)) as [->|Hne]; [|naive_solver]. rewrite E in Hx. injection Hx as <-. rewrite Ex. naive_solver.
Qed.

Lemma prune_refines now : search_refines_step now Prune.
Proof.
  by_run. unfold perform_search, prune_expired_task_documents. do 1 apply wpP_bind.
  apply (list_ids_wp (D := TaskDocument) now (task_all_key prefix) _ r tm _ Ht ix_all_index). intros ids Hn Hids.
  assert (forall i, i ∈ ids <-> exists x, tm !! i = Some x /\ true = true) as Hids'.
  { intros i. rewrite Hids. split; intros (x & Hx & _); exists x; (split; [done|]); [done|exact (ix_all_written (D := TaskDocument) x)]. }
  apply (prune_each now ids 0 r tm _ Ht Hn); [intros i (x & Hx & _)%Hids'; by exists x|].
  intros r' tm' Hd' Htm Hf. apply wpP_ret. cbn [search_step fst snd]. split.
  - split; [|by eapply services_kept]. cbn [fst]. replace (filter _ tm) with tm'; [done|]. rewrite Htm.
    apply map_filter_ext. intros i x Hx. cbn. rewrite Hids'. destruct (document_expired local now x); [|naive_solver].
    split; [|done]. intros Hnot. exfalso. apply Hnot. split; [by exists x|done].
  - rewrite (filter_docs_where _ (fun _ => true) tm ids Hn Hids'). unfold docs_where. cbn. rewrite length_map, length_map_to_list. done.
Qed.

(** *** Searching for services *)

Lemma narrow_wp now terms : forall r sm ids p Q, indexes (D := ServiceDocument) (model r) sm -> holds_set sm ids p ->
  (forall ids', holds_set sm ids' (fun d => p d && forallb (fun t => str_in t (service_tokens d)) terms) -> Q r (Ok ids')) ->
  wpP reliable (narrow prefix now terms ids) r Q.
Proof.
  induction terms as [|t terms IH]; intros r sm ids p Q Hd Hids HQ.
  { apply wpP_ret, HQ, (holds_set_ext _ _ p); [|done]. intros x. by rewrite andb_true_r. }
  cbn [narrow]. assert (ix_index (D := ServiceDocument) (service_token_key prefix t)) as Hk by (right; right; by exists t).
  apply (list_ids_wp now _ _ r sm _ Hd Hk). intros matches Hn Hm.
  apply (IH r sm _ (fun d => p d && str_in t (service_tokens d)) _ Hd).
  - apply filter_holds; [done|]. split; [done|]. intros i. rewrite Hm. split; intros (x & Hx & Ht); exists x; (split; [done|]).
    + rewrite <- (service_token_indexed prefix). by apply str_in_elem.
    + rewrite <- (service_token_indexed prefix) in Ht. by apply str_in_elem in Ht.
  - intros ids' Hi'. apply HQ. eapply holds_set_ext; [|exact Hi']. intros x. cbn. by rewrite andb_assoc.
Qed.

Lemma service_hit_doc terms d i : service_hit terms d = Some i -> i.1 = d.
Proof. unfold service_hit. destruct terms as [|t ts]; [by intros [= <-]|]. destruct (matched_service_fields d (t :: ts)); by intros [= <-]. Qed.

Lemma service_items_sorted sm terms (p : ServiceDocument -> bool) ids (r : R) : indexes (D := ServiceDocument) (model r) sm ->
  holds_set sm ids (fun d => p d && forallb (fun t => str_in t (service_tokens d)) terms) ->
  sort_by service_item_le (omap (fun id => d ← dget id (omap (fun i => d ← sm !! i; Some (i, d)) (sort_by str_le ids)); service_hit terms d) ids)
  = sort_by service_item_le (omap (service_hit terms) (docs_where p sm)).
Proof.
  intros Hd [Hn Hids].
  rewrite (omap_agree _ (fun id => sm !! id ≫= service_hit terms)) by (intros i Hi; rewrite dget_omap; [done|by apply sort_by_elem]).
  rewrite omap_then. assert (omap (service_hit terms) (omap (fun id => sm !! id) ids) ≡ₚ omap (service_hit terms) (docs_where p sm)) as HP.
  { rewrite (omap_docs_where _ sm ids Hn Hids), <- docs_where_and. by rewrite omap_implied by apply service_hit_tokens. }
  apply (sort_by_canonical _ service_item_le_total service_item_le_trans _ _ HP).
  intros a b Ha Hb Hab Hba. rewrite HP in Ha, Hb. apply list_elem_of_omap in Ha as (da & Hda & Ea). apply list_elem_of_omap in Hb as (db' & Hdb & Eb).
  apply docs_where_elem in Hda as (ia & Hia & _). apply docs_where_elem in Hdb as (ib & Hib & _).
  pose proof (service_item_le_anti _ _ Hab Hba) as E. rewrite (service_hit_doc _ _ _ Ea), (service_hit_doc _ _ _ Eb) in E.
  pose proof (ixs_id _ _ Hd _ _ Hia) as E1. pose proof (ixs_id _ _ Hd _ _ Hib) as E2. cbn in E1, E2. congruence.
Qed.

Lemma search_services_refines now q : search_refines_step now (SearchServices q).
Proof.
  by_run. unfold perform_search, search_services. do 2 apply wpP_bind.
  apply (candidates_wp (D := ServiceDocument) now (service_filter_key prefix) (service_fields q) r sm _ Hs (service_filter_index prefix)).
  intros ids Hids. apply wpP_bind, (narrow_wp now _ r sm ids (service_selected q) _ Hs).
  { eapply holds_set_ext; [|exact Hids]. apply (service_selected_by prefix). }
  intros ids' Hids'. apply (get_documents_wp (D := ServiceDocument) now (sort_by str_le ids') _ r sm _ Hs).
  apply wpP_lift. rewrite (service_items_sorted sm (tokenize (sq_query q)) (service_selected q) ids' r Hs Hids').
  cbn [search_step fst snd]. unfold service_hits. destruct (paginate_services pf _ _ _); [apply wpP_ret|]; by split.
Qed.

(** *** Searching for tasks *)

Lemma found_docs (q : TaskDocument -> bool) (tm : gmap string TaskDocument) l :
  map snd (List.filter (fun p : string * TaskDocument => q p.2) (omap (fun i => d ← tm !! i; Some (i, d)) l)) = List.filter q (omap (fun i => tm !! i) l).
Proof. induction l as [|i l IH]; [done|]. cbn. destruct (tm !! i) as [d|]; cbn; [|done]. destruct (q d); cbn; by rewrite IH. Qed.

Lemma found_ids (q : TaskDocument -> bool) (tm : gmap string TaskDocument) l i :
  i ∈ map fst (List.filter (fun p : string * TaskDocument => q p.2) (omap (fun i => d ← tm !! i; Some (i, d)) l)) <->
  i ∈ l /\ exists d, tm !! i = Some d /\ q d = true.
Proof.
  rewrite list_elem_of_fmap. split.
  - intros ([j d] & -> & Hin). rewrite list_elem_of_In, filter_In, <- list_elem_of_In in Hin. destruct Hin as [Hin Hq].
    apply list_elem_of_omap in Hin as (j' & Hj & Hd). destruct (tm !! j') as [d'|] eqn:E; [|done]. injection Hd as -> ->. eauto.
  - intros (Hi & d & Hd & Hq). exists (i, d). split; [done|]. rewrite list_elem_of_In, filter_In, <- list_elem_of_In. split; [|done].
    apply list_elem_of_omap. exists i. split; [done|]. by rewrite Hd.
Qed.

Lemma load_wp now ids p r tm Q : indexes (D := TaskDocument) (model r) tm -> holds_set tm ids p ->
  (forall r' items, indexes (D := TaskDocument) (model r') (filter (fun y => p y.2 && document_expired local now y.2 = false) tm) ->
     items ≡ₚ docs_where (fun d => p d && negb (document_expired local now d)) tm ->
     frames (owned (D := TaskDocument)) (model r) (model r') -> Q r' (Ok items)) ->
  wpP reliable (load_task_documents local prefix now ids) r Q.
Proof.
  intros Hd [Hn Hids] HQ. unfold load_task_documents. set (ordered := sort_by str_le ids).
  apply (get_documents_wp (D := TaskDocument) now ordered _ r tm _ Hd).
  rewrite (omap_agree _ (fun i => d ← tm !! i; Some (i, d))) by (intros i Hi; by rewrite dget_omap).
  set (found := omap _ ordered). apply wpP_bind.
  apply (drop_all_wp (D := TaskDocument) now _ r tm _ Hd). intros r' Hd' Hf. apply wpP_ret, HQ; [| |done].
  - replace (filter (fun y : string * TaskDocument => p y.2 && document_expired local now y.2 = false) tm)
      with (filter (fun y : string * TaskDocument => y.1 ∉ map fst (List.filter (fun p => document_expired local now p.2) found)) tm); [done|].
    apply map_filter_ext. intros i x Hx. cbn. unfold found. rewrite found_ids. unfold ordered. rewrite sort_by_elem, Hids.
    split.
    + intros Hnot. apply not_true_is_false. intros [Hp He]%andb_true_iff. apply Hnot. split; [by exists x|by exists x].
    + intros Hb [(y & Hy & Hp) (z & Hz & He)]. assert (y = x) as -> by congruence. assert (z = x) as -> by congruence.
      by rewrite Hp, He in Hb.
  - unfold found. rewrite (found_docs (fun d => negb (document_expired local now d))). apply filter_docs_where.
    + unfold ordered. by rewrite sort_by_permutation.
    + intros i. unfold ordered. rewrite sort_by_elem. apply Hids.
Qed.

Lemma filter_permutation {A} (p : A -> bool) (l l' : list A) : l ≡ₚ l' -> List.filter p l ≡ₚ List.filter p l'.
Proof.
  induction 1 as [|x l l' HP IH|x y l|l1 l2 l3 _ IH1 _ IH2]; cbn; [done| | |by rewrite IH1].
  - destruct (p x); [by constructor|done].
  - destruct (p x), (p y); try done. constructor.
Qed.

Lemma search_tasks_refines now q : search_refines_step now (SearchTasks q).
Proof.
  by_run. unfold perform_search, search_tasks. cbn [search_step].
  destruct (any_given _); cbn [negb]; [|by apply wpP_bind, wpP_lift]. apply wpP_bind, wpP_bind.
  apply (candidates_wp (D := TaskDocument) now (task_filter_key prefix) (task_fields q) r tm _ Ht (task_filter_index prefix)).
  intros ids Hids. apply wpP_bind, (load_wp now ids (task_selected q) r tm _ Ht).
  { eapply holds_set_ext; [|exact Hids]. apply (task_selected_by prefix). }
  intros r' items Ht' HP Hf. apply wpP_lift.
  assert (sort_by (task_le local) (List.filter (fun d => within_range (parse_datetime local (td_last_seen_at d))
    (parse_datetime local (tq_from q)) (parse_datetime local (tq_to q))) items) = task_hits local now q tm) as ->.
  { apply (sort_by_canonical _ (task_le_total local) (task_le_trans local)).
    { rewrite (filter_permutation _ _ _ HP), docs_where_and. done. }
    intros a b Ha Hb Hab Hba. rewrite list_elem_of_In, filter_In, <- list_elem_of_In, HP in Ha, Hb.
    destruct Ha as [(ia & Hia & _)%docs_where_elem _], Hb as [(ib & Hib & _)%docs_where_elem _].
    pose proof (task_le_anti local _ _ Hab Hba) as E.
    pose proof (ixs_id _ _ Ht _ _ Hia) as E1. pose proof (ixs_id _ _ Ht _ _ Hib) as E2. change (document_id a = ia) in E1. change (document_id b = ib) in E2. congruence. }
  assert (searchable r' (filter (fun p => task_selected q p.2 && document_expired local now p.2 = false) tm, sm)) as Hs'
    by (split; [done|by eapply services_kept]).
  destruct (paginate pf task_cursor _ _ _); [apply wpP_ret|]; by split.
Qed.

Lemma search_request_refines now c : search_refines_step now c.
Proof.
  destruct c; [apply upsert_task_refines|apply upsert_service_refines|apply drop_service_refines|apply drop_tasks_refines
    |apply prune_refines|apply search_tasks_refines|apply search_services_refines].
Qed.
End refinement.

(** C15. The search index answers as a scan of the documents would: over any sequence of events, registry changes,
    deletions, prunings and searches, at any times, every page of results, every cursor and every error is the one that
    filtering and sorting the stored documents gives, and the inverted sets hold exactly the ids of the documents that
    have their value. *)
Theorem search_refines {R : Type} `{RedisLaws R} `{JsonModelLaws TaskDocument} `{JsonModelLaws ServiceDocument} local pf prefix ttl l
    (r : R) s : searchable prefix r s ->
  (run_searches local pf prefix ttl l r).2 = (search_run local pf ttl l s).2 /\
  searchable prefix (run_searches local pf prefix ttl l r).1 (search_run local pf ttl l s).1.
Proof.
  revert r s. induction l as [|[now c] l IH]; intros r s Hr; [done|].
  cbn [run_searches search_run]. destruct (search_request_refines local pf prefix ttl now c r s Hr) as [Hs Hx].
  destruct (runP (perform_search local pf prefix ttl now c) r) as [r1 x], (search_step local pf ttl now c s) as [s1 y]. cbn [fst snd] in *.
  destruct (IH r1 s1 Hs) as [E Hm]. destruct (run_searches local pf prefix ttl l r1), (search_run local pf ttl l s1). cbn [fst snd] in *.
  split; [by rewrite Hx, E|done].
Qed.

(** ** Ids *)

Definition unsorted_opts : dumps_opts := DumpsOpts true false "," ":".

(** Different tasks have different documents: the id of a document gives back the service and the task. *)
Lemma decode_task_document_id pf service_id task_id :
  decode_cursor pf (task_document_id service_id task_id) = Ok [("service_id", service_id); ("task_id", task_id)].
Proof.
  unfold decode_cursor, task_document_id, encode_cursor. rewrite urlsafe_roundtrip.
  change (dumps cursor_opts _) with (dumps unsorted_opts (PDict [("service_id", PStr service_id); ("task_id", PStr task_id)])).
  by rewrite (loads_dumps pf unsorted_opts [] [] eq_refl eq_refl (List.Forall_nil _) eq_refl (List.Forall_nil _)).
Qed.

Lemma task_document_id_inj s t s' t' : task_document_id s t = task_document_id s' t' -> s = s' /\ t = t'.
Proof.
  intros E. pose proof (decode_task_document_id (fun _ => PyFloat "" FNan false) s t) as D. rewrite E, decode_task_document_id in D.
  by injection D as -> ->.
Qed.

(** ** Witness *)

Definition task_tuple (d : TaskDocument) :=
  ((td_service_id d, td_service_name d, td_environment d, td_task_id d, td_correlation_id d, td_status d, td_stage d, td_first_seen_at d),
   (td_last_seen_at d, td_latest_event_type d, td_latest_event_at d, td_latest_ingested_at d, td_detail_path d, td_expires_at d, td_source d)).
Definition task_untuple (t : (string * string * string * string * option string * option string * option string * option string) *
    (option string * option string * option string * option string * string * option string * option string)) : TaskDocument :=
  let '((a, b, c, d, e, f, g, h), (i, j, k, l, m, n, o)) := t in
  {| td_service_id := a; td_service_name := b; td_environment := c; td_task_id := d; td_correlation_id := e; td_status := f;
     td_stage := g; td_first_seen_at := h; td_last_seen_at := i; td_latest_event_type := j; td_latest_event_at := k;
     td_latest_ingested_at := l; td_detail_path := m; td_expires_at := n; td_source := o |}.
#[export] Instance task_document_eq_dec : EqDecision TaskDocument.
Proof. solve_decision. Defined.
#[export] Instance task_document_countable : Countable TaskDocument.
Proof. refine (inj_countable' task_tuple task_untuple _). by intros []. Defined.
#[export] Instance task_document_model : JsonModel TaskDocument := bits_model TaskDocument.
#[export] Instance task_document_laws : JsonModelLaws TaskDocument := bits_model_laws TaskDocument.

Definition service_doc_tuple (d : ServiceDocument) :=
  (sd_service_id d, sd_name d, sd_environment d, sd_tags d, sd_status d, sd_health_status d, sd_base_url d, sd_auth_mode d, sd_last_seen_at d).
Definition service_doc_untuple (t : string * string * string * list string * string * option string * string * string * option string) : ServiceDocument :=
  let '(a, b, c, d, e, f, g, h, i) := t in
  {| sd_service_id := a; sd_name := b; sd_environment := c; sd_tags := d; sd_status := e; sd_health_status := f;
     sd_base_url := g; sd_auth_mode := h; sd_last_seen_at := i |}.
#[export] Instance service_document_eq_dec : EqDecision ServiceDocument.
Proof. solve_decision. Defined.
#[export] Instance service_document_countable : Countable ServiceDocument.
Proof. refine (inj_countable' service_doc_tuple service_doc_untuple _). by intros []. Defined.
#[export] Instance service_document_model : JsonModel ServiceDocument := bits_model ServiceDocument.
#[export] Instance service_document_laws : JsonModelLaws ServiceDocument := bits_model_laws ServiceDocument.

Lemma indexes_empty {D} `{Indexed D} `{JsonModel D} : indexes (D := D) (∅ : db) ∅.
Proof.
  split; [intros id; by rewrite !lookup_empty| |by intros id x ?%lookup_empty_Some].
  intros k _. unfold set_entry, ids_of. rewrite lookup_empty, map_filter_empty, dom_empty_L. by rewrite decide_True.
Qed.

Lemma searchable_empty prefix : searchable prefix (∅ : db) (∅, ∅).
Proof. split; apply indexes_empty. Qed.

(** A service, and an event of a task of it. *)
Definition demo_registered (id name : string) (tags : list string) : ServiceRecord :=
  {| sr_id := id; sr_name := name; sr_base_url := "http://a.test"; sr_environment := "prod"; sr_tags := tags; sr_auth_mode := "none";
     sr_status := HEALTHY; sr_capabilities := None; sr_last_seen_at := None; sr_log_config := None; sr_metrics_config := None;
     sr_trace_config := None; sr_health := None |}.
Definition demo_event (task status time : string) : control_event :=
  {| ce_service_id := "a"; ce_method := PULL; ce_ingested_at := time; ce_dedupe_key := ""; ce_out_of_order := false; ce_task_id := task;
     ce_event_type := "status." +:+ status; ce_source_kind := SOURCE_STATUS; ce_component := None; ce_timestamp := Some time;
     ce_event_id := None; ce_correlation_id := None; ce_parent_task_id := None; ce_payload := [("status", PStr status)] |}.
Definition demo_tasks (status limit_cursor : option string) : search_request :=
  SearchTasks (TaskQuery (Some "a") None None status None None None 1 limit_cursor).
Definition demo_searches : list (Z * search_request) :=
  let a := demo_registered "a" "Payment API" ["billing"] in
  [(0, UpsertService a None); (0, UpsertService (demo_registered "b" "Mail" ["payload"]) (Some "down"));
   (1, UpsertTask a (demo_event "t1" "queued" "2024-01-01T00:00:00Z")); (1, UpsertTask a (demo_event "t2" "queued" "2024-01-01T00:01:00Z"));
   (2, UpsertTask a (demo_event "t1" "completed" "2024-01-01T00:02:00Z")); (3, demo_tasks (Some "queued") None);
   (3, SearchServices (ServiceQuery (Some "pay api") (Some "prod") None None None 10 None)); (4, DropTasks "a"); (5, Prune)].

Lemma search_refines_witness :
  let pf := fun _ => PyFloat "" FNan false in
  (run_searches (fun t => t) pf "studio:search" 86400 demo_searches (∅ : db)).2 =
    (search_run (fun t => t) pf 86400 demo_searches (∅, ∅)).2 /\
  searchable "studio:search" (run_searches (fun t => t) pf "studio:search" 86400 demo_searches (∅ : db)).1
    (search_run (fun t => t) pf 86400 demo_searches (∅, ∅)).1.
Proof. intros pf. apply (search_refines (fun t => t) pf "studio:search" 86400 demo_searches (∅ : db) (∅, ∅)), searchable_empty. Defined.

(** What the answers of the searches show. *)
Definition shown (x : result search_outcome) : list (string * option string) :=
  match x with
  | Ok (Tasks p) => map (fun d => (td_task_id d, td_status d)) p.1
  | Ok (Services p) => map (fun i => (sd_service_id i.1, head i.2)) p.1
  | _ => []
  end.

Example search_demo :
  map shown (run_searches (fun t => t) (fun _ => PyFloat "" FNan false) "s" 86400 demo_searches (∅ : db)).2
  = [[]; []; []; []; []; [("t2", Some "queued")]; [("a", Some "name")]; []; []].
Proof. vm_compute. reflexivity. Qed.

(** ** Events out of order *)

(** An event that is older than the last one known still overwrites the task's status, while the document keeps the
    time and the type of the newer event. *)
Lemma older_event_overwrites_status :
  let a := demo_registered "a" "a" [] in
  let s := (search_run (fun t => t) (fun _ => PyFloat "" FNan false) 86400
    [(0, UpsertTask a (demo_event "t1" "completed" "2024-01-01T00:02:00Z"));
     (1, UpsertTask a (demo_event "t1" "queued" "2024-01-01T00:01:00Z"))] (∅, ∅)).1 in
  (fun d => (td_status d, td_latest_event_type d, td_latest_event_at d)) <$> s.1 !! task_document_id "a" "t1"
  = Some (Some "queued", Some "status.completed", Some "2024-01-01T00:02:00Z").
Proof. vm_compute. reflexivity. Qed.

(** Paging by a cursor whose task has a new event in the meantime starts again at the first page. *)
Lemma stale_cursor_restarts :
  let a := demo_registered "a" "a" [] in let pf := fun _ => PyFloat "" FNan false in
  let steps := search_run (fun t => t) pf 86400 in
  let s0 := (steps [(0, UpsertTask a (demo_event "t1" "x" "2024-01-01T00:01:00Z")); (0, UpsertTask a (demo_event "t2" "x" "2024-01-01T00:02:00Z"));
                    (0, UpsertTask a (demo_event "t3" "x" "2024-01-01T00:03:00Z"))] (∅, ∅)).1 in
  let '(s1, x1) := search_step (fun t => t) pf 86400 1 (demo_tasks None None) s0 in
  let s2 := (steps [(2, UpsertTask a (demo_event "t3" "y" "2024-01-01T00:04:00Z"))] s1).1 in
  let '(_, x2) := search_step (fun t => t) pf 86400 3 (demo_tasks None (match x1 with Ok (Tasks p) => p.2 | _ => None end)) s2 in
  shown x1 = [("t3", Some "x")] /\ shown x2 = [("t3", Some "y")].
Proof. vm_compute. done. Qed.
