(* ===== verification/StudioIngest.v ===== *)
(** * The ingestion of events into Studio (studio/events.py)

    [StudioEventIngestService] stores the events that services push or that it
    pulls from their feeds, and tells the search index of each new one. *)

From S2P Require Import Prelude PyStr PyVal PySort PyTime PyUrl Codec Redis RedisProg EventFeed StudioEvents Registry.

Section ingest.
Context {R : Type} `{Redis R} `{JsonModel control_event} `{JsonModel ServiceRecord}.
Notation P := (P R).

(** [try: m except Exception as e: h(e)] *)
Definition catching {A} (m : P A) (h : exn -> P A) : P A := fun r fs =>
  match m r fs with
  | (r, fs, Raise e) => if is_exception e then h e r fs else (r, fs, Raise e)
  | x => x
  end.

(** The stores' prefixes and settings, the policy, the search indexer if there is one, and the requests to the
    services' feeds: a URL, a cursor and a limit. *)
Context (registry_prefix events_prefix : string) (ttl_seconds : option Z) (history_maxlen : Z) (policy : url_policy).
Context (search_indexer : option (Z -> ServiceRecord -> control_event -> P unit)).
Context (fetch : string -> option string -> Z -> P feed_response).
Context (pull_page_limit : Z) (pull_max_pages : nat).

(** [StudioEventIngestResponse], studio/events.py:106-109. *)
Record ingest_response := IngestResponse { ir_inserted : Z; ir_duplicate : Z; ir_invalid : Z }.

Inductive verdict := Inserted | Duplicate | Invalid.

(** [StudioEventIngestService.ingest_events], studio/events.py:424-454: one envelope. *)
Definition ingest_one (now : Z) (e : envelope) : P verdict :=
  service ← catching (s ← get_service registry_prefix now (en_service_id e); mret (Some s))
    (fun exn => if String.eqb (exn_type exn) "ServiceNotFoundError" then mret None else liftP (Raise exn));
  match service with
  | None => mret Invalid
  | Some service =>
      inserted ← insert_event events_prefix ttl_seconds history_maxlen now e;
      if negb inserted then mret Duplicate
      else
        _ ← match search_indexer with
            | Some index => index now service (normalized_event now e false)
            | None => mret tt
            end;
        mret Inserted
  end.

Definition counted (v : verdict) (r : ingest_response) : ingest_response :=
  match v with
  | Inserted => IngestResponse (ir_inserted r + 1) (ir_duplicate r) (ir_invalid r)
  | Duplicate => IngestResponse (ir_inserted r) (ir_duplicate r + 1) (ir_invalid r)
  | Invalid => IngestResponse (ir_inserted r) (ir_duplicate r) (ir_invalid r + 1)
  end.

(** [StudioEventIngestService.ingest_events], studio/events.py:422-455. *)
Fixpoint ingest_from (now : Z) (events : list envelope) (response : ingest_response) : P ingest_response :=
  match events with
  | [] => mret response
  | e :: events => v ← ingest_one now e; ingest_from now events (counted v response)
  end.
Definition ingest_events (now : Z) (events : list envelope) : P ingest_response :=
  ingest_from now events (IngestResponse 0 0 0).

(** [StudioEventIngestService.list_service_events], studio/events.py:457-479. *)
Definition service_events (now : Z) (s : string) (q : event_query) (before : option string) (limit : Z) : P event_list :=
  _ ← get_service registry_prefix now s;
  list_service_events events_prefix history_maxlen now s q before limit.

(** [StudioEventIngestService.list_task_events], studio/events.py:481-490. *)
Definition task_events (now : Z) (s t : string) (before : option string) (limit : Z) : P event_list :=
  _ ← get_service registry_prefix now s;
  list_task_events events_prefix history_maxlen now s t before limit.

(** [StudioEventIngestService._validate_service_base_url], studio/events.py:569-574. *)
Definition validate_service_base_url (service : ServiceRecord) : result unit :=
  match validate_url policy ("Service '" +:+ sr_id service +:+ "' base_url") (sr_base_url service) with
  | Raise e => if String.eqb (exn_type e) "OutboundUrlPolicyError" then Raise (runtime_error (exn_text e)) else Raise e
  | Ok _ => Ok tt
  end.

Definition feed_url (service : ServiceRecord) : string := rstrip_slash (sr_base_url service) +:+ "/events/feed".

(** The events before the stored cursor, and whether it is there. *)
Fixpoint before_cursor (stored : option string) (items : list service_event) : list service_event * bool :=
  match items with
  | [] => ([], false)
  | i :: items =>
      if bool_decide (stored = Some (sv_cursor i)) then ([], true)
      else let (batch, existing) := before_cursor stored items in (i :: batch, existing)
  end.

(** [StudioEventIngestService._sync_service], studio/events.py:533-565: the pages, at most [budget]; the newest cursor
    is that of the first page. *)
Fixpoint pull_pages (now : Z) (service : ServiceRecord) (stored : option string) (budget : nat) (first : bool)
    (newest_cursor next_after : option string) : P (option string) :=
  match budget with
  | O => mret newest_cursor
  | S budget =>
      payload ← fetch (feed_url service) next_after pull_page_limit;
      match fr_items payload with
      | [] => mret newest_cursor
      | i :: _ =>
          let newest_cursor := if first then Some (sv_cursor i) else newest_cursor in
          let (batch, encountered_existing) := before_cursor stored (fr_items payload) in
          _ ← match batch with
              | [] => mret tt
              | _ => _ ← ingest_events now (map (Envelope (sr_id service) PULL) batch); mret tt
              end;
          if encountered_existing then mret newest_cursor
          else match fr_next_cursor payload, budget with
               | None, _ | _, O => mret newest_cursor
               | Some c, _ => pull_pages now service stored budget false newest_cursor (Some c)
               end
      end
  end.

(** [StudioEventIngestService._sync_service], studio/events.py:520-567. *)
Definition sync_service_events (now : Z) (service : ServiceRecord) : P unit :=
  _ ← liftP (validate_service_base_url service);
  stored_cursor ← get_pull_cursor events_prefix now (sr_id service);
  up_to_date ← match stored_cursor with
    | None => mret false
    | Some c =>
        probe ← fetch (feed_url service) None 1;
        mret (match fr_items probe with [] => true | i :: _ => String.eqb (sv_cursor i) c end)
    end;
  if (up_to_date : bool) then mret tt
  else
    newest_cursor ← pull_pages now service stored_cursor pull_max_pages true None None;
    match newest_cursor with
    | Some c => set_pull_cursor events_prefix now (sr_id service) c
    | None => mret tt
    end.

(** [_record], studio/_diagnostic_observations.py:10-21: evidence of the attempt, whose failure is ignored. *)
Definition record_observation (now : Z) (source : string) (succeeded : bool) : P unit :=
  let key kind := events_prefix +:+ ":doctor:" +:+ source +:+ ":" +:+ kind in
  catching (await_ (fun r =>
      let r := rset r now (key "attempt") (isoformat now) (Some 604800) in
      let r := rset r now (key "outcome") (if succeeded then "ok" else "unavailable") (Some 604800) in
      if succeeded then rset r now (key "success") (isoformat now) (Some 604800) else r))
    (fun _ => mret tt).

(** [StudioEventIngestService.sync_service], studio/events.py:502-518. *)
Definition sync_service (now : Z) (service : ServiceRecord) : P unit :=
  let source := "pull:" +:+ sr_id service in
  _ ← reraising (sync_service_events now service) (record_observation now source false);
  record_observation now source true.

(** [StudioEventIngestService.sync_registered_services], studio/events.py:492-500: the services whose capabilities
    announce the feed. *)
Definition sync_registered_services (supports_events_feed : ServiceRecord -> bool) (now : Z) : P unit :=
  services ← list_records registry_prefix now;
  (fix each_service (l : list ServiceRecord) : P unit :=
     match l with
     | [] => mret tt
     | service :: l =>
         _ ← if bool_decide (sr_status service = HEALTHY) && supports_events_feed service
             then catching (sync_service now service) (fun _ => mret tt)
             else mret tt;
         each_service l
     end) services.
End ingest.
