(* ===== verification/StudioIngestSpec.v ===== *)
(** * A synchronisation records every new event of a feed

    The pull of a service's feed composed with the feed's own model: without
    failures, every event that is newer than the stored cursor and that the
    pages reach is recorded, nothing recorded is lost, and the cursor moves to
    the newest event.  What the pages do not reach is lost for good. *)

From stdpp Require Import countable.
From S2P Require Import Prelude PyStr PyVal PySort PyTime PyUrl Codec Redis RedisProg EventFeed StudioEvents Registry RegistrySpec Search InvertedIndex SearchSpec StudioIngest.

(** ** What an indexer of tasks promises *)

(** Started in a good state, it ends in a good state without an error and changes only keys of its own; the state
    stays good when those keys are left alone. *)
Class IndexerLaws {R : Type} `{RedisLaws R} (index : Z -> ServiceRecord -> control_event -> P R unit) (good : R -> Prop)
    (own : string -> Prop) : Prop := {
  indexer_runs : forall now s e r, good r ->
    wpP reliable (index now s e) r (fun r' x => x = Ok tt /\ good r' /\ forall k, ~ own k -> model r' !! k = model r !! k);
  indexer_frame : forall r r', good r -> (forall k, own k -> model r' !! k = model r !! k) -> good r' }.

(** The search service keeps its promise, for a searchable index. *)
Definition search_own (prefix k : string) : Prop :=
  owned (H3 := task_indexed prefix) k \/ owned (H3 := service_indexed prefix) k.

#[export] Instance search_indexer_laws {R : Type} `{RedisLaws R} `{JsonModelLaws TaskDocument} `{JsonModelLaws ServiceDocument}
    local prefix ttl : IndexerLaws (upsert_task_document (R := R) local prefix ttl) (fun r => exists s, searchable prefix r s) (search_own prefix).
Proof.
  split.
  - intros now service event r [[tm sm] [Ht Hs]]. cbn [fst snd] in *. unfold upsert_task_document.
    pose (ti := task_indexed prefix). pose (tl := task_indexed_laws prefix).
    apply (get_document_wp (H3 := ti) now (task_document_id (sr_id service) (ce_task_id event)) _ r tm _ Ht).
    apply (put_document_wp (H3 := ti) (H4 := tl) now _ r tm _ Ht). intros r' Hr' Hf. split; [done|]. split.
    + eexists (_, _). split; [exact Hr'|]. by eapply services_kept.
    + intros k Hk. apply Hf. intros Ho. apply Hk. by left.
  - intros r r' [[tm sm] [Ht Hs]] Hk. exists (tm, sm). split; (eapply indexes_frame; [eassumption|]); intros k Hn; apply Hk; [by left|by right].
Qed.

(** ** The insertion of an event *)

Section insert.
Context {R : Type} `{RedisLaws R} `{JsonModelLaws control_event}.
Context (prefix : string) (ttl_seconds : option Z) (history_maxlen : Z).
Hypothesis ttl_positive : match event_ttl ttl_seconds with Some s => 0 < s | None => True end.

Definition event_keys (k : string) : Prop := exists s, k = prefix +:+ ":" +:+ s.

(** An event is recorded: its deduplication key is taken. *)
Definition recorded (now : Z) (d : db) (s : string) (e : service_event) : Prop :=
  is_Some (live d now (event_key prefix (event_dedupe_key s e))).

(** The pipeline leaves the records of events and the cursors alone. *)
Definition bookkeeping (k : string) : Prop := exists s, k = prefix +:+ ":service:" +:+ s \/ k = prefix +:+ ":task:" +:+ s.

Lemma expire_lookup_ne d now k s k' : k <> k' -> db_expire d now k s !! k' = d !! k'.
Proof. intros Hne. unfold db_expire. destruct (live d now k) as [[]|]; [by rewrite lookup_insert_ne|done]. Qed.

Lemma pexpire_ne now k (r : R) k' : k <> k' -> model (pexpire ttl_seconds now k r) !! k' = model r !! k'.
Proof. intros Hne. unfold pexpire. destruct (event_ttl _); [|done]. rewrite law_expire. by apply expire_lookup_ne. Qed.

Lemma set_latest_ne now k v (r : R) k' : k <> k' -> model (set_latest ttl_seconds now k v r) !! k' = model r !! k'.
Proof.
  intros Hne. unfold set_latest. rewrite pexpire_ne by done. rewrite law_set. unfold db_set. by rewrite lookup_insert_ne.
Qed.

Lemma push_ne now k v n (r : R) k' : k <> k' -> model (rltrim (rlpush r now k v) now k 0 n) !! k' = model r !! k'.
Proof. intros Hne. rewrite law_ltrim, law_lpush. unfold db_ltrim, db_lpush. by rewrite !put_lookup_ne. Qed.

Lemma pipeline_ne now e n lt ls lo (r : R) k : ~ bookkeeping k ->
  model (insert_pipeline prefix ttl_seconds history_maxlen now e n lt ls lo r) !! k = model r !! k.
Proof.
  intros Hk.
  assert (forall s, prefix +:+ ":service:" +:+ s <> k) as Hs by (intros s <-; apply Hk; exists s; by left).
  assert (forall s, prefix +:+ ":task:" +:+ s <> k) as Ht by (intros s <-; apply Hk; exists s; by right).
  unfold insert_pipeline, service_history_key, task_history_key, task_latest_timestamp_key, service_latest_key.
  rewrite !law_publish, set_latest_ne by apply Hs.
  destruct (sv_timestamp (en_event e)) as [ts|]; [destruct (sv_source_kind (en_event e)), (newer_than lt ts);
    [destruct (newer_than ls ts)|destruct (newer_than ls ts)|destruct (newer_than lo ts)|destruct (newer_than lo ts)]|];
    rewrite ?set_latest_ne by first [apply Hs|apply Ht]; rewrite !pexpire_ne, !push_ne by first [apply Hs|apply Ht]; done.
Qed.

Lemma bookkeeping_apart k : bookkeeping k -> (forall id, k <> event_key prefix id) /\ (forall s, k <> pull_cursor_key prefix s) /\ event_keys k.
Proof.
  intros [s Hk]. split; [|split].
  - intros id ->. unfold event_key in Hk. destruct Hk as [E|E]; apply append_inj_l in E; discriminate.
  - intros t ->. unfold pull_cursor_key in Hk. destruct Hk as [E|E]; apply append_inj_l in E; discriminate.
  - destruct Hk as [-> | ->]; [by exists ("service:" +:+ s)|by exists ("task:" +:+ s)].
Qed.

(** An insertion records the event, keeps every record and the cursors, and touches no key of others; an event that is
    recorded already changes nothing. *)
Lemma insert_event_wp now (e : envelope) r Q :
  (forall r' b, recorded now (model r') (en_service_id e) (en_event e) ->
     (forall k, live (model r) now k <> None -> (forall id, k = event_key prefix id -> live (model r') now k = live (model r) now k)) ->
     (forall s, model r' !! pull_cursor_key prefix s = model r !! pull_cursor_key prefix s) ->
     (forall k, ~ event_keys k -> model r' !! k = model r !! k) ->
     (recorded now (model r) (en_service_id e) (en_event e) -> b = false /\ model r' = model r) -> Q r' (Ok b)) ->
  wpP reliable (insert_event prefix ttl_seconds history_maxlen now e) r Q.
Proof.
  intros HQ. unfold insert_event. apply wpP_bind, wpP_await; [|done..].
  cbn [fst snd]. set (n := normalized_event now e _). set (key := event_key prefix (ce_dedupe_key n)).
  apply wpP_bind, wpP_await; [|done..]. unfold recorded in HQ. fold key in HQ.
  change (event_key prefix (event_dedupe_key (en_service_id e) (en_event e))) with key in HQ.
  destruct (live (model r) now key) as [x|] eqn:El.
  - destruct (set_nx_taken r now key (dump_json n) (event_ttl ttl_seconds) x El) as (r1 & -> & Hm). cbn [fst snd negb].
    apply wpP_ret, HQ; rewrite Hm; [by rewrite El; eexists|done..].
  - destruct (set_nx_free r now key (dump_json n) (event_ttl ttl_seconds) El) as (r1 & -> & Hm). cbn [fst snd negb].
    apply wpP_bind, wpP_await_; [|done..]. apply wpP_ret.
    assert (forall k, ~ bookkeeping k -> live (model (insert_pipeline prefix ttl_seconds history_maxlen now e n
      (rget r now (task_latest_timestamp_key prefix (en_service_id e) (sv_task_id (en_event e))))
      (rget r now (service_latest_key prefix (en_service_id e) "status"))
      (rget r now (service_latest_key prefix (en_service_id e) "observation")) r1)) now k = live (model r1) now k) as Hl
      by (intros k Hk; unfold live; by rewrite pipeline_ne).
    assert (forall id, ~ bookkeeping (event_key prefix id)) as Hb by (intros id (Hn & _)%bookkeeping_apart; by apply (Hn id)).
    apply HQ.
    + rewrite Hl by apply Hb. rewrite Hm. unfold db_set. rewrite live_insert_eq. unfold expires.
      destruct (event_ttl ttl_seconds) as [s|]; cbn; [|by eexists]. destruct (now <? now + s * second) eqn:E; [by eexists|].
      unfold second in E. lia.
    + intros k Hk id ->. rewrite Hl by apply Hb. rewrite Hm. unfold db_set. apply live_insert_ne. intros E. apply Hk. by rewrite <- E.
    + intros s. rewrite pipeline_ne by (intros (_ & Hn & _)%bookkeeping_apart; by apply (Hn s)). rewrite Hm. unfold db_set.
      rewrite lookup_insert_ne; [done|]. unfold key, event_key, pull_cursor_key. intros E. apply append_inj_l in E. discriminate.
    + intros k Hk. rewrite pipeline_ne by (by intros (_ & _ & Hn)%bookkeeping_apart). rewrite Hm. unfold db_set.
      rewrite lookup_insert_ne; [done|]. intros <-. apply Hk. by exists ("event:" +:+ ce_dedupe_key n).
    + intros [y Hy]. congruence.
Qed.
End insert.

(** ** The events before a cursor *)

Lemma before_cursor_app stored a b : before_cursor stored (a ++ b) =
  let (x, found) := before_cursor stored a in
  if found then (x, true) else let (y, found) := before_cursor stored b in (a ++ y, found)%list.
Proof.
  induction a as [|i a IH]; cbn; [by destruct (before_cursor stored b)|]. destruct (bool_decide _); [done|]. rewrite IH.
  destruct (before_cursor stored a) as [x []]; [done|]. by destruct (before_cursor stored b).
Qed.

Lemma before_cursor_absent stored a : (before_cursor stored a).2 = false -> (before_cursor stored a).1 = a.
Proof.
  induction a as [|i a IH]; [done|]. cbn. destruct (bool_decide _); [done|]. destruct (before_cursor stored a) as [x b]. cbn in *.
  intros ->. by rewrite IH.
Qed.

(** ** A synchronisation *)

Section sync.
Context {R : Type} `{RedisLaws R} `{JsonModelLaws control_event} `{JsonModelLaws ServiceRecord}.
Context (registry_prefix events_prefix : string) (ttl_seconds : option Z) (history_maxlen : Z) (policy : url_policy).
Hypothesis ttl_positive : match event_ttl ttl_seconds with Some s => 0 < s | None => True end.

(** The indexer, with keys of its own. *)
Context (index : Z -> ServiceRecord -> control_event -> P R unit) (good : R -> Prop) (own : string -> Prop) `{!IndexerLaws index good own}.
Hypothesis own_apart : forall k, own k -> ~ event_keys events_prefix k /\ forall id, k <> record_key registry_prefix id.
Hypothesis registry_apart : forall id, ~ event_keys events_prefix (record_key registry_prefix id).

(** The feed of the service: a store of its own, which holds the entries [l], newest first. *)
Context {F : Type} `{HFR : Redis F} `{HFL : !RedisLaws F} `{JsonModelLaws service_event}.
Context (feed_prefix : string) (feed : F) (now : Z) (l : list (service_event * Z)).
Hypothesis feed_holds : holds_feed feed_prefix (model feed) now l.
Hypothesis cursors_nonempty : "" ∉ cursors l.

Context (pull_page_limit : Z) (pull_max_pages : nat) (service : ServiceRecord).

Definition fetch_feed (url : string) (after : option string) (limit : Z) : P R feed_response :=
  liftP (get_feed feed_prefix now after limit feed).

Notation ingest := (ingest_events registry_prefix events_prefix ttl_seconds history_maxlen (Some index) now).
Notation pull := (pull_pages registry_prefix events_prefix ttl_seconds history_maxlen (Some index) fetch_feed pull_page_limit now service).
Notation sync := (sync_service_events registry_prefix events_prefix ttl_seconds history_maxlen policy (Some index) fetch_feed
  pull_page_limit pull_max_pages now service).
Notation is_recorded d e := (recorded events_prefix now d (sr_id service) e).

(** The service is registered, and the indexer's state is good. *)
Definition ready (r : R) : Prop :=
  good r /\ db_str (model r) now (record_key registry_prefix (strip (sr_id service))) = Some (dump_json service).

(** From one state to another: still ready, every record kept, the cursor as it was. *)
Definition keeps (r r' : R) : Prop :=
  ready r' /\ (forall e, is_recorded (model r) e -> is_recorded (model r') e) /\
  model r' !! pull_cursor_key events_prefix (sr_id service) = model r !! pull_cursor_key events_prefix (sr_id service).

Lemma keeps_trans r1 r2 r3 : keeps r1 r2 -> keeps r2 r3 -> keeps r1 r3.
Proof. intros (_ & Hr & Hc) (Hg' & Hr' & Hc'). split; [done|]. split; [auto|congruence]. Qed.

Lemma event_key_is k : (exists id, k = event_key events_prefix id) -> event_keys events_prefix k.
Proof. intros [id ->]. by exists ("event:" +:+ id). Qed.
Lemma cursor_key_is s : event_keys events_prefix (pull_cursor_key events_prefix s).
Proof. by exists ("pull-cursor:" +:+ s). Qed.

Lemma get_service_ready r : ready r -> forall B (k : ServiceRecord -> P R B) Q,
  wpP reliable (k service) r Q -> wpP reliable (get_service registry_prefix now (sr_id service) ≫= k) r Q.
Proof.
  intros [_ Hd] B k Q Hk. apply wpP_bind. unfold get_service. apply wpP_bind. unfold get.
  apply wpP_bind, wpP_await; [|done..]. cbn [fst snd]. rewrite law_get, Hd. apply wpP_lift. rewrite validate_dump. by apply wpP_ret.
Qed.

Lemma wpP_catching {A} (m : P R A) h r Q :
  wpP reliable m r (fun r' x => match x with Ok a => Q r' (Ok a) | Raise e => False end) -> wpP reliable (catching m h) r Q.
Proof.
  intros Hm fs Hfs. unfold catching. destruct (Hm fs Hfs) as [Ha HQ]. by destruct (m r fs) as [[r' fs'] [a|e]].
Qed.

Lemma ingest_one_wp e r (Q : R -> result verdict -> Prop) : ready r ->
  (forall r' v, keeps r r' -> is_recorded (model r') e -> Q r' (Ok v)) ->
  wpP reliable (ingest_one registry_prefix events_prefix ttl_seconds history_maxlen (Some index) now (Envelope (sr_id service) PULL e)) r Q.
Proof.
  intros Hr HQ. unfold ingest_one. apply wpP_bind, wpP_catching. apply (get_service_ready r Hr), wpP_ret. cbn [en_service_id].
  apply wpP_bind. apply (insert_event_wp events_prefix ttl_seconds history_maxlen ttl_positive).
  intros r1 b Hrec Hkeep Hcur Hframe _. cbn [en_service_id en_event] in *.
  assert (keeps r r1) as Hk1.
  { split; [|split; [|apply Hcur]].
    - destruct Hr as [Hg Hd]. split.
      + apply (indexer_frame r r1 Hg). intros k Hk. apply Hframe. by apply own_apart.
      + rewrite <- Hd. unfold db_str, live. by rewrite Hframe by apply registry_apart.
    - intros e' [x Hx]. unfold recorded. erewrite Hkeep; [by eexists|by rewrite Hx|done]. }
  destruct b; cbn [negb]; [|by apply wpP_ret, HQ].
  apply wpP_bind. eapply wpP_mono; [apply (indexer_runs now service _ r1), Hk1|].
  intros r2 x (-> & Hg2 & Hf2). apply wpP_ret. assert (keeps r1 r2) as Hk2.
  { destruct Hk1 as ([_ Hd] & _). split; [split; [done|]|split].
    - rewrite <- Hd. unfold db_str, live. rewrite Hf2; [done|]. intros (_ & Hn)%own_apart. by eapply Hn.
    - intros e' He. unfold recorded, live in *. rewrite Hf2; [done|]. intros (Hn & _)%own_apart. apply Hn, event_key_is. eauto.
    - apply Hf2. intros (Hn & _)%own_apart. by apply Hn, cursor_key_is. }
  apply HQ; [by eapply keeps_trans|]. by apply Hk2.
Qed.

Lemma ingest_wp batch : forall resp r (Q : R -> result ingest_response -> Prop), ready r ->
  (forall r' v, keeps r r' -> (forall e, e ∈ batch -> is_recorded (model r') e) -> Q r' (Ok v)) ->
  wpP reliable (ingest_from registry_prefix events_prefix ttl_seconds history_maxlen (Some index) now
    (map (Envelope (sr_id service) PULL) batch) resp) r Q.
Proof.
  induction batch as [|e batch IH]; intros resp r Q Hr HQ.
  { apply wpP_ret, HQ; [|by intros e ?%elem_of_nil]. by split. }
  cbn [map ingest_from]. apply wpP_bind, ingest_one_wp; [done|]. intros r1 v Hk1 He.
  apply IH; [apply Hk1|]. intros r2 v2 Hk2 Hb. apply HQ; [by eapply keeps_trans|].
  intros e' [->|Hin]%elem_of_cons; [by apply Hk2|by apply Hb].
Qed.

(** The events of the found entries that are newer than the stored cursor. *)
Definition fresh (stored : option string) (found : list (service_event * Z)) : list service_event :=
  (before_cursor stored (map fst found)).1.

Notation page_size := (Z.to_nat (Z.max 1 pull_page_limit)).

Lemma fresh_page stored found : let items := map fst (take page_size found) in
  (before_cursor stored items).2 = true /\ fresh stored found = (before_cursor stored items).1 \/
  (before_cursor stored items).2 = false /\ (before_cursor stored items).1 = items /\
  fresh stored found = (items ++ fresh stored (drop page_size found))%list.
Proof.
  intros items. unfold fresh. rewrite <- (take_drop page_size found) at 1 2. rewrite !map_app, !before_cursor_app. fold items.
  pose proof (before_cursor_absent stored items) as Ha. destruct (before_cursor stored items) as [x []]; [by left|right].
  cbn in *. split; [done|]. split; [auto|]. by destruct (before_cursor stored (map fst (drop page_size found))).
Qed.

Definition newest_of (first : bool) (newest : option string) (budget : nat) (found : list (service_event * Z)) : option string :=
  match budget, found with S _, p :: _ => if first then Some (sv_cursor p.1) else newest | _, _ => newest end.

Lemma fresh_nil stored n e : e ∈ take n (fresh stored []) -> False.
Proof. unfold fresh. cbn [map before_cursor fst]. rewrite take_nil. by intros ?%elem_of_nil. Qed.

(** The events of a page are ingested. *)
Lemma batch_wp batch r (Q : R -> result unit -> Prop) : ready r ->
  (forall r', keeps r r' -> (forall e, e ∈ batch -> is_recorded (model r') e) -> Q r' (Ok tt)) ->
  wpP reliable (match batch with [] => mret tt | _ => _ ← ingest (map (Envelope (sr_id service) PULL) batch); mret tt end) r Q.
Proof.
  intros Hr HQ. destruct batch as [|b0 batch0]; [apply wpP_ret, HQ; [by split|by intros e ?%elem_of_nil]|].
  apply wpP_bind, ingest_wp; [done|]. intros r' v Hk Hb. by apply wpP_ret, HQ.
Qed.

(** What the pages so far and the rest reach. *)
Lemma reached stored found budget e : (before_cursor stored (map fst (take page_size found))).2 = false ->
  e ∈ take (S budget * page_size) (fresh stored found) ->
  e ∈ map fst (take page_size found) \/
  (page_size < length found)%nat /\ e ∈ take (budget * page_size) (fresh stored (drop page_size found)).
Proof.
  intros Hb. destruct (fresh_page stored found) as [[E _]|(_ & _ & ->)]; [congruence|].
  destruct (decide (page_size < length found)%nat) as [Hlt|Hge].
  - assert (length (map fst (take page_size found)) = page_size) as Hlen by (rewrite length_map, length_take; lia).
    rewrite take_app, Hlen. rewrite take_ge by (rewrite Hlen; lia). rewrite elem_of_app. intros [?|Hin]; [by left|right].
    split; [done|]. replace (budget * page_size)%nat with (S budget * page_size - page_size)%nat by lia. done.
  - rewrite (drop_ge found) by lia. unfold fresh at 1. cbn [map before_cursor fst]. rewrite app_nil_r.
    intros (j & Hj & _)%elem_of_take. left. by eapply list_elem_of_lookup_2.
Qed.

Lemma pull_wp stored budget : forall first newest after before found r (Q : R -> result (option string) -> Prop),
  l = (before ++ found)%list -> page_from (from_opt "" after) l = found -> ready r ->
  (forall r', keeps r r' -> (forall e, e ∈ take (budget * page_size) (fresh stored found) -> is_recorded (model r') e) ->
     Q r' (Ok (newest_of first newest budget found))) ->
  wpP reliable (pull stored budget first newest after) r Q.
Proof.
  induction budget as [|budget IH]; intros first newest after before found r Q Hl Hp Hr HQ.
  { apply wpP_ret, HQ; [by split|]. by intros e ?%elem_of_nil. }
  cbn [pull_pages]. apply wpP_bind. unfold fetch_feed at 1. apply wpP_lift. rewrite (get_feed_page _ _ _ _ _ _ feed_holds), Hp.
  cbn [fr_items fr_next_cursor].
  destruct found as [|p found0]; [rewrite take_nil; apply wpP_ret, HQ; [by split|by intros e ?%fresh_nil]|].
  set (found := p :: found0) in *. pose proof (fresh_page stored found) as Hfresh. cbv zeta in Hfresh.
  pose proof (reached stored found budget) as Hreach. set (items := map fst (take page_size found)) in *.
  assert (exists i rest, items = i :: rest /\ sv_cursor i = sv_cursor p.1) as (i & rest & Ei & Ec).
  { unfold items, found. destruct page_size eqn:En; [lia|]. cbn. by eexists _, _. }
  rewrite Ei. rewrite <- Ei. destruct (before_cursor stored items) as [batch existing] eqn:Eb. cbn [fst snd] in *.
  apply wpP_bind, batch_wp; [done|]. intros r1 Hk1 Hrec. rewrite Ec.
  destruct Hfresh as [[-> Hf]|(-> & -> & _)].
  { apply wpP_ret, HQ; [done|]. rewrite Hf. intros e (j & Hj & _)%elem_of_take. by eapply Hrec, list_elem_of_lookup_2. }
  destruct (page_size <? length found)%nat eqn:Elt; [apply Nat.ltb_lt in Elt|apply Nat.ltb_ge in Elt].
  2: { apply wpP_ret, HQ; [done|]. intros e [Hin|[? _]]%(Hreach e eq_refl); [by apply Hrec|lia]. }
  destruct (last (cursors (take page_size found))) as [c|] eqn:El.
  2: { exfalso. apply last_None in El. unfold cursors in El. apply map_eq_nil in El. unfold items in Ei. by rewrite El in Ei. }
  destruct budget as [|budget].
  { apply wpP_ret, HQ; [done|]. intros e [Hin|[_ Hin]]%(Hreach e eq_refl); [by apply Hrec|by apply elem_of_nil in Hin]. }
  apply (IH false _ (Some c) (before ++ take page_size found)%list (drop page_size found)).
  - by rewrite <- app_assoc, take_drop.
  - cbn. eapply page_from_next; [exact Hl|apply feed_holds|done|exact El].
  - apply Hk1.
  - intros r2 Hk2 Hrest. assert (newest_of false (if first then Some (sv_cursor p.1) else newest) (S budget) (drop page_size found)
      = newest_of first newest (S (S budget)) found) as -> by (cbn; by destruct (drop page_size found)).
    apply HQ; [by eapply keeps_trans|]. intros e [Hin|[_ Hin]]%(Hreach e eq_refl); [by apply Hk2, Hrec|by apply Hrest].
Qed.

Lemma fresh_head stored p found : stored = Some (sv_cursor p.1) -> fresh stored (p :: found) = [].
Proof. intros ->. unfold fresh. cbn. by rewrite bool_decide_true. Qed.

(** Setting the cursor. *)
Lemma set_cursor_wp c r (Q : R -> result unit -> Prop) :
  (forall r', (forall e, is_recorded (model r) e -> is_recorded (model r') e) ->
     db_str (model r') now (pull_cursor_key events_prefix (sr_id service)) = Some c -> Q r' (Ok tt)) ->
  wpP reliable (set_pull_cursor events_prefix now (sr_id service) c) r Q.
Proof.
  intros HQ. apply wpP_await_; [|done..]. apply HQ; rewrite law_set.
  - intros e. unfold recorded, db_set. rewrite live_insert_ne; [done|]. unfold pull_cursor_key, event_key.
    intros E. apply append_inj_l in E. discriminate.
  - by rewrite str_set_eq.
Qed.

Definition newest_cursor (stored : option string) : option string :=
  match l with p :: _ => Some (sv_cursor p.1) | [] => stored end.

(** What a synchronisation achieves. *)
Definition synced (stored : option string) (r r' : R) (x : result unit) : Prop :=
  x = Ok tt /\ (forall e, is_recorded (model r) e -> is_recorded (model r') e) /\
  (forall e, e ∈ take (pull_max_pages * page_size) (fresh stored l) -> is_recorded (model r') e) /\
  db_str (model r') now (pull_cursor_key events_prefix (sr_id service)) = newest_cursor stored.

(** Nothing to do. *)
Lemma synced_already stored r : db_str (model r) now (pull_cursor_key events_prefix (sr_id service)) = stored ->
  newest_cursor stored = stored -> fresh stored l = [] -> synced stored r r (Ok tt).
Proof. intros Hs Hn Hf. split; [done|]. split; [done|]. rewrite Hf, take_nil. split; [by intros e ?%elem_of_nil|congruence]. Qed.

Lemma pull_and_set stored r : ready r -> (0 < pull_max_pages)%nat ->
  db_str (model r) now (pull_cursor_key events_prefix (sr_id service)) = stored ->
  wpP reliable (newest ← pull stored pull_max_pages true None None;
    match newest with Some c => set_pull_cursor events_prefix now (sr_id service) c | None => mret tt end) r (synced stored r).
Proof.
  intros Hr Hpages Hs. apply wpP_bind, (pull_wp stored pull_max_pages true None None [] l); [done..|].
  intros r1 (_ & Hmono & Hcur) Hnew. unfold newest_of, synced, newest_cursor in *. destruct pull_max_pages as [|pages]; [lia|]. destruct l as [|p l'].
  - apply wpP_ret. split; [done|]. split; [done|]. split; [done|]. rewrite <- Hs. unfold db_str, live. by rewrite Hcur.
  - apply set_cursor_wp. intros r2 Hmono2 Hc. split; [done|]. split; [auto|]. by split; [auto|].
Qed.

End sync.

(** ** Witness *)

Definition control_tuple (e : control_event) :=
  ((ce_service_id e, bool_decide (ce_method e = PUSH), ce_ingested_at e, ce_dedupe_key e, ce_out_of_order e, ce_task_id e, ce_event_type e),
   (bool_decide (ce_source_kind e = SOURCE_STATUS), ce_component e, ce_timestamp e, ce_event_id e, ce_correlation_id e, ce_parent_task_id e, ce_payload e)).
Definition control_untuple (t : (string * bool * string * string * bool * string * string) *
    (bool * option string * option string * option string * option string * option string * pydict)) : control_event :=
  let '((a, b, c, d, e, f, g), (h, i, j, k, l, m, n)) := t in
  {| ce_service_id := a; ce_method := if b then PUSH else PULL; ce_ingested_at := c; ce_dedupe_key := d; ce_out_of_order := e;
     ce_task_id := f; ce_event_type := g; ce_source_kind := if h then SOURCE_STATUS else SOURCE_OBSERVATION; ce_component := i;
     ce_timestamp := j; ce_event_id := k; ce_correlation_id := l; ce_parent_task_id := m; ce_payload := n |}.
#[export] Instance control_event_eq_dec : EqDecision control_event.
Proof. solve_decision. Defined.
#[export] Instance control_event_countable : Countable control_event.
Proof. refine (inj_countable' control_tuple control_untuple _). by intros [? [] ? ? ? ? ? [] ? ? ? ? ? ?]. Defined.
#[export] Instance control_event_model : JsonModel control_event := bits_model control_event.
#[export] Instance control_event_laws : JsonModelLaws control_event := bits_model_laws control_event.
#[export] Instance service_event_model : JsonModel service_event := bits_model service_event.
#[export] Instance service_event_laws : JsonModelLaws service_event := bits_model_laws service_event.

Definition demo_url_policy : url_policy := UrlPolicy ["a.test"] [].
Definition demo_healthy : ServiceRecord := demo_registered "a" "Payments" [].

(** A registered service, and nothing else. *)
Definition demo_start : db := {[ record_key "studio:services" "a" := (RStr (dump_json demo_healthy), None) ]}.

Lemma search_own_form k : search_own "studio:search" k -> exists s, k = "studio:search:" +:+ s.
Proof.
  intros [[[id ->]|[->|[[s ->]|(f & v & ->)]]]|[[id ->]|[->|[(f & v & ->)|[s ->]]]]];
    cbn; unfold task_doc_key, task_all_key, task_service_members_key, task_filter_key, service_doc_key, service_all_key,
    service_filter_key, service_token_key; by eexists.
Qed.

Lemma search_own_apart k : search_own "studio:search" k ->
  ~ event_keys "studio:events" k /\ forall id, k <> record_key "studio:services" id.
Proof. intros [s ->]%search_own_form. split; [by intros [t E]|by intros id E]. Qed.

Lemma demo_start_good : exists s, searchable "studio:search" demo_start s.
Proof.
  apply (indexer_frame (index := upsert_task_document (fun t => t) "studio:search" 86400)
    (good := fun r : db => exists s, searchable "studio:search" r s) (∅ : db)).
  - exists (∅, ∅). apply searchable_empty.
  - intros k (_ & Hn)%search_own_apart. unfold demo_start. cbn. rewrite lookup_singleton_ne; [done|]. intros E. by apply (Hn "a").
Qed.


(** ** Events that are lost, and one that is listed twice *)

Definition demo_feed (cs : list string) : db :=
  foldr (fun c d => (store_script "feed" (Some 600) 100 0 c (dump_json (demo_service_event c)) d).1) ∅ cs.
Definition recorded_ids (d : db) : list string := map (fun c => if decide (recorded "studio:events" 0 d "a" (demo_service_event c)) then c else "-") ["c1"; "c2"; "c3"; "c4"; "c5"].

(** When more events are new than the pages hold, the cursor moves past the rest: the next synchronisation has
    nothing to do, and they are never recorded. *)
Lemma truncated_pull_leaves_gap :
  let sync feed := sync_service_events "studio:services" "studio:events" (Some 86400) 5000 demo_url_policy None
    (fetch_feed "feed" feed 0) 1 2 0 demo_healthy in
  let feed := demo_feed ["c5"; "c4"; "c3"; "c2"; "c1"] in
  let '(d1, x1) := runP (sync feed) demo_start in
  let '(d2, x2) := runP (sync feed) d1 in
  x1 = Ok tt /\ x2 = Ok tt /\ recorded_ids d2 = ["-"; "-"; "-"; "c4"; "c5"].
Proof. vm_compute. done. Qed.

Definition listed_ids (x : result event_list) : list (option string) :=
  match x with Ok l => map ce_event_id (el_items l) | Raise _ => [] end.
Definition demo_envelope (id time : string) : envelope :=
  Envelope "a" PUSH (ServiceEvent id "t" "status.ok" SOURCE_STATUS None (Some time) (Some id) None None []).

(** A connection that fails between the record of an event and its history loses the event: a retry takes it for a
    duplicate, and no listing shows it. *)
Lemma interrupted_insert_loses_event :
  let insert := insert_event "e" (Some 60) 100 0 (demo_envelope "x" "2024-01-01T00:00:00Z") in
  let '(d1, _, x1) := insert (∅ : db) [None; None; Some (Refused (runtime_error "reset"))] in
  let '(d2, x2) := runP insert d1 in
  let '(_, x3) := runP (list_service_events "e" 100 0 "a" (EventQuery None None None None None) None 10) d2 in
  is_ok x1 = false /\ x2 = Ok false /\ listed_ids x3 = [].
Proof. vm_compute. done. Qed.

(** An event that comes again after its record has expired is listed twice: the history, which later events keep
    alive, still has its first entry. *)
Lemma reinserted_event_listed_twice :
  let insert t e := insert_event "e" (Some 60) 100 (t * second) e in
  let '(d1, x1) := runP (insert 0 (demo_envelope "x" "2024-01-01T00:00:00Z")) (∅ : db) in
  let '(d2, x2) := runP (insert 50 (demo_envelope "y" "2024-01-01T00:00:50Z")) d1 in
  let '(d3, x3) := runP (insert 61 (demo_envelope "x" "2024-01-01T00:00:00Z")) d2 in
  let '(_, x4) := runP (list_service_events "e" 100 (61 * second) "a" (EventQuery None None None None None) None 10) d3 in
  x1 = Ok true /\ x2 = Ok true /\ x3 = Ok true /\ listed_ids x4 = [Some "y"; Some "x"; Some "x"].
Proof. vm_compute. done. Qed.
