(* ===== verification/PgTables.v ===== *)
(** * The PostgreSQL tables of Studio (studio/database.py)

    The rows that the repositories of [database.py] share, and transactions over
    them: a transaction that raises leaves no trace.  Transactions take effect
    one after another: those that write the same rows wait for each other's locks
    (row locks, advisory locks and unique indexes).  Text compares by a collation
    of the database; a [jsonb] document is kept up to the order of its keys. *)

From stdpp Require Import countable.
From S2P Require Import Prelude PyStr PySort PyVal PyTime EventFeed StudioTime Registry StudioEvents.
From Stdlib Require Import Sorted.

(** A row of [studio_services]. *)
Record registry_row := RegistryRow { rr_record : ServiceRecord; rr_deleted : option Z }.

(** A row of [studio_service_search_projections]. *)
Record service_projection := ServiceProjection {
  spr_id : string; spr_name : string; spr_environment : string; spr_tags : list string; spr_status : string;
  spr_health_status : option string; spr_base_url : string; spr_auth_mode : string; spr_last_seen_at : option Z }.

(** A row of [studio_task_search_projections]. *)
Record task_projection := TaskProjection {
  tpr_service_id : string; tpr_task_id : string; tpr_service_name : string; tpr_environment : string;
  tpr_correlation_id : option string; tpr_status : option string; tpr_stage : option string;
  tpr_first_seen_at : option Z; tpr_last_seen_at : option Z; tpr_latest_event_type : option string;
  tpr_latest_event_at : option Z; tpr_latest_ingested_at : option Z; tpr_detail_path : string;
  tpr_expires_at : option Z; tpr_source : option string }.

(** A row of [studio_events]: the event, its two times as instants, and when it expires. *)
Record event_row := EventRow { er_id : Z; er_event : control_event; er_timestamp : option Z; er_ingested : Z; er_expires : option Z }.

(** A row of [studio_outbox]. *)
Record outbox_row := OutboxRow {
  ob_id : Z; ob_channel : string; ob_payload : control_event; ob_dedupe : string; ob_available : Z;
  ob_delivered : option Z; ob_attempts : Z; ob_error : option string }.

(** A row of [studio_operator_audit_log]: action, target type, target and details. *)
Record audit_row := AuditRow { ar_action : string; ar_target_type : string; ar_target : string; ar_details : pydict }.

(** A row of [studio_service_health_current] or of its history. *)
Record health_row := HealthRow { hr_service_id : string; hr_overall_status : string; hr_checked_at : Z; hr_document : pydict }.

(** The tables, and the next ids of the events and the messages. *)
Record pg := Pg {
  pg_services : gmap string registry_row; pg_service_docs : gmap string service_projection;
  pg_tasks : gmap (string * string) task_projection; pg_profiles : gmap string pydict;
  pg_events : list event_row; pg_outbox : list outbox_row; pg_cursors : gmap string string;
  pg_next_event : Z; pg_next_message : Z; pg_audit : list audit_row; pg_health : gmap string health_row;
  pg_health_history : list health_row }.

Definition with_services s (p : pg) : pg :=
  Pg s (pg_service_docs p) (pg_tasks p) (pg_profiles p) (pg_events p) (pg_outbox p) (pg_cursors p) (pg_next_event p) (pg_next_message p) (pg_audit p) (pg_health p) (pg_health_history p).
Definition with_docs d (p : pg) : pg :=
  Pg (pg_services p) d (pg_tasks p) (pg_profiles p) (pg_events p) (pg_outbox p) (pg_cursors p) (pg_next_event p) (pg_next_message p) (pg_audit p) (pg_health p) (pg_health_history p).
Definition with_tasks t (p : pg) : pg :=
  Pg (pg_services p) (pg_service_docs p) t (pg_profiles p) (pg_events p) (pg_outbox p) (pg_cursors p) (pg_next_event p) (pg_next_message p) (pg_audit p) (pg_health p) (pg_health_history p).
Definition with_events e n (p : pg) : pg :=
  Pg (pg_services p) (pg_service_docs p) (pg_tasks p) (pg_profiles p) e (pg_outbox p) (pg_cursors p) n (pg_next_message p) (pg_audit p) (pg_health p) (pg_health_history p).
Definition with_outbox o n (p : pg) : pg :=
  Pg (pg_services p) (pg_service_docs p) (pg_tasks p) (pg_profiles p) (pg_events p) o (pg_cursors p) (pg_next_event p) n (pg_audit p) (pg_health p) (pg_health_history p).
Definition with_cursors c (p : pg) : pg :=
  Pg (pg_services p) (pg_service_docs p) (pg_tasks p) (pg_profiles p) (pg_events p) (pg_outbox p) c (pg_next_event p) (pg_next_message p) (pg_audit p) (pg_health p) (pg_health_history p).
Definition with_audit a (p : pg) : pg :=
  Pg (pg_services p) (pg_service_docs p) (pg_tasks p) (pg_profiles p) (pg_events p) (pg_outbox p) (pg_cursors p) (pg_next_event p) (pg_next_message p) a (pg_health p) (pg_health_history p).

Definition with_health h l (p : pg) : pg :=
  Pg (pg_services p) (pg_service_docs p) (pg_tasks p) (pg_profiles p) (pg_events p) (pg_outbox p) (pg_cursors p) (pg_next_event p) (pg_next_message p)
    (pg_audit p) h l.

Definition empty_pg : pg := Pg ∅ ∅ ∅ ∅ [] [] ∅ 1 1 [] ∅ [].

(** ** Transactions *)

Definition T (A : Type) : Type := pg -> result (A * pg).
#[export] Instance T_ret : MRet T := fun A a p => Ok (a, p).
#[export] Instance T_bind : MBind T := fun A B f m p => match m p with Ok (a, p') => f a p' | Raise e => Raise e end.

Definition gets {A} (f : pg -> A) : T A := fun p => Ok (f p, p).
Definition modify (f : pg -> pg) : T unit := fun p => Ok (tt, f p).
Definition raise {A} (e : exn) : T A := fun _ => Raise e.

(** [async with self.database.transaction()]: a transaction that raises is rolled back. *)
Definition transaction {A} (m : T A) (p : pg) : pg * result A :=
  match m p with Ok (a, p') => (p', Ok a) | Raise e => (p, Raise e) end.

(** [try: m except IntegrityError as e: h(e)] around a transaction. *)
Definition on_integrity_error {A} (h : exn -> result A) (x : pg * result A) : pg * result A :=
  match x with
  | (p, Raise e) => if String.eqb (exn_type e) "IntegrityError" then (p, h e) else (p, Raise e)
  | x => x
  end.

Definition integrity_error (text : string) : exn := Exn XUser "IntegrityError" text.
Definition data_error : exn := Exn XUser "DataError" "value too long for type character varying".

(** A text in a [varchar(n)] column. *)
Definition fits (n : Z) (s : string) : bool := Z.of_nat (String.length s) <=? n.
Definition opt_fits (n : Z) (s : option string) : bool := match s with Some s => fits n s | None => true end.

(** [_append_audit], studio/database.py:510-527. *)
Definition append_audit (action target_type target : string) (details : pydict) : T unit :=
  modify (fun p => with_audit (pg_audit p ++ [AuditRow action target_type target details]) p).

(** [_iso_or_none], studio/database.py:437-438. *)
Definition iso_or_none (t : option Z) : option string := isoformat_z <$> t.

(** [_optional_text], studio/database.py:2085-2089. *)
Definition optional_text (v : pyval) : option string := match v with PNone => None | v => nonempty (strip (py_str v)) end.

(** ** Lemmas *)

Lemma NoDup_filter_map {A B} (f : A -> B) (p : A -> bool) l : NoDup (map f l) -> NoDup (map f (List.filter p l)).
Proof.
  induction l as [|x l IH]; [done|]. cbn. intros [Hn Hl]%NoDup_cons. destruct (p x); [|by apply IH]. cbn. constructor; [|by apply IH].
  intros (y & Hy & Hin)%list_elem_of_fmap. apply Hn. rewrite Hy. apply (list_elem_of_fmap_2 f).
  apply list_elem_of_In, filter_In in Hin as [Hin _]. by apply list_elem_of_In.
Qed.

Lemma transaction_ok {A} (m : T A) p a p' : m p = Ok (a, p') -> transaction m p = (p', Ok a).
Proof. unfold transaction. by intros ->. Qed.

Lemma fst_on_integrity_error {A} (h : exn -> result A) x : (on_integrity_error h x).1 = x.1.
Proof. destruct x as [q [a|e]]; cbn; [done|by case_match]. Qed.

Lemma transaction_raise {A} (m : T A) p e : m p = Raise e -> transaction m p = (p, Raise e).
Proof. unfold transaction. by intros ->. Qed.

(** A collation: a total order of texts, which tells apart those that differ. *)
Class Collation (c : string -> string -> bool) : Prop := {
  collation_total a b : c a b = true \/ c b a = true;
  collation_trans x y z : c x y = true -> c y z = true -> c x z = true;
  collation_antisym a b : c a b = true -> c b a = true -> a = b }.

(** By code points: the collation C. *)
#[export] Instance code_points : Collation String.leb.
Proof.
  split.
  - apply String.leb_total.
  - apply leb_trans_str.
  - apply String.leb_antisym.
Qed.

(** By a text, then by [next]. *)
Definition collate_by {A} (c : string -> string -> bool) (key : A -> string) (next : A -> A -> bool) (x y : A) : bool :=
  if String.eqb (key x) (key y) then next x y else c (key x) (key y).

Section collate.
Context {A} c `{Collation c} (key : A -> string) (next : A -> A -> bool).

Lemma collate_total x y : (next x y = true \/ next y x = true) -> collate_by c key next x y = true \/ collate_by c key next y x = true.
Proof.
  unfold collate_by. rewrite (String.eqb_sym (key y)). destruct (String.eqb_spec (key x) (key y)); [done|]. intros _. apply collation_total.
Qed.

Lemma collate_trans x y z : (next x y = true -> next y z = true -> next x z = true) ->
  collate_by c key next x y = true -> collate_by c key next y z = true -> collate_by c key next x z = true.
Proof.
  unfold collate_by. intros Hn. destruct (String.eqb_spec (key x) (key y)) as [->|Hxy]; [by destruct (String.eqb_spec (key y) (key z))|].
  destruct (String.eqb_spec (key y) (key z)) as [<-|Hyz]; [by destruct (String.eqb_spec (key x) (key y))|]. intros H1 H2.
  destruct (String.eqb_spec (key x) (key z)) as [E|Hxz]; [|by eapply collation_trans].
  destruct Hxy. apply collation_antisym; [done|by rewrite E].
Qed.

Lemma collate_antisym x y : collate_by c key next x y = true -> collate_by c key next y x = true ->
  key x = key y /\ next x y = true /\ next y x = true.
Proof.
  unfold collate_by. rewrite (String.eqb_sym (key y)). destruct (String.eqb_spec (key x) (key y)) as [|Hne]; [done|]. intros H1 H2.
  by destruct Hne; apply collation_antisym.
Qed.
End collate.

(** ** Pages by position

    A page that starts after a row is read by comparing positions, not by
    counting rows.  Where positions are distinct, the rows before an anchor are
    those that follow it in the whole list. *)


Lemma filter_elem {A} (p : A -> bool) l x : x ∈ List.filter p l <-> x ∈ l /\ p x = true.
Proof. by rewrite !list_elem_of_In, filter_In. Qed.

Lemma list_filter_permutation {A} (p : A -> bool) l l' : Permutation l l' -> Permutation (List.filter p l) (List.filter p l').
Proof. induction 1 as [|x l l' H IH|x y l|? ? ? ? IH1 ? IH2]; cbn; repeat case_match; try done; try constructor; auto; by etrans. Qed.

Lemma filter_sorted {A} (R : A -> A -> Prop) (p : A -> bool) l : StronglySorted R l -> StronglySorted R (List.filter p l).
Proof.
  induction 1 as [|x l Hl IH Hx]; cbn; [constructor|]. case_match; [|done]. constructor; [done|]. apply Forall_forall. intros y [Hy _]%filter_elem.
  rewrite Forall_forall in Hx. by apply Hx.
Qed.

Lemma filter_all {A} (p : A -> bool) l : (forall x, x ∈ l -> p x = true) -> List.filter p l = l.
Proof. induction l as [|x l IH]; [done|]. cbn. intros H. rewrite (H x ltac:(left)), IH; [done|]. intros y Hy. apply H. by right. Qed.
Lemma filter_none {A} (p : A -> bool) l : (forall x, x ∈ l -> p x = false) -> List.filter p l = [].
Proof. induction l as [|x l IH]; [done|]. cbn. intros H. rewrite (H x ltac:(left)), IH; [done|]. intros y Hy. apply H. by right. Qed.

Section keyset.
Context {A : Type} (le : A -> A -> bool).
Hypothesis le_total : forall a b, le a b = true \/ le b a = true.
Hypothesis le_trans : forall a b c, le a b = true -> le b c = true -> le a c = true.

(** Newest first. *)
Definition newest_first (l : list A) : list A := sort_by (fun a b => le b a) l.

(** Distinct rows have distinct positions. *)
Definition distinct_on (l : list A) : Prop := NoDup l /\ forall x y, x ∈ l -> y ∈ l -> le x y = true -> le y x = true -> x = y.

Lemma distinct_filter p l : distinct_on l -> distinct_on (List.filter p l).
Proof.
  intros [Hn Ha]. split; [|intros x y [Hx _]%filter_elem [Hy _]%filter_elem; by apply Ha]. clear Ha.
  induction Hn as [|x l Hx Hn IH]; cbn; [constructor|]. case_match; [|done]. constructor; [|done]. by rewrite filter_elem; intros [? _].
Qed.

Lemma newest_elem l x : x ∈ newest_first l <-> x ∈ l.
Proof. apply sort_by_elem. Qed.

Lemma newest_sorted l : StronglySorted (fun a b => le b a = true) (newest_first l).
Proof. apply (sort_by_sorted (fun a b => le b a)); [intros a b; destruct (le_total a b); auto|intros a b c H1 H2; exact (le_trans c b a H2 H1)]. Qed.

(** Sorting what a test keeps. *)
Lemma newest_filter p l : distinct_on l -> newest_first (List.filter p l) = List.filter p (newest_first l).
Proof.
  intros [Hn Ha]. apply (StronglySorted_unique_strong (fun a b => le b a = true)).
  - intros x y Hx Hy H1 H2. apply (newest_elem (List.filter p l)), filter_elem in Hx as [Hx _]. apply filter_elem in Hy as [Hy _]. apply (newest_elem l) in Hy. by apply Ha.
  - apply newest_sorted.
  - apply filter_sorted, newest_sorted.
  - unfold newest_first. rewrite sort_by_permutation. apply list_filter_permutation. by rewrite sort_by_permutation.
Qed.

(** The rows before an anchor. *)
Lemma after_anchor l pre a post : distinct_on l -> newest_first l = (pre ++ a :: post)%list ->
  newest_first (List.filter (fun x => negb (le a x)) l) = post.
Proof.
  intros Hd E. rewrite newest_filter by done. destruct Hd as [Hn Ha]. pose proof (newest_sorted l) as Hs.
  assert (NoDup (newest_first l)) as Hn' by (unfold newest_first; by rewrite sort_by_permutation).
  assert (forall x, x ∈ newest_first l -> x ∈ l) as Hin by (intros x Hx; by apply (newest_elem l)). rewrite E in *.
  apply NoDup_app in Hn' as (_ & _ & Hn'). apply NoDup_cons in Hn' as [Hna _]. rewrite List.filter_app. cbn.
  destruct (le_total a a) as [Haa|Haa]; rewrite Haa; cbn.
  all: apply StronglySorted_app in Hs as (Hpre & _ & Hs); apply StronglySorted_cons in Hs as [Hpost _]; rewrite Forall_forall in Hpost.
  all: rewrite filter_none, filter_all; [done| |].
  all: intros x Hx.
  1,3: apply negb_true_iff; destruct (le a x) eqn:E'; [|done]; destruct Hna; replace a with x; [done|]; symmetry; apply Ha; [..|done|by apply Hpost];
       apply Hin, elem_of_app; right; apply elem_of_cons; [by left|by right].
  all: apply negb_false_iff, (Hpre x a); [done|by left].
Qed.
End keyset.
