(* ===== verification/PgRegistry.v ===== *)
(** * The registry in PostgreSQL (studio/database.py)

    [PostgresServiceRegistryStore]: a deleted service keeps its row; a unique
    index over the rows that are not deleted keeps base URLs apart.  Each change
    also updates what the search shows of the service and of its tasks, in the
    same transaction. *)

From S2P Require Import Prelude PyStr PySort PyVal PyTime StudioTime Registry RegistrySpec PgTables.

(** ** Observability profiles *)

(** [_CONFIGS], studio/_observability_profiles.py:35-35: the configurations of a record, by provider. *)
Definition provider_configs (r : ServiceRecord) : list (string * option provider_config) :=
  [("loki", sr_log_config r); ("prometheus", sr_metrics_config r); ("tempo", sr_trace_config r)].

Definition profile_id (c : option provider_config) : option string :=
  match c with
  | Some c => match dget "profile_id" (pc_fields c) with Some (PStr s) => nonempty s | _ => None end
  | None => None
  end.

Definition profile_missing : exn := Exn XUser "HTTPException" "The selected observability profile no longer exists.".
Definition profile_mismatch : exn := Exn XUser "HTTPException" "The observability profile must match the service provider and environment.".

(** [_effective], studio/_observability_profiles.py:135-141: a configuration with the endpoint of its profile. *)
Definition effective (provider : string) (profile : pydict) (c : provider_config) : provider_config :=
  ProviderConfig (match dgetv "base_url" profile with PStr s => s | _ => pc_base_url c end)
    (if String.eqb provider "prometheus" then pc_fields c else dset "tenant_id" (dgetv "tenant_id" profile) (pc_fields c)).

(** [_validate_profile_bindings], studio/_observability_profiles.py:124-131: one configuration. *)
Definition bind_config (profiles : gmap string pydict) (r : ServiceRecord) (provider : string) (c : option provider_config) :
    result (option provider_config) :=
  match profile_id c, c with
  | Some id, Some config =>
      match profiles !! ("observability-profile:v1:" +:+ id) with
      | None | Some [] => Raise profile_missing
      | Some profile =>
          (* [_check_binding] *)
          if bool_decide (dgetv "provider" profile = PStr provider) && bool_decide (dgetv "environment" profile = PStr (sr_environment r))
          then Ok (Some (effective provider profile config)) else Raise profile_mismatch
      end
  | _, _ => Ok c
  end.

(** [_validate_profile_bindings], studio/_observability_profiles.py:113-132. *)
Definition validate_profile_bindings (r : ServiceRecord) : T ServiceRecord := fun p =>
  log_config ← bind_config (pg_profiles p) r "loki" (sr_log_config r);
  metrics_config ← bind_config (pg_profiles p) r "prometheus" (sr_metrics_config r);
  trace_config ← bind_config (pg_profiles p) r "tempo" (sr_trace_config r);
  Ok ({| sr_id := sr_id r; sr_name := sr_name r; sr_base_url := sr_base_url r; sr_environment := sr_environment r; sr_tags := sr_tags r;
         sr_auth_mode := sr_auth_mode r; sr_status := sr_status r; sr_capabilities := sr_capabilities r; sr_last_seen_at := sr_last_seen_at r;
         sr_log_config := log_config; sr_metrics_config := metrics_config; sr_trace_config := trace_config; sr_health := sr_health r |}, p).

(** ** Rows *)

(** [_service_values], studio/database.py:530-546, and [_service_from_row]: the columns keep a record but for its health. *)
Definition stored_record (r : ServiceRecord) : ServiceRecord :=
  {| sr_id := sr_id r; sr_name := sr_name r; sr_base_url := sr_base_url r; sr_environment := sr_environment r; sr_tags := sr_tags r;
     sr_auth_mode := sr_auth_mode r; sr_status := sr_status r; sr_capabilities := sr_capabilities r; sr_last_seen_at := sr_last_seen_at r;
     sr_log_config := sr_log_config r; sr_metrics_config := sr_metrics_config r; sr_trace_config := sr_trace_config r; sr_health := None |}.

(** A record that the columns can hold. *)
Definition storable (r : ServiceRecord) : bool := fits 255 (sr_name r) && fits 128 (sr_environment r) && fits 64 (sr_auth_mode r).

Definition is_live (row : registry_row) : bool := match rr_deleted row with None => true | Some _ => false end.

(** Another live row has the environment and the base URL. *)
Definition url_conflict (services : gmap string registry_row) (id : string) (r : ServiceRecord) : bool :=
  existsb (fun kv : string * registry_row =>
    negb (String.eqb kv.1 id) && is_live kv.2 && String.eqb (sr_environment (rr_record kv.2)) (sr_environment r)
    && String.eqb (sr_base_url (rr_record kv.2)) (sr_base_url r)) (map_to_list services).

(** The statement that writes a row under an id. *)
Definition write_service (id : string) (r : ServiceRecord) : T unit := fun p =>
  if negb (storable r) then Raise data_error
  else if url_conflict (pg_services p) id r
  then Raise (integrity_error "duplicate key value violates unique constraint uq_studio_services_active_environment_base_url")
  else Ok (tt, with_services (<[id := RegistryRow (stored_record r) None]> (pg_services p)) p).

(** [_upsert_service_projection], studio/database.py:571-581: the columns of a service; its health is another writer's. *)
Definition project_service (r : ServiceRecord) (existing : option service_projection) : service_projection :=
  ServiceProjection (sr_id r) (sr_name r) (sr_environment r) (sr_tags r) (status_value (sr_status r))
    (existing ≫= spr_health_status) (sr_base_url r) (sr_auth_mode r) (sr_last_seen_at r).

Definition rename_task (r : ServiceRecord) (t : task_projection) : task_projection :=
  if String.eqb (tpr_service_id t) (sr_id r)
  then TaskProjection (tpr_service_id t) (tpr_task_id t) (sr_name r) (sr_environment r) (tpr_correlation_id t) (tpr_status t) (tpr_stage t)
         (tpr_first_seen_at t) (tpr_last_seen_at t) (tpr_latest_event_type t) (tpr_latest_event_at t) (tpr_latest_ingested_at t)
         (tpr_detail_path t) (tpr_expires_at t) (tpr_source t)
  else t.

(** [_upsert_service_projection], studio/database.py:568-604. *)
Definition upsert_service_projection (r : ServiceRecord) (update_task_metadata : bool) : T unit :=
  _ ← modify (fun p => with_docs (<[sr_id r := project_service r (pg_service_docs p !! sr_id r)]> (pg_service_docs p)) p);
  if update_task_metadata then modify (fun p => with_tasks (rename_task r <$> pg_tasks p) p) else mret tt.

(** ** The store *)

Definition url_details (r : ServiceRecord) : pydict := [("environment", PStr (sr_environment r)); ("base_url", PStr (sr_base_url r))].

(** [PostgresServiceRegistryStore.create], studio/database.py:613-641: the transaction. *)
Definition create_tx (r : ServiceRecord) : T ServiceRecord :=
  r ← validate_profile_bindings r;
  existing ← gets (fun p => pg_services p !! sr_id r);
  match existing with
  | Some row =>
      if is_live row then raise (duplicate_service ("Service '" +:+ sr_id r +:+ "' is already registered."))
      else write_service (sr_id r) r
  | None => write_service (sr_id r) r
  end ;;
  upsert_service_projection r true ;;
  append_audit "service.create" "service" (sr_id r) (url_details r) ;;
  mret r.

(** [PostgresServiceRegistryStore.create], studio/database.py:611-649. *)
Definition create (r : ServiceRecord) (p : pg) : pg * result ServiceRecord :=
  on_integrity_error (fun e =>
      if contains "environment" (lower (exn_text e)) || contains "base_url" (lower (exn_text e)) then Raise (url_taken r)
      else Raise (duplicate_service ("Service '" +:+ sr_id r +:+ "' is already registered.")))
    (transaction (create_tx r) p).

(** [PostgresServiceRegistryStore.get], studio/database.py:660-671. *)
Definition get (id : string) (p : pg) : option ServiceRecord :=
  match pg_services p !! id with Some row => if is_live row then Some (rr_record row) else None | None => None end.

(** [PostgresServiceRegistryStore.update], studio/database.py:675-711: the transaction. *)
Definition update_tx (id : string) (r : ServiceRecord) : T ServiceRecord :=
  r ← validate_profile_bindings r;
  existing ← gets (get id);
  match existing with
  | None => raise (service_not_found id)
  | Some old =>
      write_service id r ;;
      upsert_service_projection r (negb (String.eqb (sr_name old) (sr_name r)) || negb (String.eqb (sr_environment old) (sr_environment r))) ;;
      append_audit "service.update" "service" id (url_details r ++ [("status", PStr (status_value (sr_status r)))]) ;;
      mret r
  end.

(** [PostgresServiceRegistryStore.update], studio/database.py:673-717. *)
Definition update (id : string) (r : ServiceRecord) (p : pg) : pg * result ServiceRecord :=
  on_integrity_error (fun _ => Raise (url_taken r)) (transaction (update_tx id r) p).

(** [PostgresServiceRegistryStore.delete], studio/database.py:719-731, without the load profiles of the service. *)
Definition delete_tx (now : Z) (id : string) : T unit :=
  existing ← gets (fun p => pg_services p !! id);
  match existing with
  | Some (RegistryRow r None) =>
      modify (fun p => with_services (<[id := RegistryRow r (Some now)]> (pg_services p)) p) ;;
      modify (fun p => with_docs (base.delete id (pg_service_docs p)) p) ;;
      modify (fun p => with_tasks (filter (fun kv => kv.1.1 <> id) (pg_tasks p)) p) ;;
      append_audit "service.delete" "service" id []
  | _ => raise (service_not_found id)
  end.
Definition delete (now : Z) (id : string) (p : pg) : pg * result unit := transaction (delete_tx now id) p.

Section listing.
(** The collation of the database, and its lower-casing. *)
Context (collation : string -> string -> bool).

(** [PostgresServiceRegistryStore.list_records], studio/database.py:656-656: its order. *)
Definition pg_record_le : ServiceRecord -> ServiceRecord -> bool :=
  collate_by collation sr_environment (collate_by collation (fun r => lower (sr_name r)) (fun a b => collation (sr_id a) (sr_id b))).

(** [PostgresServiceRegistryStore.list_records], studio/database.py:651-658. *)
Definition list_records (p : pg) : list ServiceRecord :=
  sort_by pg_record_le (map rr_record (List.filter is_live (map snd (map_to_list (pg_services p))))).
End listing.

(** ** The registry in PostgreSQL refines the same specification

    The services that are not deleted are the map of [RegistrySpec]: the two
    stores of the registry give the same answers, but for the order of listings,
    which is that of the database's collation. *)


Section refinement.
Context (collation : string -> string -> bool) `{!Collation collation}.

(** What two services may not share here. *)
Definition pg_key (r : ServiceRecord) : string * string := (sr_environment r, sr_base_url r).

(** A request to the store, at a time; the answers of [RegistrySpec]. *)
Definition pg_perform (now : Z) (c : request) (p : pg) : pg * result outcome :=
  match c with
  | Create r => let (p', x) := create r p in (p', _ ← x; Ok Done)
  | Get id => (p, Ok (Found (get id p)))
  | Update r => let (p', x) := update (sr_id r) r p in (p', _ ← x; Ok Done)
  | Delete id => let (p', x) := delete now id p in (p', _ ← x; Ok Done)
  | ListAll => (p, Ok (Listed (list_records collation p)))
  end.

Fixpoint pg_run (l : list (Z * request)) (p : pg) : pg * list (result outcome) :=
  match l with
  | [] => (p, [])
  | (now, c) :: l => let (p1, x) := pg_perform now c p in let (p2, xs) := pg_run l p1 in (p2, x :: xs)
  end.

(** The request for what the columns keep. *)
Definition stored_request (c : request) : request :=
  match c with Create r => Create (stored_record r) | Update r => Update (stored_record r) | c => c end.

(** A record that the columns hold, and whose configurations name no profile. *)
Definition acceptable (r : ServiceRecord) : Prop :=
  storable r = true /\ Forall (fun kv : string * option provider_config => profile_id kv.2 = None) (provider_configs r).
Definition request_ok (c : request) : Prop := match c with Create r | Update r => acceptable r | _ => True end.

Notation spec_step := (spec_step pg_key (pg_record_le collation)).
Notation run_spec := (run_spec pg_key (pg_record_le collation)).

(** The services that are not deleted. *)
Definition live_services (p : pg) : gmap string ServiceRecord :=
  omap (fun row => if is_live row then Some (rr_record row) else None) (pg_services p).
Definition own_ids (p : pg) : Prop := forall id row, pg_services p !! id = Some row -> sr_id (rr_record row) = id.

Lemma live_lookup p id : live_services p !! id = get id p.
Proof. unfold live_services, get. rewrite lookup_omap. by destruct (pg_services p !! id). Qed.

Lemma unbound_profiles r p : acceptable r -> validate_profile_bindings r p = Ok (r, p).
Proof.
  intros [_ H]. unfold provider_configs in H. repeat setoid_rewrite Forall_cons in H. destruct H as (H1 & H2 & H3 & _). cbn in H1, H2, H3.
  unfold validate_profile_bindings, bind_config. rewrite H1, H2, H3. by destruct r.
Qed.

Lemma conflict_used p r : own_ids p -> url_conflict (pg_services p) (sr_id r) r = true <-> url_used pg_key (live_services p) r.
Proof.
  intros Hown. unfold url_conflict, url_used, map_Exists. rewrite existsb_elem. split.
  - intros ([id row] & Hin & Ht). apply elem_of_map_to_list in Hin. cbn [fst snd] in Ht. bool_to_prop. exists id, (rr_record row).
    rewrite live_lookup. unfold get, pg_key. rewrite Hin. split; [by destruct (is_live row)|]. split; [done|]. by f_equal.
  - intros (id & x & Hx & Hne & Hk). rewrite live_lookup in Hx. unfold get in Hx. destruct (pg_services p !! id) as [row|] eqn:E; [|done].
    destruct (is_live row) eqn:El; [|done]. injection Hx as <-. exists (id, row). split; [by apply elem_of_map_to_list|]. cbn [fst snd].
    injection Hk as -> ->. rewrite El, !String.eqb_refl. apply String.eqb_neq in Hne. by rewrite Hne.
Qed.

(** A record is written unless another service has its URL. *)
Lemma write_service_spec r p : own_ids p -> storable r = true ->
  write_service (sr_id r) r p = if decide (url_used pg_key (live_services p) r)
    then Raise (integrity_error "duplicate key value violates unique constraint uq_studio_services_active_environment_base_url")
    else Ok (tt, with_services (<[sr_id r := RegistryRow (stored_record r) None]> (pg_services p)) p).
Proof.
  intros Hown Hs. unfold write_service. rewrite Hs. cbn [negb]. pose proof (conflict_used p r Hown) as Hc.
  destruct (url_conflict _ _ _); destruct (decide _) as [Hu|Hu]; try done; [|]; exfalso; [by apply Hu, Hc|by apply Hc in Hu].
Qed.

(** The state after a record was written, whatever else changed. *)
Lemma written p p' r : own_ids p -> pg_services p' = <[sr_id r := RegistryRow (stored_record r) None]> (pg_services p) ->
  own_ids p' /\ live_services p' = <[sr_id r := stored_record r]> (live_services p).
Proof.
  intros Hown E. unfold own_ids, live_services. rewrite E. split.
  - intros id row. destruct (decide (id = sr_id r)) as [->|Hne]; [rewrite lookup_insert_eq; by intros [= <-]|rewrite lookup_insert_ne by done; apply Hown].
  - by apply omap_insert_Some.
Qed.

Definition related (p : pg) (m : gmap string ServiceRecord) : Prop := own_ids p /\ live_services p = m.

Definition pg_refines (now : Z) (c : request) : Prop := forall p m, related p m -> request_ok c ->
  related (pg_perform now c p).1 (spec_step m (stored_request c)).1 /\ (pg_perform now c p).2 = (spec_step m (stored_request c)).2.

Lemma used_stored m r : url_used pg_key m (stored_record r) <-> url_used pg_key m r.
Proof. done. Qed.

Lemma pg_create_refines now r : pg_refines now (Create r).
Proof.
  intros p m [Hown <-] Hok. pose proof Hok as [Hs _]. cbn [stored_request RegistrySpec.spec_step]. change (sr_id (stored_record r)) with (sr_id r).
  rewrite live_lookup. unfold pg_perform, create, transaction, create_tx, mbind, T_bind, mret, T_ret. cbv beta. rewrite (unbound_profiles _ _ Hok). unfold gets, get.
  pose proof (write_service_spec r p Hown Hs) as Hw.
  destruct (pg_services p !! sr_id r) as [row|] eqn:E; [destruct (is_live row) eqn:El|].
  1: by split.
  all: rewrite Hw; destruct (decide (url_used pg_key (live_services p) r)) as [Hu|Hu];
    destruct (decide (url_used pg_key (live_services p) (stored_record r))) as [Hu'|Hu']; try (by destruct (Hu' Hu)); try (by destruct (Hu Hu')).
  all: try (by split).
  all: cbn; by (destruct (written p (with_services (<[sr_id r := RegistryRow (stored_record r) None]> (pg_services p)) p) r Hown eq_refl)).
Qed.

Lemma upsert_projection_spec r b p : exists p', upsert_service_projection r b p = Ok (tt, p') /\ pg_services p' = pg_services p.
Proof. destruct b; eexists; split; by cbn. Qed.

Lemma pg_update_refines now r : pg_refines now (Update r).
Proof.
  intros p m [Hown <-] Hok. pose proof Hok as [Hs _]. cbn [stored_request RegistrySpec.spec_step]. change (sr_id (stored_record r)) with (sr_id r).
  rewrite live_lookup. unfold pg_perform, update, transaction, update_tx, mbind, T_bind, mret, T_ret. cbv beta. rewrite (unbound_profiles _ _ Hok). unfold gets.
  destruct (get (sr_id r) p) as [old|] eqn:E; [|by split]. rewrite (write_service_spec r p Hown Hs).
  destruct (decide (url_used pg_key (live_services p) r)) as [Hu|Hu];
    destruct (decide (url_used pg_key (live_services p) (stored_record r))) as [Hu'|Hu']; try (by destruct (Hu' Hu)); try (by destruct (Hu Hu')).
  { by split. }
  destruct (upsert_projection_spec r (negb (sr_name old =? sr_name r)%string || negb (sr_environment old =? sr_environment r)%string)
    (with_services (<[sr_id r := RegistryRow (stored_record r) None]> (pg_services p)) p)) as (p' & -> & Ep).
  cbn. by destruct (written p p' r Hown Ep).
Qed.

Lemma pg_delete_refines now id : pg_refines now (Delete id).
Proof.
  intros p m [Hown <-] _. cbn [stored_request RegistrySpec.spec_step]. rewrite live_lookup. unfold pg_perform, delete, transaction, delete_tx, get, mbind, T_bind, gets.
  destruct (pg_services p !! id) as [[r [t|]]|] eqn:E; [by split| |by split]. cbn. split; [|done]. split.
  - intros i row. cbn. destruct (decide (i = id)) as [->|Hne]; [rewrite lookup_insert_eq; intros [= <-]; by apply (Hown id (RegistryRow r None))|].
    rewrite lookup_insert_ne by done. apply Hown.
  - unfold live_services. cbn. by apply omap_insert_None.
Qed.

Lemma pg_record_le_total a b : pg_record_le collation a b = true \/ pg_record_le collation b a = true.
Proof. unfold pg_record_le. apply collate_total; [done|]. apply collate_total; [done|]. apply collation_total. Qed.

Lemma pg_record_le_trans a b c : pg_record_le collation a b = true -> pg_record_le collation b c = true -> pg_record_le collation a c = true.
Proof. unfold pg_record_le. apply collate_trans; [done|]. apply collate_trans; [done|]. apply collation_trans. Qed.

Lemma pg_record_le_id a b : pg_record_le collation a b = true -> pg_record_le collation b a = true -> sr_id a = sr_id b.
Proof.
  unfold pg_record_le. intros H1 H2. destruct (collate_antisym _ _ _ _ _ H1 H2) as (_ & H3 & H4).
  destruct (collate_antisym _ _ _ _ _ H3 H4) as (_ & H5 & H6). by apply collation_antisym.
Qed.

Lemma live_rows_ids (l : list (string * registry_row)) : NoDup (map fst l) -> (forall kv, kv ∈ l -> sr_id (rr_record kv.2) = kv.1) ->
  NoDup (map rr_record (List.filter is_live (map snd l))) /\
  forall r, r ∈ map rr_record (List.filter is_live (map snd l)) <-> (sr_id r, RegistryRow r None) ∈ l.
Proof.
  induction l as [|[id [r d]] l IH]; intros Hnd Hid; [split; [constructor|]; intros r; cbn; by rewrite !elem_of_nil|]. cbn in Hnd. apply NoDup_cons in Hnd as [Hn Hnd].
  destruct IH as [IH1 IH2]; [done|intros kv Hkv; apply Hid; by right|]. pose proof (Hid (id, RegistryRow r d) ltac:(left)) as Hr. cbn in Hr.
  destruct d as [t|]; cbn.
  - split; [done|]. intros r'. rewrite IH2, elem_of_cons. split; [by right|]. by intros [[=]|?].
  - split.
    + constructor; [|done]. rewrite IH2. intros Hin. apply Hn. rewrite <- Hr. by apply (list_elem_of_fmap_2 fst) in Hin.
    + intros r'. rewrite !elem_of_cons, IH2. split; intros [H|H]; [left; subst r'; by rewrite Hr|by right|left; by injection H|by right].
Qed.

Lemma pg_list_refines now : pg_refines now ListAll.
Proof.
  intros p m [Hown <-] _. split; [done|]. cbn. do 3 f_equal. unfold list_records, services_of.
  destruct (live_rows_ids (map_to_list (pg_services p))) as [Hnd Hin].
  { apply NoDup_fst_map_to_list. }
  { intros [id row] Hrow. apply elem_of_map_to_list in Hrow. by apply Hown. }
  assert (forall id r, live_services p !! id = Some r -> sr_id r = id) as Hid.
  { intros id r. rewrite live_lookup. unfold get. destruct (pg_services p !! id) as [row|] eqn:E; [|done]. destruct (is_live row); [|done].
    intros [= <-]. by apply Hown. }
  assert (forall r, r ∈ map snd (map_to_list (live_services p)) <-> live_services p !! sr_id r = Some r) as Hin2.
  { intros r. rewrite list_elem_of_fmap. split.
    - intros ([id r'] & -> & H). apply elem_of_map_to_list in H. cbn. by rewrite (Hid _ _ H).
    - intros H. exists (sr_id r, r). split; [done|]. by apply elem_of_map_to_list. }
  apply (sort_by_canonical _ pg_record_le_total pg_record_le_trans).
  - apply NoDup_Permutation; [done| |].
    + apply (NoDup_fmap_1 sr_id). rewrite <- list_fmap_compose.
      replace (sr_id ∘ snd <$> map_to_list (live_services p)) with (map_to_list (live_services p)).*1; [apply NoDup_fst_map_to_list|].
      apply list_fmap_ext. intros i [id r] H. apply list_elem_of_lookup_2, elem_of_map_to_list in H. cbn. by rewrite (Hid _ _ H).
    + intros r. rewrite Hin, Hin2, elem_of_map_to_list, live_lookup. unfold get.
      destruct (pg_services p !! sr_id r) as [[r' [d|]]|]; cbn; naive_solver.
  - intros x y Hx Hy H1 H2. apply Hin, elem_of_map_to_list in Hx, Hy. pose proof (pg_record_le_id _ _ H1 H2) as E.
    rewrite E in Hx. by simplify_eq.
Qed.

Lemma pg_request_refines now c : pg_refines now c.
Proof.
  destruct c as [r|id|r|id|]; [apply pg_create_refines| |apply pg_update_refines|apply pg_delete_refines|apply pg_list_refines].
  intros p m [Hown <-] _. split; [done|]. cbn. by rewrite live_lookup.
Qed.

End refinement.

(** ** Witness *)

(** The service that was deleted comes back; the base URL is free in the meantime. *)
Definition demo_pg_requests : list (Z * request) :=
  [(0, Create (demo_service "a" "http://a.test")); (1, Create (demo_service "b" "http://a.test")); (2, Delete "a");
   (3, Create (demo_service "b" "http://a.test")); (4, Create (demo_service "a" "http://a.test")); (5, Create (demo_service "a" "http://c.test"));
   (6, Get "a"); (7, ListAll)].


Example pg_registry_demo : (pg_run String.leb demo_pg_requests empty_pg).2 =
  [Ok Done; Raise (url_taken (demo_service "b" "http://a.test")); Ok Done; Ok Done; Raise (url_taken (demo_service "a" "http://a.test"));
   Ok Done; Ok (Found (Some (demo_service "a" "http://c.test")));
   Ok (Listed [demo_service "a" "http://c.test"; demo_service "b" "http://a.test"])].
Proof. vm_compute. reflexivity. Qed.
