(* ===== verification/PgEvents.v ===== *)
(** * The event store in PostgreSQL (studio/database.py)

    [PostgresStudioEventStore] stores an event, what the search shows of its
    task, and the messages that announce it in one transaction; [relay_once] of
    [PostgresOutboxRelay] publishes the messages.  [PostgresStudioSearchStore]
    reads the pages of a task search. *)

From stdpp Require Import countable.
From S2P Require Import Prelude PyStr PyVal PySort PyTime StudioTime Json Sha256 Redis EventFeed StudioEvents Registry Search PgTables PgRegistry.

(** ** Storing an event *)

Definition opt_max (l : list Z) : option Z := foldr (fun t acc => Some (match acc with Some m => Z.max t m | None => t end)) None l.

Definition same_task (s t : string) (row : event_row) : bool :=
  String.eqb (ce_service_id (er_event row)) s && String.eqb (ce_task_id (er_event row)) t.

(** A row with the deduplication key, or with the service, the kind of source and the event id. *)
Definition event_conflict (n : control_event) (row : event_row) : bool :=
  String.eqb (ce_dedupe_key (er_event row)) (ce_dedupe_key n) ||
  (String.eqb (ce_service_id (er_event row)) (ce_service_id n) && bool_decide (ce_source_kind (er_event row) = ce_source_kind n)
   && match ce_event_id n with Some id => bool_decide (ce_event_id (er_event row) = Some id) | None => false end).

(** The columns of an event of bounded length. *)
Definition event_fits (n : control_event) : bool :=
  fits 128 (ce_event_type n) && opt_fits 255 (ce_component n) && opt_fits 255 (ce_event_id n) && opt_fits 255 (ce_correlation_id n)
  && opt_fits 128 (optional_text (dgetv "status" (ce_payload n))) && opt_fits 128 (optional_text (dgetv "stage" (ce_payload n))).

(** The statement that inserts the row of an event. *)
Definition insert_event_row (n : control_event) (timestamp : option Z) (now : Z) (expires : option Z) : T unit := fun p =>
  if negb (event_fits n) then Raise data_error
  else if existsb (event_conflict n) (pg_events p) then Raise (integrity_error "duplicate key value violates unique constraint")
  else match pg_services p !! ce_service_id n with
  | None => Raise (integrity_error ("insert or update on table studio_events violates foreign key constraint: Key (service_id)=("
                     +:+ ce_service_id n +:+ ") is not present in table studio_services."))
  | Some _ => Ok (tt, with_events (EventRow (pg_next_event p) n timestamp now expires :: pg_events p) (pg_next_event p + 1) p)
  end.

(** [_upsert_task_projection], studio/database.py:773-797: the columns of a task after an event. *)
Definition project_event (now ttl_seconds : Z) (n : control_event) (name environment : string) (row : option task_projection) : task_projection :=
  let parsed_ingested := parse_timestamp (Some (ce_ingested_at n)) in
  let event_at := from_opt (from_opt now parsed_ingested) (parse_timestamp (ce_timestamp n)) in
  let ingested_at := from_opt now parsed_ingested in
  let with_old (f : Z -> Z -> Z) (old : option Z) (new : Z) := match old with Some o => f o new | None => new end in
  let latest := row ≫= tpr_latest_event_at in
  let newest := match latest with Some l => l <=? event_at | None => true end in
  let keep (v : option string) (old : task_projection -> option string) := if opt_truthy v then v else row ≫= old in
  TaskProjection (ce_service_id n) (ce_task_id n)
    (match row with Some r => tpr_service_name r | None => name end) (match row with Some r => tpr_environment r | None => environment end)
    (keep (ce_correlation_id n) tpr_correlation_id) (keep (optional_text (dgetv "status" (ce_payload n))) tpr_status)
    (keep (optional_text (dgetv "stage" (ce_payload n))) tpr_stage)
    (Some (with_old Z.min (row ≫= tpr_first_seen_at) event_at)) (Some (with_old Z.max (row ≫= tpr_last_seen_at) event_at))
    (if newest then Some (ce_event_type n) else row ≫= tpr_latest_event_type) (if newest then Some event_at else latest)
    (Some (with_old Z.max (row ≫= tpr_latest_ingested_at) ingested_at)) (detail_path (ce_service_id n) (ce_task_id n))
    (Some (now + ttl_seconds * second)) (row ≫= tpr_source).

(** [_upsert_task_projection], studio/database.py:755-810. *)
Definition upsert_task_projection (now ttl_seconds : Z) (n : control_event) (name environment : string) : T unit :=
  modify (fun p => let k := (ce_service_id n, ce_task_id n) in
    with_tasks (<[k := project_event now ttl_seconds n name environment (pg_tasks p !! k)]> (pg_tasks p)) p).

(** A message is added unless its channel has one with its key. *)
Definition with_message (now : Z) (channel : string) (n : control_event) (p : pg) : pg :=
  if existsb (fun r => String.eqb (ob_channel r) channel && String.eqb (ob_dedupe r) (ce_dedupe_key n)) (pg_outbox p) then p
  else with_outbox (pg_outbox p ++ [OutboxRow (pg_next_message p) channel n (ce_dedupe_key n) now None 0 None]) (pg_next_message p + 1) p.
Definition add_message (now : Z) (channel : string) (n : control_event) : T unit := modify (with_message now channel n).

(** What was published: channel and event. *)
Notation message := (string * control_event)%type.

Section store.
Context (collation : string -> string -> bool).
Context (prefix : string) (ttl_seconds : option Z) (history_maxlen task_index_ttl_seconds : Z).

(** [PostgresStudioEventStore.insert_event], studio/database.py:844-928: the transaction. *)
Definition insert_event_tx (now : Z) (e : envelope) : T unit :=
  let event := en_event e in
  let timestamp := parse_timestamp (sv_timestamp event) in
  let expires := match ttl_seconds with Some s => if s =? 0 then None else Some (now + s * second) | None => None end in
  latest ← gets (fun p => opt_max (omap er_timestamp (List.filter (same_task (en_service_id e) (sv_task_id event)) (pg_events p))));
  let out_of_order := match timestamp, latest with Some t, Some l => t <? l | _, _ => false end in
  let n := normalized_event now e out_of_order in
  insert_event_row n timestamp now expires ;;
  service ← gets (fun p => pg_services p !! en_service_id e);
  let service := rr_record <$> service in
  upsert_task_projection now task_index_ttl_seconds n (from_opt "" (sr_name <$> service)) (from_opt "" (sr_environment <$> service)) ;;
  add_message now (service_channel prefix (en_service_id e)) n ;;
  add_message now (task_channel prefix (en_service_id e) (sv_task_id event)) n.

(** [PostgresStudioEventStore.insert_event], studio/database.py:837-933. *)
Definition insert_event (now : Z) (e : envelope) (p : pg) : pg * result bool :=
  on_integrity_error (fun x => if contains "dedupe" (lower (exn_text x)) || contains "unique" (lower (exn_text x)) then Ok false else Raise x)
    (transaction (insert_event_tx now e ;; mret true) p).

(** ** Listing *)

(** [_event_from_row], studio/database.py:734-752. *)
Definition event_from_row (row : event_row) : control_event :=
  let e := er_event row in
  {| ce_service_id := ce_service_id e; ce_method := ce_method e; ce_ingested_at := isoformat_z (er_ingested row);
     ce_dedupe_key := ce_dedupe_key e; ce_out_of_order := ce_out_of_order e; ce_task_id := ce_task_id e;
     ce_event_type := ce_event_type e; ce_source_kind := ce_source_kind e; ce_component := ce_component e;
     ce_timestamp := ce_timestamp e; ce_event_id := ce_event_id e; ce_correlation_id := ce_correlation_id e;
     ce_parent_task_id := ce_parent_task_id e; ce_payload := ce_payload e |}.

(** [event_order_time]: a minimum for a missing timestamp. *)
Definition order_time (row : event_row) : Z := from_opt datetime_min (er_timestamp row).

(** The tuple of a row is at most that of another: time, then ingestion, then key. *)
Definition row_le (a b : event_row) : bool :=
  if order_time a =? order_time b then
    if er_ingested a =? er_ingested b then collation (ce_dedupe_key (er_event a)) (ce_dedupe_key (er_event b))
    else er_ingested a <? er_ingested b
  else order_time a <? order_time b.

(** [PostgresStudioEventStore._list], studio/database.py:982-1040: over the rows that match the filters. *)
Definition page_rows (rows : list event_row) (before : option string) (limit : Z) : result event_list :=
  let anchor := match before with
                | Some b => if String.eqb b "" then None else find_first (fun r => String.eqb (ce_dedupe_key (er_event r)) b) rows
                | None => None
                end in
  let rows := match anchor with Some a => List.filter (fun r => negb (row_le a r)) rows | None => rows end in
  if limit + 1 <? 0 then Raise (Exn XUser "DBAPIError" "LIMIT must not be negative")
  else
    let fetched := take (Z.to_nat (limit + 1)) (sort_by (fun a b => row_le b a) rows) in
    let items := map event_from_row (take (Z.to_nat limit) fetched) in
    Ok (EventList (Z.of_nat (length items)) items
      (if (limit <? Z.of_nat (length fetched)) then ce_dedupe_key <$> last items else None)).

(** The newest ids of the rows that are there. *)
Definition newest_rows (rows : list event_row) : list event_row := take (Z.to_nat (Z.max 1 history_maxlen)) rows.

(** [func.coalesce(events.c.event_timestamp, events.c.ingested_at)] *)
Definition filter_time (row : event_row) : Z := from_opt (er_ingested row) (er_timestamp row).

(** A bound of the time range: an empty one is none, and one that is no time makes the statement fail. *)
Definition time_bound (t : option string) : result (option Z) :=
  if opt_truthy t then match parse_timestamp t with Some z => Ok (Some z) | None => Raise (Exn XUser "ArgumentError" "None") end else Ok None.

(** [PostgresStudioEventStore.list_service_events], studio/database.py:951-962: its filters. *)
Definition row_matches (q : event_query) (from_time to_time : option Z) (r : event_row) : bool :=
  opt_is (eq_task_id q) (ce_task_id (er_event r)) && opt_is (eq_source_kind q) (ce_source_kind (er_event r))
  && opt_is (eq_event_type q) (ce_event_type (er_event r))
  && match from_time with Some t => t <=? filter_time r | None => true end
  && match to_time with Some t => filter_time r <=? t | None => true end.

Definition of_service (s : string) (r : event_row) : bool := String.eqb (ce_service_id (er_event r)) s.

(** [PostgresStudioEventStore.list_service_events], studio/database.py:935-963. *)
Definition list_service_events (s : string) (q : event_query) (before : option string) (limit : Z) (p : pg) : result event_list :=
  from_time ← time_bound (eq_from q);
  to_time ← time_bound (eq_to q);
  page_rows (List.filter (row_matches q from_time to_time) (newest_rows (List.filter (of_service s) (pg_events p)))) before limit.

(** [PostgresStudioEventStore.list_task_events], studio/database.py:965-980. *)
Definition list_task_events (s t : string) (before : option string) (limit : Z) (p : pg) : result event_list :=
  page_rows (newest_rows (List.filter (same_task s t) (pg_events p))) before limit.

(** [PostgresStudioEventStore.get_pull_cursor], studio/database.py:1042-1044. *)
Definition get_pull_cursor (s : string) (p : pg) : option string := pg_cursors p !! s.

(** [PostgresStudioEventStore.set_pull_cursor], studio/database.py:1046-1055. *)
Definition set_pull_cursor (s cursor : string) : T unit := fun p =>
  match pg_services p !! s with
  | None => Raise (integrity_error "violates foreign key constraint")
  | Some _ => Ok (tt, with_cursors (<[s := cursor]> (pg_cursors p)) p)
  end.

(** [PostgresStudioEventStore.get_service_activity_snapshot], studio/database.py:1057-1075. *)
Definition get_service_activity_snapshot (s : string) (p : pg) : activity_snapshot :=
  let mine := List.filter (of_service s) (pg_events p) in
  let newest k := opt_max (omap er_timestamp (List.filter (fun r => bool_decide (ce_source_kind (er_event r) = k)) mine)) in
  ActivitySnapshot s (iso_or_none (newest SOURCE_STATUS)) (iso_or_none (newest SOURCE_OBSERVATION)) (iso_or_none (opt_max (map er_ingested mine))).

(** [PostgresStudioEventStore.prune_expired], studio/database.py:1077-1092: the events and the messages; the events removed. *)
Definition prune_expired (now : Z) : T Z := fun p =>
  let expired r := match er_expires r with Some t => t <=? now | None => false end in
  let old r := match ob_delivered r with Some t => t <=? now - 7 * 86400 * second | None => false end in
  Ok (Z.of_nat (length (List.filter expired (pg_events p))),
      with_outbox (List.filter (fun r => negb (old r)) (pg_outbox p)) (pg_next_message p)
        (with_events (List.filter (fun r => negb (expired r)) (pg_events p)) (pg_next_event p) p)).

(** ** Health *)

(** [PostgresStudioHealthStore.set_health], studio/database.py:1472-1501. *)
Definition set_health (row : health_row) : T unit := fun p =>
  match pg_services p !! hr_service_id row with
  | None => Raise (integrity_error "violates foreign key constraint")
  | Some _ =>
      let show d := ServiceProjection (spr_id d) (spr_name d) (spr_environment d) (spr_tags d) (spr_status d) (Some (hr_overall_status row))
                      (spr_base_url d) (spr_auth_mode d) (spr_last_seen_at d) in
      Ok (tt, with_docs (alter show (hr_service_id row) (pg_service_docs p))
                (with_health (<[hr_service_id row := row]> (pg_health p)) (pg_health_history p ++ [row]) p))
  end.

(** ** The relay of messages *)

(** [min(60, 2 ** min(attempts, 6))] *)
Definition retry_delay (attempts : Z) : Z := Z.min 60 (2 ^ Z.min attempts 6).

(** [PostgresOutboxRelay.relay_once], studio/database.py:1873-1895: one row, whose message is refused by an exception or
    published. *)
Definition relay_row (now : Z) (refused : option exn) (r : outbox_row) : outbox_row :=
  let attempts := ob_attempts r + 1 in
  match refused with
  | Some e => OutboxRow (ob_id r) (ob_channel r) (ob_payload r) (ob_dedupe r) (now + retry_delay attempts * second) (ob_delivered r) attempts
                (Some (of_chars (take 2000 (chars (exn_text e)))))
  | None => OutboxRow (ob_id r) (ob_channel r) (ob_payload r) (ob_dedupe r) (ob_available r) (Some now) attempts None
  end.

Definition pending (r : outbox_row) : bool := match ob_delivered r with None => true | Some _ => false end.

(** [PostgresOutboxRelay.relay_once], studio/database.py:1860-1871: the rows of a pass, by id (the table is in that order);
    those that another relay holds are skipped. *)
Definition relay_batch (batch_size : nat) (now : Z) (locked : Z -> bool) (rows : list outbox_row) : list outbox_row :=
  take batch_size (List.filter (fun r => pending r && (ob_available r <=? now) && negb (locked (ob_id r))) rows).

(** The rows of a pass with what becomes of them. *)
Definition relayed (now : Z) (answer : Z -> option exn) (batch : list outbox_row) (r : outbox_row) : outbox_row :=
  if existsb (fun b => ob_id b =? ob_id r) batch then relay_row now (answer (ob_id r)) r else r.

(** [PostgresOutboxRelay.relay_once], studio/database.py:1858-1896: the tables, what was published, and how many rows.  The
    messages are out before the transaction is committed. *)
Definition relay_once (batch_size : nat) (now : Z) (locked : Z -> bool) (answer : Z -> option exn) (commits : bool)
    (w : pg * list message) : (pg * list message) * result Z :=
  let '(p, out) := w in
  let batch := relay_batch batch_size now locked (pg_outbox p) in
  let accepted := List.filter (fun r => match answer (ob_id r) with None => true | Some _ => false end) batch in
  let out' := (out ++ map (fun r => (ob_channel r, ob_payload r)) accepted)%list in
  if commits then ((with_outbox (map (relayed now answer batch) (pg_outbox p)) (pg_next_message p) p, out'), Ok (Z.of_nat (length accepted)))
  else ((p, out'), Raise (Exn XUser "OperationalError" "commit failed")).

(** ** Searching tasks *)

(** [_task_from_row], studio/database.py:1413-1430. *)
Definition task_from_row (t : task_projection) : TaskDocument :=
  {| td_service_id := tpr_service_id t; td_service_name := tpr_service_name t; td_environment := tpr_environment t;
     td_task_id := tpr_task_id t; td_correlation_id := tpr_correlation_id t; td_status := tpr_status t; td_stage := tpr_stage t;
     td_first_seen_at := iso_or_none (tpr_first_seen_at t); td_last_seen_at := iso_or_none (tpr_last_seen_at t);
     td_latest_event_type := tpr_latest_event_type t; td_latest_event_at := iso_or_none (tpr_latest_event_at t);
     td_latest_ingested_at := iso_or_none (tpr_latest_ingested_at t); td_detail_path := tpr_detail_path t;
     td_expires_at := iso_or_none (tpr_expires_at t); td_source := tpr_source t |}.

Definition seen (t : task_projection) : Z := from_opt datetime_min (tpr_last_seen_at t).

(** The tuple of a task is at most another one: last seen, then service, then task. *)
Definition position_le (a b : Z * string * string) : bool :=
  let '(ta, sa, ka) := a in let '(tb, sb, kb) := b in
  if ta =? tb then if String.eqb sa sb then collation ka kb else collation sa sb else ta <? tb.
Definition position (t : task_projection) : Z * string * string := (seen t, tpr_service_id t, tpr_task_id t).

Context (pf : string -> pyfloat).

(** [PostgresStudioSearchStore._search_task_page], studio/database.py:1109-1125: the filters of a query. *)
Definition task_matches (now : Z) (q : task_query) (from_time to_time : option Z) (t : task_projection) : bool :=
  match tpr_expires_at t with Some e => now <? e | None => true end
  && forallb (fun f : option string * option string => match f.1 with Some v => bool_decide (f.2 = Some v) | None => true end)
       [(normalize_optional_string (tq_service_id q), Some (tpr_service_id t)); (normalize_optional_string (tq_task_id q), Some (tpr_task_id t));
        (normalize_optional_string (tq_correlation_id q), tpr_correlation_id t); (normalize_optional_string (tq_status q), tpr_status t);
        (normalize_optional_string (tq_stage q), tpr_stage t)]
  && match from_time with Some z => match tpr_last_seen_at t with Some s => z <=? s | None => false end | None => true end
  && match to_time with Some z => match tpr_last_seen_at t with Some s => s <=? z | None => false end | None => true end.

Definition search_bound (name : string) (v : option string) : result (option Z) :=
  if opt_truthy v then
    match parse_timestamp v with
    | Some z => Ok (Some z)
    | None => Raise (value_error ("Invalid '" +:+ name +:+ "' timestamp. Use an ISO 8601 datetime."))
    end
  else Ok None.

(** [PostgresStudioSearchStore._search_task_page], studio/database.py:1129-1140: the boundary of a cursor. *)
Definition search_boundary (cursor : option string) : result (option (Z * string * string)) :=
  if opt_truthy cursor then
    boundary ← decode_cursor pf (from_opt "" cursor);
    match dget "last_seen_at" boundary, dget "service_id" boundary, dget "task_id" boundary with
    | Some seen, Some s, Some t =>
        if bool_decide (dom (list_to_map boundary : gmap string string) = {["last_seen_at"; "service_id"; "task_id"]})
        then Ok (Some (from_opt datetime_min (parse_timestamp (Some seen)), s, t))
        else Raise (value_error "Invalid cursor.")
    | _, _, _ => Raise (value_error "Invalid cursor.")
    end
  else Ok None.

(** [PostgresStudioSearchStore._search_task_page], studio/database.py:1102-1155. *)
Definition search_task_page (now : Z) (q : task_query) (p : pg) : result (list TaskDocument * option string) :=
  from_time ← search_bound "from" (tq_from q);
  to_time ← search_bound "to" (tq_to q);
  boundary ← search_boundary (tq_cursor q);
  let rows := List.filter (task_matches now q from_time to_time) (map snd (map_to_list (pg_tasks p))) in
  let rows := match boundary with Some b => List.filter (fun t => negb (position_le b (position t))) rows | None => rows end in
  let limit := Z.to_nat (Z.max 1 (tq_limit q)) in
  let documents := map task_from_row (take (limit + 1) (sort_by (fun a b => position_le (position b) (position a)) rows)) in
  let page := take limit documents in
  Ok (page, if (length page <? length documents)%nat then encode_cursor ∘ task_cursor <$> last page else None).
End store.

(** [PostgresStudioSearchStore._prune_expired_task_documents], studio/database.py:1262-1285: the batches remove every row that
    expired before the pass, less those that others hold. *)
Definition prune_tasks (now : Z) (locked : string * string -> bool) : T unit :=
  modify (fun p => with_tasks (filter (fun kv => negb (match tpr_expires_at kv.2 with Some t => t <=? now | None => false end) || locked kv.1 = true) (pg_tasks p)) p).
