(* ===== verification/PgHistory.v ===== *)
(** * Histories of the tables in PostgreSQL

    What the replicas of Studio do to the tables, one transaction after the
    other: registrations, insertions of events, relays and retention. *)

From stdpp Require Import countable.
From S2P Require Import Prelude PyStr PyVal EventFeed StudioEvents Registry RegistrySpec PgTables PgRegistry PgEvents.

Section history.
Context (collation : string -> string -> bool) (prefix : string) (ttl_seconds : option Z) (task_index_ttl_seconds : Z) (batch_size : nat).
Notation insert_event := (insert_event prefix ttl_seconds task_index_ttl_seconds).
Notation W := (pg * list message)%type.

Inductive pg_op :=
| OpRegistry (now : Z) (c : request)
| OpInsert (now : Z) (e : envelope)
| OpCursor (service cursor : string)
| OpHealth (row : health_row)
| OpPrune (now : Z)
| OpPruneTasks (now : Z) (locked : string * string -> bool)
| OpRelay (now : Z) (locked : Z -> bool) (answer : Z -> option exn) (commits : bool).

Definition pg_step (w : W) (op : pg_op) : W :=
  let '(p, out) := w in
  match op with
  | OpRegistry now c => ((pg_perform collation now c p).1, out)
  | OpInsert now e => ((insert_event now e p).1, out)
  | OpCursor s c => ((transaction (set_pull_cursor s c) p).1, out)
  | OpHealth row => ((transaction (set_health row) p).1, out)
  | OpPrune now => ((transaction (prune_expired now) p).1, out)
  | OpPruneTasks now locked => ((transaction (prune_tasks now locked) p).1, out)
  | OpRelay now locked answer commits => (relay_once batch_size now locked answer commits w).1
  end.
Definition pg_history (l : list pg_op) : W := foldl pg_step (empty_pg, []) l.

(** The envelopes that were inserted. *)
Definition inserts (w : W) (op : pg_op) : list envelope :=
  match op with
  | OpInsert now e => match (insert_event now e w.1).2 with Ok true => [e] | _ => [] end
  | _ => []
  end.
Fixpoint inserted_from (w : W) (l : list pg_op) : list envelope :=
  match l with [] => [] | op :: l => inserts w op ++ inserted_from (pg_step w op) l end.
Definition inserted (l : list pg_op) : list envelope := inserted_from (empty_pg, []) l.

Definition op_time (op : pg_op) : Z :=
  match op with OpRegistry now _ | OpInsert now _ | OpPrune now | OpPruneTasks now _ | OpRelay now _ _ _ => now | _ => 0 end.
End history.

(** ** What transactions leave as it was *)

Section keeps.
(** Something that is read from the tables. *)
Context {B : Type} (f : pg -> B).

Definition keeps {A} (m : T A) : Prop := forall p a p', m p = Ok (a, p') -> f p' = f p.

Lemma keeps_transaction {A} (m : T A) p : keeps m -> f (transaction m p).1 = f p.
Proof. unfold transaction. intros Hm. destruct (m p) as [[a p']|e] eqn:E; cbn; [by eapply Hm|done]. Qed.

Lemma T_keeps_bind {A A'} (m : T A) (k : A -> T A') : keeps m -> (forall a, keeps (k a)) -> keeps (m ≫= k).
Proof.
  intros Hm Hk p b p'. unfold mbind, T_bind. destruct (m p) as [[a p1]|e] eqn:E; [|done]. intros E'. by rewrite (Hk _ _ _ _ E'), (Hm _ _ _ E).
Qed.
Lemma T_keeps_ret {A} (a : A) : keeps (mret a).
Proof. by intros p b p' [= _ <-]. Qed.
Lemma keeps_gets {A} (g : pg -> A) : keeps (gets g).
Proof. by intros p b p' [= _ <-]. Qed.
Lemma keeps_raise {A} e : keeps (raise (A := A) e).
Proof. by intros p b p' [=]. Qed.
Lemma T_keeps_modify g : (forall p, f (g p) = f p) -> keeps (modify g).
Proof. intros Hf p b p' [= _ <-]. apply Hf. Qed.
Lemma keeps_validate r : keeps (validate_profile_bindings r).
Proof. intros p a p' E. unfold validate_profile_bindings in E. do 3 (apply result_bind_ok in E as (? & _ & E)). by injection E as _ <-. Qed.

(** The registry writes four tables. *)
Hypothesis f_services : forall s p, f (with_services s p) = f p.
Hypothesis f_docs : forall d p, f (with_docs d p) = f p.
Hypothesis f_tasks : forall t p, f (with_tasks t p) = f p.
Hypothesis f_audit : forall a p, f (with_audit a p) = f p.

Lemma keeps_write id r : keeps (write_service id r).
Proof. intros p a p'. unfold write_service. repeat case_goal; try done. intros [= _ <-]. apply f_services. Qed.

Ltac keeps := repeat first
  [ apply T_keeps_bind; [|intros ?] | apply T_keeps_ret | apply keeps_gets | apply keeps_raise | apply keeps_validate | apply keeps_write
  | apply T_keeps_modify; intros ?; first [apply f_services | apply f_docs | apply f_tasks | apply f_audit] | case_match ].

Lemma keeps_create r : keeps (create_tx r).
Proof. unfold create_tx, upsert_service_projection, append_audit. keeps. Qed.
Lemma keeps_update id r : keeps (update_tx id r).
Proof. unfold update_tx, upsert_service_projection, append_audit. keeps. Qed.
Lemma keeps_delete now id : keeps (delete_tx now id).
Proof. unfold delete_tx, append_audit. keeps. Qed.

Lemma registry_keeps collation now c p : f (pg_perform collation now c p).1 = f p.
Proof.
  destruct c as [r|id|r|id|]; [|done| | |done]; cbn.
  - rewrite <- (keeps_transaction (create_tx r) p (keeps_create r)). unfold create.
    destruct (on_integrity_error _ _) as [p' x] eqn:E. apply (f_equal fst) in E. rewrite fst_on_integrity_error in E. cbn in *. by rewrite E.
  - rewrite <- (keeps_transaction (update_tx (sr_id r) r) p (keeps_update _ r)). unfold update.
    destruct (on_integrity_error _ _) as [p' x] eqn:E. apply (f_equal fst) in E. rewrite fst_on_integrity_error in E. cbn in *. by rewrite E.
  - rewrite <- (keeps_transaction (delete_tx now id) p (keeps_delete now id)). unfold delete. by destruct (transaction _ _).
Qed.
End keeps.
