(* ===== verification/OutboxSpec.v ===== *)
(** * The messages that announce events are delivered

    Events are announced on the channels of their service and of their task
    through a table of messages, which relays publish.  Whatever else happens to
    the tables, a message that was accepted with an event is published or waits
    to be, and relays that work empty the table. *)

From stdpp Require Import countable.
From S2P Require Import Prelude PyStr PyVal PySort StudioTime Redis EventFeed StudioEvents Registry RegistrySpec PgTables PgRegistry PgEvents PgHistory.

Section outbox.
Context (collation : string -> string -> bool) (prefix : string) (ttl_seconds : option Z) (task_index_ttl_seconds : Z) (batch_size : nat).
Notation insert_event := (insert_event prefix ttl_seconds task_index_ttl_seconds).
Notation pg_step := (pg_step collation prefix ttl_seconds task_index_ttl_seconds batch_size).
Notation pg_history := (pg_history collation prefix ttl_seconds task_index_ttl_seconds batch_size).
Notation inserts := (inserts prefix ttl_seconds task_index_ttl_seconds).
Notation inserted_from := (inserted_from collation prefix ttl_seconds task_index_ttl_seconds batch_size).
Notation inserted := (inserted collation prefix ttl_seconds task_index_ttl_seconds batch_size).
Notation W := (pg * list message)%type.

(** ** The messages of an event *)

Definition key_of (e : envelope) : string := event_dedupe_key (en_service_id e) (en_event e).
Definition channels (e : envelope) : list string :=
  [service_channel prefix (en_service_id e); task_channel prefix (en_service_id e) (sv_task_id (en_event e))].

(** A message of an event that was inserted. *)
Definition message_of (es : list envelope) (m : message) : Prop :=
  exists e now late, e ∈ es /\ m.1 ∈ channels e /\ m.2 = normalized_event now e late.

Definition announced (out : list message) (channel key : string) : Prop := exists n, (channel, n) ∈ out /\ ce_dedupe_key n = key.
Definition waiting (p : pg) (channel key : string) : Prop :=
  exists r, r ∈ pg_outbox p /\ pending r = true /\ ob_channel r = channel /\ ob_dedupe r = key.

Definition outbox_ids (p : pg) : list Z := map ob_id (pg_outbox p).

Record outbox_ok (es : list envelope) (told : list (string * string)) (limit : Z) (w : W) : Prop := OutboxOk {
  out_key : forall r, r ∈ pg_outbox w.1 -> ob_dedupe r = ce_dedupe_key (ob_payload r) /\ message_of es (ob_channel r, ob_payload r);
  out_done : forall r, r ∈ pg_outbox w.1 -> pending r = false -> (ob_channel r, ob_payload r) ∈ w.2;
  out_ids : NoDup (outbox_ids w.1);
  out_next : forall i, i ∈ outbox_ids w.1 -> i < pg_next_message w.1;
  out_time : forall r, r ∈ pg_outbox w.1 -> pending r = true -> ob_available r <= limit + 60 * second;
  out_told : forall c k, (c, k) ∈ told -> announced w.2 c k \/ waiting w.1 c k;
  out_true : forall m, m ∈ w.2 -> message_of es m }.

Lemma message_of_mono es es' m : es ⊆ es' -> message_of es m -> message_of es' m.
Proof. intros Hs (e & now & late & He & H). exists e, now, late. split; [by apply Hs|done]. Qed.

(** What does not touch the messages. *)
Lemma outbox_ok_frame es told limit limit' p p' out : pg_outbox p' = pg_outbox p -> pg_next_message p' = pg_next_message p -> limit <= limit' ->
  outbox_ok es told limit (p, out) -> outbox_ok es told limit' (p', out).
Proof.
  intros E1 E2 Hl [H1 H2 H3 H4 H5 H6 H7]. unfold outbox_ids, waiting in *. cbn [fst snd] in *.
  split; unfold outbox_ids, waiting; cbn [fst snd]; rewrite ?E1, ?E2; try done.
  intros r Hr Hp. specialize (H5 r Hr Hp). lia.
Qed.

Definition messages_of (p : pg) : list outbox_row * Z := (pg_outbox p, pg_next_message p).

Lemma outbox_ok_same es told limit limit' p p' out : messages_of p' = messages_of p -> limit <= limit' ->
  outbox_ok es told limit (p, out) -> outbox_ok es told limit' (p', out).
Proof. intros [= E1 E2]. by apply outbox_ok_frame. Qed.

Lemma messages_row n t now x : keeps messages_of (insert_event_row n t now x).
Proof. intros p a p'. unfold insert_event_row. repeat case_goal; try done. by intros [= _ <-]. Qed.

(** ** Storing an event *)

(** An insertion that is refused changes nothing; one that succeeds adds the messages of its event. *)
Lemma insert_cases now e p : let x := insert_event now e p in
  (x.2 <> Ok true /\ x.1 = p) \/
  (x.2 = Ok true /\ exists late p1, let n := normalized_event now e late in pg_outbox p1 = pg_outbox p /\ pg_next_message p1 = pg_next_message p /\
     x.1 = with_message now (task_channel prefix (en_service_id e) (sv_task_id (en_event e))) n (with_message now (service_channel prefix (en_service_id e)) n p1)).
Proof.
  unfold PgEvents.insert_event, transaction, insert_event_tx, gets, mbind, T_bind. cbv zeta beta.
  match goal with |- context [normalized_event now e ?b] => set (late := b) end.
  match goal with |- context [insert_event_row ?n ?t ?w ?x p] => destruct (insert_event_row n t w x p) as [[[] p1]|er] eqn:E end.
  - right. cbn. split; [done|]. apply messages_row in E as [= E1 E2]. eexists late, _. split; [|split; [|reflexivity]]; done.
  - left. cbn. repeat case_match; done.
Qed.

Lemma with_message_ok es told limit now c e late p out : outbox_ok es told limit (p, out) -> e ∈ es -> c ∈ channels e -> now <= limit ->
  outbox_ok es ((c, key_of e) :: told) limit (with_message now c (normalized_event now e late) p, out).
Proof.
  intros [H1 H2 H3 H4 H5 H6 H7] He Hc Hnow. unfold with_message. cbn [fst snd] in *. destruct (existsb _ _) eqn:E.
  - split; try done. intros c' k [[= -> ->]|Hin]%elem_of_cons; [|by apply H6]. apply existsb_elem in E as (r & Hr & Ht). bool_to_prop. subst c.
    destruct (pending r) eqn:Ep; [right; exists r; by split_and!|left]. exists (ob_payload r). destruct (H1 r Hr) as [Hk _].
    split; [by apply H2|]. by rewrite <- Hk.
  - unfold outbox_ids, waiting in *. set (new := OutboxRow _ _ _ _ _ _ _ _). split; unfold outbox_ids, waiting; cbn -[new].
    + intros r [Hr|Hr%list_elem_of_singleton]%elem_of_app; [by apply H1|subst r]. split; [done|]. by exists e, now, late.
    + intros r [Hr|Hr%list_elem_of_singleton]%elem_of_app; [by apply H2|by subst r].
    + rewrite map_app. apply NoDup_app. split; [done|]. split; [|apply NoDup_singleton].
      intros i Hi Hn%list_elem_of_singleton. subst i. specialize (H4 _ Hi). cbn in H4. lia.
    + rewrite map_app. intros i [Hi|Hi%list_elem_of_singleton]%elem_of_app; [specialize (H4 _ Hi); lia|subst i; cbn; lia].
    + intros r [Hr|Hr%list_elem_of_singleton]%elem_of_app; [by apply H5|subst r; cbn; unfold second; lia].
    + intros c' k [[= -> ->]|Hin]%elem_of_cons.
      * right. exists new. rewrite elem_of_app, list_elem_of_singleton. by split; [right|].
      * destruct (H6 c' k Hin) as [|(r & Hr & ?)]; [by left|right]. exists r. rewrite elem_of_app. by split; [left|].
    + done.
Qed.

(** What the messages of the events must be told. *)
Definition to_tell (es : list envelope) : list (string * string) := es ≫= fun e => map (fun c => (c, key_of e)) (channels e).

Lemma outbox_ok_weaken es es' told told' limit w : es ⊆ es' -> told' ⊆ told -> outbox_ok es told limit w -> outbox_ok es' told' limit w.
Proof.
  intros He Ht [H1 H2 H3 H4 H5 H6 H7]. split; try done.
  - intros r Hr. destruct (H1 r Hr). split; [done|]. by eapply message_of_mono.
  - intros c k Hin. by apply H6, Ht.
  - intros m Hm. by eapply message_of_mono, H7.
Qed.

Notation history_ok es limit w := (outbox_ok es (to_tell es) limit w).

Lemma insert_ok es limit now e p out : history_ok es limit (p, out) ->
  history_ok (es ++ inserts (p, out) (OpInsert now e)) (Z.max limit now) ((insert_event now e p).1, out).
Proof.
  intros Hok. cbn [inserts fst]. destruct (insert_cases now e p) as [[Hx ->]|(Hx & late & p1 & E1 & E2 & ->)].
  - destruct (insert_event now e p).2 as [[]|]; [done| |]; rewrite app_nil_r; by apply (outbox_ok_frame es _ limit _ p p out); [..|lia|].
  - rewrite Hx. unfold to_tell. rewrite bind_app. cbn [mbind list_bind map channels app].
    assert (outbox_ok (es ++ [e]) (to_tell es) (Z.max limit now) (p1, out)) as Hok1.
    { apply (outbox_ok_weaken es _ (to_tell es)); [set_solver|done|]. by apply (outbox_ok_frame es _ limit _ p p1 out); [..|lia|]. }
    eapply (outbox_ok_weaken _ _ (_ :: _ :: to_tell es)); [done| |apply with_message_ok; [apply with_message_ok; [exact Hok1|..]|..]].
    1: unfold to_tell; set_solver.
    1,4: set_solver.
    1,3: unfold channels; set_solver.
    all: lia.
Qed.

(** ** The relay *)

Lemma relayed_pending now answer batch r : pending (relayed now answer batch r) = true -> pending r = true.
Proof. unfold relayed. case_goal; [|done]. unfold relay_row. by destruct (answer (ob_id r)). Qed.

Lemma relayed_same now answer batch r : let r' := relayed now answer batch r in
  ob_id r' = ob_id r /\ ob_channel r' = ob_channel r /\ ob_payload r' = ob_payload r /\ ob_dedupe r' = ob_dedupe r.
Proof. unfold relayed. case_goal; [|done]. unfold relay_row. by destruct (answer (ob_id r)). Qed.

Lemma retry_delay_bound n : retry_delay n <= 60.
Proof. unfold retry_delay. lia. Qed.

(** A row whose id is in the batch, where ids are distinct, is of the batch. *)
Lemma in_batch now locked rows r batch : NoDup (map ob_id rows) -> batch = relay_batch batch_size now locked rows -> r ∈ rows ->
  existsb (fun b => ob_id b =? ob_id r) batch = true -> r ∈ batch /\ pending r = true.
Proof.
  intros Hnd -> Hr E. apply existsb_elem in E as (b & Hb & Hid). apply Z.eqb_eq in Hid.
  assert (b ∈ rows /\ pending b = true) as [Hb1 Hb2].
  { pose proof Hb as Hb'. unfold relay_batch in Hb'. apply elem_of_take in Hb' as (i & Hb' & _).
    apply list_elem_of_lookup_2, list_elem_of_In, filter_In in Hb' as [Hin Ht]. bool_to_prop. split; [by apply list_elem_of_In|done]. }
  assert (b = r) as ->; [|done]. apply list_elem_of_lookup in Hb1 as [i Hi], Hr as [j Hj].
  assert (i = j) as ->; [|congruence]. apply (NoDup_lookup (map ob_id rows) i j (ob_id b)); [done|by rewrite list_lookup_fmap, Hi|].
  rewrite list_lookup_fmap, Hj. cbn. by rewrite Hid.
Qed.

Lemma relay_ok es limit now locked answer commits p out : history_ok es limit (p, out) ->
  history_ok es (Z.max limit now) (relay_once batch_size now locked answer commits (p, out)).1.
Proof.
  intros [H1 H2 H3 H4 H5 H6 H7]. unfold relay_once. set (batch := relay_batch _ _ _ _). set (accepted := List.filter _ batch). cbn [fst snd] in *.
  assert (forall r, r ∈ accepted -> r ∈ pg_outbox p) as Hacc.
  { intros r Hr. apply list_elem_of_In, filter_In in Hr as [Hr _]. apply list_elem_of_In in Hr. unfold batch, relay_batch in Hr.
    apply elem_of_take in Hr as (i & Hr & _). apply list_elem_of_lookup_2, list_elem_of_In, filter_In in Hr as [Hr _]. by apply list_elem_of_In. }
  assert (forall m, m ∈ out ++ map (fun r => (ob_channel r, ob_payload r)) accepted -> message_of es m) as Hout.
  { intros m [Hm|(r & -> & Hr)%list_elem_of_fmap]%elem_of_app; [by apply H7|]. by apply H1, Hacc. }
  assert (forall c k, announced out c k -> announced (out ++ map (fun r => (ob_channel r, ob_payload r)) accepted) c k) as Hgrow.
  { intros c k (n & Hn & ?). exists n. rewrite elem_of_app. by split; [left|]. }
  destruct commits; cbn [fst snd].
  2: { split; cbn [fst snd]; try done; [|intros; etrans; [by apply H5|lia]|].
       - intros r Hr Hp. apply elem_of_app. left. by apply H2.
       - intros c k Hin. destruct (H6 c k Hin); [left; by apply Hgrow|by right]. }
  assert (forall r, r ∈ pg_outbox p -> pending r = true -> pending (relayed now answer batch r) = false -> r ∈ accepted) as Hdone.
  { intros r Hr Hp. unfold relayed. destruct (existsb _ batch) eqn:E; [|congruence].
    destruct (in_batch now locked _ r batch H3 eq_refl Hr E) as [Hb _]. unfold relay_row. destruct (answer (ob_id r)) eqn:Ea.
    { intros Hq. change (pending r = false) in Hq. congruence. }
    intros _. apply list_elem_of_In, filter_In. split; [by apply list_elem_of_In|]. by rewrite Ea. }
  assert (map ob_id (map (relayed now answer batch) (pg_outbox p)) = map ob_id (pg_outbox p)) as Hids.
  { rewrite map_map. apply map_ext. intros r. apply relayed_same. }
  split; unfold outbox_ids, waiting; cbn [fst snd pg_outbox pg_next_message with_outbox]; rewrite ?Hids; try done.
  - intros r' (r & -> & Hr)%list_elem_of_fmap. destruct (relayed_same now answer batch r) as (_ & -> & -> & ->). by apply H1.
  - intros r' (r & -> & Hr)%list_elem_of_fmap Hp. destruct (relayed_same now answer batch r) as (_ & -> & -> & _). apply elem_of_app.
    destruct (pending r) eqn:Epr; [right|left; by apply H2]. apply (list_elem_of_fmap_2 (fun r => (ob_channel r, ob_payload r))). by apply Hdone.
  - intros r' (r & -> & Hr)%list_elem_of_fmap Hp. pose proof (relayed_pending _ _ _ _ Hp) as Hp'. specialize (H5 r Hr Hp').
    unfold relayed, relay_row. repeat case_goal; cbn [ob_available]; try lia. pose proof (retry_delay_bound (ob_attempts r + 1)). unfold second. lia.
  - intros c k Hin. destruct (H6 c k Hin) as [Ha|(r & Hr & Hp & <- & <-)]; [left; by apply Hgrow|].
    destruct (relayed_same now answer batch r) as (_ & Hc & Hpl & Hd). destruct (pending (relayed now answer batch r)) eqn:Ep.
    + right. exists (relayed now answer batch r). rewrite Hc, Hd. split; [|done]. by apply (list_elem_of_fmap_2 (relayed now answer batch)).
    + left. exists (ob_payload r). destruct (H1 r Hr) as [-> _]. split; [|done]. apply elem_of_app. right.
      apply (list_elem_of_fmap_2 (fun r => (ob_channel r, ob_payload r))). by apply Hdone.
Qed.

(** ** Histories *)

Lemma prune_ok es limit now p out : history_ok es limit (p, out) -> history_ok es (Z.max limit now) ((transaction (prune_expired now) p).1, out).
Proof.
  intros [H1 H2 H3 H4 H5 H6 H7]. unfold transaction, prune_expired. cbn [fst snd] in *.
  set (old := fun r : outbox_row => match ob_delivered r with Some t => t <=? now - 7 * 86400 * second | None => false end).
  assert (forall r, r ∈ List.filter (fun r => negb (old r)) (pg_outbox p) -> r ∈ pg_outbox p) as Hsub.
  { intros r Hr. apply list_elem_of_In, filter_In in Hr as [Hr _]. by apply list_elem_of_In. }
  assert (forall r, r ∈ pg_outbox p -> pending r = true -> r ∈ List.filter (fun r => negb (old r)) (pg_outbox p)) as Hkeep.
  { intros r Hr Hp. apply list_elem_of_In, filter_In. split; [by apply list_elem_of_In|]. unfold old, pending in *. by destruct (ob_delivered r). }
  split; unfold outbox_ids, waiting; cbn [fst snd pg_outbox pg_next_message with_outbox]; fold old.
  - intros r Hr. by apply H1, Hsub.
  - intros r Hr. by apply H2, Hsub.
  - apply (NoDup_filter_map ob_id (fun r => negb (old r))). apply H3.
  - intros i (r & -> & Hr)%list_elem_of_fmap. apply H4. unfold outbox_ids. apply (list_elem_of_fmap_2 ob_id). by apply Hsub.
  - intros r Hr Hp. specialize (H5 r (Hsub r Hr) Hp). lia.
  - intros c k Hin. destruct (H6 c k Hin) as [|(r & Hr & Hp & ?)]; [by left|right]. exists r. split; [by apply Hkeep|done].
  - done.
Qed.

Lemma pg_step_ok es limit w op : history_ok es limit w -> history_ok (es ++ inserts w op) (Z.max limit (op_time op)) (pg_step w op).
Proof.
  destruct w as [p out]. intros Hok. destruct op as [now c|now e|s c|row|now|now locked|now locked answer commits]; cbn [pg_step inserts op_time];
    rewrite ?app_nil_r; [|by apply insert_ok| | |by apply prune_ok| |by apply relay_ok].
  - apply (outbox_ok_same es _ limit _ p); [by apply registry_keeps|lia|done].
  - apply (outbox_ok_same es _ limit _ p); [apply keeps_transaction|lia|done]. intros q a q'. unfold set_pull_cursor. case_match; [|done]. by intros [= _ <-].
  - apply (outbox_ok_same es _ limit _ p); [apply keeps_transaction|lia|done]. intros q a q'. unfold set_health. case_match; [|done]. by intros [= _ <-].
  - apply (outbox_ok_same es _ limit _ p); [apply keeps_transaction|lia|done]. by apply T_keeps_modify.
Qed.

Definition latest_time (l : list pg_op) : Z := foldl (fun t op => Z.max t (op_time op)) 0 l.

Lemma pg_history_ok l : history_ok (inserted l) (latest_time l) (pg_history l).
Proof.
  unfold inserted, latest_time, pg_history. assert (history_ok [] 0 (empty_pg, [])) as H0.
  { split; cbn; try (by intros ? ?%elem_of_nil); [constructor|by intros c k ?%elem_of_nil]. }
  revert H0. generalize (empty_pg, [] : list message), 0. change (inserted_from) with inserted_from.
  assert (forall l w es limit, history_ok es limit w -> history_ok (es ++ inserted_from w l) (foldl (fun t op => Z.max t (op_time op)) limit l) (foldl pg_step w l)) as H.
  { clear l. induction l as [|op l IH]; intros w es limit Hok; cbn; [by rewrite app_nil_r|]. rewrite app_assoc. apply IH. by apply pg_step_ok. }
  intros w limit Hok. by apply (H l w [] limit).
Qed.

(** ** The relay empties the table *)

Definition relay_pass (w : pg * list message) (now : Z) : pg * list message := (relay_once batch_size now (fun _ => false) (fun _ => None) true w).1.
Definition pending_rows (p : pg) : list outbox_row := List.filter pending (pg_outbox p).

Lemma drain now rows : forall n, NoDup (map ob_id rows) ->
  List.filter pending (map (relayed now (fun _ => None) (take n (List.filter pending rows))) rows) = drop n (List.filter pending rows).
Proof.
  induction rows as [|r rows IH]; intros n Hnd; [by destruct n|]. cbn in Hnd. apply NoDup_cons in Hnd as [Hn Hnd].
  assert (forall batch, (forall b, b ∈ batch -> b ∈ rows) -> relayed now (fun _ => None) batch r = r) as Hr.
  { intros batch Hb. unfold relayed. destruct (existsb _ _) eqn:E; [|done]. apply existsb_elem in E as (b & Hin & E). apply Z.eqb_eq in E.
    destruct Hn. rewrite <- E. by apply (list_elem_of_fmap_2 ob_id), Hb. }
  assert (forall n b, b ∈ take n (List.filter pending rows) -> b ∈ rows) as Htake.
  { intros k b (i & Hb & _)%elem_of_take. apply list_elem_of_lookup_2, list_elem_of_In, filter_In in Hb as [Hb _]. by apply list_elem_of_In. }
  cbn [List.filter map]. destruct (pending r) eqn:Ep.
  - destruct n as [|n]; cbn [take drop].
    + rewrite Hr by (by intros b ?%elem_of_nil). cbn. rewrite Ep. f_equal. exact (IH 0%nat Hnd).
    + assert (relayed now (fun _ => None) (r :: take n (List.filter pending rows)) r = relay_row now None r) as ->.
      { unfold relayed. cbn. by rewrite Z.eqb_refl. }
      cbn. rewrite <- (IH n Hnd). f_equal. apply map_ext_in. intros x Hx. unfold relayed. cbn.
      destruct (Z.eqb_spec (ob_id r) (ob_id x)) as [E|]; [|done]. destruct Hn. rewrite E. by apply (list_elem_of_fmap_2 ob_id), list_elem_of_In.
  - rewrite Hr by (by apply Htake). cbn. rewrite Ep. by apply IH.
Qed.

Lemma relay_pass_drains w now : NoDup (outbox_ids w.1) -> (forall r, r ∈ pending_rows w.1 -> ob_available r <= now) ->
  pending_rows (relay_pass w now).1 = drop batch_size (pending_rows w.1).
Proof.
  destruct w as [p out]. intros Hok Hnow. unfold relay_pass, relay_once. unfold pending_rows in *. cbn [fst pg_outbox with_outbox].
  assert (relay_batch batch_size now (fun _ => false) (pg_outbox p) = take batch_size (List.filter pending (pg_outbox p))) as ->.
  { unfold relay_batch. f_equal. apply filter_ext_in. intros r Hr%list_elem_of_In. destruct (pending r) eqn:Ep; [|done].
    cbn [andb negb]. rewrite andb_true_r. apply Z.leb_le, Hnow, list_elem_of_In, filter_In. split; [by apply list_elem_of_In|done]. }
  by apply drain.
Qed.

(** Passes that work leave the messages right and none waiting. *)
Lemma relay_passes es T passes : forall limit w, history_ok es limit w -> (forall r, r ∈ pending_rows w.1 -> ob_available r <= T) ->
  Forall (fun now => T <= now) passes -> (length (pending_rows w.1) <= length passes * batch_size)%nat ->
  exists limit', history_ok es limit' (foldl relay_pass w passes) /\ pending_rows (foldl relay_pass w passes).1 = [].
Proof.
  induction passes as [|now passes IH]; intros limit w Hok Hav Htimes Hlen.
  { exists limit. split; [done|]. cbn in *. apply length_zero_iff_nil. lia. }
  apply Forall_cons in Htimes as [Hnow Htimes].
  assert (pending_rows (relay_pass w now).1 = drop batch_size (pending_rows w.1)) as E.
  { apply relay_pass_drains; [apply Hok|]. intros r Hr. specialize (Hav r Hr). lia. }
  apply (IH (Z.max limit now)); [|..|done|].
  - destruct w as [p out]. by apply relay_ok.
  - rewrite E. intros r Hr. apply Hav. rewrite <- (take_drop batch_size (pending_rows w.1)). apply elem_of_app. by right.
  - rewrite E, length_drop. cbn in Hlen. lia.
Qed.

(** C32. Every event that is stored is announced: whatever the registrations, insertions, prunings and relays, their failures
    of publishing and of committing, and the relays that hold rows: once enough relay passes work, a minute later, each event
    that was inserted has been published to the channel of its service and to that of its task; and nothing was published
    but events that were inserted, on their channels. *)
Theorem outbox_delivers l passes : let w := pg_history l in
  Forall (fun now => latest_time l + 60 * second <= now) passes -> (length (pending_rows w.1) <= length passes * batch_size)%nat ->
  let out := (foldl relay_pass w passes).2 in
  (forall e c, e ∈ inserted l -> c ∈ channels e -> announced out c (key_of e)) /\ (forall m, m ∈ out -> message_of (inserted l) m).
Proof.
  intros w Htimes Hlen out. pose proof (pg_history_ok l) as Hok0.
  destruct (relay_passes (inserted l) (latest_time l + 60 * second) passes (latest_time l) w) as (limit & Hok & Hnone); [done| |done|done|].
  { intros r Hr. apply list_elem_of_In, filter_In in Hr as [Hr Hp]. apply (out_time _ _ _ _ Hok0); [by apply list_elem_of_In|done]. }
  split; [|apply Hok]. intros e c He Hc. destruct (out_told _ _ _ _ Hok c (key_of e)) as [|(r & Hr & Hp & _)]; [|done|].
  - unfold to_tell. apply list_elem_of_bind. exists e. split; [by apply (list_elem_of_fmap_2 (fun c => (c, key_of e)))|done].
  - assert (r ∈ pending_rows (foldl relay_pass w passes).1) as Hin by (by apply list_elem_of_In, filter_In; split; [apply list_elem_of_In|]).
    rewrite Hnone in Hin. by apply elem_of_nil in Hin.
Qed.
End outbox.

(** ** Witness and findings *)

Definition demo_pg_event (id event_type : string) : envelope :=
  Envelope "a" PUSH (ServiceEvent "c1" "t1" event_type SOURCE_STATUS None (Some "2026-01-01T00:00:00Z") (Some id) None None [("status", PStr "completed")]).
Definition demo_pg_start : list pg_op := [OpRegistry 0 (Create (demo_service "a" "http://a.test")); OpInsert 1 (demo_pg_event "e1" "status.completed")].
Definition demo_pg_ops : list pg_op :=
  demo_pg_start ++ [OpInsert 2 (demo_pg_event "e1" "status.completed"); OpRelay 3 (fun _ => false) (fun i => if i =? 1 then Some (runtime_error "reset") else None) true;
    OpInsert 4 (demo_pg_event "e2" "status.completed"); OpRelay 5 (fun _ => false) (fun _ => None) false; OpPrune 6].
Notation demo_pg_history := (pg_history String.leb "p" (Some 86400) 86400 2).

(** The event that was sent twice is stored once; one of its messages is refused and one relay is not committed. *)
Lemma outbox_delivers_witness :
  let w := demo_pg_history demo_pg_ops in let es := inserted String.leb "p" (Some 86400) 86400 2 demo_pg_ops in
  let out := (foldl (relay_pass 2) w [100 * second; 101 * second]).2 in
  map (fun e => sv_event_id (en_event e)) es = [Some "e1"; Some "e2"] /\
  (forall e c, e ∈ es -> c ∈ channels "p" e -> announced out c (key_of e)) /\ length out = 6%nat.
Proof.
  intros w es out.
  assert (length (pending_rows w.1) = 3%nat) as Hlen by (vm_compute; reflexivity).
  destruct (outbox_delivers String.leb "p" (Some 86400) 86400 2 demo_pg_ops [100 * second; 101 * second]) as [H _].
  - assert (latest_time demo_pg_ops = 6) as -> by (vm_compute; reflexivity). repeat constructor; unfold second; lia.
  - fold w. rewrite Hlen. cbn. lia.
  - split; [vm_compute; reflexivity|]. split; [exact H|vm_compute; reflexivity].
Defined.

(** An event that comes again after it expired is stored again, but its old messages are kept a week and it is not
    announced: its subscribers do not see it. *)
Lemma reinserted_event_is_silent :
  let day := 86400 * second in
  let ops := (demo_pg_start ++ [OpRelay 2 (fun _ => false) (fun _ => None) true; OpPrune (day + second); OpInsert (day + 2 * second) (demo_pg_event "e1" "status.completed")])%list in
  let w := demo_pg_history ops in
  length (inserted String.leb "p" (Some 86400) 86400 2 ops) = 2%nat /\ length w.2 = 2%nat /\ pending_rows w.1 = [] /\ length (pg_events w.1) = 1%nat.
Proof. vm_compute. repeat split. Qed.

(** An event whose type has more than 128 characters is refused by its column, and not as a duplicate or as invalid: the
    batch it is in fails, and each synchronisation that pulls it. *)
Lemma long_event_type_refused :
  let w := demo_pg_history demo_pg_start in
  (PgEvents.insert_event "p" (Some 86400) 86400 5 (demo_pg_event "e3" (of_chars (repeat (chr 120) 129))) w.1).2 = Raise data_error.
Proof. vm_compute. reflexivity. Qed.
