(* ===== verification/PgEventsSpec.v ===== *)
(** * What the searches and listings of PostgreSQL show

    The rows that a search reads follow the registry; and the pages of a listing,
    which are read by the position of a row and not by its number, are those of
    the whole list. *)

From stdpp Require Import countable.
From S2P Require Import Prelude PyStr PySort PyVal Redis PyTime EventFeed StudioTime Registry RegistrySpec StudioEvents PgTables PgRegistry PgEvents PgHistory OutboxSpec.
From Stdlib Require Import Sorted.

(** ** The projections follow the registry *)

(** What the search shows of a service is its record. *)
Definition shows_service (r : ServiceRecord) (d : service_projection) : Prop := d = project_service r (Some d).
(** What it shows of a task names its service. *)
Definition names_service (r : ServiceRecord) (t : task_projection) : Prop := tpr_service_name t = sr_name r /\ tpr_environment t = sr_environment r.

Record projections_ok (p : pg) : Prop := ProjectionsOk {
  pr_ids : own_ids p;
  pr_docs : forall id, match get id p with Some r => exists d, pg_service_docs p !! id = Some d /\ shows_service r d | None => pg_service_docs p !! id = None end;
  pr_tasks : forall k t, pg_tasks p !! k = Some t -> (tpr_service_id t, tpr_task_id t) = k /\ forall r, get k.1 p = Some r -> names_service r t }.

(** A transaction that keeps the projections right. *)
Definition keeps_projections {A} (m : T A) : Prop := forall p a p', m p = Ok (a, p') -> projections_ok p -> projections_ok p'.

Lemma projections_transaction {A} (m : T A) p : keeps_projections m -> projections_ok p -> projections_ok (transaction m p).1.
Proof. unfold transaction. intros Hm Hp. destruct (m p) as [[a p']|e] eqn:E; cbn; [by eapply Hm|done]. Qed.

(** Only these tables matter. *)
Lemma projections_frame p p' : pg_services p' = pg_services p -> pg_service_docs p' = pg_service_docs p -> pg_tasks p' = pg_tasks p ->
  projections_ok p -> projections_ok p'.
Proof. intros E1 E2 E3 [H1 H2 H3]. split; unfold own_ids, get in *; by rewrite ?E1, ?E2, ?E3. Qed.

Lemma get_insert p p' id row i : pg_services p' = <[id := row]> (pg_services p) ->
  get i p' = if decide (i = id) then (if is_live row then Some (rr_record row) else None) else get i p.
Proof. intros E. unfold get. rewrite E. destruct (decide (i = id)) as [->|Hne]; [by rewrite lookup_insert_eq|by rewrite lookup_insert_ne]. Qed.

(** The bindings change no column that the search shows. *)
Lemma validate_same r p r' p' : validate_profile_bindings r p = Ok (r', p') -> p' = p /\ sr_id r' = sr_id r.
Proof. unfold validate_profile_bindings. intros E. do 3 (apply result_bind_ok in E as (? & _ & E)). by injection E as <- <-. Qed.

Lemma write_same id r p p' : write_service id r p = Ok (tt, p') -> p' = with_services (<[id := RegistryRow (stored_record r) None]> (pg_services p)) p.
Proof. unfold write_service. repeat case_goal; try done. by intros [= <-]. Qed.

Lemma rename_names r t : tpr_service_id t = sr_id r -> names_service (stored_record r) (rename_task r t).
Proof. intros E. unfold rename_task. by rewrite E, String.eqb_refl. Qed.
Lemma rename_other r t : tpr_service_id t <> sr_id r -> rename_task r t = t.
Proof. intros E. apply String.eqb_neq in E. unfold rename_task. by rewrite E. Qed.
Lemma rename_key r t : tpr_service_id (rename_task r t) = tpr_service_id t /\ tpr_task_id (rename_task r t) = tpr_task_id t.
Proof. unfold rename_task. by case_goal. Qed.

(** A record is written and shown, and its tasks are renamed unless they have its names. *)
Lemma registered_ok r b p p' : projections_ok p ->
  (b = false -> forall t k, pg_tasks p !! k = Some t -> k.1 = sr_id r -> names_service (stored_record r) t) ->
  upsert_service_projection r b (with_services (<[sr_id r := RegistryRow (stored_record r) None]> (pg_services p)) p) = Ok (tt, p') -> projections_ok p'.
Proof.
  intros [H1 H2 H3] Hb E.
  assert (pg_services p' = <[sr_id r := RegistryRow (stored_record r) None]> (pg_services p) /\
    pg_service_docs p' = <[sr_id r := project_service r (pg_service_docs p !! sr_id r)]> (pg_service_docs p) /\
    pg_tasks p' = (if b then rename_task r <$> pg_tasks p else pg_tasks p)) as (E1 & E2 & E3) by (destruct b; cbn in E; by injection E as <-).
  split.
  - by destruct (written p p' r H1 E1).
  - intros id. rewrite (get_insert _ _ _ _ _ E1), E2. destruct (decide (id = sr_id r)) as [->|Hne]; [|rewrite lookup_insert_ne by done; apply H2].
    cbn. rewrite lookup_insert_eq. eexists. split; [done|]. by unfold shows_service, project_service.
  - intros k t. rewrite (get_insert _ _ _ _ _ E1), E3. intros Ht.
    destruct b.
    + rewrite lookup_fmap in Ht. destruct (pg_tasks p !! k) as [t0|] eqn:Et; [|done]. injection Ht as <-. destruct (H3 k t0 Et) as [Hk Hn].
      destruct (rename_key r t0) as [-> ->]. split; [done|]. intros r'. destruct (decide (k.1 = sr_id r)) as [Ek|Ek].
      * intros [= <-]. apply rename_names. rewrite <- Ek, <- Hk. done.
      * intros Hr. rewrite rename_other; [by apply Hn|]. intros E'. apply Ek. by rewrite <- E', <- Hk.
    + destruct (H3 k t Ht) as [Hk Hn]. split; [done|]. intros r'. destruct (decide (k.1 = sr_id r)) as [Ek|Ek]; [intros [= <-]; by eapply Hb|apply Hn].
Qed.

Lemma create_projections r : keeps_projections (create_tx r).
Proof.
  intros p a p' E Hok. unfold create_tx, mbind, T_bind in E. destruct (validate_profile_bindings r p) as [[r1 p1]|] eqn:Ev; [|done].
  apply validate_same in Ev as [-> Eid]. unfold gets in E.
  assert (forall m : T unit, m p = write_service (sr_id r1) r1 p -> match m p with Ok (_, q) =>
     match upsert_service_projection r1 true q with Ok (_, q') => projections_ok q' | Raise _ => True end | Raise _ => True end) as Hw.
  { intros m ->. destruct (write_service (sr_id r1) r1 p) as [[[] q]|] eqn:Ew; [|done]. apply write_same in Ew as ->.
    destruct (upsert_service_projection _ _ _) as [[[] q]|] eqn:Eu; [|done]. by apply (registered_ok r1 true p q). }
  specialize (Hw (match pg_services p !! sr_id r1 with
     | Some row => if is_live row then raise (duplicate_service ("Service '" +:+ sr_id r1 +:+ "' is already registered.")) else write_service (sr_id r1) r1
     | None => write_service (sr_id r1) r1 end)).
  destruct (pg_services p !! sr_id r1) as [row|]; [destruct (is_live row); [done|]|]; specialize (Hw eq_refl);
    (destruct (write_service _ _ _) as [[[] q]|]; [|done]); (destruct (upsert_service_projection _ _ _) as [[[] q']|]; [|done]);
    cbn in E; injection E as _ <-; by apply (projections_frame q').
Qed.

Lemma update_projections r : keeps_projections (update_tx (sr_id r) r).
Proof.
  intros p a p' E Hok. unfold update_tx, mbind, T_bind in E. destruct (validate_profile_bindings r p) as [[r1 p1]|] eqn:Ev; [|done].
  apply validate_same in Ev as [-> Eid]. unfold gets in E. destruct (get (sr_id r) p) as [old|] eqn:Eg; [|done]. rewrite <- Eid in *.
  destruct (write_service _ _ _) as [[[] q]|] eqn:Ew; [|done]. apply write_same in Ew as ->.
  destruct (upsert_service_projection _ _ _) as [[[] q]|] eqn:Eu; [|done]. cbn in E. injection E as _ <-.
  apply (projections_frame q); [done..|]. eapply registered_ok; [done| |exact Eu]. intros Hb t k Ht Hk.
  apply orb_false_iff in Hb as [Hb1 Hb2]. bool_to_prop. destruct (pr_tasks p Hok k t Ht) as [_ Hn]. rewrite Hk in Hn. destruct (Hn _ Eg) as [E1 E2]. split; cbn; congruence.
Qed.

Lemma delete_projections now id : keeps_projections (delete_tx now id).
Proof.
  intros p a p' E [H1 H2 H3]. unfold delete_tx, mbind, T_bind, gets in E. destruct (pg_services p !! id) as [[r [d|]]|] eqn:Eid; [done| |done].
  cbn in E. injection E as _ <-. set (p' := with_audit _ _). assert (pg_services p' = <[id := RegistryRow r (Some now)]> (pg_services p)) as E1 by done.
  split.
  - intros i row. rewrite E1. destruct (decide (i = id)) as [->|Hne]; [rewrite lookup_insert_eq; intros [= <-]; by apply (H1 id (RegistryRow r None))|].
    rewrite lookup_insert_ne by done. apply H1.
  - intros i. rewrite (get_insert _ _ _ _ _ E1). cbn. destruct (decide (i = id)) as [->|Hne]; [apply lookup_delete_eq|rewrite lookup_delete_ne by done; apply H2].
  - intros k t. rewrite (get_insert _ _ _ _ _ E1). cbn. intros [Ht Hk]%map_lookup_filter_Some. cbn in Hk. rewrite decide_False by done. by apply H3.
Qed.

Lemma registry_projections collation now c p : projections_ok p -> projections_ok (pg_perform collation now c p).1.
Proof.
  intros Hok. destruct c as [r|id|r|id|]; cbn; [|done| | |done].
  - pose proof (projections_transaction (create_tx r) p (create_projections r) Hok) as H. unfold create.
    destruct (on_integrity_error _ _) as [p' x] eqn:E. apply (f_equal fst) in E. rewrite fst_on_integrity_error in E. cbn in *. by rewrite <- E.
  - pose proof (projections_transaction (update_tx (sr_id r) r) p (update_projections r) Hok) as H. unfold update.
    destruct (on_integrity_error _ _) as [p' x] eqn:E. apply (f_equal fst) in E. rewrite fst_on_integrity_error in E. cbn in *. by rewrite <- E.
  - pose proof (projections_transaction (delete_tx now id) p (delete_projections now id) Hok) as H. unfold delete.
    by destruct (transaction _ _) as [p' x].
Qed.

(** A task that is stored under its key, with the names of its service unless it had a row. *)
Lemma task_projections p p' k f : projections_ok p -> pg_services p' = pg_services p -> pg_service_docs p' = pg_service_docs p ->
  pg_tasks p' = <[k := f (pg_tasks p !! k)]> (pg_tasks p) ->
  (forall row, (forall t, row = Some t -> (tpr_service_id t, tpr_task_id t) = k) -> (tpr_service_id (f row), tpr_task_id (f row)) = k) ->
  (forall t, tpr_service_name (f (Some t)) = tpr_service_name t /\ tpr_environment (f (Some t)) = tpr_environment t) ->
  (forall r, get k.1 p = Some r -> names_service r (f None)) -> projections_ok p'.
Proof.
  intros [H1 H2 H3] E1 E2 E3 Hk Hsome Hnone. split; unfold own_ids, get in *; rewrite ?E1, ?E2; [done..|].
  rewrite E3. intros k' t. destruct (decide (k' = k)) as [->|Hne]; [|rewrite lookup_insert_ne by done; apply H3].
  rewrite lookup_insert_eq. intros [= <-]. split; [apply Hk; intros t Ht; by apply H3|]. intros r Hr.
  destruct (pg_tasks p !! k) as [t|] eqn:Et; [|by apply Hnone]. destruct (H3 k t Et) as [_ Hn]. unfold names_service in *.
  destruct (Hsome t) as [-> ->]. by apply Hn.
Qed.

Lemma with_message_frame now c n p : let p' := with_message now c n p in
  pg_services p' = pg_services p /\ pg_service_docs p' = pg_service_docs p /\ pg_tasks p' = pg_tasks p.
Proof. unfold with_message. by case_goal. Qed.

Lemma insert_projections prefix ttl task_ttl now e : keeps_projections (insert_event_tx prefix ttl task_ttl now e ;; mret true).
Proof.
  intros p a p' E Hok. unfold insert_event_tx, mbind, T_bind, gets in E.
  match type of E with context [normalized_event now e ?b] => set (n := normalized_event now e b) in E end.
  destruct (insert_event_row _ _ _ _ p) as [[[] p1]|] eqn:Ei; [|done]. unfold insert_event_row in Ei. do 2 (case_hyp Ei; [done|]).
  change (ce_service_id n) with (en_service_id e) in *. destruct (pg_services p !! en_service_id e) as [row|] eqn:Erow; [|done].
  injection Ei as <-. cbn in E. rewrite Erow in E. injection E as _ <-. set (p1 := with_tasks _ _).
  assert (projections_ok p1) as H1.
  { apply (task_projections p p1 (en_service_id e, ce_task_id n) (project_event now task_ttl n (sr_name (rr_record row)) (sr_environment (rr_record row)))); [done|done|done|done| | |].
    - intros [t|] Ht; done.
    - done.
    - intros r' Hr. unfold get in Hr. cbn in Hr. rewrite Erow in Hr. destruct (is_live row); [|done]. by injection Hr as <-. }
  clearbody p1.
  destruct (with_message_frame now (service_channel prefix (en_service_id e)) n p1) as (Ea & Eb & Ec).
  match goal with |- projections_ok (with_message ?t ?c ?m ?q) => destruct (with_message_frame t c m q) as (Ed & Ee & Ef) end.
  eapply (projections_frame p1); [by rewrite Ed|by rewrite Ee|by rewrite Ef|done].
Qed.

Section projections.
Context (collation : string -> string -> bool) (prefix : string) (ttl_seconds : option Z) (task_index_ttl_seconds : Z) (batch_size : nat).
Notation pg_step := (pg_step collation prefix ttl_seconds task_index_ttl_seconds batch_size).
Notation pg_history := (pg_history collation prefix ttl_seconds task_index_ttl_seconds batch_size).

Lemma step_projections w op : projections_ok w.1 -> projections_ok (pg_step w op).1.
Proof.
  destruct w as [p out]. cbn [fst]. intros Hok. destruct op as [now c|now e|s c|row|now|now locked|now locked answer commits]; cbn [PgHistory.pg_step fst].
  - by apply registry_projections.
  - unfold insert_event. pose proof (projections_transaction _ p (insert_projections prefix ttl_seconds task_index_ttl_seconds now e) Hok) as H.
    destruct (transaction _ p) as [p' [b|x]]; cbn in *; [done|]. by case_match.
  - apply projections_transaction; [|done]. intros q a q'. unfold set_pull_cursor. case_match; [|done]. intros [= _ <-]. by apply projections_frame.
  - apply projections_transaction; [|done]. intros q a q'. unfold set_health. case_match; [|done]. intros [= _ <-] [H1 H2 H3]. split; [done| |done].
    intros id. specialize (H2 id). cbn. destruct (decide (id = hr_service_id row)) as [->|Hne]; [|by rewrite lookup_alter_ne].
    rewrite lookup_alter_eq. change (get (hr_service_id row) _) with (get (hr_service_id row) q).
    destruct (get (hr_service_id row) q); [|by rewrite H2]. destruct H2 as (d & -> & Hd). eexists. split; [done|]. unfold shows_service in *. by rewrite Hd.
  - apply projections_transaction; [|done]. intros q a q' [= _ <-]. by apply projections_frame.
  - apply projections_transaction; [|done]. intros q a q' [= _ <-] [H1 H2 H3]. split; [done..|]. cbn. intros k t [Ht _]%map_lookup_filter_Some. by apply H3.
  - unfold relay_once. destruct commits; [|done]. by apply (projections_frame p).
Qed.

Lemma history_projections l : projections_ok (pg_history l).1.
Proof.
  unfold PgHistory.pg_history. assert (forall w, projections_ok w.1 -> projections_ok (foldl pg_step w l).1) as H.
  { induction l as [|op l IH]; intros w Hw; [done|]. apply IH. by apply step_projections. }
  apply H. by split.
Qed.

End projections.

(** A service that is deleted keeps its row, so an event that was accepted before the deletion and stored after it makes a
    task that the search shows, of a service that is not registered. *)
Lemma late_event_is_shown :
  let w := pg_history String.leb "p" None 86400 10
    [OpRegistry 0 (Create (demo_service "a" "http://a.test")); OpRegistry 1 (Delete "a");
     OpInsert 2 (Envelope "a" PUSH (ServiceEvent "c1" "t1" "status.completed" SOURCE_STATUS None None (Some "e1") None None []))] in
  get "a" w.1 = None /\ pg_service_docs w.1 !! "a" = None /\ is_Some (pg_tasks w.1 !! ("a", "t1")).
Proof. vm_compute. split; [done|]. split; [done|]. by eexists. Qed.

(** ** The pages of the event listing in PostgreSQL

    A listing reads the rows that follow the row of its cursor.  Over any history
    of the tables the keys of the events are distinct, and a client who follows
    the cursors reads every event that matches once, newest first. *)


(** A client who follows the cursors, with the calls it can make. *)
Fixpoint read_pages (calls : nat) (page : option string -> result event_list) (before : option string) : result (list control_event) :=
  match calls with
  | O => Raise (runtime_error "calls")
  | S calls =>
      pg ← page before;
      match el_next_cursor pg with
      | None => Ok (el_items pg)
      | Some c => rest ← read_pages calls page (Some c); Ok (el_items pg ++ rest)%list
      end
  end.

Notation row_key r := (ce_dedupe_key (er_event r)).

Section pages.
Context (collation : string -> string -> bool) `{!Collation collation}.
Notation row_le := (row_le collation).

Lemma row_le_total a b : row_le a b = true \/ row_le b a = true.
Proof.
  unfold PgEvents.row_le. rewrite (Z.eqb_sym (order_time b)), (Z.eqb_sym (er_ingested b)).
  repeat case_goal; bool_to_prop; try apply collation_total; rewrite !Z.ltb_lt; lia.
Qed.

Lemma row_le_trans a b c : row_le a b = true -> row_le b c = true -> row_le a c = true.
Proof.
  unfold PgEvents.row_le.
  destruct (Z.eqb_spec (order_time a) (order_time b)), (Z.eqb_spec (order_time b) (order_time c)), (Z.eqb_spec (order_time a) (order_time c)),
    (Z.eqb_spec (er_ingested a) (er_ingested b)), (Z.eqb_spec (er_ingested b) (er_ingested c)), (Z.eqb_spec (er_ingested a) (er_ingested c));
    rewrite ?Z.ltb_lt; try lia; apply collation_trans.
Qed.

Lemma row_le_key a b : row_le a b = true -> row_le b a = true -> row_key a = row_key b.
Proof.
  unfold PgEvents.row_le. rewrite (Z.eqb_sym (order_time b)), (Z.eqb_sym (er_ingested b)).
  repeat case_goal; bool_to_prop; rewrite ?Z.ltb_lt; try lia. apply collation_antisym.
Qed.

Section listing.
Context (rows : list event_row).
Hypothesis keys_distinct : NoDup (map (fun r => row_key r) rows).
Hypothesis keys_nonempty : forall r, r ∈ rows -> row_key r <> "".

Lemma key_inj a b : a ∈ rows -> b ∈ rows -> row_key a = row_key b -> a = b.
Proof.
  intros Ha Hb E. apply list_elem_of_lookup in Ha as [i Hi], Hb as [j Hj]. assert (i = j) as ->; [|congruence].
  apply (NoDup_lookup (map (fun r => row_key r) rows) i j (row_key a)); [done|by rewrite list_lookup_fmap, Hi|]. rewrite list_lookup_fmap, Hj. cbn. by rewrite E.
Qed.

Lemma rows_distinct : distinct_on row_le rows.
Proof.
  split; [by eapply NoDup_fmap_1|]. intros a b Ha Hb H1 H2. apply key_inj; [done..|]. by apply row_le_key.
Qed.

(** The cursor after the rows [pre]. *)
Definition cursor_at (pre : list event_row) (before : option string) : Prop := before = (fun r => row_key r) <$> last pre.

Lemma find_key a : a ∈ rows -> find_first (fun r => String.eqb (row_key r) (row_key a)) rows = Some a.
Proof.
  intros Ha. destruct (find_first _ _) as [b|] eqn:E.
  - apply find_first_some in E as [Hb E]. apply String.eqb_eq in E. f_equal. by apply key_inj.
  - apply find_first_none in E. rewrite Forall_forall in E. specialize (E a Ha). cbn in E. by rewrite String.eqb_refl in E.
Qed.

(** The page after some rows: the next ones, and the key of its last row if there are more. *)
Lemma page_at pre post before limit : newest_first row_le rows = (pre ++ post)%list -> cursor_at pre before -> 1 <= limit ->
  let n := Z.to_nat limit in
  page_rows collation rows before limit = Ok (EventList (Z.of_nat (length (take n post))) (map event_from_row (take n post))
    (if (n <? length post)%nat then (fun r => row_key r) <$> last (take n post) else None)).
Proof.
  intros E Hc Hl n. unfold page_rows.
  assert (sort_by (fun a b => row_le b a) (match (match before with Some b => if String.eqb b "" then None
      else find_first (fun r => String.eqb (row_key r) b) rows | None => None end) with
      Some a => List.filter (fun r => negb (row_le a r)) rows | None => rows end) = post) as ->.
  { unfold cursor_at in Hc. destruct (last pre) as [a|] eqn:El; cbn in Hc; subst before.
    - apply last_Some in El as [pre' ->]. rewrite <- app_assoc in E. cbn in E.
      assert (a ∈ rows) as Ha.
      { apply (newest_elem row_le rows). rewrite E. apply elem_of_app. right. by left. }
      pose proof (keys_nonempty a Ha) as Hne. apply String.eqb_neq in Hne. rewrite Hne, (find_key a Ha).
      exact (after_anchor row_le row_le_total row_le_trans rows pre' a post rows_distinct E).
    - apply last_None in El as ->. exact E. }
  replace (limit + 1 <? 0) with false by (symmetry; apply Z.ltb_ge; lia). rewrite take_take.
  replace (Z.to_nat limit `min` Z.to_nat (limit + 1))%nat with n by lia. rewrite length_map. do 2 f_equal.
  rewrite length_take. replace (limit <? Z.of_nat (Z.to_nat (limit + 1) `min` length post)) with (n <? length post)%nat.
  - destruct (n <? length post)%nat; [|done]. by rewrite fmap_last, <- option_fmap_compose.
  - destruct (Nat.ltb_spec n (length post)); symmetry; [apply Z.ltb_lt|apply Z.ltb_ge]; lia.
Qed.

Lemma read_from limit calls : forall pre post before, 1 <= limit -> newest_first row_le rows = (pre ++ post)%list -> cursor_at pre before ->
  (length post < calls)%nat -> read_pages calls (fun b => page_rows collation rows b limit) before = Ok (map event_from_row post).
Proof.
  induction calls as [|calls IH]; intros pre post before Hl E Hc Hlen; [lia|]. cbn [read_pages]. rewrite (page_at pre post before limit E Hc Hl).
  cbn [mbind result_bind el_next_cursor el_items]. set (n := Z.to_nat limit).
  destruct (Nat.ltb_spec n (length post)) as [Hn|Hn]; [|by rewrite take_ge].
  destruct (last (take n post)) as [a|] eqn:El; cbn [fmap option_fmap option_map].
  2: { apply last_None in El. apply (f_equal length) in El. rewrite length_take in El. cbn in El. lia. }
  rewrite (IH (pre ++ take n post)%list (drop n post)); [|done| | |].
  - cbn. by rewrite <- map_app, take_drop.
  - by rewrite <- app_assoc, take_drop.
  - unfold cursor_at. by rewrite last_app, El.
  - rewrite length_drop. lia.
Qed.
End listing.
End pages.

(** ** The keys of the events *)

Section history.
Context (collation : string -> string -> bool) `{!Collation collation}.
Context (prefix : string) (ttl_seconds : option Z) (history_maxlen task_index_ttl_seconds : Z) (batch_size : nat).
Notation pg_step := (pg_step collation prefix ttl_seconds task_index_ttl_seconds batch_size).
Notation pg_history := (pg_history collation prefix ttl_seconds task_index_ttl_seconds batch_size).

(** The keys are distinct and not empty, and so are the numbers, which fall from the newest row on. *)
Record events_ok (l : list event_row) : Prop := EventsOk {
  ev_keys : NoDup (map (fun r => row_key r) l);
  ev_nonempty : forall r, r ∈ l -> row_key r <> "" }.

Lemma events_ok_filter p l : events_ok l -> events_ok (List.filter p l).
Proof. intros [H1 H2]. split; [by apply NoDup_filter_map|]. intros r [Hr _]%filter_elem. by apply H2. Qed.

Lemma events_ok_take n l : events_ok l -> events_ok (take n l).
Proof.
  intros [H1 H2]. split; [rewrite <- (take_drop n l), map_app in H1; by apply NoDup_app in H1 as [? _]|].
  intros r Hr. apply H2. rewrite <- (take_drop n l). apply elem_of_app. by left.
Qed.

Lemma dedupe_key_nonempty s e : event_dedupe_key s e <> "".
Proof. unfold event_dedupe_key. destruct s as [|c s]; [|case_match; discriminate]. case_match; destruct (source_text _) as [|? ?]; discriminate. Qed.

Lemma row_events n t now x p p' : insert_event_row n t now x p = Ok (tt, p') ->
  pg_events p' = EventRow (pg_next_event p) n t now x :: pg_events p /\ forall r, r ∈ pg_events p -> row_key r <> ce_dedupe_key n.
Proof.
  unfold insert_event_row. case_goal; [done|]. destruct (existsb _ _) eqn:Ex; [done|]. case_goal; [|done]. intros [= <-]. split; [done|].
  intros r' Hr Ek. assert (existsb (event_conflict n) (pg_events p) = true) as Ht; [|congruence].
  apply existsb_elem. exists r'. split; [done|]. unfold event_conflict. by rewrite Ek, String.eqb_refl.
Qed.

Lemma insert_events now e p : let p' := (insert_event prefix ttl_seconds task_index_ttl_seconds now e p).1 in
  p' = p \/ exists n t x, pg_events p' = EventRow (pg_next_event p) n t now x :: pg_events p /\ ce_dedupe_key n = event_dedupe_key (en_service_id e) (en_event e) /\
    forall r, r ∈ pg_events p -> row_key r <> ce_dedupe_key n.
Proof.
  unfold insert_event, transaction, insert_event_tx, gets, mbind, T_bind. cbv zeta beta.
  match goal with |- context [insert_event_row ?n ?t ?w ?x p] => destruct (insert_event_row n t w x p) as [[[] p1]|er] eqn:E; set (m := n) in * end.
  - right. apply row_events in E as [Ee Hk]. exists m. do 2 eexists. split; [|done]. cbn. rewrite <- Ee.
    unfold with_message. repeat case_match; done.
  - left. cbn. repeat case_match; done.
Qed.

Lemma step_events w op : events_ok (pg_events w.1) -> events_ok (pg_events (pg_step w op).1).
Proof.
  destruct w as [p out]. cbn [fst]. intros Hok. destruct op as [now c|now e|s c|row|now|now locked|now locked answer commits]; cbn [PgHistory.pg_step fst].
  - by rewrite (registry_keeps pg_events).
  - destruct (insert_events now e p) as [->|(n & t & x & -> & Hn & Hk)]; [done|]. destruct Hok as [H1 H2]. split.
    + cbn. constructor; [|done]. intros (r & Hr & Hin)%list_elem_of_fmap. by apply (Hk r Hin).
    + intros r [->|Hr]%elem_of_cons; [cbn; rewrite Hn; apply dedupe_key_nonempty|by apply H2].
  - rewrite keeps_transaction; [done|]. intros q a q'. unfold set_pull_cursor. case_match; [|done]. by intros [= _ <-].
  - rewrite keeps_transaction; [done|]. intros q a q'. unfold set_health. case_match; [|done]. by intros [= _ <-].
  - cbn. by apply events_ok_filter.
  - done.
  - unfold relay_once. by destruct commits.
Qed.

Lemma history_events l : events_ok (pg_events (pg_history l).1).
Proof.
  unfold PgHistory.pg_history. assert (forall w, events_ok (pg_events w.1) -> events_ok (pg_events (foldl pg_step w l).1)) as H.
  { induction l as [|op l IH]; intros w Hw; [done|]. apply IH. by apply step_events. }
  apply H. split; [constructor|by intros r ?%elem_of_nil].
Qed.

End history.

(** ** Witness *)

Definition demo_pg_envelope (id time : string) : envelope :=
  Envelope "a" PUSH (ServiceEvent "c" "t1" "status.ok" SOURCE_STATUS None (nonempty time) (Some id) None None []).
Definition demo_pg_listing : list pg_op :=
  OpRegistry 0 (Create (demo_service "a" "http://a.test")) ::
  map (fun x : Z * string * string => let '(now, id, time) := x in OpInsert now (demo_pg_envelope id time))
    [(1, "e1", "2026-01-01T00:00:02Z"); (2, "e2", "2026-01-01T00:00:01Z"); (3, "e3", ""); (4, "e2", "2026-01-01T00:00:09Z"); (5, "e5", "2026-01-01T00:00:02Z")].

