(* ===== verification/Health.v ===== *)
(** * The health of services (studio/health.py)

    [StudioHealthRefreshService] keeps a document per service with the evidence
    of its last check, and tells from it, the activity of the service's events and
    the time what is shown: [materialize_document] derives every state anew. *)

From stdpp Require Import countable.
From S2P Require Import Prelude PyStr PyVal Codec Redis RedisProg PyTime StudioTime PyUrl Registry RegistrySpec StudioEvents StudioIngest StudioIngestSpec.

(** ** States *)

(** [StudioOverallHealthStatus], studio/health.py:59-65. *)
Inductive overall_health := OVERALL_HEALTHY | OVERALL_DEGRADED | OVERALL_STALE | OVERALL_UNREACHABLE | OVERALL_DISABLED | OVERALL_UNKNOWN.
(** [StudioHttpReachability], studio/health.py:68-71. *)
Inductive reachability := HTTP_REACHABLE | HTTP_UNREACHABLE | HTTP_UNKNOWN.
(** [CapabilityHealthState], studio/health.py:74-78. *)
Inductive capability_state := CAPABILITY_FRESH | CAPABILITY_STALE | CAPABILITY_MISSING | CAPABILITY_ERROR.
(** [ObservationFreshnessState], studio/health.py:81-84. *)
Inductive freshness_state := OBSERVED_FRESH | OBSERVED_STALE | OBSERVED_MISSING.
(** [WorkerHealthState], studio/health.py:87-92. *)
Inductive worker_state := WORKERS_HEALTHY | WORKERS_STALE | WORKERS_UNHEALTHY | WORKERS_UNSUPPORTED | WORKERS_UNKNOWN.

#[export] Instance overall_health_eq_dec : EqDecision overall_health. Proof. solve_decision. Defined.
#[export] Instance reachability_eq_dec : EqDecision reachability. Proof. solve_decision. Defined.
#[export] Instance capability_state_eq_dec : EqDecision capability_state. Proof. solve_decision. Defined.
#[export] Instance freshness_state_eq_dec : EqDecision freshness_state. Proof. solve_decision. Defined.
#[export] Instance worker_state_eq_dec : EqDecision worker_state. Proof. solve_decision. Defined.

Definition overall_value (s : overall_health) : string :=
  match s with
  | OVERALL_HEALTHY => "healthy" | OVERALL_DEGRADED => "degraded" | OVERALL_STALE => "stale" | OVERALL_UNREACHABLE => "unreachable"
  | OVERALL_DISABLED => "disabled" | OVERALL_UNKNOWN => "unknown"
  end.

(** ** Documents *)

(** [WorkerHeartbeatSummary], relayna/api/health_routes.py:28-32: the leases of a worker by whether they expired. *)
Record worker_heartbeat := WorkerHeartbeat { wk_name : string; wk_running : bool; wk_last_heartbeat_at : option Z; wk_leases_expired : list bool }.

(** [HttpStatusSummary], studio/health.py:95-98. *)
Record http_summary := HttpSummary { ht_state : reachability; ht_checked_at : option Z; ht_error_detail : option string }.
(** [CapabilityHealthSummary], studio/health.py:101-105. *)
Record capability_summary := CapabilitySummary {
  cp_state : capability_state; cp_checked_at : option Z; cp_last_successful_at : option Z; cp_error_detail : option string }.
(** [ObservationFreshnessSummary], studio/health.py:108-112. *)
Record freshness_summary := FreshnessSummary { fr_state : freshness_state; fr_status_at : option Z; fr_observation_at : option Z; fr_ingested_at : option Z }.
(** [WorkerHealthSummary], studio/health.py:115-120. *)
Record worker_summary := WorkerSummary {
  ws_state : worker_state; ws_reported_at : option Z; ws_latest_heartbeat_at : option Z; ws_workers : list worker_heartbeat; ws_detail : option string }.

(** [StudioServiceHealthDocument], studio/health.py:123-131. *)
Record health_document := HealthDocument {
  hd_service_id : string; hd_registry_status : ServiceStatus; hd_http : http_summary; hd_capability : capability_summary;
  hd_observation : freshness_summary; hd_workers : worker_summary; hd_last_checked_at : option Z; hd_overall : overall_health }.

(** [StudioHealthRefreshService._empty_document], studio/health.py:348-349. *)
Definition empty_document (service_id : string) (status : ServiceStatus) : health_document :=
  HealthDocument service_id status (HttpSummary HTTP_UNKNOWN None None) (CapabilitySummary CAPABILITY_MISSING None None None)
    (FreshnessSummary OBSERVED_MISSING None None None) (WorkerSummary WORKERS_UNKNOWN None None [] None) None OVERALL_UNKNOWN.

(** [_latest_datetime], studio/health.py:52-56. *)
Definition latest_datetime (l : list (option Z)) : option Z :=
  foldl (fun acc v => match acc, v with Some a, Some b => Some (Z.max a b) | Some a, None => Some a | None, v => v end) None l.

Definition older_than (now : Z) (seconds : Z) (t : Z) : bool := seconds * second <? now - t.

(** ** What is shown *)

Section health.
(** [CapabilityDocument.model_validate]: the compatibility and the routes of a valid document. *)
Context (validate_capabilities : pydict -> option (string * list string)) (HEALTH_WORKERS_ROUTE_ID : string).
Context (capability_stale_after_seconds observation_stale_after_seconds worker_heartbeat_stale_after_seconds : Z).

(** [StudioHealthRefreshService._capability_document], studio/health.py:513-519. *)
Definition capability_document (service : ServiceRecord) : option (string * list string) :=
  match sr_capabilities service with None | Some [] => None | Some d => validate_capabilities d end.

(** [StudioHealthRefreshService._supports_worker_route], studio/health.py:521-525. *)
Definition supports_worker_route (d : string * list string) : bool := String.eqb d.1 "capabilities_v1" && str_in HEALTH_WORKERS_ROUTE_ID d.2.

(** [StudioHealthRefreshService._materialize_http_status], studio/health.py:375-378. *)
Definition materialize_http_status (s : http_summary) : http_summary :=
  if bool_decide (ht_state s = HTTP_REACHABLE) && opt_truthy (ht_error_detail s) then HttpSummary (ht_state s) (ht_checked_at s) None else s.

Definition or_time (a b : option Z) : option Z := match a with Some _ => a | None => b end.

(** [StudioHealthRefreshService._materialize_capability_status], studio/health.py:380-414. *)
Definition materialize_capability_status (service : ServiceRecord) (s : capability_summary) (now : Z) : capability_summary :=
  let error_detail := cp_error_detail s in
  match or_time (cp_last_successful_at s) (sr_last_seen_at service) with
  | None => CapabilitySummary (if opt_truthy error_detail then CAPABILITY_ERROR else CAPABILITY_MISSING) (cp_checked_at s) None error_detail
  | Some t =>
      CapabilitySummary (if older_than now capability_stale_after_seconds t then CAPABILITY_STALE else CAPABILITY_FRESH)
        (or_time (cp_checked_at s) (Some t)) (Some t) error_detail
  end.

(** [StudioHealthRefreshService._materialize_observation_freshness], studio/health.py:416-442. *)
Definition materialize_observation_freshness (s : activity_snapshot) (now : Z) : freshness_summary :=
  let status := parse_timestamp (as_status s) in let observation := parse_timestamp (as_observation s) in
  FreshnessSummary (match latest_datetime [status; observation] with
                    | None => OBSERVED_MISSING
                    | Some t => if older_than now observation_stale_after_seconds t then OBSERVED_STALE else OBSERVED_FRESH
                    end) status observation (parse_timestamp (as_ingested s)).

(** [StudioHealthRefreshService._materialize_worker_health], studio/health.py:444-486. *)
Definition materialize_worker_health (service : ServiceRecord) (s : worker_summary) (now : Z) : worker_summary :=
  let show state := WorkerSummary state (ws_reported_at s) (ws_latest_heartbeat_at s) (ws_workers s) (ws_detail s) in
  match capability_document service with
  | None => show WORKERS_UNKNOWN
  | Some d =>
      if negb (supports_worker_route d) then WorkerSummary WORKERS_UNSUPPORTED None None [] None
      else match ws_workers s with
      | [] => show WORKERS_UNKNOWN
      | workers =>
          show (if existsb (fun w => negb (wk_running w)) workers then WORKERS_UNHEALTHY
                else if existsb (fun w => existsb id (wk_leases_expired w)) workers then WORKERS_STALE
                else match ws_latest_heartbeat_at s with
                     | None => WORKERS_STALE
                     | Some t => if older_than now worker_heartbeat_stale_after_seconds t then WORKERS_STALE else WORKERS_HEALTHY
                     end)
      end
  end.

(** [StudioHealthRefreshService._derive_overall_status], studio/health.py:488-511. *)
Definition derive_overall_status (d : health_document) : overall_health :=
  let capability := cp_state (hd_capability d) in let observation := fr_state (hd_observation d) in let workers := ws_state (hd_workers d) in
  if bool_decide (hd_registry_status d = DISABLED) then OVERALL_DISABLED
  else if bool_decide (ht_state (hd_http d) = HTTP_UNREACHABLE) then OVERALL_UNREACHABLE
  else if bool_decide (capability = CAPABILITY_STALE) || bool_decide (observation = OBSERVED_STALE) || bool_decide (workers = WORKERS_STALE)
  then OVERALL_STALE
  else if bool_decide (workers = WORKERS_UNHEALTHY) || bool_decide (capability = CAPABILITY_ERROR) || bool_decide (workers = WORKERS_UNKNOWN)
  then OVERALL_DEGRADED
  else if bool_decide (capability = CAPABILITY_FRESH) && bool_decide (observation = OBSERVED_FRESH)
          && (bool_decide (workers = WORKERS_HEALTHY) || bool_decide (workers = WORKERS_UNSUPPORTED))
  then OVERALL_HEALTHY else OVERALL_UNKNOWN.

(** [StudioHealthRefreshService._materialize_document], studio/health.py:351-373. *)
Definition materialize_document (service : ServiceRecord) (snapshot : activity_snapshot) (stored : option health_document) (now : Z) : health_document :=
  let current := from_opt (empty_document (sr_id service) (sr_status service)) stored in
  let d := HealthDocument (sr_id service) (sr_status service) (materialize_http_status (hd_http current))
             (materialize_capability_status service (hd_capability current) now) (materialize_observation_freshness snapshot now)
             (materialize_worker_health service (hd_workers current) now) (hd_last_checked_at current) OVERALL_UNKNOWN in
  HealthDocument (hd_service_id d) (hd_registry_status d) (hd_http d) (hd_capability d) (hd_observation d) (hd_workers d) (hd_last_checked_at d)
    (derive_overall_status d).

(** ** The store and the service *)

Context {R : Type} `{Redis R} `{JsonModel health_document} `{JsonModel ServiceRecord} `{JsonModel control_event} `{SearchIndexer R}.
Context (registry_prefix events_prefix health_prefix : string) (policy : url_policy).
Notation P := (P R).

(** [RedisStudioHealthStore._key], studio/health.py:151-152. *)
Definition health_key (service_id : string) : string := health_prefix +:+ ":" +:+ service_id.

(** [RedisStudioHealthStore.get_health], studio/health.py:154-161: a document that does not validate is none. *)
Definition read_health (now : Z) (service_id : string) : P (option health_document) :=
  payload ← await_read (fun r => rget r now (health_key service_id));
  mret (p ← payload; match validate_json p with Ok d => Some d | Raise _ => None end).

(** [RedisStudioHealthStore.set_health], studio/health.py:163-165. *)
Definition write_health (now : Z) (service_id : string) (d : health_document) : P unit :=
  await_ (fun r => rset r now (health_key service_id) (dump_json d) None).

Definition snapshot_of (now : Z) (service_id : string) : P activity_snapshot :=
  l ← get_service_activity_snapshots events_prefix now [service_id];
  mret (from_opt (ActivitySnapshot service_id None None None) (head l)).

(** [StudioHealthRefreshService.get_health], studio/health.py:195-201. *)
Definition get_health (now : Z) (service_id : string) : P health_document :=
  service ← get_service registry_prefix now service_id;
  stored ← read_health now service_id;
  snapshot ← snapshot_of now service_id;
  mret (materialize_document service snapshot stored now).

(** The capability document and the heartbeats that a service answers with. *)
Context (fetch_capabilities : ServiceRecord -> P pydict) (fetch_workers : ServiceRecord -> P (Z * list worker_heartbeat)).

Definition with_http h (d : health_document) : health_document :=
  HealthDocument (hd_service_id d) (hd_registry_status d) h (hd_capability d) (hd_observation d) (hd_workers d) (hd_last_checked_at d) (hd_overall d).
Definition with_capability c (d : health_document) : health_document :=
  HealthDocument (hd_service_id d) (hd_registry_status d) (hd_http d) c (hd_observation d) (hd_workers d) (hd_last_checked_at d) (hd_overall d).
Definition with_workers w (d : health_document) : health_document :=
  HealthDocument (hd_service_id d) (hd_registry_status d) (hd_http d) (hd_capability d) (hd_observation d) w (hd_last_checked_at d) (hd_overall d).

(** [StudioHealthRefreshService.refresh_health], studio/health.py:264-270: the service answers. *)
Definition reached (now last : Z) (d : health_document) : health_document :=
  with_capability (CapabilitySummary (cp_state (hd_capability d)) (Some now) (Some last) None) (with_http (HttpSummary HTTP_REACHABLE (Some now) None) d).
(** [StudioHealthRefreshService.refresh_health], studio/health.py:284-291: it does not. *)
Definition unreached (now : Z) (e : exn) (d : health_document) : health_document :=
  with_capability (CapabilitySummary (cp_state (hd_capability d)) (Some now) (cp_last_successful_at (hd_capability d)) (Some (exn_text e)))
    (with_http (HttpSummary HTTP_UNREACHABLE (Some now) (Some (exn_text e))) d).

(** [StudioHealthRefreshService.refresh_health], studio/health.py:263-291: the capabilities; the service, what the fetched
    document says if there is one, and the document. *)
Definition check_capabilities (now : Z) (use_cached : bool) (service : ServiceRecord) (d : health_document) :
    P (ServiceRecord * option (string * list string) * health_document) :=
  if use_cached then
    let last := from_opt now (or_time (sr_last_seen_at service) (cp_last_successful_at (hd_capability d))) in
    mret (service, capability_document service, reached now last d)
  else catching
    (fetched ← fetch_capabilities service;
     service' ← store_capability_document registry_prefix now (sr_id service) fetched false;
     mret (service', validate_capabilities fetched, reached now now d))
    (fun e => mret (service, capability_document service, unreached now e d)).

(** [StudioHealthRefreshService.refresh_health], studio/health.py:293-307: the workers. *)
Definition check_workers (service : ServiceRecord) (capabilities : option (string * list string)) (d : health_document) : P health_document :=
  match capabilities with
  | Some c =>
      if supports_worker_route c then catching
        (_ ← liftP (validate_url policy ("Service '" +:+ sr_id service +:+ "' base_url") (sr_base_url service));
         answer ← fetch_workers service;
         let '(reported_at, workers) := answer in
         mret (with_workers (WorkerSummary WORKERS_UNKNOWN (Some reported_at) (latest_datetime (map wk_last_heartbeat_at workers)) workers None) d))
        (fun e => let w := hd_workers d in
           mret (with_workers (WorkerSummary (ws_state w) (ws_reported_at w) (ws_latest_heartbeat_at w) (ws_workers w) (Some (exn_text e))) d))
      else mret (with_workers (WorkerSummary WORKERS_UNSUPPORTED None None [] None) d)
  | None => mret (with_workers (WorkerSummary WORKERS_UNSUPPORTED None None [] None) d)
  end.

(** [StudioHealthRefreshService.refresh_health], studio/health.py:240-313. *)
Definition refresh_health (now : Z) (use_cached : bool) (service_id : string) : P health_document :=
  service ← get_service registry_prefix now service_id;
  snapshot ← snapshot_of now (sr_id service);
  previous ← read_health now (sr_id service);
  let current := from_opt (empty_document (sr_id service) (sr_status service)) previous in
  let current := HealthDocument (hd_service_id current) (sr_status service) (hd_http current) (hd_capability current) (hd_observation current)
                   (hd_workers current) (Some now) (hd_overall current) in
  let finish service current :=
    let document := materialize_document service snapshot (Some current) now in
    _ ← write_health now (sr_id service) document;
    _ ← upsert_service_document now service;
    mret document in
  if bool_decide (sr_status service = DISABLED) then finish service current
  else
    checked ← check_capabilities now use_cached service current;
    let '(service, capabilities, current) := checked in
    current ← check_workers service capabilities current;
    finish service current.

(** [StudioHealthRefreshService._refresh_service_safely], studio/health.py:325-333. *)
Definition refresh_service_safely (now : Z) (service : ServiceRecord) : P unit :=
  catching
    (if bool_decide (sr_status service = DISABLED) then
       stored ← read_health now (sr_id service);
       snapshot ← snapshot_of now (sr_id service);
       write_health now (sr_id service) (materialize_document service snapshot stored now)
     else _ ← refresh_health now false (sr_id service); mret tt)
    (fun _ => mret tt).
End health.

(** ** What a health state means

    Every state that is shown follows from the last check and the service's
    activity at the time of the question: a healthy service is one whose evidence is
    recent, deriving the states again changes nothing, and a refresh, whatever fails in
    it, records what it met.  Of the workers only the newest heartbeat counts. *)


(** ** The newest of some times *)

Definition newer (acc v : option Z) : option Z :=
  match acc, v with Some a, Some b => Some (Z.max a b) | Some a, None => Some a | None, v => v end.

Lemma latest_from acc l : exists o, latest_datetime (acc :: l) = o /\
  (forall t, o = Some t -> Some t ∈ acc :: l) /\ (forall u, Some u ∈ acc :: l -> exists t, o = Some t /\ u <= t).
Proof.
  assert (forall l acc, let o := foldl newer acc l in
    (forall t, o = Some t -> Some t ∈ acc :: l) /\ (forall u, Some u ∈ acc :: l -> exists t, o = Some t /\ u <= t)) as Hgen.
  { clear. induction l as [|v l IH]; intros acc; cbn.
    - split; [intros t ->; left|]. intros u E%list_elem_of_singleton. exists u. split; [done|lia].
    - destruct (IH (newer acc v)) as [H1 H2]. split.
      + intros t Ht. apply H1, elem_of_cons in Ht as [E|Hin]; [|by right; right].
        destruct acc as [a|], v as [b|]; cbn in E; simplify_eq; try (by left); try (by right; left).
        destruct (Z.max_spec a b) as [[_ ->]|[_ ->]]; [by right; left|by left].
      + intros u [E|[E|Hin]%elem_of_cons]%elem_of_cons; [| |apply H2; by right].
        * destruct (H2 (match v with Some b => Z.max u b | None => u end)) as (t & Ht & Hle).
          { rewrite <- E. cbn. destruct v; left. }
          exists t. split; [done|]. destruct v; lia.
        * destruct (H2 (match acc with Some b => Z.max b u | None => u end)) as (t & Ht & Hle).
          { rewrite <- E. cbn. destruct acc; left. }
          exists t. split; [done|]. destruct acc; lia. }
  eexists. split; [done|]. unfold latest_datetime. cbn. destruct acc; apply (Hgen l).
Qed.

(** Some time of [l] is recent, as of [now]. *)
Definition recent (now seconds : Z) (l : list (option Z)) : Prop := exists t, Some t ∈ l /\ now - t <= seconds * second.

Lemma recent_latest now seconds acc l :
  recent now seconds (acc :: l) <-> exists t, latest_datetime (acc :: l) = Some t /\ older_than now seconds t = false.
Proof.
  destruct (latest_from acc l) as (o & -> & H1 & H2). unfold recent, older_than. split.
  - intros (u & Hu & Hle). destruct (H2 u Hu) as (t & -> & Ht). exists t. split; [done|]. apply Z.ltb_ge. lia.
  - intros (t & -> & Ht%Z.ltb_ge). exists t. split; [by apply H1|done].
Qed.

Section states.
Context (validate_capabilities : pydict -> option (string * list string)) (HEALTH_WORKERS_ROUTE_ID : string).
Context (capability_stale_after_seconds observation_stale_after_seconds worker_heartbeat_stale_after_seconds : Z).
Notation capability_document := (capability_document validate_capabilities).
Notation supports_worker_route := (supports_worker_route HEALTH_WORKERS_ROUTE_ID).
Notation materialize_document := (materialize_document validate_capabilities HEALTH_WORKERS_ROUTE_ID capability_stale_after_seconds
  observation_stale_after_seconds worker_heartbeat_stale_after_seconds).

(** The workers that a service reported give no cause for concern. *)
Definition workers_fine (w : worker_summary) (now : Z) : Prop :=
  ws_workers w <> [] /\ Forall (fun k => wk_running k = true /\ existsb id (wk_leases_expired k) = false) (ws_workers w) /\
  exists t, ws_latest_heartbeat_at w = Some t /\ now - t <= worker_heartbeat_stale_after_seconds * second.

(** The evidence for a service's health: no failed check, capabilities and activity that are recent, and fine workers where the
    service reports workers. *)
Definition evidence (service : ServiceRecord) (snapshot : activity_snapshot) (d : health_document) (now : Z) : Prop :=
  sr_status service <> DISABLED /\ ht_state (hd_http d) <> HTTP_UNREACHABLE /\
  (exists t, or_time (cp_last_successful_at (hd_capability d)) (sr_last_seen_at service) = Some t /\
             now - t <= capability_stale_after_seconds * second) /\
  recent now observation_stale_after_seconds [parse_timestamp (as_status snapshot); parse_timestamp (as_observation snapshot)] /\
  exists c, capability_document service = Some c /\ (supports_worker_route c = true -> workers_fine (hd_workers d) now).

Lemma http_state_shown s : ht_state (materialize_http_status s) = ht_state s.
Proof. unfold materialize_http_status. by destruct (_ && _). Qed.

Lemma capability_fresh service s now :
  cp_state (materialize_capability_status capability_stale_after_seconds service s now) = CAPABILITY_FRESH <->
  exists t, or_time (cp_last_successful_at s) (sr_last_seen_at service) = Some t /\ now - t <= capability_stale_after_seconds * second.
Proof.
  unfold materialize_capability_status. destruct (or_time _ _) as [t|].
  - cbn. unfold older_than. destruct (Z.ltb_spec (capability_stale_after_seconds * second) (now - t)); naive_solver lia.
  - cbn. destruct (opt_truthy _); naive_solver.
Qed.

Lemma observation_fresh snapshot now :
  fr_state (materialize_observation_freshness observation_stale_after_seconds snapshot now) = OBSERVED_FRESH <->
  recent now observation_stale_after_seconds [parse_timestamp (as_status snapshot); parse_timestamp (as_observation snapshot)].
Proof.
  rewrite recent_latest. unfold materialize_observation_freshness. cbn [fr_state]. destruct (latest_datetime _) as [t|]; [|naive_solver].
  split; [exists t; by destruct (older_than _ _ t)|]. by intros (u & [= <-] & ->).
Qed.

Notation worker_state_of service w now := (ws_state (materialize_worker_health validate_capabilities HEALTH_WORKERS_ROUTE_ID
  worker_heartbeat_stale_after_seconds service w now)).

Lemma workers_healthy service w now :
  worker_state_of service w now = WORKERS_HEALTHY <->
  exists c, capability_document service = Some c /\ supports_worker_route c = true /\ workers_fine w now.
Proof.
  unfold materialize_worker_health. destruct (capability_document service) as [c|]; [|naive_solver].
  destruct (supports_worker_route c) eqn:Es; cbn [negb]; [|split; [done|]; intros (? & [= <-] & ? & _); congruence].
  assert (forall P, (exists c0, Some c = Some c0 /\ supports_worker_route c0 = true /\ P) <-> P) as -> by naive_solver.
  unfold workers_fine. destruct (ws_workers w) as [|k l] eqn:Ew; [naive_solver|]. cbn [ws_state]. set (ws := k :: l) in *.
  destruct (existsb (fun w => negb (wk_running w)) ws) eqn:E1.
  { split; [done|]. intros (_ & Hall & _). apply existsb_exists in E1 as (x & Hx%list_elem_of_In & Hn).
    rewrite Forall_forall in Hall. destruct (Hall x Hx) as [Hr _]. by rewrite Hr in Hn. }
  destruct (existsb (fun w => existsb id (wk_leases_expired w)) ws) eqn:E2.
  { split; [done|]. intros (_ & Hall & _). apply existsb_exists in E2 as (x & Hx%list_elem_of_In & Hn).
    rewrite Forall_forall in Hall. destruct (Hall x Hx) as [_ Hl]. congruence. }
  assert (Forall (fun k => wk_running k = true /\ existsb id (wk_leases_expired k) = false) ws) as Hall.
  { apply Forall_forall. intros x Hx. apply list_elem_of_In in Hx. split.
    - destruct (wk_running x) eqn:Er; [done|]. assert (existsb (fun w => negb (wk_running w)) ws = true); [|congruence].
      apply existsb_exists. exists x. by rewrite Er.
    - destruct (existsb id (wk_leases_expired x)) eqn:El; [|done].
      assert (existsb (fun w => existsb id (wk_leases_expired w)) ws = true); [|congruence]. apply existsb_exists. by exists x. }
  destruct (ws_latest_heartbeat_at w) as [t|]; [|naive_solver]. unfold older_than.
  destruct (Z.ltb_spec (worker_heartbeat_stale_after_seconds * second) (now - t)); [naive_solver lia|].
  split; [intros _|done]. split_and!; [done|done|by exists t].
Qed.

Lemma workers_unsupported service w now :
  worker_state_of service w now = WORKERS_UNSUPPORTED <-> exists c, capability_document service = Some c /\ supports_worker_route c = false.
Proof.
  unfold materialize_worker_health. destruct (capability_document service) as [c|]; [|naive_solver].
  destruct (supports_worker_route c) eqn:Es; cbn [negb]; [|by split; [exists c|]].
  split; [|intros (? & [= <-] & ?); congruence].
  destruct (ws_workers w); [done|]. cbn [ws_state]. repeat case_match; done.
Qed.

Lemma overall_healthy d : derive_overall_status d = OVERALL_HEALTHY <->
  hd_registry_status d <> DISABLED /\ ht_state (hd_http d) <> HTTP_UNREACHABLE /\ cp_state (hd_capability d) = CAPABILITY_FRESH /\
  fr_state (hd_observation d) = OBSERVED_FRESH /\ (ws_state (hd_workers d) = WORKERS_HEALTHY \/ ws_state (hd_workers d) = WORKERS_UNSUPPORTED).
Proof.
  unfold derive_overall_status.
  destruct (hd_registry_status d), (ht_state (hd_http d)), (cp_state (hd_capability d)), (fr_state (hd_observation d)), (ws_state (hd_workers d));
    cbn; naive_solver.
Qed.

(** C40. A service is shown as healthy if and only if its evidence is there and is recent at the
    time of the question: it is not disabled, its last check did not fail, its capabilities were read and its
    latest status or observation happened within their limits, and, where it reports workers, every worker runs, none
    holds an expired lease and the newest heartbeat is within its limit. *)
Theorem healthy_is_evidenced service snapshot stored now :
  hd_overall (materialize_document service snapshot stored now) = OVERALL_HEALTHY <->
  evidence service snapshot (from_opt (empty_document (sr_id service) (sr_status service)) stored) now.
Proof.
  unfold materialize_document, evidence. cbn [hd_overall hd_registry_status hd_http hd_capability hd_observation hd_workers].
  rewrite overall_healthy. cbn [hd_registry_status hd_http hd_capability hd_observation hd_workers].
  rewrite http_state_shown, capability_fresh, observation_fresh, workers_healthy, workers_unsupported.
  set (ev := recent _ _ _). set (d := from_opt _ stored).
  destruct (capability_document service) as [c|]; [|naive_solver]. split.
  - intros (H1 & H2 & H3 & H4 & H5). split_and!; try done. exists c. split; [done|]. intros Hs.
    destruct H5 as [(? & [= <-] & _ & Hw)|(? & [= <-] & Hn)]; [done|congruence].
  - intros (H1 & H2 & H3 & H4 & ? & [= <-] & Hw). split_and!; try done.
    destruct (supports_worker_route c) eqn:Es; [left; exists c; by split_and!; [| |apply Hw]|right; by exists c].
Qed.

(** What is stored of the states themselves does not matter: showing a document that was shown before is showing the one it came from. *)
Lemma shown_again service snapshot stored now now' snapshot' :
  materialize_document service snapshot' (Some (materialize_document service snapshot stored now)) now' =
  materialize_document service snapshot' stored now'.
Proof.
  unfold materialize_document. cbn [from_opt hd_http hd_capability hd_workers hd_last_checked_at hd_service_id hd_registry_status hd_observation].
  set (d := from_opt _ stored).
  assert (materialize_http_status (materialize_http_status (hd_http d)) = materialize_http_status (hd_http d)) as ->.
  { unfold materialize_http_status. destruct (hd_http d) as [[] c o]; cbn; try done.
    by destruct o as [[|a s]|]. }
  assert (forall n n', materialize_capability_status capability_stale_after_seconds service
    (materialize_capability_status capability_stale_after_seconds service (hd_capability d) n) n' =
    materialize_capability_status capability_stale_after_seconds service (hd_capability d) n') as ->.
  { intros n n'. unfold materialize_capability_status. destruct (hd_capability d) as [s [c|] [t|] e]; cbn; try done;
      destruct (sr_last_seen_at service); cbn; done. }
  assert (forall n n', materialize_worker_health validate_capabilities HEALTH_WORKERS_ROUTE_ID worker_heartbeat_stale_after_seconds service
    (materialize_worker_health validate_capabilities HEALTH_WORKERS_ROUTE_ID worker_heartbeat_stale_after_seconds service (hd_workers d) n) n' =
    materialize_worker_health validate_capabilities HEALTH_WORKERS_ROUTE_ID worker_heartbeat_stale_after_seconds service (hd_workers d) n') as ->; [|done].
  intros n n'. unfold materialize_worker_health. destruct (capability_document service) as [c|]; [|done].
  destruct (negb _); [done|]. destruct (hd_workers d) as [s a b [|k l] e]; done.
Qed.
End states.

(** ** A refresh *)

Section refresh.
Context {R : Type} `{RedisLaws R} `{JsonModel health_document} `{JsonModel ServiceRecord} `{JsonModel control_event} `{SearchIndexer R}.
Context (validate_capabilities : pydict -> option (string * list string)) (HEALTH_WORKERS_ROUTE_ID : string).
Context (capability_stale_after_seconds observation_stale_after_seconds worker_heartbeat_stale_after_seconds : Z).
Context (registry_prefix events_prefix health_prefix : string) (policy : url_policy).
Context (fetch_capabilities : ServiceRecord -> P R pydict) (fetch_workers : ServiceRecord -> P R (Z * list worker_heartbeat)).
(** The search index has no key of the health store. *)
Hypothesis index_apart : forall now service r id, wpP any_fault (upsert_service_document now service) r
  (fun r' _ => model r' !! health_key health_prefix id = model r !! health_key health_prefix id).
Notation refresh_health := (refresh_health validate_capabilities HEALTH_WORKERS_ROUTE_ID capability_stale_after_seconds
  observation_stale_after_seconds worker_heartbeat_stale_after_seconds registry_prefix events_prefix health_prefix policy
  fetch_capabilities fetch_workers).

Lemma wpP_any {A} (m : P R A) r (Q : R -> result A -> Prop) : (forall r' x, Q r' x) -> wpP any_fault m r Q.
Proof. intros HQ fs _. split; [|apply HQ]. by apply List.Forall_forall; intros [[]|]. Qed.

Lemma wpP_caught {A} ok (m : P R A) h r Q :
  wpP ok m r (fun r' x => match x with
    | Ok a => Q r' (Ok a)
    | Raise e => if is_exception e then wpP ok (h e) r' Q else Q r' (Raise e) end) ->
  wpP ok (catching m h) r Q.
Proof.
  intros Hm fs Hfs. unfold catching. destruct (Hm fs Hfs) as [Ha HQ].
  destruct (m r fs) as [[r' fs'] [a|e]]; cbn in *; [done|]. destruct (is_exception e); [by apply HQ|done].
Qed.

(** What the check of an enabled service found at [now]. *)
Definition checked (now : Z) (d : health_document) : Prop :=
  ht_checked_at (hd_http d) = Some now /\ cp_checked_at (hd_capability d) = Some now /\
  (ht_state (hd_http d) = HTTP_REACHABLE /\ ht_error_detail (hd_http d) = None /\ cp_error_detail (hd_capability d) = None \/
   ht_state (hd_http d) = HTTP_UNREACHABLE /\ exists e, ht_error_detail (hd_http d) = Some e /\ cp_error_detail (hd_capability d) = Some e).

(** The document of a check at [now]. *)
Definition recorded_check (now : Z) (d : health_document) : Prop :=
  hd_last_checked_at d = Some now /\ hd_overall d = derive_overall_status d /\ (hd_registry_status d = DISABLED \/ checked now d).

Lemma check_capabilities_checked now uc service d r :
  wpP any_fault (check_capabilities validate_capabilities registry_prefix fetch_capabilities now uc service d) r
    (fun _ x => forall s c d', x = Ok (s, c, d') -> checked now d' /\ hd_last_checked_at d' = hd_last_checked_at d).
Proof.
  unfold check_capabilities. destruct uc.
  { apply wpP_ret. intros s c d' [= <- <- <-]. by split; [split_and!; [..|left]|]. }
  apply wpP_caught, wpP_bind, wpP_any. intros r1 [fetched|e].
  - apply wpP_bind, wpP_any. intros r2 [service'|e].
    + apply wpP_ret. intros s c d' [= <- <- <-]. by split; [split_and!; [..|left]|].
    + destruct (is_exception e); [|done]. apply wpP_ret. intros s c d' [= <- <- <-].
      split; [|done]. split_and!; [done..|]. right. split; [done|]. by eexists.
  - destruct (is_exception e); [|done]. apply wpP_ret. intros s c d' [= <- <- <-].
    split; [|done]. split_and!; [done..|]. right. split; [done|]. by eexists.
Qed.

Lemma check_workers_keeps now service c d r : checked now d ->
  wpP any_fault (check_workers HEALTH_WORKERS_ROUTE_ID policy fetch_workers service c d) r
    (fun _ x => forall d', x = Ok d' -> checked now d' /\ hd_last_checked_at d' = hd_last_checked_at d).
Proof.
  intros Hd. unfold check_workers. destruct c as [c|]; [destruct (supports_worker_route _ c)|]; [|by apply wpP_ret; intros ? [= <-]..].
  apply wpP_caught, wpP_bind, wpP_any. intros r1 [_|e].
  - apply wpP_bind, wpP_any. intros r2 [[reported ws]|e]; [by apply wpP_ret; intros ? [= <-]|].
    destruct (is_exception e); [|done]. by apply wpP_ret; intros ? [= <-].
  - destruct (is_exception e); [|done]. by apply wpP_ret; intros ? [= <-].
Qed.

Lemma materialize_checked service snapshot d now :
  hd_last_checked_at d = Some now -> (sr_status service = DISABLED \/ checked now d) ->
  recorded_check now (materialize_document validate_capabilities HEALTH_WORKERS_ROUTE_ID capability_stale_after_seconds
    observation_stale_after_seconds worker_heartbeat_stale_after_seconds service snapshot (Some d) now).
Proof.
  intros Hl Hd. split_and!; [done|done|]. destruct Hd as [Hd|(Hh & Hc & Ho)]; [by left|right].
  unfold checked. cbn [from_opt materialize_document hd_http hd_capability]. unfold materialize_http_status, materialize_capability_status.
  destruct (hd_http d) as [st at_ o], (hd_capability d) as [cs cc cl ce]. cbn in *. subst.
  destruct Ho as [(-> & -> & ->)|(-> & e & -> & ->)]; destruct (or_time cl _); cbn; split_and!; try done; [by left..|by right; eauto|by right; eauto].
Qed.

(** A refresh that answers with a document has stored that document, whatever failed in between: it
    carries the time of the check and, for a service that is not disabled, either the service answered, and no error
    is shown, or it did not, and the document says that it is unreachable and why. *)
Theorem refresh_records_check now use_cached service_id r fs d :
  (refresh_health now use_cached service_id r fs).2 = Ok d ->
  model (refresh_health now use_cached service_id r fs).1.1 !! health_key health_prefix (hd_service_id d) = Some (RStr (dump_json d), None) /\
  recorded_check now d.
Proof.
  revert fs d.
  assert (wpP any_fault (refresh_health now use_cached service_id) r (fun r' x => forall d, x = Ok d ->
    model r' !! health_key health_prefix (hd_service_id d) = Some (RStr (dump_json d), None) /\ recorded_check now d)) as Hw.
  2: { intros fs d Hx. apply (wpP_run _ _ _ _ fs Hw); [|done]. by apply List.Forall_forall; intros [[]|]. }
  assert (forall service snapshot cur r, hd_last_checked_at cur = Some now -> (sr_status service = DISABLED \/ checked now cur) ->
    wpP any_fault (let document := materialize_document validate_capabilities HEALTH_WORKERS_ROUTE_ID capability_stale_after_seconds
      observation_stale_after_seconds worker_heartbeat_stale_after_seconds service snapshot (Some cur) now in
      _ ← write_health health_prefix now (sr_id service) document; _ ← upsert_service_document now service; mret document) r
      (fun r' x => forall d, x = Ok d ->
        model r' !! health_key health_prefix (hd_service_id d) = Some (RStr (dump_json d), None) /\ recorded_check now d)) as Hfin.
  { clear r. intros service snapshot cur r Hl Hc. cbv zeta. set (document := materialize_document _ _ _ _ _ _ _ _ _).
    apply wpP_bind, wpP_await_; [|done..].
    apply wpP_bind. eapply wpP_mono; [apply (index_apart now service _ (sr_id service))|]. intros r1 [[]|e] Hk; [|done].
    apply wpP_ret. intros d [= <-]. split; [|by apply materialize_checked]. cbn [hd_service_id materialize_document].
    change (hd_service_id document) with (sr_id service). rewrite Hk, law_set. unfold db_set. rewrite lookup_insert_eq. done. }
  unfold Health.refresh_health. apply wpP_bind, wpP_any. intros r1 [service|e]; [|done].
  apply wpP_bind, wpP_any. intros r2 [snapshot|e]; [|done]. apply wpP_bind, wpP_any. intros r3 [previous|e]; [|done]. cbv zeta.
  set (cur := HealthDocument _ _ _ _ _ _ (Some now) _). case_bool_decide as Hd; [apply Hfin; [done|by left]|].
  apply wpP_bind. eapply wpP_mono; [apply check_capabilities_checked|]. intros r4 [[[s c] d']|e] Hx; [|done].
  destruct (Hx s c d' eq_refl) as [Hc Hl]. apply wpP_bind. eapply wpP_mono; [by apply check_workers_keeps|].
  intros r5 [d''|e] Hy; [|done]. destruct (Hy d'' eq_refl) as [Hc' Hl']. apply Hfin; [by rewrite Hl', Hl|by right].
Qed.
End refresh.

(** ** Witness *)

Definition demo_index : SearchIndexer db :=
  {| upsert_service_document := fun _ _ => mret tt; delete_service_document := fun _ _ => mret tt;
     delete_task_documents_for_service := fun _ _ => mret tt |}.
Definition demo_model : JsonModel health_document := {| dump_json d := overall_value (hd_overall d); validate_json _ := Raise (value_error "invalid") |}.
Definition demo_registry : db := <[record_key "r" "a" := (RStr (dump_json (demo_service "a" "http://a.test")), None)]> ∅.
Definition demo_timeout : exn := Exn XUser "ConnectTimeout" "timed out".

(** A service that does not answer. *)
Definition demo_refresh : P db health_document :=
  refresh_health (H0 := demo_model) (H3 := demo_index) (fun _ => None) "health.workers" 180 300 90 "r" "e" "h" (UrlPolicy [] [])
    (fun _ => liftP (Raise demo_timeout)) (fun _ => liftP (Raise demo_timeout)) second false "a".

Lemma refresh_records_check_witness : exists d, (demo_refresh demo_registry []).2 = Ok d /\ hd_overall d = OVERALL_UNREACHABLE /\
  model (demo_refresh demo_registry []).1.1 !! health_key "h" (hd_service_id d) = Some (RStr "unreachable", None) /\ recorded_check second d.
Proof.
  eexists. split; [vm_compute; reflexivity|]. split; [reflexivity|].
  apply (refresh_records_check (H1 := demo_model) (H4 := demo_index) (fun _ => None) "health.workers" 180 300 90 "r" "e" "h" (UrlPolicy [] [])
    (fun _ => liftP (Raise demo_timeout)) (fun _ => liftP (Raise demo_timeout))).
  - intros now service r id. by apply wpP_ret.
  - vm_compute. reflexivity.
Defined.
