(* ===== verification/Backpressure.v ===== *)
(** * Runtime backpressure (observability/backpressure.py)

    [RuntimePressureService] asks its collectors, a bounded number at a time, and puts together
    their signals; the queue collector inspects its queues the same way.  A provider of a
    collector is what it answers with, or the exception it raises. *)

From S2P Require Import Prelude PyStr PyVal PyFloat Redis Async Health.
From Stdlib Require Import SpecFloat.

(** ** Signals *)

(** [PressureSeverity], relayna/observability/backpressure.py:18-22. *)
Inductive severity := NORMAL | WARNING | CRITICAL | UNKNOWN.
#[export] Instance severity_eq_dec : EqDecision severity. Proof. solve_decision. Defined.

(** [RuntimePressureSignal], relayna/observability/backpressure.py:25-34. *)
Record pressure_signal := PressureSignal {
  ps_scope : string; ps_kind : string; ps_severity : severity; ps_observed_at : Z; ps_scope_id : option string; ps_value : option spec_float;
  ps_threshold : option spec_float; ps_reason : option string; ps_action : option string }.

(** [RuntimeQueueObservation], relayna/observability/backpressure.py:37-53: the ages and the rates, which the collectors here do
    not set, are left out. *)
Record queue_observation := QueueObservation { qo_queue_name : string; qo_source : string; qo_observed_at : Z; qo_ready : option Z; qo_consumers : option Z }.

(** [RuntimePressureSnapshot], relayna/observability/backpressure.py:56-59. *)
Record pressure_snapshot := PressureSnapshot { sn_reported_at : Z; sn_signals : list pressure_signal; sn_queues : list queue_observation }.

Definition invalid_observation : exn := Exn XValidationError "ValidationError" "invalid queue observation".

Definition at_least_0 (z : option Z) : bool := match z with Some z => 0 <=? z | None => true end.

(** [RuntimeQueueObservation], relayna/observability/backpressure.py:37-53: the constraints of the fields. *)
Definition queue_observation_of (queue_name source : string) (now : Z) (ready consumers : option Z) : result queue_observation :=
  if (0 <? Z.of_nat (String.length queue_name)) && (0 <? Z.of_nat (String.length source)) && at_least_0 ready && at_least_0 consumers
  then Ok (QueueObservation queue_name source now ready consumers) else Raise invalid_observation.

(** [severity_for_thresholds], relayna/observability/backpressure.py:66-79: of integers. *)
Definition severity_for_thresholds (value warning_threshold critical_threshold : option Z) : result severity :=
  match value with
  | None => Ok UNKNOWN
  | Some v =>
      normalized ← int_to_float v;
      let reached (t : option Z) : result bool := match t with Some t => f ← int_to_float t; Ok (fle f normalized) | None => Ok false end in
      critical ← reached critical_threshold;
      if critical : bool then Ok CRITICAL
      else warning ← reached warning_threshold; Ok (if warning : bool then WARNING else NORMAL)
  end.

Definition one : spec_float := double_of 1.
Definition zero : spec_float := double_of 0.

Section backpressure.
(** Every operation runs at one instant. *)
Context (now : Z).

(** ** The service *)

(** A collector: the name of its class, and what [collect_snapshot], or [collect] where there is none, answers. *)
Record collector := Collector { cl_class : string; cl_answer : result pressure_snapshot }.

Definition collector_unavailable (c : collector) (e : exn) : pressure_signal :=
  PressureSignal "collector" "pressure_collector_unavailable" UNKNOWN now (Some (cl_class c)) None None (Some (exn_text e))
    (Some "Inspect the pressure signal collector configuration.").

(** [RuntimePressureService.snapshot], relayna/observability/backpressure.py:96-116: a collector that fails is a signal. *)
Definition collect (c : collector) : result pressure_snapshot :=
  match cl_answer c with
  | Ok s => Ok s
  | Raise e => if is_exception e then Ok (PressureSnapshot now [collector_unavailable c e] []) else Raise e
  end.

Definition together (batches : list pressure_snapshot) : pressure_snapshot :=
  PressureSnapshot now (concat (map sn_signals batches)) (concat (map sn_queues batches)).

(** [RuntimePressureService.__init__], relayna/observability/backpressure.py:83-94. *)
Definition positive_concurrency (max_concurrency : Z) : result nat :=
  if max_concurrency <? 1 then Raise (value_error "max_concurrency must be at least 1") else Ok (Z.to_nat max_concurrency).

(** [RuntimePressureService.snapshot], relayna/observability/backpressure.py:118-130: the snapshot from what the gathering of the
    collectors ended in; the recorder gets the signals in order, and its exception ends the snapshot. *)
Definition snapshot_of_batches (record : option (pressure_signal -> result unit)) (gathered : result (list pressure_snapshot)) :
    result pressure_snapshot :=
  batches ← gathered;
  let snapshot := together batches in
  _ ← match record with Some f => _ ← mapM_result f (sn_signals snapshot); Ok tt | None => Ok tt end;
  Ok snapshot.

(** [RuntimePressureService.snapshot], relayna/observability/backpressure.py:96-130. *)
Definition snapshot (collectors : list collector) (record : option (pressure_signal -> result unit)) (max_concurrency : nat)
    (x : result pressure_snapshot) : Prop :=
  exists gathered, ends_in collect collectors max_concurrency gathered /\ x = snapshot_of_batches record gathered.

(** ** Queues *)

(** [QueuePressureCollector.__init__], relayna/observability/backpressure.py:134-153: [hex] is a fresh UUID. *)
Definition source_of (source_id : option string) (hex : string) : result string :=
  let s := match source_id with Some s => strip s | None => "amqp_passive_declare:" +:+ hex end in
  if String.eqb s "" then Raise (value_error "source_id must not be empty") else Ok s.
Definition queue_names_of (names : list string) : list string := unique (List.filter (fun s => negb (String.eqb s "")) (map strip names)).

(** What is read of the inspection of a queue. *)
Record inspection := Inspection { in_message_count : Z; in_consumer_count : option Z }.

Definition queue_unavailable (queue_name : string) : pressure_signal :=
  PressureSignal "queue" "queue_inspection_unavailable" UNKNOWN now (Some queue_name) None None (Some "Queue inspection returned no data.")
    (Some "Verify RabbitMQ management inspection is configured.").
Definition no_consumers (queue_name : string) : pressure_signal :=
  PressureSignal "queue" "consumer_count_zero" CRITICAL now (Some queue_name) (Some zero) (Some one) (Some "Queue has no active consumers.")
    (Some "Start at least one worker for this queue.").

(** The signal of a count against two thresholds. *)
Definition level_signal (scope scope_id kind reason action : string) (value warning critical : Z) : result pressure_signal :=
  s ← severity_for_thresholds (Some value) (Some warning) (Some critical);
  v ← int_to_float value;
  t ← int_to_float (if bool_decide (s = CRITICAL) then critical else warning);
  Ok (PressureSignal scope kind s now (Some scope_id) (Some v) (Some t) (Some reason)
        (if bool_decide (s = NORMAL) then None else Some action)).

(** [QueuePressureCollector.collect_snapshot], relayna/observability/backpressure.py:158-223: one queue. *)
Definition inspect (inspect_queue : string -> result (option inspection)) (source : string) (warning_depth critical_depth : Z) (queue_name : string) :
    result pressure_snapshot :=
  found ← match inspect_queue queue_name with
          | Ok x => Ok x
          | Raise e => if is_exception e then Ok None else Raise e
          end;
  match found with
  | None => Ok (PressureSnapshot now [queue_unavailable queue_name] [])
  | Some i =>
      depth ← level_signal "queue" queue_name "queue_depth_high" ("Queue has " +:+ py_str (PInt (in_message_count i)) +:+ " ready messages.")
                "Add consumers or slow publishers." (in_message_count i) warning_depth critical_depth;
      observed ← queue_observation_of queue_name source now (Some (in_message_count i)) (in_consumer_count i);
      Ok (PressureSnapshot now (depth :: (if bool_decide (in_consumer_count i = Some 0) then [no_consumers queue_name] else [])) [observed])
  end.

(** [QueuePressureCollector.collect_snapshot], relayna/observability/backpressure.py:225-233. *)
Definition collect_queues inspect_queue (source : string) (warning_depth critical_depth : Z) (names : list string) (max_concurrency : nat)
    (x : result pressure_snapshot) : Prop :=
  exists gathered, ends_in (inspect inspect_queue source warning_depth critical_depth) (queue_names_of names) max_concurrency gathered /\
    x = (batches ← gathered; Ok (together batches)).

(** ** Workers *)

Definition worker_count_zero : pressure_signal :=
  PressureSignal "workers" "worker_count_zero" UNKNOWN now None (Some zero) (Some one) (Some "No worker heartbeat records are available.")
    (Some "Verify worker heartbeat reporting is configured.").
Definition worker_signal (name : string) (stale : bool) : pressure_signal :=
  PressureSignal "worker" (if stale then "worker_heartbeat_stale" else "worker_not_running") WARNING now (Some name) None None
    (Some (if stale then "Worker heartbeat is stale." else "Worker reports it is not running."))
    (Some "Inspect worker process health and logs.").
Definition lease_signal (name : string) (expired : spec_float) : pressure_signal :=
  PressureSignal "worker" "lease_expiry_rate_high" WARNING now (Some name) (Some expired) (Some one)
    (Some "Worker has expired active task leases.") (Some "Inspect stuck tasks and worker ownership.").

Definition heartbeat_stale (stale_after_seconds : Z) (w : worker_heartbeat) : bool :=
  match wk_last_heartbeat_at w with None => true | Some t => stale_after_seconds * second <? now - t end.

(** [WorkerHealthPressureCollector.collect], relayna/observability/backpressure.py:262-293: one worker. *)
Definition worker_signals (stale_after_seconds : Z) (w : worker_heartbeat) : result (list pressure_signal) :=
  let stale := heartbeat_stale stale_after_seconds w in
  let expired := List.filter id (wk_leases_expired w) in
  lease ← match expired with
          | [] => Ok []
          | _ => n ← int_to_float (Z.of_nat (length expired)); Ok [lease_signal (wk_name w) n]
          end;
  Ok ((if stale || negb (wk_running w) then [worker_signal (wk_name w) stale] else []) ++ lease)%list.

(** [WorkerHealthPressureCollector.collect], relayna/observability/backpressure.py:246-294. *)
Definition collect_workers (workers_provider : result (list worker_heartbeat)) (stale_after_seconds : Z) : result (list pressure_signal) :=
  workers ← workers_provider;
  match workers with
  | [] => Ok [worker_count_zero]
  | _ => signals ← mapM_result (worker_signals stale_after_seconds) workers; Ok (concat signals)
  end.

(** ** Dead letters *)

(** What is read of a [DLQQueueSummary]. *)
Record dlq_level := DlqLevel { dl_queue_name : string; dl_indexed_count : Z; dl_message_count : option Z }.

Definition dlq_count (s : dlq_level) : Z := from_opt (dl_indexed_count s) (dl_message_count s).

(** [DLQPressureCollector.collect], relayna/observability/backpressure.py:309-334. *)
Definition collect_dlq (summaries_provider : result (list dlq_level)) (warning_count critical_count : Z) : result (list pressure_signal) :=
  summaries ← summaries_provider;
  mapM_result (fun s => level_signal "dlq" (dl_queue_name s) "dlq_growth_high"
    ("DLQ queue has " +:+ py_str (PInt (dlq_count s)) +:+ " indexed or broker-visible messages.")
    "Inspect DLQ causes and replay or resolve messages." (dlq_count s) warning_count critical_count) summaries.

(** A collector that only has [collect]. *)
Definition signals_only (x : result (list pressure_signal)) : result pressure_snapshot := l ← x; Ok (PressureSnapshot now l []).
End backpressure.

(** ** Nothing under pressure is left out

    A snapshot of the runtime's pressure is the same whatever the order in which its collectors and the
    queues are looked at, it always comes, and every queue, worker or collector that has a
    problem has its signal in it. *)


Section gathering.
Context {A B : Type} (work : A -> result B) (items : list A) (k : nat).

(** When no item fails, the gathering ends in all the results. *)
Lemma gathering_total (f : A -> B) x : (0 < k)%nat -> (forall a, a ∈ items -> work a = Ok (f a)) ->
  ends_in work items k x -> x = Ok (map f items).
Proof.
  intros Hk Hw [->|(a & e & Ha & He & _)]%ends_in_ok; [|by rewrite Hw in He|done].
  apply mapM_result_ok. clear -Hw. induction items as [|a l IH]; [constructor|].
  constructor; [apply Hw; left|apply IH; intros b Hb; apply Hw; by right].
Qed.

(** When it ends in results, every item has its own. *)
Lemma gathered_results l : (0 < k)%nat -> ends_in work items k (Ok l) ->
  forall a, a ∈ items -> exists b, work a = Ok b /\ b ∈ l.
Proof.
  intros Hk [E|(? & ? & _ & _ & ?)]%ends_in_ok a Ha; [|done..]. symmetry in E. apply mapM_result_ok in E.
  apply list_elem_of_lookup in Ha as [i Hi]. eapply Forall2_lookup_l in E as (b & Hb & Hw); [|exact Hi].
  exists b. split; [done|by eapply list_elem_of_lookup_2].
Qed.
End gathering.

Section spec.
Context (now : Z).

Lemma in_together s b bs : b ∈ bs -> s ∈ sn_signals b -> s ∈ sn_signals (together now bs).
Proof.
  intros Hb Hs. cbn [sn_signals together]. apply list_elem_of_In, in_concat. exists (sn_signals b).
  split; [apply in_map; by apply list_elem_of_In|by apply list_elem_of_In].
Qed.

(** What a collector contributes: its answer, or the signal that it is unavailable. *)
Definition contribution (c : collector) : pressure_snapshot :=
  match cl_answer c with Ok s => s | Raise e => PressureSnapshot now [collector_unavailable now c e] [] end.

Definition ordinary {A} (x : result A) : Prop := forall e, x = Raise e -> is_exception e = true.

Lemma collect_contribution c : ordinary (cl_answer c) -> collect now c = Ok (contribution c).
Proof. unfold collect, contribution. intros H. destruct (cl_answer c) as [s|e]; [done|]. by rewrite (H e eq_refl). Qed.

(** A snapshot comes, and it holds every collector's contribution, in the order of the collectors. *)
Lemma snapshot_contributions collectors k : (0 < k)%nat -> Forall (fun c => ordinary (cl_answer c)) collectors ->
  (exists x, snapshot now collectors None k x) /\
  forall x, snapshot now collectors None k x -> x = Ok (together now (map contribution collectors)).
Proof.
  intros Hk Hc. rewrite Forall_forall in Hc. split.
  - destruct (gathering_ends (collect now) collectors k) as [g Hg]. eexists. exists g. by split.
  - intros x (g & Hg & ->). apply (gathering_total _ _ _ contribution) in Hg as ->; [done|done|].
    intros c Hin. by apply collect_contribution, Hc.
Qed.

(** ** The three collectors *)

Context (inspect_queue : string -> result (option inspection)) (source : string) (warning_depth critical_depth : Z) (names : list string).
Context (workers_provider : result (list worker_heartbeat)) (stale_after_seconds : Z).
Context (summaries_provider : result (list dlq_level)) (warning_count critical_count : Z).

(** The collectors of the runtime, when the queue collector answers [queues]. *)
Definition runtime_collectors (queues : result pressure_snapshot) : list collector :=
  [Collector "QueuePressureCollector" queues;
   Collector "WorkerHealthPressureCollector" (signals_only now (collect_workers now workers_provider stale_after_seconds));
   Collector "DLQPressureCollector" (signals_only now (collect_dlq now summaries_provider warning_count critical_count))].

Lemma depth_critical scope id kind reason action v w c s :
  level_signal now scope id kind reason action v w c = Ok s -> fle (double_of c) (double_of v) = true ->
  ps_severity s = CRITICAL /\ ps_scope s = scope /\ ps_scope_id s = Some id /\ ps_kind s = kind.
Proof.
  unfold level_signal, severity_for_thresholds. intros Hs Hle.
  destruct (int_to_float v) as [f|] eqn:Ev; [|done]. cbn [mbind result_bind] in Hs.
  destruct (int_to_float c) as [g|] eqn:Ec; [|done]. cbn [mbind result_bind] in Hs.
  rewrite (int_to_float_ok v f Ev), (int_to_float_ok c g Ec), Hle in Hs. cbn [mbind result_bind] in Hs.
  rewrite (bool_decide_true (CRITICAL = CRITICAL)) in Hs by done. rewrite Ec in Hs. cbn [mbind result_bind] in Hs. by injection Hs as <-.
Qed.

(** What the signals of a queue must say of its inspection. *)
Definition queue_told (q : string) (l : list pressure_signal) : Prop :=
  match inspect_queue q with
  | Ok (Some i) =>
      (fle (double_of critical_depth) (double_of (in_message_count i)) = true ->
       exists s, s ∈ l /\ ps_severity s = CRITICAL /\ ps_scope s = "queue" /\ ps_scope_id s = Some q /\ ps_kind s = "queue_depth_high") /\
      (in_consumer_count i = Some 0 -> no_consumers now q ∈ l)
  | _ => queue_unavailable now q ∈ l
  end.

Lemma inspected_told q b : inspect now inspect_queue source warning_depth critical_depth q = Ok b -> queue_told q (sn_signals b).
Proof.
  unfold inspect, queue_told. destruct (inspect_queue q) as [[i|]|e]; cbn [mbind result_bind].
  - destruct (level_signal _ _ _ _ _ _ _ _ _) as [s|] eqn:Es; [|done]. cbn [mbind result_bind].
    destruct (queue_observation_of _ _ _ _ _) as [o|]; [|done]. cbn [mbind result_bind]. intros [= <-]. cbn [sn_signals]. split.
    + intros Hle. exists s. split; [left|]. by eapply depth_critical.
    + intros Hz. right. by rewrite bool_decide_true by done; left.
  - intros [= <-]. left.
  - destruct (is_exception e); [|done]. intros [= <-]. left.
Qed.

(** What the signals must say of a worker. *)
Definition worker_told (w : worker_heartbeat) (l : list pressure_signal) : Prop :=
  (heartbeat_stale now stale_after_seconds w = true -> worker_signal now (wk_name w) true ∈ l) /\
  (wk_running w = false -> exists stale, worker_signal now (wk_name w) stale ∈ l) /\
  (true ∈ wk_leases_expired w -> exists n, lease_signal now (wk_name w) n ∈ l).

Lemma worker_signals_told w b : worker_signals now stale_after_seconds w = Ok b -> worker_told w b.
Proof.
  unfold worker_signals, worker_told. intros Hb.
  destruct (List.filter id (wk_leases_expired w)) as [|x l] eqn:El.
  - cbn [mbind result_bind] in Hb. injection Hb as <-. rewrite app_nil_r. split_and!.
    + intros ->. left.
    + intros ->. exists (heartbeat_stale now stale_after_seconds w). rewrite orb_true_r. left.
    + intros Hin. assert (true ∈ List.filter id (wk_leases_expired w)) as H.
      { apply list_elem_of_In, filter_In. by rewrite <- list_elem_of_In. }
      rewrite El in H. by apply elem_of_nil in H.
  - destruct (int_to_float _) as [n|]; [|done]. cbn [mbind result_bind] in Hb. injection Hb as <-. split_and!.
    + intros ->. left.
    + intros ->. exists (heartbeat_stale now stale_after_seconds w). rewrite orb_true_r. left.
    + intros _. exists n. apply elem_of_app. right. left.
Qed.

Lemma worker_told_more w l l' : worker_told w l -> l ⊆ l' -> worker_told w l'.
Proof. unfold worker_told. intros (H1 & H2 & H3) Hs. split_and!; naive_solver. Qed.

Lemma queue_told_more q l l' : queue_told q l -> l ⊆ l' -> queue_told q l'.
Proof. unfold queue_told. intros H Hs. destruct (inspect_queue q) as [[i|]|e]; naive_solver. Qed.

Lemma workers_told l ws : workers_provider = Ok ws -> collect_workers now workers_provider stale_after_seconds = Ok l ->
  forall w, w ∈ ws -> worker_told w l.
Proof.
  intros ->. unfold collect_workers. cbn [mbind result_bind]. destruct ws as [|w0 ws]; [by intros _ w ?%elem_of_nil|].
  destruct (mapM_result _ _) as [bs|] eqn:E; [|done]. cbn [mbind result_bind]. intros [= <-] w Hw.
  apply mapM_result_ok in E. apply list_elem_of_lookup in Hw as [i Hi]. eapply Forall2_lookup_l in E as (b & Hb & Hx); [|exact Hi].
  eapply worker_told_more; [by apply worker_signals_told|]. intros s Hs. apply list_elem_of_In, in_concat. exists b.
  split; apply list_elem_of_In; [by eapply list_elem_of_lookup_2|done].
Qed.

End spec.

(** ** A silent worker *)

(** Studio's health looks at the newest heartbeat only: a worker that fell silent, at whatever time, is not
    seen as long as another worker of the service beats, although the pressure of the runtime names it. *)
Lemma silent_worker_is_hidden validate_capabilities route stale_after service c silent alive now t reported :
  capability_document validate_capabilities service = Some c -> supports_worker_route route c = true -> 0 <= stale_after ->
  wk_running silent = true -> wk_leases_expired silent = [] -> wk_last_heartbeat_at silent = Some t -> stale_after * second < now - t ->
  wk_running alive = true -> wk_leases_expired alive = [] -> wk_last_heartbeat_at alive = Some now ->
  let w := WorkerSummary WORKERS_UNKNOWN reported (latest_datetime (map wk_last_heartbeat_at [silent; alive])) [silent; alive] None in
  ws_state (materialize_worker_health validate_capabilities route stale_after service w now) = WORKERS_HEALTHY /\
  exists l, collect_workers now (Ok [silent; alive]) stale_after = Ok l /\ worker_signal now (wk_name silent) true ∈ l.
Proof.
  intros Hc Hs H0 Hr1 Hl1 Hb1 Ht Hr2 Hl2 Hb2 w. split.
  - apply workers_healthy. exists c. split; [done|]. split; [done|]. split; [done|]. split.
    + repeat constructor; cbn; by rewrite ?Hl1, ?Hl2.
    + exists now. split; [|unfold second; lia]. cbn. rewrite Hb1, Hb2. cbn. f_equal. unfold second in Ht. lia.
  - unfold collect_workers, worker_signals, heartbeat_stale. cbn. rewrite Hb1, Hl1, Hl2. cbn.
    apply Z.ltb_lt in Ht. rewrite Ht. cbn. eexists. split; [done|]. left.
Qed.

(** ** Witnesses *)

Definition demo_inspect (q : string) : result (option inspection) :=
  if String.eqb q "jobs" then Ok (Some (Inspection 5 (Some 0))) else Raise (Exn XUser "ConnectionError" "down").
Definition demo_worker : worker_heartbeat := WorkerHeartbeat "w1" true (Some 0) [].
Definition demo_dlq : result (list dlq_level) := Raise (Exn XUser "ConnectionError" "down").

Definition demo_batches : list pressure_snapshot :=
  map (fun q => match inspect (1000 * second) demo_inspect "amqp" 1 4 q with Ok b => b | Raise _ => PressureSnapshot 0 [] [] end) ["jobs"; "mail"].

Lemma demo_queues : collect_queues (1000 * second) demo_inspect "amqp" 1 4 [" jobs"; "mail"; "jobs"] 2 (Ok (together (1000 * second) demo_batches)).
Proof.
  destruct (gathering_ends (inspect (1000 * second) demo_inspect "amqp" 1 4) (queue_names_of [" jobs"; "mail"; "jobs"]) 2) as [x Hx].
  exists x. split; [done|].
  apply (gathering_total _ _ _ (fun q => match inspect (1000 * second) demo_inspect "amqp" 1 4 q with
    Ok b => b | Raise _ => PressureSnapshot 0 [] [] end)) in Hx as ->; [reflexivity|lia|].
  intros a Ha. change (queue_names_of [" jobs"; "mail"; "jobs"]) with ["jobs"; "mail"] in Ha.
  apply elem_of_cons in Ha as [->|Ha]; [reflexivity|]. apply list_elem_of_singleton in Ha as ->. reflexivity.
Qed.

