(* ===== verification/Notifications.v ===== *)
(** * The emails about failed tasks (studio/failed_task_notifications.py)

    [FailedTaskEmailNotificationService], without a PostgreSQL history: each
    pass reads the failures nobody has looked at, and sends an email for each,
    or one for all when a batch has waited long enough.  What was sent is marked
    in Redis, what is waiting is kept there. *)

From stdpp Require Import countable.
From S2P Require Import Prelude PyStr PyVal PyTime Json JsonLoads Redis RedisProg EventFeed StudioIngest.
From Stdlib Require Import Ascii.

(** ** Settings *)

Definition MAX_BATCH_WAIT_SECONDS : Z := 604800.

(** [_normalize_batch_wait_seconds], studio/failed_task_notifications.py:504-509: an infinite float raises. *)
Definition normalize_batch_wait_seconds (value : pyval) : result Z :=
  match py_int value with
  | Ok n => Ok (Z.max 0 (Z.min MAX_BATCH_WAIT_SECONDS n))
  | Raise e => if match exn_class e with XTypeError => true | _ => is_value_error e end then Ok 0 else Raise e
  end.

(** [FailedTaskEmailRuntimeSettings], studio/failed_task_notifications.py:73-75. *)
Record runtime_settings := RuntimeSettings { enabled : bool; batch_wait_seconds : Z }.

(** [FailedTaskEmailNotificationConfig], studio/failed_task_notifications.py:27-38. *)
Record email_config := EmailConfig {
  service_url : string; api_key : string; receivers : list string; interval_seconds : Z; timeout_seconds : Z;
  dedupe_ttl_seconds : Z; title_prefix : string; redis_prefix : string; scan_limit : Z; default_enabled : bool;
  default_batch_wait_seconds : Z }.

(** [FailedTaskEmailNotificationConfig.__post_init__], studio/failed_task_notifications.py:40-56: with whole seconds. *)
Definition validate_email_config (c : email_config) : result unit :=
  let check (bad : bool) text := if bad then Raise (value_error text) else Ok tt in
  _ ← check (String.eqb (strip (service_url c)) "") "service_url must be set.";
  _ ← check (String.eqb (strip (api_key c)) "") "api_key must be set.";
  _ ← check (match receivers c with [] => true | _ => false end) "receivers must contain at least one email address.";
  _ ← check (interval_seconds c <? 0) "interval_seconds must be greater than or equal to zero.";
  _ ← check (timeout_seconds c <=? 0) "timeout_seconds must be greater than zero.";
  _ ← check (dedupe_ttl_seconds c <=? 0) "dedupe_ttl_seconds must be greater than zero.";
  _ ← check (scan_limit c <=? 0) "scan_limit must be greater than zero.";
  check ((default_batch_wait_seconds c <? 0) || (MAX_BATCH_WAIT_SECONDS <? default_batch_wait_seconds c))
    "default_batch_wait_seconds must be between 0 and 604800.".

(** ** Texts *)

(** [_string_field], studio/failed_task_notifications.py:484-489. *)
Definition string_field (item : pydict) (key : string) : option string := normalize_string (dgetv key item).

(** [_item_key], studio/failed_task_notifications.py:500-501. *)
Definition item_key (item : pydict) : string :=
  from_opt "" (string_field item "service_id") +:+ ":" +:+ from_opt "" (string_field item "failure_id").

Definition first_field (item : pydict) (a b : string) : option string :=
  match string_field item a with Some s => Some s | None => string_field item b end.

(** [build_failed_task_email_title], studio/failed_task_notifications.py:404-407. *)
Definition build_failed_task_email_title (item : pydict) (title_prefix : string) : string :=
  title_prefix +:+ ": " +:+ from_opt "unknown-service" (first_field item "service_name" "service_id") +:+ " / "
  +:+ from_opt "unknown-failure" (string_field item "failure_id").

(** [build_failed_task_batch_email_title], studio/failed_task_notifications.py:410-413. *)
Definition build_failed_task_batch_email_title (items : list pydict) (title_prefix : string) : string :=
  match items with
  | [item] => build_failed_task_email_title item title_prefix
  | _ => title_prefix +:+ ": " +:+ pretty (Z.of_nat (length items)) +:+ " failed tasks"
  end.

(** [build_failed_task_email_body], studio/failed_task_notifications.py:416-433. *)
Definition build_failed_task_email_body (item : pydict) : string :=
  join (String.String (chr 10) "") (map (fun row : string * option string => row.1 +:+ ": " +:+ from_opt "-" row.2)
    (("Service", first_field item "service_name" "service_id")
     :: map (fun f : string * string => (f.1, string_field item f.2))
       [("Service ID", "service_id"); ("Failure ID", "failure_id"); ("Task ID", "task_id");
        ("Correlation ID", "correlation_id"); ("Queue", "queue_name"); ("DLQ", "dlq_name"); ("Status", "status");
        ("Failed At", "failed_at"); ("Error Type", "error_type"); ("Error Message", "error_message"); ("Worker", "worker_id");
        ("Investigation", "investigation_status"); ("Retry", "retry_status")])).

(** [build_failed_task_batch_email_body], studio/failed_task_notifications.py:436-437. *)
Definition build_failed_task_batch_email_body (items : list pydict) : string :=
  let nl := String.String (chr 10) (String.String (chr 10) "") in
  join (nl +:+ "---" +:+ nl) (map build_failed_task_email_body items).

(** [_parse_datetime], studio/failed_task_notifications.py:512-519: what does not parse is now. *)
Definition parse_started (now : Z) (value : string) : Z :=
  match fromisoformat (of_chars (flat_map (fun c => if Ascii.eqb c "Z"%char then chars "+00:00" else [c]) (chars value))) with
  | Ok t => instant t
  | Raise _ => now
  end.

(** ** The service *)

(** What the email service answered: a status, or no answer. *)
Inductive reply := Status (code : Z) | NoAnswer (e : exn).

(** An email that was posted, the failures it is about (for the statements only), and what became of it. *)
Record posted := Posted { po_items : list pydict; po_title : string; po_body : string; po_reply : reply }.
Definition accepted (p : posted) : bool := match po_reply p with Status code => (200 <=? code) && (code <? 300) | NoAnswer _ => false end.

Section service.
Context {R : Type} `{Redis R}.
(** The floats of JSON; how the email service answers, given the emails so far; the federated listing of the
    unreviewed failures from a cursor; and the pages that are read before the loop is given up. *)
Context (pf : string -> pyfloat) (answer : list posted -> string -> string -> reply).

(** Redis and the emails posted so far. *)
Notation W := (R * list posted)%type.
Notation P := (P W).

Definition on_redis {A} (m : RedisProg.P R A) : P A := fun w fs =>
  let '(r, fs, x) := m w.1 fs in ((r, w.2), fs, x).
Definition read_key (now : Z) (key : string) : P (option string) := on_redis (await_read (fun r => rget r now key)).

Context (list_failed_tasks : option string -> P pydict) (fuel : nat) (config : email_config).
Notation prefix := (redis_prefix config).

(** *** Settings *)

Definition settings_key : string := prefix +:+ ":settings".

Definition default_settings : result runtime_settings :=
  n ← normalize_batch_wait_seconds (PInt (default_batch_wait_seconds config));
  Ok (RuntimeSettings (default_enabled config) n).

(** [RedisFailedTaskEmailSettingsStore.get], studio/failed_task_notifications.py:114-125: of the stored text. *)
Definition parse_settings (payload : option string) : result runtime_settings :=
  match nonempty (from_opt "" payload) with
  | None => default_settings
  | Some s =>
      match py_json_loads pf s with
      | Raise _ => default_settings
      | Ok (PDict data) =>
          n ← normalize_batch_wait_seconds (from_opt (PInt (default_batch_wait_seconds config)) (dget "batch_wait_seconds" data));
          Ok (RuntimeSettings (match dget "enabled" data with Some v => truthy v | None => default_enabled config end) n)
      | Ok _ => Raise (Exn XAttributeError "AttributeError" "object has no attribute 'get'")
      end
  end.

(** [RedisFailedTaskEmailSettingsStore.get], studio/failed_task_notifications.py:112-125. *)
Definition get_settings (now : Z) : P runtime_settings :=
  payload ← read_key now settings_key;
  liftP (parse_settings payload).

(** [RedisFailedTaskEmailSettingsStore.update], studio/failed_task_notifications.py:127-150. *)
Definition update_settings (now : Z) (new_enabled : option bool) (new_wait : option Z) : P runtime_settings :=
  current ← get_settings now;
  n ← liftP (match new_wait with None => Ok (batch_wait_seconds current) | Some n => normalize_batch_wait_seconds (PInt n) end);
  let next := RuntimeSettings (from_opt (enabled current) new_enabled) n in
  _ ← on_redis (await_ (fun r => rset r now settings_key
        (dumps (DumpsOpts true false ", " ": ") (PDict [("enabled", PBool (enabled next));
           ("batch_wait_seconds", PInt (batch_wait_seconds next)); ("updated_at", PStr (isoformat now))])) None));
  mret next.

(** *** The pending batch and the marks *)

Record pending := Pending { started_at : string; pending_items : list pydict }.

Definition notified_key (service_id failure_id : string) : string := prefix +:+ ":notified:" +:+ service_id +:+ ":" +:+ failure_id.
Definition pending_key : string := prefix +:+ ":pending".

Definition dicts (l : list pyval) : list pydict := omap (fun v => match v with PDict d => Some d | _ => None end) l.

(** [FailedTaskEmailNotificationService._load_pending_batch], studio/failed_task_notifications.py:341-352. *)
Definition load_pending_batch (now : Z) : P pending :=
  payload ← read_key now pending_key;
  liftP match nonempty (from_opt "" payload) with
        | None => Ok (Pending (isoformat now) [])
        | Some s =>
            match py_json_loads pf s with
            | Raise _ => Ok (Pending (isoformat now) [])
            | Ok (PDict data) =>
                items ← match dget "items" data with
                        | None => Ok []
                        | Some (PList l) => Ok (dicts l)
                        | Some (PDict _) | Some (PStr _) => Ok []
                        | Some _ => Raise (type_error "object is not iterable")
                        end;
                let started := dgetv "started_at" data in
                Ok (Pending (if truthy started then py_str started else isoformat now) items)
            | Ok _ => Raise (Exn XAttributeError "AttributeError" "object has no attribute 'get'")
            end
        end.

Definition pending_text (p : pending) : string :=
  dumps (DumpsOpts true false ", " ": ") (PDict [("started_at", PStr (started_at p)); ("items", PList (map PDict (pending_items p)))]).

(** [FailedTaskEmailNotificationService._save_pending_batch], studio/failed_task_notifications.py:354-362. *)
Definition save_pending_batch (now : Z) (p : pending) : P unit :=
  on_redis (await_ (fun r => rset r now pending_key (pending_text p) (Some (dedupe_ttl_seconds config)))).

(** [FailedTaskEmailNotificationService._clear_pending_batch], studio/failed_task_notifications.py:364-368. *)
Definition clear_pending_batch (now : Z) : P unit := on_redis (await_ (fun r => (rdel r now pending_key).1)).

(** [FailedTaskEmailNotificationService._mark_notified], studio/failed_task_notifications.py:323-331. *)
Definition mark_notified (now : Z) (service_id failure_id : string) : P unit :=
  on_redis (await_ (fun r => rset r now (notified_key service_id failure_id) (isoformat now) (Some (dedupe_ttl_seconds config)))).

(** [FailedTaskEmailNotificationService._is_notified], studio/failed_task_notifications.py:333-336. *)
Definition is_notified (now : Z) (service_id failure_id : string) : P bool :=
  v ← read_key now (notified_key service_id failure_id);
  mret (match nonempty (from_opt "" v) with Some _ => true | None => false end).

(** *** Sending *)

(** [FailedTaskEmailClient.send], studio/failed_task_notifications.py:179-187. *)
Definition post_email (items : list pydict) (title body : string) : P unit :=
  answered ← await (fun w => let r := answer w.2 title body in ((w.1, (w.2 ++ [Posted items title body r])%list), r));
  liftP match answered with
        | NoAnswer e => Raise e
        | Status code =>
            if (code <? 200) || (300 <=? code)
            then Raise (Exn XRuntimeError "FailedTaskEmailNotificationError" ("Failed-task email service returned HTTP " +:+ pretty code +:+ "."))
            else Ok tt
        end.

(** [FailedTaskEmailNotificationService._send_email], studio/failed_task_notifications.py:249-255. *)
Definition send_email (now : Z) (items : list pydict) (title body : string) : P unit :=
  _ ← reraising (post_email items title body) (on_redis (record_observation prefix now "delivery" false));
  on_redis (record_observation prefix now "delivery" true).

(** Whether an email was sent: its exceptions are logged. *)
Definition try_send (now : Z) (items : list pydict) (title body : string) : P bool :=
  catching (_ ← send_email now items title body; mret true) (fun _ => mret false).

Definition item_ids (item : pydict) : option (string * string) :=
  s ← string_field item "service_id"; f ← string_field item "failure_id"; Some (s, f).

(** [FailedTaskEmailNotificationService._send_immediate_notifications], studio/failed_task_notifications.py:258-273:
    the items that remain and the number sent. *)
Fixpoint send_each (now : Z) (items : list pydict) (sent : Z) (remaining : list pydict) : P (Z * list pydict) :=
  match items with
  | [] => mret (sent, remaining)
  | item :: items =>
      match item_ids item with
      | None => send_each now items sent remaining
      | Some (s, f) =>
          ok ← try_send now [item] (build_failed_task_email_title item (title_prefix config)) (build_failed_task_email_body item);
          if negb ok then send_each now items sent (remaining ++ [item])%list
          else _ ← mark_notified now s f; send_each now items (sent + 1) remaining
      end
  end.

(** [FailedTaskEmailNotificationService._send_immediate_notifications], studio/failed_task_notifications.py:257-279. *)
Definition send_immediate_notifications (now : Z) (items : list pydict) : P Z :=
  done ← send_each now items 0 [];
  _ ← match done.2 with [] => clear_pending_batch now | remaining => save_pending_batch now (Pending (isoformat now) remaining) end;
  mret done.1.

Fixpoint mark_each (now : Z) (items : list pydict) : P unit :=
  match items with
  | [] => mret tt
  | item :: items =>
      _ ← match item_ids item with Some (s, f) => mark_notified now s f | None => mret tt end;
      mark_each now items
  end.

(** [FailedTaskEmailNotificationService._send_batch_notification], studio/failed_task_notifications.py:281-304. *)
Definition send_batch_notification (now : Z) (items : list pydict) : P Z :=
  let valid_items := List.filter (fun i => match item_ids i with Some _ => true | None => false end) items in
  match valid_items with
  | [] => _ ← clear_pending_batch now; mret 0
  | _ =>
      ok ← try_send now valid_items (build_failed_task_batch_email_title valid_items (title_prefix config))
             (build_failed_task_batch_email_body valid_items);
      if negb ok then _ ← save_pending_batch now (Pending (isoformat now) valid_items); mret 0
      else
        _ ← mark_each now valid_items;
        _ ← clear_pending_batch now;
        mret (Z.of_nat (length valid_items))
  end.

(** *** A pass *)

(** [FailedTaskEmailNotificationService._list_unreviewed_failed_task_items], studio/failed_task_notifications.py:306-321:
    until there is no cursor or one that was seen. *)
Fixpoint list_unreviewed (fuel : nat) (cursor : option string) (seen : list string) (items : list pydict) : P (list pydict) :=
  match fuel with
  | O => liftP (Raise (runtime_error "fuel"))
  | S fuel =>
      payload ← list_failed_tasks cursor;
      found ← liftP match dget "items" payload with
                    | None => Ok []
                    | Some (PList l) => Ok (dicts l)
                    | Some (PDict _) | Some (PStr _) => Ok []
                    | Some _ => Raise (type_error "object is not iterable")
                    end;
      let items := (items ++ found)%list in
      match string_field payload "next_cursor" with
      | None => mret items
      | Some c => if str_in c seen then mret items else list_unreviewed fuel (Some c) (c :: seen) items
      end
  end.

(** [FailedTaskEmailNotificationService._should_queue_item], studio/failed_task_notifications.py:236-247. *)
Definition should_queue_item (now : Z) (item : pydict) (p : pending) : P bool :=
  match item_ids item with
  | None => mret false
  | Some (s, f) =>
      notified ← is_notified now s f;
      mret (negb notified && negb (str_in (item_key item) (map item_key (pending_items p))))
  end.

(** [FailedTaskEmailNotificationService._notify_new_failed_tasks], studio/failed_task_notifications.py:220-224. *)
Fixpoint queue_each (now : Z) (items : list pydict) (p : pending) : P pending :=
  match items with
  | [] => mret p
  | item :: items =>
      queue ← should_queue_item now item p;
      queue_each now items (if (queue : bool) then Pending (started_at p) (pending_items p ++ [item])%list else p)
  end.

(** [FailedTaskEmailNotificationService._notify_new_failed_tasks], studio/failed_task_notifications.py:218-234. *)
Definition notify_pass (now : Z) (settings : runtime_settings) : P Z :=
  loaded ← load_pending_batch now;
  items ← list_unreviewed fuel None [] [];
  p ← queue_each now items loaded;
  match pending_items p with
  | [] => _ ← clear_pending_batch now; mret 0
  | waiting =>
      if batch_wait_seconds settings =? 0 then send_immediate_notifications now waiting
      else if now <? parse_started now (started_at p) + batch_wait_seconds settings * second
      then _ ← save_pending_batch now p; mret 0
      else send_batch_notification now waiting
  end.

(** [FailedTaskEmailNotificationService.notify_new_failed_tasks], studio/failed_task_notifications.py:199-216. *)
Definition notify_new_failed_tasks (now : Z) : P Z :=
  settings ← get_settings now;
  if negb (enabled settings) then mret 0
  else
    let lock_key := prefix +:+ ":batch:lock" in
    let lock_ttl := Z.max 1 (timeout_seconds config + 30) in
    acquired ← on_redis (await (fun r => rset_nx r now lock_key (isoformat now) (Some lock_ttl)));
    if negb acquired then mret 0
    else finallyP (notify_pass now settings) (on_redis (await_ (fun r => (rdel r now lock_key).1))).
End service.
