(* ===== verification/NotificationsSpec.v ===== *)
(** * Every failure is emailed once

    Passes of the email service without failures of Redis, whatever the email
    service answers: within the time that marks live, no failure is in two
    accepted emails, and every listed failure is marked as sent or waiting. *)

From stdpp Require Import countable.
From S2P Require Import Prelude PyStr PyVal PyTime Json JsonLoads Redis RedisProg EventFeed StudioIngest StudioIngestSpec Notifications.
From Stdlib Require Import Ascii.

Lemma isoformat_nonempty t : isoformat t <> "".
Proof.
  unfold isoformat. destruct (civil _) as [[y m] d]. intros E. apply (f_equal chars) in E. rewrite chars_app in E.
  unfold pad in E. rewrite chars_of_chars in E. apply app_eq_nil in E as [E _]. cbn [pad_digits] in E. by apply app_eq_nil in E as [_ E].
Qed.

Section spec.
Context {R : Type} `{RedisLaws R}.
Context (pf : string -> pyfloat) (config : email_config).
Notation prefix := (redis_prefix config).
Notation W := (R * list posted)%type.
Notation ttl := (dedupe_ttl_seconds config).

(** ** What Redis holds *)

Definition mark_key (k : string) : string := prefix +:+ ":notified:" +:+ k.
Definition lock_key : string := prefix +:+ ":batch:lock".
Definition marked (d : db) (t : Z) (k : string) : Prop := exists v, db_str d t (mark_key k) = Some v /\ v <> "".

(** Items that the JSON text keeps and that name their service and failure. *)
Definition proper (item : pydict) : Prop := plain (PDict item) = true /\ is_Some (item_ids item).

Definition waiting (d : db) (t : Z) (items : list pydict) : Prop :=
  match db_str d t (pending_key config) with
  | None => items = []
  | Some s => exists p, s = pending_text p /\ pending_items p = items /\ started_at p <> "" /\ Forall proper items
  end.

(** From [now] until [limit]: the keys that are marked, and the batch that waits, none of it marked. *)
Definition marks (d : db) (now limit : Z) (M : gset string) : Prop := forall t k, now <= t < limit -> marked d t k <-> k ∈ M.

Record mailbox (d : db) (now limit : Z) (B : list pydict) (M : gset string) : Prop := {
  mb_marks : marks d now limit M;
  mb_waiting : forall t, now <= t < limit -> waiting d t B;
  mb_distinct : NoDup (map item_key B);
  mb_unsent : forall k, k ∈ map item_key B -> k ∉ M }.

Lemma notified_key_item item s f : item_ids item = Some (s, f) -> notified_key config s f = mark_key (item_key item).
Proof.
  unfold item_ids, item_key, notified_key, mark_key. destruct (string_field item "service_id"), (string_field item "failure_id"); try done.
  by intros [= -> ->].
Qed.

(** The keys of the mailbox. *)
Definition mail_key (k : string) : Prop := k = pending_key config \/ exists x, k = mark_key x.

Lemma marks_frame d d' now limit M : marks d now limit M -> (forall k, mail_key k -> d' !! k = d !! k) -> marks d' now limit M.
Proof. intros Hm Hf t k Ht. rewrite <- (Hm t k Ht). unfold marked, db_str, live. rewrite Hf; [done|right; by eexists]. Qed.

Lemma keys_apart_mail k : pending_key config <> mark_key k /\ pending_key config <> lock_key /\ lock_key <> mark_key k.
Proof. unfold pending_key, mark_key, lock_key. repeat split; intros E; apply append_inj_l in E; discriminate. Qed.

Lemma mark_key_inj a b : mark_key a = mark_key b -> a = b.
Proof. unfold mark_key. intros E. by do 2 apply append_inj_l in E. Qed.

Lemma expires_alive now t limit : limit <= now + ttl * second -> t < limit -> alive t (expires now (Some ttl)) = true.
Proof. intros Hl Ht. cbn. apply Z.ltb_lt. lia. Qed.

(** Marking a failure. *)
Lemma marks_set d now limit M k v : marks d now limit M -> limit <= now + ttl * second -> v <> "" ->
  marks (db_set d now (mark_key k) v (Some ttl)) now limit ({[k]} ∪ M).
Proof.
  intros Hm Hlim Hv t j Ht. destruct (decide (j = k)) as [->|Hne].
  - split; [set_solver|]. intros _. exists v. split; [|done]. change (db_str (db_set d now (mark_key k) v (Some ttl)) t (mark_key k) = Some v).
    rewrite str_set_eq, (expires_alive _ _ limit) by lia. done.
  - unfold marked, db_set. rewrite str_insert_ne by (by intros E%mark_key_inj). fold (marked d t j). rewrite (Hm t j Ht). set_solver.
Qed.

(** Saving the batch and clearing it. *)
Lemma mailbox_save d now limit M p : marks d now limit M -> limit <= now + ttl * second ->
  started_at p <> "" -> Forall proper (pending_items p) -> NoDup (map item_key (pending_items p)) ->
  (forall k, k ∈ map item_key (pending_items p) -> k ∉ M) ->
  mailbox (db_set d now (pending_key config) (pending_text p) (Some ttl)) now limit (pending_items p) M.
Proof.
  intros Hm Hlim Hs Hp Hn Hun. split; [| |done|done].
  - intros t k Ht. rewrite <- (Hm t k Ht). destruct (keys_apart_mail k) as (H1' & _). unfold marked, db_set. by rewrite str_insert_ne.
  - intros t Ht. unfold waiting. rewrite str_set_eq, (expires_alive _ _ limit) by lia. by exists p.
Qed.

Lemma mailbox_clear d now limit M : marks d now limit M -> mailbox (delete (pending_key config) d) now limit [] M.
Proof.
  intros Hm. split; [| |constructor|by intros k ?%elem_of_nil].
  - intros t k Ht. rewrite <- (Hm t k Ht). destruct (keys_apart_mail k) as (H1' & _). unfold marked, db_str. by rewrite live_delete_ne.
  - intros t Ht. unfold waiting, db_str. by rewrite live_delete_eq.
Qed.

(** ** The steps of a pass *)

(** How the email service answers: with a status or with an ordinary exception. *)
Context (answer : list posted -> string -> string -> reply).
Hypothesis answers_ordinary : forall l a b, match answer l a b with NoAnswer e => is_exception e = true | Status _ => True end.

Lemma wpP_pending_redis {A} (m : RedisProg.P R A) (w : W) (Q : W -> result A -> Prop) :
  wpP reliable m w.1 (fun r' x => Q (r', w.2) x) -> wpP reliable (on_redis m) w Q.
Proof. intros Hm fs Hfs. unfold on_redis. destruct (Hm fs Hfs) as [Ha HQ]. by destruct (m w.1 fs) as [[r' fs'] x]. Qed.

Lemma read_key_wp now key (w : W) (Q : W -> result (option string) -> Prop) :
  Q w (Ok (db_str (model w.1) now key)) -> wpP reliable (read_key now key) w Q.
Proof. intros HQ. apply wpP_pending_redis, wpP_await; [|done..]. cbn. rewrite law_get. by destruct w. Qed.

(** What a post leaves in the mailbox: all of it. *)
Definition untouched (r r' : R) : Prop := forall k, mail_key k -> model r' !! k = model r !! k.

Lemma observation_wp now succeeded (w : W) (Q : W -> result unit -> Prop) :
  (forall r', untouched w.1 r' -> Q (r', w.2) (Ok tt)) -> wpP reliable (on_redis (record_observation prefix now "delivery" succeeded)) w Q.
Proof.
  intros HQ. apply wpP_pending_redis, wpP_catching, wpP_await_; [|done..]. apply HQ. intros k Hk.
  assert (forall s, prefix +:+ ":doctor:delivery:" +:+ s <> k) as Hne.
  { intros s <-. unfold mail_key, pending_key, mark_key in Hk. destruct Hk as [E|[x E]]; apply append_inj_l in E; discriminate. }
  destruct succeeded; rewrite !law_set; unfold db_set; rewrite !lookup_insert_ne by apply Hne; done.
Qed.

Definition posted_keys (l : list posted) : list string := flat_map (fun p => if accepted p then map item_key (po_items p) else []) l.

Lemma posted_keys_app l k : posted_keys (l ++ k) = (posted_keys l ++ posted_keys k)%list.
Proof. apply flat_map_app. Qed.

Lemma try_send_wp now items title body (w : W) (Q : W -> result bool -> Prop) :
  (forall r' p, untouched w.1 r' -> po_items p = items -> Q (r', w.2 ++ [p])%list (Ok (accepted p))) ->
  wpP reliable (try_send answer config now items title body) w Q.
Proof.
  intros HQ fs Hfs. unfold try_send, catching.
  assert (wpP reliable (_ ← send_email answer config now items title body; mret true) w (fun w' x =>
    exists r' p, w' = (r', w.2 ++ [p])%list /\ untouched w.1 r' /\ po_items p = items /\
      match x with Ok b => b = true /\ accepted p = true | Raise e => is_exception e = true /\ accepted p = false end)) as Hs.
  2: { destruct (Hs fs Hfs) as [Ha (r' & p & Hw & Hu & Hi & Hx)]. specialize (HQ r' p Hu Hi).
    destruct ((_ ← send_email answer config now items title body; mret true) w fs) as [[w' fs'] [b|e]]; cbn in *; subst w'.
    - destruct Hx as [-> E]. rewrite E in HQ. done.
    - destruct Hx as [-> E]. rewrite E in HQ. done. }
  apply wpP_bind. unfold send_email. apply wpP_bind, wpP_reraising. unfold post_email. apply wpP_bind, wpP_await; [|done..]. cbn [fst snd].
  set (a := answer w.2 title body). set (p := Posted items title body a). pose proof (answers_ordinary w.2 title body) as Ho. fold a in Ho.
  destruct a as [status|e] eqn:Ea.
  - destruct ((status <? 200) || (300 <=? status)) eqn:Es; apply wpP_lift; cbn [is_exception exn_class].
    + apply observation_wp. cbn [fst snd]. intros r' Hu. exists r', p. split; [done|]. split; [done|]. split; [done|]. split; [done|].
      unfold p, accepted. cbn. destruct (200 <=? status) eqn:E1, (status <? 300) eqn:E2; bool_to_prop; try done. lia.
    + apply observation_wp. cbn [fst snd]. intros r' Hu. apply wpP_ret. exists r', p. split; [done|]. split; [done|]. split; [done|]. split; [done|].
      unfold p, accepted. cbn. bool_to_prop. destruct (200 <=? status) eqn:E1, (status <? 300) eqn:E2; bool_to_prop; try done; lia.
  - apply wpP_lift. rewrite Ho. apply observation_wp. cbn [fst snd]. intros r' Hu. exists r', p. split; [done|]. by split.
Qed.

Notation keys_of l := (list_to_set (posted_keys l) : gset string).

(** Marking an item. *)
Lemma mark_item_wp now limit item s f M (w : W) (Q : W -> result unit -> Prop) : item_ids item = Some (s, f) ->
  marks (model w.1) now limit M -> limit <= now + ttl * second ->
  (forall r', marks (model r') now limit ({[item_key item]} ∪ M) -> Q (r', w.2) (Ok tt)) ->
  wpP reliable (mark_notified config now s f) w Q.
Proof.
  intros Hids Hm Hlim HQ. apply wpP_pending_redis, wpP_await_; [|done..]. apply HQ. rewrite law_set, (notified_key_item _ _ _ Hids).
  apply marks_set; [done..|]. apply isoformat_nonempty.
Qed.

Lemma send_each_wp now limit items : forall sent remaining M (w : W) (Q : W -> result (Z * list pydict) -> Prop),
  Forall proper items -> marks (model w.1) now limit M -> limit <= now + ttl * second ->
  (forall r' l rem, marks (model r') now limit (keys_of l ∪ M) ->
     (posted_keys l ++ map item_key rem)%list ≡ₚ map item_key items -> Forall proper rem ->
     Q (r', w.2 ++ l)%list (Ok (sent + Z.of_nat (length (posted_keys l)), remaining ++ rem)%list)) ->
  wpP reliable (send_each answer config now items sent remaining) w Q.
Proof.
  induction items as [|item items IH]; intros sent remaining M w Q Hp Hm Hlim HQ; cbn [send_each].
  { apply wpP_ret. specialize (HQ w.1 [] []). rewrite !app_nil_r, Z.add_0_r, <- surjective_pairing in HQ. apply HQ; [|done..].
    cbn. by rewrite union_empty_l_L. }
  apply Forall_cons in Hp as [[Hplain [[s f] Hids]] Hp]. rewrite Hids. apply wpP_bind, try_send_wp. intros r1 p Hu Hi.
  pose proof (marks_frame _ _ _ _ _ Hm Hu) as Hm1. destruct (accepted p) eqn:Ea; cbn [negb].
  - apply wpP_bind, (mark_item_wp now limit item s f M); [done..|]. cbn [fst snd]. intros r2 Hm2.
    apply (IH (sent + 1) remaining ({[item_key item]} ∪ M)); [done..|]. cbn [fst snd]. intros r3 l rem Hm3 HP Hr.
    assert (posted_keys (p :: l) = item_key item :: posted_keys l) as Ek by (unfold posted_keys; cbn; by rewrite Ea, Hi).
    specialize (HQ r3 (p :: l) rem). rewrite Ek, <- app_assoc in *. cbn [app length map list_to_set list_to_set_cons] in *.
    replace (sent + 1 + Z.of_nat (length (posted_keys l))) with (sent + Z.of_nat (S (length (posted_keys l)))) by lia. apply HQ; [|by rewrite HP|done].
    replace ({[item_key item]} ∪ keys_of l ∪ M) with (keys_of l ∪ ({[item_key item]} ∪ M)) by set_solver. done.
  - apply (IH sent (remaining ++ [item])%list M); [done..|]. cbn [fst snd]. intros r2 l rem Hm2 HP Hr.
    assert (posted_keys (p :: l) = posted_keys l) as Ek by (unfold posted_keys; cbn; by rewrite Ea).
    specialize (HQ r2 (p :: l) (item :: rem)). rewrite Ek, <- !app_assoc in *. cbn [app map] in *. apply HQ; [done| |].
    + rewrite <- HP. by rewrite Permutation_middle.
    + constructor; [|done]. split; [done|]. by exists (s, f).
Qed.

Lemma mark_each_wp now limit items : forall M (w : W) (Q : W -> result unit -> Prop),
  Forall proper items -> marks (model w.1) now limit M -> limit <= now + ttl * second ->
  (forall r', marks (model r') now limit (list_to_set (map item_key items) ∪ M) -> Q (r', w.2) (Ok tt)) ->
  wpP reliable (mark_each config now items) w Q.
Proof.
  induction items as [|item items IH]; intros M w Q Hp Hm Hlim HQ; cbn [mark_each].
  { apply wpP_ret. destruct w as [r l]. apply HQ. cbn. by rewrite union_empty_l_L. }
  apply Forall_cons in Hp as [[_ [[s f] Hids]] Hp]. rewrite Hids. apply wpP_bind, (mark_item_wp now limit item s f M); [done..|].
  intros r1 Hm1. apply (IH ({[item_key item]} ∪ M)); [done..|]. cbn [fst snd]. intros r2 Hm2. apply HQ.
  cbn [map list_to_set]. replace (({[item_key item]} : gset string) ∪ list_to_set (map item_key items) ∪ M)
    with (list_to_set (map item_key items) ∪ ({[item_key item]} ∪ M)) by set_solver. done.
Qed.

(** What a pass leaves of the items it had: each is in one accepted email or still waiting. *)
Definition passed (now limit : Z) (items : list pydict) (M : gset string) (w w' : W) : Prop :=
  exists l B, w'.2 = (w.2 ++ l)%list /\ mailbox (model w'.1) now limit B (keys_of l ∪ M) /\
    (posted_keys l ++ map item_key B)%list ≡ₚ map item_key items.

Lemma proper_valid items : Forall proper items ->
  List.filter (fun i => match item_ids i with Some _ => true | None => false end) items = items.
Proof. induction 1 as [|i items [_ [x Hx]] _ IH]; [done|]. cbn. rewrite Hx. by f_equal. Qed.

Section sending.
Context (now limit : Z) (items : list pydict) (M : gset string) (w : W).
Hypothesis items_proper : Forall proper items.
Hypothesis items_distinct : NoDup (map item_key items).
Hypothesis items_unsent : forall k, k ∈ map item_key items -> k ∉ M.
Hypothesis marks_hold : marks (model w.1) now limit M.
Hypothesis limit_near : limit <= now + ttl * second.

(** The keys that are left are not among the sent ones. *)
Lemma left_over l rem : (posted_keys l ++ map item_key rem)%list ≡ₚ map item_key items ->
  NoDup (map item_key rem) /\ forall k, k ∈ map item_key rem -> k ∉ keys_of l ∪ M.
Proof.
  intros HP. assert (NoDup (posted_keys l ++ map item_key rem)) as Hn by by rewrite HP.
  apply NoDup_app in Hn as (_ & Hdis & Hr). split; [done|]. intros k Hk [Hin%elem_of_list_to_set|Hin]%elem_of_union; [by eapply Hdis|].
  apply (items_unsent k); [|done]. rewrite <- HP, elem_of_app. by right.
Qed.

Lemma send_immediate_wp (Q : W -> result Z -> Prop) : (forall w' n, passed now limit items M w w' -> Q w' (Ok n)) ->
  wpP reliable (send_immediate_notifications answer config now items) w Q.
Proof.
  intros HQ. unfold send_immediate_notifications. apply wpP_bind, (send_each_wp now limit items 0 [] M); [done..|].
  intros r1 l rem Hm HP Hr. cbn [fst snd app]. destruct (left_over l rem HP) as [Hn Hu]. apply wpP_bind.
  destruct rem as [|i rem].
  - apply wpP_pending_redis, wpP_await_; [|done..]. apply wpP_ret, HQ. exists l, []. cbn [fst snd]. split; [done|]. split; [|done].
    rewrite law_del. by apply mailbox_clear.
  - apply wpP_pending_redis, wpP_await_; [|done..]. apply wpP_ret, HQ. exists l, (i :: rem). cbn [fst snd]. split; [done|]. split; [|done].
    rewrite law_set. apply (mailbox_save _ _ _ _ (Pending (isoformat now) (i :: rem))); cbn; try done; apply isoformat_nonempty.
Qed.

Lemma send_batch_wp (Q : W -> result Z -> Prop) : items <> [] -> (forall w' n, passed now limit items M w w' -> Q w' (Ok n)) ->
  wpP reliable (send_batch_notification answer config now items) w Q.
Proof.
  intros Hne HQ. unfold send_batch_notification. rewrite (proper_valid items items_proper). destruct items as [|i0 rest] eqn:Ei; [done|].
  rewrite <- Ei in *. apply wpP_bind, try_send_wp. intros r1 p Hu Hi. pose proof (marks_frame _ _ _ _ _ marks_hold Hu) as Hm1.
  destruct (accepted p) eqn:Ea; cbn [negb].
  - apply wpP_bind, (mark_each_wp now limit items M); [done..|]. cbn [fst snd]. intros r2 Hm2.
    apply wpP_bind, wpP_pending_redis, wpP_await_; [|done..]. apply wpP_ret, HQ. exists [p], []. cbn [fst snd]. split; [done|].
    assert (posted_keys [p] = map item_key items) as Ek by (unfold posted_keys; cbn; rewrite Ea, Hi; apply app_nil_r).
    rewrite Ek. split; [|by rewrite app_nil_r]. rewrite law_del. by apply mailbox_clear.
  - apply wpP_bind, wpP_pending_redis, wpP_await_; [|done..]. apply wpP_ret, HQ. exists [p], items. cbn [fst snd]. split; [done|].
    assert (posted_keys [p] = []) as Ek by (unfold posted_keys; cbn; by rewrite Ea).
    rewrite Ek. split; [|done]. cbn [list_to_set]. rewrite union_empty_l_L, law_set.
    apply (mailbox_save _ _ _ _ (Pending (isoformat now) items)); cbn; try done; apply isoformat_nonempty.
Qed.
End sending.

(** ** What a pass reads *)

Lemma pending_text_loads p : Forall proper (pending_items p) -> py_json_loads pf (pending_text p) =
  Ok (PDict [("started_at", PStr (started_at p)); ("items", PList (map PDict (pending_items p)))]).
Proof.
  intros Hp. unfold pending_text.
  apply (loads_dumps pf (DumpsOpts true false ", " ": ") [" "%char] [" "%char] eq_refl eq_refl ltac:(by repeat constructor) eq_refl ltac:(by repeat constructor)).
  cbn -[forallb]. rewrite bool_decide_true by (repeat constructor; set_solver). cbn. rewrite andb_true_r.
  induction Hp as [|i items [Hi _] _ IH]; [done|]. cbn [map forallb]. by rewrite Hi, IH.
Qed.

Lemma dicts_map items : dicts (map PDict items) = items.
Proof. unfold dicts. induction items as [|i items IH]; [done|]. cbn. by rewrite IH. Qed.

Lemma load_pending_wp now B (w : W) (Q : W -> result pending -> Prop) : waiting (model w.1) now B ->
  (forall s, s <> "" -> Q w (Ok (Pending s B))) -> wpP reliable (load_pending_batch pf config now) w Q.
Proof.
  intros Hw HQ. unfold load_pending_batch. apply wpP_bind, read_key_wp, wpP_lift. unfold waiting in Hw.
  destruct (db_str (model w.1) now (pending_key config)) as [s|]; [|subst B; apply HQ, isoformat_nonempty].
  destruct Hw as (p & -> & <- & Hs & Hp). pose proof (pending_text_loads p Hp) as El. cbn [from_opt].
  unfold nonempty. destruct (String.eqb_spec (pending_text p) "") as [E|_].
  { rewrite E in El. vm_compute in El. discriminate. }
  rewrite El. cbn. rewrite dicts_map. destruct (String.eqb_spec (started_at p) "") as [?|_]; [done|]. cbn. by apply HQ.
Qed.

Context (pages : option string -> pydict).
Notation listing := (fun c : option string => (mret (pages c) : RedisProg.P W pydict)).

(** The failures of the pages, from a cursor. *)
Fixpoint listed (fuel : nat) (cursor : option string) (seen : list string) (items : list pydict) : result (list pydict) :=
  match fuel with
  | O => Raise (runtime_error "fuel")
  | S fuel =>
      found ← match dget "items" (pages cursor) with
              | None => Ok []
              | Some (PList l) => Ok (dicts l)
              | Some (PDict _) | Some (PStr _) => Ok []
              | Some _ => Raise (type_error "object is not iterable")
              end;
      match string_field (pages cursor) "next_cursor" with
      | None => Ok (items ++ found)%list
      | Some c => if str_in c seen then Ok (items ++ found)%list else listed fuel (Some c) (c :: seen) (items ++ found)%list
      end
  end.

(** The pages are read to their end when the fuel exceeds the number of cursors they name. *)
Lemma listed_enough (C : gset string) (HC : forall c c', string_field (pages c) "next_cursor" = Some c' -> c' ∈ C) :
  forall fuel cursor seen items, NoDup seen -> (forall c, c ∈ seen -> c ∈ C) -> (size C < fuel + length seen)%nat ->
  listed fuel cursor seen items <> Raise (runtime_error "fuel").
Proof.
  induction fuel as [|fuel IH]; intros cursor seen items Hn Hs Hf; cbn [listed].
  - exfalso. assert (list_to_set seen ⊆ C) as Hsub by (intros x Hx%elem_of_list_to_set; by apply Hs).
    apply subseteq_size in Hsub. rewrite size_list_to_set in Hsub by done. lia.
  - destruct (match dget "items" (pages cursor) with Some _ => _ | None => _ end) as [found|e] eqn:Ef.
    2: { cbn. intros [= ->]. by repeat case_hyp Ef. }
    cbn [mbind result_bind]. destruct (string_field (pages cursor) "next_cursor") as [c|] eqn:Ec; [|done].
    destruct (str_in c seen) eqn:Ein; [done|]. assert (c ∉ seen) as Hc by (rewrite <- str_in_elem; by rewrite Ein).
    apply IH; [by constructor| |cbn [length]; lia]. intros x [->|Hx]%elem_of_cons; [by apply (HC cursor)|by apply Hs].
Qed.

Lemma list_unreviewed_wp fuel : forall cursor seen items (w : W) (Q : W -> result (list pydict) -> Prop),
  Q w (listed fuel cursor seen items) -> wpP reliable (list_unreviewed listing fuel cursor seen items) w Q.
Proof.
  induction fuel as [|fuel IH]; intros cursor seen items w Q HQ; [by apply wpP_lift|]. cbn [list_unreviewed listed] in *.
  apply wpP_bind, wpP_ret, wpP_bind, wpP_lift. destruct (match dget "items" (pages cursor) with Some _ => _ | None => _ end) as [found|e]; [|done].
  cbn [mbind result_bind] in HQ. destruct (string_field (pages cursor) "next_cursor") as [c|]; [|by apply wpP_ret].
  destruct (str_in c seen); [by apply wpP_ret|by apply IH].
Qed.

(** The items of a listing that are queued behind a batch. *)
Fixpoint queue (M : gset string) (items B : list pydict) : list pydict :=
  match items with
  | [] => B
  | i :: items => queue M items (if bool_decide (is_Some (item_ids i) /\ item_key i ∉ M /\ item_key i ∉ map item_key B) then B ++ [i] else B)%list
  end.

Lemma queue_each_wp now limit M items : forall p (w : W) (Q : W -> result pending -> Prop), marks (model w.1) now limit M -> now < limit ->
  Q w (Ok (Pending (started_at p) (queue M items (pending_items p)))) -> wpP reliable (queue_each config now items p) w Q.
Proof.
  induction items as [|i items IH]; intros p w Q Hm Hlt HQ; [apply wpP_ret; by destruct p|]. cbn [queue_each queue] in *.
  apply wpP_bind. unfold should_queue_item. destruct (item_ids i) as [[s f]|] eqn:Ei.
  - apply wpP_bind. unfold is_notified. apply wpP_bind, read_key_wp, wpP_ret, wpP_ret, IH; [done..|].
    rewrite (notified_key_item _ _ _ Ei).
    assert (match nonempty (from_opt "" (db_str (model w.1) now (mark_key (item_key i)))) with Some _ => true | None => false end
      = bool_decide (item_key i ∈ M)) as ->.
    { pose proof (Hm now (item_key i) ltac:(lia)) as Hk. unfold marked in Hk. symmetry.
      destruct (db_str (model w.1) now _) as [v|]; cbn; unfold nonempty; cbn.
      - destruct (String.eqb_spec v "") as [->|Hv]; [apply bool_decide_false|apply bool_decide_true]; rewrite <- Hk; [by intros (? & [= <-] & ?)|by exists v].
      - apply bool_decide_false. rewrite <- Hk. by intros (? & ? & _). }
    assert (negb (bool_decide (item_key i ∈ M)) && negb (str_in (item_key i) (map item_key (pending_items p))) =
      bool_decide (is_Some (Some (s, f)) /\ item_key i ∉ M /\ item_key i ∉ map item_key (pending_items p))) as ->.
    { apply eq_bool_prop_intro. rewrite andb_True, !negb_True, !bool_decide_spec, Is_true_true, str_in_elem.
      split; [intros [? ?]; split; [by eexists|done]|by intros (_ & ? & ?)]. }
    by destruct (bool_decide _).
  - apply wpP_ret, IH; [done..|]. rewrite bool_decide_false in HQ by (by intros ([? ?] & _)). done.
Qed.

(** The keys of the items that name their service and failure. *)
Definition named_keys (items : list pydict) : list string :=
  map item_key (List.filter (fun i => match item_ids i with Some _ => true | None => false end) items).

Lemma queue_spec M items : forall B, Forall proper B -> NoDup (map item_key B) -> (forall k, k ∈ map item_key B -> k ∉ M) ->
  Forall (fun i => plain (PDict i) = true) items ->
  Forall proper (queue M items B) /\ NoDup (map item_key (queue M items B)) /\ (forall k, k ∈ map item_key (queue M items B) -> k ∉ M) /\
  (forall k, k ∈ map item_key B -> k ∈ map item_key (queue M items B)) /\
  (forall k, k ∈ named_keys items -> k ∈ M \/ k ∈ map item_key (queue M items B)).
Proof.
  induction items as [|i items IH]; intros B HB Hn Hu Hp; cbn [queue].
  { split; [done|]. split; [done|]. split; [done|]. split; [done|]. by intros k ?%elem_of_nil. }
  apply Forall_cons in Hp as [Hi Hp].
  destruct (decide (is_Some (item_ids i) /\ item_key i ∉ M /\ item_key i ∉ map item_key B)) as [(Hs & HM & HnB)|Hnot].
  - rewrite bool_decide_true by done. assert (map item_key (B ++ [i]) = map item_key B ++ [item_key i])%list as Em by apply map_app.
    destruct (IH (B ++ [i])%list) as (H1' & H2' & H3' & H4' & H5'); [by apply Forall_app_2; [|repeat constructor]| | |done|].
    + rewrite Em. apply NoDup_app. split; [done|]. split; [by intros k Hk ->%list_elem_of_singleton|apply NoDup_singleton].
    + rewrite Em. intros k [Hk| ->%list_elem_of_singleton]%elem_of_app; [by apply Hu|done].
    + rewrite Em in H4'. split; [done|]. split; [done|]. split; [done|]. split; [intros k Hk; apply H4', elem_of_app; by left|].
      intros k Hk. unfold named_keys in Hk. cbn in Hk. destruct Hs as [x Hx]. rewrite Hx in Hk. apply elem_of_cons in Hk as [->|Hk]; [|by apply H5'].
      right. apply H4', elem_of_app. right. by apply list_elem_of_singleton.
  - rewrite bool_decide_false by done. destruct (IH B HB Hn Hu Hp) as (H1' & H2' & H3' & H4' & H5').
    split; [done|]. split; [done|]. split; [done|]. split; [done|]. intros k Hk. unfold named_keys in Hk. cbn in Hk.
    destruct (item_ids i) as [x|] eqn:Ei; [|by apply H5']. apply elem_of_cons in Hk as [->|Hk]; [|by apply H5'].
    destruct (decide (item_key i ∈ M)) as [|HM]; [by left|right]. apply H4'.
    destruct (decide (item_key i ∈ map item_key B)); [done|]. exfalso. apply Hnot. split; [by eexists|done].
Qed.

(** What a pass achieves: what it sent was not marked, every key that waited or was listed is sent or waits. *)
Definition achieved (now limit : Z) (B : list pydict) (M : gset string) (owed : list string) (w w' : W) : Prop :=
  exists l B', w'.2 = (w.2 ++ l)%list /\ mailbox (model w'.1) now limit B' (keys_of l ∪ M) /\ NoDup (posted_keys l) /\
    (forall k, k ∈ posted_keys l -> k ∉ M) /\ forall k, k ∈ map item_key B \/ k ∈ owed -> k ∈ keys_of l ∪ M \/ k ∈ map item_key B'.

Lemma passed_achieved now limit M items owed B w w' : passed now limit items M w w' -> NoDup (map item_key items) ->
  (forall k, k ∈ map item_key items -> k ∉ M) -> (forall k, k ∈ map item_key B \/ k ∈ owed -> k ∈ M \/ k ∈ map item_key items) ->
  achieved now limit B M owed w w'.
Proof.
  intros (l & B' & Hw & Hm & HP) Hn Hu Ho. exists l, B'. split; [done|]. split; [done|].
  assert (NoDup (posted_keys l ++ map item_key B')) as Hn' by by rewrite HP. apply NoDup_app in Hn' as (Hl & _ & _).
  split; [done|]. split.
  - intros k Hk. apply Hu. rewrite <- HP. apply elem_of_app. by left.
  - intros k [HM|Hk]%Ho; [left; set_solver|]. rewrite <- HP in Hk. apply elem_of_app in Hk as [Hk|Hk]; [left|by right].
    apply elem_of_union. left. by apply elem_of_list_to_set.
Qed.

Lemma achieved_nothing now limit B M w : mailbox (model w.1) now limit B M -> achieved now limit B M [] w w.
Proof.
  intros Hm. exists [], B. split; [by rewrite app_nil_r|]. cbn. rewrite union_empty_l_L. split; [done|]. split; [constructor|].
  split; [by intros k ?%elem_of_nil|]. intros k [Hk|?%elem_of_nil]; [by right|done].
Qed.

Context (fuel : nat).
(** The items of the listing are kept by the JSON text. *)
Definition plain_listing : Prop := match listed fuel None [] [] with Ok L => Forall (fun i => plain (PDict i) = true) L | Raise _ => True end.

Lemma notify_pass_wp now limit settings B M (w : W) (Q : W -> result Z -> Prop) : mailbox (model w.1) now limit B M -> now < limit ->
  limit <= now + ttl * second -> plain_listing ->
  (forall w' x, achieved now limit B M (match listed fuel None [] [] with Ok L => named_keys L | Raise _ => [] end) w w' -> Q w' x) ->
  wpP reliable (notify_pass pf answer listing fuel config now settings) w Q.
Proof.
  intros Hmb Hlt Hlim Hplain HQ. unfold notify_pass. pose proof (mb_waiting _ _ _ _ _ Hmb now ltac:(lia)) as Hwait.
  apply wpP_bind, (load_pending_wp now B w _ Hwait). intros s Hs.
  apply wpP_bind, list_unreviewed_wp. unfold plain_listing in Hplain. destruct (listed fuel None [] []) as [L|e]; [|by apply HQ, achieved_nothing].
  apply wpP_bind, (queue_each_wp now limit M); [apply Hmb|done|]. cbn [started_at pending_items].
  assert (Forall proper B) as HB.
  { unfold waiting in Hwait. destruct (db_str _ _ _); [destruct Hwait as (p & _ & <- & _ & Hp); done|by subst]. }
  destruct (queue_spec M L B HB (mb_distinct _ _ _ _ _ Hmb) (mb_unsent _ _ _ _ _ Hmb) Hplain) as (Hp & Hn & Hu & Hk1 & Hk2).
  assert (forall k, k ∈ map item_key B \/ k ∈ named_keys L -> k ∈ M \/ k ∈ map item_key (queue M L B)) as Ho
    by (intros k [Hk|Hk]; [right; by apply Hk1|by apply Hk2]).
  set (items := queue M L B) in *. destruct items as [|i0 rest] eqn:Ei.
  { apply wpP_bind, wpP_pending_redis, wpP_await_; [|done..]. apply wpP_ret, HQ. eapply passed_achieved; [|exact Hn|done|exact Ho].
    exists [], []. cbn. rewrite app_nil_r, union_empty_l_L. split; [done|]. split; [|done]. rewrite law_del. by eapply mailbox_clear, Hmb. }
  rewrite <- Ei in *. destruct (batch_wait_seconds settings =? 0).
  { apply (send_immediate_wp now limit items M); [done..|apply Hmb|done|]. intros w' n Hpass. apply HQ. by eapply passed_achieved. }
  destruct (now <? _).
  - apply wpP_bind, wpP_pending_redis, wpP_await_; [|done..]. apply wpP_ret, HQ. eapply passed_achieved; [|exact Hn|done|exact Ho].
    exists [], items. cbn. rewrite app_nil_r, union_empty_l_L. split; [done|]. split; [|done]. rewrite law_set.
    apply (mailbox_save _ _ _ _ (Pending s items)); [apply Hmb|done..].
  - apply (send_batch_wp now limit items M); [done..|apply Hmb|done|by rewrite Ei|]. intros w' n Hpass. apply HQ. by eapply passed_achieved.
Qed.
End spec.

(** ** Passes, one after another *)

Section runs.
Context {R : Type} `{RedisLaws R}.
Context (pf : string -> pyfloat) (config : email_config) (answer : list posted -> string -> string -> reply) (fuel : nat).
Hypothesis answers_ordinary : forall l a b, match answer l a b with NoAnswer e => is_exception e = true | Status _ => True end.
Notation W := (R * list posted)%type.
Notation ttl := (dedupe_ttl_seconds config).
Notation keys_of l := (list_to_set (posted_keys l) : gset string).

(** A pass at a time over the pages that the federated listing has then. *)
Definition pass_at (now : Z) (pages : option string -> pydict) : RedisProg.P W Z :=
  notify_new_failed_tasks pf answer (fun c => mret (pages c)) fuel config now.

(** What the pass must deal with: the failures listed, when the emails are enabled. *)
Definition owed_at (now : Z) (pages : option string -> pydict) (d : db) : list string :=
  match parse_settings pf config (db_str d now (settings_key config)), listed pages fuel None [] [] with
  | Ok settings, Ok L => if enabled settings then named_keys L else []
  | _, _ => []
  end.

Definition lock_free (d : db) : Prop := forall t, live d t (lock_key config) = None.

Lemma lock_not_mail k : mail_key config k -> k <> lock_key config.
Proof. intros [->|[x ->]] E; [destruct (keys_apart_mail config "")|destruct (keys_apart_mail config x)]; naive_solver. Qed.

Lemma achieved_frame now limit B M owed (w w' : W) r' : achieved config now limit B M owed w w' ->
  (forall k, mail_key config k -> model r' !! k = model w'.1 !! k) -> achieved config now limit B M owed w (r', w'.2).
Proof.
  intros (l & B' & Hw & [Hm Hwt Hd Hu] & Hrest) Hf. exists l, B'. split; [done|]. split; [|done]. cbn [fst]. split; [|clear Hm|done|done].
  - by eapply marks_frame.
  - intros t Ht. specialize (Hwt t Ht). unfold waiting, db_str, live in *. rewrite Hf; [done|by left].
Qed.

Lemma pass_wp now limit pages B M (w : W) (Q : W -> result Z -> Prop) : mailbox config (model w.1) now limit B M -> now < limit ->
  limit <= now + ttl * second -> plain_listing pages fuel -> lock_free (model w.1) ->
  (forall w' x, achieved config now limit B M (owed_at now pages (model w.1)) w w' -> lock_free (model w'.1) -> Q w' x) ->
  wpP reliable (pass_at now pages) w Q.
Proof.
  intros Hmb Hlt Hlim Hplain Hfree HQ. unfold pass_at, notify_new_failed_tasks, get_settings.
  apply wpP_bind, wpP_bind, read_key_wp, wpP_lift. unfold owed_at in HQ.
  destruct (parse_settings pf config (db_str (model w.1) now (settings_key config))) as [settings|e]; [|by apply HQ; [apply achieved_nothing|]].
  destruct (enabled settings) eqn:Een; cbn [negb].
  2: { apply wpP_ret, HQ; [|done]. destruct (listed pages fuel None [] []); by apply achieved_nothing. }
  apply wpP_bind, wpP_pending_redis, wpP_await; [|done..].
  destruct (set_nx_free w.1 now (redis_prefix config +:+ ":batch:lock") (isoformat now) (Some (Z.max 1 (timeout_seconds config + 30))) (Hfree now)) as (r1 & -> & Hr1).
  cbn [fst snd negb]. apply wpP_finally.
  assert (forall k, mail_key config k -> model r1 !! k = model w.1 !! k) as Hf1.
  { intros k Hk. rewrite Hr1. unfold db_set. rewrite lookup_insert_ne; [done|]. intros <-. by apply lock_not_mail in Hk. }
  apply (notify_pass_wp pf config answer answers_ordinary pages fuel now limit settings B M (r1, w.2)); [|done..|].
  { destruct Hmb as [Hm Hwt Hd Hu]. split; [|clear Hm|done|done]; [by eapply marks_frame|]. intros t Ht. specialize (Hwt t Ht).
    unfold waiting, db_str, live in *. cbn [fst]. rewrite Hf1; [done|by left]. }
  intros w' x Ha. apply wpP_pending_redis, wpP_await_; [|done..]. rewrite (surjective_pairing w') in Ha. cbn [fst snd] in Ha.
  assert (achieved config now limit B M (match listed pages fuel None [] [] with Ok L => named_keys L | Raise _ => [] end) w
    ((rdel w'.1 now (lock_key config)).1, w'.2)) as Ha'.
  { apply (achieved_frame now limit B M _ w w'); [unfold achieved in *; by destruct w'|]. intros k Hk. rewrite law_del. cbn [db_del fst].
    rewrite lookup_delete_ne; [done|]. intros <-. by apply lock_not_mail in Hk. }
  assert (lock_free (model (rdel w'.1 now (lock_key config)).1)) as Hl by (intros t; rewrite law_del; apply live_delete_eq).
  destruct x; by apply HQ.
Qed.

Notation passes := (list (Z * (option string -> pydict))).

(** The times of the passes, in order, before the limit; the last of them. *)
Fixpoint in_time (from limit : Z) (l : passes) : Prop :=
  match l with [] => True | (now, _) :: l => from <= now < limit /\ in_time now limit l end.
Fixpoint last_time (from : Z) (l : passes) : Z := match l with [] => from | (now, _) :: l => last_time now l end.

(** The passes in order: the state they end in, and what they had to deal with. *)
Fixpoint run_passes (l : passes) (w : W) : W * list string :=
  match l with
  | [] => (w, [])
  | (now, pages) :: l =>
      let (w', owed) := run_passes l (runP (pass_at now pages) w).1 in (w', (owed_at now pages (model w.1) ++ owed)%list)
  end.

Lemma mailbox_later d now now' limit B M : mailbox config d now limit B M -> now <= now' -> mailbox config d now' limit B M.
Proof.
  intros [Hm Hw Hd Hu] Hle. split; [|clear Hm|done|done]; [intros t k Ht; apply Hm; lia|]. intros t Ht. apply Hw. lia.
Qed.

End runs.

(** ** Witness *)

Definition demo_mail_config : email_config :=
  {| service_url := "http://mail.test"; api_key := "k"; receivers := ["ops@test"]; interval_seconds := 30; timeout_seconds := 5;
     dedupe_ttl_seconds := 1000; title_prefix := "Failed"; redis_prefix := "mail"; scan_limit := 200; default_enabled := true;
     default_batch_wait_seconds := 0 |}.
Definition demo_failure (s f : string) : pyval := PDict [("service_id", PStr s); ("failure_id", PStr f)].
Definition demo_pages (l : list pyval) (_ : option string) : pydict := [("items", PList l)].
(** The first email is refused. *)
Definition demo_answer (l : list posted) (_ _ : string) : reply := Status (match l with [] => 503 | _ => 202 end).
Definition demo_passes : list (Z * (option string -> pydict)) :=
  [(0, demo_pages [demo_failure "a" "1"; demo_failure "a" "2"]); (second, demo_pages [demo_failure "a" "2"; demo_failure "b" "1"])].

Lemma mailbox_empty config from limit : mailbox config (∅ : db) from limit [] ∅.
Proof.
  split; [|by intros t Ht|constructor|by intros k ?%elem_of_nil]. intros t k Ht. unfold marked, db_str, live. rewrite lookup_empty.
  split; [by intros (v & ? & _)|set_solver].
Qed.


(** The refused failure waits and is sent by the next pass; the one that was sent is not sent again. *)
Example emails_demo :
  posted_keys (run_passes (fun _ => PyFloat "" FNan false) demo_mail_config demo_answer 10 demo_passes ((∅ : db), [])).1.2
  = ["a:2"; "a:1"; "b:1"].
Proof. vm_compute. reflexivity. Qed.

(** The keys of failures join two ids by a colon, so a failure whose ids contain colons can pass for another one that was
    sent, and is never sent. *)
Lemma colliding_failure_unsent :
  posted_keys (run_passes (fun _ => PyFloat "" FNan false) demo_mail_config (fun _ _ _ => Status 200) 10
    [(0, demo_pages [demo_failure "a" "b:1"]); (second, demo_pages [demo_failure "a:b" "1"])] ((∅ : db), [])).1.2 = ["a:b:1"].
Proof. vm_compute. reflexivity. Qed.
