(* ===== verification/Reliability.v ===== *)
(** * Reliability goals and their alerts (studio/_reliability.py)

    A goal is a threshold on the evidence of a service, with the people to
    tell.  Studio turns a goal into PromQL, reads the evidence of a moment
    ([preview]), and takes the alerts that Alertmanager posts ([deliver]): each
    is emailed once, in one transaction with the record of what was sent. *)

From S2P Require Import Prelude PyStr PyVal PyFloat PyTime PyRe PyUrl Json Sha256 StudioErrors StudioTime.
From Stdlib Require Import Ascii.
From Stdlib Require Import SpecFloat.

(** ** Goals *)

(** [_Kind], studio/_reliability.py:28-30. *)
Inductive goal_kind := BACKLOG_AGE | RETRY_ACTIVITY | STALE_LEASES | MISSING_WORKER | COMPLETION_SUCCESS | END_TO_END_LATENCY.

#[export] Instance goal_kind_eq_dec : EqDecision goal_kind.
Proof. solve_decision. Defined.

Definition kind_value (k : goal_kind) : string :=
  match k with
  | BACKLOG_AGE => "backlog_age" | RETRY_ACTIVITY => "retry_activity" | STALE_LEASES => "stale_leases"
  | MISSING_WORKER => "missing_worker" | COMPLETION_SUCCESS => "completion_success" | END_TO_END_LATENCY => "end_to_end_latency"
  end.

(** [_BUSINESS], studio/_reliability.py:31-31. *)
Definition business (k : goal_kind) : bool := match k with COMPLETION_SUCCESS | END_TO_END_LATENCY => true | _ => false end.

(** A double, and what Python shows of it. *)
Record float64 := Float64 { fl : spec_float; fl_shown : pyfloat }.
Definition fl_text (f : float64) : string := float_text (fl_shown f).

(** [_GoalInput], studio/_reliability.py:49-62. *)
Record goal_input := GoalInput {
  g_service_id : string; g_environment : string; g_name : string; g_owner : string; g_kind : goal_kind; threshold : float64;
  window_seconds : Z; deadline_seconds : Z; freshness_seconds : Z; hold_seconds : Z; runtime_scope_confirmed : bool;
  goal_receivers : list string }.

(** [_Goal], studio/_reliability.py:80-83. *)
Record goal := Goal { g_input : goal_input; g_id : string; g_revision : string; g_created_at : string }.

Definition invalid_goal : exn := Exn XValidationError "ValidationError" "invalid goal".

Definition not_address (c : ascii) : bool := negb (is_space c || Ascii.eqb c "@" || Ascii.eqb c "<" || Ascii.eqb c ">").

(** The pattern of an address, to the end of the text. *)
Definition EMAIL : regex :=
  let word := RRepeat (RClass not_address) 1 None in
  RSeq word (RSeq (re_char "@") (RSeq word (RSeq (re_char ".") (RSeq word (RNotBefore (fun _ => true)))))).

(** [list(dict.fromkeys(values))] *)
(** [_GoalInput._emails], studio/_reliability.py:66-71. *)
Definition validate_receivers (values : list string) : result (list string) :=
  if existsb (fun v => match re_match EMAIL (None, chars v) with None => true | Some _ => (320 <? Z.of_nat (String.length v)) end) values
  then Raise invalid_goal else Ok (unique values).

Definition between (lo hi x : Z) : bool := (lo <=? x) && (x <=? hi).
Definition text_between (lo hi : Z) (s : string) : bool := between lo hi (Z.of_nat (String.length s)).

(** [_GoalInput], studio/_reliability.py:49-77: the validation of a request, whose strings are stripped. *)
Definition validate_goal (i : goal_input) : result goal_input :=
  let s := GoalInput (strip (g_service_id i)) (strip (g_environment i)) (strip (g_name i)) (strip (g_owner i)) (g_kind i) (threshold i)
             (window_seconds i) (deadline_seconds i) (freshness_seconds i) (hold_seconds i) (runtime_scope_confirmed i)
             (map strip (goal_receivers i)) in
  let bounded := text_between 1 500 (g_service_id s) && text_between 1 128 (g_environment s) && text_between 1 120 (g_name s)
    && text_between 1 120 (g_owner s) && flt (double_of 0) (fl (threshold s)) && fle (fl (threshold s)) (double_of 1000000000)
    && between 60 2592000 (window_seconds s) && between 1 86400 (deadline_seconds s) && between 30 3600 (freshness_seconds s)
    && between 0 3600 (hold_seconds s) && between 1 20 (Z.of_nat (length (goal_receivers s))) in
  if negb bounded then Raise invalid_goal
  else
    receivers ← validate_receivers (goal_receivers s);
    if business (g_kind s) && flt (double_of 100) (fl (threshold s)) then Raise invalid_goal
    else Ok (GoalInput (g_service_id s) (g_environment s) (g_name s) (g_owner s) (g_kind s) (threshold s) (window_seconds s)
               (deadline_seconds s) (freshness_seconds s) (hold_seconds s) (runtime_scope_confirmed s) receivers).

(** ** PromQL *)

Definition py_dumps : dumps_opts := DumpsOpts true false ", " ": ".

(** [_selector], studio/_reliability.py:167-168. *)
Definition selector (labels : list (string * string)) : string :=
  join "," (map (fun kv : string * string => kv.1 +:+ "=" +:+ dumps_str py_dumps kv.2) (sort_items labels)).

Definition braces (s : string) : string := "{" +:+ s +:+ "}".

(** [_queries], studio/_reliability.py:171-205. *)
Definition queries (g : goal) (runtime_service : string) : list (string * string) :=
  let i := g_input g in
  let runtime := braces (selector [("service", runtime_service)]) in
  let custom := braces (selector
    [("service", runtime_service); ("environment", g_environment i); ("objective", kind_value (g_kind i));
     ("window_seconds", pretty (window_seconds i)); ("deadline_seconds", pretty (deadline_seconds i))]) in
  let evidence := ("freshness", "relayna_reliability_evidence_timestamp_seconds" +:+ custom) in
  match g_kind i with
  | RETRY_ACTIVITY =>
      let metric := "relayna_tasks_retried_total" +:+ runtime in
      [("value", "sum(increase(" +:+ metric +:+ "[" +:+ pretty (window_seconds i) +:+ "s]))"); ("freshness", "min(timestamp(" +:+ metric +:+ "))")]
  | MISSING_WORKER => [("value", "time() - relayna_reliability_worker_heartbeat_timestamp_seconds" +:+ custom); evidence]
  | COMPLETION_SUCCESS | END_TO_END_LATENCY =>
      [("good", "relayna_reliability_good_work" +:+ custom); ("eligible", "relayna_reliability_eligible_work" +:+ custom);
       ("window_start", "relayna_reliability_window_start_timestamp_seconds" +:+ custom);
       ("window_end", "relayna_reliability_window_end_timestamp_seconds" +:+ custom); evidence]
  | BACKLOG_AGE => [("value", "relayna_reliability_backlog_oldest_age_seconds" +:+ custom); evidence]
  | STALE_LEASES => [("value", "relayna_reliability_stale_leases" +:+ custom); evidence]
  end.

Definition query_of (q : list (string * string)) (k : string) : string := "(" +:+ from_opt "" (dget k q) +:+ ")".

(** [_expression], studio/_reliability.py:208-224. *)
Definition expression (g : goal) (q : list (string * string)) : string * string :=
  let i := g_input g in
  let f := query_of q "freshness" in
  let fresh := "(time() - " +:+ f +:+ " <= " +:+ pretty (freshness_seconds i) +:+ ") and (" +:+ f +:+ " <= time())" in
  let '(valid, condition) :=
    if business (g_kind i) then
      let good := query_of q "good" in let eligible := query_of q "eligible" in
      let start := query_of q "window_start" in let stop := query_of q "window_end" in
      ("(" +:+ eligible +:+ " > 0) and (" +:+ good +:+ " >= 0) and (" +:+ good +:+ " <= " +:+ eligible +:+ ") and (abs(" +:+ stop
         +:+ " - (time() - " +:+ pretty (deadline_seconds i) +:+ ")) <= 30) and (abs(" +:+ stop +:+ " - " +:+ start +:+ " - "
         +:+ pretty (window_seconds i) +:+ ") <= 1)",
       "(100 * " +:+ good +:+ " / " +:+ eligible +:+ " < " +:+ fl_text (threshold i) +:+ ")")
    else ("(" +:+ query_of q "value" +:+ " >= 0)", "(" +:+ query_of q "value" +:+ " >= " +:+ fl_text (threshold i) +:+ ")") in
  let valid := foldl (fun v kv => v +:+ " and (abs(" +:+ kv.2 +:+ ") < Inf) and on() (count(" +:+ kv.2 +:+ ") == 1)") valid (q : list (string * string)) in
  (condition +:+ " and " +:+ valid +:+ " and " +:+ fresh, valid +:+ " and " +:+ fresh).

(** [_now] and [_iso] of a time in microseconds, studio/_reliability.py:34-35. *)
Definition whole_seconds (now : Z) : Z := now / 1000000 * 1000000.

(** [_investigation], studio/_reliability.py:227-237. *)
Definition investigation (g : goal) (stop : Z) : result string :=
  let i := g_input g in
  let start := stop - (window_seconds i + deadline_seconds i) * 1000000 in
  if start <? datetime_min then Raise (overflow_error "date value out of range")
  else Ok ("/tasks/search?" +:+ urlencode
    [("service_id", g_service_id i); ("environment", g_environment i); ("from", isoformat_z start); ("to", isoformat_z stop)]).

(** ** The evidence of a moment *)

(** What the registry says of a service, and how its metrics are asked for. *)
Record metrics_target := MetricsTarget { mt_base_url : string; runtime_service_label_value : option string; service_selector_labels : dict string }.
Record scoped_service := ScopedService { sv_id : string; sv_environment : string; sv_disabled : bool; sv_metrics : option metrics_target }.

(** [_service], studio/_reliability.py:240-247. *)
Definition service_of (i : goal_input) (found : scoped_service + studio_exn) : scoped_service + studio_exn :=
  match found with
  | inr (ServiceNotFound text) => inr (HttpError 404 text)
  | inr e => inr e
  | inl s => if negb (String.eqb (sv_environment s) (g_environment i)) || sv_disabled s
             then inr (HttpError 409 "Goal environment must match an enabled registered service.") else inl s
  end.

Section evidence.
(** [float(v)], and the answers of Prometheus: the JSON of a query at a base URL, or an exception. *)
Context (py_float : pyval -> result spec_float) (fetch : string -> string -> result pyval) (is_http_error : exn -> bool).

Definition item (d : pydict) (k : string) : result pyval := match dget k d with Some v => Ok v | None => Raise (key_error k) end.
Definition finite (f : spec_float) : bool := match f with S754_finite _ _ _ | S754_zero _ => true | _ => false end.

(** [_sample], studio/_reliability.py:259-282: of an answer; the time is in whole seconds. *)
Definition sample_of (seconds : Z) (payload : pyval) : result (option spec_float) :=
  match payload with
  | PDict p =>
      if negb (bool_decide (dgetv "status" p = PStr "success")) || truthy (dgetv "warnings" p)
      then Raise (value_error "Prometheus returned unsuccessful or partial evidence.")
      else
        data ← item p "data";
        match data with
        | PDict d =>
            if negb (bool_decide (dgetv "resultType" d = PStr "vector")) then Raise (value_error "Expected an instant vector.")
            else
              rows ← item d "result";
              match rows with
              | PList [] => Ok None
              | PList [PDict row] =>
                  sample ← item row "value";
                  match sample with
                  | PList [at_; value] =>
                      t ← py_float at_;
                      if flt (double_of 30) (SFabs (SFsub 53 1024 t (double_of seconds)))
                      then Raise (value_error "Prometheus returned an unexpected evaluation timestamp.")
                      else v ← py_float value; Ok (if finite v then Some v else None)
                  | _ => Raise (value_error "Expected a timestamp/value pair.")
                  end
              | PList [_] => Raise (value_error "Expected a metric sample.")
              | PList _ => Raise (value_error "Evidence must have exactly one aggregate series; check exporter scope.")
              | _ => Raise (value_error "Expected a vector result list.")
              end
        | _ => Raise (value_error "Expected an instant vector.")
        end
  | _ => Raise (value_error "Prometheus returned unsuccessful or partial evidence.")
  end.

(** [_sample], studio/_reliability.py:250-282. *)
Definition sample (base_url : string) (seconds : Z) (query : string) : result (option spec_float) :=
  payload ← fetch base_url query; sample_of seconds payload.

Inductive preview_state := UNAVAILABLE | UNSUPPORTED | NO_DATA | STALE | INSUFFICIENT | BREACHING | OBSERVED.

#[export] Instance preview_state_eq_dec : EqDecision preview_state.
Proof. solve_decision. Defined.

Record preview_result := Preview {
  pv_state : preview_state; pv_evaluated_at : string; pv_from : string; pv_to : string; pv_value : option spec_float;
  pv_eligible : option spec_float; pv_good : option spec_float; pv_investigation_url : string; pv_detail : string }.

(** The exceptions that make evidence unavailable. *)
Definition unavailable (e : exn) : bool :=
  is_http_error e || is_value_error e || match exn_class e with XKeyError | XTypeError | XOverflowError => true | _ => false end.

Definition fsub : spec_float -> spec_float -> spec_float := SFsub 53 1024.

(** [_preview], studio/_reliability.py:317-361: the verdict on samples that are all there. *)
Definition verdict (g : goal) (seconds : Z) (base : preview_result) (samples : list (string * spec_float)) : preview_result :=
  let i := g_input g in
  let get k := from_opt S754_nan (dget k samples) in
  let now := double_of seconds in
  let with_counts s good eligible detail := Preview s (pv_evaluated_at base) (pv_from base) (pv_to base) None eligible good (pv_investigation_url base) detail in
  let final value good eligible breached :=
    Preview (if breached : bool then BREACHING else OBSERVED) (pv_evaluated_at base) (pv_from base) (pv_to base) (Some value) eligible good
      (pv_investigation_url base)
      (if bool_decide (g_kind i = RETRY_ACTIVITY)
       then "Point-in-time preview; deploy exported rules for continuous evaluation. Retry counts are observed activity, not per-task retry identity or complete-window proof."
       else "Point-in-time preview; deploy exported rules for continuous evaluation.") in
  let age := fsub now (get "freshness") in
  if negb (fle (double_of 0) age && fle age (double_of (freshness_seconds i)))
  then with_counts STALE None None "Evidence timestamp is stale or in the future."
  else if business (g_kind i) then
    let good := get "good" in let eligible := get "eligible" in
    if fle eligible (double_of 0) then with_counts NO_DATA (Some good) (Some eligible) "No eligible accepted work in this mature cohort."
    else if flt good (double_of 0) || flt eligible good
         || flt (double_of 30) (SFabs (fsub (get "window_end") (fsub now (double_of (deadline_seconds i)))))
         || flt (double_of 1) (SFabs (fsub (fsub (get "window_end") (get "window_start")) (double_of (window_seconds i))))
    then with_counts INSUFFICIENT (Some good) (Some eligible) "Invalid counts or incomplete/misaligned cohort window."
    else
      let value := SFdiv 53 1024 (SFmul 53 1024 (double_of 100) good) eligible in
      final value (Some good) (Some eligible) (flt value (fl (threshold i)))
  else
    let value := get "value" in
    if flt value (double_of 0) then with_counts INSUFFICIENT None None "Evidence value cannot be negative."
    else final value None None (fle (fl (threshold i)) value).

(** [_preview], studio/_reliability.py:285-361. *)
Definition preview (now : Z) (g : goal) (found : scoped_service + studio_exn) : preview_result + studio_exn :=
  let i := g_input g in
  let now := whole_seconds now in
  let! url := lift_exn (investigation g now) in
  let base state detail := Preview state (isoformat_z now) (isoformat_z (now - (window_seconds i + deadline_seconds i) * 1000000))
    (isoformat_z now) None None None url detail in
  match service_of i found with
  | inr e => inr e
  | inl service =>
      if bool_decide (g_kind i = RETRY_ACTIVITY) && negb (runtime_scope_confirmed i)
      then inl (base UNSUPPORTED "Confirm the Prometheus runtime service selector is isolated to this environment.")
      else match sv_metrics service with
      | None => inl (base UNSUPPORTED "Configure Prometheus for this service.")
      | Some config =>
          let label := opt_or (opt_or (runtime_service_label_value config) (dget "service" (service_selector_labels config))) (Some (sv_id service)) in
          let q := queries g (from_opt "" label) in
          match mapM_result (fun kv : string * string => v ← sample (mt_base_url config) (now / 1000000) kv.2; Ok (kv.1, v)) q with
          | Raise e =>
              if unavailable e
              then inl (base UNAVAILABLE "Prometheus evidence is unavailable, partial, or ambiguous; inspect provider and series scope.")
              else inr (OtherError e)
          | Ok values =>
              match mapM (fun kv : string * option spec_float => v ← kv.2; Some (kv.1, v)) values with
              | None => inl (base NO_DATA "Required metrics are missing or non-finite. Missing evidence is not healthy.")
              | Some samples => inl (verdict g (now / 1000000) (base UNAVAILABLE "") samples)
              end
          end
      end
  end.
End evidence.

(** ** Export *)

Definition pstrs (l : list (string * string)) : pyval := PDict (map (fun kv : string * string => (kv.1, PStr kv.2)) l).

(** [_export], studio/_reliability.py:364-385: the rule for a breach and the one for missing evidence. *)
Definition export_rule (g : goal) (public_url alert expr : string) (held : Z) : pyval :=
  let i := g_input g in
  let page := "/reliability?" +:+ urlencode [("service_id", g_service_id i); ("environment", g_environment i)] in
  PDict [("alert", PStr alert); ("expr", PStr expr); ("for", PStr (pretty held +:+ "s"));
    ("labels", pstrs [("relayna_goal_id", g_id g); ("relayna_goal_revision", g_revision g); ("service_id", g_service_id i);
                      ("environment", g_environment i); ("owner", g_owner i)]);
    ("annotations", pstrs [("summary", g_name i); ("studio_url", public_url +:+ page); ("studio_path", page)])].

(** [_export], studio/_reliability.py:364-433. *)
Definition export (g : goal) (runtime_service public_url : string) : pyval :=
  let i := g_input g in
  let q := queries g runtime_service in
  let '(condition, valid) := expression g q in
  let matcher k v := PStr (k +:+ "=" +:+ dumps_str py_dumps v) in
  PDict [
    ("prometheus", PDict [("groups", PList [PDict [("name", PStr ("relayna-" +:+ g_id g));
      ("rules", PList [export_rule g public_url "RelaynaReliabilityGoal" ("sum(" +:+ condition +:+ ")") (hold_seconds i);
                       export_rule g public_url "RelaynaReliabilityEvidenceMissing" ("absent(sum(" +:+ valid +:+ "))") (freshness_seconds i)])]])]);
    ("alertmanager_route", PDict [
      ("matchers", PList [matcher "relayna_goal_id" (g_id g); matcher "environment" (g_environment i); matcher "owner" (g_owner i)]);
      ("receiver", PStr "relayna-studio");
      ("group_by", PList [PStr "relayna_goal_id"; PStr "alertname"; PStr "environment"]);
      ("group_wait", PStr "30s"); ("group_interval", PStr "5m"); ("repeat_interval", PStr "4h")]);
    ("receiver", PDict [
      ("name", PStr "relayna-studio");
      ("webhook_configs", PList [PDict [
        ("url", PStr "https://YOUR-STUDIO/studio/ingest/reliability-alerts"); ("send_resolved", PBool true);
        ("http_config", PDict [("authorization", pstrs [("type", "Bearer"); ("credentials_file", "/run/secrets/relayna-reliability-webhook")])])]])]);
    ("queries", pstrs q);
    ("notes", PList [
      PStr "JSON is valid YAML. Merge snippets into existing configuration and reload externally; saving a goal does not install rules.";
      PStr "Alertmanager owns grouping, silences, inhibition and routing. Bridge deduplicates each alert episode/status.";
      PStr "SDK runtime series must be environment-isolated in this Prometheus datasource; business/queue/lease/liveness series require the documented external aggregate contract."])].

(** [export_goal], studio/_reliability.py:588-600. *)
Definition export_goal (public_url : string) (g : goal) (found : scoped_service + studio_exn) : pyval + studio_exn :=
  let! service := service_of (g_input g) found in
  if bool_decide (g_kind (g_input g) = RETRY_ACTIVITY) && negb (runtime_scope_confirmed (g_input g))
  then inr (HttpError 409 "Confirm environment isolation for SDK runtime metrics before export.")
  else match sv_metrics service with
       | None => inr (HttpError 409 "Configure service Prometheus before exporting rules.")
       | Some config =>
           inl (export g (from_opt "" (opt_or (opt_or (runtime_service_label_value config) (dget "service" (service_selector_labels config)))
                                         (Some (sv_id service)))) public_url)
       end.

(** ** Alerts *)

Inductive alert_status := FIRING | RESOLVED.
#[export] Instance alert_status_eq_dec : EqDecision alert_status.
Proof. solve_decision. Defined.
Definition status_text (s : alert_status) : string := match s with FIRING => "firing" | RESOLVED => "resolved" end.

(** [datetime.max] in UTC, plus a microsecond. *)
Definition datetime_end : Z := 253402300800000000.

(** [_timestamp], studio/_reliability.py:42-46. *)
Definition aware_timestamp (value : string) : result Z :=
  t ← fromisoformat (of_chars (flat_map (fun c => if Ascii.eqb c "Z" then chars "+00:00" else [c]) (chars value)));
  match utc_offset t with
  | None => Raise (value_error "A timezone is required.")
  | Some _ => if between datetime_min (datetime_end - 1) (instant t) then Ok (instant t) else Raise (overflow_error "date value out of range")
  end.

(** [_Alert], studio/_reliability.py:86-96: the start is the instant that was read; [startsAt] is its text. *)
Record alert := Alert { al_status : alert_status; al_labels : dict string; al_start : Z }.
Definition startsAt (a : alert) : string := isoformat_z (al_start a).
Definition label (a : alert) (k : string) : option string := dget k (al_labels a).

(** [_Webhook], studio/_reliability.py:99-102. *)
Record webhook := Webhook { alerts : list alert; truncatedAlerts : Z }.

(** What a goal's row keeps of its deliveries; [{}] at first.  An episode maps the statuses that were sent to their times. *)
Record delivery := Delivery {
  received : Z; last_received_at : option string; duplicates : Z; sent : Z; episodes : dict (dict string);
  last_status : option alert_status; alert_started_at : option string; investigation_url : option string;
  dl_state : option string; dl_detail : option string }.
Definition no_delivery : delivery := Delivery 0 None 0 0 [] None None None None None.

Record goal_row := GoalRow { row_goal : goal; row_delivery : delivery }.
(** A row of the services: environment, status, and whether it was deleted. *)
Record service_row := ServiceRow { srow_environment : string; srow_disabled : bool; srow_deleted : bool }.
Record audit := Audit { au_action : string; au_target : string; au_details : pydict }.

(** The rows of the goals (of [studio_operator_settings]) and of the services, and the audit log. *)
Record tables := Tables { goals : gmap string goal_row; service_rows : gmap string service_row; audits : list audit }.

(** An email that was posted: what it is about, whether the service accepted it, and whether the transaction that posted
    it was committed. *)
Record posted := Posted {
  ps_goal : string; ps_episode : string; ps_status : alert_status; ps_receivers : list string; ps_title : string; ps_body : string;
  ps_accepted : bool; ps_recorded : bool }.

Notation W := (tables * list posted)%type.

(** [model_dump()] of a goal. *)
Definition goal_dump (g : goal) : pydict :=
  let i := g_input g in
  [("service_id", PStr (g_service_id i)); ("environment", PStr (g_environment i)); ("name", PStr (g_name i)); ("owner", PStr (g_owner i));
   ("kind", PStr (kind_value (g_kind i))); ("threshold", PFloat (fl_shown (threshold i))); ("window_seconds", PInt (window_seconds i));
   ("deadline_seconds", PInt (deadline_seconds i)); ("freshness_seconds", PInt (freshness_seconds i)); ("hold_seconds", PInt (hold_seconds i));
   ("runtime_scope_confirmed", PBool (runtime_scope_confirmed i)); ("receivers", PList (map PStr (goal_receivers i)));
   ("id", PStr (g_id g)); ("revision", PStr (g_revision g)); ("created_at", PStr (g_created_at g))].

(** [_Store.save], studio/_reliability.py:138-151. *)
Definition save_goal (g : goal) (t : tables) : tables + studio_exn :=
  match goals t !! g_id g with
  | Some _ => inr (OtherError (Exn XUser "IntegrityError" "duplicate key value violates unique constraint"))
  | None => inl (Tables (<[g_id g := GoalRow g no_delivery]> (goals t)) (service_rows t)
                   (audits t ++ [Audit "reliability.goal.create" (g_id g) (goal_dump g)]))
  end.

(** [_Store.remove], studio/_reliability.py:153-164. *)
Definition remove_goal (id : string) (t : tables) : tables + studio_exn :=
  match goals t !! id with
  | None => inr (HttpError 404 "Reliability goal not found.")
  | Some _ => inl (Tables (delete id (goals t)) (service_rows t) (audits t ++ [Audit "reliability.goal.delete" id []]))
  end.

(** [_Store.get], studio/_reliability.py:129-136. *)
Definition get_goal (id : string) (t : tables) : goal_row + studio_exn :=
  match goals t !! id with None => inr (HttpError 404 "Reliability goal not found.") | Some row => inl row end.

(** [list_goals], studio/_reliability.py:557-564: the rows in the order of their keys, filtered. *)
Definition list_goals (service_id environment : option string) (t : tables) : list goal_row :=
  List.filter (fun row : goal_row =>
      (negb (opt_truthy service_id) || bool_decide (Some (g_service_id (g_input (row_goal row))) = service_id))
      && (negb (opt_truthy environment) || bool_decide (Some (g_environment (g_input (row_goal row))) = environment)))
    (map snd (sort_items (map_to_list (goals t)))).

(** [create_goal], studio/_reliability.py:572-576. *)
Definition create_goal (now : Z) (id revision : string) (i : goal_input) (found : scoped_service + studio_exn) (t : tables) :
    tables * (goal + studio_exn) :=
  match service_of i found with
  | inr e => (t, inr e)
  | inl _ =>
      let g := Goal i id revision (isoformat_z (whole_seconds now)) in
      match save_goal g t with inr e => (t, inr e) | inl t' => (t', inl g) end
  end.

(** [_deliver], studio/_reliability.py:474-474: the key of an episode. *)
Definition episode_key (a : alert) : string := Sha256.hexdigest (utf8 (from_opt "" (label a "alertname") +:+ startsAt a)).

(** [_deliver], studio/_reliability.py:442-472: the goal of an alert, unless the alert is refused. *)
Definition goal_of_alert (now : Z) (a : alert) (t : tables) : goal_row + studio_exn :=
  match goals t !! from_opt "" (label a "relayna_goal_id") with
  | None => inr (HttpError 404 "Unknown reliability goal.")
  | Some row =>
      let g := row_goal row in let i := g_input g in
      match service_rows t !! g_service_id i with
      | None => inr (HttpError 404 "Reliability goal service no longer exists.")
      | Some s =>
          if srow_deleted s then inr (HttpError 404 "Reliability goal service no longer exists.")
          else if negb (String.eqb (srow_environment s) (g_environment i)) || srow_disabled s
          then inr (HttpError 409 "Reliability goal service scope changed or is disabled.")
          else if existsb (fun kv : string * string => negb (bool_decide (label a kv.1 = Some kv.2)))
                    [("relayna_goal_revision", g_revision g); ("service_id", g_service_id i); ("environment", g_environment i); ("owner", g_owner i)]
                  || negb (match label a "alertname" with
                           | Some n => str_in n ["RelaynaReliabilityGoal"; "RelaynaReliabilityEvidenceMissing"]
                           | None => false end)
          then inr (HttpError 409 "Alert labels do not match the current goal and routing scope.")
          else if whole_seconds now + 30 * 1000000 <? al_start a
          then inr (HttpError 422 "Alert start time is in the future.")
          else inl row
      end
  end.

Definition nl : string := String.String (chr 10) "".

(** [_deliver], studio/_reliability.py:489-500: the title and the body of the email of an alert. *)
Definition email_text (public_url path : string) (g : goal) (a : alert) : string * string :=
  let i := g_input g in
  ("[Relayna] " +:+ status_text (al_status a) +:+ ": " +:+ g_name i,
   "Goal: " +:+ g_id g +:+ nl +:+ "Owner: " +:+ g_owner i +:+ nl +:+ "Service: " +:+ g_service_id i +:+ nl
   +:+ "Environment: " +:+ g_environment i +:+ nl +:+ "Alert: " +:+ from_opt "" (label a "alertname") +:+ nl
   +:+ "Started: " +:+ startsAt a +:+ nl +:+ "Investigation path: " +:+ public_url +:+ path).

(** [episode.get(status) or episode.get("resolved")] *)
Definition already_sent (episode : dict string) (s : alert_status) : bool :=
  opt_truthy (dget (status_text s) episode) || opt_truthy (dget "resolved" episode).

(** [dict(list(d.items())[-100:])] *)
Definition last_hundred {A} (l : list A) : list A := drop (length l - 100) l.

(** What becomes of the email, if one is posted: it is accepted, or [email.send] raises, or the task is cancelled meanwhile. *)
Inductive sending := Accepted | Fails | Cancels.
#[export] Instance sending_eq_dec : EqDecision sending.
Proof. solve_decision. Defined.

(** The surroundings of a delivery: the time, whether shared emails are enabled (with a store and a worker), what becomes
    of an email, and whether the transaction is committed. *)
Record circumstances := Circumstances { c_now : Z; c_enabled : bool; c_sends : sending; c_commits : bool }.

Section alerts.
(** A [jsonb] column returns an object with its keys in an order of its own. *)
Context (jsonb_order : dict (dict string) -> dict (dict string)).
Context (public_url : string).

(** [_deliver], studio/_reliability.py:480-519: an alert that was already emailed. *)
Definition seen_again (now : string) (d : delivery) : delivery :=
  Delivery (received d + 1) (Some now) (duplicates d + 1) (sent d) (episodes d) (last_status d) (alert_started_at d) (investigation_url d)
    (Some "duplicate") None.

(** [_deliver], studio/_reliability.py:484-519: an alert to email: its record, and what to answer if it was not. *)
Definition noted (now path : string) (a : alert) (d : delivery) (outcome : option sending) : delivery * option (Z * string) :=
  let key := episode_key a in
  let episode := from_opt [] (dget key (episodes d)) in
  let note eps n state failure :=
    Delivery (received d + 1) (Some now) (duplicates d) n eps (Some (al_status a)) (Some (startsAt a)) (Some path) (Some state) failure in
  match outcome with
  | Some Accepted =>
      (note (last_hundred (dset key (dset (status_text (al_status a)) now episode) (episodes d))) (sent d + 1) "sent" None, None)
  | None =>
      let failure := "Shared email delivery is disabled or not configured." in
      (note (episodes d) (sent d) "disabled" (Some failure), Some (503, failure))
  | Some _ =>
      let failure := "Email transport failed; Alertmanager should retry." in
      (note (episodes d) (sent d) "failed" (Some failure), Some (502, failure))
  end.

(** [_deliver], studio/_reliability.py:520-533: the record is written and the transaction ends, then the caller is answered. *)
Definition conclude (c : circumstances) (row : goal_row) (a : alert) (d : delivery) (failure : option (Z * string)) (t : tables) :
    tables * (string * string + studio_exn) :=
  let g := row_goal row in
  let goal_id := from_opt "" (label a "relayna_goal_id") in
  if c_commits c then
    let stored := Delivery (received d) (last_received_at d) (duplicates d) (sent d) (jsonb_order (episodes d)) (last_status d)
                    (alert_started_at d) (investigation_url d) (dl_state d) (dl_detail d) in
    let state := from_opt "" (dl_state d) in
    (Tables (<[goal_id := GoalRow g stored]> (goals t)) (service_rows t)
       (audits t ++ [Audit "reliability.alert.delivery" (g_id g) [("state", PStr state); ("status", PStr (status_text (al_status a)))]]),
     match failure with Some (status, text) => inr (HttpError status text) | None => inl (goal_id, state) end)
  else (t, inr (OtherError (Exn XUser "OperationalError" "commit failed"))).

(** [_deliver], studio/_reliability.py:436-534. *)
Definition deliver (c : circumstances) (a : alert) (w : W) : W * (string * string + studio_exn) :=
  let '(t, mail) := w in
  match goal_of_alert (c_now c) a t with
  | inr e => (w, inr e)
  | inl row =>
      let g := row_goal row in let d := row_delivery row in
      let now := isoformat_z (whole_seconds (c_now c)) in
      if already_sent (from_opt [] (dget (episode_key a) (episodes d))) (al_status a)
      then let '(t', r) := conclude c row a (seen_again now d) None t in ((t', mail), r)
      else
        match investigation g (al_start a) with
        | Raise e => (w, inr (OtherError e))
        | Ok path =>
            let outcome := if c_enabled c then Some (c_sends c) else None in
            let '(title, body) := email_text public_url path g a in
            let mail' := if c_enabled c
              then (mail ++ [Posted (g_id g) (episode_key a) (al_status a) (goal_receivers (g_input g)) title body
                              (bool_decide (c_sends c = Accepted)) (c_commits c)])%list
              else mail in
            match outcome with
            | Some Cancels => ((t, mail'), inr (OtherError (Exn XCancelled "CancelledError" "")))
            | _ => let '(d', failure) := noted now path a d outcome in
                   let '(t', r) := conclude c row a d' failure t in ((t', mail'), r)
            end
        end
  end.

(** [receive_alerts], studio/_reliability.py:626-626: one alert after the other, until one raises. *)
Fixpoint deliver_all (l : list (circumstances * alert)) (w : W) : W * (list (string * string) + studio_exn) :=
  match l with
  | [] => (w, inl [])
  | (c, a) :: l =>
      match deliver c a w with
      | (w', inr e) => (w', inr e)
      | (w', inl x) => match deliver_all l w' with (w'', inl xs) => (w'', inl (x :: xs)) | (w'', inr e) => (w'', inr e) end
      end
  end.

(** [receive_alerts], studio/_reliability.py:612-615: the chunks of the body, while they are not too many bytes. *)
Fixpoint read_body (raw : string) (chunks : list string) : option string :=
  match chunks with
  | [] => Some raw
  | c :: cs => let raw := raw +:+ c in if 262144 <? Z.of_nat (String.length raw) then None else read_body raw cs
  end.

(** [receive_alerts], studio/_reliability.py:603-626; [parse] is [_Webhook.model_validate_json] where it validates. *)
Definition receive_alerts (parse : string -> option webhook) (webhook_token : option string) (authorization : option string)
    (chunks : list string) (cs : nat -> circumstances) (w : W) : W * (list (string * string) + studio_exn) :=
  if negb (opt_truthy webhook_token) then (w, inr (HttpError 503 "Reliability webhook is not configured."))
  else if negb (String.eqb (from_opt "" authorization) ("Bearer " +:+ from_opt "" webhook_token))
  then (w, inr (HttpError 401 "Invalid reliability webhook credential."))
  else match read_body "" chunks with
  | None => (w, inr (HttpError 413 "Reliability callback is too large."))
  | Some raw =>
      match parse raw with
      | None => (w, inr (HttpError 422 "Invalid Alertmanager callback."))
      | Some payload =>
          if negb (truncatedAlerts payload =? 0)
          then (w, inr (HttpError 422 "Configure Alertmanager max_alerts=0; truncated deliveries cannot be acknowledged."))
          else deliver_all (imap (fun n a => (cs n, a)) (alerts payload)) w
      end
  end.
End alerts.
