(* ===== verification/ReliabilitySpec.v ===== *)
(** * What the reliability alerts guarantee

    The goals' records are related to the emails that were posted: what a record
    says was sent was accepted, and as long as a goal has had no more than a
    hundred episodes, everything that was accepted and recorded is in its record. *)

From S2P Require Import Prelude PyStr PyVal PyFloat PyTime Json Sha256 StudioErrors StudioTime Reliability.
From Stdlib Require Import Ascii.

(** An email that was accepted, by a delivery whose transaction was committed. *)
Definition counted (p : posted) : bool := ps_accepted p && ps_recorded p.
Definition counted_for (id : string) (p : posted) : Prop := counted p = true /\ ps_goal p = id.
#[export] Instance counted_for_dec id p : Decision (counted_for id p).
Proof. unfold counted_for. apply _. Defined.

(** The episodes of a goal that were emailed. *)
Definition emailed_episodes (id : string) (mail : list posted) : list string :=
  remove_dups (map ps_episode (filter (counted_for id) mail)).
Definition few (id : string) (mail : list posted) : Prop := (length (emailed_episodes id mail) <= 100)%nat.

Notation episode_map := (dict (dict string)).

Definition noted_in (eps : episode_map) (k : string) (s : alert_status) : bool :=
  opt_truthy (dget (status_text s) (from_opt [] (dget k eps))).

(** ** The record of one goal *)

Record goal_ok (id : string) (eps : episode_map) (mail : list posted) : Prop := GoalOk {
  ok_dict : dict_ok eps;
  ok_bound : (length eps <= 100)%nat;
  ok_named : forall k, k ∈ dkeys eps -> k ∈ emailed_episodes id mail;
  ok_sent : forall k s, noted_in eps k s = true -> exists m, m ∈ mail /\ counted_for id m /\ ps_episode m = k /\ ps_status m = s;
  ok_kept : few id mail -> forall m, m ∈ mail -> counted_for id m -> noted_in eps (ps_episode m) (ps_status m) = true }.

#[export] Instance goal_ok_proper id : Proper ((≡ₚ) ==> eq ==> iff) (goal_ok id).
Proof.
  assert (forall eps eps' mail, eps ≡ₚ eps' -> goal_ok id eps mail -> goal_ok id eps' mail) as H.
  { intros eps eps' mail Hp [Hd Hb Hn Hs Hk].
    assert (forall k s, noted_in eps' k s = noted_in eps k s) as E
      by (intros k s; unfold noted_in; by rewrite (dget_permutation k eps eps')).
    split.
    - unfold dict_ok, dkeys. by rewrite <- Hp.
    - by rewrite <- Hp.
    - intros k Hin. apply Hn. unfold dkeys in *. by rewrite Hp.
    - intros k s. rewrite E. apply Hs.
    - intros Hf m. rewrite E. by apply Hk. }
  intros eps eps' Hp mail _ <-. split; by apply H.
Qed.

Lemma few_mono id mail mail' : few id (mail ++ mail') -> few id mail.
Proof.
  unfold few, emailed_episodes. intros Hf. etrans; [|exact Hf]. apply submseteq_length, NoDup_submseteq; [apply NoDup_remove_dups|].
  intros k. rewrite !elem_of_remove_dups, filter_app, map_app, elem_of_app. by left.
Qed.

Lemma episodes_snoc id mail p k : k ∈ emailed_episodes id (mail ++ [p]) <->
  k ∈ emailed_episodes id mail \/ counted_for id p /\ k = ps_episode p.
Proof.
  unfold emailed_episodes. rewrite !elem_of_remove_dups, filter_app, map_app, elem_of_app, filter_cons, filter_nil.
  destruct (decide (counted_for id p)); cbn; [rewrite list_elem_of_singleton|rewrite elem_of_nil]; tauto.
Qed.

(** An email that does not count for the goal leaves its record right. *)
Lemma goal_ok_other id eps mail p : ~ counted_for id p -> goal_ok id eps mail -> goal_ok id eps (mail ++ [p]).
Proof.
  intros Hp [Hd Hb Hn Hs Hk]. split; [done|done| | |].
  - intros k Hin. apply episodes_snoc. left. by apply Hn.
  - intros k s Hnote. destruct (Hs k s Hnote) as (m & Hm & ?). exists m. rewrite elem_of_app. naive_solver.
  - intros Hf m [Hm|E%list_elem_of_singleton]%elem_of_app Hc; [|by subst]. apply Hk; [by eapply few_mono|done..].
Qed.

Lemma goal_ok_new id mail : (forall m, m ∈ mail -> ps_goal m <> id) -> goal_ok id [] mail.
Proof.
  intros Hm. split; [constructor|cbn; lia|by intros k ?%elem_of_nil|by intros k []|]. intros _ m Hin [_ E]. by destruct (Hm m Hin).
Qed.

Lemma last_hundred_suffix {A} (l : list A) : last_hundred l `suffix_of` l.
Proof. exists (take (length l - 100) l). symmetry. apply take_drop. Qed.

Lemma last_hundred_length {A} (l : list A) : (length (last_hundred l) <= 100)%nat.
Proof. unfold last_hundred. rewrite length_drop. lia. Qed.

Lemma last_hundred_id {A} (l : list A) : (length l <= 100)%nat -> last_hundred l = l.
Proof. intros Hl. unfold last_hundred. by replace (length l - 100)%nat with 0%nat by lia. Qed.

Lemma sub_dict {V} (d e : dict V) k v : dict_ok d -> e `suffix_of` d -> dget k e = Some v -> dget k d = Some v.
Proof. intros Hd [p ->] Hg. apply elem_dget; [done|]. apply elem_of_app. right. by apply dget_elem. Qed.

Lemma status_text_inj s s' : status_text s = status_text s' -> s = s'.
Proof. by destruct s, s'. Qed.

Lemma noted_dset eps k s now k' s' : opt_truthy (Some now) = true ->
  noted_in (dset k (dset (status_text s) now (from_opt [] (dget k eps))) eps) k' s' =
  bool_decide (k' = k /\ s' = s) || noted_in eps k' s'.
Proof.
  intros Hnow. unfold noted_in. rewrite dget_dset. destruct (String.eqb k' k) eqn:Ek.
  - apply String.eqb_eq in Ek as ->. cbn [from_opt]. rewrite dget_dset. destruct (String.eqb (status_text s') (status_text s)) eqn:Es.
    + apply String.eqb_eq, status_text_inj in Es as ->. by rewrite bool_decide_true.
    + apply String.eqb_neq in Es. rewrite bool_decide_false; [done|]. intros [_ ->]. done.
  - apply String.eqb_neq in Ek. rewrite bool_decide_false; [done|]. naive_solver.
Qed.

(** The record of a goal after an email that counts for it. *)
Lemma goal_ok_emailed id eps mail p now : goal_ok id eps mail -> counted_for id p -> opt_truthy (Some now) = true ->
  goal_ok id (last_hundred (dset (ps_episode p) (dset (status_text (ps_status p)) now (from_opt [] (dget (ps_episode p) eps))) eps)) (mail ++ [p]).
Proof.
  intros [Hd Hb Hn Hs Hk] Hp Hnow. set (k := ps_episode p). set (eps' := dset k _ eps).
  assert (dict_ok eps') as Hd' by by apply dict_ok_dset.
  assert (forall k', k' ∈ dkeys eps' -> k' ∈ emailed_episodes id (mail ++ [p])) as Hn'.
  { intros k' Hin. apply episodes_snoc. apply din_keys in Hin. unfold din in Hin. subst eps'. rewrite dget_dset in Hin.
    destruct (String.eqb k' k) eqn:E; [apply String.eqb_eq in E; by right|]. left. apply Hn, din_keys. unfold din. by destruct (dget k' eps). }
  pose proof (last_hundred_suffix eps') as Hsuf. destruct Hsuf as [pre Hpre].
  assert (forall k', k' ∈ dkeys (last_hundred eps') -> k' ∈ dkeys eps') as Hsub.
  { intros k' Hin. rewrite Hpre. unfold dkeys. rewrite map_app. apply elem_of_app. by right. }
  split; [|apply last_hundred_length|by intros k' Hin; apply Hn', Hsub| |].
  - unfold dict_ok, dkeys in *. rewrite Hpre, map_app in Hd'. by apply NoDup_app in Hd' as (_ & _ & ?).
  - intros k' s' Hnote. assert (noted_in eps' k' s' = true) as Hnote'.
    { unfold noted_in in *. destruct (dget k' (last_hundred eps')) as [ep|] eqn:E; [|done].
      by rewrite (sub_dict eps' (last_hundred eps') k' ep Hd' ltac:(by exists pre) E). }
    subst eps'. rewrite noted_dset in Hnote' by done. apply orb_true_iff in Hnote' as [E|Hold].
    + apply bool_decide_eq_true in E as [-> ->]. exists p. rewrite elem_of_app, list_elem_of_singleton. auto.
    + destruct (Hs k' s' Hold) as (m & ? & ?). exists m. rewrite elem_of_app. auto.
  - intros Hf m Hm Hc. rewrite last_hundred_id.
    2: { transitivity (length (dkeys eps')); [unfold dkeys; by rewrite length_map|]. etrans; [|exact Hf].
         apply submseteq_length, NoDup_submseteq; [done|]. intros k' ?. by apply Hn'. }
    subst eps'. rewrite noted_dset by done. apply orb_true_iff. apply elem_of_app in Hm as [Hm|E%list_elem_of_singleton]; [|subst m].
    + right. apply Hk; [by eapply few_mono|done..].
    + left. by apply bool_decide_eq_true.
Qed.

(** ** The record of all goals *)

(** A resolved email ends its episode, and an email is not repeated. *)
Definition follows (m m' : posted) : Prop :=
  ps_goal m' = ps_goal m -> ps_episode m' = ps_episode m -> ps_status m = FIRING /\ ps_status m' = RESOLVED.
Definition unrepeated (id : string) (mail : list posted) : Prop :=
  forall l1 m l2 m', mail = (l1 ++ m :: l2)%list -> counted_for id m -> m' ∈ l2 -> follows m m'.

Record goals_ok (t : tables) (mail : list posted) (born : list string) : Prop := GoalsOk {
  ok_goal : forall id row, goals t !! id = Some row ->
    g_id (row_goal row) = id /\ id ∈ born /\ goal_ok id (episodes (row_delivery row)) mail;
  ok_born : forall m, m ∈ mail -> ps_goal m ∈ born;
  ok_unrepeated : forall id, few id mail -> unrepeated id mail }.

Lemma goals_ok_weaken t mail born born' : born ⊆ born' -> goals_ok t mail born -> goals_ok t mail born'.
Proof. intros Hsub [Hg Hb Hu]. split; [|by intros m Hm; apply Hsub, Hb|done]. intros id row Hrow. destruct (Hg id row Hrow) as (? & ? & ?). auto. Qed.

(** Only the goals of the tables matter. *)
Lemma goals_ok_same t t' mail born : goals t' = goals t -> goals_ok t mail born -> goals_ok t' mail born.
Proof. intros E [Hg Hb Hu]. split; [|done|done]. by rewrite E. Qed.

Lemma unrepeated_snoc id mail p : unrepeated id mail -> (forall m, m ∈ mail -> counted_for id m -> follows m p) -> unrepeated id (mail ++ [p]).
Proof.
  intros Hu Hp l1 m l2 m' E Hc Hin. destruct (decide (l2 = [])) as [->|Hne]; [by apply elem_of_nil in Hin|].
  destruct (exists_last Hne) as (l2' & q & ->). rewrite app_comm_cons, app_assoc in E. apply app_inj_tail in E as [-> <-].
  apply elem_of_app in Hin as [Hin|Hin%list_elem_of_singleton]; [by eapply Hu|subst m'].
  apply Hp; [|done]. apply elem_of_app. right. apply elem_of_cons. by left.
Qed.

Section deliveries.
Context (jsonb_order : episode_map -> episode_map) (public_url : string).
Hypothesis jsonb_permutes : forall eps, dict_ok eps -> jsonb_order eps ≡ₚ eps.

Notation deliver := (deliver jsonb_order public_url).
Notation deliver_all := (deliver_all jsonb_order public_url).
Notation alert_goal a := (from_opt "" (label a "relayna_goal_id")).

(** The email of an alert whose status was not recorded for its episode. *)
Definition email_for (row : goal_row) (a : alert) (p : posted) : Prop :=
  ps_goal p = g_id (row_goal row) /\ ps_episode p = episode_key a /\ ps_status p = al_status a /\
  already_sent (from_opt [] (dget (episode_key a) (episodes (row_delivery row)))) (al_status a) = false.

Definition with_record (row : goal_row) (d : delivery) : goal_row := GoalRow (row_goal row) d.

(** What a delivery does: nothing but perhaps an email that does not count; or it repeats what was sent; or it records
    that an email was not accepted; or that it was. *)
Inductive delivered (a : alert) (t : tables) (mail : list posted) : W -> string * string + studio_exn -> Prop :=
| del_nothing e : delivered a t mail (t, mail) (inr e)
| del_lost row p e : goals t !! alert_goal a = Some row -> email_for row a p -> counted p = false -> delivered a t mail (t, mail ++ [p])%list (inr e)
| del_again row d t' s : goals t !! alert_goal a = Some row -> goals t' = <[alert_goal a := with_record row d]> (goals t) ->
    episodes d = jsonb_order (episodes (row_delivery row)) ->
    already_sent (from_opt [] (dget (episode_key a) (episodes (row_delivery row)))) (al_status a) = true ->
    delivered a t mail (t', mail) (inl (alert_goal a, s))
| del_failed row d t' e l : goals t !! alert_goal a = Some row -> goals t' = <[alert_goal a := with_record row d]> (goals t) ->
    episodes d = jsonb_order (episodes (row_delivery row)) ->
    (l = [] \/ exists p, l = [p] /\ email_for row a p /\ counted p = false) -> delivered a t mail (t', mail ++ l)%list (inr e)
| del_sent row d t' s now p : goals t !! alert_goal a = Some row -> goals t' = <[alert_goal a := with_record row d]> (goals t) ->
    email_for row a p -> counted p = true -> opt_truthy (Some now) = true ->
    episodes d = jsonb_order (last_hundred (dset (episode_key a) (dset (status_text (al_status a)) now
                   (from_opt [] (dget (episode_key a) (episodes (row_delivery row))))) (episodes (row_delivery row)))) ->
    delivered a t mail (t', mail ++ [p])%list (inl (alert_goal a, s)).

Lemma isoformat_z_truthy t : opt_truthy (Some (isoformat_z t)) = true.
Proof.
  unfold isoformat_z. cbn [opt_truthy]. by destruct (String.substring _ _ _).
Qed.

Lemma goal_of_alert_row now a t row : goal_of_alert now a t = inl row -> goals t !! alert_goal a = Some row.
Proof. unfold goal_of_alert. intros E. repeat (case_hyp E; try discriminate); by simplify_eq. Qed.

Lemma deliver_delivered c a t mail : delivered a t mail (deliver c a (t, mail)).1 (deliver c a (t, mail)).2.
Proof.
  unfold deliver. destruct (goal_of_alert (c_now c) a t) as [row|e] eqn:Eg; [|apply del_nothing].
  apply goal_of_alert_row in Eg. cbv zeta. destruct (already_sent _ _) eqn:Eseen.
  - unfold conclude. destruct (c_commits c); cbn [fst snd]; [|apply del_nothing].
    eapply (del_again _ _ _ row); [done|by cbn|by cbn|done].
  - destruct (investigation _ _) as [path|e]; [|apply del_nothing]. destruct (email_text _ _ _ _) as [title body].
    destruct (c_enabled c); [destruct (c_sends c) eqn:Esend|]; unfold noted, conclude; destruct (c_commits c) eqn:Ec; cbn [fst snd];
      try (by apply del_nothing); try (by apply (del_lost _ _ _ row)).
    + eapply (del_sent _ _ _ row); [done|by cbn|done|done|apply isoformat_z_truthy|done].
    + eapply (del_failed _ _ _ row); [done|by cbn|done|right; by eexists].
    + rewrite <- (app_nil_r mail) at 2. eapply (del_failed _ _ _ row); [done|by cbn|done|by left].
Qed.

Lemma email_follows row a p m mail born t : goals_ok t mail born -> goals t !! alert_goal a = Some row -> email_for row a p ->
  m ∈ mail -> counted_for (ps_goal p) m -> few (ps_goal p) mail -> follows m p.
Proof.
  intros [Hg _ _] Hrow (Hpg & Hpe & Hps & Hnot) Hm Hc Hfew _ He.
  destruct (Hg _ _ Hrow) as (Hid & _ & [_ _ _ _ Hk]). rewrite Hid in Hpg. rewrite Hpg in *.
  specialize (Hk Hfew m Hm Hc). unfold noted_in in Hk. rewrite <- He, Hpe in Hk.
  unfold already_sent in Hnot. apply orb_false_iff in Hnot as [Hn1 Hn2]. rewrite Hps.
  change "resolved" with (status_text RESOLVED) in Hn2.
  destruct (ps_status m), (al_status a); try done; congruence.
Qed.

(** Posting the email of an alert. *)
Lemma goals_ok_post t t' row a p mail born d : goals_ok t mail born -> goals t !! alert_goal a = Some row -> email_for row a p ->
  goals t' = <[alert_goal a := with_record row d]> (goals t) -> goal_ok (alert_goal a) (episodes d) (mail ++ [p]) ->
  goals_ok t' (mail ++ [p]) born.
Proof.
  intros Hok Hrow Hp Et Hd. pose proof Hok as [Hg Hb Hu]. destruct (Hg _ _ Hrow) as (Hid & Hborn & _).
  assert (ps_goal p = alert_goal a) as Hpg by (destruct Hp as [-> _]; done). split.
  - intros id row'. rewrite Et. destruct (decide (id = alert_goal a)) as [->|Hne].
    + rewrite lookup_insert_eq. intros [= <-]. done.
    + rewrite lookup_insert_ne by done. intros Hrow'. destruct (Hg _ _ Hrow') as (? & ? & ?). split_and!; [done..|].
      apply goal_ok_other; [|done]. intros [_ E]. congruence.
  - intros m [Hm|E%list_elem_of_singleton]%elem_of_app; [by apply Hb|subst m]. by rewrite Hpg.
  - intros id Hf. apply few_mono in Hf as Hf'. apply unrepeated_snoc; [by apply Hu|]. intros m Hm Hc Hgm.
    apply (email_follows row a p m mail born t); try done; rewrite Hgm; destruct Hc as [Hc1 Hc2]; [by split|by rewrite Hc2].
Qed.

(** A record stored as it was. *)
Lemma stored_ok id eps mail d : goal_ok id eps mail -> episodes d = jsonb_order eps -> goal_ok id (episodes d) mail.
Proof. intros Hok ->. rewrite jsonb_permutes; [done|apply Hok]. Qed.

Lemma unchanged_row t a row : goals t !! alert_goal a = Some row -> goals t = <[alert_goal a := with_record row (row_delivery row)]> (goals t).
Proof. intros Hrow. rewrite insert_id; [done|]. rewrite Hrow. by destruct row. Qed.

Lemma deliver_ok a t mail born w r : goals_ok t mail born -> delivered a t mail w r -> goals_ok w.1 w.2 born.
Proof.
  intros Hok Hd. pose proof (ok_goal _ _ _ Hok) as Hg. destruct Hd; cbn [fst snd]; [done|..]; destruct (Hg _ _ H) as (Hid & Hborn & Hgok).
  - eapply (goals_ok_post t t row); [done..|by apply unchanged_row|]. apply goal_ok_other; [|done]. intros [? _]. congruence.
  - pose proof Hok as [_ Hb Hu]. split; [|done|done]. intros id row'. rewrite H0. destruct (decide (id = alert_goal a)) as [->|Hne].
    + rewrite lookup_insert_eq. intros [= <-]. split_and!; [done..|]. by eapply stored_ok.
    + rewrite lookup_insert_ne by done. apply Hg.
  - destruct H2 as [->|(p & -> & Hp & Hc)].
    + rewrite app_nil_r. pose proof Hok as [_ Hb Hu]. split; [|done|done]. intros id row'. rewrite H0.
      destruct (decide (id = alert_goal a)) as [->|Hne].
      * rewrite lookup_insert_eq. intros [= <-]. split_and!; [done..|]. by eapply stored_ok.
      * rewrite lookup_insert_ne by done. apply Hg.
    + eapply (goals_ok_post t t' row); [done..|]. apply goal_ok_other; [intros [? _]; congruence|]. by eapply stored_ok.
  - eapply (goals_ok_post t t' row); [done..|]. eapply stored_ok; [|done].
    destruct H1 as (Hpg & Hpe & Hps & _). rewrite <- Hpe, <- Hps. apply goal_ok_emailed; [done|split; [done|by rewrite Hpg]|done].
Qed.

(** An alert that is answered without an error was emailed, now or before; or its episode was resolved by email. *)
Definition answered_by_email (mail : list posted) (a : alert) : Prop :=
  exists m, m ∈ mail /\ counted_for (alert_goal a) m /\ ps_episode m = episode_key a /\ (ps_status m = al_status a \/ ps_status m = RESOLVED).

Lemma delivered_answered a t mail born w r x : goals_ok t mail born -> delivered a t mail w r -> r = inl x -> answered_by_email w.2 a.
Proof.
  intros Hok Hd E. pose proof (ok_goal _ _ _ Hok) as Hg. destruct Hd; try discriminate; cbn [snd]; destruct (Hg _ _ H) as (Hid & _ & Hgok).
  - unfold already_sent in H2. change "resolved" with (status_text RESOLVED) in H2.
    apply orb_true_iff in H2 as [Hs|Hs]; destruct (ok_sent _ _ _ Hgok (episode_key a) _ Hs) as (m & ? & ? & ? & ?); exists m; auto.
  - destruct H1 as (Hpg & Hpe & Hps & _). exists p. rewrite elem_of_app, list_elem_of_singleton. split_and!; [by right|by split; [done|rewrite Hpg]|done|by left].
Qed.

Lemma delivered_grows a t mail w r : delivered a t mail w r -> mail `prefix_of` w.2.
Proof. intros []; cbn [snd]; try done; by eexists. Qed.

Lemma deliver_all_ok l : forall w born w' r, goals_ok w.1 w.2 born -> deliver_all l w = (w', r) ->
  goals_ok w'.1 w'.2 born /\ w.2 `prefix_of` w'.2 /\ (forall xs, r = inl xs -> Forall (answered_by_email w'.2) (map snd l)).
Proof.
  induction l as [|[c a] l IH]; intros w born w' r Hok E; cbn [deliver_all] in E.
  { simplify_eq. split_and!; [done..|]. by constructor. }
  destruct w as [t mail]. cbn [fst snd] in Hok.
  pose proof (deliver_delivered c a t mail) as Hd. destruct (deliver c a (t, mail)) as [w1 r1]. cbn [fst snd] in Hd.
  pose proof (deliver_ok _ _ _ _ _ _ Hok Hd) as Hok1. pose proof (delivered_grows _ _ _ _ _ Hd) as Hp1.
  destruct r1 as [x|e].
  2: { simplify_eq. split_and!; [done..|]. by intros xs [=]. }
  destruct (deliver_all l w1) as [w2 r2] eqn:E2. destruct (IH _ _ _ _ Hok1 E2) as (Hok2 & Hp2 & Ha2).
  assert (w' = w2) as -> by (destruct r2; by simplify_eq). split_and!; [done|by etrans|]. intros xs Hr.
  destruct r2 as [ys|]; [|destruct r; simplify_eq]. constructor; [|by eapply Ha2].
  destruct (delivered_answered _ _ _ _ _ _ x Hok Hd eq_refl) as (m & Hm & Hrest). exists m. split; [|done].
  destruct Hp2 as [l' ->]. apply elem_of_app. by left.
Qed.

(** ** Histories *)

Context (parse : string -> option webhook) (webhook_token : option string).

(** What reaches Studio: requests about goals, changes that the registry makes to the services, and callbacks. *)
Inductive request :=
| Create (now : Z) (id revision : string) (i : goal_input) (found : scoped_service + studio_exn)
| Remove (id : string)
| Services (rows : gmap string service_row)
| Callback (authorization : option string) (chunks : list string) (cs : nat -> circumstances).

Notation receive := (receive_alerts jsonb_order public_url parse webhook_token).

Definition handle (w : W) (q : request) : W :=
  let '(t, mail) := w in
  match q with
  | Create now id revision i found => ((create_goal now id revision i found t).1, mail)
  | Remove id => (match remove_goal id t with inl t' => t' | inr _ => t end, mail)
  | Services rows => (Tables (goals t) rows (audits t), mail)
  | Callback authorization chunks cs => (receive authorization chunks cs w).1
  end.
Definition history (l : list request) : W := foldl handle (Tables ∅ ∅ [], []) l.

(** The ids that were given to new goals. *)
Definition created (q : request) : list string := match q with Create _ id _ _ _ => [id] | _ => [] end.

Lemma imap_pairs {A B} (f : nat -> A) (l : list B) : map snd (imap (fun n b => (f n, b)) l) = l.
Proof. revert f. induction l as [|b l IH]; intros f; [done|]. cbn. f_equal. apply (IH (f ∘ S)). Qed.

Lemma receive_ok authorization chunks cs w w' r born : goals_ok w.1 w.2 born -> receive authorization chunks cs w = (w', r) ->
  goals_ok w'.1 w'.2 born /\
  (forall xs raw payload, r = inl xs -> read_body "" chunks = Some raw -> parse raw = Some payload -> Forall (answered_by_email w'.2) (alerts payload)).
Proof.
  intros Hok. unfold receive_alerts. repeat (case_goal; [intros; simplify_eq; split; [done|discriminate]|]).
  destruct (read_body "" chunks) as [raw|]; [|intros; simplify_eq; split; [done|discriminate]].
  destruct (parse raw) as [payload|] eqn:Eparse; [|intros; simplify_eq; split; [done|discriminate]].
  case_goal; [intros; simplify_eq; split; [done|discriminate]|]. intros Ed.
  destruct (deliver_all_ok _ _ _ _ _ Hok Ed) as (Hok' & _ & Ha). split; [done|]. intros xs raw' payload' -> [= <-] Ep. simplify_eq.
  rewrite <- (imap_pairs cs (alerts payload)). by apply (Ha xs).
Qed.

Lemma handle_ok w q born : goals_ok w.1 w.2 born -> (forall id, id ∈ created q -> id ∉ born) ->
  goals_ok (handle w q).1 (handle w q).2 (born ++ created q).
Proof.
  destruct w as [t mail]. intros Hok Hnew. destruct q as [now id revision i found|id|rows|authorization chunks cs]; cbn [handle created fst snd].
  - assert (born ⊆ born ++ [id]) as Hsub by set_solver. apply (goals_ok_weaken _ _ _ (born ++ [id]) Hsub) in Hok as Hok'. unfold create_goal, save_goal.
    destruct (service_of i found); [|done]. cbn [g_id]. destruct (goals t !! id) eqn:E; [done|].
    destruct Hok' as [Hg Hb Hu]. split; [|done|done]. cbn [goals fst]. intros id' row. destruct (decide (id' = id)) as [->|Hne].
    + rewrite lookup_insert_eq. intros [= <-]. cbn. split_and!; [done|set_solver|]. apply goal_ok_new. intros m Hm <-.
      apply (Hnew (ps_goal m)); [by apply list_elem_of_singleton|by eapply ok_born].
    + rewrite lookup_insert_ne by done. apply Hg.
  - rewrite app_nil_r. unfold remove_goal. destruct (goals t !! id); [|done]. destruct Hok as [Hg Hb Hu]. split; [|done|done]. cbn [goals].
    intros id' row [_ Hrow]%lookup_delete_Some. by apply Hg.
  - rewrite app_nil_r. by apply (goals_ok_same t).
  - rewrite app_nil_r. destruct (receive authorization chunks cs (t, mail)) as [w' r] eqn:E. by destruct (receive_ok _ _ _ _ _ _ _ Hok E).
Qed.

Lemma history_ok l : NoDup (l ≫= created) -> goals_ok (history l).1 (history l).2 (l ≫= created).
Proof.
  induction l as [|q l IH] using rev_ind; intros Hnd.
  { unfold history. cbn [foldl fst snd]. split; [intros id row; cbn [goals]; by rewrite lookup_empty|by intros ? ?%elem_of_nil|]. intros id _ [|] m l2 m' E; discriminate. }
  unfold history. rewrite foldl_app, bind_app. cbn [foldl]. rewrite bind_app in Hnd. cbn in Hnd. rewrite app_nil_r in Hnd.
  apply NoDup_app in Hnd as (Hnd & Hdis & _). cbn. rewrite app_nil_r. apply handle_ok; [by apply IH|]. intros id Hc Hb. by apply (Hdis id).
Qed.

End deliveries.

(** ** Witness and findings *)

Lemma insert_item_perm {V} (kv : string * V) d : insert_item kv d ≡ₚ kv :: d.
Proof. induction d as [|kv' d IH]; [done|]. cbn. case_goal; [done|]. rewrite IH. apply perm_swap. Qed.
Lemma sort_items_perm {V} (d : dict V) : sort_items d ≡ₚ d.
Proof. induction d as [|kv d IH]; [done|]. cbn. by rewrite insert_item_perm, IH. Qed.

(** PostgreSQL stores the keys of an object by their length, then by their bytes; the keys of episodes have one length. *)
Definition demo_order : episode_map -> episode_map := sort_items.

Lemma demo_order_permutes eps : dict_ok eps -> demo_order eps ≡ₚ eps.
Proof. intros _. apply sort_items_perm. Qed.

Definition demo_goal_input : goal_input :=
  GoalInput "svc" "prod" "Fresh backlog" "team" BACKLOG_AGE (Float64 (double_of 60) (PyFloat "60.0" (FInt 60) true)) 300 120 180 60 false ["ops@example.com"].
Definition demo_service : scoped_service + studio_exn := inl (ScopedService "svc" "prod" false None).
Definition demo_start : Z := 1767225600000000.
Definition demo_alert (s : alert_status) (minute : Z) : alert :=
  Alert s [("relayna_goal_id", "g1"); ("relayna_goal_revision", "r1"); ("service_id", "svc"); ("environment", "prod"); ("owner", "team");
           ("alertname", "RelaynaReliabilityGoal")] (demo_start + minute * 60000000).
Definition demo_now : Z := demo_start + 86400000000.
Definition demo_setup : list request := [Services {["svc" := ServiceRow "prod" false false]}; Create demo_start "g1" "r1" demo_goal_input demo_service].

(** A callback by its name: its alerts. *)
Definition demo_parse (raw : string) : option webhook :=
  if String.eqb raw "firing" then Some (Webhook [demo_alert FIRING 0] 0)
  else if String.eqb raw "both" then Some (Webhook [demo_alert FIRING 0; demo_alert RESOLVED 0] 0) else None.
Definition demo_history : list request :=
  demo_setup ++ map (fun c => Callback (Some "Bearer secret") ["fir"; "ing"] (fun _ => c))
    [Circumstances demo_now true Fails true; Circumstances demo_now true Accepted false; Circumstances demo_now true Accepted true;
     Circumstances demo_now true Accepted true].


(** The alerts of 101 episodes, one minute apart; that of minute 19 is the last but one. *)
Definition demo_minutes : list Z := map Z.of_nat (seq 0 19 ++ seq 20 80 ++ [19; 100])%nat.
Definition demo_wave (minutes : list Z) (w : W) : W :=
  (deliver_all demo_order "https://studio" (map (fun m => (Circumstances demo_now true Accepted true, demo_alert FIRING m)) minutes) w).1.
Definition demo_emails (w : W) (minute : Z) : nat :=
  length (filter (fun p => ps_episode p = episode_key (demo_alert FIRING minute)) w.2).

(** The record does not keep the last hundred episodes: the column does not keep the order in which they came, and of 101
    episodes the one emailed last but one is forgotten.  Its alert is emailed again. *)
Lemma recent_episode_forgotten :
  let w := demo_wave demo_minutes (history demo_order "https://studio" demo_parse (Some "secret") demo_setup) in
  demo_emails w 19 = 1%nat /\ demo_emails (demo_wave [19] w) 19 = 2%nat /\ demo_emails (demo_wave [0] w) 0 = 1%nat.
Proof. vm_compute. repeat split. Qed.
