(* ===== verification/Availability.v ===== *)
(** * Provider availability (studio/_provider_availability.py)

    The gate before an optional telemetry provider: a state per service and configuration, a probe at a
    time while the provider is not known to be well, a pause after a failure, bounds on what runs
    and on what waits.  The callers are asyncio tasks: what a caller does between two awaits is one function on
    [gates]; it awaits the lock of its state ([Waiting]) or the operation ([Performing]).  States are objects, which the
    table may forget while a caller holds one.  Times are microseconds of the monotonic clock. *)

From S2P Require Import Prelude Redis.

(** [_Key], studio/_provider_availability.py:17: the service and the dump of the configuration. *)
Definition key : Type := string * string.

(** [_Availability], studio/_provider_availability.py:35-44: the lock by whether it is taken; the times of the wall clock are left out. *)
Record availability := Avail { locked : bool; healthy_until : Z; retry_at : Z; generation : Z; av_active : Z; waiters : Z; failures : Z }.
Definition new_availability : availability := Avail false 0 0 0 0 0 0.

(** Where a caller is: awaiting the lock of a state, or its operation, of a generation, with the lock or without. *)
Inductive call := Waiting (s : nat) (deadline : Z) | Performing (s : nat) (gen : Z) (holds : bool) (deadline : Z).

(** What a caller is refused with. *)
Inductive refusal := Paused (seconds : Z) | ChecksBusy | StillPending | RequestsBusy.

Definition timeout : Z := 10 * second.
Definition cooldown : Z := 30 * second.
Definition freshness : Z := 30 * second.
Definition max_active : Z := 2.
Definition max_waiting : Z := 16.
Definition max_states : nat := 128.

(** [_ProviderAvailability], studio/_provider_availability.py:54-66: with the clock, the objects and the callers. *)
Record gates := Gates {
  now : Z; states : list (key * nat); fresh_id : nat; objs : gmap nat availability; calls : gmap nat call; active : Z; waiting : Z }.

Definition start : gates := Gates 0 [] 0 ∅ ∅ 0 0.

Definition with_states l (g : gates) : gates := Gates (now g) l (fresh_id g) (objs g) (calls g) (active g) (waiting g).
Definition at_time t (g : gates) : gates := Gates t (states g) (fresh_id g) (objs g) (calls g) (active g) (waiting g).
Definition with_obj s (f : availability -> availability) (g : gates) : gates :=
  Gates (now g) (states g) (fresh_id g) (alter f s (objs g)) (calls g) (active g) (waiting g).
Definition counting (da dw : Z) (f : gmap nat call -> gmap nat call) (g : gates) : gates :=
  Gates (now g) (states g) (fresh_id g) (objs g) (f (calls g)) (active g + da) (waiting g + dw).

Definition av (g : gates) (s : nat) : availability := from_opt new_availability (objs g !! s).

Definition set_lock b a := Avail b (healthy_until a) (retry_at a) (generation a) (av_active a) (waiters a) (failures a).
Definition add_active d a := Avail (locked a) (healthy_until a) (retry_at a) (generation a) (av_active a + d) (waiters a) (failures a).
Definition add_waiter d a := Avail (locked a) (healthy_until a) (retry_at a) (generation a) (av_active a) (waiters a + d) (failures a).

(** [_ProviderAvailability._state], studio/_provider_availability.py:73-76: no caller uses the state. *)
Definition idle (a : availability) : bool := (av_active a =? 0) && (waiters a =? 0) && negb (locked a).

Fixpoint evict (g : gates) (l : list (key * nat)) : option (list (key * nat)) :=
  match l with
  | [] => None
  | (k, s) :: l => if idle (av g s) then Some l else cons (k, s) <$> evict g l
  end.

Definition find_state (k : key) (l : list (key * nat)) : option nat := snd <$> head (List.filter (fun ks => bool_decide (ks.1 = k)) l).

(** [_ProviderAvailability._state], studio/_provider_availability.py:79-81. *)
Definition add_state (k : key) (g : gates) : gates * option nat :=
  (Gates (now g) (states g ++ [(k, fresh_id g)]) (S (fresh_id g)) (<[fresh_id g := new_availability]> (objs g)) (calls g) (active g) (waiting g),
   Some (fresh_id g)).

(** [_ProviderAvailability._state], studio/_provider_availability.py:68-81: the state of a key becomes the newest; none when no state can
    make room for a new one. *)
Definition state_of (k : key) (g : gates) : gates * option nat :=
  match find_state k (states g) with
  | Some s => (with_states (List.filter (fun ks => negb (bool_decide (ks.1 = k))) (states g) ++ [(k, s)]) g, Some s)
  | None =>
      if (max_states <=? length (states g))%nat then
        match evict g (states g) with
        | Some l => add_state k (with_states l g)
        | None => (g, None)
        end
      else add_state k g
  end.

(** [_ProviderAvailability._paused], studio/_provider_availability.py:83-87. *)
Definition paused (g : gates) (s : nat) : refusal := Paused (Z.max 1 ((retry_at (av g s) - now g) / second + 1)).

(** [_ProviderAvailability.check], studio/_provider_availability.py:89-92. *)
Definition check (k : key) (g : gates) : option refusal :=
  s ← find_state k (states g);
  if now g <? retry_at (av g s) then Some (paused g s) else None.

(** [_ProviderAvailability._perform], studio/_provider_availability.py:132-136: up to the operation. *)
Definition perform (c s : nat) (holds : bool) (g : gates) : gates * option refusal :=
  if max_active <=? active g then (g, Some RequestsBusy)
  else (counting 1 0 (insert c (Performing s (generation (av g s)) holds (now g + timeout))) (with_obj s (add_active 1) g), None).

(** [_ProviderAvailability.run], studio/_provider_availability.py:120-127: with the lock. *)
Definition entered (c s : nat) (g : gates) : gates * option refusal :=
  if now g <? retry_at (av g s) then (with_obj s (set_lock false) g, Some (paused g s))
  else if healthy_until (av g s) <=? now g then
    match perform c s true g with
    | (g, None) => (g, None)
    | (g, Some r) => (with_obj s (set_lock false) g, Some r)
    end
  else perform c s false (with_obj s (set_lock false) g).

(** [_ProviderAvailability.run], studio/_provider_availability.py:94-127: up to the first await that yields. *)
Definition arrive (c : nat) (k : key) (g : gates) : gates * option refusal :=
  match state_of k g with
  | (g, None) => (g, Some ChecksBusy)
  | (g, Some s) =>
      let a := av g s in
      if now g <? retry_at a then (g, Some (paused g s))
      else if healthy_until a <=? now g then
        if locked a || negb (waiters a =? 0) then
          if max_waiting <=? waiting g then (g, Some ChecksBusy)
          else (counting 0 1 (insert c (Waiting s (now g + timeout))) (with_obj s (add_waiter 1) g), None)
        else entered c s (with_obj s (set_lock true) g)
      else perform c s false g
  end.

(** [_ProviderAvailability.run], studio/_provider_availability.py:113-115: a caller stops waiting. *)
Definition abandon (c s : nat) (g : gates) : gates := counting 0 (-1) (base.delete c) (with_obj s (add_waiter (-1)) g).

(** [_ProviderAvailability.run], studio/_provider_availability.py:108-127: it got the lock. *)
Definition acquired (c s : nat) (g : gates) : gates * option refusal := entered c s (with_obj s (set_lock true) (abandon c s g)).

(** [_ProviderAvailability._perform], studio/_provider_availability.py:159-161: the operation is over; [run] then releases the lock it holds. *)
Definition finished (c s : nat) (holds : bool) (g : gates) : gates :=
  let g := counting (-1) 0 (base.delete c) (with_obj s (add_active (-1)) g) in
  if holds then with_obj s (set_lock false) g else g.

(** [_ProviderAvailability._perform], studio/_provider_availability.py:152-161: a success of the current generation. *)
Definition answered (c s : nat) (gen : Z) (holds : bool) (g : gates) : gates :=
  finished c s holds
    (with_obj s (fun a => if gen =? generation a
                          then Avail (locked a) (now g + freshness) 0 (generation a) (av_active a) (waiters a) 0 else a) g).

(** [_ProviderAvailability._perform], studio/_provider_availability.py:147-147: the delay after [n] failures. *)
Definition backoff (n : Z) : Z := Z.min (300 * second) (cooldown * 2 ^ Z.min (n - 1) 4).

(** [_ProviderAvailability._perform], studio/_provider_availability.py:141-161: a failure, the delay with its jitter being [d]. *)
Definition failed (c s : nat) (holds : bool) (d : Z) (g : gates) : gates :=
  finished c s holds
    (with_obj s (fun a => Avail (locked a) 0 (now g + Z.min (300 * second) d) (generation a + 1) (av_active a) (waiters a) (failures a + 1)) g).

(** The delay after one more failure, times something between 0.8 and 1.2. *)
Definition jitter (a : availability) (d : Z) : Prop := 8 * backoff (failures a + 1) <= 10 * d <= 12 * backoff (failures a + 1).

Inductive step : gates -> gates -> Prop :=
| step_time g t : now g <= t -> step g (at_time t g)
| step_arrive g c k : calls g !! c = None -> step g (arrive c k g).1
| step_acquire g c s d : calls g !! c = Some (Waiting s d) -> locked (av g s) = false -> step g (acquired c s g).1
(* timed out, or cancelled *)
| step_abandon g c s d : calls g !! c = Some (Waiting s d) -> step g (abandon c s g)
| step_answered g c s gen holds d : calls g !! c = Some (Performing s gen holds d) -> step g (answered c s gen holds g)
| step_failed g c s gen holds d delay : calls g !! c = Some (Performing s gen holds d) -> jitter (av g s) delay -> step g (failed c s holds delay g)
(* the query was rejected, or the caller cancelled *)
| step_escaped g c s gen holds d : calls g !! c = Some (Performing s gen holds d) -> step g (finished c s holds g).

Definition reachable : gates -> Prop := rtc step start.

(** ** The gates keep their bounds

    Whatever callers arrive, wait, are cancelled, fail or succeed, and in whatever order: the counters are the
    numbers of callers, the bounds hold, a lock is held by one operation in progress, and no state that a caller uses is
    forgotten.  A failure pauses its state: until the shortest delay is over no operation starts on
    it, and no older success opens it. *)


(** ** Counting callers *)

Definition cnt (p : call -> bool) (m : gmap nat call) : Z := Z.of_nat (size (filter (fun kc => p kc.2 = true) m)).

Lemma cnt_insert p m c x : m !! c = None -> cnt p (<[c := x]> m) = cnt p m + Z.b2z (p x).
Proof.
  intros Hc. unfold cnt. rewrite map_filter_insert. cbn [snd]. destruct (decide (p x = true)) as [->|Hp].
  - rewrite map_size_insert_None; [cbn; lia|]. apply map_lookup_filter_None. by left.
  - rewrite delete_id by done. destruct (p x); [done|]. cbn. lia.
Qed.

Lemma cnt_delete p m c x : m !! c = Some x -> cnt p (base.delete c m) = cnt p m - Z.b2z (p x).
Proof.
  intros Hc. rewrite <- (insert_delete_id m c x Hc) at 2. rewrite cnt_insert by apply lookup_delete_eq. lia.
Qed.

Lemma cnt_nonneg p m : 0 <= cnt p m.
Proof. unfold cnt. lia. Qed.

Lemma cnt_zero p m : cnt p m = 0 -> forall c x, m !! c = Some x -> p x = false.
Proof.
  unfold cnt. intros Hz c x Hc. destruct (p x) eqn:E; [|done]. exfalso.
  assert (filter (fun kc => p kc.2 = true) m !! c = Some x) as Hf by by apply map_lookup_filter_Some.
  assert (size (filter (fun kc => p kc.2 = true) m) = 0%nat) as Hs by lia. apply map_size_empty_inv in Hs. by rewrite Hs, lookup_empty in Hf.
Qed.

Lemma cnt_one p m : cnt p m = 1 -> exists c x, m !! c = Some x /\ p x = true /\ forall c' x', m !! c' = Some x' -> p x' = true -> c' = c.
Proof.
  unfold cnt. intros H1. assert (size (filter (fun kc => p kc.2 = true) m) = 1%nat) as Hs by lia.
  destruct (proj1 (map_size_ne_0_lookup (filter (fun kc => p kc.2 = true) m))) as (c & x & Hc); [lia|]. exists c, x.
  pose proof Hc as Hc2. apply map_lookup_filter_Some in Hc as [Hc Hp]. cbn [snd] in Hp. split_and!; [done|done|].
  intros c' x' Hc' Hp'. destruct (decide (c' = c)) as [|Hne]; [done|exfalso].
  pose proof (cnt_delete p m c x Hc) as Hd. rewrite Hp in Hd. cbn in Hd. unfold cnt in Hd at 2.
  assert (cnt p (base.delete c m) = 0) as Hz by lia.
  assert (base.delete c m !! c' = Some x') as Hl by by rewrite lookup_delete_ne.
  rewrite (cnt_zero p _ Hz c' x' Hl) in Hp'. done.
Qed.

Definition is_performing (x : call) : bool := match x with Performing _ _ _ _ => true | _ => false end.
Definition is_waiting (x : call) : bool := match x with Waiting _ _ => true | _ => false end.
Definition performing_on (s : nat) (x : call) : bool := match x with Performing s' _ _ _ => Nat.eqb s' s | _ => false end.
Definition waiting_on (s : nat) (x : call) : bool := match x with Waiting s' _ => Nat.eqb s' s | _ => false end.
Definition holding (s : nat) (x : call) : bool := match x with Performing s' _ holds _ => Nat.eqb s' s && holds | _ => false end.
Definition call_state (x : call) : nat := match x with Waiting s _ => s | Performing s _ _ _ => s end.

(** ** The invariant *)

(** [h]: the state whose lock the running caller holds, outside of an operation. *)
Record inv (h : option nat) (g : gates) : Prop := {
  i_now : 0 <= now g;
  i_active : active g = cnt is_performing (calls g) /\ active g <= max_active;
  i_waiting : waiting g = cnt is_waiting (calls g) /\ waiting g <= max_waiting;
  i_obj : forall s, av_active (av g s) = cnt (performing_on s) (calls g) /\ waiters (av g s) = cnt (waiting_on s) (calls g) /\
                    cnt (holding s) (calls g) + Z.b2z (bool_decide (h = Some s)) = Z.b2z (locked (av g s));
  i_used : forall c x, calls g !! c = Some x -> call_state x ∈ map snd (states g);
  i_held : forall s, h = Some s -> s ∈ map snd (states g);
  i_known : forall s, s ∈ map snd (states g) -> is_Some (objs g !! s);
  i_fresh : forall s, is_Some (objs g !! s) -> (s < fresh_id g)%nat;
  i_keys : NoDup (map fst (states g)) /\ NoDup (map snd (states g)) /\ (length (states g) <= max_states)%nat;
  i_gen : forall c s gen holds d, calls g !! c = Some (Performing s gen holds d) ->
            gen <= generation (av g s) /\ (now g < retry_at (av g s) -> gen < generation (av g s)) }.

Lemma av_with_obj g s f s' : is_Some (objs g !! s) -> av (with_obj s f g) s' = if decide (s' = s) then f (av g s) else av g s'.
Proof.
  intros [a Ha]. unfold av, with_obj. cbn [objs]. destruct (decide (s' = s)) as [->|Hne].
  - by rewrite lookup_alter_eq, Ha.
  - by rewrite lookup_alter_ne.
Qed.

Lemma known_with_obj g s f s' : is_Some (objs (with_obj s f g) !! s') <-> is_Some (objs g !! s').
Proof. cbn [objs with_obj]. rewrite lookup_alter. destruct (decide (s = s')) as [->|]; [by rewrite fmap_is_Some|done]. Qed.

Lemma gates_start_inv : inv None start.
Proof.
  assert (forall p, cnt p ∅ = 0) as Hz by (intros p; unfold cnt; by rewrite map_filter_empty, map_size_empty).
  split; cbn [start active waiting calls states objs fresh_id now].
  - done.
  - by rewrite Hz.
  - by rewrite Hz.
  - intros s. rewrite !Hz. unfold av. cbn [start objs]. by rewrite lookup_empty.
  - intros c x Hc. by rewrite lookup_empty in Hc.
  - done.
  - intros s Hs. by apply elem_of_nil in Hs.
  - intros s [a Ha]. by rewrite lookup_empty in Ha.
  - split_and!; [constructor..|]. unfold max_states. cbn. lia.
  - intros c s gen holds d Hc. by rewrite lookup_empty in Hc.
Qed.

(** A change of one object that leaves its counters. *)
Lemma with_obj_inv h h' g s f : inv h g -> s ∈ map snd (states g) ->
  av_active (f (av g s)) = av_active (av g s) -> waiters (f (av g s)) = waiters (av g s) ->
  (forall s', s' ∈ map snd (states g) -> h' = Some s' -> h = Some s' \/ s' = s) ->
  (forall s', s' <> s -> bool_decide (h' = Some s') = bool_decide (h = Some s')) ->
  cnt (holding s) (calls g) + Z.b2z (bool_decide (h' = Some s)) = Z.b2z (locked (f (av g s))) ->
  (forall s', h' = Some s' -> s' ∈ map snd (states g)) ->
  (forall c gen holds d, calls g !! c = Some (Performing s gen holds d) ->
     gen <= generation (f (av g s)) /\ (now g < retry_at (f (av g s)) -> gen < generation (f (av g s)))) ->
  inv h' (with_obj s f g).
Proof.
  intros Hi Hs Ha Hw _ Hh Hl Hh' Hg. pose proof (i_known h g Hi s Hs) as Hk. split; try apply Hi.
  - intros s'. destruct (i_obj h g Hi s') as (H1 & H2 & H3). rewrite av_with_obj by done. cbn [calls with_obj].
    destruct (decide (s' = s)) as [->|Hne]; [by rewrite Ha, Hw|by rewrite Hh].
  - intros s' E. by apply Hh'.
  - intros s' E. apply known_with_obj. by apply (i_known h g Hi).
  - intros s' E. apply known_with_obj in E. by apply (i_fresh h g Hi).
  - intros c s' gen holds d Hc. rewrite av_with_obj by done. destruct (decide (s' = s)) as [->|]; [by eapply Hg|by eapply (i_gen h g Hi)].
Qed.

Lemma lock_inv g s : inv None g -> s ∈ map snd (states g) -> locked (av g s) = false -> inv (Some s) (with_obj s (set_lock true) g).
Proof.
  intros Hi Hs Hl. destruct (i_obj None g Hi s) as (H1 & H2 & H3). rewrite Hl in H3. apply (with_obj_inv None); try done.
  - intros s' Hs' [= ->]. by right.
  - intros s' Hne. rewrite !bool_decide_false; congruence.
  - rewrite bool_decide_true by done. rewrite bool_decide_false in H3 by done. cbn in *. lia.
  - by intros s' [= <-].
  - intros c gen holds d Hc. by eapply (i_gen None g Hi).
Qed.

Lemma unlock_inv g s : inv (Some s) g -> inv None (with_obj s (set_lock false) g).
Proof.
  intros Hi. assert (s ∈ map snd (states g)) as Hs by by apply (i_held _ g Hi).
  destruct (i_obj _ g Hi s) as (H1 & H2 & H3). apply (with_obj_inv (Some s)); try done.
  - intros s' Hne. rewrite !bool_decide_false; congruence.
  - rewrite bool_decide_true in H3 by done. rewrite bool_decide_false by done. cbn in *.
    pose proof (cnt_nonneg (holding s) (calls g)). destruct (locked (av g s)); cbn in *; lia.
  - intros c gen holds d Hc. by eapply (i_gen _ g Hi).
Qed.

(** ** The table of states *)

Lemma find_state_some k l s : find_state k l = Some s -> (k, s) ∈ l.
Proof.
  unfold find_state. destruct (List.filter _ l) as [|[k' s'] l'] eqn:E; [done|]. intros [= <-].
  assert ((k', s') ∈ List.filter (fun ks : key * nat => bool_decide (ks.1 = k)) l) as Hin by (rewrite E; left).
  apply list_elem_of_In, filter_In in Hin as [Hin Hk]. cbn in *. apply bool_decide_eq_true in Hk as ->. by apply list_elem_of_In.
Qed.

Lemma find_state_none k l : find_state k l = None -> k ∉ map fst l.
Proof.
  unfold find_state. destruct (List.filter _ l) as [|[k' s'] l'] eqn:E; [|done]. intros _ ([k' s] & -> & Hin)%list_elem_of_fmap.
  assert ((k', s) ∈ List.filter (fun ks : key * nat => bool_decide (ks.1 = k')) l) as Hf.
  { apply list_elem_of_In, filter_In. split; [by apply list_elem_of_In|by apply bool_decide_eq_true]. }
  cbn in E. rewrite E in Hf. by apply elem_of_nil in Hf.
Qed.

Lemma move_to_end k s (l : list (key * nat)) : NoDup (map fst l) -> (k, s) ∈ l ->
  List.filter (fun ks => negb (bool_decide (ks.1 = k))) l ++ [(k, s)] ≡ₚ l.
Proof.
  induction l as [|[k' s'] l IH]; intros Hn Hin; [by apply elem_of_nil in Hin|]. cbn [map fst] in Hn. apply NoDup_cons in Hn as [Hk Hn].
  cbn [List.filter fst]. apply elem_of_cons in Hin as [[= <- <-]|Hin].
  - rewrite bool_decide_true by done. cbn [negb]. rewrite Permutation_app_comm. cbn. f_equiv.
    assert (forall l0 : list (key * nat), k ∉ map fst l0 -> List.filter (fun ks : key * nat => negb (bool_decide (ks.1 = k))) l0 = l0) as Hf; [|by rewrite Hf].
    induction l0 as [|[k0 s0] l0 IH0]; cbn; [done|]. intros [Hne Hl0]%not_elem_of_cons. rewrite bool_decide_false by congruence. cbn. by rewrite IH0.
  - assert (k' <> k) as Hne by (intros ->; apply Hk; by apply (list_elem_of_fmap_2 fst l (k, s))).
    rewrite bool_decide_false by done. cbn [negb app]. by rewrite IH.
Qed.

Lemma reorder_inv h g l : inv h g -> l ≡ₚ states g -> inv h (with_states l g).
Proof.
  intros Hi Hp. assert (forall s, s ∈ map snd l <-> s ∈ map snd (states g)) as Hs by (intros s; by rewrite Hp).
  split; cbn [states with_states calls objs fresh_id]; try apply Hi.
  - intros c x Hc. apply Hs. by apply (i_used h g Hi c).
  - intros s E. apply Hs. by apply (i_held h g Hi).
  - intros s E%Hs. by apply (i_known h g Hi).
  - destruct (i_keys h g Hi) as (H1 & H2 & H3). by rewrite !Hp.
Qed.

Lemma evict_some g l l' : evict g l = Some l' -> exists k s l1 l2, l = l1 ++ (k, s) :: l2 /\ l' = l1 ++ l2 /\ idle (av g s) = true.
Proof.
  revert l'. induction l as [|[k s] l IH]; intros l' He; cbn in He; [done|]. destruct (idle (av g s)) eqn:E.
  - injection He as <-. by exists k, s, [], l.
  - destruct (evict g l) as [l0|]; [|done]. injection He as <-. destruct (IH l0 eq_refl) as (k0 & s0 & l1 & l2 & -> & -> & Hi).
    by exists k0, s0, ((k, s) :: l1), l2.
Qed.

(** A state that no caller uses. *)
Lemma idle_unused g s : inv None g -> idle (av g s) = true -> forall c x, calls g !! c = Some x -> call_state x <> s.
Proof.
  intros Hi [[Ha Hw]%andb_true_iff Hl]%andb_true_iff c x Hc <-. apply Z.eqb_eq in Ha, Hw. destruct (i_obj None g Hi (call_state x)) as (H1 & H2 & _).
  destruct x as [s d|s gen holds d]; cbn [call_state] in *.
  - assert (waiting_on s (Waiting s d) = false) as Hf by (eapply cnt_zero; [|exact Hc]; congruence). cbn in Hf. by rewrite Nat.eqb_refl in Hf.
  - assert (performing_on s (Performing s gen holds d) = false) as Hf by (eapply cnt_zero; [|exact Hc]; congruence). cbn in Hf. by rewrite Nat.eqb_refl in Hf.
Qed.

Lemma forget_inv g k s l1 l2 : inv None g -> states g = l1 ++ (k, s) :: l2 -> idle (av g s) = true -> inv None (with_states (l1 ++ l2) g).
Proof.
  intros Hi Hst Hid. pose proof (idle_unused g s Hi Hid) as Hun.
  assert (states g ≡ₚ (k, s) :: l1 ++ l2) as Hp by (rewrite Hst; symmetry; apply Permutation_middle).
  destruct (i_keys None g Hi) as (H1 & H2 & H3). rewrite Hp in H1, H2, H3. cbn [map fst snd length] in H1, H2, H3.
  apply NoDup_cons in H1 as [_ H1], H2 as [_ H2].
  assert (forall s', s' ∈ map snd (states g) <-> s' = s \/ s' ∈ map snd (l1 ++ l2)) as Hs.
  { intros s'. rewrite Hp. cbn. by rewrite elem_of_cons. }
  split; cbn [states with_states calls objs fresh_id]; try apply Hi; try done.
  - intros c x Hc. destruct (proj1 (Hs (call_state x)) (i_used None g Hi c x Hc)) as [E|]; [by apply Hun in Hc|done].
  - intros s' Hin. eapply (i_known None g Hi), Hs. by right.
  - split_and!; [done|done|]. unfold max_states in *. lia.
Qed.

Lemma av_fresh g k s : s <> fresh_id g -> av (add_state k g).1 s = av g s.
Proof. intros Hne. unfold av, add_state. cbn [fst objs]. by rewrite lookup_insert_ne. Qed.

Lemma add_state_inv k g : inv None g -> k ∉ map fst (states g) -> (length (states g) < max_states)%nat ->
  inv None (add_state k g).1 /\ fresh_id g ∈ map snd (states (add_state k g).1) /\ now (add_state k g).1 = now g.
Proof.
  intros Hi Hk Hlen. set (g' := (add_state k g).1).
  assert (objs g !! fresh_id g = None) as Hnew.
  { destruct (objs g !! fresh_id g) eqn:E; [|done]. assert (fresh_id g < fresh_id g)%nat; [|lia]. apply (i_fresh None g Hi). by eexists. }
  assert (fresh_id g ∉ map snd (states g)) as Hf.
  { intros [a Ha]%(i_known None g Hi). congruence. }
  assert (av g (fresh_id g) = new_availability) as Hav by (unfold av; by rewrite Hnew).
  assert (forall s, av g' s = av g s) as Hsame.
  { intros s. destruct (decide (s = fresh_id g)) as [->|Hne]; [|by apply av_fresh]. rewrite Hav. unfold av, g', add_state. cbn [fst objs]. by rewrite lookup_insert_eq. }
  assert (states g' = states g ++ [(k, fresh_id g)]) as Hst by done.
  assert (forall s, s ∈ map snd (states g') <-> s ∈ map snd (states g) \/ s = fresh_id g) as Hs.
  { intros s. rewrite Hst, map_app, elem_of_app. cbn. by rewrite list_elem_of_singleton. }
  split; [|split; [apply Hs; by right|done]]. split; try apply Hi.
  - intros s. rewrite Hsame. apply (i_obj None g Hi).
  - intros c x Hc. apply Hs. left. by apply (i_used None g Hi c).
  - done.
  - intros s [Hin| ->]%Hs; unfold g', add_state; cbn [fst objs].
    + apply (i_known None g Hi) in Hin as [a Ha]. rewrite lookup_insert_ne; [by eexists|]. intros <-. congruence.
    + rewrite lookup_insert_eq. by eexists.
  - intros s [a Ha]. unfold g', add_state in *. cbn [fst objs fresh_id] in *. destruct (decide (s = fresh_id g)) as [->|Hne]; [lia|].
    rewrite lookup_insert_ne in Ha by done. assert (s < fresh_id g)%nat; [|lia]. apply (i_fresh None g Hi). by eexists.
  - destruct (i_keys None g Hi) as (H1 & H2 & H3). rewrite Hst, !map_app, length_app. cbn [map fst snd length]. split_and!; [| |lia].
    + apply NoDup_app. split_and!; [done| |apply NoDup_singleton]. intros x Hx ->%list_elem_of_singleton. done.
    + apply NoDup_app. split_and!; [done| |apply NoDup_singleton]. intros x Hx ->%list_elem_of_singleton. done.
  - intros c s gen holds d Hc. rewrite Hsame. by eapply (i_gen None g Hi).
Qed.

Lemma state_of_inv k g : inv None g ->
  inv None (state_of k g).1 /\ now (state_of k g).1 = now g /\ calls (state_of k g).1 = calls g /\
  forall s, (state_of k g).2 = Some s -> s ∈ map snd (states (state_of k g).1).
Proof.
  intros Hi. unfold state_of. destruct (i_keys None g Hi) as (H1 & H2 & H3). destruct (find_state k (states g)) as [s|] eqn:Ef.
  - cbn [fst snd]. apply find_state_some in Ef. pose proof (move_to_end k s (states g) H1 Ef) as Hp. split_and!; [by apply reorder_inv|done|done|].
    intros s' [= <-]. cbn [states with_states]. rewrite Hp. by apply (list_elem_of_fmap_2 snd (states g) (k, s)).
  - apply find_state_none in Ef. destruct (max_states <=? length (states g))%nat eqn:El.
    + destruct (evict g (states g)) as [l|] eqn:Ee; [|by split_and!]. destruct (evict_some g _ l Ee) as (k' & s & l1 & l2 & Hst & -> & Hid).
      pose proof (forget_inv g k' s l1 l2 Hi Hst Hid) as Hi'.
      destruct (add_state_inv k (with_states (l1 ++ l2) g) Hi') as (Ha & Hin & Hn).
      * cbn [states with_states]. intros Hk. apply Ef. rewrite Hst, !map_app. rewrite map_app in Hk. cbn. apply elem_of_app in Hk.
        apply elem_of_app. rewrite elem_of_cons. tauto.
      * cbn [states with_states]. apply (f_equal length) in Hst. rewrite length_app in *. cbn in Hst. lia.
      * split_and!; [done|done|done|]. by intros s' [= <-].
    + apply Nat.leb_gt in El. destruct (add_state_inv k g Hi Ef El) as (Ha & Hin & Hn). split_and!; [done|done|done|]. by intros s' [= <-].
Qed.

(** ** The moves of a caller *)

(** A caller that appears, with the counters of its state. *)
Lemma new_call_inv h h' g c x s da dw (f : availability -> availability) : inv h g -> s ∈ map snd (states g) -> calls g !! c = None ->
  call_state x = s -> da = Z.b2z (is_performing x) -> dw = Z.b2z (is_waiting x) ->
  active g + da <= max_active -> waiting g + dw <= max_waiting ->
  (forall a, f a = Avail (locked a) (healthy_until a) (retry_at a) (generation a) (av_active a + da) (waiters a + dw) (failures a)) ->
  (forall s', Z.b2z (holding s' x) + Z.b2z (bool_decide (h' = Some s')) = Z.b2z (bool_decide (h = Some s'))) ->
  (forall s', h' = Some s' -> h = Some s') ->
  (forall gen holds d, x = Performing s gen holds d -> gen = generation (av g s) /\ retry_at (av g s) <= now g) ->
  inv h' (counting da dw (insert c x) (with_obj s f g)).
Proof.
  intros Hi Hs Hc Hx -> -> Ha Hw Hf Hh Hh' Hg. pose proof (i_known h g Hi s Hs) as Hk. subst s.
  assert (forall s', av (counting (Z.b2z (is_performing x)) (Z.b2z (is_waiting x)) (insert c x) (with_obj (call_state x) f g)) s' =
    av (with_obj (call_state x) f g) s') as Eav by done.
  destruct (i_active h g Hi) as [A1 _], (i_waiting h g Hi) as [W1 _].
  split; cbn [active waiting calls states objs fresh_id now counting with_obj]; rewrite ?cnt_insert by done.
  - apply Hi.
  - lia.
  - lia.
  - intros s'. rewrite !cnt_insert by done. destruct (i_obj h g Hi s') as (H1 & H2 & H3). rewrite Eav, av_with_obj by done. specialize (Hh s').
    destruct (decide (s' = call_state x)) as [->|Hne].
    + rewrite Hf. cbn [av_active waiters locked]. destruct x as [s d|s gen holds d]; cbn in *; rewrite ?Nat.eqb_refl; cbn; split_and!; try lia;
        destruct holds; cbn in *; rewrite ?Nat.eqb_refl in Hh; cbn in *; lia.
    + assert (performing_on s' x = false /\ waiting_on s' x = false) as [-> ->].
      { destruct x; cbn in *; split; try done; by apply Nat.eqb_neq; congruence. }
      cbn. split_and!; lia.
  - intros c' x'. destruct (decide (c' = c)) as [->|Hne].
    + rewrite lookup_insert_eq. by intros [= <-].
    + rewrite lookup_insert_ne by done. apply (i_used h g Hi).
  - intros s' E. apply (i_held h g Hi). by apply Hh'.
  - intros s' E. apply (known_with_obj g (call_state x) f). by apply (i_known h g Hi).
  - intros s' E. apply (known_with_obj g (call_state x) f) in E. by apply (i_fresh h g Hi).
  - apply Hi.
  - intros c' s' gen holds d E. rewrite Eav, av_with_obj by done.
    destruct (decide (c' = c)) as [->|Hne].
    + rewrite lookup_insert_eq in E. injection E as ->. cbn [call_state] in *. rewrite decide_True by done. rewrite Hf. cbn [generation retry_at].
      destruct (Hg gen holds d eq_refl) as [-> Hr]. split; [lia|]. intros ?. lia.
    + rewrite lookup_insert_ne in E by done. destruct (i_gen h g Hi _ _ _ _ _ E) as [G1 G2].
      destruct (decide (s' = call_state x)) as [->|]; [rewrite Hf|]; done.
Qed.

(** A caller that goes, with the counters of its state; [h'] takes over the lock it held. *)
Lemma gone_call_inv h h' g c x da dw (f : availability -> availability) : inv h g -> calls g !! c = Some x ->
  da = - Z.b2z (is_performing x) -> dw = - Z.b2z (is_waiting x) ->
  (forall a, f a = Avail (locked a) (healthy_until a) (retry_at a) (generation a) (av_active a + da) (waiters a + dw) (failures a)) ->
  (forall s', Z.b2z (bool_decide (h' = Some s')) = Z.b2z (bool_decide (h = Some s')) + Z.b2z (holding s' x)) ->
  (forall s', h' = Some s' -> h = Some s' \/ s' = call_state x) ->
  inv h' (counting da dw (base.delete c) (with_obj (call_state x) f g)).
Proof.
  intros Hi Hc -> -> Hf Hh Hh'. pose proof (i_used h g Hi c x Hc) as Hs. pose proof (i_known h g Hi _ Hs) as Hk.
  assert (forall s', av (counting (- Z.b2z (is_performing x)) (- Z.b2z (is_waiting x)) (base.delete c) (with_obj (call_state x) f g)) s' =
    av (with_obj (call_state x) f g) s') as Eav by done.
  destruct (i_active h g Hi) as [A1 A2], (i_waiting h g Hi) as [W1 W2].
  split; cbn [active waiting calls states objs fresh_id now counting with_obj]; rewrite ?(cnt_delete _ _ c x) by done.
  - apply Hi.
  - destruct (is_performing x); cbn in *; lia.
  - destruct (is_waiting x); cbn in *; lia.
  - intros s'. rewrite !(cnt_delete _ _ c x) by done. destruct (i_obj h g Hi s') as (H1 & H2 & H3). rewrite Eav, av_with_obj by done. specialize (Hh s').
    destruct (decide (s' = call_state x)) as [->|Hne].
    + rewrite Hf. cbn [av_active waiters locked]. destruct x as [s d|s gen holds d]; cbn in *; rewrite ?Nat.eqb_refl in *; cbn in *; split_and!; lia.
    + assert (performing_on s' x = false /\ waiting_on s' x = false) as [-> ->].
      { destruct x; cbn in *; split; try done; by apply Nat.eqb_neq; congruence. }
      cbn. split_and!; lia.
  - intros c' x' E. apply lookup_delete_Some in E as [_ E]. by apply (i_used h g Hi c').
  - intros s' E. destruct (Hh' s' E) as [E'| ->]; [by apply (i_held h g Hi)|done].
  - intros s' E. apply (known_with_obj g (call_state x) f). by apply (i_known h g Hi).
  - intros s' E. apply (known_with_obj g (call_state x) f) in E. by apply (i_fresh h g Hi).
  - apply Hi.
  - intros c' s' gen holds d E. rewrite Eav, av_with_obj by done. apply lookup_delete_Some in E as [_ E].
    destruct (i_gen h g Hi _ _ _ _ _ E) as [G1 G2]. destruct (decide (s' = call_state x)) as [->|]; [rewrite Hf|]; done.
Qed.

Definition taken (h : bool) (s : nat) : option nat := if h then Some s else None.

(** An operation starts, unless too many are running; it takes over the lock that its caller has. *)
Lemma perform_inv holds c s g : inv (taken holds s) g -> s ∈ map snd (states g) -> calls g !! c = None -> retry_at (av g s) <= now g ->
  let (g', r) := perform c s holds g in match r with None => inv None g' | Some _ => g' = g end.
Proof.
  intros Hi Hs Hc Hr. unfold perform. destruct (max_active <=? active g) eqn:E; [done|]. apply Z.leb_gt in E.
  apply (new_call_inv (taken holds s) None g c _ s); try done.
  - cbn. lia.
  - cbn. destruct (i_waiting _ g Hi). lia.
  - intros []. unfold add_active. cbn. f_equal. lia.
  - intros s'. rewrite (bool_decide_false (None = Some s')) by done. cbn. destruct holds; cbn; rewrite ?andb_false_r; [|by rewrite bool_decide_false].
    rewrite andb_true_r. destruct (Nat.eqb_spec s s') as [->|Hne]; [by rewrite bool_decide_true|by rewrite bool_decide_false by congruence].
  - by intros gen h d [= <- <- <-].
Qed.

Lemma entered_inv c s g : inv (Some s) g -> calls g !! c = None -> inv None (entered c s g).1.
Proof.
  intros Hi Hc. pose proof (i_held _ g Hi s eq_refl) as Hs. unfold entered. destruct (now g <? retry_at (av g s)) eqn:Er; [by apply unlock_inv|].
  apply Z.ltb_ge in Er. destruct (healthy_until (av g s) <=? now g).
  - pose proof (perform_inv true c s g Hi Hs Hc Er) as Hp. destruct (perform c s true g) as [g' [r|]]; [subst g'; by apply unlock_inv|done].
  - pose proof (perform_inv false c s _ (unlock_inv g s Hi) Hs Hc) as Hp. rewrite av_with_obj, decide_True in Hp by (done || by apply (i_known _ g Hi)).
    specialize (Hp Er). destruct (perform c s false _) as [g' [r|]]; [subst g'; by apply unlock_inv|done].
Qed.

Lemma arrive_inv c k g : inv None g -> calls g !! c = None -> inv None (arrive c k g).1.
Proof.
  intros Hi0 Hc0. unfold arrive. destruct (state_of_inv k g Hi0) as (Hi & Hn & Hcs & Hs). destruct (state_of k g) as [g1 [s|]]; cbn [fst snd] in *; [|done].
  specialize (Hs s eq_refl). rewrite <- Hcs in Hc0. clear Hi0 Hcs Hn. rename Hc0 into Hc.
  destruct (now g1 <? retry_at (av g1 s)) eqn:Er; [done|]. apply Z.ltb_ge in Er. destruct (healthy_until (av g1 s) <=? now g1).
  - destruct (locked (av g1 s) || negb (waiters (av g1 s) =? 0)) eqn:El.
    + destruct (max_waiting <=? waiting g1) eqn:Ew; [done|]. apply Z.leb_gt in Ew.
      apply (new_call_inv None None g1 c _ s); try done.
      * cbn. destruct (i_active _ g1 Hi). lia.
      * cbn. lia.
      * intros []. unfold add_waiter. cbn. f_equal. lia.
    + apply orb_false_iff in El as [El _]. apply entered_inv; [by apply lock_inv|done].
  - pose proof (perform_inv false c s g1 Hi Hs Hc Er) as Hp. destruct (perform c s false g1) as [g' [r|]]; [by subst g'|done].
Qed.

Lemma abandon_inv c s d g : inv None g -> calls g !! c = Some (Waiting s d) -> inv None (abandon c s g).
Proof.
  intros Hi Hc. apply (gone_call_inv None None g c (Waiting s d)); try done.
  intros []. unfold add_waiter. cbn. f_equal. lia.
Qed.

Lemma acquired_inv c s d g : inv None g -> calls g !! c = Some (Waiting s d) -> locked (av g s) = false -> inv None (acquired c s g).1.
Proof.
  intros Hi Hc Hl. pose proof (i_used _ g Hi _ _ Hc) as Hs. cbn in Hs. pose proof (i_known _ g Hi s Hs) as Hk.
  apply entered_inv; [|apply lookup_delete_eq]. apply lock_inv; [by eapply abandon_inv|done|].
  change (locked (av (with_obj s (add_waiter (-1)) g) s) = false). by rewrite av_with_obj, decide_True.
Qed.

Lemma finished_inv c s gen holds d g : inv None g -> calls g !! c = Some (Performing s gen holds d) -> inv None (finished c s holds g).
Proof.
  intros Hi Hc. unfold finished. set (g' := counting _ _ _ _).
  assert (inv (taken holds s) g') as Hi'.
  { apply (gone_call_inv None (taken holds s) g c (Performing s gen holds d)); try done.
    - intros []. unfold add_active. cbn. f_equal. lia.
    - intros s'. rewrite (bool_decide_false (None = Some s')) by done. cbn. destruct holds; cbn; rewrite ?andb_false_r, ?andb_true_r; [|by rewrite bool_decide_false].
      destruct (Nat.eqb_spec s s') as [->|Hne]; [by rewrite bool_decide_true|by rewrite bool_decide_false by congruence].
    - destruct holds; cbn; [|done]. intros s' [= ->]. by right. }
  destruct holds; [by apply unlock_inv|done].
Qed.

Lemma gates_step_inv g g' : inv None g -> step g g' -> inv None g'.
Proof.
  intros Hi Hs. destruct Hs as [g t Ht|g c k Hc|g c s d Hc Hl|g c s d Hc|g c s gen holds d Hc|g c s gen holds d delay Hc Hj|g c s gen holds d Hc].
  - split; cbn [now at_time states calls objs fresh_id active waiting]; try apply Hi; [pose proof (i_now _ g Hi); lia|].
    intros c s gen holds d Hc. destruct (i_gen _ g Hi _ _ _ _ _ Hc) as [G1 G2]. split; [done|]. intros Hlt. apply G2. change (av (at_time t g) s) with (av g s) in Hlt. lia.
  - by apply arrive_inv.
  - by eapply acquired_inv.
  - by eapply abandon_inv.
  - eapply finished_inv; [|exact Hc]. pose proof (i_used _ g Hi _ _ Hc) as Hin. destruct (i_obj _ g Hi s) as (O1 & O2 & O3). pose proof (i_now _ g Hi).
    apply (with_obj_inv None); try done; try (destruct (gen =? generation (av g s)); done).
    intros c' gen' h' d' Hc'. destruct (i_gen _ g Hi _ _ _ _ _ Hc') as [G1 G2]. destruct (gen =? generation (av g s)); [|done]. cbn [generation retry_at]. lia.
  - eapply finished_inv; [|exact Hc]. pose proof (i_used _ g Hi _ _ Hc) as Hin. destruct (i_obj _ g Hi s) as (O1 & O2 & O3).
    apply (with_obj_inv None); try done.
    intros c' gen' h' d' Hc'. destruct (i_gen _ g Hi _ _ _ _ _ Hc') as [G1 G2]. cbn [generation retry_at]. lia.
  - by eapply finished_inv.
Qed.

Lemma gates_inv g : reachable g -> inv None g.
Proof.
  unfold reachable. intros Hr. assert (inv None start) as Hi by apply gates_start_inv. induction Hr as [|x y z Hxy _ IH]; [done|]. by apply IH, (gates_step_inv x).
Qed.

(** ** What a move leaves of the evidence *)

Definition core (a : availability) : Z * Z * Z * Z := (healthy_until a, retry_at a, generation a, failures a).
Definition same_core (g g' : gates) : Prop := now g' = now g /\ forall s, core (av g' s) = core (av g s).

Lemma same_core_trans g1 g2 g3 : same_core g1 g2 -> same_core g2 g3 -> same_core g1 g3.
Proof. intros [H1 H2] [H3 H4]. split; [congruence|]. intros s. by rewrite H4. Qed.

Lemma with_obj_core s f g : (forall a, core (f a) = core a) -> same_core g (with_obj s f g).
Proof.
  intros Hf. split; [done|]. intros s'. unfold av, with_obj. cbn [objs]. rewrite lookup_alter. destruct (decide (s = s')); [|done].
  subst. destruct (objs g !! s'); [by apply Hf|done].
Qed.

Lemma counting_core da dw f g : same_core g (counting da dw f g).
Proof. done. Qed.

Lemma perform_core c s holds g : same_core g (perform c s holds g).1.
Proof.
  unfold perform. destruct (_ <=? _); [done|]. cbn [fst]. eapply same_core_trans; [apply with_obj_core|apply counting_core]. by intros [].
Qed.

Lemma entered_core c s g : same_core g (entered c s g).1.
Proof.
  unfold entered. destruct (_ <? _); [apply with_obj_core; by intros []|]. destruct (_ <=? _).
  - pose proof (perform_core c s true g) as Hp. destruct (perform c s true g) as [g' [r|]]; [|done].
    eapply same_core_trans; [exact Hp|]. apply with_obj_core. by intros [].
  - eapply same_core_trans; [|apply perform_core]. apply with_obj_core. by intros [].
Qed.

Lemma state_of_core k g : inv None g -> same_core g (state_of k g).1.
Proof.
  intros Hi. assert (forall l, same_core g (add_state k (with_states l g)).1) as Hadd.
  { intros l. split; [done|]. intros s. destruct (decide (s = fresh_id g)) as [->|Hne]; [|by rewrite av_fresh]. unfold av, add_state. cbn [fst objs].
    rewrite lookup_insert_eq. destruct (objs g !! fresh_id g) eqn:E; [|done]. assert (fresh_id g < fresh_id g)%nat; [|lia]. apply (i_fresh None g Hi). by eexists. }
  unfold state_of. destruct (find_state k (states g)); [done|]. destruct (_ <=? _)%nat; [|apply (Hadd (states g))]. destruct (evict g (states g)); [apply Hadd|done].
Qed.

Lemma arrive_core c k g : inv None g -> same_core g (arrive c k g).1.
Proof.
  intros Hi. unfold arrive. pose proof (state_of_core k g Hi) as Hc. destruct (state_of k g) as [g1 [s|]]; cbn [fst] in *; [|done].
  destruct (_ <? _); [done|]. destruct (_ <=? _).
  - destruct (_ || _).
    + destruct (_ <=? _); [done|]. eapply same_core_trans; [exact Hc|]. cbn [fst]. eapply same_core_trans; [apply with_obj_core|apply counting_core]. by intros [].
    + eapply same_core_trans; [exact Hc|]. eapply same_core_trans; [|apply entered_core]. apply with_obj_core. by intros [].
  - eapply same_core_trans; [exact Hc|apply perform_core].
Qed.

Lemma abandon_core c s g : same_core g (abandon c s g).
Proof. eapply same_core_trans; [apply with_obj_core|apply counting_core]. by intros []. Qed.
Lemma acquired_core c s g : same_core g (acquired c s g).1.
Proof.
  eapply same_core_trans; [apply abandon_core|]. eapply same_core_trans; [|apply entered_core]. apply with_obj_core. by intros [].
Qed.
Lemma finished_core c s holds g : same_core g (finished c s holds g).
Proof.
  unfold finished. assert (same_core g (counting (-1) 0 (base.delete c) (with_obj s (add_active (-1)) g))) as H.
  { eapply same_core_trans; [apply with_obj_core|apply counting_core]. by intros []. }
  destruct holds; [|done]. eapply same_core_trans; [exact H|]. apply with_obj_core. by intros [].
Qed.

(** ** Which operations start *)

(** An operation of [g'] ran in [g] already, or the state admits it: the pause is over, and it has the lock unless the provider is well. *)
Definition admitted_on (g : gates) (m : gmap nat call) : Prop := forall c s gen holds d, m !! c = Some (Performing s gen holds d) ->
  calls g !! c = Some (Performing s gen holds d) \/
  retry_at (av g s) <= now g /\ (holds = false -> now g < healthy_until (av g s)).

Lemma admitted_core g g' m : same_core g g' -> calls g' = calls g -> admitted_on g' m -> admitted_on g m.
Proof.
  intros [Hn Hc] Hcs Ha c s gen holds d Hm. destruct (Ha c s gen holds d Hm) as [E|[H1 H2]]; [left; by rewrite <- Hcs|right].
  pose proof (Hc s) as E. unfold core in E. injection E as E1 E2 _ _. rewrite <- E1, <- E2, <- Hn. done.
Qed.

Lemma perform_admitted c s holds g : retry_at (av g s) <= now g -> (holds = false -> now g < healthy_until (av g s)) ->
  admitted_on g (calls (perform c s holds g).1).
Proof.
  intros Hr Hh c' s' gen h d. unfold perform. destruct (_ <=? _); cbn [fst calls counting with_obj]; [by left|].
  destruct (decide (c' = c)) as [->|Hne]; [rewrite lookup_insert_eq; intros [= <- _ <- _]; by right|rewrite lookup_insert_ne by done; by left].
Qed.

Lemma entered_admitted c s g : admitted_on g (calls (entered c s g).1).
Proof.
  unfold entered. destruct (now g <? retry_at (av g s)) eqn:Er; [by intros ? ? ? ? ? E; left|]. apply Z.ltb_ge in Er.
  destruct (healthy_until (av g s) <=? now g) eqn:Eh.
  - assert (admitted_on g (calls (perform c s true g).1)) as Hp by by apply perform_admitted.
    destruct (perform c s true g) as [g' [r|]]; exact Hp.
  - apply Z.leb_gt in Eh. assert (same_core g (with_obj s (set_lock false) g)) as Hc by (apply with_obj_core; by intros []).
    apply (admitted_core g (with_obj s (set_lock false) g)); [done|done|]. destruct Hc as [Hn Hc]. specialize (Hc s). unfold core in Hc. injection Hc as E1 E2 _ _.
    apply perform_admitted; rewrite ?E1, ?E2; [done|by intros _].
Qed.

Lemma step_admitted g g' : inv None g -> step g g' -> admitted_on g (calls g').
Proof.
  intros Hi Hs. destruct Hs as [g t Ht|g c k Hc|g c s d Hc Hl|g c s d Hc|g c s gen holds d Hc|g c s gen holds d delay Hc Hj|g c s gen holds d Hc].
  - by intros ? ? ? ? ? E; left.
  - unfold arrive. pose proof (state_of_core k g Hi) as Hcore. destruct (state_of_inv k g Hi) as (_ & _ & Hcs & _).
    destruct (state_of k g) as [g1 [s|]]; cbn [fst] in *; [|by intros ? ? ? ? ? E; left; rewrite <- Hcs].
    apply (admitted_core g g1); [done|done|]. destruct (now g1 <? _) eqn:Er; [by intros ? ? ? ? ? E; left|]. apply Z.ltb_ge in Er.
    destruct (healthy_until (av g1 s) <=? now g1) eqn:Eh.
    + destruct (_ || _).
      * destruct (max_waiting <=? waiting g1); [intros c' s' gen h d E; left; exact E|]. intros c' s' gen h d E. cbn [fst calls counting with_obj] in E. left.
        apply lookup_insert_Some in E as [[_ E]|[_ E]]; [discriminate E|exact E].
      * eapply (admitted_core g1 (with_obj s (set_lock true) g1)); [apply with_obj_core; by intros []|done|]. apply entered_admitted.
    + apply Z.leb_gt in Eh. by apply perform_admitted.
  - pose proof (entered_admitted c s (with_obj s (set_lock true) (abandon c s g))) as He.
    intros c' s' gen h d' E. destruct (He c' s' gen h d' E) as [E'|[H1 H2]].
    + left. cbn [calls with_obj abandon counting] in E'. by apply lookup_delete_Some in E' as [_ E'].
    + right. assert (same_core g (with_obj s (set_lock true) (abandon c s g))) as [Hn Hcore].
      { eapply same_core_trans; [apply abandon_core|apply with_obj_core; by intros []]. }
      pose proof (Hcore s') as E3. unfold core in E3. injection E3 as E1 E2 _ _. rewrite <- E1, <- E2, <- Hn. done.
  - intros c' s' gen h d' E. left. cbn [calls with_obj abandon counting] in E. by apply lookup_delete_Some in E as [_ E].
  - intros c' s' gen' h d' E. left. unfold answered, finished in E. destruct holds; cbn [calls with_obj counting] in E; by apply lookup_delete_Some in E as [_ E].
  - intros c' s' gen' h d' E. left. unfold failed, finished in E. destruct holds; cbn [calls with_obj counting] in E; by apply lookup_delete_Some in E as [_ E].
  - intros c' s' gen' h d' E. left. unfold finished in E. destruct holds; cbn [calls with_obj counting] in E; by apply lookup_delete_Some in E as [_ E].
Qed.

(** ** The bounds *)

Lemma one_state_per_key (l : list (key * nat)) k s s' : NoDup (map fst l) -> (k, s) ∈ l -> (k, s') ∈ l -> s = s'.
Proof.
  intros Hn [i Hi]%list_elem_of_lookup [j Hj]%list_elem_of_lookup. assert (i = j) as ->; [|congruence].
  eapply NoDup_lookup; [exact Hn| |]; change (map fst l) with (fst <$> l); rewrite list_lookup_fmap; [by rewrite Hi|by rewrite Hj].
Qed.

Lemma used_found g c x : inv None g -> calls g !! c = Some x -> exists k, find_state k (states g) = Some (call_state x).
Proof.
  intros Hi Hc. pose proof (i_used None g Hi c x Hc) as ([k s] & Hs & Hin)%list_elem_of_fmap. cbn in Hs. exists k.
  destruct (find_state k (states g)) as [s'|] eqn:E.
  - apply find_state_some in E. rewrite Hs. f_equal. symmetry. eapply one_state_per_key; [apply (i_keys None g Hi)|exact Hin|exact E].
  - apply find_state_none in E. exfalso. apply E. by apply (list_elem_of_fmap_2 fst _ (k, s)).
Qed.

(** C36. Whatever callers arrive, wait, time out, are cancelled, fail or succeed, in whatever order: at most two operations run and
    at most sixteen callers wait, and the counters that limit them are exact; at most 128 states are kept, one per key, and the state
    of every caller is the one that its key finds, so none in use was forgotten; at most one operation probes a
    state, and a lock that is taken is held by an operation that runs. *)
Theorem gates_bounded g : reachable g ->
  (active g = cnt is_performing (calls g) /\ cnt is_performing (calls g) <= 2) /\ (waiting g = cnt is_waiting (calls g) /\ cnt is_waiting (calls g) <= 16) /\
  (length (states g) <= 128)%nat /\ NoDup (map fst (states g)) /\
  (forall c x, calls g !! c = Some x -> exists k, find_state k (states g) = Some (call_state x)) /\
  (forall s c1 c2 x1 x2, calls g !! c1 = Some x1 -> calls g !! c2 = Some x2 -> holding s x1 = true -> holding s x2 = true -> c1 = c2) /\
  (forall s, locked (av g s) = true -> exists c x, calls g !! c = Some x /\ holding s x = true).
Proof.
  intros Hr. pose proof (gates_inv g Hr) as Hi. destruct (i_active _ g Hi) as [A1 A2], (i_waiting _ g Hi) as [W1 W2], (i_keys _ g Hi) as (K1 & _ & K3).
  unfold max_active, max_waiting, max_states in *.
  assert (forall s, cnt (holding s) (calls g) = Z.b2z (locked (av g s))) as Hl.
  { intros s. destruct (i_obj _ g Hi s) as (_ & _ & E). rewrite bool_decide_false in E by done. cbn in E. lia. }
  split_and!; [done|lia|done|lia|done|done| | |].
  - intros c x. by apply used_found.
  - intros s c1 c2 x1 x2 H1 H2 Hh1 Hh2. specialize (Hl s). destruct (locked (av g s)); cbn in Hl.
    + destruct (cnt_one _ _ Hl) as (c & x & _ & _ & Hu). by rewrite (Hu c1 x1), (Hu c2 x2).
    + by rewrite (cnt_zero _ _ Hl c1 x1 H1) in Hh1.
  - intros s Hs. specialize (Hl s). rewrite Hs in Hl. destruct (cnt_one _ _ Hl) as (c & x & Hc & Hx & _). by exists c, x.
Qed.

(** ** The pause *)

Definition shortest_pause : Z := 24 * second.

Lemma core_eq a b : core a = core b -> healthy_until a = healthy_until b /\ retry_at a = retry_at b /\ generation a = generation b /\ failures a = failures b.
Proof. unfold core. by intros [= -> -> -> ->]. Qed.

(** Whatever becomes of the evidence in a step. *)
Lemma step_evidence g g' : inv None g -> step g g' -> now g <= now g' /\ forall s,
  core (av g' s) = core (av g s) \/
  (now g' = now g /\ failures (av g' s) = 0 /\ exists c holds d, calls g !! c = Some (Performing s (generation (av g s)) holds d)) \/
  (now g' = now g /\ exists delay, jitter (av g s) delay /\ failures (av g' s) = failures (av g s) + 1 /\ retry_at (av g' s) = now g + Z.min (300 * second) delay).
Proof.
  intros Hi Hs. destruct Hs as [g t Ht|g c k Hc|g c s d Hc Hl|g c s d Hc|g c s gen holds d Hc|g c s gen holds d delay Hc Hj|g c s gen holds d Hc].
  - split; [done|]. by left.
  - destruct (arrive_core c k g Hi) as [Hn Hcore]. rewrite Hn. split; [lia|]. by left.
  - destruct (acquired_core c s g) as [Hn Hcore]. rewrite Hn. split; [lia|]. by left.
  - destruct (abandon_core c s g) as [Hn Hcore]. rewrite Hn. split; [lia|]. by left.
  - pose proof (i_known _ g Hi s (i_used _ g Hi _ _ Hc)) as Hk. unfold answered. set (g1 := with_obj s _ g).
    destruct (finished_core c s holds g1) as [Hn Hcore]. rewrite Hn. split; [cbn; lia|]. intros s'. specialize (Hcore s').
    unfold g1 in Hcore. rewrite av_with_obj in Hcore by done. destruct (decide (s' = s)) as [->|]; [|by left].
    destruct (Z.eqb_spec gen (generation (av g s))) as [->|]; [|by left]. right. left. apply core_eq in Hcore as (_ & _ & _ & Hf). split_and!; [done|done|]. by exists c, holds, d.
  - pose proof (i_known _ g Hi s (i_used _ g Hi _ _ Hc)) as Hk. unfold failed. set (g1 := with_obj s _ g).
    destruct (finished_core c s holds g1) as [Hn Hcore]. rewrite Hn. split; [cbn; lia|]. intros s'. specialize (Hcore s').
    unfold g1 in Hcore. rewrite av_with_obj in Hcore by done. destruct (decide (s' = s)) as [->|]; [|by left].
    right. right. apply core_eq in Hcore as (_ & Hr & _ & Hf). split; [done|]. by exists delay.
  - destruct (finished_core c s holds g) as [Hn Hcore]. rewrite Hn. split; [lia|]. by left.
Qed.

Lemma failures_nonneg g : reachable g -> forall s, 0 <= failures (av g s).
Proof.
  intros Hr. pattern g. eapply rtc_ind_r; [| |exact Hr].
  - intros s. unfold av, start. cbn [objs]. by rewrite lookup_empty.
  - intros y z Hry Hyz IH s. destruct (step_evidence y z (gates_inv y Hry) Hyz) as [_ He].
    destruct (He s) as [E|[(_ & -> & _)|(_ & dl & _ & -> & _)]]; [|lia|specialize (IH s); lia]. by apply core_eq in E as (_ & _ & _ & ->).
Qed.

Lemma jitter_long a d : 0 <= failures a -> jitter a d -> shortest_pause <= Z.min (300 * second) d.
Proof.
  unfold jitter, backoff, cooldown, shortest_pause. intros Hf [Hj _]. assert (1 <= 2 ^ Z.min (failures a + 1 - 1) 4) as Hp.
  { change 1 with (2 ^ 0) at 1. apply Z.pow_le_mono_r; lia. }
  unfold second in *. lia.
Qed.

(** A pause that began at [t0] is not over yet. *)
Definition quiet (s : nat) (t0 : Z) (g : gates) : Prop := t0 <= now g /\ (now g < t0 + shortest_pause -> t0 + shortest_pause <= retry_at (av g s)).

Lemma quiet_step s t0 g g' : reachable g -> step g g' -> quiet s t0 g -> quiet s t0 g'.
Proof.
  intros Hr Hs [Ht Hq]. pose proof (gates_inv g Hr) as Hi. destruct (step_evidence g g' Hi Hs) as [Hn He]. split; [lia|]. intros Hlt.
  assert (t0 + shortest_pause <= retry_at (av g s)) as Hp by (apply Hq; lia).
  destruct (He s) as [E|[(E & _ & c & holds & d & Hc)|(E & delay & Hj & _ & ->)]].
  - apply core_eq in E as (_ & -> & _). done.
  - exfalso. destruct (i_gen _ g Hi _ _ _ _ _ Hc) as [_ Hg]. lia.
  - pose proof (jitter_long _ _ (failures_nonneg g Hr s) Hj). lia.
Qed.

(** C37. When an operation on a provider fails, its state is paused for at least the shortest delay, 24 seconds: whatever happens
    until then, older operations that succeed included, no operation starts on the state; and whenever an operation starts, the
    pause of its state is over and, unless the provider is known to be well, it holds the lock. *)
Theorem pause_holds g c s gen holds d delay g2 g3 : reachable g -> calls g !! c = Some (Performing s gen holds d) -> jitter (av g s) delay ->
  rtc step (failed c s holds delay g) g2 -> step g2 g3 ->
  (now g2 < now g + shortest_pause -> forall c' gen' holds' d', calls g3 !! c' = Some (Performing s gen' holds' d') ->
     calls g2 !! c' = Some (Performing s gen' holds' d')) /\
  admitted_on g2 (calls g3).
Proof.
  intros Hr Hc Hj Hpath Hstep. assert (step g (failed c s holds delay g)) as Hs1 by by eapply step_failed.
  assert (reachable (failed c s holds delay g)) as Hr1 by by eapply rtc_r.
  assert (quiet s (now g) (failed c s holds delay g)) as Hq1.
  { pose proof (gates_inv g Hr) as Hi. pose proof (i_known _ g Hi s (i_used _ g Hi _ _ Hc)) as Hk. unfold failed. set (g1 := with_obj s _ g).
    destruct (finished_core c s holds g1) as [Hn Hcore]. apply (fun H => core_eq _ _ (H s)) in Hcore as (_ & Hra & _).
    assert (retry_at (av g1 s) = now g + Z.min (300 * second) delay) as E by (unfold g1; by rewrite av_with_obj, decide_True).
    rewrite E in Hra. clear E. split; [by rewrite Hn|]. intros _. rewrite Hra.
    pose proof (jitter_long _ _ (failures_nonneg g Hr s) Hj). lia. }
  assert (reachable g2 /\ quiet s (now g) g2) as [Hr2 Hq2].
  { clear Hs1 Hc Hj Hstep. revert Hr1 Hq1. induction Hpath as [x|x y z Hxy _ IH]; [done|]. intros Hrx Hqx. apply IH; [by eapply rtc_r|by eapply quiet_step]. }
  pose proof (step_admitted g2 g3 (gates_inv g2 Hr2) Hstep) as Ha. split; [|done].
  intros Hlt c' gen' h' d' Hc'. destruct (Ha _ _ _ _ _ Hc') as [E|[Hle _]]; [done|]. destruct Hq2 as [_ Hq2]. specialize (Hq2 Hlt). lia.
Qed.

(** ** Witnesses and a demonstration *)

Definition demo_key : key := ("billing", "tempo").
Definition one_call : gates := (arrive 1 demo_key start).1.

Lemma one_call_reachable : reachable one_call.
Proof. apply rtc_once. by apply (step_arrive start 1 demo_key). Qed.

Lemma gates_bounded_witness : active one_call = 1 /\ cnt is_performing (calls one_call) = 1 /\ locked (av one_call 0%nat) = true.
Proof.
  destruct (gates_bounded one_call one_call_reachable) as ([Ha _] & _). split; [reflexivity|]. split; [|reflexivity].
  rewrite <- Ha. reflexivity.
Defined.

Definition after_failure : gates := failed 1 0 true (30 * second) one_call.
Definition five_seconds_later : gates := at_time (5 * second) after_failure.

(** A second caller that comes five seconds after the failure is refused. *)
Lemma pause_holds_witness : calls (arrive 2 demo_key five_seconds_later).1 !! 2%nat <> Some (Performing 0 1 true (15 * second)) /\
  (arrive 2 demo_key five_seconds_later).2 = Some (Paused 26).
Proof.
  split; [|vm_compute; reflexivity]. intros Hc.
  destruct (pause_holds one_call 1 0 0 true (10 * second) (30 * second) five_seconds_later (arrive 2 demo_key five_seconds_later).1) as [Hp _].
  - exact one_call_reachable.
  - vm_compute. reflexivity.
  - vm_compute. split; intros ?; discriminate.
  - apply rtc_once. apply step_time. vm_compute. intros ?; discriminate.
  - apply step_arrive. vm_compute. reflexivity.
  - assert (now five_seconds_later < now one_call + shortest_pause) as Hlt by (vm_compute; reflexivity).
    pose proof (Hp Hlt 2%nat 1 true (15 * second) Hc) as E. vm_compute in E. discriminate E.
Defined.

(** One answered query of another configuration. *)
Definition answered_query (g : gates) (n : nat) : gates :=
  let g1 := (arrive n ("other", pretty (Z.of_nat n)) g).1 in
  match calls g1 !! n with Some (Performing s gen holds _) => answered n s gen holds g1 | _ => g1 end.

(** The pause is part of a state, and 128 other configurations push the state out of the table: the next query of the paused
    provider runs at once. *)
Lemma evicted_pause_is_forgotten :
  (arrive 1 demo_key five_seconds_later).2 = Some (Paused 26) /\
  (arrive 1 demo_key (foldl answered_query five_seconds_later (seq 2 128))).2 = None.
Proof. vm_compute. done. Qed.
