(* ===== verification/TracePath.v ===== *)
(** * Trace paths (studio/traces.py)

    [build_trace_path_response] puts the evidence of a task together: the nodes and the edges of its execution
    graph, its dead letters, its events and the spans of its traces, each attached to the node it
    fits best.  Nodes are objects that the loops change in place: here a node is a position in the list.
    Also what becomes of Tempo's answer. *)

From S2P Require Import Prelude PyStr PySort PyVal PyFloat Transport PyTime ExecutionGraph ExecutionGraphSpec StudioTime.
From Stdlib Require Import SpecFloat Ascii.

(** ** Data *)

(** [StudioTraceSpan], studio/traces.py:32-44. *)
Record span := Span {
  sp_trace_id : string; sp_span_id : string; sp_parent_span_id : option string; sp_name : string; sp_kind : option string;
  sp_service : option string; sp_source : option string; sp_start_time : option string; sp_end_time : option string;
  sp_duration_ms : option spec_float; sp_attributes : pydict; sp_backend_url : option string }.

Inductive evidence_source := GRAPH_NODE | GRAPH_EDGE | STATUS_HISTORY | STUDIO_EVENT | SPAN | DLQ | LATEST_STATUS.

(** [StudioTracePathEvidence], studio/traces.py:55-60. *)
Record evidence := Evidence { ev_source : evidence_source; ev_source_id : string; ev_label : string; ev_timestamp : option string; ev_payload : pydict }.

(** [StudioTracePathNode], studio/traces.py:63-78. *)
Record path_node := PathNode {
  pn_id : string; pn_kind : string; pn_label : string; pn_task_id : option string; pn_state : option string; pn_queue_name : option string;
  pn_stage : option string; pn_attempt : option Z; pn_trace_id : option string; pn_span_id : option string; pn_parent_span_id : option string;
  pn_started_at : option string; pn_ended_at : option string; pn_duration_ms : option spec_float; pn_evidence : list evidence }.

(** [StudioTracePathEdge], studio/traces.py:81-88. *)
Record path_edge := PathEdge {
  pe_id : string; pe_source : string; pe_target : string; pe_kind : string; pe_timestamp : option string; pe_state : option string;
  pe_evidence : list evidence }.

(** [StudioTracePathSummary], studio/traces.py:104-116. *)
Record path_summary := PathSummary {
  su_status : option string; su_started_at : option string; su_ended_at : option string; su_duration_ms : option spec_float;
  su_graph_completeness : option string; su_trace_ids : list string; su_node_count : Z; su_edge_count : Z; su_span_count : Z;
  su_event_count : Z; su_dlq_count : Z; su_live_state_counts : dict Z }.

(** [StudioTracePathResponse], studio/traces.py:119-129: without the log metadata and the warnings. *)
Record path_response := PathResponse {
  rs_task_id : string; rs_summary : path_summary; rs_nodes : list path_node; rs_edges : list path_edge; rs_spans : list span;
  rs_events : list pydict; rs_dlq_messages : list pydict }.

(** ** Reading JSON *)

(** [_string], studio/traces.py:1002-1006. *)
Definition string_of (v : pyval) : option string := match v with PNone => None | v => nonempty (strip (py_str v)) end.

Definition or_str (o : option string) (s : string) : string := from_opt s o.

(** [_first_string], studio/traces.py:1009-1014. *)
Fixpoint first_string (l : list pyval) : option string :=
  match l with [] => None | v :: l => match string_of v with Some s => Some s | None => first_string l end end.

(** [_mapping_or_empty], studio/traces.py:1017-1018. *)
Definition mapping_or_empty (v : pyval) : pydict := match v with PDict d => d | _ => [] end.

(** [_list_of_mappings], studio/traces.py:1036-1039. *)
Definition list_of_mappings (v : pyval) : list pydict :=
  match v with PList l => omap (fun v => match v with PDict d => Some d | _ => None end) l | _ => [] end.

(** [except (TypeError, ValueError)] *)
Definition type_or_value_error (e : exn) : bool := is_value_error e || match exn_class e with XTypeError => true | _ => false end.

(** [_int_or_none], studio/traces.py:988-992: the overflow of an infinite float is not caught. *)
Definition int_or_none (v : pyval) : result (option Z) :=
  match py_int v with Ok z => Ok (Some z) | Raise e => if type_or_value_error e then Ok None else Raise e end.

(** [_int_counts], studio/traces.py:1025-1033. *)
Definition int_counts (v : pyval) : result (dict Z) :=
  match v with
  | PDict d => l ← mapM_result (fun kv : string * pyval => n ← int_or_none kv.2; Ok (kv.1, n)) d;
               Ok (foldl (fun acc kv => match kv.2 with Some n => dset kv.1 n acc | None => acc end) [] l)
  | _ => Ok []
  end.

(** [float(v)]. *)
Section float.
Context (py_float : pyval -> result spec_float).
(** [_float_or_none], studio/traces.py:995-999. *)
Definition float_or_none (v : pyval) : result (option spec_float) :=
  match py_float v with Ok f => Ok (Some f) | Raise e => if type_or_value_error e then Ok None else Raise e end.
End float.

(** [a or b] of floats. *)
Definition float_or (a b : option spec_float) : option spec_float :=
  match a with Some (S754_zero _) | None => b | _ => a end.

(** ** Times *)

Definition stripped (o : option string) : option string := s ← o; nonempty (strip s).

(** [_timestamp_sort_key], studio/traces.py:1053-1054. *)
Definition timestamp_sort_key (o : option string) : string := from_opt "" (stripped o).
(** [_earliest_timestamp], studio/traces.py:1057-1059. *)
Definition earliest_timestamp (l : list (option string)) : option string := head (sort_by str_le (omap stripped l)).
(** [_latest_timestamp], studio/traces.py:1062-1064. *)
Definition latest_timestamp (l : list (option string)) : option string := last (sort_by str_le (omap stripped l)).

(** [_duration_ms], studio/traces.py:1067-1072: the microseconds by 10**6, by 1000. *)
Definition duration_ms (started_at ended_at : option string) : option spec_float :=
  match StudioTime.parse_timestamp started_at, StudioTime.parse_timestamp ended_at with
  | Some s, Some e => if e <? s then None
                      else Some (SFmul 53 1024 (SFdiv 53 1024 (float_of (e - s)) (float_of 1000000)) (float_of 1000))
  | _, _ => None
  end.

(** ** The graph *)

(** [_trace_path_nodes_from_graph], studio/traces.py:475-508: one node, after [n] others. *)
Definition node_of_item (task_id : string) (n : nat) (item : pydict) : result path_node :=
  let annotations := mapping_or_empty (dgetv "annotations" item) in
  let node_id := or_str (string_of (dgetv "id" item)) ("node:" +:+ pretty (Z.of_nat n + 1)) in
  let timestamp := string_of (dgetv "timestamp" item) in
  attempt ← int_or_none (dgetv "retry_attempt" annotations);
  Ok (PathNode node_id (or_str (string_of (dgetv "kind" item)) "node") (or_str (string_of (dgetv "label" item)) node_id)
        (Some (or_str (string_of (dgetv "task_id" item)) task_id)) (string_of (dgetv "state" item))
        (first_string [dgetv "queue_name" annotations; dgetv "source_queue_name" annotations; dgetv "retry_queue_name" annotations])
        (string_of (dgetv "stage" annotations)) attempt (string_of (dgetv "trace_id" annotations)) (string_of (dgetv "span_id" annotations))
        (string_of (dgetv "parent_span_id" annotations)) timestamp
        (let updated := string_of (dgetv "updated_at" item) in if bool_decide (updated = timestamp) then None else updated) None
        [Evidence GRAPH_NODE node_id (or_str (string_of (dgetv "kind" item)) "graph node") timestamp item]).

Fixpoint nodes_of_items (task_id : string) (n : nat) (l : list pydict) : result (list path_node) :=
  match l with
  | [] => Ok []
  | item :: l => node ← node_of_item task_id n item; nodes ← nodes_of_items task_id (S n) l; Ok (node :: nodes)
  end.

(** [_trace_path_nodes_from_graph], studio/traces.py:473-509. *)
Definition trace_path_nodes_from_graph (graph : pydict) (task_id : string) : result (list path_node) :=
  nodes_of_items task_id 0 (list_of_mappings (dgetv "nodes" graph)).

(** [_trace_path_edges_from_graph], studio/traces.py:512-540. *)
Definition trace_path_edges_from_graph (graph : pydict) : list path_edge :=
  omap (fun ix : nat * pydict =>
    let item := ix.2 in
    source ← string_of (dgetv "source" item);
    target ← string_of (dgetv "target" item);
    let edge_id := source +:+ "->" +:+ target +:+ ":" +:+ pretty (Z.of_nat ix.1) in
    let timestamp := string_of (dgetv "timestamp" item) in
    Some (PathEdge edge_id source target (or_str (string_of (dgetv "kind" item)) "related") timestamp (string_of (dgetv "state" item))
            [Evidence GRAPH_EDGE edge_id (or_str (string_of (dgetv "kind" item)) "graph edge") timestamp item]))
    (enumerate (list_of_mappings (dgetv "edges" graph))).

(** [_state_from_status], studio/traces.py:1088-1102. *)
Definition state_from_status (status : string) : string :=
  let s := lower (strip status) in
  if str_in s ["processing"; "running"; "started"; "planning"] then "running"
  else if str_in s ["retrying"; "manual_retrying"] then "retrying"
  else if str_in s ["completed"; "complete"; "succeeded"; "success"] then "succeeded"
  else if str_in s ["failed"; "failure"; "error"] then "failed"
  else if str_in s ["dead_lettered"; "dlq"; "dead-lettered"] then "dead_lettered"
  else if str_in s ["queued"; "pending"; "waiting"] then "queued" else "unknown".

Definition plain_edge (id source target kind : string) (timestamp state : option string) : path_edge := PathEdge id source target kind timestamp state [].

(** The nodes and the edges so far. *)
Definition path : Type := list path_node * list path_edge.

(** [_append_history_status_nodes], studio/traces.py:553-588: after the node [previous]. *)
Fixpoint append_history (task_id previous : string) (l : list (nat * pydict)) (p : path) : path :=
  match l with
  | [] => p
  | (index, item) :: l =>
      let status := or_str (string_of (dgetv "status" item)) "status" in
      let timestamp := string_of (dgetv "timestamp" item) in
      let node_id := "status:" +:+ task_id +:+ ":" +:+ pretty (Z.of_nat index) in
      let node := PathNode node_id "status_event" status (Some task_id) (Some (state_from_status status)) None None None
        (string_of (dgetv "trace_id" item)) (string_of (dgetv "span_id" item)) None timestamp None None
        [Evidence STATUS_HISTORY (or_str (string_of (dgetv "event_id" item)) node_id) ("status." +:+ status) timestamp item] in
      let edge := plain_edge (previous +:+ "->" +:+ node_id +:+ ":status") previous node_id "published_status" timestamp None in
      append_history task_id node_id l (p.1 ++ [node], p.2 ++ [edge])%list
  end.

(** [_append_history_status_nodes], studio/traces.py:543-588. *)
Definition append_history_status_nodes (task_id : string) (history : pydict) (p : path) : path :=
  append_history task_id ("task:" +:+ task_id) (enumerate (list_of_mappings (dgetv "events" history))) p.

(** ** The best node *)

Fixpoint find_index {A} (f : A -> bool) (l : list A) : option nat :=
  match l with [] => None | x :: l => if f x then Some 0%nat else S <$> find_index f l end.

Definition given (o : option string) (v : option string) : bool := match o with Some s => bool_decide (v = Some s) | None => true end.

(** [_first_node], studio/traces.py:1113-1128: the position of the first candidate. *)
Definition first_node (nodes : list path_node) (candidate : path_node -> bool) (kind queue_name stage : option string) : option nat :=
  find_index (fun n => candidate n && given kind (Some (pn_kind n)) && given queue_name (pn_queue_name n) && given stage (pn_stage n)) nodes.

(** The first of some searches that finds a node. *)
Fixpoint first_of (l : list (bool * option nat)) : option nat :=
  match l with [] => None | (b, o) :: l => match (if b then o else None) with Some i => Some i | None => first_of l end end.

(** [_best_node_for_event], studio/traces.py:740-769: none when there is no node, where [candidates[0]] raises. *)
Definition best_node_for_event (nodes : list path_node) (task_id event_type : string) (payload : pydict) : option nat :=
  let queue_name := string_of (dgetv "queue_name" payload) in
  let stage := string_of (dgetv "stage" payload) in
  let lowered := lower event_type in
  let of_task n := bool_decide (pn_task_id n = Some task_id) in
  let candidate := if existsb of_task nodes then of_task else fun _ => true in
  first_of [(contains "deadletter" lowered || contains "dead_letter" lowered || contains "dlq" lowered,
             first_node nodes candidate (Some "dlq_record") queue_name None);
            (contains "status." lowered, first_node nodes candidate (Some "status_event") None None);
            (opt_truthy stage, first_node nodes candidate None None stage);
            (opt_truthy queue_name, first_node nodes candidate None queue_name None);
            (true, find_index candidate nodes)].

(** [_best_node_for_dlq], studio/traces.py:772-780. *)
Definition best_node_for_dlq (nodes : list path_node) (item : pydict) : option nat :=
  let task_id := string_of (dgetv "task_id" item) in
  let queue_name := string_of (dgetv "queue_name" item) in
  let candidate n := String.eqb (pn_kind n) "dlq_record" && given task_id (pn_task_id n) in
  first_of [(opt_truthy queue_name, first_node nodes candidate None queue_name None); (true, find_index candidate nodes)].

(** [_span_task_id], studio/traces.py:1151-1152. *)
Definition span_task_id (s : span) : option string := first_string [dgetv "relayna.task_id" (sp_attributes s); dgetv "task_id" (sp_attributes s)].
(** [_span_queue_name], studio/traces.py:1155-1160. *)
Definition span_queue_name (s : span) : option string :=
  first_string [dgetv "messaging.destination.name" (sp_attributes s); dgetv "messaging.source.name" (sp_attributes s); dgetv "queue_name" (sp_attributes s)].
(** [_span_stage], studio/traces.py:1163-1164. *)
Definition span_stage (s : span) : option string := first_string [dgetv "relayna.stage" (sp_attributes s); dgetv "stage" (sp_attributes s)].

(** [_best_node_for_span], studio/traces.py:783-813. *)
Definition best_node_for_span (nodes : list path_node) (s : span) (fallback_task_id : string) : option nat :=
  let of_task n := bool_decide (pn_task_id n = Some (or_str (span_task_id s) fallback_task_id)) in
  let queue_name := span_queue_name s in
  let stage := span_stage s in
  let consumer := contains "consumer" (lower (sp_name s)) || bool_decide (sp_kind s = Some "SPAN_KIND_CONSUMER") in
  let producer := contains "publish" (lower (sp_name s)) || bool_decide (sp_kind s = Some "SPAN_KIND_PRODUCER") in
  first_of [(opt_truthy stage && consumer, first_node nodes of_task (Some "stage_attempt") None stage);
            (opt_truthy stage, first_node nodes of_task None None stage);
            (opt_truthy queue_name, first_node nodes of_task None queue_name None);
            (consumer, first_node nodes of_task (Some "task_attempt") None None);
            (consumer, first_node nodes of_task (Some "stage_attempt") None None);
            (producer, first_node nodes of_task (Some "workflow_message") None None)].

Definition node_le : path_node -> path_node -> bool := lex_le (fun n => timestamp_sort_key (pn_started_at n)) (lex_le pn_id (fun _ _ => true)).
Definition edge_le : path_edge -> path_edge -> bool := lex_le (fun e => timestamp_sort_key (pe_timestamp e)) (lex_le pe_id (fun _ _ => true)).

(** [_latest_non_dlq_node], studio/traces.py:1131-1148. *)
Definition latest_non_dlq_node (nodes : list path_node) (task_id : string) (before : option string) : option path_node :=
  let work := List.filter (fun n => bool_decide (pn_task_id n = Some task_id) && negb (String.eqb (pn_kind n) "dlq_record")) nodes in
  let earlier := List.filter (fun n => String.leb (timestamp_sort_key (pn_started_at n)) (timestamp_sort_key before)) work in
  last (sort_by node_le (match earlier with [] => work | _ => earlier end)).

(** ** Attaching *)

Definition with_evidence (e : evidence) (n : path_node) : path_node :=
  PathNode (pn_id n) (pn_kind n) (pn_label n) (pn_task_id n) (pn_state n) (pn_queue_name n) (pn_stage n) (pn_attempt n) (pn_trace_id n)
    (pn_span_id n) (pn_parent_span_id n) (pn_started_at n) (pn_ended_at n) (pn_duration_ms n) (pn_evidence n ++ [e])%list.

Definition or_else {A} (o d : option A) : option A := match o with Some _ => o | None => d end.

(** [_attach_events], studio/traces.py:597-618: one event at the node that was found. *)
Definition with_event (e : evidence) (payload : pydict) (n : path_node) : path_node :=
  let n := with_evidence e n in
  PathNode (pn_id n) (pn_kind n) (pn_label n) (pn_task_id n) (pn_state n) (pn_queue_name n) (pn_stage n) (pn_attempt n)
    (or_else (pn_trace_id n) (string_of (dgetv "trace_id" payload))) (or_else (pn_span_id n) (string_of (dgetv "span_id" payload)))
    (pn_parent_span_id n) (pn_started_at n) (pn_ended_at n) (pn_duration_ms n) (pn_evidence n).

Definition no_candidate : exn := Exn XUser "IndexError" "list index out of range".

(** [_attach_events], studio/traces.py:598-607. *)
Definition event_evidence (item : pydict) : evidence :=
  let event_type := or_str (string_of (dgetv "event_type" item)) "event" in
  Evidence STUDIO_EVENT (or_str (first_string [dgetv "dedupe_key" item; dgetv "event_id" item]) event_type) event_type
    (first_string [dgetv "timestamp" item; dgetv "ingested_at" item]) item.

(** [_attach_events], studio/traces.py:591-618. *)
Fixpoint attach_events (task_id : string) (items : list pydict) (nodes : list path_node) : result (list path_node) :=
  match items with
  | [] => Ok nodes
  | item :: items =>
      let payload := mapping_or_empty (dgetv "payload" item) in
      let e := event_evidence item in
      match best_node_for_event nodes (or_str (string_of (dgetv "task_id" item)) task_id) (ev_label e) payload with
      | None => Raise no_candidate
      | Some i => attach_events task_id items (alter (with_event e payload) i nodes)
      end
  end.

(** [_attach_dlq_messages], studio/traces.py:639-642: at the node that was found. *)
Definition with_dead_letter (e : evidence) (n : path_node) : path_node :=
  let n := with_evidence e n in
  PathNode (pn_id n) (pn_kind n) (pn_label n) (pn_task_id n) (opt_or (pn_state n) (Some "dead_lettered")) (pn_queue_name n) (pn_stage n) (pn_attempt n)
    (pn_trace_id n) (pn_span_id n) (pn_parent_span_id n) (pn_started_at n) (pn_ended_at n) (pn_duration_ms n) (pn_evidence n).

(** [_attach_dlq_messages], studio/traces.py:630-637. *)
Definition dlq_evidence (task_id : string) (index : nat) (item : pydict) : evidence :=
  Evidence DLQ (or_str (string_of (dgetv "dlq_id" item)) ("dlq:" +:+ task_id +:+ ":" +:+ pretty (Z.of_nat index)))
    (or_str (first_string [dgetv "reason" item; dgetv "queue_name" item]) "DLQ") (string_of (dgetv "dead_lettered_at" item)) item.

(** [_attach_dlq_messages], studio/traces.py:621-668. *)
Fixpoint attach_dlq_messages (task_id : string) (items : list (nat * pydict)) (p : path) : result path :=
  match items with
  | [] => Ok p
  | (index, item) :: items =>
      let e := dlq_evidence task_id index item in
      match best_node_for_dlq p.1 item with
      | Some i => attach_dlq_messages task_id items (alter (with_dead_letter e) i p.1, p.2)
      | None =>
          attempt ← int_or_none (dgetv "retry_attempt" item);
          let node_id := "dlq:" +:+ task_id +:+ ":trace-path:" +:+ pretty (Z.of_nat index) in
          let node := PathNode node_id "dlq_record" (ev_label e) (Some (or_str (string_of (dgetv "task_id" item)) task_id)) (Some "dead_lettered")
            (string_of (dgetv "queue_name" item)) None attempt None None None (ev_timestamp e) None None [e] in
          let nodes := (p.1 ++ [node])%list in
          let edges := match latest_non_dlq_node nodes task_id (ev_timestamp e) with
                       | Some source => (p.2 ++ [plain_edge (pn_id source +:+ "->" +:+ node_id +:+ ":dlq") (pn_id source) node_id "dead_lettered_to"
                                                   (ev_timestamp e) (Some "blocked")])%list
                       | None => p.2
                       end in
          attach_dlq_messages task_id items (nodes, edges)
      end
  end.

Section spans.
(** [span.model_dump(mode="json")]. *)
Context (model_dump : span -> pydict).

(** [_attach_spans], studio/traces.py:681-687. *)
Definition span_evidence (s : span) : evidence := Evidence SPAN (sp_span_id s) (sp_name s) (sp_start_time s) (model_dump s).

(** [_attach_spans], studio/traces.py:707-713. *)
Definition with_span (s : span) (n : path_node) : path_node :=
  let n := with_evidence (span_evidence s) n in
  let started_at := earliest_timestamp [pn_started_at n; sp_start_time s] in
  let ended_at := latest_timestamp [pn_ended_at n; sp_end_time s] in
  PathNode (pn_id n) (pn_kind n) (pn_label n) (pn_task_id n) (pn_state n) (pn_queue_name n) (pn_stage n) (pn_attempt n)
    (opt_or (pn_trace_id n) (Some (sp_trace_id s))) (opt_or (pn_span_id n) (Some (sp_span_id s))) (opt_or (pn_parent_span_id n) (sp_parent_span_id s))
    started_at ended_at (float_or (duration_ms started_at ended_at) (float_or (pn_duration_ms n) (sp_duration_ms s))) (pn_evidence n).

(** [_attach_spans], studio/traces.py:690-704. *)
Definition node_of_span (task_id : string) (s : span) : path_node :=
  PathNode ("span:" +:+ sp_span_id s) "span" (sp_name s) (Some (or_str (span_task_id s) task_id)) None (span_queue_name s) (span_stage s) None
    (Some (sp_trace_id s)) (Some (sp_span_id s)) (sp_parent_span_id s) (sp_start_time s) (sp_end_time s) (sp_duration_ms s) [].

(** [_attach_spans], studio/traces.py:680-714: the nodes, and the node of each span id. *)
Fixpoint place_spans (task_id : string) (l : list span) (nodes : list path_node) (ids : gmap string string) : list path_node * gmap string string :=
  match l with
  | [] => (nodes, ids)
  | s :: l =>
      let '(nodes, i) := match best_node_for_span nodes s task_id with
                         | Some i => (nodes, i)
                         | None => ((nodes ++ [node_of_span task_id s])%list, length nodes)
                         end in
      let nodes := alter (with_span s) i nodes in
      place_spans task_id l nodes (match nodes !! i with Some n => <[sp_span_id s := pn_id n]> ids | None => ids end)
  end.

Definition edge_key (e : path_edge) : string * string * string := (pe_source e, pe_target e, pe_kind e).

(** [_attach_spans], studio/traces.py:716-737: the edges from the spans' parents. *)
Fixpoint connect_spans (ids : gmap string string) (l : list span) (edges : list path_edge) : list path_edge :=
  match l with
  | [] => edges
  | s :: l =>
      let source := match sp_parent_span_id s with Some p => if String.eqb p "" then None else ids !! p | None => None end in
      let edges :=
        match source, ids !! sp_span_id s with
        | Some source, Some target =>
            if String.eqb source target || bool_decide ((source, target, "span_child") ∈ map edge_key edges) then edges
            else (edges ++ [plain_edge (source +:+ "->" +:+ target +:+ ":span:" +:+ sp_span_id s) source target "span_child"
                              (sp_start_time s) (Some "traversed")])%list
        | _, _ => edges
        end in
      connect_spans ids l edges
  end.

(** [_attach_spans], studio/traces.py:671-737. *)
Definition attach_spans (task_id : string) (spans : list span) (p : path) : path :=
  let '(nodes, ids) := place_spans task_id spans p.1 ∅ in (nodes, connect_spans ids spans p.2).

(** ** The response *)

(** [_latest_status_from_nodes], studio/traces.py:1105-1110. *)
Definition latest_status_from_nodes (nodes : list path_node) : option string :=
  pn_label <$> last (sort_by node_le (List.filter (fun n => String.eqb (pn_kind n) "status_event") nodes)).

Definition opt_text (o : option string) : pyval := match o with Some s => PStr s | None => PNone end.

Context (py_float : pyval -> result spec_float).

(** [_trace_path_summary], studio/traces.py:816-850. *)
Definition trace_path_summary (graph : pydict) (p : path) (spans : list span) (events dlq_messages : list pydict) (trace_ids : list string) :
    result path_summary :=
  let summary := mapping_or_empty (dgetv "summary" graph) in
  let started_at := first_string [dgetv "started_at" summary; opt_text (earliest_timestamp (map pn_started_at p.1));
                                  opt_text (earliest_timestamp (map sp_start_time spans))] in
  let ended_at := first_string [dgetv "ended_at" summary;
                                opt_text (latest_timestamp (map (fun n => if opt_truthy (pn_ended_at n) then pn_ended_at n else pn_started_at n) p.1));
                                opt_text (latest_timestamp (map sp_end_time spans))] in
  let status := match string_of (dgetv "status" summary) with Some s => Some s | None => latest_status_from_nodes p.1 end in
  given_duration ← float_or_none py_float (dgetv "duration_ms" summary);
  counts ← int_counts (dgetv "live_state_counts" summary);
  Ok (PathSummary status started_at ended_at (float_or given_duration (duration_ms started_at ended_at))
        (string_of (dgetv "graph_completeness" summary)) trace_ids (Z.of_nat (length p.1)) (Z.of_nat (length p.2)) (Z.of_nat (length spans))
        (Z.of_nat (length events)) (Z.of_nat (length dlq_messages)) counts).

(** [_dlq_messages_from_detail], studio/traces.py:881-883. *)
Definition dlq_messages_from_detail (detail : pydict) : list pydict := list_of_mappings (dgetv "items" (mapping_or_empty (dgetv "dlq_messages" detail))).

(** [_build_trace_path_response], studio/traces.py:414-437: the nodes and the edges to start with. *)
Definition initial_path (task_id : string) (detail : pydict) : result path :=
  let graph := mapping_or_empty (dgetv "execution_graph" detail) in
  nodes ← trace_path_nodes_from_graph graph task_id;
  let edges := trace_path_edges_from_graph graph in
  Ok match nodes with
     | [] =>
         let root := PathNode ("task:" +:+ task_id) "task" task_id (Some task_id) None None None None None None None None None None
           [Evidence LATEST_STATUS task_id "task detail" None (mapping_or_empty (dgetv "latest_status" detail))] in
         append_history_status_nodes task_id (mapping_or_empty (dgetv "history" detail)) ([root], edges)
     | _ => (nodes, edges)
     end.

(** [_build_trace_path_response], studio/traces.py:399-470. *)
Definition build_trace_path_response (task_id : string) (detail : pydict) (spans : list span) (trace_ids : list string) (events : list pydict) :
    result path_response :=
  let graph := mapping_or_empty (dgetv "execution_graph" detail) in
  p ← initial_path task_id detail;
  let dlq_messages := dlq_messages_from_detail detail in
  p ← attach_dlq_messages task_id (enumerate dlq_messages) p;
  nodes ← attach_events task_id events p.1;
  let '(nodes, edges) := attach_spans task_id spans (nodes, p.2) in
  let p := (sort_by node_le nodes, sort_by edge_le edges) in
  summary ← trace_path_summary graph p spans events dlq_messages trace_ids;
  Ok (PathResponse task_id summary p.1 p.2 spans events dlq_messages).
End spans.

(** ** Tempo's answer *)

(** [_attribute_value], studio/traces.py:928-934. *)
Definition attribute_value (v : pyval) : pyval :=
  match v with
  | PDict d =>
      match List.filter (fun k => din k d) ["stringValue"; "intValue"; "doubleValue"; "boolValue"; "arrayValue"; "kvlistValue"] with
      | k :: _ => dgetv k d
      | [] => v
      end
  | _ => v
  end.

(** [_attributes], studio/traces.py:912-925. *)
Definition attributes (items : pyval) : pydict :=
  match items with
  | PDict d => d
  | PList l =>
      foldl (fun acc item => match item with
                             | PDict d => match string_of (dgetv "key" d) with
                                          | Some key => dset key (attribute_value (dgetv "value" d)) acc
                                          | None => acc
                                          end
                             | _ => acc
                             end) [] l
  | _ => []
  end.

Definition is_hex (c : ascii) : bool := existsb (Ascii.eqb c) (chars "0123456789abcdef").

(** [bytes.hex()] *)
Definition hex_text (s : string) : string := of_chars (flat_map (fun c => [hex_digit (code c / 16); hex_digit (code c mod 16)]) (chars s)).

(** [_tempo_id_to_hex], studio/traces.py:965-978. *)
Definition tempo_id_to_hex (value : pyval) (byte_length : nat) : string :=
  match string_of value with
  | None => ""
  | Some raw =>
      let l := lower raw in
      if Nat.eqb (String.length l) (byte_length * 2) && forallb is_hex (chars l) then l
      else match b64decode raw with
           | Some decoded => if Nat.eqb (String.length decoded) byte_length then hex_text decoded else raw
           | None => raw
           end
  end.

(** [_tempo_optional_id_to_hex], studio/traces.py:960-962. *)
Definition tempo_optional_id_to_hex (value : pyval) (byte_length : nat) : option string := nonempty (tempo_id_to_hex value byte_length).

(** The integer nearest to a double, ties to even. *)
Definition round_half_even (f : spec_float) : Z :=
  match f with
  | S754_finite s m e =>
      let n := if 0 <=? e then Z.pos m * 2 ^ e
               else let d := 2 ^ (- e) in let q := Z.pos m / d in
                    match 2 * (Z.pos m mod d) ?= d with Lt => q | Gt => q + 1 | Eq => if Z.even q then q else q + 1 end in
      if s then - n else n
  | _ => 0
  end.

(** [datetime.fromtimestamp(seconds, tz=UTC)] in microseconds: the fraction is scaled as a double. *)
Definition fromtimestamp (seconds : spec_float) : result Z :=
  let whole := float_to_int seconds in
  let t := whole * 1000000 + round_half_even (SFmul 53 1024 (SFsub 53 1024 seconds (double_of whole)) (double_of 1000000)) in
  if (2 ^ 63 <=? whole) || (whole <? - 2 ^ 63) then Raise (overflow_error "timestamp out of range for platform time_t")
  else if (t <? datetime_min) || (253402300800000000 <=? t) then Raise (value_error "year is out of range") else Ok t.

(** [_ns_to_iso], studio/traces.py:981-985. *)
Definition ns_to_iso (value : option Z) : result (option string) :=
  match value with
  | None => Ok None
  | Some v =>
      match SFdiv 53 1024 (float_of v) (double_of 1000000000) with
      | S754_infinity _ => Raise (overflow_error "integer division result too large for a float")
      | seconds => t ← fromtimestamp seconds; Ok (Some (isoformat_z t))
      end
  end.

(** [a.get(k1) or a.get(k2)] *)
Definition get_either (d : pydict) (k1 k2 : string) : pyval := py_or (dgetv k1 d) (dgetv k2 d).

(** [_normalize_span], studio/traces.py:937-957. *)
Definition normalize_span (raw : pydict) (service : option string) (backend_url : string) : result span :=
  let attrs := attributes (from_opt (PList []) (dget "attributes" raw)) in
  start_ns ← int_or_none (get_either raw "startTimeUnixNano" "start_time_unix_nano");
  end_ns ← int_or_none (get_either raw "endTimeUnixNano" "end_time_unix_nano");
  let duration := match start_ns, end_ns with
                  | Some s, Some e => if s <=? e then Some (SFdiv 53 1024 (float_of (e - s)) (double_of 1000000)) else None
                  | _, _ => None
                  end in
  start_time ← ns_to_iso start_ns;
  end_time ← ns_to_iso end_ns;
  Ok (Span (tempo_id_to_hex (get_either raw "traceId" "trace_id") 16) (tempo_id_to_hex (get_either raw "spanId" "span_id") 8)
        (tempo_optional_id_to_hex (get_either raw "parentSpanId" "parent_span_id") 8) (or_str (string_of (dgetv "name" raw)) "unnamed span")
        (string_of (dgetv "kind" raw)) service
        (string_of (py_or (py_or (dgetv "service.name" attrs) (dgetv "messaging.system" attrs)) (match service with Some s => PStr s | None => PNone end)))
        start_time end_time duration attrs (Some backend_url)).

Definition provider_error (text : string) : exn := Exn XUser "StudioTraceProviderError" text.

(** [TempoTraceProvider._normalize_response], studio/traces.py:224-242: the spans of one batch. *)
Definition spans_of_batch (backend_url : string) (batch : pydict) : result (list span) :=
  let resource := match dgetv "resource" batch with PDict d => attributes (from_opt (PList []) (dget "attributes" d)) | _ => [] end in
  let service := string_of (get_either resource "service.name" "service") in
  match py_or (get_either batch "scopeSpans" "instrumentationLibrarySpans") (dgetv "scope_spans" batch) with
  | PList scopes =>
      mapM_result (fun raw => normalize_span raw service backend_url) (flat_map (fun scope => list_of_mappings (dgetv "spans" scope)) (list_of_mappings (PList scopes)))
  | _ => Ok []
  end.

(** [TempoTraceProvider._normalize_response], studio/traces.py:213-243. *)
Definition normalize_response (payload : pyval) (backend_url : string) : result (list span) :=
  match payload with
  | PDict d =>
      let d := match dgetv "trace" d with PDict t => t | _ => d end in
      match py_or (get_either d "batches" "resourceSpans") (py_or (dgetv "resource_spans" d) (PList [])) with
      | PList batches =>
          spans ← mapM_result (spans_of_batch backend_url) (list_of_mappings (PList batches));
          Ok (sort_by (fun a b : span => str_le (from_opt "" (sp_start_time a)) (from_opt "" (sp_start_time b))) (concat spans))
      | _ => Raise (provider_error "Tempo query returned an invalid span batch list.")
      end
  | _ => Raise (provider_error "Tempo query returned an invalid payload.")
  end.

Example tempo_id : tempo_id_to_hex (PStr "AAECAwQFBgc=") 8 = "0001020304050607". Proof. reflexivity. Qed.
Example tempo_time : ns_to_iso (Some 1704067200123456789) = Ok (Some "2024-01-01T00:00:00.123457Z"). Proof. vm_compute. reflexivity. Qed.

(** ** No evidence is lost

    Whatever a service, the dead letters, the events and the tracing provider say of a task, the response
    holds every piece of it at exactly one node, its new edges join nodes that are there, and
    only a number that Python cannot read makes it fail.  Also where the evidence is
    put together wrongly. *)


(** ** Positions *)

Lemma find_index_some {A} (f : A -> bool) l i : find_index f l = Some i -> exists x, l !! i = Some x /\ f x = true.
Proof.
  revert i. induction l as [|x l IH]; intros i Hi; cbn in Hi; [done|]. destruct (f x) eqn:E; [injection Hi as <-; by exists x|].
  destruct (find_index f l) as [j|]; [|done]. injection Hi as <-. by apply IH.
Qed.

Lemma find_index_is_some {A} (f : A -> bool) l : existsb f l = true -> is_Some (find_index f l).
Proof.
  induction l as [|x l IH]; cbn; [done|]. destruct (f x); cbn; [by eexists|]. intros H. destruct (IH H) as [i ->]. by eexists.
Qed.

Lemma first_of_in l i : first_of l = Some i -> exists b, (b, Some i) ∈ l.
Proof.
  induction l as [|[b o] l IH]; cbn; [done|]. destruct b.
  - destruct o as [j|]; [intros [= ->]; exists true; left|]. intros H. destruct (IH H) as [b Hb]. exists b. by right.
  - intros H. destruct (IH H) as [b Hb]. exists b. by right.
Qed.

(** A search that finds positions of the list. *)
Definition within {A} (l : list A) (o : option nat) : Prop := forall i, o = Some i -> is_Some (l !! i).

Lemma within_find {A} (f : A -> bool) l : within l (find_index f l).
Proof. intros i Hi. destruct (find_index_some f l i Hi) as (x & Hx & _). by exists x. Qed.
Lemma within_first_of {A} (l : list A) s : Forall (fun bo => within l bo.2) s -> within l (first_of s).
Proof. intros Hs i Hi. destruct (first_of_in s i Hi) as [b Hb]. rewrite Forall_forall in Hs. by apply (Hs (b, Some i)). Qed.

Lemma best_event_within nodes t ty d : within nodes (best_node_for_event nodes t ty d).
Proof. apply within_first_of. repeat constructor; cbn; apply within_find. Qed.
Lemma best_dlq_within nodes d : within nodes (best_node_for_dlq nodes d).
Proof. apply within_first_of. repeat constructor; cbn; apply within_find. Qed.
Lemma best_span_within nodes s t : within nodes (best_node_for_span nodes s t).
Proof. apply within_first_of. repeat constructor; cbn; apply within_find. Qed.

Lemma first_of_last s o : is_Some o -> is_Some (first_of (s ++ [(true, o)])).
Proof.
  intros [i ->]. induction s as [|[b o] s [j Hj]]; cbn; [by eexists|]. destruct (if b then o else None); [by eexists|by exists j].
Qed.

(** There is a node for every event. *)
Lemma best_event_exists nodes t ty d : nodes <> [] -> is_Some (best_node_for_event nodes t ty d).
Proof.
  intros Hn. unfold best_node_for_event. cbv zeta. apply (first_of_last [_; _; _; _]).
  destruct (existsb _ nodes) eqn:E; apply find_index_is_some; [done|]. by destruct nodes.
Qed.

(** ** Evidence *)

Definition gathered (nodes : list path_node) : list evidence := concat (map pn_evidence nodes).

Lemma gathered_app a b : gathered (a ++ b) = (gathered a ++ gathered b)%list.
Proof. unfold gathered. by rewrite map_app, concat_app. Qed.

(** One change of a node that adds a piece of evidence. *)
Definition adds (e : evidence) (f : path_node -> path_node) : Prop := forall n, pn_evidence (f n) = (pn_evidence n ++ [e])%list /\ pn_id (f n) = pn_id n.

Lemma gathered_alter e f i nodes : adds e f -> is_Some (nodes !! i) ->
  gathered (alter f i nodes) ≡ₚ (gathered nodes ++ [e])%list /\ map pn_id (alter f i nodes) = map pn_id nodes.
Proof.
  intros Hf [n Hn]. revert i Hn. induction nodes as [|x l IH]; intros i Hn; [done|]. destruct i as [|i]; cbn in Hn |- *.
  - destruct (Hf x) as [He Hi]. rewrite Hi. split; [|done]. unfold gathered. cbn. rewrite He, <- !app_assoc.
    by rewrite (Permutation_app_comm [e] (concat (map pn_evidence l))).
  - destruct (IH i Hn) as [H1 H2]. change (list_alter f i l) with (alter f i l). rewrite H2. split; [|done]. unfold gathered in *. cbn. rewrite H1. by rewrite app_assoc.
Qed.

Lemma event_adds e d : adds e (with_event e d).
Proof. done. Qed.
Lemma dead_letter_adds e : adds e (with_dead_letter e).
Proof. done. Qed.
Lemma span_adds dump s : adds (span_evidence dump s) (with_span dump s).
Proof. done. Qed.

(** ** The three loops *)

Definition ids (nodes : list path_node) : list string := map pn_id nodes.
(** The edge joins nodes of the list. *)
Definition joins (nodes : list path_node) (e : path_edge) : Prop := pe_source e ∈ ids nodes /\ pe_target e ∈ ids nodes.

Lemma joins_more nodes nodes' e : joins nodes e -> ids nodes ⊆ ids nodes' -> joins nodes' e.
Proof. intros [H1 H2] Hs. split; by apply Hs. Qed.

Lemma latest_node_in nodes t before n : latest_non_dlq_node nodes t before = Some n -> n ∈ nodes.
Proof.
  unfold latest_non_dlq_node. cbv zeta. set (work := List.filter _ nodes). set (earlier := List.filter _ work).
  intros Hl. assert (n ∈ sort_by node_le match earlier with [] => work | _ => earlier end) as Hin.
  { destruct (sort_by _ _) as [|x l] eqn:E using rev_ind; [done|]. rewrite last_snoc in Hl. injection Hl as ->. apply elem_of_app. right. left. }
  apply sort_by_elem in Hin. assert (n ∈ work) as Hw.
  { destruct earlier eqn:E; [done|]. rewrite <- E in Hin. apply list_elem_of_In, filter_In in Hin as [Hin _]. by apply list_elem_of_In. }
  apply list_elem_of_In, filter_In in Hw as [Hw _]. by apply list_elem_of_In.
Qed.

Lemma int_or_none_raise v e : int_or_none v = Raise e -> exn_class e = XOverflowError.
Proof.
  unfold int_or_none. destruct v as [| | |f| | |]; cbn; try done.
  - by destruct (float_trunc f); cbn; intros [= <-].
  - by destruct (parse_int s).
Qed.

Definition dlq_evidences (task_id : string) (l : list (nat * pydict)) : list evidence := map (fun ix => dlq_evidence task_id ix.1 ix.2) l.

Lemma attach_dlq_sound t l p : 
  match attach_dlq_messages t l p with
  | Ok p' => gathered p'.1 ≡ₚ (gathered p.1 ++ dlq_evidences t l)%list /\ ids p.1 ⊆ ids p'.1 /\
             (forall e, e ∈ p'.2 -> e ∈ p.2 \/ joins p'.1 e)
  | Raise e => exn_class e = XOverflowError
  end.
Proof.
  revert p. induction l as [|[index item] l IH]; intros p; cbn [attach_dlq_messages dlq_evidences map].
  { rewrite app_nil_r. split_and!; [done..|]. by left. }
  set (e := dlq_evidence t index item). destruct (best_node_for_dlq p.1 item) as [i|] eqn:Eb.
  - specialize (IH (alter (with_dead_letter e) i p.1, p.2)). destruct (attach_dlq_messages _ _ _) as [p'|]; [|done].
    cbn [fst snd] in IH. destruct IH as (H1 & H2 & H3).
    destruct (gathered_alter e (with_dead_letter e) i p.1 (dead_letter_adds e)) as [Ha Hi]; [by apply (best_dlq_within _ item)|].
    unfold ids in *. rewrite Hi in H2. split_and!; [|done|done]. rewrite H1, Ha, <- app_assoc. done.
  - destruct (int_or_none _) as [attempt|x] eqn:Ei; cbn [mbind result_bind]; [|by apply int_or_none_raise in Ei].
    set (node := PathNode _ _ _ _ _ _ _ _ _ _ _ _ _ _ _). set (nodes := (p.1 ++ [node])%list).
    set (edges := match latest_non_dlq_node _ _ _ with Some _ => _ | None => _ end).
    specialize (IH (nodes, edges)). destruct (attach_dlq_messages _ _ _) as [p'|]; [|done]. cbn [fst snd] in IH. destruct IH as (H1 & H2 & H3).
    assert (ids p.1 ⊆ ids nodes) as Hsub by (unfold ids, nodes; rewrite map_app; intros x Hx; apply elem_of_app; by left).
    split_and!.
    + rewrite H1. unfold nodes. rewrite gathered_app, <- app_assoc. done.
    + etrans; [exact Hsub|exact H2].
    + intros d Hd. destruct (H3 d Hd) as [Hin|]; [|by right]. unfold edges in Hin. destruct (latest_non_dlq_node _ _ _) as [source|] eqn:El; [|by left].
      apply elem_of_app in Hin as [Hin|Hin]; [by left|]. apply list_elem_of_singleton in Hin as ->. right. split; cbn; apply H2.
      * apply list_elem_of_fmap_2. by eapply latest_node_in.
      * apply (list_elem_of_fmap_2 pn_id nodes node). unfold nodes. apply elem_of_app. right. left.
Qed.

Lemma attach_events_sound t l nodes : nodes <> [] ->
  exists nodes', attach_events t l nodes = Ok nodes' /\ gathered nodes' ≡ₚ (gathered nodes ++ map event_evidence l)%list /\ ids nodes' = ids nodes.
Proof.
  revert nodes. induction l as [|item l IH]; intros nodes Hn; cbn [attach_events map].
  { exists nodes. by rewrite app_nil_r. }
  set (e := event_evidence item). set (d := mapping_or_empty _).
  destruct (best_event_exists nodes (or_str (string_of (dgetv "task_id" item)) t) (ev_label e) d Hn) as [i Hi]. rewrite Hi.
  destruct (gathered_alter e (with_event e d) i nodes (event_adds e d)) as [Ha Hid]; [by apply (best_event_within _ _ _ _ _ Hi)|].
  destruct (IH (alter (with_event e d) i nodes)) as (nodes' & -> & H1 & H2).
  { intros E. apply (f_equal length) in E. rewrite length_alter in E. by destruct nodes. }
  exists nodes'. unfold ids in *. rewrite H2, Hid. split_and!; [done| |done]. rewrite H1, Ha, <- app_assoc. done.
Qed.

Section spans.
Context (dump : span -> pydict).

Definition places (nodes : list path_node) (m : gmap string string) : Prop := forall s n, m !! s = Some n -> n ∈ ids nodes.

Lemma places_more nodes nodes' m : places nodes m -> ids nodes ⊆ ids nodes' -> places nodes' m.
Proof. intros H Hs s n Hn. by eapply Hs, H. Qed.

Lemma place_spans_sound t l nodes m : places nodes m ->
  let '(nodes', m') := place_spans dump t l nodes m in
  gathered nodes' ≡ₚ (gathered nodes ++ map (span_evidence dump) l)%list /\ ids nodes ⊆ ids nodes' /\ places nodes' m'.
Proof.
  revert nodes m. induction l as [|s l IH]; intros nodes m Hm; cbn [place_spans map]; [by rewrite app_nil_r|].
  set (start := match best_node_for_span nodes s t with Some i => (nodes, i) | None => _ end).
  assert (gathered start.1 = gathered nodes /\ ids nodes ⊆ ids start.1 /\ is_Some (start.1 !! start.2)) as (Hg & Hsub & Hin).
  { unfold start. destruct (best_node_for_span nodes s t) as [i|] eqn:E; cbn [fst snd].
    - split_and!; [done|done|]. by apply (best_span_within _ _ _ _ E).
    - rewrite gathered_app. unfold gathered at 2. cbn. rewrite app_nil_r. split_and!; [done| |].
      + unfold ids. rewrite map_app. intros x Hx. apply elem_of_app. by left.
      + rewrite lookup_app_r, Nat.sub_diag by lia. by eexists. }
  destruct start as [nodes0 i]. cbn [fst snd] in *.
  destruct (gathered_alter _ _ i nodes0 (span_adds dump s) Hin) as [Ha Hi]. set (nodes1 := alter _ i nodes0) in *.
  set (m1 := match nodes1 !! i with Some n => _ | None => m end).
  assert (places nodes1 m1) as Hm1.
  { assert (places nodes1 m) as Hm0. { eapply places_more; [exact Hm|]. unfold ids in *. by rewrite Hi. }
    unfold m1. destruct (nodes1 !! i) as [n|] eqn:E; [|done]. intros x y Hy. destruct (decide (x = sp_span_id s)) as [->|Hne].
    - rewrite lookup_insert_eq in Hy. injection Hy as <-. apply list_elem_of_fmap_2. by eapply list_elem_of_lookup_2.
    - rewrite lookup_insert_ne in Hy by done. by eapply Hm0. }
  specialize (IH nodes1 m1 Hm1). destruct (place_spans dump t l nodes1 m1) as [nodes' m']. destruct IH as (H1 & H2 & H3).
  split_and!; [|by etrans; [exact Hsub|]; unfold ids in *; rewrite <- Hi|done]. rewrite H1, Ha, Hg, <- app_assoc. done.
Qed.

Lemma connect_spans_sound nodes m l edges : places nodes m -> forall e, e ∈ connect_spans m l edges -> e ∈ edges \/ joins nodes e.
Proof.
  intros Hm. revert edges. induction l as [|s l IH]; intros edges e He; cbn [connect_spans] in He; [by left|].
  apply IH in He as [He|]; [|by right].
  destruct (match sp_parent_span_id s with Some p => if String.eqb p "" then None else m !! p | None => None end) as [source|] eqn:Es; [|by left].
  destruct (m !! sp_span_id s) as [target|] eqn:Et; [|by left]. destruct (_ || _); [by left|].
  apply elem_of_app in He as [He|He]; [by left|]. apply list_elem_of_singleton in He as ->. right. split; cbn; [|by eapply Hm].
  destruct (sp_parent_span_id s) as [p|]; [|done]. destruct (String.eqb p ""); [done|]. by eapply Hm.
Qed.
End spans.

(** ** The response *)

Section response.
Context (dump : span -> pydict) (py_float : pyval -> result spec_float).
(** [float()] raises a TypeError or a ValueError, or an OverflowError for an integer that is too large. *)
Hypothesis float_errors : forall v e, py_float v = Raise e -> type_or_value_error e = true \/ exn_class e = XOverflowError.

Definition starts_whole (r : result path) : Prop :=
  match r with Ok p => p.1 <> [] | Raise e => exn_class e = XOverflowError end.

Lemma nodes_of_items_raise t n l e : nodes_of_items t n l = Raise e -> exn_class e = XOverflowError.
Proof.
  revert n. induction l as [|item l IH]; intros n; cbn [nodes_of_items]; [done|]. unfold node_of_item.
  destruct (int_or_none _) as [a|x] eqn:E; cbn [mbind result_bind]; [|intros [= <-]; by apply int_or_none_raise in E].
  destruct (nodes_of_items t (S n) l) as [ns|x] eqn:E2; cbn [mbind result_bind]; [done|]. intros [= <-]. by eapply IH.
Qed.

Lemma append_history_nonempty t prev l p : p.1 <> [] -> (append_history t prev l p).1 <> [].
Proof.
  revert prev p. induction l as [|[i item] l IH]; intros prev p Hp; cbn [append_history]; [done|]. apply IH. cbn.
  destruct p.1; [done|]. by cbn.
Qed.

Lemma initial_path_whole t detail : starts_whole (initial_path t detail).
Proof.
  unfold initial_path, starts_whole, trace_path_nodes_from_graph. cbv zeta.
  destruct (nodes_of_items _ _ _) as [[|n l]|e] eqn:E; cbn [mbind result_bind]; [by apply append_history_nonempty|done|by eapply nodes_of_items_raise].
Qed.

Lemma summary_sound graph p spans events dlq ids : 
  match trace_path_summary py_float graph p spans events dlq ids with
  | Ok s => su_node_count s = Z.of_nat (length p.1) /\ su_edge_count s = Z.of_nat (length p.2) /\ su_span_count s = Z.of_nat (length spans) /\
            su_event_count s = Z.of_nat (length events) /\ su_dlq_count s = Z.of_nat (length dlq)
  | Raise e => exn_class e = XOverflowError
  end.
Proof.
  unfold trace_path_summary. cbv zeta. destruct (float_or_none _ _) as [d|e] eqn:E; cbn [mbind result_bind].
  2: { unfold float_or_none in E. destruct (py_float _) as [f|x] eqn:Ef; [done|]. destruct (type_or_value_error x) eqn:Et; [done|].
       injection E as <-. destruct (float_errors _ _ Ef); congruence. }
  destruct (int_counts _) as [c|e] eqn:Ec; cbn [mbind result_bind]; [done|]. unfold int_counts in Ec.
  destruct (dgetv "live_state_counts" _) as [| | | | | |d0]; try done. destruct (mapM_result _ d0) as [l|x] eqn:El; cbn [mbind result_bind] in Ec; [done|].
  injection Ec as <-. apply mapM_result_raise in El as (kv & _ & Hx).
  destruct (int_or_none kv.2) as [n|z] eqn:En; cbn [mbind result_bind] in Hx; [discriminate Hx|].
  injection Hx as <-. by apply int_or_none_raise in En.
Qed.

(** C38. Whatever the graph, the dead letters, the events and the spans of a task are, the trace path holds
    all of them: the evidence of its nodes is what the graph or the history started with and, once each, every dead letter,
    every event and every span; an edge that was not in the graph or the history joins two nodes of the response; the
    summary counts what is there.  Only a number that is too large for Python's conversions makes it fail. *)
Theorem trace_path_keeps_evidence task_id detail spans trace_ids events :
  match build_trace_path_response dump py_float task_id detail spans trace_ids events with
  | Ok r => exists p, initial_path task_id detail = Ok p /\
      gathered (rs_nodes r) ≡ₚ (gathered p.1 ++ dlq_evidences task_id (enumerate (dlq_messages_from_detail detail))
                               ++ map event_evidence events ++ map (span_evidence dump) spans)%list /\
      (forall e, e ∈ rs_edges r -> e ∈ p.2 \/ joins (rs_nodes r) e) /\
      su_node_count (rs_summary r) = Z.of_nat (length (rs_nodes r)) /\ su_edge_count (rs_summary r) = Z.of_nat (length (rs_edges r)) /\
      su_span_count (rs_summary r) = Z.of_nat (length spans) /\ su_event_count (rs_summary r) = Z.of_nat (length events)
  | Raise e => exn_class e = XOverflowError
  end.
Proof.
  unfold build_trace_path_response. cbv zeta. pose proof (initial_path_whole task_id detail) as Hw. unfold starts_whole in Hw.
  destruct (initial_path task_id detail) as [p|e] eqn:Ep; cbn [mbind result_bind]; [|done].
  set (dl := enumerate (dlq_messages_from_detail detail)). pose proof (attach_dlq_sound task_id dl p) as Hd.
  destruct (attach_dlq_messages _ _ _) as [p1|e]; cbn [mbind result_bind]; [|done]. destruct Hd as (Hd1 & Hd2 & Hd3).
  assert (p1.1 <> []) as Hne.
  { intros E. destruct p.1 as [|n l]; [done|]. assert (pn_id n ∈ ids p1.1) as Hin by (apply Hd2; left). rewrite E in Hin. by apply elem_of_nil in Hin. }
  destruct (attach_events_sound task_id events p1.1 Hne) as (nodes & -> & He1 & He2). cbn [mbind result_bind]. unfold attach_spans. cbn [fst snd].
  pose proof (place_spans_sound dump task_id spans nodes ∅) as Hs. destruct (place_spans _ _ _ _ _) as [nodes' m].
  destruct Hs as (Hs1 & Hs2 & Hs3); [by intros s n Hn; rewrite lookup_empty in Hn|].
  set (q := (sort_by node_le nodes', sort_by edge_le _)). pose proof (summary_sound (mapping_or_empty (dgetv "execution_graph" detail)) q spans events
    (dlq_messages_from_detail detail) trace_ids) as Hsum.
  destruct (trace_path_summary _ _ _ _ _ _ _) as [s|e]; cbn [mbind result_bind]; [|done]. destruct Hsum as (H1 & H2 & H3 & H4 & _).
  exists p. cbn [rs_nodes rs_edges rs_summary]. split; [done|].
  assert (forall d, joins nodes' d -> joins q.1 d) as Hj.
  { intros d. intros Hjd. eapply joins_more; [exact Hjd|]. intros x Hx. unfold ids in *. apply list_elem_of_fmap in Hx as (n & -> & Hn).
    apply list_elem_of_fmap_2. by apply sort_by_elem. }
  split_and!; [| |done..].
  - unfold gathered. rewrite (sort_by_permutation node_le nodes'). fold (gathered nodes'). rewrite Hs1, He1, Hd1, <- !app_assoc. done.
  - intros d Hd. apply sort_by_elem in Hd. destruct (connect_spans_sound nodes' m spans p1.2 Hs3 d Hd) as [Hin|]; [|by right; apply Hj].
    destruct (Hd3 d Hin) as [?|Hjd]; [by left|right]. apply Hj. eapply joins_more; [exact Hjd|]. unfold ids in *. by rewrite <- He2.
Qed.
End response.

(** ** Witnesses and demonstrations *)

Definition demo_dump (s : span) : pydict := [("span_id", PStr (sp_span_id s))].
Definition demo_float (v : pyval) : result spec_float := match v with PInt z => int_to_float z | _ => Raise (type_error "float() argument") end.

Definition demo_span (id : string) (parent : option string) (attributes : pydict) (at_ : option string) : span :=
  Span "0af7651916cd43dd8448eb211c80319c" id parent "work" None None None at_ None None attributes None.

Definition demo_detail : pydict := [("dlq_messages", PDict [("items", PList [PDict [("dlq_id", PStr "d1"); ("queue_name", PStr "jobs.dlq")]])])].
Definition demo_spans : list span :=
  [demo_span "a" None [] (Some "2024-01-01T00:00:00Z"); demo_span "b" (Some "a") [] (Some "2024-01-01T00:00:00.500000Z")].

Lemma trace_path_keeps_evidence_witness :
  match build_trace_path_response demo_dump demo_float "t" demo_detail demo_spans [] [[("event_type", PStr "status.completed")]] with
  | Ok r => length (gathered (rs_nodes r)) = 5%nat
  | Raise e => False
  end.
Proof.
  pose proof (trace_path_keeps_evidence demo_dump demo_float) as H.
  assert (forall v e, demo_float v = Raise e -> type_or_value_error e = true \/ exn_class e = XOverflowError) as Hf.
  { intros v e Hv. destruct v; try (injection Hv as <-; by left).
    unfold demo_float, int_to_float in Hv. destruct (double_of z); try discriminate Hv. injection Hv as <-. by right. }
  specialize (H Hf "t" demo_detail demo_spans [] [[("event_type", PStr "status.completed")]]).
  destruct (build_trace_path_response _ _ _ _ _ _ _) as [r|e] eqn:E; [|vm_compute in E; discriminate E].
  destruct H as (p & Hp & Hg & _). vm_compute in Hp. injection Hp as <-. apply Permutation_length in Hg. exact Hg.
Defined.

(** The spans of the demonstration are joined by their parents. *)
Example demo_edges : match build_trace_path_response demo_dump demo_float "t" demo_detail demo_spans [] [] with
  | Ok r => map pe_id (rs_edges r) | Raise _ => [] end = ["task:t->dlq:t:trace-path:1:dlq"; "span:a->span:b:span:b"].
Proof. vm_compute. reflexivity. Qed.

(** Times are compared as texts: half a second after a full second counts as earlier than it, so the start of a node moves to the later of
    two spans and its end to the earlier. *)
Lemma later_time_is_earliest :
  earliest_timestamp [Some "2024-01-01T00:00:00Z"; Some "2024-01-01T00:00:00.500000Z"] = Some "2024-01-01T00:00:00.500000Z" /\
  StudioTime.parse_timestamp (Some "2024-01-01T00:00:00.500000Z") = Some 1704067200500000 /\
  StudioTime.parse_timestamp (Some "2024-01-01T00:00:00Z") = Some 1704067200000000.
Proof. vm_compute. done. Qed.

(** Two spans with one id, as a client and a server that share a span report them, become two nodes with one id. *)
Lemma shared_span_ids_collide :
  match build_trace_path_response demo_dump demo_float "t" [] [demo_span "a" None [] None; demo_span "a" None [] None] [] [] with
  | Ok r => List.filter (String.eqb "span:a") (map pn_id (rs_nodes r)) = ["span:a"; "span:a"]
  | Raise _ => False
  end.
Proof. vm_compute. reflexivity. Qed.

(** A child span that names its parent's stage is put at the parent's node: the tree of the spans is flat and has no edge. *)
Lemma stage_flattens_spans :
  match build_trace_path_response demo_dump demo_float "t" []
          [demo_span "a" None [("stage", PStr "s")] None; demo_span "b" (Some "a") [("stage", PStr "s")] None] [] [] with
  | Ok r => map pn_id (rs_nodes r) = ["span:a"; "task:t"] /\ rs_edges r = []
  | Raise _ => False
  end.
Proof. vm_compute. done. Qed.

(** A span whose start lies beyond the years of [datetime] makes the whole answer of Tempo fail, with an exception that is none of the provider's. *)
Lemma unreadable_span_time_fails :
  normalize_response (PDict [("batches", PList [PDict [("scopeSpans", PList [PDict [("spans", PList [PDict [("startTimeUnixNano", PStr "300000000000000000000")]])]])]])]) "u" =
  Raise (value_error "year is out of range").
Proof. vm_compute. reflexivity. Qed.
