(* ===== verification/Federation.v ===== *)
(** * Failed tasks across services (studio/federation.py)

    The listing that merges the failed tasks of every service, newest first, and
    whose cursor holds the position in each service's own listing. *)

From S2P Require Import Prelude PyStr PyVal Json PySort Transport StudioErrors.
From Stdlib Require Import Ascii.

(** ** Cursors *)

Definition compact : dumps_opts := DumpsOpts true false "," ":".

(** [list_failed_tasks], studio/federation.py:418-421: the cursor of the positions. *)
Definition encode_positions (positions : dict pydict) : string :=
  urlsafe_b64encode (dumps compact (PDict [("version", PInt 2);
    ("positions", PDict (map (fun kv => (kv.1, PDict kv.2)) positions))])).

Definition invalid_cursor : studio_exn := FederationError "Invalid cursor." false.

(** [isinstance(v, int)] and its value. *)
Definition int_value (v : pyval) : option Z :=
  match v with PInt z => Some z | PBool b => Some (if b then 1 else 0) | _ => None end.

(** [list_failed_tasks], studio/federation.py:323-330: a position that is not refused. *)
Definition valid_position (v : pyval) : option pydict :=
  match v with
  | PDict d =>
      match int_value (from_opt (PInt 0) (dget "skip" d)), dgetv "cursor" d with
      | Some n, (PNone | PStr _) => if n <? 0 then None else Some d
      | _, _ => None
      end
  | _ => None
  end.

Section cursor.
Context (loads : string -> result pyval).

(** [_decode_failed_task_cursor], studio/federation.py:80-97, of the decoded text: an offset of the first
    version. *)
Definition decode_offset (v : pyval) : option Z :=
  match v with
  | PDict d => match dgetv "offset" d with
               | PStr s => n ← parse_int s; if n <? 0 then None else Some n
               | _ => None
               end
  | _ => None
  end.

(** [list_failed_tasks], studio/federation.py:314-334: the positions and the offset. *)
Definition decode_cursor (cursor : option string) : (dict pydict * Z) + studio_exn :=
  match cursor with
  | None | Some "" => inl ([], 0)
  | Some c =>
      match urlsafe_b64decode c with
      | None => inr invalid_cursor
      | Some raw =>
          match loads raw with
          | Raise _ => inr invalid_cursor
          | Ok v =>
              let second := match v with PDict d => match dgetv "version" d with PInt 2 => Some d | _ => None end | _ => None end in
              match second with
              | Some d =>
                  match dgetv "positions" d with
                  | PDict positions =>
                      match mapM (fun kv => p ← valid_position kv.2; Some (kv.1 : string, p)) positions with
                      | Some l => inl (l, 0)
                      | None => inr invalid_cursor
                      end
                  | _ => inr invalid_cursor
                  end
              | None => match decode_offset v with Some n => inl ([], n) | None => inr invalid_cursor end
              end
          end
      end
  end.
End cursor.

(** ** The merge *)

(** What the call keeps: the positions, the items that are left of each page, the cursors that
    follow, the errors, and the services that answered and did not. *)
Record listing := Listing {
  positions : dict pydict; pages : dict (list pydict); following : dict pyval;
  errors : list (string * string); scanned : list string; unavailable : list string }.

Definition start_position : pydict := [("cursor", PNone); ("skip", PInt 0)].
Definition next_position (cursor : pyval) : pydict := [("cursor", cursor); ("skip", PInt 0)].
Definition finished (p : pydict) : bool := truthy (dgetv "done" p).

Section federation.
(** [_fetch_failed_tasks] of a service from a cursor, with the filters of the call; a time-out is the
    error that the code makes of it. *)
Context (fetch : string -> pyval -> pydict + studio_exn).

Definition payload_items (payload : pydict) : list pydict :=
  match dgetv "items" payload with
  | PList l => omap (fun v => match v with PDict d => Some d | _ => None end) l
  | _ => []
  end.

(** [if following_cursor and following_cursor != position.get("cursor")] *)
Definition goes_on (next : pyval) (p : pydict) : bool :=
  truthy next && negb (bool_decide (next = dgetv "cursor" p)).

(** [list_failed_tasks.fetch_page], studio/federation.py:342-388. *)
Definition fetch_page (s : listing) (sid : string) : listing + studio_exn :=
  let position := from_opt start_position (dget sid (positions s)) in
  let ps := dset sid position (positions s) in
  if finished position then inl (Listing ps (pages s) (following s) (errors s) (scanned s) (unavailable s))
  else
    match fetch sid (dgetv "cursor" position) with
    | inr (FederationError d _) =>
        inl (Listing ps (pages s) (following s) (errors s ++ [(sid, d)]) (scanned s) (sid :: unavailable s))
    | inr e => inr e
    | inl payload =>
        match v ← dget "skip" position; int_value v with
        | None => inr (OtherError (key_error "'skip'"))
        | Some skip =>
            let page := drop (Z.to_nat skip) (payload_items payload) in
            let next := dgetv "next_cursor" payload in
            let ps := match page with
                      | [] => dset sid (if goes_on next position then next_position next
                                        else dset "done" (PBool true) position) ps
                      | _ => ps
                      end in
            inl (Listing ps (dset sid page (pages s)) (dset sid next (following s)) (errors s)
                   (sid :: scanned s) (unavailable s))
        end
    end.

(** [list_failed_tasks], studio/federation.py:392-392: the gathered calls touch their own service's
    entries only. *)
Fixpoint fetch_all (s : listing) (services : list string) : listing + studio_exn :=
  match services with
  | [] => inl s
  | sid :: l => match fetch_page s sid with inl s => fetch_all s l | inr e => inr e end
  end.

(** The key that orders the candidates. *)
Definition item_key (field : string) (item : pydict) : string := py_str (py_or (dgetv field item) (PStr "")).
Definition candidate_le : (string * pydict) -> (string * pydict) -> bool :=
  lex_le (fun c => item_key "failed_at" c.2)
    (lex_le fst (fun a b => String.leb (item_key "failure_id" a.2) (item_key "failure_id" b.2))).

Definition candidates (s : listing) : list (string * pydict) :=
  omap (fun kv => match kv.2 with item :: _ => Some (kv.1, item) | [] => None end) (pages s).

(** [max(candidates, key=...)] *)
Definition newest (l : list (string * pydict)) : option (string * pydict) := last (sort_by candidate_le l).

(** [positions[sid]["skip"] += 1] *)
Definition advance_skip (p : pydict) : pydict :=
  match v ← dget "skip" p; int_value v with Some n => dset "skip" (PInt (n + 1)) p | None => p end.

(** [list_failed_tasks], studio/federation.py:393-414: the items with their services.  Each round
    takes an item, for the page or for the offset. *)
Fixpoint merge_pages (fuel : nat) (limit : nat) (legacy : Z) (page : list (string * pydict)) (s : listing) :
    (list (string * pydict) * listing) + studio_exn :=
  match fuel with
  | O => inl (page, s)
  | S fuel =>
      if (limit <=? length page)%nat then inl (page, s)
      else
        match newest (candidates s) with
        | None => inl (page, s)
        | Some (sid, item) =>
            let rest := tl (from_opt [] (dget sid (pages s))) in
            let position := advance_skip (from_opt [] (dget sid (positions s))) in
            let ps := dset sid position (positions s) in
            let '(page, legacy) := if legacy =? 0 then ((page ++ [(sid, item)])%list, 0) else (page, legacy - 1) in
            let s := Listing ps (dset sid rest (pages s)) (following s) (errors s) (scanned s) (unavailable s) in
            match rest with
            | _ :: _ => merge_pages fuel limit legacy page s
            | [] =>
                let next := from_opt PNone (dget sid (following s)) in
                if goes_on next position then
                  let s := Listing (dset sid (next_position next) ps) (pages s) (following s) (errors s) (scanned s) (unavailable s) in
                  if (length page <? limit)%nat then
                    match fetch_page s sid with
                    | inl s => merge_pages fuel limit legacy page s
                    | inr e => inr e
                    end
                  else merge_pages fuel limit legacy page s
                else
                  merge_pages fuel limit legacy page
                    (Listing (dset sid (dset "done" (PBool true) position) ps) (pages s) (following s) (errors s)
                       (scanned s) (unavailable s))
            end
        end
  end.

(** [list_failed_tasks], studio/federation.py:415-417. *)
Definition has_more (services : list string) (s : listing) : bool :=
  existsb (fun kv => negb (finished kv.2) && negb (str_in kv.1 (unavailable s)) && str_in kv.1 services) (positions s).

(** [list_failed_tasks], studio/federation.py:311-426, from decoded positions: the items, the listing and
    whether more follows.  [services] are the registered services that are not disabled. *)
Definition list_from (services : list string) (ps : dict pydict) (legacy : Z) (limit : nat) :
    (list (string * pydict) * listing * bool) + studio_exn :=
  match fetch_all (Listing ps [] [] [] [] []) services with
  | inr e => inr e
  | inl s =>
      match merge_pages (limit + Z.to_nat legacy) limit legacy [] s with
      | inr e => inr e
      | inl (page, s) => inl (page, s, has_more services s)
      end
  end.

(** [list_failed_tasks], studio/federation.py:270-426, of all services: items, next cursor, errors. *)
Definition list_failed_tasks (loads : string -> result pyval) (services : list string) (cursor : option string)
    (limit : nat) : (list pydict * option string * list (string * string)) + studio_exn :=
  match decode_cursor loads cursor with
  | inr e => inr e
  | inl (ps, legacy) =>
      match list_from services ps legacy limit with
      | inr e => inr e
      | inl (page, s, more) =>
          inl (map snd page, if more then Some (encode_positions (positions s)) else None, errors s)
      end
  end.
End federation.
