(* ===== verification/FederationSpec.v ===== *)
(** * The merged listing visits every failed task

    While the services' own listings do not change, following the cursors of the
    merged listing ends, and visits every failed task of every service once, in
    the service's order. *)

From S2P Require Import Prelude PyStr PyVal Json JsonLoads PySort Transport StudioErrors Federation.
From Stdlib Require Import Ascii.

(** ** A cursor reads back *)

(** Positions that the listing accepts and that a text keeps. *)
Definition position_ok (p : pydict) : Prop :=
  plain (PDict p) = true /\ (exists n, int_value (from_opt (PInt 0) (dget "skip" p)) = Some n /\ 0 <= n) /\
  (dgetv "cursor" p = PNone \/ exists s, dgetv "cursor" p = PStr s).
Definition positions_ok (ps : dict pydict) : Prop :=
  dict_ok ps /\ forall sid p, dget sid ps = Some p -> position_ok p.

Lemma position_valid p : position_ok p -> valid_position (PDict p) = Some p.
Proof.
  intros (_ & (n & Hn & Hpos) & Hc). unfold valid_position. rewrite Hn, (proj2 (Z.ltb_ge n 0) Hpos).
  by destruct Hc as [->|[s ->]].
Qed.

Lemma plain_dset k v d : plain (PDict d) = true -> plain v = true -> plain (PDict (dset k v d)) = true.
Proof.
  cbn [plain]. rewrite !andb_true_iff, !bool_decide_eq_true. intros [Hn Hd] Hv. split; [by apply (dict_ok_dset k v d)|].
  clear Hn. induction d as [|[k2 v2] d IH]; cbn in *; [by rewrite Hv|].
  apply andb_true_iff in Hd as [H2 Hd]. destruct (String.eqb k k2); cbn; [by rewrite Hv|]. rewrite H2. by apply IH.
Qed.

Lemma positions_ok_dset ps sid p : positions_ok ps -> position_ok p -> positions_ok (dset sid p ps).
Proof.
  intros [Hd Hv] Hp. split; [by apply dict_ok_dset|]. intros t q. rewrite dget_dset. destruct (String.eqb t sid); [by intros [= <-]|apply Hv].
Qed.

Lemma position_ok_start : position_ok start_position.
Proof. split; [done|]. split; [by exists 0|by left]. Qed.

Lemma position_ok_next c : c = PNone \/ (exists s, c = PStr s) -> position_ok (next_position c).
Proof. intros H. split; [by destruct H as [->|[s ->]]|]. split; [by exists 0|done]. Qed.

Lemma position_ok_done p : position_ok p -> position_ok (dset "done" (PBool true) p).
Proof.
  intros (Hp & Hn & Hc). split; [by apply plain_dset|]. unfold dgetv in *. rewrite !dget_dset_ne by done. done.
Qed.

Lemma position_ok_advance p : position_ok p -> position_ok (advance_skip p).
Proof.
  intros (Hp & Hn & Hc). unfold advance_skip. destruct (dget "skip" p) as [v|] eqn:E; [|by rewrite <- E in Hn].
  destruct Hn as (n & Hn & Hpos). cbn in Hn |- *. rewrite Hn. split; [by apply plain_dset|].
  unfold dgetv in *. rewrite dget_dset_eq, dget_dset_ne by done. split; [|done]. exists (n + 1). split; [done|lia].
Qed.

Definition cursor_value (ps : dict pydict) : pyval :=
  PDict [("version", PInt 2); ("positions", PDict (map (fun kv => (kv.1, PDict kv.2)) ps))].

Lemma cursor_plain ps : positions_ok ps -> plain (cursor_value ps) = true.
Proof.
  intros [Hd Hv]. unfold cursor_value. change (plain (PDict (map (fun kv => (kv.1, PDict kv.2)) ps)) && true = true).
  rewrite andb_true_r. cbn [plain]. rewrite map_map. apply andb_true_iff. split; [by apply bool_decide_eq_true|].
  apply forallb_forall. intros x Hx. apply in_map_iff in Hx as ([k p] & <- & Hin). apply list_elem_of_In in Hin.
  apply (Hv k p). by apply elem_dget.
Qed.

(** [json.dumps] and [urlsafe_b64encode], read back. *)
Lemma cursor_roundtrip pf ps : positions_ok ps -> decode_cursor (py_json_loads pf) (Some (encode_positions ps)) = inl (ps, 0).
Proof.
  intros Hok. pose proof Hok as [Hd Hv].
  assert (forall l : dict pydict, (forall kv, kv ∈ l -> position_ok kv.2) ->
    mapM (fun kv : string * pyval => p ← valid_position kv.2; Some (kv.1 : string, p)) (map (fun kv => (kv.1, PDict kv.2)) l) = Some l) as Hm.
  { induction l as [|[k p] l IH]; intros Hl; [done|]. cbn [map mapM mbind option_bind fst snd].
    rewrite position_valid by (apply (Hl (k, p)); left). cbn [mbind option_bind]. rewrite IH; [done|]. intros kv Hkv. apply Hl. by right. }
  assert (encode_positions ps <> "") as Hne.
  { intros E. pose proof (urlsafe_roundtrip (dumps compact (cursor_value ps))) as R.
    change (urlsafe_b64encode (dumps compact (cursor_value ps))) with (encode_positions ps) in R. by rewrite E in R. }
  unfold decode_cursor. destruct (encode_positions ps) as [|a t] eqn:E; [done|]. rewrite <- E.
  change (encode_positions ps) with (urlsafe_b64encode (dumps compact (cursor_value ps))). rewrite urlsafe_roundtrip.
  rewrite (loads_dumps pf compact [] [] eq_refl eq_refl (Forall_nil_2 _) eq_refl (Forall_nil_2 _)) by by apply cursor_plain.
  unfold cursor_value. cbn. rewrite Hm; [done|]. intros [k p] Hk. apply (Hv k p). by apply elem_dget.
Qed.

Section paging.
Context (fetch : string -> pyval -> pydict + studio_exn).
Context (services : list string) (limit : nat).
Context (services_nodup : NoDup services) (limit_pos : (1 <= limit)%nat).
Context (next_text : forall sid c payload, fetch sid c = inl payload ->
  dgetv "next_cursor" payload = PNone \/ exists s, dgetv "next_cursor" payload = PStr s).

(** ** What a service still has *)

Definition next_of (payload : pydict) : pyval := dgetv "next_cursor" payload.
Definition onward (next c : pyval) : Prop := truthy next = true /\ next <> c.

(** From a cursor, a service lists these items; the last number counts the items and the pages. *)
Inductive feeds (sid : string) : pyval -> list pydict -> nat -> Prop :=
| feeds_last c payload : fetch sid c = inl payload -> ~ onward (next_of payload) c ->
    feeds sid c (payload_items payload) (S (length (payload_items payload)))
| feeds_more c payload l w : fetch sid c = inl payload -> onward (next_of payload) c -> feeds sid (next_of payload) l w ->
    feeds sid c (payload_items payload ++ l) (S (length (payload_items payload)) + w).

(** What follows the page of a cursor. *)
Definition feeds_after (sid : string) (payload : pydict) (c : pyval) (l : list pydict) (w : nat) : Prop :=
  (onward (next_of payload) c /\ feeds sid (next_of payload) l w) \/ (~ onward (next_of payload) c /\ l = [] /\ w = 0%nat).

(** What a position leaves to list. *)
Definition owes (sid : string) (p : pydict) (l : list pydict) (w : nat) : Prop :=
  (finished p = true /\ l = [] /\ w = 0%nat) \/
  (finished p = false /\ exists k payload rest w', dget "skip" p = Some (PInt (Z.of_nat k)) /\
     fetch sid (dgetv "cursor" p) = inl payload /\ (k <= length (payload_items payload))%nat /\
     feeds_after sid payload (dgetv "cursor" p) rest w' /\
     l = (drop k (payload_items payload) ++ rest)%list /\ w = (S (length (drop k (payload_items payload))) + w')%nat).

Lemma goes_on_spec next p : goes_on next p = true <-> onward next (dgetv "cursor" p).
Proof. unfold goes_on, onward. rewrite andb_true_iff, negb_true_iff, bool_decide_eq_false. done. Qed.

Lemma feeds_owes sid c l w : feeds sid c l w -> owes sid (next_position c) l w.
Proof.
  intros H. right. split; [done|]. destruct H as [c payload Hf Hn|c payload l w Hf Hn Hl].
  - exists 0%nat, payload, [], 0%nat. rewrite app_nil_r, Nat.add_0_r. split_and!; try done; [lia|]. by right.
  - exists 0%nat, payload, l, w. split_and!; try done; [lia|]. by left.
Qed.

(** A page that was read belongs to its position. *)
Definition page_ok (s : listing) (sid : string) (p : pydict) : Prop :=
  forall pg, dget sid (pages s) = Some pg -> pg <> [] ->
    finished p = false /\ exists k payload, dget "skip" p = Some (PInt (Z.of_nat k)) /\
      fetch sid (dgetv "cursor" p) = inl payload /\ pg = drop k (payload_items payload) /\
      dget sid (following s) = Some (next_of payload).

Definition state_owes (s : listing) (sid : string) (l : list pydict) (w : nat) : Prop :=
  exists p, dget sid (positions s) = Some p /\ owes sid p l w /\ page_ok s sid p.

(** The entries of the other services. *)
Definition others_same (s s' : listing) (sid : string) : Prop :=
  forall t, t <> sid -> dget t (positions s') = dget t (positions s) /\ dget t (pages s') = dget t (pages s) /\
    dget t (following s') = dget t (following s).

Lemma state_owes_other s s' sid t l w : others_same s s' sid -> t <> sid -> state_owes s t l w -> state_owes s' t l w.
Proof.
  intros Ho Ht (p & Hp & Hl & Hg). destruct (Ho t Ht) as (E1 & E2 & E3). exists p. rewrite E1. split; [done|]. split; [done|].
  intros pg. rewrite E2, E3. apply Hg.
Qed.

Lemma fetch_page_owes s sid l w :
  owes sid (from_opt start_position (dget sid (positions s))) l w -> from_opt [] (dget sid (pages s)) = [] ->
  exists s' w', fetch_page fetch s sid = inl s' /\ state_owes s' sid l w' /\ (w' <= w)%nat /\ others_same s s' sid /\
    unavailable s' = unavailable s /\ (forall t, t ∈ dkeys (pages s') -> t = sid \/ t ∈ dkeys (pages s)) /\
    (w = 0%nat \/ (w' < w)%nat \/ exists x pg, dget sid (pages s') = Some (x :: pg)).
Proof.
  intros Ho Hpg. unfold fetch_page. set (p := from_opt start_position _) in *.
  assert (others_same s (Listing (dset sid p (positions s)) (pages s) (following s) (errors s) (scanned s) (unavailable s)) sid) as Hs0.
  { intros t Ht. cbn. by rewrite dget_dset_ne. }
  destruct Ho as [(Hfin & -> & ->)|(Hfin & k & payload & rest & w' & Hk & Hf & Hlen & Ha & -> & ->)]; rewrite Hfin.
  { eexists _, 0%nat. split; [done|]. split; [|split; [done|]; split; [done|]; split; [done|]; split; [by right|by left]].
    exists p. cbn. rewrite dget_dset_eq. split; [done|]. split; [by left|]. intros pg Hg Hne. cbn in Hg. rewrite Hg in Hpg. by subst. }
  rewrite Hf, Hk. cbn [mbind option_bind int_value]. rewrite Nat2Z.id.
  assert (forall t (d : dict (list pydict)) v, t ∈ dkeys (dset sid v d) -> t = sid \/ t ∈ dkeys d) as Hkeys.
  { intros t d v Ht. destruct (decide (t = sid)); [by left|right]. apply din_keys. apply din_keys in Ht. unfold din in *.
    by rewrite dget_dset_ne in Ht. }
  destruct (drop k (payload_items payload)) as [|x pg] eqn:Ed.
  - assert (exists w1 q, owes sid q rest w1 /\ (w1 <= w')%nat /\
      q = if goes_on (next_of payload) p then next_position (next_of payload) else dset "done" (PBool true) p) as (w1 & q & Hq & Hw & Eq).
    { destruct (goes_on (next_of payload) p) eqn:Eg.
      - destruct Ha as [[_ Hl]|[Hn _]]; [|by destruct Hn; apply goes_on_spec]. exists w', (next_position (next_of payload)).
        split; [by apply feeds_owes|done].
      - destruct Ha as [[Hn _]|(_ & -> & ->)]; [by apply goes_on_spec in Hn; rewrite Eg in Hn|].
        exists 0%nat, (dset "done" (PBool true) p). split; [|done]. left. split; [|done]. unfold finished, dgetv. by rewrite dget_dset_eq. }
    eexists _, w1. split; [done|]. fold (next_of payload). rewrite <- Eq. split; [|split; [cbn; lia|]; split; [|split; [done|]]].
    + exists q. cbn. rewrite dget_dset_eq. split; [done|]. split; [done|]. intros pg Hg Hne. cbn in Hg. rewrite dget_dset_eq in Hg. congruence.
    + intros t Ht. cbn. by rewrite !dget_dset_ne.
    + split; [intros t; cbn; apply Hkeys|]. right. left. cbn. lia.
  - eexists _, (S (length (x :: pg)) + w')%nat. split; [done|].
    split; [|split; [done|]; split; [|split; [done|]]].
    + exists p. cbn. rewrite dget_dset_eq. split; [done|]. split.
      * right. split; [done|]. exists k, payload, rest, w'. rewrite Ed. split_and!; done.
      * intros pg' Hg Hne. cbn in Hg. rewrite dget_dset_eq in Hg. injection Hg as <-. split; [done|].
        exists k, payload. rewrite Ed. cbn. rewrite dget_dset_eq. split_and!; done.
    + intros t Ht. cbn. by rewrite !dget_dset_ne.
    + split; [intros t; cbn; apply Hkeys|]. right. right. exists x, pg. cbn. by rewrite dget_dset_eq.
Qed.

(** ** The pages of all services *)

Definition page_left (s : listing) (sid : string) : Prop := exists x pg, dget sid (pages s) = Some (x :: pg).

Lemma fetch_all_owes l s (L : string -> list pydict) (W : string -> nat) : NoDup l ->
  (forall sid, sid ∈ l -> owes sid (from_opt start_position (dget sid (positions s))) (L sid) (W sid) /\
     from_opt [] (dget sid (pages s)) = []) ->
  exists s' W', fetch_all fetch s l = inl s' /\ unavailable s' = unavailable s /\
    (forall sid, sid ∈ l -> state_owes s' sid (L sid) (W' sid) /\ (W' sid <= W sid)%nat /\
       (W sid = 0%nat \/ (W' sid < W sid)%nat \/ page_left s' sid)) /\
    (forall t, t ∉ l -> dget t (positions s') = dget t (positions s) /\ dget t (pages s') = dget t (pages s) /\
       dget t (following s') = dget t (following s)) /\
    (forall t, t ∈ dkeys (pages s') -> t ∈ l \/ t ∈ dkeys (pages s)).
Proof.
  revert s. induction l as [|sid l IH]; intros s Hn H; cbn [fetch_all].
  { exists s, W. split; [done|]. split; [done|]. split; [by intros t ?%elem_of_nil|]. split; [done|]. by right. }
  apply NoDup_cons in Hn as [Hsid Hn].
  destruct (H sid) as [Ho Hp]; [by left|].
  destruct (fetch_page_owes s sid _ _ Ho Hp) as (s1 & w1 & -> & Hs1 & Hw1 & Hoth & Hu & Hk & Hprog).
  destruct (IH s1 Hn) as (s' & W' & -> & Hu' & HW & Hrest & Hk').
  { intros t Ht. assert (t <> sid) as Hne by (by intros ->). destruct (Hoth t Hne) as (-> & -> & _). apply H. by right. }
  exists s', (fun t => if decide (t = sid) then w1 else W' t). split; [done|]. split; [congruence|].
  destruct (Hrest sid Hsid) as (E1 & E2 & E3).
  split; [|split].
  - intros t Ht. destruct (decide (t = sid)) as [->|Hne].
    + split; [|split; [done|]].
      * destruct Hs1 as (p & Hp1 & Hl1 & Hg1). exists p. rewrite E1. split; [done|]. split; [done|].
        intros pg. rewrite E2, E3. apply Hg1.
      * destruct Hprog as [?|[?|(x & pg & Hx)]]; [by left|right; by left|]. right. right. exists x, pg. by rewrite E2.
    + apply elem_of_cons in Ht as [->|Ht]; [done|]. by apply HW.
  - intros t Ht. apply not_elem_of_cons in Ht as [Hne Ht]. destruct (Hrest t Ht) as (-> & -> & ->). by apply Hoth.
  - intros t Ht. destruct (Hk' t Ht) as [Hin|Hin]; [left; by right|]. destruct (Hk t Hin) as [->|?]; [left; by left|by right].
Qed.

(** ** The merge *)

Definition of_service (sid : string) (l : list (string * pydict)) : list pydict :=
  map snd (List.filter (fun c => String.eqb c.1 sid) l).

Lemma of_service_app sid a b : of_service sid (a ++ b) = (of_service sid a ++ of_service sid b)%list.
Proof. unfold of_service. by rewrite List.filter_app, map_app. Qed.

Lemma newest_candidate s sid item : dict_ok (pages s) -> newest (candidates s) = Some (sid, item) ->
  exists pg, dget sid (pages s) = Some (item :: pg).
Proof.
  intros Hd Hn. unfold newest in Hn. apply last_Some in Hn as (l & Hl).
  assert ((sid, item) ∈ candidates s) as Hin.
  { apply (sort_by_elem candidate_le). rewrite Hl. apply elem_of_app. right. by left. }
  unfold candidates in Hin. apply list_elem_of_omap in Hin as ([k pg] & Hk & Hc). cbn in Hc.
  destruct pg as [|y pg]; [done|]. injection Hc as -> ->. exists pg. by apply elem_dget.
Qed.

Lemma newest_none s : newest (candidates s) = None -> forall sid, ~ page_left s sid.
Proof.
  intros Hn sid (x & pg & Hx). unfold newest in Hn. apply last_None in Hn.
  assert ((sid, x) ∈ candidates s) as Hin.
  { apply list_elem_of_omap. exists (sid, x :: pg). split; [|done]. by apply dget_elem. }
  apply (sort_by_elem candidate_le) in Hin. rewrite Hn in Hin. by apply elem_of_nil in Hin.
Qed.
(** ** A round of the merge *)

Record merge_ok (s : listing) (L : string -> list pydict) (W : string -> nat) : Prop := MergeOk {
  merge_owes : forall sid, sid ∈ services -> state_owes s sid (L sid) (W sid);
  merge_dict : dict_ok (pages s) /\ positions_ok (positions s);
  merge_keys : forall t, t ∈ dkeys (pages s) -> t ∈ services;
  merge_reached : unavailable s = [] }.

Definition update {A} (f : string -> A) (sid : string) (x : A) (t : string) : A := if String.eqb t sid then x else f t.

Lemma update_eq {A} (f : string -> A) sid x : update f sid x sid = x.
Proof. unfold update. by rewrite String.eqb_refl. Qed.

Lemma update_ne {A} (f : string -> A) sid x t : t <> sid -> update f sid x t = f t.
Proof. intros H. unfold update. by rewrite (proj2 (String.eqb_neq t sid) H). Qed.

(** An entry changes and the others stay. *)
Lemma merge_ok_entry s s' L W sid l w : merge_ok s L W -> others_same s s' sid -> state_owes s' sid l w ->
  dict_ok (pages s') /\ positions_ok (positions s') -> (forall t, t ∈ dkeys (pages s') -> t = sid \/ t ∈ dkeys (pages s)) -> sid ∈ services ->
  unavailable s' = unavailable s -> merge_ok s' (update L sid l) (update W sid w).
Proof.
  intros [Ho _ Hk Hu] Hs Hl Hd Hk' Hin Hu'. split; [|done| |congruence].
  - intros t Ht. destruct (decide (t = sid)) as [->|Hne]; [by rewrite !update_eq|]. rewrite !update_ne by done.
    by apply (state_owes_other s _ sid), Ho.
  - intros t Ht. destruct (Hk' t Ht) as [->|?]; [done|by apply Hk].
Qed.

Lemma fetch_page_dict s sid s' : fetch_page fetch s sid = inl s' ->
  dict_ok (pages s) /\ positions_ok (positions s) -> dict_ok (pages s') /\ positions_ok (positions s').
Proof.
  unfold fetch_page. intros H [Hd Hp]. set (p := from_opt start_position _) in H.
  assert (position_ok p) as Hpo.
  { unfold p. destruct (dget sid (positions s)) eqn:E; [apply (proj2 Hp _ _ E)|apply position_ok_start]. }
  assert (positions_ok (dset sid p (positions s))) by by apply positions_ok_dset.
  destruct (finished p); [by injection H as <-|].
  destruct (fetch sid _) as [payload|[]] eqn:Ef; try done; [|by injection H as <-].
  destruct (_ ≫= _); [|done]. injection H as <-. split; [by apply dict_ok_dset|]. cbn.
  destruct (drop _ _); [|done]. apply positions_ok_dset; [done|].
  destruct (goes_on _ _); [by apply position_ok_next, (next_text _ _ _ Ef)|by apply position_ok_done].
Qed.

Lemma advance_skip_spec p k : dget "skip" p = Some (PInt (Z.of_nat k)) ->
  dget "skip" (advance_skip p) = Some (PInt (Z.of_nat (S k))) /\ finished (advance_skip p) = finished p /\
  dgetv "cursor" (advance_skip p) = dgetv "cursor" p.
Proof.
  intros H. unfold advance_skip. rewrite H. cbn [mbind option_bind int_value]. unfold finished, dgetv.
  rewrite dget_dset_eq, !dget_dset_ne by done. split_and!; [do 2 f_equal; lia|done|done].
Qed.

Lemma goes_on_cursor next p q : dgetv "cursor" p = dgetv "cursor" q -> goes_on next p = goes_on next q.
Proof. unfold goes_on. by intros ->. Qed.

Lemma tail_of_drop {A} k (l : list A) x r : drop k l = x :: r -> r = drop (S k) l /\ (S k <= length l)%nat.
Proof.
  revert k. induction l as [|y l IH]; intros [|k]; cbn; try done.
  - intros [= <- <-]. split; [done|lia].
  - intros H. destruct (IH _ H). split; [done|lia].
Qed.

(** A page that was read, at its position. *)
Lemma read_page s sid l w item pg : state_owes s sid l w -> dget sid (pages s) = Some (item :: pg) ->
  exists p k payload rest w', dget sid (positions s) = Some p /\ finished p = false /\
    dget "skip" p = Some (PInt (Z.of_nat k)) /\ fetch sid (dgetv "cursor" p) = inl payload /\
    pg = drop (S k) (payload_items payload) /\ (S k <= length (payload_items payload))%nat /\
    dget sid (following s) = Some (next_of payload) /\ feeds_after sid payload (dgetv "cursor" p) rest w' /\
    l = (item :: pg ++ rest)%list /\ w = S (S (length pg) + w').
Proof.
  intros (p & Hp & Ho & Hg) Hpg. destruct (Hg _ Hpg) as (Hfin & k & payload & Hk & Hf & Hd & Hn); [done|].
  destruct Ho as [(Hc & _)|(_ & k' & payload' & rest & w' & Hk' & Hf' & _ & Ha & -> & ->)]; [congruence|].
  rewrite Hk in Hk'. injection Hk' as Hk'. apply Nat2Z.inj in Hk' as <-. rewrite Hf in Hf'. injection Hf' as <-.
  destruct (tail_of_drop k _ _ _ (eq_sym Hd)) as [Ed Hlen]. rewrite <- Hd.
  exists p, k, payload, rest, w'. split_and!; done.
Qed.

(** The position and the page of a service change. *)
Lemma merge_ok_set s L W sid d ps pg f e sc l w (s' := Listing (dset sid d ps) (dset sid pg (pages s)) f e sc (unavailable s)) :
  merge_ok s L W -> sid ∈ services ->
  (forall t, t <> sid -> dget t ps = dget t (positions s) /\ dget t f = dget t (following s)) -> positions_ok ps -> position_ok d ->
  owes sid d l w -> (pg <> [] -> page_ok s' sid d) -> merge_ok s' (update L sid l) (update W sid w).
Proof.
  intros Hok Hin Hs Hps Hd Ho Hg. apply (merge_ok_entry s); try done.
  - intros t Ht. cbn. rewrite !dget_dset_ne by done. destruct (Hs t Ht). by split_and!.
  - exists d. cbn. rewrite dget_dset_eq. split; [done|]. split; [done|].
    intros q Hq Hne. apply Hg; try done. cbn in Hq. rewrite dget_dset_eq in Hq. congruence.
  - split; [apply dict_ok_dset, Hok|by apply positions_ok_dset].
  - intros t Ht. destruct (decide (t = sid)) as [->|Hne]; [by left|right]. apply din_keys. apply din_keys in Ht. unfold din in *.
    cbn in Ht. by rewrite dget_dset_ne in Ht.
Qed.

(** A page is fetched for a service whose page is used up. *)
Lemma merge_ok_fetch s L W sid l w : merge_ok s (update L sid l) (update W sid w) -> sid ∈ services ->
  from_opt [] (dget sid (pages s)) = [] ->
  exists s' w', fetch_page fetch s sid = inl s' /\ merge_ok s' (update L sid l) (update W sid w') /\ (w' <= w)%nat.
Proof.
  intros Hok Hin Hp. destruct (merge_owes _ _ _ Hok sid Hin) as (q & Hq & Ho & _). rewrite !update_eq in Ho.
  destruct (fetch_page_owes s sid l w) as (s' & w' & E & Hs & Hw & Hoth & Hu & Hk & _); [by rewrite Hq|done|].
  exists s', w'. split; [done|]. split; [|done].
  destruct (merge_ok_entry s s' _ _ sid l w' Hok) as [H ? ? ?]; try done; [apply (fetch_page_dict _ _ _ E), Hok|].
  split; try done. intros t Ht. specialize (H t Ht). unfold update in *. by destruct (String.eqb t sid).
Qed.

Lemma merge_round fuel page s L W sid item : merge_ok s L W -> (length page < limit)%nat ->
  newest (candidates s) = Some (sid, item) ->
  exists s' l w, merge_pages fetch (S fuel) limit 0 page s = merge_pages fetch fuel limit 0 (page ++ [(sid, item)]) s' /\
    merge_ok s' (update L sid l) (update W sid w) /\ sid ∈ services /\ L sid = item :: l /\ (w < W sid)%nat.
Proof.
  intros Hok Hlen Hnew. destruct (newest_candidate s sid item (proj1 (merge_dict _ _ _ Hok)) Hnew) as (pg & Hpg).
  assert (sid ∈ services) as Hin by (apply (merge_keys _ _ _ Hok), din_keys; unfold din; by rewrite Hpg).
  destruct (read_page s sid _ _ item pg (merge_owes _ _ _ Hok sid Hin) Hpg)
    as (p & k & payload & rest & w' & Hp & Hfin & Hk & Hf & Ed & Hkl & Hnext & Ha & HL & HW).
  destruct (advance_skip_spec p k Hk) as (Hk1 & Hfin1 & Hc1).
  cbn [merge_pages]. rewrite (proj2 (Nat.leb_gt _ _) Hlen), Hnew, Hpg, Hp.
  cbn [from_opt tl Z.eqb positions pages following errors scanned unavailable]. rewrite Hnext. cbn [from_opt].
  rewrite (goes_on_cursor _ _ p Hc1).
  assert (position_ok (advance_skip p)) as Hadv by by apply position_ok_advance, (proj2 (merge_dict _ _ _ Hok)) with sid.
  assert (positions_ok (dset sid (advance_skip p) (positions s))) as Hps by by apply positions_ok_dset; [apply Hok|].
  destruct pg as [|y pg].
  - destruct (goes_on (next_of payload) p) eqn:Eg.
    + destruct Ha as [[_ Hl]|[Hn _]]; [|by destruct Hn; apply goes_on_spec].
      set (s1 := Listing _ _ _ _ _ _).
      assert (merge_ok s1 (update L sid rest) (update W sid w')) as Hok1.
      { apply merge_ok_set; try done; [intros t Ht; by rewrite !dget_dset_ne|by apply position_ok_next, (next_text _ _ _ Hf)|by apply feeds_owes]. }
      destruct (length (page ++ [(sid, item)]) <? limit)%nat; [|by exists s1, rest, w'; split_and!; try done; lia].
      destruct (merge_ok_fetch s1 L W sid rest w' Hok1 Hin) as (s2 & w2 & -> & Hok2 & Hw2); [cbn; by rewrite dget_dset_eq|].
      exists s2, rest, w2. split_and!; try done. lia.
    + destruct Ha as [[Hn _]|(_ & -> & ->)]; [by apply goes_on_spec in Hn; rewrite Eg in Hn|].
      eexists _, [], 0%nat. split; [done|]. split_and!; try done; [|lia].
      apply merge_ok_set; try done; [intros t Ht; by rewrite !dget_dset_ne|by apply position_ok_done|].
      left. by unfold finished, dgetv; rewrite dget_dset_eq.
  - eexists _, ((y :: pg) ++ rest)%list, (S (length (y :: pg)) + w')%nat. split; [done|]. split_and!; try done; [|lia].
    apply merge_ok_set; try done; [apply Hok| |].
    + right. split; [congruence|]. exists (S k), payload, rest, w'. rewrite Hc1, <- Ed. split_and!; done.
    + intros _ pg' Hg _. cbn in Hg. rewrite dget_dset_eq in Hg. injection Hg as <-. split; [congruence|].
      exists (S k), payload. by rewrite Hc1.
Qed.

(** ** The whole page *)

Lemma of_service_cons sid x l :
  of_service sid (x :: l) = if String.eqb x.1 sid then x.2 :: of_service sid l else of_service sid l.
Proof. unfold of_service. cbn. by destruct (String.eqb x.1 sid). Qed.

Lemma merge_pages_ok fuel page s L W : merge_ok s L W -> (limit <= fuel + length page)%nat ->
  exists out s' L' W', merge_pages fetch fuel limit 0 page s = inl ((page ++ out)%list, s') /\ merge_ok s' L' W' /\
    (forall sid, L sid = (of_service sid out ++ L' sid)%list) /\ (forall x, x ∈ out -> x.1 ∈ services) /\
    (forall sid, W' sid <= W sid)%nat /\
    ((length page < limit)%nat -> forall sid, page_left s sid -> exists t, t ∈ services /\ (W' t < W t)%nat).
Proof.
  revert page s L W. induction fuel as [|fuel IH]; intros page s L W Hok Hfuel.
  { exists [], s, L, W. rewrite app_nil_r. split_and!; try done; [by intros x ?%elem_of_nil|]. cbn in Hfuel. lia. }
  destruct (Nat.leb limit (length page)) eqn:El; [|apply Nat.leb_gt in El; destruct (newest (candidates s)) as [[sid item]|] eqn:En].
  - exists [], s, L, W. cbn [merge_pages]. rewrite El, app_nil_r. apply Nat.leb_le in El.
    split_and!; try done; [by intros x ?%elem_of_nil|lia].
  - destruct (merge_round fuel page s L W sid item Hok El En) as (s1 & l & w & -> & Hok1 & Hin & HL & Hw).
    destruct (IH (page ++ [(sid, item)])%list s1 _ _ Hok1) as (out & s' & L' & W' & -> & Hok' & HL' & Hout & HW' & _).
    { rewrite length_app. cbn. lia. }
    exists ((sid, item) :: out), s', L', W'. rewrite <- app_assoc. split; [done|]. split; [done|]. split_and!.
    + intros t. rewrite of_service_cons. cbn. specialize (HL' t). destruct (decide (t = sid)) as [->|Hne].
      * rewrite update_eq in HL'. rewrite String.eqb_refl. cbn. congruence.
      * rewrite update_ne in HL' by done. by rewrite (proj2 (String.eqb_neq sid t)) by congruence.
    + intros x [->|Hx]%elem_of_cons; [done|by apply Hout].
    + intros t. specialize (HW' t). destruct (decide (t = sid)) as [->|Hne]; [rewrite update_eq in HW'; lia|].
      by rewrite update_ne in HW'.
    + intros _ t _. exists sid. split; [done|]. specialize (HW' sid). rewrite update_eq in HW'. lia.
  - exists [], s, L, W. cbn [merge_pages]. rewrite (proj2 (Nat.leb_gt _ _) El), En, app_nil_r.
    split_and!; try done; [by intros x ?%elem_of_nil|]. intros _ sid Hsid. by destruct (newest_none s En sid).
Qed.
(** ** A call, and the calls that follow its cursors *)

Lemma fetch_all_dict l s s' : fetch_all fetch s l = inl s' ->
  dict_ok (pages s) /\ positions_ok (positions s) -> dict_ok (pages s') /\ positions_ok (positions s').
Proof.
  revert s. induction l as [|sid l IH]; intros s; cbn [fetch_all]; [by intros [= <-]|].
  destruct (fetch_page fetch s sid) as [s1|e] eqn:E; [|done]. intros H Hd. apply (IH s1 H). by apply (fetch_page_dict _ _ _ E).
Qed.

(** What the positions of a cursor owe. *)
Definition cursor_owes (ps : dict pydict) (L : string -> list pydict) (W : string -> nat) : Prop :=
  positions_ok ps /\ forall sid, sid ∈ services -> owes sid (from_opt start_position (dget sid ps)) (L sid) (W sid).

Lemma owes_finished sid p l w : owes sid p l w -> finished p = true -> l = [] /\ w = 0%nat.
Proof. intros [(_ & -> & ->)|(Hf & _)] H; [done|congruence]. Qed.

Lemma owes_unfinished sid p l w : owes sid p l w -> finished p = false -> (0 < w)%nat.
Proof. intros [(Hf & _)|(_ & k & payload & rest & w' & _ & _ & _ & _ & _ & ->)] H; [congruence|lia]. Qed.

Lemma has_more_spec s L W : merge_ok s L W ->
  if has_more services s then exists sid, sid ∈ services /\ (0 < W sid)%nat else forall sid, sid ∈ services -> L sid = [].
Proof.
  intros Hok. destruct (has_more services s) eqn:E.
  - unfold has_more in E. apply existsb_exists in E as ([sid p] & Hin & H). cbn in H.
    apply andb_true_iff in H as [[Hfin%negb_true_iff _]%andb_true_iff Hs]. apply list_elem_of_In, (elem_dget _ _ _ (proj1 (proj2 (merge_dict _ _ _ Hok)))) in Hin.
    apply str_in_elem in Hs. exists sid. split; [done|]. destruct (merge_owes _ _ _ Hok sid Hs) as (q & Hq & Ho & _).
    rewrite Hin in Hq. injection Hq as <-. by apply (owes_unfinished _ _ _ _ Ho).
  - intros sid Hs. destruct (merge_owes _ _ _ Hok sid Hs) as (q & Hq & Ho & _).
    destruct (finished q) eqn:Ef; [by apply (owes_finished _ _ _ _ Ho)|]. exfalso.
    unfold has_more in E. enough (existsb (fun kv => negb (finished kv.2) && negb (str_in kv.1 (unavailable s)) && str_in kv.1 services)
      (positions s) = true) by congruence. apply existsb_exists. exists (sid, q). split; [by apply list_elem_of_In, dget_elem|].
    cbn. rewrite Ef, (merge_reached _ _ _ Hok). apply str_in_elem in Hs. by rewrite Hs.
Qed.

Lemma list_from_owes ps L W : cursor_owes ps L W -> exists out s L' W',
  list_from fetch services ps 0 limit = inl (out, s, has_more services s) /\ merge_ok s L' W' /\
  (forall sid, L sid = of_service sid out ++ L' sid)%list /\ (forall x, x ∈ out -> x.1 ∈ services) /\
  (forall sid, sid ∈ services -> W' sid <= W sid)%nat /\
  ((exists sid, sid ∈ services /\ 0 < W sid)%nat -> exists t, t ∈ services /\ (W' t < W t)%nat).
Proof.
  intros [Hps Ho]. unfold list_from. set (s0 := Listing ps [] [] [] [] []).
  destruct (fetch_all_owes services s0 L W services_nodup) as (s1 & W1 & E1 & Hu & H1 & _ & Hk); [intros sid Hs; split; [by apply Ho|done]|].
  assert (merge_ok s1 L W1) as Hok1.
  { split; [intros sid Hs; by apply H1|apply (fetch_all_dict _ _ _ E1); split; [apply dict_ok_nil|done]| |done].
    intros t Ht. destruct (Hk t Ht) as [?|Hin]; [done|by apply elem_of_nil in Hin]. }
  rewrite E1. destruct (merge_pages_ok (limit + Z.to_nat 0) [] s1 L W1 Hok1) as (out & s & L' & W' & -> & Hok & HL & Hout & HW & Hprog);
    [cbn; lia|].
  exists out, s, L', W'. split; [done|]. split; [done|]. split; [done|]. split; [done|]. split.
  - intros sid Hs. specialize (HW sid). destruct (H1 sid Hs) as (_ & ? & _). lia.
  - intros (sid & Hs & Hpos). destruct (H1 sid Hs) as (_ & Hle & [?|[?|Hl]]); [lia| |].
    + exists sid. split; [done|]. specialize (HW sid). lia.
    + destruct (Hprog limit_pos sid Hl) as (t & Ht & Hlt). exists t. split; [done|]. destruct (H1 t Ht) as (_ & ? & _). lia.
Qed.

Lemma merge_ok_cursor s L W : merge_ok s L W -> cursor_owes (positions s) L W.
Proof.
  intros Hok. split; [apply Hok|]. intros sid Hs. destruct (merge_owes _ _ _ Hok sid Hs) as (p & -> & Ho & _). done.
Qed.

(** What is left of all services. *)
Fixpoint total (l : list string) (W : string -> nat) : nat :=
  match l with [] => 0%nat | sid :: l => (W sid + total l W)%nat end.

Lemma total_le l W W' : (forall sid, sid ∈ l -> W' sid <= W sid)%nat -> (total l W' <= total l W)%nat.
Proof.
  induction l as [|x l IH]; intros H; cbn; [done|]. pose proof (H x ltac:(left)).
  assert (total l W' <= total l W)%nat by (apply IH; intros; apply H; by right). lia.
Qed.

Lemma total_lt l W W' t : (forall sid, sid ∈ l -> W' sid <= W sid)%nat -> t ∈ l -> (W' t < W t)%nat -> (total l W' < total l W)%nat.
Proof.
  induction l as [|x l IH]; intros H Ht Hlt; [by apply elem_of_nil in Ht|]. cbn. pose proof (H x ltac:(left)).
  assert (forall sid, sid ∈ l -> W' sid <= W sid)%nat as Hl by (intros; apply H; by right).
  apply elem_of_cons in Ht as [->|Ht]; [pose proof (total_le l W W' Hl); lia|pose proof (IH Hl Ht Hlt); lia].
Qed.

(** The calls of a client that follows the cursors. *)
Fixpoint walk (pf : string -> pyfloat) (fuel : nat) (cursor : option string) : option (list pydict) :=
  match fuel with
  | O => None
  | S fuel =>
      match list_failed_tasks fetch (py_json_loads pf) services cursor limit with
      | inl (items, None, _) => Some items
      | inl (items, Some c, _) => rest ← walk pf fuel (Some c); Some (items ++ rest)%list
      | inr _ => None
      end
  end.

Lemma walk_visits pf fuel cursor ps L W : decode_cursor (py_json_loads pf) cursor = inl (ps, 0) -> cursor_owes ps L W ->
  (total services W < fuel)%nat -> exists out, walk pf fuel cursor = Some (map snd out) /\ (forall sid, sid ∈ services -> of_service sid out = L sid) /\
    forall x, x ∈ out -> x.1 ∈ services.
Proof.
  revert cursor ps L W. induction fuel as [|fuel IH]; intros cursor ps L W Hc Ho Hfuel; [lia|].
  destruct (list_from_owes ps L W Ho) as (out & s & L' & W' & E & Hok & HL & Hout & HW & Hprog).
  cbn [walk]. unfold list_failed_tasks. rewrite Hc, E. pose proof (has_more_spec s L' W' Hok) as Hmore.
  destruct (has_more services s).
  - assert (total services W' < fuel)%nat as Hlt.
    { destruct Hmore as (sid & Hs & Hw). pose proof (HW sid Hs).
      destruct Hprog as (t & Ht & Hlt); [exists sid; split; [done|lia]|]. pose proof (total_lt services W W' t HW Ht Hlt). lia. }
    destruct (IH (Some (encode_positions (positions s))) (positions s) L' W') as (out' & -> & HL' & Hout').
    { by apply cursor_roundtrip, Hok. } { by apply merge_ok_cursor. } { done. }
    exists (out ++ out')%list. cbn [mbind option_bind]. split; [by rewrite map_app|]. split.
    + intros sid Hs. by rewrite of_service_app, HL', HL.
    + intros x [Hx|Hx]%elem_of_app; [by apply Hout|by apply Hout'].
  - exists out. split; [done|]. split; [|done]. intros sid Hs. by rewrite HL, (Hmore sid Hs), app_nil_r.
Qed.
End paging.

(** C10. While the services' own listings do not change, a client that follows the cursors of the merged
    failed-task listing stops after finitely many calls, and has then received every failed task of every service
    once, each service's tasks in that service's order, and nothing else. *)
Theorem failed_tasks_paging_complete fetch services limit pf (L : string -> list pydict) (W : string -> nat) fuel :
  NoDup services -> (1 <= limit)%nat ->
  (forall sid c payload, fetch sid c = inl payload ->
    dgetv "next_cursor" payload = PNone \/ exists s, dgetv "next_cursor" payload = PStr s) ->
  (forall sid, sid ∈ services -> feeds fetch sid PNone (L sid) (W sid)) -> (total services W < fuel)%nat ->
  exists out, walk fetch services limit pf fuel None = Some (map snd out) /\
    (forall sid, sid ∈ services -> of_service sid out = L sid) /\ forall x, x ∈ out -> x.1 ∈ services.
Proof.
  intros Hn Hl Ht Hf Hfuel. apply (walk_visits fetch services limit Hn Hl Ht pf fuel None [] L W); [done| |done].
  split; [by split; [apply dict_ok_nil|]|]. intros sid Hs.
  change (owes fetch sid (next_position PNone) (L sid) (W sid)). by apply (feeds_owes fetch limit Hl), Hf.
Qed.

(** Two services: the first has two pages, the second an empty page that another follows. *)
Definition demo_item (at_ : string) : pydict := [("failed_at", PStr at_)].
Definition demo_page (items : list pydict) (next : pyval) : pydict + studio_exn :=
  inl [("items", PList (map PDict items)); ("next_cursor", next)].
Definition demo_fetch (sid : string) (c : pyval) : pydict + studio_exn :=
  if String.eqb sid "a" then
    match c with
    | PNone => demo_page [demo_item "2024-05"; demo_item "2024-03"] (PStr "x")
    | PStr "x" => demo_page [demo_item "2024-01"] PNone
    | _ => inr (FederationError "no page" false)
    end
  else if String.eqb sid "b" then
    match c with
    | PNone => demo_page [] (PStr "y")
    | PStr "y" => demo_page [demo_item "2024-04"] PNone
    | _ => inr (FederationError "no page" false)
    end
  else inr (FederationError "no service" false).
Definition demo_list (sid : string) : list pydict :=
  if String.eqb sid "a" then [demo_item "2024-05"; demo_item "2024-03"; demo_item "2024-01"] else [demo_item "2024-04"].
Definition demo_weight (sid : string) : nat := if String.eqb sid "a" then 5%nat else 3%nat.
Definition demo_float (s : string) : pyfloat := PyFloat s FNan true.

Example walk_demo : walk demo_fetch ["a"; "b"] 2 demo_float 9 None =
  Some [demo_item "2024-05"; demo_item "2024-03"; demo_item "2024-04"; demo_item "2024-01"].
Proof. vm_compute. reflexivity. Qed.

Lemma failed_tasks_paging_complete_witness : exists out,
  walk demo_fetch ["a"; "b"] 2 demo_float 9 None = Some (map snd out) /\
  (forall sid, sid ∈ ["a"; "b"] -> of_service sid out = demo_list sid) /\ forall x, x ∈ out -> x.1 ∈ ["a"; "b"].
Proof.
  apply (failed_tasks_paging_complete demo_fetch ["a"; "b"] 2 demo_float demo_list demo_weight 9); [|lia| | |cbn; lia].
  - by apply (bool_decide_unpack _).
  - intros sid c payload. unfold demo_fetch, demo_page.
    repeat case_match; intros [= <-]; first [by left|by right; eexists].
  - assert (forall c, ~ onward PNone c) as Hlast by by intros c [].
    intros sid [->|[->|[]%elem_of_nil]%elem_of_cons]%elem_of_cons.
    + apply (feeds_more demo_fetch "a" PNone _ [demo_item "2024-01"] 2 eq_refl); [by split|].
      exact (feeds_last demo_fetch "a" (PStr "x") _ eq_refl (Hlast _)).
    + apply (feeds_more demo_fetch "b" PNone _ [demo_item "2024-04"] 2 eq_refl); [by split|].
      exact (feeds_last demo_fetch "b" (PStr "y") _ eq_refl (Hlast _)).
Defined.
