(* ===== verification/Incidents.v ===== *)
(** * The Incident Inbox of Studio (studio/_incident_groups.py, _incident_store.py, _incidents.py)

    Failures are grouped into incidents by their dimensions; operators merge
    and split incidents.  The store's transactions are functions on its tables,
    one at a time under their advisory lock. *)

From S2P Require Import Prelude PyStr PyVal PyTime Json Sha256 PyRe StudioErrors.
From Stdlib Require Import Ascii.

(** ** Grouping *)

Definition hex_class (c : ascii) : bool :=
  re_digit c || let z := code c in ((65 <=? z) && (z <=? 70)) || ((97 <=? z) && (z <=? 102)).

(** [_UUID], studio/_incident_groups.py:11-11. *)
Definition UUID : regex :=
  let h n := re_times (RClass hex_class) n in
  RSeq RBoundary (RSeq (h 8%nat) (RSeq (re_times (RSeq (re_char "-") (h 4%nat)) 3)
    (RSeq (re_char "-") (RSeq (h 12%nat) RBoundary)))).

(** [_HEX], studio/_incident_groups.py:12-12. *)
Definition HEX : regex :=
  RSeq RBoundary (RSeq (RAlt (RSeq (re_char "0") (RSeq (RClass (fun c => Ascii.eqb c "x" || Ascii.eqb c "X"))
                                (RRepeat (RClass hex_class) 1 None)))
                             (RRepeat (RClass hex_class) 16 None)) RBoundary).

(** [_NUMBER], studio/_incident_groups.py:13-13. *)
Definition NUMBER : regex :=
  RSeq (RNotAfter re_word) (RSeq (re_opt (RClass (fun c => Ascii.eqb c "-" || Ascii.eqb c "+")))
    (RSeq (RRepeat (RClass re_digit) 1 None)
       (RSeq (re_opt (RSeq (re_char ".") (RRepeat (RClass re_digit) 1 None))) (RNotBefore re_word)))).

(** [" ".join(s.split())] *)
Fixpoint words_from (current : list ascii) (l : list ascii) : list string :=
  match l with
  | [] => match current with [] => [] | _ => [of_chars (rev current)] end
  | c :: l => if is_space c then match current with
                                 | [] => words_from [] l
                                 | _ => of_chars (rev current) :: words_from [] l
                                 end
              else words_from (c :: current) l
  end.
Definition squeeze (s : string) : string := join " " (words_from [] (chars s)).

Definition signature_of (message : string) : string :=
  squeeze (re_sub NUMBER "<number>" (re_sub HEX "<id>" (re_sub UUID "<id>" message))).

Example signature_of_timeout :
  signature_of "Task 550e8400-E29B-41d4-a716-446655440000  timed out after 3.5 s at 0x7fFe (attempt 2/5), v2" =
  "Task <id> timed out after <number> s at <id> (attempt <number>/<number>), v2".
Proof. vm_compute. reflexivity. Qed.

Definition text_or (l : list pyval) (default : string) : string :=
  match find_first truthy l with Some v => py_str v | None => default end.

(** [_dimensions], studio/_incident_groups.py:16-28. *)
Definition dimensions (environment service_id : string) (item : pydict) : pydict :=
  let message := strip (text_or [dgetv "error_message" item] "") in
  let signature := signature_of message in
  [("signature_version", PStr "1"); ("environment", PStr environment); ("service_id", PStr service_id);
   ("queue_name", PStr (text_or [dgetv "queue_name" item; dgetv "source_queue_name" item] "unknown"));
   ("stage", PStr (text_or [dgetv "stage" item] "unknown"));
   ("error_type", PStr (text_or [dgetv "error_type" item] "unknown"));
   ("signature", PStr (if String.eqb signature ""
                       then "Missing error message (" +:+ py_str (dgetv "failure_id" item) +:+ ")"
                       else signature))].

(** [_group_id], studio/_incident_groups.py:31-32. *)
Definition group_id (d : pydict) : string := Sha256.hexdigest (utf8 (dumps (DumpsOpts true true ", " ": ") (PDict d))).

(** [_timestamp], studio/_incident_groups.py:35-42: an aware instant. *)
Definition timestamp (v : pyval) : option Z :=
  let text := of_chars (flat_map (fun c => if Ascii.eqb c "Z" then chars "+00:00" else [c]) (chars (py_str v))) in
  match fromisoformat text with
  | Ok t => match utc_offset t with Some _ => Some (instant t) | None => None end
  | Raise _ => None
  end.

(** ** The store *)

(** A row of [studio_incidents]. *)
Record incident := Incident {
  inc_service : string; inc_environment : string; inc_dimensions : pydict; inc_status : string;
  inc_owner : option string; revision : Z; merged_into : option string; updated_at : Z }.

Record history_entry := HistoryEntry { he_incident : string; he_action : string; he_details : pydict }.

(** The three tables; the keys of [studio_incident_overrides] are service, environment and failure. *)
Record incident_store := IncidentStore {
  incidents : gmap string incident;
  assigned : gmap (string * string * string) string;
  history : list history_entry }.

(** [if states.get(incident_id, {}).get("merged_into")] *)
Definition merged (states : gmap string incident) (id : string) : option string :=
  i ← states !! id; t ← merged_into i; nonempty t.

(** [_resolve], studio/_incident_groups.py:45-52.  An id is visited once, so as many rounds as
    there are rows are enough. *)
Fixpoint resolve_from (fuel : nat) (visited : list string) (id : string) (states : gmap string incident) :
    string + studio_exn :=
  match merged states id with
  | None => inl id
  | Some next =>
      match fuel with
      | S fuel =>
          if str_in id visited then inr (OtherError (runtime_error "Invalid incident merge cycle."))
          else resolve_from fuel (id :: visited) next states
      | O => inr (OtherError (runtime_error "Invalid incident merge cycle."))
      end
  end.
Definition resolve (id : string) (states : gmap string incident) : string + studio_exn :=
  resolve_from (S (size states)) [] id states.

(** [_locked], studio/_incident_store.py:93-106. *)
Definition locked (s : incident_store) (id : string) (rev : Z) : incident + studio_exn :=
  match incidents s !! id with
  | None => inr (HttpError 404 "Incident not found.")
  | Some i =>
      if negb (revision i =? rev) || match merged_into i with Some t => negb (String.eqb t "") | None => false end
      then inr (HttpError 409 "Incident changed. Refresh before applying this action.")
      else inl i
  end.

(** The new values of the columns of a row. *)
Definition with_revision (i : incident) (rev now : Z) : incident :=
  Incident (inc_service i) (inc_environment i) (inc_dimensions i) (inc_status i) (inc_owner i) rev (merged_into i) now.
Definition with_target (i : incident) (target : string) : incident :=
  Incident (inc_service i) (inc_environment i) (inc_dimensions i) (inc_status i) (inc_owner i) (revision i) (Some target) (updated_at i).
Definition with_changes (i : incident) (status : option string) (owner : option (option string)) : incident :=
  Incident (inc_service i) (inc_environment i) (inc_dimensions i) (from_opt (inc_status i) status)
    (from_opt (inc_owner i) owner) (revision i) (merged_into i) (updated_at i).

(** [_record], studio/_incident_store.py:108-119; the same entry goes to the audit log. *)
Definition record (s : incident_store) (id action : string) (details : pydict) : incident_store :=
  IncidentStore (incidents s) (assigned s) (history s ++ [HistoryEntry id action details]).

Definition put_incident (s : incident_store) (id : string) (i : incident) : incident_store :=
  IncidentStore (<[id := i]> (incidents s)) (assigned s) (history s).

Definition status_field (status : option string) : pydict :=
  match status with Some t => [("status", PStr t)] | None => [] end.
Definition owner_field (owner : option (option string)) : pydict :=
  match owner with Some o => [("owner", opt_str o)] | None => [] end.

(** [change], studio/_incident_store.py:121-142: the fields that were sent. *)
Definition change_incident (s : incident_store) (id : string) (rev : Z) (status : option string)
    (owner : option (option string)) (note : string) (now : Z) : incident_store * (Z + studio_exn) :=
  match locked s id rev with
  | inr e => (s, inr e)
  | inl i =>
      if match status, owner with None, None => String.eqb (strip note) "" | _, _ => false end
      then (s, inr (HttpError 422 "Change an owner or status, or supply a note."))
      else
        let before := (owner_field (option_map (fun _ => inc_owner i) owner) ++
                       status_field (option_map (fun _ => inc_status i) status))%list in
        let after := (owner_field owner ++ status_field status)%list in
        (record (put_incident s id (with_revision (with_changes i status owner) (rev + 1) now)) id "updated"
           [("before", PDict before); ("after", PDict after); ("note", PStr note); ("revision", PInt (rev + 1))],
         inl (rev + 1))
  end.

(** [merge], studio/_incident_store.py:144-174. *)
Definition merge_incidents (s : incident_store) (source_id : string) (rev : Z) (target_id : string) (target_rev : Z)
    (note : string) (now : Z) : incident_store * (Z + studio_exn) :=
  if String.eqb source_id target_id then (s, inr (HttpError 422 "Choose a different incident to merge into."))
  else match locked s source_id rev with
  | inr e => (s, inr e)
  | inl source =>
      match locked s target_id target_rev with
      | inr e => (s, inr e)
      | inl target =>
          if negb (String.eqb (inc_environment source) (inc_environment target)) ||
             negb (String.eqb (inc_service source) (inc_service target))
          then (s, inr (HttpError 422 "Merge requires the same environment and service."))
          else
            let s := put_incident s source_id (with_revision (with_target source target_id) (rev + 1) now) in
            let s := put_incident s target_id (with_revision target (target_rev + 1) now) in
            let details := [("source_id", PStr source_id); ("target_id", PStr target_id); ("note", PStr note)] in
            (record (record s source_id "merged" details) target_id "merged_from" details, inl (target_rev + 1))
      end
  end.

(** The rows of a service in an environment. *)
Definition in_scope (service environment : string) (i : incident) : Prop :=
  inc_service i = service /\ inc_environment i = environment.
Definition scoped (s : incident_store) (service environment : string) : gmap string incident :=
  filter (fun kv => in_scope service environment kv.2) (incidents s).

(** [assignments.get(fid, natural_id)] *)
Definition assignment (s : incident_store) (service environment fid natural : string) : string :=
  from_opt natural (assigned s !! (service, environment, fid)).

(** [split], studio/_incident_store.py:180-201: the failures of the incident. *)
Fixpoint members_of (s : incident_store) (service environment id : string) (observed : dict string) :
    list string + studio_exn :=
  match observed with
  | [] => inl []
  | (fid, natural) :: observed =>
      match resolve (assignment s service environment fid natural) (scoped s service environment) with
      | inr e => inr e
      | inl r =>
          match members_of s service environment id observed with
          | inr e => inr e
          | inl l => inl (if String.eqb r id then fid :: l else l)
          end
      end
  end.

(** [selected < members] for the sets of these lists. *)
Definition proper_subset (selected members : list string) : bool :=
  forallb (fun x => str_in x members) selected && existsb (fun x => negb (str_in x selected)) members.

(** [split], studio/_incident_store.py:176-244; [new_id] is [uuid4().hex]. *)
Definition split_incident (s : incident_store) (id : string) (rev : Z) (failure_ids : list string) (observed : dict string)
    (note new_id : string) (now : Z) : incident_store * (string + studio_exn) :=
  match locked s id rev with
  | inr e => (s, inr e)
  | inl source =>
      let service := inc_service source in
      let environment := inc_environment source in
      match members_of s service environment id observed with
      | inr e => (s, inr e)
      | inl members =>
          if match failure_ids with [] => true | _ => negb (proper_subset failure_ids members) end
          then (s, inr (HttpError 409 "Select a proper subset of the currently observed failures; refresh and try again."))
          else if bool_decide (is_Some (incidents s !! new_id))
          then (s, inr (OtherError (Exn XUser "IntegrityError" "duplicate key")))
          else
            let s := put_incident s new_id
                       (Incident service environment (inc_dimensions source) "open" None 0 None now) in
            let s := IncidentStore (incidents s)
                       (foldr (fun fid m => <[(service, environment, fid) := new_id]> m) (assigned s) failure_ids) (history s) in
            let s := put_incident s id (with_revision source (rev + 1) now) in
            let details := [("source_id", PStr id); ("target_id", PStr new_id);
                            ("failure_ids", PList (map PStr (map fst (sort_items (map (fun f => (f, ())) (remove_dups failure_ids))))));
                            ("note", PStr note)] in
            (record (record s id "split" details) new_id "split_from" details, inl new_id)
      end
  end.

(** [snapshot], studio/_incident_store.py:38-61: the new rows of [discoveries]. *)
Definition discover (s : incident_store) (discoveries : list (string * pydict)) (now : Z) : incident_store :=
  foldl (fun s kd =>
      match incidents s !! kd.1 with
      | Some _ => s
      | None => put_incident s kd.1 (Incident (py_str (dgetv "service_id" kd.2)) (py_str (dgetv "environment" kd.2)) kd.2
                                       "open" None 0 None now)
      end) s discoveries.

(** [if environment: filters.append(...)] *)
Definition selected_by (filter : option string) (v : string) : Prop :=
  match filter with Some f => f = "" \/ v = f | None => True end.

#[export] Instance selected_by_dec f v : Decision (selected_by f v).
Proof. destruct f; cbn; apply _. Defined.

(** [snapshot], studio/_incident_store.py:62-75: the states it returns. *)
Definition states_of (s : incident_store) (environment service : option string) : gmap string incident :=
  filter (fun kv => selected_by environment (inc_environment kv.2) /\ selected_by service (inc_service kv.2)) (incidents s).
Definition overrides_of (s : incident_store) (environment service : option string) : gmap (string * string * string) string :=
  filter (fun kv => selected_by environment kv.1.1.2 /\ selected_by service kv.1.1.1) (assigned s).
