(* ===== verification/IncidentsSpec.v ===== *)
(** * The Incident Inbox groups every failure

    Whatever merges and splits were made, the merges never form a cycle, every
    failure belongs to one incident that is not merged, and a merge or a split
    moves the failures it says and no others. *)

From S2P Require Import Prelude PyStr PyVal StudioErrors Incidents.

(** ** Merges are chains *)

(** Every merge leads to a row, and later merges lead further: [time] orders the merged rows. *)
Definition chained (states : gmap string incident) (time : string -> nat) : Prop :=
  forall a t, merged states a = Some t ->
    is_Some (states !! t) /\ (is_Some (merged states t) -> (time a < time t)%nat).

(** The end of the chain of merges. *)
Inductive leads (states : gmap string incident) : string -> string -> Prop :=
| leads_end id : merged states id = None -> leads states id id
| leads_on id next r : merged states id = Some next -> leads states next r -> leads states id r.

Lemma leads_det states id r r' : leads states id r -> leads states id r' -> r = r'.
Proof.
  intros H. revert r'. induction H as [id Hn|id next r Hm _ IH]; intros r' H'; inversion H'; subst; try congruence.
  apply IH. congruence.
Qed.

Lemma merged_in states id t : merged states id = Some t -> is_Some (states !! id).
Proof. unfold merged. destruct (states !! id); [by eexists|done]. Qed.

Lemma resolve_leads fuel visited id states r : resolve_from fuel visited id states = inl r -> leads states id r.
Proof.
  revert visited id. induction fuel as [|fuel IH]; intros visited id; cbn; destruct (merged states id) as [next|] eqn:Em; try done.
  1, 3: intros [= <-]; by apply leads_end.
  destruct (str_in _ _); [done|]. intros H. eapply leads_on; [done|by eapply IH].
Qed.

Lemma resolve_total states time fuel visited id : chained states time -> NoDup visited ->
  (forall v, v ∈ visited -> is_Some (states !! v) /\ (is_Some (merged states id) -> (time v < time id)%nat)) ->
  (size states < fuel + length visited)%nat -> exists r, resolve_from fuel visited id states = inl r.
Proof.
  intros Hc. revert visited id. induction fuel as [|fuel IH]; intros visited id Hn Hv Hf; cbn;
    destruct (merged states id) as [next|] eqn:Em; try (by eexists).
  all: assert (id ∉ visited) as Hid by (intros H; destruct (Hv id H) as [_ Hlt]; specialize (Hlt ltac:(by eexists)); lia).
  all: assert (length (id :: visited) <= size states)%nat as Hlen.
  1, 3: rewrite <- (size_dom states), <- (size_list_to_set (C := gset string) (id :: visited)) by (by constructor);
    apply subseteq_size; intros x Hx%elem_of_list_to_set; apply elem_of_dom; apply elem_of_cons in Hx as [->|Hx];
    [by eapply merged_in|by apply Hv].
  - cbn in Hlen. lia.
  - rewrite (proj2 (str_in_not _ _) Hid). apply IH; [by constructor| |cbn in *; lia].
    intros v Hx. destruct (Hc id next Em) as [Hin Hlt].
    apply elem_of_cons in Hx as [->|Hx]; [by split; [eapply merged_in|]|].
    destruct (Hv v Hx) as [Hs Hvt]. split; [done|]. intros Hnext. specialize (Hvt ltac:(by eexists)). specialize (Hlt Hnext). lia.
Qed.

Lemma resolve_spec states time id : chained states time -> exists r, resolve id states = inl r /\ leads states id r.
Proof.
  intros Hc. destruct (resolve_total states time (S (size states)) [] id Hc) as (r & Hr).
  - constructor.
  - by intros v ?%elem_of_nil.
  - cbn. lia.
  - exists r. split; [done|]. by eapply resolve_leads.
Qed.

Lemma leads_unmerged states id r : leads states id r -> merged states r = None.
Proof. by induction 1. Qed.

Lemma leads_in states time id r : chained states time -> leads states id r -> is_Some (states !! id) -> is_Some (states !! r).
Proof.
  intros Hc H. induction H as [|id next r Hm _ IH]; [done|]. intros _. apply IH. by destruct (Hc _ _ Hm).
Qed.

Lemma leads_ext states states' id r : (forall x, merged states' x = merged states x) -> leads states id r -> leads states' id r.
Proof.
  intros He. induction 1 as [id Hn|id next r Hm _ IH].
  - apply leads_end. by rewrite He.
  - eapply leads_on; [|exact IH]. by rewrite He.
Qed.

(** ** The rows that the code resolves in *)

Definition same_scope (i j : incident) : Prop := in_scope (inc_service j) (inc_environment j) i.

(** The merges of the table stay in a scope, and so do the assignments. *)
Record store_ok (s : incident_store) : Prop := {
  so_chain : exists time n, chained (incidents s) time /\
    forall a t, merged (incidents s) a = Some t -> (time a < n)%nat;
  so_scope : forall a t i j, merged (incidents s) a = Some t -> incidents s !! a = Some i -> incidents s !! t = Some j ->
    same_scope i j;
  so_assigned : forall svc env fid id, assigned s !! (svc, env, fid) = Some id ->
    exists j, incidents s !! id = Some j /\ in_scope svc env j }.

(** A part of the rows that depends on their scope. *)
Definition part (P : string -> string -> Prop) `{forall s e, Decision (P s e)} (l : gmap string incident) : gmap string incident :=
  filter (fun kv => P (inc_service kv.2) (inc_environment kv.2)) l.

Section part.
Context (P : string -> string -> Prop) `{HP : forall s e, Decision (P s e)}.

Lemma part_lookup l id i : part P l !! id = Some i <-> l !! id = Some i /\ P (inc_service i) (inc_environment i).
Proof. apply map_lookup_filter_Some. Qed.

Lemma part_merged l id t : merged (part P l) id = Some t ->
  merged l id = Some t /\ exists i, l !! id = Some i /\ P (inc_service i) (inc_environment i).
Proof.
  unfold merged. destruct (part P l !! id) as [i|] eqn:E; [|done]. apply part_lookup in E as [-> Hi]. cbn. eauto.
Qed.

Lemma merged_part l id i : l !! id = Some i -> P (inc_service i) (inc_environment i) -> merged (part P l) id = merged l id.
Proof. intros Hl Hi. unfold merged. by rewrite (proj2 (part_lookup l id i)), Hl. Qed.

Lemma part_chained s : store_ok s -> exists time, chained (part P (incidents s)) time.
Proof.
  intros [(time & n & Hc & _) Hs _]. exists time. intros a t Hm. destruct (part_merged _ _ _ Hm) as (Hm' & i & Hi & HPi).
  destruct (Hc _ _ Hm') as [[j Hj] Hlt]. destruct (Hs _ _ _ _ Hm' Hi Hj) as [E1 E2].
  split; [exists j; apply part_lookup; split; [done|congruence]|]. intros [u Hu]. apply Hlt.
  apply part_merged in Hu as [Hu _]. by exists u.
Qed.

Lemma part_resolves s id : store_ok s -> exists r, resolve id (part P (incidents s)) = inl r /\
  leads (part P (incidents s)) id r /\ (is_Some (part P (incidents s) !! id) -> is_Some (part P (incidents s) !! r)).
Proof.
  intros Hs. destruct (part_chained s Hs) as (time & Hc). destruct (resolve_spec _ time id Hc) as (r & Hr & Hl).
  exists r. split; [done|]. split; [done|]. by eapply leads_in.
Qed.
End part.

(** ** The operations keep the tables in order *)

Lemma merged_put s id i x : merged (<[id := i]> (incidents s)) x =
  if decide (x = id) then match merged_into i with Some t => nonempty t | None => None end else merged (incidents s) x.
Proof.
  unfold merged. case_decide as E.
  - subst. rewrite lookup_insert_eq. cbn. by destruct (merged_into i).
  - by rewrite lookup_insert_ne.
Qed.

(** A row is written that leads where it led, in its scope. *)
Lemma put_ok s id i : store_ok s ->
  match merged_into i with Some t => nonempty t | None => None end = merged (incidents s) id ->
  (forall j, incidents s !! id = Some j -> same_scope i j) -> store_ok (put_incident s id i).
Proof.
  intros [(time & n & Hc & Hn) Hs Ha] Hm Hi.
  assert (forall x, merged (incidents (put_incident s id i)) x = merged (incidents s) x) as Hmx.
  { intros x. cbn. rewrite merged_put. case_decide; [by subst|done]. }
  assert (forall x j, incidents s !! x = Some j -> exists j', incidents (put_incident s id i) !! x = Some j' /\ same_scope j' j) as Hl.
  { intros x j Hj. cbn. destruct (decide (x = id)) as [->|Hne].
    - exists i. rewrite lookup_insert_eq. split; [done|by apply Hi].
    - exists j. by rewrite lookup_insert_ne. }
  constructor.
  - exists time, n. split; [|intros a t Hat; rewrite Hmx in Hat; by eapply Hn].
    intros a t Hat. rewrite Hmx in Hat. destruct (Hc _ _ Hat) as [[j Hj] Hlt]. split; [|by rewrite Hmx].
    destruct (Hl _ _ Hj) as (j' & Hj' & _). by exists j'.
  - intros a t x y Hat Hx Hy. rewrite Hmx in Hat.
    destruct (Hc _ _ Hat) as [[j Hj] _]. destruct (merged_in _ _ _ Hat) as [k Hk].
    destruct (Hl _ _ Hj) as (j' & Hj' & Sj). destruct (Hl _ _ Hk) as (k' & Hk' & Sk).
    pose proof (Hs _ _ _ _ Hat Hk Hj) as Skj. unfold same_scope, in_scope in *.
    assert (x = k') as -> by congruence. assert (y = j') as -> by congruence. intuition congruence.
  - intros svc env fid x Hx. destruct (Ha _ _ _ _ Hx) as (j & Hj & Sj). destruct (Hl _ _ Hj) as (j' & Hj' & S').
    exists j'. split; [done|]. unfold same_scope, in_scope in *. intuition congruence.
Qed.

Lemma record_ok s id action details : store_ok s -> store_ok (record s id action details).
Proof. intros [H1 H2 H3]. by constructor. Qed.

Lemma locked_spec s id rev i : locked s id rev = inl i ->
  incidents s !! id = Some i /\ revision i = rev /\ merged (incidents s) id = None.
Proof.
  unfold locked, merged. destruct (incidents s !! id) as [j|]; [|done]. destruct (_ || _) eqn:E; [done|]. intros [= ->].
  apply orb_false_iff in E as [E1 E2]. bool_to_prop. split; [done|]. split; [done|].
  cbn. destruct (merged_into i) as [t|]; [|done]. cbn. bool_to_prop. subst. done.
Qed.

Lemma with_revision_ok s id i rev now : store_ok s -> incidents s !! id = Some i ->
  store_ok (put_incident s id (with_revision i rev now)).
Proof.
  intros Hs Hi. apply put_ok; [done| |].
  - unfold merged. by rewrite Hi.
  - intros j Hj. by assert (j = i) as -> by congruence.
Qed.

Lemma change_incident_ok s id rev status owner note now s' r : store_ok s -> change_incident s id rev status owner note now = (s', r) -> store_ok s'.
Proof.
  intros Hs. unfold change_incident. destruct (locked s id rev) as [i|] eqn:El; [|by intros [= <- _]].
  apply locked_spec in El as (Hi & _ & _). destruct (match status, owner with None, None => _ | _, _ => _ end); intros [= <- <-]; [done|]. apply record_ok, put_ok; [done| |].
  - unfold merged. by rewrite Hi.
  - intros j Hj. by assert (j = i) as -> by congruence.
Qed.

(** A root is merged into another one of its scope. *)
Lemma merge_put_ok s source target i j : store_ok s -> source <> target -> nonempty target = Some target ->
  incidents s !! source = Some i -> merged (incidents s) source = None ->
  incidents s !! target = Some j -> merged (incidents s) target = None -> same_scope i j ->
  store_ok (put_incident s source (with_target i target)).
Proof.
  intros [(time & n & Hc & Hn) Hs Ha] Hne Ht Hi Hmi Hj Hmj Hij.
  assert (forall x, merged (incidents (put_incident s source (with_target i target))) x =
    if decide (x = source) then Some target else merged (incidents s) x) as Hm.
  { intros x. cbn. rewrite merged_put. by case_decide. }
  constructor.
  - exists (fun x => if decide (x = source) then n else time x), (S n). split.
    + intros a t. rewrite !Hm. intros Hat. destruct (decide (a = source)) as [->|Ha'].
      * injection Hat as <-. rewrite (decide_False (P := target = source)) by congruence. cbn. split.
        { exists j. by rewrite lookup_insert_ne. }
        intros [x Hx]. congruence.
      * destruct (Hc _ _ Hat) as [Hin Hlt]. split.
        { cbn. destruct (decide (t = source)) as [->|]; [rewrite lookup_insert_eq; by eexists|by rewrite lookup_insert_ne]. }
        destruct (decide (t = source)) as [->|]; [intros _; by eapply Hn|done].
    + intros a t. rewrite Hm. destruct (decide (a = source)); [intros _; lia|]. intros Hat. specialize (Hn _ _ Hat). lia.
  - intros a t x y. rewrite Hm. cbn. destruct (decide (a = source)) as [->|Ha'].
    + intros [= <-]. rewrite lookup_insert_eq, lookup_insert_ne by done. intros [= <-] Hy.
      by assert (y = j) as -> by congruence.
    + intros Hat. rewrite (lookup_insert_ne _ source a) by done. intros Hx [[<- <-]|[_ Hy]]%lookup_insert_Some; [|by eapply Hs].
      apply (Hs a source x i); [done..].
  - intros svc env fid x Hx. destruct (Ha _ _ _ _ Hx) as (k & Hk & Sk). cbn.
    destruct (decide (x = source)) as [->|]; [|exists k; by rewrite lookup_insert_ne].
    exists (with_target i target). rewrite lookup_insert_eq. split; [done|]. assert (k = i) as -> by congruence. done.
Qed.

Lemma merge_incidents_spec s source rev target trev note now s' r : merge_incidents s source rev target trev note now = (s', inl r) ->
  exists i j, source <> target /\ incidents s !! source = Some i /\ merged (incidents s) source = None /\
    incidents s !! target = Some j /\ merged (incidents s) target = None /\ same_scope i j /\
    incidents s' = <[target := with_revision j (trev + 1) now]>
                     (<[source := with_revision (with_target i target) (rev + 1) now]> (incidents s)) /\
    assigned s' = assigned s.
Proof.
  unfold merge_incidents. destruct (String.eqb _ _) eqn:E; [done|]. destruct (locked s source rev) as [i|] eqn:E1; [|done].
  destruct (locked s target trev) as [j|] eqn:E2; [|done]. destruct (_ || _) eqn:E3; [done|]. intros [= <- _].
  apply locked_spec in E1 as (Hi & _ & Hmi). apply locked_spec in E2 as (Hj & _ & Hmj).
  apply orb_false_iff in E3 as [Ee Es]. bool_to_prop. exists i, j. split_and!; done.
Qed.

Lemma merge_incidents_ok s source rev target trev note now s' r : store_ok s -> nonempty target = Some target ->
  merge_incidents s source rev target trev note now = (s', r) -> store_ok s'.
Proof.
  intros Hs Ht H. destruct r as [r|e].
  2: { unfold merge_incidents in H. repeat case_hyp H; congruence. }
  destruct (merge_incidents_spec _ _ _ _ _ _ _ _ _ H) as (i & j & Hne & Hi & Hmi & Hj & Hmj & Sij & Ei & Ea).
  set (s1 := put_incident s source (with_target i target)).
  set (s2 := put_incident s1 source (with_revision (with_target i target) (rev + 1) now)).
  assert (store_ok (put_incident s2 target (with_revision j (trev + 1) now))) as [K1 K2 K3].
  { apply with_revision_ok; [apply with_revision_ok; [by eapply merge_put_ok|]|]; cbn.
    - by rewrite lookup_insert_eq.
    - by rewrite !lookup_insert_ne. }
  cbn in K1, K2, K3. rewrite insert_insert_eq in K1, K2, K3. rewrite <- Ei in K1, K2, K3. rewrite <- Ea in K3. by constructor.
Qed.

(** The incident of a failure, as a split computes it. *)
Definition incident_of (s : incident_store) (service environment fid natural : string) : string + studio_exn :=
  resolve (assignment s service environment fid natural) (scoped s service environment).

Lemma assigned_split (m : gmap (string * string * string) string) svc env new fids k :
  foldr (fun fid m => <[(svc, env, fid) := new]> m) m fids !! k =
  if decide (k.1 = (svc, env) /\ k.2 ∈ fids) then Some new else m !! k.
Proof.
  induction fids as [|f fids IH]; cbn.
  - rewrite decide_False; [done|]. by intros [_ ?%elem_of_nil].
  - destruct (decide (k = (svc, env, f))) as [->|Hne].
    + rewrite lookup_insert_eq, decide_True; [done|]. split; [done|by left].
    + rewrite lookup_insert_ne by done. rewrite IH. destruct k as [[a b] x]. cbn in *.
      destruct (decide (_ /\ x ∈ fids)) as [[Hk Hx]|Hno].
      * rewrite decide_True; [done|]. split; [done|by right].
      * rewrite decide_False; [done|]. intros [Hk [->|Hx]%elem_of_cons]; [congruence|by apply Hno].
Qed.

Lemma split_incident_spec s id rev fids observed note new now s' r : split_incident s id rev fids observed note new now = (s', inl r) ->
  exists i members, r = new /\ incidents s !! id = Some i /\ merged (incidents s) id = None /\ incidents s !! new = None /\
    members_of s (inc_service i) (inc_environment i) id observed = inl members /\
    proper_subset fids members = true /\ fids <> [] /\
    incidents s' = <[id := with_revision i (rev + 1) now]>
                     (<[new := Incident (inc_service i) (inc_environment i) (inc_dimensions i) "open" None 0 None now]> (incidents s)) /\
    assigned s' = foldr (fun fid m => <[(inc_service i, inc_environment i, fid) := new]> m) (assigned s) fids.
Proof.
  unfold split_incident. destruct (locked s id rev) as [i|] eqn:El; [|done]. destruct (members_of _ _ _ _ _) as [members|] eqn:Em; [|done].
  destruct (match fids with [] => true | _ => _ end) eqn:Ef; [done|]. case_bool_decide as En; [done|]. intros [= <- <-].
  apply locked_spec in El as (Hi & _ & Hm). exists i, members. split_and!; try done.
  - by apply eq_None_not_Some.
  - destruct fids; [done|]. by apply negb_false_iff.
  - by destruct fids.
Qed.

Lemma assign_ok s svc env new fids j : store_ok s -> incidents s !! new = Some j -> in_scope svc env j ->
  store_ok (IncidentStore (incidents s) (foldr (fun fid m => <[(svc, env, fid) := new]> m) (assigned s) fids) (history s)).
Proof.
  intros [H1 H2 H3] Hj Sj. constructor; [done|done|]. intros a b f x. cbn [assigned incidents]. rewrite assigned_split.
  case_decide as E; [|by apply H3]. intros [= <-]. destruct E as [[= -> ->] _]. by exists j.
Qed.

Lemma split_incident_ok s id rev fids observed note new now s' r : store_ok s ->
  split_incident s id rev fids observed note new now = (s', r) -> store_ok s'.
Proof.
  intros Hs H. destruct r as [r|e].
  2: { unfold split_incident in H. repeat case_hyp H; congruence. }
  destruct (split_incident_spec _ _ _ _ _ _ _ _ _ _ H) as (i & members & _ & Hi & Hm & Hnew & _ & _ & _ & Ei & Ea).
  set (j := Incident (inc_service i) (inc_environment i) (inc_dimensions i) "open" None 0 None now) in *.
  assert (store_ok (put_incident s new j)) as H1.
  { apply put_ok; [done| |]; [unfold merged; by rewrite Hnew|]. intros x Hx. congruence. }
  apply (assign_ok _ (inc_service i) (inc_environment i) new fids j) in H1; [|apply lookup_insert_eq|done].
  apply (with_revision_ok _ id i (rev + 1) now) in H1 as [K1 K2 K3].
  - cbn in K1, K2, K3. rewrite <- Ei in K1, K2, K3. rewrite <- Ea in K3. by constructor.
  - cbn. rewrite lookup_insert_ne; [done|]. intros ->. congruence.
Qed.

Lemma discover_ok s l now : store_ok s -> store_ok (discover s l now).
Proof.
  revert s. induction l as [|[k d] l IH]; intros s Hs; [done|]. cbn. apply IH.
  destruct (incidents s !! k) eqn:E; [done|]. apply put_ok; [done| |]; [unfold merged; by rewrite E|]. intros x Hx. congruence.
Qed.

Lemma discover_known s l now k : is_Some (incidents s !! k) \/ k ∈ map fst l -> is_Some (incidents (discover s l now) !! k).
Proof.
  revert s. induction l as [|[k' d] l IH]; intros s H; cbn.
  - by destruct H as [H|?%elem_of_nil].
  - apply IH. destruct H as [H|[->|H]%elem_of_cons]; [left|left|by right]; cbn.
    + destruct (incidents s !! k') eqn:E; [done|]. cbn. destruct (decide (k' = k)) as [->|]; [rewrite lookup_insert_eq; by eexists|].
      by rewrite lookup_insert_ne.
    + destruct (incidents s !! k') eqn:E; [by eexists|]. cbn. rewrite lookup_insert_eq. by eexists.
Qed.

(** ** Every history of the inbox *)

Definition empty_inbox : incident_store := IncidentStore ∅ ∅ [].

(** One transaction, with the arguments that pass the request models. *)
Inductive inbox_step (s : incident_store) : incident_store -> Prop :=
| inbox_discover l now : inbox_step s (discover s l now)
| inbox_change id rev status owner note now : inbox_step s (change_incident s id rev status owner note now).1
| inbox_merge source rev target trev note now : target <> "" ->
    inbox_step s (merge_incidents s source rev target trev note now).1
| inbox_split id rev fids observed note new now : inbox_step s (split_incident s id rev fids observed note new now).1.

Lemma empty_inbox_ok : store_ok empty_inbox.
Proof.
  assert (forall a t, merged ∅ a = Some t -> False) as Hno by (intros a t; unfold merged; by rewrite lookup_empty).
  constructor; cbn.
  - exists (fun _ => 0%nat), 0%nat. split; intros a t Ht; by destruct (Hno _ _ Ht).
  - intros a t i j Ht. by destruct (Hno _ _ Ht).
  - intros svc env fid id Hx. by rewrite lookup_empty in Hx.
Qed.

Lemma inbox_ok s : rtc inbox_step empty_inbox s -> store_ok s.
Proof.
  intros H. assert (store_ok empty_inbox) as H0 by exact empty_inbox_ok. revert H0.
  induction H as [s|s1 s2 s3 H12 _ IH]; [done|]. intros H1. apply IH. destruct H12.
  - by apply discover_ok.
  - destruct (change_incident s1 _ _ _ _ _ _) eqn:E. by eapply change_incident_ok.
  - destruct (merge_incidents s1 _ _ _ _ _ _) eqn:E. eapply merge_incidents_ok; [done| |exact E].
    unfold nonempty. destruct (String.eqb _ _) eqn:Ee; [by bool_to_prop|done].
  - destruct (split_incident s1 _ _ _ _ _ _ _) eqn:E. by eapply split_incident_ok.
Qed.

(** C22. The inbox groups every failure: whatever was discovered, merged, split and changed
    before, the incident of each failure that a filter selects is found, without
    the error of a merge cycle, and it is a row of the answer that is not merged. *)
Theorem incidents_group_every_failure s environment service svc env fid natural i :
  rtc inbox_step empty_inbox s ->
  incidents s !! natural = Some i -> in_scope svc env i -> selected_by environment env -> selected_by service svc ->
  exists r, resolve (from_opt natural (overrides_of s environment service !! (svc, env, fid))) (states_of s environment service) = inl r /\
    is_Some (states_of s environment service !! r) /\ merged (states_of s environment service) r = None.
Proof.
  intros Hs%inbox_ok Hi Si He Hsv. set (id := from_opt natural _).
  assert (exists j, incidents s !! id = Some j /\ in_scope svc env j) as (j & Hj & [<- <-]).
  { unfold id. destruct (overrides_of s environment service !! (svc, env, fid)) as [x|] eqn:E; [|by exists i].
    apply map_lookup_filter_Some in E as [E _]. by apply (so_assigned _ Hs svc env fid x). }
  destruct (part_resolves (fun sv e => selected_by environment e /\ selected_by service sv) s id Hs) as (r & Hr & Hl & Hin).
  exists r. split; [exact Hr|]. split; [apply Hin; exists j; by apply part_lookup|by eapply leads_unmerged].
Qed.

(** The incident of a failure is where its assignment leads. *)
Lemma incident_of_leads s svc env fid natural : store_ok s -> exists r,
  incident_of s svc env fid natural = inl r /\ leads (scoped s svc env) (assignment s svc env fid natural) r.
Proof.
  intros Hs. destruct (part_resolves (fun a b => a = svc /\ b = env) s (assignment s svc env fid natural) Hs) as (r & Hr & Hl & _).
  by exists r.
Qed.

Lemma leads_incident_of s svc env fid natural r : store_ok s ->
  leads (scoped s svc env) (assignment s svc env fid natural) r -> incident_of s svc env fid natural = inl r.
Proof.
  intros Hs Hl. destruct (incident_of_leads s svc env fid natural Hs) as (r' & -> & Hl'). f_equal. by eapply leads_det.
Qed.

(** Where a row of the scope leads, when rows were written. *)
Lemma merged_scoped s svc env id : merged (scoped s svc env) id =
  match incidents s !! id with
  | Some i => if decide (in_scope svc env i) then match merged_into i with Some t => nonempty t | None => None end else None
  | None => None
  end.
Proof.
  unfold merged. destruct (scoped s svc env !! id) as [i|] eqn:E.
  - apply map_lookup_filter_Some in E as [-> Hi]. cbn in *. rewrite decide_True by done. by destruct (merged_into i).
  - cbn. destruct (incidents s !! id) as [i|] eqn:Ei; [|done]. apply map_lookup_filter_None in E as [E|E]; [congruence|].
    rewrite decide_False; [done|]. by apply E.
Qed.

Lemma members_of_spec s svc env id observed members : members_of s svc env id observed = inl members ->
  forall fid, fid ∈ members <-> exists natural, (fid, natural) ∈ observed /\ incident_of s svc env fid natural = inl id.
Proof.
  revert members. induction observed as [|[f n] obs IH]; intros members; cbn [members_of].
  { intros [= <-] fid. split; [by intros ?%elem_of_nil|]. by intros (n & ?%elem_of_nil & _). }
  change (resolve (assignment s svc env f n) (scoped s svc env)) with (incident_of s svc env f n).
  destruct (incident_of s svc env f n) as [r|] eqn:Er; [|done].
  destruct (members_of s svc env id obs) as [l|] eqn:El; [|done]. intros [= <-] fid. specialize (IH l eq_refl fid).
  destruct (String.eqb r id) eqn:E; bool_to_prop.
  - subst r. rewrite elem_of_cons, IH. split.
    + intros [->|(m & Hm & Hi)]; [exists n; split; [left|done]|exists m; split; [by right|done]].
    + intros (m & [[= -> ->]|Hm]%elem_of_cons & Hi); [by left|right; by exists m].
  - rewrite IH. split; intros (m & Hm & Hi); exists m; (split; [|done]); [by right|].
    apply elem_of_cons in Hm as [[= -> ->]|Hm]; [congruence|done].
Qed.

(** A split moves the failures that were selected, and no others: those were failures of
    the incident and are now of the new one, at least one failure stays, and every
    other observed failure is of the incident it was of. *)
Theorem incident_split_moves s id rev fids observed note new now s' r i :
  rtc inbox_step empty_inbox s -> split_incident s id rev fids observed note new now = (s', inl r) -> incidents s !! id = Some i ->
  let group s := incident_of s (inc_service i) (inc_environment i) in
  (forall fid natural, (fid, natural) ∈ observed -> exists g, group s fid natural = inl g /\
     group s' fid natural = inl (if str_in fid fids then new else g)) /\
  (forall fid, fid ∈ fids -> exists natural, (fid, natural) ∈ observed /\ group s fid natural = inl id) /\
  (exists fid natural, (fid, natural) ∈ observed /\ group s fid natural = inl id /\ fid ∉ fids).
Proof.
  intros Hs%inbox_ok H Hi group. pose proof (split_incident_ok _ _ _ _ _ _ _ _ _ _ Hs H) as Hs'.
  destruct (split_incident_spec _ _ _ _ _ _ _ _ _ _ H) as (i' & members & -> & Hi' & Hm & Hnew & Hmem & Hsub & _ & Ei & Ea).
  assert (i' = i) as -> by congruence. pose proof (members_of_spec _ _ _ _ _ _ Hmem) as Hmem'.
  apply andb_true_iff in Hsub as [Hsub Hmore]. rewrite forallb_forall in Hsub. apply existsb_exists in Hmore as (f & Hf & Hff).
  assert (forall fid, fid ∈ fids -> exists natural, (fid, natural) ∈ observed /\ group s fid natural = inl id) as Hsel.
  { intros fid Hfid. apply Hmem'. by apply str_in_elem, Hsub, list_elem_of_In. }
  split; [|split; [done|]].
  2: { apply list_elem_of_In, Hmem' in Hf as (n & Hn & Hg). exists f, n. split; [done|]. split; [done|].
       apply negb_true_iff in Hff. by apply str_in_not. }
  assert (forall x, merged (scoped s' (inc_service i) (inc_environment i)) x = merged (scoped s (inc_service i) (inc_environment i)) x) as Hext.
  { intros x. rewrite !merged_scoped, Ei. destruct (decide (x = id)) as [->|Hne]; [by rewrite lookup_insert_eq, Hi|].
    rewrite lookup_insert_ne by done. destruct (decide (x = new)) as [->|Hne'].
    - rewrite lookup_insert_eq, Hnew. cbn. by case_decide.
    - by rewrite lookup_insert_ne. }
  intros fid natural Hfid. destruct (incident_of_leads s (inc_service i) (inc_environment i) fid natural Hs) as (g & Hg & Hl).
  exists g. split; [done|]. apply (leads_incident_of _ _ _ _ _ _ Hs').
  unfold assignment in *. rewrite Ea, assigned_split. cbn [fst snd]. destruct (str_in fid fids) eqn:Ef.
  - rewrite decide_True by (split; [done|by apply str_in_elem]). cbn. apply leads_end. rewrite Hext, merged_scoped, Hnew. done.
  - rewrite decide_False by (intros [_ Hin]; apply str_in_elem in Hin; congruence). by eapply leads_ext.
Qed.

(** A merge moves the failures of its source to its target, and no others. *)
Theorem incident_merge_moves s source rev target trev note now s' r i :
  rtc inbox_step empty_inbox s -> target <> "" ->
  merge_incidents s source rev target trev note now = (s', inl r) -> incidents s !! source = Some i ->
  forall fid natural, exists g,
    incident_of s (inc_service i) (inc_environment i) fid natural = inl g /\
    incident_of s' (inc_service i) (inc_environment i) fid natural = inl (if String.eqb g source then target else g).
Proof.
  intros Hs%inbox_ok Ht H Hi fid natural.
  assert (nonempty target = Some target) as Hne by (unfold nonempty; destruct (String.eqb _ _) eqn:E; [by bool_to_prop|done]).
  pose proof (merge_incidents_ok _ _ _ _ _ _ _ _ _ Hs Hne H) as Hs'.
  destruct (merge_incidents_spec _ _ _ _ _ _ _ _ _ H) as (i' & j & Hst & Hi' & Hmi & Hj & Hmj & Sij & Ei & Ea).
  assert (i' = i) as -> by congruence.
  destruct (incident_of_leads s (inc_service i) (inc_environment i) fid natural Hs) as (g & Hg & Hl).
  exists g. split; [done|]. apply (leads_incident_of _ _ _ _ _ _ Hs'). unfold assignment in *. rewrite Ea.
  set (svc := inc_service i) in *. set (env := inc_environment i) in *.
  assert (forall x, merged (scoped s' svc env) x = if decide (x = source) then Some target else merged (scoped s svc env) x) as Hm.
  { intros x. rewrite !merged_scoped, Ei. destruct (decide (x = target)) as [->|Hxt].
    - rewrite lookup_insert_eq, (decide_False (P := target = source)) by (by intros E; apply Hst). by rewrite Hj.
    - rewrite lookup_insert_ne by done. case_decide as Hx; [subst x; rewrite lookup_insert_eq|by rewrite lookup_insert_ne].
      by rewrite decide_True. }
  assert (merged (scoped s svc env) target = None) as Hmt.
  { rewrite merged_scoped, Hj. case_decide; [|done]. unfold merged in Hmj. by rewrite Hj in Hmj. }
  assert (merged (scoped s svc env) source = None) as Hms.
  { rewrite merged_scoped, Hi. case_decide; [|done]. unfold merged in Hmi. by rewrite Hi in Hmi. }
  clear Hg. induction Hl as [x Hx|x next g Hx _ IH].
  - destruct (String.eqb x source) eqn:E; bool_to_prop.
    + subst. apply leads_on with target; [by rewrite Hm, decide_True|]. apply leads_end. by rewrite Hm, decide_False.
    + apply leads_end. by rewrite Hm, decide_False.
  - apply leads_on with next; [|exact IH]. rewrite Hm, decide_False; [done|]. intros ->. congruence.
Qed.

(** ** A history *)

Definition demo_dims (queue : string) : pydict :=
  [("environment", PStr "prod"); ("service_id", PStr "svc"); ("queue_name", PStr queue)].

(** Two incidents are discovered; two failures of the first are split off, and the rest is merged
    into the second. *)
Definition demo_found : incident_store := discover empty_inbox [("a", demo_dims "qa"); ("b", demo_dims "qb")] 0.
Definition demo_observed : dict string := [("f1", "a"); ("f2", "a"); ("f3", "b")].
Definition demo_split : incident_store := (split_incident demo_found "a" 0 ["f1"] demo_observed "" "n" 1).1.
Definition demo_merged : incident_store := (merge_incidents demo_split "a" 1 "b" 0 "" 2).1.

Lemma demo_found_reachable : rtc inbox_step empty_inbox demo_found.
Proof. apply rtc_once, inbox_discover. Qed.
Lemma demo_split_reachable : rtc inbox_step empty_inbox demo_split.
Proof. eapply rtc_r; [apply demo_found_reachable|apply inbox_split]. Qed.
Lemma demo_merged_reachable : rtc inbox_step empty_inbox demo_merged.
Proof. eapply rtc_r; [apply demo_split_reachable|by apply inbox_merge]. Qed.

Lemma incidents_group_every_failure_witness :
  exists r, resolve (from_opt "a" (overrides_of demo_merged None None !! ("svc", "prod", "f2"))) (states_of demo_merged None None) = inl r /\
    r = "b".
Proof.
  destruct (incidents_group_every_failure demo_merged None None "svc" "prod" "f2" "a"
    (Incident "svc" "prod" (demo_dims "qa") "open" None 2 (Some "b") 2) demo_merged_reachable) as (r & Hr & _);
    [vm_compute; reflexivity|done|done|done|].
  exists r. split; [exact Hr|]. vm_compute in Hr. by injection Hr as <-.
Defined.

Lemma incident_split_moves_witness :
  incident_of demo_split "svc" "prod" "f1" "a" = inl "n" /\ incident_of demo_split "svc" "prod" "f2" "a" = inl "a".
Proof.
  destruct (incident_split_moves demo_found "a" 0 ["f1"] demo_observed "" "n" 1 demo_split "n"
    (Incident "svc" "prod" (demo_dims "qa") "open" None 0 None 0) demo_found_reachable) as (H & _ & _); [vm_compute; reflexivity..|].
  destruct (H "f1" "a") as (g & _ & H1); [left|]. destruct (H "f2" "a") as (g' & Hg' & H2); [right; left|].
  vm_compute in Hg'. injection Hg' as <-. split; [exact H1|exact H2].
Defined.

Lemma incident_merge_moves_witness : incident_of demo_merged "svc" "prod" "f2" "a" = inl "b".
Proof.
  destruct (incident_merge_moves demo_split "a" 1 "b" 0 "" 2 demo_merged 1
    (Incident "svc" "prod" (demo_dims "qa") "open" None 1 None 1) demo_split_reachable) with "f2" "a" as (g & Hg & H);
    [done|vm_compute; reflexivity..|].
  vm_compute in Hg. by injection Hg as <-.
Defined.
