(* ===== verification/Recovery.v ===== *)
(** * The Recovery Center of Studio (studio/_recovery.py)

    Plans that retry failures of a service, in the order and at the pace the
    operators authorise.  A plan is a row of PostgreSQL that every write
    changes in a transaction; the worker's tick and the operators' requests
    are programs ([prog]) that read and change rows, call services, and run
    concurrently in any number of Studio processes. *)

From S2P Require Import Prelude PyStr PyVal PyTime Json Sha256 PySort Interleave StudioErrors.
From Stdlib Require Import Ascii.

(** ** Plans *)

Inductive dispatch_state := PENDING | DISPATCHING | ACCEPTED | UNKNOWN | BLOCKED.
Inductive item_outcome := NOT_REQUESTED | OUTCOME_UNKNOWN | OUTCOME_PENDING | SUCCEEDED | FAILED.
Inductive plan_state := READY | RUNNING | PAUSED | STOPPED | COMPLETED.

#[export] Instance dispatch_state_eq_dec : EqDecision dispatch_state.
Proof. solve_decision. Defined.
#[export] Instance item_outcome_eq_dec : EqDecision item_outcome.
Proof. solve_decision. Defined.
#[export] Instance plan_state_eq_dec : EqDecision plan_state.
Proof. solve_decision. Defined.

(** [_Selection], studio/_recovery.py:51-55. *)
Record selection := Selection {
  sel_failure_id : string; sel_target_queue : option string; sel_override_payload : pyval }.

(** [_inspect], studio/_recovery.py:330-341: what it returns. *)
Record inspected := Inspected {
  in_failure_id : string; in_original_task_id : pyval; in_target_queue : pyval;
  in_payload_available : bool; in_override_payload : pyval; in_errors : list string;
  in_fingerprint : string; in_baseline_event : pydict; in_failed_at : pyval }.

Definition eligible (i : inspected) : bool := match in_errors i with [] => true | _ => false end.

(** [create], studio/_recovery.py:408-424: an item of a plan. *)
Record item := Item {
  inspection : inspected; dispatch : dispatch_state; outcome : item_outcome;
  requested_at : option string; accepted_at : pyval; replacement_task_id : pyval;
  observed_at : option string; last_checked_at : option string; message : option string;
  baseline_event : pydict; receipt_marker : string; observed_event : option pydict }.

Definition failure_id (i : item) : string := in_failure_id (inspection i).

(** The entries of the dictionaries that [item.update] takes. *)
Inductive change_of_item :=
| SetDispatch (d : dispatch_state) | SetOutcome (o : item_outcome) | SetRequested (t : string)
| SetAccepted (v : pyval) | SetReplacement (v : pyval) | SetObservedAt (t : string)
| SetChecked (t : string) | SetMessage (m : option string) | SetBaseline (d : pydict)
| SetObservedEvent (d : pydict).

Definition set_item (i : item) (c : change_of_item) : item :=
  Item (inspection i)
    (match c with SetDispatch d => d | _ => dispatch i end)
    (match c with SetOutcome o => o | _ => outcome i end)
    (match c with SetRequested t => Some t | _ => requested_at i end)
    (match c with SetAccepted v => v | _ => accepted_at i end)
    (match c with SetReplacement v => v | _ => replacement_task_id i end)
    (match c with SetObservedAt t => Some t | _ => observed_at i end)
    (match c with SetChecked t => Some t | _ => last_checked_at i end)
    (match c with SetMessage m => m | _ => message i end)
    (match c with SetBaseline d => d | _ => baseline_event i end)
    (receipt_marker i)
    (match c with SetObservedEvent d => Some d | _ => observed_event i end).

(** [item.update(changes)] *)
Definition update_item (i : item) (changes : list change_of_item) : item := foldl set_item i changes.

(** [create], studio/_recovery.py:391-407: the document of a plan. *)
Record plan := Plan {
  plan_id : string; plan_service : string; plan_service_name : string; plan_environment : string;
  plan_base_url : string; items : list item; interval_seconds : Z; note : string;
  request_hash : string; created_at : string; created_by : option string;
  state : plan_state; version : Z; allowance : Z;
  next_dispatch_at : string; started_at : option string; dispatch_finished_at : option string;
  execution_actor : option string; execution_email : option string; updated_at : string }.

(** The assignments to entries of a document. *)
Inductive change_of_plan :=
| SetItems (l : list item) | SetState (s : plan_state) | SetVersion (v : Z) | SetAllowance (a : Z)
| SetNext (t : string) | SetStarted (t : string) | SetFinished (t : string)
| SetExecution (actor email : option string) | SetUpdated (t : string).

Definition set_plan (p : plan) (c : change_of_plan) : plan :=
  Plan (plan_id p) (plan_service p) (plan_service_name p) (plan_environment p) (plan_base_url p)
    (match c with SetItems l => l | _ => items p end)
    (interval_seconds p) (note p) (request_hash p) (created_at p) (created_by p)
    (match c with SetState s => s | _ => state p end)
    (match c with SetVersion v => v | _ => version p end)
    (match c with SetAllowance a => a | _ => allowance p end)
    (match c with SetNext t => t | _ => next_dispatch_at p end)
    (match c with SetStarted t => Some t | _ => started_at p end)
    (match c with SetFinished t => Some t | _ => dispatch_finished_at p end)
    (match c with SetExecution a _ => a | _ => execution_actor p end)
    (match c with SetExecution _ e => e | _ => execution_email p end)
    (match c with SetUpdated t => t | _ => updated_at p end).
Definition update_plan (p : plan) (l : list change_of_plan) : plan := foldl set_plan p l.

(** [sum(i["dispatch_state"] != "pending" for i in plan["items"])] *)
Definition is_pending (i : item) : bool := bool_decide (dispatch i = PENDING).
Definition used (p : plan) : Z := Z.of_nat (length (List.filter (fun i => negb (is_pending i)) (items p))).
Definition total (p : plan) : Z := Z.of_nat (length (items p)).

(** [next(i for i in plan["items"] if i["failure_id"] == failure_id)] *)
Definition find_item (id : string) (p : plan) : option item :=
  find_first (fun i => String.eqb (failure_id i) id) (items p).

(** The plan with that item changed; the item is an object of the document. *)
Definition on_item (id : string) (changes : list change_of_item) (p : plan) : plan :=
  set_plan p (SetItems (map (fun i => if String.eqb (failure_id i) id then update_item i changes else i) (items p))).

Definition no_item : studio_exn := OtherError (runtime_error "coroutine raised StopIteration").

(** ** Timestamps *)

(** [_date], studio/_recovery.py:39-44: an aware [datetime]. *)
Definition date (v : pyval) : option pydatetime :=
  let text := of_chars (flat_map (fun c => if Ascii.eqb c "Z" then chars "+00:00" else [c]) (chars (py_str v))) in
  match fromisoformat text with
  | Ok t => Some (PyDatetime (wall t) (Some (from_opt 0 (utc_offset t))))
  | Raise _ => None
  end.
Definition date_text (s : string) : option pydatetime := date (PStr s).

(** The text of an offset: [+HH:MM], with seconds and microseconds when it has them. *)
Definition offset_text (o : Z) : string :=
  let a := Z.abs o in
  let s := a / 1000000 in
  (if o <? 0 then "-" else "+") +:+ pad 2 (s / 3600) +:+ ":" +:+ pad 2 (s / 60 mod 60) +:+
  (if (s mod 60 =? 0) && (a mod 1000000 =? 0) then ""
   else ":" +:+ pad 2 (s mod 60) +:+ (if a mod 1000000 =? 0 then "" else "." +:+ pad 6 (a mod 1000000))).

(** [_iso], studio/_recovery.py:35-36, of an aware [datetime] and of the clock. *)
Definition iso_datetime (t : pydatetime) : string :=
  let utc := isoformat (wall t) in
  String.substring 0 (String.length utc - 6) utc +:+ offset_text (from_opt 0 (utc_offset t)).
Definition iso (now : Z) : string := isoformat now.

(** ** Digests *)

(** [_hash], studio/_recovery.py:47-48. *)
Definition hash (v : pyval) : string := Sha256.hexdigest (utf8 (dumps (DumpsOpts true true ", " ": ") v)).

(** [_fingerprint], studio/_recovery.py:89-111. *)
Definition fingerprint (detail : pydict) : string :=
  hash (PDict (map (fun key => (key, dgetv key detail))
    ["failure_id"; "task_id"; "failed_at"; "status"; "source_queue_name"; "payload_available";
     "raw_body_b64"; "body"; "headers"; "content_type"; "retry_status"; "retried_at"; "retry_note";
     "retried_task_id"; "retry_target_queue"])).

(** ** Edits

    The functions that [store.change] applies to a row's document: [inl None]
    is [return False], [inl (Some p)] is [return True] with the document [p]. *)

Notation edit := (plan -> Z -> option plan + studio_exn).

Inductive control_action := BATCH | PAUSE | RESUME | STOP.

(** [_Control], studio/_recovery.py:80-86. *)
Record control_request := ControlRequest { ctl_action : control_action; ctl_count : Z; ctl_version : Z }.

(** The user of a request. *)
Record member := Member { member_user_id : string; member_email : string }.

Definition conflict (detail : string) : option plan + studio_exn := inr (HttpError 409 detail).

(** [control.edit], studio/_recovery.py:431-450: what the action does to the plan. *)
Definition control_action_edit (c : control_request) (p : plan) (now : Z) : plan + studio_exn :=
  match ctl_action c, state p with
  | STOP, (STOPPED | COMPLETED) => inr (HttpError 409 "Dispatch has already finished.")
  | STOP, _ => inl (update_plan p [SetState STOPPED; SetFinished (iso now)])
  | PAUSE, RUNNING => inl (update_plan p [SetState PAUSED])
  | RESUME, PAUSED =>
      if allowance p <=? used p then inr (HttpError 409 "Batch allowance is exhausted. Authorize another batch.")
      else inl (update_plan p [SetState RUNNING])
  | BATCH, (READY | PAUSED) =>
      if used p =? total p then inr (HttpError 409 "No pending items remain.")
      else inl (update_plan p [SetAllowance (Z.min (total p) (used p + ctl_count c)); SetState RUNNING])
  | _, _ => inr (HttpError 409 "Control is not available in the current plan state.")
  end.

(** [control.edit], studio/_recovery.py:428-456. *)
Definition control_edit (c : control_request) (actor : option member) : edit := fun p now =>
  if negb (version p =? ctl_version c) then conflict "Plan changed. Refresh before issuing another control."
  else match control_action_edit c p now with
       | inr e => inr e
       | inl p =>
           let p := if bool_decide (state p = RUNNING) then
                      update_plan p
                        ([SetExecution (member_user_id <$> actor)
                            (Some (match actor with Some m => member_email m | None => "operator" end))] ++
                         match started_at p with Some s => if String.eqb s "" then [SetStarted (iso now)] else []
                                               | None => [SetStarted (iso now)] end)
                    else p in
           inl (Some (update_plan p [SetVersion (version p + 1)]))
       end.

(** [_dispatch.block], studio/_recovery.py:493-500. *)
Definition block_edit (id : string) (retryable : bool) (text : string) : edit := fun p now =>
  match find_item id p with
  | None => inr no_item
  | Some target =>
      if negb (bool_decide (state p = RUNNING)) || negb (is_pending target) then inl None
      else inl (Some (update_plan
             (on_item id [SetDispatch (if retryable then PENDING else BLOCKED); SetMessage (Some text)] p)
             [SetState PAUSED; SetVersion (version p + 1)]))
  end.

(** [doc["next_dispatch_at"]] as an instant, the clock when it cannot be read. *)
Definition not_before (p : plan) (now : Z) : Z := from_opt now (instant <$> date_text (next_dispatch_at p)).

(** [_dispatch.claim], studio/_recovery.py:506-523. *)
Definition claim_edit (id : string) (seen : plan) (baseline : pydict) : edit := fun p now =>
  match find_item id p with
  | None => inr no_item
  | Some target =>
      if negb (bool_decide (state p = RUNNING)) || negb (version p =? version seen) || negb (is_pending target) ||
         (allowance p <=? used p) || (now <? not_before p now)
      then inl None
      else inl (Some (update_plan
             (on_item id [SetDispatch DISPATCHING; SetRequested (iso now); SetOutcome OUTCOME_UNKNOWN; SetBaseline baseline] p)
             [SetNext (iso (now + interval_seconds p * 1000000))]))
  end.

(** The outcomes that end an item. *)
Definition observed (o : item_outcome) : bool := match o with SUCCEEDED | FAILED => true | _ => false end.

(** [changes.get("dispatch_state")] *)
Fixpoint last_dispatch (changes : list change_of_item) : option dispatch_state :=
  match changes with
  | [] => None
  | c :: l => match last_dispatch l with
              | Some d => Some d
              | None => match c with SetDispatch d => Some d | _ => None end
              end
  end.

(** [_item_change.edit], studio/_recovery.py:562-571. *)
Definition item_edit (id : string) (changes : list change_of_item) : edit := fun p now =>
  match find_item id p with
  | None => inr no_item
  | Some i =>
      if observed (outcome i) then inl None
      else if bool_decide (last_dispatch changes = Some UNKNOWN) && bool_decide (dispatch i = ACCEPTED) then inl None
      else inl (Some (on_item id changes p))
  end.

(** [tick.settle], studio/_recovery.py:671-679. *)
Definition settle_edit : edit := fun p now =>
  if bool_decide (state p = RUNNING) && (allowance p <=? used p) then
    let p' := if used p =? total p then update_plan p [SetState COMPLETED; SetFinished (iso now)]
              else update_plan p [SetState PAUSED] in
    inl (Some (update_plan p' [SetVersion (version p + 1)]))
  else inl None.

(** ** The store *)

(** A row of [studio_recovery_plans], and an entry of the audit log. *)
Record plan_row := PlanRow { document : plan; next_poll_at : Z }.
Record audit_entry := AuditEntry {
  au_action : string; au_plan : string; au_version : Z;
  au_states : list (string * dispatch_state * item_outcome) }.

(** The failure of a service in an environment. *)
Notation failure := (string * string * string)%type.

(** The tables; [claims] is [studio_recovery_claims].  [sent] is what the services
    received: the failures whose retry was requested. *)
Record studio := Studio {
  plans : gmap string plan_row; claims : gmap failure string;
  audits : list audit_entry; sent : list failure }.

Definition failure_of (p : plan) (i : item) : failure := (plan_service p, plan_environment p, failure_id i).

(** The items whose dispatch state or outcome changed: [before] holds the states of the row. *)
Definition changed_items (p p' : plan) : list (string * dispatch_state * item_outcome) :=
  omap (fun i => match find_item (failure_id i) p with
                 | Some b => if bool_decide ((dispatch b, outcome b) = (dispatch i, outcome i)) then None
                             else Some (failure_id i, dispatch i, outcome i)
                 | None => Some (failure_id i, dispatch i, outcome i)
                 end) (items p').

(** [_RecoveryStore.change], studio/_recovery.py:211-257, in a transaction that began at [start]:
    the document, and what [edit] returned. *)
Definition change_row (s : studio) (id : string) (f : edit) (action : string) (start now : Z) :
    studio * ((plan * bool) + studio_exn) :=
  match plans s !! id with
  | None => (s, inr (HttpError 404 "Recovery plan not found."))
  | Some row =>
      match f (document row) now with
      | inr e => (s, inr e)
      | inl None => (s, inl (document row, false))
      | inl (Some p) =>
          let p := set_plan p (SetUpdated (iso now)) in
          let poll := if str_in action ["recovery.batch"; "recovery.resume"] then start else next_poll_at row in
          let changed := changed_items (document row) p in
          let audit := if String.eqb action "recovery.observed" && match changed with [] => true | _ => false end
                       then [] else [AuditEntry action id (version p) changed] in
          (Studio (<[id := PlanRow p poll]> (plans s)) (claims s) (audits s ++ audit) (sent s), inl (p, true))
      end
  end.

(** [_RecoveryStore.create], studio/_recovery.py:174-209: the unique keys of both tables. *)
Definition create_row (s : studio) (p : plan) (now : Z) : studio * (plan + studio_exn) :=
  let keys := map (failure_of p) (items p) in
  match plans s !! plan_id p with
  | Some row =>
      if String.eqb (request_hash (document row)) (request_hash p) then (s, inl (document row))
      else (s, inr (HttpError 409 "Request ID already belongs to a different recovery plan."))
  | None =>
      if existsb (fun k => bool_decide (is_Some (claims s !! k))) keys || negb (bool_decide (NoDup keys))
      then (s, inr (HttpError 409 "A selected failure is already reserved by another recovery plan."))
      else (Studio (<[plan_id p := PlanRow p now]> (plans s))
              (foldr (fun k c => <[k := plan_id p]> c) (claims s) keys)
              (audits s ++ [AuditEntry "recovery.created" (plan_id p) (version p) []]) (sent s), inl p)
  end.

(** [due], studio/_recovery.py:277-281. *)
Definition plan_active (p : plan) : bool :=
  bool_decide (state p = RUNNING) ||
  existsb (fun i => match dispatch i with DISPATCHING | UNKNOWN | ACCEPTED => negb (observed (outcome i)) | _ => false end)
    (items p).

(** [_RecoveryStore.due], studio/_recovery.py:259-288, when its query selects the row. *)
Definition due_row (s : studio) (id : string) (now : Z) : studio * option plan :=
  match plans s !! id with
  | None => (s, None)
  | Some row =>
      (Studio (<[id := PlanRow (document row) (now + (if plan_active (document row) then 2 else 86400) * 1000000)]> (plans s))
         (claims s) (audits s) (sent s), Some (document row))
  end.

(** ** Effects *)

(** The stored [CapabilityDocument] of a service, and what a plan reads of a service. *)
Record capability_document := CapabilityDocument {
  supported_routes : list string; payload_aliases : dict string }.
Record service_record := ServiceRecord {
  service_id : string; service_name : string; service_environment : string;
  service_base_url : string; capabilities : option capability_document }.

(** The transactions, the calls of the registry and of the services, and the clock. *)
Inductive studio_effect : Type -> Type :=
| EProxyable (id : string) : studio_effect (service_record + studio_exn)       (* _get_proxyable_service *)
| EDetail (s : service_record) (failure : string) : studio_effect (pydict + studio_exn)
| ETopology (id : string) : studio_effect (pydict + studio_exn)                 (* get_service_workflow_topology *)
| EStatus (s : service_record) (task : string) : studio_effect (pydict + studio_exn)
| ESend (s : service_record) (failure : string) (payload : pydict) : studio_effect (pydict + studio_exn)
| EMember (user_id : string) : studio_effect (option (string * string) + studio_exn)  (* role and status *)
| ENow : studio_effect Z
| EGet (id : string) : studio_effect (plan + studio_exn)
| EDue : studio_effect (option plan + studio_exn)
| ECreate (p : plan) : studio_effect (plan + studio_exn)
| EChange (id : string) (f : edit) (action : string) : studio_effect ((plan * bool) + studio_exn).

Definition failure_sent (svc : service_record) (id : string) : failure :=
  (service_id svc, service_environment svc, id).

(** What the surroundings do: [answers s e s' y].  A transaction may be rolled back, or
    committed with its answer lost; a request may reach the service whatever it
    answers; the registry returns the service of the id it is asked for. *)
Definition answers (s : studio) (Y : Type) (e : studio_effect Y) (s' : studio) : Y -> Prop :=
  match e in studio_effect Y return Y -> Prop with
  | EProxyable id => fun y => s' = s /\ match y with inl svc => service_id svc = strip id | inr _ => True end
  | EDetail _ _ | ETopology _ | EStatus _ _ => fun _ => s' = s
  | EMember _ => fun _ => s' = s
  | ENow => fun _ => s' = s
  | ESend svc id _ => fun y =>
      s' = Studio (plans s) (claims s) (audits s) (sent s ++ [failure_sent svc id]) \/ (s' = s /\ exists e, y = inr e)
  | EGet id => fun y => s' = s /\ match y with inl p => document <$> plans s !! id = Some p | inr _ => True end
  | EDue => fun y =>
      (s' = s /\ (y = inl None \/ exists e, y = inr e)) \/
      (exists id row now, plans s !! id = Some row /\ next_poll_at row <= now /\ s' = (due_row s id now).1 /\
         (y = inl (due_row s id now).2 \/ exists e, y = inr e))
  | ECreate p => fun y =>
      (s' = s /\ exists e, y = inr e) \/
      (exists now, s' = (create_row s p now).1 /\ (y = (create_row s p now).2 \/ exists e, y = inr e))
  | EChange id f action => fun y =>
      (s' = s /\ exists e, y = inr e) \/
      (exists start now, s' = (change_row s id f action start now).1 /\
         (y = (change_row s id f action start now).2 \/ exists e, y = inr e))
  end.

Notation SP := (prog studio_effect studio_exn).
Definition fail {A} (status : Z) (detail : string) : SP A := Throw (HttpError status detail).
Definition lifted {A} (r : result A) : SP A :=
  match r with Ok a => Ret a | Raise e => Throw (OtherError e) end.

(** ** Preview *)

(** [_service], studio/_recovery.py:295-304. *)
Definition service_for (id environment : string) (base_url : option string) : SP service_record :=
  service ← await (EProxyable id);
  if negb (String.eqb (service_environment service) environment) ||
     match base_url with Some b => negb (String.eqb (service_base_url service) b) | None => false end
  then fail 409 "Pinned service environment or base URL changed; new dispatch is blocked."
  else
    let routes := match capabilities service with Some c => supported_routes c | None => [] end in
    if str_in "failed_tasks.detail" routes && str_in "failed_tasks.retry" routes then mret service
    else fail 409 "Service must advertise failed-task detail and retry support.".

(** The public name of a field of the service's payloads. *)
Definition alias (service : service_record) (field : string) : string :=
  match capabilities service with
  | Some c => from_opt field (dget field (payload_aliases c))
  | None => field
  end.

(** [v in {...}] for a set of strings: an unhashable [v] is an error. *)
Definition in_str_set (v : pyval) (l : list string) : result bool :=
  match v with
  | PStr s => Ok (str_in s l)
  | PList _ | PDict _ => Raise (type_error ("unhashable type: '" +:+ class_name v +:+ "'"))
  | _ => Ok false
  end.

(** [{stage.get("queue") for stage in graph.get("stages", []) if isinstance(stage, dict)}] *)
Definition stage_queues (topology : pydict) : result (list pyval) :=
  match from_opt (PDict topology) (dget "graph" topology) with
  | PDict graph =>
      let queue v := match v with
        | PDict stage =>
            match dgetv "queue" stage with
            | PList _ as q | PDict _ as q => Raise (type_error ("unhashable type: '" +:+ class_name q +:+ "'"))
            | q => Ok [q]
            end
        | _ => Ok []
        end in
      match from_opt (PList []) (dget "stages" graph) with
      | PList l => queues ← mapM_result queue l; Ok (concat queues)
      | PStr _ | PDict _ => Ok []
      | v => Raise (type_error ("'" +:+ class_name v +:+ "' object is not iterable"))
      end
  | v => Raise (Exn XAttributeError "AttributeError" ("'" +:+ class_name v +:+ "' object has no attribute 'get'"))
  end.

(** [_inspect], studio/_recovery.py:309-310: the last status before the retry. *)
Definition last_status (detail : pydict) : pydict :=
  match py_or (dgetv "latest_status" detail) (PDict []) with
  | PDict b => match dget "event" b with Some (PDict e) => e | Some _ => [] | None => b end
  | _ => []
  end.

(** [baseline if isinstance(baseline, dict)]: there is an event to compare with. *)
Definition has_last_status (detail : pydict) : bool :=
  match py_or (dgetv "latest_status" detail) (PDict []) with
  | PDict b => match dget "event" b with Some (PDict _) | None => true | Some _ => false end
  | _ => true
  end.

(** [_inspect], studio/_recovery.py:313-321: what does not depend on the topology. *)
Definition detail_errors (sel : selection) (detail : pydict) : result (list string) :=
  allowed ← in_str_set (dgetv "status" detail) ["DLQ"; "retry_exhausted"; "terminal_failed"];
  let same := match dgetv "failure_id" detail with PStr s => String.eqb s (sel_failure_id sel) | _ => false end in
  let fresh := match dgetv "retry_status" detail with PStr s => String.eqb s "not_retried" | _ => false end in
  Ok ((if same then [] else ["Service returned a different failure ID."]) ++
      (if allowed : bool then [] else ["Failure is no longer eligible for manual retry."]) ++
      (if truthy (dgetv "payload_available" detail) && truthy (dgetv "raw_body_b64" detail) then []
       else ["Retained payload is missing; an override cannot restore eligibility."]) ++
      (if fresh then [] else ["This failure snapshot has already been retried."]))%list.

(** [_inspect], studio/_recovery.py:322-329: the target queue. *)
Definition target_errors (service : service_record) (sel : selection) (detail : pydict) (target : pyval) : SP (list string) :=
  if negb (truthy target) then mret ["No target queue is available."]
  else match sel_target_queue sel with
       | None | Some "" => mret []
       | Some q =>
           if match dgetv "source_queue_name" detail with PStr s => String.eqb q s | _ => false end then mret []
           else
             topology ← await (ETopology (service_id service));
             allowed ← lifted (stage_queues topology);
             mret (if existsb (fun v => match v with PStr s => String.eqb q s | _ => false end) allowed then []
                   else ["Target queue is not a current workflow stage queue of this service."])
       end.

(** [_inspect], studio/_recovery.py:306-341. *)
Definition inspect (service : service_record) (sel : selection) : SP inspected :=
  detail ← await (EDetail service (sel_failure_id sel));
  let key := alias service "timestamp" in
  let target := match sel_target_queue sel with
                | None | Some "" => dgetv "source_queue_name" detail
                | Some q => PStr q
                end in
  errors ← lifted (detail_errors sel detail);
  more ← target_errors service sel detail target;
  mret {| in_failure_id := sel_failure_id sel; in_original_task_id := dgetv "task_id" detail;
          in_target_queue := target; in_payload_available := truthy (dgetv "payload_available" detail);
          in_override_payload := sel_override_payload sel; in_errors := errors ++ more;
          in_fingerprint := fingerprint detail;
          in_baseline_event := if has_last_status detail then [(key, dgetv key (last_status detail))] else [];
          in_failed_at := dgetv "failed_at" detail |}.

(** [_PreviewRequest] and [_CreateRequest], studio/_recovery.py:59-77. *)
Record preview_request := PreviewRequest {
  pr_service_id : string; pr_environment : string; pr_items : list selection;
  pr_interval_seconds : Z; pr_note : string }.
Record create_request := CreateRequest {
  cr_preview : preview_request; cr_request_id : string; cr_preview_digest : string }.

(** [_PreviewRequest.validate_cohort], studio/_recovery.py:68-74: the distinct ids; its limit on the
    size and the bounds of the fields are pydantic's. *)
Definition validate_cohort (r : preview_request) : bool :=
  bool_decide (NoDup (map sel_failure_id (pr_items r))).

(** [preview.inspect], studio/_recovery.py:347-358: a selection that could not be inspected is
    not eligible. *)
Inductive previewed := PInspected (i : inspected) | PRefused (s : selection) (error : string).

Definition preview_item (service : service_record) (sel : selection) : SP previewed :=
  r ← attempted (inspect service sel);
  match r with
  | inl i => mret (PInspected i)
  | inr (FederationError d _) | inr (HttpError _ d) => mret (PRefused sel d)
  | inr e => Throw e
  end.

Definition previewed_eligible (p : previewed) : bool :=
  match p with PInspected i => eligible i | PRefused _ _ => false end.

Definition strs (l : list string) : pyval := PList (map PStr l).
Definition previewed_dict (p : previewed) : pydict :=
  match p with
  | PInspected i =>
      [("failure_id", PStr (in_failure_id i)); ("original_task_id", in_original_task_id i);
       ("target_queue", in_target_queue i); ("payload_available", PBool (in_payload_available i));
       ("override_payload", in_override_payload i); ("eligible", PBool (eligible i));
       ("errors", strs (in_errors i)); ("fingerprint", PStr (in_fingerprint i));
       ("baseline_event", PDict (in_baseline_event i)); ("failed_at", in_failed_at i)]
  | PRefused s error =>
      [("failure_id", PStr (sel_failure_id s)); ("eligible", PBool false); ("errors", strs [error]);
       ("override_payload", sel_override_payload s); ("target_queue", opt_str (sel_target_queue s));
       ("payload_available", PBool false)]
  end.

(** [preview], studio/_recovery.py:343-376: the service, the items and the digest.  The items are
    inspected at once; here one after the other. *)
Definition preview (r : preview_request) : SP (service_record * list previewed * string) :=
  service ← service_for (pr_service_id r) (pr_environment r) None;
  l ← collect_each (preview_item service) (pr_items r);
  let document := [("service_id", PStr (service_id service)); ("service_name", PStr (service_name service));
    ("environment", PStr (service_environment service)); ("base_url", PStr (service_base_url service));
    ("items", PList (map (fun p => PDict (previewed_dict p)) l));
    ("interval_seconds", PInt (pr_interval_seconds r)); ("note", PStr (pr_note r))] in
  mret (service, l, hash (PDict document)).

Definition selection_dict (s : selection) : pydict :=
  [("failure_id", PStr (sel_failure_id s)); ("target_queue", opt_str (sel_target_queue s));
   ("override_payload", sel_override_payload s)].

(** [_hash(payload.model_dump(mode="json"))] *)
Definition request_digest (c : create_request) : string :=
  let r := cr_preview c in
  hash (PDict [("service_id", PStr (pr_service_id r)); ("environment", PStr (pr_environment r));
    ("items", PList (map (fun s => PDict (selection_dict s)) (pr_items r)));
    ("interval_seconds", PInt (pr_interval_seconds r)); ("note", PStr (pr_note r));
    ("request_id", PStr (cr_request_id c)); ("preview_digest", PStr (cr_preview_digest c))]).

(** [create], studio/_recovery.py:408-424: the item of an inspection. *)
Definition new_item (request_id : string) (index : nat) (i : inspected) : item :=
  Item i PENDING NOT_REQUESTED None PNone PNone None None None (in_baseline_event i)
    ("[studio-recovery:" +:+ request_id +:+ ":" +:+ pretty (Z.of_nat index) +:+ "]") None.

(** The inspections, when each selection was inspected. *)
Definition inspections (l : list previewed) : list inspected :=
  omap (fun p => match p with PInspected i => Some i | PRefused _ _ => None end) l.

(** [create], studio/_recovery.py:378-425. *)
Definition create (c : create_request) (actor : option member) : SP plan :=
  let digest := request_digest c in
  existing ← attempted (await (EGet (cr_request_id c)));
  match existing with
  | inl p =>
      if String.eqb (request_hash p) digest then mret p
      else fail 409 "Request ID already belongs to a different recovery plan."
  | inr (HttpError _ _) =>
      x ← preview (cr_preview c);
      let '(service, l, preview_digest) := x in
      if negb (forallb previewed_eligible l) || negb (String.eqb preview_digest (cr_preview_digest c))
      then fail 409 "Eligibility or preview changed. Preview the cohort again before saving."
      else
        now ← perform ENow;
        await (ECreate {| plan_id := cr_request_id c; plan_service := service_id service;
          plan_service_name := service_name service; plan_environment := service_environment service;
          plan_base_url := service_base_url service;
          items := imap (new_item (cr_request_id c)) (inspections l);
          interval_seconds := pr_interval_seconds (cr_preview c); note := pr_note (cr_preview c);
          request_hash := digest; created_at := iso now; created_by := member_user_id <$> actor;
          state := READY; version := 0; allowance := 0; next_dispatch_at := iso now;
          started_at := None; dispatch_finished_at := None; execution_actor := None;
          execution_email := None; updated_at := iso now |})
  | inr e => Throw e
  end.

Definition action_name (a : control_action) : string :=
  match a with BATCH => "batch" | PAUSE => "pause" | RESUME => "resume" | STOP => "stop" end.

(** [control], studio/_recovery.py:427-458. *)
Definition control (id : string) (c : control_request) (actor : option member) : SP plan :=
  '(p, _) ← await (EChange id (control_edit c actor) ("recovery." +:+ action_name (ctl_action c)));
  mret p.

(** ** Dispatch *)

(** [_actor_allowed], studio/_recovery.py:460-466. *)
Definition actor_allowed (p : plan) : SP bool :=
  match execution_actor p with
  | None => mret true
  | Some actor =>
      if String.eqb actor "shared-operator" then mret true
      else m ← await (EMember actor);
           mret match m with
                | Some (role, status) => String.eqb role "admin" && String.eqb status "active"
                | None => false
                end
  end.

(** [_dispatch], studio/_recovery.py:481-483: the model's bounds on a queue name. *)
Definition select_again (i : item) : SP selection :=
  match in_target_queue (inspection i) with
  | PNone => mret (Selection (failure_id i) None (in_override_payload (inspection i)))
  | PStr q =>
      if (1 <=? Z.of_nat (String.length q)) && (Z.of_nat (String.length q) <=? 512)
      then mret (Selection (failure_id i) (Some q) (in_override_payload (inspection i)))
      else Throw (OtherError (Exn XValidationError "ValidationError" "target_queue"))
  | _ => Throw (OtherError (Exn XValidationError "ValidationError" "target_queue"))
  end.

(** [_dispatch], studio/_recovery.py:476-486: what must hold of the service, the operator and the
    failure before the request. *)
Definition preflight (p : plan) (i : item) : SP (service_record * inspected) :=
  service ← service_for (plan_service p) (plan_environment p) (Some (plan_base_url p));
  allowed ← actor_allowed p;
  if negb allowed then fail 403 "The executing operator is no longer an active administrator."
  else
    sel ← select_again i;
    current ← inspect service sel;
    if negb (eligible current) || negb (String.eqb (in_fingerprint current) (in_fingerprint (inspection i)))
    then fail 409 (match join "; " (in_errors current) with
                   | "" => "Failure snapshot changed after preview."
                   | text => text
                   end)
    else mret (service, current).

(** [retryable_preflight], studio/_recovery.py:489-491. *)
Definition retryable_preflight (e : studio_exn) : bool :=
  match e with FederationError _ r => r | HttpError status _ => status =? 403 | _ => false end.

(** [_dispatch], studio/_recovery.py:530-541: the request. *)
Definition retry_payload (latest seen : plan) (i : item) : pydict :=
  [("target_queue", in_target_queue (inspection i)); ("override_payload", in_override_payload (inspection i));
   ("retried_by", opt_str (execution_email latest)); ("note", PStr (receipt_marker i +:+ " " +:+ note seen))].

(** [_dispatch], studio/_recovery.py:542-555: what the response says. *)
Definition receipt_changes (id : string) (response : pydict) : SP (list change_of_item) :=
  let says key v := match dgetv key response with PStr s => String.eqb s v | _ => false end in
  if negb (says "failure_id" id) || negb (says "retry_status" "retried") ||
     match date (dgetv "retried_at" response) with None => true | Some _ => false end
  then Throw (OtherError (value_error "Retry response did not contain a valid acceptance receipt."))
  else mret [SetDispatch ACCEPTED; SetAccepted (dgetv "retried_at" response);
             SetReplacement (dgetv "retried_task_id" response); SetOutcome OUTCOME_PENDING; SetMessage None].

(** [_item_change], studio/_recovery.py:561-573. *)
Definition item_change (id failure : string) (changes : list change_of_item) (action : string) : SP unit :=
  _ ← await (EChange id (item_edit failure changes) action); mret tt.

(** [_dispatch], studio/_recovery.py:526-559: after the claim. *)
Definition send_claimed (seen latest : plan) (service : service_record) (id : string) : SP unit :=
  match find_item id latest with
  | None => Throw no_item
  | Some i =>
      r ← attempted (response ← await (ESend service id (retry_payload latest seen i)); receipt_changes id response);
      changes ← match r with
                | inl changes => mret changes
                | inr e =>
                    if match e with OtherError x => is_exception x | _ => true end
                    then mret [SetDispatch UNKNOWN; SetOutcome OUTCOME_UNKNOWN; SetMessage (Some (studio_text e))]
                    else Throw e
                end;
      item_change (plan_id seen) id changes "recovery.dispatch.recorded"
  end.

(** [_dispatch], studio/_recovery.py:468-559. *)
Definition dispatch_next (p : plan) : SP unit :=
  match find_first is_pending (items p) with
  | None => mret tt
  | Some i =>
      if negb (bool_decide (state p = RUNNING)) then mret tt
      else if allowance p <=? used p then mret tt
      else
        r ← attempted (preflight p i);
        match r with
        | inr e =>
            if caught e then
              _ ← await (EChange (plan_id p) (block_edit (failure_id i) (retryable_preflight e) (detail_of e))
                           "recovery.dispatch.blocked");
              mret tt
            else Throw e
        | inl (service, current) =>
            '(latest, claimed) ← await (EChange (plan_id p) (claim_edit (failure_id i) p (in_baseline_event current))
                         "recovery.dispatch.requested");
            if claimed : bool then send_claimed p latest service (failure_id i) else mret tt
        end
  end.

(** ** Observation *)

(** The changes so far, and the exception that leaves the block: what [finally] sees. *)
Notation outcome_of_try := (list change_of_item * option studio_exn)%type.

(** An awaited step of the [try] block: its exceptions are those of the [except] clause. *)
Definition step_of_try {A} (m : SP A) (changes : list change_of_item) (k : A -> SP outcome_of_try) : SP outcome_of_try :=
  r ← attempted m;
  match r with
  | inl a => k a
  | inr e => mret (if caught e then ((changes ++ [SetMessage (Some (detail_of e))])%list, None) else (changes, Some e))
  end.

Definition attribute_error (v : pyval) (name : string) : exn :=
  Exn XAttributeError "AttributeError" ("'" +:+ class_name v +:+ "' object has no attribute '" +:+ name +:+ "'").

(** [(receipt.get("retry_note") or "").split(" ", 1)[0]] *)
Definition first_word (v : pyval) : SP string :=
  match py_or v (PStr "") with
  | PStr s => mret (of_chars ((fix upto l := match l with
                                             | [] => []
                                             | c :: l => if Ascii.eqb c " " then [] else c :: upto l
                                             end) (chars s)))
  | v => Throw (OtherError (attribute_error v "split"))
  end.

(** [_observe], studio/_recovery.py:592-607: the receipt that the service retains. *)
Definition find_receipt (service : service_record) (i : item) : SP (option (list change_of_item)) :=
  receipt ← await (EDetail service (failure_id i));
  let says key v := match dgetv key receipt with PStr s => String.eqb s v | _ => false end in
  if negb (says "failure_id" (failure_id i)) || negb (says "retry_status" "retried") then mret None
  else
    word ← first_word (dgetv "retry_note" receipt);
    if negb (String.eqb word (receipt_marker i)) ||
       match date (dgetv "retried_at" receipt) with None => true | Some _ => false end
    then mret None
    else mret (Some [SetDispatch ACCEPTED; SetAccepted (dgetv "retried_at" receipt);
                     SetReplacement (dgetv "retried_task_id" receipt); SetOutcome OUTCOME_PENDING; SetMessage None]).

(** [baseline = baseline.get("event", baseline)] and the timestamp under the key. *)
Definition baseline_time (i : item) (key : string) : SP (option pydatetime) :=
  match from_opt (PDict (baseline_event i)) (dget "event" (baseline_event i)) with
  | PDict b => mret (date (dgetv key b))
  | v => Throw (OtherError (attribute_error v "get"))
  end.

(** [_observe], studio/_recovery.py:613-642: fresh terminal evidence of the replacement. *)
Definition terminal_evidence (service : service_record) (i accepted : item) (replacement : string) : SP (list change_of_item) :=
  status ← await (EStatus service replacement);
  match py_or (dgetv "event" status) (PDict []) with
  | PDict event =>
      if negb (match dgetv "task_id" status with PStr t => String.eqb t replacement | _ => false end)
      then fail 502 "Status response did not identify the replacement task."
      else if negb (match dgetv (alias service "task_id") event with
                    | PNone => true | PStr t => String.eqb t replacement | _ => false end)
      then fail 502 "Status event belongs to a different task."
      else
        let timestamp := date (dgetv (alias service "timestamp") event) in
        before ← baseline_time i (alias service "timestamp");
        let boundary := date (accepted_at accepted) in
        let label := lower (py_str (from_opt (PStr "") (dget (alias service "status") event))) in
        mret match timestamp, boundary with
             | Some t, Some b =>
                 if (instant b <=? instant t) && match before with Some x => instant x <? instant t | None => true end &&
                    str_in label ["completed"; "failed"; "dlq"; "retry_exhausted"; "terminal_failed"]
                 then [SetOutcome (if String.eqb label "completed" then SUCCEEDED else FAILED);
                       SetObservedAt (iso_datetime t);
                       SetObservedEvent [("task_id", PStr replacement); ("status", PStr label);
                         ("timestamp", PStr (iso_datetime t)); ("event_id", dgetv (alias service "event_id") event)];
                       SetMessage None]
                 else []
             | _, _ => []
             end
  | _ => fail 502 "Status response did not identify the replacement task."
  end.

(** [_observe], studio/_recovery.py:608-642: an accepted item. *)
Definition observe_accepted (service : service_record) (i : item) (changes : list change_of_item) : SP outcome_of_try :=
  let accepted := update_item i changes in
  match replacement_task_id accepted with
  | PStr replacement =>
      if String.eqb (strip replacement) ""
      then mret ((changes ++ [SetOutcome OUTCOME_UNKNOWN;
                   SetMessage (Some "Accepted without a replacement task ID; outcome is unknown.")])%list, None)
      else step_of_try (terminal_evidence service i accepted replacement) changes
             (fun more => mret ((changes ++ more)%list, None))
  | _ => mret ((changes ++ [SetOutcome OUTCOME_UNKNOWN;
                 SetMessage (Some "Accepted without a replacement task ID; outcome is unknown.")])%list, None)
  end.

(** [_observe], studio/_recovery.py:589-644: the [try] block. *)
Definition observe_body (p : plan) (i : item) (changes : list change_of_item) : SP outcome_of_try :=
  step_of_try (service_for (plan_service p) (plan_environment p) (Some (plan_base_url p))) changes (fun service =>
    if bool_decide (dispatch i = ACCEPTED) then observe_accepted service i changes
    else step_of_try (find_receipt service i) changes (fun receipt =>
      match receipt with
      | None => mret ((changes ++ [SetMessage (Some
                  "Acceptance unknown; no matching retained retry receipt. Never resent automatically.")])%list, None)
      | Some more => observe_accepted service i (changes ++ more)
      end)).

(** [changes.get("accepted_at", item.get("accepted_at"))] and [changes.get("outcome", item["outcome"])]
    read the item with the changes. *)
Definition out_of_date (i : item) (changes : list change_of_item) (now : Z) : bool :=
  let latest := update_item i changes in
  match date (accepted_at latest) with
  | Some t => negb (observed (outcome latest)) && (24 * 3600 * 1000000 <? now - instant t)
  | None => false
  end.

(** An item whose outcome is still open. *)
Definition unobserved (i : item) : bool :=
  match dispatch i with DISPATCHING | UNKNOWN | ACCEPTED => negb (observed (outcome i)) | _ => false end.

(** [_observe], studio/_recovery.py:575-654. *)
Definition observe_outcome (p : plan) (i : item) : SP unit :=
  if negb (unobserved i) then mret tt
  else
    now ← perform ENow;
    let since := match requested_at i with Some t => from_opt now (instant <$> date_text t) | None => now end in
    if bool_decide (dispatch i = DISPATCHING) && (now - since <? 60 * 1000000) then mret tt
    else
      let changes := SetChecked (iso now) ::
        (if bool_decide (dispatch i = ACCEPTED) then [] else [SetDispatch UNKNOWN; SetOutcome OUTCOME_UNKNOWN]) in
      x ← observe_body p i changes;
      let '(changes, raised) := x in
      let changes := if out_of_date i changes now
        then (changes ++ [SetOutcome OUTCOME_UNKNOWN;
               SetMessage (Some "No fresh terminal evidence within 24 hours; observation continues.")])%list
        else changes in
      _ ← item_change (plan_id p) (failure_id i) changes "recovery.observed";
      match raised with Some e => Throw e | None => mret tt end.

(** [sorted(candidates, key=lambda i: i.get("last_checked_at") or "")[:5]] *)
Definition checked_before (a b : item) : bool :=
  String.leb (from_opt "" (last_checked_at a)) (from_opt "" (last_checked_at b)).

(** [tick], studio/_recovery.py:656-681. *)
Definition tick : SP unit :=
  due ← await EDue;
  match due with
  | None => mret tt
  | Some p =>
      _ ← dispatch_next p;
      p ← await (EGet (plan_id p));
      _ ← each (observe_outcome p) (take 5 (sort_by checked_before (List.filter unobserved (items p))));
      _ ← await (EChange (plan_id p) settle_edit "recovery.batch.finished");
      mret tt
  end.
