(* ===== verification/RecoverySpec.v ===== *)
(** * What the Recovery Center guarantees

    Over every interleaving of the workers' ticks and the operators' requests,
    in any number of Studio processes, with any of them lost at any point: a
    retry is requested at most once, within what the operators authorised, and
    what was recorded of it is not taken back. *)

From S2P Require Import Prelude PyStr PyVal PyTime PySort Interleave StudioErrors Recovery.

(** ** How items and plans change *)

(** A retry of the item was, or may have been, requested. *)
Definition requested (i : item) : Prop :=
  match dispatch i with DISPATCHING | ACCEPTED | UNKNOWN => True | PENDING | BLOCKED => False end.

Record item_evolves (i i' : item) : Prop := {
  ie_inspection : inspection i' = inspection i;
  ie_marker : receipt_marker i' = receipt_marker i;
  ie_left : dispatch i <> PENDING -> dispatch i' <> PENDING;
  ie_requested : requested i -> requested i';
  ie_accepted : dispatch i = ACCEPTED -> dispatch i' = ACCEPTED;
  ie_observed : requested i -> observed (outcome i) = true -> outcome i' = outcome i /\ observed_at i' = observed_at i }.

#[export] Instance item_evolves_preorder : PreOrder item_evolves.
Proof.
  split; [by intros i; constructor|]. intros a b c [H1 H2 H3 H4 H5 H6] [K1 K2 K3 K4 K5 K6].
  constructor; [congruence|congruence|auto|auto|auto|].
  intros Hr H. destruct (H6 Hr H) as [Ho Ht]. rewrite <- Ho in H. destruct (K6 (H4 Hr) H). split; congruence.
Qed.

(** What creation fixes. *)
Definition pinned (p : plan) : string * string * string * string * Z * string :=
  (plan_id p, plan_service p, plan_environment p, plan_base_url p, interval_seconds p, request_hash p).

Definition over (s : plan_state) : Prop := match s with STOPPED | COMPLETED => True | _ => False end.

Record evolves (p p' : plan) : Prop := {
  ev_pinned : pinned p' = pinned p;
  ev_items : Forall2 item_evolves (items p) (items p');
  ev_version : version p <= version p';
  ev_room : used p < allowance p -> used p' = used p -> used p' < allowance p';
  ev_over : over (state p) -> state p' = state p }.

Lemma evolves_used p p' : Forall2 item_evolves (items p) (items p') -> used p <= used p'.
Proof.
  unfold used. induction 1 as [|i i' l l' Hi _ IH]; [done|]. cbn [List.filter].
  destruct (is_pending i) eqn:E1, (is_pending i') eqn:E2; cbn [negb length]; try lia.
  unfold is_pending in *. bool_to_prop. by destruct (ie_left _ _ Hi).
Qed.

#[export] Instance evolves_preorder : PreOrder evolves.
Proof.
  split; [intros p; constructor; try done; lia|]. intros a b c [H1 H2 H3 H4 H5] [K1 K2 K3 K4 K5]. constructor.
  - congruence.
  - by transitivity (items b).
  - lia.
  - intros Ha Hc. pose proof (evolves_used a b H2). pose proof (evolves_used b c K2). apply K4; [|lia].
    replace (used b) with (used a) in * by lia. apply H4; lia.
  - intros Ho. rewrite <- (H5 Ho) in Ho |- *. by apply K5.
Qed.

(** ** Well-formed plans *)

Definition pending (i : item) : Prop := is_pending i = true.

(** The items left the pending state in their order. *)
Definition in_order (l : list item) : Prop :=
  exists l1 l2, l = (l1 ++ l2)%list /\ Forall (fun i => is_pending i = false) l1 /\ Forall pending l2.

Record wf_plan (p : plan) : Prop := {
  wf_ids : NoDup (map failure_id (items p));
  wf_allowance : used p <= allowance p <= total p;
  wf_order : in_order (items p);
  wf_service : strip (plan_service p) = plan_service p }.

Lemma pending_dispatch i : pending i <-> dispatch i = PENDING.
Proof. unfold pending, is_pending. by rewrite bool_decide_eq_true. Qed.

Lemma used_split p l1 i l2 : items p = (l1 ++ i :: l2)%list -> Forall (fun i => is_pending i = false) l1 ->
  Forall pending l2 -> used p = Z.of_nat (length l1) + (if is_pending i then 0 else 1).
Proof.
  intros E H1 H2. unfold used. rewrite E. clear E. induction H1 as [|x l1 Hx _ IH]; cbn.
  - assert (List.filter (fun i => negb (is_pending i)) l2 = []) as ->.
    { induction H2 as [|y l Hy _ IH]; [done|]. cbn. unfold pending in Hy. by rewrite Hy. }
    by destruct (is_pending i).
  - rewrite Hx. cbn. lia.
Qed.

Lemma in_order_split l i l1 l2 : in_order l -> l = (l1 ++ i :: l2)%list -> pending i ->
  Forall (fun i => is_pending i = false) l1 -> Forall pending l2.
Proof.
  intros (a & b & -> & Ha & Hb) E Hi H1.
  assert (a = l1) as ->; [|by apply app_inv_head in E as ->; apply Forall_cons in Hb as [_ Hb]].
  revert a E Ha. induction H1 as [|x l1 Hx _ IH]; intros [|y a] E Ha; cbn in E; simplify_eq.
  - done.
  - apply Forall_cons in Ha as [Hy _]. unfold pending in Hi. congruence.
  - apply Forall_cons in Hb as [Hb _]. unfold pending in Hb. congruence.
  - apply Forall_cons in Ha as [_ Ha]. f_equal. by apply IH.
Qed.

(** ** Changes of one item *)

Lemma find_item_split id p i : find_item id p = Some i ->
  exists l1 l2, items p = (l1 ++ i :: l2)%list /\ failure_id i = id /\ (forall x, x ∈ l1 -> failure_id x <> id).
Proof.
  unfold find_item. induction (items p) as [|x l IH]; [done|]. cbn. destruct (String.eqb _ _) eqn:E; bool_to_prop.
  - intros [= <-]. exists [], l. split; [done|]. split; [done|]. by intros y ?%elem_of_nil.
  - intros H. destruct (IH H) as (l1 & l2 & -> & Hi & Hl). exists (x :: l1), l2. split; [done|]. split; [done|].
    intros y [->|Hy]%elem_of_cons; [done|by apply Hl].
Qed.

Lemma find_item_at id p l1 i l2 : NoDup (map failure_id (items p)) -> items p = (l1 ++ i :: l2)%list ->
  failure_id i = id -> find_item id p = Some i.
Proof.
  unfold find_item. intros Hn E <-. rewrite E in *. clear E. induction l1 as [|x l1 IH]; cbn in *.
  - by rewrite String.eqb_refl.
  - apply NoDup_cons in Hn as [Hx Hn]. destruct (String.eqb _ _) eqn:E; [|by apply IH]. bool_to_prop.
    destruct Hx. rewrite E. rewrite map_app. apply elem_of_app. right. by left.
Qed.

Lemma on_item_items id ch p l1 i l2 : NoDup (map failure_id (items p)) -> items p = (l1 ++ i :: l2)%list ->
  failure_id i = id -> items (on_item id ch p) = (l1 ++ update_item i ch :: l2)%list.
Proof.
  intros Hn E <-. unfold on_item. cbn [items set_plan]. rewrite E in *. clear E.
  assert (forall l, failure_id i ∉ map failure_id l ->
    map (fun x => if String.eqb (failure_id x) (failure_id i) then update_item x ch else x) l = l) as Hout.
  { intros l Hl. induction l as [|x l IH]; [done|]. cbn in *. apply not_elem_of_cons in Hl as [Hx Hl]. rewrite IH by done.
    destruct (String.eqb _ _) eqn:E; [|done]. bool_to_prop. congruence. }
  rewrite map_app in *. cbn in *. apply NoDup_app in Hn as (_ & H1 & Hn). apply NoDup_cons in Hn as [Hi _].
  rewrite String.eqb_refl, (Hout l2 Hi), (Hout l1); [done|]. intros Hx. apply (H1 _ Hx). by left.
Qed.

Lemma items_evolve_at l1 x y l2 : item_evolves x y -> Forall2 item_evolves (l1 ++ x :: l2) (l1 ++ y :: l2).
Proof. intros H. apply Forall2_app; [done|]. by constructor. Qed.

(** The fields that [update_item] leaves alone. *)
Lemma update_inspection i ch : inspection (update_item i ch) = inspection i.
Proof. revert i. induction ch as [|c ch IH]; [done|]. intros i. cbn. unfold update_item in IH. by rewrite IH. Qed.
Lemma update_marker i ch : receipt_marker (update_item i ch) = receipt_marker i.
Proof. revert i. induction ch as [|c ch IH]; [done|]. intros i. cbn. unfold update_item in IH. by rewrite IH. Qed.

Lemma update_dispatch i ch : dispatch (update_item i ch) = from_opt (dispatch i) (last_dispatch ch).
Proof.
  revert i. induction ch as [|c ch IH]; [done|]. intros i. cbn. unfold update_item in IH. rewrite IH.
  destruct (last_dispatch ch); [done|]. by destruct c.
Qed.

(** ** Edits *)

Lemma find_pending l i : find_first is_pending l = Some i ->
  exists l1 l2, l = (l1 ++ i :: l2)%list /\ Forall (fun i => is_pending i = false) l1 /\ pending i.
Proof.
  induction l as [|x l IH]; [done|]. cbn. destruct (is_pending x) eqn:E.
  - intros [= <-]. by exists [], l.
  - intros H. destruct (IH H) as (l1 & l2 & -> & H1 & Hi). exists (x :: l1), l2. split; [done|]. split; [|done].
    by constructor.
Qed.

(** The first pending item of a plan one saw is the first one as long as it is pending. *)
Lemma still_first p0 p i0 t : wf_plan p0 -> wf_plan p -> evolves p0 p ->
  find_first is_pending (items p0) = Some i0 -> find_item (failure_id i0) p = Some t -> pending t ->
  used p = used p0 /\ exists l1 l2, items p = (l1 ++ t :: l2)%list /\ failure_id t = failure_id i0 /\
    Forall (fun i => is_pending i = false) l1 /\ Forall pending l2.
Proof.
  intros W0 W Hev Hf Ht Hpt. destruct (find_pending _ _ Hf) as (l1 & l2 & E0 & H1 & Hi0).
  pose proof (ev_items _ _ Hev) as H2. rewrite E0 in H2.
  apply Forall2_app_inv_l in H2 as (l1' & l2' & H1' & H2 & E). apply Forall2_cons_inv_l in H2 as (i & l2'' & Hi & _ & ->).
  assert (failure_id i = failure_id i0) as Hid by (unfold failure_id; by rewrite (ie_inspection _ _ Hi)).
  rewrite (find_item_at _ _ _ _ _ (wf_ids _ W) E Hid) in Ht. injection Ht as <-.
  assert (Forall (fun i => is_pending i = false) l1') as Hl1.
  { clear -H1 H1'. induction H1' as [|x y l l' Hx _ IH]; [constructor|]. apply Forall_cons in H1 as [Hp H1].
    constructor; [|by apply IH]. unfold is_pending in *. bool_to_prop. apply bool_decide_eq_false. by apply (ie_left _ _ Hx). }
  pose proof (in_order_split _ _ _ _ (wf_order _ W) E Hpt Hl1) as Hl2.
  split; [|by exists l1', l2''].
  rewrite (used_split _ _ _ _ E Hl1 Hl2), (used_split _ _ _ _ E0 H1 (in_order_split _ _ _ _ (wf_order _ W0) E0 Hi0 H1)).
  unfold pending in *. rewrite Hpt, Hi0, (Forall2_length _ _ _ H1'). done.
Qed.

(** Changes that keep the items. *)
Lemma same_items p p' : items p' = items p -> used p' = used p /\ total p' = total p.
Proof. unfold used, total. by intros ->. Qed.

Lemma advance_same p p' : wf_plan p -> items p' = items p -> pinned p' = pinned p -> version p <= version p' ->
  used p <= allowance p' <= total p -> (used p < allowance p -> used p < allowance p') ->
  (over (state p) -> state p' = state p) -> wf_plan p' /\ evolves p p'.
Proof.
  intros [W1 W2 W3 W4] Hi Hp Hv Ha Hr Ho. destruct (same_items p p' Hi) as [Hu Ht]. split; constructor.
  - by rewrite Hi.
  - by rewrite Hu, Ht.
  - by rewrite Hi.
  - unfold pinned in Hp. congruence.
  - done.
  - by rewrite Hi.
  - done.
  - intros. rewrite Hu. by apply Hr.
  - done.
Qed.

Lemma control_edit_ok c actor p now p' : wf_plan p -> 1 <= ctl_count c ->
  control_edit c actor p now = inl (Some p') -> wf_plan p' /\ evolves p p'.
Proof.
  intros W Hc. unfold control_edit. destruct (negb _); [done|].
  destruct (control_action_edit c p now) as [q|] eqn:Eq; [|done]. intros [= <-].
  pose proof (wf_allowance _ W) as Ha.
  assert (items q = items p /\ pinned q = pinned p /\ version q = version p /\ used p <= allowance q <= total p /\
    (used p < allowance p -> used p < allowance q) /\ ~ over (state p)) as (H1 & H2 & H3 & H4 & H5 & H6).
  { unfold control_action_edit in Eq. destruct (ctl_action c), (state p) eqn:Es; try done; repeat case_hyp Eq; try done;
      injection Eq as <-; cbn; bool_to_prop; split_and!; try done; try lia; intros []. }
  case_bool_decide as Er; apply advance_same; try done; try (destruct (started_at q) as [s|]; [destruct (String.eqb s "")|]);
    cbn; try done; try lia.
Qed.

Lemma settle_edit_ok p now p' : wf_plan p -> settle_edit p now = inl (Some p') -> wf_plan p' /\ evolves p p'.
Proof.
  intros W. unfold settle_edit. destruct (_ && _) eqn:E; [|done]. intros [= <-]. bool_to_prop.
  pose proof (wf_allowance _ W) as Ha.
  destruct (used p =? total p); apply advance_same; cbn; try done; try lia;
    intros Ho; by destruct (state p).
Qed.

(** The order only depends on which items are pending. *)
Lemma Forall_pending_map b l l' : map is_pending l = map is_pending l' ->
  Forall (fun i => is_pending i = b) l -> Forall (fun i => is_pending i = b) l'.
Proof.
  revert l'. induction l as [|x l IH]; intros [|y l'] E H; try done. injection E as E1 E2.
  apply Forall_cons in H as [H1 H2]. constructor; [congruence|by apply IH].
Qed.

Lemma in_order_map l l' : map is_pending l = map is_pending l' -> in_order l -> in_order l'.
Proof.
  intros E (a & b & -> & Ha & Hb). rewrite map_app in E. symmetry in E.
  apply map_eq_app in E as (a' & b' & -> & Ea & Eb). exists a', b'. split; [done|].
  split; [by eapply Forall_pending_map; [symmetry|]|]. by eapply (Forall_pending_map true); [symmetry|].
Qed.

(** Changes of one item that stays pending or not. *)
Lemma advance_item p p' l1 i i' l2 : wf_plan p -> items p = (l1 ++ i :: l2)%list -> items p' = (l1 ++ i' :: l2)%list ->
  item_evolves i i' -> is_pending i' = is_pending i ->
  pinned p' = pinned p -> allowance p' = allowance p -> version p <= version p' ->
  (over (state p) -> state p' = state p) -> wf_plan p' /\ evolves p p'.
Proof.
  intros [W1 W2 W3 W4] E E' Hi Hp Hpin Ha Hv Ho.
  assert (total p' = total p) as Ht by (unfold total; rewrite E, E', !length_app; done).
  assert (used p' = used p) as Hu.
  { unfold used. rewrite E, E', !List.filter_app, !length_app. cbn [List.filter]. rewrite Hp. by destruct (is_pending i). }
  split; constructor; try done; try lia.
  - rewrite E' in *. rewrite E in W1. rewrite !map_app in *. cbn in *. unfold failure_id at 2. rewrite (ie_inspection _ _ Hi). done.
  - rewrite E'. rewrite E in W3. eapply in_order_map, W3. rewrite !map_app. cbn. by rewrite Hp.
  - unfold pinned in Hpin. congruence.
  - rewrite E, E'. by apply items_evolve_at.
Qed.

(** The first pending item leaves the pending state. *)
Lemma advance_first p p' l1 i i' l2 : wf_plan p -> items p = (l1 ++ i :: l2)%list -> items p' = (l1 ++ i' :: l2)%list ->
  item_evolves i i' -> pending i -> is_pending i' = false -> used p < allowance p ->
  Forall (fun i => is_pending i = false) l1 -> Forall pending l2 ->
  pinned p' = pinned p -> allowance p' = allowance p -> version p <= version p' ->
  (over (state p) -> state p' = state p) -> wf_plan p' /\ evolves p p'.
Proof.
  intros [W1 W2 W3 W4] E E' Hi Hp Hp' Hlt H1 H2 Hpin Ha Hv Ho.
  assert (total p' = total p) as Ht by (unfold total; rewrite E, E', !length_app; done).
  pose proof (used_split _ _ _ _ E H1 H2) as Hu. pose proof (used_split _ _ _ _ E' H1 H2) as Hu'.
  unfold pending in Hp. rewrite Hp in Hu. rewrite Hp' in Hu'.
  split; constructor; try done; try lia.
  - rewrite E' in *. rewrite E in W1. rewrite !map_app in *. cbn in *. unfold failure_id at 2. rewrite (ie_inspection _ _ Hi). done.
  - rewrite E'. exists (l1 ++ [i'])%list, l2. rewrite <- app_assoc. split; [done|]. split; [|done].
    apply Forall_app. split; [done|]. by constructor.
  - unfold pinned in Hpin. congruence.
  - rewrite E, E'. by apply items_evolve_at.
Qed.

Lemma pending_evolves i ch : pending i -> item_evolves i (update_item i ch).
Proof.
  intros Hp. apply pending_dispatch in Hp. constructor.
  - by rewrite update_inspection.
  - by rewrite update_marker.
  - by rewrite Hp.
  - unfold requested. by rewrite Hp.
  - by rewrite Hp.
  - unfold requested. by rewrite Hp.
Qed.

Section seen.
Context (p0 p : plan) (i0 : item).
Context (W0 : wf_plan p0) (W : wf_plan p) (Hev : evolves p0 p).
Context (Hf : find_first is_pending (items p0) = Some i0) (Hroom : used p0 < allowance p0).

Lemma block_edit_ok retryable text now p' :
  block_edit (failure_id i0) retryable text p now = inl (Some p') -> wf_plan p' /\ evolves p p'.
Proof.
  unfold block_edit. destruct (find_item _ p) as [t|] eqn:Ef; [|done].
  destruct (_ || _) eqn:E; [done|]. intros [= <-]. bool_to_prop.
  assert (pending t) as Hp by (unfold pending; by apply not_false_is_true; congruence).
  destruct (still_first p0 p i0 t W0 W Hev Hf Ef Hp) as (Hu & l1 & l2 & Ei & Hid & Hl1 & Hl2).
  assert (used p < allowance p) as Hr by (apply (ev_room _ _ Hev); congruence).
  assert (over (state p) -> False) as Ho by (by destruct (state p)).
  pose proof (on_item_items (failure_id i0) [SetDispatch (if retryable then PENDING else BLOCKED); SetMessage (Some text)]
    p _ _ _ (wf_ids _ W) Ei Hid) as Eo.
  destruct retryable; [eapply advance_item|eapply advance_first];
    try exact Ei; try exact Eo; try exact Hl1; try exact Hl2; try (by apply pending_evolves); cbn; try done; try lia.
Qed.

(** A claim is of an item that was pending, and leaves it requested. *)
Lemma claim_edit_ok baseline now p' :
  claim_edit (failure_id i0) p0 baseline p now = inl (Some p') -> wf_plan p' /\ evolves p p' /\
  (exists t, t ∈ items p /\ failure_id t = failure_id i0 /\ pending t) /\
  (exists t, t ∈ items p' /\ failure_id t = failure_id i0 /\ requested t).
Proof.
  unfold claim_edit. destruct (find_item _ p) as [t|] eqn:Ef; [|done].
  destruct (_ || _) eqn:E; [done|]. intros [= <-]. bool_to_prop.
  assert (pending t) as Hp by (unfold pending; by apply not_false_is_true; congruence).
  destruct (still_first p0 p i0 t W0 W Hev Hf Ef Hp) as (Hu & l1 & l2 & Ei & Hid & Hl1 & Hl2).
  assert (over (state p) -> False) as Ho by (by destruct (state p)).
  set (ch := [SetDispatch DISPATCHING; SetRequested (iso now); SetOutcome OUTCOME_UNKNOWN; SetBaseline baseline]).
  pose proof (on_item_items (failure_id i0) ch p _ _ _ (wf_ids _ W) Ei Hid) as Eo.
  match goal with |- wf_plan ?q /\ _ => enough (wf_plan q /\ evolves p q) as [Hw Hv] end.
  { split; [exact Hw|]. split; [exact Hv|]. split.
    - exists t. rewrite Ei. split; [|done]. apply elem_of_app. right. by left.
    - exists (update_item t ch). split; [|done]. change (update_item t ch ∈ items (on_item (failure_id i0) ch p)).
      rewrite Eo. apply elem_of_app. right. by left. }
  eapply advance_first; try exact Ei; try exact Eo; try exact Hl1; try exact Hl2; try (by apply pending_evolves);
    cbn; try done; try lia.
Qed.
End seen.

(** Changes that record what became of a request. *)
Definition recording (ch : list change_of_item) : Prop :=
  forall d, SetDispatch d ∈ ch -> d = ACCEPTED \/ d = UNKNOWN.

Lemma last_dispatch_in ch d : last_dispatch ch = Some d -> SetDispatch d ∈ ch.
Proof.
  induction ch as [|c ch IH]; [done|]. cbn. destruct (last_dispatch ch) as [x|]; [intros [= ->]; right; by apply IH|].
  destruct c; try done. intros [= ->]. left.
Qed.

Lemma item_edit_ok ch p i now p' : wf_plan p -> i ∈ items p -> requested i -> recording ch ->
  item_edit (failure_id i) ch p now = inl (Some p') -> wf_plan p' /\ evolves p p'.
Proof.
  intros W Hin Hreq Hrec. unfold item_edit. apply list_elem_of_split in Hin as (l1 & l2 & E).
  rewrite (find_item_at _ _ _ _ _ (wf_ids _ W) E eq_refl). destruct (observed (outcome i)) eqn:Eo; [done|].
  destruct (_ && _) eqn:Eg; [done|]. intros [= <-].
  pose proof (on_item_items (failure_id i) ch p _ _ _ (wf_ids _ W) E eq_refl) as E'.
  pose proof (update_dispatch i ch) as Hd.
  assert (last_dispatch ch = None \/ last_dispatch ch = Some ACCEPTED \/ last_dispatch ch = Some UNKNOWN) as Hl.
  { destruct (last_dispatch ch) as [d|] eqn:El; [right|by left].
    destruct (Hrec d (last_dispatch_in _ _ El)) as [->| ->]; [by left|by right]. }
  assert (item_evolves i (update_item i ch) /\ is_pending (update_item i ch) = is_pending i) as [Hi Hp].
  { unfold is_pending, requested in *. destruct Hl as [Hl|[Hl|Hl]]; rewrite Hl in Hd; cbn in Hd.
    - split; [|by rewrite Hd]. constructor; try (by rewrite ?update_inspection, ?update_marker);
        unfold requested; rewrite ?Hd, ?Eo; done.
    - split; [constructor; try (by rewrite ?update_inspection, ?update_marker)|];
        unfold requested; rewrite ?Hd, ?Eo; try done; by destruct (dispatch i).
    - rewrite Hl in Eg. cbn in Eg.
      split; [constructor; try (by rewrite ?update_inspection, ?update_marker)|];
        unfold requested; rewrite ?Hd, ?Eo; try done; by destruct (dispatch i). }
  eapply advance_item; try exact E; try exact E'; done.
Qed.

(** ** The invariant *)

(** What a program knows: a plan it read, and that it may send a request. *)
Inductive fact := Saw (p : plan) | Right (k : failure).

Definition rights (F : list fact) : list failure :=
  omap (fun f => match f with Right k => Some k | Saw _ => None end) F.

Lemma rights_app F o : rights (F ++ o) = (rights F ++ rights o)%list.
Proof. apply omap_app. Qed.

(** A retry of the failure was requested, by its plan's row. *)
Definition is_requested (s : studio) (k : failure) : Prop :=
  exists id row i, plans s !! id = Some row /\ i ∈ items (document row) /\ failure_of (document row) i = k /\ requested i.

Record row_ok (s : studio) (id : string) (p : plan) : Prop := {
  ro_id : plan_id p = id;
  ro_wf : wf_plan p;
  ro_claims : forall i, i ∈ items p -> claims s !! failure_of p i = Some id }.

Record inv (s : studio) (F : list fact) : Prop := {
  inv_rows : forall id row, plans s !! id = Some row -> row_ok s id (document row);
  inv_saw : forall p, Saw p ∈ F -> wf_plan p /\ exists row, plans s !! plan_id p = Some row /\ evolves p (document row);
  inv_once : NoDup (sent s ++ rights F);
  inv_requested : forall k, k ∈ (sent s ++ rights F)%list -> is_requested s k }.

Lemma inv_perm s F F' : F ≡ₚ F' -> inv s F -> inv s F'.
Proof.
  intros HF [H1 H2 H3 H4].
  assert (rights F ≡ₚ rights F') as Hr by (unfold rights; by rewrite HF). constructor.
  - done.
  - intros p Hp. apply H2. by rewrite HF.
  - by rewrite <- Hr.
  - intros k Hk. apply H4. by rewrite Hr.
Qed.

Lemma inv_drop s F o : inv s (F ++ o) -> inv s o.
Proof.
  intros [H1 H2 H3 H4]. rewrite rights_app in *. constructor.
  - done.
  - intros p Hp. apply H2, elem_of_app. by right.
  - rewrite !NoDup_app in *. set_solver.
  - intros k Hk. apply H4. set_solver.
Qed.

Lemma inv_saw_all s F o p : inv s (F ++ o) -> Saw p ∈ F -> wf_plan p /\ exists row, plans s !! plan_id p = Some row /\ evolves p (document row).
Proof. intros Hi Hp. apply (inv_saw _ _ Hi), elem_of_app. by left. Qed.

Lemma failure_of_pinned p p' i i' : pinned p' = pinned p -> failure_id i' = failure_id i -> failure_of p' i' = failure_of p i.
Proof. unfold pinned, failure_of. congruence. Qed.

(** An item of a plan, in a plan it became. *)
Lemma evolved_item p p' i : evolves p p' -> i ∈ items p -> exists i', i' ∈ items p' /\ item_evolves i i'.
Proof.
  intros He. induction (ev_items _ _ He) as [|x y l l' Hx _ IH]; [by intros ?%elem_of_nil|].
  intros [->|Hi]%elem_of_cons; [by exists y; split; [left|]|]. destruct (IH Hi) as (i' & Hi' & H). exists i'. by split; [right|].
Qed.
Lemma evolved_from p p' i' : evolves p p' -> i' ∈ items p' -> exists i, i ∈ items p /\ item_evolves i i'.
Proof.
  intros He. induction (ev_items _ _ He) as [|x y l l' Hx _ IH]; [by intros ?%elem_of_nil|].
  intros [->|Hi]%elem_of_cons; [by exists x; split; [left|]|]. destruct (IH Hi) as (i & Hi' & H). exists i. by split; [right|].
Qed.
Lemma evolves_id i i' : item_evolves i i' -> failure_id i' = failure_id i.
Proof. intros H. unfold failure_id. by rewrite (ie_inspection _ _ H). Qed.

Lemma updated_ok p t : wf_plan p -> wf_plan (set_plan p (SetUpdated t)) /\ evolves p (set_plan p (SetUpdated t)).
Proof. intros W. pose proof (wf_allowance _ W). apply advance_same; cbn; done. Qed.

(** The row of a plan is replaced by what it became. *)
Lemma inv_update s F id row p' poll au : inv s F -> plans s !! id = Some row ->
  wf_plan p' -> evolves (document row) p' ->
  inv (Studio (<[id := PlanRow p' poll]> (plans s)) (claims s) au (sent s)) F.
Proof.
  intros [H1 H2 H3 H4] Hrow W He. pose proof (ev_pinned _ _ He) as Hpin. destruct (H1 _ _ Hrow) as [Hid _ Hc].
  constructor; cbn [plans claims sent].
  - intros id' row' [[<- <-]|[Hne Hl]]%lookup_insert_Some; cbn [document].
    + constructor; [unfold pinned in Hpin; congruence|done|]. intros i' Hi'.
      destruct (evolved_from _ _ _ He Hi') as (i & Hi & Hev).
      rewrite (failure_of_pinned (document row) p' i i' Hpin (evolves_id _ _ Hev)). by apply Hc.
    + destruct (H1 _ _ Hl). by constructor.
  - intros p Hp. destruct (H2 p Hp) as (Wp & r & Hr & Hpr). split; [done|].
    destruct (decide (plan_id p = id)) as [E|Hne].
    + rewrite E in *. assert (r = row) as -> by congruence. exists (PlanRow p' poll). rewrite lookup_insert_eq. split; [done|]. cbn. by etransitivity.
    + exists r. by rewrite lookup_insert_ne.
  - done.
  - intros k Hk. destruct (H4 k Hk) as (id' & r & i & Hr & Hi & Hfi & Hreq).
    destruct (decide (id' = id)) as [->|Hne].
    + assert (r = row) as -> by congruence. destruct (evolved_item _ _ _ He Hi) as (i' & Hi' & Hev).
      exists id, (PlanRow p' poll), i'. cbn [plans]. rewrite lookup_insert_eq. split; [done|]. cbn. split; [done|].
      split; [|by apply (ie_requested _ _ Hev)].
      rewrite <- Hfi. by apply failure_of_pinned; [|apply evolves_id].
    + exists id', r, i. cbn [plans]. by rewrite lookup_insert_ne.
Qed.

(** A fact about the present state. *)
Lemma inv_see s F id row : inv s F -> plans s !! id = Some row -> inv s (Saw (document row) :: F).
Proof.
  intros [H1 H2 H3 H4] Hrow. destruct (H1 _ _ Hrow) as [Hid W _]. constructor; try done.
  intros p [[= ->]|Hp]%elem_of_cons; [|by apply H2]. split; [done|]. exists row. by rewrite Hid.
Qed.

(** A failure whose item was pending may be requested by the one who changed that. *)
Lemma inv_grant s F id row t p' poll au t' : inv s F -> plans s !! id = Some row ->
  wf_plan p' -> evolves (document row) p' -> t ∈ items (document row) -> pending t ->
  t' ∈ items p' -> failure_id t' = failure_id t -> requested t' ->
  inv (Studio (<[id := PlanRow p' poll]> (plans s)) (claims s) au (sent s)) (Right (failure_of p' t') :: F).
Proof.
  intros Hi Hrow W He Ht Hp Ht' Hid Hreq. pose proof (inv_update s F id row p' poll au Hi Hrow W He) as [K1 K2 K3 K4].
  assert (failure_of p' t' = failure_of (document row) t) as Ek.
  { apply failure_of_pinned; [apply He|done]. }
  assert (failure_of p' t' ∉ (sent s ++ rights F)%list) as Hnew.
  { intros Hk. destruct (inv_requested _ _ Hi _ Hk) as (id1 & row1 & i & Hr1 & Hi1 & Hf1 & Hq).
    destruct (inv_rows _ _ Hi _ _ Hrow) as [_ Wr Hc]. destruct (inv_rows _ _ Hi _ _ Hr1) as [_ _ Hc1].
    specialize (Hc t Ht). specialize (Hc1 i Hi1). rewrite Hf1, Ek, Hc in Hc1. injection Hc1 as <-. assert (row1 = row) as -> by congruence.
    rewrite Ek in Hf1. assert (i = t) as ->; [|apply pending_dispatch in Hp; unfold requested in Hq; by rewrite Hp in Hq].
    assert (failure_id i = failure_id t) as Hfid by (unfold failure_of in Hf1; congruence).
    apply list_elem_of_split in Hi1 as (l1 & l2 & E). apply list_elem_of_split in Ht as (m1 & m2 & E').
    pose proof (find_item_at _ _ _ _ _ (wf_ids _ Wr) E eq_refl) as F1.
    pose proof (find_item_at _ _ _ _ _ (wf_ids _ Wr) E' eq_refl) as F2. congruence. }
  constructor; cbn [plans claims sent] in *.
  - done.
  - intros p [Hp0|Hp0]%elem_of_cons; [done|by apply K2].
  - change (rights (Right ?k :: F)) with (k :: rights F). rewrite <- Permutation_middle. by constructor.
  - change (rights (Right ?k :: F)) with (k :: rights F). intros k. rewrite <- Permutation_middle.
    intros [->|Hk]%elem_of_cons; [|by apply K4]. exists id, (PlanRow p' poll), t'. cbn [plans]. by rewrite lookup_insert_eq.
Qed.

(** ** Programs that only read *)

Notation Safe := (safe answers inv).

Fixpoint reads {A} (m : SP A) (Q : A + studio_exn -> Prop) : Prop :=
  match m with
  | Ret a => Q (inl a)
  | Throw x => Q (inr x)
  | Vis e k => forall s s' y, answers s _ e s' y -> s' = s /\ reads (k y) Q
  end.

Lemma reads_mono {A} (m : SP A) (Q Q' : A + studio_exn -> Prop) : reads m Q -> (forall r, Q r -> Q' r) -> reads m Q'.
Proof.
  intros H HQ. induction m as [a|x|Y e k IH]; cbn in *; [by apply HQ..|].
  intros s s' y Ha. destruct (H s s' y Ha) as [-> Hk]. split; [done|by apply IH].
Qed.

Lemma reads_bind {A B} (m : SP A) (f : A -> SP B) Q :
  reads m (fun r => match r with inl a => reads (f a) Q | inr x => Q (inr x) end) -> reads (bind_prog m f) Q.
Proof.
  induction m as [a|x|Y e k IH]; cbn; [done..|]. intros H s s' y Ha. destruct (H s s' y Ha) as [-> Hk].
  split; [done|by apply IH].
Qed.

Lemma reads_attempted {A} (m : SP A) Q : reads m (fun r => Q (inl r)) -> reads (attempted m) Q.
Proof.
  induction m as [a|x|Y e k IH]; cbn; [done..|]. intros H s s' y Ha. destruct (H s s' y Ha) as [-> Hk].
  split; [done|by apply IH].
Qed.

Lemma reads_safe {A} (m : SP A) F (Q : A + studio_exn -> Prop) (Q' : list fact -> A + studio_exn -> Prop) :
  reads m Q -> (forall r, Q r -> Q' F r) -> Safe F m Q'.
Proof.
  intros H HQ. induction m as [a|x|Y e k IH]; cbn in *; [by apply HQ..|].
  intros s o s' y Hi Ha. destruct (H s s' y Ha) as [-> Hk]. exists F. split; [done|by apply IH].
Qed.

Lemma reads_collect {A B} (f : A -> SP B) l : (forall x, reads (f x) (fun _ => True)) -> reads (collect_each f l) (fun _ => True).
Proof.
  intros Hf. induction l as [|x l IH]; [done|]. cbn. apply reads_bind. eapply reads_mono; [apply Hf|].
  intros [y|] _; [|done]. apply reads_bind. eapply reads_mono; [apply IH|]. by intros [ys|].
Qed.

(** Go through a program that only reads. *)
Ltac reads_step :=
  match goal with
  | |- reads (mbind _ _) _ => apply reads_bind
  | |- reads (bind_prog _ _) _ => apply reads_bind
  | |- reads (attempted _) _ => apply reads_attempted
  | |- reads (mret _) _ => cbn [reads mret prog_ret]
  | |- reads (Ret _) _ => cbn [reads]
  | |- reads (Throw _) _ => cbn [reads]
  | |- reads (fail _ _) _ => unfold fail; cbn [reads]
  | |- reads (lifted ?r) _ => unfold lifted; destruct r; cbn [reads]
  | |- reads (await _) _ => intros ? ? ? ->; split; [done|]
  | |- reads (match ?x with _ => _ end) _ => destruct x eqn:?
  | |- match ?x with _ => _ end => destruct x eqn:?
  | |- True => done
  end.
Ltac reads_all := repeat reads_step.

Lemma service_reads id env url :
  reads (service_for id env url) (fun r => match r with
    | inl svc => service_id svc = strip id /\ service_environment svc = env | inr _ => True end).
Proof.
  unfold service_for. apply reads_bind. intros s s' y [-> Hy]. split; [done|].
  destruct y as [svc|e]; [|done]. cbn [reads]. destruct (negb _ || _) eqn:E; [done|]. destruct (_ && _); [|done]. cbn.
  apply orb_false_iff in E as [E _]. bool_to_prop. done.
Qed.

Lemma inspect_reads svc sel : reads (inspect svc sel) (fun _ => True).
Proof. unfold inspect, target_errors. reads_all. Qed.

Lemma preflight_reads p i : reads (preflight p i) (fun r => match r with
    | inl (svc, _) => service_id svc = strip (plan_service p) /\ service_environment svc = plan_environment p | inr _ => True end).
Proof.
  unfold preflight. apply reads_bind. eapply reads_mono; [apply service_reads|]. intros [svc|] Hs; [|done].
  unfold actor_allowed, select_again. repeat first [reads_step | eapply reads_mono; [apply inspect_reads|intros [?|?] _]]; done.
Qed.

Lemma recording_app a b : recording a -> recording b -> recording (a ++ b).
Proof. intros Ha Hb d [Hd|Hd]%elem_of_app; [by apply Ha|by apply Hb]. Qed.

Lemma recording_forall ch : Forall (fun c => match c with SetDispatch d => d = ACCEPTED \/ d = UNKNOWN | _ => True end) ch -> recording ch.
Proof. intros H d Hd. rewrite Forall_forall in H. by apply (H _ Hd). Qed.

(** Changes written out. *)
Ltac recorded := apply recording_forall; repeat (apply Forall_cons_2; [first [exact Logic.I|by left|by right]|]); exact (Forall_nil_2 _).

Definition recorded_try (r : outcome_of_try + studio_exn) : Prop :=
  match r with inl (ch, _) => recording ch | inr _ => True end.

Lemma step_of_try_reads {A} (m : SP A) ch k (Q : A -> Prop) : recording ch ->
  reads m (fun r => match r with inl a => Q a | inr _ => True end) -> (forall a, Q a -> reads (k a) recorded_try) ->
  reads (step_of_try m ch k) recorded_try.
Proof.
  intros Hc Hm Hk. apply reads_bind, reads_attempted. eapply reads_mono; [apply Hm|]. intros [a|e] Ha; [by apply Hk|].
  cbn. destruct (caught e); cbn; [apply recording_app; [done|recorded]|exact Hc].
Qed.

Lemma evidence_reads svc i a r : reads (terminal_evidence svc i a r) (fun r => match r with inl ch => recording ch | inr _ => True end).
Proof. unfold terminal_evidence, baseline_time. reads_all; repeat case_match; recorded. Qed.

Lemma observe_accepted_reads svc i ch : recording ch -> reads (observe_accepted svc i ch) recorded_try.
Proof.
  intros Hc. unfold observe_accepted.
  assert (forall m, recording (ch ++ [SetOutcome OUTCOME_UNKNOWN; SetMessage m])) as Hno by (intros m; apply recording_app; [done|recorded]).
  destruct (replacement_task_id _); try apply Hno. destruct (String.eqb _ _); [apply Hno|].
  eapply step_of_try_reads; [done|apply evidence_reads|]. intros more Hm. by apply recording_app.
Qed.

Lemma observe_body_reads p i ch : recording ch -> reads (observe_body p i ch) recorded_try.
Proof.
  intros Hc. unfold observe_body. eapply (step_of_try_reads _ _ _ (fun _ => True)); [done| |].
  { eapply reads_mono; [apply service_reads|]. by intros []. }
  intros svc _. case_bool_decide; [by apply observe_accepted_reads|].
  eapply (step_of_try_reads _ _ _ (fun r => match r with Some more => recording more | None => True end)); [done| |].
  { unfold find_receipt, first_word. reads_all; first [done|recorded]. }
  intros [more|] Hm; [apply observe_accepted_reads; by apply recording_app|].
  apply recording_app; [done|recorded].
Qed.

(** ** Transactions *)

(** What [F] says of the plan of the row. *)
Definition seen_as (F : list fact) (id : string) (p : plan) : Prop :=
  forall p0, Saw p0 ∈ F -> plan_id p0 = id -> wf_plan p0 /\ evolves p0 p.

Lemma inv_seen_as s F o id row : inv s (F ++ o) -> plans s !! id = Some row -> seen_as F id (document row).
Proof.
  intros Hi Hr p0 Hp <-. destruct (inv_saw_all _ _ _ _ Hi Hp) as (W & row' & Hr' & He).
  split; [done|]. by assert (row' = row) as -> by congruence.
Qed.

Definition edit_ok (F : list fact) (id : string) (f : edit) : Prop :=
  forall p now p', wf_plan p -> seen_as F id p -> f p now = inl (Some p') -> wf_plan p' /\ evolves p p'.

Lemma change_row_inv s F o id f action start now : inv s (F ++ o) -> edit_ok F id f ->
  inv (change_row s id f action start now).1 (F ++ o).
Proof.
  intros Hi Hf. unfold change_row. destruct (plans s !! id) as [row|] eqn:Er; [|done].
  destruct (f (document row) now) as [[p|]|] eqn:Ef; [|done..].
  destruct (Hf _ _ _ (ro_wf _ _ _ (inv_rows _ _ Hi _ _ Er)) (inv_seen_as _ _ _ _ _ Hi Er) Ef) as [W He].
  destruct (updated_ok p (iso now) W) as [W' He']. cbn [fst].
  apply (inv_update _ _ _ _ _ _ _ Hi Er W'). by etransitivity.
Qed.

Lemma safe_change {A} F id f action (k : (plan * bool) + studio_exn -> SP A) Q :
  edit_ok F id f -> (forall y, Safe F (k y) Q) -> Safe F (Vis (EChange id f action) k) Q.
Proof.
  intros Hf Hk s o s' y Hi [[-> _]|(start & now & -> & _)]; exists F; [done|].
  split; [by apply change_row_inv|done].
Qed.

(** A program that changes a row and forgets the answer. *)
Lemma safe_await_change {A} F id f action (k : plan * bool -> SP A) (Q : list fact -> A + studio_exn -> Prop) :
  edit_ok F id f -> (forall e, Q F (inr e)) -> (forall y, Safe F (k y) Q) ->
  Safe F (bind_prog (await (EChange id f action)) k) Q.
Proof. intros Hf He Hk. apply (safe_change F id f action); [done|]. intros [y|e]; [apply Hk|apply He]. Qed.

(** What the answer to a claim says. *)
Lemma safe_claim {A} F p0 i0 baseline action (k : (plan * bool) + studio_exn -> SP A) Q :
  Saw p0 ∈ F -> find_first is_pending (items p0) = Some i0 ->
  (forall y, match y with inl (_, true) => False | _ => True end -> Safe F (k y) Q) ->
  (forall p' t, t ∈ items p' -> failure_id t = failure_id i0 -> requested t -> pinned p' = pinned p0 ->
     Safe (Right (failure_of p0 i0) :: Saw p' :: F) (k (inl (p', true))) Q) ->
  Safe F (Vis (EChange (plan_id p0) (claim_edit (failure_id i0) p0 baseline) action) k) Q.
Proof.
  intros Hsaw Hf Hno Hyes s o s' y Hi [[-> [e ->]]|(start & now & -> & Hy)]; [exists F; by split; [|apply Hno]|].
  set (f := claim_edit (failure_id i0) p0 baseline) in *. unfold change_row in *.
  destruct (plans s !! plan_id p0) as [row|] eqn:Er.
  2: { exists F. split; [done|]. apply Hno. destruct Hy as [-> |[e ->]]; done. }
  destruct (f (document row) now) as [[p|]|] eqn:Ef.
  2,3: exists F; (split; [done|]); apply Hno; destruct Hy as [-> |[e ->]]; done.
  destruct (inv_seen_as _ _ _ _ _ Hi Er p0 Hsaw eq_refl) as [W0 Hev].
  pose proof (ro_wf _ _ _ (inv_rows _ _ Hi _ _ Er)) as Wr.
  destruct (claim_edit_ok p0 (document row) i0 W0 Wr Hev Hf _ _ _ Ef) as (W & He & (t & Ht & Htid & Htp) & (t' & Ht' & Htid' & Hreq)).
  destruct (updated_ok p (iso now) W) as [W' He']. pose proof (transitivity (R := evolves) He He') as Hall. cbn [fst snd] in *.
  destruct Hy as [-> |[e ->]].
  2: { exists F. split; [by apply (inv_update _ _ _ _ _ _ _ Hi Er)|]. by apply Hno. }
  set (q := set_plan p (SetUpdated (iso now))) in *.
  assert (pinned q = pinned p0) as Hpin by (rewrite (ev_pinned _ _ Hall); apply Hev).
  exists (Right (failure_of p0 i0) :: Saw q :: F). split; [|by apply (Hyes q t')].
  assert (failure_of p0 i0 = failure_of q t') as -> by (symmetry; by apply failure_of_pinned).
  eapply inv_perm; [apply perm_swap|]. eapply (inv_see _ _ (plan_id p0) (PlanRow q _)); [|apply lookup_insert_eq].
  eapply inv_grant; try exact Hi; try exact Er; try exact W'; try exact Hall; try exact Ht; try exact Ht'; try done. congruence.
Qed.

(** A send uses its right up. *)
Lemma safe_send {A} F svc id payload (k : pydict + studio_exn -> SP A) Q :
  (forall y, Safe F (k y) Q) -> Safe (Right (failure_sent svc id) :: F) (Vis (ESend svc id payload) k) Q.
Proof.
  intros Hk s o s' y Hi [-> |[-> _]]; exists F; (split; [|done]).
  - destruct Hi as [H1 H2 H3 H4]. cbn [app] in *. change (rights (Right ?x :: ?l)) with (x :: rights l) in *.
    assert ((sent s ++ [failure_sent svc id]) ++ rights (F ++ o) = sent s ++ failure_sent svc id :: rights (F ++ o))%list as E
      by by rewrite <- app_assoc.
    constructor; cbn [plans claims sent]; rewrite ?E; try done.
    + intros id' row Hr. destruct (H1 _ _ Hr). by constructor.
    + intros p Hp. apply H2. by right.
  - by apply (inv_drop _ [Right (failure_sent svc id)]).
Qed.

Lemma item_change_safe F p i ch action : Saw p ∈ F -> i ∈ items p -> requested i -> recording ch ->
  Safe F (item_change (plan_id p) (failure_id i) ch action) (fun F' _ => F' = F).
Proof.
  intros Hs Hi Hr Hc. apply safe_await_change; [|done..]. intros q now q' W Hsaw E.
  destruct (Hsaw p Hs eq_refl) as [_ Hev]. destruct (evolved_item _ _ _ Hev Hi) as (j & Hj & Hij).
  rewrite <- (evolves_id _ _ Hij) in E. eapply item_edit_ok; try exact E; try done. by apply (ie_requested _ _ Hij).
Qed.

(** ** The programs *)

Lemma send_claimed_safe F p0 p' i0 t service :
  Saw p' ∈ F -> pinned p' = pinned p0 -> t ∈ items p' -> failure_id t = failure_id i0 -> requested t ->
  failure_sent service (failure_id i0) = failure_of p0 i0 ->
  Safe (Right (failure_of p0 i0) :: F) (send_claimed p0 p' service (failure_id i0)) (fun _ _ => True).
Proof.
  intros Hs Hpin Ht Hid Hreq Hk. unfold send_claimed. destruct (find_item _ p') as [i|]; [|done].
  rewrite <- Hk. apply safe_bind, safe_attempted. apply safe_send. intros y.
  assert (forall ch, recording ch ->
    Safe F (item_change (plan_id p0) (failure_id i0) ch "recovery.dispatch.recorded") (fun _ _ => True)) as Hitem.
  { intros ch Hc. assert (plan_id p0 = plan_id p') as -> by (unfold pinned in Hpin; congruence). rewrite <- Hid.
    eapply safe_mono; [by apply item_change_safe|done]. }
  assert (forall r : list change_of_item + studio_exn, match r with inl ch => recording ch | inr _ => True end ->
    Safe F (changes ← match r with
                      | inl ch => mret ch
                      | inr e => if match e with OtherError x => is_exception x | _ => true end
                          then mret [SetDispatch UNKNOWN; SetOutcome OUTCOME_UNKNOWN; SetMessage (Some (studio_text e))]
                          else Throw e
                      end;
            item_change (plan_id p0) (failure_id i0) changes "recovery.dispatch.recorded") (fun _ _ => True)) as Hrec.
  { intros [ch|e] Hc; cbn; [by apply Hitem|]. destruct (match e with OtherError x => is_exception x | _ => true end); cbn; [|done].
    apply Hitem. recorded. }
  destruct y as [resp|e]; cbn [bind_prog]; [|by apply (Hrec (inr e))].
  unfold receipt_changes. destruct (_ || _); cbn [attempted]; apply (Hrec _); [done|recorded].
Qed.

Lemma dispatch_safe F p : Saw p ∈ F -> strip (plan_service p) = plan_service p -> Safe F (dispatch_next p) (fun _ _ => True).
Proof.
  intros Hs Hstrip. unfold dispatch_next. destruct (find_first is_pending (items p)) as [i|] eqn:Ef; [|done].
  destruct (negb _); [done|]. destruct (_ <=? _) eqn:Eu; [done|]. bool_to_prop.
  apply safe_bind, safe_attempted. eapply reads_safe; [apply preflight_reads|].
  intros [[svc current]|e] Hr; cbn [safe].
  - destruct Hr as [H1 H2]. apply (safe_claim F p i); [done|done| |].
    + by intros [[q []]|e] Hy.
    + intros q t Ht Hid Hreq Hpin. cbn. apply (send_claimed_safe (Saw q :: F) p q i t); try done; [by left|].
      unfold failure_sent, failure_of. by rewrite H1, H2, Hstrip.
  - destruct (caught e); [|done]. apply safe_await_change; [|done..].
    intros q now q' W Hsaw E. destruct (Hsaw p Hs eq_refl) as [W0 Hev]. by eapply (block_edit_ok p q i).
Qed.

Lemma observe_safe F p i : Saw p ∈ F -> i ∈ items p -> Safe F (observe_outcome p i) (fun F' _ => F' = F).
Proof.
  intros Hs Hi. unfold observe_outcome. destruct (unobserved i) eqn:Eu; [|done]. cbn [negb].
  assert (requested i) as Hreq by (unfold unobserved, requested in *; by destruct (dispatch i)).
  intros s o s' now Hinv ->. exists F. split; [done|].
  cbv zeta. unfold prog_bind at 1. cbn [bind_prog]. match goal with |- context [if ?a && ?b then _ else _] => destruct (a && b); [done|] end.
  apply safe_bind. eapply reads_safe; [apply observe_body_reads|].
  { destruct (bool_decide _); recorded. }
  intros [[ch raised]|e] Hc; [|done]. cbn in Hc. apply safe_bind.
  eapply safe_mono; [apply item_change_safe; try done|].
  - destruct (out_of_date _ _ _); [|done]. apply recording_app; [done|recorded].
  - intros F' [[]|e] ->; [|done]. by destruct raised.
Qed.

Lemma safe_get {A} F id (k : plan + studio_exn -> SP A) Q :
  (forall p, plan_id p = id -> Safe (Saw p :: F) (k (inl p)) Q) -> (forall e, Safe F (k (inr e)) Q) ->
  Safe F (Vis (EGet id) k) Q.
Proof.
  intros Hp He s o s' y Hi [-> Hy]. destruct y as [p|e]; [|exists F; by split].
  apply fmap_Some in Hy as (row & Hr & ->). exists (Saw (document row) :: F). split; [|apply Hp, (inv_rows _ _ Hi _ _ Hr)].
  by eapply (inv_see _ _ id row).
Qed.

Lemma due_row_inv s F id row now : inv s F -> plans s !! id = Some row ->
  inv (due_row s id now).1 (Saw (document row) :: F) /\ (due_row s id now).2 = Some (document row).
Proof.
  intros Hi Hr. unfold due_row. rewrite Hr. split; [|done]. cbn [fst].
  eapply (inv_see _ _ id (PlanRow (document row) _)); [|apply lookup_insert_eq].
  eapply inv_update; [done|exact Hr|apply (inv_rows _ _ Hi _ _ Hr)|done].
Qed.

Lemma safe_due {A} F (k : option plan + studio_exn -> SP A) Q :
  (forall p, strip (plan_service p) = plan_service p -> Safe (Saw p :: F) (k (inl (Some p))) Q) ->
  Safe F (k (inl None)) Q -> (forall e, Safe F (k (inr e)) Q) -> Safe F (Vis EDue k) Q.
Proof.
  intros Hp Hn He s o s' y Hi [[-> Hy]|(id & row & now & Hr & _ & -> & Hy)].
  - exists F. split; [done|]. by destruct Hy as [-> |[e ->]].
  - destruct (due_row_inv s (F ++ o) id row now Hi Hr) as [Hi' Hd]. rewrite Hd in Hy.
    destruct Hy as [-> |[e ->]].
    + exists (Saw (document row) :: F). split; [done|]. apply Hp, (inv_rows _ _ Hi _ _ Hr).
    + exists F. split; [|done]. by apply (inv_drop _ [Saw (document row)]).
Qed.

Lemma tick_safe F : Safe F tick (fun _ _ => True).
Proof.
  unfold tick. apply safe_due; [|done..]. intros p Hstrip. cbn [bind_prog mbind]. apply safe_bind.
  eapply safe_mono; [apply dispatch_safe; [left|done]|]. intros F1 [[]|e] _; [|done].
  apply safe_get; [|done]. intros q _. cbn [bind_prog]. apply safe_bind.
  eapply safe_mono; [apply (safe_each _ _ _ _ (fun F => Saw q ∈ F))|].
  - left.
  - intros i F2 Hi Hs. eapply safe_mono; [apply observe_safe; [done|]|].
    + apply elem_of_take in Hi as (n & Hn & _). apply list_elem_of_lookup_2 in Hn.
      apply sort_by_elem in Hn. apply list_elem_of_In, filter_In in Hn as [Hn _]. by apply list_elem_of_In.
    + by intros F3 r ->.
  - intros F2 [[]|e] _; [|done]. apply safe_await_change; [|done..].
    intros r now r' W _. by apply settle_edit_ok.
Qed.

Lemma control_safe F id c actor : 1 <= ctl_count c -> Safe F (control id c actor) (fun _ _ => True).
Proof.
  intros Hc. apply safe_await_change; [|done|by intros []]. intros p now p' W _. by apply control_edit_ok.
Qed.

(** ** Creation *)

Lemma claimed_keys (c : gmap failure string) keys id k :
  foldr (fun k c => <[k := id]> c) c keys !! k = if decide (k ∈ keys) then Some id else c !! k.
Proof.
  induction keys as [|x keys IH]; cbn; [done|]. destruct (decide (k = x)) as [->|Hne].
  - rewrite lookup_insert_eq. by rewrite decide_True by left.
  - rewrite lookup_insert_ne by done. rewrite IH. repeat case_decide; try done; set_solver.
Qed.

Lemma create_row_inv s F p now : inv s F -> Forall pending (items p) -> allowance p = 0 ->
  strip (plan_service p) = plan_service p -> inv (create_row s p now).1 F.
Proof.
  intros Hi Hp Ha Hs. unfold create_row. destruct (plans s !! plan_id p) as [row|] eqn:Er; [by destruct (String.eqb _ _)|].
  destruct (_ || _) eqn:E; [done|]. cbn [fst]. bool_to_prop.
  set (keys := map (failure_of p) (items p)) in *.
  assert (forall k, k ∈ keys -> claims s !! k = None) as Hfree.
  { intros k Hk. apply eq_None_not_Some. intros Hk'. apply not_true_iff_false in H. apply H, existsb_exists.
    exists k. split; [by apply list_elem_of_In|]. by apply bool_decide_eq_true. }
  assert (wf_plan p) as W.
  { assert (used p = 0) as Hu.
    { unfold used. clear -Hp. induction Hp as [|x l Hx _ IH]; [done|]. cbn. unfold pending in Hx. by rewrite Hx. }
    constructor; [|rewrite Hu, Ha; unfold total; lia|by exists [], (items p)|done].
    unfold keys, failure_of in H0. rewrite <- (map_map failure_id) in H0. by apply NoDup_fmap_1 in H0. }
  destruct Hi as [H1 H2 H3 H4]. constructor; cbn [plans claims sent].
  - intros id row [[<- <-]|[Hne Hl]]%lookup_insert_Some; cbn [document].
    + constructor; [done|done|]. intros i Hi. cbn [claims]. rewrite claimed_keys, decide_True; [done|].
      by apply list_elem_of_fmap_2.
    + destruct (H1 _ _ Hl) as [K1 K2 K3]. constructor; [done|done|]. intros i Hi. cbn [claims]. rewrite claimed_keys.
      specialize (K3 i Hi). case_decide as Hk; [|done]. by rewrite (Hfree _ Hk) in K3.
  - intros q Hq. destruct (H2 q Hq) as (Wq & row & Hr & He). split; [done|]. exists row.
    rewrite lookup_insert_ne; [done|]. intros E. by rewrite E, Hr in Er.
  - done.
  - intros k Hk. destruct (H4 k Hk) as (id & row & i & Hr & Hi). exists id, row, i. cbn [plans].
    rewrite lookup_insert_ne; [done|]. intros E. by rewrite E, Hr in Er.
Qed.

Lemma create_safe F c actor : Safe F (create c actor) (fun _ _ => True).
Proof.
  unfold create. apply safe_bind, safe_attempted. apply safe_get.
  - intros p _. cbn [safe mbind prog_bind bind_prog]. by destruct (String.eqb _ _).
  - intros e. cbn [safe]. destruct e; try done. apply safe_bind.
    eapply reads_safe.
    { instantiate (1 := fun r => match r with inl (svc, _, _) => strip (service_id svc) = service_id svc | inr _ => True end).
      unfold preview. apply reads_bind. eapply reads_mono; [apply service_reads|]. intros [svc|] Hs; [|done].
      apply reads_bind. eapply reads_mono.
      - apply reads_collect. intros sel. unfold preview_item. apply reads_bind, reads_attempted.
        eapply reads_mono; [apply inspect_reads|]. intros [i|[]] _; done.
      - intros [l|] _; [|done]. cbn. destruct Hs as [-> _]. apply strip_idem. }
    intros [[[svc l] dig]|e] Hs; cbn [safe]; [|done]. destruct (_ || _); [done|].
    intros s o s' now Hi ->. exists F. split; [done|]. cbn [safe bind_prog].
    intros s1 o1 s1' y Hi1 [[-> _]|(now1 & -> & _)]; exists F; (split; [|by destruct y]); [done|].
    apply create_row_inv; try done. cbn [items]. apply Forall_lookup. intros n x Hx.
    rewrite list_lookup_imap in Hx. by apply fmap_Some in Hx as (i & _ & ->).
Qed.

(** ** Every run of Studio *)

(** The worker's tick, and the requests of the operators that pass validation. *)
Definition studio_program (m : SP unit) : Prop :=
  m = tick \/
  (exists id c actor, 1 <= ctl_count c /\ m = (_ ← control id c actor; mret tt)) \/
  (exists c actor, validate_cohort (cr_preview c) = true /\ m = (_ ← create c actor; mret tt)).

Definition empty_studio : studio := Studio ∅ ∅ [] [].
Definition studio_step := pool_step answers studio_program.
Definition reachable (c : studio * list (SP unit)) : Prop := rtc studio_step (empty_studio, []) c.

Lemma programs_safe m : studio_program m -> Safe [] m (fun _ _ => True).
Proof.
  intros [-> |[(id & c & actor & Hc & ->)|(c & actor & _ & ->)]]; [apply tick_safe|apply safe_bind..].
  - eapply safe_mono; [by apply control_safe|]. by intros F [p|e].
  - eapply safe_mono; [apply create_safe|]. by intros F [p|e].
Qed.

Lemma empty_inv : inv empty_studio [].
Proof.
  constructor; cbn.
  - intros id row Hr. by rewrite lookup_empty in Hr.
  - by intros p ?%elem_of_nil.
  - constructor.
  - by intros k ?%elem_of_nil.
Qed.

Lemma reachable_inv c : reachable c -> exists F, inv c.1 F.
Proof.
  intros Hc. eapply (pool_invariant answers inv studio_program); [exact inv_perm|exact inv_drop|exact programs_safe|exact empty_inv|exact Hc].
Qed.

(** C7. A retry is never sent twice: whatever the workers of any number of Studio processes
    and the operators do, in any order, and whatever is lost or fails on the
    way, each failure of a service is requested at most once, by the one plan
    that reserved it. *)
Theorem recovery_never_resends c : reachable c ->
  NoDup (sent c.1) /\ (forall k, k ∈ sent c.1 -> is_requested c.1 k).
Proof.
  intros (F & [_ _ Hn Hr])%reachable_inv. split.
  - by apply NoDup_app in Hn as (Hn & _).
  - intros k Hk. apply Hr, elem_of_app. by left.
Qed.

(** The retries of a plan that were sent. *)
Definition sent_by (s : studio) (id : string) : list failure :=
  filter (fun k => claims s !! k = Some id) (sent s).

(** C8. The operators' allowance bounds what is sent: a plan has sent at most as many retries
    as items left the pending state, these are the first of its items, and they
    are at most as many as its batches allow. *)
Theorem recovery_within_allowance c id row : reachable c -> plans c.1 !! id = Some row ->
  let p := document row in
  Z.of_nat (length (sent_by c.1 id)) <= used p /\ used p <= allowance p <= total p /\ in_order (items p).
Proof.
  intros (F & [Hrows _ Hn Hr])%reachable_inv Hrow p. destruct (Hrows _ _ Hrow) as [Hid [_ W2 W3 _] Hc].
  split; [|done]. unfold used.
  rewrite <- (length_map (failure_of p)). apply inj_le, submseteq_length, NoDup_submseteq.
  - apply NoDup_filter. by apply NoDup_app in Hn as (Hn & _).
  - intros k [Hk Hin]%list_elem_of_filter. destruct (Hr k) as (id' & row' & i & Hr' & Hi & Hf & Hq).
    { apply elem_of_app. by left. }
    destruct (Hrows _ _ Hr') as [_ _ Hc']. specialize (Hc' i Hi). rewrite Hf, Hk in Hc'. injection Hc' as <-.
    assert (row' = row) as -> by congruence. subst k. apply list_elem_of_fmap_2, list_elem_of_In, filter_In.
    split; [by apply list_elem_of_In|]. apply negb_true_iff. unfold is_pending, requested in *.
    apply bool_decide_eq_false. by destruct (dispatch i).
Qed.

(** C9. What a plan recorded is final: as long as Studio runs on, a plan keeps what its
    operator saved, its version does not go back, a dispatch that stopped or
    completed does not start again, an item that was requested is not pending
    again, an accepted one stays accepted, and an observed result is kept. *)
Theorem recovery_only_advances c c' id row : reachable c -> rtc studio_step c c' -> plans c.1 !! id = Some row ->
  exists row', plans c'.1 !! id = Some row' /\ evolves (document row) (document row').
Proof.
  intros Hc Hcc' Hrow.
  destruct (pool_keeps answers inv studio_program inv_perm inv_drop programs_safe [Saw (document row)] empty_studio c c')
    as (F & Hi); [exact empty_inv|exact Hc| |exact Hcc'|].
  - intros F Hi. by apply (inv_see _ _ id).
  - destruct (reachable_inv c Hc) as (F0 & H0). destruct (inv_rows _ _ H0 _ _ Hrow) as [<- _ _].
    destruct (inv_saw _ _ Hi (document row)) as (_ & row' & Hr' & He); [by left|]. by exists row'.
Qed.

(** ** A run *)

Definition demo_service (id : string) : service_record :=
  ServiceRecord (strip id) "Payments" "prod" "http://payments"
    (Some (CapabilityDocument ["failed_tasks.detail"; "failed_tasks.retry"] [])).
Definition demo_failure (id : string) : pydict :=
  [("failure_id", PStr id); ("task_id", PStr "t-1"); ("status", PStr "DLQ"); ("payload_available", PBool true);
   ("raw_body_b64", PStr "e30="); ("retry_status", PStr "not_retried"); ("source_queue_name", PStr "payments.tasks")].
Definition demo_receipt (id : string) : pydict :=
  [("failure_id", PStr id); ("retry_status", PStr "retried"); ("retried_at", PStr "2024-03-01T00:00:01Z");
   ("retried_task_id", PStr "t-2")].
Definition demo_now : Z := 1709251200000000.

(** Surroundings that answer at once and never fail. *)
Definition respond (s : studio) (Y : Type) (e : studio_effect Y) : studio * Y :=
  match e in studio_effect Y return studio * Y with
  | EProxyable id => (s, inl (demo_service id))
  | EDetail _ id => (s, inl (demo_failure id))
  | ETopology _ => (s, inl [])
  | EStatus _ _ => (s, inl [])
  | ESend svc id _ => (Studio (plans s) (claims s) (audits s) (sent s ++ [failure_sent svc id]), inl (demo_receipt id))
  | EMember _ => (s, inl None)
  | ENow => (s, demo_now)
  | EGet id => (s, match document <$> plans s !! id with Some p => inl p | None => inr (HttpError 404 "") end)
  | EDue => match List.filter (fun kr => next_poll_at kr.2 <=? demo_now) (map_to_list (plans s)) with
            | (id, _) :: _ => ((due_row s id demo_now).1, inl (due_row s id demo_now).2)
            | [] => (s, inl None)
            end
  | ECreate p => create_row s p demo_now
  | EChange id f action => change_row s id f action demo_now demo_now
  end.

Lemma respond_answers s Y (e : studio_effect Y) : answers s Y e (respond s Y e).1 (respond s Y e).2.
Proof.
  destruct e; cbn; try done.
  - by left.
  - split; [done|]. by destruct (document <$> plans s !! id).
  - destruct (List.filter _ _) as [|[id row] l] eqn:E; [left; split; [done|by left]|]. right.
    assert ((id, row) ∈ List.filter (fun kr => next_poll_at kr.2 <=? demo_now) (map_to_list (plans s))) as Hin by (rewrite E; by left).
    apply list_elem_of_In, filter_In in Hin as [Hin Hp]. apply list_elem_of_In, elem_of_map_to_list in Hin. cbn in Hp. bool_to_prop.
    exists id, row, demo_now. split; [done|]. split; [done|]. split; [done|by left].
  - right. exists demo_now. split; [done|by left].
  - right. exists demo_now, demo_now. split; [done|by left].
Qed.

(** A program run to its end with those surroundings. *)
Fixpoint drive {A} (s : studio) (m : SP A) : studio :=
  match m with Ret _ | Throw _ => s | Vis e k => drive (respond s _ e).1 (k (respond s _ e).2) end.

Lemma drive_steps s m : rtc studio_step (s, [m]) (drive s m, []).
Proof.
  revert s. induction m as [a|x|Y e k IH]; intros s; cbn [drive].
  1, 2: apply rtc_once; apply (pool_lost answers studio_program s [] _ []).
  eapply rtc_l; [|apply IH]. apply (pool_run answers studio_program s _ Y e k _ [] []), respond_answers.
Qed.

Lemma drive_reachable s m : reachable (s, []) -> studio_program m -> reachable (drive s m, []).
Proof.
  intros Hs Hm. unfold reachable. transitivity (s, [m]); [|apply drive_steps].
  eapply rtc_r; [exact Hs|]. by apply (pool_start answers studio_program s m []).
Qed.

Definition demo_preview : preview_request :=
  PreviewRequest "svc" "prod" [Selection "f-1" None PNone; Selection "f-2" None PNone] 2 "".
Definition demo_digest : string := Eval vm_compute in
  match (fix result (s : studio) (m : SP (service_record * list previewed * string)) : string :=
           match m with Ret (_, _, d) => d | Throw _ => "" | Vis e k => result (respond s _ e).1 (k (respond s _ e).2) end)
        empty_studio (preview demo_preview) with d => d end.
Definition demo_request : create_request := CreateRequest demo_preview "plan-1" demo_digest.

(** A plan of two failures, one of which is authorised and dispatched. *)
Definition demo_studio : studio :=
  drive (drive (drive empty_studio (_ ← create demo_request None; mret tt))
           (_ ← control "plan-1" (ControlRequest BATCH 1 0) None; mret tt)) tick.

Lemma demo_reachable : reachable (demo_studio, []).
Proof.
  unfold demo_studio. apply drive_reachable; [|by left]. apply drive_reachable.
  2: { right. left. eexists _, _, _. split; [|done]. cbn. lia. }
  apply drive_reachable; [apply rtc_refl|]. right. right. eexists _, _. split; [|done]. reflexivity.
Qed.

Lemma recovery_never_resends_witness : sent demo_studio = [("svc", "prod", "f-1")] /\ NoDup (sent demo_studio).
Proof. split; [vm_compute; reflexivity|]. apply (recovery_never_resends (demo_studio, []) demo_reachable). Defined.

Definition demo_row : plan_row := from_opt (PlanRow (Plan "" "" "" "" "" [] 0 "" "" "" None READY 0 0 "" None None None None "") 0)
  (plans demo_studio !! "plan-1").

Lemma recovery_within_allowance_witness :
  used (document demo_row) = 1 /\ allowance (document demo_row) = 1 /\
  Z.of_nat (length (sent_by demo_studio "plan-1")) <= used (document demo_row).
Proof.
  split; [vm_compute; reflexivity|]. split; [vm_compute; reflexivity|].
  apply (recovery_within_allowance (demo_studio, []) "plan-1" demo_row demo_reachable). vm_compute. reflexivity.
Defined.

Lemma recovery_only_advances_witness :
  exists row', plans (drive demo_studio tick) !! "plan-1" = Some row' /\ evolves (document demo_row) (document row').
Proof.
  apply (recovery_only_advances (demo_studio, []) (drive demo_studio tick, []) "plan-1" demo_row demo_reachable).
  - transitivity (demo_studio, [tick]); [|apply drive_steps].
    apply rtc_once, (pool_start answers studio_program demo_studio tick []). by left.
  - vm_compute. reflexivity.
Defined.
