(* ===== verification/WorkflowConsumer.v ===== *)
(** * Workflow consumer (consumer/workflow_consumer.py)

    One delivery to a workflow stage: validation against the stage's contract,
    deduplication, the lease, the handler under the stage's timeout, and the
    retry decision. *)

From S2P Require Import Prelude PyStr PyVal Contracts Policies Transport DlqModels LeaseStore.
From S2P Require Import Effects ConsumerContext TaskConsumer TopologyBase WorkflowTopology TopicMatch.

Module Workflow.

(** [WorkflowConsumer.__init__], relayna/consumer/workflow_consumer.py:48-94. *)
Record WorkflowConsumer := {
  w_topology : WorkflowTopology;
  w_stage : option string;
  w_queue_name : option string;
  w_name : string;
  w_retry_policy : option RetryPolicy;
  w_retry_statuses : RetryStatusConfig;
  w_sink : bool;
  w_dlq_store : bool;
  w_metrics : bool;
  w_alias_config : option ContractAliasConfig;
  w_contract_store : bool;
  w_lease_store : bool;
  w_lease_enabled : bool;
  w_lease_ttl : Z;
  w_lease_recovery : LeaseRecoveryAction;
  w_lease_owner_id : string }.

(** [_resolve_stage], relayna/consumer/workflow_consumer.py:804-813. *)
Definition resolve_stage (c : WorkflowConsumer) : result string :=
  match w_stage c, w_queue_name c with
  | Some s, _ => Ok s
  | None, None => Raise (runtime_error "WorkflowConsumer requires stage=... or queue_name=...")
  | None, Some q =>
      match find_first (fun s => String.eqb (ws_queue s) q) (stages (w_topology c)) with
      | Some s => Ok (ws_name s)
      | None => Raise (key_error ("No workflow stage is bound to queue '" +:+ q +:+ "'"))
      end
  end.

(** [RetryPolicy], relayna/consumer/context.py:57-68. *)
Definition default_retry_policy : RetryPolicy :=
  {| rp_max_retries := 3; rp_delay_ms := 30000; rp_retry_queue_suffix := ".retry";
     rp_dead_letter_queue_suffix := ".dlq"; rp_retry_priority_step := None |}.

(** [_effective_retry_policy], relayna/consumer/workflow_consumer.py:815-826. *)
Definition effective_retry_policy (c : WorkflowConsumer) (stage : string) :
    result (option RetryPolicy) :=
  s ← workflow_stage (w_topology c) stage;
  match w_retry_policy c, ws_max_retries s, ws_retry_delay_ms s with
  | None, None, None => Ok None
  | _, _, _ =>
      let base := from_opt default_retry_policy (w_retry_policy c) in
      Ok (Some {| rp_max_retries := from_opt (rp_max_retries base) (ws_max_retries s);
                  rp_delay_ms := from_opt (rp_delay_ms base) (ws_retry_delay_ms s);
                  rp_retry_queue_suffix := rp_retry_queue_suffix base;
                  rp_dead_letter_queue_suffix := rp_dead_letter_queue_suffix base;
                  rp_retry_priority_step := rp_retry_priority_step base |})
  end.

(** ** The workflow context *)

(** [WorkflowContext], relayna/consumer/context.py:307-323. *)
Record WorkflowContext := {
  wc_consumer_name : string;
  wc_stage : string;
  wc_raw_payload : pydict;
  wc_correlation_id : option string;
  wc_delivery_tag : option Z;
  wc_redelivered : bool;
  wc_task_id : string;
  wc_message_id : string;
  wc_origin_stage : option string;
  wc_retry_attempt : Z;
  wc_max_retries : option Z;
  wc_source_queue_name : option string;
  wc_headers : pydict }.

(** [WorkflowContext.publish_status], relayna/consumer/context.py:325-360. *)
Definition publish_status (ctx : WorkflowContext) (event : option StatusEventEnvelope)
    (a : status_args) : M unit :=
  _ ← liftM (check_status_args event a);
  match event with
  | None =>
      now ← ask ENow;
      call (EPublishStatus (new_status_event now (wc_task_id ctx) (wc_correlation_id ctx)
              (from_opt [] (sa_meta a)) a))
  | Some e =>
      let meta := match sa_meta a with Some (x :: l) => x :: l | _ => se_meta e end in
      call (EPublishStatus (readdress e (wc_task_id ctx) (wc_correlation_id ctx) meta))
  end.

(** The arguments of the publish methods of the context. *)
Record handoff := {
  ho_payload : pydict;
  ho_action : option string;
  ho_meta : option pydict;
  ho_priority : option Z }.

(** [WorkflowEnvelope(...)]: pydantic checks [0 <= priority <= 255]. *)
(** [publish_to_stage], relayna/consumer/context.py:362-385. *)
Definition new_envelope (ctx : WorkflowContext) (message_id stage : string) (h : handoff) :
    result WorkflowEnvelope :=
  if match ho_priority h with Some p => (p <? 0) || (255 <? p) | None => false end
  then Raise (Exn XValidationError "ValidationError" "priority")
  else Ok {| we_task_id := wc_task_id ctx; we_message_id := message_id;
             we_correlation_id := opt_or (wc_correlation_id ctx) (Some (wc_task_id ctx));
             we_stage := stage; we_origin_stage := Some (wc_stage ctx);
             we_action := ho_action h; we_payload := ho_payload h;
             we_meta := from_opt [] (ho_meta h); we_priority := ho_priority h;
             we_spec_version := "1.0"; we_extra := [] |}.

(** [publish_to_stage], relayna/consumer/context.py:385-394. *)
Definition published_observation (ctx : WorkflowContext) (e : WorkflowEnvelope)
    (routing_key : string) : observation :=
  Obs "WorkflowMessagePublished"
    [("consumer_name", PStr (wc_consumer_name ctx));
     ("queue_name", opt_str (wc_source_queue_name ctx)); ("stage", PStr (we_stage e));
     ("routing_key", PStr routing_key); ("task_id", PStr (wc_task_id ctx));
     ("message_id", PStr (we_message_id e)); ("origin_stage", PStr (wc_stage ctx));
     ("correlation_id", opt_str (we_correlation_id e))].

(** [WorkflowContext.publish_to_stage], relayna/consumer/context.py:362-394. *)
Definition publish_to_stage (t : WorkflowTopology) (has_sink : bool) (ctx : WorkflowContext)
    (stage : string) (h : handoff) : M unit :=
  id ← ask EUuid;
  e ← liftM (new_envelope ctx id stage h);
  _ ← call (EPublishToStage e stage);
  key ← liftM (workflow_publish_routing_key t stage);
  emit_observation has_sink (published_observation ctx e key).

(** The first stage for which the test holds; an unknown stage raises. *)
Fixpoint first_stage (p : string -> result bool) (l : list string) : result (option string) :=
  match l with
  | [] => Ok None
  | s :: rest => b ← p s; if b : bool then Ok (Some s) else first_stage p rest
  end.

(** [_resolve_workflow_stage_for_routing_key], relayna/consumer/context.py:432-448. *)
Definition resolve_workflow_stage_for_routing_key (t : WorkflowTopology) (routing_key : string) :
    result string :=
  let names := workflow_stage_names t in
  published ← first_stage (fun s => k ← workflow_publish_routing_key t s;
                                    Ok (String.eqb k routing_key)) names;
  match published with
  | Some s => Ok s
  | None =>
      bound ← first_stage (fun s => ks ← workflow_binding_keys t s; Ok (str_in routing_key ks)) names;
      match bound with
      | Some s => Ok s
      | None =>
          match find_first (fun r => String.eqb (er_routing_key r) routing_key) (entry_routes t) with
          | Some r => Ok (er_target_stage r)
          | None =>
              matched ← first_stage (fun s => ks ← workflow_binding_keys t s;
                Ok (existsb (fun k => topic_binding_matches k routing_key) ks)) names;
              match matched with
              | Some s => Ok s
              | None => Raise (key_error ("No workflow stage publishes with routing key '"
                          +:+ routing_key +:+ "'"))
              end
          end
      end
  end.

(** [WorkflowContext.publish_workflow_message], relayna/consumer/context.py:396-429. *)
Definition publish_workflow_message (t : WorkflowTopology) (has_sink : bool) (ctx : WorkflowContext)
    (routing_key : string) (h : handoff) : M unit :=
  stage ← liftM (resolve_workflow_stage_for_routing_key t routing_key);
  id ← ask EUuid;
  e ← liftM (new_envelope ctx id stage h);
  _ ← call (EPublishWorkflow e routing_key);
  emit_observation has_sink (published_observation ctx e routing_key).

Section consumer.
Context `{Transport} `{Pydantic}.
Context (c : WorkflowConsumer).

Definition observe (cls : string) (fields : pydict) : M unit :=
  emit_observation (w_sink c) (Obs cls fields).
Definition metric (name stage queue : string) (fields : pydict) : M unit :=
  whenM (w_metrics c) (ask (EMetric name ([("stage", PStr stage); ("queue", PStr queue);
    ("worker_type", PStr "workflow")] ++ fields)%list)).

(** [_publish_retry_status], relayna/consumer/workflow_consumer.py:671-682. *)
Definition publish_retry_status (ctx : WorkflowContext) (next_attempt max_retries : Z) : M unit :=
  if negb (rs_enabled (w_retry_statuses c)) then mret tt
  else except
    (publish_status ctx None
       (status_only (retrying_status (w_retry_statuses c))
          ("Task processing failed. Scheduling retry " +:+ pretty next_attempt +:+ "/"
             +:+ pretty max_retries +:+ ".") None))
    (fun _ => mret tt).

(** [_publish_dead_letter_status], relayna/consumer/workflow_consumer.py:684-695. *)
Definition publish_dead_letter_status (ctx : WorkflowContext) (e : exn) : M unit :=
  if negb (rs_enabled (w_retry_statuses c)) then mret tt
  else except
    (publish_status ctx None
       (status_only (dead_lettered_status (w_retry_statuses c))
          (failure_message e (rs_include_error_message (w_retry_statuses c))) None))
    (fun _ => mret tt).

Definition scheduled_fields (queue_name source_queue_name : string)
    (task_id correlation_id : option string) (retry_attempt max_retries : Z) (reason : string) :
    pydict :=
  [("consumer_name", PStr (w_name c)); ("task_id", opt_str task_id);
   ("queue_name", PStr queue_name); ("source_queue_name", PStr source_queue_name);
   ("correlation_id", opt_str correlation_id); ("retry_attempt", PInt retry_attempt);
   ("max_retries", PInt max_retries); ("reason", PStr reason)].

(** [_publish_retry], relayna/consumer/workflow_consumer.py:697-741. *)
Definition publish_retry (m : message) (md : MessageMetadata)
    (infra : option RetryInfrastructure) (source_queue_name : string) (task_id : option string)
    (retry_attempt max_retries : Z) (reason : string) (exception_type : option string)
    (policy : option RetryPolicy) : M unit :=
  match infra with
  | None => raiseM (runtime_error "Retry infrastructure is not initialized")
  | Some ri =>
      _ ← call (EPublishRaw (RawPublish (ri_retry_queue_name ri) (m_body m) (md_correlation_id md)
            (retry_headers (md_headers md) source_queue_name retry_attempt max_retries reason
               exception_type [])
            (retry_priority policy retry_attempt) (md_content_type md)));
      observe "ConsumerRetryScheduled"
        (scheduled_fields (ri_retry_queue_name ri) source_queue_name task_id (md_correlation_id md)
           retry_attempt max_retries reason)
  end.

(** [_publish_dead_letter], relayna/consumer/workflow_consumer.py:743-802. *)
Definition publish_dead_letter (m : message) (md : MessageMetadata)
    (infra : option RetryInfrastructure) (source_queue_name : string) (task_id : option string)
    (retry_attempt : Z) (reason : string) (exception_type : option string) (policy : RetryPolicy) :
    M unit :=
  match infra with
  | None => raiseM (runtime_error "Retry infrastructure is not initialized")
  | Some ri =>
      let headers := retry_headers (md_headers md) source_queue_name retry_attempt
                       (rp_max_retries policy) reason exception_type [] in
      _ ← call (EPublishRaw (RawPublish (ri_dead_letter_queue_name ri) (m_body m)
            (md_correlation_id md) headers None (md_content_type md)));
      _ ← observe "ConsumerDeadLetterPublished"
        (scheduled_fields (ri_dead_letter_queue_name ri) source_queue_name task_id
           (md_correlation_id md) retry_attempt (rp_max_retries policy) reason);
      persist_dlq_record (w_dlq_store c) (w_sink c) (w_name c) (ri_dead_letter_queue_name ri)
        source_queue_name (ri_retry_queue_name ri) task_id (md_correlation_id md) reason
        exception_type retry_attempt (rp_max_retries policy) headers (md_content_type md)
        (m_body m) None
  end.

(** [_cleanup_dedup_state], relayna/consumer/workflow_consumer.py:828-863. *)
Definition cleanup_dedup_state (stage task_id : string) (action : option string) (payload : pydict)
    (fields : list string) : M unit :=
  if negb (w_contract_store c) then mret tt
  else
    _ ← except (call (EClearInflight stage task_id action payload fields)) (fun _ => mret tt);
    except (call (EDedupRelease stage task_id action payload fields)) (fun _ => mret tt).

(** [_build_workflow_lease], relayna/consumer/workflow_consumer.py:640-658. *)
Definition build_workflow_lease (now : Z) (w : WorkflowEnvelope) (ctx : WorkflowContext)
    (stage : string) : TaskLease :=
  {| lease_id := if String.eqb (we_message_id w) "" then we_task_id w +:+ ":" +:+ stage
                 else we_message_id w;
     tl_task_id := we_task_id w; owner_id := w_lease_owner_id c; consumer_name := w_name c;
     acquired_at := now; heartbeat_at := now; expires_at := now + w_lease_ttl c;
     tl_message_id := Some (we_message_id w); tl_task_type := we_action w; tl_workflow_id := None;
     tl_stage := Some stage; tl_attempt := wc_retry_attempt ctx;
     recovery_action := w_lease_recovery c |}.

Definition message_fields (w : WorkflowEnvelope) (ctx_correlation : option string)
    (stage queue : string) : pydict :=
  [("consumer_name", PStr (w_name c)); ("queue_name", PStr queue); ("stage", PStr stage);
   ("routing_key", PNone); ("task_id", PStr (we_task_id w));
   ("message_id", PStr (we_message_id w)); ("origin_stage", opt_str (we_origin_stage w));
   ("correlation_id", opt_str ctx_correlation)].

(** [_handle_message_impl], relayna/consumer/workflow_consumer.py:447-470. *)
Definition stage_failed (w : WorkflowEnvelope) (ctx : WorkflowContext) (stage queue : string)
    (exception_type exception_message : string) (requeue : bool) : M unit :=
  observe "WorkflowStageFailed" (message_fields w (wc_correlation_id ctx) stage queue
    ++ [("exception_type", PStr exception_type); ("exception_message", PStr exception_message);
        ("requeue", PBool requeue)])%list.

(** What both [except] blocks do with a failure, a timeout having its own reason. *)
(** [WorkflowConsumer._handle_message_impl], relayna/consumer/workflow_consumer.py:447-598. *)
Definition handle_failure (m : message) (md : MessageMetadata) (infra : option RetryInfrastructure)
    (policy : option RetryPolicy) (w : WorkflowEnvelope) (ctx : WorkflowContext)
    (stage queue : string) (e : exn) : M bool :=
  let reason := match exn_class e with XTimeout => "stage_timeout" | _ => "handler_error" end in
  _ ← stage_failed w ctx stage queue (exn_type e) (exn_text e) false;
  let decision := engine_decide_retry
    {| rc_worker_type := "workflow"; rc_queue_name := queue;
       rc_retry_attempt := wc_retry_attempt ctx; rc_reason := reason;
       rc_exception_type := Some (exn_type e); rc_task_id := Some (we_task_id w);
       rc_task_type := we_action w; rc_workflow_stage := Some stage; rc_headers := wc_headers ctx;
       rc_max_retries := rp_max_retries <$> policy; rc_failure_action := "reject" |} in
  match rd_action decision with
  | REJECT => _ ← call (EReject false); mret false
  | RETRY =>
      match rd_max_retries decision with
      | None => raiseM (runtime_error "Retry decision is missing max_retries")
      | Some max_retries =>
          _ ← metric "record_task_retry" stage queue [];
          _ ← publish_retry m md infra queue (Some (we_task_id w)) (rd_retry_attempt decision)
                max_retries (rd_reason decision) (Some (exn_type e)) policy;
          _ ← publish_retry_status ctx (rd_retry_attempt decision) max_retries;
          mret true
      end
  | DEAD_LETTER =>
      match policy with
      | None => raiseM (runtime_error "Dead-letter retry decision is missing retry policy")
      | Some p =>
          _ ← metric "record_task_dlq" stage queue [];
          _ ← publish_dead_letter m md infra queue (Some (we_task_id w)) (rd_retry_attempt decision)
                (rd_reason decision) (Some (exn_type e)) p;
          _ ← publish_dead_letter_status ctx e;
          mret true
      end
  | REQUEUE => raiseM (runtime_error "Unsupported retry decision action: requeue")
  end.

(** ** The stages of a delivery *)

(** The deduplication key of the message is taken and marked in flight. *)
(** [WorkflowConsumer._handle_message_impl], relayna/consumer/workflow_consumer.py:342-386. *)
Definition enter_dedup (stage : string) (s : WorkflowStage) (w : WorkflowEnvelope) : M bool :=
  let key {X} (f : string -> string -> option string -> pydict -> list string -> eff X) :=
    f stage (we_task_id w) (we_action w) (we_payload w) (dedup_key_fields s) in
  if negb (w_contract_store c) then
    raiseM (runtime_error ("Workflow stage '" +:+ stage
      +:+ "' requires contract_store for dedup enforcement"))
  else
    acquired ← call (key EDedupAcquire);
    if negb acquired then mret false
    else
      _ ← catchM (call (key EMarkInflight))
            (fun e => if is_exception e then _ ← call (key EDedupRelease); raiseM e else raiseM e);
      mret true.

(** The [finally] block. *)
(** [WorkflowConsumer._handle_message_impl], relayna/consumer/workflow_consumer.py:599-623. *)
Definition leave_stage (stage queue : string) (s : WorkflowStage) (w : WorkflowEnvelope)
    (dedup_acquired : bool) (lease : option TaskLease) (outcome : option string) : M unit :=
  _ ← whenM dedup_acquired
        (cleanup_dedup_state stage (we_task_id w) (we_action w) (we_payload w) (dedup_key_fields s));
  _ ← match outcome with
      | Some label => metric "record_task_finished" stage queue [("outcome", PStr label)]
      | None => mret tt
      end;
  match lease with
  | None => mret tt
  | Some l =>
      _ ← catchM (call EHeartbeatStop) (fun e => if is_exception e then raiseM e else mret tt);
      _ ← call (ELeaseRelease (lease_id l) (w_lease_owner_id c));
      mret tt
  end.

(** [try ... finally] around the handler. *)
(** [WorkflowConsumer._handle_message_impl], relayna/consumer/workflow_consumer.py:438-446. *)
Definition run_handler (m : message) (md : MessageMetadata) (infra : option RetryInfrastructure)
    (policy : option RetryPolicy) (w : WorkflowEnvelope) (ctx : WorkflowContext)
    (stage queue : string) (s : WorkflowStage) (dedup_acquired : bool) (lease : option TaskLease) :
    M bool :=
  h ← ask (EWorkflowHandler w (ws_timeout s));
  match ho_result h with
  | Ok _ =>
      _ ← leave_stage stage queue s w dedup_acquired lease (Some "completed");
      _ ← observe "WorkflowStageAcked" (message_fields w (wc_correlation_id ctx) stage queue);
      mret true
  | Raise e =>
      if is_exception e then
        finallyM (handle_failure m md infra policy w ctx stage queue e)
          (fun _ => leave_stage stage queue s w dedup_acquired lease (Some "failed"))
      else finallyM (raiseM e) (fun _ => leave_stage stage queue s w dedup_acquired lease None)
  end.

(** [WorkflowConsumer._handle_message_impl], relayna/consumer/workflow_consumer.py:388-437. *)
Definition handle_stage (m : message) (md : MessageMetadata) (infra : option RetryInfrastructure)
    (policy : option RetryPolicy) (w : WorkflowEnvelope) (ctx : WorkflowContext)
    (stage queue : string) (s : WorkflowStage) (dedup_acquired : bool) : M bool :=
  _ ← metric "record_task_started" stage queue [("retry_attempt", PInt (wc_retry_attempt ctx))];
  if negb (w_lease_enabled c && w_lease_store c) then
    run_handler m md infra policy w ctx stage queue s dedup_acquired None
  else
    now ← ask ENow;
    let lease := build_workflow_lease now w ctx stage in
    acquired ← call (ELeaseAcquire lease);
    if negb acquired then
      _ ← stage_failed w ctx stage queue "LeaseConflict"
            "Workflow message lease is already owned." true;
      _ ← call (EReject true);
      _ ← whenM dedup_acquired (cleanup_dedup_state stage (we_task_id w) (we_action w)
            (we_payload w) (dedup_key_fields s));
      _ ← metric "record_task_finished" stage queue [("outcome", PStr "failed")];
      mret false
    else
      _ ← ask (EHeartbeatStart (lease_id lease));
      run_handler m md infra policy w ctx stage queue s dedup_acquired (Some lease).

(** [WorkflowContext(...)] for a message. *)
Definition make_context (w : WorkflowEnvelope) (md : MessageMetadata) (policy : option RetryPolicy)
    (stage queue : string) : WorkflowContext :=
  {| wc_consumer_name := w_name c; wc_stage := stage; wc_raw_payload := workflow_dump w;
     wc_correlation_id := opt_or (we_correlation_id w) (md_correlation_id md);
     wc_delivery_tag := md_delivery_tag md; wc_redelivered := md_redelivered md;
     wc_task_id := we_task_id w; wc_message_id := we_message_id w;
     wc_origin_stage := we_origin_stage w; wc_retry_attempt := md_retry_attempt md;
     wc_max_retries := rp_max_retries <$> policy; wc_source_queue_name := Some queue;
     wc_headers := md_headers md |}.

(** Reject without a retry policy, dead-letter with one. *)
(** [_handle_message_impl], relayna/consumer/workflow_consumer.py:233-262. *)
Definition refuse (m : message) (md : MessageMetadata) (infra : option RetryInfrastructure)
    (policy : option RetryPolicy) (queue : string) (task_id : option string) (reason : string)
    (exception_type : option string) : M bool :=
  match policy with
  | None => _ ← call (EReject false); mret false
  | Some p =>
      _ ← publish_dead_letter m md infra queue task_id (md_retry_attempt md) reason exception_type p;
      mret true
  end.

(** [WorkflowConsumer._handle_message_impl], relayna/consumer/workflow_consumer.py:233-340. *)
Definition handle_message_impl (m : message) (md : MessageMetadata) (stage queue : string)
    (infra : option RetryInfrastructure) (policy : option RetryPolicy) : M bool :=
  match parse_transport_json (m_body m) with
  | Raise _ => refuse m md infra policy queue None "malformed_json" None
  | Ok payload =>
      let payload := normalize_payload payload (w_alias_config c) in
      match workflow_validate payload with
      | None => refuse m md infra policy queue (coerce_task_id payload) "invalid_envelope"
                  (Some "ValidationError")
      | Some w =>
          violation ← liftM (validate_inbound_message_contract (w_topology c) stage (we_action w)
                               (we_payload w));
          match violation with
          | Some ce => refuse m md infra policy queue (Some (we_task_id w)) (ce_reason ce)
                         (Some "WorkflowContractError")
          | None =>
              _ ← observe "WorkflowMessageReceived"
                    (message_fields w (opt_or (we_correlation_id w) (md_correlation_id md)) stage queue
                     ++ [("delivery_tag", opt_int (md_delivery_tag md));
                         ("redelivered", PBool (md_redelivered md))]);
              let ctx := make_context w md policy stage queue in
              s ← liftM (workflow_stage (w_topology c) stage);
              match dedup_key_fields s with
              | [] => handle_stage m md infra policy w ctx stage queue s false
              | _ =>
                  acquired ← enter_dedup stage s w;
                  if acquired : bool then handle_stage m md infra policy w ctx stage queue s true
                  else refuse m md infra policy queue (Some (we_task_id w)) "dedup_conflict"
                         (Some "WorkflowContractError")
              end
          end
      end
  end.

(** [WorkflowConsumer._handle_message], relayna/consumer/workflow_consumer.py:202-231. *)
Definition handle_message (m : message) (stage queue : string)
    (infra : option RetryInfrastructure) (policy : option RetryPolicy) : M bool :=
  md ← liftM (extract_message_metadata m);
  handle_message_impl m md stage queue infra policy.

(** One message of the consuming loop. *)
(** [WorkflowConsumer.run_forever.handle_message], relayna/consumer/workflow_consumer.py:140-154. *)
Definition deliver (m : message) (stage queue : string) (infra : option RetryInfrastructure)
    (policy : option RetryPolicy) : M unit :=
  acked ← handle_message m stage queue infra policy;
  if acked : bool then call EAck else mret tt.

End consumer.
End Workflow.
