(* ===== verification/WorkflowConsumerSpec.v ===== *)
(** * What a workflow delivery does

    The visible behaviour of [Workflow.deliver], and the deduplication state
    that a failing lease store leaves behind. *)

From S2P Require Import Prelude PyStr PyVal Contracts Policies Transport DlqModels LeaseStore.
From S2P Require Import Effects ConsumerContext TaskConsumer ConsumerDemo TaskConsumerSpec.
From S2P Require Import TopologyBase WorkflowTopology WorkflowConsumer.

Module WorkflowSpec.
Import Workflow.

Section spec.
Context `{Transport} `{Pydantic}.
Context (c : WorkflowConsumer).

Lemma wf_calm_observe cls f : calm (observe c cls f).
Proof. apply calm_emit. Qed.
Lemma wf_calm_metric n s q f : calm (metric c n s q f).
Proof. apply calm_when. by apply calm_ask. Qed.
Lemma silent_status ctx ev a : silent (Workflow.publish_status ctx ev a).
Proof.
  apply silent_bind; [apply silent_lift|]. intros _. destruct ev as [e|].
  - by apply silent_call.
  - apply silent_bind; [by apply silent_ask|]. intros. by apply silent_call.
Qed.
Hint Resolve wf_calm_observe wf_calm_metric silent_status : relayna.

Lemma wf_calm_retry_status ctx a mx : calm (publish_retry_status c ctx a mx).
Proof.
  unfold publish_retry_status. destruct (negb _); [apply calm_ret|].
  apply calm_except; auto with relayna.
Qed.
Lemma wf_calm_dead_letter_status ctx e : calm (publish_dead_letter_status c ctx e).
Proof.
  unfold publish_dead_letter_status. destruct (negb _); [apply calm_ret|].
  apply calm_except; auto with relayna.
Qed.
Lemma calm_stage_failed w ctx s q t x r : calm (stage_failed c w ctx s q t x r).
Proof. apply wf_calm_observe. Qed.
Lemma calm_cleanup s t a p f : calm (cleanup_dedup_state c s t a p f).
Proof.
  unfold cleanup_dedup_state. destruct (negb _); [apply calm_ret|].
  apply calm_bind; [|intros _]; (apply calm_except; [by apply silent_call|auto with relayna]).
Qed.
Hint Resolve wf_calm_retry_status wf_calm_dead_letter_status calm_stage_failed calm_cleanup : relayna.

Lemma silent_leave stage queue s w d lease o : silent (leave_stage c stage queue s w d lease o).
Proof.
  apply silent_bind; [auto with relayna|]. intros _. apply silent_bind.
  { destruct o; auto with relayna. }
  intros _. destruct lease as [l|]; [apply stop_and_release_silent|auto with relayna].
Qed.

(** ** Forwarding *)

(** A message sent on behalf of a delivery. *)
Definition forwarded (m : message) (md : MessageMetadata) (infra : option RetryInfrastructure)
    (policy : option RetryPolicy) (handled : bool) (x : raw_publish) : Prop :=
  exists ri p, infra = Some ri /\ policy = Some p /\ rp_body x = m_body m /\
    if handled && (md_retry_attempt md <? rp_max_retries p)
    then rp_queue x = ri_retry_queue_name ri /\
         retry_attempt_from_headers (rp_headers x) = Ok (md_retry_attempt md + 1)
    else rp_queue x = ri_dead_letter_queue_name ri /\
         retry_attempt_from_headers (rp_headers x) = Ok (md_retry_attempt md).

(** What happens up to the decision to acknowledge: [Ok true] asks for it. *)
Inductive settles (m : message) (md : MessageMetadata) (infra : option RetryInfrastructure)
    (policy : option RetryPolicy) (handled : bool) : list vis -> result bool -> Prop :=
| st_raised l r : unsettled l = true -> is_ok r = false -> settles m md infra policy handled l r
| st_rejected ok r : policy = None -> (is_ok r = true -> ok = true /\ r = Ok false) ->
    settles m md infra policy handled [VReject false ok] r
| st_forwarded x r : forwarded m md infra policy handled x -> (is_ok r = true -> r = Ok true) ->
    settles m md infra policy handled [VRaw x true] r.

Lemma wf_settles_raise m md infra policy handled l r r' : is_ok r' = false ->
  settles m md infra policy handled l r -> settles m md infra policy handled l r'.
Proof.
  intros Hr'. destruct 1; [by apply st_raised|apply st_rejected|apply st_forwarded]; try done;
    by rewrite Hr'.
Qed.

Lemma wf_publish_retry_spec m md ri p queue tid mx reason et : 0 <= md_retry_attempt md ->
  md_retry_attempt md <? rp_max_retries p = true ->
  exists x, forwarded m md (Some ri) (Some p) true x /\
  wpo (publish_retry c m md (Some ri) queue tid (md_retry_attempt md + 1) mx reason et (Some p))
    (publishes x).
Proof.
  intros Hpos Hlt. eexists. split; [|unfold publish_retry; apply wpo_call_bind; cbn; [|by right]].
  2: { intros _. apply wpo_calm; [auto with relayna|by left..]. }
  exists ri, p. cbn [andb rp_body rp_queue rp_headers]. rewrite Hlt. split_and!; try done.
  refine (retry_headers_attempt (md_headers md) queue _ mx reason et [] _). lia.
Qed.

Lemma wf_publish_dead_letter_spec m md ri p handled queue tid reason et : 0 <= md_retry_attempt md ->
  handled && (md_retry_attempt md <? rp_max_retries p) = false ->
  exists x, forwarded m md (Some ri) (Some p) handled x /\
  wpo (publish_dead_letter c m md (Some ri) queue tid (md_retry_attempt md) reason et p) (publishes x).
Proof.
  intros Hpos Hlt. eexists. split; [|unfold publish_dead_letter; apply wpo_call_bind; cbn; [|by right]].
  2: { intros _. apply wpo_calm_bind; [auto with relayna| |by left].
       intros _. apply wpo_calm; [auto with relayna|by left..]. }
  exists ri, p. cbn [andb rp_body rp_queue rp_headers]. rewrite Hlt. split_and!; try done.
  by refine (retry_headers_attempt (md_headers md) queue _ (rp_max_retries p) reason et [] _).
Qed.

Lemma forward_then_true m md infra policy handled (pub status : M unit) :
  (exists x, forwarded m md infra policy handled x /\ wpo pub (publishes x)) \/
    wpo pub (fun l r => l = [] /\ is_ok r = false) ->
  calm status -> wpo (_ ← pub; _ ← status; mret true) (settles m md infra policy handled).
Proof.
  intros [(x & Hx & Hp)|Hp] Hs; apply wpo_bind; (eapply wpo_mono; [exact Hp|]).
  - intros l [[]|e] [->| [-> Hr]]; try done; try by apply st_raised.
    apply wpo_calm_bind; [done| |intros; by apply st_raised]. intros _. by apply st_forwarded.
  - intros l [[]|e] [-> Hr]; try done. by apply st_raised.
Qed.

Lemma wf_refuse_spec m md infra policy queue tid reason et : 0 <= md_retry_attempt md ->
  wpo (refuse c m md infra policy queue tid reason et) (settles m md infra policy false).
Proof.
  intros Hpos. unfold refuse. destruct policy as [p|].
  - pose proof (forward_then_true m md infra (Some p) false
      (publish_dead_letter c m md infra queue tid (md_retry_attempt md) reason et p) (mret tt)) as F.
    apply F; [|apply calm_ret]. destruct infra as [ri|]; [left|by right].
    by eapply wf_publish_dead_letter_spec.
  - apply wpo_call_bind; intros; cbn; by apply st_rejected.
Qed.

Lemma wf_handle_failure_spec m md infra policy w ctx stage queue e : 0 <= md_retry_attempt md ->
  wc_retry_attempt ctx = md_retry_attempt md ->
  wpo (handle_failure c m md infra policy w ctx stage queue e) (settles m md infra policy true).
Proof.
  intros Hpos Hctx. unfold handle_failure.
  apply wpo_calm_bind; [auto with relayna| |intros; by apply st_raised]. intros _.
  unfold engine_decide_retry, decide_static_retry, decide_retry.
  cbn [rc_max_retries rc_retry_attempt rc_reason]. rewrite Hctx.
  destruct policy as [p|]; cbn [fmap option_fmap option_map].
  - destruct (_ <? _) eqn:Hlt; cbn [rd_action rd_max_retries rd_retry_attempt rd_reason].
    all: apply wpo_calm_bind; [auto with relayna| |intros; by apply st_raised]; intros _.
    all: apply forward_then_true; [|auto with relayna]; destruct infra as [ri|]; [left|by right].
    + by eapply wf_publish_retry_spec.
    + by eapply wf_publish_dead_letter_spec.
  - change (String.eqb (lower (rc_failure_action _)) (action_value REQUEUE)) with false.
    cbn [rd_action]. apply wpo_call_bind; intros; cbn; by apply st_rejected.
Qed.

(** ** The stage *)

Inductive stage_trace (m : message) (md : MessageMetadata) (infra : option RetryInfrastructure)
    (policy : option RetryPolicy) : list vis -> result bool -> Prop :=
| sg_refused l r : settles m md infra policy false l r -> stage_trace m md infra policy l r
| sg_done h r : ho_result h = Ok tt -> (is_ok r = true -> r = Ok true) ->
    stage_trace m md infra policy [VHandler h] r
| sg_failed h e l r : ho_result h = Raise e -> settles m md infra policy true l r ->
    stage_trace m md infra policy (VHandler h :: l) r
| sg_conflict ok r : (is_ok r = true -> ok = true /\ r = Ok false) ->
    stage_trace m md infra policy [VReject true ok] r.

Lemma sg_nil m md infra policy e : stage_trace m md infra policy [] (Raise e).
Proof. by apply sg_refused, st_raised. Qed.
Hint Resolve sg_nil : relayna.

Lemma run_handler_spec m md infra policy w ctx stage queue s d lease : 0 <= md_retry_attempt md ->
  wc_retry_attempt ctx = md_retry_attempt md ->
  wpo (run_handler c m md infra policy w ctx stage queue s d lease) (stage_trace m md infra policy).
Proof.
  intros Hpos Hctx. unfold run_handler. apply wpo_ask_bind. intros h.
  cbn [obs omap list_omap visible app]. destruct (ho_result h) as [[]|e] eqn:Hh.
  - apply wpo_bind. eapply wpo_mono; [apply silent_leave|]. intros l [[]|e] ->; [|by apply sg_done].
    apply wpo_calm_bind; [auto with relayna| |intros; by apply sg_done]. intros _. by apply sg_done.
  - destruct (is_exception e); apply wpo_finally.
    + eapply wpo_mono; [by apply wf_handle_failure_spec|]. intros l r Hs.
      eapply wpo_mono; [apply silent_leave|]. intros l' [[]|e'] ->; rewrite app_nil_r;
        eapply sg_failed; eauto using wf_settles_raise.
    + cbn. eapply wpo_mono; [apply silent_leave|]. intros l' [[]|e'] ->; cbn;
        eapply sg_failed; eauto using st_raised.
Qed.

Lemma handle_stage_spec m md infra policy w ctx stage queue s d : 0 <= md_retry_attempt md ->
  wc_retry_attempt ctx = md_retry_attempt md ->
  wpo (handle_stage c m md infra policy w ctx stage queue s d) (stage_trace m md infra policy).
Proof.
  intros Hpos Hctx. unfold handle_stage.
  apply wpo_calm_bind; [auto with relayna| |auto with relayna]. intros _.
  destruct (negb _); [by apply run_handler_spec|].
  apply wpo_ask_bind. intros now. apply wpo_call_bind; cbn [obs omap list_omap visible app];
    [|auto with relayna].
  intros [|]; cbn [negb].
  - apply wpo_ask_bind. intros u. by apply run_handler_spec.
  - apply wpo_calm_bind; [auto with relayna| |auto with relayna]. intros _.
    apply wpo_call_bind; [intros []|intros e]; cbn [obs omap list_omap visible app is_ok].
    + apply wpo_calm_bind; [auto with relayna| |intros; by apply sg_conflict]. intros _.
      apply wpo_calm_bind; [auto with relayna| |intros; by apply sg_conflict]. intros _.
      by apply sg_conflict.
    + by apply sg_conflict.
Qed.

Lemma silent_enter stage s w : silent (enter_dedup c stage s w).
Proof.
  unfold enter_dedup. destruct (negb _); [done|].
  apply silent_bind; [by apply silent_call|]. intros [|]; [|apply silent_lift].
  apply silent_bind; [|intros; apply silent_lift].
  unfold silent, wpo. rewrite wp_catch. intros [[]|e]; cbn; [done|].
  destruct (is_exception e); cbn; [|done]. by intros [[]|].
Qed.

Lemma handle_message_impl_spec m md stage queue infra policy : 0 <= md_retry_attempt md ->
  wpo (handle_message_impl c m md stage queue infra policy) (stage_trace m md infra policy).
Proof.
  intros Hpos. unfold handle_message_impl.
  assert (forall tid reason et, wpo (refuse c m md infra policy queue tid reason et)
    (stage_trace m md infra policy)) as Hrefuse.
  { intros. eapply wpo_mono; [by apply wf_refuse_spec|]. intros. by apply sg_refused. }
  destruct (parse_transport_json (m_body m)) as [payload|e]; [|apply Hrefuse].
  destruct (workflow_validate _) as [w|]; [|apply Hrefuse].
  apply wpo_lift_bind; [|auto with relayna]. intros [ce|] _; [apply Hrefuse|].
  apply wpo_calm_bind; [auto with relayna| |auto with relayna]. intros _.
  apply wpo_lift_bind; [|auto with relayna]. intros s _.
  destruct (dedup_key_fields s); [by apply handle_stage_spec|].
  apply wpo_bind. eapply wpo_mono; [apply silent_enter|]. intros l' [b|e] ->; [|apply sg_nil].
  destruct b; [by apply handle_stage_spec|apply Hrefuse].
Qed.

(** ** The delivery *)

(** An acknowledged trace without its acknowledgement. *)
Definition acknowledgeable (m : message) (infra : option RetryInfrastructure)
    (policy : option RetryPolicy) (l : list vis) : Prop :=
  (exists h, l = [VHandler h] /\ ho_result h = Ok tt) \/
  exists md x, extract_message_metadata m = Ok md /\
    ((forwarded m md infra policy false x /\ l = [VRaw x true]) \/
     exists h e, ho_result h = Raise e /\ forwarded m md infra policy true x /\
                 l = [VHandler h; VRaw x true]).

Definition accounted (m : message) (infra : option RetryInfrastructure)
    (policy : option RetryPolicy) (l : list vis) (r : result unit) : Prop :=
  (length (settlements l) <= 1)%nat /\
  (r = Ok tt -> exists v, settlements l = [v] /\ settled_ok v = true) /\
  (forall ok, VAck ok ∈ l -> exists pre, l = (pre ++ [VAck ok])%list /\ acknowledgeable m infra policy pre).

Lemma no_ack_unsettled l ok : unsettled l = true -> VAck ok ∉ l.
Proof.
  unfold unsettled. rewrite forallb_forall. intros Hu Hin. by apply list_elem_of_In, Hu in Hin.
Qed.

Lemma accounted_open m infra policy l e : unsettled l = true -> accounted m infra policy l (Raise e).
Proof.
  intros Hu. unfold accounted. rewrite unsettled_settlements by done.
  split; [cbn; lia|]. split; [done|]. intros ok Hin. by apply no_ack_unsettled in Hin.
Qed.

Lemma accounted_reject m infra policy l rq ok r : unsettled l = true -> (r = Ok tt -> ok = true) ->
  accounted m infra policy (l ++ [VReject rq ok]) r.
Proof.
  intros Hu Hr. unfold accounted. rewrite settlements_app, unsettled_settlements by done.
  split; [cbn; lia|]. split; [intros E; eexists; split; [done|]; by apply Hr|].
  intros ok' [Hin|Hin%list_elem_of_singleton]%elem_of_app; [|done].
  by apply no_ack_unsettled in Hin.
Qed.

Lemma accounted_ack m infra policy l ok r : unsettled l = true -> acknowledgeable m infra policy l ->
  (is_ok r = true -> ok = true) -> accounted m infra policy (l ++ [VAck ok]) r.
Proof.
  intros Hu Ha Hr. unfold accounted. rewrite settlements_app, unsettled_settlements by done.
  split; [cbn; lia|]. split; [intros ->; eexists; split; [done|]; by apply Hr|].
  intros ok' [Hin|Hin%list_elem_of_singleton]%elem_of_app; [by apply no_ack_unsettled in Hin|].
  injection Hin as ->. by exists l.
Qed.

(** Acting on the verdict of a stage. *)
Lemma act_on_verdict m infra policy l (r : result bool) :
  (forall e, r = Raise e -> accounted m infra policy l (Raise e)) ->
  (r = Ok false -> accounted m infra policy l (Ok tt)) ->
  (r = Ok true -> unsettled l = true /\ acknowledgeable m infra policy l) ->
  match r with
  | Ok acked => wpo (if acked : bool then call EAck else mret tt)
                  (fun l' r' => accounted m infra policy (l ++ l') r')
  | Raise e => accounted m infra policy l (Raise e)
  end.
Proof.
  intros He Hf Ht. destruct r as [[]|e]; [|by cbn; rewrite app_nil_r; apply Hf|by apply He].
  destruct (Ht eq_refl) as [Hu Ha]. apply ack_end. intros. by apply accounted_ack.
Qed.

(** What the verdict on a delivery entails for its trace. *)
Definition verdict (m : message) (infra : option RetryInfrastructure)
    (policy : option RetryPolicy) (l : list vis) (r : result bool) : Prop :=
  (forall e, r = Raise e -> accounted m infra policy l (Raise e)) /\
  (r = Ok false -> accounted m infra policy l (Ok tt)) /\
  (r = Ok true -> unsettled l = true /\ acknowledgeable m infra policy l).

Lemma verdict_open m infra policy l r : unsettled l = true ->
  (r = Ok true -> acknowledgeable m infra policy l) -> (is_ok r = true -> r = Ok true) ->
  verdict m infra policy l r.
Proof.
  intros Hu Ha Hr. unfold verdict. split_and!.
  - intros. by apply accounted_open.
  - intros ->. by specialize (Hr eq_refl).
  - auto.
Qed.

Lemma verdict_reject m infra policy l rq ok r : unsettled l = true ->
  (is_ok r = true -> ok = true /\ r = Ok false) ->
  verdict m infra policy (l ++ [VReject rq ok]) r.
Proof.
  intros Hu Hr. unfold verdict. split_and!.
  - intros. by apply accounted_reject.
  - intros ->. apply accounted_reject; [done|]. intros _. by apply Hr.
  - intros ->. by destruct (Hr eq_refl).
Qed.

(** A settlement after an unsettled prefix. *)
Lemma settles_verdict m md infra policy handled pre l r : unsettled pre = true ->
  settles m md infra policy handled l r ->
  (forall x, forwarded m md infra policy handled x ->
     acknowledgeable m infra policy (pre ++ [VRaw x true])) ->
  verdict m infra policy (pre ++ l) r.
Proof.
  intros Hp Hs Ha. destruct Hs as [l r Hu Hr|ok r Hpol Hr|x r Hx Hr].
  - apply verdict_open; [by rewrite unsettled_app, Hp, Hu|by intros ->|by rewrite Hr].
  - by apply verdict_reject.
  - apply verdict_open; [by rewrite unsettled_app, Hp|auto|done].
Qed.

Lemma stage_verdict m md infra policy l r : extract_message_metadata m = Ok md ->
  stage_trace m md infra policy l r -> verdict m infra policy l r.
Proof.
  intros Hmd [l0 r0 Hs|h r0 Hh Hr|h e l0 r0 Hh Hs|ok r0 Hr].
  - apply (settles_verdict _ md _ _ false []); [done..|]. intros x Hx. right. eauto 10.
  - apply verdict_open; [done| |done]. left. eauto.
  - apply (settles_verdict _ md _ _ true [_]); [done..|]. intros x Hx. right.
    exists md, x. split; [done|]. right. eauto 10.
  - by apply (verdict_reject _ _ _ []).
Qed.

(** C5. A workflow delivery is settled at most once, and once, successfully,
    when the loop goes on; an acknowledgement only follows a handler that
    succeeded or a publish of the body to the retry queue, with the attempt
    incremented and only while retries are left, or to the dead-letter queue. *)
Theorem workflow_delivery m stage queue infra policy :
  wpo (deliver c m stage queue infra policy) (accounted m infra policy).
Proof.
  unfold deliver, handle_message. apply wpo_bind, wpo_lift_bind; [|intros; by apply accounted_open].
  intros md Hmd. eapply wpo_mono.
  { apply handle_message_impl_spec. unfold extract_message_metadata in Hmd.
    apply result_bind_ok in Hmd as (a & Ha & [= <-]). by eapply retry_attempt_nonneg. }
  intros l r Hs. apply (stage_verdict _ _ _ _ _ _ Hmd) in Hs as (H1 & H2 & H3).
  by apply act_on_verdict.
Qed.

(** A lease store that fails loses the message: the deduplication key was
    taken and marked in flight, the exception leaves the handler before the
    block that releases them, and so the redelivered message finds its own key
    taken. *)
Theorem lease_error_leaks_dedup (world : world) past now e m md infra policy w ctx stage queue s :
  w_lease_enabled c && w_lease_store c = true -> w_metrics c = false ->
  (forall past, world past _ ENow = now) ->
  (forall past l, world past _ (ELeaseAcquire l) = Raise e) ->
  run world past (handle_stage c m md infra policy w ctx stage queue s true) =
  ([Ev ENow now; Ev (ELeaseAcquire (build_workflow_lease c now w ctx stage)) (Raise e)], Raise e) /\
  forall past, world past _ (EDedupAcquire stage (we_task_id w) (we_action w) (we_payload w)
                               (dedup_key_fields s)) = Ok false ->
    w_contract_store c = true ->
    (run world past (enter_dedup c stage s w)).2 = Ok false.
Proof.
  intros Hl Hm Hnow Hacq. split.
  - unfold handle_stage, metric. rewrite Hm, Hl. cbn [whenM negb].
    rewrite run_bind. cbn [run fst snd mret M_ret app]. rewrite app_nil_r.
    rewrite run_bind, run_ask, Hnow. cbn [fst snd].
    rewrite run_bind, run_call, Hacq. done.
  - intros past' Hd Hs. unfold enter_dedup. rewrite Hs. cbn [negb].
    rewrite run_bind, run_call, Hd. done.
Qed.

End spec.

(** ** Witnesses *)

Definition demo_workflow_consumer : WorkflowConsumer :=
  {| w_topology := plain_topology; w_stage := Some "plan"; w_queue_name := None; w_name := "worker";
     w_retry_policy := Some demo_policy;
     w_retry_statuses := {| rs_enabled := false; retrying_status := "retrying";
       dead_lettered_status := "failed"; rs_include_error_message := true |};
     w_sink := false; w_dlq_store := false; w_metrics := false; w_alias_config := None;
     w_contract_store := true; w_lease_store := true; w_lease_enabled := true;
     w_lease_ttl := 60000000; w_lease_recovery := OBSERVE_ONLY; w_lease_owner_id := "worker" |}.

Definition demo_workflow_context : WorkflowContext :=
  {| wc_consumer_name := "worker"; wc_stage := "plan"; wc_raw_payload := [];
     wc_correlation_id := None; wc_delivery_tag := None; wc_redelivered := false;
     wc_task_id := "task-1"; wc_message_id := "message-1"; wc_origin_stage := None;
     wc_retry_attempt := 0; wc_max_retries := Some 3; wc_source_queue_name := Some "plan.q";
     wc_headers := [] |}.

(** Redis is down for leases, and the key of the message is already taken. *)
Definition failing_lease_world : world := fun past X e =>
  match e in eff X return X with
  | ELeaseAcquire _ => Raise boom
  | EDedupAcquire _ _ _ _ _ => Ok false
  | e' => demo_world succeeding (Ok tt) past _ e'
  end.

Lemma lease_error_leaks_dedup_witness :
  (run failing_lease_world [] (handle_stage demo_workflow_consumer (demo_message [])
     (demo_metadata [] 0) None None demo_workflow demo_workflow_context "plan" "plan.q"
     (demo_stage "plan" "plan.q" []) true)).2 = Raise boom /\
  (run failing_lease_world [] (enter_dedup demo_workflow_consumer "plan"
     (demo_stage "plan" "plan.q" []) demo_workflow)).2 = Ok false.
Proof.
  destruct (lease_error_leaks_dedup demo_workflow_consumer failing_lease_world [] 0 boom
    (demo_message []) (demo_metadata [] 0) None None demo_workflow demo_workflow_context "plan" "plan.q"
    (demo_stage "plan" "plan.q" [])) as [-> H]; [reflexivity..|].
  split; [reflexivity|]. apply H; reflexivity.
Defined.

End WorkflowSpec.
